(* ===== verification/_CoqProject ===== *)
-Q . S2P
Prelude.v
FunkKernel.v
FunkRegs.v
FunkTask.v
FunkRing.v
FunkExample.v
FunkSched.v
FunkWait.v
FunkSemaphore.v
FunkMutex.v
FunkMessage.v
FunkHeap.v
FunkTimer.v
FunkWatchdog.v
FunkPort.v
FunkDriver.v
FunkCoopDriver.v
FunkRTC.v
FunkPTask.v
FunkPipsqueak.v
FunkPlumber.v
FunkUart.v
FunkUoled.v
FunkDraw.v
FunkFat32.v
FunkFooey.v
FunkWidgets.v
CubFloat.v
NuttxUpper.v
NuttxTimer.v
NuttxServo.v
NuttxAdc.v
NuttxString.v
NuttxRange.v
NuttxI2c.v
CubControl.v
CubWalk.v
CubSensors.v
CubThread.v
CubShell.v
ServodPulse.v
ServodRing.v
ServodCmd.v
ServodLine.v
ServodStart.v
ServodPins.v
ServodStop.v
ServodMain.v
AdaRuntime.v
