(* ===== verification/Prelude.v ===== *)
(** * Verification of the myCub firmware

    myCub is a robot whose C and C++ code has five parts with logic of their
    own, which this library models and verifies.  In its firmware
    (src/firmware): FunkOS, a preemptive real-time kernel for the ATmega328p
    with its services, device drivers and user interface
    (src/firmware/funkos); the myCub drivers for
    the LM4F120 board on NuttX (src/firmware/nuttx): servos, ultrasonic range
    sensors, analog inputs, the I2C master and the timer library; the
    myCub application on top of them (src/firmware/apps/system/myCub): joint
    controllers, walking, sensors and the command interpreter; and the C
    functions of the Ada controller (src/firmware/ADA/ravenscar/main.c).  On
    the Raspberry Pi: the servo daemon servod
    (src/main/components/servoBlaster/servod.c), which makes the pulses of up
    to 32 servos with a ring of DMA control blocks and takes its commands
    from a device file.

    ** How the code is modelled

    Every C function is a Rocq function of the same name on an explicit
    state.  C objects reached through pointers live in finite maps from
    addresses (task control blocks, drivers, pipes, queues, widgets), a
    pointer is an optional address, arrays are lists with checked indices,
    and unsigned integers are [Z] reduced modulo their width at every store
    ([u8], [u16], [u32]); signed 16-bit arithmetic of the AVR is checked by
    [int16].  A function whose C text can go wrong (null or wild pointer,
    index out of bounds, null function pointer, division by zero, signed
    overflow, use of an uninitialised variable) returns in the error monad
    [res]; the [Fault] says what went wrong.  Loops that are not over a fixed
    index range take a bound; the theorems show that the bound given by the
    callers is enough, so [OutOfFuel] never is an excuse.  Where a theorem
    covers inputs on which the code faults, it names the fault and the inputs
    that lead to it.  A read past an array whose outcome the code goes on
    with (servostart in init_ctrl_data) is a parameter that may be a fault or
    a word.  Functions of user
    code reached through function pointers (handlers, callbacks, driver
    functions, the pixel function of a display) and the answers of hardware
    (echo pin, timer readings, converter, I2C bus, serial line, bytes of the
    memory card) are parameters.

    ** Files

    - Prelude: faults, the monad, machine words, memory and array access,
      loops over index ranges, the lemmas and tactics the rest shares.
    - FunkKernel: control block and kernel globals (kernel/task.h,
      kernel/atmega328p/taskport.c), software interrupt (kernelswi.c), the
      initial stack frame of a task.
    - FunkRegs: the timer and interrupt registers of the processor
      (atmega328p/kerneltimer.c, kernelswi.c).
    - FunkTask: the functions of kernel/task.c.
    - FunkRing: the circular scheduler list as a list segment, and the loops
      of task.c evaluated on it.
    - FunkExample: a concrete kernel for the examples.
    - FunkSched: what the scheduler does (C1 to C4).
    - FunkWait: the wait lists that kernel/semaphore.c and kernel/mutex.c
      share, over the interface [WaitObj].
    - FunkSemaphore (C5), FunkMutex (C6, C7), FunkMessage (C8):
      kernel/semaphore.c, mutex.c, message.c.  The functions that block are
      split at their context switch; what other tasks do in between is a
      parameter or a step of a transition system.
    - FunkHeap (C9, C10), FunkTimer, FunkWatchdog, FunkDriver:
      kernel/heap.c, timer.c, watchdog.c, driver.c.
    - FunkPort (C27): context save and restore on the stack, tick
      interrupt and start of the scheduler (atmega328p/taskport.c, .h).
    - FunkRTC, FunkPlumber: modules/services/rtc.c, plumber.c.
    - FunkPTask (C37): modules/cooperative/ptask.c.
    - FunkPipsqueak: modules/pipsqueak/pipsqueak.c.
    - FunkCoopDriver: modules/cooperative/driver.c, equivalent to the kernel's
      driver layer without its locks.  heap.c and timer.c of that directory
      have the text of those in kernel/ and are modelled by FunkHeap and
      FunkTimer.
    - FunkUart (C35): drivers/serial/uart_async.c, its two rings and its
      interrupt handlers.
    - FunkUoled (C36): drivers/display/drvUOLED.c, the byte protocol of the
      uOLED display.
    - FunkDraw (C34): modules/graphics/draw.c and font.c.
    - FunkFat32 (C28, C29): drivers/fat32/drvFAT32.c.
    - FunkFooey (C30, C31): modules/graphics/fooey.c, the manager of widgets
      and events, over the functions of the widgets as parameters.
    - FunkWidgets (C32, C33): modules/graphics/widgets, the seven kinds of
      widgets, which draw with FunkDraw and instantiate FunkFooey.
    - CubFloat: the floating point operations of the application, on the
      binary64 and binary32 arithmetic of the Standard Library.
    - NuttxUpper: registers, locks and call log of the LM4F120, the timer
      functions the drivers use (board_driver/timer.c), and the open, close
      and register functions that the three character drivers share, over any
      lower half that meets the class [QuietLower].
    - NuttxTimer: the other functions of board_driver/timer.c.
    - NuttxServo (C38): drivers/servo.c and up_servo.c.
    - NuttxString: the functions of libc/string that the application uses,
      on byte buffers.
    - NuttxRange (C39): drivers/sensors/range_srf04.c and
      up_range_srf04.c.
    - NuttxAdc: drivers/analog/adc_lm4f.c and up_adc.c.
    - NuttxI2c: up_i2c.c.
    - CubControl (C11, C12): the four controller threads and their
      clients (lib/mycub_interface.cpp), a step function per thread over the
      servo driver of NuttxServo.
    - CubWalk (C13, C14): the walker thread (lib/mycub_walk.cpp) as a program
      of commands to the controllers.
    - CubSensors (C15): range, battery and compass
      (lib/mycub_interface.cpp, mycub_compass.cpp) over the drivers.
    - CubThread: the threads of lib/nxobjects.
    - CubShell (C16): the command interpreter (myCub.cpp), which composes all
      of them.
    - ServodPulse: of servod.c the pins, the masks and the widths (gpio_set,
      gpio_set_mode, set_servo, set_servo_idle, update_idle_time), the control
      blocks (init_ctrl_data, mem_virt_to_phys), and the DMA controller that
      runs through them while [set_servo] makes its stores, each of which is a
      step of its own.
    - ServodRing (C19, C20, C21): the pulses that the ring makes.
    - ServodCmd (C22, C25): get_next_idle_timeout, parse_width, do_debug and
      the command loop go_go_go, over strtod, sscanf and binary64 arithmetic.
    - ServodLine (C18, C26): what a line does, from its characters to the
      pulses, and what the units of a width mean.
    - ServodStart: the command line and its checks, board_rev,
      parse_pin_lists, parse_min_max_arg, gpio2pinname, make_pagemap.
    - ServodPins (C24): the tables that the pin lists give.
    - ServodStop (C23): terminate, as the handler of a signal that may
      interrupt [set_servo] between any two of its stores.
    - ServodMain (C17): init_hardware and main, which composes all of these.
    - AdaRuntime (C40): __gnat_mulv64, get_current_interrupt, combine and
      servo_setpos of the Ada controller, the last shown to set the same
      pulse as the servo driver of NuttxServo.

    ** What the theorems show

    Scheduling: insertion and removal keep the ring; a switch selects a
    ready task of the highest priority, round robin among equals; sleeping
    and blocked tasks wake on the right tick, but for sleeps of 0 ticks, which
    never end.  Synchronisation: invariants
    of semaphores and mutexes over all interleavings of their steps, mutual
    exclusion, hand-over to the most urgent waiter, message queues as
    mailboxes.  Memory: allocations never overlap, nothing leaks, best fit.
    Context switch: saved and restored contexts agree, new tasks enter their
    function with its argument, starting the scheduler sets up the tick and
    enters the most urgent ready task.  Files: mounting finds the volume,
    reading an open file yields the bytes along its chain of clusters, and every
    command faults in one of three stated cases or keeps the driver state well
    formed.  Graphics: lines
    are those of the reference Bresenham algorithm, rectangles, circles,
    bitmaps and text paint exactly their pixels.  User interface: rendering
    draws every control that asks for it and ends, events are delivered in
    order, at most one control has the focus, radio buttons exclude each
    other.  Serial line: the transmit ring refines a bounded queue, and the
    commands of the display can be read back from the bytes sent, however
    often the display makes the driver repeat them.  Time: periodic timers,
    the tick of the watchdog, exact calendar arithmetic.
    Cooperative kernels: event queues refine a FIFO, events run by priority.
    Drivers: pulse widths and lock discipline of the servo driver, open
    counts, termination and accuracy of the echo measurement, the text of
    the range report, the samples of the converter, the command sequence on
    the I2C bus, readings of the 64-bit counters in one piece.  Application:
    in every interleaving of controllers and clients the joints stay within
    their range, a command is carried out position by position, a walk never
    fails, loses no command, cannot deadlock and can be stopped, distances
    and magnetic fields arrive as the sensors sent them, and a line typed at
    the prompt becomes the command it spells.  Servo daemon: the control
    blocks make the controller do the operations of the samples for ever, each
    servo is active for exactly the width last set in every cycle, a pulse that
    is made wider has the old or the new width in every interleaving of
    processor and controller, no input of lines up to 63 characters makes the
    command loop fault unless the idle timeout is longer than 2146 seconds,
    when the time left to a servo may overflow, a command line of usable pins
    and checked parameters reaches that loop in a state that satisfies its
    invariant unless its read past an array goes wrong, idle servos are turned
    off in time, and termination, also in the middle of a command, leaves every
    pin inactive when the cycle is shorter than a second.  Ada controller: the
    checked multiplication is exact where it detects overflow.  Further
    theorems show where the code departs from what it means to do: lost
    waiters and posts, an orphaned mutex,
    the ignored message queue size, the inverted test of the watchdog table,
    unreachable block sizes, buffer overruns, the lost first character of
    the serial port, interrupt flags that are never cleared, a timer that
    does not stop, endless counting loops at the edge of 16 bits, leaked
    locks, endless long transfers, moves that stop one short of their target,
    lost commands, a synchronous command that never returns, a failed
    initialisation that hangs, threads that cannot be stopped, pulses that are
    cut off when they are made narrower, a pin list that is read twice, an
    idle time that overflows.

    ** Bounds

    Walks of the scheduler ring are bounded by the number of control blocks
    plus one ([ring_fuel]), wait lists likewise, the list of a port by the
    number of pipes plus one, [RTC_AddTime] by 66 turns (65535 ticks are at
    most 65 seconds), the cooperative loop by the number of pending events
    plus one, a wait of [pulse_in] by 50000000 turns (the timeout in clock
    ticks, one at least passing per turn), the sampling loop by half the
    buffer length, an I2C transfer by its length.  The drawing functions
    take their bound as an argument; their theorems ask for 65535 or 65536
    turns of a loop that counts in 16 bits and for 16383 points of a line,
    beyond which the 16-bit arithmetic overflows.  The polls of the display
    line are bounded by the number of polls within which the line is
    supposed to answer, and by 256 for the bytes of a string.  The manager of
    the interface counts in 16 bits too, and the walk from a widget to its
    outermost surface is bounded by the depth of the nesting.  A move of a
    joint over d positions takes 2d + 6 steps of its controller.  The waits
    of the application for its own threads (stopController, the main loop)
    take a bound; that no bound suffices is what the theorems on the hanging
    calls show.  In the servo daemon the loop over a pin list is bounded by
    the length of its text, the search for the board revision by the length
    of the file, the carry of microseconds by two turns (less than a second
    is added to less than a second), the search for the next servo by 32.  Its
    clock is taken to end an hour before the 32 bits of the seconds do.

    ** Not modelled

    The NuttX kernel, its other libraries and applications and the vendor
    peripheral library apart from the timer functions (third-party code; its
    calls from the drivers are logged or are parameters); lib/mycub_fun.cpp,
    which is not built; of the interpreter the SIGUSR1 handler and the
    destructors at the end of main; the Ada sources of the Ada controller and
    the vendor library beside them; up_pwm.c of the board, whose functions do
    nothing; the C++ host application apart from the servo daemon.  Of the
    daemon: the system calls that map the registers and the pages, make the
    device file and detach the process, which are taken to succeed (page
    addresses, the contents of /proc/cpuinfo and what the memory holds before
    are arguments), the call of terminate from a fatal error, which the model
    only reports, and the pauses between the writes to hardware registers.
    Of FunkOS: the HD44780 driver, which does not
    compile (an undeclared variable, a value returned from a void function);
    the Arduino wiring functions and the example projects; kernelwdt.c, whose
    function bodies are commented out; the glyph tables of font_table.c,
    which are data and an argument of the drawing functions.
    Interrupts are disabled around the critical sections of the code, so a
    function between its context switches is one atomic step of the model.
    The character functions of uart_async.c have no critical section; they are
    atomic steps all the same, so an interrupt inside them is not covered. *)

From stdpp Require Export base tactics list gmap numbers option strings.

#[export] Set Default Goal Selector "!".

(** ** Faults and the error monad *)

(** What can go wrong in the C code: the undefined behaviours the model
    tracks, and exhaustion of a loop bound of the model itself. *)
Inductive fault : Type :=
  | NullDeref        (* access through a null pointer *)
  | WildDeref        (* access through a pointer to no object *)
  | OutOfBounds      (* array index outside the array *)
  | NullCall         (* call through a null function pointer *)
  | DivByZero        (* integer division by zero *)
  | Overflow         (* signed integer overflow *)
  | Uninit           (* use of a variable that was never assigned *)
  | Blocked          (* waits for another task *)
  | OutOfFuel.       (* the loop did not finish within the bound *)

#[export] Instance fault_eq_dec : EqDecision fault.
Proof. solve_decision. Defined.

Inductive res (A : Type) : Type :=
  | Ok (a : A)
  | Fault (f : fault).
Arguments Ok {A} a.
Arguments Fault {A} f.

#[export] Instance res_ret : MRet res := fun A a => Ok a.
#[export] Instance res_bind : MBind res := fun A B k m =>
  match m with Ok a => k a | Fault f => Fault f end.

Declare Scope fw_scope.
Delimit Scope fw_scope with fw.

(** ** Machine words

    An unsigned w-bit C object holds an integer of [0, 2^w); every store
    reduces modulo 2^w.  On the AVR target [int] has 16 bits. *)
(** [lia] for goals with division and remainder by constants. *)
Ltac dlia := Z.to_euclidean_division_equations; lia.

Definition u8 (z : Z) : Z := z `mod` 256.
Definition u16 (z : Z) : Z := z `mod` 65536.
Definition u32 (z : Z) : Z := z `mod` 4294967296.

(** A value converted to a signed 16-bit object, and the result of signed
    16-bit arithmetic, which must not overflow. *)
Definition s16 (z : Z) : Z := (z + 32768) `mod` 65536 - 32768.
Definition int16 (z : Z) : res Z :=
  if (-32768 <=? z)%Z && (z <=? 32767)%Z then Ok z else Fault Overflow.

Lemma u8_range z : (0 <= u8 z < 256)%Z.
Proof. unfold u8. dlia. Qed.
Lemma u16_range z : (0 <= u16 z < 65536)%Z.
Proof. unfold u16. dlia. Qed.
Lemma u32_range z : (0 <= u32 z < 4294967296)%Z.
Proof. unfold u32. dlia. Qed.
Lemma u8_small z : (0 <= z < 256)%Z → u8 z = z.
Proof. apply Z.mod_small. Qed.
Lemma u16_small z : (0 <= z < 65536)%Z → u16 z = z.
Proof. apply Z.mod_small. Qed.
Lemma u32_small z : (0 <= z < 4294967296)%Z → u32 z = z.
Proof. apply Z.mod_small. Qed.
Lemma s16_small z : (-32768 <= z <= 32767)%Z → s16 z = z.
Proof. unfold s16. dlia. Qed.
Lemma int16_ok z : (-32768 <= z <= 32767)%Z → int16 z = Ok z.
Proof.
  intros []. unfold int16.
  by rewrite (proj2 (Z.leb_le _ _) H), (proj2 (Z.leb_le _ _) H0).
Qed.

(** Bit fields put side by side: [a] below bit [n], [b] above. *)
Lemma lor_shift a b n : (0 <= n)%Z → (0 <= a < 2 ^ n)%Z →
  Z.lor a (Z.shiftl b n) = (a + b * 2 ^ n)%Z.
Proof.
  intros Hn Ha. rewrite <- Z.shiftl_mul_pow2 by done.
  rewrite <- (Z.add_lor_land a (Z.shiftl b n)).
  assert (Z.land a (Z.shiftl b n) = 0%Z) as ->; [|lia].
  apply Z.bits_inj'. intros i Hi. rewrite Z.land_spec, Z.bits_0.
  destruct (Z.ltb_spec i n).
  - rewrite Z.shiftl_spec_low by done. apply andb_false_r.
  - rewrite <- (Z.mod_small a (2 ^ n)) by done. by rewrite Z.mod_pow2_bits_high by lia.
Qed.

Lemma lor_bound a b n : (0 <= n)%Z → (0 <= a < 2 ^ n)%Z → (0 <= b < 2 ^ n)%Z →
  (0 <= Z.lor a b < 2 ^ n)%Z.
Proof.
  intros Hn Ha Hb.
  assert (Z.lor a b = Z.lor a b `mod` 2 ^ n)%Z as ->.
  { rewrite <- Z.land_ones by done. rewrite Z.land_lor_distr_l, !Z.land_ones by done.
    by rewrite !Z.mod_small. }
  apply Z.mod_pos_bound. lia.
Qed.

(** ** Pointers and arrays

    The objects of one C struct type live in a finite map from addresses;
    a pointer is an optional address, [None] being the null pointer. *)
Abbreviation ptr := (option nat).
Abbreviation NULL := (@None nat).

Definition deref {A} (m : gmap nat A) (p : ptr) : res A :=
  match p with
  | None => Fault NullDeref
  | Some a => match m !! a with Some x => Ok x | None => Fault WildDeref end
  end.

(** [p->field = v] for the update [f] of the object [p] points to. *)
Definition assign {A} (m : gmap nat A) (p : ptr) (f : A → A) : res (gmap nat A) :=
  match p with
  | None => Fault NullDeref
  | Some a => match m !! a with
              | Some x => Ok (<[a := f x]> m)
              | None => Fault WildDeref
              end
  end.

(** [a[i]] and [a[i] = x] with the bounds of the array. *)
Definition aget {A} (l : list A) (i : Z) : res A :=
  if decide (0 <= i)%Z
  then match l !! Z.to_nat i with Some x => Ok x | None => Fault OutOfBounds end
  else Fault OutOfBounds.

Definition aset {A} (l : list A) (i : Z) (x : A) : res (list A) :=
  if decide (0 <= i < Z.of_nat (length l))%Z
  then Ok (<[Z.to_nat i := x]> l)
  else Fault OutOfBounds.

(** [for (i in l) body], the state threaded and the first fault kept. *)
Fixpoint forM {A S} (l : list A) (body : A → S → res S) (s : S) : res S :=
  match l with
  | [] => Ok s
  | a :: l' => s' ← body a s; forM l' body s'
  end.

(** [for (i in idx) if (P(a[i])) { use i; break; }]: the first index whose
    element satisfies [P], with the element. *)
Fixpoint search {A} (P : A → bool) (a : list A) (idx : list Z) : res (option (Z * A)) :=
  match idx with
  | [] => Ok None
  | i :: idx =>
      x ← aget a i;
      if P x then Ok (Some (i, x)) else search P a idx
  end.

(** ** Lemmas of the monad *)

Lemma bind_ok_iff {A B} (m : res A) (k : A → res B) b :
  (m ≫= k) = Ok b ↔ ∃ a, m = Ok a ∧ k a = Ok b.
Proof. destruct m; split; [eauto|naive_solver|done|naive_solver]. Qed.

Lemma bind_ok {A B} (a : A) (k : A → res B) : (Ok a ≫= k) = k a.
Proof. done. Qed.

Lemma bind_fault {A B} (f : fault) (k : A → res B) : (Fault f ≫= k) = Fault f.
Proof. done. Qed.

Lemma deref_some {A} (m : gmap nat A) a x :
  m !! a = Some x → deref m (Some a) = Ok x.
Proof. intros H. unfold deref. by rewrite H. Qed.

Lemma deref_ok_inv {A} (m : gmap nat A) p x :
  deref m p = Ok x → ∃ a, p = Some a ∧ m !! a = Some x.
Proof. unfold deref. intros. repeat case_match; naive_solver. Qed.

Lemma assign_some {A} (m : gmap nat A) a x f :
  m !! a = Some x → assign m (Some a) f = Ok (<[a := f x]> m).
Proof. intros H. unfold assign. by rewrite H. Qed.

Lemma assign_ok_inv {A} (m m' : gmap nat A) p f :
  assign m p f = Ok m' →
  ∃ a x, p = Some a ∧ m !! a = Some x ∧ m' = <[a := f x]> m.
Proof. unfold assign. intros. repeat case_match; naive_solver. Qed.

Lemma aget_some {A} (l : list A) i x :
  l !! i = Some x → aget l (Z.of_nat i) = Ok x.
Proof.
  intros H. unfold aget. rewrite decide_True by lia.
  by rewrite Nat2Z.id, H.
Qed.

Lemma aset_some {A} (l : list A) i x :
  i < length l → aset l (Z.of_nat i) x = Ok (<[i := x]> l).
Proof.
  intros H. unfold aset. rewrite decide_True by lia. by rewrite Nat2Z.id.
Qed.

(** The same with an integer index in range. *)
Lemma aset_in {A} (l : list A) (i : Z) x :
  (0 <= i < Z.of_nat (length l))%Z → aset l i x = Ok (<[Z.to_nat i := x]> l).
Proof. intros H. unfold aset. by rewrite decide_True. Qed.

Lemma aget_in {A} (l : list A) (i : Z) x :
  (0 <= i)%Z → l !! Z.to_nat i = Some x → aget l i = Ok x.
Proof. intros Hi H. unfold aget. by rewrite decide_True, H. Qed.

Lemma aget_ok_inv {A} (l : list A) i x :
  aget l i = Ok x → (0 <= i)%Z ∧ l !! Z.to_nat i = Some x.
Proof. unfold aget. intros. repeat case_match; naive_solver. Qed.

Lemma aset_ok_inv {A} (l l' : list A) i x :
  aset l i x = Ok l' → (0 <= i < Z.of_nat (length l))%Z ∧ l' = <[Z.to_nat i := x]> l.
Proof. unfold aset. intros. repeat case_match; naive_solver. Qed.

Lemma forM_app {A S} (l1 l2 : list A) (body : A → S → res S) s :
  forM (l1 ++ l2) body s = forM l1 body s ≫= forM l2 body.
Proof.
  revert s. induction l1 as [|a l1 IH]; intros s; [done|].
  simpl. destruct (body a s); simpl; [apply IH|done].
Qed.

Lemma forM_ext {A S} (l : list A) (f g : A → S → res S) s :
  (∀ a s, f a s = g a s) → forM l f s = forM l g s.
Proof.
  intros H. revert s. induction l as [|a l IH]; intros s; [done|].
  simpl. rewrite H. destruct (g a s); simpl; [apply IH|done].
Qed.

Lemma forM_ext_in {A S} (l : list A) (f g : A → S → res S) s :
  (∀ a s, a ∈ l → f a s = g a s) → forM l f s = forM l g s.
Proof.
  revert s. induction l as [|a l IH]; intros s H; [done|].
  simpl. rewrite H by set_solver. destruct (g a s); simpl; [apply IH; set_solver|done].
Qed.

(** A total body never faults: the loop is a fold. *)
Lemma forM_total {A S} (l : list A) (body : A → S → res S) (f : S → A → S) s :
  (∀ a s, a ∈ l → body a s = Ok (f s a)) →
  forM l body s = Ok (foldl f s l).
Proof.
  revert s. induction l as [|a l IH]; intros s H; [done|].
  simpl. rewrite H by set_solver. apply IH. set_solver.
Qed.

(** A loop whose body keeps [P] and never faults. *)
Lemma forM_inv {A S} (P : S → Prop) (l : list A) (body : A → S → res S) s :
  (∀ a s, a ∈ l → P s → ∃ s', body a s = Ok s' ∧ P s') →
  P s → ∃ s', forM l body s = Ok s' ∧ P s'.
Proof.
  intros Hb. revert s. induction l as [|a l IH]; intros s Hs; [by exists s|].
  cbn [forM]. destruct (Hb a s) as (s1 & -> & Hs1); [set_solver|done|].
  rewrite bind_ok. apply IH; [|done]. intros. apply Hb; [set_solver|done].
Qed.

Lemma aget_app {A} (l1 l2 : list A) x :
  aget (l1 ++ x :: l2) (Z.of_nat (length l1)) = Ok x.
Proof. apply aget_some. by rewrite list_lookup_middle. Qed.

Lemma seqZ_cons' m (n : nat) : seqZ m (Z.of_nat (S n)) = m :: seqZ (m + 1) (Z.of_nat n).
Proof.
  rewrite seqZ_cons by lia. f_equal. f_equal; lia.
Qed.

(** A loop over the indices of an array it does not change is a loop over
    its elements. *)
Lemma forM_index {A S} (l1 l2 : list A) (body : A → S → res S) s :
  forM (seqZ (Z.of_nat (length l1)) (Z.of_nat (length l2)))
    (λ i s, x ← aget (l1 ++ l2) i; body x s) s = forM l2 body s.
Proof.
  revert l1 s. induction l2 as [|x l2 IH]; intros l1 s; [done|].
  cbn [length]. rewrite seqZ_cons'. cbn [forM]. rewrite aget_app, bind_ok.
  destruct (body x s) as [s'|f]; [|done]. rewrite !bind_ok.
  specialize (IH (l1 ++ [x]) s'). rewrite <- app_assoc, length_app in IH. cbn in IH.
  by replace (Z.of_nat (length l1) + 1)%Z with (Z.of_nat (length l1 + 1)) by lia.
Qed.

Lemma forM_array {A S} (l : list A) (body : A → S → res S) s :
  forM (seqZ 0 (Z.of_nat (length l))) (λ i s, x ← aget l i; body x s) s = forM l body s.
Proof. exact (forM_index [] l body s). Qed.

(** Searching a whole array finds what [list_find] finds. *)
Lemma search_suffix {A} (P : A → bool) (l1 l2 : list A) :
  search P (l1 ++ l2) (seqZ (Z.of_nat (length l1)) (Z.of_nat (length l2)))
  = Ok (prod_map (λ i, Z.of_nat (length l1 + i)) id <$> list_find P l2).
Proof.
  revert l1. induction l2 as [|x l2 IH]; intros l1; [done|].
  cbn [length]. rewrite seqZ_cons'. cbn [search]. rewrite aget_app, bind_ok.
  cbn [list_find]. destruct (P x) eqn:E.
  - rewrite decide_True by naive_solver. cbn. by rewrite Nat.add_0_r.
  - rewrite decide_False by naive_solver.
    specialize (IH (l1 ++ [x])). rewrite <- app_assoc, length_app in IH. cbn in IH.
    replace (Z.of_nat (length l1) + 1)%Z with (Z.of_nat (length l1 + 1)) by lia.
    rewrite IH. f_equal. destruct (list_find P l2) as [[i y]|]; cbn; [|done].
    do 2 f_equal. lia.
Qed.

Lemma search_list_find {A} (P : A → bool) (l : list A) :
  search P l (seqZ 0 (Z.of_nat (length l))) = Ok (prod_map Z.of_nat id <$> list_find P l).
Proof. apply (search_suffix P []). Qed.

Lemma search_found {A} (P : A → bool) (l : list A) i x :
  l !! i = Some x → P x = true → (∀ j y, l !! j = Some y → (j < i)%nat → P y = false) →
  search P l (seqZ 0 (Z.of_nat (length l))) = Ok (Some (Z.of_nat i, x)).
Proof.
  intros Hx HP Hj. rewrite search_list_find.
  assert (list_find P l = Some (i, x)) as ->; [|done].
  apply list_find_Some. split; [done|]. split; [by rewrite HP|].
  intros j y Hy Hlt. rewrite (Hj j y Hy Hlt). naive_solver.
Qed.

Lemma search_none {A} (P : A → bool) (l : list A) :
  (∀ x, x ∈ l → P x = false) → search P l (seqZ 0 (Z.of_nat (length l))) = Ok None.
Proof.
  intros Hl. rewrite search_list_find.
  assert (list_find P l = None) as ->; [|done].
  apply list_find_None, Forall_forall. intros x Hx. rewrite (Hl x Hx). naive_solver.
Qed.

(** What the search answers, as a case split. *)
Lemma search_cases {A} (P : A → bool) (l : list A) :
  (search P l (seqZ 0 (Z.of_nat (length l))) = Ok None ∧ ∀ x, x ∈ l → P x = false) ∨
  (∃ i x, search P l (seqZ 0 (Z.of_nat (length l))) = Ok (Some (Z.of_nat i, x)) ∧
     l !! i = Some x ∧ P x = true ∧ ∀ j y, l !! j = Some y → (j < i)%nat → P y = false).
Proof.
  rewrite search_list_find. destruct (list_find P l) as [[i x]|] eqn:E; [right|left].
  - apply list_find_Some in E as (? & HP & Hj). exists i, x. split; [done|]. split; [done|].
    split; [by destruct (P x)|]. intros j y Hy Hlt. specialize (Hj j y Hy Hlt). destruct (P y); naive_solver.
  - split; [done|]. apply list_find_None in E. rewrite Forall_forall in E.
    intros x Hx. specialize (E x Hx). destruct (P x); naive_solver.
Qed.

(** ** Automation *)

Create HintDb fw.
Create Rewrite HintDb fw.
#[export] Hint Resolve u8_range u16_range u32_range : fw.
#[export] Hint Rewrite @bind_ok @bind_fault : fw.

(** Peels a hypothesis [_ ← m; k = Ok _] into its steps. *)
Ltac inv_ok :=
  repeat match goal with
  | H : (_ ≫= _) = Ok _ |- _ =>
      apply bind_ok_iff in H; destruct H as (? & ? & H)
  | H : Ok _ = Ok _ |- _ => injection H as H; subst
  | H : Fault _ = Ok _ |- _ => discriminate H
  | H : Ok _ = Fault _ |- _ => discriminate H
  end.

(** Turns the boolean integer tests of the code into propositions. *)
Ltac zb :=
  repeat match goal with
  | H : (_ && _) = true |- _ => apply andb_prop in H; destruct H
  | H : (_ =? _)%Z = true |- _ => apply Z.eqb_eq in H
  | H : (_ =? _)%Z = false |- _ => apply Z.eqb_neq in H
  | H : (_ <? _)%Z = true |- _ => apply Z.ltb_lt in H
  | H : (_ <? _)%Z = false |- _ => apply Z.ltb_ge in H
  | H : (_ <=? _)%Z = true |- _ => apply Z.leb_le in H
  | H : (_ <=? _)%Z = false |- _ => apply Z.leb_gt in H
  | H : bool_decide _ = true |- _ => apply bool_decide_eq_true in H
  | H : bool_decide _ = false |- _ => apply bool_decide_eq_false in H
  end.

(** Evaluates the left-hand side of [l = ?x] and fixes [?x] to its value. *)
Ltac run_eq :=
  match goal with
  | |- ?l = _ => let v := eval vm_compute in l in refine (_ : l = v); vm_compute; reflexivity
  end.
