(* ===== verification/FunkKernel.v ===== *)
(** * FunkOS: kernel state and the AVR port

    The data of the preemptive kernel (kernel/task.h, kernel/types.h), the
    global variables of kernel/task.c and kernel/atmega328p/taskport.c
    gathered in one record, the software interrupt that requests a context
    switch (kernel/atmega328p/kernelswi.c) and the initial stack frame of a
    task (kernel/atmega328p/taskport.c). *)
From S2P Require Import Prelude.

Open Scope Z_scope.

(** ** Data *)

Inductive TASK_STATE : Type :=
  | TASK_UNINIT | TASK_READY | TASK_BLOCKED | TASK_SLEEP
  | TASK_STOPPED | TASK_TIMEOUT.

#[export] Instance TASK_STATE_eq_dec : EqDecision TASK_STATE.
Proof. solve_decision. Defined.

Definition TIME_FOREVER : Z := 65535.
Definition TASK_PRI_MAX : Z := 255.

(** The task control block.  Function and stack pointers are 16-bit data
    addresses; [pstNext] links the scheduler's circular list and
    [pstNextList] the wait list of one semaphore or mutex. *)
Record TASK_STRUCT : Type := mkTask {
  pwTopStack : Z;
  pwStack : Z;
  usStackSize : Z;
  usStackMargin : Z;
  pacName : string;
  pfTaskFunc : Z;
  ucPriority : Z;
  eState : TASK_STATE;
  usTimeLeft : Z;
  usQuantum : Z;
  bTimeout : bool;
  ucMutexPriority : Z;
  pstNext : ptr;
  pstNextList : ptr
}.

Definition set_pwTopStack (v : Z) (r : TASK_STRUCT) : TASK_STRUCT :=
  mkTask v (pwStack r) (usStackSize r) (usStackMargin r) (pacName r)
    (pfTaskFunc r) (ucPriority r) (eState r) (usTimeLeft r) (usQuantum r)
    (bTimeout r) (ucMutexPriority r) (pstNext r) (pstNextList r).
Definition set_pwStack (v : Z) (r : TASK_STRUCT) : TASK_STRUCT :=
  mkTask (pwTopStack r) v (usStackSize r) (usStackMargin r) (pacName r)
    (pfTaskFunc r) (ucPriority r) (eState r) (usTimeLeft r) (usQuantum r)
    (bTimeout r) (ucMutexPriority r) (pstNext r) (pstNextList r).
Definition set_usStackSize (v : Z) (r : TASK_STRUCT) : TASK_STRUCT :=
  mkTask (pwTopStack r) (pwStack r) v (usStackMargin r) (pacName r)
    (pfTaskFunc r) (ucPriority r) (eState r) (usTimeLeft r) (usQuantum r)
    (bTimeout r) (ucMutexPriority r) (pstNext r) (pstNextList r).
Definition set_usStackMargin (v : Z) (r : TASK_STRUCT) : TASK_STRUCT :=
  mkTask (pwTopStack r) (pwStack r) (usStackSize r) v (pacName r)
    (pfTaskFunc r) (ucPriority r) (eState r) (usTimeLeft r) (usQuantum r)
    (bTimeout r) (ucMutexPriority r) (pstNext r) (pstNextList r).
Definition set_pacName (v : string) (r : TASK_STRUCT) : TASK_STRUCT :=
  mkTask (pwTopStack r) (pwStack r) (usStackSize r) (usStackMargin r) v
    (pfTaskFunc r) (ucPriority r) (eState r) (usTimeLeft r) (usQuantum r)
    (bTimeout r) (ucMutexPriority r) (pstNext r) (pstNextList r).
Definition set_pfTaskFunc (v : Z) (r : TASK_STRUCT) : TASK_STRUCT :=
  mkTask (pwTopStack r) (pwStack r) (usStackSize r) (usStackMargin r)
    (pacName r) v (ucPriority r) (eState r) (usTimeLeft r) (usQuantum r)
    (bTimeout r) (ucMutexPriority r) (pstNext r) (pstNextList r).
Definition set_ucPriority (v : Z) (r : TASK_STRUCT) : TASK_STRUCT :=
  mkTask (pwTopStack r) (pwStack r) (usStackSize r) (usStackMargin r)
    (pacName r) (pfTaskFunc r) v (eState r) (usTimeLeft r) (usQuantum r)
    (bTimeout r) (ucMutexPriority r) (pstNext r) (pstNextList r).
Definition set_eState (v : TASK_STATE) (r : TASK_STRUCT) : TASK_STRUCT :=
  mkTask (pwTopStack r) (pwStack r) (usStackSize r) (usStackMargin r)
    (pacName r) (pfTaskFunc r) (ucPriority r) v (usTimeLeft r) (usQuantum r)
    (bTimeout r) (ucMutexPriority r) (pstNext r) (pstNextList r).
Definition set_usTimeLeft (v : Z) (r : TASK_STRUCT) : TASK_STRUCT :=
  mkTask (pwTopStack r) (pwStack r) (usStackSize r) (usStackMargin r)
    (pacName r) (pfTaskFunc r) (ucPriority r) (eState r) v (usQuantum r)
    (bTimeout r) (ucMutexPriority r) (pstNext r) (pstNextList r).
Definition set_usQuantum (v : Z) (r : TASK_STRUCT) : TASK_STRUCT :=
  mkTask (pwTopStack r) (pwStack r) (usStackSize r) (usStackMargin r)
    (pacName r) (pfTaskFunc r) (ucPriority r) (eState r) (usTimeLeft r) v
    (bTimeout r) (ucMutexPriority r) (pstNext r) (pstNextList r).
Definition set_bTimeout (v : bool) (r : TASK_STRUCT) : TASK_STRUCT :=
  mkTask (pwTopStack r) (pwStack r) (usStackSize r) (usStackMargin r)
    (pacName r) (pfTaskFunc r) (ucPriority r) (eState r) (usTimeLeft r)
    (usQuantum r) v (ucMutexPriority r) (pstNext r) (pstNextList r).
Definition set_ucMutexPriority (v : Z) (r : TASK_STRUCT) : TASK_STRUCT :=
  mkTask (pwTopStack r) (pwStack r) (usStackSize r) (usStackMargin r)
    (pacName r) (pfTaskFunc r) (ucPriority r) (eState r) (usTimeLeft r)
    (usQuantum r) (bTimeout r) v (pstNext r) (pstNextList r).
Definition set_pstNext (v : ptr) (r : TASK_STRUCT) : TASK_STRUCT :=
  mkTask (pwTopStack r) (pwStack r) (usStackSize r) (usStackMargin r)
    (pacName r) (pfTaskFunc r) (ucPriority r) (eState r) (usTimeLeft r)
    (usQuantum r) (bTimeout r) (ucMutexPriority r) v (pstNextList r).
Definition set_pstNextList (v : ptr) (r : TASK_STRUCT) : TASK_STRUCT :=
  mkTask (pwTopStack r) (pwStack r) (usStackSize r) (usStackMargin r)
    (pacName r) (pfTaskFunc r) (ucPriority r) (eState r) (usTimeLeft r)
    (usQuantum r) (bTimeout r) (ucMutexPriority r) (pstNext r) v.

(** The globals of the kernel: the control blocks by address, the current
    task, the scheduler switch, the data memory that holds the stacks, and
    the output port whose bit 2 drives the INT0 pin.  [INT0_request] is the
    request flag the hardware raises on a rising edge of that pin. *)
Record KERNEL : Type := mkKernel {
  tcb : gmap nat TASK_STRUCT;
  pstCurrentTask : ptr;
  sCriticalCount : Z;
  bGlobalTaskEnable : bool;
  PORTD : Z;
  INT0_request : bool;
  ram : gmap Z Z
}.

Definition set_tcb (v : gmap nat TASK_STRUCT) (r : KERNEL) : KERNEL :=
  mkKernel v (pstCurrentTask r) (sCriticalCount r) (bGlobalTaskEnable r)
    (PORTD r) (INT0_request r) (ram r).
Definition set_pstCurrentTask (v : ptr) (r : KERNEL) : KERNEL :=
  mkKernel (tcb r) v (sCriticalCount r) (bGlobalTaskEnable r) (PORTD r)
    (INT0_request r) (ram r).
Definition set_sCriticalCount (v : Z) (r : KERNEL) : KERNEL :=
  mkKernel (tcb r) (pstCurrentTask r) v (bGlobalTaskEnable r) (PORTD r)
    (INT0_request r) (ram r).
Definition set_bGlobalTaskEnable (v : bool) (r : KERNEL) : KERNEL :=
  mkKernel (tcb r) (pstCurrentTask r) (sCriticalCount r) v (PORTD r)
    (INT0_request r) (ram r).
Definition set_PORTD (v : Z) (r : KERNEL) : KERNEL :=
  mkKernel (tcb r) (pstCurrentTask r) (sCriticalCount r) (bGlobalTaskEnable
    r) v (INT0_request r) (ram r).
Definition set_INT0_request (v : bool) (r : KERNEL) : KERNEL :=
  mkKernel (tcb r) (pstCurrentTask r) (sCriticalCount r) (bGlobalTaskEnable
    r) (PORTD r) v (ram r).
Definition set_ram (v : gmap Z Z) (r : KERNEL) : KERNEL :=
  mkKernel (tcb r) (pstCurrentTask r) (sCriticalCount r) (bGlobalTaskEnable
    r) (PORTD r) (INT0_request r) v.

(** [p->field = v] on a control block. *)
Definition upd_task (p : ptr) (f : TASK_STRUCT → TASK_STRUCT) (k : KERNEL) : res KERNEL :=
  m ← assign (tcb k) p f; Ok (set_tcb m k).

(** ** The scheduler switch and the software interrupt *)

Definition Task_IsSchedulerEnabled (k : KERNEL) : bool := bGlobalTaskEnable k.

(** A store to PORTD; a 0 to 1 transition of bit 2 requests INT0. *)
Definition write_PORTD (v : Z) (k : KERNEL) : KERNEL :=
  set_PORTD v
    (set_INT0_request
       (INT0_request k || (negb (Z.testbit (PORTD k) 2) && Z.testbit v 2)) k).

Definition KernelSWI_Trigger (k : KERNEL) : KERNEL :=
  if Task_IsSchedulerEnabled k then
    let k := write_PORTD (Z.land (PORTD k) (Z.lnot 0x04)) k in
    write_PORTD (Z.lor (PORTD k) 0x04) k
  else k.

(** ** The initial stack frame *)

(** A byte store to data memory; only allocated addresses may be written. *)
Definition poke (a v : Z) (m : gmap Z Z) : res (gmap Z Z) :=
  match m !! a with
  | Some _ => Ok (<[a := u8 v]> m)
  | None => Fault WildDeref
  end.

Definition peek (a : Z) (m : gmap Z Z) : res Z :=
  match m !! a with Some v => Ok v | None => Fault WildDeref end.

(** [PUSH_TO_STACK(x, y)]: store at the stack pointer, then decrement it. *)
Definition PUSH_TO_STACK (y : Z) (s : Z * gmap Z Z) : res (Z * gmap Z Z) :=
  m ← poke (s.1) y (s.2); Ok (s.1 - 1, m).

Definition TOP_OF_STACK (x y : Z) : Z := u16 (x + (y - 1)).

Definition zseq (first n : Z) : list Z := seqZ first n.

(** The bytes pushed for a task at address [a] entering at [f], in order. *)
Definition initial_frame (f a : Z) : list Z :=
  [Z.land f 0x00FF; Z.land (Z.shiftr f 8) 0x00FF; 0x00; 0x80; 0x00]
  ++ zseq 2 22
  ++ [Z.land (u8 a) 0x00FF; Z.land (u8 (Z.shiftr a 8)) 0x00FF]
  ++ zseq 26 6.

Definition Task_InitStack (p : ptr) (k : KERNEL) : res KERNEL :=
  t ← deref (tcb k) p;
  m ← forM (zseq 0 (usStackSize t)) (fun i m => poke (pwStack t + i) 0xFF m) (ram k);
  s ← forM (initial_frame (u16 (pfTaskFunc t)) (u16 (Z.of_nat (default 0%nat p))))
        PUSH_TO_STACK (pwTopStack t, m);
  upd_task p (set_pwTopStack (s.1)) (set_ram (s.2) k).

(** ** Automation *)

(** Computes projections of updated kernel states and control blocks,
    leaving the maps alone. *)
Ltac kcbn :=
  cbn [tcb pstCurrentTask sCriticalCount bGlobalTaskEnable PORTD INT0_request ram
       set_tcb set_pstCurrentTask set_sCriticalCount set_bGlobalTaskEnable
       set_PORTD set_INT0_request set_ram
       pwTopStack pwStack usStackSize usStackMargin pacName pfTaskFunc ucPriority
       eState usTimeLeft usQuantum bTimeout ucMutexPriority pstNext pstNextList
       set_pwTopStack set_pwStack set_usStackSize set_usStackMargin set_pacName
       set_pfTaskFunc set_ucPriority set_eState set_usTimeLeft set_usQuantum
       set_bTimeout set_ucMutexPriority set_pstNext set_pstNextList fst snd].

Tactic Notation "kcbn" "in" hyp(H) :=
  cbn [tcb pstCurrentTask sCriticalCount bGlobalTaskEnable PORTD INT0_request ram
       set_tcb set_pstCurrentTask set_sCriticalCount set_bGlobalTaskEnable
       set_PORTD set_INT0_request set_ram
       pwTopStack pwStack usStackSize usStackMargin pacName pfTaskFunc ucPriority
       eState usTimeLeft usQuantum bTimeout ucMutexPriority pstNext pstNextList
       set_pwTopStack set_pwStack set_usStackSize set_usStackMargin set_pacName
       set_pfTaskFunc set_ucPriority set_eState set_usTimeLeft set_usQuantum
       set_bTimeout set_ucMutexPriority set_pstNext set_pstNextList fst snd] in H.
