(* ===== verification/FunkRegs.v ===== *)
(** * FunkOS: interrupt and timer registers (kernel/atmega328p/kerneltimer.c,
    kernelswi.c)

    The control registers of the ATmega328p that the kernel sets up: timer 1,
    which makes the system tick, and the external interrupt INT0, which serves
    as the software interrupt.  The two flag registers belong to the
    processor: what a store to them does is the parameter [write_flags]. *)
From S2P Require Import Prelude FunkKernel.

Module Regs.

(** Timer 1 (control B, compare A, flags, mask), the direction of port D and
    the external interrupts (edge control, flags, mask). *)
Record IO : Type := mkIO {
  TCCR1B : Z;
  OCR1A : Z;
  TIFR1 : Z;
  TIMSK1 : Z;
  DDRD : Z;
  EICRA : Z;
  EIFR : Z;
  EIMSK : Z
}.

Definition set_TCCR1B (v : Z) (r : IO) : IO :=
  mkIO v (OCR1A r) (TIFR1 r) (TIMSK1 r) (DDRD r) (EICRA r) (EIFR r) (EIMSK r).
Definition set_OCR1A (v : Z) (r : IO) : IO :=
  mkIO (TCCR1B r) v (TIFR1 r) (TIMSK1 r) (DDRD r) (EICRA r) (EIFR r) (EIMSK r).
Definition set_TIFR1 (v : Z) (r : IO) : IO :=
  mkIO (TCCR1B r) (OCR1A r) v (TIMSK1 r) (DDRD r) (EICRA r) (EIFR r) (EIMSK r).
Definition set_TIMSK1 (v : Z) (r : IO) : IO :=
  mkIO (TCCR1B r) (OCR1A r) (TIFR1 r) v (DDRD r) (EICRA r) (EIFR r) (EIMSK r).
Definition set_DDRD (v : Z) (r : IO) : IO :=
  mkIO (TCCR1B r) (OCR1A r) (TIFR1 r) (TIMSK1 r) v (EICRA r) (EIFR r) (EIMSK r).
Definition set_EICRA (v : Z) (r : IO) : IO :=
  mkIO (TCCR1B r) (OCR1A r) (TIFR1 r) (TIMSK1 r) (DDRD r) v (EIFR r) (EIMSK r).
Definition set_EIFR (v : Z) (r : IO) : IO :=
  mkIO (TCCR1B r) (OCR1A r) (TIFR1 r) (TIMSK1 r) (DDRD r) (EICRA r) v (EIMSK r).
Definition set_EIMSK (v : Z) (r : IO) : IO :=
  mkIO (TCCR1B r) (OCR1A r) (TIFR1 r) (TIMSK1 r) (DDRD r) (EICRA r) (EIFR r) v.

(** Bit numbers of the processor. *)
Definition WGM12 : Z := 3.
Definition CS11 : Z := 1.
Definition CS10 : Z := 0.
Definition OCF1A : Z := 1.
Definition OCIE1A : Z := 1.
Definition ISC00 : Z := 0.
Definition ISC01 : Z := 1.
Definition INTF0 : Z := 0.
Definition INT0 : Z := 0.

Definition bit (n : Z) : Z := Z.shiftl 1 n.

Section regs.

(** [write_flags old v] is the content of a flag register that held [old]
    after a store of [v]; the two frequencies are those of the build. *)
Context (write_flags : Z → Z → Z) (SYSTEM_FREQ TICK_FREQ : Z).

(** [TIFR1 &= ~(1 << n)]. *)
Definition and_TIFR1 (n : Z) (r : IO) : IO :=
  set_TIFR1 (write_flags (TIFR1 r) (Z.land (TIFR1 r) (Z.lnot (bit n)))) r.

(** The flags of the external interrupts; that of INT0 is the request kept
    with the kernel state. *)
Definition read_EIFR (k : KERNEL) (r : IO) : Z :=
  Z.lor (Z.land (EIFR r) (Z.lnot (bit INTF0))) (if INT0_request k then bit INTF0 else 0).

(** [EIFR &= ~(1 << n)]. *)
Definition and_EIFR (n : Z) (k : KERNEL) (r : IO) : KERNEL * IO :=
  let v := read_EIFR k r in
  let v := write_flags v (Z.land v (Z.lnot (bit n))) in
  (set_INT0_request (Z.testbit v INTF0) k, set_EIFR v r).

(** ** The system timer *)

Definition KernelTimer_Config (r : IO) : res IO :=
  let r := set_TCCR1B (Z.lor (TCCR1B r) (bit WGM12)) r in
  let r := set_TCCR1B (Z.lor (TCCR1B r) (bit CS11)) r in
  if TICK_FREQ =? 0 then Fault DivByZero
  else Ok (set_OCR1A (u16 (u16 ((SYSTEM_FREQ / TICK_FREQ) / 64) - 1)) r).

Definition KernelTimer_Start (r : IO) : IO :=
  let r := and_TIFR1 OCF1A r in
  let r := set_TIMSK1 (Z.lor (TIMSK1 r) (bit OCIE1A)) r in
  set_TCCR1B (Z.lor (TCCR1B r) (bit CS10)) r.

Definition KernelTimer_Stop (r : IO) : IO :=
  let r := and_TIFR1 OCF1A r in
  let r := set_TIMSK1 (Z.land (TIMSK1 r) (Z.lnot (bit OCIE1A))) r in
  set_TCCR1B (Z.land (TCCR1B r) (Z.lnot (bit CS10))) r.

Definition KernelTimer_DI (r : IO) : IO :=
  let r := and_TIFR1 OCF1A r in
  set_TIMSK1 (Z.land (TIMSK1 r) (Z.lnot (bit OCIE1A))) r.

Definition KernelTimer_EI (r : IO) : IO :=
  let r := and_TIFR1 OCF1A r in
  set_TIMSK1 (Z.lor (TIMSK1 r) (bit OCIE1A)) r.

(** ** The software interrupt *)

Definition KernelSWI_Config (k : KERNEL) (r : IO) : KERNEL * IO :=
  let k := write_PORTD (Z.land (PORTD k) (Z.lnot 0x04)) k in
  let r := set_DDRD (Z.lor (DDRD r) 0x04) r in
  (k, set_EICRA (Z.lor (EICRA r) (Z.lor (bit ISC00) (bit ISC01))) r).

Definition KernelSWI_Start (k : KERNEL) (r : IO) : KERNEL * IO :=
  let '(k, r) := and_EIFR INTF0 k r in
  (k, set_EIMSK (Z.lor (EIMSK r) (bit INT0)) r).

Definition KernelSWI_Stop (r : IO) : IO :=
  set_EIMSK (Z.land (EIMSK r) (Z.lnot (bit INT0))) r.

Definition KernelSWI_Clear (k : KERNEL) (r : IO) : KERNEL * IO := and_EIFR INTF0 k r.

(** ** Tick rate *)

(** The clock select field of timer 1: cycles of the system clock per count,
    or stopped (1 to 5 use the internal clock, 6 and 7 an external pin). *)
Definition prescaler (tccr1b : Z) : option Z :=
  match Z.land tccr1b 7 with
  | 1 => Some 1 | 2 => Some 8 | 3 => Some 64 | 4 => Some 256 | 5 => Some 1024
  | _ => None
  end.

(** System clock cycles from one compare match to the next in CTC mode. *)
Definition tick_cycles (r : IO) : option Z :=
  if Z.testbit (TCCR1B r) WGM12
  then p ← prescaler (TCCR1B r); Some (p * (OCR1A r + 1)) else None.

Lemma testbit_bit n i : 0 <= n → 0 <= i → Z.testbit (bit n) i = bool_decide (i = n).
Proof.
  intros Hn Hi. unfold bit. rewrite Z.shiftl_1_l. case_bool_decide; subst.
  - by apply Z.pow2_bits_true.
  - apply Z.pow2_bits_false. lia.
Qed.

(** From the reset value of the control register, configuring and starting
    the timer makes a tick every [SYSTEM_FREQ / TICK_FREQ] cycles, to within
    one step of the prescaler, provided that the count fits the compare
    register. *)
Theorem KernelTimer_tick_rate r :
  TCCR1B r = 0 → 0 < TICK_FREQ → 64 <= SYSTEM_FREQ / TICK_FREQ < 64 * 65536 →
  ∃ r', KernelTimer_Config r = Ok r' ∧
    ∃ n, tick_cycles (KernelTimer_Start r') = Some n ∧
      n <= SYSTEM_FREQ / TICK_FREQ < n + 64 ∧
      Z.testbit (TIMSK1 (KernelTimer_Start r')) OCIE1A = true.
Proof.
  intros H0 Ht Hf. unfold KernelTimer_Config. rewrite (proj2 (Z.eqb_neq _ _)) by lia.
  eexists. split; [reflexivity|]. unfold KernelTimer_Start, and_TIFR1, tick_cycles.
  cbn [TCCR1B OCR1A TIMSK1 set_TCCR1B set_OCR1A set_TIFR1 set_TIMSK1]. rewrite H0.
  set (q := SYSTEM_FREQ / TICK_FREQ) in *.
  rewrite (u16_small (q / 64)) by dlia. rewrite u16_small by dlia.
  eexists. split; [reflexivity|]. split; [dlia|].
  rewrite Z.lor_spec, (testbit_bit OCIE1A) by done. by rewrite orb_true_r.
Qed.

(** Stopping a running timer only masks its interrupt: the prescaler falls
    from 64 to 8 and the counter runs on, eight times faster. *)
Theorem KernelTimer_Stop_runs_on r :
  TCCR1B r = Z.lor (bit WGM12) (Z.lor (bit CS11) (bit CS10)) →
  prescaler (TCCR1B r) = Some 64 ∧ prescaler (TCCR1B (KernelTimer_Stop r)) = Some 8 ∧
  Z.testbit (TIMSK1 (KernelTimer_Stop r)) OCIE1A = false.
Proof.
  intros H. unfold KernelTimer_Stop. cbn [TCCR1B TIMSK1 set_TCCR1B set_TIMSK1 set_TIFR1 and_TIFR1].
  rewrite H. split; [done|]. split; [done|].
  rewrite Z.land_spec, Z.lnot_spec, (testbit_bit OCIE1A) by done. by rewrite andb_false_r.
Qed.

(** ** Pending interrupts *)

(** The flag registers of the processor: a bit that is written as zero keeps
    its flag (a flag is cleared by writing a one). *)
Context (write_flags_zero : ∀ old v i,
  Z.testbit v i = false → Z.testbit (write_flags old v) i = Z.testbit old i).

Lemma and_TIFR1_keeps r : Z.testbit (TIFR1 (and_TIFR1 OCF1A r)) OCF1A = Z.testbit (TIFR1 r) OCF1A.
Proof.
  unfold and_TIFR1. cbn [TIFR1 set_TIFR1]. apply write_flags_zero.
  rewrite Z.land_spec, Z.lnot_spec, (testbit_bit OCF1A) by done. apply andb_false_r.
Qed.

(** None of the functions that mean to clear a pending tick does: the flag
    of the compare match is as before. *)
Theorem KernelTimer_pending_kept f r :
  f ∈ [KernelTimer_Start; KernelTimer_Stop; KernelTimer_DI; KernelTimer_EI] →
  Z.testbit (TIFR1 (f r)) OCF1A = Z.testbit (TIFR1 r) OCF1A.
Proof.
  rewrite <- (and_TIFR1_keeps r). intros Hf.
  repeat (apply elem_of_cons in Hf as [->|Hf]; [done|]). by apply elem_of_nil in Hf.
Qed.

(** The same for the software interrupt: [KernelSWI_Start] and
    [KernelSWI_Clear] mean to acknowledge a request and change nothing of the
    kernel. *)
Theorem KernelSWI_pending_kept k r :
  (KernelSWI_Clear k r).1 = k ∧ (KernelSWI_Start k r).1 = k.
Proof.
  assert ((and_EIFR INTF0 k r).1 = k) as H; [|by split].
  unfold and_EIFR. cbn [fst]. rewrite write_flags_zero.
  - unfold read_EIFR. rewrite Z.lor_spec, Z.land_spec, Z.lnot_spec, (testbit_bit INTF0) by done.
    rewrite bool_decide_eq_true_2, andb_false_r by done.
    destruct k as [? ? ? ? ? [] ?]; reflexivity.
  - rewrite Z.land_spec, Z.lnot_spec, (testbit_bit INTF0) by done. apply andb_false_r.
Qed.

(** The tick interrupt disables and enables its own interrupt: afterwards the
    interrupt is enabled and the other bits of the mask are as before. *)
Lemma KernelTimer_DI_EI r i : 0 <= i →
  Z.testbit (TIMSK1 (KernelTimer_EI (KernelTimer_DI r))) i
  = bool_decide (i = OCIE1A) || Z.testbit (TIMSK1 r) i.
Proof.
  intros Hi. unfold KernelTimer_EI, KernelTimer_DI, and_TIFR1.
  cbn [TIMSK1 set_TIMSK1 set_TIFR1].
  rewrite Z.lor_spec, Z.land_spec, Z.lnot_spec, (testbit_bit OCIE1A) by done.
  case_bool_decide; by rewrite ?andb_true_r, ?orb_false_r, ?orb_true_r.
Qed.

End regs.

(** The flag registers as the data sheet describes them: a one clears. *)
Definition clear_ones (old v : Z) : Z := Z.land old (Z.lnot v).

Lemma clear_ones_zero old v i :
  Z.testbit v i = false → Z.testbit (clear_ones old v) i = Z.testbit old i.
Proof.
  intros Hv. unfold clear_ones. destruct (Z.ltb_spec i 0).
  { by rewrite !Z.testbit_neg_r by lia. }
  by rewrite Z.land_spec, Z.lnot_spec, Hv, andb_true_r by done.
Qed.

(** At 16 MHz and 1000 ticks per second: 16000 cycles per tick. *)
Example tick_rate_16MHz :
  (r ← KernelTimer_Config 16000000 1000 (mkIO 0 0 0 0 0 0 0 0);
   Ok (tick_cycles (KernelTimer_Start clear_ones r))) = Ok (Some 16000).
Proof. vm_compute. reflexivity. Qed.

Lemma KernelTimer_pending_kept_witness :
  Z.testbit (TIFR1 (KernelTimer_DI clear_ones (mkIO 0 0 2 2 0 0 0 0))) OCF1A = true.
Proof.
  apply (KernelTimer_pending_kept clear_ones clear_ones_zero (KernelTimer_DI clear_ones)
    (mkIO 0 0 2 2 0 0 0 0)).
  set_solver.
Defined.

End Regs.
