(* ===== verification/FunkTask.v ===== *)
(** * FunkOS: the task module (kernel/task.c)

    The scheduler list is a circular list of control blocks threaded through
    [pstNext] and entered at [pstCurrentTask].  Every operation of
    kernel/task.c is a function on the kernel state; a pointer loop carries
    a bound of one more than the number of control blocks, which suffices
    for every well-formed list. *)
From S2P Require Import Prelude FunkKernel.

(** ** Operations *)

Definition Task_Init (k : KERNEL) : KERNEL :=
  set_sCriticalCount 0 (set_pstCurrentTask NULL k).

Definition Task_YieldSWI (k : KERNEL) : KERNEL := KernelSWI_Trigger k.

Definition Task_Add (p : ptr) (k : KERNEL) : res (KERNEL * bool) :=
  k ← upd_task p (set_eState TASK_READY) k;
  match pstCurrentTask k with
  | None =>
      let k := set_pstCurrentTask p k in
      k ← upd_task (pstCurrentTask k) (set_pstNext (pstCurrentTask k)) k;
      Ok (k, true)
  | Some _ =>
      c ← deref (tcb k) (pstCurrentTask k);
      k ← upd_task p (set_pstNext (pstNext c)) k;
      k ← upd_task (pstCurrentTask k) (set_pstNext p) k;
      Ok (k, true)
  end.

Definition ring_fuel (k : KERNEL) : nat := S (size (tcb k)).

(** The search of [Task_Remove] for the predecessor of [p]. *)
Fixpoint find_prev (fuel : nat) (m : gmap nat TASK_STRUCT) (p prev target : ptr) : res ptr :=
  match fuel with
  | O => Fault OutOfFuel
  | S fuel =>
      if decide (target = p) then Ok prev
      else t ← deref m target; find_prev fuel m p target (pstNext t)
  end.

Definition Task_Remove (p : ptr) (k : KERNEL) : res (KERNEL * bool) :=
  t ← deref (tcb k) p;
  prev ← find_prev (ring_fuel k) (tcb k) p p (pstNext t);
  k ← upd_task prev (set_pstNext (pstNext t)) k;
  k ← upd_task p (set_pstNext NULL) k;
  k ← upd_task p (set_eState TASK_UNINIT) k;
  Ok (Task_YieldSWI k, false).

Definition Task_CreateTask (p : ptr) (name : string) (stack : Z) (stackSize prio func : Z)
    (k : KERNEL) : res KERNEL :=
  k ← upd_task p (fun t =>
        set_ucMutexPriority 0
          (set_pstNextList NULL
             (set_usQuantum 1
                (set_usTimeLeft 0
                   (set_pfTaskFunc func
                      (set_pwStack stack
                         (set_pwTopStack (TOP_OF_STACK stack stackSize)
                            (set_eState TASK_STOPPED
                               (set_ucPriority prio
                                  (set_usStackSize stackSize
                                     (set_pacName name t))))))))))) k;
  Task_InitStack p k.

Definition Task_SetQuantum (p : ptr) (ticks : Z) (k : KERNEL) : res KERNEL :=
  match p with
  | None => Ok k
  | Some _ => upd_task p (set_usQuantum ticks) k
  end.

Definition Task_Start (p : ptr) (k : KERNEL) : res KERNEL :=
  k ← upd_task p (set_eState TASK_READY) k;
  upd_task p (fun t => set_usTimeLeft (usQuantum t) t) k.

Definition Task_Stop (p : ptr) (k : KERNEL) : res KERNEL :=
  upd_task p (set_eState TASK_STOPPED) k.

(** ** The scheduler *)

Definition is_ready (t : TASK_STRUCT) : bool := bool_decide (eState t = TASK_READY).

(** First loop of [Task_Switch]: the highest priority among ready tasks. *)
Fixpoint switch_high (fuel : nat) (m : gmap nat TASK_STRUCT) (pstEnd p : ptr) (hi : Z) : res Z :=
  match fuel with
  | O => Fault OutOfFuel
  | S fuel =>
      t ← deref m p;
      let hi := if is_ready t && (hi <? ucPriority t) then ucPriority t else hi in
      if decide (pstEnd = pstNext t) then Ok hi
      else switch_high fuel m pstEnd (pstNext t) hi
  end.

(** Second loop: the first ready task of that priority. *)
Fixpoint switch_find (fuel : nat) (m : gmap nat TASK_STRUCT) (pstEnd p : ptr) (hi : Z) : res ptr :=
  match fuel with
  | O => Fault OutOfFuel
  | S fuel =>
      t ← deref m p;
      if is_ready t && (ucPriority t =? hi) then Ok p
      else if decide (pstEnd = pstNext t) then Ok (pstNext t)
      else switch_find fuel m pstEnd (pstNext t) hi
  end.

(** The untouched bytes at the low end of a stack. *)
Fixpoint stack_margin (l : list Z) (m : gmap Z Z) (margin : Z) : res Z :=
  match l with
  | [] => Ok margin
  | a :: l => v ← peek a m;
              if decide (v ≠ 0xFF) then Ok margin else stack_margin l m (u16 (margin + 1))
  end.

Definition Task_StackCheck (k : KERNEL) : res KERNEL :=
  c ← deref (tcb k) (pstCurrentTask k);
  margin ← stack_margin (zseq (pwStack c) (usStackSize c)) (ram k) 0;
  upd_task (pstCurrentTask k) (set_usStackMargin margin) k.

Definition Task_Switch (k : KERNEL) : res KERNEL :=
  hi ← switch_high (ring_fuel k) (tcb k) (pstCurrentTask k) (pstCurrentTask k) 0;
  c ← deref (tcb k) (pstCurrentTask k);
  next ← switch_find (ring_fuel k) (tcb k) (pstNext c) (pstNext c) hi;
  let k := set_pstCurrentTask next k in
  k ← upd_task (pstCurrentTask k) (fun t => set_usTimeLeft (usQuantum t) t) k;
  Task_StackCheck k.

(** ** The tick *)

(** Quantum accounting of the running task; the flag asks for the scheduler. *)
Definition tick_quantum (t : TASK_STRUCT) : TASK_STRUCT * bool :=
  if negb (usTimeLeft t =? 0) && negb (usTimeLeft t =? TIME_FOREVER) then
    let t := set_usTimeLeft (u16 (usTimeLeft t - 1)) t in
    if usTimeLeft t =? 0 then (set_usTimeLeft (usQuantum t) t, true) else (t, false)
  else (t, false).

(** One task of the tick loop; the flag tells that its wait is over. *)
Definition tick_task (t : TASK_STRUCT) : TASK_STRUCT * bool :=
  match eState t with
  | TASK_BLOCKED =>
      if negb (usTimeLeft t =? TIME_FOREVER) && negb (usTimeLeft t =? 0)
      then (set_usTimeLeft (u16 (usTimeLeft t - 1)) t, false)
      else if usTimeLeft t =? 0
      then let t := set_bTimeout true (set_eState TASK_READY t) in
           (set_usTimeLeft (usQuantum t) t, true)
      else (t, false)
  | TASK_SLEEP =>
      let t := if negb (usTimeLeft t =? TIME_FOREVER)
               then set_usTimeLeft (u16 (usTimeLeft t - 1)) t else t in
      if usTimeLeft t =? 0
      then let t := set_eState TASK_READY t in
           (set_usTimeLeft (usQuantum t) t, true)
      else (t, false)
  | _ => (t, false)
  end.

Fixpoint tick_loop (fuel : nat) (pstEnd p : ptr) (run : bool) (k : KERNEL) : res (KERNEL * bool) :=
  match fuel with
  | O => Fault OutOfFuel
  | S fuel =>
      t ← deref (tcb k) p;
      k ← upd_task p (fun t => (tick_task t).1) k;
      c ← deref (tcb k) (pstCurrentTask k);
      t' ← deref (tcb k) p;
      let run := run || ((tick_task t).2 && (ucPriority c <? ucPriority t')) in
      if decide (pstEnd = pstNext t') then Ok (k, run)
      else tick_loop fuel pstEnd (pstNext t') run k
  end.

Definition Task_Tick (k : KERNEL) : res (KERNEL * bool) :=
  c ← deref (tcb k) (pstCurrentTask k);
  k ← upd_task (pstCurrentTask k) (fun t => (tick_quantum t).1) k;
  '(k, run) ← tick_loop (ring_fuel k) (pstCurrentTask k) (pstCurrentTask k)
                (tick_quantum c).2 k;
  Ok (k, if bGlobalTaskEnable k then run else false).

Definition Task_Sleep (time : Z) (k : KERNEL) : res KERNEL :=
  k ← upd_task (pstCurrentTask k) (set_eState TASK_SLEEP) k;
  k ← upd_task (pstCurrentTask k) (set_usTimeLeft time) k;
  Ok (Task_YieldSWI k).

Definition Task_SetScheduler (b : bool) (k : KERNEL) : KERNEL := set_bGlobalTaskEnable b k.

Definition Task_SchedulerDisable (k : KERNEL) : KERNEL * bool :=
  (Task_SetScheduler false k, Task_IsSchedulerEnabled k).

Definition Task_SchedulerRestore (b : bool) (k : KERNEL) : KERNEL := Task_SetScheduler b k.

Definition Task_GetCurrentTask (k : KERNEL) : ptr := pstCurrentTask k.
