(* ===== verification/FunkRing.v ===== *)
(** * FunkOS: the scheduler's circular list

    [seg m p l q] says that following [pstNext] from pointer [p] visits
    exactly the addresses [l] and then holds [q]; [ring k l] that the
    scheduler list of [k] is the cycle [l] entered at its first element.
    The loops of kernel/task.c are evaluated on segments here, once. *)
From S2P Require Import Prelude FunkKernel FunkTask.

Fixpoint seg (m : gmap nat TASK_STRUCT) (p : ptr) (l : list nat) (q : ptr) : Prop :=
  match l with
  | [] => p = q
  | x :: l' => p = Some x ∧ ∃ t, m !! x = Some t ∧ seg m (pstNext t) l' q
  end.

Definition ring (k : KERNEL) (l : list nat) : Prop :=
  l ≠ [] ∧ NoDup l ∧ pstCurrentTask k = head l ∧ seg (tcb k) (head l) l (head l).

(** Two stores that agree on the links of the visited blocks have the same
    segments. *)
Definition same_links (m m' : gmap nat TASK_STRUCT) (l : list nat) : Prop :=
  ∀ x, x ∈ l → pstNext <$> m' !! x = pstNext <$> m !! x.

Section segments.
Implicit Types (m : gmap nat TASK_STRUCT) (p q : ptr) (l : list nat).

Lemma seg_app m p l1 l2 q :
  seg m p (l1 ++ l2) q ↔ ∃ r, seg m p l1 r ∧ seg m r l2 q.
Proof.
  revert p. induction l1 as [|x l1 IH]; intros p; simpl; [naive_solver|].
  setoid_rewrite IH. naive_solver.
Qed.

Lemma seg_snoc m p l x q :
  seg m p (l ++ [x]) q ↔
  seg m p l (Some x) ∧ ∃ t, m !! x = Some t ∧ pstNext t = q.
Proof. rewrite seg_app. simpl. naive_solver. Qed.

Lemma seg_lookup m p l q x : seg m p l q → x ∈ l → ∃ t, m !! x = Some t.
Proof.
  revert p. induction l as [|y l IH]; intros p; simpl; [set_solver|].
  intros (-> & t & Ht & Hs) Hx. apply elem_of_cons in Hx as [->|Hx]; eauto.
Qed.

Lemma seg_same_links m m' p l q :
  same_links m m' l → seg m p l q → seg m' p l q.
Proof.
  revert p. induction l as [|x l IH]; intros p Hl; simpl; [done|].
  intros (-> & t & Ht & Hs). split; [done|].
  assert (pstNext <$> m' !! x = pstNext <$> m !! x) as Hx by (apply Hl; set_solver).
  rewrite Ht in Hx. destruct (m' !! x) as [t'|] eqn:E; simplify_eq/=.
  exists t'. split; [done|]. rewrite Hx.
  apply IH; [|done]. intros y Hy. apply Hl. set_solver.
Qed.

Lemma same_links_insert_notin m l x t : x ∉ l → same_links m (<[x:=t]> m) l.
Proof. intros Hx y Hy. rewrite lookup_insert_ne; [done|set_solver]. Qed.

Lemma same_links_insert m l x t t' :
  m !! x = Some t → pstNext t' = pstNext t → same_links m (<[x:=t']> m) l.
Proof.
  intros Hx Hn y _. destruct (decide (x = y)) as [->|].
  - by rewrite lookup_insert_eq, Hx; simpl; rewrite Hn.
  - by rewrite lookup_insert_ne.
Qed.

Lemma same_links_trans m1 m2 m3 l :
  same_links m1 m2 l → same_links m2 m3 l → same_links m1 m3 l.
Proof. intros H1 H2 x Hx. by rewrite H2, H1. Qed.

(** Distinct blocks: a list of them is no longer than the store. *)
Lemma seg_length m p l q : NoDup l → seg m p l q → (length l ≤ size m)%nat.
Proof.
  intros Hnd Hs. rewrite <- (size_dom (D:=gset nat)).
  rewrite <- (size_list_to_set (C:=gset nat) l Hnd).
  apply subseteq_size. intros x Hx. apply elem_of_list_to_set in Hx.
  apply elem_of_dom. destruct (seg_lookup _ _ _ _ _ Hs Hx); eauto.
Qed.

(** A cycle read from the successor of its first block. *)
Lemma seg_rotate m c tc rest :
  m !! c = Some tc → seg m (Some c) (c :: rest) (Some c) →
  seg m (pstNext tc) (rest ++ [c]) (pstNext tc).
Proof.
  intros Hc (_ & t & Ht & Hs). assert (t = tc) as -> by congruence.
  apply seg_snoc. eauto.
Qed.

(** Every block of a segment is entered through a link. *)
Lemma seg_split m p l1 x l2 q :
  seg m p (l1 ++ x :: l2) q → seg m p l1 (Some x) ∧ seg m (Some x) (x :: l2) q.
Proof. intros (r & H1 & H2)%seg_app. destruct H2 as (-> & ?). simpl. eauto. Qed.

(** In a segment whose end is not one of its later blocks, the loop test
    [pstEnd != pstNext] holds exactly before the last block. *)
Lemma seg_next_not_end m x t y l q :
  m !! x = Some t → seg m (pstNext t) (y :: l) q → q ∉ Some <$> (y :: l) →
  q ≠ pstNext t.
Proof. intros Hx (-> & _) Hq ->. set_solver. Qed.

End segments.

(** ** The loops on a segment *)

(** The pure content of the two loops of [Task_Switch]. *)
Definition high_step (m : gmap nat TASK_STRUCT) (hi : Z) (x : nat) : Z :=
  match m !! x with
  | Some t => if is_ready t && (hi <? ucPriority t) then ucPriority t else hi
  | None => hi
  end.

Definition high_ready (m : gmap nat TASK_STRUCT) (l : list nat) : Z :=
  foldl (high_step m) 0 l.

Definition runnable (m : gmap nat TASK_STRUCT) (hi : Z) (x : nat) : bool :=
  match m !! x with
  | Some t => is_ready t && (ucPriority t =? hi)
  | None => false
  end.

Definition first_runnable (m : gmap nat TASK_STRUCT) (hi : Z) (l : list nat) : option nat :=
  find (runnable m hi) l.

Lemma switch_high_seg m p l q hi fuel :
  l ≠ [] → seg m p l q → q ∉ Some <$> tail l → (length l ≤ fuel)%nat →
  switch_high fuel m q p hi = Ok (foldl (high_step m) hi l).
Proof.
  revert p hi fuel. induction l as [|x l IH]; intros p hi fuel Hne Hs Hq Hf; [done|].
  destruct fuel as [|fuel]; simpl in Hf; [lia|].
  destruct Hs as (-> & t & Ht & Hs). cbn [switch_high foldl].
  rewrite (deref_some _ _ _ Ht), bind_ok.
  unfold high_step at 2. rewrite Ht.
  destruct l as [|y l].
  - simpl in Hs. rewrite decide_True by done. done.
  - rewrite decide_False by (eapply seg_next_not_end; eauto).
    apply IH; [done|done| |simpl in *; lia]. set_solver.
Qed.

Lemma switch_find_seg m p l q hi fuel :
  l ≠ [] → seg m p l q → q ∉ Some <$> tail l → (length l ≤ fuel)%nat →
  switch_find fuel m q p hi =
    Ok (match first_runnable m hi l with Some x => Some x | None => q end).
Proof.
  revert p fuel. induction l as [|x l IH]; intros p fuel Hne Hs Hq Hf; [done|].
  destruct fuel as [|fuel]; simpl in Hf; [lia|].
  destruct Hs as (-> & t & Ht & Hs). cbn [switch_find].
  rewrite (deref_some _ _ _ Ht), bind_ok.
  unfold first_runnable. cbn [find]. unfold runnable at 1. rewrite Ht.
  destruct (is_ready t && (ucPriority t =? hi)); [done|].
  destruct l as [|y l].
  - simpl in Hs. rewrite decide_True by done. by rewrite <- Hs.
  - rewrite decide_False by (eapply seg_next_not_end; eauto).
    apply IH; [done|done| |simpl in *; lia]. set_solver.
Qed.

Lemma find_prev_seg m p x l prev fuel :
  seg m p l (Some x) → x ∉ l → (length l < fuel)%nat →
  find_prev fuel m (Some x) prev p = Ok (default prev (Some <$> last l)).
Proof.
  revert p prev fuel. induction l as [|y l IH]; intros p prev fuel Hs Hx Hf.
  - destruct fuel as [|fuel]; simpl in Hf; [lia|]. simpl in *.
    by rewrite decide_True.
  - destruct fuel as [|fuel]; simpl in Hf; [lia|].
    destruct Hs as (-> & t & Ht & Hs). cbn [find_prev].
    rewrite decide_False by set_solver.
    rewrite (deref_some _ _ _ Ht), bind_ok, (IH _ _ _ Hs); [|set_solver|lia].
    rewrite last_cons. by destruct (last l).
Qed.

(** ** Specification of the two searches *)

Lemma high_step_bounds m hi x : hi <= high_step m hi x.
Proof.
  unfold high_step. destruct (m !! x) as [t|]; [|lia].
  destruct (is_ready t && (hi <? ucPriority t)) eqn:E; zb; lia.
Qed.

Lemma foldl_high_le m l hi : hi <= foldl (high_step m) hi l.
Proof.
  revert hi. induction l as [|x l IH]; intros hi; simpl; [lia|].
  etrans; [apply high_step_bounds|apply IH].
Qed.

Lemma foldl_high_upper m l hi x t :
  x ∈ l → m !! x = Some t → is_ready t = true →
  ucPriority t <= foldl (high_step m) hi l.
Proof.
  revert hi. induction l as [|y l IH]; intros hi Hx Ht Hr; [set_solver|].
  simpl. apply elem_of_cons in Hx as [->|Hx]; [|by apply IH].
  etrans; [|apply foldl_high_le]. unfold high_step. rewrite Ht, Hr. simpl.
  destruct (hi <? ucPriority t) eqn:E; zb; lia.
Qed.

Lemma foldl_high_attained m l hi :
  foldl (high_step m) hi l = hi ∨
  ∃ x t, x ∈ l ∧ m !! x = Some t ∧ is_ready t = true ∧
         ucPriority t = foldl (high_step m) hi l.
Proof.
  revert hi. induction l as [|y l IH]; intros hi; simpl; [by left|].
  destruct (IH (high_step m hi y)) as [E|(x & t & ? & ? & ? & ?)].
  - rewrite E. unfold high_step. destruct (m !! y) as [t|] eqn:Ht; [|by left].
    destruct (is_ready t && (hi <? ucPriority t)) eqn:E'; [|by left].
    apply andb_prop in E' as [? _]. right. exists y, t. set_solver.
  - right. exists x, t. set_solver.
Qed.

Lemma first_runnable_some m hi l x :
  first_runnable m hi l = Some x →
  ∃ l1 l2, l = l1 ++ x :: l2 ∧ runnable m hi x = true ∧
           (∀ y, y ∈ l1 → runnable m hi y = false).
Proof.
  unfold first_runnable. induction l as [|y l IH]; simpl; [done|].
  destruct (runnable m hi y) eqn:E; intros H.
  - simplify_eq. exists [], l. set_solver.
  - destruct (IH H) as (l1 & l2 & -> & Hr & Hn). exists (y :: l1), l2.
    split; [done|]. split; [done|]. intros z Hz.
    apply elem_of_cons in Hz as [->|]; auto.
Qed.

Lemma first_runnable_exists m hi l x :
  x ∈ l → runnable m hi x = true → is_Some (first_runnable m hi l).
Proof.
  unfold first_runnable. induction l as [|y l IH]; simpl; [set_solver|].
  intros Hx Hr. destruct (runnable m hi y) eqn:E; [done|].
  apply elem_of_cons in Hx as [->|Hx]; [congruence|auto].
Qed.

(** ** Consequences of [ring] *)

Lemma ring_cons k l : ring k l → ∃ c tc rest,
  l = c :: rest ∧ pstCurrentTask k = Some c ∧ tcb k !! c = Some tc ∧
  c ∉ rest ∧ NoDup rest ∧ seg (tcb k) (pstNext tc) rest (Some c).
Proof.
  intros (Hne & Hnd & Hc & Hs). destruct l as [|c rest]; [done|].
  destruct Hs as (_ & t & Ht & Hs). apply NoDup_cons in Hnd as [? ?].
  exists c, t, rest. eauto 10.
Qed.

Lemma ring_lookup k l x : ring k l → x ∈ l → ∃ t, tcb k !! x = Some t.
Proof. intros (_ & _ & _ & Hs). by eapply seg_lookup. Qed.

Lemma ring_fuel_enough k l : ring k l → (length l < ring_fuel k)%nat.
Proof.
  intros (_ & Hnd & _ & Hs). unfold ring_fuel.
  pose proof (seg_length _ _ _ _ Hnd Hs). lia.
Qed.

(** The ring entered at another of its blocks. *)
Lemma ring_reenter k l1 x l2 :
  ring k (l1 ++ x :: l2) → ring (set_pstCurrentTask (Some x) k) (x :: l2 ++ l1).
Proof.
  intros (Hne & Hnd & Hc & Hs). unfold ring. cbn [tcb pstCurrentTask set_pstCurrentTask head].
  split; [done|]. split.
  - rewrite <- (Permutation_middle l1 l2 x) in Hnd.
    by rewrite (Permutation_app_comm l2 l1).
  - split; [done|].
    apply seg_split in Hs as [H1 H2]. destruct l1 as [|y l1].
    + by rewrite app_nil_r.
    + cbn [head app] in *. rewrite app_comm_cons. apply seg_app. eauto.
Qed.
