(* ===== verification/FunkExample.v ===== *)
(** * FunkOS: a concrete kernel state

    Three tasks on the scheduler ring, used to show that the hypotheses of
    the theorems about the kernel can be met. *)
From S2P Require Import Prelude FunkKernel FunkTask FunkRing.

(** A control block with priority [prio], state [st], [left] ticks left and
    the two links; it has no stack. *)
Definition example_task (prio : Z) (st : TASK_STATE) (left : Z) (next nextl : ptr) : TASK_STRUCT :=
  mkTask 0 0 0 0 "task" 0 prio st left 4 false prio next nextl.

(** Tasks 1, 2, 3; task 1 runs; 2 and 3 are given. *)
Definition example_kernel (t2 t3 : TASK_STRUCT) : KERNEL :=
  mkKernel {[ 1%nat := example_task 1 TASK_READY 4 (Some 2%nat) NULL; 2%nat := t2; 3%nat := t3 ]}
    (Some 1%nat) 0 true 0 false ∅.

(** Discharges the concrete side conditions of an example. *)
Ltac solve_example :=
  repeat match goal with
  | |- _ ∧ _ => split
  | |- ∃ _, _ => eexists
  | |- NoDup _ => apply (bool_decide_unpack _); vm_compute; exact I
  | |- _ ≠ _ => discriminate
  | |- _ ∈ _ => apply (bool_decide_unpack _); vm_compute; exact I
  | |- _ ∉ _ => apply (bool_decide_unpack _); vm_compute; exact I
  | |- _ = _ => reflexivity
  | |- (_ <= _)%Z => apply Z.leb_le; reflexivity
  | |- (_ < _)%Z => apply Z.ltb_lt; reflexivity
  | |- (_ <= _)%nat => apply Nat.leb_le; reflexivity
  | |- (_ < _)%nat => apply Nat.ltb_lt; reflexivity
  | |- is_Some _ => eexists; reflexivity
  end.

Lemma example_ring t2 t3 :
  pstNext t2 = Some 3%nat → pstNext t3 = Some 1%nat → ring (example_kernel t2 t3) [1; 2; 3]%nat.
Proof.
  intros H2 H3. split; [done|]. split; [solve_example|]. split; [done|].
  cbn [head seg]. split; [done|]. eexists. split; [reflexivity|]. split; [done|].
  eexists. split; [reflexivity|]. rewrite H2. split; [done|]. eexists. split; [reflexivity|]. done.
Qed.

(** A property of all blocks of the example is checked block by block. *)
Lemma example_blocks (P : nat → TASK_STRUCT → Prop) t2 t3 :
  P 1%nat (example_task 1 TASK_READY 4 (Some 2%nat) NULL) → P 2%nat t2 → P 3%nat t3 →
  ∀ x t, tcb (example_kernel t2 t3) !! x = Some t → P x t.
Proof.
  intros H1 H2 H3. cbn [tcb example_kernel].
  apply (map_Forall_insert_2 P); [done|]. apply (map_Forall_insert_2 P); [done|].
  by apply map_Forall_singleton.
Qed.

(** The ring of a concrete kernel. *)
Ltac solve_ring :=
  split; [discriminate|]; split; [solve_example|]; split; [reflexivity|]; cbn [head seg];
  repeat (split; [reflexivity|]; eexists; split; [reflexivity|]); reflexivity.
