(* ===== verification/FunkSched.v ===== *)
(** * FunkOS: correctness of the scheduler list, the scheduler and the tick

    What kernel/task.c promises: [Task_Add] and [Task_Remove] maintain the
    circular list, [Task_Switch] picks a ready task of the highest ready
    priority and serves equal priorities in ring order, [Task_Tick] advances
    every wait by one tick. *)
From S2P Require Import Prelude FunkKernel FunkTask FunkRing FunkExample.

(** ** Vocabulary *)

(** The scheduler list, empty or not, as the list of its blocks. *)
Definition sched_list (k : KERNEL) (l : list nat) : Prop :=
  match l with
  | [] => pstCurrentTask k = NULL
  | _ => ring k l
  end.

Definition insert_after_head (p : nat) (l : list nat) : list nat :=
  match l with
  | [] => [p]
  | c :: rest => c :: p :: rest
  end.

(** The stack of every task of [l] lies in allocated data memory. *)
Definition stacks_mapped (k : KERNEL) (l : list nat) : Prop :=
  ∀ x t a, x ∈ l → tcb k !! x = Some t →
    pwStack t <= a < pwStack t + usStackSize t → is_Some (ram k !! a).

Lemma example_stacks t2 t3 l :
  usStackSize t2 = 0 → usStackSize t3 = 0 → stacks_mapped (example_kernel t2 t3) l.
Proof.
  intros H2 H3 x t a _ Ht. assert (usStackSize t = 0) as Hz.
  { by apply (example_blocks (λ _ t, usStackSize t = 0) t2 t3 eq_refl H2 H3 x). }
  lia.
Qed.

(** The task the scheduler is to run next on the ring [l]: the first block
    after the current one that is ready with the highest ready priority. *)
Definition next_task (m : gmap nat TASK_STRUCT) (l : list nat) : option nat :=
  match l with
  | [] => None
  | c :: rest =>
      match first_runnable m (high_ready m l) (rest ++ [c]) with
      | Some x => Some x
      | None => head (rest ++ [c])
      end
  end.

(** The part of a control block the scheduler decides on. *)
Definition sched_view (t : TASK_STRUCT) : TASK_STATE * Z * ptr * Z * Z :=
  (eState t, ucPriority t, pstNext t, pwStack t, usStackSize t).

Definition same_view (m m' : gmap nat TASK_STRUCT) : Prop :=
  ∀ x, sched_view <$> m' !! x = sched_view <$> m !! x.

(** ** Updates of single blocks *)

Lemma upd_task_some x t f k :
  tcb k !! x = Some t → upd_task (Some x) f k = Ok (set_tcb (<[x := f t]> (tcb k)) k).
Proof. intros H. unfold upd_task. by rewrite (assign_some _ _ _ _ H). Qed.

Lemma same_view_insert m x t t' :
  m !! x = Some t → sched_view t' = sched_view t → same_view m (<[x := t']> m).
Proof.
  intros Hx Hv y. destruct (decide (x = y)) as [->|].
  - by rewrite lookup_insert_eq, Hx; simpl; rewrite Hv.
  - by rewrite lookup_insert_ne.
Qed.

Lemma same_view_lookup m m' x t :
  same_view m m' → m !! x = Some t → ∃ t', m' !! x = Some t' ∧ sched_view t' = sched_view t.
Proof.
  intros H Hx. specialize (H x). rewrite Hx in H.
  destruct (m' !! x) as [t'|]; [|done]. exists t'. split; [done|].
  unfold sched_view in *. simpl in H. congruence.
Qed.

Lemma same_view_links m m' l : same_view m m' → same_links m m' l.
Proof.
  intros H x _. specialize (H x). unfold sched_view in H.
  destruct (m' !! x), (m !! x); simpl in *; congruence.
Qed.

Lemma same_view_trans m1 m2 m3 : same_view m1 m2 → same_view m2 m3 → same_view m1 m3.
Proof. intros H1 H2 x. by rewrite H2, H1. Qed.

Lemma same_view_runnable m m' hi x :
  same_view m m' → runnable m' hi x = runnable m hi x.
Proof.
  intros H. specialize (H x). unfold runnable, is_ready, sched_view in *.
  destruct (m' !! x), (m !! x); simpl in *; [|done|done|done].
  injection H as E1 E2 _ _ _. by rewrite E1, E2.
Qed.

Lemma same_view_high_step m m' hi x :
  same_view m m' → high_step m' hi x = high_step m hi x.
Proof.
  intros H. specialize (H x). unfold high_step, is_ready, sched_view in *.
  destruct (m' !! x), (m !! x); simpl in *; [|done|done|done].
  injection H as E1 E2 _ _ _. by rewrite E1, E2.
Qed.

Lemma same_view_high m m' l : same_view m m' → high_ready m' l = high_ready m l.
Proof.
  intros H. unfold high_ready. generalize 0. induction l as [|x l IH]; intros z; [done|].
  simpl. by rewrite (same_view_high_step m m' _ _ H), IH.
Qed.

Lemma same_view_first m m' hi l :
  same_view m m' → first_runnable m' hi l = first_runnable m hi l.
Proof.
  intros H. unfold first_runnable. induction l as [|x l IH]; [done|].
  simpl. by rewrite (same_view_runnable m m' _ _ H), IH.
Qed.

(** A ring survives any change of the store that keeps the links. *)
Lemma ring_same_links k k' l :
  same_links (tcb k) (tcb k') l → pstCurrentTask k' = pstCurrentTask k →
  ring k l → ring k' l.
Proof.
  intros Hl Hc (? & ? & ? & ?). repeat split; [done|done|congruence|].
  by eapply seg_same_links.
Qed.

(** The highest ready priority does not depend on where the ring is entered. *)
Lemma high_ready_perm m l l' : l ≡ₚ l' → high_ready m l = high_ready m l'.
Proof.
  intros Hp. unfold high_ready.
  assert (∀ l1 l2, l1 ≡ₚ l2 → foldl (high_step m) 0 l1 <= foldl (high_step m) 0 l2) as Hle.
  { intros l1 l2 H12. destruct (foldl_high_attained m l1 0) as [->|(x & t & Hx & Ht & Hr & <-)].
    - apply foldl_high_le.
    - apply (foldl_high_upper m l2 0 x t); [by rewrite <- H12|done|done]. }
  apply Z.le_antisymm; apply Hle; [done|by symmetry].
Qed.

(** ** The scheduler list *)

(** [Task_Add] never fails on a block outside the list, makes the task
    ready, inserts it right after the current task (or creates the list),
    and leaves every control block but the new one and the current one
    untouched. *)
Theorem Task_Add_inserts k l p t :
  sched_list k l → tcb k !! p = Some t → p ∉ l →
  ∃ k', Task_Add (Some p) k = Ok (k', true) ∧
    sched_list k' (insert_after_head p l) ∧
    (∃ t', tcb k' !! p = Some t' ∧ eState t' = TASK_READY) ∧
    (∀ x, x ≠ p → Some x ≠ head l → tcb k' !! x = tcb k !! x).
Proof.
  intros Hl Hp Hin. unfold Task_Add.
  rewrite (upd_task_some _ _ _ _ Hp), bind_ok. cbn [pstCurrentTask set_tcb tcb].
  destruct l as [|c rest].
  - simpl in Hl. rewrite Hl. cbn [tcb pstCurrentTask set_pstCurrentTask set_tcb].
    erewrite upd_task_some by (simpl; apply lookup_insert_eq).
    eexists. split; [done|]. cbn. rewrite insert_insert_eq. repeat split.
    + done.
    + apply NoDup_singleton.
    + eexists. kcbn. rewrite lookup_insert_eq. done.
    + eexists. rewrite lookup_insert_eq. done.
    + intros x Hx _. by rewrite lookup_insert_ne.
  - destruct (ring_cons _ _ Hl) as (c' & tc & r' & [= <- <-] & Hc & Htc & Hcr & Hnd & Hs).
    assert (c ≠ p) by set_solver. assert (p ∉ rest) by set_solver.
    rewrite Hc. unfold deref. rewrite lookup_insert_ne, Htc, bind_ok by done.
    erewrite upd_task_some by (simpl; apply lookup_insert_eq).
    rewrite bind_ok. cbn [tcb pstCurrentTask set_tcb]. rewrite insert_insert_eq, Hc.
    erewrite upd_task_some by (simpl; rewrite lookup_insert_ne; done).
    eexists. split; [done|]. cbn [tcb pstCurrentTask set_tcb insert_after_head sched_list].
    split; [|split].
    + repeat split; [done| |done|].
      * apply NoDup_cons. split; [set_solver|]. by apply NoDup_cons.
      * eexists. kcbn. rewrite lookup_insert_eq. split; [done|]. split; [done|].
        eexists. rewrite lookup_insert_ne, lookup_insert_eq by done. split; [done|].
        kcbn. eapply seg_same_links; [|exact Hs].
        eapply same_links_trans; by apply same_links_insert_notin.
    + eexists. by rewrite lookup_insert_ne, lookup_insert_eq by done.
    + intros x Hx Hh. simpl in Hh. rewrite !lookup_insert_ne by congruence. done.
Qed.

Lemma Task_Add_inserts_witness :
  let k := set_tcb (<[4%nat := example_task 9 TASK_STOPPED 4 NULL NULL]>
             (tcb (example_kernel (example_task 3 TASK_READY 4 (Some 3%nat) NULL)
               (example_task 2 TASK_READY 4 (Some 1%nat) NULL))))
             (example_kernel (example_task 3 TASK_READY 4 (Some 3%nat) NULL)
               (example_task 2 TASK_READY 4 (Some 1%nat) NULL)) in
  ∃ k', Task_Add (Some 4%nat) k = Ok (k', true) ∧ sched_list k' [1; 4; 2; 3]%nat.
Proof.
  intros k. destruct (Task_Add_inserts k [1; 2; 3]%nat 4%nat (example_task 9 TASK_STOPPED 4 NULL NULL))
    as (k' & H1 & H2 & _).
  - solve_ring.
  - done.
  - solve_example.
  - eauto.
Defined.

Lemma KernelSWI_Trigger_tcb k : tcb (KernelSWI_Trigger k) = tcb k.
Proof. unfold KernelSWI_Trigger. by destruct (Task_IsSchedulerEnabled k). Qed.

Lemma KernelSWI_Trigger_current k :
  pstCurrentTask (KernelSWI_Trigger k) = pstCurrentTask k.
Proof. unfold KernelSWI_Trigger. by destruct (Task_IsSchedulerEnabled k). Qed.

(** The pulse on port D is a rising edge whatever the state of the port. *)
Lemma KernelSWI_Trigger_request k :
  INT0_request (KernelSWI_Trigger k) = INT0_request k || bGlobalTaskEnable k.
Proof.
  unfold KernelSWI_Trigger, Task_IsSchedulerEnabled, write_PORTD.
  destruct (bGlobalTaskEnable k); kcbn; [|by rewrite orb_false_r].
  rewrite Z.lor_spec, !Z.land_spec, Z.lnot_spec by lia.
  change (Z.testbit 4 2) with true.
  by destruct (INT0_request k), (Z.testbit (PORTD k) 2).
Qed.

Lemma Task_YieldSWI_request k :
  INT0_request (Task_YieldSWI k) = INT0_request k || bGlobalTaskEnable k.
Proof. apply KernelSWI_Trigger_request. Qed.

Lemma Task_YieldSWI_tcb k : tcb (Task_YieldSWI k) = tcb k.
Proof. apply KernelSWI_Trigger_tcb. Qed.

Lemma Task_YieldSWI_current k : pstCurrentTask (Task_YieldSWI k) = pstCurrentTask k.
Proof. apply KernelSWI_Trigger_current. Qed.

(** The predecessor search of [Task_Remove] from any block of the ring. *)
Lemma find_prev_ring k l1 x l2 t :
  ring k (l1 ++ x :: l2) → tcb k !! x = Some t →
  find_prev (ring_fuel k) (tcb k) (Some x) (Some x) (pstNext t)
    = Ok (Some (default x (last (l2 ++ l1)))).
Proof.
  intros Hr Ht. pose proof (ring_fuel_enough _ _ Hr) as Hf.
  destruct (ring_reenter _ _ _ _ Hr) as (_ & Hnd & _ & Hs).
  destruct Hs as (_ & t' & Ht' & Hs). cbn in Ht', Hs.
  assert (t' = t) as -> by congruence. apply NoDup_cons in Hnd as [Hx _].
  rewrite (find_prev_seg _ _ _ _ _ _ Hs Hx).
  - by destruct (last (l2 ++ l1)).
  - rewrite length_app in *. simpl in *. lia.
Qed.

Lemma Task_Remove_ring k l1 x l2 :
  l1 ≠ [] → ring k (l1 ++ x :: l2) →
  ∃ k', Task_Remove (Some x) k = Ok (k', false) ∧ ring k' (l1 ++ l2) ∧
    ∃ t', tcb k' !! x = Some t' ∧ pstNext t' = NULL ∧ eState t' = TASK_UNINIT.
Proof.
  intros Hne Hr. destruct (ring_lookup _ _ x Hr) as [t Ht]; [set_solver|].
  unfold Task_Remove. rewrite (deref_some _ _ _ Ht), bind_ok.
  rewrite (find_prev_ring _ _ _ _ _ Hr Ht), bind_ok.
  destruct (exists_last Hne) as (l0 & y & ->).
  rewrite app_assoc, last_snoc. cbn [default].
  destruct Hr as (_ & Hnd & Hc & Hs).
  assert (x ≠ y ∧ x ∉ l0 ∧ x ∉ l2 ∧ y ∉ l0 ∧ y ∉ l2 ∧ NoDup ((l0 ++ [y]) ++ l2)) as
    (Hxy & Hx0 & Hx2 & Hy0 & Hy2 & Hnd').
  { rewrite <- Permutation_middle in Hnd. apply NoDup_cons in Hnd as [Hx Hnd].
    split; [set_solver|]. split; [set_solver|]. split; [set_solver|].
    assert (Hnd2 := Hnd). rewrite <- app_assoc in Hnd2. simpl in Hnd2.
    rewrite <- Permutation_middle in Hnd2. apply NoDup_cons in Hnd2 as [Hy _].
    set_solver. }
  assert (head ((l0 ++ [y]) ++ x :: l2) = head ((l0 ++ [y]) ++ l2)) as Hh by (by destruct l0).
  rewrite Hh in Hc, Hs. clear Hh. set (h := head ((l0 ++ [y]) ++ l2)) in *.
  apply seg_split in Hs as [H1 (_ & t0 & Ht0 & H2)].
  assert (t0 = t) as -> by congruence. apply seg_snoc in H1 as (H0 & ty & Hty & _).
  rewrite (upd_task_some _ _ _ _ Hty), bind_ok.
  erewrite upd_task_some by (kcbn; rewrite lookup_insert_ne by done; exact Ht).
  rewrite bind_ok. erewrite upd_task_some by (kcbn; apply lookup_insert_eq).
  rewrite bind_ok. eexists. split; [done|]. split.
  - unfold ring. rewrite Task_YieldSWI_tcb, Task_YieldSWI_current. kcbn.
    split; [by destruct l0|]. split; [done|]. split; [done|]. fold h.
    rewrite insert_insert_eq. apply seg_app. exists (pstNext t). split.
    + apply seg_snoc. split.
      * eapply seg_same_links; [|exact H0].
        eapply same_links_trans; by apply same_links_insert_notin.
      * eexists. rewrite lookup_insert_ne, lookup_insert_eq by done. done.
    + eapply seg_same_links; [|exact H2].
      eapply same_links_trans; by apply same_links_insert_notin.
  - rewrite Task_YieldSWI_tcb. kcbn. rewrite lookup_insert_eq. eauto.
Qed.

(** Removing a task that is not running takes exactly that task out of
    the circular list, which stays well formed and is still entered at the
    running task; the removed block is unlinked and uninitialised. *)
Theorem Task_Remove_removes k l1 x l2 :
  l1 ≠ [] → sched_list k (l1 ++ x :: l2) →
  ∃ k', Task_Remove (Some x) k = Ok (k', false) ∧ sched_list k' (l1 ++ l2) ∧
    ∃ t', tcb k' !! x = Some t' ∧ pstNext t' = NULL ∧ eState t' = TASK_UNINIT.
Proof.
  intros Hne Hr. destruct l1 as [|c l1]; [done|].
  exact (Task_Remove_ring k (c :: l1) x l2 Hne Hr).
Qed.

Lemma Task_Remove_removes_witness :
  let k := example_kernel (example_task 3 TASK_READY 4 (Some 3%nat) NULL)
             (example_task 2 TASK_READY 4 (Some 1%nat) NULL) in
  ∃ k', Task_Remove (Some 2%nat) k = Ok (k', false) ∧ ring k' [1; 3]%nat.
Proof.
  intros k. destruct (Task_Remove_removes k [1]%nat 2%nat [3]%nat) as (k' & H1 & H2 & _).
  - done.
  - by apply example_ring.
  - eauto.
Defined.

(** A task that removes itself leaves the scheduler's entry pointer on
    its own unlinked block, so that the next context switch follows a null
    [pstNext]. *)
Theorem Task_Remove_running_breaks_switch k x rest :
  ring k (x :: rest) →
  ∃ k', Task_Remove (Some x) k = Ok (k', false) ∧ pstCurrentTask k' = Some x ∧
        Task_Switch k' = Fault NullDeref.
Proof.
  intros Hr. destruct (ring_lookup _ _ x Hr) as [t Ht]; [set_solver|].
  assert (pstCurrentTask k = Some x) as Hc by apply Hr.
  unfold Task_Remove. rewrite (deref_some _ _ _ Ht), bind_ok.
  rewrite (find_prev_ring k [] x rest t Hr Ht), bind_ok, app_nil_r.
  set (y := default x (last rest)).
  assert (y ∈ x :: rest) as Hy.
  { subst y. destruct (last rest) eqn:E; [|set_solver].
    apply last_Some_elem_of in E. set_solver. }
  destruct (ring_lookup _ _ y Hr Hy) as [ty Hty].
  rewrite (upd_task_some _ _ _ _ Hty), bind_ok.
  assert (∃ t1, <[y:=set_pstNext (pstNext t) ty]> (tcb k) !! x = Some t1) as [t1 Ht1].
  { rewrite lookup_insert. case_decide; eauto. }
  erewrite upd_task_some by (kcbn; exact Ht1).
  rewrite bind_ok. erewrite upd_task_some by (kcbn; apply lookup_insert_eq).
  rewrite bind_ok. eexists. split; [done|].
  rewrite Task_YieldSWI_current. split; [done|].
  unfold Task_Switch, ring_fuel. rewrite Task_YieldSWI_tcb, Task_YieldSWI_current. kcbn.
  rewrite insert_insert_eq, Hc. cbn [switch_high].
  rewrite (deref_some _ x _ (lookup_insert_eq _ _ _)), bind_ok. kcbn.
  rewrite decide_False by done.
  destruct (size _) eqn:Es.
  - apply map_size_empty_iff in Es. by apply insert_non_empty in Es.
  - done.
Qed.

(** ** The scheduler *)

Lemma stack_margin_total l m z :
  (∀ a, a ∈ l → is_Some (m !! a)) → ∃ r, stack_margin l m z = Ok r.
Proof.
  revert z. induction l as [|a l IH]; intros z Hm; simpl; [eauto|].
  destruct (Hm a) as [v Hv]; [set_solver|]. unfold peek. rewrite Hv, bind_ok.
  case_decide; [eauto|]. apply IH. set_solver.
Qed.

Lemma stack_check_total k x t :
  pstCurrentTask k = Some x → tcb k !! x = Some t →
  (∀ a, pwStack t <= a < pwStack t + usStackSize t → is_Some (ram k !! a)) →
  ∃ r, Task_StackCheck k = Ok (set_tcb (<[x := set_usStackMargin r t]> (tcb k)) k).
Proof.
  intros Hc Ht Hm. unfold Task_StackCheck.
  rewrite Hc, (deref_some _ _ _ Ht), bind_ok.
  destruct (stack_margin_total (zseq (pwStack t) (usStackSize t)) (ram k) 0) as [r Hr].
  { intros a Ha. apply Hm. unfold zseq in Ha. apply elem_of_seqZ in Ha. lia. }
  exists r. by rewrite Hr, bind_ok, (upd_task_some _ _ _ _ Ht).
Qed.

(** The order in which [Task_Switch] offers the processor. *)
Lemma ring_advance k c rest l1 x l2 :
  ring k (c :: rest) → rest ++ [c] = l1 ++ x :: l2 →
  ring (set_pstCurrentTask (Some x) k) (x :: l2 ++ l1).
Proof.
  intros Hr E. destruct rest as [|y r].
  - destruct l1 as [|? [|? ?]]; simpl in E; [|discriminate E|discriminate E].
    injection E as <- <-. destruct Hr as (? & ? & ? & ?). done.
  - pose proof (ring_reenter k [c] y r Hr) as Hr'.
    replace (y :: r ++ [c]) with (l1 ++ x :: l2) in Hr' by (by rewrite <- E).
    apply ring_reenter in Hr'. by destruct Hr' as (? & ? & ? & ?).
Qed.

Lemma switch_loops k c tc rest :
  ring k (c :: rest) → tcb k !! c = Some tc →
  switch_high (ring_fuel k) (tcb k) (Some c) (Some c) 0 = Ok (high_ready (tcb k) (c :: rest)) ∧
  switch_find (ring_fuel k) (tcb k) (pstNext tc) (pstNext tc) (high_ready (tcb k) (c :: rest))
    = Ok (next_task (tcb k) (c :: rest)).
Proof.
  intros Hr Htc. pose proof (ring_fuel_enough _ _ Hr) as Hf.
  destruct Hr as (_ & Hnd & _ & Hs). apply NoDup_cons in Hnd as [Hcr Hnd].
  split.
  - apply switch_high_seg; [done|done| |simpl in *; lia]. set_solver.
  - pose proof (seg_rotate _ _ _ _ Htc Hs) as Hs'.
    assert (pstNext tc = head (rest ++ [c])) as Hh by (by destruct rest; apply Hs').
    rewrite (switch_find_seg _ _ (rest ++ [c])); [| |done| |].
    + unfold next_task. rewrite <- Hh. by destruct (first_runnable _ _ _).
    + by destruct rest.
    + rewrite Hh. destruct rest as [|y r]; [set_solver|]. simpl.
      apply NoDup_cons in Hnd as [? ?]. set_solver.
    + rewrite length_app. simpl in *. lia.
Qed.

Lemma next_task_split m c rest :
  ∃ l1 x l2, next_task m (c :: rest) = Some x ∧ rest ++ [c] = l1 ++ x :: l2.
Proof.
  unfold next_task. destruct (first_runnable _ _ _) as [x|] eqn:E.
  - apply first_runnable_some in E as (l1 & l2 & E & _). eauto.
  - destruct rest as [|y r]; [exists [], c, []|exists [], y, (r ++ [c])]; done.
Qed.

(** One context switch, in full: the chosen task is current, its quantum is
    reloaded and its stack margin measured, nothing else changes. *)
Lemma Task_Switch_run k c rest :
  ring k (c :: rest) → stacks_mapped k (c :: rest) →
  ∃ l1 x l2 t r, next_task (tcb k) (c :: rest) = Some x ∧ rest ++ [c] = l1 ++ x :: l2 ∧
    tcb k !! x = Some t ∧
    Task_Switch k = Ok (set_tcb (<[x := set_usStackMargin r (set_usTimeLeft (usQuantum t) t)]>
                          (tcb k)) (set_pstCurrentTask (Some x) k)).
Proof.
  intros Hr Hm. destruct (next_task_split (tcb k) c rest) as (l1 & x & l2 & Hx & E).
  assert (x ∈ c :: rest) as Hin.
  { assert (x ∈ rest ++ [c]) by (rewrite E; set_solver). set_solver. }
  destruct (ring_lookup _ _ c Hr) as [tc Htc]; [set_solver|].
  destruct (ring_lookup _ _ x Hr Hin) as [t Ht].
  destruct (switch_loops _ _ _ _ Hr Htc) as [H1 H2].
  unfold Task_Switch. rewrite (proj1 (proj2 (proj2 Hr))). cbn [head].
  rewrite H1, bind_ok, (deref_some _ _ _ Htc), bind_ok, H2, bind_ok, Hx.
  set (k1 := set_tcb (<[x:=set_usTimeLeft (usQuantum t) t]> (tcb k))
               (set_pstCurrentTask (Some x) k)).
  change (pstCurrentTask (set_pstCurrentTask (Some x) k)) with (Some x).
  rewrite (upd_task_some x t _ (set_pstCurrentTask (Some x) k) Ht), bind_ok.
  destruct (stack_check_total k1 x (set_usTimeLeft (usQuantum t) t))
    as [r Hchk]; [done|apply lookup_insert_eq| |].
  - kcbn. intros a Ha. by eapply Hm.
  - exists l1, x, l2, t, r. split; [done|]. split; [done|]. split; [done|].
    etrans; [exact Hchk|]. subst k1. kcbn. by rewrite insert_insert_eq.
Qed.

(** What one switch preserves, for the place of the chosen task in the ring. *)
Lemma Task_Switch_step k c rest :
  ring k (c :: rest) → stacks_mapped k (c :: rest) →
  ∃ k' x, Task_Switch k = Ok k' ∧ next_task (tcb k) (c :: rest) = Some x ∧
    pstCurrentTask k' = Some x ∧ same_view (tcb k) (tcb k') ∧
    (∀ l1 l2, rest ++ [c] = l1 ++ x :: l2 →
       ring k' (x :: l2 ++ l1) ∧ stacks_mapped k' (x :: l2 ++ l1)).
Proof.
  intros Hr Hm.
  destruct (Task_Switch_run k c rest Hr Hm) as (_ & x & _ & t & r & Hx & _ & Ht & Hsw).
  eexists _, x. split; [exact Hsw|]. split; [done|]. split; [done|].
  assert (same_view (tcb k) (<[x:=set_usStackMargin r (set_usTimeLeft (usQuantum t) t)]> (tcb k)))
    as Hv by (by eapply same_view_insert).
  split; [done|]. intros l1 l2 E. split.
  - eapply ring_same_links; [| |by eapply ring_advance]; [|done].
    by apply same_view_links.
  - intros y ty a Hy Hty Ha. kcbn.
    destruct (same_view_lookup _ _ y ty (fun z => eq_sym (Hv z)) Hty) as (ty' & Hty' & [= _ _ _ E1 E2]).
    apply (Hm y ty'); [|done|lia].
    assert (y ∈ rest ++ [c]) by (rewrite E; set_solver). set_solver.
Qed.

(** The task chosen next is ready and of the highest priority. *)
Lemma next_task_highest m c rest x y ty :
  next_task m (c :: rest) = Some x → y ∈ c :: rest → m !! y = Some ty →
  eState ty = TASK_READY → 0 <= ucPriority ty →
  ∃ tx, m !! x = Some tx ∧ eState tx = TASK_READY ∧
    (∀ z tz, z ∈ c :: rest → m !! z = Some tz → eState tz = TASK_READY →
       ucPriority tz <= ucPriority tx).
Proof.
  intros Hn Hy Hty Hrdy Hpos.
  assert (∀ t, eState t = TASK_READY ↔ is_ready t = true) as Hir.
  { intros t. unfold is_ready. by rewrite bool_decide_eq_true. }
  set (hi := high_ready m (c :: rest)).
  assert (ucPriority ty <= hi) by (eapply foldl_high_upper; [done|done|by apply Hir]).
  assert (∃ w tw, w ∈ c :: rest ∧ m !! w = Some tw ∧ is_ready tw = true ∧ ucPriority tw = hi) as (w & tw & Hw & Htw & Hrw & Hpw).
  { destruct (foldl_high_attained m (c :: rest) 0) as [H0|H0]; [|exact H0]. exists y, ty. rewrite <- Hir.
    split; [done|]. split; [done|]. split; [done|]. subst hi. unfold high_ready in *. lia. }
  assert (is_Some (first_runnable m hi (rest ++ [c]))) as [x' Hx'].
  { apply first_runnable_exists with w; [set_solver|]. unfold runnable.
    rewrite Htw, Hrw. simpl. apply Z.eqb_eq. exact Hpw. }
  assert (x' = x) as -> by (simpl in Hn; fold hi in Hn; rewrite Hx' in Hn; congruence).
  apply first_runnable_some in Hx' as (_ & _ & _ & Hrun & _). unfold runnable in Hrun.
  destruct (m !! x) as [tx|] eqn:Htx; [|done]. apply andb_prop in Hrun as [Hrx Hpx]. zb.
  exists tx. split; [done|]. split; [by apply Hir|].
  intros z tz Hz Htz Hrz. rewrite Hpx. eapply foldl_high_upper; [done|done|by apply Hir].
Qed.

(** C1: the scheduler is a strict priority scheduler: whenever some task of
    the ring is ready, of whatever priority (an unsigned number, so the idle
    task with its priority 0 is one), [Task_Switch] returns, the task it
    makes current is ready, no ready task has a higher priority, and the ring
    is kept (entered at the new task). *)
Theorem Task_Switch_priority k l y ty :
  ring k l → stacks_mapped k l → y ∈ l → tcb k !! y = Some ty →
  eState ty = TASK_READY → 0 <= ucPriority ty →
  ∃ k' x tx l', Task_Switch k = Ok k' ∧ pstCurrentTask k' = Some x ∧
    ring k' l' ∧ l' ≡ₚ l ∧
    tcb k !! x = Some tx ∧ eState tx = TASK_READY ∧
    (∀ z tz, z ∈ l → tcb k !! z = Some tz → eState tz = TASK_READY →
       ucPriority tz <= ucPriority tx).
Proof.
  intros Hr Hm Hy Hty Hrdy Hpos. destruct l as [|c rest]; [set_solver|].
  destruct (Task_Switch_step k c rest Hr Hm) as (k' & x & Hsw & Hn & Hc & _ & Hring).
  destruct (next_task_split (tcb k) c rest) as (l1 & x' & l2 & Hx' & E).
  assert (x' = x) as -> by congruence. destruct (Hring _ _ E) as [Hr' _]. clear Hx' Hring.
  destruct (next_task_highest _ _ _ _ _ _ Hn Hy Hty Hrdy Hpos) as (tx & Htx).
  exists k', x, tx, (x :: l2 ++ l1). do 3 (split; [done|]). split; [|exact Htx].
  rewrite (Permutation_app_comm l2 l1), Permutation_middle, <- E.
  by rewrite Permutation_app_comm.
Qed.

Lemma Task_Switch_priority_witness :
  let k := example_kernel (example_task 3 TASK_SLEEP 4 (Some 3%nat) NULL)
             (example_task 0 TASK_READY 4 (Some 1%nat) NULL) in
  let k := set_tcb (<[1%nat := example_task 1 TASK_SLEEP 9 (Some 2%nat) NULL]> (tcb k)) k in
  ∃ k' tx, Task_Switch k = Ok k' ∧ pstCurrentTask k' = Some 3%nat ∧
    tcb k !! 3%nat = Some tx ∧ ucPriority tx = 0.
Proof.
  intros k0 k.
  destruct (Task_Switch_priority k [1; 2; 3]%nat 3%nat (example_task 0 TASK_READY 4 (Some 1%nat) NULL))
    as (k' & x & tx & l' & Hk & Hc & _).
  - subst k. solve_ring.
  - intros x t a _ Ht Ha. assert (usStackSize t = 0); [|lia]. subst k; cbn [tcb set_tcb] in Ht; apply lookup_insert_Some in Ht as [[_ <-]|[_ Ht]]; [done|].
    revert Ht. by apply (example_blocks (λ _ t, usStackSize t = 0)).
  - solve_example.
  - done.
  - done.
  - done.
  - vm_compute in Hk. simplify_eq. eexists _, _. repeat split.
Defined.

(** With no ready task at all [Task_Switch] does not wait: it makes the block
    after the current one the running task although that task is not ready. *)
Theorem Task_Switch_nothing_ready k c rest :
  ring k (c :: rest) → stacks_mapped k (c :: rest) →
  (∀ z tz, z ∈ c :: rest → tcb k !! z = Some tz → eState tz ≠ TASK_READY) →
  ∃ k', Task_Switch k = Ok k' ∧ pstCurrentTask k' = head (rest ++ [c]).
Proof.
  intros Hr Hm Hnone.
  destruct (Task_Switch_step k c rest Hr Hm) as (k' & x & Hsw & Hn & Hc & _).
  exists k'. split; [done|]. rewrite Hc, <- Hn. unfold next_task.
  destruct (first_runnable _ _ _) as [z|] eqn:F; [|done].
  apply first_runnable_some in F as (a & b & Eab & Hrun & _). unfold runnable in Hrun.
  destruct (tcb k !! z) as [tz|] eqn:Htz; [|done]. apply andb_prop in Hrun as [Hrz _].
  unfold is_ready in Hrz. zb. exfalso. apply (Hnone z tz); [|done|done].
  assert (z ∈ rest ++ [c]) by (rewrite Eab; set_solver). set_solver.
Qed.

(** Repeated switches with no other kernel activity in between. *)
Fixpoint switch_n (n : nat) (k : KERNEL) : res KERNEL :=
  match n with
  | O => Ok k
  | S n => k' ← Task_Switch k; switch_n n k'
  end.

Lemma runnable_app_inv m hi l1 y l2 pre x post :
  l1 ++ y :: l2 = pre ++ x :: post →
  (∀ z, z ∈ l1 → runnable m hi z = false) → runnable m hi x = true →
  y = x ∨ ∃ p2, pre = l1 ++ y :: p2 ∧ l2 = p2 ++ x :: post.
Proof.
  intros E Hn Hx. apply app_eq_inv in E as [(w & -> & E)|(w & -> & E)].
  - destruct w as [|w0 w]; simplify_eq/=; [by left|].
    rewrite Hn in Hx by set_solver. done.
  - destruct w as [|w0 w]; simplify_eq/=; [by left|]. right. eauto.
Qed.

Lemma round_robin_aux n k c rest pre x post :
  length pre = n → ring k (c :: rest) → stacks_mapped k (c :: rest) →
  rest ++ [c] = pre ++ x :: post →
  runnable (tcb k) (high_ready (tcb k) (c :: rest)) x = true →
  ∃ i k', (1 <= i <= S n)%nat ∧ switch_n i k = Ok k' ∧ pstCurrentTask k' = Some x.
Proof.
  revert k c rest pre post. induction n as [n IH] using lt_wf_ind.
  intros k c rest pre post Hlen Hr Hm E Hx.
  destruct (Task_Switch_step k c rest Hr Hm) as (k' & y & Hsw & Hn & Hc & Hv & Hring).
  assert (is_Some (first_runnable (tcb k) (high_ready (tcb k) (c :: rest)) (rest ++ [c]))) as [y' Hy'].
  { apply first_runnable_exists with x; [rewrite E; set_solver|done]. }
  assert (y' = y) as -> by (unfold next_task in Hn; rewrite Hy' in Hn; congruence).
  apply first_runnable_some in Hy' as (l1 & l2 & E1 & Hry & Hnr).
  destruct (Hring _ _ E1) as [Hr' Hm']. rewrite E in E1.
  destruct (runnable_app_inv _ _ _ _ _ _ _ _ (eq_sym E1) Hnr Hx) as [->|(p2 & -> & ->)].
  { exists 1%nat, k'. simpl. rewrite Hsw. split; [lia|]. done. }
  rewrite length_app in Hlen. simpl in Hlen.
  destruct (IH (length p2) ltac:(lia) k' y ((p2 ++ x :: post) ++ l1) p2 (post ++ l1 ++ [y]))
    as (i & k'' & Hi & Hsn & Hcx); [done|done|done|by rewrite <- !app_assoc| |].
  - rewrite (same_view_runnable _ _ _ _ Hv), (same_view_high _ _ _ Hv).
    rewrite (high_ready_perm _ _ (c :: rest)); [done|].
    rewrite (Permutation_app_comm _ l1), Permutation_middle.
    assert (c :: rest ≡ₚ rest ++ [c]) as -> by (by rewrite Permutation_app_comm).
    by rewrite E, <- app_assoc.
  - exists (S i), k''. split; [lia|]. simpl. by rewrite Hsw.
Qed.

(** C2: round robin: a ready task whose priority is the highest ready one is
    given the processor after at most as many switches as the ring has
    tasks, whatever its position. *)
Theorem Task_Switch_round_robin k l x t :
  ring k l → stacks_mapped k l → x ∈ l → tcb k !! x = Some t →
  eState t = TASK_READY → ucPriority t = high_ready (tcb k) l →
  ∃ i k', (1 <= i <= length l)%nat ∧ switch_n i k = Ok k' ∧ pstCurrentTask k' = Some x.
Proof.
  intros Hr Hm Hx Ht Hrdy Hp. destruct l as [|c rest]; [set_solver|].
  assert (x ∈ rest ++ [c]) as (pre & post & E)%list_elem_of_split by set_solver.
  destruct (round_robin_aux (length pre) k c rest pre x post) as (i & k' & Hi & ? & ?);
    [done|done|done|done| |].
  - unfold runnable, is_ready. rewrite Ht, Hrdy, Hp. simpl. by rewrite Z.eqb_refl.
  - exists i, k'. split; [|done].
    assert (length (rest ++ [c]) = length (pre ++ x :: post)) as El by (by rewrite E).
    rewrite !length_app in El. simpl in *. lia.
Qed.

Lemma Task_Switch_round_robin_witness :
  let k := example_kernel (example_task 1 TASK_READY 4 (Some 3%nat) NULL)
             (example_task 1 TASK_READY 4 (Some 1%nat) NULL) in
  ∃ i k', (1 <= i <= 3)%nat ∧ switch_n i k = Ok k' ∧ pstCurrentTask k' = Some 3%nat.
Proof.
  apply (Task_Switch_round_robin _ [1; 2; 3]%nat 3%nat (example_task 1 TASK_READY 4 (Some 1%nat) NULL)).
  - by apply example_ring.
  - by apply example_stacks.
  - solve_example.
  - done.
  - done.
  - done.
Defined.

(** ** The tick *)

Lemma tick_task_frame t :
  ucPriority (tick_task t).1 = ucPriority t ∧ pstNext (tick_task t).1 = pstNext t ∧
  pwStack (tick_task t).1 = pwStack t ∧ usStackSize (tick_task t).1 = usStackSize t ∧
  usQuantum (tick_task t).1 = usQuantum t.
Proof.
  unfold tick_task. destruct (eState t); simpl; repeat case_match; done.
Qed.

Lemma tick_quantum_frame t :
  ucPriority (tick_quantum t).1 = ucPriority t ∧ pstNext (tick_quantum t).1 = pstNext t ∧
  eState (tick_quantum t).1 = eState t.
Proof. unfold tick_quantum. repeat case_match; done. Qed.

(** Task [x] ends its wait in this tick and outranks priority [pc]. *)
Definition wakes_over (m : gmap nat TASK_STRUCT) (pc : Z) (x : nat) : bool :=
  match m !! x with
  | Some t => (tick_task t).2 && (pc <? ucPriority t)
  | None => false
  end.

Lemma wakes_over_ext m m' pc l :
  (∀ x, x ∈ l → m' !! x = m !! x) → existsb (wakes_over m' pc) l = existsb (wakes_over m pc) l.
Proof.
  intros H. induction l as [|x l IH]; [done|]. simpl.
  rewrite IH by set_solver. f_equal. unfold wakes_over. by rewrite H by set_solver.
Qed.

Lemma tick_loop_seg fuel k p l q run c tc :
  l ≠ [] → NoDup l → seg (tcb k) p l q → q ∉ Some <$> tail l → (length l ≤ fuel)%nat →
  pstCurrentTask k = Some c → tcb k !! c = Some tc →
  ∃ m', tick_loop fuel q p run k =
      Ok (set_tcb m' k, run || existsb (wakes_over (tcb k) (ucPriority tc)) l) ∧
    ∀ x, m' !! x = if decide (x ∈ l) then fst ∘ tick_task <$> tcb k !! x else tcb k !! x.
Proof.
  revert fuel k p run tc. induction l as [|x l IH]; intros fuel k p run tc Hne Hnd Hs Hq Hf Hc Htc;
    [done|].
  apply NoDup_cons in Hnd as [Hx Hnd]. destruct fuel as [|fuel]; simpl in Hf; [lia|].
  destruct Hs as (-> & t & Ht & Hs). cbn [tick_loop].
  destruct (tick_task_frame t) as (Hp & Hn & _).
  rewrite (deref_some _ _ _ Ht), bind_ok, (upd_task_some _ _ _ _ Ht), bind_ok.
  set (k1 := set_tcb (<[x := (tick_task t).1]> (tcb k)) k).
  assert (∃ tc1, tcb k1 !! c = Some tc1 ∧ ucPriority tc1 = ucPriority tc) as (tc1 & Htc1 & Hpc).
  { subst k1. kcbn. destruct (decide (x = c)) as [->|].
    - rewrite lookup_insert_eq. eexists. split; [done|]. congruence.
    - rewrite lookup_insert_ne by done. eauto. }
  change (pstCurrentTask k1) with (pstCurrentTask k). rewrite Hc.
  rewrite (deref_some _ _ _ Htc1), bind_ok.
  rewrite (deref_some (tcb k1) x _ (lookup_insert_eq _ _ _)), bind_ok, Hp, Hn, Hpc.
  assert (existsb (wakes_over (tcb k) (ucPriority tc)) (x :: l) =
    (tick_task t).2 && (ucPriority tc <? ucPriority t) ||
    existsb (wakes_over (tcb k) (ucPriority tc)) l) as ->.
  { simpl. unfold wakes_over at 1. by rewrite Ht. }
  destruct l as [|y l].
  - simpl in Hs. rewrite decide_True by done. exists (tcb k1). split.
    + simpl. by rewrite orb_false_r.
    + intros z. subst k1. kcbn. case_decide as Hz.
      * assert (z = x) as -> by set_solver. by rewrite lookup_insert_eq, Ht.
      * by rewrite lookup_insert_ne by set_solver.
  - rewrite decide_False by (eapply seg_next_not_end; eauto).
    destruct (IH fuel k1 (pstNext t) (run || (tick_task t).2 && (ucPriority tc <? ucPriority t)) tc1)
      as (m' & -> & Hm'); [done|done| |set_solver|simpl in *; lia|done|done|].
    { eapply seg_same_links; [|done]. by apply same_links_insert_notin. }
    exists m'. split.
    + rewrite <- orb_assoc, Hpc, (wakes_over_ext (tcb k)); [done|].
      intros z Hz. subst k1. kcbn. by rewrite lookup_insert_ne by set_solver.
    + intros z. rewrite Hm'. subst k1. kcbn.
      destruct (decide (z = x)) as [->|Hzx].
      * rewrite decide_False by done. rewrite decide_True by set_solver.
        by rewrite lookup_insert_eq, Ht.
      * rewrite lookup_insert_ne by done. repeat case_decide; set_solver.
Qed.

Lemma Task_Tick_run k c tc rest :
  ring k (c :: rest) → tcb k !! c = Some tc →
  ∃ m', Task_Tick k = Ok (set_tcb m' k,
      bGlobalTaskEnable k &&
        ((tick_quantum tc).2 || existsb (wakes_over (tcb k) (ucPriority tc)) rest)) ∧
    ring (set_tcb m' k) (c :: rest) ∧
    m' !! c = Some (tick_task (tick_quantum tc).1).1 ∧
    (∀ x, x ∈ rest → m' !! x = fst ∘ tick_task <$> tcb k !! x) ∧
    (∀ x, x ∉ c :: rest → m' !! x = tcb k !! x).
Proof.
  intros Hr Htc. assert (Hf := ring_fuel_enough _ _ Hr).
  destruct (tick_quantum_frame tc) as (Hp & Hn & He).
  assert (NoDup (c :: rest)) as Hnd by apply Hr. assert (Hcr := Hnd). apply NoDup_cons in Hcr as [Hcr _].
  unfold Task_Tick. rewrite (proj1 (proj2 (proj2 Hr))). cbn [head].
  rewrite (deref_some _ _ _ Htc), bind_ok, (upd_task_some _ _ _ _ Htc), bind_ok.
  set (k1 := set_tcb (<[c := (tick_quantum tc).1]> (tcb k)) k).
  assert (ring k1 (c :: rest)) as Hr1.
  { apply (ring_same_links k k1); [|done|done]. by eapply same_links_insert. }
  assert (Hf1 := ring_fuel_enough _ _ Hr1).
  change (pstCurrentTask k1) with (pstCurrentTask k). rewrite (proj1 (proj2 (proj2 Hr))). cbn [head].
  destruct (tick_loop_seg (ring_fuel k1) k1 (Some c) (c :: rest) (Some c) (tick_quantum tc).2 c (tick_quantum tc).1)
    as (m' & -> & Hm'); [done|done|apply Hr1|set_solver|simpl in *; lia| | |].
  { change (pstCurrentTask k = Some c). apply Hr. }
  { apply lookup_insert_eq. }
  assert (tcb k1 !! c = Some (tick_quantum tc).1) as Hk1c by apply lookup_insert_eq.
  assert (∀ x, x ≠ c → tcb k1 !! x = tcb k !! x) as Hk1 by (intros; by apply lookup_insert_ne).
  exists m'. split; [|split; [|split; [|split]]].
  - rewrite bind_ok, Hp.
    assert (existsb (wakes_over (tcb k1) (ucPriority tc)) (c :: rest) =
            existsb (wakes_over (tcb k) (ucPriority tc)) rest) as ->.
    2: { cbn beta iota. change (bGlobalTaskEnable (set_tcb m' k1)) with (bGlobalTaskEnable k).
         by destruct (bGlobalTaskEnable k). }
    cbn [existsb]. unfold wakes_over at 1. rewrite Hk1c, Hp, Z.ltb_irrefl, andb_false_r.
    apply wakes_over_ext. intros x Hx. apply Hk1. set_solver.
  - apply (ring_same_links k1); [|done|exact Hr1]. intros x Hx. kcbn. rewrite Hm', decide_True by done.
    destruct (tcb k1 !! x) as [t|]; [|done]. simpl. f_equal. apply tick_task_frame.
  - rewrite Hm', decide_True by set_solver. by rewrite Hk1c.
  - intros x Hx. rewrite Hm', decide_True by set_solver. rewrite Hk1; [done|set_solver].
  - intros x Hx. rewrite Hm', decide_False by done. apply Hk1. set_solver.
Qed.

(** One tick, in full: it always returns on a well-formed ring, applies
    the wait rule to every task of the ring exactly once (after the quantum
    rule for the running one), touches no other block, keeps the ring, and
    asks for the scheduler exactly when it is enabled and the running task's
    quantum expired or a woken task outranks the running one. *)
Theorem Task_Tick_advances k c tc rest :
  ring k (c :: rest) → tcb k !! c = Some tc →
  ∃ m', Task_Tick k = Ok (set_tcb m' k,
      bGlobalTaskEnable k &&
        ((tick_quantum tc).2 || existsb (wakes_over (tcb k) (ucPriority tc)) rest)) ∧
    ring (set_tcb m' k) (c :: rest) ∧
    m' !! c = Some (tick_task (tick_quantum tc).1).1 ∧
    (∀ x, x ∈ rest → m' !! x = fst ∘ tick_task <$> tcb k !! x) ∧
    (∀ x, x ∉ c :: rest → m' !! x = tcb k !! x).
Proof. apply Task_Tick_run. Qed.

Lemma Task_Tick_advances_witness :
  let k := example_kernel (example_task 3 TASK_SLEEP 2 (Some 3%nat) NULL)
             (example_task 2 TASK_READY 4 (Some 1%nat) NULL) in
  ∃ m', Task_Tick k = Ok (set_tcb m' k, false) ∧ ring (set_tcb m' k) [1; 2; 3]%nat.
Proof.
  intros k. destruct (Task_Tick_advances k 1%nat (example_task 1 TASK_READY 4 (Some 2%nat) NULL) [2; 3]%nat)
    as (m' & H1 & H2 & _).
  - by apply example_ring.
  - done.
  - exists m'. split; [exact H1|exact H2].
Defined.

(** [n] ticks in a row, the same task running. *)
Fixpoint tick_n (n : nat) (k : KERNEL) : res KERNEL :=
  match n with
  | O => Ok k
  | S n => '(k', _) ← Task_Tick k; tick_n n k'
  end.

(** A task that is not running sees each tick as one application of the
    wait rule. *)
Lemma tick_n_waiting n k c rest x t :
  ring k (c :: rest) → x ∈ rest → tcb k !! x = Some t →
  ∃ k', tick_n n k = Ok k' ∧ ring k' (c :: rest) ∧
        tcb k' !! x = Some (Nat.iter n (fst ∘ tick_task) t).
Proof.
  revert k t. induction n as [|n IH]; intros k t Hr Hx Ht; [simpl; eauto|].
  destruct (ring_lookup _ _ c Hr) as [tc Htc]; [set_solver|].
  destruct (Task_Tick_run k c tc rest Hr Htc) as (m' & Htick & Hr' & _ & Hrest & _).
  cbn [tick_n]. rewrite Htick, bind_ok.
  destruct (IH (set_tcb m' k) (tick_task t).1 Hr' Hx) as (k' & Hk & Hring & Hlook).
  { kcbn. rewrite (Hrest x Hx), Ht. done. }
  exists k'. split; [done|]. split; [done|]. rewrite Hlook. f_equal.
  symmetry. apply (Nat.iter_succ_r n (fst ∘ tick_task) t).
Qed.

(** The wait rule, iterated. *)
Lemma tick_task_sleeping t n :
  eState t = TASK_SLEEP → 0 < usTimeLeft t < TIME_FOREVER → Z.of_nat n < usTimeLeft t →
  Nat.iter n (fst ∘ tick_task) t = set_usTimeLeft (usTimeLeft t - Z.of_nat n) t.
Proof.
  unfold TIME_FOREVER. intros He Ht. induction n as [|n IH]; intros Hn.
  - simpl. rewrite Z.sub_0_r. by destruct t.
  - rewrite Nat.iter_succ. rewrite IH by lia. unfold compose, tick_task. kcbn. rewrite He.
    destruct (Z.eqb_spec (usTimeLeft t - Z.of_nat n) TIME_FOREVER) as [E|_];
      [unfold TIME_FOREVER in E; lia|].
    cbn [negb]. kcbn. rewrite u16_small by lia.
    destruct (Z.eqb_spec (usTimeLeft t - Z.of_nat n - 1) 0) as [E|_]; [lia|].
    kcbn. unfold set_usTimeLeft. f_equal. lia.
Qed.

Lemma tick_task_sleep_end t :
  eState t = TASK_SLEEP → usTimeLeft t = 1 →
  (tick_task t).1 = set_usTimeLeft (usQuantum t) (set_eState TASK_READY t).
Proof. intros He Ht. unfold tick_task. by rewrite He, Ht. Qed.

Lemma tick_task_blocked t n :
  eState t = TASK_BLOCKED → 0 <= usTimeLeft t < TIME_FOREVER → Z.of_nat n <= usTimeLeft t →
  Nat.iter n (fst ∘ tick_task) t = set_usTimeLeft (usTimeLeft t - Z.of_nat n) t.
Proof.
  unfold TIME_FOREVER. intros He Ht. induction n as [|n IH]; intros Hn.
  - simpl. rewrite Z.sub_0_r. by destruct t.
  - rewrite Nat.iter_succ. rewrite IH by lia. unfold compose, tick_task. kcbn. rewrite He.
    destruct (Z.eqb_spec (usTimeLeft t - Z.of_nat n) TIME_FOREVER) as [E|_];
      [unfold TIME_FOREVER in E; lia|].
    destruct (Z.eqb_spec (usTimeLeft t - Z.of_nat n) 0) as [E|_]; [lia|].
    cbn [negb andb]. kcbn. rewrite u16_small by lia.
    unfold set_usTimeLeft. f_equal. lia.
Qed.

(** A wait of [TIME_FOREVER] is not affected by the tick. *)
Lemma tick_task_forever t n :
  (eState t = TASK_SLEEP ∨ eState t = TASK_BLOCKED) → usTimeLeft t = TIME_FOREVER →
  Nat.iter n (fst ∘ tick_task) t = t.
Proof.
  intros He Ht. induction n as [|n IH]; [done|]. rewrite Nat.iter_succ. rewrite IH.
  unfold compose, tick_task. destruct He as [-> | ->]; rewrite Ht; simpl; by rewrite ?Ht.
Qed.

(** *** Sleeping *)

(** What goes on while a task sleeps: ticks, and switches between the
    others. *)
Inductive sched_event : Type := Tick | Switch.

Definition sched_step (e : sched_event) (k : KERNEL) : res KERNEL :=
  match e with
  | Tick => '(k', _) ← Task_Tick k; Ok k'
  | Switch => Task_Switch k
  end.

Fixpoint ticks_in (l : list sched_event) : Z :=
  match l with Tick :: l => 1 + ticks_in l | Switch :: l => ticks_in l | [] => 0 end.

Lemma ticks_in_nonneg l : 0 <= ticks_in l.
Proof. induction l as [|[] l IH]; simpl; lia. Qed.

(** The counter of a sleep of [time] ticks after [n] of them: a request of 0
    wraps around to [TIME_FOREVER] on the first tick, and stays there. *)
Definition sleep_over (time n : Z) : bool := (0 <? time) && (time <? TIME_FOREVER) && (time <=? n).
Definition sleep_left (time n : Z) : Z :=
  if (time =? TIME_FOREVER) || (time =? 0) && (0 <? n) then TIME_FOREVER else if time =? 0 then 0 else time - n.

Definition sleeper (time n : Z) (t : TASK_STRUCT) : Prop :=
  if sleep_over time n then eState t = TASK_READY else eState t = TASK_SLEEP ∧ usTimeLeft t = sleep_left time n.

Lemma tick_task_ready t : eState t = TASK_READY → (tick_task t).1 = t.
Proof. intros E. unfold tick_task. by rewrite E. Qed.

Lemma sleeper_tick time n t :
  0 <= time <= TIME_FOREVER → 0 <= n → sleeper time n t → sleeper time (n + 1) (tick_task t).1.
Proof.
  unfold sleeper, sleep_over, sleep_left. change TIME_FOREVER with 65535. intros Ht Hn H.
  assert (time = 0 ∨ time = 65535 ∨ 0 < time < 65535) as [->|[->|Hm]] by lia.
  - cbn [Z.ltb Z.compare andb Z.eqb orb] in *. destruct H as [E L]. rewrite (proj2 (Z.ltb_lt 0 (n + 1))) by lia.
    unfold tick_task. rewrite E, L. destruct (0 <? n); cbn; by rewrite ?L.
  - cbn in *. destruct H as [E L]. pose proof (tick_task_forever t 1 (or_introl E) L) as F. cbn in F. unfold compose in F. by rewrite F.
  - rewrite (proj2 (Z.ltb_lt 0 time)), (proj2 (Z.ltb_lt time 65535)), (proj2 (Z.eqb_neq time 65535)), (proj2 (Z.eqb_neq time 0)) in * by lia.
    cbn [andb orb] in *. destruct (Z.leb_spec time n), (Z.leb_spec time (n + 1)); try lia; [by rewrite tick_task_ready| |];
      destruct H as [E L].
    + by rewrite tick_task_sleep_end by (done || lia).
    + pose proof (tick_task_sleeping t 1 E) as F. cbn in F. unfold compose in F.
      rewrite F by (change TIME_FOREVER with 65535; lia). kcbn. split; [done|lia].
Qed.

(** A kernel in which [x] sleeps and [y] is ready: some ready task runs. *)
Record sleeping (l0 : list nat) (x y : nat) (time n : Z) (k : KERNEL) : Prop := {
  sl_ring : ∃ c rest tc, ring k (c :: rest) ∧ stacks_mapped k (c :: rest) ∧ c :: rest ≡ₚ l0 ∧ tcb k !! c = Some tc ∧ eState tc = TASK_READY;
  sl_idle : ∃ ty, tcb k !! y = Some ty ∧ eState ty = TASK_READY ∧ 0 <= ucPriority ty;
  sl_task : ∃ t, tcb k !! x = Some t ∧ sleeper time n t
}.

Lemma sleeping_switch l0 x y time n k :
  y ∈ l0 → (∃ c rest, ring k (c :: rest) ∧ stacks_mapped k (c :: rest) ∧ c :: rest ≡ₚ l0) →
  (∃ ty, tcb k !! y = Some ty ∧ eState ty = TASK_READY ∧ 0 <= ucPriority ty) →
  (∃ t, tcb k !! x = Some t ∧ sleeper time n t) →
  ∃ k', Task_Switch k = Ok k' ∧ sleeping l0 x y time n k'.
Proof.
  intros Hy (c & rest & Hr & Hm & Hp) (ty & Hty & Ey & Py) (t & Ht & Hsl).
  destruct (Task_Switch_step k c rest Hr Hm) as (k' & z & Hsw & Hn & _ & Hv & Hring).
  destruct (Task_Switch_run k c rest Hr Hm) as (l1 & z' & l2 & tz & r & Hn' & E & Htz & Hsw').
  assert (z' = z) as -> by congruence. destruct (Hring _ _ E) as [Hr' Hm'].
  destruct (next_task_highest _ _ _ _ _ _ Hn ltac:(by rewrite Hp) Hty Ey Py) as (tz' & Htz' & Ez & _).
  rewrite Htz in Htz'. injection Htz' as <-. rewrite Hsw' in Hsw. injection Hsw as <-.
  eexists. split; [exact Hsw'|]. split.
  - exists z, (l2 ++ l1). eexists. split; [exact Hr'|]. split; [exact Hm'|].
    split; [|split; [apply lookup_insert_eq|done]].
    rewrite (Permutation_app_comm l2 l1), Permutation_middle, <- E, <- Hp. by rewrite Permutation_app_comm.
  - kcbn. destruct (decide (z = y)) as [->|].
    + rewrite lookup_insert_eq. eexists. split; [done|]. kcbn. split; [done|]. congruence.
    + rewrite lookup_insert_ne by done. eauto.
  - kcbn. destruct (decide (z = x)) as [->|].
    + rewrite lookup_insert_eq. eexists. split; [done|]. assert (tz = t) as -> by congruence.
      unfold sleeper in *. kcbn. destruct (sleep_over time n); [done|]. destruct Hsl as [E' _]. congruence.
    + rewrite lookup_insert_ne by done. eauto.
Qed.

Lemma sleeping_tick l0 x y time n k :
  x ∈ l0 → y ∈ l0 → 0 <= time <= TIME_FOREVER → 0 <= n → sleeping l0 x y time n k →
  ∃ k' b, Task_Tick k = Ok (k', b) ∧ sleeping l0 x y time (n + 1) k'.
Proof.
  intros Hx Hy Htime Hn [(c & rest & tc & Hr & Hm & Hp & Htc & Ec) (ty & Hty & Ey & Py) (t & Ht & Hsl)].
  destruct (Task_Tick_run k c tc rest Hr Htc) as (m' & Htick & Hr' & Hc' & Hrest & _).
  destruct (tick_quantum_frame tc) as (Pq & _ & Eq). eexists _, _. split; [exact Htick|].
  rewrite (tick_task_ready (tick_quantum tc).1) in Hc' by congruence.
  assert (∀ z tz, z ∈ l0 → tcb k !! z = Some tz → eState tz = TASK_READY →
    ∃ tz', m' !! z = Some tz' ∧ eState tz' = TASK_READY ∧ ucPriority tz' = ucPriority tz) as Hready.
  { intros z tz Hz Htz Ez. rewrite <- Hp in Hz. apply elem_of_cons in Hz as [->|Hz].
    - assert (tz = tc) as -> by congruence. eexists. split; [exact Hc'|]. split; congruence.
    - rewrite (Hrest z Hz), Htz. simpl. eexists. split; [done|]. by rewrite (tick_task_ready tz). }
  split.
  - exists c, rest. eexists. split; [exact Hr'|]. split; [|split; [done|split; [exact Hc'|congruence]]].
    intros z tz a Hz Htz Ha. kcbn. change (tcb (set_tcb m' k)) with m' in Htz. apply elem_of_cons in Hz as [->|Hz].
    + assert (tz = (tick_quantum tc).1) as -> by congruence.
      apply (Hm c tc); [set_solver|done|]. revert Ha. unfold tick_quantum. repeat case_match; done.
    + revert Htz. kcbn. rewrite (Hrest z Hz). destruct (tcb k !! z) as [t0|] eqn:E0; [|done]. intros [= <-].
      apply (Hm z t0); [set_solver|done|]. destruct (tick_task_frame t0) as (_ & _ & <- & <- & _). exact Ha.
  - destruct (Hready y ty Hy Hty Ey) as (ty' & ? & ? & Ep). exists ty'. by rewrite Ep.
  - destruct (decide (eState t = TASK_READY)) as [E|E].
    + destruct (Hready x t Hx Ht E) as (t' & Ht' & E' & _). exists t'. split; [done|]. revert Hsl.
      unfold sleeper, sleep_over. destruct (Z.ltb_spec 0 time), (Z.ltb_spec time TIME_FOREVER), (Z.leb_spec time n);
        cbn [andb]; try (intros [? _]; congruence). intros _. by rewrite (proj2 (Z.leb_le _ _)) by lia.
    + assert (x ∈ rest) as Hxr. { rewrite <- Hp in Hx. apply elem_of_cons in Hx as [->|]; [congruence|done]. }
      kcbn. rewrite (Hrest x Hxr), Ht. simpl. eexists. split; [done|]. by apply sleeper_tick.
Qed.

Lemma sleeping_run l0 x y time l n k :
  x ∈ l0 → y ∈ l0 → 0 <= time <= TIME_FOREVER → 0 <= n → sleeping l0 x y time n k →
  ∃ k', forM l sched_step k = Ok k' ∧ sleeping l0 x y time (n + ticks_in l) k'.
Proof.
  intros Hx Hy Htime. revert n k. induction l as [|e l IH]; intros n k Hn HS; cbn [forM].
  { exists k. split; [done|]. simpl. by rewrite Z.add_0_r. }
  destruct e; cbn [sched_step ticks_in].
  - destruct (sleeping_tick l0 x y time n k) as (k' & b & -> & HS'); [done..|]. rewrite !bind_ok.
    rewrite Z.add_assoc. apply IH; [lia|done].
  - destruct (sleeping_switch l0 x y time n k) as (k' & -> & HS'); [done| | | |].
    + destruct HS as [(c & rest & tc & ? & ? & ? & _) _ _]. eauto.
    + apply HS.
    + apply HS.
    + rewrite bind_ok. by apply IH.
Qed.

(** C3: a task that calls [Task_Sleep(time)] while another task, the idle task
    for instance, is ready: the switch that follows leaves it, and whatever
    ticks and switches come after that, it is asleep as long as fewer than
    [time] ticks have come and ready from tick [time] on.  The two requests
    that are different: [TIME_FOREVER] ticks never end, and neither do 0
    ticks, because the 16-bit counter wraps around to [TIME_FOREVER]. *)
Theorem Task_Sleep_wakes_on_time k c rest y ty time l :
  ring k (c :: rest) → stacks_mapped k (c :: rest) → y ∈ rest → tcb k !! y = Some ty →
  eState ty = TASK_READY → 0 <= ucPriority ty → 0 <= time <= TIME_FOREVER →
  ∃ k1 k2 k' t', Task_Sleep time k = Ok k1 ∧ Task_Switch k1 = Ok k2 ∧ forM l sched_step k2 = Ok k' ∧
    tcb k' !! c = Some t' ∧
    eState t' = (if (0 <? time) && (time <? TIME_FOREVER) && (time <=? ticks_in l) then TASK_READY else TASK_SLEEP).
Proof.
  intros Hr Hm Hy Hty Ey Py Htime. destruct (ring_lookup _ _ c Hr) as [tc Htc]; [set_solver|].
  assert (c ≠ y) as Hcy. { pose proof (proj1 (proj2 Hr)) as Hnd. apply NoDup_cons in Hnd as [? _]. set_solver. }
  pose proof (proj1 (proj2 (proj2 Hr))) as Hcur. cbn [head] in Hcur.
  unfold Task_Sleep. rewrite Hcur, (upd_task_some _ _ _ _ Htc), bind_ok. kcbn.
  rewrite Hcur, (upd_task_some c (set_eState TASK_SLEEP tc)) by (kcbn; apply lookup_insert_eq). rewrite bind_ok. kcbn.
  rewrite insert_insert_eq. set (t0 := set_usTimeLeft time (set_eState TASK_SLEEP tc)).
  match goal with |- ∃ k1 _ _ _, Ok ?K = _ ∧ _ => set (k1 := K) end.
  assert (tcb k1 = <[c := t0]> (tcb k) ∧ ram k1 = ram k ∧ pstCurrentTask k1 = pstCurrentTask k) as (Ek1 & Er1 & Ec1).
  { subst k1. unfold Task_YieldSWI, KernelSWI_Trigger. repeat case_match; done. }
  destruct (sleeping_switch (c :: rest) c y time 0 k1) as (k2 & Hsw & HS).
  - set_solver.
  - exists c, rest. split; [|split; [|done]].
    + apply (ring_same_links k); [|done|done]. rewrite Ek1. by eapply same_links_insert.
    + intros z tz a Hz Htz Ha. rewrite Er1. rewrite Ek1 in Htz. destruct (decide (z = c)) as [->|].
      * rewrite lookup_insert_eq in Htz. injection Htz as <-. by apply (Hm c tc).
      * rewrite lookup_insert_ne in Htz by done. by apply (Hm z tz).
  - exists ty. by rewrite Ek1, lookup_insert_ne.
  - exists t0. rewrite Ek1, lookup_insert_eq. split; [done|]. unfold sleeper, sleep_over, sleep_left.
    destruct (Z.ltb_spec 0 time), (Z.leb_spec time 0); rewrite ?andb_false_r, ?andb_false_l; try lia; (split; [done|]); cbn;
      repeat case_match; zb; lia.
  - destruct (sleeping_run (c :: rest) c y time l 0 k2) as (k' & Hrun & [_ _ (t' & Ht' & Hsl)]); [set_solver|set_solver|done|done|done|].
    exists k1, k2, k', t'. do 4 (split; [done|]). unfold sleeper, sleep_over in Hsl. rewrite Z.add_0_l in Hsl.
    by destruct (_ && _ && _); [|destruct Hsl].
Qed.

Lemma Task_Sleep_wakes_on_time_witness :
  let k := example_kernel (example_task 3 TASK_READY 4 (Some 3%nat) NULL)
             (example_task 0 TASK_READY 4 (Some 1%nat) NULL) in
  (∃ k1 k2 k' t', Task_Sleep 2 k = Ok k1 ∧ Task_Switch k1 = Ok k2 ∧ forM [Tick; Switch; Tick] sched_step k2 = Ok k' ∧
     tcb k' !! 1%nat = Some t' ∧ eState t' = TASK_READY) ∧
  (∃ k1 k2 k' t', Task_Sleep 0 k = Ok k1 ∧ Task_Switch k1 = Ok k2 ∧ forM [Tick; Switch; Tick] sched_step k2 = Ok k' ∧
     tcb k' !! 1%nat = Some t' ∧ eState t' = TASK_SLEEP).
Proof.
  split.
  all: apply (Task_Sleep_wakes_on_time
    (example_kernel (example_task 3 TASK_READY 4 (Some 3%nat) NULL) (example_task 0 TASK_READY 4 (Some 1%nat) NULL))
    1%nat [2; 3]%nat 3%nat (example_task 0 TASK_READY 4 (Some 1%nat) NULL));
    [by apply example_ring|by apply example_stacks|solve_example|done|done|done|unfold TIME_FOREVER; lia].
Defined.

(** C4: a task blocked with a time limit of [n] < 65535 ticks is still
    blocked after [n] ticks and is made ready with its timeout flag set by
    tick [n + 1]. *)
Theorem blocked_task_times_out k c rest x t :
  ring k (c :: rest) → x ∈ rest → tcb k !! x = Some t →
  eState t = TASK_BLOCKED → 0 <= usTimeLeft t < TIME_FOREVER →
  (∀ i, Z.of_nat i <= usTimeLeft t → ∃ k' t', tick_n i k = Ok k' ∧
     tcb k' !! x = Some t' ∧ eState t' = TASK_BLOCKED ∧ bTimeout t' = bTimeout t) ∧
  (∃ k' t', tick_n (S (Z.to_nat (usTimeLeft t))) k = Ok k' ∧
     tcb k' !! x = Some t' ∧ eState t' = TASK_READY ∧ bTimeout t' = true).
Proof.
  intros Hr Hx Ht He Hn. split.
  - intros i Hi. destruct (tick_n_waiting i k c rest x t Hr Hx Ht) as (k' & Hk & _ & Hl).
    rewrite tick_task_blocked in Hl by done. exists k'. eexists. rewrite Hl. by repeat split.
  - destruct (tick_n_waiting (S (Z.to_nat (usTimeLeft t))) k c rest x t Hr Hx Ht) as (k' & Hk & Hr' & Hl).
    exists k'. eexists. split; [done|]. split; [exact Hl|].
    rewrite Nat.iter_succ, tick_task_blocked by (done || lia). unfold compose, tick_task. kcbn.
    rewrite He, Z2Nat.id, Z.sub_diag by lia. done.
Qed.

Lemma blocked_task_times_out_witness :
  let k := example_kernel (example_task 3 TASK_BLOCKED 2 (Some 3%nat) NULL)
             (example_task 2 TASK_READY 4 (Some 1%nat) NULL) in
  ∃ k' t', tick_n 3 k = Ok k' ∧ tcb k' !! 2%nat = Some t' ∧ eState t' = TASK_READY ∧ bTimeout t' = true.
Proof.
  intros k. destruct (blocked_task_times_out k 1%nat [2; 3]%nat 2%nat
    (example_task 3 TASK_BLOCKED 2 (Some 3%nat) NULL)) as [_ H].
  - by apply example_ring.
  - solve_example.
  - done.
  - done.
  - done.
  - exact H.
Defined.
