(* ===== verification/FunkWait.v ===== *)
(** * FunkOS: wait lists of semaphores and mutexes

    A semaphore and a mutex each hold the head of a null-terminated list of
    waiting tasks, linked by [pstNextList].  kernel/semaphore.c and
    kernel/mutex.c contain the same list code; it is modelled once, over any
    object with such a head pointer ([WaitObj]). *)
From S2P Require Import Prelude FunkKernel FunkTask FunkSched.

(** ** Objects that own a wait list *)

Class WaitObj (Obj : Type) : Type := {
  pstTask : Obj → ptr;
  set_pstTask : ptr → Obj → Obj;
  pstTask_set : ∀ p o, pstTask (set_pstTask p o) = p;
  set_pstTask_set : ∀ p q o, set_pstTask p (set_pstTask q o) = set_pstTask p o;
  set_pstTask_id : ∀ o, set_pstTask (pstTask o) o = o;
}.

(** ** The list code *)

Section operations.
Context {Obj : Type} `{WaitObj Obj}.

Definition AddToList (o : Obj) (p : ptr) (k : KERNEL) : res (Obj * KERNEL) :=
  k ← match pstTask o with
      | None => upd_task p (set_pstNextList NULL) k
      | Some _ => upd_task p (set_pstNextList (pstTask o)) k
      end;
  Ok (set_pstTask p o, k).

(** The search loop: the element and the one before it. *)
Fixpoint find_waiter (fuel : nat) (m : gmap nat TASK_STRUCT) (task cur prev : ptr) : res (ptr * ptr) :=
  match fuel with
  | O => Fault OutOfFuel
  | S fuel =>
      if decide (cur ≠ task ∧ cur ≠ NULL) then
        t ← deref m cur; find_waiter fuel m task (pstNextList t) cur
      else Ok (cur, prev)
  end.

Definition DeleteFromList (o : Obj) (task : ptr) (k : KERNEL) : res (Obj * KERNEL) :=
  '(cur, prev) ← find_waiter (ring_fuel k) (tcb k) task (pstTask o) (pstTask o);
  match cur with
  | None => Ok (o, k)
  | Some _ =>
      c ← deref (tcb k) cur;
      '(o, k) ← (if decide (prev ≠ pstTask o)
                 then k ← upd_task prev (set_pstNextList (pstNextList c)) k; Ok (o, k)
                 else Ok (set_pstTask (pstNextList c) o, k));
      k ← upd_task task (set_pstNextList NULL) k;
      Ok (o, k)
  end.

(** The search for the waiter with the greatest key above [maxPri]. *)
Fixpoint choose_waiter (fuel : nat) (m : gmap nat TASK_STRUCT) (key : TASK_STRUCT → Z)
    (cur : ptr) (maxPri : Z) (chosen : ptr) : res ptr :=
  match fuel with
  | O => Fault OutOfFuel
  | S fuel =>
      match cur with
      | None => Ok chosen
      | Some _ =>
          t ← deref m cur;
          if maxPri <? key t
          then choose_waiter fuel m key (pstNextList t) (key t) cur
          else choose_waiter fuel m key (pstNextList t) maxPri chosen
      end
  end.

(** Wakes the waiter with the greatest key: off the list, ready to run. *)
Definition WakeChosen (key : TASK_STRUCT → Z) (o : Obj) (k : KERNEL) : res (Obj * KERNEL) :=
  chosen ← choose_waiter (ring_fuel k) (tcb k) key (pstTask o) 0 (pstTask o);
  '(o, k) ← DeleteFromList o chosen k;
  k ← upd_task chosen (set_eState TASK_READY) k;
  Ok (o, k).

End operations.

(** ** The list a head pointer represents *)

Fixpoint wlist (m : gmap nat TASK_STRUCT) (p : ptr) (l : list nat) : Prop :=
  match l with
  | [] => p = NULL
  | x :: l' => p = Some x ∧ ∃ t, m !! x = Some t ∧ wlist m (pstNextList t) l'
  end.

(** What [DeleteFromList] leaves of the list: as intended for the first
    element and from the third on; deleting the second element also drops
    the first, because its predecessor is the head. *)
Definition wait_delete (x : nat) (l : list nat) : list nat :=
  match l with
  | [] => []
  | a :: r =>
      if decide (a = x) then r
      else match r with
           | [] => [a]
           | b :: r' => if decide (b = x) then r' else a :: b :: filter (.≠ x) r'
           end
  end.

(** The waiter chosen from a list: the first of greatest positive key. *)
Fixpoint best_waiter (m : gmap nat TASK_STRUCT) (key : TASK_STRUCT → Z)
    (l : list nat) (maxPri : Z) (chosen : nat) : nat :=
  match l with
  | [] => chosen
  | x :: l =>
      match m !! x with
      | Some t => if maxPri <? key t then best_waiter m key l (key t) x
                  else best_waiter m key l maxPri chosen
      | None => chosen
      end
  end.

(** Everything of a control block but its wait-list link. *)
Definition off_list (t : TASK_STRUCT) : TASK_STRUCT := set_pstNextList NULL t.

Definition same_off_list (m m' : gmap nat TASK_STRUCT) : Prop :=
  ∀ x, off_list <$> m' !! x = off_list <$> m !! x.

Section lists.
Implicit Types (m : gmap nat TASK_STRUCT) (p : ptr) (l : list nat).

Lemma wlist_lookup m p l x : wlist m p l → x ∈ l → ∃ t, m !! x = Some t.
Proof.
  revert p. induction l as [|y l IH]; intros p; simpl; [set_solver|].
  intros (-> & t & Ht & Hs) Hx. apply elem_of_cons in Hx as [->|Hx]; eauto.
Qed.

Lemma wlist_head m p l : wlist m p l → p = head l.
Proof. destruct l; simpl; [done|]. by intros [? _]. Qed.

Lemma wlist_inj m p l l' : wlist m p l → wlist m p l' → l = l'.
Proof.
  revert p l'. induction l as [|x l IH]; intros p [|y l']; simpl; naive_solver.
Qed.

Lemma wlist_ext m m' p l :
  (∀ x, x ∈ l → pstNextList <$> m' !! x = pstNextList <$> m !! x) →
  wlist m p l → wlist m' p l.
Proof.
  revert p. induction l as [|x l IH]; intros p Hl; simpl; [done|].
  intros (-> & t & Ht & Hs). split; [done|].
  assert (pstNextList <$> m' !! x = pstNextList <$> m !! x) as Hx by (apply Hl; set_solver).
  rewrite Ht in Hx. destruct (m' !! x) as [t'|] eqn:E; simplify_eq/=.
  exists t'. split; [done|]. rewrite Hx. apply IH; [|done]. intros y Hy. apply Hl. set_solver.
Qed.

Lemma wlist_insert_notin m p l x t : x ∉ l → wlist m p l → wlist (<[x:=t]> m) p l.
Proof.
  intros Hx. apply wlist_ext. intros y Hy. rewrite lookup_insert_ne; [done|set_solver].
Qed.

Lemma wlist_length m p l : NoDup l → wlist m p l → (length l ≤ size m)%nat.
Proof.
  intros Hnd Hs. rewrite <- (size_dom (D:=gset nat)).
  rewrite <- (size_list_to_set (C:=gset nat) l Hnd).
  apply subseteq_size. intros x Hx. apply elem_of_list_to_set in Hx.
  apply elem_of_dom. destruct (wlist_lookup _ _ _ _ Hs Hx); eauto.
Qed.

Lemma wlist_app m p l1 x l2 :
  wlist m p (l1 ++ x :: l2) → ∃ t, m !! x = Some t ∧ wlist m (pstNextList t) l2.
Proof.
  revert p. induction l1 as [|y l1 IH]; intros p; simpl; [naive_solver|].
  intros (_ & t & _ & Hs). by eapply IH.
Qed.

(** Redirecting the link of [x] replaces what follows it. *)
Lemma wlist_relink m p l1 x t l2 q l3 :
  wlist m p (l1 ++ x :: l2) → m !! x = Some t → x ∉ l1 → x ∉ l3 → wlist m q l3 →
  wlist (<[x := set_pstNextList q t]> m) p (l1 ++ x :: l3).
Proof.
  revert p. induction l1 as [|y l1 IH]; intros p Hs Ht Hx1 Hx3 Hq; simpl in *.
  - destruct Hs as (-> & _). split; [done|]. eexists. rewrite lookup_insert_eq.
    split; [done|]. by apply wlist_insert_notin.
  - destruct Hs as (-> & ty & Hty & Hs). split; [done|]. exists ty.
    rewrite lookup_insert_ne by set_solver. split; [done|]. apply IH; set_solver.
Qed.

Lemma off_list_inv t t' :
  off_list t = off_list t' →
  eState t = eState t' ∧ ucPriority t = ucPriority t' ∧ bTimeout t = bTimeout t' ∧
  usTimeLeft t = usTimeLeft t' ∧ ucMutexPriority t = ucMutexPriority t' ∧ pstNext t = pstNext t'.
Proof. intros E. injection E. done. Qed.

Lemma off_list_lookup_inv m x t :
  off_list <$> m !! x = Some (off_list t) →
  ∃ t', m !! x = Some t' ∧ eState t' = eState t ∧ ucPriority t' = ucPriority t ∧
        bTimeout t' = bTimeout t ∧ usTimeLeft t' = usTimeLeft t ∧
        ucMutexPriority t' = ucMutexPriority t ∧ pstNext t' = pstNext t.
Proof.
  destruct (m !! x) as [t'|]; [|done]. intros E. exists t'. split; [done|].
  apply off_list_inv. by apply (inj Some) in E.
Qed.

Lemma same_off_list_insert m x t q :
  m !! x = Some t → same_off_list m (<[x := set_pstNextList q t]> m).
Proof.
  intros Hx y. destruct (decide (x = y)) as [->|].
  - by rewrite lookup_insert_eq, Hx.
  - by rewrite lookup_insert_ne.
Qed.

Lemma same_off_list_refl m : same_off_list m m.
Proof. done. Qed.

Lemma same_off_list_trans m1 m2 m3 :
  same_off_list m1 m2 → same_off_list m2 m3 → same_off_list m1 m3.
Proof. intros H1 H2 x. by rewrite H2, H1. Qed.

Lemma same_off_list_lookup m m' x t :
  same_off_list m m' → m !! x = Some t →
  ∃ t', m' !! x = Some t' ∧ off_list t' = off_list t.
Proof.
  intros H Hx. specialize (H x). rewrite Hx in H.
  destruct (m' !! x) as [t'|]; [|done]. exists t'. split; [done|].
  cbn in H. congruence.
Qed.

End lists.

(** ** The code on a represented list *)

Lemma find_waiter_found fuel m p x l1 l2 prev :
  wlist m p (l1 ++ x :: l2) → x ∉ l1 → (length l1 < fuel)%nat →
  find_waiter fuel m (Some x) p prev = Ok (Some x, default prev (Some <$> last l1)).
Proof.
  revert fuel p prev. induction l1 as [|y l1 IH]; intros fuel p prev Hs Hx Hf;
    (destruct fuel as [|fuel]; [simpl in Hf; lia|]); cbn [find_waiter].
  - destruct Hs as (-> & _). rewrite decide_False by naive_solver. done.
  - destruct Hs as (-> & t & Ht & Hs). rewrite decide_True by set_solver.
    rewrite (deref_some _ _ _ Ht), bind_ok.
    rewrite (IH _ _ _ Hs); [|set_solver|simpl in Hf; lia].
    rewrite last_cons. by destruct (last l1).
Qed.

Lemma find_waiter_absent fuel m p x l prev :
  wlist m p l → x ∉ l → (length l < fuel)%nat →
  ∃ q, find_waiter fuel m (Some x) p prev = Ok (NULL, q).
Proof.
  revert fuel p prev. induction l as [|y l IH]; intros fuel p prev Hs Hx Hf;
    (destruct fuel as [|fuel]; [simpl in Hf; lia|]); cbn [find_waiter].
  - simpl in Hs. subst p. rewrite decide_False by naive_solver. eauto.
  - destruct Hs as (-> & t & Ht & Hs). rewrite decide_True by set_solver.
    rewrite (deref_some _ _ _ Ht), bind_ok. apply IH; [done|set_solver|simpl in Hf; lia].
Qed.

Lemma filter_ne_id (x : nat) (l : list nat) : x ∉ l → filter (.≠ x) l = l.
Proof.
  induction l as [|y l IH]; intros Hx; [done|].
  rewrite filter_cons_True by set_solver. f_equal. apply IH. set_solver.
Qed.

Lemma wait_delete_notin x l : x ∉ l → wait_delete x l = l.
Proof.
  intros Hx. destruct l as [|a [|b r]]; simpl; [done| |].
  - by rewrite decide_False by set_solver.
  - rewrite !decide_False by set_solver. by rewrite filter_ne_id by set_solver.
Qed.

Lemma wait_delete_far x a b l1 l2 :
  NoDup (a :: b :: l1 ++ x :: l2) →
  wait_delete x (a :: b :: l1 ++ x :: l2) = a :: b :: l1 ++ l2.
Proof.
  intros Hnd. apply NoDup_cons in Hnd as [Ha Hnd]. apply NoDup_cons in Hnd as [Hb Hnd].
  rewrite <- Permutation_middle in Hnd. apply NoDup_cons in Hnd as [Hx _].
  cbn [wait_delete]. rewrite !decide_False by set_solver.
  rewrite filter_app, filter_cons_False by naive_solver.
  by rewrite !filter_ne_id by set_solver.
Qed.

Lemma wait_delete_subset x l y : y ∈ wait_delete x l → y ∈ l.
Proof.
  destruct l as [|a [|b r]]; simpl; [done| |]; repeat case_decide; try set_solver.
  rewrite !elem_of_cons, list_elem_of_filter. naive_solver.
Qed.

Lemma wait_delete_NoDup x l : NoDup l → NoDup (wait_delete x l).
Proof.
  intros Hnd. destruct l as [|a [|b r]]; simpl; [done| |].
  - case_decide; [constructor|done].
  - apply NoDup_cons in Hnd as [Ha Hnd]. apply NoDup_cons in Hnd as [Hb Hnd].
    repeat case_decide; [by apply NoDup_cons|done|].
    apply NoDup_cons. rewrite elem_of_cons, list_elem_of_filter. split; [set_solver|].
    apply NoDup_cons. rewrite list_elem_of_filter. split; [naive_solver|].
    by apply NoDup_filter.
Qed.

Lemma wait_delete_gone x l : NoDup l → x ∉ wait_delete x l.
Proof.
  intros Hnd. destruct l as [|a [|b r]]; simpl; [set_solver| |].
  - case_decide; set_solver.
  - apply NoDup_cons in Hnd as [Ha Hnd]. apply NoDup_cons in Hnd as [Hb Hnd].
    repeat case_decide; subst; [done|done|].
    rewrite !elem_of_cons, list_elem_of_filter. naive_solver.
Qed.

Section delete.
Context {Obj : Type} `{WaitObj Obj}.

Lemma DeleteFromList_at_head (o : Obj) k x t :
  find_waiter (ring_fuel k) (tcb k) (Some x) (pstTask o) (pstTask o) = Ok (Some x, pstTask o) →
  tcb k !! x = Some t →
  DeleteFromList o (Some x) k =
    Ok (set_pstTask (pstNextList t) o, set_tcb (<[x := set_pstNextList NULL t]> (tcb k)) k).
Proof.
  intros Hf Ht. unfold DeleteFromList. rewrite Hf, bind_ok, (deref_some _ _ _ Ht), bind_ok.
  rewrite decide_False by naive_solver. by rewrite bind_ok, (upd_task_some _ _ _ _ Ht).
Qed.

Lemma DeleteFromList_inner (o : Obj) k x t y ty :
  find_waiter (ring_fuel k) (tcb k) (Some x) (pstTask o) (pstTask o) = Ok (Some x, Some y) →
  tcb k !! x = Some t → tcb k !! y = Some ty → x ≠ y → Some y ≠ pstTask o →
  DeleteFromList o (Some x) k =
    Ok (o, set_tcb (<[x := set_pstNextList NULL t]>
                      (<[y := set_pstNextList (pstNextList t) ty]> (tcb k))) k).
Proof.
  intros Hf Ht Hty Hne Hh. unfold DeleteFromList.
  rewrite Hf, bind_ok, (deref_some _ _ _ Ht), bind_ok.
  rewrite decide_True by done. rewrite (upd_task_some _ _ _ _ Hty), !bind_ok.
  by erewrite upd_task_some by (kcbn; rewrite lookup_insert_ne by done; exact Ht).
Qed.

(** The behaviour of [DeleteFromList] on every position of the list. *)
Lemma DeleteFromList_spec (o : Obj) k l x t :
  wlist (tcb k) (pstTask o) l → NoDup l → tcb k !! x = Some t →
  ∃ o' m', DeleteFromList o (Some x) k = Ok (o', set_tcb m' k) ∧
    o' = set_pstTask (pstTask o') o ∧
    wlist m' (pstTask o') (wait_delete x l) ∧ same_off_list (tcb k) m'.
Proof.
  intros Hw Hnd Ht. assert (length l < ring_fuel k)%nat as Hf.
  { pose proof (wlist_length _ _ _ Hnd Hw). unfold ring_fuel. lia. }
  destruct (decide (x ∈ l)) as [Hin|Hin].
  2: { unfold DeleteFromList.
       destruct (find_waiter_absent (ring_fuel k) _ _ x l (pstTask o) Hw Hin Hf) as [q ->].
       rewrite bind_ok. exists o, (tcb k). rewrite set_pstTask_id, wait_delete_notin by done.
       split; [by destruct k|]. done. }
  apply list_elem_of_split in Hin as (l1 & l2 & ->).
  assert (x ∉ l1 ∧ x ∉ l2) as [Hx1 Hx2].
  { rewrite <- Permutation_middle in Hnd. apply NoDup_cons in Hnd as [? _]. set_solver. }
  assert (length l1 < ring_fuel k)%nat as Hf1 by (rewrite length_app in Hf; simpl in Hf; lia).
  pose proof (find_waiter_found _ _ _ x l1 l2 (pstTask o) Hw Hx1 Hf1) as Hfind.
  destruct (wlist_app _ _ _ _ _ Hw) as (t0 & Ht0 & Hw2). assert (t0 = t) as -> by congruence.
  assert (pstTask o = head (l1 ++ x :: l2)) as Hh by (by eapply wlist_head).
  destruct (decide (length l1 < 2)%nat) as [Hlen|Hlen].
  - (* first or second element: the predecessor is the head *)
    rewrite (DeleteFromList_at_head o k x t); [| |done].
    2: { rewrite Hfind. destruct l1 as [|a [|b l1]]; simpl in *; [done|by rewrite Hh|lia]. }
    eexists _, _. split; [done|]. rewrite !pstTask_set. split; [done|]. split.
    + replace (wait_delete x (l1 ++ x :: l2)) with l2; [by apply wlist_insert_notin|].
      destruct l1 as [|a [|b l1]]; simpl in *; [by rewrite decide_True| |lia].
      rewrite decide_False by set_solver. by rewrite decide_True.
    + by apply same_off_list_insert.
  - (* further elements *)
    destruct l1 as [|a [|b l1]]; simpl in Hlen; [lia|lia|].
    destruct (exists_last (l := b :: l1)) as (l0 & y & E); [done|].
    change ((a :: b :: l1) ++ x :: l2) with (a :: b :: l1 ++ x :: l2).
    rewrite wait_delete_far by done.
    replace (a :: b :: l1 ++ l2) with ((a :: l0) ++ y :: l2)
      by (change (b :: l1 ++ l2) with ((b :: l1) ++ l2); rewrite E, <- app_assoc; done).
    replace ((a :: b :: l1) ++ x :: l2) with ((a :: l0) ++ y :: x :: l2) in Hw, Hnd, Hh
      by (rewrite E; simpl; by rewrite <- app_assoc).
    assert (y ∉ a :: l0 ∧ y ∉ l2 ∧ x ≠ y) as (Hy0 & Hy2 & Hxy).
    { rewrite <- Permutation_middle in Hnd. apply NoDup_cons in Hnd as [? _]. set_solver. }
    destruct (wlist_lookup _ _ _ y Hw) as [ty Hty]; [set_solver|].
    simpl in Hh. rewrite (DeleteFromList_inner o k x t y ty);
      [| |done|done|done|rewrite Hh; set_solver].
    2: { rewrite Hfind. by rewrite last_cons, E, last_snoc. }
    eexists o, _. split; [done|]. rewrite set_pstTask_id. split; [done|]. split.
    + apply wlist_insert_notin; [|by eapply wlist_relink].
      rewrite E in Hx1. set_solver.
    + eapply same_off_list_trans; [by apply same_off_list_insert|].
      apply same_off_list_insert. by rewrite lookup_insert_ne.
Qed.
End delete.

Lemma AddToList_spec {Obj} `{WaitObj Obj} (o : Obj) k l x t :
  wlist (tcb k) (pstTask o) l → x ∉ l → tcb k !! x = Some t →
  ∃ m', AddToList o (Some x) k = Ok (set_pstTask (Some x) o, set_tcb m' k) ∧
    wlist m' (Some x) (x :: l) ∧ same_off_list (tcb k) m'.
Proof.
  intros Hw Hx Ht. exists (<[x := set_pstNextList (pstTask o) t]> (tcb k)). split; [|split].
  - unfold AddToList. destruct (pstTask o); by rewrite (upd_task_some _ _ _ _ Ht).
  - split; [done|]. eexists. rewrite lookup_insert_eq. split; [done|]. by apply wlist_insert_notin.
  - by apply same_off_list_insert.
Qed.

Lemma choose_waiter_spec fuel m key p l maxPri c :
  wlist m p l → (length l < fuel)%nat →
  choose_waiter fuel m key p maxPri (Some c) = Ok (Some (best_waiter m key l maxPri c)).
Proof.
  revert fuel p maxPri c. induction l as [|x l IH]; intros fuel p maxPri c Hw Hf;
    (destruct fuel as [|fuel]; [simpl in Hf; lia|]); cbn [choose_waiter best_waiter].
  - simpl in Hw. by subst p.
  - destruct Hw as (-> & t & Ht & Hw). rewrite (deref_some _ _ _ Ht), bind_ok, Ht.
    simpl in Hf. destruct (maxPri <? key t); apply IH; (done || lia).
Qed.

Lemma best_waiter_in m key l maxPri c : best_waiter m key l maxPri c ∈ c :: l.
Proof.
  revert maxPri c. induction l as [|x l IH]; intros maxPri c; simpl; [set_solver|].
  destruct (m !! x) as [t|]; [|set_solver]. specialize (IH (key t) x) as H1.
  specialize (IH maxPri c). destruct (maxPri <? key t); set_solver.
Qed.

(** The chosen waiter is on the list (or the initial choice) and no waiter
    has a greater key. *)
Lemma best_waiter_spec m key p l maxPri c tc :
  wlist m p l → m !! c = Some tc → maxPri <= key tc →
  ∃ tb, m !! best_waiter m key l maxPri c = Some tb ∧
    best_waiter m key l maxPri c ∈ c :: l ∧ maxPri <= key tb ∧
    (∀ y ty, y ∈ l → m !! y = Some ty → key ty <= key tb).
Proof.
  revert p maxPri c tc. induction l as [|x l IH]; intros p maxPri c tc Hw Hc Hk; simpl.
  - exists tc. set_solver.
  - destruct Hw as (_ & t & Ht & Hw). rewrite Ht.
    destruct (maxPri <? key t) eqn:E; zb.
    + destruct (IH _ (key t) x t Hw Ht) as (tb & Hb & Hin & Hle & Hall); [lia|].
      exists tb. split; [done|]. split; [set_solver|]. split; [lia|].
      intros y ty Hy Hty. apply elem_of_cons in Hy as [->|Hy]; [|by eapply Hall].
      assert (ty = t) as -> by congruence. done.
    + destruct (IH _ maxPri c tc Hw Hc Hk) as (tb & Hb & Hin & Hle & Hall).
      exists tb. split; [done|]. split; [set_solver|]. split; [done|].
      intros y ty Hy Hty. apply elem_of_cons in Hy as [->|Hy]; [|by eapply Hall].
      assert (ty = t) as -> by congruence. lia.
Qed.

Lemma WakeChosen_spec {Obj} `{WaitObj Obj} key (o : Obj) k c tc r :
  wlist (tcb k) (pstTask o) (c :: r) → NoDup (c :: r) → tcb k !! c = Some tc →
  ∃ x tx o' m', x = best_waiter (tcb k) key (c :: r) 0 c ∧ x ∈ c :: r ∧
    tcb k !! x = Some tx ∧
    (0 <= key tc → ∀ y ty, y ∈ c :: r → tcb k !! y = Some ty → key ty <= key tx) ∧
    WakeChosen key o k = Ok (o', set_tcb m' k) ∧ o' = set_pstTask (pstTask o') o ∧
    wlist m' (pstTask o') (wait_delete x (c :: r)) ∧
    off_list <$> m' !! x = Some (off_list (set_eState TASK_READY tx)) ∧
    (∀ y, y ≠ x → off_list <$> m' !! y = off_list <$> tcb k !! y).
Proof.
  intros Hw Hnd Hc. set (x := best_waiter (tcb k) key (c :: r) 0 c).
  assert (x ∈ c :: r) as Hin.
  { pose proof (best_waiter_in (tcb k) key (c :: r) 0 c). set_solver. }
  destruct (wlist_lookup _ _ _ x Hw Hin) as [tx Htx].
  assert (0 <= key tc → ∀ y ty, y ∈ c :: r → tcb k !! y = Some ty → key ty <= key tx) as Hmax.
  { intros Hk. destruct (best_waiter_spec _ key _ _ 0 c tc Hw Hc Hk) as (tx' & Htx' & _ & _ & Hm).
    fold x in Htx'. assert (tx' = tx) as -> by congruence. done. }
  destruct (DeleteFromList_spec o k (c :: r) x tx Hw Hnd Htx) as (o' & m1 & Hdel & Ho & Hw1 & Hoff).
  destruct (same_off_list_lookup _ _ _ _ Hoff Htx) as (tx1 & Htx1 & Hoff1).
  exists x, tx, o', (<[x := set_eState TASK_READY tx1]> m1). repeat (split; [done|]).
  split; [|split; [done|split; [|split]]].
  - unfold WakeChosen. assert (pstTask o = Some c) as Hp by apply Hw. rewrite Hp.
    rewrite (choose_waiter_spec _ _ key (Some c) (c :: r)), bind_ok; [|by rewrite <- Hp|].
    + fold x. rewrite Hdel, bind_ok. by rewrite (upd_task_some x tx1 _ (set_tcb m1 k) Htx1).
    + pose proof (wlist_length _ _ _ Hnd Hw). unfold ring_fuel. lia.
  - apply wlist_insert_notin; [by apply wait_delete_gone|done].
  - rewrite lookup_insert_eq. exact (f_equal (Some ∘ set_eState TASK_READY) Hoff1).
  - intros y Hy. rewrite lookup_insert_ne by done. apply Hoff.
Qed.

(** ** Kernel activity seen task by task *)

(** Two stores with the same blocks, each related to its successor by [R]. *)
Definition pointwise (R : relation TASK_STRUCT) (m m' : gmap nat TASK_STRUCT) : Prop :=
  ∀ x, match m !! x, m' !! x with
       | Some t, Some t' => R t t'
       | None, None => True
       | _, _ => False
       end.

Section pointwise.
Context (R : relation TASK_STRUCT) `{!PreOrder R}.

#[export] Instance pointwise_preorder : PreOrder (pointwise R).
Proof.
  split.
  - intros m x. by destruct (m !! x).
  - intros m1 m2 m3 H1 H2 x. specialize (H1 x). specialize (H2 x).
    destruct (m1 !! x), (m2 !! x), (m3 !! x); try done. by etrans.
Qed.

Lemma pointwise_lookup m m' x t :
  pointwise R m m' → m !! x = Some t → ∃ t', m' !! x = Some t' ∧ R t t'.
Proof. intros H Ht. specialize (H x). rewrite Ht in H. destruct (m' !! x); [eauto|done]. Qed.

Lemma pointwise_lookup_r m m' x t' :
  pointwise R m m' → m' !! x = Some t' → ∃ t, m !! x = Some t ∧ R t t'.
Proof. intros H Ht. specialize (H x). rewrite Ht in H. destruct (m !! x); [eauto|done]. Qed.

Lemma pointwise_insert m x t t' :
  m !! x = Some t → R t t' → pointwise R m (<[x := t']> m).
Proof.
  intros Hx Ht y. destruct (decide (x = y)) as [->|].
  - by rewrite lookup_insert_eq, Hx.
  - rewrite lookup_insert_ne by done. by destruct (m !! y).
Qed.

Lemma upd_task_pointwise p f k k' :
  (∀ t, R t (f t)) → upd_task p f k = Ok k' → pointwise R (tcb k) (tcb k').
Proof.
  intros Hf Hu. unfold upd_task in Hu. inv_ok.
  apply assign_ok_inv in H as (a & t & -> & Ht & ->). by eapply pointwise_insert.
Qed.

(** If the wait rule, the quantum rule and the bookkeeping of a switch
    respect [R], so do a whole tick and a whole context switch. *)
Context (R_tick : ∀ t, R t (tick_task t).1) (R_quantum : ∀ t, R t (tick_quantum t).1)
  (R_reload : ∀ t, R t (set_usTimeLeft (usQuantum t) t))
  (R_margin : ∀ t r, R t (set_usStackMargin r t)).

Lemma tick_loop_pointwise fuel q p run k k' b :
  tick_loop fuel q p run k = Ok (k', b) → pointwise R (tcb k) (tcb k').
Proof.
  revert p run k. induction fuel as [|fuel IH]; intros p run k H; [done|].
  cbn [tick_loop] in H. inv_ok. etrans.
  - eapply upd_task_pointwise; [|done]. apply R_tick.
  - case_decide; simplify_eq; [done|]. by eapply IH.
Qed.

Lemma Task_Tick_pointwise k k' b : Task_Tick k = Ok (k', b) → pointwise R (tcb k) (tcb k').
Proof.
  intros H. unfold Task_Tick in H. inv_ok. destruct x1 as [k1 r1]. simplify_eq.
  etrans; [|by eapply tick_loop_pointwise].
  eapply upd_task_pointwise; [|done]. apply R_quantum.
Qed.

Lemma Task_Switch_pointwise k k' : Task_Switch k = Ok k' → pointwise R (tcb k) (tcb k').
Proof.
  intros H. unfold Task_Switch, Task_StackCheck in H. inv_ok. etrans.
  - change (tcb k) with (tcb (set_pstCurrentTask x1 k)).
    eapply upd_task_pointwise; [|done]. apply R_reload.
  - eapply upd_task_pointwise; [|done]. intros t. apply R_margin.
Qed.
End pointwise.

(** What the wait-list code reads of a control block is never changed. *)
Definition same_link (t t' : TASK_STRUCT) : Prop :=
  pstNextList t' = pstNextList t ∧ ucPriority t' = ucPriority t.

#[export] Instance same_link_preorder : PreOrder same_link.
Proof. split; [done|]. intros t1 t2 t3 [H1 H2] [H3 H4]. split; congruence. Qed.

Abbreviation same_lists := (pointwise same_link).

Lemma pointwise_wlist (R : relation TASK_STRUCT) m m' p l :
  (∀ t t', R t t' → pstNextList t' = pstNextList t) →
  pointwise R m m' → wlist m p l → wlist m' p l.
Proof.
  intros HR Hs. apply wlist_ext. intros x _. specialize (Hs x).
  destruct (m' !! x), (m !! x); simpl; try done. f_equal. by apply HR.
Qed.

Lemma same_lists_wlist m m' p l : same_lists m m' → wlist m p l → wlist m' p l.
Proof. apply pointwise_wlist. by intros t t' [H _]. Qed.

Lemma tick_task_link t : same_link t (tick_task t).1.
Proof. unfold tick_task. destruct (eState t); simpl; repeat case_match; done. Qed.

Lemma tick_quantum_link t : same_link t (tick_quantum t).1.
Proof. unfold tick_quantum. repeat case_match; done. Qed.

Lemma Task_Tick_lists k k' b : Task_Tick k = Ok (k', b) → same_lists (tcb k) (tcb k').
Proof. apply Task_Tick_pointwise; [apply _|apply tick_task_link|apply tick_quantum_link]. Qed.

Lemma Task_Switch_lists k k' : Task_Switch k = Ok k' → same_lists (tcb k) (tcb k').
Proof. by apply Task_Switch_pointwise; [apply _| |]. Qed.
