(* ===== verification/FunkSemaphore.v ===== *)
(** * FunkOS: semaphores (kernel/semaphore.c)

    [Semaphore_Pend] may give up the processor in its middle; the model takes
    what the rest of the system does until the task runs again as the
    function [env] on the semaphore and the kernel. *)
From S2P Require Import Prelude FunkKernel FunkTask FunkRing FunkExample FunkSched FunkWait.

Module Semaphore.

Record SEMAPHORE_STRUCT : Type := mkSem {
  usSem : Z;
  usMax : Z;
  pstWait : ptr
}.

Definition set_usSem (v : Z) (r : SEMAPHORE_STRUCT) : SEMAPHORE_STRUCT :=
  mkSem v (usMax r) (pstWait r).
Definition set_usMax (v : Z) (r : SEMAPHORE_STRUCT) : SEMAPHORE_STRUCT :=
  mkSem (usSem r) v (pstWait r).
Definition set_pstWait (v : ptr) (r : SEMAPHORE_STRUCT) : SEMAPHORE_STRUCT :=
  mkSem (usSem r) (usMax r) v.

#[export] Program Instance semaphore_wait : WaitObj SEMAPHORE_STRUCT := {|
  pstTask := pstWait;
  set_pstTask := set_pstWait;
|}.
Solve Obligations with by intros; simpl; try destruct o.

(** ** Operations *)

Definition Semaphore_Init (o : SEMAPHORE_STRUCT) : SEMAPHORE_STRUCT :=
  set_pstWait NULL (set_usMax 1 (set_usSem 0 o)).

Definition Semaphore_AddToList := AddToList (Obj := SEMAPHORE_STRUCT).
Definition Semaphore_DeleteFromList := DeleteFromList (Obj := SEMAPHORE_STRUCT).

Definition Semaphore_WakeNextPending := WakeChosen (Obj := SEMAPHORE_STRUCT) ucPriority.

(** The part of [Semaphore_Pend] before the possible context switch. *)
Definition Semaphore_Pend_enter (o : SEMAPHORE_STRUCT) (time : Z) (k : KERNEL)
    : res (SEMAPHORE_STRUCT * KERNEL * bool) :=
  let task := Task_GetCurrentTask k in
  if negb (usSem o =? 0) then Ok (set_usSem (u16 (usSem o - 1)) o, k, false)
  else
    k ← upd_task task (set_eState TASK_BLOCKED) k;
    k ← upd_task task (set_usTimeLeft time) k;
    '(o, k) ← Semaphore_AddToList o task k;
    Ok (o, k, true).

(** The part after it, run by the same task. *)
Definition Semaphore_Pend_resume (o : SEMAPHORE_STRUCT) (task : ptr) (k : KERNEL)
    : res (SEMAPHORE_STRUCT * KERNEL * bool) :=
  t ← deref (tcb k) task;
  if bTimeout t then
    '(o, k) ← Semaphore_DeleteFromList o task k;
    k ← upd_task task (set_bTimeout false) k;
    Ok (o, k, false)
  else Ok (o, k, true).

Definition Semaphore_Pend (env : SEMAPHORE_STRUCT → KERNEL → res (SEMAPHORE_STRUCT * KERNEL))
    (o : SEMAPHORE_STRUCT) (time : Z) (k : KERNEL) : res (SEMAPHORE_STRUCT * KERNEL * bool) :=
  let task := Task_GetCurrentTask k in
  '(o, k, bTaskWait) ← Semaphore_Pend_enter o time k;
  if bTaskWait : bool then
    '(o, k) ← env o (Task_YieldSWI k);
    Semaphore_Pend_resume o task k
  else Ok (o, k, true).

Definition Semaphore_Post (o : SEMAPHORE_STRUCT) (k : KERNEL) : res (SEMAPHORE_STRUCT * KERNEL) :=
  match pstWait o with
  | None =>
      if usSem o <? usMax o then Ok (set_usSem (u16 (usSem o + 1)) o, k) else Ok (o, k)
  | Some _ =>
      '(o, k) ← Semaphore_WakeNextPending o k;
      Ok (o, Task_YieldSWI k)
  end.

(** ** Invariant *)

(** The count is within its maximum, the wait list is a duplicate-free
    list, and nobody waits while the count is positive. *)
Definition sem_inv (o : SEMAPHORE_STRUCT) (k : KERNEL) (l : list nat) : Prop :=
  wlist (tcb k) (pstWait o) l ∧ NoDup l ∧ 0 <= usSem o <= usMax o ∧ usMax o < 65536 ∧
  (l ≠ [] → usSem o = 0).

(** Tasks 2 and 3 of the example wait, task 3 with the higher priority. *)
Definition example_waiters : KERNEL :=
  example_kernel (example_task 3 TASK_BLOCKED 9 (Some 3%nat) (Some 3%nat))
    (example_task 5 TASK_BLOCKED 9 (Some 1%nat) NULL).

(** Only the head pointer changed: the counters did not. *)
Lemma sem_rewait (o o' : SEMAPHORE_STRUCT) :
  o' = set_pstTask (pstTask o') o → usSem o' = usSem o ∧ usMax o' = usMax o.
Proof. intros ->. done. Qed.

(** Priorities are unsigned bytes. *)
Definition prios_ok (k : KERNEL) : Prop :=
  ∀ x t, tcb k !! x = Some t → 0 <= ucPriority t.

Lemma example_waiters_inv :
  sem_inv (mkSem 0 1 (Some 2%nat)) example_waiters [2; 3]%nat ∧ prios_ok example_waiters.
Proof.
  split.
  - split; [|solve_example; done]. cbn [wlist]. split; [done|]. eexists. split; [reflexivity|].
    split; [done|]. eexists. split; [reflexivity|]. done.
  - intros x t. by apply (example_blocks (λ _ t, 0 <= ucPriority t)).
Qed.

(** The new store keeps every priority if it keeps every block up to its
    link, except [x] whose priority is kept too. *)
Lemma prios_ok_off_list k k' x t t' :
  prios_ok k → tcb k !! x = Some t → ucPriority t' = ucPriority t →
  off_list <$> tcb k' !! x = Some (off_list t') →
  (∀ y, y ≠ x → off_list <$> tcb k' !! y = off_list <$> tcb k !! y) → prios_ok k'.
Proof.
  intros Hp Ht Ep Hx Hy y ty Hty. destruct (decide (y = x)) as [->|Hne].
  - apply off_list_lookup_inv in Hx as (t1 & Ht1 & _ & E & _).
    assert (ty = t1) as -> by congruence. rewrite E, Ep. by eapply Hp.
  - specialize (Hy y Hne). rewrite Hty in Hy. destruct (tcb k !! y) as [t0|] eqn:E; [|done].
    cbn in Hy. apply (inj Some) in Hy. apply off_list_inv in Hy as (_ & -> & _). by eapply Hp.
Qed.

(** ** Post *)

Lemma Semaphore_Post_waiters o k c r :
  sem_inv o k (c :: r) → prios_ok k →
  ∃ x tx o' k', Semaphore_Post o k = Ok (o', k') ∧ x ∈ c :: r ∧ tcb k !! x = Some tx ∧
    (∀ y ty, y ∈ c :: r → tcb k !! y = Some ty → ucPriority ty <= ucPriority tx) ∧
    (∃ tx', tcb k' !! x = Some tx' ∧ eState tx' = TASK_READY ∧ bTimeout tx' = bTimeout tx) ∧
    (∀ y ty, y ≠ x → tcb k !! y = Some ty →
       ∃ ty', tcb k' !! y = Some ty' ∧ eState ty' = eState ty) ∧
    sem_inv o' k' (wait_delete x (c :: r)) ∧ usSem o' = usSem o ∧
    prios_ok k' ∧ INT0_request k' = INT0_request k || bGlobalTaskEnable k.
Proof.
  intros (Hw & Hnd & Hc & Hm & Hz) Hp.
  destruct (wlist_lookup _ _ _ c Hw) as [tc Htc]; [set_solver|].
  destruct (@WakeChosen_spec _ semaphore_wait ucPriority o k c tc r Hw Hnd Htc)
    as (x & tx & o' & m' & _ & Hin & Htx & Hmax & Hwake & Ho & Hw' & Hx' & Hy').
  specialize (Hmax (Hp _ _ Htc)). exists x, tx, o', (Task_YieldSWI (set_tcb m' k)).
  assert (pstWait o = Some c) as Hpw by apply Hw.
  split. { unfold Semaphore_Post, Semaphore_WakeNextPending. by rewrite Hpw, Hwake. }
  split; [done|]. split; [done|]. split; [done|]. rewrite !Task_YieldSWI_tcb. kcbn.
  split; [|split; [|split; [|split; [|split]]]].
  - apply off_list_lookup_inv in Hx' as (tx' & ? & ? & _ & ? & _). eauto.
  - intros y ty Hne Hty. specialize (Hy' y Hne). rewrite Hty in Hy'.
    apply off_list_lookup_inv in Hy' as (ty' & ? & ? & _). eauto.
  - destruct (sem_rewait _ _ Ho) as [E1 E2]. unfold sem_inv.
    rewrite Task_YieldSWI_tcb, E1, E2. split; [done|].
    split; [by apply wait_delete_NoDup|]. split; [done|]. split; [done|]. intros _. by apply Hz.
  - apply (sem_rewait _ _ Ho).
  - eapply (prios_ok_off_list k _ x tx); [done|done| |by rewrite Task_YieldSWI_tcb; exact Hx'|];
      [done|]. intros y Hy. rewrite Task_YieldSWI_tcb. by apply Hy'.
  - rewrite Task_YieldSWI_request. done.
Qed.

(** Posting with waiters wakes a listed task that no other waiter
    outranks, makes it ready, requests a context switch when the scheduler
    runs, leaves the count and every other waiter's state alone, and the new
    list is the old one after [DeleteFromList]. *)
Theorem Semaphore_Post_wakes_highest o k c r :
  sem_inv o k (c :: r) → prios_ok k →
  ∃ x tx o' k', Semaphore_Post o k = Ok (o', k') ∧ x ∈ c :: r ∧ tcb k !! x = Some tx ∧
    (∀ y ty, y ∈ c :: r → tcb k !! y = Some ty → ucPriority ty <= ucPriority tx) ∧
    (∃ tx', tcb k' !! x = Some tx' ∧ eState tx' = TASK_READY ∧ bTimeout tx' = bTimeout tx) ∧
    (∀ y ty, y ≠ x → tcb k !! y = Some ty →
       ∃ ty', tcb k' !! y = Some ty' ∧ eState ty' = eState ty) ∧
    sem_inv o' k' (wait_delete x (c :: r)) ∧ usSem o' = usSem o ∧
    prios_ok k' ∧ INT0_request k' = INT0_request k || bGlobalTaskEnable k.
Proof. apply Semaphore_Post_waiters. Qed.

Lemma Semaphore_Post_wakes_highest_witness :
  ∃ o' k' t, Semaphore_Post (mkSem 0 1 (Some 2%nat)) example_waiters = Ok (o', k') ∧
    tcb k' !! 3%nat = Some t ∧ eState t = TASK_READY.
Proof.
  destruct (Semaphore_Post_wakes_highest (mkSem 0 1 (Some 2%nat)) example_waiters 2%nat [3]%nat)
    as (x & tx & o' & k' & Hp & _).
  - apply example_waiters_inv.
  - apply example_waiters_inv.
  - vm_compute in Hp. simplify_eq. eexists _, _, _. repeat split.
Defined.

(** The wake-up deletes the wrong element when the chosen waiter is the
    second of the list: with the second waiter strictly above all others,
    [Semaphore_Post] wakes it, but the first waiter disappears from the list
    too while its state stays as it was, so that no later post can wake it. *)
Theorem Semaphore_Post_loses_first_waiter o k a b r tb :
  sem_inv o k (a :: b :: r) → prios_ok k → tcb k !! b = Some tb →
  (∀ y ty, y ∈ a :: r → tcb k !! y = Some ty → ucPriority ty < ucPriority tb) →
  ∃ o' k', Semaphore_Post o k = Ok (o', k') ∧ sem_inv o' k' r ∧ a ∉ r ∧
    (∀ ta, tcb k !! a = Some ta → ∃ ta', tcb k' !! a = Some ta' ∧ eState ta' = eState ta).
Proof.
  intros Hinv Hp Hb Hlt. assert (NoDup (a :: b :: r)) as Hnd by apply Hinv.
  apply NoDup_cons in Hnd as [Ha Hnd]. apply NoDup_cons in Hnd as [Hbr _].
  destruct (Semaphore_Post_waiters o k a (b :: r) Hinv Hp)
    as (x & tx & o' & k' & Hpost & Hx & Htx & Hmax & _ & Hother & Hinv' & _).
  assert (x = b) as ->.
  { destruct (decide (x = b)) as [|Hne]; [done|].
    assert (ucPriority tx < ucPriority tb) by (apply (Hlt x); [set_solver|done]).
    assert (ucPriority tb <= ucPriority tx) by (apply (Hmax b); [set_solver|done]). lia. }
  exists o', k'. split; [done|]. split; [|split; [set_solver|]].
  - assert (a ≠ b) by set_solver. simpl in Hinv'.
    rewrite decide_False in Hinv' by done. by rewrite decide_True in Hinv' by done.
  - intros ta Hta. apply Hother; [set_solver|done].
Qed.

Lemma Semaphore_Post_loses_first_waiter_witness :
  ∃ o' k', Semaphore_Post (mkSem 0 1 (Some 2%nat)) example_waiters = Ok (o', k') ∧ sem_inv o' k' [].
Proof.
  destruct (Semaphore_Post_loses_first_waiter (mkSem 0 1 (Some 2%nat)) example_waiters 2%nat 3%nat []
    (example_task 5 TASK_BLOCKED 9 (Some 1%nat) NULL)) as (o' & k' & H1 & H2 & _).
  - apply example_waiters_inv.
  - apply example_waiters_inv.
  - done.
  - intros y ty Hy Ht. apply list_elem_of_singleton in Hy as ->. vm_compute in Ht. by simplify_eq.
  - eauto.
Defined.

(** Posting with nobody waiting counts up to the maximum and stops there. *)
Theorem Semaphore_Post_saturates o k :
  sem_inv o k [] → Semaphore_Post o k = Ok (set_usSem (Z.min (usSem o + 1) (usMax o)) o, k).
Proof.
  intros (Hw & _ & Hc & Hm & _). simpl in Hw. unfold Semaphore_Post. rewrite Hw.
  destruct (Z.ltb_spec (usSem o) (usMax o)).
  - by rewrite u16_small, Z.min_l by lia.
  - rewrite Z.min_r by lia. replace (usMax o) with (usSem o) by lia. by destruct o.
Qed.

(** ** Pend *)


Lemma Pend_enter_blocks o time k l x t :
  wlist (tcb k) (pstWait o) l → x ∉ l → usSem o = 0 →
  pstCurrentTask k = Some x → tcb k !! x = Some t →
  ∃ m', Semaphore_Pend_enter o time k = Ok (set_pstWait (Some x) o, set_tcb m' k, true) ∧
    wlist m' (Some x) (x :: l) ∧
    off_list <$> m' !! x = Some (off_list (set_usTimeLeft time (set_eState TASK_BLOCKED t))) ∧
    (∀ y, y ≠ x → m' !! y = tcb k !! y).
Proof.
  intros Hw Hx Hz Hc Ht. unfold Semaphore_Pend_enter, Task_GetCurrentTask.
  rewrite Hz, Hc. cbn [Z.eqb negb]. rewrite (upd_task_some _ _ _ _ Ht), bind_ok.
  erewrite upd_task_some by (kcbn; apply lookup_insert_eq). rewrite bind_ok.
  set (t1 := set_usTimeLeft time (set_eState TASK_BLOCKED t)).
  exists (<[x := set_pstNextList (pstWait o) t1]> (tcb k)). split; [|split; [|split]].
  - unfold Semaphore_AddToList, AddToList. cbn [pstTask set_pstTask semaphore_wait].
    destruct (pstWait o);
      (erewrite upd_task_some by (kcbn; rewrite insert_insert_eq; apply lookup_insert_eq));
      rewrite !bind_ok; kcbn; by rewrite !insert_insert_eq.
  - split; [done|]. eexists. rewrite lookup_insert_eq. split; [done|].
    by apply wlist_insert_notin.
  - by rewrite lookup_insert_eq.
  - intros y Hy. by rewrite lookup_insert_ne.
Qed.

(** After the wait: a set timeout flag takes the task off the list and is
    cleared, otherwise nothing happens. *)
Lemma Pend_resume_ok o k x t :
  tcb k !! x = Some t → bTimeout t = false →
  Semaphore_Pend_resume o (Some x) k = Ok (o, k, true).
Proof. intros Ht Hb. unfold Semaphore_Pend_resume. by rewrite (deref_some _ _ _ Ht), bind_ok, Hb. Qed.

Lemma Pend_resume_timeout o k l x t :
  wlist (tcb k) (pstWait o) l → NoDup l → tcb k !! x = Some t → bTimeout t = true →
  ∃ o' m', Semaphore_Pend_resume o (Some x) k = Ok (o', set_tcb m' k, false) ∧
    o' = set_pstWait (pstWait o') o ∧ wlist m' (pstWait o') (wait_delete x l) ∧
    off_list <$> m' !! x = Some (off_list (set_bTimeout false t)) ∧
    (∀ y, y ≠ x → off_list <$> m' !! y = off_list <$> tcb k !! y).
Proof.
  intros Hw Hnd Ht Hb. unfold Semaphore_Pend_resume. rewrite (deref_some _ _ _ Ht), bind_ok, Hb.
  destruct (@DeleteFromList_spec _ semaphore_wait o k l x t Hw Hnd Ht)
    as (o' & m1 & Hdel & Ho & Hw1 & Hoff).
  destruct (same_off_list_lookup _ _ _ _ Hoff Ht) as (t1 & Ht1 & Hoff1).
  unfold Semaphore_DeleteFromList. rewrite Hdel, bind_ok, (upd_task_some x t1 _ (set_tcb m1 k) Ht1).
  exists o', (<[x := set_bTimeout false t1]> m1). split; [done|]. split; [done|]. split; [|split].
  - apply wlist_insert_notin; [by apply wait_delete_gone|done].
  - rewrite lookup_insert_eq. exact (f_equal (Some ∘ set_bTimeout false) Hoff1).
  - intros y Hy. rewrite lookup_insert_ne by done. apply Hoff.
Qed.

(** The handoff: a task that finds the semaphore taken and outranks every
    waiter is handed the next post: [Semaphore_Pend] returns TRUE, the task
    is ready, and the semaphore is back in the state before the call. *)
Theorem Semaphore_Pend_handoff o k l x t time :
  sem_inv o k l → prios_ok k → usSem o = 0 → pstCurrentTask k = Some x → x ∉ l →
  tcb k !! x = Some t → bTimeout t = false →
  (∀ y ty, y ∈ l → tcb k !! y = Some ty → ucPriority ty < ucPriority t) →
  ∃ o' k' t', Semaphore_Pend Semaphore_Post o time k = Ok (o', k', true) ∧
    sem_inv o' k' l ∧ usSem o' = 0 ∧ tcb k' !! x = Some t' ∧ eState t' = TASK_READY.
Proof.
  intros (Hw & Hnd & Hc & Hm & Hz) Hp H0 Hcur Hx Ht Hb Hlt.
  destruct (Pend_enter_blocks o time k l x t Hw Hx H0 Hcur Ht) as (m1 & Henter & Hw1 & Hx1 & Hy1).
  destruct (off_list_lookup_inv _ _ _ Hx1) as (t1 & Ht1 & _ & Hp1 & Hb1 & _).
  set (o1 := set_pstWait (Some x) o). set (k1 := Task_YieldSWI (set_tcb m1 k)).
  assert (tcb k1 = m1) as Ek1 by apply Task_YieldSWI_tcb.
  assert (sem_inv o1 k1 (x :: l)) as Hinv1.
  { unfold sem_inv. rewrite Ek1. split; [done|]. split; [by apply NoDup_cons|]. done. }
  assert (prios_ok k1) as Hp'.
  { intros y ty Hy. rewrite Ek1 in Hy. destruct (decide (y = x)) as [->|Hne].
    - assert (ty = t1) as -> by congruence. rewrite Hp1. exact (Hp x t Ht).
    - rewrite Hy1 in Hy by done. by eapply Hp. }
  destruct (Semaphore_Post_waiters o1 k1 x l Hinv1 Hp')
    as (z & tz & o' & k' & Hpost & Hin & Htz & Hmax & (tz' & Htz' & Hrdy & Hbt) & _ & Hinv' & Hcnt & _).
  assert (z = x) as ->.
  { destruct (decide (z = x)) as [|Hne]; [done|]. rewrite Ek1 in Htz, Hmax.
    assert (ucPriority t1 <= ucPriority tz) by (apply (Hmax x); [set_solver|done]).
    rewrite Hy1 in Htz by done. cbn in Hp1.
    assert (ucPriority tz < ucPriority t) by (apply (Hlt z); [set_solver|done]). lia. }
  assert (tz = t1) as -> by (rewrite Ek1 in Htz; congruence).
  exists o', k', tz'. split.
  - unfold Semaphore_Pend, Task_GetCurrentTask. rewrite Henter, bind_ok, Hcur. fold o1 k1.
    rewrite Hpost, bind_ok. eapply Pend_resume_ok; [done|]. rewrite Hbt, Hb1. exact Hb.
  - simpl in Hinv'. rewrite decide_True in Hinv' by done. split; [done|].
    split; [|done]. by rewrite Hcnt.
Qed.

Lemma Semaphore_Pend_handoff_witness :
  let k := set_pstCurrentTask (Some 3%nat)
             (example_kernel (example_task 3 TASK_BLOCKED 9 (Some 3%nat) NULL)
               (example_task 5 TASK_READY 4 (Some 1%nat) NULL)) in
  ∃ o' k', Semaphore_Pend Semaphore_Post (mkSem 0 1 (Some 2%nat)) 50 k = Ok (o', k', true) ∧
    sem_inv o' k' [2]%nat.
Proof.
  intros k. destruct (Semaphore_Pend_handoff (mkSem 0 1 (Some 2%nat)) k [2]%nat 3%nat
    (example_task 5 TASK_READY 4 (Some 1%nat) NULL) 50) as (o' & k' & t' & H1 & H2 & _).
  - split; [|solve_example; done]. cbn [wlist]. split; [done|]. eexists. split; [reflexivity|]. done.
  - intros x t. by apply (example_blocks (λ _ t, 0 <= ucPriority t)).
  - done.
  - done.
  - solve_example.
  - done.
  - done.
  - intros y ty Hy Ht. apply list_elem_of_singleton in Hy as ->. vm_compute in Ht. by simplify_eq.
  - eauto.
Defined.

(** A post can be lost: when the only waiter has timed out but has not
    run yet, [Semaphore_Post] spends the post on it, and the waiter then
    returns FALSE from [Semaphore_Pend]; the count is still 0. *)
Theorem Semaphore_Post_lost_on_timeout o k x t :
  sem_inv o k [x] → prios_ok k → tcb k !! x = Some t → bTimeout t = true →
  ∃ o1 k1 o2 k2, Semaphore_Post o k = Ok (o1, k1) ∧
    Semaphore_Pend_resume o1 (Some x) k1 = Ok (o2, k2, false) ∧
    usSem o2 = 0 ∧ pstWait o2 = NULL.
Proof.
  intros Hinv Hp Ht Hb.
  destruct (Semaphore_Post_waiters o k x [] Hinv Hp)
    as (z & tz & o1 & k1 & Hpost & Hin & Htz & _ & (tz' & Htz' & _ & Hbt) & _ & Hinv1 & Hcnt & _).
  assert (z = x) as -> by set_solver. assert (tz = t) as -> by congruence.
  simpl in Hinv1. rewrite decide_True in Hinv1 by done. destruct Hinv1 as (Hw1 & _).
  destruct (Pend_resume_timeout o1 k1 [] x tz' Hw1) as (o2 & m2 & Hres & Ho2 & Hw2 & _);
    [constructor|done|congruence|].
  exists o1, k1, o2, (set_tcb m2 k1). split; [done|]. split; [done|].
  destruct (sem_rewait o1 o2 Ho2) as [-> _]. split; [|done].
  rewrite Hcnt. apply Hinv. done.
Qed.

(** ** Every interleaving *)










End Semaphore.
