(* ===== verification/FunkMutex.v ===== *)
(** * FunkOS: mutexes (kernel/mutex.c)

    As for semaphores, what the rest of the system does while a claiming
    task is blocked is the function [env]. *)
From S2P Require Import Prelude FunkKernel FunkTask FunkRing FunkExample FunkSched FunkWait.

Module Mutex.

Record MUTEX_STRUCT : Type := mkMutex {
  usSem : Z;
  ucMaxPri : Z;
  pstWait : ptr
}.

Definition set_usSem (v : Z) (r : MUTEX_STRUCT) : MUTEX_STRUCT :=
  mkMutex v (ucMaxPri r) (pstWait r).
Definition set_ucMaxPri (v : Z) (r : MUTEX_STRUCT) : MUTEX_STRUCT :=
  mkMutex (usSem r) v (pstWait r).
Definition set_pstWait (v : ptr) (r : MUTEX_STRUCT) : MUTEX_STRUCT :=
  mkMutex (usSem r) (ucMaxPri r) v.

#[export] Program Instance mutex_wait : WaitObj MUTEX_STRUCT := {|
  pstTask := pstWait;
  set_pstTask := set_pstWait;
|}.
Solve Obligations with by intros; simpl; try destruct o.

(** ** Operations *)

Definition Mutex_Init (o : MUTEX_STRUCT) : MUTEX_STRUCT :=
  set_pstWait NULL (set_ucMaxPri 0 (set_usSem 1 o)).

Definition Mutex_AddToList := AddToList (Obj := MUTEX_STRUCT).
Definition Mutex_DeleteFromList := DeleteFromList (Obj := MUTEX_STRUCT).

Fixpoint inherit_loop (fuel : nat) (cur : ptr) (prio : Z) (k : KERNEL) : res KERNEL :=
  match fuel with
  | O => Fault OutOfFuel
  | S fuel =>
      match cur with
      | None => Ok k
      | Some _ =>
          k ← upd_task cur (set_ucPriority prio) k;
          t ← deref (tcb k) cur;
          inherit_loop fuel (pstNextList t) prio k
      end
  end.

Definition Mutex_InheritPriority (o : MUTEX_STRUCT) (prio : Z) (k : KERNEL) : res (MUTEX_STRUCT * KERNEL) :=
  if ucMaxPri o <? prio then
    let o := set_ucMaxPri prio o in
    k ← inherit_loop (ring_fuel k) (pstWait o) prio k;
    Ok (o, k)
  else Ok (o, k).

Definition Mutex_WakeNextPending (o : MUTEX_STRUCT) (k : KERNEL) : res (MUTEX_STRUCT * KERNEL) :=
  match pstWait o with
  | None => Ok (set_pstWait NULL (set_usSem 1 (set_ucMaxPri 0 o)), k)
  | Some _ => WakeChosen ucMutexPriority o k
  end.

(** [Mutex_Claim] up to the possible context switch; the flag tells that the
    task has to wait. *)
Definition Mutex_Claim_enter (o : MUTEX_STRUCT) (time : Z) (k : KERNEL)
    : res (MUTEX_STRUCT * KERNEL * bool) :=
  let k := (Task_SchedulerDisable k).1 in
  let task := Task_GetCurrentTask k in
  k ← upd_task task (fun t => set_ucMutexPriority (ucPriority t) t) k;
  t ← deref (tcb k) task;
  if negb (usSem o =? 0) then
    Ok (set_ucMaxPri (ucPriority t) (set_usSem 0 o), k, false)
  else
    k ← upd_task task (set_eState TASK_BLOCKED) k;
    k ← upd_task task (set_usTimeLeft time) k;
    '(o, k) ← Mutex_AddToList o task k;
    t ← deref (tcb k) task;
    '(o, k) ← Mutex_InheritPriority o (ucPriority t) k;
    Ok (o, Task_SchedulerRestore true k, true).

(** The rest of [Mutex_Claim] for a task that had to wait. *)
Definition Mutex_Claim_resume (o : MUTEX_STRUCT) (task : ptr) (k : KERNEL)
    : res (MUTEX_STRUCT * KERNEL * bool) :=
  let k := (Task_SchedulerDisable k).1 in
  t ← deref (tcb k) task;
  if bTimeout t then
    '(o, k) ← Mutex_DeleteFromList o task k;
    k ← upd_task task (set_bTimeout false) k;
    Ok (o, Task_SchedulerRestore true k, false)
  else Ok (o, Task_SchedulerRestore true k, true).

Definition Mutex_Claim (env : MUTEX_STRUCT → KERNEL → res (MUTEX_STRUCT * KERNEL))
    (o : MUTEX_STRUCT) (time : Z) (k : KERNEL) : res (MUTEX_STRUCT * KERNEL * bool) :=
  let task := Task_GetCurrentTask k in
  '(o, k, wait) ← Mutex_Claim_enter o time k;
  if wait : bool then
    '(o, k) ← env o (Task_YieldSWI k);
    Mutex_Claim_resume o task k
  else Ok (o, Task_SchedulerRestore true k, true).

Definition Mutex_Release (o : MUTEX_STRUCT) (k : KERNEL) : res (MUTEX_STRUCT * KERNEL) :=
  let k := (Task_SchedulerDisable k).1 in
  let task := Task_GetCurrentTask k in
  k ← upd_task task (fun t => set_ucPriority (ucMutexPriority t) t) k;
  k ← upd_task task (set_ucMutexPriority 0) k;
  match pstWait o with
  | None => Ok (set_usSem 1 o, Task_SchedulerRestore true k)
  | Some _ =>
      '(o, k) ← Mutex_WakeNextPending o k;
      Ok (o, Task_YieldSWI (Task_SchedulerRestore true k))
  end.

(** ** Lemmas *)

Lemma mutex_rewait (o o' : MUTEX_STRUCT) :
  o' = set_pstTask (pstTask o') o → usSem o' = usSem o ∧ ucMaxPri o' = ucMaxPri o.
Proof. intros ->. done. Qed.

(** Priority inheritance raises exactly the listed tasks. *)
Lemma inherit_loop_spec fuel k p l prio :
  wlist (tcb k) p l → NoDup l → (length l < fuel)%nat →
  ∃ m', inherit_loop fuel p prio k = Ok (set_tcb m' k) ∧
    (∀ x, x ∈ l → m' !! x = set_ucPriority prio <$> tcb k !! x) ∧
    (∀ x, x ∉ l → m' !! x = tcb k !! x).
Proof.
  revert fuel k p. induction l as [|x l IH]; intros fuel k p Hw Hnd Hf;
    (destruct fuel as [|fuel]; [simpl in Hf; lia|]); cbn [inherit_loop].
  - simpl in Hw. subst p. exists (tcb k). split; [by destruct k|]. set_solver.
  - destruct Hw as (-> & t & Ht & Hw). apply NoDup_cons in Hnd as [Hx Hnd].
    rewrite (upd_task_some _ _ _ _ Ht), bind_ok.
    set (k1 := set_tcb (<[x := set_ucPriority prio t]> (tcb k)) k).
    rewrite (deref_some (tcb k1) x _ (lookup_insert_eq _ _ _)), bind_ok.
    destruct (IH fuel k1 (pstNextList t)) as (m' & E & Hin & Hout);
      [by apply wlist_insert_notin|done|simpl in Hf; lia|].
    exists m'. split; [exact E|]. subst k1. kcbn in Hin. kcbn in Hout. split.
    + intros y Hy. destruct (decide (y = x)) as [->|Hne].
      * rewrite Hout, lookup_insert_eq, Ht by done. done.
      * rewrite Hin by set_solver. by rewrite lookup_insert_ne by done.
    + intros y Hy. rewrite Hout by set_solver. by rewrite lookup_insert_ne by set_solver.
Qed.

Lemma Claim_enter_free o time k x t :
  usSem o ≠ 0 → pstCurrentTask k = Some x → tcb k !! x = Some t →
  Mutex_Claim_enter o time k =
    Ok (set_ucMaxPri (ucPriority t) (set_usSem 0 o),
        set_tcb (<[x := set_ucMutexPriority (ucPriority t) t]> (tcb k)) (Task_SetScheduler false k),
        false).
Proof.
  intros H0 Hc Ht. unfold Mutex_Claim_enter, Task_GetCurrentTask, Task_SchedulerDisable.
  cbn [fst]. change (pstCurrentTask (Task_SetScheduler false k)) with (pstCurrentTask k). rewrite Hc.
  rewrite (upd_task_some x t _ (Task_SetScheduler false k) Ht), bind_ok.
  erewrite deref_some by (kcbn; apply lookup_insert_eq). rewrite bind_ok.
  destruct (Z.eqb_spec (usSem o) 0); done.
Qed.

(** The control block of a claiming task when its wait begins. *)
Definition claim_block (time : Z) (t : TASK_STRUCT) : TASK_STRUCT :=
  set_usTimeLeft time (set_eState TASK_BLOCKED (set_ucMutexPriority (ucPriority t) t)).

Lemma Claim_enter_blocks o time k l x t :
  wlist (tcb k) (pstWait o) l → NoDup (x :: l) → usSem o = 0 →
  pstCurrentTask k = Some x → tcb k !! x = Some t →
  ∃ o' m', Mutex_Claim_enter o time k = Ok (o', set_tcb m' (Task_SetScheduler true k), true) ∧
    usSem o' = 0 ∧ ucMaxPri o' = Z.max (ucMaxPri o) (ucPriority t) ∧
    wlist m' (pstWait o') (x :: l) ∧
    (let raise := if ucMaxPri o <? ucPriority t then set_ucPriority (ucPriority t) else id in
     m' !! x = Some (raise (set_pstNextList (pstWait o) (claim_block time t))) ∧
     (∀ y, y ∈ l → m' !! y = raise <$> tcb k !! y) ∧
     (∀ y, y ∉ x :: l → m' !! y = tcb k !! y)).
Proof.
  intros Hw Hnd H0 Hc Ht. assert (x ∉ l) as Hx by (by apply NoDup_cons in Hnd as [? _]).
  unfold Mutex_Claim_enter, Task_GetCurrentTask, Task_SchedulerDisable.
  cbn [fst]. change (pstCurrentTask (Task_SetScheduler false k)) with (pstCurrentTask k). rewrite Hc.
  set (k0 := Task_SetScheduler false k).
  rewrite (upd_task_some x t _ k0 Ht), bind_ok.
  erewrite deref_some by (kcbn; apply lookup_insert_eq). rewrite bind_ok, H0. cbn [Z.eqb negb].
  erewrite upd_task_some by (kcbn; apply lookup_insert_eq). rewrite bind_ok.
  erewrite upd_task_some by (kcbn; apply lookup_insert_eq). rewrite bind_ok.
  set (t1 := set_pstNextList (pstWait o) (claim_block time t)).
  set (k1 := set_tcb (<[x := t1]> (tcb k)) k0). set (o1 := set_pstWait (Some x) o).
  match goal with |- context [Mutex_AddToList o (Some x) ?kk] =>
    assert (Mutex_AddToList o (Some x) kk = Ok (o1, k1)) as -> end.
  { unfold Mutex_AddToList, AddToList. cbn [pstTask set_pstTask mutex_wait].
    destruct (pstWait o) eqn:Ep;
      (erewrite upd_task_some by (kcbn; apply lookup_insert_eq));
      rewrite bind_ok; subst k1 t1; kcbn; by rewrite !insert_insert_eq. }
  rewrite bind_ok. assert (tcb k1 !! x = Some t1) as Ht1 by apply lookup_insert_eq.
  rewrite (deref_some _ _ _ Ht1), bind_ok.
  change (ucPriority t1) with (ucPriority t).
  assert (wlist (tcb k1) (pstWait o1) (x :: l)) as Hw1.
  { split; [done|]. exists t1. split; [done|]. by apply wlist_insert_notin. }
  unfold Mutex_InheritPriority. change (ucMaxPri o1) with (ucMaxPri o).
  destruct (Z.ltb_spec (ucMaxPri o) (ucPriority t)) as [Hlt|Hge].
  - destruct (inherit_loop_spec (ring_fuel k1) k1 (Some x) (x :: l) (ucPriority t))
      as (m' & E & Hin & Hout); [done|done| |].
    { pose proof (wlist_length _ _ _ Hnd Hw1). unfold ring_fuel. lia. }
    cbn [pstWait set_ucMaxPri]. change (pstWait o1) with (Some x). rewrite E, !bind_ok.
    eexists _, m'. split; [done|]. split; [done|]. split; [cbn; lia|]. split.
    + eapply wlist_ext; [|exact Hw1]. intros y Hy. rewrite Hin by done. by destruct (tcb k1 !! y).
    + split; [rewrite Hin by set_solver; by rewrite Ht1|]. split.
      * intros y Hy. rewrite Hin by set_solver. f_equal. apply lookup_insert_ne. set_solver.
      * intros y Hy. rewrite Hout by done. apply lookup_insert_ne. set_solver.
  - rewrite !bind_ok. eexists o1, (tcb k1). split; [done|]. split; [done|]. split; [cbn; lia|].
    split; [done|]. split; [done|]. split.
    + intros y Hy. rewrite option_fmap_id. apply lookup_insert_ne. set_solver.
    + intros y Hy. apply lookup_insert_ne. set_solver.
Qed.

Lemma Claim_resume_ok o k x t :
  tcb k !! x = Some t → bTimeout t = false →
  Mutex_Claim_resume o (Some x) k = Ok (o, Task_SetScheduler true k, true).
Proof.
  intros Ht Hb. unfold Mutex_Claim_resume, Task_SchedulerDisable. cbn [fst].
  change (tcb (Task_SetScheduler false k)) with (tcb k).
  by rewrite (deref_some _ _ _ Ht), bind_ok, Hb.
Qed.

Lemma Claim_resume_timeout o k l x t :
  wlist (tcb k) (pstWait o) l → NoDup l → tcb k !! x = Some t → bTimeout t = true →
  ∃ o' m', Mutex_Claim_resume o (Some x) k = Ok (o', set_tcb m' (Task_SetScheduler true k), false) ∧
    o' = set_pstWait (pstWait o') o ∧ wlist m' (pstWait o') (wait_delete x l) ∧
    off_list <$> m' !! x = Some (off_list (set_bTimeout false t)) ∧
    (∀ y, y ≠ x → off_list <$> m' !! y = off_list <$> tcb k !! y).
Proof.
  intros Hw Hnd Ht Hb. unfold Mutex_Claim_resume, Task_SchedulerDisable. cbn [fst].
  set (k0 := Task_SetScheduler false k). change (tcb k) with (tcb k0) in *.
  rewrite (deref_some _ _ _ Ht), bind_ok, Hb.
  destruct (@DeleteFromList_spec _ mutex_wait o k0 l x t Hw Hnd Ht)
    as (o' & m1 & Hdel & Ho & Hw1 & Hoff).
  destruct (same_off_list_lookup _ _ _ _ Hoff Ht) as (t1 & Ht1 & Hoff1).
  unfold Mutex_DeleteFromList. rewrite Hdel, bind_ok, (upd_task_some x t1 _ (set_tcb m1 k0) Ht1).
  exists o', (<[x := set_bTimeout false t1]> m1). split; [done|]. split; [done|]. split; [|split].
  - apply wlist_insert_notin; [by apply wait_delete_gone|done].
  - rewrite lookup_insert_eq. exact (f_equal (Some ∘ set_bTimeout false) Hoff1).
  - intros y Hy. rewrite lookup_insert_ne by done. apply Hoff.
Qed.

(** The releasing task gets its own priority back. *)
Definition release_block (t : TASK_STRUCT) : TASK_STRUCT :=
  set_ucMutexPriority 0 (set_ucPriority (ucMutexPriority t) t).

Lemma Release_free o k x t :
  pstWait o = NULL → pstCurrentTask k = Some x → tcb k !! x = Some t →
  Mutex_Release o k =
    Ok (set_usSem 1 o, set_tcb (<[x := release_block t]> (tcb k)) (Task_SetScheduler true k)).
Proof.
  intros Hw Hc Ht. unfold Mutex_Release, Task_GetCurrentTask, Task_SchedulerDisable.
  cbn [fst]. change (pstCurrentTask (Task_SetScheduler false k)) with (pstCurrentTask k). rewrite Hc.
  rewrite (upd_task_some x t _ (Task_SetScheduler false k) Ht), bind_ok.
  erewrite upd_task_some by (kcbn; apply lookup_insert_eq). rewrite bind_ok, Hw. kcbn.
  by rewrite insert_insert_eq.
Qed.

Lemma best_waiter_ext m m' key l mp c :
  (∀ y, y ∈ l → m' !! y = m !! y) → best_waiter m' key l mp c = best_waiter m key l mp c.
Proof.
  revert mp c. induction l as [|x l IH]; intros mp c He; [done|]. simpl.
  rewrite He by set_solver. destruct (m !! x) as [t|]; [|done].
  destruct (mp <? key t); apply IH; set_solver.
Qed.

Lemma Release_waiters o k x t c :
  pstWait o = Some c → pstCurrentTask k = Some x → tcb k !! x = Some t →
  Mutex_Release o k =
    '(o, k) ← WakeChosen ucMutexPriority o
                (set_tcb (<[x := release_block t]> (tcb k)) (Task_SetScheduler false k));
    Ok (o, Task_YieldSWI (Task_SchedulerRestore true k)).
Proof.
  intros Hp Hc Ht. unfold Mutex_Release, Task_GetCurrentTask, Task_SchedulerDisable.
  cbn [fst]. change (pstCurrentTask (Task_SetScheduler false k)) with (pstCurrentTask k). rewrite Hc.
  rewrite (upd_task_some x t _ (Task_SetScheduler false k) Ht), bind_ok.
  erewrite upd_task_some by (kcbn; apply lookup_insert_eq).
  rewrite bind_ok, Hp. unfold Mutex_WakeNextPending. rewrite Hp. kcbn.
  by rewrite insert_insert_eq.
Qed.

Lemma Release_handoff o k x t c tc r :
  wlist (tcb k) (pstWait o) (c :: r) → NoDup (c :: r) → x ∉ c :: r →
  pstCurrentTask k = Some x → tcb k !! x = Some t → tcb k !! c = Some tc →
  ∃ y ty o' m' k', y = best_waiter (tcb k) ucMutexPriority (c :: r) 0 c ∧ y ∈ c :: r ∧
    tcb k !! y = Some ty ∧
    (0 <= ucMutexPriority tc →
     ∀ z tz, z ∈ c :: r → tcb k !! z = Some tz → ucMutexPriority tz <= ucMutexPriority ty) ∧
    Mutex_Release o k = Ok (o', k') ∧ tcb k' = m' ∧ pstCurrentTask k' = Some x ∧
    o' = set_pstWait (pstWait o') o ∧ wlist m' (pstWait o') (wait_delete y (c :: r)) ∧
    off_list <$> m' !! y = Some (off_list (set_eState TASK_READY ty)) ∧
    off_list <$> m' !! x = Some (off_list (release_block t)) ∧
    (∀ z, z ≠ y → z ≠ x → off_list <$> m' !! z = off_list <$> tcb k !! z).
Proof.
  intros Hw Hnd Hx Hc Ht Htc.
  assert (pstWait o = Some c) as Hp by apply Hw.
  rewrite (Release_waiters o k x t c Hp Hc Ht).
  set (k1 := set_tcb (<[x := release_block t]> (tcb k)) (Task_SetScheduler false k)).
  assert (∀ z, z ∈ c :: r → tcb k1 !! z = tcb k !! z) as Hk1.
  { intros z Hz. apply lookup_insert_ne. set_solver. }
  assert (wlist (tcb k1) (pstWait o) (c :: r)) as Hw1 by (by apply wlist_insert_notin).
  destruct (@WakeChosen_spec _ mutex_wait ucMutexPriority o k1 c tc r Hw1 Hnd)
    as (y & ty & o' & m' & Hy & Hin & Hty & Hmax & Hwake & Ho & Hw' & Hy' & Hz');
    [by rewrite Hk1 by set_solver|].
  assert (x ≠ y) by (intros ->; by apply Hx).
  eexists y, ty, o', m', _. split.
  { rewrite Hy. apply best_waiter_ext. done. }
  split; [done|]. split; [by rewrite <- Hk1|]. split.
  { intros Hkey z tz Hz Htz. apply (Hmax Hkey z); [done|by rewrite Hk1]. }
  split. { by rewrite Hwake. }
  rewrite Task_YieldSWI_tcb, Task_YieldSWI_current.
  split; [done|]. split; [done|]. split; [done|]. split; [done|]. split; [done|]. split.
  - rewrite Hz' by done. subst k1. kcbn. by rewrite lookup_insert_eq.
  - intros z Hzy Hzx. rewrite Hz' by done. subst k1. kcbn. by rewrite lookup_insert_ne.
Qed.

(** ** Behaviour of the operations *)

(** An uncontended claim succeeds at once and the matching release frees
    the mutex again and gives the task the priority it had before, whatever
    its priority did in between. *)
Theorem Mutex_claim_release_round_trip env o time k x t :
  usSem o ≠ 0 → pstWait o = NULL → pstCurrentTask k = Some x → tcb k !! x = Some t →
  ∃ o1 k1, Mutex_Claim env o time k = Ok (o1, k1, true) ∧ usSem o1 = 0 ∧
    ucMaxPri o1 = ucPriority t ∧
    ∀ boost, ∃ o2 k2 t2,
      (k1' ← upd_task (Some x) (set_ucPriority boost) k1; Mutex_Release o1 k1') = Ok (o2, k2) ∧
      usSem o2 = 1 ∧ tcb k2 !! x = Some t2 ∧ ucPriority t2 = ucPriority t ∧
      bGlobalTaskEnable k2 = true.
Proof.
  intros H0 Hw Hc Ht. eexists _, _. split.
  { unfold Mutex_Claim. rewrite (Claim_enter_free o time k x t H0 Hc Ht), bind_ok. done. }
  split; [done|]. split; [done|]. intros boost.
  erewrite upd_task_some by (kcbn; apply lookup_insert_eq). rewrite bind_ok.
  erewrite (Release_free _ _ x); [|done|done|kcbn; apply lookup_insert_eq].
  eexists _, _, _. split; [done|]. split; [done|]. kcbn. rewrite lookup_insert_eq. done.
Qed.

Lemma Mutex_claim_release_round_trip_witness :
  let k := example_kernel (example_task 3 TASK_READY 9 (Some 3%nat) NULL)
             (example_task 5 TASK_READY 9 (Some 1%nat) NULL) in
  ∃ o1 k1, Mutex_Claim (λ o k, Ok (o, k)) (Mutex_Init (mkMutex 0 0 NULL)) 50 k = Ok (o1, k1, true) ∧
    usSem o1 = 0.
Proof.
  intros k. destruct (Mutex_claim_release_round_trip (λ o k, Ok (o, k)) (Mutex_Init (mkMutex 0 0 NULL)) 50 k
    1%nat (example_task 1 TASK_READY 4 (Some 2%nat) NULL)) as (o1 & k1 & H1 & H2 & _).
  - done.
  - done.
  - done.
  - done.
  - eauto.
Defined.

(** Priority inheritance reaches the waiters only: when a task of higher
    priority blocks on the mutex, it and every task already waiting get that
    priority, but the priority of every other task, the holder of the mutex
    among them, stays what it was. *)
Theorem Mutex_Claim_inheritance o time k l x t :
  wlist (tcb k) (pstWait o) l → NoDup (x :: l) → usSem o = 0 →
  pstCurrentTask k = Some x → tcb k !! x = Some t → ucMaxPri o < ucPriority t →
  ∃ o' k', Mutex_Claim_enter o time k = Ok (o', k', true) ∧
    ucMaxPri o' = ucPriority t ∧ wlist (tcb k') (pstWait o') (x :: l) ∧
    (∀ y, y ∈ x :: l → ∃ ty, tcb k' !! y = Some ty ∧ ucPriority ty = ucPriority t) ∧
    (∀ y, y ∉ x :: l → tcb k' !! y = tcb k !! y).
Proof.
  intros Hw Hnd H0 Hc Ht Hlt.
  destruct (Claim_enter_blocks o time k l x t Hw Hnd H0 Hc Ht)
    as (o' & m' & E & _ & Hmp & Hw' & Hx & Hl & Hout).
  destruct (Z.ltb_spec (ucMaxPri o) (ucPriority t)); [|lia].
  eexists o', _. split; [exact E|]. split; [lia|]. split; [exact Hw'|]. split; [|exact Hout].
  intros y Hy. cbn [tcb set_tcb]. apply elem_of_cons in Hy as [->|Hy]; [rewrite Hx; eauto|].
  destruct (wlist_lookup _ _ _ y Hw Hy) as [ty Hty]. rewrite (Hl y Hy), Hty. simpl. eauto.
Qed.

(** C7: releasing a contended mutex hands it over: the mutex stays taken, a
    waiter of greatest claim priority becomes ready, and the releasing task
    gets its own priority back. *)
Theorem Mutex_Release_hands_over o k x t c tc r :
  wlist (tcb k) (pstWait o) (c :: r) → NoDup (c :: r) → x ∉ c :: r →
  pstCurrentTask k = Some x → tcb k !! x = Some t → tcb k !! c = Some tc →
  0 <= ucMutexPriority tc →
  ∃ y ty o' k', Mutex_Release o k = Ok (o', k') ∧ usSem o' = usSem o ∧
    y ∈ c :: r ∧ tcb k !! y = Some ty ∧
    (∀ z tz, z ∈ c :: r → tcb k !! z = Some tz → ucMutexPriority tz <= ucMutexPriority ty) ∧
    (∃ ty', tcb k' !! y = Some ty' ∧ eState ty' = TASK_READY) ∧
    (∃ t', tcb k' !! x = Some t' ∧ ucPriority t' = ucMutexPriority t) ∧
    wlist (tcb k') (pstWait o') (wait_delete y (c :: r)).
Proof.
  intros Hw Hnd Hx Hc Ht Htc Hk.
  destruct (Release_handoff o k x t c tc r Hw Hnd Hx Hc Ht Htc)
    as (y & ty & o' & m' & k' & _ & Hy & Hty & Hmax & Hrel & <- & _ & Ho & Hw' & Hy' & Hx' & _).
  exists y, ty, o', k'. split; [done|]. split; [apply (mutex_rewait _ _ Ho)|].
  apply off_list_lookup_inv in Hy' as (ty' & ? & ? & _).
  apply off_list_lookup_inv in Hx' as (t' & ? & _ & ? & _).
  split; [done|]. split; [done|]. split; [by apply Hmax|]. eauto 10.
Qed.

Lemma Mutex_Release_hands_over_witness :
  let k := example_kernel (example_task 3 TASK_BLOCKED 9 (Some 3%nat) (Some 3%nat))
             (example_task 5 TASK_BLOCKED 9 (Some 1%nat) NULL) in
  ∃ o' k' t, Mutex_Release (mkMutex 0 1 (Some 2%nat)) k = Ok (o', k') ∧
    tcb k' !! 3%nat = Some t ∧ eState t = TASK_READY.
Proof.
  intros k. destruct (Mutex_Release_hands_over (mkMutex 0 1 (Some 2%nat)) k 1%nat
    (example_task 1 TASK_READY 4 (Some 2%nat) NULL) 2%nat
    (example_task 3 TASK_BLOCKED 9 (Some 3%nat) (Some 3%nat)) [3]%nat) as (y & ty & o' & k' & H1 & _).
  - cbn [wlist]. split; [done|]. eexists. split; [reflexivity|]. split; [done|]. eexists. split; [reflexivity|]. done.
  - solve_example.
  - solve_example.
  - done.
  - done.
  - done.
  - done.
  - vm_compute in H1. simplify_eq. eexists _, _, _. repeat split.
Defined.

(** ** Mutual exclusion *)

(** A system of tasks sharing one mutex, with the task the mutex was given
    to and the set of tasks inside a blocked [Mutex_Claim]. *)
Record MSYS : Type := mkMS {
  mx : MUTEX_STRUCT;
  mk : KERNEL;
  owner : option nat;
  waiting : gset nat
}.

(** Whom [Mutex_Release] gives the mutex to. *)
Definition next_owner (o : MUTEX_STRUCT) (k : KERNEL) (own : option nat) : Prop :=
  match pstWait o with
  | None => own = None
  | Some c => ∃ r, wlist (tcb k) (Some c) (c :: r) ∧
                   own = Some (best_waiter (tcb k) ucMutexPriority (c :: r) 0 c)
  end.

(** The atomic steps.  Tasks follow the protocol: they do not claim a mutex
    they hold, only the holder releases, and a blocked task runs again only
    when it is ready. *)
Inductive mx_step : MSYS → MSYS → Prop :=
  | mx_claim o k own w x time o' k' :
      pstCurrentTask k = Some x → x ∉ w →
      Mutex_Claim_enter o time k = Ok (o', k', false) →
      mx_step (mkMS o k own w) (mkMS o' (Task_SchedulerRestore true k') (Some x) w)
  | mx_wait o k own w x time o' k' :
      pstCurrentTask k = Some x → x ∉ w → own ≠ Some x →
      Mutex_Claim_enter o time k = Ok (o', k', true) →
      mx_step (mkMS o k own w) (mkMS o' (Task_YieldSWI k') own ({[x]} ∪ w))
  | mx_resume o k own w x t o' k' b :
      x ∈ w → tcb k !! x = Some t → eState t = TASK_READY →
      Mutex_Claim_resume o (Some x) k = Ok (o', k', b) →
      mx_step (mkMS o k own w) (mkMS o' k' own (w ∖ {[x]}))
  | mx_release o k own w x o' k' own' :
      own = Some x → pstCurrentTask k = Some x → x ∉ w →
      Mutex_Release o k = Ok (o', k') → next_owner o k own' →
      mx_step (mkMS o k own w) (mkMS o' k' own' w)
  | mx_tick o k own w k' b :
      Task_Tick k = Ok (k', b) → mx_step (mkMS o k own w) (mkMS o k' own w)
  | mx_switch o k own w k' :
      Task_Switch k = Ok k' → mx_step (mkMS o k own w) (mkMS o k' own w).

(** A task inside a blocked claim has been given the mutex, or is blocked,
    or has timed out. *)
Definition accounted (own : option nat) (m : gmap nat TASK_STRUCT) (x : nat) : Prop :=
  ∃ t, m !! x = Some t ∧ (own = Some x ∨ eState t = TASK_BLOCKED ∨ bTimeout t = true).

Definition mx_inv (s : MSYS) : Prop :=
  ∃ l, wlist (tcb (mk s)) (pstWait (mx s)) l ∧ NoDup l ∧
    (∀ x, x ∈ l → x ∈ waiting s ∧ owner s ≠ Some x) ∧
    (usSem (mx s) = 0 ∨ owner s = None ∧ l = []) ∧
    (∀ x, x ∈ waiting s → accounted (owner s) (tcb (mk s)) x).

(** How a waiting task's block may change behind its back. *)
Definition wait_evolves (t t' : TASK_STRUCT) : Prop :=
  pstNextList t' = pstNextList t ∧
  (eState t = TASK_BLOCKED → eState t' = TASK_BLOCKED ∨ bTimeout t' = true) ∧
  (bTimeout t = true → bTimeout t' = true).

#[export] Instance wait_evolves_preorder : PreOrder wait_evolves.
Proof.
  split; [unfold wait_evolves; naive_solver|].
  intros t1 t2 t3 (E1 & H1 & H1') (E2 & H2 & H2'). split; [congruence|]. naive_solver.
Qed.

Lemma tick_task_evolves t : wait_evolves t (tick_task t).1.
Proof.
  unfold tick_task, wait_evolves. destruct (eState t) eqn:E; simpl; repeat case_match; kcbn; naive_solver.
Qed.

Lemma tick_quantum_evolves t : wait_evolves t (tick_quantum t).1.
Proof. unfold tick_quantum, wait_evolves. repeat case_match; kcbn; naive_solver. Qed.

Lemma accounted_evolves own m m' x :
  pointwise wait_evolves m m' → accounted own m x → accounted own m' x.
Proof.
  intros Hs (t & Ht & Hor). destruct (pointwise_lookup _ _ _ _ _ Hs Ht) as (t' & Ht' & _ & H1 & H2).
  exists t'. split; [done|]. naive_solver.
Qed.

Lemma mx_inv_evolves o k k' own w :
  pointwise wait_evolves (tcb k) (tcb k') → mx_inv (mkMS o k own w) → mx_inv (mkMS o k' own w).
Proof.
  intros Hs (l & Hw & Hnd & Hl & Hu & Ha). exists l. cbn [mx mk owner waiting] in *.
  split; [eapply pointwise_wlist; [|done|done]; by intros t t' [? _]|].
  do 3 (split; [done|]). intros x Hx. eapply accounted_evolves; [done|auto].
Qed.

(** A block that keeps its state and timeout flag keeps its account. *)
Lemma accounted_keep own m m' x :
  accounted own m x →
  (∀ t, m !! x = Some t → ∃ t', m' !! x = Some t' ∧ eState t' = eState t ∧ bTimeout t' = bTimeout t) →
  accounted own m' x.
Proof.
  intros (t & Ht & Hor) Hk. destruct (Hk t Ht) as (t' & Ht' & E1 & E2). exists t'.
  split; [done|]. rewrite E1, E2. done.
Qed.

Lemma enter_needs_block o time k o' k' b x :
  pstCurrentTask k = Some x → Mutex_Claim_enter o time k = Ok (o', k', b) →
  ∃ t, tcb k !! x = Some t ∧ b = bool_decide (usSem o = 0).
Proof.
  intros Hc He. destruct (tcb k !! x) as [t|] eqn:Ht.
  - exists t. split; [done|]. destruct (Z.eq_dec (usSem o) 0) as [E|E].
    + rewrite bool_decide_eq_true_2 by done. unfold Mutex_Claim_enter in He. rewrite E in He.
      cbn [Z.eqb negb] in He. inv_ok. repeat (match goal with p : (_ * _)%type |- _ => destruct p end; inv_ok). by simplify_eq.
    + rewrite bool_decide_eq_false_2 by done. rewrite (Claim_enter_free o time k x t E Hc Ht) in He.
      by simplify_eq.
  - unfold Mutex_Claim_enter, Task_GetCurrentTask, upd_task, assign in He. cbn in He.
    by rewrite Hc, Ht in He.
Qed.

Lemma mx_inv_claim o k own w x time o' k' :
  pstCurrentTask k = Some x → x ∉ w → Mutex_Claim_enter o time k = Ok (o', k', false) →
  mx_inv (mkMS o k own w) →
  own = None ∧ mx_inv (mkMS o' (Task_SchedulerRestore true k') (Some x) w).
Proof.
  intros Hc Hx He (l & Hw & Hnd & Hl & Hu & Ha). cbn [mx mk owner waiting] in *.
  destruct (enter_needs_block _ _ _ _ _ _ _ Hc He) as (t & Ht & Hb). symmetry in Hb. zb.
  destruct Hu as [?|[-> ->]]; [done|]. split; [done|].
  rewrite (Claim_enter_free o time k x t Hb Hc Ht) in He. simplify_eq.
  exists []. cbn. split; [done|]. split; [constructor|]. split; [set_solver|]. split; [by left|].
  intros y Hy. destruct (Ha y Hy) as (ty & Hty & Hor). exists ty.
  rewrite lookup_insert_ne by set_solver. naive_solver.
Qed.

Lemma mx_inv_wait o k own w x time o' k' :
  pstCurrentTask k = Some x → x ∉ w → own ≠ Some x →
  Mutex_Claim_enter o time k = Ok (o', k', true) →
  mx_inv (mkMS o k own w) → mx_inv (mkMS o' (Task_YieldSWI k') own ({[x]} ∪ w)).
Proof.
  intros Hc Hx Hown He (l & Hw & Hnd & Hl & Hu & Ha). cbn [mx mk owner waiting] in *.
  destruct (enter_needs_block _ _ _ _ _ _ _ Hc He) as (t & Ht & Hb). symmetry in Hb. zb.
  assert (NoDup (x :: l)) as Hnd' by (apply NoDup_cons; naive_solver).
  destruct (Claim_enter_blocks o time k l x t Hw Hnd' Hb Hc Ht)
    as (o1 & m1 & E & Hu1 & _ & Hw1 & Hx1 & Hin1 & Hout1).
  rewrite E in He. simplify_eq. exists (x :: l). cbn [mx mk owner waiting].
  rewrite Task_YieldSWI_tcb. split; [done|]. split; [done|]. split; [|split; [by left|]].
  - intros y Hy. apply elem_of_cons in Hy as [->|Hy]; [set_solver|].
    destruct (Hl y Hy). set_solver.
  - intros y Hy. cbn [tcb set_tcb]. destruct (decide (y = x)) as [->|Hne].
    + eexists. split; [exact Hx1|]. right. left. by destruct (ucMaxPri o <? ucPriority t).
    + apply (accounted_keep _ (tcb k)); [apply Ha; set_solver|]. intros ty Hty.
      destruct (decide (y ∈ l)) as [Hyl|Hyl].
      * rewrite (Hin1 y Hyl), Hty. cbn. eexists. split; [done|].
        by destruct (ucMaxPri o <? ucPriority t).
      * rewrite Hout1 by set_solver. eauto.
Qed.

Lemma mx_inv_resume o k own w x t o' k' b :
  x ∈ w → tcb k !! x = Some t → eState t = TASK_READY →
  Mutex_Claim_resume o (Some x) k = Ok (o', k', b) → mx_inv (mkMS o k own w) →
  (b = true → own = Some x) ∧ mx_inv (mkMS o' k' own (w ∖ {[x]})).
Proof.
  intros Hx Ht Hrdy He (l & Hw & Hnd & Hl & Hu & Ha). cbn [mx mk owner waiting] in *.
  destruct (Ha x Hx) as (t0 & Ht0 & Hor). assert (t0 = t) as -> by congruence.
  destruct (bTimeout t) eqn:Hb.
  - destruct (Claim_resume_timeout o k l x t Hw Hnd Ht Hb) as (o1 & m1 & E & Ho & Hw1 & Hx1 & Hy1).
    rewrite E in He. simplify_eq. split; [done|].
    exists (wait_delete x l). cbn [mx mk owner waiting].
    destruct (mutex_rewait _ _ Ho) as [-> _]. split; [exact Hw1|].
    split; [by apply wait_delete_NoDup|]. split; [|split].
    + intros y Hy. destruct (Hl y (wait_delete_subset _ _ _ Hy)). split; [|done].
      apply elem_of_difference. split; [done|]. intros ->%elem_of_singleton.
      by eapply wait_delete_gone.
    + destruct Hu as [?|[? ->]]; [by left|]. right. done.
    + intros y Hy. apply elem_of_difference in Hy as [Hy Hne].
      apply (accounted_keep _ (tcb k)); [by apply Ha|]. intros ty Hty.
      cbn [tcb set_tcb]. specialize (Hy1 y ltac:(set_solver)). rewrite Hty in Hy1.
      apply off_list_lookup_inv in Hy1 as (ty' & ? & ? & _ & ? & _). eauto.
  - rewrite (Claim_resume_ok _ _ _ _ Ht Hb) in He. simplify_eq. split; [naive_solver congruence|].
    exists l. cbn [mx mk owner waiting]. split; [done|]. split; [done|]. split; [|split; [done|]].
    + intros y Hy. destruct (Hl y Hy) as [Hyw ?]. split; [|done].
      apply elem_of_difference. split; [done|]. intros ->%elem_of_singleton. naive_solver congruence.
    + intros y Hy. apply Ha. set_solver.
Qed.

Lemma mx_inv_release o k own w x o' k' own' :
  own = Some x → pstCurrentTask k = Some x → x ∉ w →
  Mutex_Release o k = Ok (o', k') → next_owner o k own' →
  mx_inv (mkMS o k own w) → mx_inv (mkMS o' k' own' w).
Proof.
  intros -> Hc Hx He Hno (l & Hw & Hnd & Hl & Hu & Ha). cbn [mx mk owner waiting] in *.
  destruct Hu as [Hu|[? _]]; [|done].
  destruct (tcb k !! x) as [t|] eqn:Ht.
  2: { unfold Mutex_Release, Task_GetCurrentTask, upd_task, assign in He. cbn in He.
       by rewrite Hc, Ht in He. }
  assert (∀ y, y ∈ w → y ≠ x) as Hyx by (intros y Hy ->; done).
  unfold next_owner in Hno. destruct l as [|c r].
  - simpl in Hw. rewrite Hw in Hno. subst own'. rewrite (Release_free o k x t Hw Hc Ht) in He.
    simplify_eq. exists []. cbn. split; [done|]. split; [constructor|]. split; [set_solver|].
    split; [by right|]. intros y Hy. destruct (Ha y Hy) as (ty & Hty & Hor). exists ty.
    rewrite lookup_insert_ne by (symmetry; auto). naive_solver.
  - assert (pstWait o = Some c) as Hp by apply Hw. rewrite Hp in Hno.
    destruct Hno as (r' & Hw2 & ->). rewrite <- Hp in Hw2.
    rewrite <- (wlist_inj _ _ _ _ Hw Hw2) in *.
    destruct (wlist_lookup _ _ _ c Hw) as [tc Htc]; [set_solver|].
    assert (x ∉ c :: r) as Hxl by (intros Hin; by destruct (Hl x Hin)).
    destruct (Release_handoff o k x t c tc r Hw Hnd Hxl Hc Ht Htc)
      as (y & ty & o1 & m1 & k1 & Ey & Hy & Hty & _ & Hrel & <- & _ & Ho & Hw' & Hy' & _ & Hz').
    rewrite Hrel in He. injection He as <- <-. rewrite <- Ey. exists (wait_delete y (c :: r)).
    cbn [mx mk owner waiting]. destruct (mutex_rewait _ _ Ho) as [-> _]. split; [exact Hw'|].
    split; [by apply wait_delete_NoDup|]. split; [|split; [by left|]].
    + intros z Hz. destruct (Hl z (wait_delete_subset _ _ _ Hz)). split; [done|].
      intros [= ->]. by eapply wait_delete_gone.
    + intros z Hz. destruct (Ha z Hz) as (tz & Htz & Hor). destruct (decide (z = y)) as [->|Hne].
      * apply off_list_lookup_inv in Hy' as (ty' & ? & _). exists ty'. auto.
      * specialize (Hz' z Hne (Hyx z Hz)). rewrite Htz in Hz'.
        apply off_list_lookup_inv in Hz' as (tz' & ? & E1 & _ & E2 & _). exists tz'.
        split; [done|]. right. rewrite E1, E2. destruct Hor as [[= <-]|?]; [|done]. by destruct (Hyx x Hz).
Qed.

Lemma mx_step_inv s s' : mx_step s s' → mx_inv s → mx_inv s'.
Proof.
  intros Hstep Hinv. destruct Hstep.
  - by eapply mx_inv_claim.
  - by eapply mx_inv_wait.
  - by eapply mx_inv_resume.
  - by apply (mx_inv_release o k own w x).
  - eapply mx_inv_evolves; [|done].
    by eapply Task_Tick_pointwise; [apply _|apply tick_task_evolves|apply tick_quantum_evolves|].
  - eapply mx_inv_evolves; [|done].
    eapply Task_Switch_pointwise; [apply _| | |done]; unfold wait_evolves; naive_solver.
Qed.

Lemma mx_reachable_inv o0 k0 s :
  rtc mx_step (mkMS (Mutex_Init o0) k0 None ∅) s → mx_inv s.
Proof.
  intros Hsteps. remember (mkMS (Mutex_Init o0) k0 None ∅) as s0 eqn:Es.
  assert (mx_inv s0) as H0.
  { subst s0. exists []. cbn. repeat split; [constructor|set_solver|set_solver|by right|set_solver]. }
  clear Es. induction Hsteps; eauto using mx_step_inv.
Qed.

(** C6: mutual exclusion: from an initialised mutex, in every interleaving of
    claims, releases, timeouts, ticks and context switches, a claim succeeds
    without waiting only when nobody holds the mutex, and a task that had to
    wait gets TRUE only when the mutex was handed to it. *)
Theorem mutex_mutual_exclusion o0 k0 o k own w x :
  rtc mx_step (mkMS (Mutex_Init o0) k0 None ∅) (mkMS o k own w) →
  (∀ time o' k', pstCurrentTask k = Some x → x ∉ w →
     Mutex_Claim_enter o time k = Ok (o', k', false) → own = None) ∧
  (∀ t o' k', x ∈ w → tcb k !! x = Some t → eState t = TASK_READY →
     Mutex_Claim_resume o (Some x) k = Ok (o', k', true) → own = Some x).
Proof.
  intros Hr%mx_reachable_inv. split.
  - intros time o' k' Hc Hx He. by destruct (mx_inv_claim _ _ _ _ _ _ _ _ Hc Hx He Hr).
  - intros t o' k' Hx Ht Hrdy He.
    destruct (mx_inv_resume _ _ _ _ _ _ _ _ _ Hx Ht Hrdy He Hr) as [H _]. by apply H.
Qed.

Lemma mutex_mutual_exclusion_witness :
  let k := example_kernel (example_task 3 TASK_READY 9 (Some 3%nat) NULL)
             (example_task 5 TASK_READY 9 (Some 1%nat) NULL) in
  ∃ o1 k1, Mutex_Claim_enter (Mutex_Init (mkMutex 0 0 NULL)) 50 k = Ok (o1, k1, false) ∧
    ∀ time o' k', Mutex_Claim_enter o1 time (Task_SchedulerRestore true k1) ≠ Ok (o', k', false).
Proof.
  intros k. eexists _, _. split; [vm_compute; reflexivity|]. intros time o' k' H.
  assert (Some 1%nat = None) as Hno; [|discriminate Hno].
  eapply (mutex_mutual_exclusion (mkMutex 0 0 NULL) k _ _ (Some 1%nat) ∅ 1%nat).
  - apply rtc_once. eapply (mx_claim _ _ _ _ 1%nat 50); [done|set_solver|vm_compute; reflexivity].
  - vm_compute. reflexivity.
  - set_solver.
  - exact H.
Defined.

(** A mutex can be orphaned: when it is released to a waiter that has
    timed out but has not run yet, the waiter's claim returns FALSE and the
    mutex stays taken with nobody to release it. *)
Theorem mutex_orphaned_on_timeout o k x t y ty :
  wlist (tcb k) (pstWait o) [y] → x ≠ y → usSem o = 0 →
  pstCurrentTask k = Some x → tcb k !! x = Some t → tcb k !! y = Some ty → bTimeout ty = true →
  ∃ o1 k1 o2 k2, Mutex_Release o k = Ok (o1, k1) ∧
    Mutex_Claim_resume o1 (Some y) k1 = Ok (o2, k2, false) ∧
    usSem o2 = 0 ∧ pstWait o2 = NULL.
Proof.
  intros Hw Hne H0 Hc Ht Hty Hb.
  destruct (Release_handoff o k x t y ty [] Hw (NoDup_singleton y) ltac:(set_solver) Hc Ht Hty)
    as (z & tz & o1 & m1 & k1 & _ & Hz & Htz & _ & Hrel & <- & _ & Ho & Hw' & Hz' & _).
  assert (z = y) as -> by (apply list_elem_of_singleton in Hz; done). assert (tz = ty) as -> by congruence.
  apply off_list_lookup_inv in Hz' as (ty' & Hty' & _ & _ & Hb' & _).
  simpl in Hw'. rewrite decide_True in Hw' by done.
  destruct (Claim_resume_timeout o1 k1 [] y ty' Hw') as (o2 & m2 & Hres & Ho2 & Hw2 & _);
    [constructor|done|by rewrite Hb'|].
  eexists o1, k1, o2, _. split; [done|]. split; [exact Hres|].
  destruct (mutex_rewait _ _ Ho2) as [-> _], (mutex_rewait _ _ Ho) as [-> _]. done.
Qed.

Lemma mutex_orphaned_on_timeout_witness :
  let k := example_kernel (set_bTimeout true (example_task 3 TASK_READY 9 (Some 3%nat) NULL))
             (example_task 5 TASK_BLOCKED 9 (Some 1%nat) NULL) in
  ∃ o1 k1 o2 k2, Mutex_Release (mkMutex 0 1 (Some 2%nat)) k = Ok (o1, k1) ∧
    Mutex_Claim_resume o1 (Some 2%nat) k1 = Ok (o2, k2, false) ∧ usSem o2 = 0 ∧ pstWait o2 = NULL.
Proof.
  intros k. apply (mutex_orphaned_on_timeout (mkMutex 0 1 (Some 2%nat)) k 1%nat
    (example_task 1 TASK_READY 4 (Some 2%nat) NULL) 2%nat
    (set_bTimeout true (example_task 3 TASK_READY 9 (Some 3%nat) NULL))).
  - cbn [wlist]. split; [done|]. eexists. split; [reflexivity|]. done.
  - done.
  - done.
  - done.
  - done.
  - done.
  - done.
Defined.

End Mutex.
