(* ===== verification/FunkMessage.v ===== *)
(** * FunkOS: message queues (kernel/message.c)

    A message queue is a circular buffer of events in an array of the owner
    task, with a semaphore that counts what was sent.  The critical sections
    make each operation atomic, so an operation is one function on the queue
    and the kernel. *)
From S2P Require Import Prelude FunkKernel FunkTask FunkRing FunkExample FunkSched FunkWait FunkSemaphore.

Module Message.

Record EVENT_STRUCT : Type := mkEvent { usEventID : Z; usEventData : Z }.

Record MESSAGE_STRUCT : Type := mkMessage {
  pstEvents : list EVENT_STRUCT;
  usSize : Z;
  usHead : Z;
  usTail : Z;
  bEmpty : bool;
  bFull : bool;
  stSem : Semaphore.SEMAPHORE_STRUCT
}.

Definition set_pstEvents (v : list EVENT_STRUCT) (r : MESSAGE_STRUCT) : MESSAGE_STRUCT :=
  mkMessage v (usSize r) (usHead r) (usTail r) (bEmpty r) (bFull r) (stSem
    r).
Definition set_usSize (v : Z) (r : MESSAGE_STRUCT) : MESSAGE_STRUCT :=
  mkMessage (pstEvents r) v (usHead r) (usTail r) (bEmpty r) (bFull r)
    (stSem r).
Definition set_usHead (v : Z) (r : MESSAGE_STRUCT) : MESSAGE_STRUCT :=
  mkMessage (pstEvents r) (usSize r) v (usTail r) (bEmpty r) (bFull r)
    (stSem r).
Definition set_usTail (v : Z) (r : MESSAGE_STRUCT) : MESSAGE_STRUCT :=
  mkMessage (pstEvents r) (usSize r) (usHead r) v (bEmpty r) (bFull r)
    (stSem r).
Definition set_bEmpty (v : bool) (r : MESSAGE_STRUCT) : MESSAGE_STRUCT :=
  mkMessage (pstEvents r) (usSize r) (usHead r) (usTail r) v (bFull r)
    (stSem r).
Definition set_bFull (v : bool) (r : MESSAGE_STRUCT) : MESSAGE_STRUCT :=
  mkMessage (pstEvents r) (usSize r) (usHead r) (usTail r) (bEmpty r) v
    (stSem r).
Definition set_stSem (v : Semaphore.SEMAPHORE_STRUCT) (r : MESSAGE_STRUCT) : MESSAGE_STRUCT :=
  mkMessage (pstEvents r) (usSize r) (usHead r) (usTail r) (bEmpty r) (bFull
    r) v.

(** ** Operations *)

Definition Message_Init (o : MESSAGE_STRUCT) (events : list EVENT_STRUCT) (size : Z) : MESSAGE_STRUCT :=
  let o := set_pstEvents events o in
  let o := set_usSize 0 o in
  let o := set_usHead 0 o in
  let o := set_usTail 0 o in
  let o := set_bEmpty true o in
  let o := set_bFull false o in
  set_stSem (Semaphore.Semaphore_Init (stSem o)) o.

Definition Message_Send (o : MESSAGE_STRUCT) (id data : Z) (k : KERNEL)
    : res (MESSAGE_STRUCT * KERNEL * bool) :=
  if bFull o then Ok (o, k, false)
  else
    events ← aset (pstEvents o) (usHead o) (mkEvent id data);
    let o := set_pstEvents events o in
    let o := set_usHead (u16 (usSize o + 1)) o in
    let o := if usSize o <=? usHead o then set_usHead 0 o else o in
    let o := set_bFull (usHead o =? usTail o) o in
    let o := set_bEmpty false o in
    '(sem, k) ← Semaphore.Semaphore_Post (stSem o) k;
    Ok (set_stSem sem o, k, true).

(** The event id and data written through the pointers, and the result. *)
Definition Message_Read (o : MESSAGE_STRUCT) : res (MESSAGE_STRUCT * EVENT_STRUCT * bool) :=
  if bEmpty o then Ok (o, mkEvent 0 0, false)
  else
    e ← aget (pstEvents o) (usTail o);
    let o := set_usTail (u16 (usSize o + 1)) o in
    let o := if usSize o <=? usTail o then set_usTail 0 o else o in
    let o := set_bEmpty (usHead o =? usTail o) o in
    Ok (set_bFull false o, e, true).

(** ** Specification: a mailbox for one event *)

Inductive mop : Type := Send (id data : Z) | Read.

(** What a sequence of operations answers: the event handed out, if the
    operation is a read, and the returned flag. *)
Definition reply : Type := EVENT_STRUCT * bool.

Definition mailbox_step (b : option EVENT_STRUCT) (op : mop) : option EVENT_STRUCT * reply :=
  match op, b with
  | Send id data, None => (Some (mkEvent id data), (mkEvent id data, true))
  | Send id data, Some e => (Some e, (mkEvent id data, false))
  | Read, None => (None, (mkEvent 0 0, false))
  | Read, Some e => (None, (e, true))
  end.

Fixpoint mailbox_run (b : option EVENT_STRUCT) (ops : list mop) : list reply :=
  match ops with
  | [] => []
  | op :: ops => let '(b, r) := mailbox_step b op in r :: mailbox_run b ops
  end.

Definition message_step (op : mop) (o : MESSAGE_STRUCT) (k : KERNEL)
    : res (MESSAGE_STRUCT * KERNEL * reply) :=
  match op with
  | Send id data => '(o, k, b) ← Message_Send o id data k; Ok (o, k, (mkEvent id data, b))
  | Read => '(o, e, b) ← Message_Read o; Ok (o, k, (e, b))
  end.

Fixpoint message_run (ops : list mop) (o : MESSAGE_STRUCT) (k : KERNEL) : res (list reply) :=
  match ops with
  | [] => Ok []
  | op :: ops =>
      '(o, k, r) ← message_step op o k;
      rs ← message_run ops o k; Ok (r :: rs)
  end.

(** ** Refinement *)

(** The queue [o] holds the contents [b] of the mailbox. *)
Definition holds (o : MESSAGE_STRUCT) (b : option EVENT_STRUCT) : Prop :=
  usSize o = 0 ∧ usHead o = 0 ∧ usTail o = 0 ∧ pstEvents o ≠ [] ∧
  bFull o = bool_decide (is_Some b) ∧ bEmpty o = negb (bool_decide (is_Some b)) ∧
  (∀ e, b = Some e → pstEvents o !! 0%nat = Some e).

#[local] Arguments Semaphore.Semaphore_Post : simpl never.

Lemma holds_init o events size : events ≠ [] → holds (Message_Init o events size) None.
Proof. unfold holds. cbn. naive_solver. Qed.

Lemma Message_Read_holds o b :
  holds o b →
  ∃ o', Message_Read o = Ok (o', (mailbox_step b Read).2.1, (mailbox_step b Read).2.2) ∧
    holds o' (mailbox_step b Read).1 ∧ stSem o' = stSem o.
Proof.
  intros (Hs & Hh & Ht & Hne & Hf & He & Hb). unfold Message_Read. rewrite He.
  destruct b as [e|]; cbn -[aset aget].
  - assert (aget (pstEvents o) 0 = Ok e) as Hg by (by apply (aget_some _ 0%nat); auto).
    rewrite Ht, Hg. destruct o; cbn in *. subst.
    change (u16 (0 + 1)) with 1. cbn. eexists. split; [done|]. unfold holds. cbn.
    naive_solver.
  - eexists. split; [done|]. unfold holds. cbn. naive_solver.
Qed.

(** A send stores the event and posts the semaphore. *)
Lemma Message_Send_holds o b id data k sem' k' :
  holds o b → Semaphore.Semaphore_Post (stSem o) k = Ok (sem', k') →
  ∃ o', Message_Send o id data k
        = Ok (o', if b is Some _ then k else k', (mailbox_step b (Send id data)).2.2) ∧
    holds o' (mailbox_step b (Send id data)).1 ∧
    stSem o' = if b is Some _ then stSem o else sem'.
Proof.
  intros (Hs & Hh & Ht & Hne & Hf & He & Hb) Hpost. unfold Message_Send. rewrite Hf.
  destruct b as [e|]; cbn -[aset aget].
  - eexists. split; [done|]. unfold holds. cbn. naive_solver.
  - destruct (pstEvents o) as [|e l] eqn:El; [done|]. rewrite Hh.
    assert (aset (e :: l) 0 (mkEvent id data) = Ok (mkEvent id data :: l)) as Hg
      by (apply (aset_some (e :: l) 0%nat (mkEvent id data)); simpl; lia).
    rewrite Hg. destruct o; cbn in *. subst.
    change (u16 (0 + 1)) with 1. cbn. rewrite Hpost. cbn. eexists. split; [done|]. unfold holds. cbn.
    naive_solver.
Qed.

(** With nobody waiting, a post only counts. *)
Lemma Post_nobody o k :
  Semaphore.pstWait o = NULL → ∃ o', Semaphore.Semaphore_Post o k = Ok (o', k) ∧
    Semaphore.pstWait o' = NULL.
Proof.
  intros H. unfold Semaphore.Semaphore_Post. rewrite H. case_match; eauto.
Qed.

Lemma message_run_holds ops o b k :
  holds o b → Semaphore.pstWait (stSem o) = NULL →
  message_run ops o k = Ok (mailbox_run b ops).
Proof.
  revert o b k. induction ops as [|op ops IH]; intros o b k Hh Hw; [done|].
  cbn [message_run mailbox_run]. destruct op as [id data|]; cbn [message_step].
  - destruct (Post_nobody (stSem o) k Hw) as (sem' & Hpost & Hw').
    destruct (Message_Send_holds o b id data k sem' k Hh Hpost) as (o' & -> & Hh' & Hs').
    cbn -[mailbox_step mailbox_run message_run].
    rewrite (IH o' _ _ Hh') by (rewrite Hs'; by destruct b). by destruct b.
  - destruct (Message_Read_holds o b Hh) as (o' & -> & Hh' & Hs').
    cbn -[mailbox_step mailbox_run message_run].
    rewrite (IH o' _ _ Hh') by (by rewrite Hs'). by destruct b.
Qed.

Lemma mailbox_full e id data n :
  mailbox_run (Some e) (repeat (Send id data) n) = repeat (mkEvent id data, false) n.
Proof. induction n as [|n IH]; [done|]. cbn. by rewrite IH. Qed.

(** C8: refinement: whatever size it is given, an initialised message queue
    answers every sequence of sends and reads as a mailbox for one event: a
    send is accepted exactly when the last accepted event was read, and a
    read hands out that event, or zeroes and FALSE. *)
Theorem Message_refines_mailbox o events size ops k :
  events ≠ [] →
  message_run ops (Message_Init o events size) k = Ok (mailbox_run None ops).
Proof. intros He. by apply message_run_holds; [apply holds_init|]. Qed.

Lemma Message_refines_mailbox_witness :
  let o := mkMessage [] 3 1 2 false true (Semaphore.mkSem 3 3 NULL) in
  message_run [Send 1 2; Send 3 4; Read; Read] (Message_Init o [mkEvent 0 0; mkEvent 0 0] 2)
    Semaphore.example_waiters
  = Ok [(mkEvent 1 2, true); (mkEvent 3 4, false); (mkEvent 1 2, true); (mkEvent 0 0, false)].
Proof.
  intros o. refine (eq_trans (Message_refines_mailbox o [mkEvent 0 0; mkEvent 0 0] 2
    [Send 1 2; Send 3 4; Read; Read] Semaphore.example_waiters _) _).
  - discriminate.
  - reflexivity.
Defined.

(** The size passed to [Message_Init] is ignored: of [n] + 1 sends to a
    fresh queue with room for [n] + 1 events only the first is accepted. *)
Theorem Message_Init_ignores_size o events id data n k :
  events ≠ [] →
  message_run (repeat (Send id data) (S n)) (Message_Init o events (Z.of_nat (S n))) k
  = Ok ((mkEvent id data, true) :: repeat (mkEvent id data, false) n).
Proof.
  intros He. rewrite (message_run_holds _ _ None) by (by apply holds_init || done).
  cbn. by rewrite mailbox_full.
Qed.

(** A message sent to a queue on which tasks wait wakes the most urgent of
    them, and the event is there for it to read: the receiver that was woken
    reads exactly what was sent. *)
Theorem Message_Send_wakes_reader o k id data x r :
  holds o None → Semaphore.sem_inv (stSem o) k (x :: r) → Semaphore.prios_ok k →
  ∃ o' k' o'' y ty ty',
    Message_Send o id data k = Ok (o', k', true) ∧
    y ∈ x :: r ∧ tcb k !! y = Some ty ∧ tcb k' !! y = Some ty' ∧ eState ty' = TASK_READY ∧
    (∀ z tz, z ∈ x :: r → tcb k !! z = Some tz → ucPriority tz <= ucPriority ty) ∧
    Message_Read o' = Ok (o'', mkEvent id data, true).
Proof.
  intros Hh Hs Hp.
  destruct (Semaphore.Semaphore_Post_waiters _ _ _ _ Hs Hp)
    as (y & ty & sem' & k' & Hpost & Hy & Hty & Hmax & (ty' & Hty' & Hrdy & _) & _).
  destruct (Message_Send_holds o None id data k sem' k' Hh Hpost) as (o' & Hsend & Hh' & _).
  destruct (Message_Read_holds o' _ Hh') as (o'' & Hread & _).
  exists o', k', o'', y, ty, ty'. naive_solver.
Qed.

Lemma Message_Send_wakes_reader_witness :
  let o := set_stSem (Semaphore.mkSem 0 1 (Some 2%nat))
             (Message_Init (mkMessage [] 0 0 0 true false (Semaphore.mkSem 0 1 NULL)) [mkEvent 0 0] 1) in
  ∃ o' k' o'', Message_Send o 5 6 Semaphore.example_waiters = Ok (o', k', true) ∧
    Message_Read o' = Ok (o'', mkEvent 5 6, true).
Proof.
  intros o. destruct (Message_Send_wakes_reader o Semaphore.example_waiters 5 6 2%nat [3]%nat)
    as (o' & k' & o'' & y & ty & ty' & H1 & _ & _ & _ & _ & _ & H2).
  - repeat split; done.
  - apply Semaphore.example_waiters_inv.
  - apply Semaphore.example_waiters_inv.
  - eauto.
Defined.

End Message.
