(* ===== verification/FunkHeap.v ===== *)
(** * FunkOS: the block heap (kernel/heap.c, kernel/heap.h)

    A static pool cut into blocks of five sizes; the block table is searched
    linearly.  A pointer into the pool is its offset from the start of the
    pool.  modules/cooperative/heap.c is the same code. *)
From Stdlib Require Import Sorted.
From S2P Require Import Prelude FunkKernel.

Module Heap.

Definition HEAP_NUM_ELEMENTS : Z := 10 + 6 + 4 + 2 + 1.
Definition HEAP_SIZE_BYTES : Z := 8 * 10 + 12 * 6 + 16 * 4 + 32 * 2 + 64 * 1.

Record HEAP_BLOCK_STRUCT : Type := mkBlock {
  usSize : Z;
  usOffset : Z;
  bInUse : bool
}.

Record HEAP_STRUCT : Type := mkHeap {
  astHeapElements : list HEAP_BLOCK_STRUCT;
  aucPool : list Z
}.

(** Number of blocks and block size of each group. *)
Definition astHeapInit : list (Z * Z) :=
  [(10, 8); (6, 12); (4, 16); (2, 32); (1, 64)].

(** ** Operations *)

Definition init_block (size : Z) (s : list HEAP_BLOCK_STRUCT * Z * Z)
    : res (list HEAP_BLOCK_STRUCT * Z * Z) :=
  let '(els, usBlockOffset, usHeapBlock) := s in
  els ← aset els usHeapBlock (mkBlock size usBlockOffset false);
  Ok (els, u16 (usBlockOffset + size), u16 (usHeapBlock + 1)).

Definition Heap_Init (h : HEAP_STRUCT) : res HEAP_STRUCT :=
  s ← forM astHeapInit
        (fun g s => forM (zseq 0 (g.1)) (fun _ => init_block (g.2)) s)
        (astHeapElements h, 0, 0);
  pool ← forM (zseq 0 HEAP_SIZE_BYTES) (fun i p => aset p i 0) (aucPool h);
  Ok (mkHeap (s.1.1) pool).

Definition set_in_use (b : bool) (i : Z) (e : HEAP_BLOCK_STRUCT) (h : HEAP_STRUCT) : res HEAP_STRUCT :=
  els ← aset (astHeapElements h) i (mkBlock (usSize e) (usOffset e) b);
  Ok (mkHeap els (aucPool h)).

Definition Heap_Alloc (size : Z) (h : HEAP_STRUCT) : res (HEAP_STRUCT * option Z) :=
  r ← search (fun e => (size <? usSize e) && negb (bInUse e)) (astHeapElements h)
        (zseq 0 HEAP_NUM_ELEMENTS);
  match r with
  | None => Ok (h, None)
  | Some (i, e) => h ← set_in_use true i e h; Ok (h, Some (usOffset e))
  end.

Definition Heap_Free (p : Z) (h : HEAP_STRUCT) : res HEAP_STRUCT :=
  r ← search (fun e => bInUse e && (usOffset e =? p)) (astHeapElements h)
        (zseq 0 HEAP_NUM_ELEMENTS);
  match r with
  | None => Ok h
  | Some (i, e) => set_in_use false i e h
  end.

(** ** Geometry and invariant *)

Fixpoint layout (off : Z) (sizes : list Z) : list (Z * Z) :=
  match sizes with
  | [] => []
  | s :: sizes => (s, off) :: layout (off + s) sizes
  end.

Definition block_sizes : list Z :=
  concat ((fun g => replicate (Z.to_nat (g.1)) (g.2)) <$> astHeapInit).

(** Size and offset of every block. *)
Definition geometry : list (Z * Z) := layout 0 block_sizes.

Definition shape (e : HEAP_BLOCK_STRUCT) : Z * Z := (usSize e, usOffset e).

Definition heap_wf (h : HEAP_STRUCT) : Prop :=
  shape <$> astHeapElements h = geometry ∧ Z.of_nat (length (aucPool h)) = HEAP_SIZE_BYTES.

(** Blocks follow one another without overlap, in order of size, and end
    within the pool. *)
Lemma geometry_sorted :
  StronglySorted (fun a b => a.2 + a.1 <= b.2 ∧ a.1 <= b.1) geometry.
Proof. repeat constructor; vm_compute; done. Qed.

Lemma geometry_bounds : Forall (fun a => 0 < a.1 ∧ 0 <= a.2 ∧ a.2 + a.1 <= HEAP_SIZE_BYTES) geometry.
Proof. repeat constructor; vm_compute; done. Qed.

Lemma wf_length h : heap_wf h → zseq 0 HEAP_NUM_ELEMENTS = seqZ 0 (Z.of_nat (length (astHeapElements h))).
Proof.
  intros [Hs _]. apply (f_equal length) in Hs. rewrite length_fmap in Hs. by rewrite Hs.
Qed.

Lemma sorted_lookup {A} (R : A → A → Prop) l i j x y :
  StronglySorted R l → l !! i = Some x → l !! j = Some y → (i < j)%nat → R x y.
Proof.
  intros Hs. revert i j. induction Hs as [|z l Hs IH Hf]; intros i j Hi Hj Hlt; [done|].
  destruct i as [|i], j as [|j]; try lia; simpl in *.
  - simplify_eq. rewrite Forall_forall in Hf. apply Hf. by eapply list_elem_of_lookup_2.
  - eapply IH; [done|done|lia].
Qed.

Lemma wf_order h i j e e' :
  heap_wf h → astHeapElements h !! i = Some e → astHeapElements h !! j = Some e' → (i < j)%nat →
  usOffset e + usSize e <= usOffset e' ∧ usSize e <= usSize e'.
Proof.
  intros [Hs _] Hi Hj Hlt.
  apply (sorted_lookup _ _ i j (shape e) (shape e') geometry_sorted);
    [by rewrite <- Hs, list_lookup_fmap, Hi|by rewrite <- Hs, list_lookup_fmap, Hj|done].
Qed.

Lemma wf_bounds h i e :
  heap_wf h → astHeapElements h !! i = Some e →
  0 < usSize e ∧ 0 <= usOffset e ∧ usOffset e + usSize e <= HEAP_SIZE_BYTES.
Proof.
  intros [Hs _] Hi. eapply (Forall_lookup_1 _ _ i (shape e) geometry_bounds).
  by rewrite <- Hs, list_lookup_fmap, Hi.
Qed.

(** A block is determined by its offset. *)
Lemma wf_offset_inj h i j e e' :
  heap_wf h → astHeapElements h !! i = Some e → astHeapElements h !! j = Some e' →
  usOffset e = usOffset e' → i = j.
Proof.
  intros Hwf Hi Hj E.
  pose proof (wf_bounds _ _ _ Hwf Hi). pose proof (wf_bounds _ _ _ Hwf Hj).
  destruct (lt_eq_lt_dec i j) as [[Hlt|]|Hlt]; [|done|].
  - pose proof (wf_order _ _ _ _ _ Hwf Hi Hj Hlt). lia.
  - pose proof (wf_order _ _ _ _ _ Hwf Hj Hi Hlt). lia.
Qed.

Lemma set_in_use_ok h b i e :
  astHeapElements h !! i = Some e →
  set_in_use b (Z.of_nat i) e h
  = Ok (mkHeap (<[i := mkBlock (usSize e) (usOffset e) b]> (astHeapElements h)) (aucPool h)).
Proof.
  intros Hi. unfold set_in_use. rewrite aset_some by (by eapply lookup_lt_Some). done.
Qed.

Lemma wf_insert h b i e :
  heap_wf h → astHeapElements h !! i = Some e →
  heap_wf (mkHeap (<[i := mkBlock (usSize e) (usOffset e) b]> (astHeapElements h)) (aucPool h)).
Proof.
  intros [Hs Hl] Hi. split; [|done]. cbn [astHeapElements]. rewrite list_fmap_insert, <- Hs.
  apply list_insert_id. by rewrite list_lookup_fmap, Hi.
Qed.

(** ** Initialisation *)

Lemma forM_fill {A} (v : A) (l1 l2 : list A) :
  forM (seqZ (Z.of_nat (length l1)) (Z.of_nat (length l2))) (fun i p => aset p i v) (l1 ++ l2)
  = Ok (l1 ++ replicate (length l2) v).
Proof.
  revert l1. induction l2 as [|x l2 IH]; intros l1; [done|].
  cbn [length]. rewrite seqZ_cons'. cbn [forM].
  rewrite aset_some by (rewrite length_app; simpl; lia). rewrite bind_ok.
  rewrite insert_app_r_alt, Nat.sub_diag by lia. cbn.
  specialize (IH (l1 ++ [v])). rewrite <- !app_assoc, length_app in IH. cbn in IH.
  replace (Z.of_nat (length l1) + 1) with (Z.of_nat (length l1 + 1)) by lia. done.
Qed.

Definition fresh : HEAP_STRUCT :=
  mkHeap ((fun a => mkBlock (a.1) (a.2) false) <$> geometry)
         (replicate (Z.to_nat HEAP_SIZE_BYTES) 0).

Lemma fresh_wf : heap_wf fresh.
Proof. by split; vm_compute. Qed.

(** Initialisation: whatever the memory held, [Heap_Init] stays within
    both arrays and yields the free heap whose blocks tile the pool in order
    of size, the pool cleared. *)
Theorem Heap_Init_layout h :
  Z.of_nat (length (astHeapElements h)) = HEAP_NUM_ELEMENTS →
  Z.of_nat (length (aucPool h)) = HEAP_SIZE_BYTES →
  Heap_Init h = Ok fresh ∧ heap_wf fresh ∧
  StronglySorted (fun a b => a.2 + a.1 <= b.2 ∧ a.1 <= b.1) geometry ∧
  Forall (fun a => 0 <= a.2 ∧ a.2 + a.1 <= HEAP_SIZE_BYTES) geometry.
Proof.
  intros He Hp. split; [|split; [apply fresh_wf|split; [apply geometry_sorted|]]].
  2: { eapply Forall_impl; [apply geometry_bounds|]. naive_solver. }
  unfold Heap_Init, zseq. rewrite <- Hp. pose proof (forM_fill 0 [] (aucPool h)) as Hf.
  cbn [length app] in Hf. change (Z.of_nat 0) with 0 in Hf. rewrite Hf. clear Hf.
  destruct h as [els pool]. cbn [astHeapElements aucPool] in *.
  assert (length els = 23%nat) as Hl by (unfold HEAP_NUM_ELEMENTS in He; lia).
  do 23 (destruct els as [|? els]; [discriminate Hl|]). destruct els; [|discriminate Hl].
  unfold fresh. replace (Z.to_nat HEAP_SIZE_BYTES) with (length pool) by lia.
  clear. generalize (length pool). intros n. vm_compute. reflexivity.
Qed.

(** ** Allocation *)

Lemma Heap_Alloc_cases h size :
  heap_wf h →
  (Heap_Alloc size h = Ok (h, None) ∧
   ∀ e, e ∈ astHeapElements h → size < usSize e → bInUse e = true) ∨
  (∃ i e, astHeapElements h !! i = Some e ∧ bInUse e = false ∧ size < usSize e ∧
     Heap_Alloc size h
     = Ok (mkHeap (<[i := mkBlock (usSize e) (usOffset e) true]> (astHeapElements h)) (aucPool h),
           Some (usOffset e)) ∧
     ∀ j e', astHeapElements h !! j = Some e' → (j < i)%nat → size < usSize e' → bInUse e' = true).
Proof.
  intros Hwf. unfold Heap_Alloc. rewrite (wf_length h Hwf).
  destruct (search_cases (fun e => (size <? usSize e) && negb (bInUse e)) (astHeapElements h))
    as [[-> Hn]|(i & e & -> & Hi & HP & Hj)]; [left|right].
  - split; [done|]. intros e He Hs. specialize (Hn e He). apply Z.ltb_lt in Hs.
    rewrite Hs in Hn. by destruct (bInUse e).
  - apply andb_prop in HP as [HP1 HP2]. apply Z.ltb_lt in HP1. exists i, e.
    split; [done|]. split; [by destruct (bInUse e)|]. split; [done|]. split.
    + rewrite bind_ok, (set_in_use_ok _ _ _ _ Hi). done.
    + intros j e' He' Hlt Hs. specialize (Hj j e' He' Hlt). apply Z.ltb_lt in Hs.
      rewrite Hs in Hj. by destruct (bInUse e').
Qed.

Lemma Heap_Free_used h i e :
  heap_wf h → astHeapElements h !! i = Some e → bInUse e = true →
  Heap_Free (usOffset e) h
  = Ok (mkHeap (<[i := mkBlock (usSize e) (usOffset e) false]> (astHeapElements h)) (aucPool h)).
Proof.
  intros Hwf Hi Hu. unfold Heap_Free. rewrite (wf_length h Hwf), (search_found _ _ i e); [|done| |].
  - rewrite bind_ok. by apply set_in_use_ok.
  - by rewrite Hu, Z.eqb_refl.
  - intros j e' Hj Hlt. apply andb_false_intro2, Z.eqb_neq. intros E.
    pose proof (wf_offset_inj _ _ _ _ _ Hwf Hj Hi E). lia.
Qed.

(** Allocation is best fit: it fails, changing nothing, exactly when every
    block larger than the request is in use; otherwise it returns a free
    block larger than the request, no free block that would do is smaller,
    and only its flag changes. *)
Theorem Heap_Alloc_best_fit h size :
  heap_wf h →
  (Heap_Alloc size h = Ok (h, None) ∧
   ∀ e, e ∈ astHeapElements h → size < usSize e → bInUse e = true) ∨
  (∃ i e, astHeapElements h !! i = Some e ∧ bInUse e = false ∧ size < usSize e ∧
     Heap_Alloc size h
     = Ok (mkHeap (<[i := mkBlock (usSize e) (usOffset e) true]> (astHeapElements h)) (aucPool h),
           Some (usOffset e)) ∧
     ∀ e', e' ∈ astHeapElements h → bInUse e' = false → size < usSize e' → usSize e <= usSize e').
Proof.
  intros Hwf. destruct (Heap_Alloc_cases h size Hwf) as [?|(i & e & Hi & Hf & Hs & Ha & Hj)]; [by left|].
  right. exists i, e. do 4 (split; [done|]). intros e' He' Hf' Hs'.
  apply list_elem_of_lookup in He' as [j He'].
  destruct (lt_eq_lt_dec i j) as [[Hlt| ->]|Hlt].
  - by apply (wf_order _ _ _ _ _ Hwf Hi He' Hlt).
  - simplify_eq. lia.
  - specialize (Hj j e' He' Hlt Hs'). congruence.
Qed.

Lemma Heap_Alloc_best_fit_witness :
  ∃ h', Heap_Alloc 10 fresh = Ok (h', Some 80).
Proof.
  destruct (Heap_Alloc_best_fit fresh 10 fresh_wf) as [[H _]|(i & e & _ & _ & _ & H & _)].
  - vm_compute in H. discriminate H.
  - eexists. vm_compute. reflexivity.
Defined.

(** Freeing what was just allocated restores the heap exactly. *)
Theorem Heap_Alloc_Free_round_trip h size h' p :
  heap_wf h → Heap_Alloc size h = Ok (h', Some p) → Heap_Free p h' = Ok h.
Proof.
  intros Hwf Ha. destruct (Heap_Alloc_cases h size Hwf) as [[E _]|(i & e & Hi & Hf & Hs & E & _)];
    rewrite E in Ha; [done|]. simplify_eq.
  set (h' := mkHeap _ _). assert (astHeapElements h' !! i = Some (mkBlock (usSize e) (usOffset e) true)) as Hi'.
  { cbn. by apply list_lookup_insert_eq, (lookup_lt_Some _ _ e). }
  pose proof (Heap_Free_used h' i _ (wf_insert _ true _ _ Hwf Hi) Hi' eq_refl) as Hfree.
  cbn [usOffset] in Hfree. rewrite Hfree. destruct h as [els pool]. cbn in *.
  rewrite list_insert_insert_eq. do 2 f_equal. apply list_insert_id. destruct e; cbn in *. by subst.
Qed.

Lemma Heap_Alloc_Free_round_trip_witness :
  ∃ h', Heap_Alloc 10 fresh = Ok (h', Some 80) ∧ Heap_Free 80 h' = Ok fresh.
Proof.
  eexists. split; [vm_compute; reflexivity|].
  apply (Heap_Alloc_Free_round_trip fresh 10).
  - exact fresh_wf.
  - vm_compute. reflexivity.
Defined.

(** A request for as many bytes as the largest block has is never served,
    even by the empty heap: the size test is strict. *)
Theorem Heap_Alloc_full_block_fails h size :
  heap_wf h → 64 <= size → Heap_Alloc size h = Ok (h, None).
Proof.
  intros Hwf Hs. destruct (Heap_Alloc_cases h size Hwf) as [[-> _]|(i & e & Hi & _ & Hlt & _)]; [done|].
  destruct Hwf as [Hg _].
  assert (Forall (fun a => a.1 <= 64) geometry) as Hall by (repeat constructor; done).
  assert (geometry !! i = Some (shape e)) as Hgi by (by rewrite <- Hg, list_lookup_fmap, Hi).
  apply (Forall_lookup_1 _ _ _ _ Hall) in Hgi. cbn in Hgi. lia.
Qed.

(** ** Traces *)

(** The heap together with the live allocations: offset and requested size. *)
Definition LIVE : Type := HEAP_STRUCT * gmap Z Z.

(** Clients free what they hold. *)
Inductive heap_step : LIVE → LIVE → Prop :=
  | heap_alloc h live n h' p :
      0 <= n → Heap_Alloc n h = Ok (h', Some p) → heap_step (h, live) (h', <[p := n]> live)
  | heap_alloc_fail h live n h' :
      Heap_Alloc n h = Ok (h', None) → heap_step (h, live) (h', live)
  | heap_free h live p h' :
      is_Some (live !! p) → Heap_Free p h = Ok h' → heap_step (h, live) (h', delete p live).

(** The blocks in use are the live allocations, each within its block. *)
Definition heap_inv (s : LIVE) : Prop :=
  heap_wf s.1 ∧
  (∀ p n, s.2 !! p = Some n → 0 <= n ∧
     ∃ i e, astHeapElements s.1 !! i = Some e ∧ usOffset e = p ∧ bInUse e = true ∧ n < usSize e) ∧
  (∀ i e, astHeapElements s.1 !! i = Some e → bInUse e = true → is_Some (s.2 !! usOffset e)).

Lemma heap_inv_alloc h live n h' p :
  0 <= n → Heap_Alloc n h = Ok (h', Some p) → heap_inv (h, live) → heap_inv (h', <[p := n]> live).
Proof.
  intros Hn Ha (Hwf & H1 & H2). cbn [fst snd] in *.
  destruct (Heap_Alloc_cases h n Hwf) as [[E _]|(i & e & Hi & Hf & Hs & E & _)];
    rewrite E in Ha; [done|]. simplify_eq.
  assert (i < length (astHeapElements h))%nat as Hlt by (by eapply lookup_lt_Some).
  split; [by apply wf_insert|]. cbn [fst snd astHeapElements]. split.
  - intros q m Hq. apply lookup_insert_Some in Hq as [[<- <-]|[Hne Hq]].
    + split; [done|]. eexists i, _. by rewrite list_lookup_insert_eq.
    + destruct (H1 q m Hq) as (Hm & j & e' & Hj & Ho & Hu & Hs'). split; [done|].
      exists j, e'. rewrite list_lookup_insert_ne by (intros ->; congruence). done.
  - intros j e' Hj Hu. apply list_lookup_insert_Some in Hj as [(<- & <- & _)|[Hne Hj]].
    + cbn. rewrite lookup_insert_eq. eauto.
    + destruct (decide (usOffset e = usOffset e')) as [->|Ho].
      * rewrite lookup_insert_eq. eauto.
      * rewrite lookup_insert_ne by done. eauto.
Qed.

Lemma heap_inv_free h live p h' :
  is_Some (live !! p) → Heap_Free p h = Ok h' → heap_inv (h, live) → heap_inv (h', delete p live).
Proof.
  intros [n Hp] Hfree (Hwf & H1 & H2). cbn [fst snd] in *.
  destruct (H1 p n Hp) as (Hn & i & e & Hi & <- & Hu & Hs).
  rewrite (Heap_Free_used h i e Hwf Hi Hu) in Hfree. simplify_eq.
  assert (i < length (astHeapElements h))%nat as Hlt by (by eapply lookup_lt_Some).
  split; [by apply wf_insert|]. cbn [fst snd astHeapElements]. split.
  - intros q m Hq. apply lookup_delete_Some in Hq as [Hne Hq].
    destruct (H1 q m Hq) as (Hm & j & e' & Hj & Ho & Hu' & Hs'). split; [done|].
    exists j, e'. rewrite list_lookup_insert_ne by (intros ->; congruence). done.
  - intros j e' Hj Hu'. apply list_lookup_insert_Some in Hj as [(<- & <- & _)|[Hne Hj]]; [done|].
    rewrite lookup_delete_ne; [by eapply H2|]. intros E.
    by pose proof (wf_offset_inj _ _ _ _ _ Hwf Hi Hj E).
Qed.

Lemma heap_reachable_inv s : rtc heap_step (fresh, ∅) s → heap_inv s.
Proof.
  assert (heap_inv (fresh, ∅)) as H0.
  { split; [apply fresh_wf|]. cbn [fst snd]. split; [set_solver|].
    intros i e Hi Hu. unfold fresh in Hi. cbn [astHeapElements] in Hi.
    apply list_lookup_fmap_Some in Hi as (a & -> & _). done. }
  intros Hr. remember (fresh, ∅) as s0 eqn:Es. clear Es.
  induction Hr as [|s1 s2 s3 Hst _ IH]; [done|]. apply IH.
  destruct Hst; [by eapply heap_inv_alloc| |by eapply heap_inv_free].
  destruct H0 as (Hwf & H0). destruct (Heap_Alloc_cases h n Hwf) as [[E _]|(i & e & _ & _ & _ & E & _)];
    cbn [fst] in E; rewrite E in H; by simplify_eq.
Qed.

(** C9: in every sequence of allocations and frees from the initialised heap,
    live allocations lie within the pool and do not overlap, and a new
    allocation overlaps none of them. *)
Theorem heap_live_disjoint h live :
  rtc heap_step (fresh, ∅) (h, live) →
  (∀ p n, live !! p = Some n → 0 <= p ∧ p + n < HEAP_SIZE_BYTES) ∧
  (∀ p n q m, live !! p = Some n → live !! q = Some m → p ≠ q → p + n < q ∨ q + m < p) ∧
  (∀ n h' p, Heap_Alloc n h = Ok (h', Some p) → live !! p = None).
Proof.
  intros (Hwf & H1 & H2)%heap_reachable_inv. cbn [fst snd] in *. split; [|split].
  - intros p n Hp. destruct (H1 p n Hp) as (? & i & e & Hi & <- & _ & ?).
    pose proof (wf_bounds _ _ _ Hwf Hi). lia.
  - intros p n q m Hp Hq Hne. destruct (H1 p n Hp) as (? & i & e & Hi & <- & _ & ?).
    destruct (H1 q m Hq) as (? & j & e' & Hj & <- & _ & ?).
    destruct (lt_eq_lt_dec i j) as [[Hlt| ->]|Hlt]; [|congruence|].
    + pose proof (wf_order _ _ _ _ _ Hwf Hi Hj Hlt). lia.
    + pose proof (wf_order _ _ _ _ _ Hwf Hj Hi Hlt). lia.
  - intros n h' p Ha.
    destruct (Heap_Alloc_cases h n Hwf) as [[E _]|(i & e & Hi & Hf & _ & E & _)]; rewrite E in Ha; [done|].
    simplify_eq. apply eq_None_not_Some. intros [m Hm].
    destruct (H1 _ _ Hm) as (_ & j & e' & Hj & Ho & Hu & _).
    pose proof (wf_offset_inj _ _ _ _ _ Hwf Hj Hi Ho) as ->. congruence.
Qed.

Lemma heap_live_disjoint_witness :
  ∃ h live, rtc heap_step (fresh, ∅) (h, live) ∧ live !! 0 = Some 5 ∧ live !! 8 = Some 6 ∧
    (0 + 5 < 8 ∨ 8 + 6 < 0).
Proof.
  eexists _, (<[8 := 6]> (<[0 := 5]> ∅)).
  match goal with |- ?A ∧ _ => assert A as Hr end.
  { eapply rtc_l; [eapply (heap_alloc _ _ 5); [done|vm_compute; reflexivity]|].
    eapply rtc_once. eapply (heap_alloc _ _ 6); [done|vm_compute; reflexivity]. }
  split; [exact Hr|]. split; [done|]. split; [done|].
  destruct (heap_live_disjoint _ _ Hr) as (_ & Hd & _). by apply (Hd 0 5 8 6).
Defined.

(** C10: no leak: when every allocation has been freed the block table is that
    of the initialised heap, so all of the pool can be allocated again. *)
Theorem heap_no_leak h :
  rtc heap_step (fresh, ∅) (h, ∅) → astHeapElements h = astHeapElements fresh.
Proof.
  intros ((Hs & _) & _ & H2)%heap_reachable_inv. cbn [fst snd] in *. unfold fresh.
  cbn [astHeapElements]. rewrite <- Hs, <- list_fmap_compose.
  rewrite <- (list_fmap_id (astHeapElements h)) at 1. apply list_fmap_ext.
  intros i e Hi. destruct e as [sz off b]. cbn. destruct b; [|done].
  by destruct (H2 i _ Hi eq_refl).
Qed.

Lemma heap_no_leak_witness :
  ∃ h1 h2, Heap_Alloc 5 fresh = Ok (h1, Some 0) ∧ Heap_Free 0 h1 = Ok h2 ∧
    astHeapElements h2 = astHeapElements fresh.
Proof.
  eexists _, _. split; [vm_compute; reflexivity|]. split; [vm_compute; reflexivity|].
  apply heap_no_leak.
  eapply rtc_l; [eapply (heap_alloc _ _ 5); [done|vm_compute; reflexivity]|].
  apply rtc_once.
  match goal with |- heap_step (?h, ?l) (?h', ∅) => replace (∅ : gmap Z Z) with (delete 0 l) by done end.
  apply heap_free; [by eexists|]. vm_compute. reflexivity.
Defined.

End Heap.
