(* ===== verification/FunkTimer.v ===== *)
(** * FunkOS: lightweight-thread timers (kernel/timer.c)

    A table of periodic callbacks run from the tick interrupt.  A timer
    handle is its index in the table, the callbacks are functions of the
    application, which may use the timer table and their own state.
    modules/cooperative/timer.c is the same code. *)
From S2P Require Import Prelude FunkKernel.

Module Timer.

Definition NUM_TIMERS : Z := 4.

Inductive TIMER_STATE : Type :=
  | TIMER_STATE_UNINIT | TIMER_STATE_CLOSED | TIMER_STATE_OPEN.

#[export] Instance TIMER_STATE_eq_dec : EqDecision TIMER_STATE.
Proof. solve_decision. Defined.

Record TIMER_STRUCT : Type := mkTimer {
  usTicks : Z;
  usOffset : Z;
  usTickCount : Z;
  eState : TIMER_STATE;
  pfCallback : option Z
}.

Definition set_usTicks (v : Z) (r : TIMER_STRUCT) : TIMER_STRUCT :=
  mkTimer v (usOffset r) (usTickCount r) (eState r) (pfCallback r).
Definition set_usOffset (v : Z) (r : TIMER_STRUCT) : TIMER_STRUCT :=
  mkTimer (usTicks r) v (usTickCount r) (eState r) (pfCallback r).
Definition set_usTickCount (v : Z) (r : TIMER_STRUCT) : TIMER_STRUCT :=
  mkTimer (usTicks r) (usOffset r) v (eState r) (pfCallback r).
Definition set_eState (v : TIMER_STATE) (r : TIMER_STRUCT) : TIMER_STRUCT :=
  mkTimer (usTicks r) (usOffset r) (usTickCount r) v (pfCallback r).
Definition set_pfCallback (v : option Z) (r : TIMER_STRUCT) : TIMER_STRUCT :=
  mkTimer (usTicks r) (usOffset r) (usTickCount r) (eState r) v.

(** ** Operations *)

Definition upd_timer (p : option Z) (f : TIMER_STRUCT → TIMER_STRUCT) (ts : list TIMER_STRUCT)
    : res (list TIMER_STRUCT) :=
  match p with
  | None => Fault NullDeref
  | Some i => t ← aget ts i; aset ts i (f t)
  end.

Definition Timer_Init (ts : list TIMER_STRUCT) : res (list TIMER_STRUCT) :=
  forM (zseq 0 NUM_TIMERS)
    (fun i => upd_timer (Some i)
       (fun t => set_pfCallback None (set_eState TIMER_STATE_UNINIT (set_usOffset 0 (set_usTicks 0 t))))) ts.

Definition is_uninit (t : TIMER_STRUCT) : bool := bool_decide (eState t = TIMER_STATE_UNINIT).

Definition Timer_Add (ticks offset : Z) (callback : option Z) (ts : list TIMER_STRUCT)
    : res (list TIMER_STRUCT * option Z) :=
  r ← search is_uninit ts (zseq 0 NUM_TIMERS);
  match r with
  | None => Ok (ts, None)
  | Some (i, _) =>
      ts ← upd_timer (Some i)
             (fun t => set_pfCallback callback
                (set_usOffset offset
                   (set_usTickCount 0 (set_usTicks ticks (set_eState TIMER_STATE_CLOSED t))))) ts;
      Ok (ts, Some i)
  end.

Definition Timer_Start (p : option Z) (ts : list TIMER_STRUCT) : res (list TIMER_STRUCT) :=
  upd_timer p (fun t => set_eState TIMER_STATE_OPEN (set_usTickCount 0 t)) ts.

Definition Timer_Stop (p : option Z) (ts : list TIMER_STRUCT) : res (list TIMER_STRUCT) :=
  upd_timer p (set_eState TIMER_STATE_CLOSED) ts.

Section tick.
Context {W : Type} (call : Z → list TIMER_STRUCT * W → list TIMER_STRUCT * W).

(** One turn of the loop of [Timer_Tick]. *)
Definition tick_entry (i : Z) (s : list TIMER_STRUCT * W) : res (list TIMER_STRUCT * W) :=
  t ← aget (s.1) i;
  if bool_decide (eState t = TIMER_STATE_OPEN) then
    let t := set_usTickCount (u16 (usTickCount t + 1)) t in
    if usTickCount t =? u16 (usTicks t + usOffset t) then
      ts ← aset (s.1) i (set_usTickCount (usOffset t) t);
      match pfCallback t with
      | None => Ok (ts, s.2)
      | Some c => Ok (call c (ts, s.2))
      end
    else ts ← aset (s.1) i t; Ok (ts, s.2)
  else Ok s.

Definition Timer_Tick (s : list TIMER_STRUCT * W) : res (list TIMER_STRUCT * W) :=
  forM (zseq 0 NUM_TIMERS) tick_entry s.

Fixpoint Timer_run (n : nat) (s : list TIMER_STRUCT * W) : res (list TIMER_STRUCT * W) :=
  match n with
  | O => Ok s
  | S n => s ← Timer_run n s; Timer_Tick s
  end.

(** ** One tick *)

(** The timer expires at this tick. *)
Definition due (t : TIMER_STRUCT) : bool :=
  bool_decide (eState t = TIMER_STATE_OPEN) &&
  (u16 (usTickCount t + 1) =? u16 (usTicks t + usOffset t)).

Definition tick_timer (t : TIMER_STRUCT) : TIMER_STRUCT :=
  if bool_decide (eState t = TIMER_STATE_OPEN) then
    set_usTickCount (if due t then usOffset t else u16 (usTickCount t + 1)) t
  else t.

Definition fire (t : TIMER_STRUCT) : option Z := if due t then pfCallback t else None.

(** The callbacks leave the timer table alone; [cnt c] counts in the
    application's state how often [c] has run. *)
Context (cnt : Z → W → Z)
  (call_table : ∀ c ts w, (call c (ts, w)).1 = ts)
  (call_count : ∀ c c' ts w, cnt c (call c' (ts, w)).2 = cnt c w + if decide (c' = c) then 1 else 0).

Definition fires (c : Z) (t : TIMER_STRUCT) : Z := if decide (fire t = Some c) then 1 else 0.

Definition total (c : Z) (l : list TIMER_STRUCT) : Z := foldr (fun t n => fires c t + n) 0 l.

Lemma total_cons c t l : total c (t :: l) = fires c t + total c l.
Proof. done. Qed.

Lemma tick_entry_spec l1 t l2 w :
  ∃ w', tick_entry (Z.of_nat (length l1)) (l1 ++ t :: l2, w) = Ok (l1 ++ tick_timer t :: l2, w') ∧
    ∀ c, cnt c w' = cnt c w + fires c t.
Proof using call_table call_count.
  unfold tick_entry, fires, fire, tick_timer, due. cbn [fst snd]. rewrite aget_app, bind_ok.
  assert (∀ t', aset (l1 ++ t :: l2) (Z.of_nat (length l1)) t' = Ok (l1 ++ t' :: l2)) as Hset.
  { intros t'. rewrite aset_some by (rewrite length_app; simpl; lia).
    by rewrite insert_app_r_alt, Nat.sub_diag by lia. }
  destruct (bool_decide (eState t = TIMER_STATE_OPEN)); cbn -[aset u16].
  2: { exists w. split; [done|]. intros c. by case_decide; [|lia]. }
  destruct (_ =? _); cbn -[aset u16]; rewrite Hset, bind_ok.
  2: { exists w. split; [done|]. intros c. by case_decide; [|lia]. }
  destruct (pfCallback t) as [c0|] eqn:Ec.
  - exists (call c0 (l1 ++ set_usTickCount (usOffset t) t :: l2, w)).2. split.
    + destruct t; cbn in *. rewrite (surjective_pairing (call _ _)), call_table. done.
    + intros c. rewrite call_count. repeat case_decide; congruence || lia.
  - exists w. split; [by destruct t|]. intros c. by case_decide; [|lia].
Qed.

Lemma tick_suffix l1 l2 w :
  ∃ w', forM (seqZ (Z.of_nat (length l1)) (Z.of_nat (length l2))) tick_entry (l1 ++ l2, w)
        = Ok (l1 ++ (tick_timer <$> l2), w') ∧
    ∀ c, cnt c w' = cnt c w + total c l2.
Proof using call_table call_count.
  revert l1 w. induction l2 as [|t l2 IH]; intros l1 w.
  - exists w. split; [done|]. intros c. cbn. lia.
  - destruct (tick_entry_spec l1 t l2 w) as (w1 & E1 & H1).
    destruct (IH (l1 ++ [tick_timer t]) w1) as (w2 & E2 & H2). exists w2. split.
    + cbn [length]. rewrite seqZ_cons'. cbn [forM]. rewrite E1, bind_ok.
      rewrite <- !app_assoc, length_app in E2. cbn in E2.
      by replace (Z.of_nat (length l1) + 1) with (Z.of_nat (length l1 + 1)) by lia.
    + intros c. rewrite H2, H1. rewrite total_cons. lia.
Qed.

Lemma Timer_Tick_spec ts w :
  Z.of_nat (length ts) = NUM_TIMERS →
  ∃ w', Timer_Tick (ts, w) = Ok (tick_timer <$> ts, w') ∧ ∀ c, cnt c w' = cnt c w + total c ts.
Proof using call_table call_count.
  intros Hl. unfold Timer_Tick, zseq. rewrite <- Hl. apply (tick_suffix []).
Qed.

(** ** Many ticks *)

Lemma total_unique c i t ts :
  ts !! i = Some t → (∀ j t', ts !! j = Some t' → pfCallback t' = Some c → j = i) →
  total c ts = fires c t.
Proof.
  revert i. induction ts as [|t0 ts IH]; intros i Hi Hu; [done|].
  assert (∀ l, (∀ j t', l !! j = Some t' → pfCallback t' ≠ Some c) → total c l = 0) as Hz.
  { intros l. induction l as [|t1 l IHl]; intros Hl; [done|].
    rewrite total_cons, IHl by (intros j t'; apply (Hl (S j))). unfold fires, fire.
    pose proof (Hl 0%nat t1 eq_refl). repeat case_decide; repeat case_match; congruence || lia. }
  rewrite total_cons. destruct i as [|i]; cbn in Hi.
  - simplify_eq. rewrite Hz; [lia|]. intros j t' Hj Hc. by specialize (Hu (S j) t' Hj Hc).
  - rewrite (IH i Hi). 2: { intros j t' Hj Hc. specialize (Hu (S j) t' Hj Hc). lia. }
    unfold fires at 1, fire. repeat case_decide; [|lia]. case_match; [|done].
    by specialize (Hu 0%nat t0 eq_refl H).
Qed.

Lemma tick_timer_callback t : pfCallback (tick_timer t) = pfCallback t.
Proof. unfold tick_timer. by case_match. Qed.

Lemma fmap_iter_lookup n (ts : list TIMER_STRUCT) i :
  Nat.iter n (fmap tick_timer) ts !! i = Nat.iter n tick_timer <$> ts !! i.
Proof.
  induction n as [|n IH]; [cbn; by destruct (ts !! i)|].
  rewrite Nat.iter_succ, list_lookup_fmap, IH. by destruct (ts !! i).
Qed.

Lemma iter_callback n t : pfCallback (Nat.iter n tick_timer t) = pfCallback t.
Proof. induction n as [|n IH]; [done|]. by rewrite Nat.iter_succ, tick_timer_callback. Qed.

(** The tick count [n] ticks after the start, and when the timer is due. *)
Definition phase (T D n : Z) : Z := if decide (n < D) then n else D + (n - D) `mod` T.

Lemma phase_step T D n :
  1 <= T → 0 <= D → 0 <= n →
  phase T D (n + 1) = if decide (phase T D n + 1 = T + D) then D else phase T D n + 1.
Proof.
  intros HT HD Hn. unfold phase. destruct (decide (n < D)).
  - rewrite (decide_False (P := n + 1 = T + D)) by lia. case_decide; [done|].
    replace (n + 1 - D) with 0 by lia. rewrite Z.mod_0_l by lia. lia.
  - rewrite (decide_False (P := n + 1 < D)) by lia.
    replace (n + 1 - D) with ((n - D) + 1) by lia. rewrite <- Zplus_mod_idemp_l.
    pose proof (Z.mod_pos_bound (n - D) T). case_decide.
    + replace ((n - D) `mod` T + 1) with T by lia. rewrite Z.mod_same by lia. lia.
    + rewrite Z.mod_small by lia. lia.
Qed.

Lemma phase_range T D n : 1 <= T → 0 <= D → 0 <= n → 0 <= phase T D n < T + D.
Proof.
  intros HT HD Hn. unfold phase. case_decide; [lia|].
  pose proof (Z.mod_pos_bound (n - D) T). lia.
Qed.

Lemma runs_step T D n :
  1 <= T → 0 <= D → 0 <= n →
  Z.max 0 ((n + 1 - D) / T)
  = Z.max 0 ((n - D) / T) + if decide (phase T D n + 1 = T + D) then 1 else 0.
Proof.
  intros HT HD Hn. unfold phase. destruct (decide (n < D)).
  - assert ((n - D) / T < 0) by (apply Z.div_lt_upper_bound; lia).
    destruct (decide (n + 1 = D)) as [E|E].
    + replace (n + 1 - D) with 0 by lia. rewrite Z.div_0_l by lia. case_decide; [|lia].
      assert (D = n + 1) by lia. lia.
    + assert ((n + 1 - D) / T < 0) by (apply Z.div_lt_upper_bound; lia). case_decide; lia.
  - replace (n + 1 - D) with ((n - D) + 1) by lia. set (m := n - D) in *.
    assert (0 <= m) by lia. pose proof (Z.div_mod m T). pose proof (Z.mod_pos_bound m T).
    assert (0 <= m / T) by (apply Z.div_pos; lia).
    case_decide.
    + replace ((m + 1) / T) with (m / T + 1); [lia|]. apply (Z.div_unique _ _ _ 0); lia.
    + replace ((m + 1) / T) with (m / T); [lia|]. apply (Z.div_unique _ _ _ (m `mod` T + 1)); lia.
Qed.

Lemma iter_started T D c t n :
  usTicks t = T → usOffset t = D → pfCallback t = c →
  1 <= T → 0 <= D → T + D < 65536 →
  Nat.iter n tick_timer (set_eState TIMER_STATE_OPEN (set_usTickCount 0 t))
  = mkTimer T D (phase T D (Z.of_nat n)) TIMER_STATE_OPEN c.
Proof.
  intros <- <- <- HT HD HTD. induction n as [|n IH].
  - unfold phase, set_eState, set_usTickCount. cbn. case_decide; [done|].
    replace (Z.of_nat 0 - usOffset t) with 0 by lia. rewrite Z.mod_0_l by lia. f_equal. lia.
  - rewrite Nat.iter_succ, IH. unfold tick_timer, due. cbn -[u16 phase Z.of_nat].
    pose proof (phase_range (usTicks t) (usOffset t) (Z.of_nat n) HT HD ltac:(lia)).
    rewrite !u16_small by lia.
    replace (Z.of_nat (S n)) with (Z.of_nat n + 1) by lia. rewrite phase_step by lia.
    unfold set_usTickCount. cbn. destruct (Z.eqb_spec (phase (usTicks t) (usOffset t) (Z.of_nat n) + 1)
      (usTicks t + usOffset t)); case_decide; done.
Qed.

Lemma Timer_run_started ts i t c T D n w :
  Z.of_nat (length ts) = NUM_TIMERS → ts !! i = Some t → pfCallback t = Some c →
  (∀ j t', ts !! j = Some t' → pfCallback t' = Some c → j = i) →
  usTicks t = T → usOffset t = D → 1 <= T → 0 <= D → T + D < 65536 →
  ∃ ts0 ts' w', Timer_Start (Some (Z.of_nat i)) ts = Ok ts0 ∧
    Timer_run n (ts0, w) = Ok (ts', w') ∧
    cnt c w' = cnt c w + Z.max 0 ((Z.of_nat n - D) / T).
Proof using call_table call_count.
  intros Hl Hi Hc Hu HT0 HD0 HT HD HTD.
  set (t0 := set_eState TIMER_STATE_OPEN (set_usTickCount 0 t)).
  assert (i < length ts)%nat as Hlt by (by eapply lookup_lt_Some).
  exists (<[i := t0]> ts). cut (∃ w', Timer_run n (<[i := t0]> ts, w)
      = Ok (Nat.iter n (fmap tick_timer) (<[i := t0]> ts), w') ∧
      cnt c w' = cnt c w + Z.max 0 ((Z.of_nat n - D) / T)).
  { intros (w' & E & Hw). eexists _, w'. split; [|done].
    unfold Timer_Start, upd_timer. rewrite (aget_some _ _ _ Hi), bind_ok, aset_some by done. done. }
  assert (∀ m, length (Nat.iter m (fmap tick_timer) (<[i := t0]> ts)) = length ts) as Hlen.
  { intros m. induction m as [|m IH]; [apply length_insert|]. by rewrite Nat.iter_succ, length_fmap. }
  induction n as [|n (w' & E & Hw)].
  - exists w. split; [done|]. cbn.
    assert ((0 - D) / T <= 0) by (apply Z.div_le_upper_bound; lia). lia.
  - destruct (Timer_Tick_spec (Nat.iter n (fmap tick_timer) (<[i := t0]> ts)) w') as (w2 & E2 & H2);
      [by rewrite Hlen|].
    exists w2. cbn [Timer_run]. rewrite E, bind_ok. split; [exact E2|]. rewrite H2, Hw.
    rewrite (total_unique c i (Nat.iter n tick_timer t0)).
    + unfold fires, fire. subst t0. rewrite (iter_started T D (Some c)) by done.
      pose proof (phase_range T D (Z.of_nat n) HT HD ltac:(lia)). unfold due. cbn -[u16 phase Z.of_nat].
      rewrite !u16_small by lia. rewrite bool_decide_eq_true_2 by done. cbn [andb].
      replace (Z.of_nat (S n)) with (Z.of_nat n + 1) by lia. rewrite runs_step by lia.
      destruct (Z.eqb_spec (phase T D (Z.of_nat n) + 1) (T + D)); repeat case_decide; congruence || lia.
    + rewrite fmap_iter_lookup, list_lookup_insert_eq by done. done.
    + intros j t' Hj Hcj. rewrite fmap_iter_lookup in Hj. destruct (decide (j = i)) as [|Hne]; [done|].
      rewrite list_lookup_insert_ne in Hj by done.
      destruct (ts !! j) as [tj|] eqn:Etj; cbn in Hj; [|done]. simplify_eq.
      rewrite iter_callback in Hcj. by eapply Hu.
Qed.

End tick.

(** Timers are periodic: a started timer with period [T] and offset [D]
    whose callback [c] no other timer has, among any other timers, has run
    [c] exactly (n - D) / T times (never before) after [n] ticks: first at
    tick T + D and then every T ticks. *)
Theorem Timer_periodic {W : Type} (call : Z → list TIMER_STRUCT * W → list TIMER_STRUCT * W)
    (cnt : Z → W → Z) ts i t c T D n w :
  (∀ c ts w, (call c (ts, w)).1 = ts) →
  (∀ c c' ts w, cnt c (call c' (ts, w)).2 = cnt c w + if decide (c' = c) then 1 else 0) →
  Z.of_nat (length ts) = NUM_TIMERS → ts !! i = Some t → pfCallback t = Some c →
  (∀ j t', ts !! j = Some t' → pfCallback t' = Some c → j = i) →
  usTicks t = T → usOffset t = D → 1 <= T → 0 <= D → T + D < 65536 →
  ∃ ts0 ts' w', Timer_Start (Some (Z.of_nat i)) ts = Ok ts0 ∧
    Timer_run call n (ts0, w) = Ok (ts', w') ∧
    cnt c w' = cnt c w + Z.max 0 ((Z.of_nat n - D) / T).
Proof. intros. by eapply Timer_run_started. Qed.

Lemma Timer_periodic_witness :
  let call := λ (c : Z) (s : list TIMER_STRUCT * list Z), (s.1, c :: s.2) in
  let cnt := λ (c : Z) (w : list Z), Z.of_nat (length (filter (.= c) w)) in
  let ts := mkTimer 3 1 0 TIMER_STATE_CLOSED (Some 7) ::
            replicate (Z.to_nat NUM_TIMERS - 1) (mkTimer 0 0 0 TIMER_STATE_UNINIT None) in
  ∃ ts0 ts' w', Timer_Start (Some 0) ts = Ok ts0 ∧
    Timer_run call 10 (ts0, []) = Ok (ts', w') ∧ cnt 7 w' = 3.
Proof.
  intros call cnt ts.
  apply (Timer_periodic call cnt ts 0 (mkTimer 3 1 0 TIMER_STATE_CLOSED (Some 7)) 7 3 1 10 []).
  - done.
  - intros c c' ts0 w. unfold cnt, call. cbn [snd]. rewrite filter_cons. repeat case_decide; cbn; lia.
  - done.
  - done.
  - done.
  - intros [|j] t' Hj Ht; [done|]. unfold ts in Hj. cbn [lookup list_lookup] in Hj.
    apply list_elem_of_lookup_2, elem_of_replicate in Hj as [-> _]. discriminate Ht.
  - done.
  - done.
  - done.
  - done.
  - done.
Defined.

(** Adding a timer takes the first undefined entry, closed and with its
    count at zero, and leaves the others alone; it returns null, changing
    nothing, exactly when every entry is defined. *)
Theorem Timer_Add_first_free ts ticks offset callback :
  Z.of_nat (length ts) = NUM_TIMERS →
  (Timer_Add ticks offset callback ts = Ok (ts, None) ∧
   ∀ t, t ∈ ts → eState t ≠ TIMER_STATE_UNINIT) ∨
  (∃ i, Timer_Add ticks offset callback ts
        = Ok (<[i := mkTimer ticks offset 0 TIMER_STATE_CLOSED callback]> ts, Some (Z.of_nat i)) ∧
     (∃ t, ts !! i = Some t ∧ eState t = TIMER_STATE_UNINIT) ∧
     ∀ j t, (j < i)%nat → ts !! j = Some t → eState t ≠ TIMER_STATE_UNINIT).
Proof.
  intros Hl. unfold Timer_Add, zseq. rewrite <- Hl.
  destruct (search_cases is_uninit ts) as [[-> Hn]|(i & t & -> & Hi & HP & Hj)]; [left|right].
  - split; [done|]. intros t Ht. specialize (Hn t Ht). unfold is_uninit in Hn. by zb.
  - exists i. split; [|split].
    + rewrite bind_ok. unfold upd_timer. rewrite (aget_some _ _ _ Hi), bind_ok.
      rewrite aset_some by (by eapply lookup_lt_Some). done.
    + exists t. unfold is_uninit in HP. by zb.
    + intros j t' Hlt Ht'. specialize (Hj j t' Ht' Hlt). unfold is_uninit in Hj. by zb.
Qed.

End Timer.
