(* ===== verification/FunkWatchdog.v ===== *)
(** * FunkOS: the software watchdog (kernel/watchdog.c)

    A table of pointers to watchdog objects; the hardware watchdog is kicked
    by a tick only when no active object of the table has run out of time.
    The kicks are counted. *)
From S2P Require Import Prelude FunkKernel.

Module Watchdog.

Definition NUM_WDT_ENTRIES : Z := 20.
Definition TIME_PER_KICK_MS : Z := 200.

Inductive WATCHDOG_STATE : Type := WDT_TASK_UNINIT | WDT_TASK_IDLE | WDT_TASK_ACTIVE.

#[export] Instance WATCHDOG_STATE_eq_dec : EqDecision WATCHDOG_STATE.
Proof. solve_decision. Defined.

Record WATCHDOG_TASK : Type := mkWdt {
  usTimeout : Z;
  usCurrentTime : Z;
  eState : WATCHDOG_STATE
}.

Definition set_usTimeout (v : Z) (r : WATCHDOG_TASK) : WATCHDOG_TASK :=
  mkWdt v (usCurrentTime r) (eState r).
Definition set_usCurrentTime (v : Z) (r : WATCHDOG_TASK) : WATCHDOG_TASK :=
  mkWdt (usTimeout r) v (eState r).
Definition set_eState (v : WATCHDOG_STATE) (r : WATCHDOG_TASK) : WATCHDOG_TASK :=
  mkWdt (usTimeout r) (usCurrentTime r) v.

Record WDT : Type := mkWDT {
  pstWDT : list ptr;
  objs : gmap nat WATCHDOG_TASK;
  kicks : Z
}.

Definition set_pstWDT (v : list ptr) (r : WDT) : WDT :=
  mkWDT v (objs r) (kicks r).
Definition set_objs (v : gmap nat WATCHDOG_TASK) (r : WDT) : WDT :=
  mkWDT (pstWDT r) v (kicks r).
Definition set_kicks (v : Z) (r : WDT) : WDT :=
  mkWDT (pstWDT r) (objs r) v.

(** ** Operations *)

Definition upd_obj (p : ptr) (f : WATCHDOG_TASK → WATCHDOG_TASK) (s : WDT) : res WDT :=
  m ← assign (objs s) p f; Ok (set_objs m s).

Definition set_entry (i : Z) (p : ptr) (s : WDT) : res WDT :=
  t ← aset (pstWDT s) i p; Ok (set_pstWDT t s).

Definition KernelWDT_Kick (s : WDT) : WDT := set_kicks (kicks s + 1) s.

Definition Watchdog_Init (s : WDT) : res WDT :=
  forM (zseq 0 NUM_WDT_ENTRIES) (fun i => set_entry i NULL) s.

(** The loop of [Watchdog_AddTask]: its body returns at the first turn. *)
Definition add_loop (idx : list Z) (p : ptr) (time : Z) (s : WDT) : res (WDT * bool) :=
  match idx with
  | [] => Ok (s, false)
  | i :: _ =>
      e ← aget (pstWDT s) i;
      s ← match e with
          | Some _ =>
              s ← set_entry i p s;
              e ← aget (pstWDT s) i;
              upd_obj e (fun t => set_usCurrentTime 0 (set_usTimeout time (set_eState WDT_TASK_IDLE t))) s
          | None => Ok s
          end;
      Ok (s, true)
  end.

Definition Watchdog_AddTask (p : ptr) (time : Z) (s : WDT) : res (WDT * bool) :=
  add_loop (zseq 0 NUM_WDT_ENTRIES) p time s.

Definition Watchdog_RemoveTask (p : ptr) (s : WDT) : res WDT :=
  forM (zseq 0 NUM_WDT_ENTRIES)
    (fun i s =>
       e ← aget (pstWDT s) i;
       if decide (e = p) then
         s ← upd_obj e (set_eState WDT_TASK_IDLE) s;
         set_entry i NULL s
       else Ok s) s.

Definition Watchdog_StartTask (p : ptr) (s : WDT) : res WDT :=
  upd_obj p (fun t => set_usCurrentTime 0 (set_eState WDT_TASK_ACTIVE t)) s.

Definition Watchdog_IdleTask (p : ptr) (s : WDT) : res WDT :=
  upd_obj p (fun t => set_usCurrentTime 0 (set_eState WDT_TASK_IDLE t)) s.

(** One entry of the tick: the new object and whether it vetoes the kick. *)
Definition tick_obj (t : WATCHDOG_TASK) : WATCHDOG_TASK * bool :=
  if bool_decide (eState t = WDT_TASK_ACTIVE) then
    if usCurrentTime t <? usTimeout t
    then (set_usCurrentTime (u16 (usCurrentTime t + TIME_PER_KICK_MS)) t, false)
    else (t, true)
  else (t, false).

Definition tick_entry (i : Z) (s : WDT * bool) : res (WDT * bool) :=
  e ← aget (pstWDT (s.1)) i;
  match e with
  | None => Ok s
  | Some _ =>
      t ← deref (objs (s.1)) e;
      w ← upd_obj e (fun t => (tick_obj t).1) (s.1);
      Ok (w, if (tick_obj t).2 then false else s.2)
  end.

Definition Watchdog_Tick (s : WDT) : res WDT :=
  '(s, bKickDog) ← forM (zseq 0 NUM_WDT_ENTRIES) tick_entry (s, true);
  Ok (if bKickDog : bool then KernelWDT_Kick s else s).

(** ** The tick *)

(** The table is made of distinct objects that exist. *)
Definition wf (s : WDT) : Prop :=
  Z.of_nat (length (pstWDT s)) = NUM_WDT_ENTRIES ∧ NoDup (omap id (pstWDT s)) ∧
  ∀ x, Some x ∈ pstWDT s → is_Some (objs s !! x).

Definition expired (s : WDT) (x : nat) : Prop :=
  ∃ t, objs s !! x = Some t ∧ eState t = WDT_TASK_ACTIVE ∧ usTimeout t <= usCurrentTime t.

Lemma tick_obj_veto t :
  (tick_obj t).2 = bool_decide (eState t = WDT_TASK_ACTIVE ∧ usTimeout t <= usCurrentTime t).
Proof.
  unfold tick_obj. destruct (bool_decide (eState t = WDT_TASK_ACTIVE)) eqn:E; zb; symmetry.
  - destruct (Z.ltb_spec (usCurrentTime t) (usTimeout t)); cbn;
      [apply bool_decide_eq_false|apply bool_decide_eq_true]; intuition lia.
  - apply bool_decide_eq_false. naive_solver.
Qed.

(** The object [x] vetoes the kick of this tick. *)
Definition veto (m : gmap nat WATCHDOG_TASK) (x : nat) : bool :=
  match m !! x with Some t => (tick_obj t).2 | None => false end.

Lemma veto_expired s x : veto (objs s) x = true ↔ expired s x.
Proof.
  unfold veto, expired. destruct (objs s !! x) as [t|]; [|naive_solver].
  rewrite tick_obj_veto, bool_decide_eq_true. naive_solver.
Qed.

Lemma existsb_ext_in {A} (f g : A → bool) l :
  (∀ x, x ∈ l → f x = g x) → existsb f l = existsb g l.
Proof.
  induction l as [|x l IH]; intros H; [done|]. cbn.
  rewrite H by set_solver. rewrite IH by set_solver. done.
Qed.

Lemma wd_tick_suffix l1 l2 s b :
  pstWDT s = l1 ++ l2 → NoDup (omap id l2) → (∀ x, Some x ∈ l2 → is_Some (objs s !! x)) →
  ∃ s', forM (seqZ (Z.of_nat (length l1)) (Z.of_nat (length l2))) tick_entry (s, b)
        = Ok (s', b && negb (existsb (veto (objs s)) (omap id l2))) ∧
    pstWDT s' = pstWDT s ∧ kicks s' = kicks s ∧
    ∀ x, objs s' !! x = if decide (Some x ∈ l2) then fst ∘ tick_obj <$> objs s !! x else objs s !! x.
Proof.
  revert l1 s b. induction l2 as [|e l2 IH]; intros l1 s b Hl Hnd Hex.
  { exists s. rewrite andb_true_r. split; [done|]. do 2 (split; [done|]). intros x. by case_decide; set_solver. }
  cbn [length]. rewrite seqZ_cons'. cbn [forM]. unfold tick_entry at 2. cbn [fst snd].
  assert (aget (pstWDT s) (Z.of_nat (length l1)) = Ok e) as Hget by (rewrite Hl; apply aget_app).
  rewrite Hget, bind_ok.
  replace (Z.of_nat (length l1) + 1) with (Z.of_nat (length (l1 ++ [e]))) by (rewrite length_app; simpl; lia).
  destruct e as [a|].
  2: { destruct (IH (l1 ++ [None]) s b) as (s' & E & H1 & H2 & H3);
         [by rewrite <- app_assoc|exact Hnd|set_solver|].
       exists s'. split; [exact E|]. do 2 (split; [done|]). intros x. rewrite H3.
       repeat case_decide; set_solver. }
  destruct (Hex a) as [t Ht]; [set_solver|].
  cbn in Hnd. apply NoDup_cons in Hnd as [Ha Hnd].
  rewrite (deref_some _ _ _ Ht), bind_ok. unfold upd_obj. rewrite (assign_some _ _ _ _ Ht), !bind_ok.
  set (s1 := set_objs _ s).
  assert (Some a ∉ l2) as Hal. { intros Hin. apply Ha, list_elem_of_omap. eauto. }
  destruct (IH (l1 ++ [Some a]) s1 (if (tick_obj t).2 then false else b)) as (s' & E & H1 & H2 & H3).
  { by rewrite <- app_assoc. }
  { done. }
  { intros x Hx. cbn. destruct (decide (x = a)) as [->|]; [done|].
    rewrite lookup_insert_ne by done. apply Hex. set_solver. }
  exists s'. rewrite E. split; [|split; [done|split; [done|]]].
  - do 2 f_equal. cbn. assert (veto (objs s) a = (tick_obj t).2) as -> by (unfold veto; by rewrite Ht).
    rewrite (existsb_ext_in (veto (<[a:=(tick_obj t).1]> (objs s))) (veto (objs s))).
    + by destruct (tick_obj t).2, b.
    + intros x Hx. unfold veto. rewrite lookup_insert_ne; [done|]. intros ->. done.
  - intros x. rewrite H3. cbn. destruct (decide (x = a)) as [->|Hne].
    + rewrite decide_False, decide_True, lookup_insert_eq, Ht by set_solver. done.
    + rewrite lookup_insert_ne by done. repeat case_decide; set_solver.
Qed.

Lemma Watchdog_Tick_spec s :
  wf s →
  ∃ s', Watchdog_Tick s = Ok s' ∧ pstWDT s' = pstWDT s ∧
    kicks s' = kicks s + (if existsb (veto (objs s)) (omap id (pstWDT s)) then 0 else 1) ∧
    ∀ x, objs s' !! x = if decide (Some x ∈ pstWDT s) then fst ∘ tick_obj <$> objs s !! x else objs s !! x.
Proof.
  intros (Hl & Hnd & Hex).
  destruct (wd_tick_suffix [] (pstWDT s) s true eq_refl Hnd Hex) as (s' & E & H1 & H2 & H3).
  unfold Watchdog_Tick, zseq. rewrite <- Hl. change 0 with (Z.of_nat (length (@nil ptr))) at 1.
  rewrite E, bind_ok. cbn [andb]. eexists. split; [done|].
  destruct (existsb _ _); cbn; rewrite ?H2; repeat split; by (rewrite ?Z.add_0_r).
Qed.

(** The watchdog is kicked by a tick exactly when no active object of the
    table has used up its time; every active object that has not gets the
    kick period added, the others are left alone. *)
Theorem Watchdog_Tick_kicks s :
  wf s →
  ∃ s', Watchdog_Tick s = Ok s' ∧ pstWDT s' = pstWDT s ∧
    (kicks s' = kicks s + 1 ∨ kicks s' = kicks s) ∧
    (kicks s' = kicks s + 1 ↔ ∀ x, Some x ∈ pstWDT s → ¬ expired s x) ∧
    (∀ x t, Some x ∈ pstWDT s → objs s !! x = Some t → eState t = WDT_TASK_ACTIVE →
       usCurrentTime t < usTimeout t →
       objs s' !! x = Some (set_usCurrentTime (u16 (usCurrentTime t + TIME_PER_KICK_MS)) t)) ∧
    (∀ x t, objs s !! x = Some t → (Some x ∉ pstWDT s ∨ eState t ≠ WDT_TASK_ACTIVE ∨ expired s x) →
       objs s' !! x = Some t).
Proof.
  intros Hwf. destruct (Watchdog_Tick_spec s Hwf) as (s' & E & H1 & H2 & H3).
  exists s'. split; [done|]. split; [done|].
  assert (existsb (veto (objs s)) (omap id (pstWDT s)) = false ↔
          ∀ x, Some x ∈ pstWDT s → ¬ expired s x) as Hv.
  { rewrite <- not_true_iff_false, existsb_exists. setoid_rewrite <- veto_expired.
    setoid_rewrite <- list_elem_of_In. setoid_rewrite list_elem_of_omap. naive_solver. }
  split; [|split; [|split]].
  - destruct (existsb _ _); lia.
  - rewrite <- Hv. destruct (existsb _ _); intuition (congruence || lia).
  - intros x t Hx Ht Ha Hlt. rewrite H3, decide_True, Ht by done. cbn. unfold tick_obj.
    rewrite bool_decide_eq_true_2 by done. apply Z.ltb_lt in Hlt. by rewrite Hlt.
  - intros x t Ht Hor. rewrite H3. case_decide; [|done]. rewrite Ht. cbn. unfold tick_obj.
    destruct (bool_decide (eState t = WDT_TASK_ACTIVE)) eqn:Ea; zb; [|done].
    destruct (Z.ltb_spec (usCurrentTime t) (usTimeout t)); [|done]. exfalso.
    destruct Hor as [?|[?|(t' & ? & _ & ?)]]; [done|done|]. simplify_eq. lia.
Qed.

(** ** Deadlines *)

Fixpoint ticks (n : nat) (s : WDT) : res WDT :=
  match n with O => Ok s | S n => s ← ticks n s; Watchdog_Tick s end.

Lemma wf_tick s s' : wf s → Watchdog_Tick s = Ok s' → wf s'.
Proof.
  intros Hwf E. destruct (Watchdog_Tick_spec s Hwf) as (s1 & E1 & H1 & _ & H3).
  rewrite E1 in E. simplify_eq. destruct Hwf as (Hl & Hnd & Hex). split; [by rewrite H1|].
  rewrite H1. split; [done|]. intros x Hx. rewrite H3. destruct (Hex x Hx) as [t Ht].
  case_decide; rewrite Ht; cbn; eauto.
Qed.

(** [x] alone is active in the table. *)
Definition only_active (s : WDT) (x : nat) : Prop :=
  Some x ∈ pstWDT s ∧
  ∀ y t, Some y ∈ pstWDT s → objs s !! y = Some t → y ≠ x → eState t ≠ WDT_TASK_ACTIVE.

Lemma only_active_tick s s' x :
  wf s → Watchdog_Tick s = Ok s' → only_active s x → only_active s' x.
Proof.
  intros Hwf E [Hx Ho]. destruct (Watchdog_Tick_spec s Hwf) as (s1 & E1 & H1 & _ & H3).
  rewrite E1 in E. simplify_eq. split; [by rewrite H1|]. intros y t Hy Ht Hne. rewrite H1 in Hy.
  rewrite H3, decide_True in Ht by done. destruct (objs s !! y) as [t0|] eqn:E0; cbn in Ht; [|done].
  specialize (Ho y t0 Hy E0 Hne). simplify_eq. unfold tick_obj. by rewrite bool_decide_eq_false_2.
Qed.

(** The tick of a lone active object: it alone decides on the kick. *)
Lemma lone_tick s x t :
  wf s → only_active s x → objs s !! x = Some t → eState t = WDT_TASK_ACTIVE →
  ∃ s', Watchdog_Tick s = Ok s' ∧ wf s' ∧ only_active s' x ∧
    kicks s' = kicks s + (if decide (usCurrentTime t < usTimeout t) then 1 else 0) ∧
    objs s' !! x = Some (if decide (usCurrentTime t < usTimeout t)
                         then set_usCurrentTime (u16 (usCurrentTime t + TIME_PER_KICK_MS)) t else t).
Proof.
  intros Hwf Ho Ht Ha. destruct (Watchdog_Tick_spec s Hwf) as (s' & E & _ & H2 & H3).
  exists s'. split; [done|]. split; [by eapply wf_tick|]. split; [by eapply only_active_tick|].
  destruct Ho as [Hx Ho]. split.
  - rewrite H2. f_equal.
    assert (existsb (veto (objs s)) (omap id (pstWDT s)) = bool_decide (usTimeout t <= usCurrentTime t)) as ->.
    { symmetry. destruct (bool_decide _) eqn:Eb; zb; symmetry.
      - apply existsb_exists. exists x. rewrite <- list_elem_of_In, list_elem_of_omap.
        split; [eauto|]. apply veto_expired. exists t. done.
      - apply not_true_iff_false. rewrite existsb_exists. intros (y & Hy & Hv).
        apply list_elem_of_In, list_elem_of_omap in Hy as (z & Hy & Hz). cbn in Hz. subst z.
        apply veto_expired in Hv as (ty & Hty & Hact & Hle).
        destruct (decide (y = x)) as [->|Hne]; [simplify_eq; lia|]. by eapply Ho. }
    destruct (bool_decide _) eqn:Eb; zb; case_decide; lia.
  - rewrite H3, decide_True, Ht by done. cbn. unfold tick_obj.
    rewrite bool_decide_eq_true_2 by done.
    destruct (Z.ltb_spec (usCurrentTime t) (usTimeout t)); case_decide; done || lia.
Qed.

Lemma deadline_run s x t n :
  wf s → only_active s x → objs s !! x = Some t → eState t = WDT_TASK_ACTIVE →
  usCurrentTime t = 0 → 0 <= usTimeout t <= 65400 →
  ∃ s' t', ticks n s = Ok s' ∧ wf s' ∧ only_active s' x ∧ objs s' !! x = Some t' ∧
    eState t' = WDT_TASK_ACTIVE ∧ usTimeout t' = usTimeout t ∧
    usCurrentTime t' = TIME_PER_KICK_MS * Z.min (Z.of_nat n) ((usTimeout t + 199) / 200) ∧
    kicks s' = kicks s + Z.min (Z.of_nat n) ((usTimeout t + 199) / 200).
Proof.
  intros Hwf Ho Ht Ha H0 HT. induction n as [|n (s1 & t1 & E & Hwf1 & Ho1 & Ht1 & Ha1 & HT1 & Hc1 & Hk1)].
  - exists s, t. cbn -[Z.div]. assert (0 <= (usTimeout t + 199) / 200) by (apply Z.div_pos; lia).
    rewrite Z.min_l by lia. repeat (split; [done || lia|]). lia.
  - destruct (lone_tick s1 x t1 Hwf1 Ho1 Ht1 Ha1) as (s2 & E2 & Hwf2 & Ho2 & Hk2 & Ht2).
    exists s2. eexists. cbn [ticks]. rewrite E, bind_ok. split; [exact E2|]. split; [done|].
    split; [done|]. split; [exact Ht2|]. unfold TIME_PER_KICK_MS in *.
    rewrite Hc1, HT1 in *. rewrite Hk2, Hk1.
    assert (∀ m, 0 <= m → (200 * m < usTimeout t ↔ m < (usTimeout t + 199) / 200)) as Hdl by (intros; dlia).
    assert (0 <= (usTimeout t + 199) / 200 <= 327) by dlia.
    set (q := (usTimeout t + 199) / 200) in *. specialize (Hdl (Z.min (Z.of_nat n) q) ltac:(lia)).
    case_decide; cbn -[u16 Z.mul Z.of_nat]; rewrite ?Hc1, ?HT1.
    + rewrite u16_small by lia. repeat split; try done; lia.
    + repeat split; try done; lia.
Qed.

(** The tick keeps deadlines: in a table where one object is active, with a
    timeout of at most 65400 ms, the watchdog is kicked by the first
    timeout/200 ticks (rounded up) after its start and by none after that.
    [Watchdog_AddTask] never builds such a table, see below. *)
Theorem Watchdog_deadline s x t n :
  wf s → only_active s x → objs s !! x = Some t → eState t = WDT_TASK_ACTIVE →
  usCurrentTime t = 0 → 0 <= usTimeout t <= 65400 →
  ∃ s', ticks n s = Ok s' ∧
    kicks s' = kicks s + Z.min (Z.of_nat n) ((usTimeout t + 199) / 200).
Proof.
  intros Hwf Ho Ht Ha H0 HT.
  destruct (deadline_run s x t n Hwf Ho Ht Ha H0 HT) as (s' & t' & E & _ & _ & _ & _ & _ & _ & Hk).
  eauto.
Qed.

Lemma Watchdog_deadline_witness :
  let s := mkWDT (Some 1%nat :: replicate (Z.to_nat NUM_WDT_ENTRIES - 1) NULL)
             {[ 1%nat := mkWdt 450 0 WDT_TASK_ACTIVE ]} 0 in
  ∃ s', ticks 5 s = Ok s' ∧ kicks s' = 3.
Proof.
  intros s. apply (Watchdog_deadline s 1%nat (mkWdt 450 0 WDT_TASK_ACTIVE) 5).
  - split; [done|]. split; [apply (bool_decide_unpack _); vm_compute; exact I|].
    intros x Hx. unfold s in Hx. cbn [pstWDT] in Hx. apply elem_of_cons in Hx as [Hx|Hx].
    + injection Hx as ->. by eexists.
    + apply elem_of_replicate in Hx as [Hx _]. discriminate Hx.
  - split; [apply elem_of_cons; by left|]. intros y t Hy _ Hne. exfalso.
    apply elem_of_cons in Hy as [Hy|Hy]; [congruence|].
    apply elem_of_replicate in Hy as [Hy _]. discriminate Hy.
  - done.
  - done.
  - done.
  - done.
Defined.

(** ** Registration *)

(** What the application can do with the watchdog. *)
Inductive wd_step : WDT → WDT → Prop :=
  | wd_add s p time s' b : Watchdog_AddTask p time s = Ok (s', b) → wd_step s s'
  | wd_remove s p s' : Watchdog_RemoveTask p s = Ok s' → wd_step s s'
  | wd_start s p s' : Watchdog_StartTask p s = Ok s' → wd_step s s'
  | wd_idle s p s' : Watchdog_IdleTask p s = Ok s' → wd_step s s'
  | wd_tick s s' : Watchdog_Tick s = Ok s' → wd_step s s'.

Definition empty_table : list ptr := replicate 20 NULL.

Lemma upd_obj_table p f s s' : upd_obj p f s = Ok s' → pstWDT s' = pstWDT s.
Proof. unfold upd_obj. intros H. by inv_ok. Qed.

Lemma wf_empty s : pstWDT s = empty_table → wf s.
Proof.
  intros E. unfold wf. rewrite E. split; [done|]. split; [constructor|].
  intros x Hx. unfold empty_table in Hx. apply elem_of_replicate in Hx as [? _]. done.
Qed.

Lemma remove_empty_body p idx s s' :
  pstWDT s = empty_table →
  forM idx (fun i s => e ← aget (pstWDT s) i;
       if decide (e = p) then s ← upd_obj e (set_eState WDT_TASK_IDLE) s; set_entry i NULL s else Ok s) s
  = Ok s' → s' = s.
Proof.
  intros Es. revert s'. induction idx as [|i idx IH]; intros s' H; cbn [forM] in H; [by inv_ok|].
  apply bind_ok_iff in H as (s1 & H1 & H2). apply bind_ok_iff in H1 as (e & He & H1).
  rewrite Es in He. assert (e = NULL) as ->.
  { apply aget_ok_inv in He as [_ He].
    by eapply elem_of_replicate_inv, list_elem_of_lookup_2. }
  case_decide; inv_ok; [done|]. by apply IH.
Qed.

Lemma AddTask_empty s p time :
  pstWDT s = empty_table → Watchdog_AddTask p time s = Ok (s, true).
Proof. destruct s as [tab m n]. cbn [pstWDT]. intros ->. reflexivity. Qed.

Lemma wd_step_empty s s' : wd_step s s' → pstWDT s = empty_table → pstWDT s' = empty_table.
Proof.
  intros Hst Es. destruct Hst as [s p time s' b H|s p s' H|s p s' H|s p s' H|s s' H].
  - rewrite AddTask_empty in H by done. by simplify_eq.
  - unfold Watchdog_RemoveTask in H. apply remove_empty_body in H; [by subst|done].
  - by rewrite (upd_obj_table _ _ _ _ H).
  - by rewrite (upd_obj_table _ _ _ _ H).
  - destruct (Watchdog_Tick_spec s (wf_empty s Es)) as (s1 & E1 & H1 & _). rewrite E1 in H.
    simplify_eq. by rewrite H1.
Qed.

(** Registration has no effect: the test for a free entry is inverted, so
    after [Watchdog_Init] the table stays empty whatever the application
    does, [Watchdog_AddTask] returns TRUE without adding, and every tick
    kicks the watchdog, whether or not a deadline was missed. *)
Theorem Watchdog_never_registers s0 s1 s p time :
  Z.of_nat (length (pstWDT s0)) = NUM_WDT_ENTRIES →
  Watchdog_Init s0 = Ok s1 → rtc wd_step s1 s →
  Watchdog_AddTask p time s = Ok (s, true) ∧
  ∃ s', Watchdog_Tick s = Ok s' ∧ kicks s' = kicks s + 1.
Proof.
  intros Hl Hi Hr. assert (pstWDT s = empty_table) as Es.
  { assert (pstWDT s1 = empty_table) as E1.
    { destruct s0 as [tab m n]. cbn in Hl.
      assert (length tab = 20%nat) as Hn by (unfold NUM_WDT_ENTRIES in Hl; lia).
      do 20 (destruct tab as [|? tab]; [discriminate Hn|]). destruct tab; [|discriminate Hn].
      vm_compute in Hi. by simplify_eq. }
    clear Hi. induction Hr; eauto using wd_step_empty. }
  split.
  - by apply AddTask_empty.
  - destruct (Watchdog_Tick_spec s (wf_empty s Es)) as (s' & E & _ & Hk & _). exists s'.
    split; [done|]. rewrite Hk, Es. done.
Qed.

End Watchdog.
