(* ===== verification/FunkPort.v ===== *)
(** * FunkOS: the AVR port (kernel/atmega328p/taskport.c, taskport.h)

    The processor context (registers, status register, stack pointer), the
    macros that save and restore it on the stack of the current task, the
    initial frame of a new task, the tick interrupt and the start of the
    scheduler. *)
From S2P Require Import Prelude FunkKernel FunkRegs FunkTask FunkRing FunkExample FunkSched FunkTimer.

Module Port.

Record CPU : Type := mkCPU {
  gpr : list Z;
  SREG : Z;
  SP : Z;
  PC : Z
}.

Definition set_gpr (v : list Z) (r : CPU) : CPU :=
  mkCPU v (SREG r) (SP r) (PC r).
Definition set_SREG (v : Z) (r : CPU) : CPU :=
  mkCPU (gpr r) v (SP r) (PC r).
Definition set_SP (v : Z) (r : CPU) : CPU :=
  mkCPU (gpr r) (SREG r) v (PC r).
Definition set_PC (v : Z) (r : CPU) : CPU :=
  mkCPU (gpr r) (SREG r) (SP r) v.

(** The example kernel with 100 bytes of data memory. *)
Definition example_ram : KERNEL :=
  set_ram (list_to_map ((λ a, (a, 0)) <$> seqZ 0 100))
    (example_kernel (example_task 3 TASK_READY 9 (Some 3%nat) NULL)
      (example_task 5 TASK_READY 9 (Some 1%nat) NULL)).

Lemma example_ram_mapped a : 0 <= a < 100 → is_Some (ram example_ram !! a).
Proof.
  intros Ha. exists 0. cbn [ram example_ram set_ram]. apply elem_of_list_to_map.
  - rewrite <- list_fmap_compose. cbn. rewrite list_fmap_id. apply NoDup_seqZ.
  - apply list_elem_of_fmap. exists a. split; [done|]. apply elem_of_seqZ. lia.
Qed.

(** ** Context save and restore *)

Definition set_reg (i v : Z) (c : CPU) : res CPU :=
  g ← aset (gpr c) i v; Ok (set_gpr g c).

(** [push r] and [pop r]. *)
Definition push (i : Z) (s : CPU * gmap Z Z) : res (CPU * gmap Z Z) :=
  v ← aget (gpr (s.1)) i;
  '(sp, m) ← PUSH_TO_STACK v (SP (s.1), s.2);
  Ok (set_SP sp (s.1), m).

Definition pop_byte (m : gmap Z Z) (c : CPU) : res (CPU * Z) :=
  v ← peek (SP c + 1) m; Ok (set_SP (SP c + 1) c, v).

Definition pop (m : gmap Z Z) (i : Z) (c : CPU) : res CPU :=
  '(c, v) ← pop_byte m c; set_reg i v c.

(** [cli] clears bit 7 of the status register, [sei] sets it. *)
Definition cli (c : CPU) : CPU := set_SREG (Z.land (SREG c) 0x7F) c.
Definition sei (c : CPU) : CPU := set_SREG (Z.lor (SREG c) 0x80) c.

Definition Task_SaveContext (c : CPU) (k : KERNEL) : res (CPU * KERNEL) :=
  '(c, m) ← push 0 (c, ram k);
  c ← set_reg 0 (SREG c) c;
  let c := cli c in
  '(c, m) ← push 0 (c, m);
  '(c, m) ← push 1 (c, m);
  c ← set_reg 1 0 c;
  '(c, m) ← forM (zseq 2 30) push (c, m);
  let k := set_ram m k in
  k ← upd_task (pstCurrentTask k) (set_pwTopStack (SP c)) k;
  let x := u16 (Z.of_nat (default 0%nat (pstCurrentTask k)) + 2) in
  c ← set_reg 26 (u8 x) c;
  c ← set_reg 27 (x / 256) c;
  c ← set_reg 0 (u8 (SP c / 256)) c;
  Ok (c, k).

Definition Task_RestoreContext (c : CPU) (k : KERNEL) : res CPU :=
  t ← deref (tcb k) (pstCurrentTask k);
  let c := set_SP (pwTopStack t) c in
  c ← forM (reverse (zseq 1 31)) (pop (ram k)) c;
  '(c, v) ← pop_byte (ram k) c;
  let c := set_SREG v c in
  pop (ram k) 0 c.

(** [reti]: the return address, high byte first; interrupts are enabled. *)
Definition reti (k : KERNEL) (c : CPU) : res CPU :=
  '(c, hi) ← pop_byte (ram k) c;
  '(c, lo) ← pop_byte (ram k) c;
  Ok (set_SREG (Z.lor (SREG c) 0x80) (set_PC (hi * 256 + lo) c)).

(** [Task_Yield], the body of the software interrupt. *)
Definition Task_Yield (c : CPU) (k : KERNEL) : res (CPU * KERNEL) :=
  '(c, k) ← Task_SaveContext c k;
  k ← Task_Switch k;
  c ← Task_RestoreContext c k;
  Ok (c, k).

Definition ISR_INT0 (c : CPU) (k : KERNEL) : res (CPU * KERNEL) :=
  '(c, k) ← Task_Yield c k;
  c ← reti k c;
  Ok (c, k).

(** What the processor does on a store to a flag register and the frequencies
    of the build are arguments, as in FunkRegs. *)
Definition Task_StartTasks (write_flags : Z → Z → Z) (SYSTEM_FREQ TICK_FREQ : Z)
    (c : CPU) (k : KERNEL) (r : Regs.IO) : res (CPU * KERNEL * Regs.IO) :=
  let k := set_sCriticalCount 0 k in
  let '(k, r) := Regs.KernelSWI_Config k r in
  r ← Regs.KernelTimer_Config SYSTEM_FREQ TICK_FREQ r;
  let r := Regs.KernelTimer_Start write_flags r in
  let '(k, r) := Regs.KernelSWI_Start write_flags k r in
  let k := Task_SetScheduler true k in
  k ← Task_Switch k;
  c ← Task_RestoreContext c k;
  c ← reti k c;
  Ok (c, k, r).

(** ** The tick interrupt *)

(** The callbacks of the timers act on the timer table, the kernel and the
    state [A] of the application.  Ticks nest: interrupts are enabled while
    the timers and the tasks are served. *)
Definition ISR_TIMER1_COMPA {A} (write_flags : Z → Z → Z)
    (call : Z → list Timer.TIMER_STRUCT * (KERNEL * A) → list Timer.TIMER_STRUCT * (KERNEL * A))
    (c : CPU) (r : Regs.IO) (s : list Timer.TIMER_STRUCT * (KERNEL * A))
    : res (CPU * Regs.IO * (list Timer.TIMER_STRUCT * (KERNEL * A))) :=
  let '(ts, (k, a)) := s in
  let r := Regs.KernelTimer_DI write_flags r in
  let bSchedulerState := Task_IsSchedulerEnabled k in
  let k := Task_SetScheduler false k in
  let ucSR := SREG c in
  let c := sei c in
  '(ts, (k, a)) ← Timer.Timer_Tick call (ts, (k, a));
  k ← (if bSchedulerState then '(k, _) ← Task_Tick k; Ok k else Ok k);
  let c := set_SREG ucSR c in
  let r := Regs.KernelTimer_EI write_flags r in
  let k := Task_SetScheduler bSchedulerState k in
  Ok (c, r, (ts, (if bSchedulerState then Task_YieldSWI k else k, a))).

(** ** Pushing and popping *)

(** The memory after pushing [l] from [sp] downwards. *)
Lemma push_all (l : list Z) (sp : Z) (m : gmap Z Z) :
  (∀ i, (i < length l)%nat → is_Some (m !! (sp - Z.of_nat i))) →
  ∃ m', forM l PUSH_TO_STACK (sp, m) = Ok (sp - Z.of_nat (length l), m') ∧
    (∀ i v, l !! i = Some v → m' !! (sp - Z.of_nat i) = Some (u8 v)) ∧
    (∀ a, a <= sp - Z.of_nat (length l) ∨ sp < a → m' !! a = m !! a).
Proof.
  revert sp m. induction l as [|v l IH]; intros sp m Hm.
  { exists m. cbn. rewrite Z.sub_0_r. done. }
  cbn [forM]. unfold PUSH_TO_STACK at 2. cbn [fst snd].
  destruct (Hm 0%nat) as [w Hw]; [simpl; lia|]. rewrite Z.sub_0_r in Hw.
  unfold poke. rewrite Hw, !bind_ok.
  destruct (IH (sp - 1) (<[sp := u8 v]> m)) as (m' & E & Hin & Hout).
  { intros i Hi. destruct (Hm (S i)) as [w' Hw']; [simpl; lia|].
    rewrite lookup_insert_ne by lia. replace (sp - 1 - Z.of_nat i) with (sp - Z.of_nat (S i)) by lia. eauto. }
  exists m'. split; [rewrite E; cbn [length]; do 2 f_equal; lia|]. split.
  - intros [|i] w' Hw'; cbn in Hw'.
    + simplify_eq. rewrite Z.sub_0_r, Hout by lia. apply lookup_insert_eq.
    + rewrite <- (Hin i w' Hw'). f_equal. lia.
  - intros a Ha. cbn [length] in Ha. rewrite Hout by lia. apply lookup_insert_ne. lia.
Qed.

Lemma pop_all m (rs vals : list Z) c :
  length vals = length rs → (∀ i, i ∈ rs → 0 <= i < Z.of_nat (length (gpr c))) →
  (∀ j v, vals !! j = Some v → m !! (SP c + 1 + Z.of_nat j) = Some v) →
  forM rs (pop m) c
  = Ok (mkCPU (foldl (fun g iv => <[Z.to_nat (iv.1) := iv.2]> g) (gpr c) (zip rs vals))
          (SREG c) (SP c + Z.of_nat (length rs)) (PC c)).
Proof.
  revert vals c. induction rs as [|i rs IH]; intros [|v vals] c Hl Hr Hv; try discriminate Hl.
  { cbn. rewrite Z.add_0_r. by destruct c. }
  cbn [forM]. unfold pop at 2, pop_byte, peek.
  assert (m !! (SP c + 1) = Some v) as Hm.
  { rewrite <- (Hv 0%nat v eq_refl). f_equal. lia. }
  rewrite Hm, !bind_ok. unfold set_reg. destruct c as [g sr sp pc]. cbn in *.
  destruct (Hr i) as [Hi1 Hi2]; [set_solver|].
  assert (aset g i v = Ok (<[Z.to_nat i := v]> g)) as ->.
  { unfold aset. by rewrite decide_True by lia. }
  cbn. rewrite (IH vals); cbn.
  - do 2 f_equal. lia.
  - by injection Hl.
  - intros j Hj. rewrite length_insert. apply Hr. set_solver.
  - intros j w Hw. rewrite <- (Hv (S j) w Hw). f_equal. lia.
Qed.

(** The bytes [Task_SaveContext] pushes. *)
Definition context_bytes (c : CPU) : list Z :=
  match gpr c with
  | r0 :: rest => r0 :: SREG c :: rest
  | [] => []
  end.

Definition regs_ok (c : CPU) : Prop :=
  length (gpr c) = 32%nat ∧ Forall (fun v => 0 <= v < 256) (gpr c) ∧ 0 <= SREG c < 256.

(** [k] holds, above the saved stack pointer [sp], the bytes [l] in push order. *)
Definition frame_at (m : gmap Z Z) (sp : Z) (l : list Z) : Prop :=
  ∀ i v, l !! i = Some v → m !! (sp + Z.of_nat (length l) - Z.of_nat i) = Some v.

Lemma frame_rev m sp l j v :
  frame_at m sp l → reverse l !! j = Some v → m !! (sp + 1 + Z.of_nat j) = Some v.
Proof.
  intros Hf [Hj Hlt]%reverse_lookup_Some. rewrite <- (Hf _ _ Hj). f_equal. lia.
Qed.

(** Popping every register but the first, the status register and the first
    register undoes the pushes. *)
Lemma RestoreContext_frame c k p t r0 sr rest :
  length (gpr c) = 32%nat → length rest = 31%nat →
  pstCurrentTask k = Some p → tcb k !! p = Some t →
  frame_at (ram k) (pwTopStack t) (r0 :: sr :: rest) →
  Task_RestoreContext c k = Ok (mkCPU (r0 :: rest) sr (pwTopStack t + 33) (PC c)).
Proof.
  intros Hg Hrest Hc Ht Hf. unfold Task_RestoreContext. rewrite Hc, (deref_some _ _ _ Ht), bind_ok.
  assert (∀ j v, reverse rest !! j = Some v → ram k !! (pwTopStack t + 1 + Z.of_nat j) = Some v) as Hrev.
  { intros j v Hj. apply (frame_rev _ _ _ _ _ Hf). rewrite !reverse_cons, <- app_assoc.
    rewrite lookup_app_l; [done|]. by eapply lookup_lt_Some. }
  rewrite (pop_all (ram k) _ (reverse rest)).
  2: { by rewrite length_reverse, Hrest. }
  2: { intros i Hi. cbn. rewrite Hg. rewrite elem_of_reverse in Hi. unfold zseq in Hi.
       apply elem_of_seqZ in Hi. lia. }
  2: { intros j v Hj. cbn. by apply Hrev. }
  assert (ram k !! (pwTopStack t + 32) = Some sr) as Hsr.
  { pose proof (Hf 1%nat sr eq_refl) as H. cbn [length] in H. rewrite Hrest in H. rewrite <- H. f_equal. lia. }
  assert (ram k !! (pwTopStack t + 33) = Some r0) as Hr0.
  { pose proof (Hf 0%nat r0 eq_refl) as H. cbn [length] in H. rewrite Hrest in H. rewrite <- H. f_equal. lia. }
  destruct c as [g sr' sp' pc']. cbn [gpr] in Hg.
  do 32 (destruct g as [|? g]; [discriminate Hg|]). destruct g; [|discriminate Hg].
  do 31 (destruct rest as [|? rest]; [discriminate Hrest|]). destruct rest; [|discriminate Hrest].
  rewrite bind_ok. unfold pop, pop_byte, peek. cbn [SP set_SP set_SREG].
  change (Z.of_nat (length (reverse (zseq 1 31)))) with 31.
  replace (pwTopStack t + 31 + 1) with (pwTopStack t + 32) by lia.
  rewrite Hsr, !bind_ok. cbn [SP set_SP set_SREG].
  replace (pwTopStack t + 32 + 1) with (pwTopStack t + 33) by lia.
  rewrite Hr0, !bind_ok. reflexivity.
Qed.

Lemma push_ok i v c m sp' m' :
  aget (gpr c) i = Ok v → PUSH_TO_STACK v (SP c, m) = Ok (sp', m') →
  push i (c, m) = Ok (set_SP sp' c, m').
Proof. intros Hi H. unfold push. cbn [fst snd]. by rewrite Hi, bind_ok, H. Qed.

Lemma push_regs rs vals c m sp' m' :
  Forall2 (fun i v => aget (gpr c) i = Ok v) rs vals →
  forM vals PUSH_TO_STACK (SP c, m) = Ok (sp', m') →
  forM rs push (c, m) = Ok (set_SP sp' c, m').
Proof.
  intros HF. revert m. remember (gpr c) as g eqn:Eg. revert c Eg.
  induction HF as [|i v rs vals Hi HF IH]; intros c Eg m H; cbn [forM] in *.
  - simplify_eq. by destruct c.
  - apply bind_ok_iff in H as ([sp1 m1] & H1 & H2). unfold push at 2. cbn [fst snd].
    rewrite <- Eg, Hi, bind_ok, H1, !bind_ok.
    rewrite (IH (set_SP sp1 c)); [by destruct c|done|done].
Qed.

Lemma SaveContext_frame c k p t :
  length (gpr c) = 32%nat → pstCurrentTask k = Some p → tcb k !! p = Some t →
  (∀ i, (i < 33)%nat → is_Some (ram k !! (SP c - Z.of_nat i))) →
  ∃ c' k', Task_SaveContext c k = Ok (c', k') ∧ length (gpr c') = 32%nat ∧
    tcb k' = <[p := set_pwTopStack (SP c - 33) t]> (tcb k) ∧ pstCurrentTask k' = Some p ∧
    (∀ i v, context_bytes c !! i = Some v → ram k' !! (SP c - Z.of_nat i) = Some (u8 v)) ∧
    (∀ a, a <= SP c - 33 ∨ SP c < a → ram k' !! a = ram k !! a).
Proof.
  intros Hg Hc Ht Hm. destruct c as [g sr sp pc]. cbn [gpr SREG SP] in *.
  do 32 (destruct g as [|? g]; [discriminate Hg|]). destruct g; [|discriminate Hg].
  set (c := mkCPU _ sr sp pc) in *. set (l := context_bytes c).
  destruct (push_all l sp (ram k)) as (m' & E & Hin & Hout).
  { intros i Hi. apply Hm. exact Hi. }
  subst l. cbn [context_bytes gpr SREG c] in E.
  cbn [forM] in E. apply bind_ok_iff in E as ([sp1 m1] & E1 & E).
  apply bind_ok_iff in E as ([sp2 m2] & E2 & E).
  apply bind_ok_iff in E as ([sp3 m3] & E3 & E).
  unfold Task_SaveContext.
  rewrite (push_ok 0 z c (ram k) sp1 m1 eq_refl E1), !bind_ok.
  change (set_reg 0 (SREG (set_SP sp1 c)) (set_SP sp1 c)) with (Ok (set_gpr (sr :: tail (gpr c)) (set_SP sp1 c))).
  rewrite bind_ok. set (c1 := cli _).
  rewrite (push_ok 0 sr c1 m1 sp2 m2 eq_refl E2), !bind_ok.
  rewrite (push_ok 1 z0 (set_SP sp2 c1) m2 sp3 m3 eq_refl E3), !bind_ok.
  set (c2 := set_SP sp3 (set_SP sp2 c1)).
  change (set_reg 1 0 c2) with (Ok (set_gpr (sr :: 0 :: tail (tail (gpr c))) c2)).
  rewrite bind_ok. set (c3 := set_gpr _ c2).
  rewrite (push_regs (zseq 2 30) (tail (tail (gpr c))) c3 m3 (sp - 33) m').
  2: { repeat (constructor; [reflexivity|]). constructor. }
  2: { exact E. }
  rewrite bind_ok. cbn [pstCurrentTask set_ram]. rewrite Hc.
  assert (∀ f, upd_task (Some p) f (set_ram m' k) = Ok (set_tcb (<[p := f t]> (tcb k)) (set_ram m' k))) as Hupd
    by (intros f; exact (upd_task_some p t f (set_ram m' k) Ht)).
  rewrite Hupd, bind_ok. cbn [SP set_SP set_gpr c3].
  eexists _, _. split; [reflexivity|]. cbn [tcb set_tcb pstCurrentTask set_ram ram].
  split; [reflexivity|]. split; [done|]. split; [done|]. split; [done|].
  intros a Ha. apply Hout. exact Ha.
Qed.

(** C27: a context switch preserves the context: what [Task_SaveContext] put on
    the stack of the current task, [Task_RestoreContext] puts back, whatever
    ran in between, as long as that task is current again and its stack area
    and saved stack pointer are untouched: every register, the status
    register with its interrupt flag and the stack pointer. *)
Theorem context_switch_round_trip c k p t :
  regs_ok c → pstCurrentTask k = Some p → tcb k !! p = Some t →
  (∀ i, (i < 33)%nat → is_Some (ram k !! (SP c - Z.of_nat i))) →
  ∃ c1 k1, Task_SaveContext c k = Ok (c1, k1) ∧
    ∀ c2 k2 t2, length (gpr c2) = 32%nat → pstCurrentTask k2 = Some p → tcb k2 !! p = Some t2 →
      Some (pwTopStack t2) = pwTopStack <$> tcb k1 !! p →
      (∀ a, SP c - 33 < a <= SP c → ram k2 !! a = ram k1 !! a) →
      Task_RestoreContext c2 k2 = Ok (mkCPU (gpr c) (SREG c) (SP c) (PC c2)).
Proof.
  intros (Hg & Hb & Hs) Hc Ht Hm.
  destruct (SaveContext_frame c k p t Hg Hc Ht Hm) as (c' & k' & E & _ & Htcb & _ & Hin & _).
  exists c', k'. split; [exact E|]. intros c2 k2 t2 Hg2 Hc2 Ht2 Htop Hram. rewrite Htcb, lookup_insert_eq in Htop. cbn in Htop.
  injection Htop as Htop. destruct c as [g sr sp pc]. destruct g as [|r0 rest]; [discriminate Hg|].
  cbn [gpr SREG SP context_bytes] in *.
  rewrite (RestoreContext_frame c2 k2 p t2 r0 sr rest); [|done|by injection Hg|done|done|].
  - by rewrite Htop, Z.sub_add.
  - intros i v Hi. cbn [length]. injection Hg as Hg. rewrite Hg, Htop.
    assert (i < 33)%nat as Hlt.
    { apply lookup_lt_Some in Hi. cbn [length] in Hi. lia. }
    rewrite Hram by lia. replace (sp - 33 + Z.of_nat 33 - Z.of_nat i) with (sp - Z.of_nat i) by lia.
    rewrite (Hin i v Hi). f_equal. apply u8_small.
    apply list_elem_of_lookup_2 in Hi. apply elem_of_cons in Hi as [->|Hi].
    { by apply Forall_cons in Hb as [? _]. }
    apply elem_of_cons in Hi as [->|Hi]; [done|].
    apply Forall_cons in Hb as [_ Hb]. rewrite Forall_forall in Hb. by apply Hb.
Qed.

Lemma context_switch_round_trip_witness :
  let c := mkCPU (replicate 32 7) 0x80 60 0 in
  ∃ c1 k1, Task_SaveContext c example_ram = Ok (c1, k1) ∧
    ∀ c2 t2, length (gpr c2) = 32%nat → pstCurrentTask k1 = Some 1%nat → tcb k1 !! 1%nat = Some t2 →
      Task_RestoreContext c2 k1 = Ok (mkCPU (replicate 32 7) 0x80 60 (PC c2)).
Proof.
  intros c. destruct (context_switch_round_trip c example_ram 1%nat (example_task 1 TASK_READY 4 (Some 2%nat) NULL))
    as (c1 & k1 & H1 & H2).
  - split; [done|]. split; [|done]. by apply Forall_replicate.
  - done.
  - done.
  - intros i Hi. apply example_ram_mapped. cbn. lia.
  - exists c1, k1. split; [exact H1|]. intros c2 t2 Hg Hc Ht. apply (H2 c2 k1 t2 Hg Hc Ht); [|done].
    by rewrite Ht.
Defined.

(** ** A new task *)

Lemma fill_all (b : Z) (n : nat) (m : gmap Z Z) (i0 : Z) :
  (∀ i, i0 <= i < i0 + Z.of_nat n → is_Some (m !! (b + i))) →
  ∃ m', forM (seqZ i0 (Z.of_nat n)) (fun i m => poke (b + i) 0xFF m) m = Ok m' ∧
    (∀ i, i0 <= i < i0 + Z.of_nat n → m' !! (b + i) = Some 0xFF) ∧
    (∀ a, a < b + i0 ∨ b + i0 + Z.of_nat n <= a → m' !! a = m !! a).
Proof.
  revert i0 m. induction n as [|n IH]; intros i0 m Hm.
  { exists m. split; [done|]. split; [lia|done]. }
  rewrite seqZ_cons'. cbn [forM]. destruct (Hm i0) as [w Hw]; [lia|].
  unfold poke at 2. rewrite Hw, bind_ok.
  destruct (IH (i0 + 1) (<[b + i0 := u8 0xFF]> m)) as (m' & E & Hin & Hout).
  { intros i Hi. rewrite lookup_insert_ne by lia. apply Hm. lia. }
  exists m'. split; [exact E|]. split.
  - intros i Hi. destruct (decide (i = i0)) as [->|].
    + rewrite Hout by lia. apply lookup_insert_eq.
    + apply Hin. lia.
  - intros a Ha. rewrite Hout by lia. apply lookup_insert_ne. lia.
Qed.

Lemma InitStack_frame k p t :
  tcb k !! p = Some t → pwTopStack t = pwStack t + usStackSize t - 1 → 35 <= usStackSize t →
  (∀ i, 0 <= i < usStackSize t → is_Some (ram k !! (pwStack t + i))) →
  ∃ m', Task_InitStack (Some p) k
        = Ok (set_tcb (<[p := set_pwTopStack (pwTopStack t - 35) t]> (tcb k)) (set_ram m' k)) ∧
    (∀ i v, initial_frame (u16 (pfTaskFunc t)) (u16 (Z.of_nat p)) !! i = Some v →
       m' !! (pwTopStack t - Z.of_nat i) = Some (u8 v)) ∧
    (∀ i, 0 <= i < usStackSize t - 35 → m' !! (pwStack t + i) = Some 0xFF) ∧
    (∀ a, a < pwStack t ∨ pwStack t + usStackSize t <= a → m' !! a = ram k !! a).
Proof.
  intros Ht Htop Hsz Hm. unfold Task_InitStack. rewrite (deref_some _ _ _ Ht), bind_ok.
  destruct (fill_all (pwStack t) (Z.to_nat (usStackSize t)) (ram k) 0) as (m1 & E1 & Hin1 & Hout1);
    rewrite Z2Nat.id in * by lia; [intros; apply Hm; lia|].
  unfold zseq at 1. rewrite E1, bind_ok. cbn [default].
  set (fr := initial_frame _ _). assert (length fr = 35%nat) as Hfr by done.
  destruct (push_all fr (pwTopStack t) m1) as (m2 & E2 & Hin2 & Hout2).
  { intros i Hi. rewrite Hfr in Hi. rewrite Htop.
    replace (pwStack t + usStackSize t - 1 - Z.of_nat i) with
      (pwStack t + (usStackSize t - 1 - Z.of_nat i)) by lia. rewrite Hin1 by lia. eauto. }
  rewrite E2, bind_ok. cbn [fst snd]. exists m2.
  assert (∀ f, upd_task (Some p) f (set_ram m2 k) = Ok (set_tcb (<[p := f t]> (tcb k)) (set_ram m2 k))) as Hupd
    by (intros f; exact (upd_task_some p t f (set_ram m2 k) Ht)).
  rewrite Hupd, Hfr. split; [done|]. rewrite Hfr in Hout2. split; [done|]. split.
  - intros i Hi. rewrite Hout2 by lia. apply Hin1. lia.
  - intros a Ha. rewrite Hout2 by lia. apply Hout1. lia.
Qed.

Lemma frame_context f a :
  u8 <$> drop 2 (initial_frame f a)
  = u8 0 :: u8 0x80 :: drop 2 (u8 <$> drop 2 (initial_frame f a)).
Proof. reflexivity. Qed.

Lemma frame_length f a : length (initial_frame f a) = 35%nat.
Proof. reflexivity. Qed.

Lemma frame_return f a :
  initial_frame f a !! 0%nat = Some (Z.land f 0x00FF) ∧
  initial_frame f a !! 1%nat = Some (Z.land (Z.shiftr f 8) 0x00FF).
Proof. split; reflexivity. Qed.

Lemma frame_handle f a :
  (u8 0 :: drop 2 (u8 <$> drop 2 (initial_frame f a))) !! 24%nat = Some (u8 (Z.land (u8 a) 0x00FF)) ∧
  (u8 0 :: drop 2 (u8 <$> drop 2 (initial_frame f a))) !! 25%nat
  = Some (u8 (Z.land (u8 (Z.shiftr a 8)) 0x00FF)).
Proof. split; reflexivity. Qed.

Lemma return_address f :
  0 <= f < 65536 → u8 (Z.land (Z.shiftr f 8) 0x00FF) * 256 + u8 (Z.land f 0x00FF) = f.
Proof.
  intros Hf. change 0x00FF with (Z.ones 8). rewrite !Z.land_ones, Z.shiftr_div_pow2 by lia.
  unfold u8. dlia.
Qed.

Lemma task_handle a :
  0 <= a < 65536 →
  u8 (Z.land (u8 (Z.shiftr a 8)) 0x00FF) * 256 + u8 (Z.land (u8 a) 0x00FF) = a.
Proof.
  intros Ha. change 0x00FF with (Z.ones 8). rewrite !Z.land_ones, Z.shiftr_div_pow2 by lia.
  unfold u8. dlia.
Qed.

Lemma CreateTask_block k p t name stack size prio func :
  tcb k !! p = Some t →
  ∃ t0, Task_CreateTask (Some p) name stack size prio func k
        = Task_InitStack (Some p) (set_tcb (<[p := t0]> (tcb k)) k) ∧
    pwTopStack t0 = TOP_OF_STACK stack size ∧ pwStack t0 = stack ∧ usStackSize t0 = size ∧
    pfTaskFunc t0 = func ∧ eState t0 = TASK_STOPPED.
Proof.
  intros Ht. unfold Task_CreateTask. rewrite (upd_task_some _ _ _ _ Ht), bind_ok.
  eexists. split; [reflexivity|]. destruct t. cbn. done.
Qed.

(** A created task starts at its entry function: with at least 35 bytes of
    stack, [Task_CreateTask] writes only that stack, and the first restore of
    the new task's context followed by [reti] continues at the entry
    function with the task's address in r25:r24, interrupts enabled and an
    empty stack. *)
Theorem Task_CreateTask_enters k p t name stack size prio func :
  tcb k !! p = Some t → 35 <= size → 0 <= stack → stack + size <= 65536 →
  0 <= func < 65536 → Z.of_nat p < 65536 →
  (∀ i, 0 <= i < size → is_Some (ram k !! (stack + i))) →
  ∃ k', Task_CreateTask (Some p) name stack size prio func k = Ok k' ∧
    (∀ a, a < stack ∨ stack + size <= a → ram k' !! a = ram k !! a) ∧
    (∀ x, x ≠ p → tcb k' !! x = tcb k !! x) ∧
    ∀ c k2 t', length (gpr c) = 32%nat → pstCurrentTask k2 = Some p → tcb k' !! p = Some t' →
      tcb k2 !! p = Some t' → (∀ a, stack <= a < stack + size → ram k2 !! a = ram k' !! a) →
      eState t' = TASK_STOPPED ∧
      ∃ c1 c2 lo hi, Task_RestoreContext c k2 = Ok c1 ∧ reti k2 c1 = Ok c2 ∧
        PC c2 = func ∧ SP c2 = stack + size - 1 ∧ SREG c2 = 0x80 ∧
        gpr c2 !! 24%nat = Some lo ∧ gpr c2 !! 25%nat = Some hi ∧ hi * 256 + lo = Z.of_nat p.
Proof.
  intros Ht Hsz Hst Hend Hf Hp Hm.
  destruct (CreateTask_block k p t name stack size prio func Ht) as (t0 & -> & H1 & H2 & H3 & H4 & H5).
  assert (TOP_OF_STACK stack size = stack + size - 1) as Htop.
  { unfold TOP_OF_STACK. rewrite u16_small; lia. }
  rewrite Htop in H1. set (k0 := set_tcb _ k).
  assert (tcb k0 !! p = Some t0) as Ht0 by apply lookup_insert_eq.
  destruct (InitStack_frame k0 p t0 Ht0) as (m' & E & Hfr & _ & Hout);
    [lia|lia|by rewrite H2, H3|].
  rewrite H1, H4 in *. rewrite H2, H3 in Hout.
  rewrite E. eexists. split; [reflexivity|]. subst k0. kcbn. split; [done|]. split.
  { intros x Hx. rewrite !lookup_insert_ne by done. done. }
  intros c k2 t' Hg Hc2 Ht' Ht2 Hram. rewrite lookup_insert_eq in Ht'. apply (inj Some) in Ht'.
  subst t'. split; [exact H5|].
  assert (∀ i v, initial_frame (u16 func) (u16 (Z.of_nat p)) !! i = Some v →
            ram k2 !! (stack + size - 1 - Z.of_nat i) = Some (u8 v)) as Hfr2.
  { intros i v Hi. assert (i < 35)%nat by (by apply lookup_lt_Some in Hi).
    rewrite Hram by lia. by apply Hfr. }
  rewrite !u16_small in Hfr2 by lia. clear Hfr Hout Hram E.
  set (top := stack + size - 1) in *. set (a := Z.of_nat p) in *.
  assert (Task_RestoreContext c k2 = Ok (mkCPU
            (u8 0 :: drop 2 (u8 <$> drop 2 (initial_frame func a))) (u8 0x80) (top - 2) (PC c))) as Hres.
  { assert (length (drop 2 (u8 <$> drop 2 (initial_frame func a))) = 31%nat) as Hlen
      by (by rewrite length_drop, length_fmap, length_drop, frame_length).
    rewrite (RestoreContext_frame c k2 p _ (u8 0) (u8 0x80) (drop 2 (u8 <$> drop 2 (initial_frame func a)))
      Hg Hlen Hc2 Ht2).
    - do 2 f_equal. kcbn. lia.
    - intros i v Hi. kcbn.
      rewrite <- frame_context in Hi |- *.
      rewrite list_lookup_fmap in Hi. destruct (drop 2 _ !! i) as [w|] eqn:Ew; [|done].
      cbn in Hi. simplify_eq. rewrite lookup_drop in Ew. rewrite <- (Hfr2 _ _ Ew). f_equal.
      rewrite length_fmap, length_drop, frame_length. lia. }
  destruct (frame_return func a) as [Hlo%Hfr2 Hhi%Hfr2]. destruct (frame_handle func a) as [H24 H25].
  eexists _, _, _, _. split; [exact Hres|]. unfold reti, pop_byte, peek. cbn [SP set_SP].
  replace (top - 2 + 1) with (top - Z.of_nat 1) by lia. rewrite Hhi, !bind_ok. cbn [SP set_SP].
  replace (top - Z.of_nat 1 + 1) with (top - Z.of_nat 0) by lia. rewrite Hlo, !bind_ok.
  split; [reflexivity|]. cbn [PC SP SREG gpr set_PC set_SREG set_SP].
  split; [|split; [lia|split; [reflexivity|split; [exact H24|split; [exact H25|]]]]].
  - by apply return_address.
  - apply task_handle. lia.
Qed.

Lemma Task_CreateTask_enters_witness :
  ∃ k', Task_CreateTask (Some 2%nat) "new" 10 60 4 0x1234 example_ram = Ok k' ∧
    tcb k' !! 1%nat = tcb example_ram !! 1%nat.
Proof.
  destruct (Task_CreateTask_enters example_ram 2%nat (example_task 3 TASK_READY 9 (Some 3%nat) NULL)
    "new" 10 60 4 0x1234) as (k' & H1 & _ & H2 & _).
  - done.
  - done.
  - done.
  - done.
  - done.
  - done.
  - intros i Hi. apply example_ram_mapped. lia.
  - exists k'. split; [exact H1|]. by apply H2.
Defined.

(** ** The tick interrupt *)

(** The tick interrupt always asks for a context switch while the
    scheduler is on, whatever quantum the running task has left: the verdict
    of [Task_Tick] is not used.  It leaves its own interrupt and the scheduler
    enabled and the processor as it was. *)
Theorem tick_always_yields {A} write_flags
    (call : Z → list Timer.TIMER_STRUCT * (KERNEL * A) → list Timer.TIMER_STRUCT * (KERNEL * A))
    c r ts k a c' r' ts' k' a' :
  bGlobalTaskEnable k = true →
  ISR_TIMER1_COMPA write_flags call c r (ts, (k, a)) = Ok (c', r', (ts', (k', a'))) →
  INT0_request k' = true ∧ bGlobalTaskEnable k' = true ∧ c' = c ∧
  Z.testbit (Regs.TIMSK1 r') Regs.OCIE1A = true.
Proof.
  intros Hen H. unfold ISR_TIMER1_COMPA, Task_IsSchedulerEnabled in H. rewrite Hen in H.
  apply bind_ok_iff in H as ([ts1 [k1 a1]] & _ & H).
  apply bind_ok_iff in H as (k2 & _ & H). simplify_eq.
  rewrite Task_YieldSWI_request. split; [by rewrite orb_true_r|].
  split; [by unfold Task_YieldSWI, KernelSWI_Trigger; cbn|].
  split; [by destruct c|]. by rewrite Regs.KernelTimer_DI_EI.
Qed.

(** ** The start of the scheduler *)

(** The stack of a task holds a context and above it the return address [f]. *)
Definition prepared (m : gmap Z Z) (t : TASK_STRUCT) (f : Z) : Prop :=
  ∃ lo hi r0 sr rest, length rest = 31%nat ∧
    frame_at m (pwTopStack t) (lo :: hi :: r0 :: sr :: rest) ∧ f = hi * 256 + lo.

Lemma frame_at_tail m sp v l : frame_at m sp (v :: l) → frame_at m sp l.
Proof. intros Hf i w Hi. rewrite <- (Hf (S i) w Hi). f_equal. cbn [length]. lia. Qed.

(** Restoring a prepared context and returning continues at its address. *)
Lemma prepared_enters c k p t f :
  length (gpr c) = 32%nat → pstCurrentTask k = Some p → tcb k !! p = Some t →
  prepared (ram k) t f →
  ∃ c1 c2, Task_RestoreContext c k = Ok c1 ∧ reti k c1 = Ok c2 ∧
    PC c2 = f ∧ SP c2 = pwTopStack t + 35 ∧ Z.testbit (SREG c2) 7 = true.
Proof.
  intros Hg Hc Ht (lo & hi & r0 & sr & rest & Hl & Hf & ->).
  pose proof (frame_at_tail _ _ _ _ Hf) as Hf1. pose proof (frame_at_tail _ _ _ _ Hf1) as Hf2.
  eexists _, _. split; [by apply (RestoreContext_frame c k p t r0 sr rest)|].
  pose proof (Hf 0%nat lo eq_refl) as Hlo. pose proof (Hf1 0%nat hi eq_refl) as Hhi.
  cbn [length] in Hlo, Hhi. rewrite Hl in Hlo, Hhi. change (Z.of_nat 35) with 35 in Hlo.
  change (Z.of_nat 34) with 34 in Hhi. rewrite Z.sub_0_r in Hlo, Hhi.
  unfold reti, pop_byte, peek. cbn [SP set_SP].
  replace (pwTopStack t + 33 + 1) with (pwTopStack t + 34) by lia. rewrite Hhi, !bind_ok.
  cbn [SP set_SP]. replace (pwTopStack t + 34 + 1) with (pwTopStack t + 35) by lia.
  rewrite Hlo, !bind_ok. split; [reflexivity|]. cbn [PC SP SREG set_PC set_SREG set_SP].
  split; [done|]. split; [done|]. by rewrite Z.lor_spec, orb_true_r.
Qed.

(** Starting the scheduler enters a ready task of the highest priority at the
    address on its stack, with interrupts, the tick interrupt and the
    software interrupt enabled. *)
Theorem Task_StartTasks_enters write_flags SYSTEM_FREQ TICK_FREQ c k r l y ty (f : nat → Z) :
  ring k l → stacks_mapped k l → y ∈ l → tcb k !! y = Some ty →
  eState ty = TASK_READY → 0 <= ucPriority ty →
  (∀ x t, x ∈ l → tcb k !! x = Some t → eState t = TASK_READY → prepared (ram k) t (f x)) →
  length (gpr c) = 32%nat → TICK_FREQ ≠ 0 →
  ∃ c' k' r' x tx, Task_StartTasks write_flags SYSTEM_FREQ TICK_FREQ c k r = Ok (c', k', r') ∧
    pstCurrentTask k' = Some x ∧ tcb k !! x = Some tx ∧ eState tx = TASK_READY ∧
    (∀ z tz, z ∈ l → tcb k !! z = Some tz → eState tz = TASK_READY → ucPriority tz <= ucPriority tx) ∧
    PC c' = f x ∧ SP c' = pwTopStack tx + 35 ∧ Z.testbit (SREG c') 7 = true ∧
    bGlobalTaskEnable k' = true ∧ sCriticalCount k' = 0 ∧
    Z.testbit (Regs.TIMSK1 r') Regs.OCIE1A = true ∧ Z.testbit (Regs.EIMSK r') Regs.INT0 = true.
Proof.
  intros Hr Hm Hy Hty Hrdy Hpos Hprep Hg Htf. destruct l as [|c0 rest]; [set_solver|].
  unfold Task_StartTasks, Regs.KernelTimer_Config, Regs.KernelSWI_Config, Regs.KernelSWI_Start, Regs.and_EIFR.
  rewrite (proj2 (Z.eqb_neq _ _) Htf), bind_ok.
  match goal with |- context [Task_SetScheduler true ?k0] => set (k1 := Task_SetScheduler true k0) end.
  destruct (Task_Switch_run k1 c0 rest Hr Hm) as (l1 & x & l2 & t & m & Hx & E & Ht & ->).
  change (tcb k1) with (tcb k) in *.
  destruct (next_task_highest _ _ _ _ _ _ Hx Hy Hty Hrdy Hpos) as (tx & Htx & Hrx & Hhi).
  assert (t = tx) as -> by congruence. rewrite bind_ok.
  assert (x ∈ c0 :: rest) as Hin.
  { assert (x ∈ rest ++ [c0]) by (rewrite E; set_solver). set_solver. }
  match goal with |- context [Task_RestoreContext c ?k2] =>
    destruct (prepared_enters c k2 x _ (f x) Hg eq_refl (lookup_insert_eq _ _ _)) as (c1 & c2 & -> & H2 & H3) end.
  { exact (Hprep x tx Hin Htx Hrx). }
  rewrite bind_ok, H2, bind_ok. eexists _, _, _, x, tx. split; [reflexivity|].
  split; [done|]. split; [done|]. split; [done|]. split; [done|]. destruct H3 as (? & ? & ?).
  do 5 (split; [done|]).
  cbn [Regs.TIMSK1 Regs.EIMSK Regs.set_EIMSK Regs.set_EIFR]. unfold Regs.KernelTimer_Start.
  cbn [Regs.TIMSK1 Regs.set_TIMSK1 Regs.set_TCCR1B].
  by rewrite !Z.lor_spec, !Regs.testbit_bit, !orb_true_r by done.
Qed.

End Port.
