(* ===== verification/FunkDriver.v ===== *)
(** * FunkOS: managed device drivers (kernel/driver.c)

    A driver is a structure of function pointers with a state and a mutex.
    The functions behind the pointers belong to the concrete driver: they
    are parameters acting on the driver structures, the kernel and the
    state [W] of the hardware. *)
From S2P Require Import Prelude FunkKernel FunkTask FunkSched FunkMutex.

Module Driver.

Inductive DRIVER_STATE : Type := DRIVER_UNINIT | DRIVER_CLOSE | DRIVER_IDLE | DRIVER_IO.

#[export] Instance DRIVER_STATE_eq_dec : EqDecision DRIVER_STATE.
Proof. solve_decision. Defined.

(** The numbering of the enumeration, which the code compares. *)
Definition state_num (s : DRIVER_STATE) : Z :=
  match s with DRIVER_UNINIT => 0 | DRIVER_CLOSE => 1 | DRIVER_IDLE => 2 | DRIVER_IO => 3 end.

Definition DRIVER_OK : Z := 0.
Definition DRIVER_ERR : Z := 2.

Record DRIVER_STRUCT : Type := mkDriver {
  eState : DRIVER_STATE;
  pfConstructor : option Z;
  pfDriverStart : option Z;
  pfDriverStop : option Z;
  pfControl : option Z;
  pfDriverRead : option Z;
  pfDriverWrite : option Z;
  stMutex : Mutex.MUTEX_STRUCT;
  bUseMutex : bool
}.

Definition set_eState (v : DRIVER_STATE) (r : DRIVER_STRUCT) : DRIVER_STRUCT :=
  mkDriver v (pfConstructor r) (pfDriverStart r) (pfDriverStop r) (pfControl
    r) (pfDriverRead r) (pfDriverWrite r) (stMutex r) (bUseMutex r).
Definition set_pfConstructor (v : option Z) (r : DRIVER_STRUCT) : DRIVER_STRUCT :=
  mkDriver (eState r) v (pfDriverStart r) (pfDriverStop r) (pfControl r)
    (pfDriverRead r) (pfDriverWrite r) (stMutex r) (bUseMutex r).
Definition set_pfDriverStart (v : option Z) (r : DRIVER_STRUCT) : DRIVER_STRUCT :=
  mkDriver (eState r) (pfConstructor r) v (pfDriverStop r) (pfControl r)
    (pfDriverRead r) (pfDriverWrite r) (stMutex r) (bUseMutex r).
Definition set_pfDriverStop (v : option Z) (r : DRIVER_STRUCT) : DRIVER_STRUCT :=
  mkDriver (eState r) (pfConstructor r) (pfDriverStart r) v (pfControl r)
    (pfDriverRead r) (pfDriverWrite r) (stMutex r) (bUseMutex r).
Definition set_pfControl (v : option Z) (r : DRIVER_STRUCT) : DRIVER_STRUCT :=
  mkDriver (eState r) (pfConstructor r) (pfDriverStart r) (pfDriverStop r) v
    (pfDriverRead r) (pfDriverWrite r) (stMutex r) (bUseMutex r).
Definition set_pfDriverRead (v : option Z) (r : DRIVER_STRUCT) : DRIVER_STRUCT :=
  mkDriver (eState r) (pfConstructor r) (pfDriverStart r) (pfDriverStop r)
    (pfControl r) v (pfDriverWrite r) (stMutex r) (bUseMutex r).
Definition set_pfDriverWrite (v : option Z) (r : DRIVER_STRUCT) : DRIVER_STRUCT :=
  mkDriver (eState r) (pfConstructor r) (pfDriverStart r) (pfDriverStop r)
    (pfControl r) (pfDriverRead r) v (stMutex r) (bUseMutex r).
Definition set_stMutex (v : Mutex.MUTEX_STRUCT) (r : DRIVER_STRUCT) : DRIVER_STRUCT :=
  mkDriver (eState r) (pfConstructor r) (pfDriverStart r) (pfDriverStop r)
    (pfControl r) (pfDriverRead r) (pfDriverWrite r) v (bUseMutex r).
Definition set_bUseMutex (v : bool) (r : DRIVER_STRUCT) : DRIVER_STRUCT :=
  mkDriver (eState r) (pfConstructor r) (pfDriverStart r) (pfDriverStop r)
    (pfControl r) (pfDriverRead r) (pfDriverWrite r) (stMutex r) v.

Section driver.
Context {W : Type}.

(** The driver structures, the kernel and the hardware. *)
Record DSYS : Type := mkDSYS {
  drivers : gmap nat DRIVER_STRUCT;
  kern : KERNEL;
  hw : W
}.

(** The functions of the drivers, by function pointer: the constructor, start
    and stop functions, the control function (event id and data; returns a
    code), and the stream functions (buffer and length; return a count).
    [env] is the rest of the system while a task is blocked on a mutex and
    [spin] one turn of the wait for the end of an I/O operation. *)
Context (call : Z → nat → DSYS → res DSYS)
  (control : Z → nat → Z → Z → DSYS → res (DSYS * Z))
  (stream : Z → nat → list Z → Z → DSYS → res (DSYS * Z))
  (env : nat → DSYS → res DSYS) (spin : DSYS → DSYS).

Definition upd_driver (p : ptr) (f : DRIVER_STRUCT → DRIVER_STRUCT) (s : DSYS) : res DSYS :=
  m ← assign (drivers s) p f; Ok (mkDSYS m (kern s) (hw s)).

(** A call through a function pointer of the driver at [a]. *)
Definition call_ptr (pf : option Z) (a : nat) (s : DSYS) : res DSYS :=
  match pf with None => Fault NullCall | Some f => call f a s end.

Definition Driver_Init (p : ptr) (s : DSYS) : res DSYS :=
  match p with
  | None => Ok s
  | Some a =>
      d ← deref (drivers s) p;
      if bool_decide (eState d = DRIVER_UNINIT) then
        s ← call_ptr (pfConstructor d) a s;
        s ← upd_driver p (set_eState DRIVER_CLOSE) s;
        s ← upd_driver p (fun d => set_stMutex (Mutex.Mutex_Init (stMutex d)) d) s;
        upd_driver p (set_bUseMutex true) s
      else Ok s
  end.

Definition Driver_Start (p : ptr) (s : DSYS) : res DSYS :=
  match p with
  | None => Ok s
  | Some a =>
      d ← deref (drivers s) p;
      if bool_decide (eState d = DRIVER_CLOSE) then
        s ← call_ptr (pfDriverStart d) a s;
        upd_driver p (set_eState DRIVER_IDLE) s
      else Ok s
  end.

Fixpoint wait_io (fuel : nat) (p : ptr) (s : DSYS) : res DSYS :=
  match fuel with
  | O => Fault OutOfFuel
  | S fuel =>
      d ← deref (drivers s) p;
      if bool_decide (eState d = DRIVER_IO) then wait_io fuel p (spin s) else Ok s
  end.

Definition Driver_Stop (fuel : nat) (p : ptr) (s : DSYS) : res DSYS :=
  match p with
  | None => Ok s
  | Some a =>
      s ← wait_io fuel p s;
      d ← deref (drivers s) p;
      if bool_decide (eState d = DRIVER_IDLE) then
        s ← call_ptr (pfDriverStop d) a s;
        upd_driver p (set_eState DRIVER_CLOSE) s
      else Ok s
  end.

Definition Driver_RemoveControlFunc (p : ptr) (s : DSYS) : res DSYS :=
  match p with
  | None => Ok s
  | Some _ =>
      d ← deref (drivers s) p;
      if state_num DRIVER_CLOSE <=? state_num (eState d)
      then upd_driver p (set_pfControl None) s else Ok s
  end.

Definition Driver_AddControlFunc (p : ptr) (f : option Z) (s : DSYS) : res DSYS :=
  match p with
  | None => Ok s
  | Some _ =>
      d ← deref (drivers s) p;
      if state_num DRIVER_CLOSE <=? state_num (eState d) then
        match pfControl d with
        | None => upd_driver p (set_pfControl f) s
        | Some _ => Ok s
        end
      else Ok s
  end.

(** [Mutex_Claim] and [Mutex_Release] on the mutex of the driver at [a]. *)
Definition claim (a : nat) (s : DSYS) : res DSYS :=
  d ← deref (drivers s) (Some a);
  let task := Task_GetCurrentTask (kern s) in
  '(o, k, wait) ← Mutex.Mutex_Claim_enter (stMutex d) TIME_FOREVER (kern s);
  s ← upd_driver (Some a) (set_stMutex o) (mkDSYS (drivers s) k (hw s));
  if wait : bool then
    s ← env a (mkDSYS (drivers s) (Task_YieldSWI (kern s)) (hw s));
    d ← deref (drivers s) (Some a);
    '(o, k, _) ← Mutex.Mutex_Claim_resume (stMutex d) task (kern s);
    upd_driver (Some a) (set_stMutex o) (mkDSYS (drivers s) k (hw s))
  else Ok (mkDSYS (drivers s) (Task_SchedulerRestore true (kern s)) (hw s)).

Definition release (a : nat) (s : DSYS) : res DSYS :=
  d ← deref (drivers s) (Some a);
  '(o, k) ← Mutex.Mutex_Release (stMutex d) (kern s);
  upd_driver (Some a) (set_stMutex o) (mkDSYS (drivers s) k (hw s)).

(** The common bracket: [body] under the mutex when the driver uses one. *)
Definition locked {R} (a : nat) (d : DRIVER_STRUCT) (body : DSYS → res (DSYS * R)) (s : DSYS)
    : res (DSYS * R) :=
  let bCacheMutex := bUseMutex d in
  s ← (if bCacheMutex then claim a s else Ok s);
  '(s, r) ← body s;
  s ← (if bCacheMutex then release a s else Ok s);
  Ok (s, r).

Definition Driver_Control (p : ptr) (id data : Z) (s : DSYS) : res (DSYS * Z) :=
  match p with
  | None => Ok (s, DRIVER_ERR)
  | Some a =>
      d ← deref (drivers s) p;
      match pfControl d with
      | Some f =>
          if state_num DRIVER_CLOSE <? state_num (eState d)
          then '(s, r) ← locked a d (control f a id data) s; Ok (s, u8 r)
          else Ok (s, DRIVER_OK)
      | None => Ok (s, DRIVER_OK)
      end
  end.

Definition Driver_Read (p : ptr) (buf : list Z) (len : Z) (s : DSYS) : res (DSYS * Z) :=
  match p with
  | None => Ok (s, 0)
  | Some a =>
      d ← deref (drivers s) p;
      match pfDriverRead d with
      | Some f =>
          if state_num DRIVER_CLOSE <? state_num (eState d)
          then locked a d (stream f a buf len) s
          else Ok (s, 0)
      | None => Ok (s, 0)
      end
  end.

Definition Driver_Write (p : ptr) (buf : list Z) (len : Z) (s : DSYS) : res (DSYS * Z) :=
  match p with
  | None => Ok (s, 0)
  | Some a =>
      d ← deref (drivers s) p;
      match pfDriverWrite d with
      | Some f =>
          if state_num DRIVER_CLOSE <? state_num (eState d)
          then locked a d (stream f a buf len) s
          else Ok (s, 0)
      | None => Ok (s, 0)
      end
  end.

(** ** Mutual exclusion of driver accesses *)

Lemma upd_driver_some a d f s :
  drivers s !! a = Some d →
  upd_driver (Some a) f s = Ok (mkDSYS (<[a := f d]> (drivers s)) (kern s) (hw s)).
Proof. intros H. unfold upd_driver. by rewrite (assign_some _ _ _ _ H). Qed.

(** The state in which a function of a driver that uses its mutex runs when
    the mutex was free: the mutex is taken in the name of the running task. *)
Definition held (a : nat) (d : DRIVER_STRUCT) (x : nat) (t : TASK_STRUCT) (s : DSYS) : DSYS :=
  mkDSYS
    (<[a := set_stMutex (Mutex.set_ucMaxPri (ucPriority t) (Mutex.set_usSem 0 (stMutex d))) d]> (drivers s))
    (set_tcb (<[x := set_ucMutexPriority (ucPriority t) t]> (tcb (kern s))) (Task_SetScheduler true (kern s)))
    (hw s).

Lemma locked_free {R} a d x t (body : DSYS → res (DSYS * R)) s :
  drivers s !! a = Some d → bUseMutex d = true → Mutex.usSem (stMutex d) ≠ 0 →
  Mutex.pstWait (stMutex d) = NULL → pstCurrentTask (kern s) = Some x → tcb (kern s) !! x = Some t →
  (∀ s1 s2 r, body s1 = Ok (s2, r) → drivers s2 = drivers s1 ∧ kern s2 = kern s1) →
  locked a d body s
  = ('(s1, r) ← body (held a d x t s);
     Ok (mkDSYS
           (<[a := set_stMutex (Mutex.set_ucMaxPri (ucPriority t) (Mutex.set_usSem 1 (stMutex d))) d]> (drivers s))
           (set_tcb (<[x := set_ucMutexPriority 0 t]> (tcb (kern s))) (Task_SetScheduler true (kern s)))
           (hw s1), r)).
Proof.
  intros Hd Hu H0 Hw Hc Ht Hbody. unfold locked. rewrite Hu.
  assert (claim a s = Ok (held a d x t s)) as ->.
  { unfold claim. rewrite (deref_some _ _ _ Hd), bind_ok.
    rewrite (Mutex.Claim_enter_free _ _ _ x t H0 Hc Ht), bind_ok.
    by rewrite (upd_driver_some a d) by done. }
  rewrite bind_ok. destruct (body (held a d x t s)) as [[s1 r]|f] eqn:Eb; [|done].
  rewrite !bind_ok. destruct (Hbody _ _ _ Eb) as [Hd1 Hk1].
  unfold release. rewrite Hd1, Hk1. unfold held at 1 2. cbn [drivers kern].
  erewrite deref_some by apply lookup_insert_eq. rewrite bind_ok.
  erewrite (Mutex.Release_free _ _ x); [|done|done|kcbn; apply lookup_insert_eq].
  rewrite bind_ok. erewrite upd_driver_some by (cbn [drivers]; apply lookup_insert_eq).
  rewrite bind_ok. cbn [drivers kern hw held]. rewrite insert_insert_eq.
  kcbn. rewrite insert_insert_eq. unfold Mutex.release_block. by destruct t.
Qed.

End driver.

#[local] Arguments upd_driver : simpl never.
#[local] Arguments call_ptr : simpl never.

(** A control call on an open driver runs the control function with the
    driver's mutex held by the calling task, returns the function's code as
    a byte, and leaves the mutex free and the priority of the task as it
    was. *)
Theorem Driver_Control_exclusive {W} control env (s : @DSYS W) a d x t f id data s1 r :
  drivers s !! a = Some d → pfControl d = Some f → eState d = DRIVER_IDLE →
  bUseMutex d = true → Mutex.usSem (stMutex d) = 1 → Mutex.pstWait (stMutex d) = NULL →
  pstCurrentTask (kern s) = Some x → tcb (kern s) !! x = Some t →
  (∀ s1 s2 r, control f a id data s1 = Ok (s2, r) → drivers s2 = drivers s1 ∧ kern s2 = kern s1) →
  control f a id data (held a d x t s) = Ok (s1, r) →
  ∃ s' d', Driver_Control control env (Some a) id data s = Ok (s', u8 r) ∧
    Mutex.usSem (stMutex d) = 1 ∧
    (∃ dh, drivers (held a d x t s) !! a = Some dh ∧ Mutex.usSem (stMutex dh) = 0) ∧
    drivers s' !! a = Some d' ∧ eState d' = DRIVER_IDLE ∧ Mutex.usSem (stMutex d') = 1 ∧
    Mutex.pstWait (stMutex d') = NULL ∧ hw s' = hw s1 ∧
    (∀ y, y ≠ a → drivers s' !! y = drivers s !! y) ∧
    tcb (kern s') !! x = Some (set_ucMutexPriority 0 t) ∧
    (∀ y, y ≠ x → tcb (kern s') !! y = tcb (kern s) !! y).
Proof.
  intros Hd Hf He Hu H1 Hw Hc Ht Hb Hrun. unfold Driver_Control.
  rewrite (deref_some _ _ _ Hd), bind_ok, Hf, He.
  rewrite (locked_free _ a d x t) by (done || lia). rewrite Hrun. cbn -[u8 held].
  eexists _, _. split; [done|]. split; [done|]. split.
  { eexists. unfold held. cbn [drivers]. rewrite lookup_insert_eq. done. }
  cbn [drivers kern hw]. kcbn. rewrite !lookup_insert_eq. split; [done|].
  repeat (split; [done|]). split; [|split; [done|]].
  - intros y Hy. by rewrite lookup_insert_ne.
  - intros y Hy. by rewrite lookup_insert_ne.
Qed.

(** The life cycle of a driver: initialisation, start and stop act only in
    the states uninitialised, closed and idle, in this order, calling the
    driver's function and moving to the next state; in every other state,
    and on the null pointer, they change nothing; and the accesses of a
    driver that is not started reach no function of the driver. *)
Theorem Driver_life_cycle {W} call control stream env spin (s : @DSYS W) a d fc fs ft n id data buf len :
  drivers s !! a = Some d →
  pfConstructor d = Some fc → pfDriverStart d = Some fs → pfDriverStop d = Some ft →
  (∀ f b s, ∃ s', call f b s = Ok s' ∧ drivers s' = drivers s) →
  (∃ s', Driver_Init call (Some a) s = Ok s' ∧
     drivers s' !! a = Some (if bool_decide (eState d = DRIVER_UNINIT)
                             then set_bUseMutex true (set_stMutex (Mutex.Mutex_Init (stMutex d))
                                    (set_eState DRIVER_CLOSE d))
                             else d)) ∧
  (∃ s', Driver_Start call (Some a) s = Ok s' ∧
     drivers s' !! a = Some (if bool_decide (eState d = DRIVER_CLOSE) then set_eState DRIVER_IDLE d else d)) ∧
  (eState d ≠ DRIVER_IO → ∃ s', Driver_Stop call spin (S n) (Some a) s = Ok s' ∧
     drivers s' !! a = Some (if bool_decide (eState d = DRIVER_IDLE) then set_eState DRIVER_CLOSE d else d)) ∧
  (eState d = DRIVER_UNINIT ∨ eState d = DRIVER_CLOSE →
     Driver_Control control env (Some a) id data s = Ok (s, DRIVER_OK) ∧
     Driver_Read stream env (Some a) buf len s = Ok (s, 0) ∧
     Driver_Write stream env (Some a) buf len s = Ok (s, 0)).
Proof.
  intros Hd Hfc Hfs Hft Hcall. split; [|split; [|split]].
  - cbn. rewrite Hd. cbn. case_bool_decide; [|by eexists].
    rewrite Hfc. destruct (Hcall fc a s) as (s1 & H1 & H2). unfold call_ptr. rewrite H1, bind_ok.
    rewrite <- H2 in Hd. rewrite (upd_driver_some a d), bind_ok by done.
    erewrite upd_driver_some by apply lookup_insert_eq. rewrite bind_ok.
    erewrite upd_driver_some by apply lookup_insert_eq. eexists. split; [reflexivity|].
    cbn [drivers]. by rewrite lookup_insert_eq.
  - cbn. rewrite Hd. cbn. case_bool_decide; [|by eexists].
    rewrite Hfs. destruct (Hcall fs a s) as (s1 & H1 & H2). unfold call_ptr. rewrite H1, bind_ok.
    rewrite <- H2 in Hd. rewrite (upd_driver_some a d) by done. eexists. split; [reflexivity|].
    cbn [drivers]. by rewrite lookup_insert_eq.
  - intros Hio. cbn. rewrite Hd. cbn. rewrite bool_decide_eq_false_2 by done. cbn. rewrite Hd. cbn.
    case_bool_decide; [|by eexists].
    rewrite Hft. destruct (Hcall ft a s) as (s1 & H1 & H2). unfold call_ptr. rewrite H1, bind_ok.
    rewrite <- H2 in Hd. rewrite (upd_driver_some a d) by done. eexists. split; [reflexivity|].
    cbn [drivers]. by rewrite lookup_insert_eq.
  - intros Hst. unfold Driver_Control, Driver_Read, Driver_Write. rewrite (deref_some _ _ _ Hd), !bind_ok.
    destruct Hst as [-> | ->]; cbn; repeat split; by repeat case_match.
Qed.

Lemma Driver_life_cycle_witness :
  let call := λ (f : Z) (a : nat) (s : @DSYS (list Z)), Ok (mkDSYS (drivers s) (kern s) (f :: hw s)) in
  let d := mkDriver DRIVER_CLOSE (Some 1) (Some 2) (Some 3) None None None (Mutex.mkMutex 1 0 NULL) true in
  let s := mkDSYS {[ 5%nat := d ]} (mkKernel ∅ NULL 0 true 0 false ∅) [] in
  ∃ s', Driver_Start call (Some 5%nat) s = Ok s' ∧
    drivers s' !! 5%nat = Some (set_eState DRIVER_IDLE d).
Proof.
  intros call d s.
  destruct (Driver_life_cycle call (λ _ _ _ _ s, Ok (s, 0)) (λ _ _ _ _ s, Ok (s, 0)) (λ _ s, Ok s) (λ s, s)
    s 5%nat d 1 2 3 0%nat 0 0 [] 0) as (_ & H & _).
  - done.
  - done.
  - done.
  - done.
  - intros f b s0. by eexists.
  - exact H.
Defined.

End Driver.
