(* ===== verification/FunkCoopDriver.v ===== *)
(** * FunkOS: drivers of the cooperative library (modules/cooperative/driver.c)

    The driver layer of the kernel without its mutex: there is one thread of
    control and no kernel state.  The theorem of this file is a simulation:
    on drivers whose mutex is free, the kernel's layer does exactly what this
    one does, once mutex and kernel are forgotten.  heap.c and timer.c of
    the cooperative library are the text of kernel/heap.c and timer.c
    (FunkHeap, FunkTimer) with other includes. *)
From S2P Require Import Prelude FunkKernel FunkTask FunkExample FunkMutex FunkDriver.

Module CoopDriver.

(** The states and return codes are those of the kernel's driver.h. *)
Abbreviation DRIVER_STATE := Driver.DRIVER_STATE.
#[local] Existing Instance Driver.DRIVER_STATE_eq_dec.
Abbreviation state_num := Driver.state_num.
Abbreviation DRIVER_OK := Driver.DRIVER_OK.
Abbreviation DRIVER_ERR := Driver.DRIVER_ERR.

Record DRIVER_STRUCT : Type := mkDriver {
  eState : DRIVER_STATE;
  pfConstructor : option Z;
  pfDriverStart : option Z;
  pfDriverStop : option Z;
  pfControl : option Z;
  pfDriverRead : option Z;
  pfDriverWrite : option Z
}.

Definition set_eState (v : DRIVER_STATE) (d : DRIVER_STRUCT) : DRIVER_STRUCT :=
  mkDriver v (pfConstructor d) (pfDriverStart d) (pfDriverStop d) (pfControl d)
    (pfDriverRead d) (pfDriverWrite d).
Definition set_pfControl (v : option Z) (d : DRIVER_STRUCT) : DRIVER_STRUCT :=
  mkDriver (eState d) (pfConstructor d) (pfDriverStart d) (pfDriverStop d) v
    (pfDriverRead d) (pfDriverWrite d).

Section driver.
Context {W : Type}.

Record CSYS : Type := mkCSYS { drivers : gmap nat DRIVER_STRUCT; hw : W }.

(** The functions of the drivers, by function pointer, as in FunkDriver. *)
Context (call : Z → nat → CSYS → res CSYS)
  (control : Z → nat → Z → Z → CSYS → res (CSYS * Z))
  (stream : Z → nat → list Z → Z → CSYS → res (CSYS * Z))
  (spin : CSYS → CSYS).

Definition upd_driver (p : ptr) (f : DRIVER_STRUCT → DRIVER_STRUCT) (s : CSYS) : res CSYS :=
  m ← assign (drivers s) p f; Ok (mkCSYS m (hw s)).

Definition call_ptr (pf : option Z) (a : nat) (s : CSYS) : res CSYS :=
  match pf with None => Fault NullCall | Some f => call f a s end.

Definition Driver_Init (p : ptr) (s : CSYS) : res CSYS :=
  match p with
  | None => Ok s
  | Some a =>
      d ← deref (drivers s) p;
      if bool_decide (eState d = Driver.DRIVER_UNINIT) then
        s ← call_ptr (pfConstructor d) a s;
        upd_driver p (set_eState Driver.DRIVER_CLOSE) s
      else Ok s
  end.

Definition Driver_Start (p : ptr) (s : CSYS) : res CSYS :=
  match p with
  | None => Ok s
  | Some a =>
      d ← deref (drivers s) p;
      if bool_decide (eState d = Driver.DRIVER_CLOSE) then
        s ← call_ptr (pfDriverStart d) a s;
        upd_driver p (set_eState Driver.DRIVER_IDLE) s
      else Ok s
  end.

Fixpoint wait_io (fuel : nat) (p : ptr) (s : CSYS) : res CSYS :=
  match fuel with
  | O => Fault OutOfFuel
  | S fuel =>
      d ← deref (drivers s) p;
      if bool_decide (eState d = Driver.DRIVER_IO) then wait_io fuel p (spin s) else Ok s
  end.

Definition Driver_Stop (fuel : nat) (p : ptr) (s : CSYS) : res CSYS :=
  match p with
  | None => Ok s
  | Some a =>
      s ← wait_io fuel p s;
      d ← deref (drivers s) p;
      if bool_decide (eState d = Driver.DRIVER_IDLE) then
        s ← call_ptr (pfDriverStop d) a s;
        upd_driver p (set_eState Driver.DRIVER_CLOSE) s
      else Ok s
  end.

Definition Driver_RemoveControlFunc (p : ptr) (s : CSYS) : res CSYS :=
  match p with
  | None => Ok s
  | Some _ =>
      d ← deref (drivers s) p;
      if state_num Driver.DRIVER_CLOSE <=? state_num (eState d)
      then upd_driver p (set_pfControl None) s else Ok s
  end.

Definition Driver_AddControlFunc (p : ptr) (f : option Z) (s : CSYS) : res CSYS :=
  match p with
  | None => Ok s
  | Some _ =>
      d ← deref (drivers s) p;
      if state_num Driver.DRIVER_CLOSE <=? state_num (eState d) then
        match pfControl d with
        | None => upd_driver p (set_pfControl f) s
        | Some _ => Ok s
        end
      else Ok s
  end.

Definition Driver_Control (p : ptr) (id data : Z) (s : CSYS) : res (CSYS * Z) :=
  match p with
  | None => Ok (s, DRIVER_ERR)
  | Some a =>
      d ← deref (drivers s) p;
      match pfControl d with
      | Some f =>
          if state_num Driver.DRIVER_CLOSE <? state_num (eState d)
          then '(s, r) ← control f a id data s; Ok (s, u8 r)
          else Ok (s, DRIVER_OK)
      | None => Ok (s, DRIVER_OK)
      end
  end.

Definition Driver_Read (p : ptr) (buf : list Z) (len : Z) (s : CSYS) : res (CSYS * Z) :=
  match p with
  | None => Ok (s, 0)
  | Some a =>
      d ← deref (drivers s) p;
      match pfDriverRead d with
      | Some f =>
          if state_num Driver.DRIVER_CLOSE <? state_num (eState d)
          then stream f a buf len s else Ok (s, 0)
      | None => Ok (s, 0)
      end
  end.

Definition Driver_Write (p : ptr) (buf : list Z) (len : Z) (s : CSYS) : res (CSYS * Z) :=
  match p with
  | None => Ok (s, 0)
  | Some a =>
      d ← deref (drivers s) p;
      match pfDriverWrite d with
      | Some f =>
          if state_num Driver.DRIVER_CLOSE <? state_num (eState d)
          then stream f a buf len s else Ok (s, 0)
      | None => Ok (s, 0)
      end
  end.

End driver.

Arguments CSYS : clear implicits.

(** ** Simulation by the kernel's driver layer *)

(** A driver of the kernel without its mutex, and the matching states. *)
Definition erase (d : Driver.DRIVER_STRUCT) : DRIVER_STRUCT :=
  mkDriver (Driver.eState d) (Driver.pfConstructor d) (Driver.pfDriverStart d)
    (Driver.pfDriverStop d) (Driver.pfControl d) (Driver.pfDriverRead d) (Driver.pfDriverWrite d).

Definition forget {W} (s : @Driver.DSYS W) : CSYS W :=
  mkCSYS (erase <$> Driver.drivers s) (Driver.hw s).

(** A result of the kernel's layer seen from the cooperative one. *)
Definition rmap {A B} (f : A → B) (r : res A) : res B :=
  match r with Ok a => Ok (f a) | Fault e => Fault e end.
Definition forget1 {W} (x : @Driver.DSYS W * Z) : CSYS W * Z := (forget x.1, x.2).

Lemma rmap_bind {A B C D} (f : A → B) (g : C → D) (m : res A) (k : A → res C) (k' : B → res D) :
  (∀ a, rmap g (k a) = k' (f a)) → rmap g (m ≫= k) = rmap f m ≫= k'.
Proof. destruct m; simpl; auto. Qed.

Section simulation.
Context {W : Type}.
Implicit Types s : @Driver.DSYS W.

(** Driver functions on both sides that correspond. *)
Context (callK : Z → nat → @Driver.DSYS W → res (@Driver.DSYS W)) (callC : Z → nat → CSYS W → res (CSYS W))
  (call_sim : ∀ f a s, rmap forget (callK f a s) = callC f a (forget s))
  (spinK : @Driver.DSYS W → @Driver.DSYS W) (spinC : CSYS W → CSYS W)
  (spin_sim : ∀ s, forget (spinK s) = spinC (forget s)).

Lemma deref_sim s p : deref (drivers (forget s)) p = rmap erase (deref (Driver.drivers s) p).
Proof. destruct p as [a|]; [|done]. cbn. rewrite lookup_fmap. by destruct (_ !! a). Qed.

Lemma upd_driver_sim s p f g :
  (∀ d, erase (f d) = g (erase d)) →
  rmap forget (Driver.upd_driver p f s) = upd_driver p g (forget s).
Proof.
  intros Hfg. unfold Driver.upd_driver, upd_driver. destruct p as [a|]; [|done]. cbn.
  rewrite lookup_fmap. destruct (Driver.drivers s !! a) as [d|] eqn:E; [|done].
  cbn. unfold forget. cbn. by rewrite fmap_insert, Hfg.
Qed.

Lemma call_ptr_sim pf a s :
  rmap forget (Driver.call_ptr callK pf a s) = call_ptr callC pf a (forget s).
Proof. destruct pf; [apply call_sim|done]. Qed.

(** A function that begins with a look at the driver. *)
Lemma deref_bind_sim {C D} s p (g : C → D) k k' :
  (∀ d, rmap g (k d) = k' (erase d)) →
  rmap g (deref (Driver.drivers s) p ≫= k) = deref (drivers (forget s)) p ≫= k'.
Proof. intros H. rewrite deref_sim. by apply rmap_bind. Qed.

Lemma Init_sim p s :
  rmap forget (Driver.Driver_Init callK p s) = Driver_Init callC p (forget s).
Proof.
  destruct p as [a|]; [|done]. unfold Driver.Driver_Init, Driver_Init.
  apply deref_bind_sim. intros d. cbn [erase eState pfConstructor]. case_bool_decide; [|done].
  rewrite <- call_ptr_sim. apply rmap_bind. intros s1.
  rewrite <- (upd_driver_sim s1 (Some a) (Driver.set_eState Driver.DRIVER_CLOSE)) by done.
  destruct (Driver.upd_driver (Some a) (Driver.set_eState Driver.DRIVER_CLOSE) s1) as [s2|] eqn:E; [|done].
  unfold Driver.upd_driver, assign in E. destruct (Driver.drivers s1 !! a) as [d1|]; [|done].
  cbn in E. simplify_eq. rewrite bind_ok.
  erewrite (Driver.upd_driver_some a) by apply lookup_insert_eq. rewrite bind_ok.
  erewrite (Driver.upd_driver_some a) by apply lookup_insert_eq. cbn. unfold forget. cbn.
  by rewrite !insert_insert_eq, !fmap_insert.
Qed.

Lemma Start_sim p s :
  rmap forget (Driver.Driver_Start callK p s) = Driver_Start callC p (forget s).
Proof.
  destruct p as [a|]; [|done]. apply deref_bind_sim. intros d.
  cbn [erase eState pfDriverStart]. case_bool_decide; [|done].
  rewrite <- call_ptr_sim. apply rmap_bind. intros s1. by apply upd_driver_sim.
Qed.

Lemma wait_io_sim n p s :
  rmap forget (Driver.wait_io spinK n p s) = wait_io spinC n p (forget s).
Proof.
  revert s. induction n as [|n IH]; intros s; [done|]. apply deref_bind_sim. intros d.
  cbn [erase eState]. case_bool_decide; [|done]. rewrite <- spin_sim. apply IH.
Qed.

Lemma Stop_sim n p s :
  rmap forget (Driver.Driver_Stop callK spinK n p s) = Driver_Stop callC spinC n p (forget s).
Proof.
  destruct p as [a|]; [|done]. unfold Driver.Driver_Stop, Driver_Stop. rewrite <- wait_io_sim.
  apply rmap_bind. intros s1. apply deref_bind_sim. intros d.
  cbn [erase eState pfDriverStop]. case_bool_decide; [|done].
  rewrite <- call_ptr_sim. apply rmap_bind. intros s2. by apply upd_driver_sim.
Qed.

Lemma control_funcs_sim p f s :
  rmap forget (Driver.Driver_RemoveControlFunc p s) = Driver_RemoveControlFunc p (forget s) ∧
  rmap forget (Driver.Driver_AddControlFunc p f s) = Driver_AddControlFunc p f (forget s).
Proof.
  destruct p as [a|]; [|done].
  split; apply deref_bind_sim; intros d; cbn [erase eState pfControl];
    repeat case_match; try done; by apply upd_driver_sim.
Qed.

(** ** Accesses under the mutex *)

Context (controlK : Z → nat → Z → Z → @Driver.DSYS W → res (@Driver.DSYS W * Z))
  (controlC : Z → nat → Z → Z → CSYS W → res (CSYS W * Z))
  (streamK : Z → nat → list Z → Z → @Driver.DSYS W → res (@Driver.DSYS W * Z))
  (streamC : Z → nat → list Z → Z → CSYS W → res (CSYS W * Z))
  (env : nat → @Driver.DSYS W → res (@Driver.DSYS W)).
Context (control_sim : ∀ f a i x s, rmap forget1 (controlK f a i x s) = controlC f a i x (forget s))
  (stream_sim : ∀ f a b n s, rmap forget1 (streamK f a b n s) = streamC f a b n (forget s)).

(** The functions work on the hardware only: they leave the driver structures
    and the kernel alone. *)
Context (control_quiet : ∀ f a i x s1 s2 r, controlK f a i x s1 = Ok (s2, r) →
    Driver.drivers s2 = Driver.drivers s1 ∧ Driver.kern s2 = Driver.kern s1)
  (stream_quiet : ∀ f a b n s1 s2 r, streamK f a b n s1 = Ok (s2, r) →
    Driver.drivers s2 = Driver.drivers s1 ∧ Driver.kern s2 = Driver.kern s1).

(** No driver is in use: every mutex is free and a task is running. *)
Definition idle s : Prop :=
  (∀ a d, Driver.drivers s !! a = Some d → Driver.bUseMutex d = true →
     Mutex.usSem (Driver.stMutex d) ≠ 0 ∧ Mutex.pstWait (Driver.stMutex d) = NULL) ∧
  ∃ x t, pstCurrentTask (Driver.kern s) = Some x ∧ tcb (Driver.kern s) !! x = Some t.

Lemma insert_erase (m : gmap nat Driver.DRIVER_STRUCT) a d d' :
  m !! a = Some d → erase d' = erase d → erase <$> <[a := d']> m = erase <$> m.
Proof. intros Hd E. rewrite fmap_insert, E. apply insert_id. by rewrite lookup_fmap, Hd. Qed.

Lemma locked_sim a d bodyK bodyC s :
  idle s → Driver.drivers s !! a = Some d →
  (∀ s, rmap forget1 (bodyK s) = bodyC (forget s)) →
  (∀ s1 s2 r, bodyK s1 = Ok (s2, r) →
     Driver.drivers s2 = Driver.drivers s1 ∧ Driver.kern s2 = Driver.kern s1) →
  rmap forget1 (Driver.locked env a d bodyK s) = bodyC (forget s).
Proof.
  intros [Hi (x & t & Hc & Ht)] Hd Hb Hq. rewrite <- (Hb s).
  destruct (Driver.bUseMutex d) eqn:Hu.
  - destruct (Hi a d Hd Hu) as [H0 Hw].
    rewrite (Driver.locked_free env a d x t bodyK s Hd Hu H0 Hw Hc Ht Hq).
    assert (forget (Driver.held a d x t s) = forget s) as E.
    { unfold forget. cbn. by rewrite (insert_erase _ _ d). }
    pose proof (Hb (Driver.held a d x t s)) as H1. rewrite E, <- (Hb s) in H1.
    destruct (bodyK (Driver.held a d x t s)) as [[s1 r]|] eqn:E1;
      destruct (bodyK s) as [[s2 r2]|] eqn:E2; cbn in H1 |- *; try done.
    destruct (Hq _ _ _ E2) as [Hq1 _]. unfold forget1, forget in H1.
    cbn in H1. injection H1 as _ Hhw ->. unfold forget1, forget. cbn.
    rewrite (insert_erase _ _ d) by done. by rewrite Hq1, Hhw.
  - unfold Driver.locked. rewrite Hu, bind_ok. destruct (bodyK s) as [[s1 r]|]; done.
Qed.

(** A function that looks at the driver and then runs [body] under the mutex
    when a pointer is set and the driver is open. *)
Ltac access a :=
  rewrite deref_sim; cbn [deref];
  match goal with |- context [Driver.drivers ?s !! a] =>
    destruct (Driver.drivers s !! a) as [d|] eqn:Hd; [|done] end;
  cbn [rmap]; rewrite !bind_ok; cbn [erase eState pfControl pfDriverRead pfDriverWrite].

Lemma Control_sim p i x s :
  idle s →
  rmap forget1 (Driver.Driver_Control controlK env p i x s) = Driver_Control controlC p i x (forget s).
Proof.
  intros Hi. destruct p as [a|]; [|done]. unfold Driver.Driver_Control, Driver_Control. access a.
  destruct (Driver.pfControl d) as [f|]; [|done]. case_match; [|done].
  rewrite <- (locked_sim a d (controlK f a i x) (controlC f a i x) s); eauto.
  apply rmap_bind. by intros [s1 r].
Qed.

Lemma Read_sim p b n s :
  idle s →
  rmap forget1 (Driver.Driver_Read streamK env p b n s) = Driver_Read streamC p b n (forget s).
Proof.
  intros Hi. destruct p as [a|]; [|done]. unfold Driver.Driver_Read, Driver_Read. access a.
  destruct (Driver.pfDriverRead d) as [f|]; [|done]. case_match; [|done]. apply locked_sim; eauto.
Qed.

Lemma Write_sim p b n s :
  idle s →
  rmap forget1 (Driver.Driver_Write streamK env p b n s) = Driver_Write streamC p b n (forget s).
Proof.
  intros Hi. destruct p as [a|]; [|done]. unfold Driver.Driver_Write, Driver_Write. access a.
  destruct (Driver.pfDriverWrite d) as [f|]; [|done]. case_match; [|done]. apply locked_sim; eauto.
Qed.

(** The cooperative driver layer is the kernel's without the locking: from
    the same drivers, and with driver functions that correspond, every
    operation has the same result, fault and effect on drivers and hardware;
    the accesses do when no driver is in use. *)
Theorem coop_driver_equivalent s p n i x b m pf :
  rmap forget (Driver.Driver_Init callK p s) = Driver_Init callC p (forget s) ∧
  rmap forget (Driver.Driver_Start callK p s) = Driver_Start callC p (forget s) ∧
  rmap forget (Driver.Driver_Stop callK spinK n p s) = Driver_Stop callC spinC n p (forget s) ∧
  rmap forget (Driver.Driver_RemoveControlFunc p s) = Driver_RemoveControlFunc p (forget s) ∧
  rmap forget (Driver.Driver_AddControlFunc p pf s) = Driver_AddControlFunc p pf (forget s) ∧
  (idle s →
   rmap forget1 (Driver.Driver_Control controlK env p i x s) = Driver_Control controlC p i x (forget s) ∧
   rmap forget1 (Driver.Driver_Read streamK env p b m s) = Driver_Read streamC p b m (forget s) ∧
   rmap forget1 (Driver.Driver_Write streamK env p b m s) = Driver_Write streamC p b m (forget s)).
Proof.
  destruct (control_funcs_sim p pf s) as [H1 H2].
  split; [apply Init_sim|]. split; [apply Start_sim|]. split; [apply Stop_sim|].
  split; [exact H1|]. split; [exact H2|]. intros Hi.
  split; [by apply Control_sim|]. split; [by apply Read_sim|by apply Write_sim].
Qed.

End simulation.

(** An instance: the control function records its pointer in the hardware. *)
Lemma coop_driver_equivalent_witness :
  let controlK := λ (f : Z) (a : nat) (i x : Z) (s : @Driver.DSYS (list Z)),
    Ok (Driver.mkDSYS (Driver.drivers s) (Driver.kern s) (f :: Driver.hw s), 300) in
  let controlC := λ (f : Z) (a : nat) (i x : Z) (s : CSYS (list Z)),
    Ok (mkCSYS (drivers s) (f :: hw s), 300) in
  let d := Driver.mkDriver Driver.DRIVER_IDLE None None None (Some 7) None None (Mutex.mkMutex 1 0 NULL) true in
  let s := Driver.mkDSYS {[ 5%nat := d ]}
             (mkKernel {[ 1%nat := example_task 1 TASK_READY 4 (Some 1%nat) NULL ]} (Some 1%nat) 0 true 0 false ∅) [] in
  rmap forget1 (Driver.Driver_Control controlK (λ _ s, Ok s) (Some 5%nat) 0 0 s)
  = Ok (mkCSYS {[ 5%nat := erase d ]} [7], 44).
Proof.
  intros controlK controlC d s.
  destruct (coop_driver_equivalent (λ _ _ s, Ok s) (λ _ _ s, Ok s) (λ _ _ _, eq_refl) (λ s, s) (λ s, s)
    (λ _, eq_refl) controlK controlC (λ _ _ _ _ s, Ok (s, 0)) (λ _ _ _ _ s, Ok (s, 0)) (λ _ s, Ok s)
    (λ _ _ _ _ _, eq_refl) (λ _ _ _ _ _, eq_refl)) with s (Some 5%nat) 0%nat 0 0 (@nil Z) 0 (@None Z)
    as (_ & _ & _ & _ & _ & H).
  - intros f a i x s1 s2 r [= <- _]. done.
  - intros f a b n s1 s2 r [= <- _]. done.
  - destruct H as [H _]; [|exact H].
    split; [|by eexists _, _]. intros a d' Hd _. cbn [Driver.drivers s] in Hd.
    apply lookup_singleton_Some in Hd as [_ <-]. done.
Defined.

End CoopDriver.
