(* ===== verification/FunkRTC.v ===== *)
(** * FunkOS services: the real-time clock (modules/services/rtc.c)

    A calendar kept in bit fields and driven by adding system ticks.  The
    specification is the number of ticks since the start of year 0 of the
    Gregorian calendar. *)
From S2P Require Import Prelude FunkKernel.

Module RTC.

Definition RTC_TICK_PER_SECOND : Z := 1000.
Definition RTC_SEC_PER_MIN : Z := 60.
Definition RTC_MIN_PER_HOUR : Z := 60.
Definition RTC_HOUR_PER_DAY : Z := 24.
Definition RTC_MONTH_PER_YEAR : Z := 12.
Definition MONTH_FEBRUARY : Z := 1.

Definition ausDaysPerMonth : list Z := [31; 28; 31; 30; 31; 30; 31; 31; 30; 31; 30; 31].

(** Bit fields: 12, 4, 5, 5, 6, 6 and 16 bits wide. *)
Record RTC_STRUCT : Type := mkRTC {
  uiYear : Z;
  uiMonth : Z;
  uiDay : Z;
  uiHour : Z;
  uiMinute : Z;
  uiSecond : Z;
  uiTicks : Z
}.

Definition set_uiYear (v : Z) (r : RTC_STRUCT) : RTC_STRUCT :=
  mkRTC v (uiMonth r) (uiDay r) (uiHour r) (uiMinute r) (uiSecond r)
    (uiTicks r).
Definition set_uiMonth (v : Z) (r : RTC_STRUCT) : RTC_STRUCT :=
  mkRTC (uiYear r) v (uiDay r) (uiHour r) (uiMinute r) (uiSecond r) (uiTicks
    r).
Definition set_uiDay (v : Z) (r : RTC_STRUCT) : RTC_STRUCT :=
  mkRTC (uiYear r) (uiMonth r) v (uiHour r) (uiMinute r) (uiSecond r)
    (uiTicks r).
Definition set_uiHour (v : Z) (r : RTC_STRUCT) : RTC_STRUCT :=
  mkRTC (uiYear r) (uiMonth r) (uiDay r) v (uiMinute r) (uiSecond r)
    (uiTicks r).
Definition set_uiMinute (v : Z) (r : RTC_STRUCT) : RTC_STRUCT :=
  mkRTC (uiYear r) (uiMonth r) (uiDay r) (uiHour r) v (uiSecond r) (uiTicks
    r).
Definition set_uiSecond (v : Z) (r : RTC_STRUCT) : RTC_STRUCT :=
  mkRTC (uiYear r) (uiMonth r) (uiDay r) (uiHour r) (uiMinute r) v (uiTicks
    r).
Definition set_uiTicks (v : Z) (r : RTC_STRUCT) : RTC_STRUCT :=
  mkRTC (uiYear r) (uiMonth r) (uiDay r) (uiHour r) (uiMinute r) (uiSecond
    r) v.

(** A store to a bit field of [w] bits. *)
Definition bits (w v : Z) : Z := v `mod` 2 ^ w.

(** ** Operations *)

Definition RTC_Init (r : RTC_STRUCT) : RTC_STRUCT :=
  let r := set_uiYear 2009 r in
  let r := set_uiMonth 0 r in
  let r := set_uiDay 0 r in
  let r := set_uiHour 0 r in
  let r := set_uiMinute 0 r in
  let r := set_uiSecond 0 r in
  set_uiTicks 0 r.

Definition RTC_IsLeapYear (y : Z) : bool :=
  if y `mod` 400 =? 0 then true
  else if y `mod` 100 =? 0 then false
  else if y `mod` 4 =? 0 then true
  else false.

(** The body of the loop of [RTC_AddTime] after the ticks were subtracted;
    each [continue] of the code is an early result. *)
Definition add_second (r : RTC_STRUCT) : res RTC_STRUCT :=
  let r := set_uiSecond (bits 6 (uiSecond r + 1)) r in
  if uiSecond r <? RTC_SEC_PER_MIN then Ok r else
  let r := set_uiSecond 0 r in
  let r := set_uiMinute (bits 6 (uiMinute r + 1)) r in
  if uiMinute r <? RTC_MIN_PER_HOUR then Ok r else
  let r := set_uiMinute 0 r in
  let r := set_uiHour (bits 5 (uiHour r + 1)) r in
  if uiHour r <? RTC_HOUR_PER_DAY then Ok r else
  let r := set_uiHour 0 r in
  let r := set_uiDay (bits 5 (uiDay r + 1)) r in
  days ← aget ausDaysPerMonth (uiMonth r);
  if uiDay r <? days then Ok r else
  if (uiMonth r =? MONTH_FEBRUARY) && RTC_IsLeapYear (uiYear r) && (uiDay r <? days + 1) then Ok r else
  let r := set_uiDay 0 r in
  let r := set_uiMonth (bits 4 (uiMonth r + 1)) r in
  if uiMonth r <? RTC_MONTH_PER_YEAR then Ok r else
  let r := set_uiMonth 0 r in
  Ok (set_uiYear (bits 12 (uiYear r + 1)) r).

Fixpoint add_loop (fuel : nat) (r : RTC_STRUCT) : res RTC_STRUCT :=
  match fuel with
  | O => Fault OutOfFuel
  | S fuel =>
      if RTC_TICK_PER_SECOND <=? uiTicks r then
        r ← add_second (set_uiTicks (bits 16 (uiTicks r - RTC_TICK_PER_SECOND)) r);
        add_loop fuel r
      else Ok r
  end.

(** At most 65 turns: the tick field has 16 bits. *)
Definition RTC_AddTime (r : RTC_STRUCT) (ticks : Z) : res RTC_STRUCT :=
  add_loop 66 (set_uiTicks (bits 16 (uiTicks r + ticks)) r).

Definition RTC_SetYear (r : RTC_STRUCT) (v : Z) : RTC_STRUCT := set_uiYear (bits 12 v) r.
Definition RTC_SetMonth (r : RTC_STRUCT) (v : Z) : RTC_STRUCT := set_uiMonth (bits 4 v) r.
Definition RTC_SetDay (r : RTC_STRUCT) (v : Z) : RTC_STRUCT := set_uiDay (bits 5 (v - 1)) r.
Definition RTC_SetHour (r : RTC_STRUCT) (v : Z) : RTC_STRUCT := set_uiHour (bits 5 v) r.
Definition RTC_SetMinute (r : RTC_STRUCT) (v : Z) : RTC_STRUCT := set_uiMinute (bits 6 v) r.
Definition RTC_SetSecond (r : RTC_STRUCT) (v : Z) : RTC_STRUCT := set_uiSecond (bits 6 v) r.
Definition RTC_SetTicks (r : RTC_STRUCT) (v : Z) : RTC_STRUCT := set_uiTicks (bits 16 v) r.

(** ** Specification *)

(** Days of the years before [y]. *)
Definition days_before_year (y : Z) : Z :=
  365 * y + (y + 3) / 4 - (y + 99) / 100 + (y + 399) / 400.

Definition leap_day (y : Z) : Z := if RTC_IsLeapYear y then 1 else 0.

Definition month_days (y m : Z) : Z :=
  nth (Z.to_nat m) ausDaysPerMonth 0 + if m =? MONTH_FEBRUARY then leap_day y else 0.

(** Days of the months of year [y] before month [m]. *)
Definition days_before_month (y m : Z) : Z :=
  foldr Z.add 0 (take (Z.to_nat m) ausDaysPerMonth) + if MONTH_FEBRUARY <? m then leap_day y else 0.

Definition seconds (r : RTC_STRUCT) : Z :=
  uiSecond r + 60 * (uiMinute r + 60 * (uiHour r + 24 *
    (uiDay r + days_before_month (uiYear r) (uiMonth r) + days_before_year (uiYear r)))).

(** Ticks since the start of year 0. *)
Definition timestamp (r : RTC_STRUCT) : Z := RTC_TICK_PER_SECOND * seconds r + uiTicks r.

Definition valid (r : RTC_STRUCT) : Prop :=
  0 <= uiYear r ∧ 0 <= uiMonth r < 12 ∧ 0 <= uiDay r < month_days (uiYear r) (uiMonth r) ∧
  0 <= uiHour r < 24 ∧ 0 <= uiMinute r < 60 ∧ 0 <= uiSecond r < 60 ∧ 0 <= uiTicks r < 65536.

(** ** Correctness *)

(** The Gregorian rule agrees with the day count. *)
Lemma leap_year_days y : 0 <= y → days_before_year (y + 1) = days_before_year y + 365 + leap_day y.
Proof.
  intros Hy. unfold days_before_year, leap_day, RTC_IsLeapYear.
  destruct (Z.eqb_spec (y `mod` 400) 0); [dlia|].
  destruct (Z.eqb_spec (y `mod` 100) 0); [dlia|].
  destruct (Z.eqb_spec (y `mod` 4) 0); dlia.
Qed.

Lemma month_cases (P : Z → Prop) m :
  P 0 → P 1 → P 2 → P 3 → P 4 → P 5 → P 6 → P 7 → P 8 → P 9 → P 10 → P 11 →
  0 <= m < 12 → P m.
Proof.
  intros. assert (m = 0 ∨ m = 1 ∨ m = 2 ∨ m = 3 ∨ m = 4 ∨ m = 5 ∨ m = 6 ∨ m = 7 ∨ m = 8 ∨
    m = 9 ∨ m = 10 ∨ m = 11) as Hm by lia.
  repeat destruct Hm as [->|Hm]; [done..|by subst].
Qed.

(** Evaluates the month arithmetic on a literal month. *)
Ltac zeval :=
  repeat match goal with
  | |- context [Z.to_nat ?x] => let v := eval vm_compute in (Z.to_nat x) in change (Z.to_nat x) with v
  | |- context [MONTH_FEBRUARY <? ?x] =>
      let v := eval vm_compute in (MONTH_FEBRUARY <? x) in change (MONTH_FEBRUARY <? x) with v
  | |- context [?x =? MONTH_FEBRUARY] =>
      let v := eval vm_compute in (x =? MONTH_FEBRUARY) in change (x =? MONTH_FEBRUARY) with v
  end;
  cbn [foldr take ausDaysPerMonth nth].

Lemma month_next y m :
  0 <= m < 11 → days_before_month y (m + 1) = days_before_month y m + month_days y m.
Proof.
  intros Hm. assert (0 <= m < 12) as H12 by lia. revert Hm. pattern m.
  apply month_cases; try exact H12; clear H12; intros; try lia; unfold days_before_month, month_days; zeval; lia.
Qed.

Lemma month_last y : days_before_month y 11 + month_days y 11 = 365 + leap_day y.
Proof. unfold days_before_month, month_days. zeval. lia. Qed.

Lemma month_table y m :
  0 <= m < 12 →
  ∃ days, aget ausDaysPerMonth m = Ok days ∧ 28 <= days <= 31 ∧
    (m = 1 → days = 28) ∧
    month_days y m = days + if m =? MONTH_FEBRUARY then leap_day y else 0.
Proof.
  intros Hm. pattern m. apply month_cases; try exact Hm; eexists; (split; [reflexivity|]);
    (split; [lia|]); (split; [lia|]); reflexivity.
Qed.

Lemma leap_day_range y : 0 <= leap_day y <= 1.
Proof. unfold leap_day. case_match; lia. Qed.

(** One second is added, across every rollover. *)
Lemma add_second_spec r :
  valid r → uiYear r < 4095 →
  ∃ r', add_second r = Ok r' ∧ seconds r' = seconds r + 1 ∧ valid r' ∧ uiTicks r' = uiTicks r ∧
    uiYear r' <= uiYear r + 1.
Proof.
  intros (Hy & Hm & Hd & Hh & Hmi & Hs & Ht) Hy'. destruct r as [y m d h mi s t].
  cbn [uiYear uiMonth uiDay uiHour uiMinute uiSecond uiTicks] in *.
  destruct (month_table y m Hm) as (days & Hget & Hdays & Hfeb & Hmd).
  pose proof (leap_day_range y) as Hleap.
  assert (∀ w v, 0 <= v < 2 ^ w → bits w v = v) as Hbits by (intros; by apply Z.mod_small).
  unfold add_second, RTC_SEC_PER_MIN, RTC_MIN_PER_HOUR, RTC_HOUR_PER_DAY, RTC_MONTH_PER_YEAR.
  cbn [uiSecond set_uiSecond uiMinute set_uiMinute uiHour set_uiHour uiDay set_uiDay uiMonth set_uiMonth
       uiYear set_uiYear uiTicks set_uiTicks].
  rewrite (Hbits 6 (s + 1)) by lia.
  destruct (Z.ltb_spec (s + 1) 60).
  { eexists. split; [done|]. unfold seconds, valid. cbn -[days_before_month month_days Z.mul]. lia. }
  rewrite (Hbits 6 (mi + 1)) by lia. destruct (Z.ltb_spec (mi + 1) 60).
  { eexists. split; [done|]. unfold seconds, valid. cbn -[days_before_month month_days Z.mul]. lia. }
  rewrite (Hbits 5 (h + 1)) by lia. destruct (Z.ltb_spec (h + 1) 24).
  { eexists. split; [done|]. unfold seconds, valid. cbn -[days_before_month month_days Z.mul]. lia. }
  rewrite Hget, bind_ok.
  assert (days + (if m =? MONTH_FEBRUARY then leap_day y else 0) <= 31) as Hmax.
  { unfold MONTH_FEBRUARY. destruct (Z.eqb_spec m 1); [rewrite Hfeb by done|]; lia. }
  rewrite (Hbits 5 (d + 1)) by lia. destruct (Z.ltb_spec (d + 1) days).
  { eexists. split; [done|]. unfold seconds, valid. cbn -[days_before_month month_days Z.mul].
    destruct (m =? MONTH_FEBRUARY); lia. }
  destruct ((m =? MONTH_FEBRUARY) && RTC_IsLeapYear y && (d + 1 <? days + 1)) eqn:Efeb.
  { eexists. split; [done|]. unfold seconds, valid. cbn -[days_before_month month_days Z.mul].
    apply andb_prop in Efeb as [[E1 E2]%andb_prop E3]. unfold leap_day in Hmd. rewrite E1, E2 in Hmd.
    zb. lia. }
  assert (d + 1 = month_days y m) as Hend.
  { rewrite Hmd. unfold leap_day in *. destruct (m =? MONTH_FEBRUARY); [|lia].
    destruct (RTC_IsLeapYear y); cbn in Efeb; zb; lia. }
  rewrite (Hbits 4 (m + 1)) by lia. destruct (Z.ltb_spec (m + 1) 12).
  { eexists. split; [done|]. unfold seconds, valid. cbn -[days_before_month month_days Z.mul].
    rewrite month_next by lia.
    destruct (month_table y (m + 1)) as (days' & _ & ? & _ & ->); [lia|].
    destruct (m + 1 =? MONTH_FEBRUARY); lia. }
  assert (m = 11) as -> by lia. rewrite (Hbits 12 (y + 1)) by lia.
  eexists. split; [done|]. unfold seconds, valid. cbn -[days_before_month month_days Z.mul days_before_year].
  rewrite leap_year_days by lia. pose proof (month_last y) as Hlast.
  assert (days_before_month (y + 1) 0 = 0) as -> by done.
  assert (month_days (y + 1) 0 = 31) as -> by done. lia.
Qed.

Lemma add_loop_spec (n : nat) fuel r :
  valid r → uiTicks r / 1000 = Z.of_nat n → (n < fuel)%nat → uiYear r + Z.of_nat n < 4096 →
  ∃ r', add_loop fuel r = Ok r' ∧ timestamp r' = timestamp r ∧ valid r' ∧ uiTicks r' < 1000.
Proof.
  revert fuel r. induction n as [|n IH]; intros fuel r Hv Hn Hf Hy;
    (destruct fuel as [|fuel]; [lia|]); cbn [add_loop]; unfold RTC_TICK_PER_SECOND in *.
  - destruct (Z.leb_spec 1000 (uiTicks r)); [dlia|]. exists r. done.
  - destruct (Z.leb_spec 1000 (uiTicks r)); [|destruct Hv; dlia].
    set (r1 := set_uiTicks _ r). assert (uiTicks r1 = uiTicks r - 1000) as Ht1.
    { subst r1. cbn [uiTicks set_uiTicks]. apply Z.mod_small. destruct Hv. lia. }
    assert (valid r1) as Hv1 by (unfold valid in *; rewrite Ht1; subst r1; cbn in *; lia).
    assert (uiYear r1 = uiYear r) as Hy1 by done.
    destruct (add_second_spec r1 Hv1) as (r2 & -> & Hs2 & Hv2 & Ht2 & Hy2); [lia|]. rewrite bind_ok.
    destruct (IH fuel r2 Hv2) as (r3 & E & Hts & Hv3 & Ht3); [rewrite Ht2, Ht1; dlia|lia|lia|].
    exists r3. split; [done|]. split; [|done]. rewrite Hts. unfold timestamp.
    rewrite Hs2, Ht2, Ht1. assert (seconds r1 = seconds r) as -> by done.
    unfold RTC_TICK_PER_SECOND. lia.
Qed.

(** The clock keeps time: adding ticks to a valid clock always ends within
    the 65 seconds the tick field can hold, advances the calendar by exactly
    that many ticks across every rollover (seconds to years, leap years
    included), and leaves a valid clock with less than a second of ticks,
    provided the tick field does not overflow and the year stays below 4096. *)
Theorem RTC_AddTime_exact r n :
  valid r → 0 <= n → uiTicks r + n < 65536 → uiYear r < 4030 →
  ∃ r', RTC_AddTime r n = Ok r' ∧ timestamp r' = timestamp r + n ∧ valid r' ∧ uiTicks r' < 1000.
Proof.
  intros Hv Hn Ht Hy. unfold RTC_AddTime. set (r1 := set_uiTicks _ r).
  assert (uiTicks r1 = uiTicks r + n) as Ht1.
  { subst r1. cbn [uiTicks set_uiTicks]. apply Z.mod_small. destruct Hv. lia. }
  assert (valid r1) as Hv1 by (unfold valid in *; rewrite Ht1; subst r1; cbn in *; lia).
  destruct (add_loop_spec (Z.to_nat (uiTicks r1 / 1000)) 66 r1 Hv1) as (r2 & E & Hts & Hv2 & Ht2).
  { rewrite Z2Nat.id; [done|]. destruct Hv1. dlia. }
  { destruct Hv1. dlia. }
  { assert (uiYear r1 = uiYear r) as -> by done. rewrite Z2Nat.id by (destruct Hv1; dlia). dlia. }
  exists r2. split; [done|]. split; [|done]. rewrite Hts. unfold timestamp.
  assert (seconds r1 = seconds r) as -> by done. lia.
Qed.

Lemma RTC_AddTime_exact_witness :
  let r := mkRTC 4 1 28 23 59 59 990 in
  ∃ r', RTC_AddTime r 20 = Ok r' ∧ timestamp r' = timestamp r + 20.
Proof.
  intros r. destruct (RTC_AddTime_exact r 20) as (r' & H1 & H2 & _).
  - repeat split; vm_compute; discriminate || reflexivity.
  - done.
  - done.
  - done.
  - eauto.
Defined.

(** Ticks are lost when the tick field overflows: whatever the clock shows,
    adding [n] to a tick count [t] with t + n >= 65536 has the effect of
    adding n - 65536. *)
Theorem RTC_AddTime_overflow r n :
  uiTicks r + n < 131072 → 65536 <= uiTicks r + n →
  RTC_AddTime r n = RTC_AddTime r (n - 65536).
Proof.
  intros H1 H2. unfold RTC_AddTime, bits. do 2 f_equal.
  replace (uiTicks r + (n - 65536)) with (uiTicks r + n + (-1) * 2 ^ 16) by lia.
  symmetry. apply Z.mod_add. lia.
Qed.

End RTC.
