(* ===== verification/FunkPTask.v ===== *)
(** * FunkOS: cooperative tasks (modules/cooperative/ptask.c)

    Tasks with a priority and a circular event queue, run to completion by
    a loop that serves the highest priority first.  The event handlers are
    functions of the application: parameters that may change the queues and
    their own state [W]. *)
From S2P Require Import Prelude FunkKernel.

Module PTask.

Record PTASK_EVENT_STRUCT : Type := mkQueue {
  pusEventID : list Z;
  pusEventData : list Z;
  ucNumEvents : Z;
  ucHead : Z;
  ucTail : Z
}.

Definition set_pusEventID (v : list Z) (r : PTASK_EVENT_STRUCT) : PTASK_EVENT_STRUCT :=
  mkQueue v (pusEventData r) (ucNumEvents r) (ucHead r) (ucTail r).
Definition set_pusEventData (v : list Z) (r : PTASK_EVENT_STRUCT) : PTASK_EVENT_STRUCT :=
  mkQueue (pusEventID r) v (ucNumEvents r) (ucHead r) (ucTail r).
Definition set_ucNumEvents (v : Z) (r : PTASK_EVENT_STRUCT) : PTASK_EVENT_STRUCT :=
  mkQueue (pusEventID r) (pusEventData r) v (ucHead r) (ucTail r).
Definition set_ucHead (v : Z) (r : PTASK_EVENT_STRUCT) : PTASK_EVENT_STRUCT :=
  mkQueue (pusEventID r) (pusEventData r) (ucNumEvents r) v (ucTail r).
Definition set_ucTail (v : Z) (r : PTASK_EVENT_STRUCT) : PTASK_EVENT_STRUCT :=
  mkQueue (pusEventID r) (pusEventData r) (ucNumEvents r) (ucHead r) v.

Record PTASK_STRUCT : Type := mkPTask {
  ucPriority : Z;
  pstEvents : ptr;
  pfHandler : option Z
}.

Definition set_ucPriority (v : Z) (r : PTASK_STRUCT) : PTASK_STRUCT :=
  mkPTask v (pstEvents r) (pfHandler r).
Definition set_pstEvents (v : ptr) (r : PTASK_STRUCT) : PTASK_STRUCT :=
  mkPTask (ucPriority r) v (pfHandler r).
Definition set_pfHandler (v : option Z) (r : PTASK_STRUCT) : PTASK_STRUCT :=
  mkPTask (ucPriority r) (pstEvents r) v.

Record PTASK_LIST_STRUCT : Type := mkList {
  ucSize : Z;
  ucCurrentTask : Z;
  pstTasks : list ptr
}.

Definition set_ucSize (v : Z) (r : PTASK_LIST_STRUCT) : PTASK_LIST_STRUCT :=
  mkList v (ucCurrentTask r) (pstTasks r).
Definition set_ucCurrentTask (v : Z) (r : PTASK_LIST_STRUCT) : PTASK_LIST_STRUCT :=
  mkList (ucSize r) v (pstTasks r).
Definition set_pstTasks (v : list ptr) (r : PTASK_LIST_STRUCT) : PTASK_LIST_STRUCT :=
  mkList (ucSize r) (ucCurrentTask r) v.

Section ptask.
Context {W : Type}.

(** The event queues, the tasks, and the state of the application. *)
Record PSYS : Type := mkPSYS {
  queues : gmap nat PTASK_EVENT_STRUCT;
  tasks : gmap nat PTASK_STRUCT;
  app : W
}.

(** [handler f task id data] is the function at [f] called on an event. *)
Context (handler : Z → nat → Z → Z → PSYS → res PSYS).

Definition upd_queue (p : ptr) (f : PTASK_EVENT_STRUCT → PTASK_EVENT_STRUCT) (s : PSYS) : res PSYS :=
  m ← assign (queues s) p f; Ok (mkPSYS m (tasks s) (app s)).

(** ** Operations *)

Definition PTask_InitTask (p : ptr) (events : ptr) (h : option Z) (prio : Z) (s : PSYS) : res PSYS :=
  m ← assign (tasks s) p (fun t => set_pfHandler h (set_pstEvents events (set_ucPriority prio t)));
  Ok (mkPSYS (queues s) m (app s)).

Definition PTask_InitEventQueue (p : ptr) (ids datas : list Z) (size : Z) (s : PSYS) : res PSYS :=
  ids ← forM (zseq 0 size) (fun i l => aset l i 0) ids;
  datas ← forM (zseq 0 size) (fun i l => aset l i 0) datas;
  upd_queue p (fun _ => mkQueue ids datas size 0 0) s.

Definition PTask_InitTaskList (l : PTASK_LIST_STRUCT) (tasks : list ptr) (size : Z) : PTASK_LIST_STRUCT :=
  set_pstTasks tasks (set_ucCurrentTask 0 (set_ucSize size l)).

Definition PTask_AddTaskToList (l : PTASK_LIST_STRUCT) (p : ptr) : res (PTASK_LIST_STRUCT * bool) :=
  r ← search (fun e => bool_decide (e = NULL)) (pstTasks l) (zseq 0 (ucSize l));
  match r with
  | None => Ok (l, false)
  | Some (i, _) => ts ← aset (pstTasks l) i p; Ok (set_pstTasks ts l, true)
  end.

(** [PTask_QueueEvent] on the queue itself. *)
Definition queue_event (id data : Z) (q : PTASK_EVENT_STRUCT) : res (PTASK_EVENT_STRUCT * bool) :=
  if ucNumEvents q =? 1 then
    ids ← aset (pusEventID q) 0 id;
    datas ← aset (pusEventData q) 0 data;
    Ok (mkQueue ids datas (ucNumEvents q) 0 1, true)
  else
    let ucNextHead := u8 (ucHead q + 1) in
    let ucNextHead := if ucNumEvents q <=? ucNextHead then 0 else ucNextHead in
    if ucNextHead =? ucTail q then Ok (q, false)
    else
      ids ← aset (pusEventID q) (ucHead q) id;
      datas ← aset (pusEventData q) (ucHead q) data;
      Ok (mkQueue ids datas (ucNumEvents q) ucNextHead (ucTail q), true).

Definition PTask_QueueEvent (p : ptr) (id data : Z) (s : PSYS) : res (PSYS * bool) :=
  t ← deref (tasks s) p;
  q ← deref (queues s) (pstEvents t);
  '(q, b) ← queue_event id data q;
  s ← upd_queue (pstEvents t) (fun _ => q) s;
  Ok (s, b).

Definition events_pending (q : PTASK_EVENT_STRUCT) : bool :=
  if ucNumEvents q =? 1 then ucTail q =? 1 else negb (ucHead q =? ucTail q).

Definition PTask_AreEventsPending (p : ptr) (s : PSYS) : res bool :=
  t ← deref (tasks s) p;
  q ← deref (queues s) (pstEvents t);
  Ok (events_pending q).

(** [PTask_ReadEvent] on the queue itself: the event read, if any. *)
Definition read_event (q : PTASK_EVENT_STRUCT) : res (PTASK_EVENT_STRUCT * option (Z * Z)) :=
  if ucNumEvents q =? 1 then
    if ucTail q =? 1 then
      id ← aget (pusEventID q) (ucTail q);
      data ← aget (pusEventData q) (ucTail q);
      Ok (set_ucTail 0 q, Some (id, data))
    else Ok (q, None)
  else if negb (ucHead q =? ucTail q) then
    id ← aget (pusEventID q) (ucTail q);
    data ← aget (pusEventData q) (ucTail q);
    let ucNextTail := u8 (ucTail q + 1) in
    let ucNextTail := if ucNumEvents q <=? ucNextTail then 0 else ucNextTail in
    Ok (set_ucTail ucNextTail q, Some (id, data))
  else Ok (q, None).

Definition PTask_ReadEvent (p : ptr) (s : PSYS) : res (PSYS * option (Z * Z)) :=
  t ← deref (tasks s) p;
  q ← deref (queues s) (pstEvents t);
  '(q, e) ← read_event q;
  s ← upd_queue (pstEvents t) (fun _ => q) s;
  Ok (s, e).

(** ** The loop *)

(** Loop 1: the highest priority with pending events. *)
Definition max_entry (s : PSYS) (e : ptr) (max : Z) : res Z :=
  match e with
  | None => Ok max
  | Some _ =>
      t ← deref (tasks s) e;
      if max <? ucPriority t then
        b ← PTask_AreEventsPending e s;
        Ok (if b : bool then ucPriority t else max)
      else Ok max
  end.

(** The inner loop: run all events of one task. *)
Fixpoint run_task (fuel : nat) (p : ptr) (s : PSYS) (bExecute : bool) : res (PSYS * bool) :=
  match fuel with
  | O => Fault OutOfFuel
  | S fuel =>
      '(s, e) ← PTask_ReadEvent p s;
      match e with
      | None => Ok (s, bExecute)
      | Some (id, data) =>
          t ← deref (tasks s) p;
          s ← match pfHandler t with
              | None => Fault NullCall
              | Some f => handler f (default 0%nat p) id data s
              end;
          run_task fuel p s true
      end
  end.

(** Loop 2: run the tasks of this priority. *)
Definition exec_entry (fuel : nat) (max : Z) (e : ptr) (x : PSYS * bool) : res (PSYS * bool) :=
  let '(s, bExecute) := x in
  match e with
  | None => Ok x
  | Some _ =>
      t ← deref (tasks s) e;
      if ucPriority t =? max then run_task fuel e s bExecute else Ok x
  end.

Fixpoint PTask_Loop (fuel : nat) (l : PTASK_LIST_STRUCT) (s : PSYS) : res PSYS :=
  match fuel with
  | O => Fault OutOfFuel
  | S fuel' =>
      max ← forM (zseq 0 (ucSize l)) (fun i max => e ← aget (pstTasks l) i; max_entry s e max) 0;
      '(s, bExecute) ← forM (zseq 0 (ucSize l))
                         (fun i x => e ← aget (pstTasks l) i; exec_entry fuel max e x) (s, false);
      if bExecute : bool then PTask_Loop fuel' l s else Ok s
  end.

(** ** The queue is a FIFO *)

(** The slot [i] places after [tail]. *)
Definition slot (n tail i : Z) : Z := if tail + i <? n then tail + i else tail + i - n.

(** The queue holds the events [l], oldest first; one slot stays free. *)
Definition rep (q : PTASK_EVENT_STRUCT) (l : list (Z * Z)) : Prop :=
  2 <= ucNumEvents q <= 255 ∧
  Z.of_nat (length (pusEventID q)) = ucNumEvents q ∧ Z.of_nat (length (pusEventData q)) = ucNumEvents q ∧
  0 <= ucTail q < ucNumEvents q ∧ Z.of_nat (length l) < ucNumEvents q ∧
  ucHead q = slot (ucNumEvents q) (ucTail q) (Z.of_nat (length l)) ∧
  ∀ i e, l !! i = Some e →
    pusEventID q !! Z.to_nat (slot (ucNumEvents q) (ucTail q) (Z.of_nat i)) = Some (e.1) ∧
    pusEventData q !! Z.to_nat (slot (ucNumEvents q) (ucTail q) (Z.of_nat i)) = Some (e.2).

Lemma slot_range n t i : 0 <= t < n → 0 <= i < n → 0 <= slot n t i < n.
Proof. unfold slot. destruct (Z.ltb_spec (t + i) n); lia. Qed.

Lemma slot_inj n t i j : 0 <= t < n → 0 <= i < n → 0 <= j < n → slot n t i = slot n t j → i = j.
Proof. unfold slot. destruct (Z.ltb_spec (t + i) n), (Z.ltb_spec (t + j) n); lia. Qed.

Lemma slot_succ n t i :
  0 <= t < n → 0 <= i < n - 1 → n <= 255 →
  slot n t (i + 1) = (if n <=? u8 (slot n t i + 1) then 0 else u8 (slot n t i + 1)).
Proof.
  intros Ht Hi Hn. pose proof (slot_range n t i Ht ltac:(lia)) as Hr. rewrite u8_small by lia.
  destruct (Z.leb_spec n (slot n t i + 1)); unfold slot in *;
    destruct (Z.ltb_spec (t + i) n), (Z.ltb_spec (t + (i + 1)) n); lia.
Qed.

Lemma queue_event_full q l id data :
  rep q l → Z.of_nat (length l) = ucNumEvents q - 1 → queue_event id data q = Ok (q, false).
Proof.
  intros (Hn & _ & _ & Ht & _ & Hh & _) Hl. unfold queue_event.
  destruct (Z.eqb_spec (ucNumEvents q) 1) as [?|_]; [lia|].
  assert ((if ucNumEvents q <=? u8 (ucHead q + 1) then 0 else u8 (ucHead q + 1)) = ucTail q) as ->;
    [|by rewrite Z.eqb_refl].
  rewrite Hh, Hl. rewrite u8_small by (unfold slot; destruct (Z.ltb_spec (ucTail q + (ucNumEvents q - 1)) (ucNumEvents q)); lia).
  unfold slot. destruct (Z.ltb_spec (ucTail q + (ucNumEvents q - 1)) (ucNumEvents q)); case_match; zb; lia.
Qed.

Lemma queue_event_room q l id data :
  rep q l → Z.of_nat (length l) < ucNumEvents q - 1 →
  ∃ q', queue_event id data q = Ok (q', true) ∧ rep q' (l ++ [(id, data)]) ∧ ucNumEvents q' = ucNumEvents q.
Proof.
  intros (Hn & Hi & Hd & Ht & Hlt & Hh & Hl) Hroom. unfold queue_event.
  destruct (Z.eqb_spec (ucNumEvents q) 1) as [?|_]; [lia|]. rewrite Hh.
  rewrite <- slot_succ by lia. set (n := ucNumEvents q) in *. set (t := ucTail q) in *.
  set (k := Z.of_nat (length l)) in *.
  pose proof (slot_range n t k Ht ltac:(lia)) as Hr. pose proof (slot_range n t (k + 1) Ht ltac:(lia)) as Hr'.
  destruct (Z.eqb_spec (slot n t (k + 1)) t) as [E|_].
  { unfold slot in E. destruct (Z.ltb_spec (t + (k + 1)) n); lia. }
  rewrite !aset_in, !bind_ok by lia. eexists. split; [done|]. split; [|done].
  unfold rep. cbn [ucNumEvents ucTail ucHead pusEventID pusEventData]. rewrite !length_insert, length_app.
  cbn [length]. fold n t. repeat (split; [lia|]). split; [f_equal; lia|].
  intros i e Hie. apply lookup_app_Some in Hie as [Hie|[Hge Hie]].
  - assert (i < length l)%nat by (by eapply lookup_lt_Some).
    assert (slot n t (Z.of_nat i) ≠ slot n t k) as Hne by (intros E; apply slot_inj in E; lia).
    pose proof (slot_range n t (Z.of_nat i) Ht ltac:(lia)).
    rewrite !list_lookup_insert_ne by lia. by apply Hl.
  - assert (i = length l ∧ e = (id, data)) as [-> ->].
    { destruct (i - length l)%nat eqn:Ei; cbn in Hie; [|done]. simplify_eq. split; [lia|done]. }
    fold k. rewrite !list_lookup_insert_eq by lia. done.
Qed.

Lemma read_event_nil q : rep q [] → read_event q = Ok (q, None).
Proof.
  intros (Hn & _ & _ & Ht & _ & Hh & _). unfold read_event.
  destruct (Z.eqb_spec (ucNumEvents q) 1) as [?|_]; [lia|].
  assert (ucHead q = ucTail q) as ->; [|by rewrite Z.eqb_refl].
  rewrite Hh. cbn [length]. change (Z.of_nat 0) with 0. unfold slot. destruct (Z.ltb_spec (ucTail q + 0) (ucNumEvents q)); lia.
Qed.

Lemma read_event_cons q e l :
  rep q (e :: l) → ∃ q', read_event q = Ok (q', Some e) ∧ rep q' l ∧ ucNumEvents q' = ucNumEvents q.
Proof.
  intros (Hn & Hi & Hd & Ht & Hlt & Hh & Hl). cbn [length] in *. unfold read_event.
  destruct (Z.eqb_spec (ucNumEvents q) 1) as [?|_]; [lia|].
  set (n := ucNumEvents q) in *. set (t := ucTail q) in *.
  assert (slot n t 0 = t) as H0 by (unfold slot; destruct (Z.ltb_spec (t + 0) n); lia).
  destruct (Z.eqb_spec (ucHead q) t) as [E|_]; cbn [negb].
  { rewrite Hh in E. assert (slot n t (Z.of_nat (S (length l))) = slot n t 0) as E' by lia.
    apply slot_inj in E'; lia. }
  destruct (Hl 0%nat e eq_refl) as [He1 He2]. change (Z.of_nat 0) with 0 in *. rewrite H0 in He1, He2.
  rewrite !(aget_in _ t _ ltac:(lia) He1), !(aget_in _ t _ ltac:(lia) He2), !bind_ok.
  assert ((if n <=? u8 (t + 1) then 0 else u8 (t + 1)) = slot n t 1) as ->.
  { pose proof (slot_succ n t 0 Ht ltac:(lia) ltac:(lia)) as Hs. rewrite H0 in Hs. by rewrite <- Hs. }
  assert (∀ i, 0 <= i < n - 1 → slot n (slot n t 1) i = slot n t (i + 1)) as Hshift.
  { intros i Hi'. unfold slot. destruct (Z.ltb_spec (t + 1) n).
    - replace (t + 1 + i) with (t + (i + 1)) by lia. done.
    - destruct (Z.ltb_spec (t + 1 - n + i) n), (Z.ltb_spec (t + (i + 1)) n); lia. }
  eexists. split; [by rewrite <- surjective_pairing|]. split; [|done].
  unfold rep. cbn [ucNumEvents ucTail ucHead pusEventID pusEventData set_ucTail]. fold n.
  do 3 (split; [done|]). split; [apply slot_range; lia|]. split; [lia|]. split.
  - rewrite Hh, Hshift by lia. f_equal. lia.
  - intros i e' Hi'. assert (i < length l)%nat by (by eapply lookup_lt_Some).
    rewrite Hshift by lia. replace (Z.of_nat i + 1) with (Z.of_nat (S i)) by lia. by apply Hl.
Qed.

Lemma pending_rep q l : rep q l → events_pending q = bool_decide (l ≠ []).
Proof.
  intros (Hn & _ & _ & Ht & Hlt & Hh & _). unfold events_pending.
  destruct (Z.eqb_spec (ucNumEvents q) 1) as [?|_]; [lia|]. rewrite Hh.
  assert (slot (ucNumEvents q) (ucTail q) 0 = ucTail q) as H0.
  { unfold slot. destruct (Z.ltb_spec (ucTail q + 0) (ucNumEvents q)); lia. }
  destruct l as [|e l]; cbn [length].
  - change (Z.of_nat 0) with 0. by rewrite H0, Z.eqb_refl.
  - destruct (Z.eqb_spec (slot (ucNumEvents q) (ucTail q) (Z.of_nat (S (length l)))) (ucTail q)) as [E|_]; [|done].
    cbn [length] in Hlt. rewrite <- H0 in E at 2. apply slot_inj in E; lia.
Qed.

End ptask.

Arguments PSYS : clear implicits.

(** ** Specification of the queue *)

Inductive qop : Type := QueueEvent (id data : Z) | ReadEvent.

(** A bounded FIFO of [n] - 1 events: the answer of each operation. *)
Definition fifo_step (n : Z) (l : list (Z * Z)) (op : qop) : list (Z * Z) * (bool * option (Z * Z)) :=
  match op with
  | QueueEvent id data =>
      if decide (Z.of_nat (length l) < n - 1) then (l ++ [(id, data)], (true, None)) else (l, (false, None))
  | ReadEvent =>
      match l with [] => ([], (false, None)) | e :: l => (l, (true, Some e)) end
  end.

Fixpoint fifo_run (n : Z) (l : list (Z * Z)) (ops : list qop) : list (bool * option (Z * Z)) :=
  match ops with
  | [] => []
  | op :: ops => (fifo_step n l op).2 :: fifo_run n (fifo_step n l op).1 ops
  end.

Definition queue_step {W} (p : ptr) (op : qop) (s : PSYS W) : res (PSYS W * (bool * option (Z * Z))) :=
  match op with
  | QueueEvent id data => '(s, b) ← PTask_QueueEvent p id data s; Ok (s, (b, None))
  | ReadEvent => '(s, e) ← PTask_ReadEvent p s; Ok (s, (bool_decide (is_Some e), e))
  end.

Fixpoint queue_run {W} (p : ptr) (ops : list qop) (s : PSYS W) : res (list (bool * option (Z * Z))) :=
  match ops with
  | [] => Ok []
  | op :: ops => '(s, r) ← queue_step p op s; rs ← queue_run p ops s; Ok (r :: rs)
  end.

Lemma upd_queue_some {W} a q f (s : PSYS W) :
  queues s !! a = Some q → upd_queue (Some a) f s = Ok (mkPSYS (<[a := f q]> (queues s)) (tasks s) (app s)).
Proof. intros H. unfold upd_queue. by rewrite (assign_some _ _ _ _ H). Qed.

Lemma queue_step_fifo {W} p t a q l op (s : PSYS W) :
  tasks s !! p = Some t → pstEvents t = Some a → queues s !! a = Some q → rep q l →
  ∃ s' q', queue_step (Some p) op s = Ok (s', (fifo_step (ucNumEvents q) l op).2) ∧
    tasks s' = tasks s ∧ queues s' !! a = Some q' ∧ ucNumEvents q' = ucNumEvents q ∧
    rep q' (fifo_step (ucNumEvents q) l op).1.
Proof.
  intros Ht Ha Hq Hrep. destruct op as [id data|]; cbn [queue_step].
  - unfold PTask_QueueEvent. rewrite (deref_some _ _ _ Ht), bind_ok, Ha, (deref_some _ _ _ Hq), bind_ok.
    cbn [fifo_step]. destruct (decide (Z.of_nat (length l) < ucNumEvents q - 1)) as [Hlt|Hge].
    + destruct (queue_event_room q l id data Hrep Hlt) as (q' & -> & Hrep' & Hn).
      rewrite bind_ok, (upd_queue_some a q) by done. rewrite !bind_ok.
      eexists _, q'. split; [done|]. split; [done|]. split; [apply lookup_insert_eq|]. done.
    + assert (Z.of_nat (length l) = ucNumEvents q - 1) as Hfull by (unfold rep in Hrep; lia).
      rewrite (queue_event_full q l id data Hrep Hfull), bind_ok, (upd_queue_some a q) by done.
      rewrite !bind_ok. eexists _, q. split; [done|]. split; [done|]. split; [apply lookup_insert_eq|]. done.
  - unfold PTask_ReadEvent. rewrite (deref_some _ _ _ Ht), bind_ok, Ha, (deref_some _ _ _ Hq), bind_ok.
    destruct l as [|e l]; cbn [fifo_step fst snd].
    + rewrite (read_event_nil q Hrep), bind_ok, (upd_queue_some a q) by done. rewrite !bind_ok.
      eexists _, q. split; [done|]. split; [done|]. split; [apply lookup_insert_eq|]. done.
    + destruct (read_event_cons q e l Hrep) as (q' & -> & Hrep' & Hn).
      rewrite bind_ok, (upd_queue_some a q) by done. rewrite !bind_ok.
      eexists _, q'. split; [done|]. split; [done|]. split; [apply lookup_insert_eq|]. done.
Qed.

Lemma queue_run_fifo {W} p t a q l ops (s : PSYS W) :
  tasks s !! p = Some t → pstEvents t = Some a → queues s !! a = Some q → rep q l →
  queue_run (Some p) ops s = Ok (fifo_run (ucNumEvents q) l ops).
Proof.
  revert q l s. induction ops as [|op ops IH]; intros q l s Ht Ha Hq Hrep; [done|].
  cbn [queue_run fifo_run].
  destruct (queue_step_fifo p t a q l op s Ht Ha Hq Hrep) as (s' & q' & -> & Hts & Hq' & Hn & Hrep').
  rewrite <- Hts in Ht. rewrite bind_ok, (IH q' _ s' Ht Ha Hq' Hrep'). by rewrite Hn.
Qed.

Lemma rep_init ids datas n :
  2 <= n <= 255 → Z.of_nat (length ids) = n → Z.of_nat (length datas) = n → rep (mkQueue ids datas n 0 0) [].
Proof.
  intros Hn Hi Hd. unfold rep. cbn -[Z.ltb]. repeat (split; [lia|]). split; [|done].
  unfold slot. destruct (Z.ltb_spec (0 + Z.of_nat 0) n); lia.
Qed.

Lemma forM_aset_length {A} (l l' : list A) idx v :
  forM idx (fun i l => aset l i v) l = Ok l' → length l' = length l.
Proof.
  revert l. induction idx as [|i idx IH]; intros l H; cbn [forM] in H; [by simplify_eq|].
  apply bind_ok_iff in H as (l1 & H1 & H). apply IH in H. apply aset_ok_inv in H1 as [_ ->].
  by rewrite length_insert in H.
Qed.

Lemma forM_aset_ok {A} (l : list A) idx v :
  Forall (λ i, 0 <= i < Z.of_nat (length l)) idx →
  ∃ l', forM idx (fun i l => aset l i v) l = Ok l' ∧ length l' = length l.
Proof.
  revert l. induction idx as [|i idx IH]; intros l H; cbn [forM]; [by exists l|].
  apply Forall_cons in H as [Hi H]. rewrite aset_in by done. rewrite bind_ok.
  destruct (IH (<[Z.to_nat i := v]> l)) as (l' & Hl & Hlen); [by rewrite length_insert|].
  exists l'. split; [done|]. by rewrite Hlen, length_insert.
Qed.

(** A queue of one slot: every event is taken and replaces the one before,
    and the first read after it goes beyond the slot. *)
Fixpoint single_run (pending : bool) (ops : list qop) : res (list (bool * option (Z * Z))) :=
  match ops with
  | [] => Ok []
  | QueueEvent _ _ :: ops => rs ← single_run true ops; Ok ((true, None) :: rs)
  | ReadEvent :: ops =>
      if pending then Fault OutOfBounds else rs ← single_run false ops; Ok ((false, None) :: rs)
  end.

Lemma queue_run_single {W} p t a id data (pending : bool) ops (s : PSYS W) :
  tasks s !! p = Some t → pstEvents t = Some a →
  queues s !! a = Some (mkQueue [id] [data] 1 0 (if pending then 1 else 0)) →
  queue_run (Some p) ops s = single_run pending ops.
Proof.
  intros Ht Ha. revert id data pending s Ht.
  induction ops as [|[id' data'|] ops IH]; intros id data pending s Ht Hq; [done|..]; cbn [queue_run queue_step single_run].
  - unfold PTask_QueueEvent. rewrite (deref_some _ _ _ Ht), bind_ok, Ha, (deref_some _ _ _ Hq), bind_ok.
    change (queue_event id' data' _) with (Ok (mkQueue [id'] [data'] 1 0 1, true)). rewrite bind_ok.
    rewrite (upd_queue_some _ _ _ _ Hq), !bind_ok.
    by rewrite (IH id' data' true) by (done || apply lookup_insert_eq).
  - unfold PTask_ReadEvent. rewrite (deref_some _ _ _ Ht), bind_ok, Ha, (deref_some _ _ _ Hq), bind_ok.
    destruct pending; [done|]. change (read_event _) with (Ok (mkQueue [id] [data] 1 0 0, @None (Z * Z))). rewrite bind_ok.
    rewrite (upd_queue_some _ _ _ _ Hq), !bind_ok.
    by rewrite (IH id data false) by (done || apply lookup_insert_eq).
Qed.

(** A queue of no slots takes nothing. *)
Lemma queue_run_none {W} p t a ids datas ops (s : PSYS W) :
  tasks s !! p = Some t → pstEvents t = Some a → queues s !! a = Some (mkQueue ids datas 0 0 0) →
  queue_run (Some p) ops s = Ok (fifo_run 0 [] ops).
Proof.
  intros Ht Ha. revert s Ht.
  induction ops as [|[id' data'|] ops IH]; intros s Ht Hq; [done|..]; cbn [queue_run queue_step fifo_run].
  - unfold PTask_QueueEvent. rewrite (deref_some _ _ _ Ht), bind_ok, Ha, (deref_some _ _ _ Hq), bind_ok.
    change (queue_event id' data' _) with (Ok (mkQueue ids datas 0 0 0, false)). rewrite bind_ok.
    rewrite (upd_queue_some _ _ _ _ Hq), !bind_ok. by rewrite IH by (done || apply lookup_insert_eq).
  - unfold PTask_ReadEvent. rewrite (deref_some _ _ _ Ht), bind_ok, Ha, (deref_some _ _ _ Hq), bind_ok.
    change (read_event _) with (Ok (mkQueue ids datas 0 0 0, @None (Z * Z))). rewrite bind_ok.
    rewrite (upd_queue_some _ _ _ _ Hq), !bind_ok. by rewrite IH by (done || apply lookup_insert_eq).
Qed.

(** C37: the event queue of a cooperative task, initialised with [n] slots
    (any [UCHAR]) over two arrays of [n] elements, answers every sequence of
    queue and read operations as a FIFO bounded to n - 1 events: an event that
    finds room is taken and comes out after those before it, one that finds
    none is refused.  The exception is the queue of one slot, which takes
    every event and reads beyond its slot as soon as one is read. *)
Theorem PTask_queue_is_fifo {W} p t a q0 n ids datas (s : PSYS W) :
  tasks s !! p = Some t → pstEvents t = Some a → queues s !! a = Some q0 → 0 <= n <= 255 →
  Z.of_nat (length ids) = n → Z.of_nat (length datas) = n →
  ∃ s1, PTask_InitEventQueue (Some a) ids datas n s = Ok s1 ∧
    ∀ ops, queue_run (Some p) ops s1 = if n =? 1 then single_run false ops else Ok (fifo_run n [] ops).
Proof.
  intros Ht Ha Hq Hn Hi Hd. unfold PTask_InitEventQueue.
  assert (Forall (λ i, 0 <= i < n) (zseq 0 n)) as Hall.
  { apply Forall_forall. intros i Hin. apply elem_of_seqZ in Hin. lia. }
  destruct (forM_aset_ok ids (zseq 0 n) 0) as (ids1 & -> & Hi1); [by rewrite Hi|].
  destruct (forM_aset_ok datas (zseq 0 n) 0) as (datas1 & -> & Hd1); [by rewrite Hd|].
  rewrite !bind_ok, (upd_queue_some a q0) by done. eexists. split; [reflexivity|]. intros ops.
  pose proof (lookup_insert_eq (queues s) a (mkQueue ids1 datas1 n 0 0)) as Hq1.
  destruct (Z.eqb_spec n 1) as [->|]; [|destruct (decide (n = 0)) as [->|]].
  - destruct ids1 as [|id [|]]; cbn in Hi1; try lia. destruct datas1 as [|data [|]]; cbn in Hd1; try lia.
    by apply (queue_run_single p t a id data false ops (mkPSYS _ _ _)).
  - by apply (queue_run_none p t a ids1 datas1 ops (mkPSYS _ _ _)).
  - exact (queue_run_fifo p t a _ [] ops (mkPSYS _ _ _) Ht Ha Hq1 (rep_init ids1 datas1 n ltac:(lia) ltac:(lia) ltac:(lia))).
Qed.

Lemma PTask_queue_is_fifo_witness :
  let s := mkPSYS {[ 1%nat := mkQueue [] [] 0 0 0 ]} {[ 2%nat := mkPTask 1 (Some 1%nat) (Some 0) ]} tt in
  ∃ s1, PTask_InitEventQueue (Some 1%nat) [9; 9; 9] [9; 9; 9] 3 s = Ok s1 ∧
    ∀ ops, queue_run (Some 2%nat) ops s1 = Ok (fifo_run 3 [] ops).
Proof.
  intros s. apply (PTask_queue_is_fifo 2%nat (mkPTask 1 (Some 1%nat) (Some 0)) 1%nat (mkQueue [] [] 0 0 0) 3).
  - done.
  - done.
  - done.
  - done.
  - done.
  - done.
Defined.

(** ** The loop *)

Section loop.
Context {W : Type} (work : W → nat * (Z * Z) → W) (handler : Z → nat → Z → Z → PSYS W → res (PSYS W))
  (handler_pure : ∀ f p id data s,
     handler f p id data s = Ok (mkPSYS (queues s) (tasks s) (work (app s) (p, (id, data)))))
  (prio : nat → Z).

(** Every listed task has a handler and a queue of its own, which holds its
    pending events. *)
Definition sys_rep (s : PSYS W) (ts : list nat) (pend : nat → list (Z * Z)) : Prop :=
  (∀ p, p ∈ ts → ∃ t a q f, tasks s !! p = Some t ∧ ucPriority t = prio p ∧ pfHandler t = Some f ∧
     pstEvents t = Some a ∧ queues s !! a = Some q ∧ rep q (pend p)) ∧
  (∀ p p' t t', p ∈ ts → p' ∈ ts → tasks s !! p = Some t → tasks s !! p' = Some t' →
     pstEvents t = pstEvents t' → p = p').

(** The events of one task, in order. *)
Definition events_of (pend : nat → list (Z * Z)) (p : nat) : list (nat * (Z * Z)) := pair p <$> pend p.

(** The events of the tasks of one priority, in the order of the list. *)
Definition pass (pr : Z) (ts : list nat) (pend : nat → list (Z * Z)) : list (nat * (Z * Z)) :=
  concat (events_of pend <$> filter (fun p => prio p = pr) ts).

(** All pending events: priorities from 255 down to 0. *)
Definition schedule (ts : list nat) (pend : nat → list (Z * Z)) : list (nat * (Z * Z)) :=
  concat ((fun pr => pass pr ts pend) <$> reverse (seqZ 0 256)).

Definition cleared (p : nat) (pend : nat → list (Z * Z)) : nat → list (Z * Z) :=
  fun x => if decide (x = p) then [] else pend x.

Lemma read_rep s ts pend p e l :
  sys_rep s ts pend → p ∈ ts → pend p = e :: l →
  ∃ s', PTask_ReadEvent (Some p) s = Ok (s', Some e) ∧ tasks s' = tasks s ∧ app s' = app s ∧
    sys_rep s' ts (fun x => if decide (x = p) then l else pend x).
Proof.
  intros [Hr Hinj] Hp Hl. destruct (Hr p Hp) as (t & a & q & f & Ht & Hpr & Hf & Ha & Hq & Hrep).
  rewrite Hl in Hrep. destruct (read_event_cons q e l Hrep) as (q' & Hread & Hrep' & _).
  unfold PTask_ReadEvent. rewrite (deref_some _ _ _ Ht), bind_ok, Ha, (deref_some _ _ _ Hq), bind_ok.
  rewrite Hread, bind_ok, (upd_queue_some a q) by done. rewrite bind_ok.
  eexists. split; [done|]. cbn [tasks app]. split; [done|]. split; [done|]. split; [|done].
  intros x Hx. cbn [tasks queues]. destruct (Hr x Hx) as (t' & a' & q2 & f' & Ht' & Hpr' & Hf' & Ha' & Hq2 & Hrep2).
  case_decide as Hxp.
  - subst x. exists t, a, q', f. rewrite lookup_insert_eq. done.
  - exists t', a', q2, f'. rewrite lookup_insert_ne; [done|].
    intros ->. apply Hxp. eapply Hinj; [done|done|done|done|]. congruence.
Qed.

Lemma read_rep_nil s ts pend p :
  sys_rep s ts pend → p ∈ ts → pend p = [] →
  ∃ s', PTask_ReadEvent (Some p) s = Ok (s', None) ∧ tasks s' = tasks s ∧ app s' = app s ∧
    sys_rep s' ts pend.
Proof.
  intros [Hr Hinj] Hp Hl. destruct (Hr p Hp) as (t & a & q & f & Ht & Hpr & Hf & Ha & Hq & Hrep).
  rewrite Hl in Hrep. pose proof (read_event_nil q Hrep) as Hread.
  unfold PTask_ReadEvent. rewrite (deref_some _ _ _ Ht), bind_ok, Ha, (deref_some _ _ _ Hq), bind_ok.
  rewrite Hread, bind_ok, (upd_queue_some a q) by done. rewrite bind_ok.
  eexists. split; [done|]. split; [done|]. split; [done|]. cbn [tasks queues].
  rewrite insert_id by done. by destruct s.
Qed.

Lemma sys_rep_ext s ts pend pend' :
  (∀ p, p ∈ ts → pend p = pend' p) → sys_rep s ts pend → sys_rep s ts pend'.
Proof.
  intros He [Hr Hinj]. split; [|done]. intros p Hp. rewrite <- He by done. by apply Hr.
Qed.

Lemma run_task_spec fuel ts p s pend b :
  sys_rep s ts pend → p ∈ ts → (length (pend p) < fuel)%nat →
  ∃ s', run_task handler fuel (Some p) s b = Ok (s', b || bool_decide (pend p ≠ [])) ∧
    sys_rep s' ts (cleared p pend) ∧ app s' = foldl work (app s) (events_of pend p).
Proof using handler_pure.
  remember (pend p) as l eqn:El. symmetry in El.
  revert s pend b fuel El. induction l as [|[id data] l IH]; intros s pend b fuel El Hs Hp Hf;
    (destruct fuel as [|fuel]; [cbn in Hf; lia|]); cbn [run_task].
  - destruct (read_rep_nil s ts pend p Hs Hp El) as (s' & -> & _ & Happ & Hs'). rewrite bind_ok.
    exists s'. rewrite bool_decide_eq_false_2, orb_false_r by naive_solver. split; [done|]. split.
    + eapply sys_rep_ext; [|done]. intros x _. unfold cleared. case_decide; congruence.
    + unfold events_of. by rewrite El.
  - destruct (read_rep s ts pend p _ l Hs Hp El) as (s1 & -> & Htasks & Happ & Hs1). rewrite bind_ok.
    set (pend1 := fun x => if decide (x = p) then l else pend x) in *.
    destruct Hs1 as [Hr1 Hinj1]. destruct (Hr1 p Hp) as (t & a & q & f & Ht & _ & Hfn & _).
    rewrite (deref_some _ _ _ Ht), bind_ok, Hfn, handler_pure, bind_ok. cbn [default].
    assert (pend1 p = l) as Hpl by (unfold pend1; by rewrite decide_True).
    destruct (IH (mkPSYS (queues s1) (tasks s1) (work (app s1) (p, (id, data)))) pend1 true fuel Hpl)
      as (s2 & E & Hs2 & Happ2); [done|done|cbn in Hf; lia|].
    exists s2. split.
    { etransitivity; [exact E|]. cbn [orb]. rewrite bool_decide_eq_true_2 by done. by rewrite orb_true_r. }
    split.
    + eapply sys_rep_ext; [|done]. intros x _. unfold cleared, pend1. by repeat case_decide.
    + rewrite Happ2. cbn [app]. unfold events_of. rewrite Hpl, El, Happ. done.
Qed.

(** Loop 2 runs the tasks of the priority and clears their queues. *)
Lemma exec_spec fuel (ts : list nat) (l2 : list ptr) max s pend b :
  sys_rep s ts pend → (∀ p, Some p ∈ l2 → p ∈ ts) → NoDup (omap id l2) →
  (∀ p, p ∈ ts → (length (pend p) < fuel)%nat) →
  ∃ s', forM l2 (exec_entry handler fuel max) (s, b) = Ok (s', b || bool_decide (pass max (omap id l2) pend ≠ [])) ∧
    sys_rep s' ts (fun p => if decide (p ∈ omap id l2 ∧ prio p = max) then [] else pend p) ∧
    app s' = foldl work (app s) (pass max (omap id l2) pend).
Proof using handler_pure.
  revert s pend b. induction l2 as [|e l2 IH]; intros s pend b Hs Hts Hnd Hf.
  { exists s. cbn. rewrite orb_false_r. split; [done|]. split; [|done].
    eapply sys_rep_ext; [|done]. intros p _. case_decide; [set_solver|done]. }
  cbn [forM]. unfold exec_entry at 2. destruct e as [p|].
  2: { destruct (IH s pend b Hs) as (s' & E & Hs' & Happ); [set_solver|done|done|]. exists s'.
       rewrite bind_ok. split; [exact E|]. split; [exact Hs'|exact Happ]. }
  change (omap id (Some p :: l2)) with (p :: omap id l2) in *. apply NoDup_cons in Hnd as [Hpl Hnd].
  assert (p ∈ ts) as Hp by (apply Hts; set_solver).
  pose proof Hs as [Hr _]. destruct (Hr p Hp) as (t & a & q & f & Ht & Hpr & _).
  rewrite (deref_some _ _ _ Ht), bind_ok, Hpr. unfold pass. rewrite filter_cons.
  destruct (Z.eqb_spec (prio p) max) as [Hm|Hm].
  - destruct (run_task_spec fuel ts p s pend b Hs Hp (Hf p Hp)) as (s1 & -> & Hs1 & Happ1).
    rewrite bind_ok, decide_True by done.
    destruct (IH s1 (cleared p pend) (b || bool_decide (pend p ≠ [])) Hs1) as (s2 & E & Hs2 & Happ2).
    { set_solver. }
    { done. }
    { intros x Hx. unfold cleared. case_decide; [cbn; pose proof (Hf p Hp); lia|by apply Hf]. }
    assert (pass max (omap id l2) (cleared p pend) = pass max (omap id l2) pend) as Hpass.
    { unfold pass. f_equal. apply list_fmap_ext. intros i x Hx%list_elem_of_lookup_2.
      unfold events_of, cleared. rewrite decide_False; [done|]. intros ->.
      apply list_elem_of_filter in Hx as [_ Hx]. done. }
    rewrite Hpass in *. exists s2. rewrite E. cbn [fmap list_fmap concat]. fold (pass max (omap id l2) pend).
    split; [|split].
    + do 2 f_equal. rewrite <- orb_assoc. f_equal. unfold events_of.
      destruct (pend p); [|done]. by rewrite bool_decide_eq_false_2 by naive_solver.
    + eapply sys_rep_ext; [|exact Hs2]. intros x Hx. unfold cleared.
      destruct (decide (x = p)) as [->|Hne].
      * rewrite (decide_True (P := p ∈ p :: omap id l2 ∧ prio p = max)) by set_solver. by case_decide.
      * repeat case_decide; set_solver.
    + rewrite Happ2, Happ1, foldl_app. done.
  - rewrite bind_ok, decide_False by done.
    destruct (IH s pend b Hs) as (s2 & E & Hs2 & Happ2); [set_solver|done|done|].
    exists s2. rewrite E. split; [done|]. split; [|done].
    eapply sys_rep_ext; [|exact Hs2]. intros x Hx. repeat case_decide; set_solver.
Qed.

(** Loop 1 finds the highest priority with pending events. *)
Lemma max_spec (ts : list nat) (l2 : list ptr) s pend m0 :
  sys_rep s ts pend → (∀ p, Some p ∈ l2 → p ∈ ts) → 
  ∃ m, forM l2 (max_entry s) m0 = Ok m ∧ m0 <= m ∧
    (∀ p, Some p ∈ l2 → pend p ≠ [] → prio p <= m) ∧
    (m = m0 ∨ ∃ p, Some p ∈ l2 ∧ pend p ≠ [] ∧ prio p = m).
Proof.
  intros Hs. revert m0. induction l2 as [|e l2 IH]; intros m0 Hts.
  { exists m0. split; [done|]. split; [lia|]. split; [set_solver|by left]. }
  cbn [forM]. unfold max_entry at 2. destruct e as [p|].
  2: { destruct (IH m0) as (m & E & H1 & H2 & H3); [set_solver|]. exists m. rewrite bind_ok.
       split; [done|]. split; [done|]. split; [set_solver|]. set_solver. }
  assert (p ∈ ts) as Hp by (apply Hts; set_solver).
  pose proof Hs as [Hr _]. destruct (Hr p Hp) as (t & a & q & f & Ht & Hpr & _ & Ha & Hq & Hrep).
  assert (PTask_AreEventsPending (Some p) s = Ok (bool_decide (pend p ≠ []))) as Hpend.
  { unfold PTask_AreEventsPending. rewrite (deref_some _ _ _ Ht), bind_ok, Ha, (deref_some _ _ _ Hq), bind_ok.
    by rewrite (pending_rep _ _ Hrep). }
  rewrite (deref_some _ _ _ Ht), bind_ok, Hpr, Hpend.
  set (m1 := if (m0 <? prio p) && bool_decide (pend p ≠ []) then prio p else m0).
  assert ((if m0 <? prio p then Ok (bool_decide (pend p ≠ [])) ≫= (fun b => Ok (if b : bool then prio p else m0))
           else Ok m0) = Ok m1) as ->.
  { unfold m1. destruct (m0 <? prio p); [|done]. by destruct (bool_decide (pend p ≠ [])). }
  rewrite bind_ok. destruct (IH m1) as (m & E & H1 & H2 & H3); [set_solver|].
  exists m. split; [done|].
  assert (m0 <= m1 ∧ (pend p ≠ [] → prio p <= m1) ∧ (m1 = m0 ∨ (pend p ≠ [] ∧ prio p = m1))) as (Hm1 & Hm2 & Hm3).
  { unfold m1. destruct (Z.ltb_spec m0 (prio p)); cbn [andb]; [|naive_solver lia].
    case_bool_decide; [naive_solver lia|]. split; [lia|]. split; [naive_solver|by left]. }
  split; [lia|]. split.
  - intros x Hx Hne. apply elem_of_cons in Hx as [[= ->]|Hx]; [specialize (Hm2 Hne); lia|]. by apply H2.
  - destruct H3 as [->|(x & Hx & Hne & Hxm)]; [|right; exists x; set_solver].
    destruct Hm3 as [->|[Hne Hpm]]; [by left|]. right. exists p. set_solver.
Qed.

(** ** The order of the schedule *)

Lemma pass_ext pr ts pend pend' :
  (∀ p, p ∈ ts → prio p = pr → pend p = pend' p) → pass pr ts pend = pass pr ts pend'.
Proof.
  intros He. unfold pass. f_equal. apply list_fmap_ext. intros i p Hp%list_elem_of_lookup_2.
  apply list_elem_of_filter in Hp as [Hpr Hp]. unfold events_of. by rewrite He.
Qed.

Lemma pass_nil pr ts : pass pr ts (fun _ => []) = [].
Proof. unfold pass. induction (filter _ ts); [done|]. cbn. done. Qed.

Lemma pass_empty pr ts pend : (∀ p, p ∈ ts → prio p = pr → pend p = []) → pass pr ts pend = [].
Proof. intros He. rewrite (pass_ext pr ts pend (fun _ => [])) by done. apply pass_nil. Qed.

Lemma concat_elem_length {A B} (f : A → list B) (l : list A) x :
  x ∈ l → (length (f x) <= length (concat (f <$> l)))%nat.
Proof.
  induction l as [|y l IH]; intros Hx; [set_solver|]. cbn. rewrite length_app.
  apply elem_of_cons in Hx as [->|Hx]; [lia|]. specialize (IH Hx). cbn in IH. lia.
Qed.

Lemma pass_member pr ts pend p :
  p ∈ ts → prio p = pr → (length (pend p) <= length (pass pr ts pend))%nat.
Proof.
  intros Hp Hpr. rewrite <- (length_fmap (pair p) (pend p)).
  apply (concat_elem_length (events_of pend)). apply list_elem_of_filter. done.
Qed.

Definition upto (n : nat) (ts : list nat) (pend : nat → list (Z * Z)) : list (nat * (Z * Z)) :=
  concat ((fun pr => pass pr ts pend) <$> reverse (seqZ 0 (Z.of_nat n))).

Lemma upto_S n ts pend : upto (S n) ts pend = pass (Z.of_nat n) ts pend ++ upto n ts pend.
Proof.
  unfold upto. replace (Z.of_nat (S n)) with (Z.of_nat n + 1) by lia.
  rewrite seqZ_app by lia. rewrite reverse_app. cbn. by rewrite Z.add_0_l.
Qed.

Lemma upto_ext n ts pend pend' :
  (∀ p, p ∈ ts → prio p < Z.of_nat n → pend p = pend' p) → upto n ts pend = upto n ts pend'.
Proof.
  induction n as [|n IH]; intros He; [done|]. rewrite !upto_S.
  rewrite (pass_ext _ ts pend pend') by (intros; apply He; [done|lia]).
  rewrite IH by (intros; apply He; [done|lia]). done.
Qed.

Lemma upto_split n ts pend (m : Z) :
  0 <= m < Z.of_nat n → (∀ p, p ∈ ts → pend p ≠ [] → prio p <= m) →
  upto n ts pend
  = pass m ts pend ++ upto n ts (fun p => if decide (p ∈ ts ∧ prio p = m) then [] else pend p).
Proof.
  intros Hm Hmax. induction n as [|n IH]; [lia|]. rewrite !upto_S.
  destruct (decide (m = Z.of_nat n)) as [->|Hne].
  - rewrite (pass_empty (Z.of_nat n) ts (fun p => if decide _ then [] else pend p))
      by (intros p Hp Hpr; by rewrite decide_True). cbn [app]. f_equal. apply upto_ext.
    intros p Hp Hlt. rewrite decide_False by lia. done.
  - assert (∀ p, p ∈ ts → prio p = Z.of_nat n → pend p = []) as Hz.
    { intros p Hp Hpr. destruct (pend p) eqn:E; [done|]. specialize (Hmax p Hp). rewrite E in Hmax.
      specialize (Hmax ltac:(done)). lia. }
    rewrite (pass_empty (Z.of_nat n) ts pend) by done.
    rewrite (pass_empty (Z.of_nat n) ts (fun p => if decide _ then [] else pend p)).
    + apply IH. lia.
    + intros p Hp Hpr. case_decide; [done|]. by apply Hz.
Qed.

Lemma schedule_upto ts pend : schedule ts pend = upto 256 ts pend.
Proof. done. Qed.

Lemma upto_member n ts pend p :
  p ∈ ts → 0 <= prio p < Z.of_nat n → (length (pend p) <= length (upto n ts pend))%nat.
Proof.
  intros Hp Hpr. induction n as [|n IH]; [lia|]. rewrite upto_S, length_app.
  destruct (decide (prio p = Z.of_nat n)) as [E|Hne].
  - pose proof (pass_member _ ts pend p Hp E). lia.
  - assert (length (pend p) <= length (upto n ts pend))%nat by (apply IH; lia). lia.
Qed.

Lemma PTask_Loop_spec fuel l s pend :
  ucSize l = Z.of_nat (length (pstTasks l)) → NoDup (omap id (pstTasks l)) →
  sys_rep s (omap id (pstTasks l)) pend →
  (∀ p, p ∈ omap id (pstTasks l) → 0 <= prio p < 256) →
  (length (schedule (omap id (pstTasks l)) pend) < fuel)%nat →
  ∃ s', PTask_Loop handler fuel l s = Ok s' ∧
    app s' = foldl work (app s) (schedule (omap id (pstTasks l)) pend) ∧
    sys_rep s' (omap id (pstTasks l)) (fun _ => []).
Proof using handler_pure.
  intros Hsz Hnd Hs Hpr. set (ts := omap id (pstTasks l)) in *.
  assert (∀ p, Some p ∈ pstTasks l ↔ p ∈ ts) as Hin.
  { intros p. unfold ts. rewrite list_elem_of_omap. naive_solver. }
  revert s pend Hs. induction fuel as [|fuel IH]; intros s pend Hs Hf; [lia|]. cbn [PTask_Loop].
  destruct (max_spec ts (pstTasks l) s pend 0 Hs) as (m & Emax & Hm0 & Hmax & Hatt); [naive_solver|].
  assert (∀ p, p ∈ ts → (length (pend p) < S fuel)%nat) as Hlen.
  { intros p Hp. rewrite schedule_upto in Hf. pose proof (upto_member 256 ts pend p Hp (Hpr p Hp)). lia. }
  destruct (exec_spec (S fuel) ts (pstTasks l) m s pend false Hs) as (s1 & Eexec & Hs1 & Happ1);
    [naive_solver|done|done|].
  fold ts in Eexec, Hs1, Happ1.
  unfold zseq. rewrite Hsz, !forM_array, Emax, bind_ok, !forM_array, Eexec.
  rewrite bind_ok. cbn [orb].
  assert (0 <= m < 256) as Hm.
  { destruct Hatt as [->|(p & Hp & _ & <-)]; [lia|]. apply Hpr. by apply Hin. }
  assert (schedule ts pend = pass m ts pend ++ schedule ts
            (fun p => if decide (p ∈ ts ∧ prio p = m) then [] else pend p)) as Hsched.
  { rewrite !schedule_upto. apply upto_split; [lia|]. intros p Hp. apply Hmax. by apply Hin. }
  destruct (decide (pass m ts pend = [])) as [Hnil|Hne].
  - rewrite bool_decide_eq_false_2 by naive_solver. exists s1. split; [done|].
    assert (∀ p, p ∈ ts → pend p = []) as Hz.
    { intros p Hp. destruct (decide (pend p = [])) as [|Hne]; [done|]. exfalso.
      assert (∃ x, x ∈ ts ∧ pend x ≠ [] ∧ prio x = m) as (x & Hx & Hxe & Hxm).
      { destruct Hatt as [->|(x & Hx & Hxe & Hxm)]; [|exists x; by rewrite <- Hin].
        exists p. split; [done|]. split; [done|]. pose proof (Hpr p Hp).
        pose proof (Hmax p (proj2 (Hin p) Hp) Hne). lia. }
      pose proof (pass_member m ts pend x Hx Hxm) as Hl. rewrite Hnil in Hl.
      destruct (pend x); [done|cbn in Hl; lia]. }
    split.
    + rewrite Happ1, Hnil. rewrite schedule_upto, (upto_ext 256 ts pend (fun _ => [])) by auto.
      assert (∀ n, upto n ts (fun _ => []) = []) as ->; [|done].
      intros n. induction n as [|n IHn]; [done|]. by rewrite upto_S, pass_nil, IHn.
    + eapply sys_rep_ext; [|exact Hs1]. intros p Hp. cbv beta. case_decide; [done|]. by apply Hz.
  - rewrite bool_decide_eq_true_2 by done.
    destruct (IH s1 _ Hs1) as (s2 & E & Happ2 & Hs2).
    { rewrite Hsched, length_app in Hf. destruct (pass m ts pend); [done|]. cbn in Hf. lia. }
    exists s2. split; [done|]. split; [|done]. by rewrite Happ2, Happ1, Hsched, foldl_app.
Qed.

End loop.

(** The cooperative loop runs every pending event and returns: with event
    handlers that queue nothing, it ends with all queues empty and has run
    exactly the pending events, by descending priority, within a priority in
    the order of the task list and for each task oldest first.  Fuel one
    above the number of pending events suffices. *)
Theorem PTask_Loop_by_priority {W} (work : W → nat * (Z * Z) → W)
    (handler : Z → nat → Z → Z → PSYS W → res (PSYS W)) (prio : nat → Z) fuel l (s : PSYS W) pend :
  (∀ f p id data s,
     handler f p id data s = Ok (mkPSYS (queues s) (tasks s) (work (app s) (p, (id, data))))) →
  ucSize l = Z.of_nat (length (pstTasks l)) → NoDup (omap id (pstTasks l)) →
  sys_rep prio s (omap id (pstTasks l)) pend →
  (∀ p, p ∈ omap id (pstTasks l) → 0 <= prio p < 256) →
  (length (schedule prio (omap id (pstTasks l)) pend) < fuel)%nat →
  ∃ s', PTask_Loop handler fuel l s = Ok s' ∧
    app s' = foldl work (app s) (schedule prio (omap id (pstTasks l)) pend) ∧
    sys_rep prio s' (omap id (pstTasks l)) (fun _ => []).
Proof. intros. by apply PTask_Loop_spec. Qed.

Lemma PTask_Loop_by_priority_witness :
  let handler := λ (f : Z) (p : nat) (id data : Z) (s : PSYS (list Z)),
    Ok (mkPSYS (queues s) (tasks s) (id :: app s)) in
  let s := mkPSYS
    {[ 1%nat := mkQueue [11; 0] [0; 0] 2 1 0; 2%nat := mkQueue [22; 0] [0; 0] 2 1 0 ]}
    {[ 1%nat := mkPTask 1 (Some 1%nat) (Some 0); 2%nat := mkPTask 5 (Some 2%nat) (Some 0) ]} [] in
  ∃ s', PTask_Loop handler 3 (mkList 2 0 [Some 1%nat; Some 2%nat]) s = Ok s' ∧ app s' = [11; 22].
Proof.
  intros handler s.
  destruct (PTask_Loop_by_priority (λ w e, e.2.1 :: w) handler (λ p, if decide (p = 1)%nat then 1 else 5) 3
    (mkList 2 0 [Some 1%nat; Some 2%nat]) s (λ p, if decide (p = 1)%nat then [(11, 0)] else [(22, 0)]))
    as (s' & H1 & H2 & _).
  - done.
  - done.
  - apply (bool_decide_unpack _). vm_compute. exact I.
  - split.
    + intros p Hp. assert (p = 1 ∨ p = 2)%nat as [-> | ->] by (cbn in Hp; set_solver).
      all: eexists _, _, _, _; repeat (split; [reflexivity|]); unfold rep;
        repeat match goal with |- _ ∧ _ => split end; try done.
      all: intros [|i] e Hi; [|done]; vm_compute in Hi; injection Hi as <-; split; vm_compute; reflexivity.
    + intros p p' t t' Hp Hp' Ht Ht' He.
      assert (p = 1 ∨ p = 2)%nat as [-> | ->] by (cbn in Hp; set_solver);
      assert (p' = 1 ∨ p' = 2)%nat as [-> | ->] by (cbn in Hp'; set_solver);
      vm_compute in Ht, Ht'; simplify_eq; done.
  - intros p _. by case_decide.
  - vm_compute. lia.
  - exists s'. split; [exact H1|]. rewrite H2. vm_compute. reflexivity.
Defined.

(** A queue of one slot cannot be used: after an event was queued, reading
    it accesses the slot after the array. *)
Theorem PTask_single_slot_out_of_bounds {W} p t a q id data (s : PSYS W) :
  tasks s !! p = Some t → pstEvents t = Some a → queues s !! a = Some q →
  ucNumEvents q = 1 → length (pusEventID q) = 1%nat → length (pusEventData q) = 1%nat →
  ∃ s', PTask_QueueEvent (Some p) id data s = Ok (s', true) ∧
        PTask_AreEventsPending (Some p) s' = Ok true ∧
        PTask_ReadEvent (Some p) s' = Fault OutOfBounds.
Proof.
  intros Ht Ha Hq Hn Hi Hd. destruct q as [ids datas n h tl]. cbn in Hn, Hi, Hd. subst n.
  destruct ids as [|i [|]]; try discriminate Hi. destruct datas as [|d [|]]; try discriminate Hd.
  unfold PTask_QueueEvent. rewrite (deref_some _ _ _ Ht), bind_ok, Ha, (deref_some _ _ _ Hq), bind_ok.
  change (queue_event id data (mkQueue [i] [d] 1 h tl)) with (Ok (mkQueue [id] [data] 1 0 1, true)).
  rewrite bind_ok, (upd_queue_some _ _ _ _ Hq), bind_ok. eexists. split; [done|].
  unfold PTask_AreEventsPending, PTask_ReadEvent. cbn [tasks queues].
  rewrite (deref_some _ _ _ Ht), !bind_ok, Ha, !(deref_some _ _ _ (lookup_insert_eq _ _ _)), !bind_ok. done.
Qed.

End PTask.
