(* ===== verification/FunkPipsqueak.v ===== *)
(** * FunkOS: the Pipsqueak kernel (modules/pipsqueak/pipsqueak.c)

    A minimal round-robin kernel: a circular list of tasks, each with a
    number of ticks per turn, and an idle task outside the list.  The
    software interrupt is a request flag. *)
From S2P Require Import Prelude FunkKernel.

Module Pipsqueak.

Record PIP_TASK : Type := mkPip {
  usStackSize : Z;
  usTicks : Z;
  pfHandler : Z;
  pstNext : ptr
}.

Definition set_usStackSize (v : Z) (r : PIP_TASK) : PIP_TASK :=
  mkPip v (usTicks r) (pfHandler r) (pstNext r).
Definition set_usTicks (v : Z) (r : PIP_TASK) : PIP_TASK :=
  mkPip (usStackSize r) v (pfHandler r) (pstNext r).
Definition set_pfHandler (v : Z) (r : PIP_TASK) : PIP_TASK :=
  mkPip (usStackSize r) (usTicks r) v (pstNext r).
Definition set_pstNext (v : ptr) (r : PIP_TASK) : PIP_TASK :=
  mkPip (usStackSize r) (usTicks r) (pfHandler r) v.

Record PIP : Type := mkPIP {
  objs : gmap nat PIP_TASK;
  pstCurrent : ptr;
  pstIdle : ptr;
  usTimeLeft : Z;
  bIdle : bool;
  swi : bool
}.

Definition set_objs (v : gmap nat PIP_TASK) (r : PIP) : PIP :=
  mkPIP v (pstCurrent r) (pstIdle r) (usTimeLeft r) (bIdle r) (swi r).
Definition set_pstCurrent (v : ptr) (r : PIP) : PIP :=
  mkPIP (objs r) v (pstIdle r) (usTimeLeft r) (bIdle r) (swi r).
Definition set_pstIdle (v : ptr) (r : PIP) : PIP :=
  mkPIP (objs r) (pstCurrent r) v (usTimeLeft r) (bIdle r) (swi r).
Definition set_usTimeLeft (v : Z) (r : PIP) : PIP :=
  mkPIP (objs r) (pstCurrent r) (pstIdle r) v (bIdle r) (swi r).
Definition set_bIdle (v : bool) (r : PIP) : PIP :=
  mkPIP (objs r) (pstCurrent r) (pstIdle r) (usTimeLeft r) v (swi r).
Definition set_swi (v : bool) (r : PIP) : PIP :=
  mkPIP (objs r) (pstCurrent r) (pstIdle r) (usTimeLeft r) (bIdle r) v.

(** ** Operations *)

Definition upd (p : ptr) (f : PIP_TASK → PIP_TASK) (s : PIP) : res PIP :=
  m ← assign (objs s) p f; Ok (set_objs m s).

Definition KernelSWI_Trigger (s : PIP) : PIP := set_swi true s.

Definition Task_Init (s : PIP) : PIP :=
  set_bIdle false (set_usTimeLeft 0 (set_pstIdle NULL (set_pstCurrent NULL s))).

Definition Task_SetIdleTask (p : ptr) (s : PIP) : PIP := set_pstIdle p s.

Definition Task_AddTask (p : ptr) (s : PIP) : res PIP :=
  match pstCurrent s with
  | None =>
      let s := set_pstCurrent p s in
      upd (pstCurrent s) (set_pstNext p) s
  | Some _ =>
      c ← deref (objs s) (pstCurrent s);
      let pstTemp := pstNext c in
      s ← upd (pstCurrent s) (set_pstNext p) s;
      upd p (set_pstNext pstTemp) s
  end.

Definition Task_GoIdle (s : PIP) : res PIP :=
  match pstIdle s with
  | None => Ok s
  | Some _ =>
      c ← deref (objs s) (pstCurrent s);
      s ← upd (pstIdle s) (set_usTicks (usTicks c)) s;
      c ← deref (objs s) (pstCurrent s);
      s ← upd (pstIdle s) (set_pstNext (pstNext c)) s;
      Ok (KernelSWI_Trigger (set_bIdle true s))
  end.

Definition Task_Tick (s : PIP) : res PIP :=
  let s := set_usTimeLeft (u16 (usTimeLeft s + 1)) s in
  c ← deref (objs s) (pstCurrent s);
  if usTicks c <=? usTimeLeft s then Ok (KernelSWI_Trigger (set_usTimeLeft 0 s)) else Ok s.

Definition Task_Switch (s : PIP) : res PIP :=
  if bIdle s then Ok (set_bIdle false (set_pstCurrent (pstIdle s) s))
  else c ← deref (objs s) (pstCurrent s); Ok (set_pstCurrent (pstNext c) s).

(** ** The ring *)

(** The list [l] of tasks, each linked to the next and the last to [last]. *)
Fixpoint chain (m : gmap nat PIP_TASK) (l : list nat) (last : ptr) : Prop :=
  match l with
  | [] => True
  | x :: l => ∃ t, m !! x = Some t ∧ pstNext t = match l with [] => last | y :: _ => Some y end ∧ chain m l last
  end.

Definition ring (s : PIP) (l : list nat) : Prop :=
  NoDup l ∧ pstCurrent s = head l ∧ chain (objs s) l (head l) ∧ l ≠ [].

Lemma chain_insert_out m l last x t :
  x ∉ l → chain m l last → chain (<[x := t]> m) l last.
Proof.
  induction l as [|y l IH]; intros Hx Hc; [done|]. destruct Hc as (ty & Hy & Hn & Hc).
  exists ty. rewrite lookup_insert_ne by set_solver. split; [done|]. split; [done|].
  apply IH; [set_solver|done].
Qed.

Lemma chain_app m l1 x l2 last :
  chain m (l1 ++ x :: l2) last ↔ chain m l1 (Some x) ∧ chain m (x :: l2) last.
Proof.
  induction l1 as [|y l1 IH]; [cbn; naive_solver|]. cbn [app chain].
  setoid_rewrite IH. destruct l1 as [|z l1]; cbn [app chain]; naive_solver.
Qed.

(** Rotating the list: the ring read from the next task on. *)
Lemma chain_rotate m x y l :
  chain m (x :: y :: l) (Some x) → chain m (y :: l ++ [x]) (Some y).
Proof.
  intros H. destruct H as (t & Hx & Hn & Hc).
  change (y :: l ++ [x]) with ((y :: l) ++ x :: []). apply chain_app. split; [done|].
  exists t. done.
Qed.

Lemma ring_switch s c rest :
  ring s (c :: rest) → bIdle s = false →
  ∃ s', Task_Switch s = Ok s' ∧ ring s' (rest ++ [c]) ∧ objs s' = objs s ∧ bIdle s' = false ∧
    pstIdle s' = pstIdle s.
Proof.
  intros (Hnd & Hc & Hch & _) Hb. unfold Task_Switch. rewrite Hb. cbn in Hc.
  pose proof Hch as (t & Ht & Hn & _). rewrite Hc, (deref_some _ _ _ Ht), bind_ok.
  eexists. split; [done|]. split; [|done]. split.
  { rewrite <- Permutation_cons_append. done. }
  cbn [pstCurrent set_pstCurrent objs]. rewrite Hn. destruct rest as [|y rest].
  - split; [done|]. split; [|done]. exact Hch.
  - split; [done|]. split; [|done]. by apply chain_rotate.
Qed.

Lemma Permutation_ring_nodup (l1 l2 : list nat) : l1 ≡ₚ l2 → NoDup l1 → NoDup l2.
Proof. intros E. by rewrite E. Qed.

(** Going idle costs a task no turn: when the running task goes idle, the
    next switch runs the idle task and the one after that the task's
    successor, with the ring of tasks intact. *)
Theorem Pipsqueak_idle_keeps_ring s c rest i ti :
  ring s (c :: rest) → pstIdle s = Some i → objs s !! i = Some ti → i ∉ c :: rest →
  ∃ s1 s2 s3, Task_GoIdle s = Ok s1 ∧ swi s1 = true ∧
    Task_Switch s1 = Ok s2 ∧ pstCurrent s2 = Some i ∧
    Task_Switch s2 = Ok s3 ∧ ring s3 (rest ++ [c]).
Proof.
  intros (Hnd & Hc & Hch & _) Hi Hti Hin. cbn in Hc. pose proof Hch as (t & Ht & Hn & _).
  assert (i ≠ c) as Hic by set_solver.
  unfold Task_GoIdle. rewrite Hi, Hc, (deref_some _ _ _ Ht), bind_ok.
  unfold upd. rewrite (assign_some _ _ _ _ Hti), !bind_ok. cbn [objs set_objs pstCurrent pstIdle].
  rewrite Hc. erewrite deref_some by (rewrite lookup_insert_ne by done; exact Ht). rewrite bind_ok.
  rewrite Hi. erewrite assign_some by apply lookup_insert_eq. rewrite !bind_ok, insert_insert_eq.
  eexists _, _, _. split; [done|]. split; [done|]. split; [done|]. split; [exact Hi|]. split.
  - unfold Task_Switch. cbn. rewrite Hi. erewrite deref_some by apply lookup_insert_eq. done.
  - split; [eapply Permutation_ring_nodup; [|done]; apply Permutation_cons_append|]. cbn.
    rewrite Hn. destruct rest as [|y rest].
    + split; [done|]. split; [|done]. by apply chain_insert_out.
    + split; [done|]. split; [|done]. apply chain_insert_out; [set_solver|]. by apply chain_rotate.
Qed.

(** ** Time slices *)

Fixpoint ticks (n : nat) (s : PIP) : res PIP :=
  match n with O => Ok s | S n => s ← ticks n s; Task_Tick s end.

(** A task runs for its number of ticks: after a switch, with the tick
    count at zero and no request pending, exactly the [usTicks]-th tick
    requests the next switch and resets the count. *)
Theorem Pipsqueak_time_slice s c t n :
  pstCurrent s = Some c → objs s !! c = Some t → 1 <= usTicks t < 65536 →
  usTimeLeft s = 0 → swi s = false → Z.of_nat n <= usTicks t →
  ∃ s', ticks n s = Ok s' ∧ pstCurrent s' = Some c ∧ objs s' = objs s ∧
    swi s' = bool_decide (Z.of_nat n = usTicks t) ∧
    usTimeLeft s' = if decide (Z.of_nat n = usTicks t) then 0 else Z.of_nat n.
Proof.
  intros Hc Ht HT H0 Hs. induction n as [|n IH]; intros Hn.
  - exists s. rewrite bool_decide_eq_false_2, decide_False by lia. done.
  - destruct IH as (s' & E & Hc' & Ho & Hsw & Htl); [lia|]. cbn [ticks]. rewrite E, bind_ok.
    rewrite bool_decide_eq_false_2 in Hsw by lia. rewrite decide_False in Htl by lia.
    unfold Task_Tick. cbn [objs set_usTimeLeft pstCurrent usTimeLeft]. rewrite Hc', Ho, (deref_some _ _ _ Ht), bind_ok.
    rewrite Htl, u16_small by lia.
    destruct (Z.leb_spec (usTicks t) (Z.of_nat n + 1)).
    + eexists. split; [done|]. cbn. rewrite bool_decide_eq_true_2, decide_True by lia. done.
    + eexists. split; [done|]. cbn. rewrite bool_decide_eq_false_2, decide_False by lia.
      repeat (split; [done|]). lia.
Qed.

(** Round robin: switching as often as there are tasks brings back the
    running task, every task having run once in the order of the list. *)
Theorem Pipsqueak_round_robin s l1 x l2 :
  ring s (l1 ++ x :: l2) → bIdle s = false →
  ∃ s', Nat.iter (length l1) (fun r => s ← r; Task_Switch s) (Ok s) = Ok s' ∧
        pstCurrent s' = Some x ∧ ring s' (x :: l2 ++ l1).
Proof.
  intros Hr Hb.
  cut (∃ s', Nat.iter (length l1) (fun r => s ← r; Task_Switch s) (Ok s) = Ok s' ∧
        ring s' (x :: l2 ++ l1) ∧ bIdle s' = false).
  { intros (s' & E & Hr' & _). exists s'. split; [done|]. split; [|done]. apply Hr'. }
  revert x l2 Hr. induction l1 as [|y l1 IH] using rev_ind; intros x l2 Hr.
  { exists s. rewrite app_nil_r. done. }
  rewrite <- app_assoc in Hr. destruct (IH y (x :: l2) Hr) as (s' & E & Hr' & Hb').
  rewrite length_app. cbn [length]. rewrite Nat.add_1_r, Nat.iter_succ, E, bind_ok.
  destruct (ring_switch s' y _ Hr' Hb') as (s'' & E2 & Hr2 & _ & Hb2 & _). exists s''.
  split; [done|]. split; [|done]. by rewrite <- app_assoc in Hr2.
Qed.

Lemma Pipsqueak_round_robin_witness :
  let s := mkPIP {[ 1%nat := mkPip 0 3 0 (Some 2%nat); 2%nat := mkPip 0 3 0 (Some 3%nat);
                    3%nat := mkPip 0 3 0 (Some 1%nat) ]} (Some 1%nat) NULL 0 false false in
  ∃ s', Nat.iter 2 (fun r => s ← r; Task_Switch s) (Ok s) = Ok s' ∧
        pstCurrent s' = Some 3%nat ∧ ring s' [3; 1; 2]%nat.
Proof.
  intros s. apply (Pipsqueak_round_robin s [1; 2]%nat 3%nat []).
  - split; [apply (bool_decide_unpack _); vm_compute; exact I|]. split; [done|]. split; [|done].
    cbn [chain app]. repeat (eexists; split; [reflexivity|]; split; [reflexivity|]). exact I.
  - done.
Defined.

End Pipsqueak.
