(* ===== verification/FunkPlumber.v ===== *)
(** * FunkOS services: the plumber (modules/services/plumber.c)

    A packet switch between tasks: a writer copies a packet into a shared
    buffer under a mutex and posts a semaphore; the plumber task copies the
    packet into a pipe of every open table entry on the port and releases
    the mutex; readers claim their pipes in order.  A pipe of the pool is
    addressed by its index, a table entry keeps a linked list of pipes. *)
From S2P Require Import Prelude FunkKernel FunkTask FunkSched FunkSemaphore FunkMutex.

Module Plumber.

Definition PIPE_SIZE : Z := 16.
Definition PIPE_POOL : Z := 4.
Definition PLUMB_TABLE_SIZE : Z := 4.
Definition PLUMBER_STACK_SIZE : Z := 160.

Inductive PLUMB_STATE : Type := PLUMB_UNINIT | PLUMB_CLOSED | PLUMB_OPEN.

#[export] Instance PLUMB_STATE_eq_dec : EqDecision PLUMB_STATE.
Proof. solve_decision. Defined.

Inductive PLUMB_RETURN : Type :=
  | PLUMB_OK | PLUMB_FAIL_LIST_FULL | PLUMB_FAIL_PIPE_FULL | PLUMB_FAIL_PIPE_OPEN
  | PLUMB_FAIL_PIPE_NULL | PLUMB_FAIL_PIPE_CLOSED | PLUMB_FAIL_UNINIT.

Record PLUMB_STRUCT : Type := mkPipe {
  aucData : list Z;
  ucLen : Z;
  bInUse : bool;
  pstNext : ptr
}.

Definition set_aucData (v : list Z) (r : PLUMB_STRUCT) : PLUMB_STRUCT :=
  mkPipe v (ucLen r) (bInUse r) (pstNext r).
Definition set_ucLen (v : Z) (r : PLUMB_STRUCT) : PLUMB_STRUCT :=
  mkPipe (aucData r) v (bInUse r) (pstNext r).
Definition set_bInUse (v : bool) (r : PLUMB_STRUCT) : PLUMB_STRUCT :=
  mkPipe (aucData r) (ucLen r) v (pstNext r).
Definition set_pstNext (v : ptr) (r : PLUMB_STRUCT) : PLUMB_STRUCT :=
  mkPipe (aucData r) (ucLen r) (bInUse r) v.

Record PLUMB_TABLE_ENTRY : Type := mkEntry {
  pstTask : ptr;
  pstPlumb : ptr;
  pstSem : ptr;
  eState : PLUMB_STATE;
  usPortNum : Z
}.

Definition set_pstTask (v : ptr) (r : PLUMB_TABLE_ENTRY) : PLUMB_TABLE_ENTRY :=
  mkEntry v (pstPlumb r) (pstSem r) (eState r) (usPortNum r).
Definition set_pstPlumb (v : ptr) (r : PLUMB_TABLE_ENTRY) : PLUMB_TABLE_ENTRY :=
  mkEntry (pstTask r) v (pstSem r) (eState r) (usPortNum r).
Definition set_pstSem (v : ptr) (r : PLUMB_TABLE_ENTRY) : PLUMB_TABLE_ENTRY :=
  mkEntry (pstTask r) (pstPlumb r) v (eState r) (usPortNum r).
Definition set_eState (v : PLUMB_STATE) (r : PLUMB_TABLE_ENTRY) : PLUMB_TABLE_ENTRY :=
  mkEntry (pstTask r) (pstPlumb r) (pstSem r) v (usPortNum r).
Definition set_usPortNum (v : Z) (r : PLUMB_TABLE_ENTRY) : PLUMB_TABLE_ENTRY :=
  mkEntry (pstTask r) (pstPlumb r) (pstSem r) (eState r) v.

(** The module variables, the semaphores of the readers and the kernel. *)
Record PLUMBER : Type := mkPlumber {
  astPlumbTable : list PLUMB_TABLE_ENTRY;
  astPipes : gmap nat PLUMB_STRUCT;
  aucPlumbBuffer : list Z;
  usPlumbLen : Z;
  usPlumbPort : Z;
  stPlumbMutex : Mutex.MUTEX_STRUCT;
  stPlumbSem : Semaphore.SEMAPHORE_STRUCT;
  sems : gmap nat Semaphore.SEMAPHORE_STRUCT;
  kern : KERNEL
}.

Definition set_astPlumbTable (v : list PLUMB_TABLE_ENTRY) (r : PLUMBER) : PLUMBER :=
  mkPlumber v (astPipes r) (aucPlumbBuffer r) (usPlumbLen r) (usPlumbPort r)
    (stPlumbMutex r) (stPlumbSem r) (sems r) (kern r).
Definition set_astPipes (v : gmap nat PLUMB_STRUCT) (r : PLUMBER) : PLUMBER :=
  mkPlumber (astPlumbTable r) v (aucPlumbBuffer r) (usPlumbLen r)
    (usPlumbPort r) (stPlumbMutex r) (stPlumbSem r) (sems r) (kern r).
Definition set_aucPlumbBuffer (v : list Z) (r : PLUMBER) : PLUMBER :=
  mkPlumber (astPlumbTable r) (astPipes r) v (usPlumbLen r) (usPlumbPort r)
    (stPlumbMutex r) (stPlumbSem r) (sems r) (kern r).
Definition set_usPlumbLen (v : Z) (r : PLUMBER) : PLUMBER :=
  mkPlumber (astPlumbTable r) (astPipes r) (aucPlumbBuffer r) v (usPlumbPort
    r) (stPlumbMutex r) (stPlumbSem r) (sems r) (kern r).
Definition set_usPlumbPort (v : Z) (r : PLUMBER) : PLUMBER :=
  mkPlumber (astPlumbTable r) (astPipes r) (aucPlumbBuffer r) (usPlumbLen r)
    v (stPlumbMutex r) (stPlumbSem r) (sems r) (kern r).
Definition set_stPlumbMutex (v : Mutex.MUTEX_STRUCT) (r : PLUMBER) : PLUMBER :=
  mkPlumber (astPlumbTable r) (astPipes r) (aucPlumbBuffer r) (usPlumbLen r)
    (usPlumbPort r) v (stPlumbSem r) (sems r) (kern r).
Definition set_stPlumbSem (v : Semaphore.SEMAPHORE_STRUCT) (r : PLUMBER) : PLUMBER :=
  mkPlumber (astPlumbTable r) (astPipes r) (aucPlumbBuffer r) (usPlumbLen r)
    (usPlumbPort r) (stPlumbMutex r) v (sems r) (kern r).
Definition set_sems (v : gmap nat Semaphore.SEMAPHORE_STRUCT) (r : PLUMBER) : PLUMBER :=
  mkPlumber (astPlumbTable r) (astPipes r) (aucPlumbBuffer r) (usPlumbLen r)
    (usPlumbPort r) (stPlumbMutex r) (stPlumbSem r) v (kern r).
Definition set_kern (v : KERNEL) (r : PLUMBER) : PLUMBER :=
  mkPlumber (astPlumbTable r) (astPipes r) (aucPlumbBuffer r) (usPlumbLen r)
    (usPlumbPort r) (stPlumbMutex r) (stPlumbSem r) (sems r) v.

(** ** Operations *)

Definition upd_pipe (p : ptr) (f : PLUMB_STRUCT → PLUMB_STRUCT) (s : PLUMBER) : res PLUMBER :=
  m ← assign (astPipes s) p f; Ok (set_astPipes m s).

Definition upd_entry (i : Z) (f : PLUMB_TABLE_ENTRY → PLUMB_TABLE_ENTRY) (s : PLUMBER) : res PLUMBER :=
  e ← aget (astPlumbTable s) i;
  t ← aset (astPlumbTable s) i (f e);
  Ok (set_astPlumbTable t s).

Definition Plumber_InitPipe (p : ptr) (s : PLUMBER) : res (PLUMBER * PLUMB_RETURN) :=
  pipe ← deref (astPipes s) p;
  data ← forM (zseq 0 PIPE_SIZE) (fun i d => aset d i 0) (aucData pipe);
  s ← upd_pipe p (fun _ => mkPipe data 0 false NULL) s;
  Ok (s, PLUMB_OK).

(** [tsk] is the control block of the plumber and [stack] its stack. *)
Definition Plumber_CreateTask (tsk : ptr) (stack func : Z) (s : PLUMBER) : res PLUMBER :=
  let s := set_usPlumbLen 0 s in
  let s := set_stPlumbMutex (Mutex.Mutex_Init (stPlumbMutex s)) s in
  let s := set_stPlumbSem (Semaphore.Semaphore_Init (stPlumbSem s)) s in
  buf ← forM (zseq 0 PIPE_SIZE) (fun i b => aset b i 0) (aucPlumbBuffer s);
  let s := set_aucPlumbBuffer buf s in
  s ← forM (zseq 0 PLUMB_TABLE_SIZE)
        (fun i => upd_entry i (fun _ => mkEntry NULL NULL NULL PLUMB_UNINIT 0)) s;
  s ← forM (zseq 0 PIPE_POOL)
        (fun i s => '(s, _) ← Plumber_InitPipe (Some (Z.to_nat i)) s; Ok s) s;
  let s := set_usPlumbPort 0 s in
  k ← Task_CreateTask tsk "Plumber" stack PLUMBER_STACK_SIZE TASK_PRI_MAX func (kern s);
  '(k, _) ← Task_Add tsk k;
  k ← Task_Start tsk k;
  Ok (set_kern k s).

Definition Plumber_AddToList (task : ptr) (port : Z) (sem : ptr) (s : PLUMBER)
    : res (PLUMBER * PLUMB_RETURN) :=
  r ← search (fun e => bool_decide (pstTask e = NULL)) (astPlumbTable s) (zseq 0 PLUMB_TABLE_SIZE);
  match r with
  | Some (i, _) =>
      s ← upd_entry i (fun e => set_eState PLUMB_CLOSED
                                 (set_pstSem sem (set_pstTask task (set_usPortNum port e)))) s;
      Ok (s, PLUMB_OK)
  | None => Ok (s, PLUMB_FAIL_LIST_FULL)
  end.

(** The loop of [Plumber_OpenPort] and [Plumber_ClosePort]. *)
Definition set_port_state (st : PLUMB_STATE) (port : Z) (s : PLUMBER) : res (PLUMBER * PLUMB_RETURN) :=
  forM (zseq 0 PLUMB_TABLE_SIZE)
    (fun i x =>
       e ← aget (astPlumbTable (x.1)) i;
       if usPortNum e =? port
       then s ← upd_entry i (set_eState st) (x.1); Ok (s, PLUMB_OK)
       else Ok x)
    (s, PLUMB_FAIL_PIPE_NULL).

Definition Plumber_OpenPort := set_port_state PLUMB_OPEN.
Definition Plumber_ClosePort := set_port_state PLUMB_CLOSED.

(** [env] is the rest of the system while the writer waits for the mutex. *)
Definition Plumber_WriteToPort
    (env : Mutex.MUTEX_STRUCT → KERNEL → res (Mutex.MUTEX_STRUCT * KERNEL))
    (data : list Z) (len port : Z) (s : PLUMBER) : res (PLUMBER * PLUMB_RETURN) :=
  '(o, k, _) ← Mutex.Mutex_Claim env (stPlumbMutex s) TIME_FOREVER (kern s);
  let s := set_kern k (set_stPlumbMutex o s) in
  buf ← forM (zseq 0 len) (fun i b => v ← aget data i; aset b i v) (aucPlumbBuffer s);
  let s := set_aucPlumbBuffer buf s in
  let s := set_usPlumbPort port (set_usPlumbLen len s) in
  '(sem, k) ← Semaphore.Semaphore_Post (stPlumbSem s) (kern s);
  Ok (set_kern k (set_stPlumbSem sem s), PLUMB_OK).

Definition Plumber_FreePipe (p : ptr) (s : PLUMBER) : res PLUMBER :=
  s ← upd_pipe p (set_pstNext NULL) s;
  upd_pipe p (set_bInUse false) s.

Definition Plumber_ClaimPipe (task : ptr) (port : Z) (s : PLUMBER) : res (PLUMBER * ptr) :=
  r ← search (fun e => bool_decide (pstTask e = task) && (usPortNum e =? port)) (astPlumbTable s)
        (zseq 0 PLUMB_TABLE_SIZE);
  match r with
  | None => Ok (s, NULL)
  | Some (i, e) =>
      match pstPlumb e with
      | None => Ok (s, NULL)
      | Some _ =>
          let pstReturn := pstPlumb e in
          pipe ← deref (astPipes s) pstReturn;
          s ← upd_pipe pstReturn (set_pstNext NULL) s;
          s ← upd_entry i (set_pstPlumb (pstNext pipe)) s;
          Ok (s, pstReturn)
      end
  end.

(** ** The plumber task *)

(** The search for a free pipe. *)
Fixpoint find_pipe (idx : list Z) (m : gmap nat PLUMB_STRUCT) : res (option nat) :=
  match idx with
  | [] => Ok None
  | j :: idx =>
      pipe ← deref m (Some (Z.to_nat j));
      if bInUse pipe then find_pipe idx m else Ok (Some (Z.to_nat j))
  end.

(** The walk to the last pipe of a list. *)
Fixpoint last_pipe (fuel : nat) (p : ptr) (m : gmap nat PLUMB_STRUCT) : res ptr :=
  match fuel with
  | O => Fault OutOfFuel
  | S fuel =>
      pipe ← deref m p;
      match pstNext pipe with None => Ok p | Some _ => last_pipe fuel (pstNext pipe) m end
  end.

(** The packet is put into the free pipe [j] at the end of the list of entry [i]. *)
Definition fill_pipe (i : Z) (j : nat) (s : PLUMBER) : res PLUMBER :=
  s ← upd_pipe (Some j) (set_bInUse true) s;
  e ← aget (astPlumbTable s) i;
  s ← match pstPlumb e with
      | None => upd_entry i (set_pstPlumb (Some j)) s
      | Some _ =>
          p ← last_pipe (S (size (astPipes s))) (pstPlumb e) (astPipes s);
          upd_pipe p (set_pstNext (Some j)) s
      end;
  pipe ← deref (astPipes s) (Some j);
  data ← forM (zseq 0 (usPlumbLen s))
           (fun k d => v ← aget (aucPlumbBuffer s) k; aset d k v) (aucData pipe);
  s ← upd_pipe (Some j) (set_aucData data) s;
  s ← upd_pipe (Some j) (set_ucLen (u8 (usPlumbLen s))) s;
  upd_pipe (Some j) (set_pstNext NULL) s.

Definition post_entry (e : PLUMB_TABLE_ENTRY) (s : PLUMBER) : res PLUMBER :=
  match pstSem e with
  | None => Ok s
  | Some _ =>
      o ← deref (sems s) (pstSem e);
      '(o, k) ← Semaphore.Semaphore_Post o (kern s);
      m ← assign (sems s) (pstSem e) (fun _ => o);
      Ok (set_kern k (set_sems m s))
  end.

Definition deliver_entry (i : Z) (s : PLUMBER) : res PLUMBER :=
  e ← aget (astPlumbTable s) i;
  if (usPortNum e =? usPlumbPort s) && bool_decide (eState e = PLUMB_OPEN) then
    r ← find_pipe (zseq 0 PIPE_POOL) (astPipes s);
    match r with
    | None => Ok s
    | Some j => s ← fill_pipe i j s; post_entry e s
    end
  else Ok s.

(** One turn of the plumber's loop, after the semaphore was received. *)
Definition Plumber_Task_turn (s : PLUMBER) : res PLUMBER :=
  s ← forM (zseq 0 PLUMB_TABLE_SIZE) deliver_entry s;
  '(o, k) ← Mutex.Mutex_Release (stPlumbMutex s) (kern s);
  Ok (set_kern k (set_stPlumbMutex o s)).

(** ** Lists of pipes *)

Fixpoint plist (m : gmap nat PLUMB_STRUCT) (p : ptr) (l : list nat) : Prop :=
  match l with
  | [] => p = NULL
  | x :: l => p = Some x ∧ ∃ t, m !! x = Some t ∧ plist m (pstNext t) l
  end.

(** Packet 0 waits on port 9 of task 1, which another packet is for; the
    other buffers are free. *)
Definition example_entry : PLUMB_TABLE_ENTRY := mkEntry (Some 1%nat) (Some 0%nat) NULL PLUMB_OPEN 9.
Definition example_pipe (b : bool) : PLUMB_STRUCT := mkPipe (replicate 16 0) 3 b NULL.
Definition example_plumber : PLUMBER :=
  mkPlumber (example_entry :: replicate (Z.to_nat PLUMB_TABLE_SIZE - 1) (mkEntry NULL NULL NULL PLUMB_CLOSED 0))
    (list_to_map ((λ i, (i, example_pipe (bool_decide (i = 0)%nat))) <$> seq 0 4))
    (replicate 16 5) 2 9 (Mutex.mkMutex 1 0 NULL) (Semaphore.mkSem 0 1 NULL) ∅
    (mkKernel ∅ NULL 0 true 0 false ∅).

Lemma example_plumber_pipes j t :
  astPipes example_plumber !! j = Some t → length (aucData t) = 16%nat.
Proof.
  intros H. apply elem_of_list_to_map_2, list_elem_of_fmap in H as (i & [= -> ->] & _). done.
Qed.

Lemma plist_insert_out m p l x t : x ∉ l → plist m p l → plist (<[x := t]> m) p l.
Proof.
  revert p. induction l as [|y l IH]; intros p Hx H; [done|]. destruct H as (-> & ty & Hy & H).
  split; [done|]. exists ty. rewrite lookup_insert_ne by set_solver. split; [done|].
  apply IH; [set_solver|done].
Qed.

Lemma plist_lookup m p l x : plist m p l → x ∈ l → is_Some (m !! x).
Proof.
  revert p. induction l as [|y l IH]; intros p H Hx; [set_solver|]. destruct H as (-> & ty & Hy & H).
  apply elem_of_cons in Hx as [->|Hx]; [by rewrite Hy|]. by eapply IH.
Qed.

Lemma plist_length m p l : plist m p l → NoDup l → (length l <= size m)%nat.
Proof.
  intros H Hnd. rewrite <- (size_list_to_set (C := gset nat) l), <- size_dom by done.
  apply subseteq_size. intros x Hx%elem_of_list_to_set. apply elem_of_dom. by eapply plist_lookup.
Qed.

Lemma last_pipe_spec fuel m p x l :
  plist m p (x :: l) → (length l < fuel)%nat →
  ∃ l' z, x :: l = l' ++ [z] ∧ last_pipe fuel p m = Ok (Some z).
Proof.
  revert p x l. induction fuel as [|fuel IH]; intros p x l H Hf; [lia|].
  destruct H as (-> & t & Ht & H). cbn [last_pipe]. rewrite (deref_some _ _ _ Ht), bind_ok.
  destruct l as [|y l].
  - cbn in H. rewrite H. exists [], x. done.
  - pose proof H as [Hn _]. rewrite Hn in *. destruct (IH (Some y) y l H) as (l' & z & E & Hl).
    { cbn in Hf. lia. }
    exists (x :: l'), z. rewrite Hl. split; [|done]. by rewrite E.
Qed.

(** Linking a new last pipe. *)
Lemma plist_snoc m p l z tz j tj :
  plist m p (l ++ [z]) → NoDup (l ++ [z]) → j ∉ l ++ [z] → m !! z = Some tz →
  pstNext tj = NULL →
  plist (<[j := tj]> (<[z := set_pstNext (Some j) tz]> m)) p (l ++ [z] ++ [j]).
Proof.
  intros H Hnd Hj Hz Htj. revert p H. induction l as [|x l IH]; intros p H; cbn [app] in *.
  - destruct H as (-> & t & Ht & Hn). split; [done|]. exists (set_pstNext (Some j) tz).
    rewrite lookup_insert_ne by set_solver. rewrite lookup_insert_eq. split; [done|]. split; [done|].
    exists tj. rewrite lookup_insert_eq. done.
  - destruct H as (-> & t & Ht & H). apply NoDup_cons in Hnd as [Hx Hnd]. split; [done|]. exists t.
    rewrite lookup_insert_ne by set_solver. rewrite lookup_insert_ne by set_solver.
    split; [done|]. apply IH; [done|set_solver|done].
Qed.

(** ** Copying a packet *)

Lemma copy_spec (buf d : list Z) (n : nat) :
  (n <= length buf)%nat → (n <= length d)%nat →
  forM (seqZ 0 (Z.of_nat n)) (fun k d => v ← aget buf k; aset d k v) d = Ok (take n buf ++ drop n d).
Proof.
  induction n as [|n IH]; intros Hb Hd; [done|].
  replace (Z.of_nat (S n)) with (Z.of_nat n + 1) by lia. rewrite seqZ_app by lia.
  rewrite forM_app, IH by lia. rewrite bind_ok, Z.add_0_l.
  rewrite (seqZ_cons' (Z.of_nat n) 0 : seqZ _ 1 = _). cbn [forM].
  destruct (lookup_lt_is_Some_2 buf n) as [v Hv]; [lia|]. rewrite (aget_some _ _ _ Hv), bind_ok.
  rewrite aset_some by (rewrite length_app, length_take, length_drop; lia). rewrite bind_ok.
  f_equal. rewrite insert_app_r_alt by (rewrite length_take; lia).
  rewrite length_take, Nat.min_l, Nat.sub_diag by lia.
  rewrite (take_S_r _ _ _ Hv), <- app_assoc. f_equal.
  destruct (lookup_lt_is_Some_2 d n) as [w Hw]; [lia|]. by rewrite (drop_S _ _ _ Hw).
Qed.

Lemma copy_overflow (buf d : list Z) (n : nat) :
  (length d < n)%nat → (n <= length buf)%nat →
  forM (seqZ 0 (Z.of_nat n)) (fun k d => v ← aget buf k; aset d k v) d = Fault OutOfBounds.
Proof.
  intros Hd Hb. replace (Z.of_nat n) with (Z.of_nat (length d) + Z.of_nat (S (n - length d - 1))) by lia.
  rewrite seqZ_app by lia. rewrite forM_app, copy_spec by lia. rewrite bind_ok, Z.add_0_l, seqZ_cons'.
  cbn [forM]. destruct (lookup_lt_is_Some_2 buf (length d)) as [v Hv]; [lia|].
  rewrite (aget_some _ _ _ Hv), bind_ok. unfold aset. rewrite decide_False; [done|].
  rewrite length_app, length_take, length_drop. lia.
Qed.

(** ** Delivery *)

Lemma upd_pipe_some s j t f :
  astPipes s !! j = Some t → upd_pipe (Some j) f s = Ok (set_astPipes (<[j := f t]> (astPipes s)) s).
Proof. intros H. unfold upd_pipe. by rewrite (assign_some _ _ _ _ H). Qed.

Lemma upd_entry_some s i e f :
  astPlumbTable s !! i = Some e →
  upd_entry (Z.of_nat i) f s = Ok (set_astPlumbTable (<[i := f e]> (astPlumbTable s)) s).
Proof.
  intros H. unfold upd_entry. rewrite (aget_some _ _ _ H), bind_ok, aset_some by (by eapply lookup_lt_Some).
  done.
Qed.

(** The link of the new pipe: into the table entry or behind the last pipe. *)
Lemma fill_link s i e l j pj :
  astPlumbTable s !! i = Some e → plist (astPipes s) (pstPlumb e) l → NoDup l → j ∉ l →
  astPipes s !! j = Some pj →
  ∃ m e', (match pstPlumb e with
      | None => upd_entry (Z.of_nat i) (set_pstPlumb (Some j)) s
      | Some _ =>
          p ← last_pipe (S (size (astPipes s))) (pstPlumb e) (astPipes s);
          upd_pipe p (set_pstNext (Some j)) s
      end) = Ok (set_astPlumbTable (<[i := e']> (astPlumbTable s)) (set_astPipes m s)) ∧
    e' = set_pstPlumb (pstPlumb e') e ∧ m !! j = Some pj ∧
    (∀ tj, pstNext tj = NULL → plist (<[j := tj]> m) (pstPlumb e') (l ++ [j])) ∧
    (∀ x, ∃ n, m !! x = (fun t => set_pstNext (default (pstNext t) n) t) <$> astPipes s !! x).
Proof.
  intros He Hl Hnd Hj Hpj.
  assert (∀ o : option PLUMB_STRUCT, o = (fun t => set_pstNext (default (pstNext t) None) t) <$> o) as Hid.
  { intros [[]|]; done. }
  destruct l as [|x l].
  - cbn in Hl. rewrite Hl, (upd_entry_some _ _ _ _ He). exists (astPipes s), (set_pstPlumb (Some j) e).
    split; [by destruct s|]. split; [by destruct e|]. split; [done|]. split; [|by intros x; exists None].
    intros tj Htj. cbn. split; [done|]. exists tj. rewrite lookup_insert_eq. done.
  - destruct (last_pipe_spec (S (size (astPipes s))) _ _ x l Hl) as (l' & z & E & Hz).
    { pose proof (plist_length _ _ _ Hl Hnd). cbn in *. lia. }
    pose proof Hl as [Hp _]. rewrite Hz. rewrite Hp, bind_ok.
    destruct (plist_lookup _ _ _ z Hl) as [tz Htz]; [rewrite E; set_solver|].
    rewrite (upd_pipe_some _ _ _ _ Htz).
    assert (z ≠ j) as Hzj by (intros ->; apply Hj; rewrite E; set_solver).
    exists (<[z := set_pstNext (Some j) tz]> (astPipes s)), e. split.
    { rewrite list_insert_id by done. by destruct s. }
    split; [by destruct e|]. split; [by rewrite lookup_insert_ne|]. split.
    + intros tj Htj. rewrite E in *. rewrite <- app_assoc. by apply plist_snoc.
    + intros y. destruct (decide (y = z)) as [->|Hne].
      * exists (Some (Some j)). by rewrite lookup_insert_eq, Htz.
      * exists None. rewrite lookup_insert_ne by done. apply Hid.
Qed.

(** Data, length and flag of a pipe. *)
Definition packet (t : PLUMB_STRUCT) : list Z * Z * bool := (aucData t, ucLen t, bInUse t).

Lemma fill_pipe_spec s i e l j pj :
  astPlumbTable s !! i = Some e → plist (astPipes s) (pstPlumb e) l → NoDup l → j ∉ l →
  astPipes s !! j = Some pj → length (aucData pj) = 16%nat → length (aucPlumbBuffer s) = 16%nat →
  0 <= usPlumbLen s <= PIPE_SIZE →
  ∃ s' e', fill_pipe (Z.of_nat i) j s = Ok s' ∧
    astPlumbTable s' = <[i := e']> (astPlumbTable s) ∧ e' = set_pstPlumb (pstPlumb e') e ∧
    plist (astPipes s') (pstPlumb e') (l ++ [j]) ∧
    packet <$> astPipes s' !! j
    = Some (take (Z.to_nat (usPlumbLen s)) (aucPlumbBuffer s) ++ drop (Z.to_nat (usPlumbLen s)) (aucData pj),
            usPlumbLen s, true) ∧
    (∀ x, x ≠ j → packet <$> astPipes s' !! x = packet <$> astPipes s !! x) ∧
    kern s' = kern s ∧ sems s' = sems s ∧ aucPlumbBuffer s' = aucPlumbBuffer s ∧
    usPlumbLen s' = usPlumbLen s ∧ usPlumbPort s' = usPlumbPort s ∧ stPlumbMutex s' = stPlumbMutex s.
Proof.
  intros He Hl Hnd Hj Hpj Hd Hb Hlen. unfold fill_pipe. rewrite (upd_pipe_some _ _ _ _ Hpj), bind_ok.
  set (s1 := set_astPipes _ s). assert (astPlumbTable s1 !! i = Some e) as He1 by done.
  rewrite (aget_some _ _ _ He1), bind_ok.
  destruct (fill_link s1 i e l j (set_bInUse true pj)) as (m & e' & -> & Ee & Hmj & Hpl & Hm);
    [done|by apply plist_insert_out|done|done|apply lookup_insert_eq|].
  rewrite bind_ok. cbn [astPipes set_astPlumbTable set_astPipes usPlumbLen aucPlumbBuffer].
  rewrite (deref_some _ _ _ Hmj), bind_ok. unfold zseq.
  replace (usPlumbLen s1) with (Z.of_nat (Z.to_nat (usPlumbLen s))) by (rewrite Z2Nat.id; [done|lia]).
  change (aucPlumbBuffer s1) with (aucPlumbBuffer s). unfold PIPE_SIZE in Hlen.
  rewrite copy_spec by (cbn; lia). rewrite bind_ok.
  unfold upd_pipe at 3. cbn [astPipes set_astPlumbTable set_astPipes].
  rewrite (assign_some _ _ _ _ Hmj), !bind_ok.
  erewrite upd_pipe_some by (cbn [astPipes set_astPipes]; apply lookup_insert_eq). rewrite bind_ok.
  erewrite upd_pipe_some by (cbn [astPipes set_astPipes]; apply lookup_insert_eq).
  eexists _, e'. split; [reflexivity|].
  cbn [astPipes astPlumbTable set_astPlumbTable set_astPipes kern sems aucPlumbBuffer usPlumbLen usPlumbPort stPlumbMutex].
  rewrite !insert_insert_eq. split; [done|]. split; [done|]. split; [by apply Hpl|]. split.
  { rewrite lookup_insert_eq. cbn. rewrite u8_small by (change (usPlumbLen s1) with (usPlumbLen s); lia). done. }
  split; [|done]. intros x Hx. rewrite lookup_insert_ne by done. destruct (Hm x) as [n ->].
  cbn [astPipes s1 set_astPipes]. rewrite lookup_insert_ne by done. by destruct (astPipes s !! x).
Qed.

Lemma find_pipe_spec (m : gmap nat PLUMB_STRUCT) (idx : list Z) :
  (∀ j, j ∈ idx → is_Some (m !! Z.to_nat j)) →
  (find_pipe idx m = Ok None ∧ ∀ j t, j ∈ idx → m !! Z.to_nat j = Some t → bInUse t = true) ∨
  (∃ j t, find_pipe idx m = Ok (Some j) ∧ m !! j = Some t ∧ bInUse t = false).
Proof.
  induction idx as [|i idx IH]; intros Hm; [left; split; [done|set_solver]|].
  cbn [find_pipe]. destruct (Hm i) as [t Ht]; [set_solver|]. rewrite (deref_some _ _ _ Ht), bind_ok.
  destruct (bInUse t) eqn:Eu; [|right; by exists (Z.to_nat i), t].
  destruct IH as [[-> H]|H]; [set_solver| |by right]. left. split; [done|].
  intros j t' Hj Ht'. apply elem_of_cons in Hj as [->|Hj]; [congruence|]. by eapply H.
Qed.

(** Delivery: when the pool has a free pipe, an open entry on the packet's
    port gets the packet at the end of its list, with the bytes and length
    of the buffer and in a pipe that was free, and no other packet changes;
    when the pool is exhausted the packet is dropped for this entry and
    nothing changes, without any error to the writer. *)
Theorem Plumber_deliver_appends s i e l :
  astPlumbTable s !! i = Some e → usPortNum e = usPlumbPort s → eState e = PLUMB_OPEN → pstSem e = NULL →
  plist (astPipes s) (pstPlumb e) l → NoDup l →
  (∀ x t, x ∈ l → astPipes s !! x = Some t → bInUse t = true) →
  (∀ j, (j < 4)%nat → is_Some (astPipes s !! j)) →
  (∀ j t, astPipes s !! j = Some t → length (aucData t) = 16%nat) →
  length (aucPlumbBuffer s) = 16%nat → 0 <= usPlumbLen s <= PIPE_SIZE →
  (deliver_entry (Z.of_nat i) s = Ok s ∧
   ∀ j t, (j < 4)%nat → astPipes s !! j = Some t → bInUse t = true) ∨
  (∃ s' e' j t t', deliver_entry (Z.of_nat i) s = Ok s' ∧
     astPipes s !! j = Some t ∧ bInUse t = false ∧
     astPlumbTable s' = <[i := e']> (astPlumbTable s) ∧
     plist (astPipes s') (pstPlumb e') (l ++ [j]) ∧
     astPipes s' !! j = Some t' ∧ ucLen t' = usPlumbLen s ∧ bInUse t' = true ∧
     take (Z.to_nat (usPlumbLen s)) (aucData t') = take (Z.to_nat (usPlumbLen s)) (aucPlumbBuffer s) ∧
     (∀ x, x ≠ j → packet <$> astPipes s' !! x = packet <$> astPipes s !! x)).
Proof.
  intros He Hport Hopen Hsem Hl Hnd Huse Hpool Hdata Hbuf Hlen. unfold deliver_entry.
  rewrite (aget_some _ _ _ He), bind_ok, Hport, Z.eqb_refl, bool_decide_eq_true_2 by done. cbn [andb].
  destruct (find_pipe_spec (astPipes s) (zseq 0 PIPE_POOL)) as [[Hf Hall]|(j & t & Hf & Hj & Hfree)].
  { intros j Hj. apply Hpool. unfold zseq, PIPE_POOL in Hj. apply elem_of_seqZ in Hj. lia. }
  - left. rewrite Hf. split; [done|]. intros j t Hj Ht. apply (Hall (Z.of_nat j)); [|by rewrite Nat2Z.id].
    apply elem_of_seqZ. unfold PIPE_POOL. lia.
  - right. rewrite Hf, bind_ok.
    assert (j ∉ l) as Hjl by (intros Hin; by rewrite (Huse j t Hin Hj) in Hfree).
    destruct (fill_pipe_spec s i e l j t He Hl Hnd Hjl Hj (Hdata j t Hj) Hbuf Hlen)
      as (s' & e' & -> & Htab & Ee & Hpl & Hpk & Hoth & _).
    rewrite bind_ok. unfold post_entry. rewrite Hsem.
    destruct (astPipes s' !! j) as [t'|] eqn:Ej; [|done]. cbn in Hpk. injection Hpk as Hd Hln Hu.
    exists s', e', j, t, t'. repeat (split; [done|]). split; [|done]. rewrite Hd.
    rewrite take_app_le by (rewrite length_take; unfold PIPE_SIZE in Hlen; lia).
    by rewrite take_take, Nat.min_id.
Qed.

Lemma Plumber_deliver_appends_witness :
  ∃ s' e', deliver_entry 0 example_plumber = Ok s' ∧ astPlumbTable s' !! 0%nat = Some e' ∧
    plist (astPipes s') (pstPlumb e') [0; 1]%nat.
Proof.
  destruct (Plumber_deliver_appends example_plumber 0 example_entry [0]%nat)
    as [[H _]|(s' & e' & j & t & t' & H1 & H2 & H3 & H4 & H5 & _)].
  - done.
  - done.
  - done.
  - done.
  - cbn [plist]. split; [done|]. eexists. split; reflexivity.
  - apply (bool_decide_unpack _). vm_compute. exact I.
  - intros x t Hx Ht. apply list_elem_of_singleton in Hx as ->. vm_compute in Ht. by simplify_eq.
  - intros j Hj. do 4 (destruct j as [|j]; [by eexists|]). lia.
  - exact example_plumber_pipes.
  - done.
  - done.
  - vm_compute in H. discriminate H.
  - vm_compute in H1. injection H1 as <-. eexists _, _. split; [vm_compute; reflexivity|].
    split; [reflexivity|]. cbn [plist]. split; [reflexivity|]. eexists. split; [reflexivity|].
    split; [reflexivity|]. eexists. split; reflexivity.
Defined.

(** Claiming takes the oldest packet: the pipe at the head of the list of
    the first entry of the task on the port is unlinked and returned, the
    rest of the list stays in order; freeing it makes it available again. *)
Theorem Plumber_ClaimPipe_oldest s i e task port x t l :
  Z.of_nat (length (astPlumbTable s)) = PLUMB_TABLE_SIZE →
  astPlumbTable s !! i = Some e → pstTask e = task → usPortNum e = port →
  (∀ j e', (j < i)%nat → astPlumbTable s !! j = Some e' → ¬ (pstTask e' = task ∧ usPortNum e' = port)) →
  plist (astPipes s) (pstPlumb e) (x :: l) → NoDup (x :: l) → astPipes s !! x = Some t →
  ∃ s' e', Plumber_ClaimPipe task port s = Ok (s', Some x) ∧
    astPlumbTable s' = <[i := e']> (astPlumbTable s) ∧ plist (astPipes s') (pstPlumb e') l ∧
    astPipes s' !! x = Some (set_pstNext NULL t) ∧
    ∃ s'' t'', Plumber_FreePipe (Some x) s' = Ok s'' ∧ astPipes s'' !! x = Some t'' ∧ bInUse t'' = false.
Proof.
  intros Hlen He Ht Hp Hfirst Hl Hnd Hx. unfold Plumber_ClaimPipe, zseq. rewrite <- Hlen.
  rewrite (search_found _ _ i e He).
  2: { by rewrite bool_decide_eq_true_2, Hp, Z.eqb_refl by done. }
  2: { intros j e' Hj Hlt. apply andb_false_iff. specialize (Hfirst j e' Hlt Hj).
       destruct (decide (pstTask e' = task)) as [E|E]; [right; apply Z.eqb_neq; naive_solver|left].
       by apply bool_decide_eq_false_2. }
  rewrite bind_ok. destruct Hl as (Hhd & t0 & Ht0 & Hl). assert (t0 = t) as -> by congruence.
  rewrite Hhd, (deref_some _ _ _ Hx), bind_ok, (upd_pipe_some _ _ _ _ Hx), bind_ok.
  rewrite (upd_entry_some _ _ e) by done. rewrite bind_ok. apply NoDup_cons in Hnd as [Hxl Hnd].
  eexists _, _. split; [done|]. cbn [astPlumbTable astPipes set_astPlumbTable set_astPipes pstPlumb set_pstPlumb].
  split; [done|]. split; [by apply plist_insert_out|]. split; [apply lookup_insert_eq|].
  unfold Plumber_FreePipe. erewrite upd_pipe_some by apply lookup_insert_eq. rewrite bind_ok.
  erewrite upd_pipe_some by apply lookup_insert_eq. eexists _, _. split; [done|].
  cbn [astPipes set_astPipes]. rewrite lookup_insert_eq. done.
Qed.

Lemma Plumber_ClaimPipe_oldest_witness :
  ∃ s', Plumber_ClaimPipe (Some 1%nat) 9 example_plumber = Ok (s', Some 0%nat).
Proof.
  destruct (Plumber_ClaimPipe_oldest example_plumber 0 example_entry (Some 1%nat) 9 0 (example_pipe true) [])
    as (s' & e' & H & _).
  - done.
  - done.
  - done.
  - done.
  - intros j e' Hj. lia.
  - cbn [plist]. split; [done|]. eexists. split; reflexivity.
  - apply (bool_decide_unpack _). vm_compute. exact I.
  - done.
  - eauto.
Defined.

(** The length of a packet is not checked: writing more than the 16 bytes
    of the plumber's buffer runs past its end. *)
Theorem Plumber_WriteToPort_overflow env data len port s x t :
  Mutex.usSem (stPlumbMutex s) ≠ 0 → pstCurrentTask (kern s) = Some x → tcb (kern s) !! x = Some t →
  length (aucPlumbBuffer s) = 16%nat → PIPE_SIZE < len → len <= Z.of_nat (length data) →
  Plumber_WriteToPort env data len port s = Fault OutOfBounds.
Proof.
  intros Hm Hc Ht Hb Hlt Hd. unfold Plumber_WriteToPort, Mutex.Mutex_Claim.
  rewrite (Mutex.Claim_enter_free _ _ _ x t Hm Hc Ht), !bind_ok. unfold zseq.
  rewrite <- (Z2Nat.id len) by (unfold PIPE_SIZE in Hlt; lia).
  rewrite copy_overflow; [done|cbn; unfold PIPE_SIZE in Hlt; lia|lia].
Qed.

(** The plumber loses its priority: the mutex is claimed by the writer but
    released by the plumber, which never claimed it, so the release gives
    the plumber the saved priority of a block that has none: zero. *)
Theorem Plumber_loses_priority s s1 x t :
  forM (zseq 0 PLUMB_TABLE_SIZE) deliver_entry s = Ok s1 →
  pstCurrentTask (kern s1) = Some x → tcb (kern s1) !! x = Some t →
  ucPriority t = TASK_PRI_MAX → ucMutexPriority t = 0 → Mutex.pstWait (stPlumbMutex s1) = NULL →
  ∃ s' t', Plumber_Task_turn s = Ok s' ∧ tcb (kern s') !! x = Some t' ∧ ucPriority t' = 0 ∧
    Mutex.usSem (stPlumbMutex s') = 1.
Proof.
  intros Hd Hc Ht _ Hmp Hw. unfold Plumber_Task_turn. rewrite Hd, bind_ok.
  rewrite (Mutex.Release_free _ _ x t Hw Hc Ht), bind_ok. eexists _, _. split; [done|].
  cbn [kern set_kern stPlumbMutex set_stPlumbMutex]. kcbn. rewrite lookup_insert_eq. split; [done|].
  unfold Mutex.release_block. by rewrite Hmp.
Qed.

End Plumber.
