(* ===== verification/FunkUart.v ===== *)
(** * FunkOS: the buffered serial port (drivers/serial/uart_async.c)

    A transmit and a receive ring of 64 integers each, filled and drained by
    [uart_putchar], the receive interrupt and the data-register-empty
    interrupt.  The registers [UDR0] (data) and [UCSR0A] (flags) belong to the
    processor: reading them is a parameter.  The theorem gives the queue the
    transmit ring implements: it is first in, first out and holds 62
    characters, but the first character after [uart_init] is lost. *)
From S2P Require Import Prelude.

Module Uart.
Open Scope Z_scope.

Definition UART_TX_BUFFER_SIZE : Z := 64.
Definition UART_RX_BUFFER_SIZE : Z := 64.

(** Bits of [UCSR0B]. *)
Definition RXCIE0 : Z := 7.
Definition UDRIE0 : Z := 5.
Definition RXEN0 : Z := 4.
Definition TXEN0 : Z := 3.
Definition _BV (b : Z) : Z := Z.shiftl 1 b.

Record ring : Type := mkRing { buffer : list Z; start : Z; fin : Z }.

(** [UDR0] written: [wire] is what was sent so far, oldest first.  [hw] is the
    state of the receiver. *)
Record UART {HW : Type} : Type := mkUart {
  tx_buffer : ring;
  rx_buffer : ring;
  UBRR0 : Z;
  UCSR0C : Z;
  UCSR0B : Z;
  redirected : bool;
  enabled : bool;
  wire : list Z;
  hw : HW
}.
Arguments UART : clear implicits.

Section uart.
Context {HW : Type}.

(** A read of the data register and of the receive flag; the divisor for the
    baud rate, which the C library computes. *)
Context (read_UDR0 : HW → Z * HW) (poll_RXC0 : HW → bool * HW) (UBRR_VALUE : Z).

Abbreviation SYS := (UART HW).

Definition set_tx (r : ring) (s : SYS) : SYS :=
  mkUart HW r (rx_buffer s) (UBRR0 s) (UCSR0C s) (UCSR0B s) (redirected s) (enabled s) (wire s) (hw s).
Definition set_rx (r : ring) (s : SYS) : SYS :=
  mkUart HW (tx_buffer s) r (UBRR0 s) (UCSR0C s) (UCSR0B s) (redirected s) (enabled s) (wire s) (hw s).
Definition set_UCSR0B (v : Z) (s : SYS) : SYS :=
  mkUart HW (tx_buffer s) (rx_buffer s) (UBRR0 s) (UCSR0C s) v (redirected s) (enabled s) (wire s) (hw s).
Definition set_hw (h : HW) (s : SYS) : SYS :=
  mkUart HW (tx_buffer s) (rx_buffer s) (UBRR0 s) (UCSR0C s) (UCSR0B s) (redirected s) (enabled s) (wire s) h.
Definition send (v : Z) (s : SYS) : SYS :=
  mkUart HW (tx_buffer s) (rx_buffer s) (UBRR0 s) (UCSR0C s) (UCSR0B s) (redirected s) (enabled s)
    (wire s ++ [u8 v]) (hw s).

Definition uart_init (s : SYS) : SYS :=
  let tx := mkRing (buffer (tx_buffer s)) 0 0 in
  let rx := mkRing (buffer (rx_buffer s)) 0 0 in
  let b := Z.lor (_BV RXEN0) (_BV TXEN0) in
  let b := Z.lor b (Z.lor (Z.shiftl 1 RXCIE0) (Z.shiftl 1 RXEN0)) in
  mkUart HW tx rx UBRR_VALUE (Z.lor (_BV 2) (_BV 1)) b true true (wire s) (hw s).

(** The part of [uart_putchar] after the carriage return. *)
Definition put (c : Z) (s : SYS) : res SYS :=
  let t := tx_buffer s in
  let write_pointer := Z.rem (fin t + 1) UART_TX_BUFFER_SIZE in
  if negb (write_pointer =? start t) then
    b ← aset (buffer t) (fin t) c;
    let s := set_tx (mkRing b (start t) write_pointer) s in
    Ok (set_UCSR0B (Z.lor (UCSR0B s) (_BV UDRIE0)) s)
  else Ok s.

Definition uart_putchar (c : Z) (s : SYS) : res SYS :=
  s ← (if c =? 10 then put 13 s else Ok s);
  put c s.

(** [n] bounds the turns of the waiting loop. *)
Fixpoint uart_getchar (n : nat) (s : SYS) : res (Z * SYS) :=
  match n with
  | O => Fault OutOfFuel
  | S n =>
      let '(ready, h) := poll_RXC0 (hw s) in
      if ready : bool then let '(c, h) := read_UDR0 h in Ok (c, set_hw h s)
      else uart_getchar n (set_hw h s)
  end.

(** The data register is read a second time, whatever became of the first
    character. *)
Definition USART_RX_vect (s : SYS) : res SYS :=
  let r := rx_buffer s in
  let write_pointer := Z.rem (fin r + 1) UART_RX_BUFFER_SIZE in
  s ← (if negb (write_pointer =? start r) then
         let '(c, h) := read_UDR0 (hw s) in
         b ← aset (buffer r) (fin r) c;
         Ok (set_rx (mkRing b (start r) write_pointer) (set_hw h s))
       else Ok s);
  let '(_, h) := read_UDR0 (hw s) in
  Ok (set_hw h s).

Definition USART_UDRE_vect (s : SYS) : res SYS :=
  let t := tx_buffer s in
  let read_pointer := Z.rem (start t + 1) UART_TX_BUFFER_SIZE in
  if negb (read_pointer =? fin t) then
    c ← aget (buffer t) read_pointer;
    Ok (set_tx (mkRing (buffer t) read_pointer (fin t)) (send c s))
  else Ok (set_UCSR0B (u8 (Z.land (UCSR0B s) (Z.lnot (_BV UDRIE0)))) s).

(** ** Runs of the transmitter *)

(** What the transmitter goes through: a character put by the program, or the
    interrupt, which happens only while it is enabled. *)
Inductive op : Type := Put (c : Z) | Udre.

Definition do_op (o : op) (s : SYS) : res SYS :=
  match o with
  | Put c => uart_putchar c s
  | Udre => if Z.testbit (UCSR0B s) UDRIE0 then USART_UDRE_vect s else Ok s
  end.

(** The queue the program sees: it starts out [fresh] and swallows one
    character; then it holds up to 62 characters and drops what is put into
    it when full. *)
Record QUEUE : Type := mkQ { fresh : bool; items : list Z; sent : list Z }.

Definition q_put (c : Z) (q : QUEUE) : QUEUE :=
  if fresh q then mkQ false [] (sent q)
  else if (length (items q) <? 62)%nat then mkQ false (items q ++ [c]) (sent q) else q.

(** A line feed is preceded by a carriage return. *)
Definition q_op (o : op) (q : QUEUE) : QUEUE :=
  match o with
  | Put c => q_put c (if c =? 10 then q_put 13 q else q)
  | Udre =>
      match items q with
      | [] => q
      | c :: l => mkQ (fresh q) l (sent q ++ [u8 c])
      end
  end.

(** The transmit ring [r] stands for the queue [q]. *)
Record holds (s : SYS) (q : QUEUE) : Prop := {
  ho_len : length (buffer (tx_buffer s)) = 64%nat;
  ho_wire : wire s = sent q;
  ho_start : 0 <= start (tx_buffer s) < 64;
  ho_room : Z.of_nat (length (items q)) <= 62;
  ho_fresh : fresh q = true → items q = [] ∧ fin (tx_buffer s) = start (tx_buffer s) ∧
    Z.testbit (UCSR0B s) UDRIE0 = false;
  ho_fin : fresh q = false →
    fin (tx_buffer s) = (start (tx_buffer s) + 1 + Z.of_nat (length (items q))) mod 64;
  ho_on : items q ≠ [] → Z.testbit (UCSR0B s) UDRIE0 = true;
  ho_items : ∀ k c, items q !! k = Some c →
    buffer (tx_buffer s) !! Z.to_nat ((start (tx_buffer s) + 1 + Z.of_nat k) mod 64) = Some c
}.

Lemma rem_mod z : 0 <= z → Z.rem z 64 = z mod 64.
Proof. intros. by apply Z.rem_mod_nonneg. Qed.

Lemma on_bit z : Z.testbit (Z.lor z (_BV UDRIE0)) UDRIE0 = true.
Proof. rewrite Z.lor_spec. apply orb_true_r. Qed.

Lemma off_bit z : Z.testbit (u8 (Z.land z (Z.lnot (_BV UDRIE0)))) UDRIE0 = false.
Proof.
  unfold u8, UDRIE0. change 256 with (2 ^ 8). rewrite Z.mod_pow2_bits_low by lia.
  rewrite Z.land_spec. apply andb_false_r.
Qed.

Lemma put_holds c s q : holds s q → ∃ s', put c s = Ok s' ∧ holds s' (q_put c q).
Proof.
  intros [Hl Hw Hs Hr Hf Hn Ho Hi]. unfold put, UART_TX_BUFFER_SIZE, q_put.
  assert (0 <= fin (tx_buffer s) < 64) as Hfin.
  { destruct (fresh q) eqn:E; [destruct (Hf eq_refl) as (_ & -> & _); done|]. rewrite (Hn eq_refl). dlia. }
  rewrite rem_mod by lia. destruct (fresh q) eqn:E.
  - destruct (Hf eq_refl) as (Hi0 & Hfs & Hbit).
    destruct (Z.eqb_spec ((fin (tx_buffer s) + 1) mod 64) (start (tx_buffer s))) as [E1|_]; [dlia|].
    cbn [negb]. rewrite aset_in, bind_ok by lia. eexists. split; [done|]. split; cbn; try done.
    + by rewrite length_insert.
    + intros _. rewrite Hfs, Z.add_0_r. done.
  - specialize (Hn eq_refl). destruct (Nat.ltb_spec (length (items q)) 62) as [Hlt|Hge].
    + destruct (Z.eqb_spec ((fin (tx_buffer s) + 1) mod 64) (start (tx_buffer s))) as [E1|_]; [dlia|].
      cbn [negb]. rewrite aset_in, bind_ok by lia. eexists. split; [done|]. split; cbn; try done.
      * by rewrite length_insert.
      * rewrite length_app. cbn. lia.
      * intros _. rewrite Hn, length_app. cbn. dlia.
      * intros _. apply on_bit.
      * intros k x Hk. destruct (decide (k = length (items q))) as [->|Hne].
        -- rewrite lookup_app_r, Nat.sub_diag in Hk by lia. injection Hk as <-. rewrite <- Hn.
           apply list_lookup_insert_eq. lia.
        -- assert (k < length (items q))%nat.
           { apply lookup_lt_Some in Hk. rewrite length_app in Hk. cbn in Hk. lia. }
           rewrite lookup_app_l in Hk by done. rewrite list_lookup_insert_ne; [by apply Hi|].
           rewrite Hn. dlia.
    + destruct (Z.eqb_spec ((fin (tx_buffer s) + 1) mod 64) (start (tx_buffer s))) as [_|E1]; [|dlia].
      exists s. split; [done|]. split; try done. intros H. congruence.
Qed.

Lemma putchar_holds c s q : holds s q → ∃ s', uart_putchar c s = Ok s' ∧ holds s' (q_op (Put c) q).
Proof.
  intros H. unfold uart_putchar. cbn [q_op]. destruct (c =? 10); [|by apply put_holds].
  destruct (put_holds 13 s q H) as (s1 & -> & H1). rewrite bind_ok. by apply put_holds.
Qed.

Lemma udre_holds s q : holds s q → ∃ s', do_op Udre s = Ok s' ∧ holds s' (q_op Udre q).
Proof.
  intros Hq. pose proof Hq as [Hl Hw Hs Hr Hf Hn Ho Hi]. cbn [do_op].
  destruct (Z.testbit (UCSR0B s) UDRIE0) eqn:Ebit.
  2: { exists s. split; [done|]. cbn. by destruct (items q); [|discriminate Ho]. }
  assert (fresh q = false) as Efr by (destruct (fresh q); [by destruct (Hf eq_refl) as (_ & _ & ?)|done]).
  specialize (Hn Efr). unfold USART_UDRE_vect, UART_TX_BUFFER_SIZE. rewrite rem_mod by lia. cbn [q_op].
  destruct (items q) as [|c l] eqn:Ei.
  - cbn in Hn. rewrite Z.add_0_r in Hn. rewrite Hn, Z.eqb_refl. cbn [negb].
    eexists. split; [done|]. split; cbn; try done; rewrite ?Ei; try done.
    + intros H. congruence.
    + intros _. cbn. by rewrite Z.add_0_r.
  - cbn [length] in *.
    destruct (Z.eqb_spec ((start (tx_buffer s) + 1) mod 64) (fin (tx_buffer s))) as [E1|_]; [dlia|].
    cbn [negb]. pose proof (Hi 0%nat c eq_refl) as H0. cbn in H0. rewrite Z.add_0_r in H0.
    rewrite (aget_in _ _ c), bind_ok by (done || dlia). eexists. split; [done|]. split; cbn; try done.
    + by rewrite Hw.
    + dlia.
    + lia.
    + intros H. congruence.
    + intros _. rewrite Hn. dlia.
    + intros k x Hk. specialize (Hi (S k) x Hk). rewrite <- Hi. f_equal. f_equal. dlia.
Qed.

Lemma run_holds ops s q : holds s q →
  ∃ s', forM ops do_op s = Ok s' ∧ holds s' (foldl (flip q_op) q ops).
Proof.
  revert s q. induction ops as [|o ops IH]; intros s q Hq; [by exists s|]. cbn [forM foldl].
  assert (∃ s', do_op o s = Ok s' ∧ holds s' (q_op o q)) as (s' & -> & Hq').
  { destruct o; [by apply putchar_holds|by apply udre_holds]. }
  rewrite bind_ok. by apply IH.
Qed.

Lemma init_holds s : length (buffer (tx_buffer s)) = 64%nat →
  holds (uart_init s) (mkQ true [] (wire s)).
Proof. intros Hl. by split. Qed.

(** The interrupts send all that is queued. *)
Lemma uart_drains s q : holds s q →
  ∃ s', forM (replicate (length (items q)) Udre) do_op s = Ok s' ∧
    holds s' (mkQ (fresh q) [] (sent q ++ (u8 <$> items q))).
Proof.
  destruct q as [fr it se]. cbn. revert s se. induction it as [|c it IH]; intros s se Hq.
  { exists s. by rewrite app_nil_r. }
  destruct (udre_holds _ _ Hq) as (s1 & E1 & H1). cbn [length replicate forM]. rewrite E1, bind_ok.
  destruct (IH _ _ H1) as (s2 & E2 & H2). exists s2. split; [done|]. by rewrite <- app_assoc in H2.
Qed.

(** A single character, unless it is a line feed, is never sent. *)
Lemma uart_first_char_lost c n s0 :
  length (buffer (tx_buffer s0)) = 64%nat → c ≠ 10 →
  ∃ s, forM (Put c :: replicate n Udre) do_op (uart_init s0) = Ok s ∧ wire s = wire s0.
Proof.
  intros Hl Hc. destruct (run_holds (Put c :: replicate n Udre) _ _ (init_holds s0 Hl)) as (s & E & H).
  exists s. split; [done|]. rewrite (ho_wire _ _ H). cbn.
  rewrite (proj2 (Z.eqb_neq c 10) Hc). cbn. clear. induction n as [|n IH]; [done|apply IH].
Qed.

(** C35: the transmitter after [uart_init], under any sequence of characters put
    by the program and data-register interrupts that come between the calls
    ([uart_putchar] has no critical section; an interrupt inside it is not
    part of the model), never leaves its ring and
    sends what a first-in first-out queue of 62 characters sends that swallows
    the very first character; the pending interrupts then send all that is
    queued. *)
Theorem uart_transmit_refines_queue ops s0 :
  length (buffer (tx_buffer s0)) = 64%nat →
  let q := foldl (flip q_op) (mkQ true [] (wire s0)) ops in
  ∃ s, forM ops do_op (uart_init s0) = Ok s ∧ holds s q ∧
    ∃ s', forM (replicate (length (items q)) Udre) do_op s = Ok s' ∧
      wire s' = sent q ++ (u8 <$> items q).
Proof.
  intros Hlen q. destruct (run_holds ops _ _ (init_holds s0 Hlen)) as (s & E & H).
  destruct (uart_drains _ _ H) as (s' & E' & H').
  exists s. split; [done|]. split; [done|]. exists s'. split; [done|]. apply (ho_wire _ _ H').
Qed.

End uart.

Lemma uart_transmit_refines_queue_witness :
  let s0 := mkUart (list Z) (mkRing (replicate 64 0) 0 0) (mkRing (replicate 64 0) 0 0) 0 0 0 false false [] [] in
  ∃ s s', forM [Put 65; Put 66; Udre; Put 10; Udre] do_op (uart_init 12 s0) = Ok s ∧
    wire s = [66; 13] ∧ forM [Udre] do_op s = Ok s' ∧ wire s' = [66; 13; 10].
Proof.
  intros s0.
  destruct (uart_transmit_refines_queue (HW := list Z) 12 [Put 65; Put 66; Udre; Put 10; Udre] s0)
    as (s & H1 & H2 & s' & H3 & H4); [reflexivity|].
  exists s, s'. split; [exact H1|]. split; [exact (ho_wire _ _ H2)|]. split; [exact H3|exact H4].
Defined.

(** The receiver keeps up to two characters, the older one first; a read of
    the data register takes one out. *)
Definition fifo_read (h : list Z) : Z * list Z :=
  match h with [] => (0, []) | c :: h => (c, h) end.

(** The receive interrupt reads the data register twice: when two characters
    have arrived it stores the first and throws the second away. *)
Lemma USART_RX_drops_second c d s :
  length (buffer (rx_buffer s)) = 64%nat → 0 <= start (rx_buffer s) < 64 → fin (rx_buffer s) = start (rx_buffer s) →
  hw s = [c; d] →
  ∃ s', USART_RX_vect fifo_read s = Ok s' ∧ hw s' = [] ∧
    buffer (rx_buffer s') = <[Z.to_nat (start (rx_buffer s)) := c]> (buffer (rx_buffer s)) ∧
    fin (rx_buffer s') = (start (rx_buffer s) + 1) mod 64.
Proof.
  intros Hl Hs Hf Hh. unfold USART_RX_vect, UART_RX_BUFFER_SIZE.
  rewrite Hf, Hh, rem_mod by lia.
  destruct (Z.eqb_spec ((start (rx_buffer s) + 1) mod 64) (start (rx_buffer s))) as [E1|_]; [dlia|].
  cbn [negb fifo_read]. rewrite aset_in, bind_ok by lia. by eexists.
Qed.

End Uart.
