(* ===== verification/FunkUoled.v ===== *)
(** * FunkOS: the uOLED display driver (drivers/display/drvUOLED.c)

    The driver turns drawing commands into byte sequences on the serial line
    and waits for the display's acknowledge, which the receive interrupt
    stores in [ucAckVal].  The line is a parameter: [udre] says at which polls
    the transmitter is ready, [isr] which byte the display sends between two
    polls.  The theorems show the bytes of every command, that a reader of the
    line can recover the commands from them, and when [UOLED_Control]
    returns. *)
From S2P Require Import Prelude.

Module Uoled.
Open Scope Z_scope.

(** ** Commands

    A command number with the data its handler casts [pvData_] to. *)

Record UOLED_SET_BG_COLOR : Type := mk_SET_BG_COLOR {
  set_bg_color_usColor : Z
}.

Record UOLED_DRAW_CIRCLE : Type := mk_DRAW_CIRCLE {
  draw_circle_ucCenterX : Z;
  draw_circle_ucCenterY : Z;
  draw_circle_ucRadius : Z;
  draw_circle_usColor : Z
}.

Record UOLED_COPY_PASTE : Type := mk_COPY_PASTE {
  copy_paste_ucSrcLeft : Z;
  copy_paste_ucSrcTop : Z;
  copy_paste_ucDstLeft : Z;
  copy_paste_ucDstTop : Z;
  copy_paste_ucWidth : Z;
  copy_paste_ucHeight : Z
}.

Record UOLED_DISPLAY_USER_BITMAP : Type := mk_DISPLAY_USER_BITMAP {
  display_user_bitmap_ucCharID : Z;
  display_user_bitmap_ucLeft : Z;
  display_user_bitmap_ucTop : Z;
  display_user_bitmap_usColor : Z
}.

Record UOLED_FONT_SIZE : Type := mk_FONT_SIZE {
  font_size_ucFontSize : Z
}.

Record UOLED_DRAW_TRIANGLE : Type := mk_DRAW_TRIANGLE {
  draw_triangle_ucX1 : Z;
  draw_triangle_ucY1 : Z;
  draw_triangle_ucX2 : Z;
  draw_triangle_ucY2 : Z;
  draw_triangle_ucX3 : Z;
  draw_triangle_ucY3 : Z;
  draw_triangle_usColor : Z
}.

Record UOLED_DRAW_LINE : Type := mk_DRAW_LINE {
  draw_line_ucX1 : Z;
  draw_line_ucY1 : Z;
  draw_line_ucX2 : Z;
  draw_line_ucY2 : Z;
  draw_line_usColor : Z
}.

Record UOLED_OPAQUE_TRANSPARENT_TEXT : Type := mk_OPAQUE_TRANSPARENT_TEXT {
  opaque_transparent_text_ucMode : Z
}.

Record UOLED_PUT_PIXEL : Type := mk_PUT_PIXEL {
  put_pixel_ucX : Z;
  put_pixel_ucY : Z;
  put_pixel_usColor : Z
}.

Record UOLED_SET_PEN_SIZE : Type := mk_SET_PEN_SIZE {
  set_pen_size_ucSize : Z
}.

Record UOLED_READ_PIXEL : Type := mk_READ_PIXEL {
  read_pixel_ucX : Z;
  read_pixel_ucY : Z
}.

Record UOLED_DRAW_RECTANGLE : Type := mk_DRAW_RECTANGLE {
  draw_rectangle_ucLeft : Z;
  draw_rectangle_ucTop : Z;
  draw_rectangle_ucRight : Z;
  draw_rectangle_ucBottom : Z;
  draw_rectangle_usColor : Z
}.

Record UOLED_PLACE_FORMATTED_CHAR : Type := mk_PLACE_FORMATTED_CHAR {
  place_formatted_char_ucChar : Z;
  place_formatted_char_ucColumn : Z;
  place_formatted_char_ucRow : Z;
  place_formatted_char_usColor : Z
}.

Record UOLED_PLACE_UNFORMATTED_CHAR : Type := mk_PLACE_UNFORMATTED_CHAR {
  place_unformatted_char_ucChar : Z;
  place_unformatted_char_ucLeft : Z;
  place_unformatted_char_ucTop : Z;
  place_unformatted_char_usColor : Z;
  place_unformatted_char_ucScaleX : Z;
  place_unformatted_char_ucScaleY : Z
}.

Record UOLED_DEVICE_INFO_REQUEST : Type := mk_DEVICE_INFO_REQUEST {
  device_info_request_ucOutput : Z;
  device_info_request_ucDevID : Z;
  device_info_request_ucHW_Rev : Z;
  device_info_request_ucFW_Rev : Z;
  device_info_request_ucResX : Z;
  device_info_request_ucResY : Z
}.

Record UOLED_SPECIAL_COMMAND : Type := mk_SPECIAL_COMMAND {
  special_command_ucCommand : Z;
  special_command_ucData : Z
}.

Record UOLED_ADD_USER_BITMAP : Type := mk_ADD_USER_BITMAP {
  add_user_bitmap_ucCharID : Z;
  add_user_bitmap_pucData : list Z
}.

Record UOLED_PLACE_TEXT_BUTTON : Type := mk_PLACE_TEXT_BUTTON {
  place_text_button_bUp : Z;
  place_text_button_ucLeft : Z;
  place_text_button_ucTop : Z;
  place_text_button_usColor : Z;
  place_text_button_ucFont : Z;
  place_text_button_ucWidth : Z;
  place_text_button_ucHeight : Z;
  place_text_button_pucString : list Z
}.

Record UOLED_DRAW_POLYGON : Type := mk_DRAW_POLYGON {
  draw_polygon_ucVertices : Z;
  draw_polygon_aucX : list Z;
  draw_polygon_aucY : list Z;
  draw_polygon_usColor : Z
}.

Record UOLED_DISPLAY_IMAGE : Type := mk_DISPLAY_IMAGE {
  display_image_ucLeft : Z;
  display_image_ucTop : Z;
  display_image_ucWidth : Z;
  display_image_ucHeight : Z;
  display_image_ucColorMode : Z;
  display_image_pucPixels : list Z
}.

Record UOLED_PLACE_UNFORMATTED_TEXT : Type := mk_PLACE_UNFORMATTED_TEXT {
  place_unformatted_text_ucLeft : Z;
  place_unformatted_text_ucTop : Z;
  place_unformatted_text_ucFont : Z;
  place_unformatted_text_usColor : Z;
  place_unformatted_text_ucWidth : Z;
  place_unformatted_text_ucHeight : Z;
  place_unformatted_text_pucString : list Z
}.

Record UOLED_PLACE_FORMATTED_TEXT : Type := mk_PLACE_FORMATTED_TEXT {
  place_formatted_text_ucColumn : Z;
  place_formatted_text_ucRow : Z;
  place_formatted_text_ucFont : Z;
  place_formatted_text_usColor : Z;
  place_formatted_text_pucString : list Z
}.

Inductive CMD_UOLED : Type :=
  | CMD_ADD_USER_BITMAP (d : UOLED_ADD_USER_BITMAP)
  | CMD_SET_BG_COLOR (d : UOLED_SET_BG_COLOR)
  | CMD_PLACE_TEXT_BUTTON (d : UOLED_PLACE_TEXT_BUTTON)
  | CMD_DRAW_CIRCLE (d : UOLED_DRAW_CIRCLE)
  | CMD_COPY_PASTE (d : UOLED_COPY_PASTE)
  | CMD_DISPLAY_USER_BITMAP (d : UOLED_DISPLAY_USER_BITMAP)
  | CMD_ERASE_SCREEN
  | CMD_FONT_SIZE (d : UOLED_FONT_SIZE)
  | CMD_DRAW_TRIANGLE (d : UOLED_DRAW_TRIANGLE)
  | CMD_DRAW_POLYGON (d : UOLED_DRAW_POLYGON)
  | CMD_DISPLAY_IMAGE (d : UOLED_DISPLAY_IMAGE)
  | CMD_DRAW_LINE (d : UOLED_DRAW_LINE)
  | CMD_OPAQUE_TRANSPARENT_TEXT (d : UOLED_OPAQUE_TRANSPARENT_TEXT)
  | CMD_PUT_PIXEL (d : UOLED_PUT_PIXEL)
  | CMD_SET_PEN_SIZE (d : UOLED_SET_PEN_SIZE)
  | CMD_READ_PIXEL (d : UOLED_READ_PIXEL)
  | CMD_DRAW_RECTANGLE (d : UOLED_DRAW_RECTANGLE)
  | CMD_PLACE_UNFORMATTED_TEXT (d : UOLED_PLACE_UNFORMATTED_TEXT)
  | CMD_PLACE_FORMATTED_TEXT (d : UOLED_PLACE_FORMATTED_TEXT)
  | CMD_PLACE_FORMATTED_CHAR (d : UOLED_PLACE_FORMATTED_CHAR)
  | CMD_PLACE_UNFORMATTED_CHAR (d : UOLED_PLACE_UNFORMATTED_CHAR)
  | CMD_DEVICE_INFO_REQUEST (d : UOLED_DEVICE_INFO_REQUEST)
  | CMD_SPECIAL_COMMAND (d : UOLED_SPECIAL_COMMAND)
  | CMD_OTHER (usID : Z).

Definition ID_ADD_USER_BITMAP : Z := 0x41.
Definition ID_SET_BG_COLOR : Z := 0x42.
Definition ID_PLACE_TEXT_BUTTON : Z := 0x62.
Definition ID_DRAW_CIRCLE : Z := 0x43.
Definition ID_COPY_PASTE : Z := 0x63.
Definition ID_DISPLAY_USER_BITMAP : Z := 0x44.
Definition ID_ERASE_SCREEN : Z := 0x45.
Definition ID_FONT_SIZE : Z := 0x46.
Definition ID_DRAW_TRIANGLE : Z := 0x47.
Definition ID_DRAW_POLYGON : Z := 0x67.
Definition ID_DISPLAY_IMAGE : Z := 0x49.
Definition ID_DRAW_LINE : Z := 0x4C.
Definition ID_OPAQUE_TRANSPARENT_TEXT : Z := 0x4F.
Definition ID_PUT_PIXEL : Z := 0x50.
Definition ID_SET_PEN_SIZE : Z := 0x70.
Definition ID_READ_PIXEL : Z := 0x52.
Definition ID_DRAW_RECTANGLE : Z := 0x72.
Definition ID_PLACE_UNFORMATTED_TEXT : Z := 0x53.
Definition ID_PLACE_FORMATTED_TEXT : Z := 0x73.
Definition ID_PLACE_FORMATTED_CHAR : Z := 0x54.
Definition ID_PLACE_UNFORMATTED_CHAR : Z := 0x74.
Definition ID_DEVICE_INFO_REQUEST : Z := 0x56.
Definition ID_SPECIAL_COMMAND : Z := 0x59.

Definition image_bytes (d : UOLED_DISPLAY_IMAGE) : Z :=
  let usNumBytes := u16 (display_image_ucWidth d * display_image_ucHeight d) in
  if display_image_ucColorMode d =? 16 then u16 (usNumBytes * 2) else usNumBytes.

(** ** The bytes of a command *)

Definition be16 (v : Z) : list Z := [v / 256; v mod 256].

(** The text of a string: what stands before its first zero. *)
Fixpoint text (l : list Z) : list Z :=
  match l with [] => [] | c :: l => if c =? 0 then [] else c :: text l end.

Definition encode (c : CMD_UOLED) : list Z :=
  match c with
  | CMD_ADD_USER_BITMAP d => [ID_ADD_USER_BITMAP; add_user_bitmap_ucCharID d] ++ add_user_bitmap_pucData d
  | CMD_SET_BG_COLOR d => [ID_SET_BG_COLOR] ++ be16 (set_bg_color_usColor d)
  | CMD_PLACE_TEXT_BUTTON d => [ID_PLACE_TEXT_BUTTON; place_text_button_bUp d; place_text_button_ucLeft d; place_text_button_ucTop d] ++ be16 (place_text_button_usColor d) ++ [place_text_button_ucFont d; place_text_button_ucWidth d; place_text_button_ucHeight d] ++ text (place_text_button_pucString d) ++ [0]
  | CMD_DRAW_CIRCLE d => [ID_DRAW_CIRCLE; draw_circle_ucCenterX d; draw_circle_ucCenterY d; draw_circle_ucRadius d] ++ be16 (draw_circle_usColor d)
  | CMD_COPY_PASTE d => [ID_COPY_PASTE; copy_paste_ucSrcLeft d; copy_paste_ucSrcTop d; copy_paste_ucDstLeft d; copy_paste_ucDstTop d; copy_paste_ucWidth d; copy_paste_ucHeight d]
  | CMD_DISPLAY_USER_BITMAP d => [ID_DISPLAY_USER_BITMAP; display_user_bitmap_ucCharID d; display_user_bitmap_ucLeft d; display_user_bitmap_ucTop d] ++ be16 (display_user_bitmap_usColor d)
  | CMD_ERASE_SCREEN => [ID_ERASE_SCREEN]
  | CMD_FONT_SIZE d => [ID_FONT_SIZE; font_size_ucFontSize d]
  | CMD_DRAW_TRIANGLE d => [ID_DRAW_TRIANGLE; draw_triangle_ucX1 d; draw_triangle_ucY1 d; draw_triangle_ucX2 d; draw_triangle_ucY2 d; draw_triangle_ucX3 d; draw_triangle_ucY3 d] ++ be16 (draw_triangle_usColor d)
  | CMD_DRAW_POLYGON d =>
      [ID_DRAW_POLYGON; draw_polygon_ucVertices d] ++
      (zip (take (Z.to_nat (draw_polygon_ucVertices d)) (draw_polygon_aucX d))
         (take (Z.to_nat (draw_polygon_ucVertices d)) (draw_polygon_aucY d)) ≫= λ p, [p.1; p.2]) ++
      be16 (draw_polygon_usColor d)
  | CMD_DISPLAY_IMAGE d => [ID_DISPLAY_IMAGE; display_image_ucLeft d; display_image_ucTop d; display_image_ucWidth d; display_image_ucHeight d; display_image_ucColorMode d] ++ take (Z.to_nat (image_bytes d)) (display_image_pucPixels d)
  | CMD_DRAW_LINE d => [ID_DRAW_LINE; draw_line_ucX1 d; draw_line_ucY1 d; draw_line_ucX2 d; draw_line_ucY2 d] ++ be16 (draw_line_usColor d)
  | CMD_OPAQUE_TRANSPARENT_TEXT d => [ID_OPAQUE_TRANSPARENT_TEXT; opaque_transparent_text_ucMode d]
  | CMD_PUT_PIXEL d => [ID_PUT_PIXEL; put_pixel_ucX d; put_pixel_ucY d] ++ be16 (put_pixel_usColor d)
  | CMD_SET_PEN_SIZE d => [ID_SET_PEN_SIZE; set_pen_size_ucSize d]
  | CMD_READ_PIXEL d => [ID_READ_PIXEL; read_pixel_ucX d; read_pixel_ucY d]
  | CMD_DRAW_RECTANGLE d => [ID_DRAW_RECTANGLE; draw_rectangle_ucLeft d; draw_rectangle_ucTop d; draw_rectangle_ucRight d; draw_rectangle_ucBottom d] ++ be16 (draw_rectangle_usColor d)
  | CMD_PLACE_UNFORMATTED_TEXT d => [ID_PLACE_UNFORMATTED_TEXT; place_unformatted_text_ucLeft d; place_unformatted_text_ucTop d; place_unformatted_text_ucFont d] ++ be16 (place_unformatted_text_usColor d) ++ [place_unformatted_text_ucWidth d; place_unformatted_text_ucHeight d] ++ text (place_unformatted_text_pucString d) ++ [0]
  | CMD_PLACE_FORMATTED_TEXT d => [ID_PLACE_FORMATTED_TEXT; place_formatted_text_ucColumn d; place_formatted_text_ucRow d; place_formatted_text_ucFont d] ++ be16 (place_formatted_text_usColor d) ++ text (place_formatted_text_pucString d) ++ [0]
  | CMD_PLACE_FORMATTED_CHAR d => [ID_PLACE_FORMATTED_CHAR; place_formatted_char_ucChar d; place_formatted_char_ucColumn d; place_formatted_char_ucRow d] ++ be16 (place_formatted_char_usColor d)
  | CMD_PLACE_UNFORMATTED_CHAR d => [ID_PLACE_UNFORMATTED_CHAR; place_unformatted_char_ucChar d; place_unformatted_char_ucLeft d; place_unformatted_char_ucTop d] ++ be16 (place_unformatted_char_usColor d) ++ [place_unformatted_char_ucScaleX d; place_unformatted_char_ucScaleY d]
  | CMD_DEVICE_INFO_REQUEST d => [ID_DEVICE_INFO_REQUEST; device_info_request_ucOutput d; device_info_request_ucDevID d; device_info_request_ucHW_Rev d; device_info_request_ucFW_Rev d; device_info_request_ucResX d; device_info_request_ucResY d]
  | CMD_SPECIAL_COMMAND d => [ID_SPECIAL_COMMAND; special_command_ucCommand d; special_command_ucData d]
  | CMD_OTHER _ => []
  end.

(** Commands with data in range: bytes and 16-bit values, strings of at most
    255 characters with their end, pictures with at least the bytes the driver
    counts. *)
Definition byte (z : Z) : Prop := 0 <= z < 256.
Definition word (z : Z) : Prop := 0 <= z < 65536.
Definition c_string (l : list Z) : Prop :=
  Forall byte l ∧ (length (text l) < length l)%nat ∧ Z.of_nat (length (text l)) <= 255.

Definition cmd_ok (c : CMD_UOLED) : Prop :=
  match c with
  | CMD_ADD_USER_BITMAP d =>
      byte (add_user_bitmap_ucCharID d) ∧ length (add_user_bitmap_pucData d) = 8%nat ∧ Forall byte (add_user_bitmap_pucData d)
  | CMD_SET_BG_COLOR d => word (set_bg_color_usColor d)
  | CMD_PLACE_TEXT_BUTTON d =>
      byte (place_text_button_bUp d) ∧ byte (place_text_button_ucLeft d) ∧ byte (place_text_button_ucTop d) ∧ word (place_text_button_usColor d) ∧ byte (place_text_button_ucFont d) ∧ byte (place_text_button_ucWidth d) ∧ byte (place_text_button_ucHeight d) ∧ c_string (place_text_button_pucString d)
  | CMD_DRAW_CIRCLE d => byte (draw_circle_ucCenterX d) ∧ byte (draw_circle_ucCenterY d) ∧ byte (draw_circle_ucRadius d) ∧ word (draw_circle_usColor d)
  | CMD_COPY_PASTE d => byte (copy_paste_ucSrcLeft d) ∧ byte (copy_paste_ucSrcTop d) ∧ byte (copy_paste_ucDstLeft d) ∧ byte (copy_paste_ucDstTop d) ∧ byte (copy_paste_ucWidth d) ∧ byte (copy_paste_ucHeight d)
  | CMD_DISPLAY_USER_BITMAP d => byte (display_user_bitmap_ucCharID d) ∧ byte (display_user_bitmap_ucLeft d) ∧ byte (display_user_bitmap_ucTop d) ∧ word (display_user_bitmap_usColor d)
  | CMD_ERASE_SCREEN => True
  | CMD_FONT_SIZE d => byte (font_size_ucFontSize d)
  | CMD_DRAW_TRIANGLE d => byte (draw_triangle_ucX1 d) ∧ byte (draw_triangle_ucY1 d) ∧ byte (draw_triangle_ucX2 d) ∧ byte (draw_triangle_ucY2 d) ∧ byte (draw_triangle_ucX3 d) ∧ byte (draw_triangle_ucY3 d) ∧ word (draw_triangle_usColor d)
  | CMD_DRAW_POLYGON d =>
      0 <= draw_polygon_ucVertices d <= 7 ∧ length (draw_polygon_aucX d) = 7%nat ∧
      length (draw_polygon_aucY d) = 7%nat ∧ Forall byte (draw_polygon_aucX d) ∧
      Forall byte (draw_polygon_aucY d) ∧ word (draw_polygon_usColor d)
  | CMD_DISPLAY_IMAGE d =>
      byte (display_image_ucLeft d) ∧ byte (display_image_ucTop d) ∧ byte (display_image_ucWidth d) ∧ byte (display_image_ucHeight d) ∧ byte (display_image_ucColorMode d) ∧ image_bytes d <= Z.of_nat (length (display_image_pucPixels d)) ∧ Forall byte (display_image_pucPixels d)
  | CMD_DRAW_LINE d => byte (draw_line_ucX1 d) ∧ byte (draw_line_ucY1 d) ∧ byte (draw_line_ucX2 d) ∧ byte (draw_line_ucY2 d) ∧ word (draw_line_usColor d)
  | CMD_OPAQUE_TRANSPARENT_TEXT d => byte (opaque_transparent_text_ucMode d)
  | CMD_PUT_PIXEL d => byte (put_pixel_ucX d) ∧ byte (put_pixel_ucY d) ∧ word (put_pixel_usColor d)
  | CMD_SET_PEN_SIZE d => byte (set_pen_size_ucSize d)
  | CMD_READ_PIXEL d => byte (read_pixel_ucX d) ∧ byte (read_pixel_ucY d)
  | CMD_DRAW_RECTANGLE d => byte (draw_rectangle_ucLeft d) ∧ byte (draw_rectangle_ucTop d) ∧ byte (draw_rectangle_ucRight d) ∧ byte (draw_rectangle_ucBottom d) ∧ word (draw_rectangle_usColor d)
  | CMD_PLACE_UNFORMATTED_TEXT d =>
      byte (place_unformatted_text_ucLeft d) ∧ byte (place_unformatted_text_ucTop d) ∧ byte (place_unformatted_text_ucFont d) ∧ word (place_unformatted_text_usColor d) ∧ byte (place_unformatted_text_ucWidth d) ∧ byte (place_unformatted_text_ucHeight d) ∧ c_string (place_unformatted_text_pucString d)
  | CMD_PLACE_FORMATTED_TEXT d =>
      byte (place_formatted_text_ucColumn d) ∧ byte (place_formatted_text_ucRow d) ∧ byte (place_formatted_text_ucFont d) ∧ word (place_formatted_text_usColor d) ∧ c_string (place_formatted_text_pucString d)
  | CMD_PLACE_FORMATTED_CHAR d => byte (place_formatted_char_ucChar d) ∧ byte (place_formatted_char_ucColumn d) ∧ byte (place_formatted_char_ucRow d) ∧ word (place_formatted_char_usColor d)
  | CMD_PLACE_UNFORMATTED_CHAR d => byte (place_unformatted_char_ucChar d) ∧ byte (place_unformatted_char_ucLeft d) ∧ byte (place_unformatted_char_ucTop d) ∧ word (place_unformatted_char_usColor d) ∧ byte (place_unformatted_char_ucScaleX d) ∧ byte (place_unformatted_char_ucScaleY d)
  | CMD_DEVICE_INFO_REQUEST d => byte (device_info_request_ucOutput d) ∧ byte (device_info_request_ucDevID d) ∧ byte (device_info_request_ucHW_Rev d) ∧ byte (device_info_request_ucFW_Rev d) ∧ byte (device_info_request_ucResX d) ∧ byte (device_info_request_ucResY d)
  | CMD_SPECIAL_COMMAND d => byte (special_command_ucCommand d) ∧ byte (special_command_ucData d)
  | CMD_OTHER _ => True
  end.

(** ** Reading the line *)

Definition get_byte (l : list Z) : option (Z * list Z) :=
  match l with b :: l => Some (b, l) | [] => None end.
Definition get_word (l : list Z) : option (Z * list Z) :=
  match l with a :: b :: l => Some (a * 256 + b, l) | _ => None end.
Definition get_bytes (n : nat) (l : list Z) : option (list Z * list Z) :=
  if (length l <? n)%nat then None else Some (take n l, drop n l).
Fixpoint get_string (l : list Z) : option (list Z * list Z) :=
  match l with
  | [] => None
  | c :: l => if c =? 0 then Some ([0], l)
              else '(t, l) ← get_string l; Some (c :: t, l)
  end.
Fixpoint get_vertices (n : nat) (l : list Z) : option (list Z * list Z * list Z) :=
  match n with
  | O => Some ([], [], l)
  | S n =>
      '(x, l) ← get_byte l; '(y, l) ← get_byte l;
      '(xs, ys, l) ← get_vertices n l; Some (x :: xs, y :: ys, l)
  end.

(** One command off the line. *)
Definition decode (l : list Z) : option (CMD_UOLED * list Z) :=
  '(k, l) ← get_byte l;
  if k =? ID_ADD_USER_BITMAP then
    '(ucCharID, l) ← get_byte l; '(t, l) ← get_bytes 8 l;
    Some (CMD_ADD_USER_BITMAP (mk_ADD_USER_BITMAP ucCharID t), l)
  else if k =? ID_SET_BG_COLOR then
    '(usColor, l) ← get_word l;
    Some (CMD_SET_BG_COLOR (mk_SET_BG_COLOR usColor), l)
  else if k =? ID_PLACE_TEXT_BUTTON then
    '(bUp, l) ← get_byte l; '(ucLeft, l) ← get_byte l; '(ucTop, l) ← get_byte l; '(usColor, l) ← get_word l; '(ucFont, l) ← get_byte l; '(ucWidth, l) ← get_byte l; '(ucHeight, l) ← get_byte l; '(t, l) ← get_string l;
    Some (CMD_PLACE_TEXT_BUTTON (mk_PLACE_TEXT_BUTTON bUp ucLeft ucTop usColor ucFont ucWidth ucHeight t), l)
  else if k =? ID_DRAW_CIRCLE then
    '(ucCenterX, l) ← get_byte l; '(ucCenterY, l) ← get_byte l; '(ucRadius, l) ← get_byte l; '(usColor, l) ← get_word l;
    Some (CMD_DRAW_CIRCLE (mk_DRAW_CIRCLE ucCenterX ucCenterY ucRadius usColor), l)
  else if k =? ID_COPY_PASTE then
    '(ucSrcLeft, l) ← get_byte l; '(ucSrcTop, l) ← get_byte l; '(ucDstLeft, l) ← get_byte l; '(ucDstTop, l) ← get_byte l; '(ucWidth, l) ← get_byte l; '(ucHeight, l) ← get_byte l;
    Some (CMD_COPY_PASTE (mk_COPY_PASTE ucSrcLeft ucSrcTop ucDstLeft ucDstTop ucWidth ucHeight), l)
  else if k =? ID_DISPLAY_USER_BITMAP then
    '(ucCharID, l) ← get_byte l; '(ucLeft, l) ← get_byte l; '(ucTop, l) ← get_byte l; '(usColor, l) ← get_word l;
    Some (CMD_DISPLAY_USER_BITMAP (mk_DISPLAY_USER_BITMAP ucCharID ucLeft ucTop usColor), l)
  else if k =? ID_ERASE_SCREEN then
    Some (CMD_ERASE_SCREEN, l)
  else if k =? ID_FONT_SIZE then
    '(ucFontSize, l) ← get_byte l;
    Some (CMD_FONT_SIZE (mk_FONT_SIZE ucFontSize), l)
  else if k =? ID_DRAW_TRIANGLE then
    '(ucX1, l) ← get_byte l; '(ucY1, l) ← get_byte l; '(ucX2, l) ← get_byte l; '(ucY2, l) ← get_byte l; '(ucX3, l) ← get_byte l; '(ucY3, l) ← get_byte l; '(usColor, l) ← get_word l;
    Some (CMD_DRAW_TRIANGLE (mk_DRAW_TRIANGLE ucX1 ucY1 ucX2 ucY2 ucX3 ucY3 usColor), l)
  else if k =? ID_DRAW_POLYGON then
    '(v, l) ← get_byte l; '(xs, ys, l) ← get_vertices (Z.to_nat v) l; '(c, l) ← get_word l;
    Some (CMD_DRAW_POLYGON (mk_DRAW_POLYGON v xs ys c), l)
  else if k =? ID_DISPLAY_IMAGE then
    '(ucLeft, l) ← get_byte l; '(ucTop, l) ← get_byte l; '(ucWidth, l) ← get_byte l; '(ucHeight, l) ← get_byte l; '(ucColorMode, l) ← get_byte l;
    '(t, l) ← get_bytes (Z.to_nat (ucWidth * ucHeight * (if ucColorMode =? 16 then 2 else 1))) l;
    Some (CMD_DISPLAY_IMAGE (mk_DISPLAY_IMAGE ucLeft ucTop ucWidth ucHeight ucColorMode t), l)
  else if k =? ID_DRAW_LINE then
    '(ucX1, l) ← get_byte l; '(ucY1, l) ← get_byte l; '(ucX2, l) ← get_byte l; '(ucY2, l) ← get_byte l; '(usColor, l) ← get_word l;
    Some (CMD_DRAW_LINE (mk_DRAW_LINE ucX1 ucY1 ucX2 ucY2 usColor), l)
  else if k =? ID_OPAQUE_TRANSPARENT_TEXT then
    '(ucMode, l) ← get_byte l;
    Some (CMD_OPAQUE_TRANSPARENT_TEXT (mk_OPAQUE_TRANSPARENT_TEXT ucMode), l)
  else if k =? ID_PUT_PIXEL then
    '(ucX, l) ← get_byte l; '(ucY, l) ← get_byte l; '(usColor, l) ← get_word l;
    Some (CMD_PUT_PIXEL (mk_PUT_PIXEL ucX ucY usColor), l)
  else if k =? ID_SET_PEN_SIZE then
    '(ucSize, l) ← get_byte l;
    Some (CMD_SET_PEN_SIZE (mk_SET_PEN_SIZE ucSize), l)
  else if k =? ID_READ_PIXEL then
    '(ucX, l) ← get_byte l; '(ucY, l) ← get_byte l;
    Some (CMD_READ_PIXEL (mk_READ_PIXEL ucX ucY), l)
  else if k =? ID_DRAW_RECTANGLE then
    '(ucLeft, l) ← get_byte l; '(ucTop, l) ← get_byte l; '(ucRight, l) ← get_byte l; '(ucBottom, l) ← get_byte l; '(usColor, l) ← get_word l;
    Some (CMD_DRAW_RECTANGLE (mk_DRAW_RECTANGLE ucLeft ucTop ucRight ucBottom usColor), l)
  else if k =? ID_PLACE_UNFORMATTED_TEXT then
    '(ucLeft, l) ← get_byte l; '(ucTop, l) ← get_byte l; '(ucFont, l) ← get_byte l; '(usColor, l) ← get_word l; '(ucWidth, l) ← get_byte l; '(ucHeight, l) ← get_byte l; '(t, l) ← get_string l;
    Some (CMD_PLACE_UNFORMATTED_TEXT (mk_PLACE_UNFORMATTED_TEXT ucLeft ucTop ucFont usColor ucWidth ucHeight t), l)
  else if k =? ID_PLACE_FORMATTED_TEXT then
    '(ucColumn, l) ← get_byte l; '(ucRow, l) ← get_byte l; '(ucFont, l) ← get_byte l; '(usColor, l) ← get_word l; '(t, l) ← get_string l;
    Some (CMD_PLACE_FORMATTED_TEXT (mk_PLACE_FORMATTED_TEXT ucColumn ucRow ucFont usColor t), l)
  else if k =? ID_PLACE_FORMATTED_CHAR then
    '(ucChar, l) ← get_byte l; '(ucColumn, l) ← get_byte l; '(ucRow, l) ← get_byte l; '(usColor, l) ← get_word l;
    Some (CMD_PLACE_FORMATTED_CHAR (mk_PLACE_FORMATTED_CHAR ucChar ucColumn ucRow usColor), l)
  else if k =? ID_PLACE_UNFORMATTED_CHAR then
    '(ucChar, l) ← get_byte l; '(ucLeft, l) ← get_byte l; '(ucTop, l) ← get_byte l; '(usColor, l) ← get_word l; '(ucScaleX, l) ← get_byte l; '(ucScaleY, l) ← get_byte l;
    Some (CMD_PLACE_UNFORMATTED_CHAR (mk_PLACE_UNFORMATTED_CHAR ucChar ucLeft ucTop usColor ucScaleX ucScaleY), l)
  else if k =? ID_DEVICE_INFO_REQUEST then
    '(ucOutput, l) ← get_byte l; '(ucDevID, l) ← get_byte l; '(ucHW_Rev, l) ← get_byte l; '(ucFW_Rev, l) ← get_byte l; '(ucResX, l) ← get_byte l; '(ucResY, l) ← get_byte l;
    Some (CMD_DEVICE_INFO_REQUEST (mk_DEVICE_INFO_REQUEST ucOutput ucDevID ucHW_Rev ucFW_Rev ucResX ucResY), l)
  else if k =? ID_SPECIAL_COMMAND then
    '(ucCommand, l) ← get_byte l; '(ucData, l) ← get_byte l;
    Some (CMD_SPECIAL_COMMAND (mk_SPECIAL_COMMAND ucCommand ucData), l)
  else None.

(** What the display gets to know of a command: strings up to their end,
    polygons up to their last vertex, pictures up to their last pixel. *)
Definition visible (c : CMD_UOLED) : CMD_UOLED :=
  match c with
  | CMD_PLACE_TEXT_BUTTON d => CMD_PLACE_TEXT_BUTTON (mk_PLACE_TEXT_BUTTON (place_text_button_bUp d) (place_text_button_ucLeft d) (place_text_button_ucTop d) (place_text_button_usColor d) (place_text_button_ucFont d) (place_text_button_ucWidth d) (place_text_button_ucHeight d) (text (place_text_button_pucString d) ++ [0]))
  | CMD_DRAW_POLYGON d => CMD_DRAW_POLYGON (mk_DRAW_POLYGON (draw_polygon_ucVertices d)
      (take (Z.to_nat (draw_polygon_ucVertices d)) (draw_polygon_aucX d))
      (take (Z.to_nat (draw_polygon_ucVertices d)) (draw_polygon_aucY d)) (draw_polygon_usColor d))
  | CMD_DISPLAY_IMAGE d => CMD_DISPLAY_IMAGE (mk_DISPLAY_IMAGE (display_image_ucLeft d) (display_image_ucTop d)
      (display_image_ucWidth d) (display_image_ucHeight d) (display_image_ucColorMode d)
      (take (Z.to_nat (image_bytes d)) (display_image_pucPixels d)))
  | CMD_PLACE_UNFORMATTED_TEXT d => CMD_PLACE_UNFORMATTED_TEXT (mk_PLACE_UNFORMATTED_TEXT (place_unformatted_text_ucLeft d) (place_unformatted_text_ucTop d) (place_unformatted_text_ucFont d) (place_unformatted_text_usColor d) (place_unformatted_text_ucWidth d) (place_unformatted_text_ucHeight d) (text (place_unformatted_text_pucString d) ++ [0]))
  | CMD_PLACE_FORMATTED_TEXT d => CMD_PLACE_FORMATTED_TEXT (mk_PLACE_FORMATTED_TEXT (place_formatted_text_ucColumn d) (place_formatted_text_ucRow d) (place_formatted_text_ucFont d) (place_formatted_text_usColor d) (text (place_formatted_text_pucString d) ++ [0]))
  | c => c
  end.

Lemma get_word_be16 v l : word v → get_word (be16 v ++ l) = Some (v, l).
Proof. intros Hv. unfold word in Hv. cbn. do 2 f_equal. dlia. Qed.

Lemma get_bytes_app n l r : length l = n → get_bytes n (l ++ r) = Some (l, r).
Proof.
  intros <-. unfold get_bytes. rewrite (proj2 (Nat.ltb_ge _ _)) by (rewrite length_app; lia).
  by rewrite take_app_length, drop_app_length.
Qed.

Lemma get_string_text l r : get_string (text l ++ [0] ++ r) = Some (text l ++ [0], r).
Proof.
  induction l as [|c l IH]; [done|]. cbn [text]. destruct (Z.eqb_spec c 0) as [->|Hc]; [done|].
  cbn [app get_string] in IH |- *. rewrite (proj2 (Z.eqb_neq c 0) Hc), IH. done.
Qed.

Lemma get_vertices_zip n xs ys r : length xs = n → length ys = n →
  get_vertices n ((zip xs ys ≫= λ p, [p.1; p.2]) ++ r) = Some (xs, ys, r).
Proof.
  intros <-. revert ys. induction xs as [|x xs IH]; intros [|y ys] H; try done. injection H as H.
  specialize (IH ys H). cbn in IH |- *. by rewrite IH.
Qed.

Lemma Z_be16 v : word v → v / 256 * 256 + v mod 256 = v.
Proof. intros Hv. unfold word in Hv. dlia. Qed.

(** The bytes of the picture, if there is one, are counted in 16 bits. *)
Definition picture_fits (c : CMD_UOLED) : Prop :=
  match c with
  | CMD_DISPLAY_IMAGE d => display_image_ucWidth d * display_image_ucHeight d * 2 < 65536
  | _ => True
  end.

(** The bytes of a command determine it: whatever follows on the line, a
    reader recovers every command whose data is in range, as far as the
    display sees it, from exactly its bytes.  For a picture the byte count
    has to fit into 16 bits. *)
Lemma UOLED_decode_encode c l :
  cmd_ok c → (∀ id, c ≠ CMD_OTHER id) → picture_fits c →
  decode (encode c ++ l) = Some (visible c, l).
Proof.
  intros Hok Hno Himg. destruct c; cbn [cmd_ok] in Hok; destruct_and?;
    try (by destruct (Hno usID)); try destruct d; cbn in *; repeat rewrite Z_be16 by done;
    rewrite <- ?app_assoc, ?get_string_text; try done.
  - by rewrite get_bytes_app.
  - rewrite get_vertices_zip by (rewrite !length_take; lia). cbn -[be16 get_word].
    by rewrite get_word_be16.
  - unfold image_bytes in *. cbn in *. unfold byte in *.
    assert (0 <= display_image_ucWidth0 * display_image_ucHeight0) by nia.
    rewrite (u16_small (display_image_ucWidth0 * display_image_ucHeight0)) in * by lia.
    rewrite get_bytes_app; [done|]. rewrite length_take.
    case_match; [rewrite u16_small in * by lia|]; lia.
Qed.

(** Several commands off the line. *)
Fixpoint decode_n (n : nat) (l : list Z) : option (list CMD_UOLED * list Z) :=
  match n with
  | O => Some ([], l)
  | S n => '(c, l) ← decode l; '(cs, l) ← decode_n n l; Some (c :: cs, l)
  end.

(** A picture of 200 by 200 pixels in 16-bit colours has 80000 bytes; the
    16-bit counter sends 14464 of them. *)
Lemma image_bytes_overflow d :
  display_image_ucWidth d = 200 → display_image_ucHeight d = 200 → display_image_ucColorMode d = 16 →
  image_bytes d = 14464.
Proof. intros H1 H2 H3. unfold image_bytes. by rewrite H1, H2, H3. Qed.

(** ** The line *)

Record OLED : Type := mkOled {
  ucAckVal : Z;
  sent : list Z;
  now : nat;
  UART_BAUD : Z;
  UART_SRA : Z;
  UART_SRB : Z;
  UART_SRC : Z;
  RESET_DDR : Z;
  RESET_PORT : Z
}.

Section uoled.
Context (udre : nat → bool) (isr : nat → option Z) (SYSTEM_FREQ : Z) (fuel : nat).

(** Time passes from one poll to the next; the receive interrupt may store a
    byte meanwhile. *)
Definition tick (s : OLED) : OLED :=
  mkOled (match isr (now s) with Some b => b | None => ucAckVal s end) (sent s) (S (now s))
    (UART_BAUD s) (UART_SRA s) (UART_SRB s) (UART_SRC s) (RESET_DDR s) (RESET_PORT s).

Definition set_ack (v : Z) (s : OLED) : OLED :=
  mkOled v (sent s) (now s) (UART_BAUD s) (UART_SRA s) (UART_SRB s) (UART_SRC s) (RESET_DDR s) (RESET_PORT s).
Definition put (b : Z) (s : OLED) : OLED :=
  mkOled (ucAckVal s) (sent s ++ [b]) (now s) (UART_BAUD s) (UART_SRA s) (UART_SRB s) (UART_SRC s)
    (RESET_DDR s) (RESET_PORT s).

(** [f] and then [g]. *)
Definition seq (f g : OLED → res OLED) (s : OLED) : res OLED := s ← f s; g s.
#[local] Infix ">>" := seq (at level 62, right associativity).

Fixpoint write_loop (n : nat) (ucByte_ : Z) (s : OLED) : res OLED :=
  match n with
  | O => Fault OutOfFuel
  | S n => if udre (now s) then Ok (put ucByte_ (tick s)) else write_loop n ucByte_ (tick s)
  end.
Definition UOLED_WriteByte (ucByte_ : Z) : OLED → res OLED := write_loop fuel (u8 ucByte_).

Definition UOLED_WriteUSHORT (usData_ : Z) : OLED → res OLED :=
  UOLED_WriteByte (Z.shiftr (Z.land usData_ 0xFF00) 8) >>
  UOLED_WriteByte (Z.land usData_ 0x00FF).

(** [while (ucAckVal == 0) {}; return ucAckVal;], two reads of a volatile. *)
Fixpoint ack_loop (n : nat) (s : OLED) : res OLED :=
  match n with
  | O => Fault OutOfFuel
  | S n => let s := tick s in if ucAckVal s =? 0 then ack_loop n s else Ok s
  end.
Definition UOLED_ReadByte (s : OLED) : res (Z * OLED) :=
  s ← ack_loop fuel s; let s := tick s in Ok (ucAckVal s, s).

(** The bytes of a string up to its end; the index is a [UCHAR]. *)
Fixpoint string_loop (n : nat) (pucString : list Z) (i : Z) (s : OLED) : res OLED :=
  c ← aget pucString i;
  if c =? 0 then Ok s
  else match n with
  | O => Fault OutOfFuel
  | S n => s ← UOLED_WriteByte c s; string_loop n pucString (u8 (i + 1)) s
  end.

(** ** One function per command *)

Definition UOLED_AddUserBitmap (d : UOLED_ADD_USER_BITMAP) : OLED → res OLED :=
  UOLED_WriteByte ID_ADD_USER_BITMAP >>
  UOLED_WriteByte (add_user_bitmap_ucCharID d) >>
  forM (seqZ 0 8) (λ i s, c ← aget (add_user_bitmap_pucData d) i; UOLED_WriteByte c s).

Definition UOLED_SetBGColor (d : UOLED_SET_BG_COLOR) : OLED → res OLED :=
  UOLED_WriteByte ID_SET_BG_COLOR >>
  UOLED_WriteUSHORT (set_bg_color_usColor d).

Definition UOLED_PlaceTextButton (d : UOLED_PLACE_TEXT_BUTTON) : OLED → res OLED :=
  UOLED_WriteByte ID_PLACE_TEXT_BUTTON >>
  UOLED_WriteByte (place_text_button_bUp d) >>
  UOLED_WriteByte (place_text_button_ucLeft d) >>
  UOLED_WriteByte (place_text_button_ucTop d) >>
  UOLED_WriteUSHORT (place_text_button_usColor d) >>
  UOLED_WriteByte (place_text_button_ucFont d) >>
  UOLED_WriteByte (place_text_button_ucWidth d) >>
  UOLED_WriteByte (place_text_button_ucHeight d) >>
  string_loop fuel (place_text_button_pucString d) 0 >>
  UOLED_WriteByte 0.

Definition UOLED_DrawCircle (d : UOLED_DRAW_CIRCLE) : OLED → res OLED :=
  UOLED_WriteByte ID_DRAW_CIRCLE >>
  UOLED_WriteByte (draw_circle_ucCenterX d) >>
  UOLED_WriteByte (draw_circle_ucCenterY d) >>
  UOLED_WriteByte (draw_circle_ucRadius d) >>
  UOLED_WriteUSHORT (draw_circle_usColor d).

Definition UOLED_CopyPaste (d : UOLED_COPY_PASTE) : OLED → res OLED :=
  UOLED_WriteByte ID_COPY_PASTE >>
  UOLED_WriteByte (copy_paste_ucSrcLeft d) >>
  UOLED_WriteByte (copy_paste_ucSrcTop d) >>
  UOLED_WriteByte (copy_paste_ucDstLeft d) >>
  UOLED_WriteByte (copy_paste_ucDstTop d) >>
  UOLED_WriteByte (copy_paste_ucWidth d) >>
  UOLED_WriteByte (copy_paste_ucHeight d).

Definition UOLED_DisplayUserBitmap (d : UOLED_DISPLAY_USER_BITMAP) : OLED → res OLED :=
  UOLED_WriteByte ID_DISPLAY_USER_BITMAP >>
  UOLED_WriteByte (display_user_bitmap_ucCharID d) >>
  UOLED_WriteByte (display_user_bitmap_ucLeft d) >>
  UOLED_WriteByte (display_user_bitmap_ucTop d) >>
  UOLED_WriteUSHORT (display_user_bitmap_usColor d).

Definition UOLED_EraseScreen : OLED → res OLED :=
  UOLED_WriteByte ID_ERASE_SCREEN.

Definition UOLED_FontSize (d : UOLED_FONT_SIZE) : OLED → res OLED :=
  UOLED_WriteByte ID_FONT_SIZE >>
  UOLED_WriteByte (font_size_ucFontSize d).

Definition UOLED_DrawTriangle (d : UOLED_DRAW_TRIANGLE) : OLED → res OLED :=
  UOLED_WriteByte ID_DRAW_TRIANGLE >>
  UOLED_WriteByte (draw_triangle_ucX1 d) >>
  UOLED_WriteByte (draw_triangle_ucY1 d) >>
  UOLED_WriteByte (draw_triangle_ucX2 d) >>
  UOLED_WriteByte (draw_triangle_ucY2 d) >>
  UOLED_WriteByte (draw_triangle_ucX3 d) >>
  UOLED_WriteByte (draw_triangle_ucY3 d) >>
  UOLED_WriteUSHORT (draw_triangle_usColor d).

Definition UOLED_DrawPolygon (d : UOLED_DRAW_POLYGON) : OLED → res OLED :=
  UOLED_WriteByte ID_DRAW_POLYGON >>
  UOLED_WriteByte (draw_polygon_ucVertices d) >>
  forM (seqZ 0 (draw_polygon_ucVertices d)) (λ i s,
    x ← aget (draw_polygon_aucX d) i; s ← UOLED_WriteByte x s;
    y ← aget (draw_polygon_aucY d) i; UOLED_WriteByte y s) >>
  UOLED_WriteUSHORT (draw_polygon_usColor d).

Definition UOLED_DisplayImage (d : UOLED_DISPLAY_IMAGE) : OLED → res OLED :=
  UOLED_WriteByte ID_DISPLAY_IMAGE >>
  UOLED_WriteByte (display_image_ucLeft d) >>
  UOLED_WriteByte (display_image_ucTop d) >>
  UOLED_WriteByte (display_image_ucWidth d) >>
  UOLED_WriteByte (display_image_ucHeight d) >>
  UOLED_WriteByte (display_image_ucColorMode d) >>
  forM (seqZ 0 (image_bytes d)) (λ i s, c ← aget (display_image_pucPixels d) i; UOLED_WriteByte c s).

Definition UOLED_DrawLine (d : UOLED_DRAW_LINE) : OLED → res OLED :=
  UOLED_WriteByte ID_DRAW_LINE >>
  UOLED_WriteByte (draw_line_ucX1 d) >>
  UOLED_WriteByte (draw_line_ucY1 d) >>
  UOLED_WriteByte (draw_line_ucX2 d) >>
  UOLED_WriteByte (draw_line_ucY2 d) >>
  UOLED_WriteUSHORT (draw_line_usColor d).

Definition UOLED_OpaqueTransparentText (d : UOLED_OPAQUE_TRANSPARENT_TEXT) : OLED → res OLED :=
  UOLED_WriteByte ID_OPAQUE_TRANSPARENT_TEXT >>
  UOLED_WriteByte (opaque_transparent_text_ucMode d).

Definition UOLED_PutPixel (d : UOLED_PUT_PIXEL) : OLED → res OLED :=
  UOLED_WriteByte ID_PUT_PIXEL >>
  UOLED_WriteByte (put_pixel_ucX d) >>
  UOLED_WriteByte (put_pixel_ucY d) >>
  UOLED_WriteUSHORT (put_pixel_usColor d).

Definition UOLED_SetPenSize (d : UOLED_SET_PEN_SIZE) : OLED → res OLED :=
  UOLED_WriteByte ID_SET_PEN_SIZE >>
  UOLED_WriteByte (set_pen_size_ucSize d).

(** The pixel read is not stored anywhere. *)
Definition UOLED_ReadPixel (d : UOLED_READ_PIXEL) : OLED → res OLED :=
  UOLED_WriteByte ID_READ_PIXEL >>
  UOLED_WriteByte (read_pixel_ucX d) >>
  UOLED_WriteByte (read_pixel_ucY d) >>
  λ s,
    '(usPixel, s) ← UOLED_ReadByte s;
    '(c, s) ← UOLED_ReadByte s;
    let usPixel := Z.lor (u16 (Z.shiftl usPixel 8)) c in
    Ok s.

Definition UOLED_DrawRectangle (d : UOLED_DRAW_RECTANGLE) : OLED → res OLED :=
  UOLED_WriteByte ID_DRAW_RECTANGLE >>
  UOLED_WriteByte (draw_rectangle_ucLeft d) >>
  UOLED_WriteByte (draw_rectangle_ucTop d) >>
  UOLED_WriteByte (draw_rectangle_ucRight d) >>
  UOLED_WriteByte (draw_rectangle_ucBottom d) >>
  UOLED_WriteUSHORT (draw_rectangle_usColor d).

Definition UOLED_PlaceUnformattedText (d : UOLED_PLACE_UNFORMATTED_TEXT) : OLED → res OLED :=
  UOLED_WriteByte ID_PLACE_UNFORMATTED_TEXT >>
  UOLED_WriteByte (place_unformatted_text_ucLeft d) >>
  UOLED_WriteByte (place_unformatted_text_ucTop d) >>
  UOLED_WriteByte (place_unformatted_text_ucFont d) >>
  UOLED_WriteUSHORT (place_unformatted_text_usColor d) >>
  UOLED_WriteByte (place_unformatted_text_ucWidth d) >>
  UOLED_WriteByte (place_unformatted_text_ucHeight d) >>
  string_loop fuel (place_unformatted_text_pucString d) 0 >>
  UOLED_WriteByte 0.

Definition UOLED_PlaceFormattedText (d : UOLED_PLACE_FORMATTED_TEXT) : OLED → res OLED :=
  UOLED_WriteByte ID_PLACE_FORMATTED_TEXT >>
  UOLED_WriteByte (place_formatted_text_ucColumn d) >>
  UOLED_WriteByte (place_formatted_text_ucRow d) >>
  UOLED_WriteByte (place_formatted_text_ucFont d) >>
  UOLED_WriteUSHORT (place_formatted_text_usColor d) >>
  string_loop fuel (place_formatted_text_pucString d) 0 >>
  UOLED_WriteByte 0.

Definition UOLED_PlaceFormattedChar (d : UOLED_PLACE_FORMATTED_CHAR) : OLED → res OLED :=
  UOLED_WriteByte ID_PLACE_FORMATTED_CHAR >>
  UOLED_WriteByte (place_formatted_char_ucChar d) >>
  UOLED_WriteByte (place_formatted_char_ucColumn d) >>
  UOLED_WriteByte (place_formatted_char_ucRow d) >>
  UOLED_WriteUSHORT (place_formatted_char_usColor d).

Definition UOLED_PlaceUnformattedChar (d : UOLED_PLACE_UNFORMATTED_CHAR) : OLED → res OLED :=
  UOLED_WriteByte ID_PLACE_UNFORMATTED_CHAR >>
  UOLED_WriteByte (place_unformatted_char_ucChar d) >>
  UOLED_WriteByte (place_unformatted_char_ucLeft d) >>
  UOLED_WriteByte (place_unformatted_char_ucTop d) >>
  UOLED_WriteUSHORT (place_unformatted_char_usColor d) >>
  UOLED_WriteByte (place_unformatted_char_ucScaleX d) >>
  UOLED_WriteByte (place_unformatted_char_ucScaleY d).

Definition UOLED_DeviceInfoRequest (d : UOLED_DEVICE_INFO_REQUEST) : OLED → res OLED :=
  UOLED_WriteByte ID_DEVICE_INFO_REQUEST >>
  UOLED_WriteByte (device_info_request_ucOutput d) >>
  UOLED_WriteByte (device_info_request_ucDevID d) >>
  UOLED_WriteByte (device_info_request_ucHW_Rev d) >>
  UOLED_WriteByte (device_info_request_ucFW_Rev d) >>
  UOLED_WriteByte (device_info_request_ucResX d) >>
  UOLED_WriteByte (device_info_request_ucResY d).

Definition UOLED_SpecialCommand (d : UOLED_SPECIAL_COMMAND) : OLED → res OLED :=
  UOLED_WriteByte ID_SPECIAL_COMMAND >>
  UOLED_WriteByte (special_command_ucCommand d) >>
  UOLED_WriteByte (special_command_ucData d).

(** ** The driver functions *)

Definition dispatch (c : CMD_UOLED) : OLED → res OLED :=
  match c with
  | CMD_ADD_USER_BITMAP d => UOLED_AddUserBitmap d
  | CMD_SET_BG_COLOR d => UOLED_SetBGColor d
  | CMD_PLACE_TEXT_BUTTON d => UOLED_PlaceTextButton d
  | CMD_DRAW_CIRCLE d => UOLED_DrawCircle d
  | CMD_COPY_PASTE d => UOLED_CopyPaste d
  | CMD_DISPLAY_USER_BITMAP d => UOLED_DisplayUserBitmap d
  | CMD_ERASE_SCREEN => UOLED_EraseScreen
  | CMD_FONT_SIZE d => UOLED_FontSize d
  | CMD_DRAW_TRIANGLE d => UOLED_DrawTriangle d
  | CMD_DRAW_POLYGON d => UOLED_DrawPolygon d
  | CMD_DISPLAY_IMAGE d => UOLED_DisplayImage d
  | CMD_DRAW_LINE d => UOLED_DrawLine d
  | CMD_OPAQUE_TRANSPARENT_TEXT d => UOLED_OpaqueTransparentText d
  | CMD_PUT_PIXEL d => UOLED_PutPixel d
  | CMD_SET_PEN_SIZE d => UOLED_SetPenSize d
  | CMD_READ_PIXEL d => UOLED_ReadPixel d
  | CMD_DRAW_RECTANGLE d => UOLED_DrawRectangle d
  | CMD_PLACE_UNFORMATTED_TEXT d => UOLED_PlaceUnformattedText d
  | CMD_PLACE_FORMATTED_TEXT d => UOLED_PlaceFormattedText d
  | CMD_PLACE_FORMATTED_CHAR d => UOLED_PlaceFormattedChar d
  | CMD_PLACE_UNFORMATTED_CHAR d => UOLED_PlaceUnformattedChar d
  | CMD_DEVICE_INFO_REQUEST d => UOLED_DeviceInfoRequest d
  | CMD_SPECIAL_COMMAND d => UOLED_SpecialCommand d
  | CMD_OTHER _ => λ s, Ok s
  end.

Definition wait_for_ack (c : CMD_UOLED) : bool :=
  match c with CMD_DEVICE_INFO_REQUEST _ | CMD_OTHER _ => false | _ => true end.

(** [while (bRetry == TRUE)]; [n] bounds its turns.  [bRetry] is cleared only
    by an acknowledge. *)
Fixpoint control_loop (n : nat) (c : CMD_UOLED) (s : OLED) : res OLED :=
  match n with
  | O => Fault OutOfFuel
  | S n =>
      s ← dispatch c s;
      if wait_for_ack c then
        '(v, s) ← UOLED_ReadByte s;
        if v =? 0x06 then Ok s else control_loop n c s
      else control_loop n c s
  end.
Definition UOLED_Control (n : nat) (c : CMD_UOLED) (s : OLED) : res OLED :=
  control_loop n c (set_ack 0 s).

Definition UBRRVAL : Z := SYSTEM_FREQ / 16 / 224000 - 1.

(** The delays between the steps are not modelled. *)
Definition UOLED_Init (s : OLED) : res OLED :=
  let s := mkOled (ucAckVal s) (sent s) (now s) (u8 (Z.shiftr UBRRVAL 8) * 256 + u8 UBRRVAL) 0
             (Z.lor (Z.lor (Z.shiftl 1 4) (Z.shiftl 1 3)) (Z.lor (Z.shiftl 1 6) (Z.shiftl 1 7))) 0x06
             (Z.lor (RESET_DDR s) 0x02) (Z.lor (u8 (Z.land (RESET_PORT s) (Z.lnot 0x02))) 0x02) in
  let s := set_ack 0 s in
  s ← UOLED_WriteByte 85 s;
  '(_, s) ← UOLED_ReadByte s;
  Ok s.

Definition UOLED_Start (s : OLED) : OLED := s.
Definition UOLED_Stop (s : OLED) : OLED := s.

(** ** Sending *)

(** What the line and the display do while the driver waits: time passes,
    and bytes go out. *)
Inductive later (s : OLED) : OLED → Prop :=
  | later_here : later s s
  | later_tick s' : later s s' → later s (tick s')
  | later_put b s' : later s s' → later s (put b s').

Lemma later_trans s1 s2 s3 : later s1 s2 → later s2 s3 → later s1 s3.
Proof. intros H12 H23. induction H23; eauto using later. Qed.

Lemma later_now s s' : later s s' → (now s <= now s')%nat.
Proof. induction 1; cbn; lia. Qed.

(** The line is live: within [fuel] polls the transmitter is ready and the
    display has sent something. *)
Definition live : Prop :=
  (∀ t, ∃ k, (k < fuel)%nat ∧ udre (t + k)%nat = true) ∧
  (∀ t, ∃ k b, (k < fuel)%nat ∧ isr (t + k)%nat = Some b ∧ b ≠ 0).

(** From poll [T] on the display sends acknowledges only. *)
Definition acks_from (T : nat) : Prop := ∀ t b, (T <= t)%nat → isr t = Some b → b = 6.

(** No answer so far, or an acknowledge. *)
Definition ackish (s : OLED) : Prop := ucAckVal s = 0 ∨ ucAckVal s = 6.

(** The last answer is an acknowledge, or none has come since [T]. *)
Definition settling (T : nat) (s : OLED) : Prop :=
  ackish s ∨ ∀ t, (T <= t < now s)%nat → isr t = None.

Lemma later_settling T s s' : acks_from T → later s s' → settling T s → settling T s'.
Proof.
  intros HT Hl Hs. induction Hl as [|s' _ IH|b s' _ IH]; [done| |done].
  unfold settling, ackish in *. cbn. destruct (isr (now s')) as [b|] eqn:E.
  - destruct (decide (T <= now s')%nat); [left; right; by eapply HT|right; intros; lia].
  - destruct IH as [IH|IH]; [by left|right]. intros t Ht.
    destruct (decide (t = now s')) as [->|]; [done|]. apply IH. lia.
Qed.

Lemma later_ackish s s' : acks_from 0 → later s s' → ackish s → ackish s'.
Proof.
  intros HT Hl Hs. induction Hl as [|s' _ IH|b s' _ IH]; [done| |done].
  unfold ackish in *. cbn. destruct (isr (now s')) as [b|] eqn:E; [|done].
  right. eapply HT; [|done]. lia.
Qed.

(** [fuel] polls after [T] an acknowledge has come. *)
Lemma settled T s : live → acks_from T → settling T s → (T + fuel <= now s)%nat → ackish s.
Proof.
  intros [_ Ha] HT [Hs|Hs] Hn; [done|]. destruct (Ha T) as (k & b & Hk & Hb & _).
  rewrite Hs in Hb by lia. done.
Qed.

(** [f] appends the bytes [l] to what was sent, unless it is still waiting. *)
Definition sends (f : OLED → res OLED) (l : list Z) : Prop :=
  ∀ s, match f s with
       | Ok s' => sent s' = sent s ++ l ∧ later s s'
       | Fault e => e = OutOfFuel ∧ (live → False)
       end.

Lemma sends_nil : sends (λ s, Ok s) [].
Proof. intros s. rewrite app_nil_r. split; [done|constructor]. Qed.

Lemma sends_seq f g l1 l2 : sends f l1 → sends g l2 → sends (f >> g) (l1 ++ l2).
Proof.
  intros Hf Hg s. unfold seq. specialize (Hf s). destruct (f s) as [s1|]; [|done]. destruct Hf as [H1 L1].
  rewrite bind_ok. specialize (Hg s1). destruct (g s1) as [s2|]; [|done]. destruct Hg as [H2 L2].
  rewrite H2, H1, app_assoc. split; [done|by eapply later_trans].
Qed.

Lemma write_loop_ok n b s :
  match write_loop n b s with
  | Ok s' => sent s' = sent s ++ [b] ∧ later s s'
  | Fault e => e = OutOfFuel ∧ ∀ k, (k < n)%nat → udre (now s + k)%nat = false
  end.
Proof.
  revert s. induction n as [|n IH]; intros s; cbn [write_loop]; [split; [done|lia]|].
  destruct (udre (now s)) eqn:E; [by split; [|repeat constructor]|].
  specialize (IH (tick s)). destruct (write_loop n b (tick s)) as [s'|]; destruct IH as [IH1 IH2]; split; [done| |done|].
  - eapply later_trans; [|done]. repeat constructor.
  - intros [|k] Hk; [by rewrite Nat.add_0_r|]. rewrite Nat.add_succ_r. apply (IH2 k). lia.
Qed.

Lemma sends_byte b : byte b → sends (UOLED_WriteByte b) [b].
Proof.
  intros Hb s. unfold UOLED_WriteByte. rewrite u8_small by done.
  pose proof (write_loop_ok fuel b s) as H. destruct (write_loop fuel b s); [done|]. destruct H as [-> H].
  split; [done|]. intros [Hr _]. destruct (Hr (now s)) as (k & Hk & Hu). rewrite H in Hu by done. done.
Qed.

Lemma sends_word v : word v → sends (UOLED_WriteUSHORT v) (be16 v).
Proof.
  intros Hv. unfold word in Hv. unfold UOLED_WriteUSHORT, be16.
  assert (Z.land v 0x00FF = v mod 256) as -> by apply (Z.land_ones v 8 ltac:(lia)).
  assert (Z.shiftr (Z.land v 0xFF00) 8 = v / 256) as ->.
  { rewrite Z.shiftr_land, Z.shiftr_div_pow2 by lia. change (Z.shiftr 0xFF00 8) with (Z.ones 8).
    rewrite Z.land_ones by lia. change (2 ^ 8) with 256. apply Z.mod_small. dlia. }
  apply (sends_seq _ _ [v / 256] [v mod 256]); apply sends_byte; unfold byte; dlia.
Qed.

Lemma sends_bytes l : Forall byte l → sends (forM l UOLED_WriteByte) l.
Proof.
  induction l as [|b l IH]; intros Hl; [apply sends_nil|]. apply Forall_cons in Hl as [Hb Hl].
  apply (sends_seq (UOLED_WriteByte b) _ [b] l); [by apply sends_byte|by apply IH].
Qed.

(** The first bytes of an array, sent by index. *)
Lemma sends_array l n : Forall byte l → 0 <= n <= Z.of_nat (length l) →
  sends (forM (seqZ 0 n) (λ i s, c ← aget l i; UOLED_WriteByte c s)) (take (Z.to_nat n) l).
Proof.
  intros Hl Hn s.
  rewrite (forM_ext_in _ _ (λ i s, c ← aget (take (Z.to_nat n) l) i; UOLED_WriteByte c s)).
  - assert (n = Z.of_nat (length (take (Z.to_nat n) l))) as Hlen by (rewrite length_take; lia).
    assert (Forall byte (take (Z.to_nat n) l)) as Hb by (by apply Forall_take).
    revert Hlen Hb. generalize (take (Z.to_nat n) l). intros l' -> Hb. rewrite forM_array. by apply sends_bytes.
  - intros i s' Hi%elem_of_seqZ. unfold aget. by rewrite lookup_take_lt by lia.
Qed.

Lemma text_end l : (length (text l) < length l)%nat → l !! length (text l) = Some 0.
Proof.
  induction l as [|c l IH]; cbn [text length]; [lia|].
  destruct (Z.eqb_spec c 0) as [->|]; [done|]. cbn. intros. apply IH. lia.
Qed.

Lemma text_lookup l i : (i < length (text l))%nat → ∃ c, l !! i = Some c ∧ text l !! i = Some c ∧ c ≠ 0.
Proof.
  revert i. induction l as [|c l IH]; intros i; cbn [text length]; [lia|].
  destruct (Z.eqb_spec c 0) as [->|]; cbn [length]; [lia|]. destruct i as [|i]; cbn; [by exists c|].
  intros. apply IH. lia.
Qed.

Lemma string_loop_sends l n i : Forall byte l → c_string l → (i <= length (text l))%nat →
  (length (text l) - i < n)%nat → sends (string_loop n l (Z.of_nat i)) (drop i (text l)).
Proof.
  intros Hl (_ & Hend & H255). revert i. induction n as [|n IH]; intros i Hi Hn; [lia|].
  intros s. cbn [string_loop].
  destruct (decide (i = length (text l))) as [->|Hne].
  - rewrite (aget_some _ _ _ (text_end _ Hend)), bind_ok, drop_all. by apply sends_nil.
  - destruct (text_lookup l i) as (c & Hc & Ht & H0); [lia|].
    rewrite (aget_some _ _ _ Hc), bind_ok. destruct (Z.eqb_spec c 0); [done|].
    rewrite (drop_S _ _ _ Ht). rewrite u8_small by lia.
    replace (Z.of_nat i + 1) with (Z.of_nat (S i)) by lia.
    apply (sends_seq (UOLED_WriteByte c) _ [c]); [|apply IH; lia].
    apply sends_byte. rewrite Forall_forall in Hl. apply Hl. by eapply list_elem_of_lookup_2.
Qed.

Lemma sends_string l : 256 <= Z.of_nat fuel → c_string l → sends (string_loop fuel l 0) (text l).
Proof.
  intros Hfuel Hl. pose proof Hl as (H1 & H2 & H3). apply (string_loop_sends l fuel 0); [done|done|lia|lia].
Qed.

Lemma sends_vertices xs ys k n : Forall byte xs → Forall byte ys →
  (k + n <= length xs)%nat → (k + n <= length ys)%nat →
  sends (forM (seqZ (Z.of_nat k) (Z.of_nat n)) (λ i s,
      x ← aget xs i; s ← UOLED_WriteByte x s;
      y ← aget ys i; UOLED_WriteByte y s))
    (zip (take n (drop k xs)) (take n (drop k ys)) ≫= λ p, [p.1; p.2]).
Proof.
  intros Hx Hy. revert k. induction n as [|n IH]; intros k H1 H2; [apply sends_nil|].
  destruct (lookup_lt_is_Some_2 xs k) as [x Ex]; [lia|].
  destruct (lookup_lt_is_Some_2 ys k) as [y Ey]; [lia|].
  rewrite (drop_S _ _ _ Ex), (drop_S _ _ _ Ey), seqZ_cons'. cbn [take zip zip_with mbind list_bind].
  replace (Z.of_nat k + 1) with (Z.of_nat (S k)) by lia.
  rewrite Forall_forall in Hx, Hy.
  change ([(x, y).1; (x, y).2] ++ ?l) with ([x] ++ [y] ++ l).
  specialize (IH (S k) ltac:(lia) ltac:(lia)).
  intros s. cbn [forM]. rewrite (aget_some _ _ _ Ex), (aget_some _ _ _ Ey).
  refine (eq_ind _ (λ m, match m with Ok _ => _ | Fault _ => _ end)
    (sends_seq _ _ [x] _ (sends_byte x _) (sends_seq _ _ [y] _ (sends_byte y _) IH) s) _ _);
    [by eapply Hx, list_elem_of_lookup_2|by eapply Hy, list_elem_of_lookup_2|].
  unfold seq. rewrite bind_ok. by destruct (UOLED_WriteByte x s).
Qed.

Lemma ack_loop_ok n s :
  match ack_loop n s with
  | Ok s' => sent s' = sent s ∧ later s s' ∧ (now s < now s')%nat ∧ ucAckVal s' ≠ 0
  | Fault e => e = OutOfFuel ∧ ∀ k b, (k < n)%nat → isr (now s + k)%nat = Some b → b = 0
  end.
Proof.
  revert s. induction n as [|n IH]; intros s; cbn [ack_loop]; [split; [done|lia]|]. cbv zeta.
  destruct (Z.eqb_spec (ucAckVal (tick s)) 0) as [E|E].
  - specialize (IH (tick s)). destruct (ack_loop n (tick s)) as [s'|].
    + destruct IH as (H1 & H2 & H3 & H4). split; [done|]. split; [|split; [cbn in H3; lia|done]].
      eapply later_trans; [|done]. repeat constructor.
    + destruct IH as [-> IH]. split; [done|]. intros [|k] b Hk Hb.
      * rewrite Nat.add_0_r in Hb. cbn in E. by rewrite Hb in E.
      * rewrite Nat.add_succ_r in Hb. apply (IH k b); [lia|done].
  - split; [done|]. split; [repeat constructor|]. split; [cbn; lia|done].
Qed.

(** Reading a byte: an answer of the display, unless it is still awaited; an
    acknowledge, when nothing else has come. *)
Lemma UOLED_ReadByte_ok s :
  match UOLED_ReadByte s with
  | Ok (v, s') => sent s' = sent s ∧ later s s' ∧ (now s < now s')%nat ∧ v = ucAckVal s' ∧
      ∀ T, live → acks_from T → settling T s → (T + fuel <= now s)%nat ∨ T = 0%nat ∧ ackish s → v = 6
  | Fault e => e = OutOfFuel ∧ (live → False)
  end.
Proof.
  unfold UOLED_ReadByte. pose proof (ack_loop_ok fuel s) as H. destruct (ack_loop fuel s) as [s1|e].
  - destruct H as (H1 & H2 & H3 & H4). rewrite bind_ok. cbv zeta.
    split; [done|]. split; [by constructor|]. split; [cbn; lia|]. split; [done|]. intros T Hlive HT Hs Hcase.
    assert (ackish s1) as [|A1].
    { destruct Hcase as [Hcase | [-> Hcase]]; [|by eapply later_ackish].
      apply (settled T); [done|done|by eapply later_settling|lia]. }
    + done.
    + cbn. destruct (isr (now s1)) as [b|] eqn:Eb; [|done]. eapply HT; [|done].
      destruct Hcase as [Hcase | [-> _]]; lia.
  - destruct H as [-> H]. split; [done|]. intros [_ Ha]. destruct (Ha (now s)) as (k & b & Hk & Hb & H0).
    by apply H0, (H k).
Qed.

Lemma sends_eq f l l' : l = l' → sends f l → sends f l'.
Proof. by intros ->. Qed.

(** The two reads of [UOLED_ReadPixel]. *)
Lemma sends_two_reads (g : Z → Z → Z) : sends (λ s,
    '(u, s) ← UOLED_ReadByte s; '(c, s) ← UOLED_ReadByte s; let u := g u c in Ok s) [].
Proof.
  intros s. pose proof (UOLED_ReadByte_ok s) as H. destruct (UOLED_ReadByte s) as [[u s1]|]; [|done].
  destruct H as (H1 & L1 & _). rewrite bind_ok. pose proof (UOLED_ReadByte_ok s1) as H.
  destruct (UOLED_ReadByte s1) as [[c s2]|]; [|done]. destruct H as (H2 & L2 & _). rewrite bind_ok, app_nil_r.
  split; [congruence|by eapply later_trans].
Qed.

Create HintDb oled.
#[local] Hint Resolve sends_byte sends_word sends_seq sends_string sends_array sends_nil : oled.
#[local] Hint Extern 1 (byte _) => (unfold byte; (done || lia)) : oled.

(** Every handler sends the bytes of its command. *)
Lemma dispatch_sends c : 256 <= Z.of_nat fuel → cmd_ok c → sends (dispatch c) (encode c).
Proof.
  intros Hfuel.
  destruct c; cbn [cmd_ok dispatch]; intros Hok; destruct_and?; (eapply sends_eq; [|first
    [ unfold UOLED_ReadPixel; repeat match goal with |- sends (seq _ _) _ => eapply sends_seq end; [..|apply (sends_two_reads (λ u c, Z.lor (u16 (Z.shiftl u 8)) c))]
    | unfold UOLED_DrawPolygon; eapply sends_seq; [|eapply sends_seq; [|eapply sends_seq;
        [rewrite <- (Z2Nat.id (draw_polygon_ucVertices d)) by lia;
         apply (sends_vertices _ _ 0); (done || lia)|]]]
    | unfold UOLED_AddUserBitmap, UOLED_SetBGColor, UOLED_PlaceTextButton, UOLED_DrawCircle,
        UOLED_CopyPaste, UOLED_DisplayUserBitmap, UOLED_EraseScreen, UOLED_FontSize,
        UOLED_DrawTriangle, UOLED_DisplayImage, UOLED_DrawLine, UOLED_OpaqueTransparentText,
        UOLED_PutPixel, UOLED_SetPenSize, UOLED_DrawRectangle, UOLED_PlaceUnformattedText,
        UOLED_PlaceFormattedText, UOLED_PlaceFormattedChar, UOLED_PlaceUnformattedChar,
        UOLED_DeviceInfoRequest, UOLED_SpecialCommand; repeat match goal with |- sends (seq _ _) _ => eapply sends_seq end ];
    eauto 3 with oled]); cbn; try reflexivity.
  - eapply sends_eq; [|apply sends_array; [done|lia]]. apply take_ge. lia.
  - apply sends_array; [done|]. split; [|done]. unfold image_bytes. case_match; apply u16_range.
Qed.

(** ** [UOLED_Control] *)

(** A command is sent at least once and again until it is acknowledged; one
    that waits for no acknowledge is sent without end. *)
Lemma control_loop_ok n c s : 256 <= Z.of_nat fuel → cmd_ok c →
  match control_loop n c s with
  | Ok s' => wait_for_ack c = true ∧
      ∃ k, (1 <= k <= n)%nat ∧ sent s' = sent s ++ (replicate k c ≫= encode)
  | Fault e => e = OutOfFuel
  end.
Proof.
  intros Hfuel Hok. revert s. induction n as [|n IH]; intros s; [done|]. cbn [control_loop].
  pose proof (dispatch_sends c Hfuel Hok s) as Hd. destruct (dispatch c s) as [s1|]; [|by destruct Hd].
  destruct Hd as [H1 _]. rewrite bind_ok.
  assert (∀ s2, sent s2 = sent s1 → match control_loop n c s2 with
    | Ok s' => wait_for_ack c = true ∧
        ∃ k, (1 <= k <= S n)%nat ∧ sent s' = sent s ++ (replicate k c ≫= encode)
    | Fault e => e = OutOfFuel end) as Hagain.
  { intros s2 H2. specialize (IH s2). destruct (control_loop n c s2) as [s'|]; [|done].
    destruct IH as (Hw & k & Hk & Hs). split; [done|]. exists (S k). split; [lia|].
    rewrite Hs, H2, H1, <- app_assoc. done. }
  destruct (wait_for_ack c); [|by apply Hagain].
  pose proof (UOLED_ReadByte_ok s1) as Hr. destruct (UOLED_ReadByte s1) as [[v s2]|]; [|by destruct Hr].
  destruct Hr as (H2 & _). rewrite bind_ok. destruct (v =? 6); [|by apply Hagain].
  split; [done|]. exists 1%nat. split; [lia|]. cbn. by rewrite H2, H1, app_nil_r.
Qed.

Section awaited.

(** A command in range that is acknowledged, on a live line. *)
Context (c : CMD_UOLED) (Hfuel : 256 <= Z.of_nat fuel) (Hok : cmd_ok c)
  (Hw : wait_for_ack c = true) (Hlive : live).

(** One turn: the bytes of the command and an answer. *)
Lemma control_turn n s : ∃ s1 v s2,
  control_loop (S n) c s = (if v =? 0x06 then Ok s2 else control_loop n c s2) ∧
  sent s2 = sent s ++ encode c ∧ later s s1 ∧ later s1 s2 ∧ (now s1 < now s2)%nat ∧
  ∀ T, acks_from T → settling T s1 → (T + fuel <= now s1)%nat ∨ T = 0%nat ∧ ackish s1 → v = 6.
Proof.
  cbn [control_loop].
  pose proof (dispatch_sends c Hfuel Hok s) as Hd. destruct (dispatch c s) as [s1|]; [|by destruct Hd].
  destruct Hd as [H1 L1]. rewrite bind_ok, Hw.
  pose proof (UOLED_ReadByte_ok s1) as Hr. destruct (UOLED_ReadByte s1) as [[v s2]|]; [|by destruct Hr].
  destruct Hr as (H2 & L2 & Ht & _ & Hv). rewrite bind_ok. exists s1, v, s2. rewrite H2, H1.
  split; [done|]. split; [done|]. do 3 (split; [done|]). intros T. by apply Hv.
Qed.

(** The loop ends once the display only acknowledges. *)
Lemma control_loop_ends T n s : acks_from T → settling T s →
  (0 < n)%nat → (T + fuel < now s + n)%nat → ∃ s', control_loop n c s = Ok s'.
Proof.
  intros HT. revert s. induction n as [|n IH]; intros s Hs H0 Hn; [lia|].
  destruct (control_turn n s) as (s1 & v & s2 & -> & _ & L1 & L2 & Ht & Hv).
  destruct (Z.eqb_spec v 6) as [|Hne]; [by eexists|].
  assert (settling T s1) as Hs1 by (by eapply later_settling). pose proof (later_now _ _ L1).
  assert (now s1 < T + fuel)%nat.
  { apply Nat.nle_gt. intros Hle. apply Hne, (Hv T); auto. }
  apply IH; [by eapply later_settling|lia..].
Qed.

(** With acknowledges all along one turn is enough. *)
Lemma control_loop_once n s : acks_from 0 → ackish s →
  ∃ s', control_loop (S n) c s = Ok s' ∧ sent s' = sent s ++ encode c.
Proof.
  intros HT Hs. destruct (control_turn n s) as (s1 & v & s2 & -> & H2 & L1 & _ & _ & Hv).
  assert (ackish s1) by (by eapply later_ackish).
  rewrite (Hv 0%nat HT); [by exists s2|by left|by right].
Qed.

End awaited.

(** A reader of the line recovers the commands from their bytes. *)
Lemma decode_n_encode cmds l :
  Forall cmd_ok cmds → Forall (λ c, wait_for_ack c = true) cmds → Forall picture_fits cmds →
  decode_n (length cmds) ((cmds ≫= encode) ++ l) = Some (visible <$> cmds, l).
Proof.
  intros Hok Hw Hp. induction cmds as [|c cmds IH]; [done|].
  apply Forall_cons in Hok as [Hc Hok], Hw as [Hwc Hw], Hp as [Hpc Hp].
  cbn [length decode_n mbind list_bind fmap list_fmap]. rewrite <- app_assoc, UOLED_decode_encode; [|done| |done].
  - cbn. change (list_bind _ _ encode cmds) with (cmds ≫= encode). by rewrite IH.
  - intros id ->. done.
Qed.

(** The commands of a sequence as they go over the line: every one as often as
    it took turns. *)
Definition repeated (turns : list nat) (cmds : list CMD_UOLED) : list CMD_UOLED :=
  mjoin (zip_with replicate turns cmds).

Lemma Forall_repeated (P : CMD_UOLED → Prop) turns cmds : Forall P cmds → Forall P (repeated turns cmds).
Proof.
  intros HP. revert turns. induction HP as [|c cmds Hc _ IH]; intros [|k turns]; try constructor.
  apply Forall_app. split; [by apply Forall_replicate|apply IH].
Qed.

(** Every command that returned was sent as often as it took turns. *)
Lemma commands_sent n cmds s : 256 <= Z.of_nat fuel → Forall cmd_ok cmds →
  match forM cmds (UOLED_Control n) s with
  | Ok s' => Forall (λ c, wait_for_ack c = true) cmds ∧
      ∃ turns, length turns = length cmds ∧ Forall (λ k, 1 <= k <= n)%nat turns ∧
        sent s' = sent s ++ (repeated turns cmds ≫= encode)
  | Fault e => e = OutOfFuel
  end.
Proof.
  intros Hfuel Hok. revert s. induction Hok as [|c cmds Hc Hok IH]; intros s; cbn [forM].
  { split; [done|]. exists []. by rewrite app_nil_r. }
  change (UOLED_Control n c s) with (control_loop n c (set_ack 0 s)).
  pose proof (control_loop_ok n c (set_ack 0 s) Hfuel Hc) as H1.
  destruct (control_loop n c (set_ack 0 s)) as [s1|]; [|done]. rewrite bind_ok.
  destruct H1 as (Hwc & k & Hk & Hs1). specialize (IH s1).
  destruct (forM cmds (UOLED_Control n) s1) as [s2|]; [|done]. destruct IH as (Hw & turns & Hl & Ht & Hs2).
  split; [by constructor|]. exists (k :: turns). split; [cbn; by rewrite Hl|]. split; [by constructor|].
  rewrite Hs2, Hs1. unfold repeated. cbn [zip_with mjoin list_join]. by rewrite bind_app, app_assoc.
Qed.

(** C36: the display driver on a line and a display that do whatever they
    want, for commands whose data is in range.  A sequence of commands either
    is still waiting or has returned; no other fault occurs.  When it has
    returned, every command was one that waits for an acknowledge, and what
    was sent is the bytes of the commands, every one at least once and at most
    once for every allowed turn; a reader of the line recovers exactly these
    commands from exactly these bytes as far as the display can see them
    (strings up to their end, polygons up to their last vertex), whatever
    follows, if the byte counts of pictures fit into 16 bits.  A device
    information request or an unknown command never returns.  On a line where
    within [fuel] polls the transmitter is ready and the display has sent a
    byte other than 0, commands that wait for an acknowledge return after at
    most [T + fuel + 1] turns each, if from poll [T] on the display sends
    nothing but acknowledges, and after one turn if it never sends anything
    else. *)
Theorem UOLED_Control_round_trip n cmds s :
  256 <= Z.of_nat fuel → Forall cmd_ok cmds →
  match forM cmds (UOLED_Control n) s with
  | Ok s' => Forall (λ c, wait_for_ack c = true) cmds ∧
      ∃ turns, length turns = length cmds ∧ Forall (λ k, 1 <= k <= n)%nat turns ∧
        sent s' = sent s ++ (repeated turns cmds ≫= encode) ∧
        (Forall picture_fits cmds → ∀ l,
          decode_n (length (repeated turns cmds)) ((repeated turns cmds ≫= encode) ++ l)
          = Some (visible <$> repeated turns cmds, l))
  | Fault e => e = OutOfFuel
  end ∧
  (live → Forall (λ c, wait_for_ack c = true) cmds →
    (∀ T, acks_from T → (T + fuel < n)%nat → ∃ s', forM cmds (UOLED_Control n) s = Ok s') ∧
    (acks_from 0 → (0 < n)%nat →
      ∃ s', forM cmds (UOLED_Control n) s = Ok s' ∧ sent s' = sent s ++ (cmds ≫= encode))).
Proof.
  intros Hfuel Hok. split; [|intros Hlive Hw; split].
  - pose proof (commands_sent n cmds s Hfuel Hok) as H.
    destruct (forM _ _ s) as [s'|]; [|done]. destruct H as (Hw & turns & Hl & Ht & Hs). split; [done|].
    exists turns. split; [done|]. split; [done|]. split; [done|]. intros Hp l.
    apply decode_n_encode; by apply Forall_repeated.
  - intros T HT Hn. revert s. induction Hok as [|c cmds Hc Hok IH]; intros s; cbn [forM]; [by eexists|].
    apply Forall_cons in Hw as [Hwc Hw]. change (UOLED_Control n c s) with (control_loop n c (set_ack 0 s)).
    destruct (control_loop_ends c Hfuel Hc Hwc Hlive T n (set_ack 0 s)) as (s1 & ->); [done|by left; left|lia..|].
    rewrite bind_ok. by apply IH.
  - intros HT Hn. destruct n as [|n]; [lia|]. revert s. induction Hok as [|c cmds Hc Hok IH]; intros s; cbn [forM].
    { exists s. by rewrite app_nil_r. }
    apply Forall_cons in Hw as [Hwc Hw]. change (UOLED_Control (S n) c s) with (control_loop (S n) c (set_ack 0 s)).
    destruct (control_loop_once c Hfuel Hc Hwc Hlive n (set_ack 0 s)) as (s1 & -> & H1); [done|by left|].
    rewrite bind_ok. destruct (IH Hw s1) as (s2 & -> & H2). exists s2. split; [done|].
    rewrite H2, H1. cbn. by rewrite app_assoc.
Qed.

(** [bRetry] is cleared only after an acknowledge was waited for: a device
    information request and an unknown command are repeated forever, whatever
    the display answers. *)
Theorem UOLED_Control_endless n c s s' :
  wait_for_ack c = false → UOLED_Control n c s ≠ Ok s'.
Proof.
  intros Hw. unfold UOLED_Control. generalize (set_ack 0 s). clear s.
  induction n as [|n IH]; intros s; [done|]. cbn [control_loop]. rewrite Hw.
  destruct (dispatch c s) as [s1|]; [|done]. rewrite bind_ok. apply IH.
Qed.

End uoled.

(** A display that answers every other poll, at first with a byte that is no
    acknowledge. *)
Definition example_isr (t : nat) : option Z :=
  if Nat.even t then None else if (t <? 15)%nat then Some 21 else Some 6.

Lemma UOLED_Control_round_trip_witness :
  let cmds := [CMD_PLACE_FORMATTED_TEXT (mk_PLACE_FORMATTED_TEXT 1 2 0 0x1234 [72; 105; 0; 9]);
               CMD_DISPLAY_IMAGE (mk_DISPLAY_IMAGE 1 2 2 1 16 [10; 20; 30; 40])] in
  ∃ s' turns, forM cmds (UOLED_Control Nat.even example_isr (Z.to_nat 256) 272)
      (mkOled 0 [] 0 0 0 0 0 0 0) = Ok s' ∧
    decode_n (length (repeated turns cmds)) (sent s')
    = Some (visible <$> repeated turns cmds, []) ∧ length turns = 2%nat.
Proof.
  intros cmds.
  assert (Forall cmd_ok cmds) as Hok.
  { apply Forall_cons_2; [|apply Forall_cons_2; [|apply Forall_nil_2]]; cbn; unfold c_string, byte, word; cbn;
      repeat split; try lia; try (vm_compute; discriminate);
      repeat (apply Forall_cons_2; [lia|]); apply Forall_nil_2. }
  assert (live Nat.even example_isr (Z.to_nat 256)) as Hlive.
  { split; intros t; destruct (Nat.even t) eqn:E.
    - exists 0%nat. split; [lia|]. by rewrite Nat.add_0_r.
    - exists 1%nat. split; [lia|]. rewrite Nat.add_1_r, Nat.even_succ, <- Nat.negb_even, E. reflexivity.
    - exists 1%nat, (if (t + 1 <? 15)%nat then 21 else 6). split; [lia|]. unfold example_isr.
      rewrite Nat.add_1_r, Nat.even_succ, <- Nat.negb_even, E. by destruct (_ <? _)%nat.
    - exists 0%nat, (if (t <? 15)%nat then 21 else 6). split; [lia|]. unfold example_isr.
      rewrite Nat.add_0_r, E. by destruct (_ <? _)%nat. }
  assert (acks_from example_isr 15) as Hacks.
  { intros t b Ht. unfold example_isr. destruct (Nat.even t); [discriminate|].
    rewrite (proj2 (Nat.ltb_ge t 15) Ht). by intros [= <-]. }
  assert (Forall (λ c, wait_for_ack c = true) cmds) as Hw by (repeat constructor).
  destruct (UOLED_Control_round_trip Nat.even example_isr (Z.to_nat 256) 272 cmds (mkOled 0 [] 0 0 0 0 0 0 0))
    as [H1 H2]; [lia|exact Hok|].
  destruct (proj1 (H2 Hlive Hw) 15%nat Hacks) as (s' & E); [lia|]. rewrite E in H1.
  destruct H1 as (_ & turns & Hl & _ & Hs & Hd). exists s', turns. split; [exact E|]. split; [|exact Hl].
  rewrite Hs, <- (app_nil_r (_ ≫= _)). apply Hd. apply Forall_cons_2; [|apply Forall_cons_2; [|apply Forall_nil_2]]; cbn; lia.
Defined.
End Uoled.
