(* ===== verification/FunkDraw.v ===== *)
(** * FunkOS: drawing primitives and fonts (modules/graphics/draw.c, font.c)

    The functions of draw.c render objects by calls of the pixel function of
    the display driver, or hand the object to the driver when it announces
    hardware acceleration.  Both belong to the concrete display and are
    parameters here; [frame_pixel] is the instance for a frame buffer.  The
    pixel function receives the point by address and is taken not to change
    it.  Arithmetic is that of the AVR, whose [int] has 16 bits. *)
From S2P Require Import Prelude.

Module Draw.
Open Scope Z_scope.

(** ** Data *)

Inductive DISPLAY_EVENT : Type :=
  | DISPLAY_EVENT_PIXEL | DISPLAY_EVENT_CLEAR | DISPLAY_EVENT_LINE | DISPLAY_EVENT_RECTANGLE
  | DISPLAY_EVENT_CIRCLE | DISPLAY_EVENT_ELLIPSE | DISPLAY_EVENT_BITMAP | DISPLAY_EVENT_STAMP
  | DISPLAY_EVENT_TEXT | DISPLAY_EVENT_CONSOLE_TEXT.

Definition ACCELERATED_CLEAR : Z := 0x0001.
Definition ACCELERATED_LINE : Z := 0x0004.
Definition ACCELERATED_CIRCLE : Z := 0x0008.
Definition ACCELERATED_ELLPISE : Z := 0x0010.
Definition ACCELERATED_RECTANGLE : Z := 0x0020.
Definition ACCELERATED_TEXT : Z := 0x0040.
Definition ACCELERATED_BITMAP : Z := 0x0200.

(** The fields of a display driver that draw.c reads; the driver pointer and
    the pixel function are the parameters of the section below. *)
Record DISPLAY_DRIVER_STRUCT : Type := mkDisplay {
  usResX : Z; usResY : Z; ucBPP : Z; usAccelerationFlags : Z
}.

Record DRAW_POINT_STRUCT : Type := mkPoint { pt_usX : Z; pt_usY : Z; pt_uColor : Z }.

Record DRAW_LINE_STRUCT : Type := mkLine {
  usX1 : Z; usX2 : Z; usY1 : Z; usY2 : Z; ln_uColor : Z
}.

Record DRAW_RECTANGLE_STRUCT : Type := mkRectangle {
  usLeft : Z; usTop : Z; usRight : Z; usBottom : Z;
  rc_uLineColor : Z; rc_bFill : Z; rc_uFillColor : Z
}.

Record DRAW_CIRCLE_STRUCT : Type := mkCircle {
  ci_usX : Z; ci_usY : Z; usRadius : Z; ci_uLineColor : Z; ci_bFill : Z; ci_uFillColor : Z
}.

Record DRAW_ELLIPSE_STRUCT : Type := mkEllipse {
  el_usX : Z; el_usY : Z; el_usHeight : Z; el_usWidth : Z; el_uColor : Z
}.

Record DRAW_BITMAP_STRUCT : Type := mkBitmap {
  bm_usX : Z; bm_usY : Z; bm_usWidth : Z; bm_usHeight : Z; bm_ucBPP : Z; bm_pucData : list Z
}.

Record DRAW_STAMP_STRUCT : Type := mkStamp {
  st_usX : Z; st_usY : Z; st_usWidth : Z; st_usHeight : Z; st_uColor : Z; st_pucData : list Z
}.

Record FONT_STRUCT : Type := mkFont {
  szFontName : list Z; ucSize : Z; ucFlags : Z;
  ucFontWidth : Z; ucFontHeight : Z; ucStartChar : Z; ucNumChars : Z; pucCharData : list Z
}.

Record DRAW_TEXT_STRUCT : Type := mkText {
  tx_usX : Z; tx_usY : Z; pstFont : FONT_STRUCT; pucString : list Z; tx_uColor : Z
}.

(** What [Driver_Control] is given a pointer to. *)
Inductive DRAW_OBJECT : Type :=
  | ObjLine (l : DRAW_LINE_STRUCT) | ObjRectangle (r : DRAW_RECTANGLE_STRUCT)
  | ObjCircle (c : DRAW_CIRCLE_STRUCT) | ObjBitmap (b : DRAW_BITMAP_STRUCT)
  | ObjStamp (s : DRAW_STAMP_STRUCT).

(** ** Colours: the 16-bit colour space selected in colorspace.h *)

Definition RGB_COLOR (R G B : Z) : Z :=
  Z.lor (Z.lor (Z.land B 0x001F) (u16 (Z.shiftl (Z.land G 0x003F) 5)))
    (u16 (Z.shiftl (Z.land R 0x001F) 11)).

Definition COLOR_BLACK : Z := RGB_COLOR 0 0 0.

(** ** Counting loops *)

(** [for (i = lo; cond(i); i++)] for a USHORT [i], which wraps to 0. *)
Fixpoint for_u16 {S} (cond : Z → bool) (fuel : nat) (i : Z) (body : Z → S → res S) (s : S) : res S :=
  if cond i then
    match fuel with
    | O => Fault OutOfFuel
    | Datatypes.S fuel => s ← body i s; for_u16 cond fuel (u16 (i + 1)) body s
    end
  else Ok s.

(** The same for a SHORT, whose increment must not overflow. *)
Fixpoint for_s16 {S} (cond : Z → bool) (fuel : nat) (i : Z) (body : Z → S → res S) (s : S) : res S :=
  if cond i then
    match fuel with
    | O => Fault OutOfFuel
    | Datatypes.S fuel => s ← body i s; i ← int16 (i + 1); for_s16 cond fuel i body s
    end
  else Ok s.

Section draw.
Context {W : Type}.
Context (pfDrawPixel : DRAW_POINT_STRUCT → W → res W)
  (Driver_Control : DISPLAY_EVENT → option DRAW_OBJECT → W → res W) (fuel : nat).

(** [if (flags & mask)] *)
Definition accelerated (d : DISPLAY_DRIVER_STRUCT) (mask : Z) : bool :=
  negb (Z.land (usAccelerationFlags d) mask =? 0).

(** ** Screen, points and lines *)

Definition Draw_ClearScreen (d : DISPLAY_DRIVER_STRUCT) (w : W) : res W :=
  if accelerated d ACCELERATED_CLEAR then Driver_Control DISPLAY_EVENT_CLEAR None w
  else
    for_u16 (λ x, x <? usResX d) fuel 0 (λ x,
      for_u16 (λ y, y <? usResY d) fuel 0 (λ y, pfDrawPixel (mkPoint x y COLOR_BLACK))) w.

Definition Draw_Point (d : DISPLAY_DRIVER_STRUCT) (p : DRAW_POINT_STRUCT) (w : W) : res W :=
  pfDrawPixel p w.

(** The loop of [Draw_Line] along the axis [a] of the larger difference [da];
    [plot] draws the point with coordinate [a] on that axis and [b] on the
    other one. *)
Fixpoint line_loop (plot : Z → Z → W → res W) (n : nat)
    (a b a2 stepa stepb da db sFraction : Z) (w : W) : res W :=
  if a =? a2 then Ok w
  else match n with
  | O => Fault OutOfFuel
  | S n =>
      '(b, sFraction) ←
        (if 0 <=? sFraction then
           b ← int16 (b + stepb); sFraction ← int16 (sFraction - da); Ok (b, sFraction)
         else Ok (b, sFraction));
      a ← int16 (a + stepa);
      sFraction ← int16 (sFraction + db);
      w ← plot (u16 a) (u16 b) w;
      line_loop plot n a b a2 stepa stepb da db sFraction w
  end.

Definition Draw_Line (d : DISPLAY_DRIVER_STRUCT) (l : DRAW_LINE_STRUCT) (w : W) : res W :=
  if accelerated d ACCELERATED_LINE then Driver_Control DISPLAY_EVENT_LINE (Some (ObjLine l)) w
  else
    let sX1 := s16 (usX1 l) in
    let sX2 := s16 (usX2 l) in
    let sY1 := s16 (usY1 l) in
    let sY2 := s16 (usY2 l) in
    sDeltaY ← int16 (sY2 - sY1);
    sDeltaX ← int16 (sX2 - sX1);
    '(sDeltaY, cStepy) ←
      (if sDeltaY <? 0 then v ← int16 (- sDeltaY); Ok (v, -1) else Ok (sDeltaY, 1));
    '(sDeltaX, cStepx) ←
      (if sDeltaX <? 0 then v ← int16 (- sDeltaX); Ok (v, -1) else Ok (sDeltaX, 1));
    sDeltaY ← int16 (sDeltaY * 2);
    sDeltaX ← int16 (sDeltaX * 2);
    w ← pfDrawPixel (mkPoint (u16 sX1) (u16 sY1) (ln_uColor l)) w;
    if sDeltaY <? sDeltaX then
      sFraction ← int16 (sDeltaY - Z.shiftr sDeltaX 1);
      line_loop (λ x y, pfDrawPixel (mkPoint x y (ln_uColor l))) fuel
        sX1 sY1 sX2 cStepx cStepy sDeltaX sDeltaY sFraction w
    else
      sFraction ← int16 (sDeltaX - Z.shiftr sDeltaY 1);
      line_loop (λ y x, pfDrawPixel (mkPoint x y (ln_uColor l))) fuel
        sY1 sX1 sY2 cStepy cStepx sDeltaY sDeltaX sFraction w.

(** ** Rectangles, circles and ellipses *)

Definition Draw_Rectangle (d : DISPLAY_DRIVER_STRUCT) (r : DRAW_RECTANGLE_STRUCT) (w : W) : res W :=
  if accelerated d ACCELERATED_RECTANGLE
  then Driver_Control DISPLAY_EVENT_RECTANGLE (Some (ObjRectangle r)) w
  else
    let in_x := λ x, x <=? usRight r in
    let in_y := λ y, y <=? usBottom r in
    w ← (if rc_bFill r =? 1 then
           for_u16 in_x fuel (usLeft r) (λ x,
             for_u16 in_y fuel (usTop r) (λ y, pfDrawPixel (mkPoint x y (rc_uFillColor r)))) w
         else Ok w);
    let line := λ x y, pfDrawPixel (mkPoint x y (rc_uLineColor r)) in
    w ← for_u16 in_x fuel (usLeft r) (λ x, line x (usTop r)) w;
    w ← for_u16 in_x fuel (usLeft r) (λ x, line x (usBottom r)) w;
    w ← for_u16 in_y fuel (usTop r) (λ y, line (usLeft r) y) w;
    for_u16 in_y fuel (usTop r) (λ y, line (usRight r) y) w.

(** The four points of the quadrants around the centre the code uses. *)
Definition quadrants (cx x y color : Z) (w : W) : res W :=
  w ← pfDrawPixel (mkPoint (u16 (cx + x)) (u16 (cx + y)) color) w;
  w ← pfDrawPixel (mkPoint (u16 (cx - x)) (u16 (cx + y)) color) w;
  w ← pfDrawPixel (mkPoint (u16 (cx + x)) (u16 (cx - y)) color) w;
  pfDrawPixel (mkPoint (u16 (cx - x)) (u16 (cx - y)) color) w.

Definition Draw_Circle (d : DISPLAY_DRIVER_STRUCT) (c : DRAW_CIRCLE_STRUCT) (w : W) : res W :=
  if accelerated d ACCELERATED_CIRCLE
  then Driver_Control DISPLAY_EVENT_CIRCLE (Some (ObjCircle c)) w
  else
    let ulRadSquare := u32 (usRadius c * usRadius c) in
    for_s16 (λ x, x <=? s16 (usRadius c)) fuel 0 (λ sX,
      let ulXSquare := u32 (u32 sX * u32 sX) in
      for_s16 (λ y, y <=? s16 (usRadius c)) fuel 0 (λ sY w,
        let ulYSquare := u32 (u32 sY * u32 sY) in
        w ← (if (ci_bFill c =? 1) && (u32 (ulXSquare + ulYSquare) <=? ulRadSquare)
             then quadrants (ci_usX c) sX sY (ci_uFillColor c) w else Ok w);
        if (u32 (ulRadSquare - usRadius c) <=? u32 (ulXSquare + ulYSquare)) &&
           (u32 (ulXSquare + ulYSquare) <=? u32 (ulRadSquare + usRadius c))
        then quadrants (ci_usX c) sX sY (ci_uLineColor c) w
        else Ok w)) w.

(** The colour of the points of an ellipse is never assigned. *)
Definition Draw_Ellipse (d : DISPLAY_DRIVER_STRUCT) (uColor : Z) (e : DRAW_ELLIPSE_STRUCT) (w : W) : res W :=
  if accelerated d ACCELERATED_ELLPISE then Driver_Control DISPLAY_EVENT_ELLIPSE None w
  else
    let ulHSquare := u32 (el_usWidth e * el_usWidth e) in
    let ulVSquare := u32 (el_usHeight e * el_usHeight e) in
    let ulRadius := u32 (ulHSquare * ulVSquare) in
    for_s16 (λ x, x <=? s16 (el_usWidth e)) fuel 0 (λ sX,
      let ulXSquare := u32 (u32 (u32 sX * u32 sX) * ulHSquare) in
      for_s16 (λ y, y <=? s16 (el_usHeight e)) fuel 0 (λ sY w,
        let ulYSquare := u32 (u32 (u32 sY * u32 sY) * ulVSquare) in
        if u32 (ulXSquare + ulYSquare) <=? ulRadius
        then quadrants (el_usX e) sX sY uColor w else Ok w)) w.

(** ** Bitmaps and stamps *)

(** The red, green and blue values of the pixel at [usIndex], each in 8 bits;
    for another pixel size the variables keep what they held ([old]). *)
Definition bitmap_rgb (b : DRAW_BITMAP_STRUCT) (usIndex : Z) (old : option (Z * Z * Z)) :
    res (option (Z * Z * Z)) :=
  if bm_ucBPP b =? 1 then
    v ← aget (bm_pucData b) usIndex;
    Ok (Some (u8 (Z.shiftl (Z.land v 0xE0) 1), u8 (Z.shiftl (Z.land v 0x18) 3),
              u8 (Z.shiftl (Z.land v 0x07) 5)))
  else if bm_ucBPP b =? 2 then
    v0 ← aget (bm_pucData b) usIndex;
    v1 ← aget (bm_pucData b) (u16 (usIndex + 1));
    let usTemp := Z.lor (u16 (Z.shiftl v0 8)) v1 in
    Ok (Some (u8 (Z.shiftl (Z.land (Z.shiftr usTemp 11) 0x001F) 3),
              u8 (Z.shiftl (Z.land (Z.shiftr usTemp 5) 0x003F) 2),
              u8 (Z.shiftl (Z.land usTemp 0x001F) 3)))
  else if bm_ucBPP b =? 3 then
    v0 ← aget (bm_pucData b) usIndex;
    v1 ← aget (bm_pucData b) (u16 (usIndex + 1));
    v2 ← aget (bm_pucData b) (u16 (usIndex + 2));
    let ulTemp := Z.lor (u32 (Z.shiftl (Z.lor (u32 (Z.shiftl v0 8)) v1) 8)) v2 in
    Ok (Some (u8 (Z.shiftr (Z.land ulTemp 0x00FF0000) 16),
              u8 (Z.shiftr (Z.land ulTemp 0x0000FF00) 8),
              u8 (Z.land ulTemp 0x000000FF)))
  else Ok old.

(** One turn of the inner loop: the state holds [usIndex], the colour
    variables and the display. *)
Definition bitmap_pixel (d : DISPLAY_DRIVER_STRUCT) (b : DRAW_BITMAP_STRUCT) (usRow usCol : Z)
    (s : Z * option (Z * Z * Z) * W) : res (Z * option (Z * Z * Z) * W) :=
  let '(usIndex, rgb, w) := s in
  rgb ← bitmap_rgb b usIndex rgb;
  match rgb with
  | None => Fault Uninit
  | Some (ucRed, ucGreen, ucBlue) =>
      let ucRed := Z.shiftr ucRed 3 in
      let ucGreen := Z.shiftr ucGreen 2 in
      let ucBlue := Z.shiftr ucBlue 3 in
      w ← pfDrawPixel (mkPoint usCol usRow (RGB_COLOR ucRed ucGreen ucBlue)) w;
      Ok (u16 (usIndex + ucBPP d), Some (ucRed, ucGreen, ucBlue), w)
  end.

Definition Draw_Bitmap (d : DISPLAY_DRIVER_STRUCT) (b : DRAW_BITMAP_STRUCT) (w : W) : res W :=
  if accelerated d ACCELERATED_BITMAP
  then Driver_Control DISPLAY_EVENT_BITMAP (Some (ObjBitmap b)) w
  else
    '(_, _, w) ←
      for_u16 (λ r, r <? u16 (bm_usY b + bm_usHeight b)) fuel (bm_usY b) (λ usRow,
        for_u16 (λ c, c <? u16 (bm_usX b + bm_usWidth b)) fuel (bm_usX b) (λ usCol,
          bitmap_pixel d b usRow usCol)) (0, None, w);
    Ok w.

(** One turn of the inner loop of a stamp: [usShift], [usIndex], display. *)
Definition stamp_pixel (st : DRAW_STAMP_STRUCT) (usRow usCol : Z) (s : Z * Z * W) :
    res (Z * Z * W) :=
  let '(usShift, usIndex, w) := s in
  v ← aget (st_pucData st) usIndex;
  w ← (if negb (Z.land v usShift =? 0) then pfDrawPixel (mkPoint usCol usRow (st_uColor st)) w
       else Ok w);
  let usShift := u16 (Z.shiftl usShift 1) in
  if usShift =? 0x100 then Ok (1, u16 (usIndex + 1), w) else Ok (usShift, usIndex, w).

Definition Draw_Stamp (d : DISPLAY_DRIVER_STRUCT) (st : DRAW_STAMP_STRUCT) (w : W) : res W :=
  if accelerated d ACCELERATED_BITMAP
  then Driver_Control DISPLAY_EVENT_STAMP (Some (ObjStamp st)) w
  else
    '(_, w) ←
      for_u16 (λ r, r <? u16 (st_usY st + st_usHeight st)) fuel (st_usY st) (λ usRow '(usIndex, w),
        '(_, usIndex, w) ←
          for_u16 (λ c, c <? u16 (st_usX st + st_usWidth st)) fuel (st_usX st)
            (stamp_pixel st usRow) (1, usIndex, w);
        Ok (usIndex, w)) (0, w);
    Ok w.

(** ** Text *)

Definition Font_ReadByte (usAddress : Z) (pucFont : list Z) : res Z := aget pucFont usAddress.

(** The address of a character in the font table. *)
Definition char_address (f : FONT_STRUCT) (c : Z) : Z :=
  let ucWidthBytes := ucFontWidth f / 8 in
  u16 (((ucWidthBytes + 1) * ucFontHeight f + 2) * u16 (c - ucStartChar f)).

(** One turn of the innermost loop: [usArrayIndex], [ucBitIndex], display. *)
Definition text_pixel (f : FONT_STRUCT) (uColor usY usX : Z) (s : Z * Z * W) : res (Z * Z * W) :=
  let '(usArrayIndex, ucBitIndex, w) := s in
  ucTempChar ← Font_ReadByte usArrayIndex (pucCharData f);
  w ← (if negb (Z.land ucTempChar (Z.shiftl 1 ucBitIndex) =? 0)
       then pfDrawPixel (mkPoint usX usY uColor) w else Ok w);
  let ucBitIndex := u8 (ucBitIndex + 1) in
  if 8 <=? ucBitIndex then Ok (u16 (usArrayIndex + 1), 0, w) else Ok (usArrayIndex, ucBitIndex, w).

(** One character at [usCharOffsetX]: the offset of the next character. *)
Definition text_char (t : DRAW_TEXT_STRUCT) (c usCharOffsetX : Z) (w : W) : res (Z * W) :=
  let f := pstFont t in
  let usArrayIndex := char_address f c in
  usCharOffsetY ← Font_ReadByte usArrayIndex (pucCharData f);
  let usArrayIndex := u16 (usArrayIndex + 1) in
  ucTempOffsetX ← Font_ReadByte usArrayIndex (pucCharData f);
  let usArrayIndex := u16 (usArrayIndex + 1) in
  '(_, _, w) ←
    for_u16 (λ y, y <? u16 (usCharOffsetY + tx_usY t + ucFontHeight f)) fuel
        (u16 (usCharOffsetY + tx_usY t)) (λ usY s,
      '(usArrayIndex, ucBitIndex, w) ←
        for_u16 (λ x, x <=? u16 (usCharOffsetX + tx_usX t + ucFontWidth f)) fuel
          (u16 (usCharOffsetX + tx_usX t)) (λ usX, text_pixel f (tx_uColor t) usY usX) s;
      if negb (ucBitIndex =? 0) then Ok (u16 (usArrayIndex + 1), 0, w)
      else Ok (usArrayIndex, ucBitIndex, w)) (usArrayIndex, 0, w);
  Ok (u16 (usCharOffsetX + (ucTempOffsetX + 1)), w).

Fixpoint text_loop (t : DRAW_TEXT_STRUCT) (n : nat) (usCharIndex usCharOffsetX : Z) (w : W) : res W :=
  c ← aget (pucString t) usCharIndex;
  if c =? 0 then Ok w
  else match n with
  | O => Fault OutOfFuel
  | S n =>
      '(usCharOffsetX, w) ← text_char t c usCharOffsetX w;
      text_loop t n (u16 (usCharIndex + 1)) usCharOffsetX w
  end.

Definition Draw_Text (d : DISPLAY_DRIVER_STRUCT) (t : DRAW_TEXT_STRUCT) (w : W) : res W :=
  if accelerated d ACCELERATED_TEXT then Driver_Control DISPLAY_EVENT_TEXT None w
  else text_loop t fuel 0 0 w.

End draw.

(** [ucTempOffsetX + 1] of one character, as [Draw_TextWidth] adds it up. *)
Definition char_advance (f : FONT_STRUCT) (c : Z) : res Z :=
  let usArrayIndex := char_address f c in
  _ ← Font_ReadByte usArrayIndex (pucCharData f);
  ucTempOffsetX ← Font_ReadByte (u16 (usArrayIndex + 1)) (pucCharData f);
  Ok (ucTempOffsetX + 1).

Fixpoint width_loop (t : DRAW_TEXT_STRUCT) (n : nat) (usCharIndex usReturn : Z) : res Z :=
  c ← aget (pucString t) usCharIndex;
  if c =? 0 then Ok usReturn
  else match n with
  | O => Fault OutOfFuel
  | S n =>
      a ← char_advance (pstFont t) c;
      width_loop t n (u16 (usCharIndex + 1)) (u16 (usReturn + a))
  end.

Definition Draw_TextWidth (fuel : nat) (t : DRAW_TEXT_STRUCT) : res Z := width_loop t fuel 0 0.

(** ** Fonts *)

(** The comparison loop of [Font_Load] from index [ucStrIndex]: the last
    character of the font name read, the index, and [bNameMatch].  [char]
    values are bytes, names being ASCII. *)
Fixpoint name_loop (n : nat) (name szFontName_ : list Z) (ucStrIndex : Z) : res (Z * Z * bool) :=
  ucTemp ← aget name ucStrIndex;
  if ucTemp =? 0 then Ok (ucTemp, ucStrIndex, true)
  else
    c ← aget szFontName_ ucStrIndex;
    if c =? 0 then Ok (ucTemp, ucStrIndex, true)
    else if negb (ucTemp =? c) then Ok (ucTemp, ucStrIndex, false)
    else match n with
    | O => Fault OutOfFuel
    | S n => name_loop n name szFontName_ (u8 (ucStrIndex + 1))
    end.

Definition font_matches (fuel : nat) (f : FONT_STRUCT) (szFontName_ : list Z)
    (ucFontWidth_ ucFlags_ : Z) : res bool :=
  '(ucTemp, ucStrIndex, bNameMatch) ← name_loop fuel (szFontName f) szFontName_ 0;
  c ← aget szFontName_ ucStrIndex;
  if negb (ucTemp =? c) then Ok false
  else Ok (bNameMatch && (ucSize f =? ucFontWidth_) && (ucFlags_ =? ucFlags f)).

Fixpoint font_loop (fuel : nat) (g_astFonts : list FONT_STRUCT) (szFontName_ : list Z)
    (ucFontWidth_ ucFlags_ : Z) (idx : list Z) : res Z :=
  match idx with
  | [] => Ok 0
  | i :: idx =>
      f ← aget g_astFonts i;
      b ← font_matches fuel f szFontName_ ucFontWidth_ ucFlags_;
      if b : bool then Ok i else font_loop fuel g_astFonts szFontName_ ucFontWidth_ ucFlags_ idx
  end.

(** The index of the chosen font in the table of font_table.c. *)
Definition Font_Load (fuel : nat) (g_astFonts : list FONT_STRUCT) (szFontName_ : list Z)
    (ucFontWidth_ ucFlags_ : Z) : res Z :=
  font_loop fuel g_astFonts szFontName_ ucFontWidth_ ucFlags_ (seqZ 0 3).

(** ** Loops *)

Lemma for_u16_range {S} cond fuel lo hi (body : Z → S → res S) s :
  0 <= lo → hi <= 65535 → (Z.to_nat (hi - lo) <= fuel)%nat →
  (∀ i, lo <= i → cond i = (i <? hi)) →
  for_u16 cond fuel lo body s = forM (seqZ lo (hi - lo)) body s.
Proof.
  intros Hlo Hhi. revert lo s Hlo.
  induction fuel as [|fuel IH]; intros lo s Hlo Hf Hc; cbn [for_u16]; rewrite (Hc lo) by lia.
  - destruct (Z.ltb_spec lo hi); [lia|]. by rewrite seqZ_nil by lia.
  - destruct (Z.ltb_spec lo hi); [|by rewrite seqZ_nil by lia].
    rewrite seqZ_cons by lia. cbn [forM]. destruct (body lo s) as [s'|]; [|done]. rewrite !bind_ok.
    rewrite u16_small by lia. rewrite IH; [|lia..|intros; apply Hc; lia].
    do 2 f_equal; lia.
Qed.

Lemma for_u16_lt {S} fuel lo hi (body : Z → S → res S) s :
  0 <= lo → hi <= 65535 → 65535 <= Z.of_nat fuel →
  for_u16 (λ i, i <? hi) fuel lo body s = forM (seqZ lo (hi - lo)) body s.
Proof. intros. apply for_u16_range; [lia..|done]. Qed.

Lemma for_u16_le {S} fuel lo hi (body : Z → S → res S) s :
  0 <= lo → hi < 65535 → 65535 <= Z.of_nat fuel →
  for_u16 (λ i, i <=? hi) fuel lo body s = forM (seqZ lo (hi + 1 - lo)) body s.
Proof.
  intros. apply for_u16_range; [lia..|]. intros i _.
  destruct (Z.leb_spec i hi), (Z.ltb_spec i (hi + 1)); lia.
Qed.

(** A loop whose condition holds for every USHORT never ends. *)
Lemma for_u16_endless {S} cond fuel i (body : Z → S → res S) s :
  0 <= i <= 65535 → (∀ i, 0 <= i <= 65535 → cond i = true) → (∀ i s, ∃ s', body i s = Ok s') →
  for_u16 cond fuel i body s = Fault OutOfFuel.
Proof.
  intros Hi Hc Hb. revert i s Hi.
  induction fuel as [|fuel IH]; intros i s Hi; cbn [for_u16]; rewrite Hc by lia; [done|].
  destruct (Hb i s) as [s' ->]. rewrite bind_ok. apply IH. pose proof (u16_range (i + 1)). lia.
Qed.

Lemma for_s16_le {S} fuel lo hi (body : Z → S → res S) s :
  0 <= lo → hi < 32767 → (Z.to_nat (hi + 1 - lo) <= fuel)%nat →
  for_s16 (λ i, i <=? hi) fuel lo body s = forM (seqZ lo (hi + 1 - lo)) body s.
Proof.
  intros Hlo Hhi. revert lo s Hlo.
  induction fuel as [|fuel IH]; intros lo s Hlo Hf; cbn [for_s16].
  - destruct (Z.leb_spec lo hi); [lia|]. by rewrite seqZ_nil by lia.
  - destruct (Z.leb_spec lo hi); [|by rewrite seqZ_nil by lia].
    rewrite seqZ_cons by lia. cbn [forM]. destruct (body lo s) as [s'|]; [|done]. rewrite !bind_ok.
    rewrite int16_ok by lia. rewrite bind_ok, IH by lia. do 2 f_equal; lia.
Qed.

(** A loop over a list of loops is a loop over the concatenation. *)
Lemma forM_nested {A B S} (l : list A) (g : A → list B) (h : B → S → res S) s :
  forM l (λ a, forM (g a) h) s = forM (l ≫= g) h s.
Proof.
  revert s. induction l as [|a l IH]; intros s; [done|].
  cbn [forM]. cbn [mbind list_bind]. rewrite forM_app.
  destruct (forM (g a) h s); [apply IH|done].
Qed.

Lemma forM_fmap {A B S} (l : list A) (g : A → B) (h : B → S → res S) s :
  forM (g <$> l) h s = forM l (λ a, h (g a)) s.
Proof.
  revert s. induction l as [|a l IH]; intros s; [done|].
  cbn. destruct (h (g a) s); [apply IH|done].
Qed.

(** ** Lines *)

(** The integer nearest to [num / den], halves rounded up. *)
Definition nearest (num den : Z) : Z := (2 * num + den) / (2 * den).

(** The [i]-th point of the line from [(x1, y1)] to [(x2, y2)]: one step per
    point along the axis of the larger difference, on the other axis the
    point nearest to the ideal line. *)
Definition line_point (x1 y1 x2 y2 i : Z) : Z * Z :=
  let dx := Z.abs (x2 - x1) in
  let dy := Z.abs (y2 - y1) in
  let sx := if x2 - x1 <? 0 then -1 else 1 in
  let sy := if y2 - y1 <? 0 then -1 else 1 in
  if dy <? dx then (x1 + sx * i, y1 + sy * nearest (dy * i) dx)
  else (x1 + sx * nearest (dx * i) dy, y1 + sy * i).

Definition line_points (x1 y1 x2 y2 : Z) : list (Z * Z) :=
  line_point x1 y1 x2 y2 <$> seqZ 0 (Z.abs (x2 - x1) `max` Z.abs (y2 - y1) + 1).

Lemma nearest_spec num den : 0 < den →
  2 * den * nearest num den <= 2 * num + den < 2 * den * (nearest num den + 1).
Proof.
  intros. unfold nearest. pose proof (Z.div_mod (2 * num + den) (2 * den)).
  pose proof (Z.mod_pos_bound (2 * num + den) (2 * den)). lia.
Qed.

Lemma nearest_unique num den q :
  0 < den → 2 * den * q <= 2 * num + den < 2 * den * (q + 1) → nearest num den = q.
Proof.
  intros ? []. unfold nearest. symmetry.
  apply Z.div_unique with (2 * num + den - 2 * den * q); lia.
Qed.

Lemma nearest_range db da k : 0 <= db → 0 <= k <= da → 0 < da → 0 <= nearest (db * k) da <= db.
Proof.
  intros. pose proof (nearest_spec (db * k) da ltac:(lia)) as [L1 L2].
  assert (0 <= db * k <= db * da) by (split; [lia|apply Z.mul_le_mono_nonneg_l; lia]).
  set (q := nearest (db * k) da) in *. split.
  - assert (0 < 2 * da * (q + 1)) by lia. nia.
  - assert (da * (2 * (q - db)) <= da * 1) by lia. nia.
Qed.

(** The decision variable of the loop: its sign decides on the step, and it
    stays within the range of a SHORT. *)
Definition fraction (da db k : Z) : Z := 2 * db * (k + 1) - da - 2 * da * nearest (db * k) da.

Lemma fraction_range da db k :
  0 <= db <= da → 0 < da → - 2 * da + 2 * db <= fraction da db k < 2 * db.
Proof. intros. pose proof (nearest_spec (db * k) da). unfold fraction. lia. Qed.

Lemma nearest_next da db k : 0 <= db <= da → 0 < da →
  nearest (db * (k + 1)) da
  = if 0 <=? fraction da db k then nearest (db * k) da + 1 else nearest (db * k) da.
Proof.
  intros. pose proof (nearest_spec (db * k) da). pose proof (fraction_range da db k) as Hf.
  destruct (Z.leb_spec 0 (fraction da db k)); unfold fraction in *; apply nearest_unique; lia.
Qed.

Lemma line_loop_points {W} (plot : Z → Z → W → res W) (m : nat) n a0 b0 sa sb da db (k : Z) w :
  (sa = 1 ∨ sa = -1) → (sb = 1 ∨ sb = -1) →
  0 <= db <= da → da <= 16383 → 0 <= k → k + Z.of_nat m = da → (m <= n)%nat →
  0 <= a0 <= 32767 → 0 <= a0 + sa * da <= 32767 → 0 <= b0 <= 32767 → 0 <= b0 + sb * db <= 32767 →
  line_loop plot n (a0 + sa * k) (b0 + sb * nearest (db * k) da) (a0 + sa * da) sa sb
    (da * 2) (db * 2) (fraction da db k) w
  = forM (seqZ (k + 1) (Z.of_nat m))
      (λ i, plot (a0 + sa * i) (b0 + sb * nearest (db * i) da)) w.
Proof.
  intros Hsa Hsb Hdb Hda Hk. revert k n w Hk.
  induction m as [|m IH]; intros k n w Hk Hm Hf Ha Ha' Hb Hb'.
  { assert (k = da) as -> by lia. destruct n; cbn [line_loop]; by rewrite Z.eqb_refl. }
  destruct n as [|n]; [lia|]. cbn [line_loop].
  destruct (Z.eqb_spec (a0 + sa * k) (a0 + sa * da)) as [E|_]; [lia|].
  pose proof (nearest_range db da k). pose proof (nearest_range db da (k + 1)) as Hr.
  pose proof (fraction_range da db k). pose proof (fraction_range da db (k + 1)).
  rewrite (nearest_next da db k) in Hr by lia.
  rewrite seqZ_cons'. cbn [forM]. rewrite (nearest_next da db k) by lia.
  assert (fraction da db (k + 1) = fraction da db k + db * 2
    - (if 0 <=? fraction da db k then da * 2 else 0)) as Hfr.
  { unfold fraction at 1. rewrite (nearest_next da db k) by lia.
    unfold fraction at 2. destruct (0 <=? fraction da db k); unfold fraction; lia. }
  destruct (Z.leb_spec 0 (fraction da db k)).
  all: rewrite !int16_ok by lia; rewrite !bind_ok.
  all: rewrite !int16_ok by lia; rewrite !bind_ok.
  all: rewrite !u16_small by lia.
  all: replace (a0 + sa * k + sa) with (a0 + sa * (k + 1)) by lia.
  1: replace (b0 + sb * nearest (db * k) da + sb) with (b0 + sb * (nearest (db * k) da + 1)) by lia.
  all: destruct (plot _ _ w) as [w'|]; [rewrite !bind_ok|done].
  all: rewrite <- (IH (k + 1) n w') by lia; rewrite (nearest_next da db k), Hfr by lia.
  all: destruct (Z.leb_spec 0 (fraction da db k)); try lia; f_equal; lia.
Qed.

Lemma nearest_0 den : 0 <= den → nearest 0 den = 0.
Proof.
  intros. destruct (decide (den = 0)) as [->|]; [done|]. apply nearest_unique; lia.
Qed.

Lemma nearest_full db da : 0 < da → nearest (db * da) da = db.
Proof. intros. apply nearest_unique; lia. Qed.

Lemma line_point_0 x1 y1 x2 y2 : line_point x1 y1 x2 y2 0 = (x1, y1).
Proof.
  unfold line_point. rewrite !Z.mul_0_r, !nearest_0 by lia.
  destruct (_ <? _); f_equal; lia.
Qed.

Lemma line_points_cons x1 y1 x2 y2 :
  line_points x1 y1 x2 y2 =
  (x1, y1) :: (line_point x1 y1 x2 y2 <$> seqZ 1 (Z.abs (x2 - x1) `max` Z.abs (y2 - y1))).
Proof.
  unfold line_points. rewrite seqZ_cons, fmap_cons, line_point_0 by lia.
  by rewrite Z.add_1_r, Z.pred_succ.
Qed.

Lemma line_points_last x1 y1 x2 y2 : last (line_points x1 y1 x2 y2) = Some (x2, y2).
Proof.
  unfold line_points. set (m := Z.abs (x2 - x1) `max` Z.abs (y2 - y1)).
  rewrite seqZ_app, fmap_app by lia. rewrite (seqZ_cons _ 1), (seqZ_nil _ (Z.pred 1)) by lia.
  cbn [fmap list_fmap]. rewrite last_snoc. unfold line_point.
  destruct (_ <? _) eqn:E; zb.
  - replace (0 + m) with (Z.abs (x2 - x1)) by lia. rewrite nearest_full by lia.
    do 2 f_equal; destruct (_ <? _) eqn:?; zb; lia.
  - replace (0 + m) with (Z.abs (y2 - y1)) by lia.
    destruct (decide (y2 = y1)) as [->|].
    { assert (x2 = x1) as -> by lia. rewrite !Z.sub_diag. cbn. rewrite nearest_0 by lia.
      do 2 f_equal; lia. }
    rewrite nearest_full by lia. do 2 f_equal; destruct (_ <? _) eqn:?; zb; lia.
Qed.

(** The loop of the line, started as [Draw_Line] starts it. *)
Lemma line_loop_start {W} (plot : Z → Z → W → res W) n a1 b1 a2 b2 w :
  0 <= a1 <= 32767 → 0 <= a2 <= 32767 → 0 <= b1 <= 32767 → 0 <= b2 <= 32767 →
  Z.abs (b2 - b1) <= Z.abs (a2 - a1) <= 16383 → Z.abs (a2 - a1) <= Z.of_nat n →
  let sa := if a2 - a1 <? 0 then -1 else 1 in
  let sb := if b2 - b1 <? 0 then -1 else 1 in
  let da := Z.abs (a2 - a1) in
  let db := Z.abs (b2 - b1) in
  line_loop plot n a1 b1 a2 sa sb (da * 2) (db * 2) (db * 2 - da) w
  = forM (seqZ 1 da) (λ i, plot (a1 + sa * i) (b1 + sb * nearest (db * i) da)) w.
Proof.
  intros ????? Hn sa sb da db.
  assert ((sa = 1 ∨ sa = -1) ∧ a1 + sa * da = a2) as [].
  { unfold sa, da. destruct (Z.ltb_spec (a2 - a1) 0); lia. }
  assert ((sb = 1 ∨ sb = -1) ∧ b1 + sb * db = b2) as [].
  { unfold sb, db. destruct (Z.ltb_spec (b2 - b1) 0); lia. }
  clearbody sa sb.
  pose proof (line_loop_points plot (Z.to_nat da) n a1 b1 sa sb da db 0 w) as L.
  unfold fraction in L. rewrite !Z.mul_0_r, nearest_0 in L by lia.
  rewrite !Z.add_0_r, Z2Nat.id in L by lia. rewrite !Z.add_0_l in L.
  replace (2 * db * 1 - da - 0) with (db * 2 - da) in L by lia.
  rewrite <- L by lia. f_equal; lia.
Qed.

Lemma abs_and_step v : -32767 <= v <= 32767 →
  (if v <? 0 then x ← int16 (- v); Ok (x, -1) else Ok (v, 1))
  = Ok (Z.abs v, if v <? 0 then -1 else 1).
Proof.
  intros. destruct (Z.ltb_spec v 0); [rewrite int16_ok by lia|]; cbn; do 2 f_equal; lia.
Qed.

(** C34: [Draw_Line] without hardware support ends, does not overflow, and
    draws exactly the points nearest to the ideal line, one for each step
    along the longer axis, from the first end point to the second, for all
    coordinates of the positive SHORT range at most 16383 apart. *)
Theorem Draw_Line_bresenham {W} pix ctl fuel d l (w : W) :
  accelerated d ACCELERATED_LINE = false →
  0 <= usX1 l <= 32767 → 0 <= usX2 l <= 32767 → 0 <= usY1 l <= 32767 → 0 <= usY2 l <= 32767 →
  Z.abs (usX2 l - usX1 l) <= 16383 → Z.abs (usY2 l - usY1 l) <= 16383 → 16383 <= Z.of_nat fuel →
  let pts := line_points (usX1 l) (usY1 l) (usX2 l) (usY2 l) in
  Draw_Line pix ctl fuel d l w = forM pts (λ '(x, y), pix (mkPoint x y (ln_uColor l))) w ∧
  head pts = Some (usX1 l, usY1 l) ∧ last pts = Some (usX2 l, usY2 l).
Proof.
  intros Hacc ??????? pts. split; [|split; [|apply line_points_last]];
    unfold pts; rewrite line_points_cons; [|done].
  unfold Draw_Line. rewrite Hacc. cbv zeta. rewrite !s16_small, !u16_small by lia.
  rewrite !int16_ok by lia. rewrite !bind_ok.
  rewrite !abs_and_step by lia. rewrite !bind_ok. rewrite !int16_ok by lia. rewrite !bind_ok.
  cbn [forM]. destruct (pix _ w) as [w'|]; [rewrite !bind_ok|done].
  rewrite forM_fmap. unfold line_point.
  rewrite !Z.shiftr_div_pow2 by lia. change (2 ^ 1) with 2. rewrite !Z.div_mul by lia.
  destruct (Z.ltb_spec (Z.abs (usY2 l - usY1 l) * 2) (Z.abs (usX2 l - usX1 l) * 2));
    destruct (Z.ltb_spec (Z.abs (usY2 l - usY1 l)) (Z.abs (usX2 l - usX1 l))); try lia;
    rewrite int16_ok, bind_ok, line_loop_start by lia;
    rewrite ?Z.max_l, ?Z.max_r by lia; done.
Qed.

(** ** A frame buffer as display *)

Abbreviation FRAME := (gmap (Z * Z) Z).

Definition frame_pixel (p : DRAW_POINT_STRUCT) (w : FRAME) : res FRAME :=
  Ok (<[(pt_usX p, pt_usY p) := pt_uColor p]> w).

Definition no_control (e : DISPLAY_EVENT) (o : option DRAW_OBJECT) (w : FRAME) : res FRAME := Ok w.

Lemma Draw_Line_bresenham_witness :
  Draw_Line frame_pixel no_control (Z.to_nat 16383) (mkDisplay 10 10 2 0) (mkLine 0 4 2 0 7) ∅
  = forM [(0, 2); (1, 1); (2, 1); (3, 0); (4, 0)] (λ '(x, y), frame_pixel (mkPoint x y 7)) ∅.
Proof.
  destruct (Draw_Line_bresenham frame_pixel no_control (Z.to_nat 16383) (mkDisplay 10 10 2 0)
    (mkLine 0 4 2 0 7) (∅ : FRAME)) as [H _]; [reflexivity|cbn; lia..|].
  rewrite H. vm_compute. reflexivity.
Defined.

(** A list of points in one colour on top of a picture. *)
Definition paint (c : Z) (pts : list (Z * Z)) (w : FRAME) : FRAME :=
  foldl (λ w p, <[p := c]> w) w pts.

Lemma forM_frame {A} (l : list A) (g : A → Z * Z) c w :
  forM l (λ a, frame_pixel (mkPoint (g a).1 (g a).2 c)) w = Ok (paint c (g <$> l) w).
Proof.
  revert w. induction l as [|a l IH]; intros w; [done|].
  cbn. rewrite IH. by destruct (g a).
Qed.

Lemma lookup_paint c pts w q :
  paint c pts w !! q = if decide (q ∈ pts) then Some c else w !! q.
Proof.
  revert w. induction pts as [|p pts IH]; intros w; [done|].
  cbn [paint foldl]. change (foldl _ ?a pts) with (paint c pts a). rewrite IH.
  destruct (decide (q = p)) as [->|Hne].
  - rewrite lookup_insert_eq. rewrite (decide_True (P := p ∈ p :: pts)) by set_solver.
    by destruct (decide _).
  - rewrite lookup_insert_ne by done.
    destruct (decide (q ∈ pts)); [rewrite decide_True by set_solver|rewrite decide_False by set_solver]; done.
Qed.

(** The points of a rectangle of columns and rows. *)
Definition area (x0 nx y0 ny : Z) : list (Z * Z) :=
  x ← seqZ x0 nx; (λ y, (x, y)) <$> seqZ y0 ny.

Lemma elem_of_area x0 nx y0 ny x y :
  (x, y) ∈ area x0 nx y0 ny ↔ x0 <= x < x0 + nx ∧ y0 <= y < y0 + ny.
Proof.
  unfold area. rewrite list_elem_of_bind. split.
  - intros (x' & (y' & Heq & ?%elem_of_seqZ)%list_elem_of_fmap & ?%elem_of_seqZ).
    injection Heq as -> ->. lia.
  - intros []. exists x. split; [|by apply elem_of_seqZ].
    apply list_elem_of_fmap. exists y. split; [done|by apply elem_of_seqZ].
Qed.

Lemma elem_of_row (c x0 nx x y : Z) :
  (x, y) ∈ (λ a, (a, c)) <$> seqZ x0 nx ↔ y = c ∧ x0 <= x < x0 + nx.
Proof. rewrite list_elem_of_fmap, <- elem_of_seqZ. naive_solver. Qed.

Lemma elem_of_column (c y0 ny x y : Z) :
  (x, y) ∈ (λ b, (c, b)) <$> seqZ y0 ny ↔ x = c ∧ y0 <= y < y0 + ny.
Proof. rewrite list_elem_of_fmap, <- elem_of_seqZ. naive_solver. Qed.

(** Nested loops over columns and rows are a loop over the points. *)
Lemma forM_area {S} x0 nx y0 ny (h : Z → Z → S → res S) s :
  forM (seqZ x0 nx) (λ x, forM (seqZ y0 ny) (h x)) s
  = forM (area x0 nx y0 ny) (λ p, h p.1 p.2) s.
Proof.
  unfold area. rewrite <- forM_nested. apply forM_ext. intros x s'. by rewrite forM_fmap.
Qed.

(** Clearing visits every pixel of the screen once, column by column, and
    leaves a black screen. *)
Theorem Draw_ClearScreen_black (fuel : nat) (d : DISPLAY_DRIVER_STRUCT) (w : FRAME) :
  accelerated d ACCELERATED_CLEAR = false →
  0 <= usResX d <= 65535 → 0 <= usResY d <= 65535 → 65535 <= Z.of_nat fuel →
  ∃ w', Draw_ClearScreen frame_pixel no_control fuel d w = Ok w' ∧
    ∀ x y, w' !! (x, y) =
      if decide (0 <= x < usResX d ∧ 0 <= y < usResY d) then Some 0 else w !! (x, y).
Proof.
  intros Hacc ? ? ?. unfold Draw_ClearScreen. rewrite Hacc, for_u16_lt by lia.
  erewrite forM_ext by (intros; apply for_u16_lt; lia).
  rewrite forM_area, (forM_frame _ id). eexists. split; [done|]. intros x y.
  rewrite lookup_paint, list_fmap_id. apply decide_ext. rewrite elem_of_area. lia.
Qed.

(** [Draw_Rectangle] without hardware support ends and leaves exactly the
    requested picture in a frame buffer: the line colour on the four edges,
    the fill colour inside when filling is asked for, every other pixel as
    it was.  The right and bottom coordinates must be below 65535. *)
Theorem Draw_Rectangle_picture (fuel : nat) (d : DISPLAY_DRIVER_STRUCT) (r : DRAW_RECTANGLE_STRUCT) (w : FRAME) :
  accelerated d ACCELERATED_RECTANGLE = false →
  0 <= usLeft r <= usRight r → usRight r < 65535 →
  0 <= usTop r <= usBottom r → usBottom r < 65535 → 65535 <= Z.of_nat fuel →
  ∃ w', Draw_Rectangle frame_pixel no_control fuel d r w = Ok w' ∧
    ∀ x y, w' !! (x, y) =
      if decide (usLeft r <= x <= usRight r ∧ usTop r <= y <= usBottom r) then
        if decide (x = usLeft r ∨ x = usRight r ∨ y = usTop r ∨ y = usBottom r)
        then Some (rc_uLineColor r)
        else if rc_bFill r =? 1 then Some (rc_uFillColor r) else w !! (x, y)
      else w !! (x, y).
Proof.
  intros Hacc ? ? ? ? ?. unfold Draw_Rectangle. rewrite Hacc. cbv zeta.
  set (fill := if rc_bFill r =? 1 then _ else Ok w).
  assert (∃ w1, fill = Ok w1 ∧ ∀ x y, w1 !! (x, y) =
    if decide (usLeft r <= x <= usRight r ∧ usTop r <= y <= usBottom r)
    then if rc_bFill r =? 1 then Some (rc_uFillColor r) else w !! (x, y)
    else w !! (x, y)) as (w1 & -> & Hw1).
  { unfold fill. destruct (rc_bFill r =? 1); [|eexists; split; [done|intros; by case_decide]].
    rewrite for_u16_le by lia. erewrite forM_ext by (intros; apply for_u16_le; lia).
    rewrite forM_area, (forM_frame _ id). eexists. split; [done|]. intros x y.
    rewrite lookup_paint, list_fmap_id. apply decide_ext. rewrite elem_of_area. lia. }
  rewrite bind_ok. rewrite !for_u16_le by lia.
  rewrite (forM_frame _ (λ x, (x, usTop r))), bind_ok. rewrite for_u16_le by lia.
  rewrite (forM_frame _ (λ x, (x, usBottom r))), bind_ok. rewrite for_u16_le by lia.
  rewrite (forM_frame _ (λ y, (usLeft r, y))), bind_ok. rewrite for_u16_le by lia.
  rewrite (forM_frame _ (λ y, (usRight r, y))). eexists. split; [done|].
  intros x y. rewrite !lookup_paint, Hw1.
  repeat case_decide; rewrite ?elem_of_row, ?elem_of_column in *; done || (exfalso; lia).
Qed.

Lemma Draw_Rectangle_picture_witness :
  ∃ w', Draw_Rectangle frame_pixel no_control (Z.to_nat 65535) (mkDisplay 10 10 2 0)
      (mkRectangle 1 1 3 4 5 1 6) ∅ = Ok w' ∧
    w' !! (2, 4) = Some 5 ∧ w' !! (2, 2) = Some 6 ∧ w' !! (4, 2) = None.
Proof.
  destruct (Draw_Rectangle_picture (Z.to_nat 65535) (mkDisplay 10 10 2 0) (mkRectangle 1 1 3 4 5 1 6) ∅)
    as (w' & H & Hw); [reflexivity|cbn; lia..|].
  exists w'. split; [exact H|]. rewrite !Hw. repeat split; vm_compute; reflexivity.
Defined.

(** A rectangle that reaches column 65535 is never finished: the counter
    wraps to 0 before the loop condition can fail. *)
Theorem Draw_Rectangle_endless (fuel : nat) (d : DISPLAY_DRIVER_STRUCT) (r : DRAW_RECTANGLE_STRUCT) (w : FRAME) :
  accelerated d ACCELERATED_RECTANGLE = false → rc_bFill r = 0 →
  0 <= usLeft r <= 65535 → usRight r = 65535 →
  Draw_Rectangle frame_pixel no_control fuel d r w = Fault OutOfFuel.
Proof.
  intros Hacc Hf ? Hr. unfold Draw_Rectangle. rewrite Hacc, Hf, Hr. cbv zeta.
  change (0 =? 1) with false. cbv iota. rewrite bind_ok.
  rewrite for_u16_endless; [done|lia|intros; lia|]. intros. by eexists.
Qed.

(** ** Circles *)

Lemma paint_app c l1 l2 w : paint c (l1 ++ l2) w = paint c l2 (paint c l1 w).
Proof. apply foldl_app. Qed.

(** The points [quadrants] draws around the centre [(cx, cx)]. *)
Definition corner_points (cx x y : Z) : list (Z * Z) :=
  [(cx + x, cx + y); (cx - x, cx + y); (cx + x, cx - y); (cx - x, cx - y)].

Lemma quadrants_frame cx x y c w :
  0 <= x <= cx → 0 <= y <= cx → cx + x < 65536 → cx + y < 65536 →
  quadrants frame_pixel cx x y c w = Ok (paint c (corner_points cx x y) w).
Proof. intros. unfold quadrants. by rewrite !u16_small by lia. Qed.

Lemma elem_of_corners cx x y px py : 0 <= x → 0 <= y →
  (px, py) ∈ corner_points cx x y ↔ Z.abs (px - cx) = x ∧ Z.abs (py - cx) = y.
Proof.
  intros. unfold corner_points. rewrite !elem_of_cons, elem_of_nil.
  rewrite !pair_eq. lia.
Qed.

(** What one turn of the circle loops does to a frame. *)
Definition circle_cell (c : DRAW_CIRCLE_STRUCT) (w : FRAME) (p : Z * Z) : FRAME :=
  let '(x, y) := p in
  let r := usRadius c in
  let w := if (ci_bFill c =? 1) && (x * x + y * y <=? r * r)
           then paint (ci_uFillColor c) (corner_points (ci_usX c) x y) w else w in
  if (r * r - r <=? x * x + y * y) && (x * x + y * y <=? r * r + r)
  then paint (ci_uLineColor c) (corner_points (ci_usX c) x y) w else w.

Lemma square_bound a r : 0 <= a <= r → r <= 32766 → 0 <= a * a <= 1073610756.
Proof. intros. split; [lia|]. transitivity (32766 * 32766); [apply Z.mul_le_mono_nonneg; lia|lia]. Qed.

Lemma Draw_Circle_cells (fuel : nat) d c w :
  accelerated d ACCELERATED_CIRCLE = false →
  0 <= usRadius c <= 32766 → usRadius c <= ci_usX c → ci_usX c + usRadius c < 65536 →
  32767 <= Z.of_nat fuel →
  Draw_Circle frame_pixel no_control fuel d c w
  = Ok (foldl (circle_cell c) w (area 0 (usRadius c + 1) 0 (usRadius c + 1))).
Proof.
  intros Hacc ? ? ? ?. unfold Draw_Circle. rewrite Hacc. cbv zeta.
  rewrite s16_small, for_s16_le by lia.
  erewrite forM_ext by (intros; apply for_s16_le; lia).
  rewrite (forM_area 0 _ 0 _ (λ x y w, _)). rewrite !Z.sub_0_r. apply forM_total.
  intros [x y] w' Hin%elem_of_area. cbn [fst snd]. unfold circle_cell.
  pose proof (square_bound x (usRadius c)). pose proof (square_bound y (usRadius c)).
  pose proof (square_bound (usRadius c) (usRadius c)).
  assert (usRadius c <= usRadius c * usRadius c) by nia.
  rewrite (u32_small x), (u32_small y) by lia.
  rewrite (u32_small (x * x)), (u32_small (y * y)), (u32_small (_ * usRadius c)) by lia.
  rewrite !u32_small by lia. rewrite !quadrants_frame by lia.
  destruct ((ci_bFill c =? 1) && _); rewrite bind_ok; rewrite ?quadrants_frame by lia;
    by destruct (_ && _).
Qed.

(** The colour a circle gives the points at distances [x] and [y] from the
    axes through its centre. *)
Definition circle_color (c : DRAW_CIRCLE_STRUCT) (x y : Z) : option Z :=
  let r := usRadius c in
  if decide (Z.abs (x * x + y * y - r * r) <= r) then Some (ci_uLineColor c)
  else if decide (ci_bFill c = 1 ∧ x * x + y * y <= r * r) then Some (ci_uFillColor c)
  else None.

(** A colour drawn over what was there. *)
Definition on_top (o old : option Z) : option Z :=
  match o with Some k => Some k | None => old end.

Lemma lookup_circle_cell c w x y px py : 0 <= x → 0 <= y →
  circle_cell c w (x, y) !! (px, py)
  = if decide (Z.abs (px - ci_usX c) = x ∧ Z.abs (py - ci_usX c) = y)
    then on_top (circle_color c x y) (w !! (px, py)) else w !! (px, py).
Proof.
  intros Hx Hy. unfold circle_cell, circle_color. set (q := x * x + y * y).
  set (r := usRadius c).
  pose proof (elem_of_corners (ci_usX c) x y px py Hx Hy) as He.
  destruct (Z.leb_spec (r * r - r) q), (Z.leb_spec q (r * r + r)), (Z.eqb_spec (ci_bFill c) 1),
    (Z.leb_spec q (r * r)); cbn [andb]; rewrite ?lookup_paint;
    repeat case_decide; cbn; try done; exfalso; (tauto || lia).
Qed.

Lemma lookup_circle_cells c l w px py :
  (∀ p, p ∈ l → 0 <= p.1 ∧ 0 <= p.2) →
  let x := Z.abs (px - ci_usX c) in
  let y := Z.abs (py - ci_usX c) in
  foldl (circle_cell c) w l !! (px, py)
  = if decide ((x, y) ∈ l) then on_top (circle_color c x y) (w !! (px, py)) else w !! (px, py).
Proof.
  intros Hl x y. revert w. induction l as [|[a b] l IH]; intros w; [done|].
  cbn [foldl]. rewrite IH by set_solver.
  destruct (Hl (a, b)) as [Ha Hb]; [set_solver|]. rewrite lookup_circle_cell by done.
  fold x y. destruct (decide (x = a ∧ y = b)) as [[<- <-]|Hne].
  - rewrite (decide_True (P := (x, y) ∈ (x, y) :: l)) by set_solver.
    destruct (circle_color c x y); cbn; by case_decide.
  - rewrite (decide_ext ((x, y) ∈ (a, b) :: l) ((x, y) ∈ l)); [done|].
    rewrite elem_of_cons, pair_eq. tauto.
Qed.

(** [Draw_Circle] without hardware support ends without overflow and, in a
    frame buffer, gives the line colour to exactly the pixels whose squared
    distance from the centre differs from the squared radius by at most the
    radius, the fill colour to the other pixels inside when filling is asked
    for, and leaves the rest alone; the centre is [(usX, usX)], for the code
    uses the X coordinate for both axes. *)
Theorem Draw_Circle_picture (fuel : nat) (d : DISPLAY_DRIVER_STRUCT) (c : DRAW_CIRCLE_STRUCT) (w : FRAME) :
  accelerated d ACCELERATED_CIRCLE = false →
  0 <= usRadius c <= 32766 → usRadius c <= ci_usX c → ci_usX c + usRadius c < 65536 →
  32767 <= Z.of_nat fuel →
  ∃ w', Draw_Circle frame_pixel no_control fuel d c w = Ok w' ∧
    ∀ px py, w' !! (px, py) =
      let x := px - ci_usX c in
      let y := py - ci_usX c in
      if decide (Z.abs x <= usRadius c ∧ Z.abs y <= usRadius c)
      then on_top (circle_color c x y) (w !! (px, py)) else w !! (px, py).
Proof.
  intros. rewrite Draw_Circle_cells by done. eexists. split; [done|]. intros px py.
  rewrite lookup_circle_cells by (intros [] ?%elem_of_area; cbn; lia). cbv zeta.
  assert (∀ a b, circle_color c (Z.abs a) (Z.abs b) = circle_color c a b) as Habs.
  { intros a b. unfold circle_color. by rewrite !Z.abs_square. }
  rewrite Habs. apply decide_ext. rewrite elem_of_area. lia.
Qed.

(** ** Text *)

Section text.
Context {W : Type} (pix : DRAW_POINT_STRUCT → W → res W)
  (ctl : DISPLAY_EVENT → option DRAW_OBJECT → W → res W) (fuel : nat).

(** The rows of one character with its left edge in column [x]. *)
Definition glyph (t : DRAW_TEXT_STRUCT) (c x : Z) (w : W) : res W :=
  let f := pstFont t in
  usCharOffsetY ← Font_ReadByte (char_address f c) (pucCharData f);
  '(_, _, w) ←
    for_u16 (λ y, y <? u16 (usCharOffsetY + tx_usY t + ucFontHeight f)) fuel
        (u16 (usCharOffsetY + tx_usY t)) (λ usY s,
      '(usArrayIndex, ucBitIndex, w) ←
        for_u16 (λ x', x' <=? u16 (x + ucFontWidth f)) fuel x
          (λ usX, text_pixel pix f (tx_uColor t) usY usX) s;
      if negb (ucBitIndex =? 0) then Ok (u16 (usArrayIndex + 1), 0, w)
      else Ok (usArrayIndex, ucBitIndex, w))
      (u16 (u16 (char_address f c + 1) + 1), 0, w);
  Ok w.

Lemma text_char_glyph t c off w :
  text_char pix fuel t c off w =
  (a ← char_advance (pstFont t) c;
   w ← glyph t c (u16 (off + tx_usX t)) w;
   Ok (u16 (off + a), w)).
Proof.
  unfold text_char, char_advance, glyph.
  replace (u16 (u16 (off + tx_usX t) + ucFontWidth (pstFont t)))
    with (u16 (off + tx_usX t + ucFontWidth (pstFont t)))
    by (unfold u16; by rewrite Zplus_mod_idemp_l).
  destruct (Font_ReadByte (char_address (pstFont t) c) _) as [oy|]; [rewrite !bind_ok|done].
  destruct (Font_ReadByte _ _) as [a|]; [rewrite !bind_ok|done].
  destruct (for_u16 _ _ _ _ _) as [[[i b] w']|]; done.
Qed.

(** The characters of a string drawn one after the other from column [x]. *)
Fixpoint text_rec (t : DRAW_TEXT_STRUCT) (s : list Z) (x : Z) (w : W) : res W :=
  match s with
  | [] => Fault OutOfBounds
  | c :: s =>
      if c =? 0 then Ok w
      else
        a ← char_advance (pstFont t) c;
        w ← glyph t c x w;
        text_rec t s (u16 (x + a)) w
  end.

Fixpoint width_rec (f : FONT_STRUCT) (s : list Z) (r : Z) : res Z :=
  match s with
  | [] => Fault OutOfBounds
  | c :: s => if c =? 0 then Ok r else a ← char_advance f c; width_rec f s (u16 (r + a))
  end.

Lemma aget_end {A} (l : list A) : aget l (Z.of_nat (length l)) = Fault OutOfBounds.
Proof. unfold aget. rewrite decide_True, Nat2Z.id, lookup_ge_None_2 by lia. done. Qed.

Lemma text_loop_rec t n pre suf off w :
  pucString t = pre ++ suf → Z.of_nat (length (pre ++ suf)) < 65536 → (length suf <= n)%nat →
  text_loop pix fuel t n (Z.of_nat (length pre)) off w
  = text_rec t suf (u16 (off + tx_usX t)) w.
Proof.
  intros Ht Hlen. revert n pre off w Ht Hlen.
  induction suf as [|c suf IH]; intros n pre off w Ht Hlen Hn.
  { destruct n; cbn [text_loop text_rec]; by rewrite Ht, app_nil_r, aget_end. }
  destruct n as [|n]; [cbn in Hn; lia|]. cbn [text_loop text_rec].
  rewrite Ht, aget_app, bind_ok. destruct (c =? 0); [done|]. rewrite text_char_glyph.
  destruct (char_advance _ c) as [a|]; [rewrite !bind_ok|done].
  destruct (glyph t c _ w) as [w'|]; [rewrite !bind_ok|done].
  rewrite length_app in Hlen. cbn in Hlen, Hn. rewrite u16_small by lia.
  replace (Z.of_nat (length pre) + 1) with (Z.of_nat (length (pre ++ [c])))
    by (rewrite length_app; cbn; lia).
  rewrite IH; [|by rewrite <- app_assoc|rewrite <- app_assoc, length_app; cbn; lia|lia].
  f_equal. unfold u16. rewrite !Zplus_mod_idemp_l. f_equal. lia.
Qed.

Lemma width_loop_rec t n pre suf r :
  pucString t = pre ++ suf → Z.of_nat (length (pre ++ suf)) < 65536 → (length suf <= n)%nat →
  width_loop t n (Z.of_nat (length pre)) r = width_rec (pstFont t) suf r.
Proof.
  intros Ht Hlen. revert n pre r Ht Hlen.
  induction suf as [|c suf IH]; intros n pre r Ht Hlen Hn.
  { destruct n; cbn [width_loop width_rec]; by rewrite Ht, app_nil_r, aget_end. }
  destruct n as [|n]; [cbn in Hn; lia|]. cbn [width_loop width_rec].
  rewrite Ht, aget_app, bind_ok. destruct (c =? 0); [done|].
  destruct (char_advance _ c) as [a|]; [rewrite !bind_ok|done].
  rewrite length_app in Hlen. cbn in Hlen, Hn. rewrite u16_small by lia.
  replace (Z.of_nat (length pre) + 1) with (Z.of_nat (length (pre ++ [c])))
    by (rewrite length_app; cbn; lia).
  apply IH; [by rewrite <- app_assoc|rewrite <- app_assoc, length_app; cbn; lia|lia].
Qed.

(** The text object with another string and column. *)
Definition with_string (t : DRAW_TEXT_STRUCT) (s : list Z) (x : Z) : DRAW_TEXT_STRUCT :=
  mkText x (tx_usY t) (pstFont t) s (tx_uColor t).

Lemma text_rec_with t s0 x0 s x w : text_rec (with_string t s0 x0) s x w = text_rec t s x w.
Proof.
  revert x w. induction s as [|c s IH]; intros x w; [done|]. cbn [text_rec].
  destruct (c =? 0); [done|]. destruct (char_advance _ c); [|done].
  change (glyph (with_string t s0 x0) c x w) with (glyph t c x w).
  destruct (glyph t c x w); [|done]. apply IH.
Qed.

Lemma Draw_Text_rec d t s x w :
  accelerated d ACCELERATED_TEXT = false → 0 <= x < 65536 →
  Z.of_nat (length s) < 65536 → (length s <= fuel)%nat →
  Draw_Text pix ctl fuel d (with_string t s x) w = text_rec t s x w.
Proof.
  intros Hacc Hx Hs Hf. unfold Draw_Text. rewrite Hacc.
  rewrite (text_loop_rec (with_string t s x) fuel [] s) by done.
  rewrite text_rec_with. cbn. by rewrite u16_small.
Qed.

Lemma text_rec_app t s1 s2 x r r' w : Forall (λ c, c ≠ 0) s1 →
  width_rec (pstFont t) (s1 ++ [0]) r = Ok r' → 0 <= x < 65536 →
  text_rec t (s1 ++ s2) x w
  = text_rec t (s1 ++ [0]) x w ≫= text_rec t s2 (u16 (x + (r' - r))).
Proof.
  intros Hs. revert x r w.
  induction Hs as [|c s1 Hc Hs IH]; intros x r w Hr Hx; cbn [app text_rec width_rec] in *.
  - injection Hr as <-. cbn. rewrite Z.sub_diag, Z.add_0_r. by rewrite u16_small.
  - destruct (Z.eqb_spec c 0); [done|]. destruct (char_advance _ c) as [a|]; [|done].
    rewrite bind_ok in *. rewrite !bind_ok. destruct (glyph t c x w) as [w'|]; [|done]. rewrite !bind_ok.
    rewrite (IH _ (u16 (r + a)) w' Hr) by apply u16_range.
    replace (u16 (u16 (x + a) + (r' - u16 (r + a)))) with (u16 (x + (r' - r))); [done|].
    unfold u16. dlia.
Qed.

(** Drawing a string is drawing its first part and then the rest moved to
    the right by what [Draw_TextWidth] answers for the first part: the width
    function and the drawing function agree on the advance of every
    character, for every font and pixel function. *)
Theorem Draw_Text_append d t s1 s2 x width w :
  accelerated d ACCELERATED_TEXT = false → Forall (λ c, c ≠ 0) s1 → 0 <= x < 65536 →
  Z.of_nat (length (s1 ++ s2)) < 65535 → 65536 <= Z.of_nat fuel →
  Draw_TextWidth fuel (with_string t (s1 ++ [0]) x) = Ok width →
  Draw_Text pix ctl fuel d (with_string t (s1 ++ s2) x) w
  = Draw_Text pix ctl fuel d (with_string t (s1 ++ [0]) x) w
    ≫= Draw_Text pix ctl fuel d (with_string t s2 (u16 (x + width))).
Proof.
  intros Hacc Hs Hx Hlen Hf Hw. rewrite length_app in Hlen.
  unfold Draw_TextWidth in Hw.
  rewrite (width_loop_rec (with_string t (s1 ++ [0]) x) fuel [] (s1 ++ [0])) in Hw
    by (done || (cbn [app]; rewrite length_app; simpl length; lia)). cbn in Hw.
  rewrite !Draw_Text_rec by (done || (cbn [app]; rewrite length_app; simpl length; lia)).
  rewrite (text_rec_app t s1 s2 x 0 width w Hs Hw Hx).
  destruct (text_rec t (s1 ++ [0]) x w) as [w'|]; [|done]. rewrite !bind_ok.
  rewrite Draw_Text_rec; [by rewrite Z.sub_0_r|done|apply u16_range|lia..].
Qed.

(** The width of a string is the sum of the advances of its characters. *)
Theorem Draw_TextWidth_sum t s x adv :
  Forall2 (λ c a, c ≠ 0 ∧ char_advance (pstFont t) c = Ok a) s adv →
  Z.of_nat (length s) < 65535 → 65536 <= Z.of_nat fuel →
  Draw_TextWidth fuel (with_string t (s ++ [0]) x) = Ok (u16 (foldr Z.add 0 adv)).
Proof.
  intros Hs Hlen Hf. unfold Draw_TextWidth.
  rewrite (width_loop_rec (with_string t (s ++ [0]) x) fuel [] (s ++ [0]))
    by (done || (cbn [app]; rewrite length_app; simpl length; lia)).
  cbn [pstFont with_string]. clear Hlen.
  enough (∀ r, 0 <= r < 65536 →
    width_rec (pstFont t) (s ++ [0]) r = Ok (u16 (r + foldr Z.add 0 adv))) as He.
  { rewrite He by lia. done. }
  induction Hs as [|c a s adv [Hc Ha] Hs IH]; intros r Hr; cbn [app width_rec foldr].
  - cbn. by rewrite Z.add_0_r, u16_small.
  - destruct (Z.eqb_spec c 0); [done|]. rewrite Ha, bind_ok, IH by apply u16_range.
    f_equal. unfold u16. rewrite Zplus_mod_idemp_l. f_equal. lia.
Qed.
End text.

(** A font of two glyphs of one row each, the second two pixels wide. *)
Definition example_text : DRAW_TEXT_STRUCT :=
  mkText 0 3 (mkFont [70; 0] 8 0 1 1 65 2 [0; 1; 1; 0; 2; 3]) [] 9.

Lemma Draw_Text_append_witness :
  Draw_Text frame_pixel no_control (Z.to_nat 65536) (mkDisplay 20 20 2 0)
    (with_string example_text ([65; 66] ++ [65; 0]) 4) ∅
  = Draw_Text frame_pixel no_control (Z.to_nat 65536) (mkDisplay 20 20 2 0)
      (with_string example_text ([65; 66] ++ [0]) 4) ∅
    ≫= Draw_Text frame_pixel no_control (Z.to_nat 65536) (mkDisplay 20 20 2 0)
      (with_string example_text [65; 0] (u16 (4 + 5))).
Proof.
  apply Draw_Text_append; [reflexivity| |lia|cbn; lia|lia|vm_compute; reflexivity].
  repeat constructor; discriminate.
Defined.

(** ** Bitmaps *)

(** A 16-bit pixel, split into its colours as [Draw_Bitmap] does and put
    together again for the display. *)
Definition convert_565 (v : Z) : Z :=
  RGB_COLOR (Z.shiftr (u8 (Z.shiftl (Z.land (Z.shiftr v 11) 0x001F) 3)) 3)
    (Z.shiftr (u8 (Z.shiftl (Z.land (Z.shiftr v 5) 0x003F) 2)) 2)
    (Z.shiftr (u8 (Z.shiftl (Z.land v 0x001F) 3)) 3).

Lemma convert_565_id v : 0 <= v < 65536 → convert_565 v = v.
Proof.
  intros Hv. unfold convert_565, RGB_COLOR.
  change 0x001F with (Z.ones 5). change 0x003F with (Z.ones 6). rewrite !Z.land_ones by lia.
  rewrite !Z.shiftr_div_pow2 by lia. rewrite !Z.shiftl_mul_pow2 by lia.
  change (2 ^ 3) with 8. change (2 ^ 2) with 4. change (2 ^ 5) with 32. change (2 ^ 6) with 64.
  change (2 ^ 11) with 2048.
  set (r := (v / 2048) mod 32). set (g := (v / 32) mod 64). set (b := v mod 32).
  assert (0 <= r < 32 ∧ 0 <= g < 64 ∧ 0 <= b < 32 ∧ v = r * 2048 + g * 32 + b) as (? & ? & ? & E)
    by (unfold r, g, b; dlia).
  clearbody r g b. subst v.
  rewrite !u8_small, !Z.div_mul by lia. rewrite !(Z.mod_small _ 32), (Z.mod_small _ 64) by lia.
  rewrite !u16_small by lia.
  change (g * 32) with (g * 2 ^ 5). change (r * 2048) with (r * 2 ^ 11).
  rewrite <- !Z.shiftl_mul_pow2 by lia.
  rewrite (lor_shift b) by lia. rewrite lor_shift by lia. rewrite !Z.shiftl_mul_pow2 by lia. lia.
Qed.

(** The 16-bit pixel of two bytes, the first one on top. *)
Lemma pixel_bytes v0 v1 : 0 <= v0 < 256 → 0 <= v1 < 256 →
  Z.lor (u16 (Z.shiftl v0 8)) v1 = v0 * 256 + v1.
Proof.
  intros. rewrite u16_small by (rewrite Z.shiftl_mul_pow2; lia).
  rewrite Z.lor_comm, lor_shift by lia. lia.
Qed.

(** Where the inner loops of a picture of [nc] columns and [nr] rows are:
    the [k]-th pixel, row by row. *)
Definition raster (x0 nc y0 nr : Z) : list (Z * Z) :=
  y ← seqZ y0 nr; (λ x, (y, x)) <$> seqZ x0 nc.

Lemma forM_raster {S} x0 nc y0 nr (h : Z → Z → S → res S) s :
  forM (seqZ y0 nr) (λ y, forM (seqZ x0 nc) (h y)) s
  = forM (raster x0 nc y0 nr) (λ p, h p.1 p.2) s.
Proof. apply forM_area. Qed.

Lemma length_raster x0 nc y0 nr : 0 <= nc → 0 <= nr →
  Z.of_nat (length (raster x0 nc y0 nr)) = nr * nc.
Proof.
  intros. unfold raster. revert y0. pattern nr. apply natlike_ind; [intros y0; by rewrite (seqZ_nil y0 0) by lia| |done].
  intros z Hz IH y0. rewrite (seqZ_cons y0) by lia. cbn [mbind list_bind].
  rewrite length_app, length_fmap, length_seqZ, Nat2Z.inj_add. rewrite Z.pred_succ, IH. lia.
Qed.

(** The data of a picture of 16-bit pixels. *)
Definition bytes_565 (colors : list Z) : list Z := c ← colors; [c / 256; c mod 256].

Lemma length_bytes_565 colors : length (bytes_565 colors) = (2 * length colors)%nat.
Proof.
  induction colors as [|c l IH]; [done|].
  change (bytes_565 (c :: l)) with (c / 256 :: c mod 256 :: bytes_565 l). cbn [length]. lia.
Qed.

Lemma bitmap_rgb_565 b pre c suf old :
  bm_ucBPP b = 2 → bm_pucData b = bytes_565 (pre ++ c :: suf) → 0 <= c < 65536 →
  2 * Z.of_nat (length pre) + 1 < 65536 →
  ∃ R G B, bitmap_rgb b (2 * Z.of_nat (length pre)) old = Ok (Some (R, G, B)) ∧
    RGB_COLOR (Z.shiftr R 3) (Z.shiftr G 2) (Z.shiftr B 3) = c.
Proof.
  intros Hb Hdata Hc Hlen. unfold bitmap_rgb. rewrite Hb. cbn [Z.eqb Pos.eqb].
  unfold bytes_565 in Hdata. rewrite bind_app in Hdata. fold (bytes_565 pre) in Hdata.
  rewrite Hdata. cbn [mbind list_bind app].
  replace (2 * Z.of_nat (length pre)) with (Z.of_nat (length (bytes_565 pre)))
    by (rewrite length_bytes_565; lia).
  rewrite aget_app, bind_ok.
  rewrite cons_middle, app_assoc.
  assert (u16 (Z.of_nat (length (bytes_565 pre)) + 1)
    = Z.of_nat (length (bytes_565 pre ++ [c / 256]))) as ->
    by (rewrite length_app, length_bytes_565, u16_small; cbn [length]; lia).
  rewrite aget_app, bind_ok. rewrite pixel_bytes by dlia.
  replace (c / 256 * 256 + c mod 256) with c by dlia.
  do 3 eexists. split; [done|]. by apply convert_565_id.
Qed.

Lemma bitmap_pixels {W} (pix : DRAW_POINT_STRUCT → W → res W) d b pre cs ps rgb w :
  ucBPP d = 2 → bm_ucBPP b = 2 → bm_pucData b = bytes_565 (pre ++ cs) →
  Forall (λ c, 0 <= c < 65536) cs → 2 * Z.of_nat (length (pre ++ cs)) <= 65535 →
  length ps = length cs →
  ('(_, _, w) ← forM ps (λ p, bitmap_pixel pix d b p.1 p.2) (2 * Z.of_nat (length pre), rgb, w); Ok w)
  = forM (zip ps cs) (λ '((y, x), c), pix (mkPoint x y c)) w.
Proof.
  intros Hd Hb Hdata Hcs. revert pre ps rgb w Hdata.
  induction Hcs as [|c cs Hc Hcs IH]; intros pre ps rgb w Hdata Hlen Hps.
  { destruct ps; [done|discriminate]. }
  destruct ps as [|[y x] ps]; [discriminate|]. injection Hps as Hps. cbn [forM zip zip_with].
  rewrite length_app in Hlen. cbn [length] in Hlen.
  destruct (bitmap_rgb_565 b pre c cs rgb) as (R & G & B & Hrgb & Hcol); [done..|lia|].
  assert (bitmap_pixel pix d b y x (2 * Z.of_nat (length pre), rgb, w)
    = (w' ← pix (mkPoint x y c) w;
       Ok (2 * Z.of_nat (length (pre ++ [c])), Some (Z.shiftr R 3, Z.shiftr G 2, Z.shiftr B 3), w'))) as E.
  { unfold bitmap_pixel. rewrite Hrgb, bind_ok, Hcol, Hd, u16_small, length_app by lia.
    cbn [length]. by replace (2 * Z.of_nat (length pre) + 2) with (2 * Z.of_nat (length pre + 1)) by lia. }
  cbn [fst snd]. rewrite E. destruct (pix _ w) as [w'|]; [rewrite !bind_ok|done].
  apply IH; [by rewrite <- app_assoc|rewrite !length_app; cbn; lia|done].
Qed.

(** [Draw_Bitmap] without hardware support draws every pixel of a 16-bit
    picture on a 16-bit display unchanged, row by row: the colour of the
    [k]-th pixel is the big-endian value of the bytes [2k] and [2k + 1]. *)
Theorem Draw_Bitmap_565 {W} pix ctl fuel d b (colors : list Z) (w : W) :
  accelerated d ACCELERATED_BITMAP = false → ucBPP d = 2 → bm_ucBPP b = 2 →
  0 <= bm_usX b → 0 <= bm_usWidth b → bm_usX b + bm_usWidth b <= 65535 →
  0 <= bm_usY b → 0 <= bm_usHeight b → bm_usY b + bm_usHeight b <= 65535 →
  Z.of_nat (length colors) = bm_usHeight b * bm_usWidth b →
  2 * Z.of_nat (length colors) <= 65535 →
  bm_pucData b = bytes_565 colors → Forall (λ c, 0 <= c < 65536) colors →
  65535 <= Z.of_nat fuel →
  Draw_Bitmap pix ctl fuel d b w
  = forM (zip (raster (bm_usX b) (bm_usWidth b) (bm_usY b) (bm_usHeight b)) colors)
      (λ '((y, x), c), pix (mkPoint x y c)) w.
Proof.
  intros Hacc Hd Hb ???????? Hdata Hcol ?. unfold Draw_Bitmap. rewrite Hacc.
  rewrite !u16_small by lia. rewrite for_u16_lt by lia.
  erewrite forM_ext by (intros; apply for_u16_lt; lia). rewrite forM_raster.
  rewrite !Z.add_simpl_l. apply (bitmap_pixels pix d b [] colors); [done..|cbn [app]; lia|].
  apply Nat2Z.inj. rewrite length_raster by lia. lia.
Qed.

(** ** Stamps *)

(** Bit [k] of the packed data, the low bit of a byte first. *)
Definition stamp_bit (data : list Z) (k : Z) : bool :=
  Z.testbit (default 0 (data !! Z.to_nat (k / 8))) (k mod 8).

Lemma land_bit v k : 0 <= k → negb (Z.land v (2 ^ k) =? 0) = Z.testbit v k.
Proof.
  intros Hk. destruct (Z.testbit v k) eqn:E.
  - destruct (Z.eqb_spec (Z.land v (2 ^ k)) 0) as [H|]; [|done].
    apply (f_equal (λ z, Z.testbit z k)) in H.
    by rewrite Z.land_spec, E, Z.pow2_bits_true, Z.bits_0 in H.
  - destruct (Z.eqb_spec (Z.land v (2 ^ k)) 0) as [|H]; [done|]. exfalso. apply H.
    apply Z.bits_inj'. intros n Hn. rewrite Z.land_spec, Z.pow2_bits_eqb, Z.bits_0 by done.
    destruct (Z.eqb_spec k n) as [->|]; [by rewrite E|apply andb_false_r].
Qed.

Section stamp.
Context {W : Type} (pix : DRAW_POINT_STRUCT → W → res W)
  (ctl : DISPLAY_EVENT → option DRAW_OBJECT → W → res W) (st : DRAW_STAMP_STRUCT).

Definition stamp_point (y x k : Z) (w : W) : res W :=
  if stamp_bit (st_pucData st) k then pix (mkPoint x y (st_uColor st)) w else Ok w.

Lemma stamp_pixel_bit y x k w :
  0 <= k < 8 * Z.of_nat (length (st_pucData st)) → Z.of_nat (length (st_pucData st)) <= 65535 →
  stamp_pixel pix st y x (2 ^ (k mod 8), k / 8, w)
  = (w ← stamp_point y x k w; Ok (2 ^ ((k + 1) mod 8), (k + 1) / 8, w)).
Proof.
  intros Hk Hl. unfold stamp_pixel, stamp_point, stamp_bit.
  assert (Z.to_nat (k / 8) < length (st_pucData st))%nat as [v Hv]%lookup_lt_is_Some_2 by dlia.
  rewrite <- (Z2Nat.id (k / 8)) at 1 by dlia. rewrite (aget_some _ _ _ Hv), bind_ok, Hv.
  cbn [default]. rewrite land_bit by dlia.
  destruct (if Z.testbit _ _ then _ else Ok w) as [w'|]; [rewrite !bind_ok|done].
  rewrite Z.shiftl_mul_pow2 by lia. 
  assert (k mod 8 = 7 ∧ (k + 1) mod 8 = 0 ∧ (k + 1) / 8 = k / 8 + 1 ∨
          0 <= k mod 8 < 7 ∧ (k + 1) mod 8 = k mod 8 + 1 ∧ (k + 1) / 8 = k / 8)
    as [(-> & -> & ->)|(Hm & -> & ->)] by dlia.
  - change (u16 (2 ^ 7 * 2 ^ 1) =? 256) with true. cbv iota. by rewrite u16_small by dlia.
  - rewrite Z.pow_add_r by lia. change (2 ^ 1) with 2.
    assert (2 ^ (k mod 8) < 2 ^ 7) by (apply Z.pow_lt_mono_r; lia).
    pose proof (Z.pow_pos_nonneg 2 (k mod 8)). rewrite u16_small by lia.
    destruct (Z.eqb_spec (2 ^ (k mod 8) * 2) 0x100); [lia|done].
Qed.

Lemma stamp_row y x n k w :
  0 <= k → k + Z.of_nat n <= 8 * Z.of_nat (length (st_pucData st)) →
  Z.of_nat (length (st_pucData st)) <= 65535 →
  forM (seqZ x (Z.of_nat n)) (stamp_pixel pix st y) (2 ^ (k mod 8), k / 8, w)
  = (w ← forM (seqZ x (Z.of_nat n)) (λ x', stamp_point y x' (k + (x' - x))) w;
     Ok (2 ^ ((k + Z.of_nat n) mod 8), (k + Z.of_nat n) / 8, w)).
Proof.
  revert x k w. induction n as [|n IH]; intros x k w Hk Hn Hl.
  { cbn. by rewrite Z.add_0_r. }
  rewrite seqZ_cons'. cbn [forM]. rewrite stamp_pixel_bit, Z.sub_diag, Z.add_0_r by lia.
  destruct (stamp_point y x k w) as [w'|]; [rewrite !bind_ok|done]. rewrite IH by lia.
  replace (k + 1 + Z.of_nat n) with (k + Z.of_nat (S n)) by lia.
  erewrite (forM_ext _ (λ x' : Z, stamp_point y x' (k + 1 + (x' - (x + 1))))); [done|].
  intros a s. cbv beta. f_equal. lia.
Qed.

Lemma stamp_rows (fuel : nat) y0 r nr w :
  0 <= r → 0 <= st_usX st → 0 <= st_usWidth st → st_usX st + st_usWidth st <= 65535 →
  8 * ((r + Z.of_nat nr - 1) * (st_usWidth st / 8)) + st_usWidth st
    <= 8 * Z.of_nat (length (st_pucData st)) →
  Z.of_nat (length (st_pucData st)) <= 65535 → 65535 <= Z.of_nat fuel →
  forM (seqZ (y0 + r) (Z.of_nat nr)) (λ usRow '(usIndex, w),
    '(_, usIndex, w) ←
      for_u16 (λ c, c <? st_usX st + st_usWidth st) fuel (st_usX st)
        (stamp_pixel pix st usRow) (1, usIndex, w);
    Ok (usIndex, w)) (r * (st_usWidth st / 8), w)
  = (w ← forM (seqZ (y0 + r) (Z.of_nat nr)) (λ y, forM (seqZ (st_usX st) (st_usWidth st))
           (λ x, stamp_point y x (8 * ((y - y0) * (st_usWidth st / 8)) + (x - st_usX st)))) w;
     Ok ((r + Z.of_nat nr) * (st_usWidth st / 8), w)).
Proof.
  set (n := st_usWidth st). intros Hr Hx Hn Hxn. revert r w Hr.
  induction nr as [|nr IH]; intros r w Hr Hlen Hl Hf.
  { cbn. by rewrite Z.add_0_r. }
  rewrite seqZ_cons'. cbn [forM]. rewrite for_u16_lt, Z.add_simpl_l by lia.
  pose proof (stamp_row (y0 + r) (st_usX st) (Z.to_nat n) (8 * (r * (n / 8))) w) as Hrow.
  rewrite Z2Nat.id in Hrow by lia.
  replace ((8 * (r * (n / 8))) mod 8) with 0 in Hrow by dlia.
  replace (8 * (r * (n / 8)) / 8) with (r * (n / 8)) in Hrow by dlia.
  assert (0 <= n / 8) by dlia. assert (0 <= r * (n / 8)) by (apply Z.mul_nonneg_nonneg; lia).
  assert (r * (n / 8) <= (r + Z.of_nat (S nr) - 1) * (n / 8)) by (apply Z.mul_le_mono_nonneg_r; lia).
  change (2 ^ 0) with 1 in Hrow. rewrite Hrow by lia.
  replace (y0 + r - y0) with r by lia.
  destruct (forM (seqZ (st_usX st) n) _ w) as [w'|]; [rewrite !bind_ok|done].
  replace ((8 * (r * (n / 8)) + n) / 8) with ((r + 1) * (n / 8)) by dlia.
  replace (y0 + r + 1) with (y0 + (r + 1)) by lia. rewrite IH by lia.
  by replace (r + 1 + Z.of_nat nr) with (r + Z.of_nat (S nr)) by lia.
Qed.

(** [Draw_Stamp] without hardware support draws, in the colour of the
    stamp, exactly the pixels whose bit is set, and row [r] takes its bits
    from byte [r * (width / 8)] on, the low bit of a byte first.  Rows have
    bytes of their own exactly when the width is a multiple of 8. *)
Theorem Draw_Stamp_bits (fuel : nat) d w :
  accelerated d ACCELERATED_BITMAP = false →
  0 <= st_usX st → 0 <= st_usWidth st → st_usX st + st_usWidth st <= 65535 →
  0 <= st_usY st → 0 <= st_usHeight st → st_usY st + st_usHeight st <= 65535 →
  8 * ((st_usHeight st - 1) * (st_usWidth st / 8)) + st_usWidth st
    <= 8 * Z.of_nat (length (st_pucData st)) →
  Z.of_nat (length (st_pucData st)) <= 65535 → 65535 <= Z.of_nat fuel →
  Draw_Stamp pix ctl fuel d st w
  = forM (raster (st_usX st) (st_usWidth st) (st_usY st) (st_usHeight st)) (λ '(y, x) w,
      if stamp_bit (st_pucData st)
           (8 * ((y - st_usY st) * (st_usWidth st / 8)) + (x - st_usX st))
      then pix (mkPoint x y (st_uColor st)) w else Ok w) w.
Proof.
  intros Hacc ?????????. unfold Draw_Stamp. rewrite Hacc. rewrite !u16_small by lia.
  rewrite for_u16_lt, Z.add_simpl_l by lia.
  pose proof (stamp_rows fuel (st_usY st) 0 (Z.to_nat (st_usHeight st)) w) as Hrows.
  rewrite Z2Nat.id, Z.add_0_r, Z.add_0_l, Z.mul_0_l in Hrows by lia.
  rewrite Hrows by lia. rewrite forM_raster.
  match goal with |- (?F ≫= _) ≫= _ = _ => transitivity F; [by destruct F|] end.
  apply forM_ext. by intros [].
Qed.
End stamp.

(** ** Where the drawing code departs from its intent *)

Lemma bitmap_pixel_uninit {W} (pix : DRAW_POINT_STRUCT → W → res W) d b y x i w :
  bm_ucBPP b ∉ [1; 2; 3] → bitmap_pixel pix d b y x (i, None, w) = Fault Uninit.
Proof.
  rewrite !not_elem_of_cons. intros (? & ? & ? & _). unfold bitmap_pixel, bitmap_rgb.
  by rewrite !(proj2 (Z.eqb_neq _ _)).
Qed.

(** A bitmap with a pixel size other than 1, 2 or 3 bytes is drawn from
    colour variables that were never assigned. *)
Theorem Draw_Bitmap_bad_size_uninit {W} pix ctl fuel d b (w : W) :
  accelerated d ACCELERATED_BITMAP = false → bm_ucBPP b ∉ [1; 2; 3] →
  0 <= bm_usX b → 0 < bm_usWidth b → bm_usX b + bm_usWidth b <= 65535 →
  0 <= bm_usY b → 0 < bm_usHeight b → bm_usY b + bm_usHeight b <= 65535 →
  65535 <= Z.of_nat fuel → Draw_Bitmap pix ctl fuel d b w = Fault Uninit.
Proof.
  intros Hacc Hb ???????. unfold Draw_Bitmap. rewrite Hacc. rewrite !u16_small by lia.
  rewrite for_u16_lt by lia. erewrite forM_ext by (intros; apply for_u16_lt; lia).
  rewrite !Z.add_simpl_l. rewrite (seqZ_cons (bm_usY b)), (seqZ_cons (bm_usX b)) by lia.
  cbn [forM]. by rewrite bitmap_pixel_uninit.
Qed.

(** The top bit of red of an 8-bit pixel is shifted out: full red (0xE0)
    arrives as 24 of 31. *)
Example Draw_Bitmap_red_323 :
  bitmap_rgb (mkBitmap 0 0 1 1 1 [0xE0]) 0 None = Ok (Some (0xC0, 0, 0)).
Proof. reflexivity. Qed.

(** A 24-bit picture on a 16-bit display advances by the pixel size of the
    display: the second pixel is read from the middle of the first. *)
Example Draw_Bitmap_24_on_16 :
  Draw_Bitmap frame_pixel no_control (Z.to_nat 65536) (mkDisplay 2 1 2 0)
    (mkBitmap 0 0 2 1 3 [0xFF; 0x00; 0x00; 0x00; 0xFF; 0x00]) ∅
  = Ok (list_to_map [((0, 0), RGB_COLOR 31 0 0); ((1, 0), RGB_COLOR 0 0 31)]).
Proof. vm_compute. reflexivity. Qed.

(** ** Fonts *)

(** The comparison of [Font_Load] from index [length pre] on is equality of
    the rest of the two names. *)
Lemma name_compare n pre a b :
  Forall (λ c, c ≠ 0) a → Forall (λ c, c ≠ 0) b → (length a <= n)%nat →
  Z.of_nat (length pre + length a) < 256 →
  ('(t, i, m) ← name_loop n (pre ++ a ++ [0]) (pre ++ b ++ [0]) (Z.of_nat (length pre));
   c ← aget (pre ++ b ++ [0]) i; Ok ((t =? c) && m)) = Ok (bool_decide (a = b)).
Proof.
  intros Ha. revert n pre b. induction Ha as [|x a Hx Ha IH]; intros n pre b Hb Hn Hl.
  - destruct n; cbn [name_loop app]; rewrite aget_app, bind_ok; cbn [Z.eqb];
      destruct Hb as [|y b Hy]; cbn [app]; rewrite bind_ok, aget_app, bind_ok; cbn; [done| |done|];
      destruct y; done.
  - destruct n as [|n]; [cbn in Hn; lia|]. cbn [name_loop app]. rewrite aget_app, bind_ok.
    destruct (Z.eqb_spec x 0); [done|].
    destruct Hb as [|y b Hy Hb]; cbn [app]; rewrite aget_app, bind_ok; cbn [Z.eqb].
    { rewrite bind_ok, aget_app, bind_ok. destruct x; done. }
    destruct (Z.eqb_spec y 0); [done|].
    destruct (Z.eqb_spec x y) as [->|Hxy]; cbn [negb].
    2: { rewrite bind_ok, aget_app, bind_ok. rewrite (proj2 (Z.eqb_neq x y)) by done. cbn.
         rewrite bool_decide_eq_false_2; [done|congruence]. }
    cbn [length] in Hn, Hl. rewrite u8_small by lia.
    replace (Z.of_nat (length pre) + 1) with (Z.of_nat (length (pre ++ [y])))
      by (rewrite length_app; cbn; lia).
    specialize (IH n (pre ++ [y]) b Hb).
    rewrite <- !app_assoc in IH. cbn [app] in IH.
    rewrite IH; [|lia|rewrite length_app; cbn; lia].
    f_equal. apply bool_decide_ext. naive_solver.
Qed.

Lemma font_matches_spec fuel f name sz width flags :
  szFontName f = name ++ [0] → Forall (λ c, c ≠ 0) name → Forall (λ c, c ≠ 0) sz →
  Z.of_nat (length name) < 256 → (length name <= fuel)%nat →
  font_matches fuel f (sz ++ [0]) width flags
  = Ok (bool_decide (name = sz ∧ ucSize f = width ∧ ucFlags f = flags)).
Proof.
  intros Hf Hn Hs Hl Hfuel. pose proof (name_compare fuel [] name sz Hn Hs Hfuel Hl) as Hc.
  unfold font_matches. rewrite Hf. cbn [app length] in Hc.
  change (Z.of_nat 0) with 0 in Hc.
  destruct (name_loop _ _ _ 0) as [[[t i] m]|]; [rewrite bind_ok in *|done].
  destruct (aget (sz ++ [0]) i) as [c|]; [rewrite bind_ok in *|done].
  injection Hc as Hc. destruct (t =? c); cbn [negb andb] in *.
  - subst m. f_equal. destruct (Z.eqb_spec (ucSize f) width), (Z.eqb_spec flags (ucFlags f)),
      (bool_decide_reflect (name = sz)); cbn; symmetry;
      (apply bool_decide_eq_true || apply bool_decide_eq_false); naive_solver.
  - symmetry in Hc. apply bool_decide_eq_false in Hc. f_equal. symmetry.
    apply bool_decide_eq_false. naive_solver.
Qed.

(** A zero-terminated name in the font table. *)
Definition font_named (f : FONT_STRUCT) (name : list Z) : Prop :=
  szFontName f = name ++ [0] ∧ Forall (λ c, c ≠ 0) name ∧ Z.of_nat (length name) < 256.

(** [Font_Load] answers the first of the three fonts of the table with the
    requested name, size and flags, and the first font when there is none. *)
Theorem Font_Load_finds fuel fonts names sz width flags :
  Forall2 font_named fonts names → length fonts = 3%nat → Forall (λ c, c ≠ 0) sz →
  256 <= Z.of_nat fuel →
  Font_Load fuel fonts (sz ++ [0]) width flags
  = Ok (from_option (λ p, Z.of_nat p.1) 0
      (list_find (λ '(f, name), name = sz ∧ ucSize f = width ∧ ucFlags f = flags) (zip fonts names))).
Proof.
  intros Hn Hlen Hs Hf. destruct Hn as [|f0 n0 ? ? (E0 & Z0 & L0) Hn]; [done|].
  destruct Hn as [|f1 n1 ? ? (E1 & Z1 & L1) Hn]; [done|].
  destruct Hn as [|f2 n2 ? ? (E2 & Z2 & L2) Hn]; [done|]. destruct Hn; [|done].
  unfold Font_Load. change (seqZ 0 3) with [0; 1; 2]. cbn [font_loop].
  change (aget [f0; f1; f2] 0) with (Ok f0). change (aget [f0; f1; f2] 1) with (Ok f1).
  change (aget [f0; f1; f2] 2) with (Ok f2). rewrite !bind_ok.
  rewrite (font_matches_spec fuel f0 n0), (font_matches_spec fuel f1 n1),
    (font_matches_spec fuel f2 n2) by (done || lia).
  rewrite !bind_ok. cbn [zip zip_with list_find].
  repeat (case_bool_decide; case_decide; cbn; try done).
Qed.

End Draw.
