(* ===== verification/FunkFat32.v ===== *)
(** * FunkOS: FAT file system driver (drivers/fat32/drvFAT32.c)

    A read-only driver for one file at a time on a FAT16 or FAT32 partition.
    The medium is reached byte by byte through [FAT32_RawReadByte], whose
    hardware side is the parameter [raw].  Sector fields are read through
    casts of byte addresses, on a little-endian processor.  A directory of
    the volume is read record by record, a file as a stream of bytes along
    its chain of clusters. *)
From S2P Require Import Prelude.

Module Fat.
Open Scope Z_scope.

(** ** Data *)

Inductive FAT32_STATE : Type :=
  | FAT32_STATE_UNINIT | FAT32_STATE_MBR_READ | FAT32_STATE_PARTITION_MOUNTED
  | FAT32_STATE_FILE_OPEN.

#[export] Instance FAT32_STATE_eq_dec : EqDecision FAT32_STATE.
Proof. solve_decision. Defined.

(** The numbering of the states, which the code compares. *)
Definition state_num (s : FAT32_STATE) : Z :=
  match s with
  | FAT32_STATE_UNINIT => 0 | FAT32_STATE_MBR_READ => 1
  | FAT32_STATE_PARTITION_MOUNTED => 2 | FAT32_STATE_FILE_OPEN => 3
  end.

Inductive FAT32_COMMAND : Type :=
  | FAT32_CMD_INIT_MEDIA | FAT32_CMD_MOUNT_PARTITION | FAT32_CMD_READ_SECTOR
  | FAT32_CMD_WRITE_SECTOR | FAT32_CMD_READ_NEXT_DIR | FAT32_CMD_SEEK_BEGIN_DIR
  | FAT32_CMD_CHDIR | FAT32_CMD_CHDIR_BACK | FAT32_CMD_CHDIR_ROOT
  | FAT32_CMD_OPEN_FILE_READ | FAT32_CMD_OPEN_FILE_WRITE | FAT32_CMD_CLOSE_FILE.

Inductive FAT32_RETURN_CODE : Type :=
  | FAT32_RETURN_FAIL | FAT32_RETURN_OK | FAT32_READ_ERROR_NO_MEDIA
  | FAT32_INIT_ERROR_NO_PARTITIONS | FAT32_ERROR_WRONG_STATE | FAT32_ERROR_SECTOR_SIZE
  | FAT32_ERROR_FOLDER_TOO_DEEP | FAT32_ERROR_EOF | FAT32_ERROR_NOT_A_DIR
  | FAT32_ERROR_NOT_A_FILE | FAT32_RECORD_UNUSED | FAT32_END_OF_DIRECTORY
  | FAT32_NOT_SUPPORTED.

#[export] Instance FAT32_RETURN_CODE_eq_dec : EqDecision FAT32_RETURN_CODE.
Proof. solve_decision. Defined.

Inductive FAT_MODE : Type := FAT_MODE_16 | FAT_MODE_32.

#[export] Instance FAT_MODE_eq_dec : EqDecision FAT_MODE.
Proof. solve_decision. Defined.

Record FAT32_FILE_STRUCT : Type := mkFile {
  aucFileName : list Z;
  ulHeadFAT : Z;
  ulCurrentFAT : Z;
  ulFileSize : Z;
  ulReadBytes : Z;
  bEOF : bool
}.

Definition set_aucFileName (v : list Z) (r : FAT32_FILE_STRUCT) : FAT32_FILE_STRUCT :=
  mkFile v (ulHeadFAT r) (ulCurrentFAT r) (ulFileSize r) (ulReadBytes r)
    (bEOF r).
Definition set_ulHeadFAT (v : Z) (r : FAT32_FILE_STRUCT) : FAT32_FILE_STRUCT :=
  mkFile (aucFileName r) v (ulCurrentFAT r) (ulFileSize r) (ulReadBytes r)
    (bEOF r).
Definition set_ulCurrentFAT (v : Z) (r : FAT32_FILE_STRUCT) : FAT32_FILE_STRUCT :=
  mkFile (aucFileName r) (ulHeadFAT r) v (ulFileSize r) (ulReadBytes r)
    (bEOF r).
Definition set_ulFileSize (v : Z) (r : FAT32_FILE_STRUCT) : FAT32_FILE_STRUCT :=
  mkFile (aucFileName r) (ulHeadFAT r) (ulCurrentFAT r) v (ulReadBytes r)
    (bEOF r).
Definition set_ulReadBytes (v : Z) (r : FAT32_FILE_STRUCT) : FAT32_FILE_STRUCT :=
  mkFile (aucFileName r) (ulHeadFAT r) (ulCurrentFAT r) (ulFileSize r) v
    (bEOF r).
Definition set_bEOF (v : bool) (r : FAT32_FILE_STRUCT) : FAT32_FILE_STRUCT :=
  mkFile (aucFileName r) (ulHeadFAT r) (ulCurrentFAT r) (ulFileSize r)
    (ulReadBytes r) v.

Record FAT32_DRIVER_STRUCT : Type := mkFat {
  ulSectorsPerFAT : Z;
  ulFATBegin : Z;
  ulFirstCluster : Z;
  ulRootBegin : Z;
  ulClusterOffset : Z;
  usNumReservedSectors : Z;
  ucSectorsPerCluster : Z;
  aucSectorData : list Z;
  ucValidPartitions : Z;
  ucMountedPartition : Z;
  ucDirRecord : Z;
  ucCurrentSector : Z;
  usSectorReadAddr : Z;
  eMode : FAT_MODE;
  eState : FAT32_STATE;
  stFile : FAT32_FILE_STRUCT;
  stFolder : FAT32_FILE_STRUCT
}.

Definition set_ulSectorsPerFAT (v : Z) (r : FAT32_DRIVER_STRUCT) : FAT32_DRIVER_STRUCT :=
  mkFat v (ulFATBegin r) (ulFirstCluster r) (ulRootBegin r) (ulClusterOffset
    r) (usNumReservedSectors r) (ucSectorsPerCluster r) (aucSectorData r)
    (ucValidPartitions r) (ucMountedPartition r) (ucDirRecord r)
    (ucCurrentSector r) (usSectorReadAddr r) (eMode r) (eState r) (stFile r)
    (stFolder r).
Definition set_ulFATBegin (v : Z) (r : FAT32_DRIVER_STRUCT) : FAT32_DRIVER_STRUCT :=
  mkFat (ulSectorsPerFAT r) v (ulFirstCluster r) (ulRootBegin r)
    (ulClusterOffset r) (usNumReservedSectors r) (ucSectorsPerCluster r)
    (aucSectorData r) (ucValidPartitions r) (ucMountedPartition r)
    (ucDirRecord r) (ucCurrentSector r) (usSectorReadAddr r) (eMode r)
    (eState r) (stFile r) (stFolder r).
Definition set_ulFirstCluster (v : Z) (r : FAT32_DRIVER_STRUCT) : FAT32_DRIVER_STRUCT :=
  mkFat (ulSectorsPerFAT r) (ulFATBegin r) v (ulRootBegin r)
    (ulClusterOffset r) (usNumReservedSectors r) (ucSectorsPerCluster r)
    (aucSectorData r) (ucValidPartitions r) (ucMountedPartition r)
    (ucDirRecord r) (ucCurrentSector r) (usSectorReadAddr r) (eMode r)
    (eState r) (stFile r) (stFolder r).
Definition set_ulRootBegin (v : Z) (r : FAT32_DRIVER_STRUCT) : FAT32_DRIVER_STRUCT :=
  mkFat (ulSectorsPerFAT r) (ulFATBegin r) (ulFirstCluster r) v
    (ulClusterOffset r) (usNumReservedSectors r) (ucSectorsPerCluster r)
    (aucSectorData r) (ucValidPartitions r) (ucMountedPartition r)
    (ucDirRecord r) (ucCurrentSector r) (usSectorReadAddr r) (eMode r)
    (eState r) (stFile r) (stFolder r).
Definition set_ulClusterOffset (v : Z) (r : FAT32_DRIVER_STRUCT) : FAT32_DRIVER_STRUCT :=
  mkFat (ulSectorsPerFAT r) (ulFATBegin r) (ulFirstCluster r) (ulRootBegin
    r) v (usNumReservedSectors r) (ucSectorsPerCluster r) (aucSectorData r)
    (ucValidPartitions r) (ucMountedPartition r) (ucDirRecord r)
    (ucCurrentSector r) (usSectorReadAddr r) (eMode r) (eState r) (stFile r)
    (stFolder r).
Definition set_usNumReservedSectors (v : Z) (r : FAT32_DRIVER_STRUCT) : FAT32_DRIVER_STRUCT :=
  mkFat (ulSectorsPerFAT r) (ulFATBegin r) (ulFirstCluster r) (ulRootBegin
    r) (ulClusterOffset r) v (ucSectorsPerCluster r) (aucSectorData r)
    (ucValidPartitions r) (ucMountedPartition r) (ucDirRecord r)
    (ucCurrentSector r) (usSectorReadAddr r) (eMode r) (eState r) (stFile r)
    (stFolder r).
Definition set_ucSectorsPerCluster (v : Z) (r : FAT32_DRIVER_STRUCT) : FAT32_DRIVER_STRUCT :=
  mkFat (ulSectorsPerFAT r) (ulFATBegin r) (ulFirstCluster r) (ulRootBegin
    r) (ulClusterOffset r) (usNumReservedSectors r) v (aucSectorData r)
    (ucValidPartitions r) (ucMountedPartition r) (ucDirRecord r)
    (ucCurrentSector r) (usSectorReadAddr r) (eMode r) (eState r) (stFile r)
    (stFolder r).
Definition set_aucSectorData (v : list Z) (r : FAT32_DRIVER_STRUCT) : FAT32_DRIVER_STRUCT :=
  mkFat (ulSectorsPerFAT r) (ulFATBegin r) (ulFirstCluster r) (ulRootBegin
    r) (ulClusterOffset r) (usNumReservedSectors r) (ucSectorsPerCluster r)
    v (ucValidPartitions r) (ucMountedPartition r) (ucDirRecord r)
    (ucCurrentSector r) (usSectorReadAddr r) (eMode r) (eState r) (stFile r)
    (stFolder r).
Definition set_ucValidPartitions (v : Z) (r : FAT32_DRIVER_STRUCT) : FAT32_DRIVER_STRUCT :=
  mkFat (ulSectorsPerFAT r) (ulFATBegin r) (ulFirstCluster r) (ulRootBegin
    r) (ulClusterOffset r) (usNumReservedSectors r) (ucSectorsPerCluster r)
    (aucSectorData r) v (ucMountedPartition r) (ucDirRecord r)
    (ucCurrentSector r) (usSectorReadAddr r) (eMode r) (eState r) (stFile r)
    (stFolder r).
Definition set_ucMountedPartition (v : Z) (r : FAT32_DRIVER_STRUCT) : FAT32_DRIVER_STRUCT :=
  mkFat (ulSectorsPerFAT r) (ulFATBegin r) (ulFirstCluster r) (ulRootBegin
    r) (ulClusterOffset r) (usNumReservedSectors r) (ucSectorsPerCluster r)
    (aucSectorData r) (ucValidPartitions r) v (ucDirRecord r)
    (ucCurrentSector r) (usSectorReadAddr r) (eMode r) (eState r) (stFile r)
    (stFolder r).
Definition set_ucDirRecord (v : Z) (r : FAT32_DRIVER_STRUCT) : FAT32_DRIVER_STRUCT :=
  mkFat (ulSectorsPerFAT r) (ulFATBegin r) (ulFirstCluster r) (ulRootBegin
    r) (ulClusterOffset r) (usNumReservedSectors r) (ucSectorsPerCluster r)
    (aucSectorData r) (ucValidPartitions r) (ucMountedPartition r) v
    (ucCurrentSector r) (usSectorReadAddr r) (eMode r) (eState r) (stFile r)
    (stFolder r).
Definition set_ucCurrentSector (v : Z) (r : FAT32_DRIVER_STRUCT) : FAT32_DRIVER_STRUCT :=
  mkFat (ulSectorsPerFAT r) (ulFATBegin r) (ulFirstCluster r) (ulRootBegin
    r) (ulClusterOffset r) (usNumReservedSectors r) (ucSectorsPerCluster r)
    (aucSectorData r) (ucValidPartitions r) (ucMountedPartition r)
    (ucDirRecord r) v (usSectorReadAddr r) (eMode r) (eState r) (stFile r)
    (stFolder r).
Definition set_usSectorReadAddr (v : Z) (r : FAT32_DRIVER_STRUCT) : FAT32_DRIVER_STRUCT :=
  mkFat (ulSectorsPerFAT r) (ulFATBegin r) (ulFirstCluster r) (ulRootBegin
    r) (ulClusterOffset r) (usNumReservedSectors r) (ucSectorsPerCluster r)
    (aucSectorData r) (ucValidPartitions r) (ucMountedPartition r)
    (ucDirRecord r) (ucCurrentSector r) v (eMode r) (eState r) (stFile r)
    (stFolder r).
Definition set_eMode (v : FAT_MODE) (r : FAT32_DRIVER_STRUCT) : FAT32_DRIVER_STRUCT :=
  mkFat (ulSectorsPerFAT r) (ulFATBegin r) (ulFirstCluster r) (ulRootBegin
    r) (ulClusterOffset r) (usNumReservedSectors r) (ucSectorsPerCluster r)
    (aucSectorData r) (ucValidPartitions r) (ucMountedPartition r)
    (ucDirRecord r) (ucCurrentSector r) (usSectorReadAddr r) v (eState r)
    (stFile r) (stFolder r).
Definition set_eState (v : FAT32_STATE) (r : FAT32_DRIVER_STRUCT) : FAT32_DRIVER_STRUCT :=
  mkFat (ulSectorsPerFAT r) (ulFATBegin r) (ulFirstCluster r) (ulRootBegin
    r) (ulClusterOffset r) (usNumReservedSectors r) (ucSectorsPerCluster r)
    (aucSectorData r) (ucValidPartitions r) (ucMountedPartition r)
    (ucDirRecord r) (ucCurrentSector r) (usSectorReadAddr r) (eMode r) v
    (stFile r) (stFolder r).
Definition set_stFile (v : FAT32_FILE_STRUCT) (r : FAT32_DRIVER_STRUCT) : FAT32_DRIVER_STRUCT :=
  mkFat (ulSectorsPerFAT r) (ulFATBegin r) (ulFirstCluster r) (ulRootBegin
    r) (ulClusterOffset r) (usNumReservedSectors r) (ucSectorsPerCluster r)
    (aucSectorData r) (ucValidPartitions r) (ucMountedPartition r)
    (ucDirRecord r) (ucCurrentSector r) (usSectorReadAddr r) (eMode r)
    (eState r) v (stFolder r).
Definition set_stFolder (v : FAT32_FILE_STRUCT) (r : FAT32_DRIVER_STRUCT) : FAT32_DRIVER_STRUCT :=
  mkFat (ulSectorsPerFAT r) (ulFATBegin r) (ulFirstCluster r) (ulRootBegin
    r) (ulClusterOffset r) (usNumReservedSectors r) (ucSectorsPerCluster r)
    (aucSectorData r) (ucValidPartitions r) (ucMountedPartition r)
    (ucDirRecord r) (ucCurrentSector r) (usSectorReadAddr r) (eMode r)
    (eState r) (stFile r) v.

(** The file system object an operation works on: the open file or the
    current folder. *)
Definition set_handle (folder : bool) (h : FAT32_FILE_STRUCT) (s : FAT32_DRIVER_STRUCT) :
    FAT32_DRIVER_STRUCT := if folder then set_stFolder h s else set_stFile h s.
Definition handle (folder : bool) (s : FAT32_DRIVER_STRUCT) : FAT32_FILE_STRUCT :=
  if folder then stFolder s else stFile s.

Definition FAT32_SECTOR_SIZE : Z := 512.
Definition MBR_PARTITION_SIZE : Z := 16.
Definition MBR_PARTITION1_ADDR : Z := 446.
Definition PARTITION_CODE_OFFSET : Z := 4.
Definition LBA_BEGIN_OFFSET : Z := 8.
Definition PARTITION_SECTOR_OFFSET_16 : Z := 32.
Definition PARTITION_SECTOR_OFFSET_32 : Z := 12.
Definition BYTES_PER_SEC_OFFSET : Z := 0x000B.
Definition SECTORS_PER_CLUSETER_OFFSET : Z := 0x000D.
Definition RESERVED_SECTOR_OFFSET : Z := 0x000E.
Definition SECTORS_PER_FAT_OFFSET : Z := 0x0024.
Definition ROOT_DIRECTORY_OFFSET : Z := 0x002C.
Definition SECTORS_PER_FAT_OFFSET_16 : Z := 0x0016.
Definition ROOT_ENTRIES_16 : Z := 0x0011.
Definition ATTRIBUTE_DIRECTORY : Z := 0x10.
Definition ATTRIBUTE_LONG_FILE : Z := 0x0F.
Definition FOLDER_UNUSED : Z := 0xE5.
Definition FOLDER_END : Z := 0x00.
Definition DIR_RECORD_SIZE : Z := 32.
Definition RECORDS_PER_SECTOR : Z := 16.
Definition ATTRIB_OFFSET : Z := 0x000B.
Definition CLUSTER_HIGH_OFFSET : Z := 0x0014.
Definition CLUSTER_LOW_OFFSET : Z := 0x001A.
Definition FILE_SIZE_OFFSET : Z := 0x001C.

(** [*((USHORT* )&data[off])] and [*((ULONG* )&data[off])]. *)
Definition load16 (data : list Z) (off : Z) : res Z :=
  b0 ← aget data off; b1 ← aget data (off + 1); Ok (b0 + 256 * b1).
Definition load32 (data : list Z) (off : Z) : res Z :=
  lo ← load16 data off; hi ← load16 data (off + 2); Ok (lo + 65536 * hi).

Section fat.
Context (raw : Z → Z).

Definition FAT32_RawReadByte (ulAddr_ : Z) : Z := raw ulAddr_.

(** ** Life cycle *)

(** The fields the initialisation does not mention keep their value. *)
Definition FAT32_Init (s : FAT32_DRIVER_STRUCT) : FAT32_DRIVER_STRUCT :=
  let s := set_ulSectorsPerFAT 0 s in
  let s := set_ulFirstCluster 0 s in
  let s := set_ulFATBegin 0 s in
  let s := set_ulFirstCluster 0 s in
  let s := set_eState FAT32_STATE_UNINIT s in
  let s := set_usNumReservedSectors 0 s in
  let s := set_ucSectorsPerCluster 0 s in
  let s := set_ucValidPartitions 0 s in
  set_ucMountedPartition 0 s.

Definition FAT32_ReadSector (ulSector_ : Z) (s : FAT32_DRIVER_STRUCT) :
    res (FAT32_DRIVER_STRUCT * FAT32_RETURN_CODE) :=
  let ulAddress := u32 (ulSector_ * FAT32_SECTOR_SIZE) in
  data ← forM (seqZ 0 512) (λ i data, aset data i (FAT32_RawReadByte (u32 (ulAddress + i))))
           (aucSectorData s);
  Ok (set_aucSectorData data s, FAT32_RETURN_OK).

(** The turn of the partition loop: bit [i] is set for a FAT partition. *)
Definition valid_bit (code i ucValid : Z) : Z :=
  if (code =? 0x0B) || (code =? 0x0C) then Z.lor ucValid (Z.shiftl 1 i)
  else if (code =? 0x0E) || (code =? 0x06) then Z.lor ucValid (Z.shiftl 1 i)
  else ucValid.

Definition FAT32_InitMedia (s : FAT32_DRIVER_STRUCT) :
    res (FAT32_DRIVER_STRUCT * FAT32_RETURN_CODE) :=
  if decide (eState s = FAT32_STATE_UNINIT) then
    '(s, _) ← FAT32_ReadSector 0 s;
    ucValid ← forM (seqZ 0 4) (λ i ucValid,
      code ← aget (aucSectorData s)
        (MBR_PARTITION1_ADDR + MBR_PARTITION_SIZE * i + PARTITION_CODE_OFFSET);
      Ok (valid_bit code i ucValid)) 0;
    let s := set_ucValidPartitions ucValid s in
    if ucValid =? 0 then Ok (s, FAT32_INIT_ERROR_NO_PARTITIONS)
    else Ok (set_eState FAT32_STATE_MBR_READ s, FAT32_RETURN_OK)
  else Ok (s, FAT32_ERROR_WRONG_STATE).

(** The layout of a FAT16 and of a FAT32 volume that starts at [ulVolID]. *)
Definition mount16 (ulVolID : Z) (s : FAT32_DRIVER_STRUCT) : res FAT32_DRIVER_STRUCT :=
  let s := set_eMode FAT_MODE_16 s in
  _ ← load16 (aucSectorData s) PARTITION_SECTOR_OFFSET_16;
  usTemp ← load16 (aucSectorData s) SECTORS_PER_FAT_OFFSET_16;
  let s := set_ulSectorsPerFAT usTemp s in
  _ ← load16 (aucSectorData s) ROOT_ENTRIES_16;
  let s := set_ulFATBegin (u32 (ulVolID + usNumReservedSectors s)) s in
  let s := set_ulRootBegin (u32 (ulFATBegin s + 2 * ulSectorsPerFAT s)) s in
  let s := set_ulFirstCluster (u32 (ulRootBegin s + 2 * ucSectorsPerCluster s)) s in
  Ok (set_ulClusterOffset 0 s).

Definition mount32 (ulVolID : Z) (s : FAT32_DRIVER_STRUCT) : res FAT32_DRIVER_STRUCT :=
  let s := set_eMode FAT_MODE_32 s in
  ulTemp ← load32 (aucSectorData s) SECTORS_PER_FAT_OFFSET;
  let s := set_ulSectorsPerFAT ulTemp s in
  ulTemp ← load32 (aucSectorData s) ROOT_DIRECTORY_OFFSET;
  let s := set_ulRootBegin ulTemp s in
  let s := set_ulFATBegin (u32 (ulVolID + usNumReservedSectors s)) s in
  let s := set_ulFirstCluster (u32 (ulFATBegin s + 2 * ulSectorsPerFAT s)) s in
  Ok (set_ulClusterOffset 2 s).

(** A partition number above 3 leaves the function without a value. *)
Definition FAT32_MountPartition (ucPartition_ : Z) (s : FAT32_DRIVER_STRUCT) :
    res (FAT32_DRIVER_STRUCT * FAT32_RETURN_CODE) :=
  if decide (eState s = FAT32_STATE_MBR_READ) then
    if 4 <=? ucPartition_ then Fault Uninit
    else
      ulVolID ← load32 (aucSectorData s)
        (MBR_PARTITION1_ADDR + LBA_BEGIN_OFFSET + MBR_PARTITION_SIZE * ucPartition_);
      _ ← load32 (aucSectorData s)
        (MBR_PARTITION1_ADDR + PARTITION_SECTOR_OFFSET_32 + MBR_PARTITION_SIZE * ucPartition_);
      '(s, _) ← FAT32_ReadSector ulVolID s;
      usTemp ← load16 (aucSectorData s) BYTES_PER_SEC_OFFSET;
      if negb (usTemp =? FAT32_SECTOR_SIZE) then Ok (s, FAT32_ERROR_SECTOR_SIZE)
      else
        ucTemp ← aget (aucSectorData s) SECTORS_PER_CLUSETER_OFFSET;
        let s := set_ucSectorsPerCluster ucTemp s in
        usTemp ← load16 (aucSectorData s) RESERVED_SECTOR_OFFSET;
        let s := set_usNumReservedSectors usTemp s in
        usTemp ← load16 (aucSectorData s) SECTORS_PER_FAT_OFFSET_16;
        s ← (if negb (usTemp =? 0) then mount16 ulVolID s else mount32 ulVolID s);
        let s := set_eState FAT32_STATE_PARTITION_MOUNTED s in
        let s := set_ucDirRecord 0 s in
        let s := set_ucCurrentSector 0 s in
        name ← aset (aucFileName (stFolder s)) 0 0;
        let f := set_aucFileName name (stFolder s) in
        let f := set_ulHeadFAT 2 f in
        let f := set_ulCurrentFAT 2 f in
        let s := set_stFolder (set_bEOF false f) s in
        let ulTemp := if decide (eMode s = FAT_MODE_16) then ulRootBegin s else ulFirstCluster s in
        '(s, r) ← FAT32_ReadSector ulTemp s;
        Ok (s, if decide (r = FAT32_RETURN_OK) then FAT32_RETURN_OK else FAT32_RETURN_FAIL)
  else Ok (s, FAT32_ERROR_WRONG_STATE).

(** ** The file allocation table *)

(** [((ULONG)(ucTemp) << 8) >> (8 - (8*i))] for the two bytes. *)
Definition FAT32_ReadFAT16 (ulCurrentFAT_ : Z) (s : FAT32_DRIVER_STRUCT) : Z :=
  let ulFATAddr := u32 (ulFATBegin s * FAT32_SECTOR_SIZE + ulCurrentFAT_ * 2) in
  if state_num FAT32_STATE_PARTITION_MOUNTED <=? state_num (eState s) then
    u16 (foldl (λ ulData i,
      let ucTemp := FAT32_RawReadByte (u32 (ulFATAddr + i)) in
      Z.lor ulData (Z.shiftr (u32 (Z.shiftl ucTemp 8)) (8 - 8 * i))) 0 (seqZ 0 2))
  else 0xFFFF.

Definition FAT32_ReadFAT32 (ulCurrentFAT_ : Z) (s : FAT32_DRIVER_STRUCT) : Z :=
  let ulFATAddr := u32 (ulFATBegin s * FAT32_SECTOR_SIZE + ulCurrentFAT_ * 4) in
  if state_num FAT32_STATE_PARTITION_MOUNTED <=? state_num (eState s) then
    foldl (λ ulData i,
      let ucTemp := FAT32_RawReadByte (u32 (ulFATAddr + i)) in
      Z.lor ulData (Z.shiftr (u32 (Z.shiftl ucTemp 24)) (24 - 8 * i))) 0 (seqZ 0 4)
  else 0xFFFFFFFF.

(** At the end of the file [ulNextFAT] is used without a value. *)
Definition FAT32_ReadNextCluster (folder : bool) (s : FAT32_DRIVER_STRUCT) :
    res (FAT32_DRIVER_STRUCT * FAT32_RETURN_CODE) :=
  let f := handle folder s in
  if bEOF f then Fault Uninit
  else
    let ulNextFAT :=
      if decide (eMode s = FAT_MODE_32) then FAT32_ReadFAT32 (ulCurrentFAT f) s
      else FAT32_ReadFAT16 (ulCurrentFAT f) s in
    let s := set_handle folder (set_ulCurrentFAT ulNextFAT f) s in
    let last := if decide (eMode s = FAT_MODE_32)
                then 0x0FFFFFF0 <=? Z.land ulNextFAT 0x0FFFFFFF
                else 0xFFF0 <=? ulNextFAT in
    if last then
      Ok (set_handle folder (set_bEOF true (handle folder s)) s, FAT32_ERROR_EOF)
    else
      let ulClusterLBA := u32 (ulFirstCluster s +
        (ulNextFAT - ulClusterOffset s) * ucSectorsPerCluster s) in
      let s := set_ucCurrentSector 0 s in
      '(s, _) ← FAT32_ReadSector ulClusterLBA s;
      Ok (s, FAT32_RETURN_OK).

(** ** Reading a file *)

(** The sector address the driver computes for sector [k] of a cluster. *)
Definition cluster_sector (s : FAT32_DRIVER_STRUCT) (cluster k : Z) : Z :=
  u32 (ulFirstCluster s + (cluster - ulClusterOffset s) * ucSectorsPerCluster s + k).

(** Load the next sector when the current one has been consumed. *)
Definition next_sector (s : FAT32_DRIVER_STRUCT) : res FAT32_DRIVER_STRUCT :=
  if 512 <=? usSectorReadAddr s then
    let s := set_usSectorReadAddr 0 s in
    let s := set_ucCurrentSector (u8 (ucCurrentSector s + 1)) s in
    '(s, _) ←
      (if ucSectorsPerCluster s <=? ucCurrentSector s then FAT32_ReadNextCluster false s
       else FAT32_ReadSector (cluster_sector s (ulCurrentFAT (stFile s)) (ucCurrentSector s)) s);
    Ok s
  else Ok s.

(** The byte loop from index [i] with [n] turns left; the last component is
    [usRead]. *)
Fixpoint read_loop (n : nat) (i : Z) (s : FAT32_DRIVER_STRUCT) (pucData : list Z) (usRead : Z) :
    res (FAT32_DRIVER_STRUCT * list Z * Z) :=
  match n with
  | O => Ok (s, pucData, usRead)
  | S n =>
      if ulFileSize (stFile s) <=? ulReadBytes (stFile s) then
        Ok (set_stFile (set_bEOF true (stFile s)) s, pucData, usRead)
      else
        s ← next_sector s;
        v ← aget (aucSectorData s) (usSectorReadAddr s);
        pucData ← aset pucData i v;
        let s := set_usSectorReadAddr (u16 (usSectorReadAddr s + 1)) s in
        let s := set_stFile (set_ulReadBytes (u32 (ulReadBytes (stFile s) + 1)) (stFile s)) s in
        read_loop n (i + 1) s pucData (u16 (usRead + 1))
  end.

Definition FAT32_Read (pucData_ : list Z) (usLen_ : Z) (s : FAT32_DRIVER_STRUCT) :
    res (FAT32_DRIVER_STRUCT * list Z * Z) :=
  if negb (bool_decide (eState s = FAT32_STATE_FILE_OPEN)) || bEOF (stFile s)
  then Ok (s, pucData_, 0)
  else read_loop (Z.to_nat usLen_) 0 s pucData_ 0.

Definition FAT32_Write (pucData_ : list Z) (usLen_ : Z) (s : FAT32_DRIVER_STRUCT) :
    res (FAT32_DRIVER_STRUCT * Z) := Ok (s, 0).

(** ** Directories *)

(** The record at [usOffset] of the sector, classified and, when it is a
    file or a folder, copied to the caller. *)
Definition dir_record (usOffset : Z) (aucRecord_ : list Z) (s : FAT32_DRIVER_STRUCT) :
    res (FAT32_DRIVER_STRUCT * list Z * FAT32_RETURN_CODE) :=
  first ← aget (aucSectorData s) usOffset;
  if first =? FOLDER_UNUSED then Ok (s, aucRecord_, FAT32_RECORD_UNUSED)
  else if first =? FOLDER_END then
    Ok (set_stFolder (set_bEOF true (stFolder s)) s, aucRecord_, FAT32_END_OF_DIRECTORY)
  else
    attrib ← aget (aucSectorData s) (usOffset + ATTRIB_OFFSET);
    if Z.land attrib ATTRIBUTE_LONG_FILE =? ATTRIBUTE_LONG_FILE
    then Ok (s, aucRecord_, FAT32_NOT_SUPPORTED)
    else
      aucRecord ← forM (seqZ 0 DIR_RECORD_SIZE) (λ i rec,
        v ← aget (aucSectorData s) (usOffset + i); aset rec i v) aucRecord_;
      Ok (s, aucRecord, FAT32_RETURN_OK).

Definition FAT32_DirReadRecord (aucRecord_ : list Z) (s : FAT32_DRIVER_STRUCT) :
    res (FAT32_DRIVER_STRUCT * list Z * FAT32_RETURN_CODE) :=
  let usOffset := u16 (ucDirRecord s * DIR_RECORD_SIZE) in
  if negb (bool_decide (eState s = FAT32_STATE_PARTITION_MOUNTED))
  then Ok (s, aucRecord_, FAT32_ERROR_WRONG_STATE)
  else if bEOF (stFolder s) then Ok (s, aucRecord_, FAT32_ERROR_EOF)
  else
    '(s, aucRecord_, eReturn) ← dir_record usOffset aucRecord_ s;
    let s := set_ucDirRecord (u8 (ucDirRecord s + 1)) s in
    if RECORDS_PER_SECTOR <=? ucDirRecord s then
      let s := set_ucDirRecord 0 s in
      let s := set_ucCurrentSector (u8 (ucCurrentSector s + 1)) s in
      '(s, eReturn) ←
        (if ucSectorsPerCluster s <=? ucCurrentSector s then FAT32_ReadNextCluster true s
         else FAT32_ReadSector (cluster_sector s (ulCurrentFAT (stFolder s)) (ucCurrentSector s)) s);
      Ok (s, aucRecord_, eReturn)
    else Ok (s, aucRecord_, eReturn).

(** The first cluster a directory record names. *)
Definition record_cluster (s : FAT32_DRIVER_STRUCT) (idx : Z) : res Z :=
  usHigh ← load16 (aucSectorData s) (idx * DIR_RECORD_SIZE + CLUSTER_HIGH_OFFSET);
  usLow ← load16 (aucSectorData s) (idx * DIR_RECORD_SIZE + CLUSTER_LOW_OFFSET);
  Ok (Z.lor (u32 (Z.shiftl usHigh 16)) usLow).

Definition FAT32_ChangeDir (ucDirIdx_ : Z) (s : FAT32_DRIVER_STRUCT) :
    res (FAT32_DRIVER_STRUCT * FAT32_RETURN_CODE) :=
  if negb (bool_decide (eState s = FAT32_STATE_PARTITION_MOUNTED))
  then Ok (s, FAT32_ERROR_WRONG_STATE)
  else if RECORDS_PER_SECTOR <? ucDirIdx_ then Ok (s, FAT32_RETURN_FAIL)
  else
    ucAttrib ← aget (aucSectorData s) (ucDirIdx_ * DIR_RECORD_SIZE + ATTRIB_OFFSET);
    if negb (Z.land ucAttrib ATTRIBUTE_DIRECTORY =? ATTRIBUTE_DIRECTORY)
    then Ok (s, FAT32_ERROR_NOT_A_DIR)
    else
      ulDirLBA ← record_cluster s ucDirIdx_;
      size ← load32 (aucSectorData s) (ucDirIdx_ * DIR_RECORD_SIZE + FILE_SIZE_OFFSET);
      let f := set_ulCurrentFAT ulDirLBA (stFolder s) in
      let f := set_ulHeadFAT ulDirLBA f in
      let f := set_bEOF false f in
      let f := set_ulReadBytes size f in
      let f := if ulCurrentFAT f =? 0 then set_ulHeadFAT 2 (set_ulCurrentFAT 2 f) else f in
      let s := set_stFolder f s in
      let ulSector := cluster_sector s (ulCurrentFAT (stFolder s)) 0 in
      let s := set_ucCurrentSector 0 s in
      let s := set_ucDirRecord 0 s in
      '(s, _) ← FAT32_ReadSector ulSector s;
      Ok (s, FAT32_RETURN_OK).

Definition FAT32_OpenFile (ucFileIdx_ : Z) (s : FAT32_DRIVER_STRUCT) :
    res (FAT32_DRIVER_STRUCT * FAT32_RETURN_CODE) :=
  if negb (bool_decide (eState s = FAT32_STATE_PARTITION_MOUNTED))
  then Ok (s, FAT32_ERROR_WRONG_STATE)
  else if RECORDS_PER_SECTOR <? ucFileIdx_ then Ok (s, FAT32_RETURN_FAIL)
  else
    ucAttrib ← aget (aucSectorData s) (ucFileIdx_ * DIR_RECORD_SIZE + ATTRIB_OFFSET);
    if Z.land ucAttrib ATTRIBUTE_DIRECTORY =? ATTRIBUTE_DIRECTORY
    then Ok (s, FAT32_ERROR_NOT_A_FILE)
    else
      ulDirLBA ← record_cluster s ucFileIdx_;
      size ← load32 (aucSectorData s) (ucFileIdx_ * DIR_RECORD_SIZE + FILE_SIZE_OFFSET);
      let f := set_ulCurrentFAT ulDirLBA (stFile s) in
      let f := set_ulHeadFAT ulDirLBA f in
      let f := set_bEOF false f in
      let f := set_ulFileSize size f in
      let s := set_stFile (set_ulReadBytes 0 f) s in
      let ulSector := cluster_sector s ulDirLBA 0 in
      let s := set_ucCurrentSector 0 s in
      let s := set_usSectorReadAddr 0 s in
      let s := set_ucDirRecord 0 s in
      '(s, _) ← FAT32_ReadSector ulSector s;
      Ok (set_eState FAT32_STATE_FILE_OPEN s, FAT32_RETURN_OK).

Definition FAT32_CloseFile (s : FAT32_DRIVER_STRUCT) :
    res (FAT32_DRIVER_STRUCT * FAT32_RETURN_CODE) :=
  if negb (bool_decide (eState s = FAT32_STATE_FILE_OPEN)) then Ok (s, FAT32_ERROR_WRONG_STATE)
  else
    let ulSector := cluster_sector s (ulHeadFAT (stFolder s)) 0 in
    let s := set_ucCurrentSector 0 s in
    let s := set_ucDirRecord 0 s in
    '(s, _) ← FAT32_ReadSector ulSector s;
    Ok (set_eState FAT32_STATE_PARTITION_MOUNTED s, FAT32_RETURN_OK).

(** The cluster offset is commented out in the source. *)
Definition FAT32_SeekBeginFolder (s : FAT32_DRIVER_STRUCT) :
    res (FAT32_DRIVER_STRUCT * FAT32_RETURN_CODE) :=
  if negb (bool_decide (eState s = FAT32_STATE_PARTITION_MOUNTED))
  then Ok (s, FAT32_ERROR_WRONG_STATE)
  else
    let f := set_ulCurrentFAT (ulHeadFAT (stFolder s)) (stFolder s) in
    let s := set_stFolder (set_bEOF false f) s in
    let ulSector := u32 (ulFirstCluster s +
      (ulCurrentFAT (stFolder s) - 0) * ucSectorsPerCluster s) in
    let s := set_ucCurrentSector 0 s in
    let s := set_ucDirRecord 0 s in
    '(s, _) ← FAT32_ReadSector ulSector s;
    Ok (s, FAT32_RETURN_OK).

Definition FAT32_SeekRootFolder (s : FAT32_DRIVER_STRUCT) :
    res (FAT32_DRIVER_STRUCT * FAT32_RETURN_CODE) :=
  if negb (bool_decide (eState s = FAT32_STATE_PARTITION_MOUNTED))
  then Ok (s, FAT32_ERROR_WRONG_STATE)
  else
    let f := set_ulHeadFAT 2 (set_ulCurrentFAT 2 (stFolder s)) in
    let s := set_stFolder (set_bEOF false f) s in
    let ulSector := if decide (eMode s = FAT_MODE_16) then ulRootBegin s else ulFirstCluster s in
    let s := set_ucCurrentSector 0 s in
    let s := set_ucDirRecord 0 s in
    '(s, _) ← FAT32_ReadSector ulSector s;
    Ok (s, FAT32_RETURN_OK).

(** ** The command dispatcher *)

(** [pvData_] points to the bytes of the argument, which a directory read
    overwrites; a null pointer is the empty list. *)
Definition FAT32_Control (usID_ : FAT32_COMMAND) (pvData_ : list Z) (s : FAT32_DRIVER_STRUCT) :
    res (FAT32_DRIVER_STRUCT * list Z * FAT32_RETURN_CODE) :=
  let keep := λ m : res (FAT32_DRIVER_STRUCT * FAT32_RETURN_CODE),
    '(s, r) ← m; Ok (s, pvData_, r) in
  match usID_ with
  | FAT32_CMD_INIT_MEDIA => keep (FAT32_InitMedia s)
  | FAT32_CMD_MOUNT_PARTITION =>
      ucPartition ← aget pvData_ 0; keep (FAT32_MountPartition ucPartition s)
  | FAT32_CMD_READ_SECTOR => ulSector ← load32 pvData_ 0; keep (FAT32_ReadSector ulSector s)
  | FAT32_CMD_READ_NEXT_DIR => FAT32_DirReadRecord pvData_ s
  | FAT32_CMD_CHDIR => ucID ← aget pvData_ 0; keep (FAT32_ChangeDir ucID s)
  | FAT32_CMD_CHDIR_ROOT => keep (FAT32_SeekRootFolder s)
  | FAT32_CMD_SEEK_BEGIN_DIR =>
      '(s, _) ← FAT32_SeekBeginFolder s; Ok (s, pvData_, FAT32_RETURN_OK)
  | FAT32_CMD_OPEN_FILE_READ => ucID ← aget pvData_ 0; keep (FAT32_OpenFile ucID s)
  | FAT32_CMD_CLOSE_FILE => keep (FAT32_CloseFile s)
  | FAT32_CMD_WRITE_SECTOR | FAT32_CMD_OPEN_FILE_WRITE | FAT32_CMD_CHDIR_BACK =>
      Ok (s, pvData_, FAT32_RETURN_OK)
  end.

Definition FAT32_Start (s : FAT32_DRIVER_STRUCT) : res FAT32_DRIVER_STRUCT :=
  '(s, _, _) ← FAT32_Control FAT32_CMD_INIT_MEDIA [] s; Ok s.

Definition FAT32_Stop (s : FAT32_DRIVER_STRUCT) : FAT32_DRIVER_STRUCT := s.

(** ** Sectors *)

(** The 512 bytes of sector [n] of the medium. *)
Definition sector (n : Z) : list Z := (λ i, raw (n * 512 + i)) <$> seqZ 0 512.

Lemma length_sector n : length (sector n) = 512%nat.
Proof. unfold sector. by rewrite length_fmap, length_seqZ. Qed.

Lemma fill_array (f : Z → Z) n k data :
  length data = (n + k)%nat →
  forM (seqZ (Z.of_nat n) (Z.of_nat k)) (λ i data, aset data i (f i)) data
  = Ok (take n data ++ (f <$> seqZ (Z.of_nat n) (Z.of_nat k))).
Proof.
  revert n data. induction k as [|k IH]; intros n data Hl.
  { cbn. rewrite app_nil_r, take_ge by lia. done. }
  rewrite seqZ_cons'. cbn [forM]. rewrite aset_some, bind_ok by lia.
  replace (Z.of_nat n + 1) with (Z.of_nat (S n)) by lia.
  rewrite IH by (rewrite length_insert; lia). f_equal.
  rewrite (take_S_r _ _ (f (Z.of_nat n))) by (apply list_lookup_insert_eq; lia).
  rewrite take_insert_ge by lia. rewrite fmap_cons, <- app_assoc. done.
Qed.

Lemma FAT32_ReadSector_ok n s :
  length (aucSectorData s) = 512%nat → 0 <= n → (n + 1) * 512 <= 4294967296 →
  FAT32_ReadSector n s = Ok (set_aucSectorData (sector n) s, FAT32_RETURN_OK).
Proof.
  intros Hl Hn Hm. unfold FAT32_ReadSector, FAT32_RawReadByte, FAT32_SECTOR_SIZE.
  rewrite (fill_array (λ i, raw (u32 (u32 (n * 512) + i))) 0 512) by done.
  rewrite bind_ok. do 3 f_equal. unfold sector. cbn [take app].
  apply list_fmap_ext. intros k i Hi%list_elem_of_lookup_2%elem_of_seqZ.
  rewrite (u32_small (n * 512)), u32_small by lia. done.
Qed.

(** ** Table entries *)

(** The little-endian 32-bit and 16-bit values at an address of the medium. *)
Definition le16 (a : Z) : Z := raw a + 256 * raw (a + 1).
Definition le32 (a : Z) : Z := le16 a + 65536 * le16 (a + 2).

Context (Hraw : ∀ a, 0 <= raw a < 256).

(** A byte moved up and down again ends at the difference. *)
Lemma place_byte b up k : 0 <= b < 256 → 0 <= up <= 24 → 0 <= k →
  Z.shiftr (u32 (Z.shiftl b up)) k = Z.shiftl b (up - k).
Proof.
  intros Hb Hu Hk. rewrite u32_small, Z.shiftr_shiftl_l; [done|lia|].
  rewrite Z.shiftl_mul_pow2 by lia.
  assert (2 ^ up <= 2 ^ 24) by (apply Z.pow_le_mono_r; lia).
  pose proof (Z.pow_pos_nonneg 2 up). nia.
Qed.

Lemma FAT32_ReadFAT32_entry c s :
  eState s = FAT32_STATE_PARTITION_MOUNTED ∨ eState s = FAT32_STATE_FILE_OPEN →
  0 <= ulFATBegin s → 0 <= c → ulFATBegin s * 512 + c * 4 + 4 <= 4294967296 →
  FAT32_ReadFAT32 c s = le32 (ulFATBegin s * 512 + c * 4).
Proof.
  intros Hs Hb Hc Hm. unfold FAT32_ReadFAT32, FAT32_SECTOR_SIZE, FAT32_RawReadByte.
  replace (_ <=? _) with true by (destruct Hs as [-> | ->]; done).
  set (a := ulFATBegin s * 512 + c * 4) in *. change (seqZ 0 4) with [0; 1; 2; 3].
  cbn [foldl]. rewrite (u32_small a), !(u32_small (a + _)) by lia. rewrite Z.add_0_r.
  rewrite !place_byte by (apply Hraw || lia).
  pose proof (Hraw a). pose proof (Hraw (a + 1)). pose proof (Hraw (a + 2)). pose proof (Hraw (a + 3)).
  unfold le32, le16. replace (a + 2 + 1) with (a + 3) by lia.
  rewrite Z.lor_0_l. change (24 - (24 - 8 * 0)) with 0. rewrite Z.shiftl_0_r.
  change (24 - (24 - 8 * 1)) with 8. change (24 - (24 - 8 * 2)) with 16.
  change (24 - (24 - 8 * 3)) with 24.
  rewrite (lor_shift (raw a)) by lia. rewrite (lor_shift (raw a + _)) by lia.
  rewrite lor_shift by lia. lia.
Qed.

Lemma FAT32_ReadFAT16_entry c s :
  eState s = FAT32_STATE_PARTITION_MOUNTED ∨ eState s = FAT32_STATE_FILE_OPEN →
  0 <= ulFATBegin s → 0 <= c → ulFATBegin s * 512 + c * 2 + 2 <= 4294967296 →
  FAT32_ReadFAT16 c s = le16 (ulFATBegin s * 512 + c * 2).
Proof.
  intros Hs Hb Hc Hm. unfold FAT32_ReadFAT16, FAT32_SECTOR_SIZE, FAT32_RawReadByte.
  replace (_ <=? _) with true by (destruct Hs as [-> | ->]; done).
  set (a := ulFATBegin s * 512 + c * 2) in *. change (seqZ 0 2) with [0; 1].
  cbn [foldl]. rewrite (u32_small a), !(u32_small (a + _)) by lia. rewrite Z.add_0_r.
  pose proof (Hraw a). pose proof (Hraw (a + 1)).
  rewrite !place_byte by (apply Hraw || lia). rewrite Z.lor_0_l.
  change (8 - (8 - 8 * 0)) with 0. change (8 - (8 - 8 * 1)) with 8.
  rewrite Z.shiftl_0_r, lor_shift by lia. rewrite u16_small by lia. unfold le16. lia.
Qed.

(** ** Files on a FAT32 volume *)

(** Where a FAT32 volume has its table and its first cluster (number 2), and
    the sectors of a cluster. *)
Record volume : Type := mkVolume { vol_fat : Z; vol_first : Z; vol_spc : Z }.

Definition cluster_lba (v : volume) (c : Z) : Z := vol_first v + (c - 2) * vol_spc v.
Definition cluster_bytes (v : volume) (c : Z) : list Z :=
  k ← seqZ 0 (vol_spc v); sector (cluster_lba v c + k).
Definition chain_bytes (v : volume) (chain : list Z) : list Z :=
  c ← chain; cluster_bytes v c.

(** The clusters of a file: data clusters below the 4 GB the driver can
    address, each followed in the table by the next one. *)
Definition cluster_ok (v : volume) (c : Z) : Prop :=
  2 <= c < 0x0FFFFFF0 ∧ (cluster_lba v c + vol_spc v) * 512 <= 4294967296 ∧
  vol_fat v * 512 + c * 4 + 4 <= 4294967296.

Record chain_ok (v : volume) (chain : list Z) : Prop := {
  chain_geometry : 0 <= vol_fat v ∧ 0 <= vol_first v ∧ 0 < vol_spc v <= 255;
  chain_clusters : ∀ c, c ∈ chain → cluster_ok v c;
  chain_linked : ∀ j c c', chain !! j = Some c → chain !! S j = Some c' →
    le32 (vol_fat v * 512 + c * 4) = c'
}.

(** The driver has the volume mounted. *)
Record mounted_on (v : volume) (s : FAT32_DRIVER_STRUCT) : Prop := {
  mo_mode : eMode s = FAT_MODE_32;
  mo_offset : ulClusterOffset s = 2;
  mo_fat : ulFATBegin s = vol_fat v;
  mo_first : ulFirstCluster s = vol_first v;
  mo_spc : ucSectorsPerCluster s = vol_spc v;
  mo_data : length (aucSectorData s) = 512%nat
}.

(** The sector buffer holds the sector of byte [pos] of the chain. *)
Definition cursor (v : volume) (chain : list Z) (s : FAT32_DRIVER_STRUCT) (pos : Z) : Prop :=
  ∃ (j : nat) c, chain !! j = Some c ∧ ulCurrentFAT (stFile s) = c ∧
    0 <= ucCurrentSector s < vol_spc v ∧ 0 <= usSectorReadAddr s <= 512 ∧
    pos = (Z.of_nat j * vol_spc v + ucCurrentSector s) * 512 + usSectorReadAddr s ∧
    aucSectorData s = sector (cluster_lba v c + ucCurrentSector s).

(** The open file of the driver has the clusters [chain] and [size] bytes, of
    which [pos] have been read. *)
Record file_at (v : volume) (chain : list Z) (size : Z) (s : FAT32_DRIVER_STRUCT) (pos : Z) : Prop := {
  fa_open : eState s = FAT32_STATE_FILE_OPEN;
  fa_mounted : mounted_on v s;
  fa_chain : chain_ok v chain;
  fa_size : ulFileSize (stFile s) = size;
  fa_pos : ulReadBytes (stFile s) = pos;
  fa_range : 0 <= pos <= size ∧ size < 4294967296 ∧
    size <= Z.of_nat (length chain) * vol_spc v * 512;
  fa_eof : bEOF (stFile s) = true → pos = size;
  fa_cursor : pos < size → cursor v chain s pos
}.

(** Lookup in a concatenation of blocks of the same length. *)
Lemma lookup_blocks {A B} (f : A → list B) (l : list A) m i x r :
  (∀ y, length (f y) = m) → l !! i = Some x → (r < m)%nat →
  (l ≫= f) !! (i * m + r)%nat = f x !! r.
Proof.
  intros Hf. revert i. induction l as [|y l IH]; intros i Hi Hr; [done|].
  cbn [mbind list_bind]. destruct i as [|i].
  - injection Hi as ->. cbn. rewrite lookup_app_l; [done|by rewrite Hf].
  - rewrite lookup_app_r by (rewrite Hf; lia). rewrite Hf.
    replace (S i * m + r - m)%nat with (i * m + r)%nat by lia. by apply IH.
Qed.

Lemma length_blocks {A B} (f : A → list B) (l : list A) m :
  (∀ y, length (f y) = m) → length (l ≫= f) = (length l * m)%nat.
Proof.
  intros Hf. induction l as [|y l IH]; [done|].
  cbn [mbind list_bind length]. rewrite length_app, Hf. cbn in *. lia.
Qed.

Lemma length_cluster_bytes v c : length (cluster_bytes v c) = (Z.to_nat (vol_spc v) * 512)%nat.
Proof.
  unfold cluster_bytes. rewrite (length_blocks _ _ 512) by (intros; apply length_sector).
  by rewrite length_seqZ.
Qed.

Lemma chain_bytes_lookup v chain (j : nat) c k a :
  chain !! j = Some c → 0 <= k < vol_spc v → 0 <= a < 512 →
  chain_bytes v chain !! Z.to_nat ((Z.of_nat j * vol_spc v + k) * 512 + a)
  = sector (cluster_lba v c + k) !! Z.to_nat a.
Proof.
  intros Hj Hk Ha. unfold chain_bytes.
  replace (Z.to_nat ((Z.of_nat j * vol_spc v + k) * 512 + a))
    with (j * (Z.to_nat (vol_spc v) * 512) + (Z.to_nat k * 512 + Z.to_nat a))%nat by lia.
  rewrite (lookup_blocks _ _ _ _ _ _ (length_cluster_bytes v) Hj) by nia.
  unfold cluster_bytes.
  rewrite (lookup_blocks _ _ 512 _ k) by
    (intros; apply length_sector || lia || (rewrite lookup_seqZ; split; lia)).
  done.
Qed.

Lemma chain_next_exists v chain size (j : nat) :
  chain_ok v chain → size <= Z.of_nat (length chain) * vol_spc v * 512 →
  Z.of_nat (S j) * vol_spc v * 512 < size → is_Some (chain !! S j).
Proof.
  intros [(_ & _ & ?) _ _] Hs Hj. apply lookup_lt_is_Some_2.
  assert (Z.of_nat (S j) * (vol_spc v * 512) < Z.of_nat (length chain) * (vol_spc v * 512)) by lia.
  apply Z.mul_lt_mono_pos_r in H0; lia.
Qed.

Lemma cluster_sector_lba v s c k :
  mounted_on v s → 0 <= vol_first v → cluster_ok v c → 0 <= k < vol_spc v →
  cluster_sector s c k = cluster_lba v c + k.
Proof.
  intros Hm Hf [Hc [Hb _]] Hk. unfold cluster_sector, cluster_lba in *.
  rewrite (mo_first _ _ Hm), (mo_offset _ _ Hm), (mo_spc _ _ Hm).
  apply u32_small. assert (0 <= (c - 2) * vol_spc v) by (apply Z.mul_nonneg_nonneg; lia). lia.
Qed.

Lemma cluster_lba_nonneg v c : 0 <= vol_first v → 0 < vol_spc v → cluster_ok v c → 0 <= cluster_lba v c.
Proof.
  intros ? ? [? _]. unfold cluster_lba.
  assert (0 <= (c - 2) * vol_spc v) by (apply Z.mul_nonneg_nonneg; lia). lia.
Qed.

(** Reading a sector of a cluster of the chain. *)
Lemma read_cluster_sector v s c k :
  mounted_on v s → 0 <= vol_first v → cluster_ok v c → 0 <= k < vol_spc v →
  FAT32_ReadSector (cluster_sector s c k) s
  = Ok (set_aucSectorData (sector (cluster_lba v c + k)) s, FAT32_RETURN_OK).
Proof.
  intros Hm Hf Hc Hk. rewrite (cluster_sector_lba v) by done.
  pose proof (cluster_lba_nonneg v c Hf ltac:(lia) Hc). destruct Hc as (? & ? & ?).
  apply FAT32_ReadSector_ok; [apply Hm|lia..].
Qed.

Lemma land_28 z : 0 <= z < 0x10000000 → Z.land z 0x0FFFFFFF = z.
Proof.
  intros. change 0x0FFFFFFF with (Z.ones 28). rewrite Z.land_ones by lia. apply Z.mod_small. lia.
Qed.

(** The step along the chain. *)
Lemma next_cluster_ok v chain s (j : nat) c c' :
  mounted_on v s → eState s = FAT32_STATE_FILE_OPEN → chain_ok v chain →
  chain !! j = Some c → chain !! S j = Some c' →
  ulCurrentFAT (stFile s) = c → bEOF (stFile s) = false →
  FAT32_ReadNextCluster false s
  = Ok (set_aucSectorData (sector (cluster_lba v c' + 0))
          (set_ucCurrentSector 0 (set_stFile (set_ulCurrentFAT c' (stFile s)) s)), FAT32_RETURN_OK).
Proof.
  intros Hm Ho Hch Hj Hj' Hcur He. destruct Hch as [(Hg1 & Hg2 & Hg3) Hok Hl].
  pose proof (Hok c (list_elem_of_lookup_2 _ _ _ Hj)) as (Hc & _ & Hfat).
  pose proof (Hok c' (list_elem_of_lookup_2 _ _ _ Hj')) as Hc'.
  unfold FAT32_ReadNextCluster. cbn [handle]. rewrite He.
  rewrite decide_True by apply Hm. cbn [set_handle]. rewrite decide_True by apply Hm.
  rewrite FAT32_ReadFAT32_entry; [|by right|rewrite ?(mo_fat _ _ Hm); lia..].
  rewrite Hcur, (mo_fat _ _ Hm), (Hl j c c' Hj Hj').
  rewrite land_28 by (destruct Hc'; lia).
  destruct (Z.leb_spec 0x0FFFFFF0 c'); [destruct Hc'; lia|].
  pose proof (read_cluster_sector v
    (set_ucCurrentSector 0 (set_stFile (set_ulCurrentFAT c' (stFile s)) s)) c' 0) as Hr.
  unfold cluster_sector in Hr. rewrite Z.add_0_r in Hr. cbn in Hr |- *. rewrite Hr; [done|..].
  all: try lia; try done. destruct Hm. by split.
Qed.

Lemma next_sector_ok v chain size s pos :
  file_at v chain size s pos → pos < size →
  ∃ s', next_sector s = Ok s' ∧ file_at v chain size s' pos ∧ usSectorReadAddr s' < 512.
Proof.
  intros Hfa Hpos. destruct (fa_cursor _ _ _ _ _ Hfa Hpos) as (j & c & Hj & Hcur & Hk & Ha & Hp & Hd).
  unfold next_sector. destruct (Z.leb_spec 512 (usSectorReadAddr s)); [|eexists; split; [done|]; split; [done|lia]].
  pose proof (fa_chain _ _ _ _ _ Hfa) as Hch. pose proof (fa_mounted _ _ _ _ _ Hfa) as Hm.
  pose proof (chain_geometry _ _ Hch) as (Hg1 & Hg2 & Hg3).
  cbn [ucSectorsPerCluster ucCurrentSector set_ucCurrentSector set_usSectorReadAddr stFile].
  rewrite (mo_spc _ _ Hm), u8_small by lia.
  destruct (Z.leb_spec (vol_spc v) (ucCurrentSector s + 1)).
  - destruct (chain_next_exists v chain size j Hch) as [c' Hj']; [apply Hfa|nia|].
    assert (bEOF (stFile s) = false) as He.
    { destruct (bEOF (stFile s)) eqn:E; [|done]. pose proof (fa_eof _ _ _ _ _ Hfa E). lia. }
    erewrite (next_cluster_ok v chain _ j c c'); [|destruct Hm; by split|apply Hfa|done..].
    rewrite bind_ok. eexists. split; [done|]. split; [|cbn; lia].
    destruct Hfa, Hm. split; cbn; try done.
    intros _. exists (S j), c'. cbn. split_and!; (done || lia || nia).
  - pose proof (read_cluster_sector v (set_ucCurrentSector (ucCurrentSector s + 1)
      (set_usSectorReadAddr 0 s)) c (ucCurrentSector s + 1)) as Hr.
    cbn in Hr. rewrite Hcur, Hr; [|destruct Hm; by split|done| |lia].
    2: { eapply chain_clusters; [done|]. by eapply list_elem_of_lookup_2. }
    rewrite bind_ok. eexists. split; [done|]. split; [|cbn; lia].
    destruct Hfa, Hm. split; cbn; try done.
    intros _. exists j, c. cbn. split_and!; (done || lia).
Qed.

(** Bytes [l] stored from index [i] on. *)
Definition splice (buf : list Z) (i : nat) (l : list Z) : list Z :=
  take i buf ++ l ++ drop (i + length l) buf.

Lemma splice_nil buf i : splice buf i [] = buf.
Proof. unfold splice. cbn. rewrite Nat.add_0_r. apply take_drop. Qed.

Lemma splice_insert buf i x l : (i < length buf)%nat →
  splice (<[i := x]> buf) (S i) l = splice buf i (x :: l).
Proof.
  intros. unfold splice. rewrite (take_S_r _ _ x) by (apply list_lookup_insert_eq; lia).
  rewrite take_insert_ge, <- app_assoc by lia. cbn [app length].
  rewrite drop_insert_lt by lia. do 4 f_equal. lia.
Qed.

(** What is left of the file at [pos]. *)
Definition rest (v : volume) (chain : list Z) (size pos : Z) : list Z :=
  drop (Z.to_nat pos) (take (Z.to_nat size) (chain_bytes v chain)).

Lemma rest_end v chain size : rest v chain size size = [].
Proof. unfold rest. apply drop_ge. rewrite length_take. lia. Qed.

Lemma rest_cons v chain size s pos :
  file_at v chain size s pos → pos < size → usSectorReadAddr s < 512 →
  ∃ x, aget (aucSectorData s) (usSectorReadAddr s) = Ok x ∧
    rest v chain size pos = x :: rest v chain size (pos + 1).
Proof.
  intros Hfa Hpos Ha. destruct (fa_cursor _ _ _ _ _ Hfa Hpos) as (j & c & Hj & _ & Hk & Ha' & Hp & Hd).
  destruct (lookup_lt_is_Some_2 (aucSectorData s) (Z.to_nat (usSectorReadAddr s))) as [x Hx].
  { rewrite (mo_data v) by apply Hfa. lia. }
  exists x. split.
  - rewrite <- (Z2Nat.id (usSectorReadAddr s)) by lia. by apply aget_some.
  - unfold rest. rewrite Z2Nat.inj_add, Nat.add_1_r by (destruct Hfa; lia). apply drop_S.
    rewrite lookup_take_lt by (destruct Hfa; lia).
    rewrite Hp, (chain_bytes_lookup v chain j c) by (done || lia). by rewrite <- Hd.
Qed.

Lemma read_loop_ok v chain size n (i : nat) s buf cnt pos :
  file_at v chain size s pos → (i + n <= length buf)%nat → 0 <= cnt → cnt + Z.of_nat n < 65536 →
  let out := take n (rest v chain size pos) in
  ∃ s', read_loop n (Z.of_nat i) s buf cnt
    = Ok (s', splice buf i out, cnt + Z.of_nat (length out)) ∧
    file_at v chain size s' (pos + Z.of_nat (length out)).
Proof.
  revert i s buf cnt pos. induction n as [|n IH]; intros i s buf cnt pos Hfa Hi Hc Hn; cbv zeta.
  { exists s. cbn. by rewrite splice_nil, !Z.add_0_r. }
  cbn [read_loop]. rewrite (fa_size _ _ _ _ _ Hfa), (fa_pos _ _ _ _ _ Hfa).
  destruct (Z.leb_spec size pos) as [Hle|Hlt].
  { assert (pos = size) as -> by (destruct Hfa; lia). rewrite rest_end. cbn.
    rewrite splice_nil, !Z.add_0_r. eexists. split; [done|].
    destruct Hfa as [? [] ? ? ? ? ? ?]. by split; cbn. }
  destruct (next_sector_ok _ _ _ _ _ Hfa Hlt) as (s1 & -> & Hfa1 & Ha). rewrite bind_ok.
  destruct (rest_cons _ _ _ _ _ Hfa1 Hlt Ha) as (x & -> & Hrest). rewrite bind_ok.
  rewrite aset_some, bind_ok by lia. rewrite Hrest. cbn [take length].
  set (s2 := set_stFile _ _).
  assert (file_at v chain size s2 (pos + 1)) as Hfa2.
  { pose proof (fa_cursor _ _ _ _ _ Hfa1 Hlt) as (j & c & Hj & Hcur & Hk & Ha' & Hp & Hd).
    destruct Hfa1 as [? [] ? ? Hpos [Hr ?] Heof ?]. unfold s2. split; cbn; try done.
    - rewrite Hpos. apply u32_small. lia.
    - lia.
    - intros E. specialize (Heof E). lia.
    - intros _. exists j, c. cbn. rewrite u16_small by lia. split_and!; (done || lia). }
  rewrite u16_small by lia. replace (Z.of_nat i + 1) with (Z.of_nat (S i)) by lia.
  destruct (IH (S i) s2 (<[i:=x]> buf) (cnt + 1) (pos + 1) Hfa2) as (s' & Hrun & Hfa');
    [rewrite length_insert; lia|lia..|].
  exists s'. rewrite Hrun. rewrite splice_insert by lia. split.
  - do 2 f_equal. lia.
  - by replace (pos + Z.of_nat (S (length (take n (rest v chain size (pos + 1))))))
      with (pos + 1 + Z.of_nat (length (take n (rest v chain size (pos + 1))))) by lia.
Qed.

(** What one read of [len] bytes answers for an open file. *)
Lemma FAT32_Read_ok v chain size s buf len pos :
  file_at v chain size s pos → 0 <= len < 65536 → len <= Z.of_nat (length buf) →
  let out := take (Z.to_nat len) (rest v chain size pos) in
  ∃ s', FAT32_Read buf len s
    = Ok (s', out ++ drop (length out) buf, Z.of_nat (length out)) ∧
    file_at v chain size s' (pos + Z.of_nat (length out)).
Proof.
  intros Hfa Hl Hb out. unfold FAT32_Read. rewrite bool_decide_true by apply Hfa. cbn [negb orb].
  destruct (bEOF (stFile s)) eqn:E.
  - pose proof (fa_eof _ _ _ _ _ Hfa E). subst pos. unfold out. rewrite rest_end, take_nil. cbn.
    exists s. by rewrite Z.add_0_r.
  - destruct (read_loop_ok v chain size (Z.to_nat len) 0 s buf 0 pos) as (s' & Hrun & Hfa');
      [done|lia..|]. exists s'. split; [|done].
    change (Z.of_nat 0) with 0 in Hrun. by rewrite Hrun.
Qed.

(** A program that reads with buffers of the given lengths, one after the
    other, and keeps what each read delivered. *)
Fixpoint read_all (lens : list Z) (s : FAT32_DRIVER_STRUCT) : res (FAT32_DRIVER_STRUCT * list Z) :=
  match lens with
  | [] => Ok (s, [])
  | len :: lens =>
      '(s, buf, n) ← FAT32_Read (replicate (Z.to_nat len) 0) len s;
      '(s, l) ← read_all lens s;
      Ok (s, take (Z.to_nat n) buf ++ l)
  end.

Lemma read_all_ok v chain size lens s pos :
  file_at v chain size s pos → Forall (λ len, 0 <= len < 65536) lens →
  ∃ s', read_all lens s = Ok (s', take (Z.to_nat (foldr Z.add 0 lens)) (rest v chain size pos)).
Proof.
  intros Hfa Hl. revert s pos Hfa. induction Hl as [|len lens Hlen Hl IH]; intros s pos Hfa.
  { by exists s. }
  cbn [read_all foldr].
  destruct (FAT32_Read_ok v chain size s (replicate (Z.to_nat len) 0) len pos) as (s1 & -> & Hfa1);
    [done..|rewrite length_replicate; lia|].
  rewrite bind_ok. destruct (IH _ _ Hfa1) as (s' & ->). rewrite bind_ok. exists s'.
  do 2 f_equal. rewrite Nat2Z.id, take_app_length.
  assert (0 <= foldr Z.add 0 lens) by (clear -Hl; induction Hl; cbn; lia).
  rewrite Z2Nat.inj_add by lia.
  rewrite <- take_take_drop. f_equal. f_equal.
  set (k := length _). assert (rest v chain size (pos + Z.of_nat k) = drop k (rest v chain size pos)) as ->.
  { unfold rest. rewrite drop_drop. f_equal. destruct Hfa. lia. }
  unfold k. rewrite length_take.
  destruct (Nat.min_spec (Z.to_nat len) (length (rest v chain size pos))) as [[_ ->]|[? ->]]; [done|].
  by rewrite !drop_ge by lia.
Qed.

(** The directory record [idx] in the sector buffer names the file with the
    clusters [chain] and [size] bytes. *)
Record record_names (s : FAT32_DRIVER_STRUCT) (idx : Z) (chain : list Z) (size : Z) : Prop := {
  rn_index : 0 <= idx < RECORDS_PER_SECTOR;
  rn_attrib : ∃ a, aget (aucSectorData s) (idx * DIR_RECORD_SIZE + ATTRIB_OFFSET) = Ok a ∧
    Z.land a ATTRIBUTE_DIRECTORY ≠ ATTRIBUTE_DIRECTORY;
  rn_cluster : ∃ c, record_cluster s idx = Ok c ∧ head chain = Some c;
  rn_size : load32 (aucSectorData s) (idx * DIR_RECORD_SIZE + FILE_SIZE_OFFSET) = Ok size
}.

Lemma FAT32_OpenFile_ok v chain size s idx :
  mounted_on v s → eState s = FAT32_STATE_PARTITION_MOUNTED → chain_ok v chain →
  record_names s idx chain size →
  0 <= size < 4294967296 → size <= Z.of_nat (length chain) * vol_spc v * 512 →
  ∃ s', FAT32_OpenFile idx s = Ok (s', FAT32_RETURN_OK) ∧ file_at v chain size s' 0.
Proof.
  intros Hm Hs Hch [Hidx (a & Ha & Hdir) (c & Hc & Hhd) Hsz] Hr Hcap.
  unfold FAT32_OpenFile. rewrite bool_decide_true by done. cbn [negb].
  destruct (Z.ltb_spec RECORDS_PER_SECTOR idx); [lia|].
  rewrite Ha, bind_ok. destruct (Z.eqb_spec (Z.land a ATTRIBUTE_DIRECTORY) ATTRIBUTE_DIRECTORY); [done|].
  rewrite Hc, bind_ok, Hsz, bind_ok. destruct chain as [|c0 chain]; [done|]. injection Hhd as ->.
  pose proof (chain_geometry _ _ Hch) as (? & ? & ?).
  pose proof (chain_clusters _ _ Hch c ltac:(set_solver)) as Hok.
  match goal with |- context [FAT32_ReadSector ?n ?t] =>
    assert (mounted_on v t) as Ht by (destruct Hm; by split);
    pose proof (read_cluster_sector v t c 0 Ht ltac:(lia) Hok ltac:(lia)) as Hread
  end.
  unfold cluster_sector in *. cbn in Hread |- *. rewrite Hread, bind_ok.
  eexists. split; [done|]. cbn [length] in Hcap. destruct Hm. split; cbn; try (done || lia).
  intros _. exists 0%nat, c. cbn. split_and!; (done || lia).
Qed.

(** C28: opening a file of a mounted FAT32 volume and reading it with any
    sequence of buffer lengths delivers exactly the bytes of its clusters in
    the order of the allocation table, cut at the size of the file: across
    sector and cluster borders, and no more after the end.  The driver takes
    all 32 bits of an entry of the table for the cluster number, so the four
    reserved bits have to be zero, and positions are counted in 32 bits, so
    the clusters have to lie in the first 4 GB of the medium. *)
Theorem FAT32_file_contents v chain size s idx lens :
  mounted_on v s → eState s = FAT32_STATE_PARTITION_MOUNTED → chain_ok v chain →
  record_names s idx chain size →
  0 <= size < 4294967296 → size <= Z.of_nat (length chain) * vol_spc v * 512 →
  Forall (λ len, 0 <= len < 65536) lens →
  ∃ s' s'', FAT32_OpenFile idx s = Ok (s', FAT32_RETURN_OK) ∧
    read_all lens s'
    = Ok (s'', take (Z.to_nat (foldr Z.add 0 lens)) (take (Z.to_nat size) (chain_bytes v chain))).
Proof.
  intros Hm Hs Hch Hrec Hr Hcap Hl.
  destruct (FAT32_OpenFile_ok v chain size s idx) as (s' & Hopen & Hfa); [done..|].
  destruct (read_all_ok v chain size lens s' 0 Hfa Hl) as (s'' & Hread).
  exists s', s''. split; [done|]. by rewrite Hread.
Qed.

(** ** Well-formed driver states *)

Definition byte_range (b : Z) : Prop := 0 <= b < 256.

(** Every field within its width, a complete sector in the buffer, and the
    directory index within the sector. *)
Record file_wf (f : FAT32_FILE_STRUCT) : Prop := {
  fw_name : length (aucFileName f) = 12%nat;
  fw_head : 0 <= ulHeadFAT f < 4294967296;
  fw_cur : 0 <= ulCurrentFAT f < 4294967296;
  fw_size : 0 <= ulFileSize f < 4294967296;
  fw_read : 0 <= ulReadBytes f < 4294967296
}.

Record wf (s : FAT32_DRIVER_STRUCT) : Prop := {
  wf_spf : 0 <= ulSectorsPerFAT s < 4294967296;
  wf_fat : 0 <= ulFATBegin s < 4294967296;
  wf_first : 0 <= ulFirstCluster s < 4294967296;
  wf_root : 0 <= ulRootBegin s < 4294967296;
  wf_offset : ulClusterOffset s = 0 ∨ ulClusterOffset s = 2;
  wf_reserved : 0 <= usNumReservedSectors s < 65536;
  wf_spc : byte_range (ucSectorsPerCluster s);
  wf_sector : length (aucSectorData s) = 512%nat ∧ Forall byte_range (aucSectorData s);
  wf_valid : 0 <= ucValidPartitions s < 16;
  wf_dir : 0 <= ucDirRecord s < RECORDS_PER_SECTOR;
  wf_current : byte_range (ucCurrentSector s);
  wf_addr : 0 <= usSectorReadAddr s <= 512;
  wf_file : file_wf (stFile s);
  wf_folder : file_wf (stFolder s)
}.

(** The states a command may lead to. *)
Inductive fat_step : FAT32_STATE → FAT32_STATE → Prop :=
  | step_stay st : fat_step st st
  | step_init : fat_step FAT32_STATE_UNINIT FAT32_STATE_MBR_READ
  | step_mount : fat_step FAT32_STATE_MBR_READ FAT32_STATE_PARTITION_MOUNTED
  | step_open : fat_step FAT32_STATE_PARTITION_MOUNTED FAT32_STATE_FILE_OPEN
  | step_close : fat_step FAT32_STATE_FILE_OPEN FAT32_STATE_PARTITION_MOUNTED.

Definition sector_at (n : Z) : list Z :=
  (λ i, raw (u32 (u32 (n * FAT32_SECTOR_SIZE) + i))) <$> seqZ 0 512.

Lemma ReadSector_total n s : length (aucSectorData s) = 512%nat →
  FAT32_ReadSector n s = Ok (set_aucSectorData (sector_at n) s, FAT32_RETURN_OK).
Proof.
  intros Hl. unfold FAT32_ReadSector, FAT32_RawReadByte.
  by rewrite (fill_array (λ i, raw (u32 (u32 (n * FAT32_SECTOR_SIZE) + i))) 0 512) by done.
Qed.

Lemma sector_at_ok n : length (sector_at n) = 512%nat ∧ Forall byte_range (sector_at n).
Proof.
  unfold sector_at. rewrite length_fmap, length_seqZ. split; [done|].
  apply Forall_fmap, Forall_true. intros i. apply Hraw.
Qed.

Lemma aget_byte data off : Forall byte_range data → 0 <= off < Z.of_nat (length data) →
  ∃ b, aget data off = Ok b ∧ byte_range b.
Proof.
  intros Hd Ho. destruct (lookup_lt_is_Some_2 data (Z.to_nat off)) as [b Hb]; [lia|].
  exists b. split; [|by eapply Forall_lookup_1].
  rewrite <- (Z2Nat.id off) by lia. by apply aget_some.
Qed.

Lemma load16_range data off : Forall byte_range data → 0 <= off → off + 1 < Z.of_nat (length data) →
  ∃ x, load16 data off = Ok x ∧ 0 <= x < 65536.
Proof.
  intros Hd ? ?. unfold load16, byte_range in *.
  destruct (aget_byte data off) as (b0 & -> & ?); [done|lia|]. rewrite bind_ok.
  destruct (aget_byte data (off + 1)) as (b1 & -> & ?); [done|lia|]. rewrite bind_ok.
  eexists. split; [done|]. unfold byte_range in *. lia.
Qed.

Lemma load32_range data off : Forall byte_range data → 0 <= off → off + 3 < Z.of_nat (length data) →
  ∃ x, load32 data off = Ok x ∧ 0 <= x < 4294967296.
Proof.
  intros Hd ? ?. unfold load32.
  destruct (load16_range data off) as (lo & -> & ?); [done|lia..|]. rewrite bind_ok.
  destruct (load16_range data (off + 2)) as (hi & -> & ?); [done|lia..|]. rewrite bind_ok.
  eexists. split; [done|]. lia.
Qed.

(** The outcome of an operation on a well-formed state. *)
Definition sound (s : FAT32_DRIVER_STRUCT) (m : res (FAT32_DRIVER_STRUCT * FAT32_RETURN_CODE)) : Prop :=
  ∃ s' r, m = Ok (s', r) ∧ wf s' ∧ fat_step (eState s) (eState s').

Lemma sound_read s n s1 r :
  wf s1 → fat_step (eState s) (eState s1) →
  sound s ('(s, _) ← FAT32_ReadSector n s1; Ok (s, r)).
Proof.
  intros Hw Hst. rewrite ReadSector_total by apply Hw. rewrite bind_ok.
  do 2 eexists. split; [done|]. split; [|done].
  pose proof (sector_at_ok n). destruct Hw. by split.
Qed.

Lemma sound_here s r : wf s → sound s (Ok (s, r)).
Proof. intros. exists s, r. split; [done|]. split; [done|constructor]. Qed.

Lemma valid_bit_range code i ucValid :
  0 <= i < 4 → 0 <= ucValid < 16 → 0 <= valid_bit code i ucValid < 16.
Proof.
  intros Hi Hv. unfold valid_bit. rewrite Z.shiftl_1_l.
  assert (2 ^ i < 2 ^ 4) by (apply Z.pow_lt_mono_r; lia).
  pose proof (Z.pow_pos_nonneg 2 i). pose proof (lor_bound ucValid (2 ^ i) 4).
  repeat case_match; lia.
Qed.

Lemma InitMedia_sound s : wf s → sound s (FAT32_InitMedia s).
Proof.
  intros Hw. unfold FAT32_InitMedia. case_decide as Hs; [|by apply sound_here].
  rewrite ReadSector_total by apply Hw. rewrite bind_ok. cbn [aucSectorData set_aucSectorData].
  pose proof (sector_at_ok 0) as [Hl Hb].
  match goal with |- sound _ (forM ?l ?b ?x ≫= _) =>
    destruct (forM_inv (λ v, 0 <= v < 16) l b x) as (ucValid & -> & Hv); [|lia|] end.
  { intros i v Hi%elem_of_seqZ Hv.
    destruct (aget_byte (sector_at 0) (446 + 16 * i + 4)) as (c & Hc & _); [done|rewrite Hl; lia|].
    unfold MBR_PARTITION1_ADDR, MBR_PARTITION_SIZE, PARTITION_CODE_OFFSET. rewrite Hc, bind_ok.
    eexists. split; [done|]. by apply valid_bit_range. }
  rewrite bind_ok. destruct Hw.
  destruct (ucValid =? 0); do 2 eexists; (split; [done|]); cbn; (split; [by split|]).
  - constructor.
  - rewrite Hs. constructor.
Qed.

Lemma mount_sound f lba s :
  f = mount16 ∨ f = mount32 → wf s →
  ∃ s', f lba s = Ok s' ∧ wf s'.
Proof.
  intros Hf Hw. pose proof (wf_sector _ Hw) as [Hl Hb].
  destruct Hf as [-> | ->]; unfold mount16, mount32; cbn [aucSectorData set_eMode set_ulSectorsPerFAT set_ulRootBegin];
    unfold PARTITION_SECTOR_OFFSET_16, SECTORS_PER_FAT_OFFSET_16, ROOT_ENTRIES_16,
      SECTORS_PER_FAT_OFFSET, ROOT_DIRECTORY_OFFSET.
  - destruct (load16_range (aucSectorData s) 32) as (? & -> & _); [done|rewrite ?Hl; lia..|]. rewrite bind_ok.
    destruct (load16_range (aucSectorData s) 0x16) as (n & -> & Hn); [done|rewrite ?Hl; lia..|]. rewrite bind_ok.
    destruct (load16_range (aucSectorData s) 0x11) as (? & -> & _); [done|rewrite ?Hl; lia..|]. rewrite bind_ok.
    eexists. split; [done|]. destruct Hw. split; cbn; try done; try apply u32_range; (lia || by left).
  - destruct (load32_range (aucSectorData s) 0x24) as (n & -> & Hn); [done|rewrite ?Hl; lia..|]. rewrite bind_ok.
    destruct (load32_range (aucSectorData s) 0x2C) as (m & -> & Hm); [done|rewrite ?Hl; lia..|]. rewrite bind_ok.
    eexists. split; [done|]. destruct Hw. split; cbn; try done; try apply u32_range; (lia || by right).
Qed.

Lemma MountPartition_sound p s :
  wf s → 0 <= p → (eState s = FAT32_STATE_MBR_READ → p < 4) → sound s (FAT32_MountPartition p s).
Proof.
  intros Hw Hp Hp4. unfold FAT32_MountPartition. case_decide as Hs; [|by apply sound_here]. specialize (Hp4 Hs).
  destruct (Z.leb_spec 4 p); [lia|]. pose proof (wf_sector _ Hw) as [Hl Hb].
  unfold MBR_PARTITION1_ADDR, LBA_BEGIN_OFFSET, MBR_PARTITION_SIZE, PARTITION_SECTOR_OFFSET_32,
    BYTES_PER_SEC_OFFSET, SECTORS_PER_CLUSETER_OFFSET, RESERVED_SECTOR_OFFSET, SECTORS_PER_FAT_OFFSET_16.
  destruct (load32_range (aucSectorData s) (446 + 8 + 16 * p)) as (lba & -> & _); [done|rewrite ?Hl; lia..|].
  destruct (load32_range (aucSectorData s) (446 + 12 + 16 * p)) as (? & -> & _); [done|rewrite ?Hl; lia..|].
  rewrite !bind_ok, ReadSector_total, bind_ok by done.
  pose proof (sector_at_ok lba) as [Hl1 Hb1].
  assert (wf (set_aucSectorData (sector_at lba) s)) as Hw1 by (destruct Hw; by split).
  cbn [aucSectorData set_aucSectorData set_ucSectorsPerCluster set_usNumReservedSectors].
  destruct (load16_range (sector_at lba) 0xB) as (n & -> & _); [done|rewrite ?Hl1; lia..|]. rewrite bind_ok.
  destruct (negb _).
  { eexists _, _. split; [done|]. split; [done|constructor]. }
  destruct (aget_byte (sector_at lba) 0xD) as (spc & -> & Hspc); [done|rewrite ?Hl1; lia..|]. rewrite bind_ok.
  destruct (load16_range (sector_at lba) 0xE) as (rsv & -> & Hrsv); [done|rewrite ?Hl1; lia..|]. rewrite bind_ok.
  destruct (load16_range (sector_at lba) 0x16) as (spf & -> & _); [done|rewrite ?Hl1; lia..|]. rewrite bind_ok.
  set (s2 := set_usNumReservedSectors _ _).
  assert (wf s2) as Hw2 by (destruct Hw1; by split).
  assert (∃ s3, (if negb (spf =? 0) then mount16 lba s2 else mount32 lba s2) = Ok s3 ∧ wf s3) as (s3 & -> & Hw3)
    by (destruct (negb _); apply mount_sound; auto).
  rewrite bind_ok. cbn [stFolder set_ucCurrentSector set_ucDirRecord set_eState].
  pose proof (wf_folder _ Hw3) as Hfol.
  rewrite (aset_some _ 0) by (rewrite (fw_name _ Hfol); lia). rewrite bind_ok.
  rewrite ReadSector_total by apply Hw3. rewrite bind_ok.
  eexists _, _. split; [done|]. cbn. rewrite Hs. split; [|constructor].
  set (k := if decide _ then _ else _). clearbody k. pose proof (sector_at_ok k).
  destruct Hw3. split; cbn; try done; try lia.
  destruct Hfol. split; cbn; try done; try lia. by rewrite length_insert.
Qed.

Lemma set_handle_wf folder f s : wf s → file_wf f → wf (set_handle folder f s).
Proof. intros Hw Hf. destruct Hw. destruct folder; by split. Qed.

Lemma handle_wf folder s : wf s → file_wf (handle folder s).
Proof. intros []. by destruct folder. Qed.

Lemma set_sector_wf n s : wf s → wf (set_aucSectorData (sector_at n) s).
Proof. intros Hw. pose proof (sector_at_ok n). destruct Hw. by split. Qed.

Lemma set_current_wf k s : wf s → byte_range k → wf (set_ucCurrentSector k s).
Proof. intros [] ?. by split. Qed.

Lemma set_dir_wf k s : wf s → 0 <= k < RECORDS_PER_SECTOR → wf (set_ucDirRecord k s).
Proof. intros [] ?. by split. Qed.

Lemma set_state_wf st s : wf s → wf (set_eState st s).
Proof. intros []. by split. Qed.

Lemma entry_range c s :
  0 <= (if decide (eMode s = FAT_MODE_32) then FAT32_ReadFAT32 c s else FAT32_ReadFAT16 c s) < 4294967296.
Proof.
  case_decide; unfold FAT32_ReadFAT32, FAT32_ReadFAT16, FAT32_RawReadByte; (case_match; [|lia]).
  - change (seqZ 0 4) with [0; 1; 2; 3]. cbn [foldl].
    assert (∀ a k, 0 <= k <= 24 → 0 <= Z.shiftr (u32 (Z.shiftl (raw a) 24)) k < 2 ^ 32) as Hb.
    { intros a k Hk. rewrite place_byte by (apply Hraw || lia). rewrite Z.shiftl_mul_pow2 by lia.
      pose proof (Hraw a). assert (2 ^ (24 - k) <= 2 ^ 24) by (apply Z.pow_le_mono_r; lia).
      pose proof (Z.pow_pos_nonneg 2 (24 - k)). nia. }
    repeat (apply (lor_bound _ _ 32); [lia| |apply Hb; lia]). lia.
  - pose proof (u16_range (foldl (λ ulData i, Z.lor ulData (Z.shiftr (u32 (Z.shiftl
      (raw (u32 (u32 (ulFATBegin s * FAT32_SECTOR_SIZE + c * 2) + i))) 8)) (8 - 8 * i))) 0 (seqZ 0 2))).
    lia.
Qed.

Lemma NextCluster_sound folder s :
  wf s → bEOF (handle folder s) = false →
  sound s (FAT32_ReadNextCluster folder s).
Proof.
  intros Hw He. unfold FAT32_ReadNextCluster. rewrite He. cbv zeta.
  set (nx := if decide (eMode s = FAT_MODE_32) then _ else _).
  assert (0 <= nx < 4294967296) as Hnx by apply entry_range. clearbody nx.
  assert (wf (set_handle folder (set_ulCurrentFAT nx (handle folder s)) s)) as Hw1.
  { apply set_handle_wf; [done|]. destruct (handle_wf folder s Hw). by split. }
  set (s1 := set_handle folder _ s) in *.
  assert (eState s1 = eState s) as Hst by (by destruct folder).
  destruct (if decide _ then _ else _).
  - eexists _, _. split; [done|]. split.
    + apply set_handle_wf; [done|]. destruct (handle_wf folder s1 Hw1). by split.
    + destruct folder; constructor.
  - apply sound_read; [by apply set_current_wf|]. cbn. rewrite Hst. constructor.
Qed.

Lemma dir_record_sound off rec s :
  wf s → 0 <= off → off + 32 <= 512 → (32 <= length rec)%nat →
  ∃ s' rec' r, dir_record off rec s = Ok (s', rec', r) ∧ wf s' ∧ length rec' = length rec ∧
    (s' = s ∨ s' = set_stFolder (set_bEOF true (stFolder s)) s ∧ aget (aucSectorData s) off = Ok FOLDER_END).
Proof.
  intros Hw Ho Ho' Hr. pose proof (wf_sector _ Hw) as [Hl Hb].
  unfold dir_record, ATTRIB_OFFSET, DIR_RECORD_SIZE.
  destruct (aget_byte (aucSectorData s) off) as (b & Hb0 & _); [done|rewrite Hl; lia|].
  rewrite Hb0, bind_ok. destruct (b =? FOLDER_UNUSED).
  { eexists _, _, _. split; [done|]. auto. }
  destruct (Z.eqb_spec b FOLDER_END) as [->|].
  { eexists _, _, _. split; [done|]. split; [|auto]. apply (set_handle_wf true); [done|].
    destruct (wf_folder _ Hw). by split. }
  destruct (aget_byte (aucSectorData s) (off + 0xB)) as (a & -> & _); [done|rewrite Hl; lia|].
  rewrite bind_ok. destruct (_ =? _).
  { eexists _, _, _. split; [done|]. auto. }
  match goal with |- context [forM ?l ?f rec] =>
    destruct (forM_inv (λ x : list Z, length x = length rec) l f rec) as (rec' & -> & Hrec'); [|done|] end.
  { intros i x Hi%elem_of_seqZ Hx.
    destruct (aget_byte (aucSectorData s) (off + i)) as (y & -> & _); [done|rewrite Hl; lia|].
    rewrite bind_ok, <- (Z2Nat.id i), aset_some by lia. eexists. split; [done|]. by rewrite length_insert. }
  eexists _, _, _. split; [done|]. auto.
Qed.

(** The end marker of a directory in the last record of a cluster. *)
Definition end_at_border (s : FAT32_DRIVER_STRUCT) : Prop :=
  ucDirRecord s = 15 ∧ ucSectorsPerCluster s <= u8 (ucCurrentSector s + 1) ∧
  aget (aucSectorData s) (ucDirRecord s * DIR_RECORD_SIZE) = Ok FOLDER_END.

Definition sound3 (s : FAT32_DRIVER_STRUCT) (buf : list Z)
    (m : res (FAT32_DRIVER_STRUCT * list Z * FAT32_RETURN_CODE)) : Prop :=
  ∃ s' buf' r, m = Ok (s', buf', r) ∧ wf s' ∧ fat_step (eState s) (eState s') ∧
    length buf' = length buf.

Lemma sound_sound3 s s1 buf buf1 m :
  sound s1 m → eState s1 = eState s → length buf1 = length buf →
  sound3 s buf ('(s, r) ← m; Ok (s, buf1, r)).
Proof.
  intros (s' & r & -> & Hw & Hst) He Hl. exists s', buf1, r. rewrite bind_ok, <- He. auto.
Qed.

#[local] Instance end_at_border_dec s : Decision (end_at_border s).
Proof.
  unfold end_at_border. refine (and_dec (Z.eq_dec _ _) (and_dec (Z_le_dec _ _) _)).
  destruct (aget _ _) as [z|f]; [|right; discriminate]. destruct (Z.eq_dec z FOLDER_END) as [->|]; [by left|right; congruence].
Defined.

Lemma DirReadRecord_sound rec s :
  wf s → (32 <= length rec)%nat →
  (eState s = FAT32_STATE_PARTITION_MOUNTED → bEOF (stFolder s) = false → ¬ end_at_border s) → sound3 s rec (FAT32_DirReadRecord rec s).
Proof.
  intros Hw Hr Hend0. pose proof (wf_dir _ Hw) as Hdir. unfold RECORDS_PER_SECTOR in Hdir.
  unfold FAT32_DirReadRecord, end_at_border, DIR_RECORD_SIZE in *. rewrite u16_small by lia.
  destruct (bool_decide_reflect (eState s = FAT32_STATE_PARTITION_MOUNTED)) as [Hs0|]; cbn [negb]; [|exists s; eauto 10 using step_stay].
  destruct (bEOF (stFolder s)) eqn:He; [exists s; eauto 10 using step_stay|]. specialize (Hend0 Hs0 eq_refl). rename Hend0 into Hend.
  destruct (dir_record_sound (ucDirRecord s * 32) rec s) as (s1 & rec1 & r1 & -> & Hw1 & Hr1 & Hs1);
    [done|lia..|]. rewrite bind_ok.
  assert (eState s1 = eState s ∧ ucDirRecord s1 = ucDirRecord s ∧
    ucCurrentSector s1 = ucCurrentSector s ∧ ucSectorsPerCluster s1 = ucSectorsPerCluster s)
    as (Hst & Hd & Hc & Hspc) by (destruct Hs1 as [-> | [-> _]]; done).
  cbn [ucDirRecord set_ucDirRecord set_ucCurrentSector ucSectorsPerCluster ucCurrentSector].
  rewrite Hd, u8_small by lia. unfold RECORDS_PER_SECTOR in *.
  destruct (Z.leb_spec 16 (ucDirRecord s + 1)).
  - set (s2 := set_ucCurrentSector _ _).
    assert (wf s2) as Hw2.
    { apply set_current_wf; [|apply u8_range]. destruct Hw1. by split. }
    apply (sound_sound3 s s2); [|by rewrite <- Hst|done]. rewrite Hc, Hspc.
    destruct (Z.leb_spec (ucSectorsPerCluster s) (u8 (ucCurrentSector s + 1))).
    + apply NextCluster_sound; [done|]. cbn.
      destruct Hs1 as [-> | [-> E]]; [done|]. exfalso. apply Hend. split; [lia|done].
    + rewrite ReadSector_total by apply Hw2. eexists _, _. split; [done|].
      split; [by apply set_sector_wf|constructor].
  - eexists _, _, _. split; [done|]. split; [apply set_dir_wf; [done|unfold RECORDS_PER_SECTOR; lia]|].
    cbn. rewrite Hst. split; [constructor|done].
Qed.

Lemma record_cluster_range idx s : wf s → 0 <= idx < RECORDS_PER_SECTOR →
  ∃ c, record_cluster s idx = Ok c ∧ 0 <= c < 4294967296.
Proof.
  unfold RECORDS_PER_SECTOR. intros Hw Hi. pose proof (wf_sector _ Hw) as [Hl Hb].
  unfold record_cluster, DIR_RECORD_SIZE, CLUSTER_HIGH_OFFSET, CLUSTER_LOW_OFFSET.
  destruct (load16_range (aucSectorData s) (idx * 32 + 0x14)) as (hi & -> & Hhi); [done|rewrite ?Hl; lia..|].
  destruct (load16_range (aucSectorData s) (idx * 32 + 0x1A)) as (lo & -> & Hlo); [done|rewrite ?Hl; lia..|].
  rewrite !bind_ok. eexists. split; [done|].
  apply (lor_bound _ _ 32); [lia|apply u32_range|lia].
Qed.

Lemma ChangeDir_sound idx s :
  wf s → 0 <= idx → (eState s = FAT32_STATE_PARTITION_MOUNTED → idx ≠ RECORDS_PER_SECTOR) → sound s (FAT32_ChangeDir idx s).
Proof.
  intros Hw Hi0 Hne. unfold FAT32_ChangeDir.
  destruct (bool_decide_reflect (eState s = FAT32_STATE_PARTITION_MOUNTED)) as [Hs|]; [|by apply sound_here]. cbn [negb].
  destruct (Z.ltb_spec RECORDS_PER_SECTOR idx); [by apply sound_here|]. specialize (Hne Hs).
  assert (0 <= idx < RECORDS_PER_SECTOR) as Hi by lia. pose proof (wf_sector _ Hw) as [Hl Hb].
  unfold RECORDS_PER_SECTOR in *.
  destruct (aget_byte (aucSectorData s) (idx * 32 + 0xB)) as (a & Ha & _); [done|rewrite ?Hl; lia..|].
  unfold DIR_RECORD_SIZE, ATTRIB_OFFSET, FILE_SIZE_OFFSET. rewrite Ha, bind_ok.
  destruct (negb _); [by apply sound_here|].
  destruct (record_cluster_range idx s Hw Hi) as (c & -> & Hc). rewrite bind_ok.
  destruct (load32_range (aucSectorData s) (idx * 32 + 0x1C)) as (n & -> & Hn); [done|rewrite ?Hl; lia..|].
  rewrite bind_ok. apply sound_read; [|constructor].
  apply set_dir_wf; [|unfold RECORDS_PER_SECTOR; lia]. apply set_current_wf; [|unfold byte_range; lia].
  apply (set_handle_wf true); [done|]. destruct (wf_folder _ Hw).
  cbn. destruct (c =? 0); split; cbn; (done || lia).
Qed.

Lemma OpenFile_sound idx s :
  wf s → 0 <= idx → (eState s = FAT32_STATE_PARTITION_MOUNTED → idx ≠ RECORDS_PER_SECTOR) → sound s (FAT32_OpenFile idx s).
Proof.
  intros Hw Hi0 Hne. unfold FAT32_OpenFile. destruct (bool_decide_reflect (eState s = FAT32_STATE_PARTITION_MOUNTED)) as [Hs|];
    [|by apply sound_here]. cbn [negb].
  destruct (Z.ltb_spec RECORDS_PER_SECTOR idx); [by apply sound_here|]. specialize (Hne Hs).
  assert (0 <= idx < RECORDS_PER_SECTOR) as Hi by lia. pose proof (wf_sector _ Hw) as [Hl Hb].
  unfold RECORDS_PER_SECTOR in *.
  destruct (aget_byte (aucSectorData s) (idx * 32 + 0xB)) as (a & Ha & _); [done|rewrite ?Hl; lia..|].
  unfold DIR_RECORD_SIZE, ATTRIB_OFFSET, FILE_SIZE_OFFSET. rewrite Ha, bind_ok.
  destruct (_ =? _); [by apply sound_here|].
  destruct (record_cluster_range idx s Hw Hi) as (c & -> & Hc). rewrite bind_ok.
  destruct (load32_range (aucSectorData s) (idx * 32 + 0x1C)) as (n & -> & Hn); [done|rewrite ?Hl; lia..|].
  rewrite bind_ok. rewrite ReadSector_total by done. rewrite bind_ok.
  eexists _, _. split; [done|]. cbn. rewrite Hs. split; [|constructor].
  match goal with |- context [sector_at ?k] => generalize k; intros k0 end.
  apply set_state_wf, set_sector_wf. destruct Hw as [? ? ? ? ? ? ? ? ? ? ? ? Hf Hd]. destruct Hf.
  split; cbn; try done; unfold byte_range, RECORDS_PER_SECTOR; try lia.
Qed.

Lemma CloseFile_sound s : wf s → sound s (FAT32_CloseFile s).
Proof.
  intros Hw. unfold FAT32_CloseFile. destruct (bool_decide_reflect (eState s = FAT32_STATE_FILE_OPEN)) as [Hs|];
    [|by apply sound_here]. cbn [negb].
  rewrite ReadSector_total by apply Hw. rewrite bind_ok. eexists _, _. split; [done|].
  cbn. rewrite Hs. split; [|constructor].
  apply set_state_wf, set_sector_wf, set_dir_wf; [|unfold RECORDS_PER_SECTOR; lia].
  apply set_current_wf; [done|unfold byte_range; lia].
Qed.

Lemma SeekBeginFolder_sound s : wf s → sound s (FAT32_SeekBeginFolder s).
Proof.
  intros Hw. unfold FAT32_SeekBeginFolder. destruct (negb _); [by apply sound_here|].
  apply sound_read; [|constructor].
  apply set_dir_wf; [|unfold RECORDS_PER_SECTOR; lia]. apply set_current_wf; [|unfold byte_range; lia].
  apply (set_handle_wf true); [done|]. destruct (wf_folder _ Hw). by split.
Qed.

Lemma SeekRootFolder_sound s : wf s → sound s (FAT32_SeekRootFolder s).
Proof.
  intros Hw. unfold FAT32_SeekRootFolder. destruct (negb _); [by apply sound_here|].
  apply sound_read; [|constructor].
  apply set_dir_wf; [|unfold RECORDS_PER_SECTOR; lia]. apply set_current_wf; [|unfold byte_range; lia].
  apply (set_handle_wf true); [done|]. destruct (wf_folder _ Hw). split; cbn; (done || lia).
Qed.

(** *** Commands that fault *)

(** A partition number above 3 leaves [FAT32_MountPartition] without a return
    value, which the dispatcher then passes on. *)
Theorem FAT32_mount_bad_partition p s :
  eState s = FAT32_STATE_MBR_READ → 4 <= p → FAT32_MountPartition p s = Fault Uninit.
Proof.
  intros Hs Hp. unfold FAT32_MountPartition. rewrite decide_True by done.
  by destruct (Z.leb_spec 4 p); [|lia].
Qed.

(** Record number 16 passes the range check and is read beyond the sector. *)
Theorem FAT32_record_16_out_of_bounds s :
  wf s → eState s = FAT32_STATE_PARTITION_MOUNTED →
  FAT32_OpenFile 16 s = Fault OutOfBounds ∧ FAT32_ChangeDir 16 s = Fault OutOfBounds.
Proof.
  intros Hw Hs. unfold FAT32_OpenFile, FAT32_ChangeDir. rewrite Hs. cbn [negb bool_decide decide].
  assert (aget (aucSectorData s) (16 * DIR_RECORD_SIZE + ATTRIB_OFFSET) = Fault OutOfBounds) as ->; [|done].
  unfold aget. rewrite decide_True by done. rewrite lookup_ge_None_2; [done|].
  destruct (wf_sector _ Hw) as [-> _]. change (_ + _) with 523. lia.
Qed.

(** A directory that ends in the last record of a cluster makes the driver
    follow the table with a cluster number it never read. *)
Theorem FAT32_dir_end_at_border rec s :
  wf s → eState s = FAT32_STATE_PARTITION_MOUNTED → bEOF (stFolder s) = false →
  end_at_border s → FAT32_DirReadRecord rec s = Fault Uninit.
Proof.
  intros Hw Hs He (Hd & Hc & Hend). unfold FAT32_DirReadRecord. rewrite bool_decide_true, He by done.
  rewrite Hd in *. change (u16 (15 * DIR_RECORD_SIZE)) with (15 * DIR_RECORD_SIZE). cbn [negb]. unfold dir_record.
  rewrite Hend, bind_ok. cbn [Z.eqb FOLDER_END FOLDER_UNUSED]. rewrite bind_ok.
  cbn [ucDirRecord set_ucDirRecord set_ucCurrentSector ucSectorsPerCluster ucCurrentSector set_stFolder].
  rewrite Hd. change (RECORDS_PER_SECTOR <=? u8 (15 + 1)) with true. cbv iota.
  by destruct (Z.leb_spec (ucSectorsPerCluster s) (u8 (ucCurrentSector s + 1))); [|lia].
Qed.

(** The fault of a command with the first byte [arg] of its argument, if it
    has one. *)
Definition control_fault (cmd : FAT32_COMMAND) (arg : Z) (s : FAT32_DRIVER_STRUCT) : option fault :=
  match cmd with
  | FAT32_CMD_MOUNT_PARTITION =>
      if bool_decide (eState s = FAT32_STATE_MBR_READ) && (4 <=? arg) then Some Uninit else None
  | FAT32_CMD_CHDIR | FAT32_CMD_OPEN_FILE_READ =>
      if bool_decide (eState s = FAT32_STATE_PARTITION_MOUNTED) && (arg =? RECORDS_PER_SECTOR) then Some OutOfBounds else None
  | FAT32_CMD_READ_NEXT_DIR =>
      if bool_decide (eState s = FAT32_STATE_PARTITION_MOUNTED) && negb (bEOF (stFolder s)) && bool_decide (end_at_border s)
      then Some Uninit else None
  | _ => None
  end.

(** C29: every command of the driver on a well-formed state, with an argument
    at least a record long.  Three commands fault: mounting a partition
    number above 3 after the partition table has been read returns no value,
    record number 16 of a mounted volume is read behind the sector buffer,
    and reading a directory that ends in the last record of a cluster uses a
    cluster number that was never read.  Every other command ends and leaves
    a well-formed state (complete sector buffer, every field within its
    width, directory index within the sector), moving only along the arrows
    uninitialised, partition table read, mounted, file open and back. *)
Theorem FAT32_Control_well_formed cmd buf s arg :
  wf s → (32 <= length buf)%nat → Forall byte_range buf → buf !! 0%nat = Some arg →
  match control_fault cmd arg s with
  | Some f => FAT32_Control cmd buf s = Fault f
  | None => ∃ s' buf' r, FAT32_Control cmd buf s = Ok (s', buf', r) ∧ wf s' ∧
      fat_step (eState s) (eState s') ∧ length buf' = length buf
  end.
Proof.
  intros Hw Hl Hb Harg. assert (0 <= arg) by (eapply Forall_lookup_1 in Hb; [|exact Harg]; apply Hb).
  assert (aget buf 0 = Ok arg) as Ha by (by apply (aget_some buf 0)).
  destruct (control_fault cmd arg s) as [f|] eqn:Ef.
  { destruct cmd; cbn [control_fault] in Ef; try done; destruct (_ && _) eqn:Ec; try done; injection Ef as <-; cbn [FAT32_Control]; rewrite ?Ha, ?bind_ok.
    - apply andb_true_iff in Ec as [Es%bool_decide_eq_true E4%Z.leb_le]. by rewrite FAT32_mount_bad_partition.
    - apply andb_true_iff in Ec as [[Es%bool_decide_eq_true Ee%negb_true_iff]%andb_true_iff Eb%bool_decide_eq_true]. by apply FAT32_dir_end_at_border.
    - apply andb_true_iff in Ec as [Es%bool_decide_eq_true ->%Z.eqb_eq]. unfold RECORDS_PER_SECTOR. by rewrite (proj2 (FAT32_record_16_out_of_bounds s Hw Es)).
    - apply andb_true_iff in Ec as [Es%bool_decide_eq_true ->%Z.eqb_eq]. unfold RECORDS_PER_SECTOR. by rewrite (proj1 (FAT32_record_16_out_of_bounds s Hw Es)). }
  change (sound3 s buf (FAT32_Control cmd buf s)).
  assert (sound s (Ok (s, FAT32_RETURN_OK))) as Hhere by (by apply sound_here).
  destruct cmd; cbn [FAT32_Control]; rewrite ?Ha, ?bind_ok; cbn [control_fault] in Ef.
  - apply (sound_sound3 s s); [by apply InitMedia_sound|done..].
  - apply (sound_sound3 s s); [|done..]. apply MountPartition_sound; [done|done|]. intros Es. rewrite bool_decide_true in Ef by done.
    destruct (Z.leb_spec 4 arg); [done|lia].
  - destruct (load32_range buf 0) as (n & -> & _); [done|lia..|]. rewrite bind_ok.
    apply (sound_sound3 s s); [|done..]. rewrite ReadSector_total by apply Hw.
    eexists _, _. split; [done|]. split; [by apply set_sector_wf|constructor].
  - apply (sound_sound3 s s buf buf _ Hhere); done.
  - apply DirReadRecord_sound; [done|done|]. intros Es Ee Hend. by rewrite !bool_decide_true, Ee in Ef by done.
  - destruct (SeekBeginFolder_sound s Hw) as (s' & r & -> & Hw' & Hst).
    rewrite bind_ok. eexists _, _, _. eauto.
  - apply (sound_sound3 s s); [|done..]. apply ChangeDir_sound; [done|done|]. intros Es ->. by rewrite bool_decide_true in Ef by done.
  - apply (sound_sound3 s s buf buf _ Hhere); done.
  - apply (sound_sound3 s s); [by apply SeekRootFolder_sound|done..].
  - apply (sound_sound3 s s); [|done..]. apply OpenFile_sound; [done|done|]. intros Es ->. by rewrite bool_decide_true in Ef by done.
  - apply (sound_sound3 s s buf buf _ Hhere); done.
  - apply (sound_sound3 s s); [by apply CloseFile_sound|done..].
Qed.

(** ** Mounting *)

Lemma aget_sector n off : 0 <= off < 512 → aget (sector n) off = Ok (raw (n * 512 + off)).
Proof.
  intros Ho. rewrite <- (Z2Nat.id off) at 1 by lia. apply aget_some. unfold sector.
  rewrite list_lookup_fmap, (proj2 (lookup_seqZ 0 512 (Z.to_nat off) off)) by lia. done.
Qed.

Lemma load16_sector n off : 0 <= off < 511 → load16 (sector n) off = Ok (le16 (n * 512 + off)).
Proof.
  intros Ho. unfold load16. rewrite !aget_sector by lia. rewrite !bind_ok. unfold le16.
  do 4 f_equal. lia.
Qed.

Lemma load32_sector n off : 0 <= off < 509 → load32 (sector n) off = Ok (le32 (n * 512 + off)).
Proof.
  intros Ho. unfold load32. rewrite !load16_sector by lia. rewrite !bind_ok. unfold le32.
  do 4 f_equal. lia.
Qed.

Definition fat_code (code : Z) : bool :=
  (code =? 0x0B) || (code =? 0x0C) || (code =? 0x0E) || (code =? 0x06).

Lemma valid_bits_nonzero (code : Z → Z) l v :
  (∀ i, i ∈ l → 0 <= i) → v ≠ 0 ∨ (∃ i, i ∈ l ∧ fat_code (code i) = true) →
  foldl (λ v i, valid_bit (code i) i v) v l ≠ 0.
Proof.
  revert v. induction l as [|i l IH]; intros v Hl Hv; [set_solver|]. cbn [foldl].
  assert (0 <= i) by set_solver. apply IH; [set_solver|].
  assert (v ≠ 0 ∨ fat_code (code i) = true ∨ ∃ j, j ∈ l ∧ fat_code (code j) = true) as Hc by set_solver.
  clear Hv. destruct Hc as [Hv | [Hv | Hv]]; [left|left|by right].
  - unfold valid_bit. repeat case_match; try done; rewrite Z.lor_eq_0_iff; tauto.
  - unfold valid_bit, fat_code in *.
    assert (Z.lor v (Z.shiftl 1 i) ≠ 0) as Hz.
    { rewrite Z.lor_eq_0_iff, Z.shiftl_1_l. pose proof (Z.pow_pos_nonneg 2 i). lia. }
    destruct (code i =? 0x0B), (code i =? 0x0C), (code i =? 0x0E), (code i =? 0x06); done.
Qed.

Lemma InitMedia_ok s : wf s → eState s = FAT32_STATE_UNINIT →
  (∃ i, 0 <= i < 4 ∧ fat_code (raw (450 + 16 * i)) = true) →
  ∃ v, FAT32_InitMedia s = Ok (set_eState FAT32_STATE_MBR_READ
    (set_ucValidPartitions v (set_aucSectorData (sector 0) s)), FAT32_RETURN_OK).
Proof.
  intros Hw Hs (i & Hi & Hcode). unfold FAT32_InitMedia. rewrite decide_True by done.
  rewrite FAT32_ReadSector_ok by (apply Hw || lia). rewrite bind_ok. cbn [aucSectorData set_aucSectorData].
  rewrite (forM_total _ _ (λ v i, valid_bit (raw (450 + 16 * i)) i v)).
  2: { intros j v Hj%elem_of_seqZ. unfold MBR_PARTITION1_ADDR, MBR_PARTITION_SIZE, PARTITION_CODE_OFFSET.
       rewrite aget_sector by lia. rewrite bind_ok. do 3 f_equal. lia. }
  rewrite bind_ok. match goal with |- context [foldl ?f 0 ?l] => assert (foldl f 0 l ≠ 0) as Hnz end.
  { apply (valid_bits_nonzero (λ i, raw (450 + 16 * i))).
    - intros j Hj%elem_of_seqZ. lia.
    - right. exists i. split; [apply elem_of_seqZ; lia|done]. }
  rewrite (proj2 (Z.eqb_neq _ _) Hnz). eauto.
Qed.

(** A driver that reads the partition table and mounts a FAT32 partition
    has found the volume: its allocation table behind the reserved sectors,
    its first cluster behind two copies of the table, its cluster size, and
    the first sector of the root directory in the buffer.  Together with
    the contents of an open file this covers the way from the bare medium
    to the bytes of a file. *)
Theorem FAT32_mount_finds_volume p s :
  wf s → eState s = FAT32_STATE_UNINIT → 0 <= p < 4 →
  let lba := le32 (454 + 16 * p) in
  let boot := lba * 512 in
  let fat := lba + le16 (boot + 14) in
  let first := fat + 2 * le32 (boot + 36) in
  fat_code (raw (450 + 16 * p)) = true → le16 (boot + 11) = 512 → le16 (boot + 22) = 0 →
  (lba + 1) * 512 <= 4294967296 → (first + 1) * 512 <= 4294967296 →
  ∃ s1 s2, FAT32_InitMedia s = Ok (s1, FAT32_RETURN_OK) ∧
    FAT32_MountPartition p s1 = Ok (s2, FAT32_RETURN_OK) ∧
    mounted_on (mkVolume fat first (raw (boot + 13))) s2 ∧
    eState s2 = FAT32_STATE_PARTITION_MOUNTED ∧ aucSectorData s2 = sector first ∧
    bEOF (stFolder s2) = false.
Proof.
  intros Hw Hs Hp lba boot fat first Hcode Hbps Hspf16 Hlba Hfirst.
  assert (∀ a, 0 <= le16 a < 65536) as H16.
  { intros a. unfold le16. pose proof (Hraw a). pose proof (Hraw (a + 1)). lia. }
  assert (∀ a, 0 <= le32 a < 4294967296) as H32.
  { intros a. unfold le32. pose proof (H16 a). pose proof (H16 (a + 2)). lia. }
  destruct (InitMedia_ok s Hw Hs) as (v & Hinit); [by exists p|].
  eexists _, _. split; [exact Hinit|].
  unfold FAT32_MountPartition. cbn [eState set_eState]. rewrite decide_True by done.
  destruct (Z.leb_spec 4 p); [lia|].
  cbn [aucSectorData set_eState set_ucValidPartitions set_aucSectorData].
  unfold MBR_PARTITION1_ADDR, LBA_BEGIN_OFFSET, MBR_PARTITION_SIZE, PARTITION_SECTOR_OFFSET_32,
    BYTES_PER_SEC_OFFSET, SECTORS_PER_CLUSETER_OFFSET, RESERVED_SECTOR_OFFSET, SECTORS_PER_FAT_OFFSET_16.
  rewrite !load32_sector, !bind_ok by lia.
  replace (0 * 512 + (446 + 8 + 16 * p)) with (454 + 16 * p) by lia. fold lba.
  pose proof (H32 (454 + 16 * p)) as Hr. fold lba in Hr.
  rewrite FAT32_ReadSector_ok by (done || lia). rewrite bind_ok.
  cbn [aucSectorData set_aucSectorData set_ucSectorsPerCluster set_usNumReservedSectors].
  rewrite !load16_sector by lia. fold boot. rewrite Hbps, bind_ok.
  change (512 =? FAT32_SECTOR_SIZE) with true. cbn [negb].
  rewrite aget_sector by lia. rewrite !bind_ok. fold boot. rewrite Hspf16. cbn [negb Z.eqb].
  unfold mount32, SECTORS_PER_FAT_OFFSET, ROOT_DIRECTORY_OFFSET.
  cbn [aucSectorData set_eMode set_aucSectorData set_ucSectorsPerCluster set_usNumReservedSectors set_ulSectorsPerFAT].
  rewrite !load32_sector by lia. fold boot. rewrite !bind_ok.
  pose proof (H16 (boot + 14)). pose proof (H32 (boot + 36)).
  cbn. fold fat. rewrite (u32_small fat) by lia. rewrite (u32_small (fat + _)) by lia. fold first.
  pose proof (fw_name _ (wf_folder _ Hw)) as Hname.
  rewrite (aset_some _ 0) by lia. rewrite bind_ok. rewrite decide_False by done.
  rewrite FAT32_ReadSector_ok by (done || lia). rewrite bind_ok. split; [done|].
  by cbn.
Qed.

(** ** Where the driver departs from its intent *)

(** An unused record in the last place of a sector is reported as a valid
    one: the outcome of loading the next sector replaces it, and the caller's
    buffer holds no record. *)
Theorem FAT32_unused_record_reported_ok rec s :
  wf s → eState s = FAT32_STATE_PARTITION_MOUNTED → bEOF (stFolder s) = false →
  ucDirRecord s = 15 → ucCurrentSector s + 1 < ucSectorsPerCluster s →
  aget (aucSectorData s) 480 = Ok FOLDER_UNUSED →
  ∃ s', FAT32_DirReadRecord rec s = Ok (s', rec, FAT32_RETURN_OK).
Proof.
  intros Hw Hs He Hd Hc Hu. unfold FAT32_DirReadRecord. rewrite bool_decide_true, He, Hd by done.
  change (u16 (15 * DIR_RECORD_SIZE)) with 480. cbn [negb]. unfold dir_record.
  rewrite Hu, bind_ok. cbn [Z.eqb FOLDER_UNUSED Pos.eqb]. rewrite bind_ok.
  cbn [ucDirRecord set_ucDirRecord set_ucCurrentSector ucSectorsPerCluster ucCurrentSector].
  rewrite Hd. change (RECORDS_PER_SECTOR <=? u8 (15 + 1)) with true. cbv iota.
  destruct (wf_current _ Hw), (wf_spc _ Hw). rewrite u8_small by lia.
  destruct (Z.leb_spec (ucSectorsPerCluster s) (ucCurrentSector s + 1)); [lia|].
  rewrite ReadSector_total by apply Hw. rewrite bind_ok. eauto.
Qed.

(** Listing the root directory of a FAT32 volume from its beginning loads a
    sector two clusters behind it, for the cluster offset is left out. *)
Theorem FAT32_SeekBegin_misses_root v s :
  wf s → mounted_on v s → eState s = FAT32_STATE_PARTITION_MOUNTED → ulHeadFAT (stFolder s) = 2 →
  0 <= vol_first v → (vol_first v + 2 * vol_spc v + 1) * 512 <= 4294967296 →
  ∃ s', FAT32_SeekBeginFolder s = Ok (s', FAT32_RETURN_OK) ∧
    aucSectorData s' = sector (vol_first v + 2 * vol_spc v).
Proof.
  intros Hw Hm Hs Hh Hf Hb. unfold FAT32_SeekBeginFolder. rewrite bool_decide_true by done.
  cbn [negb]. cbn. rewrite Hh, (mo_first _ _ Hm), (mo_spc _ _ Hm).
  pose proof (wf_spc _ Hw) as Hspc. rewrite (mo_spc _ _ Hm) in Hspc. unfold byte_range in Hspc.
  rewrite u32_small by lia. rewrite FAT32_ReadSector_ok by (apply Hw || lia). rewrite bind_ok.
  by eexists.
Qed.

End fat.

(** ** A small medium

    One FAT32 partition at sector 1 with one reserved sector, one table
    sector per copy and one sector per cluster; its root directory has the
    file of 600 bytes in the clusters 3 and 5. *)

Definition example_raw (a : Z) : Z :=
  if 2560 <=? a then a mod 256
  else default 0 ((list_to_map [(450, 0x0B); (454, 1);
    (512 + 12, 2); (512 + 13, 1); (512 + 14, 1); (512 + 36, 1);
    (1024 + 12, 5); (1024 + 20, 0xFF); (1024 + 21, 0xFF); (1024 + 22, 0xFF); (1024 + 23, 0x0F);
    (2048, 0x41); (2048 + 11, 0x20); (2048 + 26, 3); (2048 + 28, 0x58); (2048 + 29, 0x02)]
    : gmap Z Z) !! a).

Lemma example_raw_range a : 0 <= example_raw a < 256.
Proof.
  unfold example_raw. destruct (2560 <=? a); [apply Z.mod_pos_bound; lia|].
  cbn [list_to_map foldr uncurry fst snd].
  repeat (rewrite lookup_insert; case_decide; [cbn; lia|]). rewrite lookup_empty. cbn. lia.
Qed.

Definition example_file : FAT32_FILE_STRUCT := mkFile (replicate 12 0) 2 2 0 0 false.

Definition example_state (st : FAT32_STATE) : FAT32_DRIVER_STRUCT :=
  mkFat 1 2 4 0 2 1 1 (sector example_raw 4) 1 0 0 0 0 FAT_MODE_32 st example_file example_file.

Lemma example_wf st : wf (example_state st).
Proof.
  assert (file_wf example_file) by (split; cbn; (done || lia)).
  split; cbn; unfold byte_range, RECORDS_PER_SECTOR; try (done || lia || by right).
  split; [apply length_sector|]. apply Forall_fmap, Forall_true. intros i. apply example_raw_range.
Qed.

Definition example_volume : volume := mkVolume 2 4 1.

Lemma example_chain : chain_ok example_raw example_volume [3; 5].
Proof.
  split; [cbn; lia| |].
  - intros c [-> | [-> | []%elem_of_nil]%elem_of_cons]%elem_of_cons; vm_compute; repeat split; congruence.
  - intros [|[|j]] c c' H1 H2; cbn in *; try done. injection H1 as <-. injection H2 as <-. by vm_compute.
Qed.

Lemma FAT32_mount_finds_volume_witness :
  ∃ s1 s2, FAT32_InitMedia example_raw (example_state FAT32_STATE_UNINIT) = Ok (s1, FAT32_RETURN_OK) ∧
    FAT32_MountPartition example_raw 0 s1 = Ok (s2, FAT32_RETURN_OK) ∧ mounted_on example_volume s2.
Proof.
  destruct (FAT32_mount_finds_volume example_raw example_raw_range 0 (example_state FAT32_STATE_UNINIT))
    as (s1 & s2 & H1 & H2 & H3 & _).
  - apply example_wf.
  - reflexivity.
  - lia.
  - vm_compute. reflexivity.
  - vm_compute. reflexivity.
  - vm_compute. reflexivity.
  - vm_compute. discriminate.
  - vm_compute. discriminate.
  - exists s1, s2. split; [exact H1|]. split; [exact H2|exact H3].
Defined.

Lemma FAT32_file_contents_witness :
  ∃ s' s'' l, FAT32_OpenFile example_raw 0 (example_state FAT32_STATE_PARTITION_MOUNTED)
      = Ok (s', FAT32_RETURN_OK) ∧
    read_all example_raw [100; 450; 1000] s' = Ok (s'', l) ∧ length l = 600%nat ∧
    l !! 550%nat = Some (example_raw (7 * 512 + 38)).
Proof.
  destruct (FAT32_file_contents example_raw example_raw_range example_volume [3; 5] 600
    (example_state FAT32_STATE_PARTITION_MOUNTED) 0 [100; 450; 1000]) as (s' & s'' & H1 & H2).
  - by split.
  - reflexivity.
  - apply example_chain.
  - split.
    + unfold RECORDS_PER_SECTOR. lia.
    + eexists. split; [vm_compute; reflexivity|]. vm_compute. discriminate.
    + eexists. split; [vm_compute; reflexivity|]. reflexivity.
    + vm_compute. reflexivity.
  - lia.
  - vm_compute. discriminate.
  - repeat constructor; lia.
  - eexists s', s'', _. split; [exact H1|]. split; [exact H2|]. split; vm_compute; reflexivity.
Defined.

Lemma FAT32_Control_well_formed_witness :
  (∃ s' buf' r, FAT32_Control example_raw FAT32_CMD_READ_NEXT_DIR (replicate 32 0)
      (example_state FAT32_STATE_PARTITION_MOUNTED) = Ok (s', buf', r) ∧ wf s') ∧
  FAT32_Control example_raw FAT32_CMD_CHDIR (replicate 32 16) (example_state FAT32_STATE_PARTITION_MOUNTED) = Fault OutOfBounds.
Proof.
  split.
  - destruct (FAT32_Control_well_formed example_raw example_raw_range FAT32_CMD_READ_NEXT_DIR (replicate 32 0)
      (example_state FAT32_STATE_PARTITION_MOUNTED) 0) as (s' & buf' & r & H1 & H2 & _).
    + apply example_wf.
    + rewrite length_replicate. lia.
    + apply Forall_replicate. unfold byte_range. lia.
    + reflexivity.
    + exists s', buf', r. split; [exact H1|exact H2].
  - apply (FAT32_Control_well_formed example_raw example_raw_range FAT32_CMD_CHDIR (replicate 32 16) (example_state FAT32_STATE_PARTITION_MOUNTED) 16).
    + apply example_wf.
    + rewrite length_replicate. lia.
    + apply Forall_replicate. unfold byte_range. lia.
    + reflexivity.
Defined.

End Fat.
