(* ===== verification/FunkFooey.v ===== *)
(** * FunkOS: the Fooey user interface manager (modules/graphics/fooey.c)

    A manager holds an array of pointers to widgets and a circular queue of
    events.  Every widget carries its functions as pointers that
    [Fooey_AddWidget] copies from tables.  The functions behind them are
    parameters of this file; FunkWidgets supplies those of the widget set.
    There is one manager, which [pstOwner] of a widget refers to. *)
From S2P Require Import Prelude FunkDraw.

Module Fooey.
Open Scope Z_scope.

(** ** Data *)

(** The kinds of widgets, numbered in the order of the tables. *)
Inductive WIDGET_ID : Type :=
  | WIDGET_SURFACE_ID | WIDGET_LABEL_ID | WIDGET_BUTTON_ID | WIDGET_EDITBOX_ID
  | WIDGET_PROGRESSBAR_ID | WIDGET_CHECKBOX_ID | WIDGET_RADIOBUTTON_ID.

#[export] Instance WIDGET_ID_eq_dec : EqDecision WIDGET_ID.
Proof. solve_decision. Defined.

(** The tables [g_apfInit], [g_apfDraw], [g_apfControl] and [g_apfDestroy] of
    widgets.c have the function of a kind at its number and end in a null
    pointer; a pointer to the function of a kind is written as the kind. *)
Definition g_apf : list (option WIDGET_ID) :=
  [Some WIDGET_SURFACE_ID; Some WIDGET_LABEL_ID; Some WIDGET_BUTTON_ID; Some WIDGET_EDITBOX_ID;
   Some WIDGET_PROGRESSBAR_ID; Some WIDGET_CHECKBOX_ID; Some WIDGET_RADIOBUTTON_ID; None].

Definition SURFACE_NUM : Z := 0.

Inductive FOOEY_EVENT_TYPE : Type :=
  | FOOEY_EVENT_TICK | FOOEY_EVENT_TYPE_KEYBOARD | FOOEY_EVENT_TYPE_MOUSE.

#[export] Instance FOOEY_EVENT_TYPE_eq_dec : EqDecision FOOEY_EVENT_TYPE.
Proof. solve_decision. Defined.

(** An event; the union of event data is its raw 32-bit word. *)
Record FOOEY_EVENT_STRUCT : Type := mkEvent {
  usEventID : Z; usEventTime : Z; usDest : Z; ulRawData : Z
}.

Definition event_type_num (t : FOOEY_EVENT_TYPE) : Z :=
  match t with
  | FOOEY_EVENT_TICK => 0 | FOOEY_EVENT_TYPE_KEYBOARD => 1 | FOOEY_EVENT_TYPE_MOUSE => 2
  end.

(** The bit fields of a mouse event, from the low bit up. *)
Definition mouse_usX (e : FOOEY_EVENT_STRUCT) : Z := Z.land (ulRawData e) 0xFFF.
Definition mouse_bLeftState (e : FOOEY_EVENT_STRUCT) : Z := Z.land (Z.shiftr (ulRawData e) 12) 1.
Definition mouse_usY (e : FOOEY_EVENT_STRUCT) : Z := Z.land (Z.shiftr (ulRawData e) 16) 0xFFF.

Definition WIDGET_DEST_BROADCAST : Z := 0xFFFF.
Definition WIDGET_DEST_ACTIVE : Z := 0xFFFE.
Definition WIDGET_DEST_AUTO : Z := 0xFFFD.

Record GUI_BASE_STRUCT : Type := mkBase {
  usLeft : Z;
  usTop : Z;
  usRight : Z;
  usBottom : Z;
  usCtrlID : Z;
  ucGroup : Z;
  eType : Z;
  bRedraw : bool;
  bHasFocus : bool;
  pfInit : option WIDGET_ID;
  pfDraw : option WIDGET_ID;
  pfControl : option WIDGET_ID;
  pfDestroy : option WIDGET_ID;
  pstOwner : bool;
  pstParent : ptr
}.

Definition set_usLeft (v : Z) (r : GUI_BASE_STRUCT) : GUI_BASE_STRUCT :=
  mkBase v (usTop r) (usRight r) (usBottom r) (usCtrlID r) (ucGroup r)
    (eType r) (bRedraw r) (bHasFocus r) (pfInit r) (pfDraw r) (pfControl r)
    (pfDestroy r) (pstOwner r) (pstParent r).
Definition set_usTop (v : Z) (r : GUI_BASE_STRUCT) : GUI_BASE_STRUCT :=
  mkBase (usLeft r) v (usRight r) (usBottom r) (usCtrlID r) (ucGroup r)
    (eType r) (bRedraw r) (bHasFocus r) (pfInit r) (pfDraw r) (pfControl r)
    (pfDestroy r) (pstOwner r) (pstParent r).
Definition set_usRight (v : Z) (r : GUI_BASE_STRUCT) : GUI_BASE_STRUCT :=
  mkBase (usLeft r) (usTop r) v (usBottom r) (usCtrlID r) (ucGroup r) (eType
    r) (bRedraw r) (bHasFocus r) (pfInit r) (pfDraw r) (pfControl r)
    (pfDestroy r) (pstOwner r) (pstParent r).
Definition set_usBottom (v : Z) (r : GUI_BASE_STRUCT) : GUI_BASE_STRUCT :=
  mkBase (usLeft r) (usTop r) (usRight r) v (usCtrlID r) (ucGroup r) (eType
    r) (bRedraw r) (bHasFocus r) (pfInit r) (pfDraw r) (pfControl r)
    (pfDestroy r) (pstOwner r) (pstParent r).
Definition set_usCtrlID (v : Z) (r : GUI_BASE_STRUCT) : GUI_BASE_STRUCT :=
  mkBase (usLeft r) (usTop r) (usRight r) (usBottom r) v (ucGroup r) (eType
    r) (bRedraw r) (bHasFocus r) (pfInit r) (pfDraw r) (pfControl r)
    (pfDestroy r) (pstOwner r) (pstParent r).
Definition set_ucGroup (v : Z) (r : GUI_BASE_STRUCT) : GUI_BASE_STRUCT :=
  mkBase (usLeft r) (usTop r) (usRight r) (usBottom r) (usCtrlID r) v (eType
    r) (bRedraw r) (bHasFocus r) (pfInit r) (pfDraw r) (pfControl r)
    (pfDestroy r) (pstOwner r) (pstParent r).
Definition set_eType (v : Z) (r : GUI_BASE_STRUCT) : GUI_BASE_STRUCT :=
  mkBase (usLeft r) (usTop r) (usRight r) (usBottom r) (usCtrlID r) (ucGroup
    r) v (bRedraw r) (bHasFocus r) (pfInit r) (pfDraw r) (pfControl r)
    (pfDestroy r) (pstOwner r) (pstParent r).
Definition set_bRedraw (v : bool) (r : GUI_BASE_STRUCT) : GUI_BASE_STRUCT :=
  mkBase (usLeft r) (usTop r) (usRight r) (usBottom r) (usCtrlID r) (ucGroup
    r) (eType r) v (bHasFocus r) (pfInit r) (pfDraw r) (pfControl r)
    (pfDestroy r) (pstOwner r) (pstParent r).
Definition set_bHasFocus (v : bool) (r : GUI_BASE_STRUCT) : GUI_BASE_STRUCT :=
  mkBase (usLeft r) (usTop r) (usRight r) (usBottom r) (usCtrlID r) (ucGroup
    r) (eType r) (bRedraw r) v (pfInit r) (pfDraw r) (pfControl r)
    (pfDestroy r) (pstOwner r) (pstParent r).
Definition set_pfInit (v : option WIDGET_ID) (r : GUI_BASE_STRUCT) : GUI_BASE_STRUCT :=
  mkBase (usLeft r) (usTop r) (usRight r) (usBottom r) (usCtrlID r) (ucGroup
    r) (eType r) (bRedraw r) (bHasFocus r) v (pfDraw r) (pfControl r)
    (pfDestroy r) (pstOwner r) (pstParent r).
Definition set_pfDraw (v : option WIDGET_ID) (r : GUI_BASE_STRUCT) : GUI_BASE_STRUCT :=
  mkBase (usLeft r) (usTop r) (usRight r) (usBottom r) (usCtrlID r) (ucGroup
    r) (eType r) (bRedraw r) (bHasFocus r) (pfInit r) v (pfControl r)
    (pfDestroy r) (pstOwner r) (pstParent r).
Definition set_pfControl (v : option WIDGET_ID) (r : GUI_BASE_STRUCT) : GUI_BASE_STRUCT :=
  mkBase (usLeft r) (usTop r) (usRight r) (usBottom r) (usCtrlID r) (ucGroup
    r) (eType r) (bRedraw r) (bHasFocus r) (pfInit r) (pfDraw r) v
    (pfDestroy r) (pstOwner r) (pstParent r).
Definition set_pfDestroy (v : option WIDGET_ID) (r : GUI_BASE_STRUCT) : GUI_BASE_STRUCT :=
  mkBase (usLeft r) (usTop r) (usRight r) (usBottom r) (usCtrlID r) (ucGroup
    r) (eType r) (bRedraw r) (bHasFocus r) (pfInit r) (pfDraw r) (pfControl
    r) v (pstOwner r) (pstParent r).
Definition set_pstOwner (v : bool) (r : GUI_BASE_STRUCT) : GUI_BASE_STRUCT :=
  mkBase (usLeft r) (usTop r) (usRight r) (usBottom r) (usCtrlID r) (ucGroup
    r) (eType r) (bRedraw r) (bHasFocus r) (pfInit r) (pfDraw r) (pfControl
    r) (pfDestroy r) v (pstParent r).
Definition set_pstParent (v : ptr) (r : GUI_BASE_STRUCT) : GUI_BASE_STRUCT :=
  mkBase (usLeft r) (usTop r) (usRight r) (usBottom r) (usCtrlID r) (ucGroup
    r) (eType r) (bRedraw r) (bHasFocus r) (pfInit r) (pfDraw r) (pfControl
    r) (pfDestroy r) (pstOwner r) v.

Record GUI_EVENT_QUEUE_STRUCT : Type := mkQueue {
  pstEvents : list FOOEY_EVENT_STRUCT;
  ucSize : Z;
  ucHead : Z;
  ucTail : Z
}.

Definition set_pstEvents (v : list FOOEY_EVENT_STRUCT) (r : GUI_EVENT_QUEUE_STRUCT) : GUI_EVENT_QUEUE_STRUCT :=
  mkQueue v (ucSize r) (ucHead r) (ucTail r).
Definition set_ucSize (v : Z) (r : GUI_EVENT_QUEUE_STRUCT) : GUI_EVENT_QUEUE_STRUCT :=
  mkQueue (pstEvents r) v (ucHead r) (ucTail r).
Definition set_ucHead (v : Z) (r : GUI_EVENT_QUEUE_STRUCT) : GUI_EVENT_QUEUE_STRUCT :=
  mkQueue (pstEvents r) (ucSize r) v (ucTail r).
Definition set_ucTail (v : Z) (r : GUI_EVENT_QUEUE_STRUCT) : GUI_EVENT_QUEUE_STRUCT :=
  mkQueue (pstEvents r) (ucSize r) (ucHead r) v.

Record GUI_MANAGER_STRUCT : Type := mkManager {
  pstDisplay : Draw.DISPLAY_DRIVER_STRUCT;
  stEvents : GUI_EVENT_QUEUE_STRUCT;
  pastScene : list ptr;
  usNumWidgets : Z;
  ulCurrentID : Z;
  ucMaxGroup : Z
}.

Definition set_pstDisplay (v : Draw.DISPLAY_DRIVER_STRUCT) (r : GUI_MANAGER_STRUCT) : GUI_MANAGER_STRUCT :=
  mkManager v (stEvents r) (pastScene r) (usNumWidgets r) (ulCurrentID r)
    (ucMaxGroup r).
Definition set_stEvents (v : GUI_EVENT_QUEUE_STRUCT) (r : GUI_MANAGER_STRUCT) : GUI_MANAGER_STRUCT :=
  mkManager (pstDisplay r) v (pastScene r) (usNumWidgets r) (ulCurrentID r)
    (ucMaxGroup r).
Definition set_pastScene (v : list ptr) (r : GUI_MANAGER_STRUCT) : GUI_MANAGER_STRUCT :=
  mkManager (pstDisplay r) (stEvents r) v (usNumWidgets r) (ulCurrentID r)
    (ucMaxGroup r).
Definition set_usNumWidgets (v : Z) (r : GUI_MANAGER_STRUCT) : GUI_MANAGER_STRUCT :=
  mkManager (pstDisplay r) (stEvents r) (pastScene r) v (ulCurrentID r)
    (ucMaxGroup r).
Definition set_ulCurrentID (v : Z) (r : GUI_MANAGER_STRUCT) : GUI_MANAGER_STRUCT :=
  mkManager (pstDisplay r) (stEvents r) (pastScene r) (usNumWidgets r) v
    (ucMaxGroup r).
Definition set_ucMaxGroup (v : Z) (r : GUI_MANAGER_STRUCT) : GUI_MANAGER_STRUCT :=
  mkManager (pstDisplay r) (stEvents r) (pastScene r) (usNumWidgets r)
    (ulCurrentID r) v.

Section fooey.
Context {D W : Type}.

(** A widget: the common part first, then what its kind adds. *)
Record WIDGET : Type := mkWidget { stWidget : GUI_BASE_STRUCT; wdata : D }.

Definition upd_base (f : GUI_BASE_STRUCT → GUI_BASE_STRUCT) (w : WIDGET) : WIDGET :=
  mkWidget (f (stWidget w)) (wdata w).

(** The widgets by address, the manager, and everything else (the display
    and the application). *)
Record FSYS : Type := mkFSYS { widgets : gmap nat WIDGET; mgr : GUI_MANAGER_STRUCT; world : W }.

Definition set_widgets (v : gmap nat WIDGET) (s : FSYS) : FSYS := mkFSYS v (mgr s) (world s).
Definition set_mgr (v : GUI_MANAGER_STRUCT) (s : FSYS) : FSYS := mkFSYS (widgets s) v (world s).
Definition set_world (v : W) (s : FSYS) : FSYS := mkFSYS (widgets s) (mgr s) v.
Definition set_queue (q : GUI_EVENT_QUEUE_STRUCT) (s : FSYS) : FSYS :=
  set_mgr (set_stEvents q (mgr s)) s.

Definition upd_widget (p : ptr) (f : WIDGET → WIDGET) (s : FSYS) : res FSYS :=
  m ← assign (widgets s) p f; Ok (set_widgets m s).
Definition base_of (p : ptr) (s : FSYS) : res GUI_BASE_STRUCT :=
  w ← deref (widgets s) p; Ok (stWidget w).

(** The functions behind the pointers of the widgets. *)
Context (init draw : WIDGET_ID → nat → FSYS → res FSYS)
  (control : WIDGET_ID → nat → FOOEY_EVENT_STRUCT → FSYS → res FSYS) (fuel : nat).

Definition call_draw (pf : option WIDGET_ID) (a : nat) (s : FSYS) : res FSYS :=
  match pf with None => Fault NullCall | Some k => draw k a s end.
Definition call_control (pf : option WIDGET_ID) (a : nat) (e : FOOEY_EVENT_STRUCT) (s : FSYS) : res FSYS :=
  match pf with None => Fault NullCall | Some k => control k a e s end.

(** [for (i = 0; i < pstManager_->usNumWidgets; i++)]: the bound is read from
    the state [T] by [num] in every turn; the body answers whether it breaks. *)
Fixpoint scene_loop {T} (num : T → Z) (n : nat) (i : Z) (body : Z → T → res (bool * T)) (t : T) : res T :=
  if i <? num t then
    match n with
    | O => Fault OutOfFuel
    | S n =>
        '(brk, t) ← body i t;
        if brk : bool then Ok t else scene_loop num n (u16 (i + 1)) body t
    end
  else Ok t.

Definition num_widgets (s : FSYS) : Z := usNumWidgets (mgr s).

(** The body of a loop that skips null entries. *)
Definition each (f : nat → FSYS → res (bool * FSYS)) (i : Z) (s : FSYS) : res (bool * FSYS) :=
  p ← aget (pastScene (mgr s)) i;
  match p with None => Ok (false, s) | Some a => f a s end.

(** ** Setup *)

Definition Fooey_InitDisplay (pstDisplay_ : Draw.DISPLAY_DRIVER_STRUCT) (pstEvents_ : list FOOEY_EVENT_STRUCT) (ucNumEvents_ : Z)
    (astWidgets_ : list ptr) (usNumWidgets_ : Z) (s : FSYS) : res FSYS :=
  scene ← forM (seqZ 0 usNumWidgets_) (λ i l, aset l i NULL) astWidgets_;
  let m := set_pstDisplay pstDisplay_ (mgr s) in
  let m := set_pastScene scene m in
  let m := set_usNumWidgets usNumWidgets_ m in
  Ok (set_mgr (set_stEvents (mkQueue pstEvents_ ucNumEvents_ 0 0) m) s).

Definition Fooey_AddWidget (pstWidget_ : ptr) (ucGroup_ eType_ : Z) (s : FSYS) : res (FSYS * bool) :=
  o ← search (λ p : ptr, bool_decide (p = NULL)) (pastScene (mgr s)) (seqZ 0 (usNumWidgets (mgr s)));
  match o with
  | None => Ok (s, false)
  | Some (i, _) =>
      scene ← aset (pastScene (mgr s)) i pstWidget_;
      let s := set_mgr (set_pastScene scene (mgr s)) s in
      s ← upd_widget pstWidget_ (upd_base (set_ucGroup ucGroup_)) s;
      let s := if ucMaxGroup (mgr s) <? ucGroup_ then set_mgr (set_ucMaxGroup ucGroup_ (mgr s)) s else s in
      s ← upd_widget pstWidget_ (upd_base (set_bRedraw true)) s;
      s ← upd_widget pstWidget_ (upd_base (set_bHasFocus false)) s;
      pf ← aget g_apf eType_;
      s ← upd_widget pstWidget_ (upd_base (set_pfInit pf)) s;
      s ← upd_widget pstWidget_ (upd_base (set_pfDraw pf)) s;
      s ← upd_widget pstWidget_ (upd_base (set_pfControl pf)) s;
      s ← upd_widget pstWidget_ (upd_base (set_pfDestroy pf)) s;
      s ← upd_widget pstWidget_ (upd_base (set_pstOwner true)) s;
      s ← upd_widget pstWidget_ (upd_base (set_eType eType_)) s;
      Ok (s, true)
  end.

Definition Fooey_RemoveWidget (pstWidget_ : ptr) (s : FSYS) : res (FSYS * bool) :=
  o ← search (λ p : ptr, bool_decide (p = pstWidget_)) (pastScene (mgr s))
        (seqZ 0 (usNumWidgets (mgr s)));
  match o with
  | None => Ok (s, false)
  | Some (i, _) =>
      scene ← aset (pastScene (mgr s)) i NULL;
      Ok (set_mgr (set_pastScene scene (mgr s)) s, true)
  end.

Definition Fooey_InitWidget (pstWidget_ : ptr) (s : FSYS) : res FSYS :=
  match pstWidget_ with
  | None => Ok s
  | Some a =>
      b ← base_of pstWidget_ s;
      match pfInit b with None => Fault NullCall | Some k => init k a s end
  end.

Definition Fooey_ResetFocus (s : FSYS) : res FSYS :=
  scene_loop num_widgets fuel 0 (each (λ a s,
    b ← base_of (Some a) s;
    if bHasFocus b then
      s ← upd_widget (Some a) (upd_base (set_bHasFocus false)) s;
      s ← upd_widget (Some a) (upd_base (set_bRedraw true)) s;
      Ok (false, s)
    else Ok (false, s))) s.

(** ** Rendering *)

(** One group: the number of controls drawn so far and the state. *)
Definition render_group (ucGroup_ : Z) (usCtrlsDrawn : Z) (s : FSYS) : res (Z * FSYS) :=
  scene_loop (λ t, num_widgets t.2) fuel 0 (λ i '(usCtrlsDrawn, s),
    p ← aget (pastScene (mgr s)) i;
    match p with
    | None => Ok (false, (usCtrlsDrawn, s))
    | Some a =>
        b ← base_of (Some a) s;
        if (ucGroup b =? ucGroup_) && bRedraw b then
          s ← call_draw (pfDraw b) a s;
          s ← upd_widget (Some a) (upd_base (set_bRedraw false)) s;
          Ok (false, (u16 (usCtrlsDrawn + 1), s))
        else Ok (false, (usCtrlsDrawn, s))
    end) (usCtrlsDrawn, s).

Fixpoint render_loop (n : nat) (ucGroup_ usCtrlsToDraw usCtrlsDrawn : Z) (s : FSYS) : res FSYS :=
  if ucGroup_ <=? ucMaxGroup (mgr s) then
    match n with
    | O => Fault OutOfFuel
    | S n =>
        '(usCtrlsDrawn, s) ← render_group ucGroup_ usCtrlsDrawn s;
        if usCtrlsToDraw =? usCtrlsDrawn then Ok s
        else render_loop n (u8 (ucGroup_ + 1)) usCtrlsToDraw usCtrlsDrawn s
    end
  else Ok s.

Definition Fooey_RenderChanged (s : FSYS) : res FSYS :=
  '(usCtrlsToDraw, s) ← scene_loop (λ t, num_widgets t.2) fuel 0 (λ i '(n, s),
    p ← aget (pastScene (mgr s)) i;
    match p with
    | None => Ok (false, (n, s))
    | Some a => b ← base_of (Some a) s; Ok (false, (if bRedraw b then u16 (n + 1) else n, s))
    end) (0, s);
  render_loop fuel 0 usCtrlsToDraw 0 s.

Definition Fooey_RenderAll (s : FSYS) : res FSYS :=
  s ← scene_loop num_widgets fuel 0 (each (λ a s,
    s ← upd_widget (Some a) (upd_base (set_bRedraw true)) s; Ok (false, s))) s;
  Fooey_RenderChanged s.

(** ** Events *)

Definition next_index (q : GUI_EVENT_QUEUE_STRUCT) (i : Z) : Z :=
  let n := u8 (i + 1) in if ucSize q <=? n then 0 else n.

Definition Fooey_SendEvent (pstEvent_ : FOOEY_EVENT_STRUCT) (s : FSYS) : res (FSYS * bool) :=
  let q := stEvents (mgr s) in
  let ucNextHead := next_index q (ucHead q) in
  if ucNextHead =? ucTail q then Ok (s, false)
  else
    evs ← aset (pstEvents q) (ucHead q) pstEvent_;
    Ok (set_queue (set_ucHead ucNextHead (set_pstEvents evs q)) s, true).

(** The receivers of an event. *)
Definition dispatch (e : FOOEY_EVENT_STRUCT) (s : FSYS) : res FSYS :=
  let to_first := λ P : GUI_BASE_STRUCT → bool,
    scene_loop num_widgets fuel 0 (each (λ a s,
      b ← base_of (Some a) s;
      if P b then s ← call_control (pfControl b) a e s; Ok (true, s) else Ok (false, s))) s in
  if usDest e =? WIDGET_DEST_BROADCAST then
    scene_loop num_widgets fuel 0 (each (λ a s,
      b ← base_of (Some a) s;
      s ← call_control (pfControl b) a e s; Ok (false, s))) s
  else if usDest e =? WIDGET_DEST_ACTIVE then to_first bHasFocus
  else if usDest e =? WIDGET_DEST_AUTO then to_first (λ b, eType b =? SURFACE_NUM)
  else to_first (λ b, usCtrlID b =? usDest e).

Fixpoint process_loop (n : nat) (s : FSYS) : res FSYS :=
  let q := stEvents (mgr s) in
  if ucTail q =? ucHead q then Ok s
  else match n with
  | O => Fault OutOfFuel
  | S n =>
      stEvent ← aget (pstEvents q) (ucTail q);
      s ← dispatch stEvent s;
      let q := stEvents (mgr s) in
      process_loop n (set_queue (set_ucTail (next_index q (ucTail q)) q) s)
  end.

Definition Fooey_ProcessEvents (s : FSYS) : res FSYS := process_loop fuel s.

(** ** Geometry *)

Fixpoint offset_loop (n : nat) (pstMyParent : ptr) (usX usY : Z) (s : FSYS) : res (Z * Z) :=
  match pstMyParent with
  | None => Ok (usX, usY)
  | Some _ =>
      match n with
      | O => Fault OutOfFuel
      | S n =>
          b ← base_of pstMyParent s;
          offset_loop n (pstParent b) (u16 (usX + usLeft b)) (u16 (usY + usTop b)) s
      end
  end.

Definition Fooey_GetControlOffsets (pstWidget_ : ptr) (s : FSYS) : res (Z * Z) :=
  b ← base_of pstWidget_ s;
  offset_loop fuel (pstParent b) 0 0 s.

(** A property the body of a loop keeps holds after the loop. *)
Lemma scene_loop_inv {T} (P : T → Prop) (num : T → Z) n i body t t' :
  (∀ i t r, P t → body i t = Ok r → P r.2) → P t →
  scene_loop num n i body t = Ok t' → P t'.
Proof.
  intros Hb. revert i t. induction n as [|n IH]; intros i t Ht H; cbn [scene_loop] in H.
  - destruct (_ <? _); [done|]. by injection H as <-.
  - destruct (_ <? _); [|by injection H as <-].
    destruct (body i t) as [[[] t1]|] eqn:E; [| |done]; rewrite bind_ok in H; apply (Hb _ _ _ Ht) in E.
    + by injection H as <-.
    + by apply IH in H.
Qed.

(** ** The scene as a list *)

(** A scene of [usNumWidgets] entries. *)
Definition scene_ok (m : GUI_MANAGER_STRUCT) : Prop :=
  usNumWidgets m = Z.of_nat (length (pastScene m)) ∧ usNumWidgets m < 65536.

(** The widgets of a scene, in its order. *)
Definition live (m : GUI_MANAGER_STRUCT) : list nat := omap id (pastScene m).

(** The common parts of the widgets. *)
Definition bases (s : FSYS) : gmap nat GUI_BASE_STRUCT := stWidget <$> widgets s.

(** A loop over the entries of a list, with break. *)
Fixpoint scan {A T} (g : A → T → res (bool * T)) (l : list A) (t : T) : res T :=
  match l with
  | [] => Ok t
  | p :: l => '(brk, t) ← g p t; if brk : bool then Ok t else scan g l t
  end.

Lemma scene_loop_scan {T} (st : T → FSYS) (g : ptr → T → res (bool * T)) m n pre suf body t :
  (∀ i t, body i t = (p ← aget (pastScene (mgr (st t))) i; g p t)) →
  (∀ p t t', g p t = Ok (false, t') → mgr (st t) = m → mgr (st t') = m) →
  scene_ok m → pastScene m = pre ++ suf → mgr (st t) = m → (length suf <= n)%nat →
  scene_loop (λ t, num_widgets (st t)) n (Z.of_nat (length pre)) body t = scan g suf t.
Proof.
  intros Hbody Hg [Hnum Hlt]. revert n pre t.
  induction suf as [|p suf IH]; intros n pre t Hm Ht Hn.
  - destruct n; cbn [scene_loop]; unfold num_widgets; rewrite Ht, Hnum, Hm, app_nil_r;
      (destruct (Z.ltb_spec (Z.of_nat (length pre)) (Z.of_nat (length pre))); [lia|done]).
  - destruct n as [|n]; [cbn in Hn; lia|]. cbn [scene_loop scan]. unfold num_widgets at 1.
    rewrite Ht, Hnum, Hm, length_app. cbn [length].
    destruct (Z.ltb_spec (Z.of_nat (length pre)) (Z.of_nat (length pre + S (length suf)))); [|lia].
    rewrite Hbody, Ht, Hm, aget_app, bind_ok.
    destruct (g p t) as [[brk t']|] eqn:E; [rewrite !bind_ok|done]. destruct brk; [done|].
    rewrite Hnum, Hm, length_app in Hlt. cbn [length] in Hlt, Hn. rewrite u16_small by lia.
    replace (Z.of_nat (length pre) + 1) with (Z.of_nat (length (pre ++ [p])))
      by (rewrite length_app; cbn; lia).
    apply IH; [by rewrite <- app_assoc|by eapply Hg|lia].
Qed.

(** The same for a whole scene and a body that skips null entries. *)
Lemma scene_loop_live {T} (st : T → FSYS) (f : nat → T → res (bool * T)) body t :
  (∀ i t, body i t = (p ← aget (pastScene (mgr (st t))) i;
                      match p with None => Ok (false, t) | Some a => f a t end)) →
  (∀ a t t', f a t = Ok (false, t') → mgr (st t') = mgr (st t)) →
  scene_ok (mgr (st t)) → 65536 <= Z.of_nat fuel →
  scene_loop (λ t, num_widgets (st t)) fuel 0 body t = scan f (live (mgr (st t))) t.
Proof.
  intros Hbody Hf Hok Hfuel.
  rewrite (scene_loop_scan st (λ p t, match p with None => Ok (false, t) | Some a => f a t end)
    (mgr (st t)) fuel [] (pastScene (mgr (st t)))); [|done| |done..|].
  - unfold live. clear. generalize (pastScene (mgr (st t))). intros l. revert t.
    induction l as [|[a|] l IH]; intros t; [done| |]; cbn [scan omap list_omap id]; [|apply IH].
    destruct (f a t) as [[[] t']|]; rewrite ?bind_ok; [done|apply IH|done].
  - intros [a|] t1 t2 E <-; [|by injection E as ->]. by eapply Hf.
  - destruct Hok. lia.
Qed.

Lemma base_of_bases a s : base_of (Some a) s =
  match bases s !! a with Some b => Ok b | None => Fault WildDeref end.
Proof.
  unfold base_of, deref, bases. rewrite lookup_fmap. by destruct (widgets s !! a).
Qed.

Lemma upd_widget_bases a f s s' :
  upd_widget (Some a) (upd_base f) s = Ok s' →
  mgr s' = mgr s ∧ bases s' = alter f a (bases s).
Proof.
  unfold upd_widget, assign. destruct (widgets s !! a) as [w|] eqn:E; [|done].
  rewrite bind_ok. intros [= <-]. split; [done|]. unfold bases. cbn.
  rewrite fmap_insert. apply map_eq. intros i.
  destruct (decide (i = a)) as [->|]; [rewrite lookup_insert_eq, lookup_alter_eq, lookup_fmap, E; done|].
  by rewrite lookup_insert_ne, lookup_alter_ne.
Qed.

Lemma upd_widget_ok a f s : is_Some (bases s !! a) → ∃ s', upd_widget (Some a) f s = Ok s'.
Proof.
  unfold bases. rewrite lookup_fmap, fmap_is_Some. intros [w Hw]. unfold upd_widget.
  rewrite (assign_some _ _ _ _ Hw). by eexists.
Qed.

(** ** Focus *)

(** [Fooey_ResetFocus] takes the focus from every widget of the scene and
    marks exactly those that had it for drawing. *)
Definition unfocus (b : GUI_BASE_STRUCT) : GUI_BASE_STRUCT :=
  if bHasFocus b then set_bRedraw true (set_bHasFocus false b) else b.

Definition reset_one (a : nat) (s : FSYS) : res (bool * FSYS) :=
  b ← base_of (Some a) s;
  if bHasFocus b then
    s ← upd_widget (Some a) (upd_base (set_bHasFocus false)) s;
    s ← upd_widget (Some a) (upd_base (set_bRedraw true)) s;
    Ok (false, s)
  else Ok (false, s).

Lemma reset_one_ok a s : is_Some (bases s !! a) →
  ∃ s', reset_one a s = Ok (false, s') ∧ mgr s' = mgr s ∧ bases s' = alter unfocus a (bases s).
Proof.
  intros [b Hb]. unfold reset_one. rewrite base_of_bases, Hb, bind_ok.
  destruct (bHasFocus b) eqn:Hf.
  - destruct (upd_widget_ok a (upd_base (set_bHasFocus false)) s) as [s1 E1]; [by eexists|].
    destruct (upd_widget_bases _ _ _ _ E1) as [Hm1 Hb1]. rewrite E1, bind_ok.
    destruct (upd_widget_ok a (upd_base (set_bRedraw true)) s1) as [s2 E2].
    { rewrite Hb1, lookup_alter_eq, Hb. by eexists. }
    destruct (upd_widget_bases _ _ _ _ E2) as [Hm2 Hb2]. rewrite E2, bind_ok.
    exists s2. split; [done|]. split; [congruence|]. rewrite Hb2, Hb1, alter_alter_eq.
    apply alter_ext. intros x Hx. cbn. unfold unfocus.
    rewrite Hb in Hx. injection Hx as <-. by rewrite Hf.
  - exists s. split; [done|]. split; [done|]. symmetry. apply alter_id.
    intros x Hx. rewrite Hb in Hx. injection Hx as <-. unfold unfocus. by rewrite Hf.
Qed.

(** Steps that change one common part each by an idempotent [h]. *)
Lemma scan_alter (f : nat → FSYS → res (bool * FSYS)) h l s :
  (∀ b, h (h b) = h b) →
  (∀ a s, is_Some (bases s !! a) →
     ∃ s', f a s = Ok (false, s') ∧ mgr s' = mgr s ∧ bases s' = alter h a (bases s)) →
  (∀ a, a ∈ l → is_Some (bases s !! a)) →
  ∃ s', scan f l s = Ok s' ∧ mgr s' = mgr s ∧
    ∀ a, bases s' !! a = (if decide (a ∈ l) then h else id) <$> bases s !! a.
Proof.
  intros Hh Hf. revert s. induction l as [|a l IH]; intros s Hl.
  { exists s. split; [done|]. split; [done|]. intros a. cbn. by rewrite option_fmap_id. }
  destruct (Hf a s) as (s1 & E1 & Hm1 & Hb1); [apply Hl; set_solver|].
  destruct (IH s1) as (s' & E & Hm & Hb).
  { intros x Hx. rewrite Hb1. apply lookup_alter_is_Some, Hl. set_solver. }
  cbn [scan]. rewrite E1, bind_ok. exists s'. split; [done|]. split; [congruence|].
  intros x. rewrite Hb, Hb1. destruct (decide (x = a)) as [->|Hne].
  - rewrite lookup_alter_eq, (decide_True (P := a ∈ a :: l)) by set_solver.
    rewrite <- option_fmap_compose. destruct (bases s !! a) as [b|]; [|done]. cbn.
    case_decide; cbn; by rewrite ?Hh.
  - rewrite lookup_alter_ne by done. destruct (decide (x ∈ l)).
    + by rewrite decide_True by set_solver.
    + by rewrite decide_False by set_solver.
Qed.

Lemma unfocus_idem b : unfocus (unfocus b) = unfocus b.
Proof. unfold unfocus. by destruct (bHasFocus b) eqn:E; cbn; rewrite ?E. Qed.

Lemma reset_one_mgr a s r : reset_one a s = Ok r → mgr r.2 = mgr s.
Proof.
  intros E. destruct (bases s !! a) eqn:Eb.
  - destruct (reset_one_ok a s) as (s' & E' & Hm & _); [by eexists|].
    rewrite E' in E. by injection E as <-.
  - unfold reset_one in E. by rewrite base_of_bases, Eb in E.
Qed.

(** Every widget of the scene exists. *)
Definition scene_live (s : FSYS) : Prop := ∀ a, a ∈ live (mgr s) → is_Some (bases s !! a).

Lemma Fooey_ResetFocus_ok s :
  scene_ok (mgr s) → scene_live s → 65536 <= Z.of_nat fuel →
  ∃ s', Fooey_ResetFocus s = Ok s' ∧ mgr s' = mgr s ∧
    ∀ a, bases s' !! a = (if decide (a ∈ live (mgr s)) then unfocus else id) <$> bases s !! a.
Proof.
  intros Hok Hl Hf. unfold Fooey_ResetFocus.
  rewrite (scene_loop_live id reset_one) by (done || (intros a t t' E; apply (reset_one_mgr _ _ _ E))).
  apply scan_alter; [apply unfocus_idem|apply reset_one_ok|done].
Qed.

(** ** Rendering *)

(** Drawing may only clear the redraw flag of the widget it draws, besides
    changing the display and the application. *)
Definition draw_quiet : Prop := ∀ k a s s', draw k a s = Ok s' →
  mgr s' = mgr s ∧ (bases s' = bases s ∨ bases s' = alter (set_bRedraw false) a (bases s)).

(** One widget drawn and its flag cleared. *)
Definition draw_one (a : nat) (s : FSYS) : res FSYS :=
  b ← base_of (Some a) s;
  s ← call_draw (pfDraw b) a s;
  upd_widget (Some a) (upd_base (set_bRedraw false)) s.

Context (Hquiet : draw_quiet).

Lemma draw_one_bases a s s' : draw_one a s = Ok s' →
  mgr s' = mgr s ∧ bases s' = alter (set_bRedraw false) a (bases s).
Proof.
  unfold draw_one. intros H. inv_ok. rename x into b, x0 into s1.
  unfold call_draw in *. destruct (pfDraw b); [|done].
  destruct (Hquiet _ _ _ _ H1) as [Hm Hb]. destruct (upd_widget_bases _ _ _ _ H) as [Hm' Hb'].
  split; [congruence|]. rewrite Hb'. destruct Hb as [-> | ->]; [done|].
  rewrite alter_alter_eq. apply alter_ext. by intros.
Qed.

(** The widgets of group [g] that want to be drawn. *)
Definition wants (s : FSYS) (g : Z) (a : nat) : Prop :=
  ∃ b, bases s !! a = Some b ∧ ucGroup b = g ∧ bRedraw b = true.
Definition wantsb (s : FSYS) (g : Z) (a : nat) : bool :=
  match bases s !! a with Some b => (ucGroup b =? g) && bRedraw b | None => false end.

Definition render_one (g : Z) (a : nat) (t : Z * FSYS) : res (bool * (Z * FSYS)) :=
  let '(drawn, s) := t in
  b ← base_of (Some a) s;
  if (ucGroup b =? g) && bRedraw b then
    s ← call_draw (pfDraw b) a s;
    s ← upd_widget (Some a) (upd_base (set_bRedraw false)) s;
    Ok (false, (u16 (drawn + 1), s))
  else Ok (false, (drawn, s)).

Lemma render_one_eq g a drawn s : is_Some (bases s !! a) →
  render_one g a (drawn, s)
  = if wantsb s g a then s ← draw_one a s; Ok (false, (u16 (drawn + 1), s))
    else Ok (false, (drawn, s)).
Proof.
  intros [b Hb]. unfold render_one, wantsb, draw_one. rewrite base_of_bases, Hb, !bind_ok.
  destruct (_ && _); [|done]. destruct (call_draw _ a s); [rewrite !bind_ok|done].
  by destruct (upd_widget _ _ _).
Qed.

Lemma filter_same (f g : nat → bool) (l : list nat) : (∀ x, x ∈ l → f x = g x) → filter f l = filter g l.
Proof.
  induction l as [|a l IH]; intros H; [done|]. rewrite !filter_cons, H, IH by set_solver. done.
Qed.

Lemma render_scan g l drawn s :
  NoDup l → (∀ a, a ∈ l → is_Some (bases s !! a)) →
  0 <= drawn → drawn + Z.of_nat (length (filter (wantsb s g) l)) < 65536 →
  scan (render_one g) l (drawn, s)
  = (s' ← forM (filter (wantsb s g) l) draw_one s;
     Ok (drawn + Z.of_nat (length (filter (wantsb s g) l)), s')).
Proof.
  intros Hnd. revert drawn s. induction Hnd as [|a l Ha Hnd IH]; intros drawn s Hl Hd Hd'.
  { cbn. by rewrite Z.add_0_r. }
  cbn [scan]. rewrite render_one_eq by (apply Hl; set_solver).
  rewrite filter_cons in *. destruct (wantsb s g a) eqn:Ew.
  - rewrite decide_True in * by done. cbn [forM length] in *.
    destruct (draw_one a s) as [s1|] eqn:E1; [rewrite !bind_ok|done].
    destruct (draw_one_bases _ _ _ E1) as [Hm Hb].
    rewrite u16_small by lia.
    assert (∀ x, x ∈ l → bases s1 !! x = bases s !! x) as Hsame.
    { intros x Hx. rewrite Hb, lookup_alter_ne; [done|]. intros ->. done. }
    assert (filter (wantsb s1 g) l = filter (wantsb s g) l) as Hfil.
    { apply filter_same. intros x Hx. unfold wantsb. by rewrite Hsame. }
    rewrite IH; [|intros x Hx; rewrite Hsame by done; apply Hl; set_solver|lia|rewrite Hfil; lia].
    rewrite Hfil. destruct (forM _ _ s1); [|done]. rewrite !bind_ok. do 2 f_equal. lia.
  - rewrite decide_False in * by (by intros []). rewrite bind_ok.
    apply IH; [intros; apply Hl; set_solver|lia|done].
Qed.

Lemma render_group_eq g drawn s :
  scene_ok (mgr s) → scene_live s → NoDup (live (mgr s)) → 65536 <= Z.of_nat fuel →
  0 <= drawn → drawn + Z.of_nat (length (filter (wantsb s g) (live (mgr s)))) < 65536 →
  render_group g drawn s
  = (s' ← forM (filter (wantsb s g) (live (mgr s))) draw_one s;
     Ok (drawn + Z.of_nat (length (filter (wantsb s g) (live (mgr s)))), s')).
Proof.
  intros Hok Hl Hnd Hf Hd Hd'. unfold render_group.
  rewrite (scene_loop_live snd (render_one g)); [by apply render_scan| | |done..].
  - intros i [n t]. cbn [snd]. by destruct (aget _ i) as [[]|].
  - intros a [n t] t' E. unfold render_one in E. inv_ok.
    destruct ((ucGroup x =? g) && bRedraw x); inv_ok; [|done]. cbn.
    assert (draw_one a t = Ok x1) as E1.
    { unfold draw_one. rewrite H, bind_ok, H0, bind_ok. done. }
    apply (draw_one_bases _ _ _ E1).
Qed.

Lemma forM_draw_bases l s s' : forM l draw_one s = Ok s' →
  mgr s' = mgr s ∧
  ∀ a, bases s' !! a = (if decide (a ∈ l) then set_bRedraw false else id) <$> bases s !! a.
Proof.
  revert s. induction l as [|a l IH]; intros s H; cbn [forM] in H.
  { injection H as <-. split; [done|]. intros a. cbn. by rewrite option_fmap_id. }
  apply bind_ok_iff in H as (s1 & E1 & H). destruct (draw_one_bases _ _ _ E1) as [Hm1 Hb1].
  destruct (IH _ H) as [Hm Hb]. split; [congruence|]. intros x. rewrite Hb, Hb1.
  destruct (decide (x = a)) as [->|Hne].
  - rewrite lookup_alter_eq, (decide_True (P := a ∈ a :: l)) by set_solver.
    rewrite <- option_fmap_compose. destruct (bases s !! a) as [b|]; [|done]. cbn.
    by case_decide.
  - rewrite lookup_alter_ne by done. destruct (decide (x ∈ l)).
    + by rewrite decide_True by set_solver.
    + by rewrite decide_False by set_solver.
Qed.

(** The dirty widgets of the groups from [g] on, group by group. *)
Definition dirty_from (s : FSYS) (g : Z) (n : nat) : list nat :=
  k ← seqZ g (Z.of_nat n); filter (wantsb s k) (live (mgr s)).

Lemma bind_same {A B} (f g : A → list B) (l : list A) : (∀ x, x ∈ l → f x = g x) → l ≫= f = l ≫= g.
Proof.
  induction l as [|a l IH]; intros H; [done|]. cbn [mbind list_bind].
  rewrite H by set_solver. f_equal. apply IH. set_solver.
Qed.

Lemma dirty_from_after s g n s' :
  forM (filter (wantsb s g) (live (mgr s))) draw_one s = Ok s' →
  dirty_from s' (g + 1) n = dirty_from s (g + 1) n.
Proof.
  intros H. destruct (forM_draw_bases _ _ _ H) as [Hm Hb]. unfold dirty_from. rewrite Hm.
  apply bind_same. intros k Hk%elem_of_seqZ.
  apply filter_same. intros a Ha. unfold wantsb. rewrite Hb.
  destruct (bases s !! a) as [b|] eqn:E; [|done]. cbn.
  case_decide as Hin; cbn; [|done]. apply list_elem_of_filter in Hin as [Hw _].
  unfold wantsb in Hw. rewrite E in Hw. destruct (Z.eqb_spec (ucGroup b) g); [|done].
  destruct (Z.eqb_spec (ucGroup b) k); [lia|done].
Qed.

Lemma dirty_from_S s g n :
  dirty_from s g (S n) = filter (wantsb s g) (live (mgr s)) ++ dirty_from s (g + 1) n.
Proof. unfold dirty_from. by rewrite seqZ_cons'. Qed.

Lemma render_loop_eq n m g s todraw drawn :
  scene_ok (mgr s) → scene_live s → NoDup (live (mgr s)) → 65536 <= Z.of_nat fuel →
  0 <= g → g + Z.of_nat n = ucMaxGroup (mgr s) → ucMaxGroup (mgr s) <= 255 → (n < m)%nat →
  0 <= drawn → todraw = drawn + Z.of_nat (length (dirty_from s g (S n))) →
  todraw < 65536 →
  render_loop m g todraw drawn s = forM (dirty_from s g (S n)) draw_one s.
Proof.
  revert m g s drawn. induction n as [|n IH]; intros m g s drawn Hok Hl Hnd Hf Hg Hn Hmax Hm Hd Ht Hlt;
    (destruct m as [|m]; [lia|]); cbn [render_loop];
    (destruct (Z.leb_spec g (ucMaxGroup (mgr s))); [|lia]);
    rewrite dirty_from_S, forM_app in *; rewrite length_app in Ht;
    rewrite render_group_eq by (done || lia);
    (destruct (forM (filter _ _) draw_one s) as [s'|] eqn:E; [rewrite !bind_ok|done]).
  - change (dirty_from s (g + 1) 0) with (@nil nat) in *. cbn [length forM] in Ht |- *.
    destruct (Z.eqb_spec todraw
      (drawn + Z.of_nat (length (filter (wantsb s g) (live (mgr s)))))); [done|lia].
  - destruct (forM_draw_bases _ _ _ E) as [Hm' Hb'].
    rewrite <- (dirty_from_after _ _ _ _ E) in *.
    destruct (Z.eqb_spec todraw
      (drawn + Z.of_nat (length (filter (wantsb s g) (live (mgr s)))))) as [Heq|Hne].
    + assert (dirty_from s' (g + 1) (S n) = []) as ->; [|done]. apply length_zero_iff_nil. lia.
    + rewrite u8_small by lia. apply IH; rewrite ?Hm'; try (done || lia).
      intros a Ha. rewrite Hm' in Ha. rewrite Hb', fmap_is_Some. by apply Hl.
Qed.

(** The widgets with their redraw flag set. *)
Definition dirtyb (s : FSYS) (a : nat) : bool :=
  match bases s !! a with Some b => bRedraw b | None => false end.

Lemma live_length m : (length (live m) <= length (pastScene m))%nat.
Proof.
  unfold live. induction (pastScene m) as [|[a|] l IH]; cbn in *; lia.
Qed.

Lemma count_dirty s :
  scene_ok (mgr s) → scene_live s → 65536 <= Z.of_nat fuel →
  scene_loop (λ t, num_widgets t.2) fuel 0 (λ i '(n, s),
    p ← aget (pastScene (mgr s)) i;
    match p with
    | None => Ok (false, (n, s))
    | Some a => b ← base_of (Some a) s; Ok (false, (if bRedraw b then u16 (n + 1) else n, s))
    end) (0, s)
  = Ok (Z.of_nat (length (filter (dirtyb s) (live (mgr s)))), s).
Proof.
  intros Hok Hl Hf.
  rewrite (scene_loop_live snd (λ a '(n, s),
    b ← base_of (Some a) s; Ok (false, (if bRedraw b then u16 (n + 1) else n, s)))); [| | |done..].
  - cbn [snd]. assert (∀ n, 0 <= n → n + Z.of_nat (length (live (mgr s))) < 65536 →
      scan (λ a '(n, s), b ← base_of (Some a) s;
        Ok (false, (if bRedraw b then u16 (n + 1) else n, s))) (live (mgr s)) (n, s)
      = Ok (n + Z.of_nat (length (filter (dirtyb s) (live (mgr s)))), s)) as H.
    + unfold scene_live in Hl. induction (live (mgr s)) as [|a l IH]; intros n Hn Hlt.
      { cbn. by rewrite Z.add_0_r. }
      cbn [scan length] in *. rewrite base_of_bases.
      destruct (Hl a) as [b Hb]; [set_solver|]. rewrite Hb, !bind_ok, filter_cons.
      unfold dirtyb at 1. destruct (decide _) as [Hd|Hd]; rewrite Hb in Hd;
        destruct (bRedraw b); try done; (try rewrite u16_small by lia); rewrite IH by (lia || set_solver);
        cbn; do 2 f_equal; lia.
    + rewrite H; [done|lia|]. pose proof (live_length (mgr s)). destruct Hok. lia.
  - intros i [n t]. cbn [snd]. by destruct (aget _ i) as [[]|].
  - intros a [n t] [n' t'] E. inv_ok. cbn. congruence.
Qed.

(** The dirty widgets have groups the manager knows of. *)
Definition groups_ok (s : FSYS) : Prop := ∀ a b, a ∈ live (mgr s) → bases s !! a = Some b →
  0 <= ucGroup b <= ucMaxGroup (mgr s).

Lemma dirty_from_perm s :
  NoDup (live (mgr s)) → groups_ok s → 0 <= ucMaxGroup (mgr s) →
  dirty_from s 0 (S (Z.to_nat (ucMaxGroup (mgr s)))) ≡ₚ filter (dirtyb s) (live (mgr s)).
Proof.
  intros Hnd Hg Hmax. apply NoDup_Permutation.
  - unfold dirty_from. apply NoDup_bind.
    + intros k1 k2 a _ _ [H1 _]%list_elem_of_filter [H2 _]%list_elem_of_filter.
      unfold wantsb in *. destruct (bases s !! a) as [b|]; [|done].
      destruct (Z.eqb_spec (ucGroup b) k1), (Z.eqb_spec (ucGroup b) k2); (done || lia).
    + intros. by apply NoDup_filter.
    + apply NoDup_seqZ.
  - by apply NoDup_filter.
  - intros a. unfold dirty_from. rewrite list_elem_of_bind, list_elem_of_filter. split.
    + intros (k & [Hw Ha]%list_elem_of_filter & _). split; [|done]. unfold wantsb, dirtyb in *.
      destruct (bases s !! a) as [b|]; [|done]. by destruct (ucGroup b =? k).
    + intros [Hw Ha]. unfold dirtyb in Hw. destruct (bases s !! a) as [b|] eqn:E; [|done].
      exists (ucGroup b). rewrite list_elem_of_filter, elem_of_seqZ.
      specialize (Hg a b Ha E). unfold wantsb. rewrite E, Z.eqb_refl. split; [done|lia].
Qed.

(** C30: [Fooey_RenderChanged] draws exactly the widgets of the scene whose
    redraw flag is set, each once, group by group from the lowest up and in
    the order of the scene within a group; it ends, and no widget of the
    scene is left marked.  The count and the group number, an 8-bit counter,
    do not run over even with 255 as the highest group. *)
Theorem Fooey_RenderChanged_draws s :
  scene_ok (mgr s) → scene_live s → NoDup (live (mgr s)) → groups_ok s →
  0 <= ucMaxGroup (mgr s) <= 255 → 65536 <= Z.of_nat fuel →
  let order := dirty_from s 0 (S (Z.to_nat (ucMaxGroup (mgr s)))) in
  Fooey_RenderChanged s = forM order draw_one s ∧
  order ≡ₚ filter (dirtyb s) (live (mgr s)) ∧
  ∀ s' a, Fooey_RenderChanged s = Ok s' → a ∈ live (mgr s') → dirtyb s' a = false.
Proof.
  intros Hok Hl Hnd Hg Hmax Hf order. pose proof (dirty_from_perm s Hnd Hg ltac:(lia)) as Hp.
  assert (Fooey_RenderChanged s = forM order draw_one s) as Hrun.
  { unfold Fooey_RenderChanged. rewrite count_dirty, bind_ok by done.
    apply render_loop_eq; try (done || lia).
    - rewrite <- Hp. lia.
    - rewrite <- Hp. pose proof (live_length (mgr s)). apply Permutation_length in Hp.
      pose proof (length_filter (dirtyb s) (live (mgr s))). destruct Hok. lia. }
  split; [done|]. split; [done|]. intros s' a Hs' Ha. rewrite Hrun in Hs'.
  destruct (forM_draw_bases _ _ _ Hs') as [Hm Hb]. rewrite Hm in Ha.
  unfold dirtyb. rewrite Hb. destruct (bases s !! a) as [b|] eqn:E; [|done]. cbn.
  case_decide as Hin; [done|]. cbn. destruct (bRedraw b) eqn:Er; [|done]. exfalso. apply Hin.
  unfold order. rewrite Hp, list_elem_of_filter. unfold dirtyb. rewrite E, Er. done.
Qed.

(** ** The event queue *)

(** The queue holds the events [l], oldest first. *)
Record queue_holds (q : GUI_EVENT_QUEUE_STRUCT) (l : list FOOEY_EVENT_STRUCT) : Prop := {
  qh_size : 0 < ucSize q <= 255;
  qh_array : ucSize q <= Z.of_nat (length (pstEvents q));
  qh_tail : 0 <= ucTail q < ucSize q;
  qh_head : ucHead q = (ucTail q + Z.of_nat (length l)) mod ucSize q;
  qh_room : Z.of_nat (length l) < ucSize q;
  qh_events : ∀ k e, l !! k = Some e →
    pstEvents q !! Z.to_nat ((ucTail q + Z.of_nat k) mod ucSize q) = Some e
}.

Lemma next_index_mod q i : 0 < ucSize q <= 255 → 0 <= i < ucSize q →
  next_index q i = (i + 1) mod ucSize q.
Proof.
  intros Hs Hi. unfold next_index. rewrite u8_small by lia.
  destruct (Z.leb_spec (ucSize q) (i + 1)).
  - replace (i + 1) with (ucSize q) by lia. by rewrite Z.mod_same by lia.
  - by rewrite Z.mod_small by lia.
Qed.

Lemma mod_shift_neq t a b n : 0 < n → 0 <= a < b → b - a < n → (t + a) mod n ≠ (t + b) mod n.
Proof.
  intros Hn Hab Hd Heq.
  assert ((b - a) mod n = 0) as H0.
  { replace (b - a) with ((t + b) - (t + a)) by lia. rewrite Zminus_mod, Heq, Z.sub_diag. done. }
  rewrite Z.mod_small in H0 by lia. lia.
Qed.

Lemma Fooey_SendEvent_ok e l s :
  queue_holds (stEvents (mgr s)) l →
  if decide (Z.of_nat (length l) + 1 < ucSize (stEvents (mgr s))) then
    ∃ q', Fooey_SendEvent e s = Ok (set_queue q' s, true) ∧ queue_holds q' (l ++ [e]) ∧
      ucSize q' = ucSize (stEvents (mgr s))
  else Fooey_SendEvent e s = Ok (s, false).
Proof.
  set (q := stEvents (mgr s)). intros [Hs Ha Ht Hh Hr He].
  assert (0 <= ucHead q < ucSize q) as Hhr by (rewrite Hh; apply Z.mod_pos_bound; lia).
  assert (next_index q (ucHead q) = (ucTail q + (Z.of_nat (length l) + 1)) mod ucSize q) as Hn.
  { rewrite next_index_mod, Hh, Zplus_mod_idemp_l by lia. f_equal. lia. }
  unfold Fooey_SendEvent. fold q. rewrite Hn. case_decide as Hroom.
  - destruct (Z.eqb_spec ((ucTail q + (Z.of_nat (length l) + 1)) mod ucSize q) (ucTail q)) as [E|_].
    { exfalso. apply (mod_shift_neq (ucTail q) 0 (Z.of_nat (length l) + 1) (ucSize q)); [lia..|].
      rewrite Z.add_0_r, E. apply Z.mod_small. lia. }
    rewrite <- (Z2Nat.id (ucHead q)) by lia. rewrite aset_some, bind_ok by lia.
    eexists. split; [done|]. split; [|done]. split; cbn; rewrite ?length_insert, ?length_app; cbn; try (done || lia).
    intros k x Hk. destruct (decide (k = length l)) as [->|Hne].
    + rewrite lookup_app_r, Nat.sub_diag in Hk by lia. injection Hk as <-.
        rewrite <- Hh. apply list_lookup_insert_eq. lia.
    + assert (k < length l)%nat by (apply lookup_lt_Some in Hk; rewrite length_app in Hk; cbn in Hk; lia).
        rewrite lookup_app_l in Hk by done. rewrite list_lookup_insert_ne; [by apply He|].
        intros E. apply (mod_shift_neq (ucTail q) (Z.of_nat k) (Z.of_nat (length l)) (ucSize q)); [lia..|].
        rewrite <- Hh. pose proof (Z.mod_pos_bound (ucTail q + Z.of_nat k) (ucSize q)). lia.
  - destruct (Z.eqb_spec ((ucTail q + (Z.of_nat (length l) + 1)) mod ucSize q) (ucTail q)) as [|E]; [done|].
    exfalso. apply E. replace (Z.of_nat (length l) + 1) with (ucSize q) by lia.
    rewrite <- Zplus_mod_idemp_r, Z.mod_same, Z.add_0_r by lia. apply Z.mod_small. lia.
Qed.

(** Handlers that leave the event queue alone. *)
Definition control_quiet : Prop := ∀ k a e s s', control k a e s = Ok s' →
  stEvents (mgr s') = stEvents (mgr s).

(** The event delivered and removed from the queue. *)
Definition deliver (e : FOOEY_EVENT_STRUCT) (s : FSYS) : res FSYS :=
  s ← dispatch e s;
  let q := stEvents (mgr s) in
  Ok (set_queue (set_ucTail (next_index q (ucTail q)) q) s).

Context (Hctl : control_quiet).

Lemma scene_loop_queue n i body s s' :
  (∀ i s r, body i s = Ok r → stEvents (mgr r.2) = stEvents (mgr s)) →
  scene_loop num_widgets n i body s = Ok s' → stEvents (mgr s') = stEvents (mgr s).
Proof.
  intros Hb H. revert H. apply (scene_loop_inv (λ t, stEvents (mgr t) = stEvents (mgr s))); [|done].
  intros j t r Ht Hr. rewrite (Hb _ _ _ Hr). done.
Qed.

Lemma dispatch_queue e s s' : dispatch e s = Ok s' → stEvents (mgr s') = stEvents (mgr s).
Proof.
  assert (∀ a b s r, call_control b a e s = Ok r → stEvents (mgr r) = stEvents (mgr s)) as Hc.
  { intros a [k|] t r; [|done]. apply Hctl. }
  unfold dispatch. intros H. repeat case_match; revert H; apply scene_loop_queue; intros i t r Hr;
    unfold each in Hr; inv_ok; (destruct x as [a|]; inv_ok; [|done]);
    repeat case_match; inv_ok; cbn; eauto.
Qed.

Lemma process_loop_eq n l s :
  queue_holds (stEvents (mgr s)) l → (length l <= n)%nat →
  process_loop n s = forM l deliver s.
Proof.
  revert n s. induction l as [|e l IH]; intros n s Hq Hn.
  - assert (ucTail (stEvents (mgr s)) = ucHead (stEvents (mgr s))) as E.
    { destruct Hq. cbn in *. rewrite Z.add_0_r, Z.mod_small in qh_head0; lia. }
    destruct n; cbn [process_loop]; by rewrite E, Z.eqb_refl.
  - destruct n as [|n]; [cbn in Hn; lia|]. set (q := stEvents (mgr s)) in *.
    destruct Hq as [Hs Ha Ht Hh Hr He].
    cbn [process_loop forM]. fold q. cbn [length] in *.
    destruct (Z.eqb_spec (ucTail q) (ucHead q)) as [E|_].
    { exfalso. apply (mod_shift_neq (ucTail q) 0 (Z.of_nat (S (length l))) (ucSize q)); [lia..|].
      rewrite <- Hh, <- E, Z.add_0_r. apply Z.mod_small. lia. }
    pose proof (He 0%nat e eq_refl) as H0. cbn in H0. rewrite Z.add_0_r, Z.mod_small in H0 by lia.
    rewrite <- (Z2Nat.id (ucTail q)) by lia. rewrite (aget_some _ _ _ H0), bind_ok.
    assert (deliver e s = (s1 ← dispatch e s;
      Ok (set_queue (set_ucTail (next_index (stEvents (mgr s1)) (ucTail (stEvents (mgr s1))))
        (stEvents (mgr s1))) s1))) as -> by done.
    destruct (dispatch e s) as [s1|] eqn:E1; [rewrite !bind_ok|done].
    apply dispatch_queue in E1. fold q in E1. rewrite E1. apply IH; [|lia]. cbn.
    split; cbn; try (done || lia).
    + rewrite next_index_mod by lia. apply Z.mod_pos_bound. lia.
    + rewrite Hh, next_index_mod, Zplus_mod_idemp_l by lia. f_equal. lia.
    + intros k x Hk. rewrite next_index_mod, Zplus_mod_idemp_l by lia.
      replace (ucTail q + 1 + Z.of_nat k) with (ucTail q + Z.of_nat (S k)) by lia. by apply He.
Qed.

(** A list of events sent one after the other; the answers must all be TRUE. *)
Fixpoint send_all (es : list FOOEY_EVENT_STRUCT) (s : FSYS) : res (FSYS * bool) :=
  match es with
  | [] => Ok (s, true)
  | e :: es =>
      '(s, b) ← Fooey_SendEvent e s;
      '(s, b') ← send_all es s;
      Ok (s, b && b')
  end.

Lemma send_all_ok es l s :
  queue_holds (stEvents (mgr s)) l → Z.of_nat (length (l ++ es)) < ucSize (stEvents (mgr s)) →
  ∃ s', send_all es s = Ok (s', true) ∧ queue_holds (stEvents (mgr s')) (l ++ es) ∧
    widgets s' = widgets s ∧ pastScene (mgr s') = pastScene (mgr s) ∧ world s' = world s.
Proof.
  revert l s. induction es as [|e es IH]; intros l s Hq Hlen.
  { exists s. by rewrite app_nil_r. }
  rewrite length_app in Hlen. cbn [length] in Hlen. cbn [send_all].
  pose proof (Fooey_SendEvent_ok e l s Hq) as H. rewrite decide_True in H by lia.
  destruct H as (q' & -> & Hq' & Hsz). rewrite bind_ok.
  destruct (IH (l ++ [e]) (set_queue q' s)) as (s' & -> & H1 & H2 & H3 & H4).
  - done.
  - rewrite <- app_assoc, length_app. cbn. rewrite Hsz. lia.
  - rewrite bind_ok. exists s'. rewrite <- app_assoc in H1. done.
Qed.

(** C31: events sent to an empty queue with room for them are all accepted and
    [Fooey_ProcessEvents] then ends after handing each of them, exactly once
    and in the order they were sent, to its receivers, as long as the
    handlers do not touch the queue themselves. *)
Theorem Fooey_events_delivered_in_order es s :
  queue_holds (stEvents (mgr s)) [] → Z.of_nat (length es) < ucSize (stEvents (mgr s)) →
  65536 <= Z.of_nat fuel →
  ∃ s', send_all es s = Ok (s', true) ∧ widgets s' = widgets s ∧ world s' = world s ∧
    Fooey_ProcessEvents s' = forM es deliver s'.
Proof.
  intros Hq Hlen Hf. destruct (send_all_ok es [] s Hq Hlen) as (s' & H1 & H2 & H3 & _ & H5).
  exists s'. split; [done|]. split; [done|]. split; [done|].
  apply process_loop_eq; [done|]. destruct Hq. lia.
Qed.

(** ** Adding and removing widgets *)

Lemma upd_widget_mgr p f s s' : upd_widget p f s = Ok s' → mgr s' = mgr s.
Proof. unfold upd_widget. intros H. inv_ok. done. Qed.

Lemma scene_search (P : ptr → bool) m : scene_ok m →
  search P (pastScene m) (seqZ 0 (usNumWidgets m))
  = search P (pastScene m) (seqZ 0 (Z.of_nat (length (pastScene m)))).
Proof. by intros [-> _]. Qed.

Lemma elem_of_live a m : a ∈ live m ↔ Some a ∈ pastScene m.
Proof.
  unfold live. rewrite list_elem_of_omap. split; [|by exists (Some a)].
  intros (x & Hx & E). cbn in E. by subst.
Qed.

(** What [Fooey_AddWidget] does to the scene: the first null entry points to
    the new widget. *)
Lemma Fooey_AddWidget_scene p g ty s s' :
  scene_ok (mgr s) → Fooey_AddWidget p g ty s = Ok (s', true) →
  ∃ i, pastScene (mgr s) !! i = Some NULL ∧
    (∀ j, (j < i)%nat → pastScene (mgr s) !! j ≠ Some NULL) ∧
    pastScene (mgr s') = <[i := p]> (pastScene (mgr s)) ∧
    usNumWidgets (mgr s') = usNumWidgets (mgr s).
Proof.
  intros Hok H. unfold Fooey_AddWidget in H. rewrite scene_search in H by done.
  destruct (search_cases (λ p : ptr, bool_decide (p = NULL)) (pastScene (mgr s)))
    as [[E _]|(i & x & E & Hi & Hx & Hj)]; rewrite E, bind_ok in H; [done|].
  apply bool_decide_eq_true in Hx as ->.
  rewrite aset_some, bind_ok in H by (by eapply lookup_lt_Some).
  exists i. split; [done|]. split.
  { intros j Hlt Hn. specialize (Hj j NULL Hn Hlt). by rewrite bool_decide_true in Hj. }
  inv_ok. repeat match goal with H : upd_widget _ _ _ = Ok _ |- _ => apply upd_widget_mgr in H end.
  set (s1 := set_mgr _ s) in *.
  assert (pastScene (mgr (if ucMaxGroup (mgr x) <? g then set_mgr (set_ucMaxGroup g (mgr x)) x else x))
    = pastScene (mgr x) ∧ usNumWidgets (mgr (if ucMaxGroup (mgr x) <? g then set_mgr (set_ucMaxGroup g (mgr x)) x else x))
    = usNumWidgets (mgr x)) as [E1 E2] by (by destruct (_ <? _)).
  split.
  - transitivity (pastScene (mgr x)); [congruence|by rewrite H0].
  - transitivity (usNumWidgets (mgr x)); [congruence|by rewrite H0].
Qed.

(** A widget that was added to the scene and is removed again leaves the
    scene as it was. *)
Theorem Fooey_Add_Remove_round_trip a g ty s s' :
  scene_ok (mgr s) → a ∉ live (mgr s) →
  Fooey_AddWidget (Some a) g ty s = Ok (s', true) →
  a ∈ live (mgr s') ∧
  ∃ s'', Fooey_RemoveWidget (Some a) s' = Ok (s'', true) ∧
    pastScene (mgr s'') = pastScene (mgr s).
Proof.
  intros Hok Ha H. destruct (Fooey_AddWidget_scene _ _ _ _ _ Hok H) as (i & Hi & _ & Hs & Hn).
  rewrite elem_of_live in Ha.
  assert (i < length (pastScene (mgr s)))%nat as Hlt by (by eapply lookup_lt_Some).
  assert (pastScene (mgr s') !! i = Some (Some a)) as Hia by (rewrite Hs; by apply list_lookup_insert_eq).
  split; [apply elem_of_live; by eapply list_elem_of_lookup_2|].
  unfold Fooey_RemoveWidget. rewrite scene_search.
  2: { unfold scene_ok. rewrite Hn, Hs, length_insert. apply Hok. }
  rewrite (search_found _ _ i (Some a)); [|done|by rewrite bool_decide_true|].
  2: { intros j y Hy Hj. apply bool_decide_eq_false. intros ->. rewrite Hs in Hy.
       rewrite list_lookup_insert_ne in Hy by lia. apply Ha. by eapply list_elem_of_lookup_2. }
  rewrite bind_ok, aset_some, bind_ok by (rewrite Hs, length_insert; done).
  eexists. split; [done|]. cbn. rewrite Hs, list_insert_insert_eq. by apply list_insert_id.
Qed.

(** ** Geometry *)

(** The chain of parents of a widget. *)
Inductive ancestors (s : FSYS) : ptr → list GUI_BASE_STRUCT → Prop :=
  | anc_root : ancestors s NULL []
  | anc_step a b l : bases s !! a = Some b → ancestors s (pstParent b) l →
      ancestors s (Some a) (b :: l).

Lemma offset_loop_ok n p x y s l :
  ancestors s p l → (length l <= n)%nat → 0 <= x < 65536 → 0 <= y < 65536 →
  offset_loop n p x y s
  = Ok (u16 (x + foldr Z.add 0 (usLeft <$> l)), u16 (y + foldr Z.add 0 (usTop <$> l))).
Proof.
  intros Hl. revert n x y. induction Hl as [|a b l Hb Hl IH]; intros n x y Hn Hx Hy.
  - destruct n; cbn; by rewrite !Z.add_0_r, !u16_small.
  - destruct n as [|n]; [cbn in Hn; lia|]. cbn [offset_loop]. rewrite base_of_bases, Hb, bind_ok.
    cbn [length] in Hn. rewrite IH by (lia || apply u16_range). cbn [fmap list_fmap foldr].
    unfold u16. rewrite !Zplus_mod_idemp_l, !Z.add_assoc. done.
Qed.

(** The offsets of a widget are the sums of the positions of its ancestors. *)
Theorem Fooey_GetControlOffsets_sum a b s l :
  bases s !! a = Some b → ancestors s (pstParent b) l → (length l <= fuel)%nat →
  Fooey_GetControlOffsets (Some a) s
  = Ok (u16 (foldr Z.add 0 (usLeft <$> l)), u16 (foldr Z.add 0 (usTop <$> l))).
Proof.
  intros Hb Hl Hn. unfold Fooey_GetControlOffsets. rewrite base_of_bases, Hb, bind_ok.
  by rewrite (offset_loop_ok _ _ _ _ _ _ Hl).
Qed.

(** A cycle of parents is followed forever. *)
Theorem Fooey_GetControlOffsets_cycle a b s :
  bases s !! a = Some b → pstParent b = Some a →
  Fooey_GetControlOffsets (Some a) s = Fault OutOfFuel.
Proof.
  intros Hb Hp. unfold Fooey_GetControlOffsets. rewrite base_of_bases, Hb, bind_ok, Hp.
  generalize 0 at 1. generalize 0. induction fuel as [|n IH]; intros x y; [done|].
  cbn [offset_loop]. rewrite base_of_bases, Hb, bind_ok, Hp. apply IH.
Qed.

End fooey.

(** ** A small scene

    Two widgets, of which the second is in the lower group; drawing and
    handling events are recorded in the world. *)
Definition example_base (group : Z) : GUI_BASE_STRUCT :=
  mkBase 0 0 9 9 group group 1 true false None (Some WIDGET_LABEL_ID) (Some WIDGET_LABEL_ID) None true NULL.

Definition example_event (dest : Z) : FOOEY_EVENT_STRUCT := mkEvent 0 0 dest 0.

Definition example_scene : FSYS (D := unit) (W := list nat) :=
  mkFSYS {[1%nat := mkWidget (example_base 1) (); 2%nat := mkWidget (example_base 0) ()]}
    (mkManager (Draw.mkDisplay 10 10 2 0) (mkQueue (replicate 4 (example_event 0)) 4 3 3)
       [Some 1%nat; NULL; Some 2%nat] 3 0 1) [].

Definition log_draw (k : WIDGET_ID) (a : nat) (s : FSYS (D := unit) (W := list nat)) : res FSYS :=
  Ok (set_world (world s ++ [a]) s).
Definition log_control (k : WIDGET_ID) (a : nat) (e : FOOEY_EVENT_STRUCT)
    (s : FSYS (D := unit) (W := list nat)) : res FSYS :=
  Ok (set_world (world s ++ [a]) s).

Lemma Fooey_events_delivered_in_order_witness :
  ∃ s' s'', send_all [example_event 1; example_event WIDGET_DEST_BROADCAST; example_event 0] example_scene
      = Ok (s', true) ∧
    Fooey_ProcessEvents log_control (Z.to_nat 65536) s' = Ok s'' ∧ world s'' = [1; 1; 2; 2]%nat.
Proof.
  destruct (Fooey_events_delivered_in_order log_control (Z.to_nat 65536)) with
    (es := [example_event 1; example_event WIDGET_DEST_BROADCAST; example_event 0]) (s := example_scene)
    as (s' & H1 & _ & _ & H2).
  - intros k a e s s' [= <-]. reflexivity.
  - split; cbn; (lia || reflexivity || (intros k e Hk; discriminate)).
  - cbn. lia.
  - lia.
  - exists s'. rewrite H2. vm_compute in H1. injection H1 as <-.
    eexists. split; [reflexivity|]. split; [run_eq|reflexivity].
Defined.

Lemma Fooey_RenderChanged_draws_witness :
  ∃ s', Fooey_RenderChanged log_draw (Z.to_nat 65536) example_scene = Ok s' ∧ world s' = [2; 1]%nat.
Proof.
  destruct (Fooey_RenderChanged_draws log_draw (Z.to_nat 65536)) with (s := example_scene) as [H _].
  - intros k a s s' [= <-]. split; [reflexivity|left; reflexivity].
  - split; reflexivity.
  - intros a Ha. vm_compute in Ha. apply elem_of_cons in Ha as [-> | Ha];
      [|apply list_elem_of_singleton in Ha as ->]; eexists; reflexivity.
  - vm_compute. repeat constructor; set_solver.
  - intros a b Ha Hb. vm_compute in Ha. apply elem_of_cons in Ha as [-> | Ha];
      [|apply list_elem_of_singleton in Ha as ->]; vm_compute in Hb; injection Hb as <-; cbn; lia.
  - cbn. lia.
  - lia.
  - rewrite H. eexists. split; [run_eq|reflexivity].
Defined.

End Fooey.
