(* ===== verification/FunkWidgets.v ===== *)
(** * FunkOS: the widgets (modules/graphics/widgets)

    The seven kinds of widgets of the Fooey interface: what they draw with
    the functions of FunkDraw and how they react to events.  A widget is a
    common part, known to FunkFooey, and the data of its kind; a function of
    one kind applied to a widget of another kind is a wild access. *)
From S2P Require Import Prelude FunkDraw FunkFooey.

Module Widgets.
Import Fooey.
Open Scope Z_scope.

(** ** Data *)

Record WIDGET_SURFACE : Type := mkSurface { sf_cBGColor : Z }.

Record WIDGET_LABEL : Type := mkLabel {
  lb_szCaption : list Z;
  lb_pstFont : Draw.FONT_STRUCT;
  lb_cBGColor : Z;
  lb_cTextColor : Z;
  lb_bUseBG : bool
}.

Record WIDGET_BUTTON : Type := mkButton {
  bt_szCaption : list Z;
  bt_pstFont : Draw.FONT_STRUCT;
  bt_cBGColor : Z;
  bt_cBGActiveColor : Z;
  bt_cLineColor : Z;
  bt_cTextColor : Z;
  bt_pfCallback : option Z;
  bt_bState : bool
}.

Definition set_bt_bState (v : bool) (r : WIDGET_BUTTON) : WIDGET_BUTTON :=
  mkButton (bt_szCaption r) (bt_pstFont r) (bt_cBGColor r)
    (bt_cBGActiveColor r) (bt_cLineColor r) (bt_cTextColor r) (bt_pfCallback
    r) v.

Record WIDGET_EDITBOX : Type := mkEditBox {
  eb_szCaption : list Z;
  eb_pstFont : Draw.FONT_STRUCT;
  eb_cBGColor : Z;
  eb_cLineColor : Z;
  eb_cActiveColor : Z;
  eb_cTextColor : Z
}.

Record WIDGET_PROGRESSBAR : Type := mkProgressBar {
  pb_pstFont : Draw.FONT_STRUCT;
  pb_ucProgress : Z;
  pb_cBGColor : Z;
  pb_cLineColor : Z;
  pb_cFillColor : Z;
  pb_cTextColor : Z
}.

Record WIDGET_CHECKBOX : Type := mkCheckBox {
  cb_szCaption : list Z;
  cb_pstFont : Draw.FONT_STRUCT;
  cb_cBGColor : Z;
  cb_cCheckColor : Z;
  cb_cBoxColor : Z;
  cb_cTextColor : Z;
  cb_cActiveColor : Z;
  cb_bChecked : bool
}.

Definition set_cb_bChecked (v : bool) (r : WIDGET_CHECKBOX) : WIDGET_CHECKBOX :=
  mkCheckBox (cb_szCaption r) (cb_pstFont r) (cb_cBGColor r) (cb_cCheckColor
    r) (cb_cBoxColor r) (cb_cTextColor r) (cb_cActiveColor r) v.

Record WIDGET_RADIOBUTTON : Type := mkRadioButton {
  rb_szCaption : list Z;
  rb_pstFont : Draw.FONT_STRUCT;
  rb_cBGColor : Z;
  rb_cCheckColor : Z;
  rb_cBoxColor : Z;
  rb_cTextColor : Z;
  rb_cActiveColor : Z;
  rb_bChecked : bool;
  rb_pstNext : ptr;
  rb_pstPrev : ptr
}.

Definition set_rb_bChecked (v : bool) (r : WIDGET_RADIOBUTTON) : WIDGET_RADIOBUTTON :=
  mkRadioButton (rb_szCaption r) (rb_pstFont r) (rb_cBGColor r)
    (rb_cCheckColor r) (rb_cBoxColor r) (rb_cTextColor r) (rb_cActiveColor
    r) v (rb_pstNext r) (rb_pstPrev r).

Inductive WIDGET_DATA : Type :=
  | Surface (w : WIDGET_SURFACE) | Label (w : WIDGET_LABEL) | Button (w : WIDGET_BUTTON)
  | EditBox (w : WIDGET_EDITBOX) | ProgressBar (w : WIDGET_PROGRESSBAR)
  | CheckBox (w : WIDGET_CHECKBOX) | RadioButton (w : WIDGET_RADIOBUTTON).

(** The casts of [pstThis_]. *)
Definition as_surface (d : WIDGET_DATA) : res WIDGET_SURFACE :=
  match d with Surface w => Ok w | _ => Fault WildDeref end.
Definition as_label (d : WIDGET_DATA) : res WIDGET_LABEL :=
  match d with Label w => Ok w | _ => Fault WildDeref end.
Definition as_button (d : WIDGET_DATA) : res WIDGET_BUTTON :=
  match d with Button w => Ok w | _ => Fault WildDeref end.
Definition as_editbox (d : WIDGET_DATA) : res WIDGET_EDITBOX :=
  match d with EditBox w => Ok w | _ => Fault WildDeref end.
Definition as_progressbar (d : WIDGET_DATA) : res WIDGET_PROGRESSBAR :=
  match d with ProgressBar w => Ok w | _ => Fault WildDeref end.
Definition as_checkbox (d : WIDGET_DATA) : res WIDGET_CHECKBOX :=
  match d with CheckBox w => Ok w | _ => Fault WildDeref end.
Definition as_radiobutton (d : WIDGET_DATA) : res WIDGET_RADIOBUTTON :=
  match d with RadioButton w => Ok w | _ => Fault WildDeref end.

(** Colours of colorspace.h in the 16-bit colour space. *)
Definition COLOR_RED : Z := Draw.RGB_COLOR 31 0 0.
Definition COLOR_GREEN : Z := Draw.RGB_COLOR 0 63 0.
Definition COLOR_WHITE : Z := Draw.RGB_COLOR 31 63 31.
Definition COLOR_BLACK : Z := Draw.RGB_COLOR 0 0 0.
Definition COLOR_GREY75 : Z := Draw.RGB_COLOR (31 * 3 / 4) (63 * 3 / 4) (31 * 3 / 4).
Definition COLOR_GREY50 : Z := Draw.RGB_COLOR (31 / 2) (63 / 2) (31 / 2).
Definition COLOR_GREY25 : Z := Draw.RGB_COLOR (31 / 4) (63 / 4) (31 / 4).

(** The character codes of "Tahoma" and of the captions. *)
Definition szTahoma : list Z := [84; 97; 104; 111; 109; 97; 0].
Definition szButton : list Z := [66; 117; 116; 116; 111; 110; 0].
Definition szLabel : list Z := [76; 97; 98; 101; 108; 0].
Definition szCheckBox : list Z := [67; 104; 101; 99; 107; 66; 111; 120; 0].
Definition szRadioBtn : list Z := [82; 97; 100; 105; 111; 66; 116; 110; 0].

Definition aucCheck : list Z := [0xC3; 0xE7; 0x7E; 0x3C; 0x3C; 0x7E; 0xE7; 0xC3].
Definition aucCircle : list Z := [0x3C; 0x7E; 0xFF; 0xFF; 0xFF; 0xFF; 0x7E; 0x3C].
Definition aucFilled : list Z := [0x00; 0x00; 0x18; 0x3C; 0x3C; 0x18; 0x00; 0x00].

Section widgets.
Context {W : Type}.

Abbreviation SYS := (@FSYS WIDGET_DATA W).

(** The pixel function and the control function of the display, the
    callbacks of the application, the font table, and the value of an
    uninitialised colour. *)
Context (pix : Draw.DRAW_POINT_STRUCT → W → res W)
  (ctl : Draw.DISPLAY_EVENT → option Draw.DRAW_OBJECT → W → res W)
  (callback : Z → SYS → res SYS) (g_astFonts : list Draw.FONT_STRUCT) (indet : Z) (fuel : nat).

(** The object behind [pstThis_]. *)
Definition this (a : nat) (s : SYS) : res (@WIDGET WIDGET_DATA) := deref (widgets s) (Some a).

(** [pstManager->pstDisplay] through the owner of the widget. *)
Definition display_of (b : GUI_BASE_STRUCT) (s : SYS) : res Draw.DISPLAY_DRIVER_STRUCT :=
  if pstOwner b then Ok (pstDisplay (mgr s)) else Fault NullDeref.

Definition set_data (a : nat) (d : WIDGET_DATA) (s : SYS) : res SYS :=
  upd_widget (Some a) (λ w, mkWidget (stWidget w) d) s.
Definition set_base (a : nat) (f : GUI_BASE_STRUCT → GUI_BASE_STRUCT) (s : SYS) : res SYS :=
  upd_widget (Some a) (upd_base f) s.

(** What a drawing function does to the display. *)
Definition on_world (f : W → res W) (s : SYS) : res SYS := w ← f (world s); Ok (set_world w s).

Definition rectangle (d : Draw.DISPLAY_DRIVER_STRUCT) (r : Draw.DRAW_RECTANGLE_STRUCT) : SYS → res SYS :=
  on_world (Draw.Draw_Rectangle pix ctl fuel d r).
Definition line (d : Draw.DISPLAY_DRIVER_STRUCT) (l : Draw.DRAW_LINE_STRUCT) : SYS → res SYS :=
  on_world (Draw.Draw_Line pix ctl fuel d l).
Definition text (d : Draw.DISPLAY_DRIVER_STRUCT) (t : Draw.DRAW_TEXT_STRUCT) : SYS → res SYS :=
  on_world (Draw.Draw_Text pix ctl fuel d t).
Definition stamp (d : Draw.DISPLAY_DRIVER_STRUCT) (t : Draw.DRAW_STAMP_STRUCT) : SYS → res SYS :=
  on_world (Draw.Draw_Stamp pix ctl fuel d t).

Definition load_font (name : list Z) (width flags : Z) : res Draw.FONT_STRUCT :=
  i ← Draw.Font_Load fuel g_astFonts name width flags; aget g_astFonts i.

(** ** Initialisation *)

Definition WgSurface_Init (a : nat) (s : SYS) : res SYS :=
  w ← this a s; _ ← as_surface (wdata w); set_data a (Surface (mkSurface COLOR_RED)) s.

Definition WgLabel_Init (a : nat) (s : SYS) : res SYS :=
  w ← this a s; _ ← as_label (wdata w);
  f ← load_font szTahoma 12 0;
  set_data a (Label (mkLabel szLabel f COLOR_GREY75 COLOR_BLACK false)) s.

Definition WgButton_Init (a : nat) (s : SYS) : res SYS :=
  w ← this a s; b ← as_button (wdata w);
  f ← load_font szTahoma 12 0;
  set_data a (Button (mkButton szButton f COLOR_GREY50 COLOR_GREY25 COLOR_WHITE COLOR_WHITE
    (bt_pfCallback b) false)) s.

Definition WgEditBox_Init (a : nat) (s : SYS) : res SYS :=
  w ← this a s; e ← as_editbox (wdata w);
  caption ← aset (eb_szCaption e) 0 0;
  f ← load_font szTahoma 12 0;
  set_data a (EditBox (mkEditBox caption f COLOR_WHITE COLOR_GREY50 COLOR_GREY25 COLOR_BLACK)) s.

Definition WgProgressBar_Init (a : nat) (s : SYS) : res SYS :=
  w ← this a s; _ ← as_progressbar (wdata w);
  f ← load_font szTahoma 12 0;
  set_data a (ProgressBar (mkProgressBar f 0 COLOR_WHITE COLOR_GREY50 COLOR_GREEN COLOR_BLACK)) s.

Definition WgCheckBox_Init (a : nat) (s : SYS) : res SYS :=
  w ← this a s; _ ← as_checkbox (wdata w);
  f ← load_font szTahoma 12 0;
  set_data a (CheckBox (mkCheckBox szCheckBox f COLOR_RED COLOR_GREY25 COLOR_WHITE COLOR_WHITE
    COLOR_GREY25 false)) s.

Definition WgRadioButton_Init (a : nat) (s : SYS) : res SYS :=
  w ← this a s; r ← as_radiobutton (wdata w);
  f ← load_font szTahoma 12 0;
  set_data a (RadioButton (mkRadioButton szRadioBtn f COLOR_RED COLOR_GREY25 COLOR_WHITE COLOR_WHITE
    COLOR_GREY25 false (rb_pstNext r) (rb_pstPrev r))) s.

Definition wg_init (k : WIDGET_ID) : nat → SYS → res SYS :=
  match k with
  | WIDGET_SURFACE_ID => WgSurface_Init | WIDGET_LABEL_ID => WgLabel_Init
  | WIDGET_BUTTON_ID => WgButton_Init | WIDGET_EDITBOX_ID => WgEditBox_Init
  | WIDGET_PROGRESSBAR_ID => WgProgressBar_Init | WIDGET_CHECKBOX_ID => WgCheckBox_Init
  | WIDGET_RADIOBUTTON_ID => WgRadioButton_Init
  end.

(** ** Drawing *)

Definition GetControlOffsets (a : nat) (s : SYS) : res (Z * Z) :=
  Fooey_GetControlOffsets fuel (Some a) s.

Definition WgSurface_Draw (a : nat) (s : SYS) : res SYS :=
  w ← this a s; sf ← as_surface (wdata w);
  let b := stWidget w in
  d ← display_of b s;
  s ← rectangle d (Draw.mkRectangle (usLeft b) (usTop b) (usRight b) (usBottom b)
        (sf_cBGColor sf) 1 (sf_cBGColor sf)) s;
  set_base a (set_bRedraw false) s.

Definition WgLabel_Draw (a : nat) (s : SYS) : res SYS :=
  w ← this a s; l ← as_label (wdata w);
  let b := stWidget w in
  d ← display_of b s;
  '(xo, yo) ← GetControlOffsets a s;
  s ← (if lb_bUseBG l then
         rectangle d (Draw.mkRectangle (u16 (usLeft b + xo)) (u16 (usTop b + yo))
           (u16 (usRight b + xo)) (u16 (usBottom b + yo)) (lb_cBGColor l) 1 (lb_cBGColor l)) s
       else Ok s);
  s ← text d (Draw.mkText (u16 (usLeft b + xo)) (u16 (usTop b + yo)) (lb_pstFont l)
        (lb_szCaption l) (lb_cTextColor l)) s;
  set_base a (set_bRedraw false) s.

Definition WgButton_Draw (a : nat) (s : SYS) : res SYS :=
  w ← this a s; bt ← as_button (wdata w);
  let b := stWidget w in
  d ← display_of b s;
  '(xo, yo) ← GetControlOffsets a s;
  let ln := λ x1 x2 y1 y2, line d (Draw.mkLine (u16 x1) (u16 x2) (u16 y1) (u16 y2) (bt_cLineColor bt)) in
  s ← ln (usLeft b + xo + 1) (usRight b + xo - 1) (usTop b + yo) (usTop b + yo) s;
  s ← ln (usLeft b + xo + 1) (usRight b + xo - 1) (usBottom b + yo) (usBottom b + yo) s;
  s ← ln (usLeft b + xo) (usLeft b + xo) (usTop b + yo + 1) (usBottom b + yo - 1) s;
  s ← ln (usRight b + xo) (usRight b + xo) (usTop b + yo + 1) (usBottom b + yo - 1) s;
  let uFillColor := if bt_bState bt then bt_cBGActiveColor bt else bt_cBGColor bt in
  let uLineColor := if bHasFocus b then bt_cLineColor bt else uFillColor in
  s ← rectangle d (Draw.mkRectangle (u16 (usLeft b + xo + 1)) (u16 (usTop b + yo + 1))
        (u16 (usRight b + xo - 1)) (u16 (usBottom b + yo - 1)) uLineColor 1 uFillColor) s;
  let t := λ x, Draw.mkText x (u16 (usTop b + yo)) (bt_pstFont bt) (bt_szCaption bt) (bt_cTextColor bt) in
  usWidth ← Draw.Draw_TextWidth fuel (t 0);
  let usHalfWidth := Z.shiftr usWidth 1 in
  let usX := u16 (usLeft b + Z.shiftr (u16 (usRight b - usLeft b)) 1 - usHalfWidth + xo) in
  s ← text d (t usX) s;
  set_base a (set_bRedraw false) s.

Definition WgEditBox_Draw (a : nat) (s : SYS) : res SYS :=
  w ← this a s; e ← as_editbox (wdata w);
  let b := stWidget w in
  d ← display_of b s;
  '(xo, yo) ← GetControlOffsets a s;
  s ← rectangle d (Draw.mkRectangle (u16 (usLeft b + xo)) (u16 (usTop b + yo))
        (u16 (usRight b + xo)) (u16 (usBottom b + yo))
        (if bHasFocus b then eb_cActiveColor e else eb_cLineColor e) 1 (eb_cBGColor e)) s;
  s ← text d (Draw.mkText (u16 (usLeft b + xo + 1)) (u16 (usTop b + yo + 1)) (eb_pstFont e)
        (eb_szCaption e) (eb_cTextColor e)) s;
  set_base a (set_bRedraw false) s.

(** The width of the filled part of a progress bar, in 16 bits. *)
Definition progress_width (b : GUI_BASE_STRUCT) (p : WIDGET_PROGRESSBAR) : Z :=
  let usProgressWidth := u16 (usRight b - usLeft b - 2) in
  u16 (usProgressWidth * pb_ucProgress p) / 100.

Definition WgProgressBar_Draw (a : nat) (s : SYS) : res SYS :=
  w ← this a s; p ← as_progressbar (wdata w);
  let b := stWidget w in
  d ← display_of b s;
  '(xo, yo) ← GetControlOffsets a s;
  s ← rectangle d (Draw.mkRectangle (u16 (usLeft b + xo)) (u16 (usTop b + yo))
        (u16 (usRight b + xo)) (u16 (usBottom b + yo)) (pb_cLineColor p) 1 (pb_cBGColor p)) s;
  let left := u16 (usLeft b + xo + 1) in
  s ← rectangle d (Draw.mkRectangle left (u16 (usTop b + yo + 1))
        (u16 (left + progress_width b p)) (u16 (usBottom b + yo - 1)) (pb_cFillColor p) 1 (pb_cFillColor p)) s;
  set_base a (set_bRedraw false) s.

(** Without the focus the line colour of the bounding rectangle is never
    assigned. *)
Definition WgCheckBox_Draw (a : nat) (s : SYS) : res SYS :=
  w ← this a s; c ← as_checkbox (wdata w);
  let b := stWidget w in
  d ← display_of b s;
  '(xo, yo) ← GetControlOffsets a s;
  let left := u16 (usLeft b + xo) in
  let top := u16 (usTop b + yo) in
  s ← rectangle d (Draw.mkRectangle left top (u16 (usRight b + xo)) (u16 (usBottom b + yo))
        (if bHasFocus b then cb_cActiveColor c else indet) 1 (cb_cBGColor c)) s;
  let left := u16 (left + 1) in
  let right := u16 (left + 9) in
  let top := u16 (top + u16 (usBottom b - usTop b - 10) / 2) in
  s ← rectangle d (Draw.mkRectangle left top right (u16 (top + 9)) (cb_cCheckColor c) 1 (cb_cBoxColor c)) s;
  s ← (if cb_bChecked c then
         stamp d (Draw.mkStamp (u16 (left + 1)) (u16 (top + 1)) 8 8 (cb_cCheckColor c) aucCheck) s
       else Ok s);
  s ← text d (Draw.mkText (u16 (right + 2)) (usTop b) (cb_pstFont c) (cb_szCaption c) (cb_cTextColor c)) s;
  set_base a (set_bRedraw false) s.

Definition WgRadioButton_Draw (a : nat) (s : SYS) : res SYS :=
  w ← this a s; r ← as_radiobutton (wdata w);
  let b := stWidget w in
  d ← display_of b s;
  '(xo, yo) ← GetControlOffsets a s;
  let left := u16 (usLeft b + xo) in
  let top := u16 (usTop b + yo) in
  s ← rectangle d (Draw.mkRectangle left top (u16 (usRight b + xo)) (u16 (usBottom b + yo))
        (if bHasFocus b then rb_cActiveColor r else rb_cBGColor r) 1 (rb_cBGColor r)) s;
  let usX := u16 (left + 1) in
  let usY := u16 (top + u16 (usBottom b - usTop b - 10) / 2) in
  s ← stamp d (Draw.mkStamp usX usY 8 8 (rb_cBoxColor r) aucCircle) s;
  s ← (if rb_bChecked r then stamp d (Draw.mkStamp usX usY 8 8 (rb_cCheckColor r) aucFilled) s else Ok s);
  s ← text d (Draw.mkText (u16 (usX + 12)) (usTop b) (rb_pstFont r) (rb_szCaption r) (rb_cTextColor r)) s;
  set_base a (set_bRedraw false) s.

Definition wg_draw (k : WIDGET_ID) : nat → SYS → res SYS :=
  match k with
  | WIDGET_SURFACE_ID => WgSurface_Draw | WIDGET_LABEL_ID => WgLabel_Draw
  | WIDGET_BUTTON_ID => WgButton_Draw | WIDGET_EDITBOX_ID => WgEditBox_Draw
  | WIDGET_PROGRESSBAR_ID => WgProgressBar_Draw | WIDGET_CHECKBOX_ID => WgCheckBox_Draw
  | WIDGET_RADIOBUTTON_ID => WgRadioButton_Draw
  end.

(** ** Reacting to events *)

(** [Fooey_ResetFocus(owner)], then the focus and the redraw flag. *)
Definition take_focus (a : nat) (s : SYS) : res SYS :=
  w ← this a s;
  s ← (if pstOwner (stWidget w) then Fooey_ResetFocus fuel s else Fault NullDeref);
  s ← set_base a (set_bHasFocus true) s;
  set_base a (set_bRedraw true) s.

Definition is_mouse (e : FOOEY_EVENT_STRUCT) : bool :=
  usEventID e =? event_type_num FOOEY_EVENT_TYPE_MOUSE.
Definition is_keyboard (e : FOOEY_EVENT_STRUCT) : bool :=
  usEventID e =? event_type_num FOOEY_EVENT_TYPE_KEYBOARD.

(** Labels, edit boxes and progress bars ignore all events. *)
Definition WgLabel_Control (a : nat) (e : FOOEY_EVENT_STRUCT) (s : SYS) : res SYS := Ok s.
Definition WgEditBox_Control (a : nat) (e : FOOEY_EVENT_STRUCT) (s : SYS) : res SYS := Ok s.
Definition WgProgressBar_Control (a : nat) (e : FOOEY_EVENT_STRUCT) (s : SYS) : res SYS := Ok s.

Definition WgButton_Control (a : nat) (e : FOOEY_EVENT_STRUCT) (s : SYS) : res SYS :=
  if is_mouse e then
    if usEventTime e =? 0 then
      w ← this a s; bt ← as_button (wdata w);
      s ← (if mouse_bLeftState e =? 1 then set_data a (Button (set_bt_bState true bt)) s
           else
             s ← set_data a (Button (set_bt_bState false bt)) s;
             match bt_pfCallback bt with None => Ok s | Some f => callback f s end);
      take_focus a s
    else Ok s
  else Ok s.

Definition WgCheckBox_Control (a : nat) (e : FOOEY_EVENT_STRUCT) (s : SYS) : res SYS :=
  if is_mouse e then
    if (usEventTime e =? 0) && (mouse_bLeftState e =? 1) then
      w ← this a s; c ← as_checkbox (wdata w);
      s ← set_data a (CheckBox (set_cb_bChecked (negb (cb_bChecked c)) c)) s;
      take_focus a s
    else Ok s
  else Ok s.

(** Uncheck the buttons from [p] on in the direction [dir]. *)
Fixpoint deselect (n : nat) (dir : WIDGET_RADIOBUTTON → ptr) (p : ptr) (s : SYS) : res SYS :=
  match p with
  | None => Ok s
  | Some a =>
      match n with
      | O => Fault OutOfFuel
      | S n =>
          w ← this a s; r ← as_radiobutton (wdata w);
          s ← set_data a (RadioButton (set_rb_bChecked false r)) s;
          s ← set_base a (set_bRedraw true) s;
          s ← set_base a (set_bHasFocus false) s;
          deselect n dir (dir r) s
      end
  end.

Definition WgRadioButton_Control (a : nat) (e : FOOEY_EVENT_STRUCT) (s : SYS) : res SYS :=
  if is_mouse e then
    w ← this a s; r ← as_radiobutton (wdata w);
    if (usEventTime e =? 0) && (mouse_bLeftState e =? 1) then
      s ← (if rb_bChecked r then Ok s
           else
             s ← deselect fuel rb_pstNext (rb_pstNext r) s;
             s ← deselect fuel rb_pstPrev (rb_pstPrev r) s;
             w ← this a s; r ← as_radiobutton (wdata w);
             set_data a (RadioButton (set_rb_bChecked true r)) s);
      take_focus a s
    else Ok s
  else Ok s.

(** The test of the bounding box as it is written: the last comparison has
    the wrong direction. *)
Definition in_box (e : FOOEY_EVENT_STRUCT) (left right top bottom : Z) : bool :=
  (left <=? mouse_usX e) && (mouse_usX e <=? right) &&
  (top <=? mouse_usY e) && (bottom <=? mouse_usY e).

(** The surface passes events for [WIDGET_DEST_AUTO] on to other widgets;
    [forward] calls the control function of a widget.  The offsets it adds
    are its own. *)
Definition WgSurface_Control (forward : option WIDGET_ID → nat → FOOEY_EVENT_STRUCT → SYS → res SYS)
    (a : nat) (e : FOOEY_EVENT_STRUCT) (s : SYS) : res SYS :=
  w ← this a s;
  if usDest e =? WIDGET_DEST_AUTO then
    if is_keyboard e then
      if negb (pstOwner (stWidget w)) then Fault NullDeref
      else scene_loop num_widgets fuel 0 (each (λ x s,
        if bool_decide (x = a) then Ok (false, s)
        else
          b ← base_of (Some x) s;
          if bHasFocus b then s ← forward (pfControl b) x e s; Ok (false, s)
          else Ok (false, s))) s
    else if is_mouse e then
      if negb (pstOwner (stWidget w)) then Fault NullDeref
      else scene_loop num_widgets fuel 0 (each (λ x s,
        if bool_decide (x = a) then Ok (false, s)
        else
          b ← base_of (Some x) s;
          '(xo, yo) ← GetControlOffsets a s;
          if in_box e (u16 (usLeft b + xo)) (u16 (usRight b + xo)) (u16 (usTop b + yo)) (u16 (usBottom b + yo))
          then s ← forward (pfControl b) x e s; Ok (false, s)
          else Ok (false, s))) s
    else Ok s
  else Ok s.

(** The control functions by kind; [n] bounds the nesting of surfaces. *)
Fixpoint wg_control (n : nat) (k : WIDGET_ID) (a : nat) (e : FOOEY_EVENT_STRUCT) (s : SYS) : res SYS :=
  match k with
  | WIDGET_SURFACE_ID =>
      WgSurface_Control (λ pf x e s,
        match pf, n with
        | None, _ => Fault NullCall
        | Some _, O => Fault OutOfFuel
        | Some k, S n => wg_control n k x e s
        end) a e s
  | WIDGET_LABEL_ID => WgLabel_Control a e s
  | WIDGET_BUTTON_ID => WgButton_Control a e s
  | WIDGET_EDITBOX_ID => WgEditBox_Control a e s
  | WIDGET_PROGRESSBAR_ID => WgProgressBar_Control a e s
  | WIDGET_CHECKBOX_ID => WgCheckBox_Control a e s
  | WIDGET_RADIOBUTTON_ID => WgRadioButton_Control a e s
  end.

(** ** What the steps change *)

(** The data of the widgets. *)
Definition datas (s : SYS) : gmap nat WIDGET_DATA := wdata <$> widgets s.

Lemma set_base_spec a f s s' : set_base a f s = Ok s' →
  mgr s' = mgr s ∧ bases s' = alter f a (bases s) ∧ datas s' = datas s.
Proof.
  intros H. destruct (upd_widget_bases _ _ _ _ H) as [Hm Hb]. split; [done|]. split; [done|].
  unfold set_base, upd_widget, assign in H. destruct (widgets s !! a) as [w|] eqn:E; [|done].
  rewrite bind_ok in H. injection H as <-. unfold datas. cbn. rewrite fmap_insert. cbn.
  apply insert_id. by rewrite lookup_fmap, E.
Qed.

Lemma set_data_spec a d s s' : set_data a d s = Ok s' →
  mgr s' = mgr s ∧ bases s' = bases s ∧ datas s' = <[a := d]> (datas s).
Proof.
  unfold set_data, upd_widget, assign. destruct (widgets s !! a) as [w|] eqn:E; [|done].
  rewrite bind_ok. intros [= <-]. unfold bases, datas. cbn. rewrite !fmap_insert. cbn.
  split; [done|]. split; [|done]. apply insert_id. by rewrite lookup_fmap, E.
Qed.

Lemma on_world_spec f s s' : on_world f s = Ok s' → widgets s' = widgets s ∧ mgr s' = mgr s.
Proof. unfold on_world. intros H. by inv_ok. Qed.

(** Whether widget [a] exists does not depend on which half one looks at. *)
Lemma datas_bases a s : is_Some (datas s !! a) ↔ is_Some (bases s !! a).
Proof. unfold datas, bases. by rewrite !lookup_fmap, !fmap_is_Some. Qed.

Lemma set_base_ok a f s : is_Some (bases s !! a) → ∃ s', set_base a f s = Ok s'.
Proof. apply upd_widget_ok. Qed.
Lemma set_data_ok a d s : is_Some (bases s !! a) → ∃ s', set_data a d s = Ok s'.
Proof. apply upd_widget_ok. Qed.

(** Reading a widget: its data and its common part. *)
Lemma this_ok a s d : datas s !! a = Some d →
  ∃ w, this a s = Ok w ∧ wdata w = d ∧ bases s !! a = Some (stWidget w).
Proof.
  unfold datas, this, deref, bases. rewrite !lookup_fmap.
  destruct (widgets s !! a) as [w|]; intros [= <-]. by exists w.
Qed.

Ltac steps :=
  repeat match goal with
  | H : on_world _ _ = Ok _ |- _ => apply on_world_spec in H; destruct H
  | H : rectangle _ _ _ = Ok _ |- _ => apply on_world_spec in H; destruct H
  | H : line _ _ _ = Ok _ |- _ => apply on_world_spec in H; destruct H
  | H : text _ _ _ = Ok _ |- _ => apply on_world_spec in H; destruct H
  | H : stamp _ _ _ = Ok _ |- _ => apply on_world_spec in H; destruct H
  | H : Ok _ = Ok _ |- _ => injection H as H; subst
  | H : (let '(_, _) := ?p in _) = Ok _ |- _ => destruct p
  end.

(** Drawing a widget changes the display and clears the redraw flag of the
    widget, nothing else: what [Fooey_RenderChanged] relies on. *)
Lemma wg_draw_spec k a s s' : wg_draw k a s = Ok s' →
  mgr s' = mgr s ∧ bases s' = alter (set_bRedraw false) a (bases s) ∧ datas s' = datas s.
Proof.
  assert (∀ t, widgets t = widgets s → mgr t = mgr s → set_base a (set_bRedraw false) t = Ok s' →
    mgr s' = mgr s ∧ bases s' = alter (set_bRedraw false) a (bases s) ∧ datas s' = datas s) as Hend.
  { intros t Hw Hm H. destruct (set_base_spec _ _ _ _ H) as (H1 & H2 & H3).
    rewrite H1, H2, H3. unfold bases, datas. by rewrite Hw, Hm. }
  destruct k; cbn [wg_draw];
    unfold WgSurface_Draw, WgLabel_Draw, WgButton_Draw, WgEditBox_Draw, WgProgressBar_Draw,
      WgCheckBox_Draw, WgRadioButton_Draw; intros H; cbn zeta in H; inv_ok; steps; inv_ok;
    repeat case_match; steps; (eapply Hend; [..|eassumption]; congruence).
Qed.

Lemma wg_draw_quiet : draw_quiet wg_draw.
Proof. intros k a s s' H. destruct (wg_draw_spec _ _ _ _ H) as (-> & -> & _). auto. Qed.


Lemma ResetFocus_datas s s' : Fooey_ResetFocus fuel s = Ok s' → datas s' = datas s.
Proof.
  unfold Fooey_ResetFocus. apply (scene_loop_inv (λ t, datas t = datas s)); [|done].
  intros i t [brk t'] Ht Hr. cbn. rewrite <- Ht. unfold each in Hr. inv_ok.
  destruct x as [a|]; inv_ok; [|done]. case_match; inv_ok; [|done].
  apply set_base_spec in H2 as (_ & _ & ?). apply set_base_spec in H3 as (_ & _ & ?). congruence.
Qed.


(** ** Focus *)

(** A scene of existing widgets of which at most one has the focus. *)
Definition focused (s : SYS) (a : nat) : Prop := ∃ b, bases s !! a = Some b ∧ bHasFocus b = true.

Record focus_ok (s : SYS) : Prop := {
  fo_scene : scene_ok (mgr s);
  fo_live : scene_live s;
  fo_one : ∀ a b, a ∈ live (mgr s) → b ∈ live (mgr s) → focused s a → focused s b → a = b
}.

(** Changes that keep it: the scene stays, no widget disappears and none
    that was without the focus gets it. *)
Definition calmer (s s' : SYS) : Prop :=
  mgr s' = mgr s ∧
  ∀ a, match bases s !! a with
       | Some b => ∃ b', bases s' !! a = Some b' ∧ (bHasFocus b' = true → bHasFocus b = true)
       | None => bases s' !! a = None
       end.

#[local] Instance calmer_preorder : PreOrder calmer.
Proof.
  split.
  - intros s. split; [done|]. intros a. destruct (bases s !! a); eauto.
  - intros s t u [Hm1 H1] [Hm2 H2]. split; [congruence|]. intros a. specialize (H1 a). specialize (H2 a).
    destruct (bases s !! a) as [b|].
    + destruct H1 as (b1 & E1 & F1). rewrite E1 in H2. destruct H2 as (b2 & E2 & F2). eauto.
    + by rewrite H1 in H2.
Qed.

Lemma calmer_focus_ok s s' : calmer s s' → focus_ok s → focus_ok s'.
Proof.
  intros [Hm Hb] [Hs Hl Ho]. split; unfold scene_live; rewrite ?Hm; [done| |].
  - intros a Ha. specialize (Hb a). destruct (Hl a Ha) as [b E]. rewrite E in Hb.
    destruct Hb as (b' & -> & _). by eexists.
  - assert (∀ a, focused s' a → focused s a) as Hf.
    { intros a (b' & E' & F'). specialize (Hb a). destruct (bases s !! a) as [b|] eqn:E; [|congruence].
      destruct Hb as (b1 & E1 & F1). exists b. split; [done|]. apply F1. congruence. }
    intros a b Ha Hb' Fa Fb. apply Ho; auto.
Qed.

Lemma set_data_calmer a d s s' : set_data a d s = Ok s' → calmer s s'.
Proof.
  intros H. destruct (set_data_spec _ _ _ _ H) as (Hm & Hb & _). split; [done|]. intros x.
  rewrite Hb. destruct (bases s !! x); eauto.
Qed.

Lemma set_base_calmer a f s s' : (∀ b, bHasFocus (f b) = true → bHasFocus b = true) →
  set_base a f s = Ok s' → calmer s s'.
Proof.
  intros Hf H. destruct (set_base_spec _ _ _ _ H) as (Hm & Hb & _). split; [done|]. intros x.
  rewrite Hb. destruct (decide (x = a)) as [->|].
  - rewrite lookup_alter_eq. destruct (bases s !! a); cbn; eauto.
  - rewrite lookup_alter_ne by done. destruct (bases s !! x); eauto.
Qed.

Lemma deselect_calmer n dir p s s' : deselect n dir p s = Ok s' → calmer s s'.
Proof.
  revert p s. induction n as [|n IH]; intros [a|] s H; cbn [deselect] in H; inv_ok; try done.
  apply set_data_calmer in H2.
  apply set_base_calmer in H3; [|done]. apply set_base_calmer in H4; [|done]. apply IH in H.
  by do 3 (etransitivity; [eassumption|]).
Qed.

(** Taking the focus: afterwards the widget is the only one of the scene
    that has it, and it is to be drawn. *)
Lemma take_focus_ok a s b :
  scene_ok (mgr s) → scene_live s → 65536 <= Z.of_nat fuel →
  bases s !! a = Some b → pstOwner b = true →
  ∃ s', take_focus a s = Ok s' ∧ mgr s' = mgr s ∧ datas s' = datas s ∧
    ∀ x, bases s' !! x =
      (if decide (x = a) then λ b, set_bRedraw true (set_bHasFocus true b)
       else if decide (x ∈ live (mgr s)) then unfocus else id) <$> bases s !! x.
Proof.
  intros Hok Hl Hf Hb Ho. unfold take_focus, this, deref.
  assert (∃ w, widgets s !! a = Some w ∧ stWidget w = b) as (w & -> & Hw).
  { unfold bases in Hb. rewrite lookup_fmap in Hb. destruct (widgets s !! a) as [w|]; [|done].
    injection Hb as <-. by exists w. }
  rewrite bind_ok, Hw, Ho. destruct (Fooey_ResetFocus_ok fuel s Hok Hl Hf) as (s1 & E1 & Hm1 & Hb1).
  pose proof (ResetFocus_datas _ _ E1) as Hd1.
  rewrite E1, bind_ok. destruct (set_base_ok a (set_bHasFocus true) s1) as [s2 E2].
  { rewrite Hb1, Hb. by eexists. }
  destruct (set_base_spec _ _ _ _ E2) as (Hm2 & Hb2 & Hd2). rewrite E2, bind_ok.
  destruct (set_base_ok a (set_bRedraw true) s2) as [s3 E3].
  { rewrite Hb2, lookup_alter_eq, Hb1, Hb. by eexists. }
  destruct (set_base_spec _ _ _ _ E3) as (Hm3 & Hb3 & Hd3). rewrite E3.
  exists s3. split; [done|]. split; [congruence|]. split; [congruence|]. intros x.
  rewrite Hb3, Hb2. case_decide as Hx.
  - subst x. rewrite !lookup_alter_eq, Hb1, Hb. cbn. case_decide; [|done].
    unfold unfocus. by destruct b as [????????[]].
  - by rewrite !lookup_alter_ne, Hb1.
Qed.


Lemma take_focus_focus_ok a s s' :
  65536 <= Z.of_nat fuel → take_focus a s = Ok s' → focus_ok s → focus_ok s'.
Proof.
  intros Hf H [Hs Hl Ho].
  assert (∃ b, bases s !! a = Some b ∧ pstOwner b = true) as (b & Hb & Hw).
  { unfold take_focus, this, deref in H. unfold bases. rewrite lookup_fmap.
    destruct (widgets s !! a) as [w|]; [|done]. rewrite bind_ok in H.
    exists (stWidget w). split; [done|]. by destruct (pstOwner (stWidget w)). }
  destruct (take_focus_ok a s b Hs Hl Hf Hb Hw) as (s1 & E & Hm & _ & Hb1).
  rewrite E in H. injection H as <-.
  assert (∀ x, x ∈ live (mgr s) → focused s1 x → x = a) as Hone.
  { intros x Hx (b' & Ex & Fx). rewrite Hb1 in Ex. case_decide; [done|].
    rewrite decide_True in Ex by done. destruct (bases s !! x) as [c|]; [|done]. injection Ex as <-.
    unfold unfocus in Fx. destruct (bHasFocus c) eqn:Ec; [done|congruence]. }
  split; unfold scene_live; rewrite ?Hm; [done| |].
  - intros x Hx. rewrite Hb1. apply fmap_is_Some. by apply Hl.
  - intros x y Hx Hy Fx Fy. rewrite (Hone x), (Hone y) by done. done.
Qed.

Section handlers.
Context (Hfuel : 65536 <= Z.of_nat fuel)
  (Hcb : ∀ f s s', callback f s = Ok s' → focus_ok s → focus_ok s').

Lemma WgButton_Control_focus a e s s' : WgButton_Control a e s = Ok s' → focus_ok s → focus_ok s'.
Proof.
  unfold WgButton_Control. intros H Hs. repeat case_match; inv_ok; try done;
    (eapply take_focus_focus_ok; [done|eassumption|]).
  - eapply calmer_focus_ok; [by eapply set_data_calmer|done].
  - match goal with H : set_data _ _ _ = Ok _ |- _ => apply set_data_calmer in H end.
    eapply calmer_focus_ok in Hs; [|done].
    case_match; inv_ok; [by eapply Hcb|done].
Qed.

Lemma WgCheckBox_Control_focus a e s s' : WgCheckBox_Control a e s = Ok s' → focus_ok s → focus_ok s'.
Proof.
  unfold WgCheckBox_Control. intros H Hs. repeat case_match; inv_ok; try done.
  eapply take_focus_focus_ok; [done|eassumption|].
  eapply calmer_focus_ok; [by eapply set_data_calmer|done].
Qed.

Lemma WgRadioButton_Control_focus a e s s' :
  WgRadioButton_Control a e s = Ok s' → focus_ok s → focus_ok s'.
Proof.
  unfold WgRadioButton_Control. intros H Hs. destruct (is_mouse e); inv_ok; [|done].
  destruct (_ && _); inv_ok; [|done]. eapply take_focus_focus_ok; [done|eassumption|].
  destruct (rb_bChecked _); inv_ok; [done|].
  repeat match goal with H : deselect _ _ _ _ = Ok _ |- _ => apply deselect_calmer in H end.
  match goal with H : set_data _ _ _ = Ok _ |- _ => apply set_data_calmer in H end.
  eapply calmer_focus_ok; [|done]. by do 2 (etransitivity; [eassumption|]).
Qed.

Lemma WgSurface_Control_keeps (P : SYS → Prop) forward a e s s' :
  (∀ pf x s s', forward pf x e s = Ok s' → P s → P s') →
  WgSurface_Control forward a e s = Ok s' → P s → P s'.
Proof.
  intros Hfw H Hs. unfold WgSurface_Control in H. inv_ok.
  repeat case_match; inv_ok; try done; revert H; (apply scene_loop_inv; [|done]);
    intros i t r Ht Hr; unfold each in Hr; inv_ok; (case_match; inv_ok; [|done]);
    (case_match; inv_ok; [done|]).
  - case_match; inv_ok; [by eapply Hfw|done].
  - destruct x2. case_match; inv_ok; [by eapply Hfw|done].
Qed.

Lemma wg_control_focus n k a e s s' : wg_control n k a e s = Ok s' → focus_ok s → focus_ok s'.
Proof.
  revert k a s s'. induction n as [|n IH]; intros k a s s' H Hs;
    destruct k; cbn [wg_control] in H;
    unfold WgLabel_Control, WgEditBox_Control, WgProgressBar_Control in H; inv_ok; try done;
    try by eauto using WgButton_Control_focus, WgCheckBox_Control_focus, WgRadioButton_Control_focus.
  all: eapply WgSurface_Control_keeps; [|done..]; intros [k|] x t t' E Ht; try done; by eapply IH.
Qed.


(** ** The queue during event handling *)

Context (Hcq : ∀ f s s', callback f s = Ok s' → stEvents (mgr s') = stEvents (mgr s)).

Lemma take_focus_queue a s s' : take_focus a s = Ok s' → stEvents (mgr s') = stEvents (mgr s).
Proof.
  unfold take_focus. intros H. inv_ok. case_match; [|done].
  apply set_base_spec in H as (-> & _). apply set_base_spec in H2 as (-> & _).
  revert H1. apply scene_loop_queue. intros i t r Hr. unfold each in Hr. inv_ok.
  destruct x2; inv_ok; [|done]. case_match; inv_ok; [|done]. cbn.
  repeat match goal with H : upd_widget _ _ _ = Ok _ |- _ => apply upd_widget_mgr in H end. congruence.
Qed.

Lemma wg_control_quiet n : control_quiet (wg_control n).
Proof.
  induction n as [|n IH]; intros k a e s s' H; destruct k; cbn [wg_control] in H.
  all: try (eapply (WgSurface_Control_keeps (λ t, stEvents (mgr t) = stEvents (mgr s)));
    [|eassumption|done]; intros [k|] x t t' E Ht; [|done]; by rewrite ?(IH _ _ _ _ _ E)).
  all: unfold WgLabel_Control, WgEditBox_Control, WgProgressBar_Control, WgButton_Control,
    WgCheckBox_Control, WgRadioButton_Control in H;
    repeat (inv_ok; match type of H with (if ?b then _ else _) = _ => destruct b end); inv_ok; try done;
    rewrite (take_focus_queue _ _ _ H).
  all: repeat match goal with
    | H : set_data _ _ _ = Ok _ |- _ => apply set_data_calmer in H; destruct H as [H _]
    | H : deselect _ _ _ _ = Ok _ |- _ => apply deselect_calmer in H; destruct H as [H _]
    | H : callback _ _ = Ok _ |- _ => apply Hcq in H
    | H : (if ?b then _ else _) = Ok _ |- _ => destruct b; inv_ok
    | H : match ?o with Some _ => _ | None => _ end = Ok _ |- _ => destruct o; inv_ok
    end; congruence.
Qed.


(** ** The focus over a whole session *)

Lemma dispatch_keeps (P : SYS → Prop) (ctrl : WIDGET_ID → nat → FOOEY_EVENT_STRUCT → SYS → res SYS) e s s' :
  (∀ k a s s', ctrl k a e s = Ok s' → P s → P s') →
  dispatch ctrl fuel e s = Ok s' → P s → P s'.
Proof.
  intros Hc H Hs. unfold dispatch in H.
  assert (∀ pf a t t', call_control ctrl pf a e t = Ok t' → P t → P t') as Hcc.
  { intros [k|] a t t' E; [by eapply Hc|done]. }
  repeat case_match; revert H; (apply scene_loop_inv; [|done]); intros i t r Ht Hr;
    unfold each in Hr; inv_ok; (destruct x as [a|]; inv_ok; [|done]);
    repeat case_match; inv_ok; cbn; try done; by eapply Hcc.
Qed.

Lemma set_queue_focus_ok q s : focus_ok s → focus_ok (set_queue q s).
Proof. intros [Hs Hl Ho]. by split. Qed.

Lemma process_loop_focus m n s s' :
  process_loop (wg_control m) fuel n s = Ok s' → focus_ok s → focus_ok s'.
Proof.
  revert s. induction n as [|n IH]; intros s H Hs; cbn [process_loop] in H; case_match; inv_ok; try done.
  eapply IH; [done|]. apply set_queue_focus_ok. eapply dispatch_keeps; [|done..].
  intros k a t t' E. by eapply wg_control_focus.
Qed.

Lemma draw_step_calmer (a : nat) pf s t s' :
  call_draw wg_draw pf a s = Ok t → upd_widget (Some a) (upd_base (set_bRedraw false)) t = Ok s' → calmer s s'.
Proof.
  intros H1 H2. etransitivity; [|eapply (set_base_calmer a (set_bRedraw false)); [|exact H2]; done].
  destruct pf as [k|]; [|done]. destruct (wg_draw_spec _ _ _ _ H1) as (Hm & Hb & _). split; [done|].
  intros x. rewrite Hb. destruct (decide (x = a)) as [->|].
  - rewrite lookup_alter_eq. destruct (bases s !! a); cbn; eauto.
  - rewrite lookup_alter_ne by done. destruct (bases s !! x); eauto.
Qed.

Lemma render_loop_calmer n g todraw drawn s s' :
  render_loop wg_draw fuel n g todraw drawn s = Ok s' → calmer s s'.
Proof.
  revert g drawn s. induction n as [|n IH]; intros g drawn s H; cbn [render_loop] in H;
    case_match; inv_ok; try done. destruct x as [d t].
  assert (calmer s t) as Ht.
  { revert H1. apply (scene_loop_inv (λ t, calmer s t.2)); [|done].
    intros i [d1 t1] r Ht1 Hr. inv_ok. cbn [snd] in *. destruct x as [a|]; inv_ok; [|done].
    destruct (_ && _); inv_ok; [|done]. etransitivity; [done|]. by eapply draw_step_calmer. }
  case_match; inv_ok; [done|]. etransitivity; [done|]. by eapply IH.
Qed.

Lemma Fooey_RenderChanged_calmer s s' : Fooey_RenderChanged wg_draw fuel s = Ok s' → calmer s s'.
Proof.
  unfold Fooey_RenderChanged. intros H. inv_ok. destruct x as [c t].
  apply render_loop_calmer in H.
  assert (t = s) as ->; [|done]. revert H0. apply (scene_loop_inv (λ t, t.2 = s)); [|done].
  intros i [d1 t1] r Ht1 Hr. inv_ok. cbn in *. destruct x; inv_ok; [|done]. done.
Qed.

Lemma Fooey_RenderAll_calmer s s' : Fooey_RenderAll wg_draw fuel s = Ok s' → calmer s s'.
Proof.
  unfold Fooey_RenderAll. intros H. inv_ok. apply Fooey_RenderChanged_calmer in H.
  etransitivity; [|done]. revert H0. apply (scene_loop_inv (λ t, calmer s t)); [|done].
  intros i t r Ht Hr. unfold each in Hr. inv_ok. destruct x0; inv_ok; [|done]. cbn.
  etransitivity; [done|]. eapply (set_base_calmer n (set_bRedraw true)); [|done]. done.
Qed.

Lemma Fooey_AddWidget_bases p g ty (s s' : SYS) : Fooey_AddWidget p g ty s = Ok (s', true) →
  ∃ a f, p = Some a ∧ bases s' = alter f a (bases s) ∧ is_Some (bases s !! a) ∧
    ∀ b, bHasFocus (f b) = false.
Proof.
  intros H. unfold Fooey_AddWidget in H. inv_ok. destruct x as [[i q]|]; inv_ok; [|done].
  destruct p as [a|]; [|by cbn in H2].
  assert (is_Some (bases s !! a)) as Hex.
  { unfold bases. rewrite lookup_fmap. unfold upd_widget, assign in H2. cbn in H2.
    destruct (widgets s !! a); [by eexists|done]. }
  repeat match goal with H : upd_widget _ _ _ = Ok _ |- _ =>
    apply upd_widget_bases in H; destruct H as [_ H] end.
  assert (bases (if ucMaxGroup (mgr x0) <? g then set_mgr (set_ucMaxGroup g (mgr x0)) x0 else x0)
    = bases x0) as Eif by (by destruct (_ <? _)).
  exists a. eexists. split; [done|]. split; [|split; [done|]].
  - rewrite H11, H10, H9, H8, H7, H6, H4, H3, Eif, H2, !alter_alter_eq. reflexivity.
  - done.
Qed.

Lemma elem_of_insert_inv {A} (x y : A) (i : nat) (l : list A) : x ∈ <[i := y]> l → x = y ∨ x ∈ l.
Proof.
  intros Hx. apply list_elem_of_lookup in Hx as [j Hj].
  apply list_lookup_insert_Some in Hj as [(_ & -> & _)|[_ Hj]]; [auto|].
  right. by eapply list_elem_of_lookup_2.
Qed.

Lemma Fooey_AddWidget_focus p g ty s s' :
  Fooey_AddWidget p g ty s = Ok (s', true) → focus_ok s → focus_ok s'.
Proof.
  intros H [Hs Hl Ho].
  destruct (Fooey_AddWidget_scene _ _ _ _ _ Hs H) as (i & Hi & _ & Hsc & Hn).
  destruct (Fooey_AddWidget_bases _ _ _ _ _ H) as (a & f & -> & Hb & Ha & Hf).
  assert (∀ x, x ∈ live (mgr s') → x = a ∨ x ∈ live (mgr s)) as Hlive.
  { intros x. rewrite !elem_of_live, Hsc. intros Hx.
    apply elem_of_insert_inv in Hx as [[= ->]|]; auto. }
  assert (∀ x, x ∈ live (mgr s') → focused s' x → x ∈ live (mgr s) ∧ focused s x) as Hfoc.
  { intros x Hx (b & E & Fb). rewrite Hb in E. destruct (decide (x = a)) as [->|].
    - rewrite lookup_alter_eq in E. destruct (bases s !! a); [|done]. injection E as <-.
      by rewrite Hf in Fb.
    - rewrite lookup_alter_ne in E by done. split; [|by exists b]. by destruct (Hlive x Hx). }
  split.
  - destruct Hs as [Hs1 Hs2]. unfold scene_ok. by rewrite Hn, Hsc, length_insert.
  - intros x Hx. rewrite Hb, lookup_alter_is_Some. by destruct (Hlive x Hx) as [->|]; auto.
  - intros x y Hx Hy Fx Fy. destruct (Hfoc x Hx Fx), (Hfoc y Hy Fy). by apply Ho.
Qed.

Lemma Fooey_RemoveWidget_focus p s s' r :
  Fooey_RemoveWidget p s = Ok (s', r) → focus_ok s → focus_ok s'.
Proof.
  intros H [Hs Hl Ho]. unfold Fooey_RemoveWidget in H. inv_ok.
  destruct x as [[i q]|]; inv_ok; [|done].
  assert (∀ x', x' ∈ live (set_pastScene x (mgr s)) → x' ∈ live (mgr s)) as Hlive.
  { intros y. rewrite !elem_of_live. cbn. apply aset_ok_inv in H1 as [_ ->].
    intros Hy. apply elem_of_insert_inv in Hy as [Hy|]; [|done]. done. }
  split; cbn.
  - destruct Hs as [Hs1 Hs2]. unfold scene_ok. cbn. apply aset_ok_inv in H1 as [_ ->].
    by rewrite length_insert.
  - intros y Hy. apply Hl, Hlive, Hy.
  - intros y z Hy Hz Fy Fz. apply Ho; auto.
Qed.

Lemma Fooey_SendEvent_focus e s s' r :
  Fooey_SendEvent e s = Ok (s', r) → focus_ok s → focus_ok s'.
Proof.
  unfold Fooey_SendEvent. intros H Hs. case_match; inv_ok; [done|]. by apply set_queue_focus_ok.
Qed.

(** What an application does with the interface. *)
Inductive ui_step (m : nat) : SYS → SYS → Prop :=
  | ui_add p g ty s s' r : Fooey_AddWidget p g ty s = Ok (s', r) → ui_step m s s'
  | ui_remove p s s' r : Fooey_RemoveWidget p s = Ok (s', r) → ui_step m s s'
  | ui_send e s s' r : Fooey_SendEvent e s = Ok (s', r) → ui_step m s s'
  | ui_process s s' : Fooey_ProcessEvents (wg_control m) fuel s = Ok s' → ui_step m s s'
  | ui_changed s s' : Fooey_RenderChanged wg_draw fuel s = Ok s' → ui_step m s s'
  | ui_all s s' : Fooey_RenderAll wg_draw fuel s = Ok s' → ui_step m s s'.

Lemma ui_step_focus m s s' : ui_step m s s' → focus_ok s → focus_ok s'.
Proof.
  intros [p g ty t t' r H|? ? ? ? H|? ? ? ? H|? ? H|? ? H|? ? H] Hs.
  - destruct r; [by eapply Fooey_AddWidget_focus|]. unfold Fooey_AddWidget in H. inv_ok.
    destruct x as [[i q]|]; inv_ok; [|done]. done.
  - by eapply Fooey_RemoveWidget_focus.
  - by eapply Fooey_SendEvent_focus.
  - by eapply process_loop_focus.
  - eapply calmer_focus_ok; [by eapply Fooey_RenderChanged_calmer|done].
  - eapply calmer_focus_ok; [by eapply Fooey_RenderAll_calmer|done].
Qed.

Lemma forM_null_scene l k (t : list ptr) :
  (length l + k <= length t)%nat → (∀ i x, t !! i = Some x → (i < k)%nat → x = NULL) →
  l = seqZ (Z.of_nat k) (Z.of_nat (length l)) →
  ∃ t', forM l (λ i l, aset l i NULL) t = Ok t' ∧ length t' = length t ∧
    ∀ i x, t' !! i = Some x → (i < length l + k)%nat → x = NULL.
Proof.
  revert k t. induction l as [|z l IH]; intros k t Hlen Hn Hl.
  { exists t. done. }
  cbn [length] in *. rewrite seqZ_cons in Hl by lia. injection Hl as -> Hl.
  cbn [forM]. rewrite aset_some, bind_ok by lia.
  destruct (IH (S k) (<[k := NULL]> t)) as (t' & E & Ht & Hx).
  - rewrite length_insert. lia.
  - intros i x Hi Hlt. destruct (decide (i = k)) as [->|].
    + rewrite list_lookup_insert_eq in Hi by lia. congruence.
    + rewrite list_lookup_insert_ne in Hi by done. eapply Hn; [done|lia].
  - rewrite Hl at 1. f_equal; lia.
  - exists t'. rewrite length_insert in Ht. split; [done|]. split; [done|].
    intros i x Hi Hlt. eapply Hx; [done|lia].
Qed.

Lemma Fooey_InitDisplay_focus d evs ne scene s :
  Z.of_nat (length scene) < 65536 →
  ∃ s', Fooey_InitDisplay d evs ne scene (Z.of_nat (length scene)) s = Ok s' ∧ focus_ok s'.
Proof.
  intros Hlt. unfold Fooey_InitDisplay.
  destruct (forM_null_scene (seqZ 0 (Z.of_nat (length scene))) 0 scene) as (t & E & Ht & Hx).
  - rewrite length_seqZ. lia.
  - lia.
  - rewrite length_seqZ. f_equal; lia.
  - rewrite E, bind_ok. eexists. split; [done|].
    assert (∀ a, Some a ∈ t → False) as Hno.
    { intros a Ha. apply list_elem_of_lookup in Ha as [i Hi].
      assert (Some a = NULL); [|done]. eapply Hx; [done|]. rewrite length_seqZ.
      apply lookup_lt_Some in Hi. lia. }
    assert (∀ a m, pastScene m = t → a ∈ live m → False) as Hno'.
    { intros a m Hm Ha. apply elem_of_live in Ha. rewrite Hm in Ha. by eapply Hno. }
    split.
    + split; cbn; lia.
    + intros a Ha. exfalso. eapply Hno'; [|exact Ha]. done.
    + intros a b Ha. exfalso. eapply Hno'; [|exact Ha]. done.
Qed.

(** C32: in every state an application can reach from [Fooey_InitDisplay] by
    adding and removing widgets, sending and processing events (with the
    control functions of all kinds of widgets) and drawing, the scene holds
    only existing widgets and at most one of them has the focus. *)
Theorem ui_at_most_one_focus m d evs ne scene s s0 s' :
  Z.of_nat (length scene) < 65536 →
  Fooey_InitDisplay d evs ne scene (Z.of_nat (length scene)) s = Ok s0 →
  rtc (ui_step m) s0 s' → focus_ok s'.
Proof.
  intros Hlt H0 Hr. destruct (Fooey_InitDisplay_focus d evs ne scene s Hlt) as (t & E & Ht).
  rewrite E in H0. injection H0 as <-. clear E. induction Hr as [|x y z Hxy _ IH]; [done|].
  apply IH. by eapply ui_step_focus.
Qed.

End handlers.


(** ** Radio buttons *)

Definition uncheck (d : WIDGET_DATA) : WIDGET_DATA :=
  match d with RadioButton r => RadioButton (set_rb_bChecked false r) | d => d end.

(** The radio buttons [l] from [p] on in the direction [dir]. *)
Fixpoint links (m : gmap nat WIDGET_DATA) (dir : WIDGET_RADIOBUTTON → ptr) (p : ptr) (l : list nat) : Prop :=
  match l with
  | [] => p = NULL
  | a :: l => p = Some a ∧ ∃ r, m !! a = Some (RadioButton r) ∧ links m dir (dir r) l
  end.

Lemma links_ext m m' dir p l : (∀ a, a ∈ l → m' !! a = m !! a) → links m dir p l → links m' dir p l.
Proof.
  revert p. induction l as [|a l IH]; intros p H; [done|]. intros (-> & r & Hr & Hl).
  split; [done|]. exists r. rewrite H by set_solver. split; [done|]. apply IH; [|done]. set_solver.
Qed.

Definition let_go (b : GUI_BASE_STRUCT) : GUI_BASE_STRUCT := set_bHasFocus false (set_bRedraw true b).

Lemma deselect_ok n dir p l s :
  links (datas s) dir p l → NoDup l → (length l <= n)%nat →
  ∃ s', deselect n dir p s = Ok s' ∧ mgr s' = mgr s ∧
    (∀ x, datas s' !! x = (if decide (x ∈ l) then uncheck else id) <$> datas s !! x) ∧
    (∀ x, bases s' !! x = (if decide (x ∈ l) then let_go else id) <$> bases s !! x).
Proof.
  revert n p s. induction l as [|a l IH]; intros n p s Hl Hnd Hn.
  { cbn in Hl. subst. exists s. split; [by destruct n|]. split; [done|].
    split; intros x; cbn; by rewrite option_fmap_id. }
  destruct Hl as (-> & r & Hr & Hl). destruct n as [|n]; [cbn in Hn; lia|]. cbn [deselect].
  apply NoDup_cons in Hnd as [Ha Hnd]. destruct (this_ok _ _ _ Hr) as (w & -> & Hw & Hb).
  rewrite bind_ok, Hw. cbn [as_radiobutton]. rewrite bind_ok.
  destruct (set_data_ok a (RadioButton (set_rb_bChecked false r)) s) as [s1 E1]; [by eexists|].
  destruct (set_data_spec _ _ _ _ E1) as (Hm1 & Hb1 & Hd1). rewrite E1, bind_ok.
  destruct (set_base_ok a (set_bRedraw true) s1) as [s2 E2]; [rewrite Hb1; by eexists|].
  destruct (set_base_spec _ _ _ _ E2) as (Hm2 & Hb2 & Hd2). rewrite E2, bind_ok.
  destruct (set_base_ok a (set_bHasFocus false) s2) as [s3 E3].
  { rewrite Hb2, Hb1, lookup_alter_eq, Hb. by eexists. }
  destruct (set_base_spec _ _ _ _ E3) as (Hm3 & Hb3 & Hd3). rewrite E3, bind_ok.
  destruct (IH n (dir r) s3) as (s' & E & Hm & Hd & Hbs); [|done|cbn in Hn; lia|].
  { eapply links_ext; [|done]. intros x Hx. rewrite Hd3, Hd2, Hd1, lookup_insert_ne; [done|].
    intros ->. done. }
  exists s'. split; [done|]. split; [congruence|]. split; intros x.
  - rewrite Hd, Hd3, Hd2, Hd1. destruct (decide (x = a)) as [->|].
    + rewrite decide_False by done. rewrite decide_True, lookup_insert_eq, Hr by set_solver. done.
    + rewrite lookup_insert_ne by done. destruct (decide (x ∈ l)).
      * by rewrite decide_True by set_solver.
      * by rewrite decide_False by set_solver.
  - rewrite Hbs, Hb3, Hb2, Hb1. destruct (decide (x = a)) as [->|].
    + rewrite decide_False by done. rewrite decide_True, !lookup_alter_eq, Hb by set_solver. done.
    + rewrite !lookup_alter_ne by done. destruct (decide (x ∈ l)).
      * by rewrite decide_True by set_solver.
      * by rewrite decide_False by set_solver.
Qed.

(** A group of radio buttons: a doubly linked list. *)
Definition radio_group (s : SYS) (l : list nat) : Prop :=
  NoDup l ∧ ∀ pre a post, l = pre ++ a :: post →
    ∃ r, datas s !! a = Some (RadioButton r) ∧ rb_pstNext r = head post ∧ rb_pstPrev r = last pre.

Lemma radio_group_next s l pre post :
  radio_group s l → l = pre ++ post → links (datas s) rb_pstNext (head post) post.
Proof.
  intros [Hnd Hg]. revert pre. induction post as [|a post IH]; intros pre Hl; [done|].
  destruct (Hg _ _ _ Hl) as (r & Hr & Hn & _). split; [done|]. exists r. split; [done|].
  rewrite Hn. apply (IH (pre ++ [a])). by rewrite <- app_assoc.
Qed.

Lemma radio_group_prev s l pre post :
  radio_group s l → l = pre ++ post → links (datas s) rb_pstPrev (last pre) (reverse pre).
Proof.
  intros [Hnd Hg]. revert post. induction pre as [|a pre IH] using rev_ind; intros post Hl; [done|].
  rewrite reverse_snoc, last_snoc. rewrite <- app_assoc in Hl.
  destruct (Hg _ _ _ Hl) as (r & Hr & _ & Hp). split; [done|]. exists r. split; [done|].
  rewrite Hp. by apply (IH (a :: post)).
Qed.

Definition checked (s : SYS) (a : nat) : Prop :=
  ∃ r, datas s !! a = Some (RadioButton r) ∧ rb_bChecked r = true.

(** A press of the left mouse button. *)
Definition press (e : FOOEY_EVENT_STRUCT) : Prop :=
  is_mouse e = true ∧ usEventTime e = 0 ∧ mouse_bLeftState e = 1.

Lemma decide_uncheck (P : Prop) `{Decision P} a s r :
  datas s !! a = Some (RadioButton r) →
  ∃ r', (if decide P then uncheck else id) <$> datas s !! a = Some (RadioButton r') ∧
    rb_pstNext r' = rb_pstNext r ∧ rb_pstPrev r' = rb_pstPrev r ∧
    (rb_bChecked r' = true → rb_bChecked r = true ∧ ¬ P).
Proof.
  intros ->. case_decide; cbn; eexists; (split; [done|]); cbn; naive_solver.
Qed.

(** The two passes of [WgRadioButton_Control] over the rest of the group. *)
Lemma deselect_others pre a post s r :
  radio_group s (pre ++ a :: post) → (length (pre ++ a :: post) <= fuel)%nat →
  datas s !! a = Some (RadioButton r) →
  ∃ s', (s1 ← deselect fuel rb_pstNext (rb_pstNext r) s; deselect fuel rb_pstPrev (rb_pstPrev r) s1) = Ok s' ∧
    mgr s' = mgr s ∧
    (∀ x, datas s' !! x = (if decide (x ∈ pre ++ post) then uncheck else id) <$> datas s !! x) ∧
    (∀ x, bases s' !! x = (if decide (x ∈ pre ++ post) then let_go else id) <$> bases s !! x).
Proof.
  intros Hg Hlen Hr. pose proof (radio_group_prev _ _ pre (a :: post) Hg eq_refl) as Hp.
  pose proof (radio_group_next _ _ (pre ++ [a]) post Hg ltac:(by rewrite <- app_assoc)) as Hn.
  destruct Hg as [Hnd Hg]. destruct (Hg _ _ _ eq_refl) as (r0 & Hr0 & Hrn & Hrp).
  rewrite Hr in Hr0. injection Hr0 as <-. rewrite Hrn, Hrp.
  apply NoDup_app in Hnd as (Hnd1 & Hdis & [_ Hnd2]%NoDup_cons).
  rewrite length_app in Hlen. cbn in Hlen.
  destruct (deselect_ok fuel rb_pstNext (head post) post s) as (s1 & E1 & Hm1 & Hd1 & Hb1); [done|done|lia|].
  rewrite E1, bind_ok.
  assert (∀ x, x ∈ pre → x ∉ post) as Hdis' by (intros x Hx Hx'; apply (Hdis x Hx); by right).
  destruct (deselect_ok fuel rb_pstPrev (last pre) (reverse pre) s1) as (s2 & E2 & Hm2 & Hd2 & Hb2).
  - eapply links_ext; [|done]. intros x Hx. rewrite elem_of_reverse in Hx.
    rewrite Hd1, decide_False by auto.
    by rewrite option_fmap_id.
  - by rewrite reverse_Permutation.
  - rewrite length_reverse. lia.
  - exists s2. split; [done|]. split; [congruence|]. split; intros x.
    + rewrite Hd2, Hd1. rewrite (decide_ext (x ∈ reverse pre) (x ∈ pre)) by apply elem_of_reverse.
      destruct (decide (x ∈ pre)) as [Hx|Hx].
      * rewrite decide_False, (decide_True (P := x ∈ pre ++ post)) by set_solver. by rewrite option_fmap_id.
      * rewrite option_fmap_id. apply (f_equal (λ f, f <$> datas s !! x)).
        apply decide_ext. set_solver.
    + rewrite Hb2, Hb1. rewrite (decide_ext (x ∈ reverse pre) (x ∈ pre)) by apply elem_of_reverse.
      destruct (decide (x ∈ pre)) as [Hx|Hx].
      * rewrite decide_False, (decide_True (P := x ∈ pre ++ post)) by set_solver. by rewrite option_fmap_id.
      * rewrite option_fmap_id. apply (f_equal (λ f, f <$> bases s !! x)).
        apply decide_ext. set_solver.
Qed.


Lemma press_spec e : press e → is_mouse e = true ∧ (usEventTime e =? 0) && (mouse_bLeftState e =? 1) = true.
Proof. intros (-> & -> & ->). done. Qed.

(** What [WgRadioButton_Control] has done before it takes the focus: the
    group is unchanged but for the marks, and the button alone is marked. *)
Lemma radio_select pre a post s r :
  radio_group s (pre ++ a :: post) → (length (pre ++ a :: post) <= fuel)%nat →
  datas s !! a = Some (RadioButton r) →
  (rb_bChecked r = true → ∀ x, x ∈ pre ++ a :: post → checked s x → x = a) →
  ∃ s', (if rb_bChecked r then Ok s
         else
           s ← deselect fuel rb_pstNext (rb_pstNext r) s;
           s ← deselect fuel rb_pstPrev (rb_pstPrev r) s;
           w ← this a s; r ← as_radiobutton (wdata w);
           set_data a (RadioButton (set_rb_bChecked true r)) s) = Ok s' ∧
    mgr s' = mgr s ∧ (∀ x, is_Some (bases s' !! x) ↔ is_Some (bases s !! x)) ∧
    bases s' !! a = bases s !! a ∧ radio_group s' (pre ++ a :: post) ∧
    ∀ x, x ∈ pre ++ a :: post → checked s' x ↔ x = a.
Proof.
  intros Hg Hlen Hr Hex. destruct (rb_bChecked r) eqn:Ec.
  { exists s. repeat (split; [done|]). intros x Hx. split; [by apply Hex|]. intros ->. by exists r. }
  destruct (deselect_others _ _ _ _ _ Hg Hlen Hr) as (s1 & E1 & Hm1 & Hd1 & Hb1).
  apply bind_ok_iff in E1 as (s0 & E0 & E1). rewrite E0, bind_ok, E1, bind_ok.
  destruct Hg as [Hnd Hg].
  assert (a ∉ pre ++ post) as Ha.
  { apply NoDup_app in Hnd as (_ & Hd & [? _]%NoDup_cons). rewrite elem_of_app.
    intros [Hx|Hx]; [|done]. apply (Hd a Hx). left. }
  assert (datas s1 !! a = Some (RadioButton r)) as Hra by (by rewrite Hd1, Hr, decide_False).
  destruct (this_ok _ _ _ Hra) as (w & -> & Hw & Hbw). rewrite bind_ok, Hw. cbn [as_radiobutton].
  rewrite bind_ok.
  destruct (set_data_ok a (RadioButton (set_rb_bChecked true r)) s1) as [s2 E2]; [by eexists|].
  destruct (set_data_spec _ _ _ _ E2) as (Hm2 & Hb2 & Hd2). rewrite E2.
  exists s2. split; [done|]. split; [congruence|]. split.
  { intros x. by rewrite Hb2, Hb1, fmap_is_Some. }
  split; [by rewrite Hb2, Hb1, decide_False, option_fmap_id|]. split; [split; [done|]|].
  - intros pre' x post' Hl. destruct (Hg _ _ _ Hl) as (r' & Hr' & Hn' & Hp'). rewrite Hd2.
    destruct (decide (x = a)) as [->|].
    + rewrite lookup_insert_eq. rewrite Hr in Hr'. injection Hr' as <-. by eexists.
    + rewrite lookup_insert_ne, Hd1 by done.
      destruct (decide_uncheck (x ∈ pre ++ post) x s r' Hr') as (r2 & -> & H1 & H2 & _).
      exists r2. split; [done|]. split; congruence.
  - intros x Hx. unfold checked. rewrite Hd2. split.
    + intros (r' & Hr' & Hc'). destruct (decide (x = a)) as [|Hne]; [done|].
      rewrite lookup_insert_ne, Hd1, decide_True in Hr' by set_solver.
      destruct (datas s !! x) as [[]|]; try done. injection Hr' as <-. done.
    + intros ->. rewrite lookup_insert_eq. by eexists.
Qed.

(** C33: pressing the left mouse button on a radio button of a group (a doubly
    linked list of any length) returns with exactly this button of the group
    marked, provided that no other button was marked when the pressed one
    already was; the links of the group are unchanged, the pressed button has
    the focus, which every other widget of the scene has lost, and is to be
    drawn again. *)
Theorem WgRadioButton_press_exclusive pre a post e s b :
  press e → scene_ok (mgr s) → scene_live s → 65536 <= Z.of_nat fuel →
  bases s !! a = Some b → pstOwner b = true →
  radio_group s (pre ++ a :: post) → (length (pre ++ a :: post) <= fuel)%nat →
  (checked s a → ∀ x, x ∈ pre ++ a :: post → checked s x → x = a) →
  ∃ s', WgRadioButton_Control a e s = Ok s' ∧ radio_group s' (pre ++ a :: post) ∧
    (∀ x, x ∈ pre ++ a :: post → checked s' x ↔ x = a) ∧
    (∀ x, x ∈ live (mgr s') → focused s' x → x = a) ∧
    bases s' !! a = Some (set_bRedraw true (set_bHasFocus true b)).
Proof.
  intros [Hm He]%press_spec Hok Hl Hf Hb Ho Hg Hlen Hex.
  destruct (proj2 Hg _ _ _ eq_refl) as (r & Hr & _).
  unfold WgRadioButton_Control. rewrite Hm. destruct (this_ok _ _ _ Hr) as (w & -> & Hw & _).
  rewrite bind_ok, Hw. cbn [as_radiobutton]. rewrite bind_ok, He.
  destruct (radio_select _ _ _ _ _ Hg Hlen Hr) as (s1 & E1 & Hm1 & Hlive & Hb1 & Hg1 & Hc1).
  { intros Hc. apply Hex. by exists r. }
  rewrite E1, bind_ok. rewrite Hb in Hb1.
  destruct (take_focus_ok a s1 b) as (s2 & E2 & Hm2 & Hd2 & Hb2); [by rewrite Hm1| |done..|].
  { intros x. rewrite Hm1, Hlive. apply Hl. }
  exists s2. split; [done|]. split; [|split; [|split]].
  - unfold radio_group. by rewrite Hd2.
  - intros x Hx. rewrite <- Hc1 by done. unfold checked. by rewrite Hd2.
  - intros x Hx (c & Ec & Fc). rewrite Hb2 in Ec. rewrite Hm2 in Hx. case_decide; [done|].
    rewrite decide_True in Ec by done. destruct (bases s1 !! x) as [c'|]; [|done]. injection Ec as <-.
    unfold unfocus in Fc. destruct (bHasFocus c') eqn:E; [done|congruence].
  - by rewrite Hb2, Hb1, decide_True.
Qed.


(** ** Surfaces *)

Definition surface_mouse (forward : option WIDGET_ID → nat → FOOEY_EVENT_STRUCT → SYS → res SYS)
    (a : nat) (e : FOOEY_EVENT_STRUCT) (x : nat) (s : SYS) : res (bool * SYS) :=
  if bool_decide (x = a) then Ok (false, s)
  else
    b ← base_of (Some x) s;
    '(xo, yo) ← GetControlOffsets a s;
    if in_box e (u16 (usLeft b + xo)) (u16 (usRight b + xo)) (u16 (usTop b + yo)) (u16 (usBottom b + yo))
    then s ← forward (pfControl b) x e s; Ok (false, s)
    else Ok (false, s).

(** A scan of which every step fails or keeps the state. *)
Lemma scan_still {A T} (f : A → T → res (bool * T)) l t :
  (∀ x, x ∈ l → f x t = Ok (false, t)) → scan f l t = Ok t.
Proof.
  induction l as [|x l IH]; intros H; [done|]. cbn [scan]. rewrite H, bind_ok by set_solver.
  apply IH. set_solver.
Qed.

Lemma surface_this a s b : bases s !! a = Some b → ∃ w, this a s = Ok w ∧ stWidget w = b.
Proof.
  unfold bases, this, deref. rewrite lookup_fmap. destruct (widgets s !! a) as [w|]; [|done].
  intros [= <-]. by exists w.
Qed.

Lemma WgSurface_Control_mouse forward a e s b :
  scene_ok (mgr s) → 65536 <= Z.of_nat fuel →
  bases s !! a = Some b → pstOwner b = true → usDest e = WIDGET_DEST_AUTO → is_mouse e = true →
  (∀ x t r, surface_mouse forward a e x t = Ok (false, r) → mgr r = mgr t) →
  WgSurface_Control forward a e s = scan (surface_mouse forward a e) (live (mgr s)) s.
Proof.
  intros Hok Hf Hb Ho Hd Hm Hk. unfold WgSurface_Control.
  destruct (surface_this _ _ _ Hb) as (w & -> & Hw). rewrite bind_ok, Hw, Hd, Z.eqb_refl.
  assert (is_keyboard e = false) as ->.
  { unfold is_keyboard. unfold is_mouse in Hm. apply Z.eqb_eq in Hm. by rewrite Hm. }
  rewrite Hm, Ho. cbn [negb]. apply (scene_loop_live fuel id); done.
Qed.

(** Because the last comparison of the bounding box is the wrong way round, a
    mouse event that the surface should pass on to the widget under the
    pointer is dropped whenever the pointer is above the lower edge of every
    other widget; in particular a press inside a widget never reaches it. *)
Theorem WgSurface_drops_mouse forward a e s b xo yo :
  scene_ok (mgr s) → scene_live s → 65536 <= Z.of_nat fuel →
  bases s !! a = Some b → pstOwner b = true → usDest e = WIDGET_DEST_AUTO → is_mouse e = true →
  GetControlOffsets a s = Ok (xo, yo) →
  (∀ pf x t t', forward pf x e t = Ok t' → mgr t' = mgr t) →
  (∀ x c, x ∈ live (mgr s) → x ≠ a → bases s !! x = Some c → mouse_usY e < u16 (usBottom c + yo)) →
  WgSurface_Control forward a e s = Ok s.
Proof.
  intros Hok Hl Hf Hb Ho Hd Hm Hoff Hfw Habove.
  rewrite (WgSurface_Control_mouse forward a e s b); try done.
  - apply scan_still. intros x Hx. unfold surface_mouse. case_bool_decide; [done|].
    destruct (Hl x Hx) as [c Hc]. rewrite base_of_bases, Hc, bind_ok, Hoff, bind_ok.
    unfold in_box. specialize (Habove x c Hx ltac:(done) Hc).
    rewrite (proj2 (Z.leb_gt (u16 (usBottom c + yo)) (mouse_usY e))), andb_false_r by lia. done.
  - intros x t r Hr. unfold surface_mouse in Hr. case_bool_decide; inv_ok; [done|].
    destruct x1. case_match; inv_ok; [by eapply Hfw|done].
Qed.

Lemma offsets_root a s b : bases s !! a = Some b → pstParent b = NULL → GetControlOffsets a s = Ok (0, 0).
Proof.
  intros Hb Hp. unfold GetControlOffsets, Fooey_GetControlOffsets.
  rewrite base_of_bases, Hb, bind_ok, Hp. by destruct fuel.
Qed.

Lemma two_first f a b (s : SYS) r :
  (2 <= fuel)%nat → pastScene (mgr s) = [Some a; Some b] → usNumWidgets (mgr s) = 2 →
  f a s = Fault r → scene_loop num_widgets fuel 0 (each f) s = Fault r.
Proof.
  intros Hf Hs Hn H. assert (each f 0 s = f a s) as E by (unfold each; by rewrite Hs).
  destruct fuel as [|k]; [lia|]. cbn [scene_loop]. unfold num_widgets at 1. by rewrite Hn, E, H.
Qed.

Lemma two_second f a b (s : SYS) r :
  (2 <= fuel)%nat → pastScene (mgr s) = [Some a; Some b] → usNumWidgets (mgr s) = 2 →
  f a s = Ok (false, s) → f b s = Fault r → scene_loop num_widgets fuel 0 (each f) s = Fault r.
Proof.
  intros Hf Hs Hn H1 H2. assert (each f 0 s = f a s) as E1 by (unfold each; by rewrite Hs).
  assert (each f 1 s = f b s) as E2 by (unfold each; by rewrite Hs).
  destruct fuel as [|[|k]]; [lia..|]. cbn [scene_loop].
  unfold num_widgets at 1. rewrite Hn, E1, H1, bind_ok. cbn [Z.ltb Z.compare].
  change (u16 (0 + 1)) with 1. cbn [scene_loop]. unfold num_widgets at 1. by rewrite Hn, E2, H2.
Qed.

(** A surface at the top level under the pointer. *)
Definition bounces (s : SYS) (e : FOOEY_EVENT_STRUCT) (a : nat) : Prop :=
  ∃ b, bases s !! a = Some b ∧ pstOwner b = true ∧ pfControl b = Some WIDGET_SURFACE_ID ∧
    pstParent b = NULL ∧
    in_box e (u16 (usLeft b + 0)) (u16 (usRight b + 0)) (u16 (usTop b + 0)) (u16 (usBottom b + 0)) = true.

(** Two surfaces under the pointer pass a mouse event to each other without
    end, however deep the stack. *)
Theorem WgSurface_bounce a b s e n :
  a ≠ b → (2 <= fuel)%nat → pastScene (mgr s) = [Some a; Some b] → usNumWidgets (mgr s) = 2 →
  usDest e = WIDGET_DEST_AUTO → is_mouse e = true → bounces s e a → bounces s e b →
  wg_control n WIDGET_SURFACE_ID a e s = Fault OutOfFuel ∧
  wg_control n WIDGET_SURFACE_ID b e s = Fault OutOfFuel.
Proof.
  intros Hab Hf Hsc Hn Hd Hm (ba & Ha & Hoa & Hka & Hpa & Hia) (bb & Hb & Hob & Hkb & Hpb & Hib).
  assert (is_keyboard e = false) as Hkb'.
  { unfold is_keyboard. unfold is_mouse in Hm. apply Z.eqb_eq in Hm. by rewrite Hm. }
  destruct (surface_this _ _ _ Ha) as (wa & Hta & Hwa). destruct (surface_this _ _ _ Hb) as (wb & Htb & Hwb).
  pose proof (offsets_root _ _ _ Ha Hpa) as Hza. pose proof (offsets_root _ _ _ Hb Hpb) as Hzb.
  assert (∀ x fw, (x = a ∨ x = b) →
    (fw (Some WIDGET_SURFACE_ID) a e s = Fault OutOfFuel) →
    (fw (Some WIDGET_SURFACE_ID) b e s = Fault OutOfFuel) →
    WgSurface_Control fw x e s = Fault OutOfFuel) as Hcore.
  { intros x fw [-> | ->] H1 H2; unfold WgSurface_Control;
      rewrite ?Hta, ?Htb, bind_ok, ?Hwa, ?Hwb, Hd, Z.eqb_refl, Hkb', Hm, ?Hoa, ?Hob; cbn [negb].
    - eapply two_second; try done; cbn beta; [by rewrite bool_decide_true|].
      rewrite bool_decide_false, base_of_bases, Hb, bind_ok, Hza, bind_ok by done. cbn zeta.
      by rewrite Hib, Hkb, H2.
    - eapply two_first; try done; cbn beta.
      rewrite bool_decide_false, base_of_bases, Ha, bind_ok, Hzb, bind_ok by done. cbn zeta.
      by rewrite Hia, Hka, H1. }
  induction n as [|n [IHa IHb]]; split; cbn [wg_control]; apply Hcore; auto.
Qed.

(** ** The progress bar *)

(** The filled part of a progress bar is the fraction of its inner width that
    was asked for, as long as the product fits into 16 bits... *)
Lemma progress_width_ok b p :
  0 <= usLeft b → usLeft b + 2 <= usRight b < 65536 → 0 <= pb_ucProgress p <= 100 →
  (usRight b - usLeft b - 2) * pb_ucProgress p < 65536 →
  progress_width b p = (usRight b - usLeft b - 2) * pb_ucProgress p / 100 ∧
  0 <= progress_width b p <= usRight b - usLeft b - 2.
Proof.
  intros Hl Hr Hp Hx. unfold progress_width. rewrite (u16_small (usRight b - _ - 2)) by lia.
  rewrite u16_small by nia. split; [done|]. split.
  - apply Z.div_pos; nia.
  - apply Z.div_le_upper_bound; nia.
Qed.

(** ... which it does not on a bar of 700 pixels: complete, it is drawn
    shorter than at one tenth. *)
Lemma progress_width_overflow b p p' :
  usLeft b = 0 → usRight b = 702 → pb_ucProgress p = 100 → pb_ucProgress p' = 10 →
  progress_width b p = 44 ∧ progress_width b p' = 70.
Proof. intros H1 H2 H3 H4. unfold progress_width. by rewrite H1, H2, H3, H4. Qed.

End widgets.

(** ** A small interface

    Three radio buttons in a group, the last one marked and in focus, on a
    frame buffer. *)
Definition example_font : Draw.FONT_STRUCT := Draw.mkFont [0] 8 0 1 1 65 0 [].

Definition example_radio (checked : bool) (next prev : ptr) : WIDGET_DATA :=
  RadioButton (mkRadioButton [0] example_font 0 1 2 3 4 checked next prev).

Definition example_wbase (id : Z) (focus : bool) : GUI_BASE_STRUCT :=
  mkBase 0 (id * 10) 20 (id * 10 + 9) id 0 6 false focus None None (Some WIDGET_RADIOBUTTON_ID) None true NULL.

Definition example_ui : FSYS (D := WIDGET_DATA) (W := gmap (Z * Z) Z) :=
  mkFSYS {[1%nat := mkWidget (example_wbase 1 false) (example_radio false (Some 2%nat) NULL);
           2%nat := mkWidget (example_wbase 2 false) (example_radio false (Some 3%nat) (Some 1%nat));
           3%nat := mkWidget (example_wbase 3 true) (example_radio true NULL (Some 2%nat))]}
    (mkManager (Draw.mkDisplay 30 40 2 0) (mkQueue (replicate 4 (mkEvent 0 0 0 0)) 4 0 0)
       [Some 1%nat; Some 2%nat; Some 3%nat] 3 0 0) ∅.

(** A press of the left button for the widget [dest]. *)
Definition example_press (dest : Z) : FOOEY_EVENT_STRUCT := mkEvent 2 0 dest 4096.

Lemma WgRadioButton_press_exclusive_witness :
  ∃ s', WgRadioButton_Control (Z.to_nat 65536) 2 (example_press 2) example_ui = Ok s' ∧
    checked s' 2 ∧ ¬ checked s' 3.
Proof.
  destruct (WgRadioButton_press_exclusive (λ _ s, Ok s) 0 (Z.to_nat 65536) [1%nat] 2 [3%nat] (example_press 2)
    example_ui (example_wbase 2 false)) as (s' & H1 & _ & H2 & _).
  - repeat split.
  - split; reflexivity.
  - intros a Ha. vm_compute in Ha. repeat (apply elem_of_cons in Ha as [-> | Ha]; [by eexists|]).
    by apply elem_of_nil in Ha.
  - lia.
  - reflexivity.
  - reflexivity.
  - split; [cbn; repeat constructor; set_solver|].
    intros [|x1 [|x2 [|x3 pre]]] a post H; cbn in H; injection H; intros; subst; try discriminate;
      try (destruct pre; discriminate);
      eexists; (split; [vm_compute; reflexivity|]); split; reflexivity.
  - cbn. lia.
  - intros (r & Hr & Hc). vm_compute in Hr. injection Hr as <-. discriminate.
  - exists s'. split; [exact H1|]. split; [by apply H2; [set_solver|]|].
    intros Hc. apply H2 in Hc; [discriminate|set_solver].
Defined.

Lemma example_session :
  ∃ s0 s', Fooey_InitDisplay (Draw.mkDisplay 30 40 2 0) (replicate 4 (mkEvent 0 0 0 0)) 4 [NULL; NULL; NULL] 3
      example_ui = Ok s0 ∧
    rtc (ui_step Draw.frame_pixel Draw.no_control (λ _ s, Ok s) 0 (Z.to_nat 65536) 1) s0 s' ∧
    bHasFocus <$> bases s' !! 2%nat = Some true.
Proof.
  eexists. eexists. split; [run_eq|]. split.
  - eapply rtc_l; [eapply (ui_add _ _ _ _ _ _ (Some 3%nat) 0 6); run_eq|].
    eapply rtc_l; [eapply (ui_add _ _ _ _ _ _ (Some 2%nat) 0 6); run_eq|].
    eapply rtc_l; [eapply (ui_send _ _ _ _ _ _ (example_press 2)); run_eq|].
    eapply rtc_l; [eapply ui_process; run_eq|]. apply rtc_refl.
  - reflexivity.
Qed.

Lemma ui_at_most_one_focus_witness :
  ∃ s', focus_ok (W := gmap (Z * Z) Z) s' ∧ bHasFocus <$> bases s' !! 2%nat = Some true.
Proof.
  destruct example_session as (s0 & s' & H1 & H2 & H3). exists s'. split; [|exact H3].
  refine (ui_at_most_one_focus Draw.frame_pixel Draw.no_control (λ _ s, Ok s) 0 (Z.to_nat 65536) _ _ 1
    (Draw.mkDisplay 30 40 2 0) (replicate 4 (mkEvent 0 0 0 0)) 4 [NULL; NULL; NULL] example_ui s0 s' _ H1 H2).
  - lia.
  - intros f s t [= <-]. tauto.
  - reflexivity.
Defined.

End Widgets.
