(* ===== verification/CubFloat.v ===== *)
(** * Double precision arithmetic of the myCub application

    The application computes delays, battery values and headings in floating
    point.  [double] and [float] are the IEEE formats, with the executable
    operations of the library's SpecFloat; conversions to integers truncate
    and are undefined outside the target type. *)
From Stdlib Require Import SpecFloat.
From S2P Require Import Prelude.

#[local] Open Scope Z_scope.

Module Float.

Definition double : Type := spec_float.
Definition dmul : double → double → double := SFmul 53 1024.
Definition ddiv : double → double → double := SFdiv 53 1024.
Definition dadd : double → double → double := SFadd 53 1024.
Definition dsub : double → double → double := SFsub 53 1024.
Definition dltb : double → double → bool := SFltb.

(** The double nearest to [m] times 2 to the [e], and the conversion of an
    integer. *)
Definition dscale (m e : Z) : double := binary_normalize 53 1024 m e false.
Definition dofZ (z : Z) : double := dscale z 0.

(** The literal [n / 10 ^ k], rounded once. *)
Definition dlit (n k : Z) : double := ddiv (dofZ n) (dofZ (10 ^ k)).

(** A finite value rounded to a format; [float] has 24 bits.  Every value is
    kept in the form it has as a double, which the comparison expects. *)
Definition round_to (prec emax : Z) (x : double) : double :=
  match x with
  | S754_finite s m e => binary_normalize prec emax (if s then Z.neg m else Z.pos m) e s
  | _ => x
  end.
Definition widen : double → double := round_to 53 1024.
Definition to_float (x : double) : double := widen (round_to 24 128 x).

(** Operations on [float]. *)
Definition fdiv (x y : double) : double := widen (SFdiv 24 128 x y).
Definition fmul (x y : double) : double := widen (SFmul 24 128 x y).

(** The integer part; infinities and NaN have none. *)
Definition dtrunc (x : double) : option Z :=
  match x with
  | S754_zero _ => Some 0
  | S754_finite s m e =>
      let n := if 0 <=? e then Z.pos m * 2 ^ e else Z.pos m `div` 2 ^ (- e) in
      Some (if s then - n else n)
  | _ => None
  end.

(** Conversion to an integer type that holds [lo] to [hi]. *)
Definition convert (lo hi : Z) (x : double) : res Z :=
  match dtrunc x with
  | Some n => if (lo <=? n) && (n <=? hi) then Ok n else Fault Overflow
  | None => Fault Overflow
  end.

Definition to_ulong : double → res Z := convert 0 4294967295.
Definition to_int : double → res Z := convert (-2147483648) 2147483647.

Example half_second : to_ulong (dmul (dlit 5 1) (dofZ 1000000)) = Ok 500000.
Proof. vm_compute. reflexivity. Qed.

Example not_a_number : to_ulong (ddiv (dofZ 0) (dofZ 0)) = Fault Overflow.
Proof. reflexivity. Qed.

End Float.
