(* ===== verification/NuttxUpper.v ===== *)
(** * NuttX board support: hardware, kernel services, generic upper half

    The machine the myCub drivers of the LM4F120 board run on: memory-mapped
    registers, the interrupt and scheduler locks, and a log of the calls
    into library modules that are not modelled; the general-purpose timer
    functions of the peripheral library (board_driver/timer.c); and the open
    and close functions the three character drivers share, over any lower
    half. *)
From S2P Require Import Prelude FunkKernel.

Module Hw.

(** A call into an unmodelled library function, with its arguments. *)
Definition call : Type := string * list Z.

Record HW : Type := mkHW {
  regs : gmap Z Z;
  irq_off : bool;
  lockcount : Z;
  calls : list call
}.

Definition set_regs (v : gmap Z Z) (r : HW) : HW :=
  mkHW v (irq_off r) (lockcount r) (calls r).
Definition set_irq_off (v : bool) (r : HW) : HW :=
  mkHW (regs r) v (lockcount r) (calls r).
Definition set_lockcount (v : Z) (r : HW) : HW :=
  mkHW (regs r) (irq_off r) v (calls r).
Definition set_calls (v : list call) (r : HW) : HW :=
  mkHW (regs r) (irq_off r) (lockcount r) v.

(** [HWREG(a)] read and written; registers have 32 bits. *)
Definition HWREG (a : Z) (h : HW) : Z := default 0 (regs h !! a).
Definition write (a v : Z) (h : HW) : HW := set_regs (<[a := u32 v]> (regs h)) h.
Definition log (f : string) (args : list Z) (h : HW) : HW := set_calls (calls h ++ [(f, args)]) h.

(** Interrupt and scheduler locks: [irqsave] returns the previous state. *)
Definition irqsave (h : HW) : HW * bool := (set_irq_off true h, irq_off h).
Definition irqrestore (flags : bool) (h : HW) : HW := set_irq_off flags h.
Definition sched_lock (h : HW) : HW := set_lockcount (lockcount h + 1) h.
Definition sched_unlock (h : HW) : HW := set_lockcount (lockcount h - 1) h.

(** ** The timer library *)

Definition TIMER_O_CFG : Z := 0x00.
Definition TIMER_O_TAMR : Z := 0x04.
Definition TIMER_O_TBMR : Z := 0x08.
Definition TIMER_O_CTL : Z := 0x0C.
Definition TIMER_O_TAILR : Z := 0x28.
Definition TIMER_O_TBILR : Z := 0x2C.
Definition TIMER_O_TAMATCHR : Z := 0x30.
Definition TIMER_O_TBMATCHR : Z := 0x34.
Definition TIMER_O_TAPR : Z := 0x38.
Definition TIMER_O_TBPR : Z := 0x3C.
Definition TIMER_O_TAPMR : Z := 0x40.
Definition TIMER_O_TBPMR : Z := 0x44.
Definition TIMER_CTL_TAEN : Z := 0x001.
Definition TIMER_CTL_TBEN : Z := 0x100.
Definition TIMER_CTL_TAPWML : Z := 0x040.
Definition TIMER_TAMR_TAPWMIE : Z := 0x200.
Definition TIMER_TBMR_TBPWMIE : Z := 0x200.
Definition TIMER_A : Z := 0x00ff.
Definition TIMER_B : Z := 0xff00.

Definition TimerEnable (base timer : Z) (h : HW) : HW :=
  write (base + TIMER_O_CTL)
    (Z.lor (HWREG (base + TIMER_O_CTL) h) (Z.land timer (Z.lor TIMER_CTL_TAEN TIMER_CTL_TBEN))) h.

Definition TimerDisable (base timer : Z) (h : HW) : HW :=
  write (base + TIMER_O_CTL)
    (Z.land (HWREG (base + TIMER_O_CTL) h)
       (Z.lnot (Z.land timer (Z.lor TIMER_CTL_TAEN TIMER_CTL_TBEN)))) h.

Definition TimerConfigure (base config : Z) (h : HW) : HW :=
  let h := write (base + TIMER_O_CTL)
             (Z.land (HWREG (base + TIMER_O_CTL) h) (Z.lnot (Z.lor TIMER_CTL_TAEN TIMER_CTL_TBEN))) h in
  let h := write (base + TIMER_O_CFG) (Z.shiftr config 24) h in
  let h := write (base + TIMER_O_TAMR) (Z.lor (Z.land config 255) TIMER_TAMR_TAPWMIE) h in
  write (base + TIMER_O_TBMR) (Z.lor (Z.land (Z.shiftr config 8) 255) TIMER_TBMR_TBPWMIE) h.

(** A register pair for the timers A and B, each written if requested. *)
Definition set_pair (oa ob : Z) (base timer value : Z) (h : HW) : HW :=
  let h := if negb (Z.land timer TIMER_A =? 0) then write (base + oa) value h else h in
  if negb (Z.land timer TIMER_B =? 0) then write (base + ob) value h else h.

Definition TimerPrescaleSet := set_pair TIMER_O_TAPR TIMER_O_TBPR.
Definition TimerPrescaleMatchSet := set_pair TIMER_O_TAPMR TIMER_O_TBPMR.
Definition TimerLoadSet := set_pair TIMER_O_TAILR TIMER_O_TBILR.
Definition TimerMatchSet := set_pair TIMER_O_TAMATCHR TIMER_O_TBMATCHR.

(** ** Register lemmas *)

Lemma HWREG_write_eq a v h : HWREG a (write a v h) = u32 v.
Proof. unfold HWREG, write. cbn. by rewrite lookup_insert_eq. Qed.

Lemma HWREG_write_ne a b v h : a ≠ b → HWREG a (write b v h) = HWREG a h.
Proof. intros H. unfold HWREG, write. cbn. by rewrite lookup_insert_ne. Qed.

Lemma HWREG_log a f args h : HWREG a (log f args h) = HWREG a h.
Proof. done. Qed.

Lemma HWREG_irqrestore a f h : HWREG a (irqrestore f h) = HWREG a h.
Proof. done. Qed.
Lemma HWREG_irqsave a h : HWREG a (irqsave h).1 = HWREG a h.
Proof. done. Qed.
Lemma HWREG_sched_lock a h : HWREG a (sched_lock h) = HWREG a h.
Proof. done. Qed.
Lemma HWREG_sched_unlock a h : HWREG a (sched_unlock h) = HWREG a h.
Proof. done. Qed.

Lemma HWREG_enable a base timer h :
  a ≠ base + TIMER_O_CTL → HWREG a (TimerEnable base timer h) = HWREG a h.
Proof. intros H. unfold TimerEnable. by apply HWREG_write_ne. Qed.

Create Rewrite HintDb hw.
#[export] Hint Rewrite HWREG_log HWREG_irqrestore HWREG_irqsave HWREG_sched_lock
  HWREG_sched_unlock HWREG_write_eq : hw.

(** Timer A of the module at [base] is enabled. *)
Definition running (base : Z) (h : HW) : bool := Z.testbit (HWREG (base + TIMER_O_CTL) h) 0.

Lemma u32_testbit v i : 0 <= i < 32 → Z.testbit (u32 v) i = Z.testbit v i.
Proof. intros Hi. unfold u32. change 4294967296 with (2 ^ 32). rewrite Z.mod_pow2_bits_low; [done|lia]. Qed.

Lemma running_write_ne base a v h : a ≠ base + TIMER_O_CTL → running base (write a v h) = running base h.
Proof. intros H. unfold running. by rewrite HWREG_write_ne. Qed.

Lemma running_disable base h : running base (TimerDisable base TIMER_A h) = false.
Proof.
  unfold running, TimerDisable. rewrite HWREG_write_eq, u32_testbit by lia.
  rewrite Z.land_spec. apply andb_false_r.
Qed.

Lemma running_enable base h : running base (TimerEnable base TIMER_A h) = true.
Proof.
  unfold running, TimerEnable. rewrite HWREG_write_eq, u32_testbit by lia.
  rewrite Z.lor_spec. apply orb_true_r.
Qed.

Lemma running_configure base config h : running base (TimerConfigure base config h) = false.
Proof.
  unfold TimerConfigure. rewrite !running_write_ne by (unfold TIMER_O_CTL, TIMER_O_TAMR, TIMER_O_TBMR, TIMER_O_CFG; lia).
  unfold running. rewrite HWREG_write_eq, u32_testbit by lia. rewrite Z.land_spec. apply andb_false_r.
Qed.

Lemma running_pair oa ob base timer v base' h :
  base + oa ≠ base' + TIMER_O_CTL → base + ob ≠ base' + TIMER_O_CTL →
  running base' (set_pair oa ob base timer v h) = running base' h.
Proof.
  intros Ha Hb. unfold set_pair. repeat case_match; by rewrite ?running_write_ne.
Qed.

End Hw.

(** ** The upper half of a character driver *)

Module Upper.

Definition OK : Z := 0.
Definition ENOMEM : Z := 12.
Definition ENODEV : Z := 19.
Definition EMFILE : Z := 24.
Definition ENOTTY : Z := 25.
Definition ERANGE : Z := 34.
Definition ENOSYS : Z := 38.
Definition ETIMEDOUT : Z := 110.

Section upper.
Context {I L : Type}.

(** The state of the upper half: open count, exclusion semaphore, last
    configuration and the lower half [dev]. *)
Record UPPER : Type := mkUpper {
  crefs : Z;
  exclsem : Z;
  info : I;
  dev : L
}.

Definition set_crefs (v : Z) (u : UPPER) : UPPER := mkUpper v (exclsem u) (info u) (dev u).
Definition set_exclsem (v : Z) (u : UPPER) : UPPER := mkUpper (crefs u) v (info u) (dev u).
Definition set_info (v : I) (u : UPPER) : UPPER := mkUpper (crefs u) (exclsem u) v (dev u).
Definition set_dev (v : L) (u : UPPER) : UPPER := mkUpper (crefs u) (exclsem u) (info u) v.

(** [sem_wait] fails with an error number when the wait is interrupted
    ([intr]); it waits for another task when the count is not positive. *)
Definition sem_wait (intr : option Z) (u : UPPER) : res (UPPER + Z) :=
  match intr with
  | Some errno => Ok (inr errno)
  | None => if 0 <? exclsem u then Ok (inl (set_exclsem (exclsem u - 1) u)) else Fault Blocked
  end.

Definition sem_post (u : UPPER) : UPPER := set_exclsem (exclsem u + 1) u.

(** [setup] and [shutdown] are the functions of the lower half. *)
Context (setup shutdown : L → res (L * Z)).

Definition upper_open (intr : option Z) (u : UPPER) : res (UPPER * Z) :=
  w ← sem_wait intr u;
  match w with
  | inr errno => Ok (u, - errno)
  | inl u =>
      let tmp := u8 (crefs u + 1) in
      if tmp =? 0 then Ok (sem_post u, - EMFILE)
      else if tmp =? 1 then
        '(l, ret) ← setup (dev u);
        let u := set_dev l u in
        if ret <? 0 then Ok (sem_post u, ret) else Ok (sem_post (set_crefs tmp u), OK)
      else Ok (sem_post (set_crefs tmp u), OK)
  end.

Definition upper_close (intr : option Z) (u : UPPER) : res (UPPER * Z) :=
  w ← sem_wait intr u;
  match w with
  | inr errno => Ok (u, - errno)
  | inl u =>
      if 1 <? crefs u then Ok (sem_post (set_crefs (crefs u - 1) u), OK)
      else
        let u := set_crefs 0 u in
        '(l, _) ← shutdown (dev u);
        Ok (sem_post (set_dev l u), OK)
  end.

(** [register]: allocation may fail ([mem]); [reg] is the result of
    [register_driver].  The structure is zeroed by the allocation. *)
Definition upper_register (mem : bool) (reg : Z) (zero : I) (d : L) : option UPPER * Z :=
  if mem then (Some (mkUpper 0 1 zero d), reg) else (None, - ENOMEM).

End upper.

Arguments UPPER : clear implicits.

(** What a lower half promises: [quiet] says that it produces no output.
    A failed setup keeps it quiet and a shutdown makes it quiet. *)
Class QuietLower {L} (setup shutdown : L → res (L * Z)) (quiet : L → Prop) : Prop := {
  setup_fail_quiet l l' r : setup l = Ok (l', r) → r < 0 → quiet l → quiet l';
  shutdown_quiet l l' r : shutdown l = Ok (l', r) → quiet l'
}.

Section refcount.
Context {I L : Type} (setup shutdown : L → res (L * Z)) (quiet : L → Prop)
  `{!QuietLower setup shutdown quiet}.

(** An upper half together with the number of open descriptors.  A step
    opens the device, closes one descriptor, or uses an open device in any
    way that leaves the count and the semaphore alone. *)
Inductive up_step : UPPER I L * Z → UPPER I L * Z → Prop :=
  | up_open u n intr u' r :
      (∀ e, intr = Some e → 0 < e) →
      upper_open setup intr u = Ok (u', r) →
      up_step (u, n) (u', if r =? OK then n + 1 else n)
  | up_close u n intr u' r :
      (∀ e, intr = Some e → 0 < e) →
      0 < n → upper_close shutdown intr u = Ok (u', r) →
      up_step (u, n) (u', if r =? OK then n - 1 else n)
  | up_use u n u' :
      0 < n → crefs u' = crefs u → exclsem u' = exclsem u → up_step (u, n) (u', n).

Definition up_inv (s : UPPER I L * Z) : Prop :=
  crefs (s.1) = s.2 ∧ 0 <= s.2 <= 255 ∧ exclsem (s.1) = 1 ∧ (s.2 = 0 → quiet (dev (s.1))).

Lemma up_open_inv u n intr u' r :
  (∀ e, intr = Some e → 0 < e) →
  upper_open setup intr u = Ok (u', r) → up_inv (u, n) → up_inv (u', if r =? OK then n + 1 else n).
Proof using QuietLower0.
  intros Hintr H (Hc & Hn & He & Hq). cbn [fst snd] in *. unfold upper_open, sem_wait in H.
  destruct intr as [e|].
  { cbn in H. simplify_eq. specialize (Hintr e eq_refl). destruct (Z.eqb_spec (- e) OK); [unfold OK in *; lia|].
    done. }
  rewrite He in H. cbn -[u8] in H. rewrite Hc in H.
  destruct (Z.eqb_spec (u8 (n + 1)) 0) as [E|E].
  { simplify_eq. cbn. unfold up_inv. cbn. done. }
  assert (n + 1 < 256) as Hlt.
  { destruct (decide (n = 255)) as [->|]; [done|lia]. }
  rewrite u8_small in * by lia.
  destruct (Z.eqb_spec (n + 1) 1) as [E1|E1].
  - apply bind_ok_iff in H as ([l ret] & Hs & H). destruct (Z.ltb_spec ret 0); simplify_eq.
    + destruct (Z.eqb_spec r OK); [unfold OK in *; lia|]. unfold up_inv. cbn.
      repeat (split; [done || lia|]). intros _. eapply setup_fail_quiet; [done|done|]. apply Hq. lia.
    + unfold up_inv. cbn. repeat (split; [done || lia|]). lia.
  - simplify_eq. unfold up_inv. cbn. repeat (split; [done || lia|]). lia.
Qed.

Lemma up_close_inv u n intr u' r :
  (∀ e, intr = Some e → 0 < e) → 0 < n →
  upper_close shutdown intr u = Ok (u', r) → up_inv (u, n) → up_inv (u', if r =? OK then n - 1 else n).
Proof using QuietLower0.
  intros Hintr Hpos H (Hc & Hn & He & Hq). cbn [fst snd] in *. unfold upper_close, sem_wait in H.
  destruct intr as [e|].
  { cbn in H. simplify_eq. specialize (Hintr e eq_refl). destruct (Z.eqb_spec (- e) OK); [unfold OK in *; lia|].
    done. }
  rewrite He in H. cbn in H. rewrite Hc in H. destruct (Z.ltb_spec 1 n).
  - simplify_eq. unfold up_inv. cbn. repeat (split; [done || lia|]). lia.
  - apply bind_ok_iff in H as ([l ret] & Hs & H). simplify_eq. unfold up_inv. cbn.
    repeat (split; [done || lia|]). intros _. by eapply shutdown_quiet.
Qed.

Lemma up_step_inv s s' : up_step s s' → up_inv s → up_inv s'.
Proof using QuietLower0.
  destruct 1 as [u n intr u' r Hi H|u n intr u' r Hi Hn H|u n u' Hn Hc He].
  - by eapply up_open_inv.
  - by eapply up_close_inv.
  - intros (? & ? & ? & ?). unfold up_inv in *. cbn in *. repeat split; try congruence || lia.
Qed.

(** Opening and closing again are steps back to no descriptor. *)
Lemma up_open_close u u1 u2 :
  upper_open setup None u = Ok (u1, OK) → upper_close shutdown None u1 = Ok (u2, OK) →
  rtc up_step (u, 0) (u2, 0).
Proof.
  intros H1 H2. eapply (rtc_l _ _ (u1, 1)).
  - by apply (up_open u 0 None u1 OK).
  - apply rtc_once. by apply (up_close u1 1 None u2 OK).
Qed.

(** From a fresh registration over a quiet lower half the invariant holds
    after any sequence of opens, closes and uses. *)
Lemma up_reachable_inv reg zero d u s :
  quiet d → upper_register true reg zero d = (Some u, reg) → rtc up_step (u, 0) s → up_inv s.
Proof using QuietLower0.
  intros Hq Hu Hr. cut (up_inv (u, 0)).
  { clear Hu. induction Hr as [|? ? ? Hs _ IH]; [done|]. intros Hi. apply IH. by eapply up_step_inv. }
  cbn in Hu. simplify_eq. unfold up_inv. cbn. repeat split; done || lia.
Qed.

End refcount.

End Upper.
