(* ===== verification/NuttxTimer.v ===== *)
(** * The timer library of the LM4F120 board

    The functions of board_driver/timer.c that the drivers of NuttxUpper do
    not use: control bits, readings, 64-bit access to the wide timers,
    interrupts and the return to the reset state.  Calls into the interrupt
    library are logged.  The assertions of the debug build are left out. *)
From S2P Require Import Prelude FunkKernel NuttxUpper.

Module Gpt.
Import Hw.

Definition TIMER_O_SYNC : Z := 0x10.
Definition TIMER_O_IMR : Z := 0x18.
Definition TIMER_O_RIS : Z := 0x1C.
Definition TIMER_O_MIS : Z := 0x20.
Definition TIMER_O_ICR : Z := 0x24.
Definition TIMER_O_TAR : Z := 0x48.
Definition TIMER_O_TBR : Z := 0x4C.
Definition TIMER_CTL_TBPWML : Z := 0x4000.
Definition TIMER_CTL_TAOTE : Z := 0x20.
Definition TIMER_CTL_TBOTE : Z := 0x2000.
Definition TIMER_CTL_TAEVENT_M : Z := 0xC.
Definition TIMER_CTL_TBEVENT_M : Z := 0xC00.
Definition TIMER_CTL_TASTALL : Z := 0x2.
Definition TIMER_CTL_TBSTALL : Z := 0x200.
Definition TIMER_CTL_RTCEN : Z := 0x10.
Definition TIMER_TAMR_TAWOT : Z := 0x40.
Definition TIMER_TBMR_TBWOT : Z := 0x40.
Definition TIMER_BOTH : Z := 0xffff.

(** The table of bases and interrupt numbers. *)
Definition g_ppulTimerIntMap : list (Z * Z) := [
  (0x40030000, 35); (0x40031000, 37); (0x40032000, 39); (0x40033000, 51); (0x40034000, 86); (0x40035000, 108);
  (0x40036000, 110); (0x40037000, 112); (0x4004C000, 114); (0x4004D000, 116); (0x4004E000, 118); (0x4004F000, 120)].

Definition TimerBaseValid (base : Z) : bool := bool_decide (base ∈ g_ppulTimerIntMap.*1).

Fixpoint int_number (map : list (Z * Z)) (base : Z) : Z :=
  match map with
  | [] => -1
  | (b, n) :: map => if b =? base then n else int_number map base
  end.
Definition TimerIntNumberGet (base : Z) : Z := int_number g_ppulTimerIntMap base.

(** ** Control bits *)

(** Bits of the control register switched on or off. *)
Definition control_bits (mask base timer : Z) (on : bool) (h : HW) : HW :=
  let timer := Z.land timer mask in
  let r := HWREG (base + TIMER_O_CTL) h in
  write (base + TIMER_O_CTL) (if on then Z.lor r timer else Z.land r (Z.lnot timer)) h.

Definition TimerControlLevel := control_bits (Z.lor TIMER_CTL_TAPWML TIMER_CTL_TBPWML).
Definition TimerControlTrigger := control_bits (Z.lor TIMER_CTL_TAOTE TIMER_CTL_TBOTE).
Definition TimerControlStall := control_bits (Z.lor TIMER_CTL_TASTALL TIMER_CTL_TBSTALL).

Definition TimerControlEvent (base timer event : Z) (h : HW) : HW :=
  let timer := Z.land timer (Z.lor TIMER_CTL_TAEVENT_M TIMER_CTL_TBEVENT_M) in
  write (base + TIMER_O_CTL)
    (Z.lor (Z.land (HWREG (base + TIMER_O_CTL) h) (Z.lnot timer)) (Z.land event timer)) h.

Definition set_bits (a v : Z) (h : HW) : HW := write a (Z.lor (HWREG a h) v) h.
Definition clear_bits (a v : Z) (h : HW) : HW := write a (Z.land (HWREG a h) (Z.lnot v)) h.

Definition TimerControlWaitOnTrigger (base timer : Z) (wait : bool) (h : HW) : HW :=
  let f : Z → Z → HW → HW := if wait then set_bits else clear_bits in
  let h := if negb (Z.land timer TIMER_A =? 0) then f (base + TIMER_O_TAMR) TIMER_TAMR_TAWOT h else h in
  if negb (Z.land timer TIMER_B =? 0) then f (base + TIMER_O_TBMR) TIMER_TBMR_TBWOT h else h.

Definition TimerRTCEnable (base : Z) : HW → HW := set_bits (base + TIMER_O_CTL) TIMER_CTL_RTCEN.
Definition TimerRTCDisable (base : Z) : HW → HW := clear_bits (base + TIMER_O_CTL) TIMER_CTL_RTCEN.

(** ** Readings *)

Definition get_pair (oa ob base timer : Z) (h : HW) : Z :=
  if timer =? TIMER_A then HWREG (base + oa) h else HWREG (base + ob) h.

Definition TimerPrescaleGet := get_pair TIMER_O_TAPR TIMER_O_TBPR.
Definition TimerPrescaleMatchGet := get_pair TIMER_O_TAPMR TIMER_O_TBPMR.
Definition TimerLoadGet := get_pair TIMER_O_TAILR TIMER_O_TBILR.
Definition TimerMatchGet := get_pair TIMER_O_TAMATCHR TIMER_O_TBMATCHR.
Definition TimerValueGet := get_pair TIMER_O_TAR TIMER_O_TBR.

(** *** 64-bit access *)

(** The high word is written first. *)
Definition set64 (oa ob base v : Z) (h : HW) : HW :=
  write (base + oa) (Z.land v 0xffffffff) (write (base + ob) (Z.shiftr v 32) h).
Definition TimerLoadSet64 := set64 TIMER_O_TAILR TIMER_O_TBILR.
Definition TimerMatchSet64 := set64 TIMER_O_TAMATCHR TIMER_O_TBMATCHR.

(** The loop reads the high word before and after the low one and repeats
    until both agree; [high k] and [low k] are what read number [k] of the
    registers gives. *)
Fixpoint get64 (high low : nat → Z) (fuel k : nat) : res Z :=
  match fuel with
  | O => Fault OutOfFuel
  | S fuel =>
      let ulHigh1 := high k in
      let ulLow := low (k + 1)%nat in
      let ulHigh2 := high (k + 2)%nat in
      if negb (ulHigh1 =? ulHigh2) then get64 high low fuel (k + 3)
      else Ok (Z.lor (Z.shiftl ulHigh1 32) ulLow)
  end.

(** Load and match registers do not change by themselves. *)
Definition TimerLoadGet64 (base : Z) (h : HW) : res Z :=
  get64 (λ _, HWREG (base + TIMER_O_TBILR) h) (λ _, HWREG (base + TIMER_O_TAILR) h) 1 0.
Definition TimerMatchGet64 (base : Z) (h : HW) : res Z :=
  get64 (λ _, HWREG (base + TIMER_O_TBMATCHR) h) (λ _, HWREG (base + TIMER_O_TAMATCHR) h) 1 0.

(** The counter [c k] at read number [k]. *)
Definition TimerValueGet64 (c : nat → Z) (fuel : nat) : res Z :=
  get64 (λ k, Z.shiftr (c k) 32) (λ k, Z.land (c k) 0xffffffff) fuel 0.

(** ** Interrupts *)

Definition TimerIntRegister (base timer handler : Z) (h : HW) : HW :=
  let n := TimerIntNumberGet base in
  let h := if negb (Z.land timer TIMER_A =? 0) then log "IntEnable" [n] (log "IntRegister" [n; handler] h) else h in
  if negb (Z.land timer TIMER_B =? 0) then log "IntEnable" [n + 1] (log "IntRegister" [n + 1; handler] h) else h.

Definition TimerIntUnregister (base timer : Z) (h : HW) : HW :=
  let n := TimerIntNumberGet base in
  let h := if negb (Z.land timer TIMER_A =? 0) then log "IntUnregister" [n] (log "IntDisable" [n] h) else h in
  if negb (Z.land timer TIMER_B =? 0) then log "IntUnregister" [n + 1] (log "IntDisable" [n + 1] h) else h.

Definition TimerIntEnable (base flags : Z) : HW → HW := set_bits (base + TIMER_O_IMR) flags.
Definition TimerIntDisable (base flags : Z) : HW → HW := clear_bits (base + TIMER_O_IMR) flags.
Definition TimerIntStatus (base : Z) (masked : bool) (h : HW) : Z :=
  if masked then HWREG (base + TIMER_O_MIS) h else HWREG (base + TIMER_O_RIS) h.
Definition TimerIntClear (base flags : Z) : HW → HW := write (base + TIMER_O_ICR) flags.
Definition TimerSynchronize (base timers : Z) : HW → HW := write (base + TIMER_O_SYNC) timers.

(** ** Reset state *)

(** The registers [TimerQuiesce] sets at the end, with their reset values. *)
Definition reset_values : list (Z * Z) := [
  (TIMER_O_CFG, 0); (TIMER_O_TAMR, 0); (TIMER_O_TBMR, 0); (TIMER_O_RIS, 0); (TIMER_O_MIS, 0);
  (TIMER_O_TAILR, 0xffffffff); (TIMER_O_TBILR, 0xffff); (TIMER_O_TAMATCHR, 0xffffffff); (TIMER_O_TBMATCHR, 0xffff);
  (TIMER_O_TAPR, 0); (TIMER_O_TBPR, 0); (TIMER_O_TAPMR, 0); (TIMER_O_TBPMR, 0);
  (TIMER_O_TAR, 0xffffffff); (TIMER_O_TBR, 0xffff)].

Definition TimerQuiesce (base : Z) (h : HW) : HW :=
  let h := write (base + TIMER_O_CTL) 0 h in
  let h := write (base + TIMER_O_IMR) 0 h in
  let h := write (base + TIMER_O_ICR) 0xffffffff h in
  let h := TimerIntUnregister base TIMER_BOTH h in
  foldl (λ h r, write (base + r.1) r.2 h) h reset_values.

(** ** Theorems *)

Lemma shiftr_low v : 0 <= v → Z.lor (Z.shiftl (Z.shiftr v 32) 32) (Z.land v 0xffffffff) = v.
Proof.
  intros Hv. change 0xffffffff with (Z.ones 32). apply Z.bits_inj'. intros n Hn.
  rewrite Z.lor_spec, Z.land_spec, Z.shiftl_spec, Z.testbit_ones by lia.
  destruct (Z.ltb_spec n 32) as [H|H].
  - rewrite (Z.testbit_neg_r _ (n - 32)) by lia. rewrite (proj2 (Z.leb_le 0 n)) by lia. by rewrite andb_true_r.
  - rewrite Z.shiftr_spec by lia. rewrite andb_false_r, andb_false_r, orb_false_r. f_equal. lia.
Qed.

(** A 64-bit value that was set is read back. *)
Theorem Timer64_round_trip base v h :
  0 <= v < 2 ^ 64 →
  TimerLoadGet64 base (TimerLoadSet64 base v h) = Ok v ∧ TimerMatchGet64 base (TimerMatchSet64 base v h) = Ok v.
Proof.
  intros Hv. assert (0 <= Z.shiftr v 32 < 2 ^ 32) as Hs.
  { rewrite Z.shiftr_div_pow2 by lia. split; [apply Z.div_pos; lia|]. apply Z.div_lt_upper_bound; lia. }
  assert (0 <= Z.land v 0xffffffff < 2 ^ 32) as Hl.
  { change 0xffffffff with (Z.ones 32). rewrite Z.land_ones by lia. apply Z.mod_pos_bound. lia. }
  unfold TimerLoadGet64, TimerLoadSet64, TimerMatchGet64, TimerMatchSet64, set64. cbn [get64]. rewrite !Z.eqb_refl. cbn [negb].
  rewrite !HWREG_write_eq, !(HWREG_write_ne (base + TIMER_O_TBILR)), !(HWREG_write_ne (base + TIMER_O_TBMATCHR)), !HWREG_write_eq
    by (unfold TIMER_O_TBILR, TIMER_O_TAILR, TIMER_O_TBMATCHR, TIMER_O_TAMATCHR; lia).
  rewrite !u32_small, shiftr_low by lia. done.
Qed.

(** [c] goes up or down with the reads. *)
Definition monotone (c : nat → Z) : Prop :=
  (∀ i j, (i <= j)%nat → c i <= c j) ∨ (∀ i j, (i <= j)%nat → c j <= c i).

Lemma same_high c k : monotone c → Z.shiftr (c k) 32 = Z.shiftr (c (k + 2)%nat) 32 → Z.shiftr (c (k + 1)%nat) 32 = Z.shiftr (c k) 32.
Proof.
  rewrite !Z.shiftr_div_pow2 by lia. intros [H|H] E.
  - pose proof (Z.div_le_mono (c k) (c (k + 1)%nat) (2 ^ 32) ltac:(lia) ltac:(apply H; lia)).
    pose proof (Z.div_le_mono (c (k + 1)%nat) (c (k + 2)%nat) (2 ^ 32) ltac:(lia) ltac:(apply H; lia)). lia.
  - pose proof (Z.div_le_mono (c (k + 1)%nat) (c k) (2 ^ 32) ltac:(lia) ltac:(apply H; lia)).
    pose proof (Z.div_le_mono (c (k + 2)%nat) (c (k + 1)%nat) (2 ^ 32) ltac:(lia) ltac:(apply H; lia)). lia.
Qed.

Lemma get64_agree c fuel k :
  (∀ i, 0 <= c i) → monotone c → Z.shiftr (c k) 32 = Z.shiftr (c (k + 2)%nat) 32 →
  get64 (λ k, Z.shiftr (c k) 32) (λ k, Z.land (c k) 0xffffffff) (S fuel) k = Ok (c (k + 1)%nat).
Proof.
  intros Hp Hm E. cbn [get64]. rewrite (proj2 (Z.eqb_eq _ _) E). cbn [negb].
  rewrite <- (same_high c k Hm E), shiftr_low by apply Hp. done.
Qed.

(** The value of a running 64-bit counter is read in one piece: with a
    counter that advances by less than 2^32 during six reads, in either
    direction, [TimerValueGet64] returns after at most two turns of its loop,
    with the value the counter had at the moment of a read of the low word. *)
Theorem TimerValueGet64_consistent c :
  (∀ i, 0 <= c i) → monotone c → Z.abs (c 5%nat - c 0%nat) < 2 ^ 32 →
  TimerValueGet64 c 2 = Ok (c 1%nat) ∨ TimerValueGet64 c 2 = Ok (c 4%nat).
Proof.
  intros Hp Hm Hd. unfold TimerValueGet64. destruct (decide (Z.shiftr (c 0%nat) 32 = Z.shiftr (c 2%nat) 32)) as [E|E].
  { left. by apply (get64_agree c 1 0). }
  right. transitivity (get64 (λ k, Z.shiftr (c k) 32) (λ k, Z.land (c k) 0xffffffff) 1 3).
  { cbn [get64 Nat.add]. by rewrite (proj2 (Z.eqb_neq _ _) E). }
  apply (get64_agree c 0 3); [done|done|]. cbn [Nat.add]. rewrite !Z.shiftr_div_pow2 in * by lia.
  destruct Hm as [H|H];
    pose proof (H 0 2 ltac:(lia))%nat as H02; pose proof (H 2 3 ltac:(lia))%nat as H23; pose proof (H 3 5 ltac:(lia))%nat as H35.
  - pose proof (Z.div_le_mono _ _ (2 ^ 32) ltac:(lia) H02). pose proof (Z.div_le_mono _ _ (2 ^ 32) ltac:(lia) H23).
    pose proof (Z.div_le_mono _ _ (2 ^ 32) ltac:(lia) H35).
    pose proof (Z.div_le_mono (c 5%nat) (c 0%nat + 1 * 2 ^ 32) (2 ^ 32) ltac:(lia) ltac:(lia)) as Hx. rewrite Z.div_add in Hx by lia. lia.
  - pose proof (Z.div_le_mono _ _ (2 ^ 32) ltac:(lia) H02). pose proof (Z.div_le_mono _ _ (2 ^ 32) ltac:(lia) H23).
    pose proof (Z.div_le_mono _ _ (2 ^ 32) ltac:(lia) H35).
    pose proof (Z.div_le_mono (c 0%nat) (c 5%nat + 1 * 2 ^ 32) (2 ^ 32) ltac:(lia) ltac:(lia)) as Hx. rewrite Z.div_add in Hx by lia. lia.
Qed.

Lemma TimerValueGet64_consistent_witness :
  let c := λ k : nat, 0x1fffffffe + Z.of_nat k in
  TimerValueGet64 c 2 = Ok (c 1%nat) ∨ TimerValueGet64 c 2 = Ok (c 4%nat).
Proof.
  intros c. apply (TimerValueGet64_consistent c).
  - intros i. unfold c. lia.
  - left. intros i j H. unfold c. lia.
  - unfold c. cbn. lia.
Defined.

(** [TimerQuiesce] stops the timer and masks its interrupts, every register of
    the table has its reset value, and other timers are not touched. *)
Theorem TimerQuiesce_resets base h :
  running base (TimerQuiesce base h) = false ∧
  HWREG (base + TIMER_O_IMR) (TimerQuiesce base h) = 0 ∧
  (∀ o v, (o, v) ∈ reset_values → HWREG (base + o) (TimerQuiesce base h) = v) ∧
  (∀ a, a < base ∨ base + 0x50 <= a → HWREG a (TimerQuiesce base h) = HWREG a h).
Proof.
  assert (∀ a l h0, (∀ r, r ∈ l → a ≠ base + r.1) → HWREG a (foldl (λ h r, write (base + r.1) r.2 h) h0 l) = HWREG a h0) as Hfold.
  { intros a l. induction l as [|r l IH]; intros h0 Ha; [done|]. cbn [foldl]. rewrite IH by (intros; apply Ha; by right).
    apply HWREG_write_ne, Ha. left. }
  assert (∀ a h0, HWREG a (TimerIntUnregister base TIMER_BOTH h0) = HWREG a h0) as Hun by done.
  assert (∀ a, (∀ r, r ∈ reset_values → a ≠ base + r.1) → HWREG a (TimerQuiesce base h) =
    HWREG a (write (base + TIMER_O_ICR) 0xffffffff (write (base + TIMER_O_IMR) 0 (write (base + TIMER_O_CTL) 0 h)))) as Hq.
  { intros a Ha. unfold TimerQuiesce. by rewrite Hfold, Hun. }
  assert (∀ o, Forall (λ r, o ≠ r.1) reset_values → ∀ r, r ∈ reset_values → base + o ≠ base + r.1) as Hout.
  { intros o Ho r Hr. rewrite Forall_forall in Ho. specialize (Ho r Hr). lia. }
  split; [|split; [|split]].
  - unfold running. rewrite Hq by (apply Hout; by repeat constructor).
    rewrite !(HWREG_write_ne (base + TIMER_O_CTL)) by (unfold TIMER_O_CTL, TIMER_O_ICR, TIMER_O_IMR; lia). by rewrite HWREG_write_eq.
  - rewrite Hq by (apply Hout; by repeat constructor).
    rewrite (HWREG_write_ne (base + TIMER_O_IMR)) by (unfold TIMER_O_IMR, TIMER_O_ICR; lia). by rewrite HWREG_write_eq.
  - intros o v Hin. unfold TimerQuiesce. generalize (TimerIntUnregister base TIMER_BOTH
      (write (base + TIMER_O_ICR) 0xffffffff (write (base + TIMER_O_IMR) 0 (write (base + TIMER_O_CTL) 0 h)))). intros h0.
    apply list_elem_of_split in Hin as (l1 & l2 & E).
    assert (NoDup reset_values.*1) as Hnd by (apply (bool_decide_unpack _); by vm_compute).
    assert (Forall (λ r, u32 r.2 = r.2) reset_values) as Hv by (by repeat constructor).
    rewrite E in *. rewrite fmap_app in Hnd. apply NoDup_app in Hnd as (_ & _ & Hnd). apply NoDup_cons in Hnd as [Hnd _].
    apply Forall_app in Hv as [_ Hv]. apply Forall_cons in Hv as [Hv _]. rewrite foldl_app. cbn [foldl fst snd] in *.
    rewrite Hfold, HWREG_write_eq; [done|]. intros r Hr Ho. apply Hnd. apply list_elem_of_fmap. exists r. split; [lia|done].
  - intros a Ha. rewrite Hq.
    + rewrite !HWREG_write_ne; [done|unfold TIMER_O_CTL, TIMER_O_IMR, TIMER_O_ICR; lia..].
    + intros r Hr. assert (Forall (λ r, 0 <= r.1 < 0x50) reset_values) as Hb by (apply (bool_decide_unpack _); by vm_compute).
      rewrite Forall_forall in Hb. specialize (Hb r Hr). cbn in Hb. lia.
Qed.

(** The control functions change only the bits of their mask. *)
Theorem control_bits_exact mask base timer on h i :
  0 <= i < 32 → Z.testbit (HWREG (base + TIMER_O_CTL) (control_bits mask base timer on h)) i =
    if Z.testbit (Z.land timer mask) i then on else Z.testbit (HWREG (base + TIMER_O_CTL) h) i.
Proof.
  intros Hi. unfold control_bits. rewrite HWREG_write_eq, u32_testbit by done. destruct on.
  - rewrite Z.lor_spec. destruct (Z.testbit (Z.land timer mask) i); [apply orb_true_r|apply orb_false_r].
  - rewrite Z.land_spec, Z.lnot_spec by lia. destruct (Z.testbit (Z.land timer mask) i); [apply andb_false_r|apply andb_true_r].
Qed.

(** A base outside the table has the interrupt number -1: registering a
    handler for it then addresses interrupts -1 and 0. *)
Theorem TimerIntNumberGet_spec base :
  (TimerBaseValid base = true → 35 <= TimerIntNumberGet base <= 120) ∧ (TimerBaseValid base = false → TimerIntNumberGet base = -1).
Proof.
  unfold TimerBaseValid, TimerIntNumberGet.
  assert (∀ l, Forall (λ r, 35 <= r.2 <= 120) l → (base ∈ l.*1 → 35 <= int_number l base <= 120) ∧ (base ∉ l.*1 → int_number l base = -1)) as H.
  { induction 1 as [|[b n] l Hn _ [IH1 IH2]]; [split; [by intros ?%elem_of_nil|done]|]. cbn [fmap list_fmap fst int_number].
    destruct (Z.eqb_spec b base) as [->|Hne]; (split; [intros Hin|intros Hin]).
    - exact Hn.
    - exfalso. apply Hin. left.
    - apply elem_of_cons in Hin as [?|?]; [done|auto].
    - apply not_elem_of_cons in Hin as [_ ?]. auto. }
  destruct (H g_ppulTimerIntMap) as [H1 H2]; [apply (bool_decide_unpack _); by vm_compute|].
  split; intros Hb; [apply H1; by apply bool_decide_eq_true in Hb|apply H2; by apply bool_decide_eq_false in Hb].
Qed.

End Gpt.
