(* ===== verification/NuttxServo.v ===== *)
(** * The servo driver of the LM4F120 board

    Models drivers/servo.c (upper half: the character device "/dev/servo0")
    and configs/lm4f120-launchpad/src/up_servo.c (lower half: four PWM
    outputs on timers 2, 3, 1 and 0).  The open and close functions are those
    of [Upper], instantiated with the setup and shutdown functions found
    here.  The clock rate returned by [SysCtlClockGet] is the parameter
    [clk]; calls into the GPIO and system-control libraries are logged. *)
From S2P Require Import Prelude FunkKernel NuttxUpper.

Module Servo.
Import Hw Upper.

Definition SERVO_MAX_COUNT : Z := 4.
Definition SERVO_MIN_PULSE : Z := 544.
Definition SERVO_MAX_PULSE : Z := 2400.
Definition SERVO_PERIOD : Z := 20000.

Definition _SERVOIOC (nr : Z) : Z := Z.lor 0x1300 nr.
Definition SERVOIOC_SETPINCONFIG : Z := _SERVOIOC 1.
Definition SERVOIOC_GETPINCONFIG : Z := _SERVOIOC 2.
Definition SERVOIOC_SETPOS : Z := _SERVOIOC 3.

Record servo_info_s : Type := mkServoInfo {
  id : Z;
  port : Z;
  pin : Z;
  pos : Z
}.

#[export] Instance servo_info_eq_dec : EqDecision servo_info_s.
Proof. solve_decision. Defined.

Definition g_servo_timers : list Z := [0x40032000; 0x40033000; 0x40031000; 0x40030000].
Definition g_servo_peripherals : list Z := [0x10100004; 0x10100008; 0x10100002; 0x10100001].

Definition SYSCTL_PERIPH_GPIOB : Z := 0x20000002.
Definition GPIO_PORTB_BASE : Z := 0x40005000.
Definition TIMER_CFG_SPLIT_PAIR : Z := 0x04000000.
Definition TIMER_CFG_A_PWM : Z := 0x0000000A.

(** ** Lower half *)

(** One iteration of the loop of [servo_setup]: timer [i] as a 50 Hz PWM. *)
Definition setup_timer (clk i : Z) (h : HW) : res HW :=
  per ← aget g_servo_peripherals i;
  t ← aget g_servo_timers i;
  let h := log "SysCtlPeripheralEnable" [per] h in
  let h := TimerConfigure t (Z.lor TIMER_CFG_SPLIT_PAIR TIMER_CFG_A_PWM) h in
  let h := write (t + TIMER_O_CTL) (Z.lor (HWREG (t + TIMER_O_CTL) h) TIMER_CTL_TAPWML) h in
  let period1 := u32 (clk `div` 50) in
  let extender1 := u8 (Z.shiftr period1 16) in
  let period1 := Z.land period1 0xFFFF in
  let h := TimerPrescaleSet t TIMER_A extender1 h in
  Ok (TimerLoadSet t TIMER_A period1 h).

Definition servo_setup (clk : Z) (h : HW) : res (HW * Z) :=
  let h := log "SysCtlPeripheralEnable" [SYSCTL_PERIPH_GPIOB] h in
  let h := log "GPIOPinConfigure" [0x00010007] h in
  let h := log "GPIOPinTypeTimer" [GPIO_PORTB_BASE; 0x01] h in
  let h := log "GPIOPinConfigure" [0x00010807] h in
  let h := log "GPIOPinTypeTimer" [GPIO_PORTB_BASE; 0x04] h in
  let h := log "GPIOPinConfigure" [0x00011007] h in
  let h := log "GPIOPinTypeTimer" [GPIO_PORTB_BASE; 0x10] h in
  let h := log "GPIOPinConfigure" [0x00011807] h in
  let h := log "GPIOPinTypeTimer" [GPIO_PORTB_BASE; 0x40] h in
  h ← forM (seqZ 0 SERVO_MAX_COUNT) (setup_timer clk) h;
  Ok (h, OK).

Definition servo_shutdown (h : HW) : res (HW * Z) :=
  h ← forM (seqZ 0 SERVO_MAX_COUNT)
        (λ i h, t ← aget g_servo_timers i; Ok (TimerDisable t TIMER_A h)) h;
  Ok (h, OK).

Definition servo_attach (_ : servo_info_s) (h : HW) : res (HW * Z) := Ok (h, - ENODEV).

(** The pulse width of [servo_setpos], in microseconds. *)
Definition pulse_width (pos : Z) : Z :=
  let value := u32 (SERVO_MIN_PULSE + ((SERVO_MAX_PULSE - SERVO_MIN_PULSE) `div` 180) * pos) in
  let value := if value <=? SERVO_MAX_PULSE then value else SERVO_MAX_PULSE in
  if SERVO_MIN_PULSE <=? value then value else SERVO_MIN_PULSE.

Definition servo_setpos (clk : Z) (info : servo_info_s) (h : HW) : res (HW * Z) :=
  let '(h, flags) := irqsave h in
  let h := sched_lock h in
  if SERVO_MAX_COUNT <=? id info then Ok (h, ERANGE)
  else
    let value := pulse_width (pos info) in
    let period2 := u32 (u32 (clk `div` 50 * value) `div` SERVO_PERIOD) in
    let extender2 := u8 (Z.shiftr period2 16) in
    let period2 := Z.land period2 0xFFFF in
    t ← aget g_servo_timers (id info);
    let h := TimerPrescaleMatchSet t TIMER_A extender2 h in
    let h := TimerMatchSet t TIMER_A period2 h in
    let h := TimerEnable t TIMER_A h in
    let h := irqrestore flags h in
    let h := sched_unlock h in
    Ok (h, OK).

(** The operations of the lower half; a null pointer where none is given. *)
Record servo_ops_s : Type := mkServoOps {
  op_setup : HW → res (HW * Z);
  op_shutdown : HW → res (HW * Z);
  op_attach : servo_info_s → HW → res (HW * Z);
  op_setpos : servo_info_s → HW → res (HW * Z);
  op_ioctl : option (Z → HW → res (HW * Z))
}.

Definition lower_ioctl (cmd : Z) (h : HW) : res (HW * Z) := Ok (h, - ENODEV).

Definition g_servoops (clk : Z) : servo_ops_s := {|
  op_setup := servo_setup clk;
  op_shutdown := servo_shutdown;
  op_attach := servo_attach;
  op_setpos := servo_setpos clk;
  op_ioctl := None
|}.

(** ** Upper half *)

Abbreviation servo_upperhalf_s := (UPPER servo_info_s HW).

Definition servo_open (ops : servo_ops_s) : option Z → servo_upperhalf_s → res (servo_upperhalf_s * Z) :=
  upper_open (op_setup ops).

Definition servo_close (ops : servo_ops_s) : option Z → servo_upperhalf_s → res (servo_upperhalf_s * Z) :=
  upper_close (op_shutdown ops).

Definition servo_read (buflen : Z) (u : servo_upperhalf_s) : servo_upperhalf_s * Z := (u, 0).
Definition servo_write (buflen : Z) (u : servo_upperhalf_s) : servo_upperhalf_s * Z := (u, 0).

(** [arg] is the argument seen as a pointer to a [servo_info_s] ([None] for
    null); the second result is what it points to afterwards. *)
Definition servo_ioctl (ops : servo_ops_s) (intr : option Z) (cmd : Z) (arg : option servo_info_s)
    (u : servo_upperhalf_s) : res (servo_upperhalf_s * option servo_info_s * Z) :=
  w ← sem_wait intr u;
  match w with
  | inr _ => Ok (u, arg, -1)
  | inl u =>
      let ret := 0 in
      '(u, arg, ret) ←
        (if cmd =? SERVOIOC_SETPINCONFIG then
           match arg with
           | None => Fault NullDeref
           | Some i =>
               let u := set_info i u in
               '(h, ret) ← op_attach ops (info u) (dev u);
               Ok (set_dev h u, arg, ret)
           end
         else if cmd =? SERVOIOC_GETPINCONFIG then
           match arg with
           | None => Fault NullDeref
           | Some _ => Ok (u, Some (info u), ret)
           end
         else if cmd =? SERVOIOC_SETPOS then
           match arg with
           | None => Fault NullDeref
           | Some i =>
               let u := set_info i u in
               '(h, ret) ← op_setpos ops (info u) (dev u);
               Ok (set_dev h u, arg, ret)
           end
         else
           match op_ioctl ops with
           | None => Fault NullCall
           | Some f => '(h, ret) ← f cmd (dev u); Ok (set_dev h u, arg, ret)
           end);
      Ok (sem_post u, arg, ret)
  end.

Definition servo_register (mem : bool) (reg : Z) (dev : HW) : option servo_upperhalf_s * Z :=
  upper_register mem reg (mkServoInfo 0 0 0 0) dev.

(** [servo_devinit] with its static flag; [g] is the device structure that
    [lm4f_servoinitialize] returns. *)
Definition lm4f_servoinitialize (g : HW) : option HW := Some g.

Definition servo_devinit (mem : bool) (reg : Z) (g : HW) (servo_initialized : bool)
    : option servo_upperhalf_s * bool * Z :=
  if negb servo_initialized then
    match lm4f_servoinitialize g with
    | None => (None, false, - ENODEV)
    | Some servo =>
        let '(u, ret) := servo_register mem reg servo in
        if ret <? 0 then (None, false, ret) else (u, true, OK)
    end
  else (None, true, OK).

(** ** Lemmas *)

(** No PWM output is driven. *)
Definition servo_quiet (h : HW) : Prop := Forall (λ t, running t h = false) g_servo_timers.

Lemma running_disable_ne t t' h :
  t + TIMER_O_CTL ≠ t' + TIMER_O_CTL → running t (TimerDisable t' TIMER_A h) = running t h.
Proof. intros H. unfold TimerDisable. apply running_write_ne. lia. Qed.

Lemma servo_shutdown_spec h h' r : servo_shutdown h = Ok (h', r) → servo_quiet h' ∧ r = OK.
Proof.
  unfold servo_shutdown. rewrite (forM_array g_servo_timers (λ t h, Ok (TimerDisable t TIMER_A h))).
  cbn. intros [= <- <-]. split; [|done]. unfold servo_quiet, g_servo_timers.
  repeat (apply Forall_cons; split; [|]); [..|by apply Forall_nil];
    rewrite ?running_disable_ne by done; apply running_disable.
Qed.

Lemma setup_timer_ok clk i t per h :
  g_servo_timers !! i = Some t → g_servo_peripherals !! i = Some per →
  ∃ h', setup_timer clk (Z.of_nat i) h = Ok h'.
Proof.
  intros Ht Hp. unfold setup_timer. rewrite (aget_some _ _ _ Ht), (aget_some _ _ _ Hp), !bind_ok. eauto.
Qed.

#[export] Instance servo_quiet_lower clk : QuietLower (op_setup (g_servoops clk)) (op_shutdown (g_servoops clk)) servo_quiet.
Proof.
  split.
  - intros l l' r H Hr _. cbn [op_setup g_servoops] in H. unfold servo_setup in H.
    apply bind_ok_iff in H as (h & _ & [= <- <-]). unfold OK in Hr. lia.
  - intros l l' r H. by apply servo_shutdown_spec in H as [H _].
Qed.

Lemma pulse_width_spec p :
  0 <= p < 65536 → pulse_width p = Z.min (SERVO_MIN_PULSE + 10 * p) SERVO_MAX_PULSE.
Proof.
  intros Hp. unfold pulse_width, SERVO_MIN_PULSE, SERVO_MAX_PULSE. change ((2400 - 544) `div` 180) with 10.
  rewrite u32_small by lia. destruct (Z.leb_spec (544 + 10 * p) 2400).
  - destruct (Z.leb_spec 544 (544 + 10 * p)); lia.
  - cbn. lia.
Qed.

(** The prescaler and match registers hold the high and low part of a
    count below 2^24. *)
Lemma split_count n : 0 <= n < 16777216 → u8 (Z.shiftr n 16) * 65536 + Z.land n 0xFFFF = n.
Proof.
  intros Hn. change 0xFFFF with (Z.ones 16). rewrite Z.land_ones, Z.shiftr_div_pow2 by lia.
  change (2 ^ 16) with 65536. rewrite u8_small by dlia. dlia.
Qed.

(** The number of clock ticks of the high phase for servo [t]. *)
Definition high_ticks (t : Z) (h : HW) : Z :=
  HWREG (t + TIMER_O_TAPMR) h * 65536 + HWREG (t + TIMER_O_TAMATCHR) h.

Lemma match_count clk v :
  0 <= clk <= 80000000 → 0 <= v <= SERVO_MAX_PULSE →
  u32 (u32 (clk `div` 50 * v) `div` SERVO_PERIOD) = (clk `div` 50 * v) `div` SERVO_PERIOD ∧
  0 <= (clk `div` 50 * v) `div` SERVO_PERIOD <= 192000.
Proof.
  unfold SERVO_MAX_PULSE, SERVO_PERIOD. intros Hc Hv.
  assert (0 <= clk `div` 50 <= 1600000) as Hd by dlia.
  assert (0 <= clk `div` 50 * v <= 3840000000) as Hm by nia.
  rewrite (u32_small (_ * _)) by lia. revert Hm. generalize (clk `div` 50 * v). intros m Hm.
  rewrite u32_small by dlia. split; [done|dlia].
Qed.

(** The state [servo_setpos] produces for a valid servo. *)
Lemma servo_setpos_state clk info h (t : Z) :
  g_servo_timers !! Z.to_nat (id info) = Some t → 0 <= id info →
  servo_setpos clk info h =
    let n := u32 (u32 (clk `div` 50 * pulse_width (pos info)) `div` SERVO_PERIOD) in
    Ok (sched_unlock (irqrestore (irq_off h) (TimerEnable t TIMER_A
          (write (t + TIMER_O_TAMATCHR) (Z.land n 0xFFFF)
            (write (t + TIMER_O_TAPMR) (u8 (Z.shiftr n 16)) (sched_lock (irqsave h).1))))), OK).
Proof.
  intros Ht Hi. unfold servo_setpos. cbn [irqsave fst snd].
  assert (id info < SERVO_MAX_COUNT) as Hlt.
  { apply lookup_lt_Some in Ht. cbn in Ht. unfold SERVO_MAX_COUNT. lia. }
  rewrite (proj2 (Z.leb_gt _ _) Hlt). rewrite <- (Z2Nat.id (id info)) at 1 by done.
  rewrite (aget_some _ _ _ Ht), bind_ok. done.
Qed.

(** The effect of [servo_setpos] on a valid servo. *)
Lemma servo_setpos_ok clk info h t :
  g_servo_timers !! Z.to_nat (id info) = Some t → 0 <= id info →
  0 <= pos info < 65536 → 0 <= clk <= 80000000 →
  ∃ h', servo_setpos clk info h = Ok (h', OK) ∧
    running t h' = true ∧
    high_ticks t h' = (clk `div` 50 * Z.min (544 + 10 * pos info) 2400) `div` 20000 ∧
    irq_off h' = irq_off h ∧ lockcount h' = lockcount h ∧
    (∀ t' o, t' ∈ g_servo_timers → t' ≠ t → 0 <= o < 0x1000 → HWREG (t' + o) h' = HWREG (t' + o) h).
Proof.
  intros Ht Hi Hp Hclk. eexists. split; [by apply servo_setpos_state|].
  set (n := u32 _). destruct (match_count clk (pulse_width (pos info))) as [Hn Hr]; [done| |].
  { rewrite pulse_width_spec by done. unfold SERVO_MIN_PULSE, SERVO_MAX_PULSE. lia. }
  fold n in Hn. rewrite <- Hn in Hr.
  split; [exact (running_enable t _)|]. split; [|split; [done|split; [cbn; lia|]]].
  - unfold high_ticks. autorewrite with hw. unfold TIMER_O_TAPMR, TIMER_O_TAMATCHR in *.
    rewrite !HWREG_enable by (unfold TIMER_O_CTL; lia). autorewrite with hw.
    rewrite (HWREG_write_ne (t + 64)) by lia. autorewrite with hw.
    rewrite pulse_width_spec in Hn by done. unfold SERVO_MIN_PULSE, SERVO_MAX_PULSE, SERVO_PERIOD in Hn.
    rewrite <- Hn, !u32_small; [apply split_count; lia|..].
    + change 0xFFFF with (Z.ones 16). rewrite Z.land_ones by lia. change (2 ^ 16) with 65536. dlia.
    + pose proof (u8_range (Z.shiftr n 16)). lia.
  - intros t' o Ht' Hne Ho. autorewrite with hw.
    assert (t' + 0x1000 <= t ∨ t + 0x1000 <= t') as Hd.
    { apply list_elem_of_lookup_2 in Ht. unfold g_servo_timers in *. set_unfold. lia. }
    unfold TIMER_O_TAPMR, TIMER_O_TAMATCHR.
    rewrite HWREG_enable by (unfold TIMER_O_CTL; lia). rewrite !HWREG_write_ne by lia. by autorewrite with hw.
Qed.

(** ** Theorems *)

(** A position request for a servo that does not exist returns the
    positive number ERANGE and leaves interrupts disabled and the scheduler
    locked, whatever their state before. *)
Theorem servo_setpos_leaks_locks clk info h :
  SERVO_MAX_COUNT <= id info →
  ∃ h', servo_setpos clk info h = Ok (h', ERANGE) ∧
    irq_off h' = true ∧ lockcount h' = lockcount h + 1 ∧ regs h' = regs h ∧ 0 < ERANGE.
Proof.
  intros H. unfold servo_setpos. cbn [irqsave]. rewrite (proj2 (Z.leb_le _ _) H). by eexists.
Qed.

Lemma servo_setpos_leaks_locks_witness :
  ∃ h', servo_setpos 80000000 (mkServoInfo 4 0 0 90) (mkHW ∅ false 0 []) = Ok (h', ERANGE) ∧
    irq_off h' = true ∧ lockcount h' = 1.
Proof.
  destruct (servo_setpos_leaks_locks 80000000 (mkServoInfo 4 0 0 90) (mkHW ∅ false 0 []))
    as (h' & H1 & H2 & H3 & _).
  - done.
  - eauto.
Defined.

(** C38: [servo_setpos] for any servo number, any 16-bit position and a system
    clock of at most 80 MHz, the rated maximum of the processor.  For one of
    the four servos it returns OK, starts the timer of that servo and programs
    a high phase of 544 microseconds and 10 more for every degree, at most
    2400, in clock ticks (rounded down) with no overflow in 32 bits; the
    registers of the other servos are not touched and the interrupt and
    scheduler locks are back to what they were.  Any other number is answered
    with the positive ERANGE, no register is touched, and the interrupts stay
    disabled and the scheduler locked. *)
Theorem servo_setpos_pulse clk info h :
  0 <= id info → 0 <= pos info < 65536 → 0 <= clk <= 80000000 →
  match g_servo_timers !! Z.to_nat (id info) with
  | Some t => ∃ h', servo_setpos clk info h = Ok (h', OK) ∧
      running t h' = true ∧
      high_ticks t h' = (clk `div` 50 * Z.min (544 + 10 * pos info) 2400) `div` 20000 ∧
      irq_off h' = irq_off h ∧ lockcount h' = lockcount h ∧
      (∀ t' o, t' ∈ g_servo_timers → t' ≠ t → 0 <= o < 0x1000 → HWREG (t' + o) h' = HWREG (t' + o) h)
  | None => ∃ h', servo_setpos clk info h = Ok (h', ERANGE) ∧ 0 < ERANGE ∧
      irq_off h' = true ∧ lockcount h' = lockcount h + 1 ∧ regs h' = regs h
  end.
Proof.
  intros Hi Hp Hc. destruct (g_servo_timers !! Z.to_nat (id info)) as [t|] eqn:Ht; [by apply servo_setpos_ok|].
  apply lookup_ge_None in Ht. cbn in Ht.
  destruct (servo_setpos_leaks_locks clk info h) as (h' & H1 & H2 & H3 & H4 & H5); [unfold SERVO_MAX_COUNT; lia|].
  by exists h'.
Qed.

Lemma servo_setpos_pulse_witness :
  (∃ h', servo_setpos 80000000 (mkServoInfo 2 0 0 90) (mkHW ∅ false 0 []) = Ok (h', OK) ∧
    high_ticks 0x40031000 h' = 115520) ∧
  ∃ h', servo_setpos 80000000 (mkServoInfo 4 0 0 90) (mkHW ∅ false 0 []) = Ok (h', ERANGE).
Proof.
  split.
  - destruct (servo_setpos_pulse 80000000 (mkServoInfo 2 0 0 90) (mkHW ∅ false 0 []))
      as (h' & H1 & _ & H2 & _).
    + done.
    + done.
    + done.
    + exists h'. split; [exact H1|]. rewrite H2. reflexivity.
  - destruct (servo_setpos_pulse 80000000 (mkServoInfo 4 0 0 90) (mkHW ∅ false 0 [])) as (h' & H1 & _).
    + done.
    + done.
    + done.
    + exists h'. exact H1.
Defined.

(** The top of the range is not reached: the 180 degree position gives
    2344 microseconds and not the 2400 of [SERVO_MAX_PULSE], because the
    width of one degree is divided out in integers; positions from 186
    upwards give 2400. *)
Theorem servo_full_deflection :
  pulse_width 180 = 2344 ∧ ∀ p, 0 <= p < 65536 → (pulse_width p = SERVO_MAX_PULSE ↔ 186 <= p).
Proof.
  split; [done|]. intros p Hp. rewrite pulse_width_spec by done.
  unfold SERVO_MIN_PULSE, SERVO_MAX_PULSE. lia.
Qed.

(** The device after any sequence of opens, closes and other uses since
    its registration with all timers stopped: the open count is the number
    of open descriptors and fits a byte, the exclusion semaphore is free, and
    when no descriptor is open none of the four timers runs. *)
Theorem servo_last_close_stops clk reg g u s :
  servo_quiet g → servo_register true reg g = (Some u, reg) →
  rtc (up_step (op_setup (g_servoops clk)) (op_shutdown (g_servoops clk))) (u, 0) s →
  crefs (s.1) = s.2 ∧ 0 <= s.2 <= 255 ∧ exclsem (s.1) = 1 ∧ (s.2 = 0 → servo_quiet (dev (s.1))).
Proof.
  intros Hq Hu Hr. exact (up_reachable_inv _ _ servo_quiet reg _ g u s Hq Hu Hr).
Qed.

Lemma servo_last_close_stops_witness :
  let g := mkHW ∅ false 0 [] in
  let u := mkUpper 0 1 (mkServoInfo 0 0 0 0) g in
  ∃ u1 u2, servo_open (g_servoops 80000000) None u = Ok (u1, OK) ∧
    servo_close (g_servoops 80000000) None u1 = Ok (u2, OK) ∧
    crefs u2 = 0 ∧ servo_quiet (dev u2).
Proof.
  intros g u.
  assert (∃ u1 u2, servo_open (g_servoops 80000000) None u = Ok (u1, OK) ∧
    servo_close (g_servoops 80000000) None u1 = Ok (u2, OK)) as (u1 & u2 & H1 & H2).
  { eexists _, _. split; [vm_compute; reflexivity|]. vm_compute. reflexivity. }
  exists u1, u2. split; [exact H1|]. split; [exact H2|].
  destruct (servo_last_close_stops 80000000 0 g u (u2, 0)) as (H3 & _ & _ & H4).
  - repeat constructor.
  - done.
  - exact (up_open_close _ _ u u1 u2 H1 H2).
  - split; [exact H3|]. by apply H4.
Defined.

(** What an ioctl on a free device does: the requested information is
    stored, the lower half is called, the semaphore is given back. *)
Lemma servo_ioctl_setpos clk i u h ret :
  exclsem u = 1 → servo_setpos clk i (dev u) = Ok (h, ret) →
  servo_ioctl (g_servoops clk) None SERVOIOC_SETPOS (Some i) u =
    Ok (set_dev h (set_info i u), Some i, ret).
Proof.
  intros He Hs. unfold servo_ioctl, sem_wait. rewrite He. cbn -[servo_setpos]. rewrite Hs. cbn.
  destruct u as [c e j d]. cbn in *. by subst.
Qed.

(** [servo_ioctl] on a free device: a position request followed by a
    query gives the requested record back; a pin request only answers
    -ENODEV; an unknown command calls the ioctl function the lower half
    does not have. *)
Theorem servo_ioctl_commands clk i j u h ret :
  exclsem u = 1 → servo_setpos clk i (dev u) = Ok (h, ret) →
  servo_ioctl (g_servoops clk) None SERVOIOC_SETPOS (Some i) u = Ok (set_dev h (set_info i u), Some i, ret) ∧
  servo_ioctl (g_servoops clk) None SERVOIOC_GETPINCONFIG (Some j) (set_dev h (set_info i u))
    = Ok (set_dev h (set_info i u), Some i, OK) ∧
  servo_ioctl (g_servoops clk) None SERVOIOC_SETPINCONFIG (Some j) u = Ok (set_info j u, Some j, - ENODEV) ∧
  (∀ cmd arg, cmd ∉ [SERVOIOC_SETPINCONFIG; SERVOIOC_GETPINCONFIG; SERVOIOC_SETPOS] →
     servo_ioctl (g_servoops clk) None cmd arg u = Fault NullCall).
Proof.
  intros He Hs. split; [by apply servo_ioctl_setpos|].
  destruct u as [c e k d]. cbn in He. subst e. split; [done|]. split; [done|].
  intros cmd arg Hc. unfold servo_ioctl, sem_wait. cbn -[SERVOIOC_SETPINCONFIG SERVOIOC_GETPINCONFIG SERVOIOC_SETPOS].
  rewrite !(proj2 (Z.eqb_neq _ _)); [done|set_solver..].
Qed.

End Servo.
