(* ===== verification/NuttxAdc.v ===== *)
(** * The analog converter driver of the LM4F120 board

    Models drivers/analog/adc_lm4f.c (upper half, "/dev/adclm4f0") and
    configs/lm4f120-launchpad/src/up_adc.c (lower half).  The converter is
    the parameter [conv]: [conv n] is the value of the [n]-th conversion, or
    [None] when the conversion never completes (the driver then polls
    forever).  Calls into the system-control, GPIO and ADC libraries are
    logged. *)
From S2P Require Import Prelude FunkKernel NuttxUpper.

Module Adc.
Import Hw Upper.

Definition CHANNEL_MAX_COUNT : Z := 12.
Definition ADC0_BASE : Z := 0x40038000.
Definition SYSCTL_PERIPH_ADC0 : Z := 0x00100001.
Definition SYSCTL_PERIPH_GPIOB : Z := 0x20000002.
Definition SYSCTL_PERIPH_GPIOD : Z := 0x20000008.
Definition SYSCTL_PERIPH_GPIOE : Z := 0x20000010.
Definition GPIO_PORTB_BASE : Z := 0x40005000.
Definition GPIO_PORTD_BASE : Z := 0x40007000.
Definition GPIO_PORTE_BASE : Z := 0x40024000.
Definition ADC_TRIGGER_PROCESSOR : Z := 0.
Definition ADC_CTL_IE : Z := 0x40.
Definition ADC_CTL_END : Z := 0x20.
Definition ADCIOC_SETCONF : Z := Z.lor 0x1500 1.

Record adclm4f_info_s : Type := mkAdcInfo {
  channel : Z;
  nsamples : Z;
  freq : Z
}.

(** The lower half: its configuration [g_adclm4info], the hardware, and the
    number of conversions done so far. *)
Record ADC : Type := mkAdc {
  g_adclm4info : adclm4f_info_s;
  hw : HW;
  conversions : nat
}.

Definition set_g_adclm4info (v : adclm4f_info_s) (a : ADC) : ADC := mkAdc v (hw a) (conversions a).
Definition set_hw (v : HW) (a : ADC) : ADC := mkAdc (g_adclm4info a) v (conversions a).
Definition set_conversions (v : nat) (a : ADC) : ADC := mkAdc (g_adclm4info a) (hw a) v.

Definition g_adcchannels : list Z := [0; 1; 2; 3; 4; 5; 6; 7; 8; 9; 10; 11].

(** ** Lower half *)

Definition adclm4f_setup (a : ADC) : res (ADC * Z) :=
  let a := set_g_adclm4info (mkAdcInfo 0 1 1000) a in
  let a := set_hw (log "SysCtlPeripheralEnable" [SYSCTL_PERIPH_ADC0] (hw a)) a in
  Ok (a, OK).

Definition adclm4f_shutdown (a : ADC) : res (ADC * Z) :=
  Ok (set_hw (log "SysCtlPeripheralDisable" [SYSCTL_PERIPH_ADC0] (hw a)) a, OK).

(** The switch of [adclm4f_configure]: peripheral, port and pin of a
    channel. *)
Definition channel_pin (ch : Z) : option (Z * Z * Z) :=
  match ch with
  | 0 => Some (SYSCTL_PERIPH_GPIOE, GPIO_PORTE_BASE, 0x08)
  | 1 => Some (SYSCTL_PERIPH_GPIOE, GPIO_PORTE_BASE, 0x04)
  | 2 => Some (SYSCTL_PERIPH_GPIOE, GPIO_PORTE_BASE, 0x02)
  | 3 => Some (SYSCTL_PERIPH_GPIOE, GPIO_PORTE_BASE, 0x01)
  | 4 => Some (SYSCTL_PERIPH_GPIOD, GPIO_PORTD_BASE, 0x08)
  | 5 => Some (SYSCTL_PERIPH_GPIOD, GPIO_PORTD_BASE, 0x04)
  | 6 => Some (SYSCTL_PERIPH_GPIOD, GPIO_PORTD_BASE, 0x02)
  | 7 => Some (SYSCTL_PERIPH_GPIOD, GPIO_PORTD_BASE, 0x01)
  | 8 => Some (SYSCTL_PERIPH_GPIOE, GPIO_PORTE_BASE, 0x20)
  | 9 => Some (SYSCTL_PERIPH_GPIOE, GPIO_PORTE_BASE, 0x10)
  | 10 => Some (SYSCTL_PERIPH_GPIOB, GPIO_PORTB_BASE, 0x10)
  | 11 => Some (SYSCTL_PERIPH_GPIOB, GPIO_PORTB_BASE, 0x20)
  | _ => None
  end.

Definition adclm4f_configure (info : adclm4f_info_s) (a : ADC) : res (ADC * Z) :=
  if CHANNEL_MAX_COUNT <=? channel info then Ok (a, ERANGE)
  else
    let a := set_g_adclm4info info a in
    let h := hw a in
    let h := match channel_pin (channel info) with
             | Some (per, port, pin) =>
                 log "GPIOPinTypeADC" [port; pin] (log "SysCtlPeripheralEnable" [per] h)
             | None => h
             end in
    c ← aget g_adcchannels (channel info);
    let h := log "ADCSequenceConfigure" [ADC0_BASE; 3; ADC_TRIGGER_PROCESSOR; 0] h in
    let h := log "ADCSequenceStepConfigure" [ADC0_BASE; 3; 0; Z.lor (Z.lor c ADC_CTL_IE) ADC_CTL_END] h in
    let h := log "ADCSequenceEnable" [ADC0_BASE; 3] h in
    let h := log "ADCIntClear" [ADC0_BASE; 3] h in
    Ok (set_hw h a, OK).

Section converter.
Context (conv : nat → option Z) (clk : Z).

(** [*ptr = v] for a [uint16_t] pointer at byte [o] of the buffer. *)
Definition store16 (o v : Z) (buf : list Z) : res (list Z) :=
  buf ← aset buf o (u16 v `mod` 256);
  aset buf (o + 1) (u16 v `div` 256).

(** One turn of the sampling loop: trigger, poll, clear, fetch, store and
    delay. *)
Definition sample (delay i : Z) (a : ADC) (buf : list Z) : res (ADC * list Z) :=
  let h := log "ADCProcessorTrigger" [ADC0_BASE; 3] (hw a) in
  match conv (conversions a) with
  | None => Fault Blocked
  | Some v =>
      let h := log "ADCIntClear" [ADC0_BASE; 3] h in
      let h := log "ADCSequenceDataGet" [ADC0_BASE; 3] h in
      buf ← store16 (2 * i) v buf;
      let h := log "SysCtlDelay" [delay] h in
      Ok (mkAdc (g_adclm4info a) h (S (conversions a)), buf)
  end.

Fixpoint read_loop (fuel : nat) (delay buflen i : Z) (a : ADC) (buf : list Z) : res (ADC * list Z * Z) :=
  if (i <? nsamples (g_adclm4info a)) && (u32 (i * 2) <? buflen) then
    match fuel with
    | O => Fault OutOfFuel
    | S fuel =>
        '(a, buf) ← sample delay i a buf;
        read_loop fuel delay buflen (i + 1) a buf
    end
  else Ok (a, buf, i).

Definition adclm4f_read (fuel : nat) (buf : list Z) (buflen : Z) (a : ADC) : res (ADC * list Z * Z) :=
  if freq (g_adclm4info a) =? 0 then Fault DivByZero
  else
    let delay := (clk `div` freq (g_adclm4info a)) `div` 3 in
    let a := set_hw (sched_lock (hw a)) a in
    let '(h, flags) := irqsave (hw a) in
    '(a, buf, i) ← read_loop fuel delay buflen 0 (set_hw h a) buf;
    let a := set_hw (irqrestore flags (hw a)) a in
    let a := set_hw (sched_unlock (hw a)) a in
    Ok (a, buf, i).

End converter.

(** ** Upper half *)

Abbreviation adclm4f_upperhalf_s := (UPPER adclm4f_info_s ADC).

Record adclm4f_ops_s : Type := mkAdcOps {
  op_setup : ADC → res (ADC * Z);
  op_shutdown : ADC → res (ADC * Z);
  op_configure : adclm4f_info_s → ADC → res (ADC * Z);
  op_read : nat → list Z → Z → ADC → res (ADC * list Z * Z);
  op_ioctl : option (Z → ADC → res (ADC * Z))
}.

Definition g_adclm4fops (conv : nat → option Z) (clk : Z) : adclm4f_ops_s := {|
  op_setup := adclm4f_setup;
  op_shutdown := adclm4f_shutdown;
  op_configure := adclm4f_configure;
  op_read := adclm4f_read conv clk;
  op_ioctl := None
|}.

Definition adclm4f_open (ops : adclm4f_ops_s) : option Z → adclm4f_upperhalf_s → res (adclm4f_upperhalf_s * Z) :=
  upper_open (op_setup ops).

Definition adclm4f_close (ops : adclm4f_ops_s) : option Z → adclm4f_upperhalf_s → res (adclm4f_upperhalf_s * Z) :=
  upper_close (op_shutdown ops).

Definition upper_read (ops : adclm4f_ops_s) (fuel : nat) (buffer : list Z) (buflen : Z)
    (u : adclm4f_upperhalf_s) : res (adclm4f_upperhalf_s * list Z * Z) :=
  '(a, buffer, ret) ← op_read ops fuel buffer buflen (dev u);
  Ok (set_dev a u, buffer, ret).

Definition adclm4f_write (buflen : Z) (u : adclm4f_upperhalf_s) : adclm4f_upperhalf_s * Z := (u, - ENOSYS).

Definition adclm4f_ioctl (ops : adclm4f_ops_s) (intr : option Z) (cmd : Z) (arg : option adclm4f_info_s)
    (u : adclm4f_upperhalf_s) : res (adclm4f_upperhalf_s * Z) :=
  w ← sem_wait intr u;
  match w with
  | inr _ => Ok (u, -1)
  | inl u =>
      '(u, ret) ←
        (if cmd =? ADCIOC_SETCONF then
           match arg with
           | None => Fault NullDeref
           | Some i =>
               let u := set_info i u in
               '(a, ret) ← op_configure ops (info u) (dev u);
               Ok (set_dev a u, ret)
           end
         else
           match op_ioctl ops with
           | None => Fault NullCall
           | Some f => '(a, ret) ← f cmd (dev u); Ok (set_dev a u, ret)
           end);
      Ok (sem_post u, ret)
  end.

Definition adclm4f_register (mem : bool) (reg : Z) (dev : ADC) : option adclm4f_upperhalf_s * Z :=
  upper_register mem reg (mkAdcInfo 0 0 0) dev.

Definition lm4f_adclm4finitialize (g : ADC) : option ADC := Some g.

Definition adclm4f_devinit (mem : bool) (reg : Z) (g : ADC) (adclm4f_initialized : bool)
    : option adclm4f_upperhalf_s * bool * Z :=
  if negb adclm4f_initialized then
    match lm4f_adclm4finitialize g with
    | None => (None, false, - ENODEV)
    | Some adclm4f =>
        let '(u, ret) := adclm4f_register mem reg adclm4f in
        if ret <? 0 then (None, false, ret) else (u, true, OK)
    end
  else (None, true, OK).

(** ** Lemmas *)

(** The bytes of a list of 16-bit samples, low byte first. *)
Definition encode (l : list Z) : list Z := l ≫= λ v, [u16 v `mod` 256; u16 v `div` 256].

Lemma length_encode l : length (encode l) = (2 * length l)%nat.
Proof. unfold encode. induction l as [|v l IH]; [done|]. cbn in *. lia. Qed.

Lemma store16_spec (pre post : list Z) i x y v :
  length pre = (2 * i)%nat →
  store16 (2 * Z.of_nat i) v (pre ++ x :: y :: post) = Ok (pre ++ encode [v] ++ post).
Proof.
  intros Hl. unfold store16.
  replace (2 * Z.of_nat i) with (Z.of_nat (length pre)) by lia.
  rewrite aset_some by (rewrite length_app; cbn; lia). rewrite bind_ok.
  replace (Z.of_nat (length pre) + 1) with (Z.of_nat (length pre + 1)) by lia.
  rewrite aset_some by (rewrite length_insert, length_app; cbn; lia).
  rewrite (insert_app_r_alt _ _ (length pre)), Nat.sub_diag by lia. cbn [insert list_insert].
  rewrite (insert_app_r_alt _ _ (length pre + 1)) by lia.
  replace (length pre + 1 - length pre)%nat with 1%nat by lia. done.
Qed.

Lemma store16_past_end buf i v :
  length buf = S (2 * i) → store16 (2 * Z.of_nat i) v buf = Fault OutOfBounds.
Proof.
  intros Hl. unfold store16. replace (2 * Z.of_nat i) with (Z.of_nat (2 * i)) by lia.
  rewrite aset_some by lia. rewrite bind_ok. unfold aset. rewrite decide_False; [done|].
  rewrite length_insert. lia.
Qed.

Section reading.
Context (conv : nat → option Z) (val : nat → Z) (Hconv : ∀ k, conv k = Some (val k)).

(** The hardware state apart from the log. *)
Definition same_locks (h h' : HW) : Prop :=
  irq_off h' = irq_off h ∧ lockcount h' = lockcount h ∧ regs h' = regs h.

Definition guard (a : ADC) (buflen k : Z) : bool :=
  (k <? nsamples (g_adclm4info a)) && (u32 (k * 2) <? buflen).

(** [n] turns of the loop whose guards hold. *)
Lemma adc_loop_steps fuel delay buflen i n a pre rest :
  length pre = (2 * i)%nat → (2 * n <= length rest)%nat →
  (∀ k, (i <= k < i + n)%nat → guard a buflen (Z.of_nat k) = true) →
  ∃ h', same_locks (hw a) h' ∧
    read_loop conv (n + fuel) delay buflen (Z.of_nat i) a (pre ++ rest) =
    read_loop conv fuel delay buflen (Z.of_nat (i + n)) (mkAdc (g_adclm4info a) h' (conversions a + n))
      (pre ++ encode (val <$> seq (conversions a) n) ++ drop (2 * n) rest).
Proof using Hconv.
  revert i a pre rest. induction n as [|n IH]; intros i a pre rest Hl Hr Hg.
  - exists (hw a). split; [done|]. rewrite !Nat.add_0_r. by destruct a.
  - destruct rest as [|x [|y rest]]; [cbn in Hr; lia..|].
    cbn [read_loop Nat.add]. fold (guard a buflen (Z.of_nat i)). rewrite Hg by lia.
    unfold sample. rewrite Hconv, store16_spec by done. rewrite !bind_ok.
    match goal with |- context [read_loop _ _ _ _ _ ?b _] => set (a' := b) end.
    destruct (IH (S i) a' (pre ++ encode [val (conversions a)]) rest) as (h' & Hh & Hrun).
    + rewrite length_app, Hl. cbn. lia.
    + cbn in Hr. lia.
    + intros k Hk. apply Hg. lia.
    + exists h'. split; [done|].
      replace (Z.of_nat i + 1) with (Z.of_nat (S i)) by lia.
      rewrite <- app_assoc in Hrun. rewrite Hrun. cbn -[encode u16 Nat.mul drop].
      rewrite !Nat.add_succ_r. replace (2 * S n)%nat with (S (S (2 * n))) by lia.
      rewrite <- app_assoc. done.
Qed.

Lemma read_loop_spec fuel delay buflen n a buf :
  (2 * n <= length buf)%nat → (n <= fuel)%nat →
  (∀ k, (k < n)%nat → guard a buflen (Z.of_nat k) = true) →
  guard a buflen (Z.of_nat n) = false →
  ∃ h', same_locks (hw a) h' ∧
    read_loop conv fuel delay buflen 0 a buf =
      Ok (mkAdc (g_adclm4info a) h' (conversions a + n),
          encode (val <$> seq (conversions a) n) ++ drop (2 * n) buf, Z.of_nat n).
Proof using Hconv.
  intros Hb Hf Hg Hs. replace fuel with (n + (fuel - n))%nat by lia.
  destruct (adc_loop_steps (fuel - n) delay buflen 0 n a [] buf) as (h' & Hh & Hrun); [done|lia| |].
  { intros k Hk. apply Hg. lia. }
  exists h'. split; [done|]. change (Z.of_nat 0) with 0 in Hrun. cbn [app Nat.add] in Hrun. rewrite Hrun.
  unfold guard in Hs. destruct (fuel - n)%nat; cbn [read_loop g_adclm4info]; by rewrite Hs.
Qed.

End reading.

(** ** Theorems *)

Lemma adclm4f_read_ok conv val clk a buf len :
  (∀ k, conv k = Some (val k)) → freq (g_adclm4info a) ≠ 0 → 0 <= nsamples (g_adclm4info a) →
  length buf = (2 * len)%nat → 2 * Z.of_nat len < 4294967296 →
  let n := Nat.min (Z.to_nat (nsamples (g_adclm4info a))) len in
  ∃ a', adclm4f_read conv clk len buf (2 * Z.of_nat len) a =
      Ok (a', encode (val <$> seq (conversions a) n) ++ drop (2 * n) buf, Z.of_nat n) ∧
    same_locks (hw a) (hw a') ∧ conversions a' = (conversions a + n)%nat ∧ g_adclm4info a' = g_adclm4info a.
Proof.
  intros Hconv Hf Hns Hl Hb n. unfold adclm4f_read. rewrite (proj2 (Z.eqb_neq _ _) Hf).
  cbn [irqsave set_hw hw].
  match goal with |- context [read_loop _ _ _ _ _ ?b _] => set (a0 := b) end.
  edestruct (read_loop_spec conv val Hconv len ((clk `div` freq (g_adclm4info a)) `div` 3)
    (2 * Z.of_nat len) n a0 buf) as (h' & (H1 & H2 & H3) & Hrun).
  - lia.
  - lia.
  - intros k Hk. unfold guard. change (g_adclm4info a0) with (g_adclm4info a). rewrite u32_small by lia.
    rewrite andb_true_iff, !Z.ltb_lt. lia.
  - unfold guard. change (g_adclm4info a0) with (g_adclm4info a). rewrite u32_small by lia.
    rewrite andb_false_iff, !Z.ltb_ge. lia.
  - fold a0. rewrite Hrun, bind_ok. eexists. split; [reflexivity|]. split; [|done].
    unfold same_locks. cbn in *. split; [done|]. split; [lia|done].
Qed.

(** Reading with a converter that answers, a non-zero sampling frequency
    and a buffer of [buflen] bytes, [buflen] even: the call returns the
    smaller of the configured sample count and buflen/2, the first bytes of
    the buffer hold that many consecutive conversions low byte first, the
    rest of the buffer is unchanged, and the interrupt and scheduler locks are
    restored.  A bound of buflen/2 turns is always enough. *)
Theorem adclm4f_read_samples conv val clk a buf len :
  (∀ k, conv k = Some (val k)) → freq (g_adclm4info a) ≠ 0 → 0 <= nsamples (g_adclm4info a) →
  length buf = (2 * len)%nat → 2 * Z.of_nat len < 4294967296 →
  let n := Nat.min (Z.to_nat (nsamples (g_adclm4info a))) len in
  ∃ a', adclm4f_read conv clk len buf (2 * Z.of_nat len) a =
      Ok (a', encode (val <$> seq (conversions a) n) ++ drop (2 * n) buf, Z.of_nat n) ∧
    same_locks (hw a) (hw a') ∧ conversions a' = (conversions a + n)%nat ∧ g_adclm4info a' = g_adclm4info a.
Proof. apply adclm4f_read_ok. Qed.

Lemma adclm4f_read_samples_witness :
  let a := mkAdc (mkAdcInfo 0 2 1000) (mkHW ∅ false 0 []) 0 in
  ∃ a', adclm4f_read (λ k, Some (258 + Z.of_nat k)) 80000000 3 [0; 0; 0; 0; 0; 9] 6 a =
    Ok (a', [2; 1; 3; 1; 0; 9], 2).
Proof.
  intros a. destruct (adclm4f_read_samples (λ k, Some (258 + Z.of_nat k)) (λ k, 258 + Z.of_nat k) 80000000 a
    [0; 0; 0; 0; 0; 9] 3) as (a' & H & _).
  - done.
  - done.
  - done.
  - done.
  - done.
  - exists a'. exact H.
Defined.

(** With an odd buffer length and more samples configured than fit, the
    last 16-bit store of the loop writes one byte past the end of the
    buffer. *)
Theorem adclm4f_read_odd_overflow conv val clk a buf len :
  (∀ k, conv k = Some (val k)) → freq (g_adclm4info a) ≠ 0 →
  length buf = S (2 * len) → Z.of_nat len < nsamples (g_adclm4info a) → 2 * Z.of_nat len + 1 < 4294967296 →
  adclm4f_read conv clk (S len) buf (2 * Z.of_nat len + 1) a = Fault OutOfBounds.
Proof.
  intros Hconv Hf Hl Hns Hb. unfold adclm4f_read. rewrite (proj2 (Z.eqb_neq _ _) Hf).
  cbn [irqsave set_hw hw].
  match goal with |- context [read_loop _ _ _ _ _ ?b _] => set (a0 := b) end.
  assert (∀ k, (k <= len)%nat → guard a0 (2 * Z.of_nat len + 1) (Z.of_nat k) = true) as Hg.
  { intros k Hk. unfold guard. change (g_adclm4info a0) with (g_adclm4info a). rewrite u32_small by lia.
    rewrite andb_true_iff, !Z.ltb_lt. lia. }
  edestruct (adc_loop_steps conv val Hconv 1 ((clk `div` freq (g_adclm4info a)) `div` 3)
    (2 * Z.of_nat len + 1) 0 len a0 [] buf) as (h' & _ & Hrun); [done|lia|intros; apply Hg; lia|].
  replace (S len) with (len + 1)%nat by lia. change (Z.of_nat 0) with 0 in Hrun. cbn [app] in Hrun.
  fold a0. rewrite Hrun. cbn [read_loop Nat.add]. specialize (Hg len ltac:(lia)). unfold guard in Hg.
  change (g_adclm4info (mkAdc (g_adclm4info a0) h' (conversions a0 + len))) with (g_adclm4info a0). rewrite Hg.
  unfold sample. rewrite Hconv. rewrite store16_past_end; [done|].
  rewrite length_app, length_encode, length_fmap, length_seq, length_drop. lia.
Qed.

(** Configuring a channel that exists and reading with a zero frequency
    divides by zero; a channel that does not exist is refused and nothing
    changes, though with a positive error number. *)
Theorem adclm4f_configure_cases conv clk info a :
  (CHANNEL_MAX_COUNT <= channel info → adclm4f_configure info a = Ok (a, ERANGE)) ∧
  (0 <= channel info < CHANNEL_MAX_COUNT →
     ∃ a', adclm4f_configure info a = Ok (a', OK) ∧ g_adclm4info a' = info ∧
       same_locks (hw a) (hw a') ∧ conversions a' = conversions a ∧
       (freq info = 0 → ∀ fuel buf len, adclm4f_read conv clk fuel buf len a' = Fault DivByZero)).
Proof.
  unfold adclm4f_configure. split; intros H.
  - by rewrite (proj2 (Z.leb_le _ _) H).
  - rewrite (proj2 (Z.leb_gt _ _)) by lia.
    destruct (lookup_lt_is_Some_2 g_adcchannels (Z.to_nat (channel info))) as [c Hc].
    { unfold CHANNEL_MAX_COUNT in H. cbn. lia. }
    assert (aget g_adcchannels (channel info) = Ok c) as ->.
    { rewrite <- (Z2Nat.id (channel info)) by lia. by apply aget_some. }
    eexists. split; [reflexivity|]. split; [done|]. split.
    + by destruct (channel_pin (channel info)) as [[[? ?] ?]|].
    + split; [done|]. intros Hf fuel buf len. unfold adclm4f_read. cbn -[read_loop]. by rewrite Hf.
Qed.

(** Different channels use different pins. *)
Lemma channel_pin_inj c1 c2 p :
  channel_pin c1 = Some p → channel_pin c2 = Some p → c1 = c2.
Proof.
  unfold channel_pin. intros H1 H2. repeat case_match; simplify_eq; done.
Qed.

(** The converter is off: the last request for its clock, if any, was to
    disable it. *)
Definition adc_powered (h : HW) : bool :=
  foldl (λ b (c : call),
    if bool_decide (c = ("SysCtlPeripheralEnable", [SYSCTL_PERIPH_ADC0])) then true
    else if bool_decide (c = ("SysCtlPeripheralDisable", [SYSCTL_PERIPH_ADC0])) then false else b)
    false (calls h).

Definition adc_quiet (a : ADC) : Prop := adc_powered (hw a) = false.

#[export] Instance adc_quiet_lower conv clk :
  QuietLower (op_setup (g_adclm4fops conv clk)) (op_shutdown (g_adclm4fops conv clk)) adc_quiet.
Proof.
  split.
  - intros l l' r [= <- <-] Hr _. unfold OK in Hr. lia.
  - intros l l' r [= <- <-]. unfold adc_quiet, adc_powered. cbn. by rewrite foldl_app.
Qed.

(** From its registration with the converter off, after any sequence of
    opens, closes and uses, the open count is the number of open
    descriptors, the semaphore is free, and with no descriptor open the
    converter is powered down. *)
Theorem adc_last_close_powers_down conv clk reg g u s :
  adc_quiet g → adclm4f_register true reg g = (Some u, reg) →
  rtc (up_step (op_setup (g_adclm4fops conv clk)) (op_shutdown (g_adclm4fops conv clk))) (u, 0) s →
  crefs (s.1) = s.2 ∧ 0 <= s.2 <= 255 ∧ exclsem (s.1) = 1 ∧ (s.2 = 0 → adc_quiet (dev (s.1))).
Proof.
  intros Hq Hu Hr. exact (up_reachable_inv _ _ adc_quiet reg _ g u s Hq Hu Hr).
Qed.

End Adc.
