(* ===== verification/NuttxString.v ===== *)
(** * The C strings of the NuttX library

    Models the string functions of nuttx/libc/string that the range driver
    and the myCub application call.  A character buffer is a list of byte
    values; a string begins at an offset and ends at the first zero byte, and
    reading or writing past the end of the buffer is a fault.  A function that
    only reads takes the part of the buffer from the pointer on and answers
    with offsets from there. *)
From Stdlib Require Import Ascii.
From stdpp Require Import pretty.
From S2P Require Import Prelude FunkKernel.

Module Str.

(** The characters of a literal, and the literal with its terminator. *)
Definition bytes (str : string) : list Z :=
  (λ a, Z.of_N (N_of_ascii a)) <$> String.list_ascii_of_string str.
Definition cstr (str : string) : list Z := bytes str ++ [0].

(** ** Length, search, comparison, copy *)

Fixpoint strlen (b : list Z) : res Z :=
  match b with
  | [] => Fault OutOfBounds
  | c :: b => if c =? 0 then Ok 0 else n ← strlen b; Ok (n + 1)
  end.

Fixpoint strchr (b : list Z) (c : Z) : res (option Z) :=
  match b with
  | [] => Fault OutOfBounds
  | x :: b =>
      if x =? c then Ok (Some 0)
      else if x =? 0 then Ok None
      else r ← strchr b c; Ok (option_map Z.succ r)
  end.

(** The character at the pointer. *)
Definition deref (b : list Z) : res Z := aget b 0.

(** The result is a [signed char]. *)
Definition s8 (z : Z) : Z := (z + 128) `mod` 256 - 128.
Fixpoint strcmp (cs ct : list Z) : res Z :=
  match cs with
  | [] => Fault OutOfBounds
  | x :: cs' =>
      y ← deref ct;
      let result := s8 (x - y) in
      if negb (result =? 0) || (x =? 0) then Ok result else strcmp cs' (tail ct)
  end.

Fixpoint strncmp (cs ct : list Z) (nb : nat) : res Z :=
  match nb with
  | O => Ok 0
  | S nb =>
      x ← deref cs; y ← deref ct;
      let result := x - y in
      if negb (result =? 0) || (x =? 0) then Ok result else strncmp (tail cs) (tail ct) nb
  end.

(** The search loop of [strstr]; [off] is the offset of the candidate. *)
Fixpoint strstr_loop (fuel : nat) (b substr : list Z) (ch len off : Z) : res (option Z) :=
  match fuel with
  | O => Fault OutOfFuel
  | S fuel =>
      r ← strchr b ch;
      match r with
      | None => Ok None
      | Some k =>
          let candidate := drop (Z.to_nat k) b in
          n ← strlen candidate;
          if n <? len then Ok None
          else
            d ← strncmp candidate substr (Z.to_nat len);
            if d =? 0 then Ok (Some (off + k))
            else strstr_loop fuel (drop 1 candidate) substr ch len (off + k + 1)
      end
  end.

Definition strstr (fuel : nat) (str substr : list Z) : res (option Z) :=
  len ← strlen substr;
  ch ← deref substr;
  if ch =? 0 then Ok (Some 0) else strstr_loop fuel str substr ch len 0.

(** Storing a block of characters at offset [o]. *)
Definition store (b : list Z) (o : Z) (data : list Z) : res (list Z) :=
  forM (imap (λ k c, (o + Z.of_nat k, c)) data) (λ kc b, aset b (kc.1) (kc.2)) b.

(** [strcpy(b + o, src)] and [strncpy(b + o, src, n)] with a source string of
    the characters [src]: the copy ends behind the terminator, or after [n]
    characters.  The rest is not cleared, and [n] is looked at only after the
    first character. *)
Definition strcpy (b : list Z) (o : Z) (src : list Z) : res (list Z) := store b o (src ++ [0]).
Definition strncpy (b : list Z) (o : Z) (src : list Z) (n : Z) : res (list Z) :=
  store b o (if n =? 0 then src ++ [0] else take (Z.to_nat n) (src ++ [0])).

(** ** Tokens *)

Definition in_set (delim : list Z) (c : Z) : bool :=
  match strchr delim c with Ok (Some _) => true | _ => false end.

(** The loops of [strtok_r]: the distance to the end of the string or to the
    first character that [stop] accepts. *)
Fixpoint skip (stop : Z → bool) (b : list Z) : res Z :=
  match b with
  | [] => Fault OutOfBounds
  | c :: b => if (c =? 0) || stop c then Ok 0 else n ← skip stop b; Ok (n + 1)
  end.

(** The buffer, [*saveptr] and the token; pointers are offsets into the
    buffer, [None] is NULL. *)
Definition strtok_r (str : option Z) (delim : list Z) (saveptr : option Z) (b : list Z)
    : res (list Z * option Z * option Z) :=
  match (match str with Some p => Some p | None => saveptr end) with
  | None => Ok (b, saveptr, None)
  | Some pbegin =>
      n ← skip (λ c, negb (in_set delim c)) (drop (Z.to_nat pbegin) b);
      let pbegin := pbegin + n in
      c ← aget b pbegin;
      if c =? 0 then Ok (b, saveptr, None)
      else
        n ← skip (in_set delim) (drop (Z.to_nat (pbegin + 1)) b);
        let pend := pbegin + 1 + n in
        c ← aget b pend;
        if c =? 0 then Ok (b, Some pend, Some pbegin)
        else b ← aset b pend 0; Ok (b, Some (pend + 1), Some pbegin)
  end.

(** [strtok] keeps the pointer in [g_saveptr]. *)
Definition strtok (str : option Z) (delim : list Z) (g_saveptr : option Z) (b : list Z) :=
  strtok_r str delim g_saveptr b.

(** ** Numbers *)

Definition isspace (c : Z) : bool :=
  (c =? 32) || (c =? 9) || (c =? 10) || (c =? 13) || (c =? 12) || (c =? 11).

Fixpoint lib_skipspace (b : list Z) : list Z :=
  match b with
  | [] => []
  | c :: b' => if isspace c then lib_skipspace b' else b
  end.

Definition lib_isbasedigit (ch base : Z) : option Z :=
  if base <=? 10 then
    if (48 <=? ch) && (ch <=? base + 48 - 1) then Some (ch - 48) else None
  else if base <=? 36 then
    if (48 <=? ch) && (ch <=? 57) then Some (ch - 48)
    else if (97 <=? ch) && (ch <=? 97 + base - 11) then Some (ch - 97 + 10)
    else if (65 <=? ch) && (ch <=? 65 + base - 11) then Some (ch - 65 + 10)
    else None
  else None.

Definition is_x (c : Z) : bool := (c =? 88) || (c =? 120).

(** The base and the string behind the prefix. *)
Definition lib_checkbase (base : Z) (b : list Z) : res (Z * list Z) :=
  if base =? 0 then
    c ← deref b;
    if c =? 48 then
      let b := tail b in
      c ← deref b;
      if is_x c then
        d ← aget b 1;
        match lib_isbasedigit d 16 with Some _ => Ok (16, tail b) | None => Ok (8, b) end
      else Ok (8, b)
    else Ok (10, b)
  else if base =? 16 then
    c ← deref b;
    if c =? 48 then
      d ← aget b 1;
      Ok (base, if is_x d then drop 2 b else b)
    else Ok (base, b)
  else Ok (base, b).

(** The loop over the digits, with the string it ends at. *)
Fixpoint digits (base accum : Z) (b : list Z) : res (Z * list Z) :=
  match b with
  | [] => Fault OutOfBounds
  | c :: b' =>
      match lib_isbasedigit c base with
      | Some value => digits base (u32 (accum * base + value)) b'
      | None => Ok (accum, b)
      end
  end.

(** The value and what [*endptr] points to. *)
Definition strtoul (b : list Z) (base : Z) : res (Z * list Z) :=
  let b := lib_skipspace b in
  '(base, b) ← lib_checkbase base b;
  digits base 0 b.

Definition s32 (z : Z) : Z := (z + 2147483648) `mod` 4294967296 - 2147483648.

(** [long] has 32 bits; the negation of its least value overflows. *)
Definition strtol (b : list Z) (base : Z) : res (Z * list Z) :=
  let b := lib_skipspace b in
  c ← deref b;
  let negate := c =? 45 in
  let b := if negate || (c =? 43) then tail b else b in
  '(accum, b) ← strtoul b base;
  if negate then
    if s32 accum =? -2147483648 then Fault Overflow else Ok (- s32 accum, b)
  else Ok (s32 accum, b).

Definition atoi (b : list Z) : res Z := '(v, _) ← strtol b 10; Ok v.

Example atoi_1 : atoi (cstr " -42x") = Ok (-42).
Proof. vm_compute. reflexivity. Qed.
Example strtoul_hex : strtoul (cstr "0x1Fz") 0 = Ok (31, cstr "z").
Proof. vm_compute. reflexivity. Qed.
(** The octal prefix is taken off, the hexadecimal one with it. *)
Example strtoul_octal : strtoul (cstr "0755") 0 = Ok (493, [0]).
Proof. vm_compute. reflexivity. Qed.
Example strtok_1 : strtok (Some 0) (cstr " ") None (cstr " ab c") =
  Ok (bytes " ab" ++ 0 :: cstr "c", Some 4, Some 1).
Proof. vm_compute. reflexivity. Qed.

(** ** Lemmas: strings in a buffer *)

Abbreviation nonzero := (Forall (λ c : Z, c ≠ 0)).

Lemma strlen_app (pre rest : list Z) :
  nonzero pre → strlen (pre ++ 0 :: rest) = Ok (Z.of_nat (length pre)).
Proof.
  induction 1 as [|c pre Hc _ IH]; [done|]. cbn [app strlen].
  destruct (Z.eqb_spec c 0); [done|]. rewrite IH, bind_ok. f_equal. cbn. lia.
Qed.

Lemma strlen_unterminated b : nonzero b → strlen b = Fault OutOfBounds.
Proof.
  induction 1 as [|c b Hc _ IH]; [done|]. cbn [strlen]. destruct (Z.eqb_spec c 0); [done|]. by rewrite IH.
Qed.

Lemma strchr_found l c rest :
  nonzero l → c ∉ l → strchr (l ++ c :: rest) c = Ok (Some (Z.of_nat (length l))).
Proof.
  intros Hz Hc. induction Hz as [|x l Hx _ IH]; cbn [app strchr]; [by rewrite Z.eqb_refl|].
  apply not_elem_of_cons in Hc as [Hxc Hc]. rewrite (proj2 (Z.eqb_neq x c)), (proj2 (Z.eqb_neq x 0)) by congruence.
  rewrite IH by done. cbn. do 2 f_equal. lia.
Qed.

Lemma strchr_none l c rest : nonzero l → c ∉ l → c ≠ 0 → strchr (l ++ 0 :: rest) c = Ok None.
Proof.
  intros Hz Hc H0. induction Hz as [|x l Hx _ IH]; cbn [app strchr].
  { by rewrite (proj2 (Z.eqb_neq 0 c)) by congruence. }
  apply not_elem_of_cons in Hc as [Hxc Hc]. rewrite (proj2 (Z.eqb_neq x c)), (proj2 (Z.eqb_neq x 0)) by congruence.
  by rewrite IH.
Qed.

(** Storing a block over [old], between [pre] and [post]. *)
Lemma store_block (pre old post data : list Z) :
  length old = length data → store (pre ++ old ++ post) (Z.of_nat (length pre)) data = Ok (pre ++ data ++ post).
Proof.
  unfold store. revert pre old. induction data as [|d data IH]; intros pre old Hl; destruct old as [|o old]; try done.
  cbn [imap forM fst snd app]. rewrite Z.add_0_r, aset_some by (rewrite length_app; cbn; lia). rewrite bind_ok.
  rewrite (insert_app_r_alt _ _ (length pre)), Nat.sub_diag by lia. cbn [insert list_insert].
  specialize (IH (pre ++ [d]) old ltac:(cbn in Hl; lia)). rewrite <- !app_assoc, length_app in IH. cbn in IH.
  rewrite <- IH. f_equal. apply imap_ext. intros k x _. cbn. f_equal. lia.
Qed.

Lemma store_past_end b o data :
  0 <= o → Z.of_nat (length b) < o + Z.of_nat (length data) → o <= Z.of_nat (length b) →
  store b o data = Fault OutOfBounds.
Proof.
  unfold store. revert b o. induction data as [|d data IH]; intros b o H0 Hlt Hle; [cbn in Hlt; lia|].
  cbn [imap forM fst snd]. rewrite Z.add_0_r. destruct (decide (0 <= o < Z.of_nat (length b))) as [Hd|Hd].
  2: { unfold aset. by rewrite decide_False. }
  rewrite aset_in, bind_ok by done. cbn [length] in *. etrans; [|apply (IH (<[Z.to_nat o := d]> b) (o + 1))].
  2-4: rewrite ?length_insert; lia.
  f_equal. apply imap_ext. intros k x _. cbn. f_equal. lia.
Qed.

(** ** The first occurrence of a substring *)

Lemma strncmp_prefix sub b rest' :
  nonzero sub → (length sub <= length b)%nat →
  ∃ d, strncmp b (sub ++ rest') (length sub) = Ok d ∧ (d = 0 ↔ sub `prefix_of` b).
Proof.
  intros Hz. revert b. induction Hz as [|x sub Hx _ IH]; intros b Hl; cbn [strncmp length].
  { exists 0. split; [done|]. split; [intros _; apply prefix_nil|done]. }
  destruct b as [|y b]; [cbn in Hl; lia|]. cbn [app deref aget]. unfold deref.
  change (aget (y :: b) 0) with (Ok y). change (aget (x :: sub ++ rest') 0) with (Ok x). rewrite !bind_ok. cbv zeta.
  destruct (Z.eqb_spec (y - x) 0) as [E|E]; cbn [negb orb].
  - assert (y = x) as -> by lia. rewrite (proj2 (Z.eqb_neq x 0)) by done. cbn [tail].
    destruct (IH b) as (d & Hd & Hp); [cbn in Hl; lia|]. exists d. split; [done|]. rewrite Hp.
    split; [apply prefix_cons|apply prefix_cons_inv_2].
  - exists (y - x). split; [done|]. split; [lia|]. intros ->%prefix_cons_inv_1. lia.
Qed.

Lemma no_prefix_before (sub l t : list Z) ch i :
  head sub = Some ch → ch ∉ l → (i < length l)%nat → ¬ sub `prefix_of` drop i (l ++ t).
Proof.
  intros Hh Hc Hi Hp. destruct sub as [|x sub]; [done|]. injection Hh as ->.
  destruct (lookup_lt_is_Some_2 l i Hi) as [y Hy]. rewrite drop_app_le in Hp by lia.
  erewrite drop_S in Hp by done. cbn [app] in Hp. apply prefix_cons_inv_1 in Hp as <-.
  by apply Hc; eapply list_elem_of_lookup_2.
Qed.

(** [sub] occurs in [s] first at offset [k]; at [None], nowhere. *)
Definition first_occurrence (sub s : list Z) (k : option nat) : Prop :=
  match k with
  | Some k => sub `prefix_of` drop k s ∧ ∀ i, (i < k)%nat → ¬ sub `prefix_of` drop i s
  | None => ∀ i, ¬ sub `prefix_of` drop i s
  end.

Lemma strstr_loop_first fuel s rest sub rest' ch off :
  nonzero s → nonzero sub → head sub = Some ch → (length s < fuel)%nat →
  ∃ r, strstr_loop fuel (s ++ 0 :: rest) (sub ++ rest') ch (Z.of_nat (length sub)) off =
      Ok ((λ k : nat, off + Z.of_nat k) <$> r) ∧ first_occurrence sub s r.
Proof.
  intros Hs Hz Hh. revert s off Hs. induction fuel as [|fuel IH]; intros s off Hs Hf; [lia|]. cbn [strstr_loop].
  assert (ch ≠ 0) as Hch by (destruct Hz; [done|]; by injection Hh as ->).
  destruct (decide (ch ∈ s)) as [Hin|Hnin].
  2: { rewrite strchr_none, bind_ok by done. exists None. split; [done|]. intros i Hp.
       destruct (decide (i < length s)%nat).
       - rewrite <- (app_nil_r s) in Hp. by eapply (no_prefix_before sub s [] ch i) in Hp.
       - rewrite drop_ge in Hp by lia. apply prefix_nil_inv in Hp as ->. done. }
  apply list_elem_of_split_l in Hin as (l & t & -> & Hl). apply Forall_app in Hs as [Hzl Hzt].
  rewrite <- app_assoc. cbn [app]. rewrite strchr_found, bind_ok by done. rewrite Nat2Z.id, drop_app_length.
  change (ch :: t ++ 0 :: rest) with ((ch :: t) ++ 0 :: rest). rewrite strlen_app, bind_ok by done.
  destruct (Z.ltb_spec (Z.of_nat (length (ch :: t))) (Z.of_nat (length sub))) as [Hlt|Hge].
  { exists None. split; [done|]. intros i Hp. destruct (decide (i < length l)%nat) as [Hi|Hi].
    - by eapply (no_prefix_before sub l (ch :: t) ch i) in Hp.
    - apply prefix_length in Hp. rewrite length_drop, length_app in Hp. lia. }
  rewrite Nat2Z.id. destruct (strncmp_prefix sub ((ch :: t) ++ 0 :: rest) rest') as (d & -> & Hd); [done|rewrite length_app; lia|].
  rewrite bind_ok.
  assert (sub `prefix_of` ((ch :: t) ++ 0 :: rest) ↔ sub `prefix_of` (ch :: t)) as Hcut.
  { split; [|by apply prefix_app_r]. intros [u Hu]. exists (take (length (ch :: t) - length sub) u).
    apply (f_equal (take (length (ch :: t)))) in Hu. rewrite take_app_length, take_app, take_ge in Hu by lia. done. }
  rewrite Hcut in Hd. destruct (Z.eqb_spec d 0) as [E|E].
  - exists (Some (length l)). split; [done|]. split; [rewrite drop_app_length; by apply Hd|].
    intros i Hi. by apply no_prefix_before with ch.
  - cbn [app drop]. inversion_clear Hzt as [|? ? _ Hzt'].
    destruct (IH t (off + Z.of_nat (length l) + 1)) as (r & Hr & Hfirst); [done|rewrite length_app in Hf; cbn in Hf; lia|].
    rewrite drop_0, Hr. exists ((λ k, S (length l + k)) <$> r). split; [destruct r; cbn; do 2 f_equal; lia|].
    assert (∀ i, sub `prefix_of` drop i (l ++ ch :: t) → (∀ j, i = S (length l + j) → sub `prefix_of` drop j t → False) → False) as Hpos.
    { intros i Hp Hj. destruct (decide (i < length l)%nat) as [Hi|Hi]; [by eapply (no_prefix_before sub l (ch :: t) ch i) in Hp|].
      destruct (decide (i = length l)) as [->|Hne].
      - rewrite drop_app_length in Hp. by apply Hd in Hp.
      - apply (Hj (i - S (length l))%nat); [lia|]. rewrite drop_app_ge in Hp by lia.
        by replace (i - length l)%nat with (S (i - S (length l))) in Hp by lia. }
    destruct r as [k|]; cbn [fmap option_fmap option_map first_occurrence] in *.
    + destruct Hfirst as [Hp Hmin]. split.
      * rewrite drop_app_ge by lia. by replace (S (length l + k) - length l)%nat with (S k) by lia.
      * intros i Hi Hp'. apply (Hpos i Hp'). intros j -> Hj. by apply (Hmin j); [lia|].
    + intros i Hp. apply (Hpos i Hp). intros j _ Hj. by apply (Hfirst j).
Qed.

(** [strstr] terminates and returns the first place at which the substring
    occurs in the string, and NULL exactly when it occurs nowhere. *)
Theorem strstr_first fuel s rest sub rest' :
  nonzero s → nonzero sub → (length s < fuel)%nat →
  ∃ r, strstr fuel (s ++ 0 :: rest) (sub ++ 0 :: rest') = Ok (Z.of_nat <$> r) ∧ first_occurrence sub s r.
Proof.
  intros Hs Hz Hf. unfold strstr. rewrite strlen_app, bind_ok by done. destruct sub as [|ch sub].
  { exists (Some 0%nat). split; [done|]. split; [apply prefix_nil|lia]. }
  cbn [app]. unfold deref. change (aget (ch :: sub ++ 0 :: rest') 0) with (Ok ch). rewrite bind_ok.
  rewrite (proj2 (Z.eqb_neq ch 0)) by (by inversion Hz).
  by apply (strstr_loop_first fuel s rest (ch :: sub) (0 :: rest') ch 0).
Qed.

(** ** Comparison *)

(** [strcmp] answers 0 exactly for equal strings. *)
Theorem strcmp_equal s rest t rest' :
  Forall (λ c, 0 < c < 256) s → Forall (λ c, 0 < c < 256) t →
  ∃ d, strcmp (s ++ 0 :: rest) (t ++ 0 :: rest') = Ok d ∧ (d = 0 ↔ s = t).
Proof.
  intros Hs. revert t. induction Hs as [|x s Hx _ IH]; intros t Ht; cbn [app strcmp].
  - destruct Ht as [|y t Hy Ht]; [exists 0; split; [reflexivity|done]|]. cbn [app].
    change (deref (y :: t ++ 0 :: rest')) with (Ok y). rewrite bind_ok. cbv zeta. rewrite orb_true_r.
    eexists. split; [reflexivity|]. split; [|done]. unfold s8. dlia.
  - destruct Ht as [|y t Hy Ht]; cbn [app].
    + change (deref (0 :: rest')) with (Ok 0). rewrite bind_ok. cbv zeta.
      rewrite (proj2 (Z.eqb_neq (s8 (x - 0)) 0)) by (unfold s8; dlia). eexists. split; [reflexivity|].
      split; [unfold s8; dlia|done].
    + change (deref (y :: t ++ 0 :: rest')) with (Ok y). rewrite bind_ok. cbv zeta.
      destruct (Z.eqb_spec (s8 (x - y)) 0) as [E|E]; cbn [negb orb].
      * assert (x = y) as -> by (unfold s8 in E; dlia). rewrite (proj2 (Z.eqb_neq y 0)) by lia.
        destruct (IH t Ht) as (d & Hd & Heq). exists d. split; [done|]. rewrite Heq. naive_solver.
      * eexists. split; [reflexivity|]. split; [done|]. intros E'. injection E' as -> ->. by rewrite Z.sub_diag in E.
Qed.

(** ** Tokens *)

Lemma in_set_spec delim rest c : nonzero delim → c ≠ 0 → in_set (delim ++ 0 :: rest) c = bool_decide (c ∈ delim).
Proof.
  intros Hd Hc. unfold in_set. case_bool_decide as H.
  - apply list_elem_of_split_l in H as (l & t & -> & Hl). apply Forall_app in Hd as [Hl0 _].
    rewrite <- app_assoc. cbn [app]. by rewrite strchr_found.
  - by rewrite strchr_none.
Qed.

Lemma skip_to stop l c rest :
  Forall (λ x, x ≠ 0 ∧ stop x = false) l → c = 0 ∨ stop c = true →
  skip stop (l ++ c :: rest) = Ok (Z.of_nat (length l)).
Proof.
  intros Hl Hc. induction Hl as [|x l (Hx & Hs) _ IH]; cbn [app skip].
  - destruct Hc as [-> | ->]; [done|]. by rewrite orb_true_r.
  - rewrite (proj2 (Z.eqb_neq x 0)), Hs by done. cbn [orb]. rewrite IH, bind_ok. f_equal. cbn. lia.
Qed.

Section tokens.
Context (delim : list Z) (Hdelim : nonzero delim).

Definition gap (l : list Z) : Prop := Forall (λ c, c ∈ delim) l.
Definition word (l : list Z) : Prop := l ≠ [] ∧ Forall (λ c, c ≠ 0 ∧ c ∉ delim) l.

Lemma skip_gap l c rest :
  gap l → c = 0 ∨ c ∉ delim →
  skip (λ c, negb (in_set (delim ++ [0]) c)) (l ++ c :: rest) = Ok (Z.of_nat (length l)).
Proof using Hdelim.
  intros Hg Hc. apply skip_to.
  - eapply Forall_impl; [exact Hg|]. intros x Hx. cbn in Hx.
    assert (x ≠ 0) by (rewrite Forall_forall in Hdelim; by apply Hdelim).
    split; [done|]. by rewrite in_set_spec, bool_decide_eq_true_2.
  - destruct (decide (c = 0)) as [->|H0]; [by left|]. destruct Hc as [?|Hc]; [done|]. right.
    by rewrite in_set_spec, bool_decide_eq_false_2.
Qed.

Lemma skip_word l c rest :
  Forall (λ c, c ≠ 0 ∧ c ∉ delim) l → c = 0 ∨ c ∈ delim →
  skip (in_set (delim ++ [0])) (l ++ c :: rest) = Ok (Z.of_nat (length l)).
Proof using Hdelim.
  intros Hw Hc. apply skip_to.
  - eapply Forall_impl; [exact Hw|]. intros x (H0 & Hx). split; [done|]. by rewrite in_set_spec, bool_decide_eq_false_2.
  - destruct (decide (c = 0)) as [->|H0]; [by left|]. destruct Hc as [?|Hc]; [done|]. right.
    by rewrite in_set_spec, bool_decide_eq_true_2.
Qed.

(** The place where [strtok_r] begins to look. *)
Definition from (str saveptr : option Z) : option Z := match str with Some p => Some p | None => saveptr end.

(** [strtok_r] before a token: it is returned, ended by a zero byte in place
    of the delimiter, and the search continues behind it. *)
Lemma strtok_r_token str saveptr pre ds w c rest :
  from str saveptr = Some (Z.of_nat (length pre)) → gap ds → word w → c = 0 ∨ c ∈ delim →
  let pend := Z.of_nat (length (pre ++ ds ++ w)) in
  strtok_r str (delim ++ [0]) saveptr (pre ++ ds ++ w ++ c :: rest) =
    Ok (pre ++ ds ++ w ++ 0 :: rest, Some (if c =? 0 then pend else pend + 1), Some (Z.of_nat (length (pre ++ ds)))).
Proof using Hdelim.
  intros Hf Hg (Hne & Hw) Hc pend. unfold strtok_r. fold (from str saveptr). rewrite Hf.
  destruct w as [|x w]; [done|]. apply Forall_cons in Hw as ((Hx0 & Hx) & Hw).
  rewrite Nat2Z.id, drop_app_length. cbn [app]. rewrite skip_gap, bind_ok by auto. cbv zeta.
  replace (Z.of_nat (length pre) + Z.of_nat (length ds)) with (Z.of_nat (length (pre ++ ds))) by (rewrite length_app; lia).
  rewrite (app_assoc pre ds), aget_app, bind_ok. rewrite (proj2 (Z.eqb_neq x 0)) by done.
  replace (Z.to_nat (Z.of_nat (length (pre ++ ds)) + 1)) with (length ((pre ++ ds) ++ [x])) by (rewrite length_app; cbn; lia).
  rewrite (cons_middle x (pre ++ ds)), app_assoc, drop_app_length, skip_word, bind_ok by done.
  replace (Z.of_nat (length (pre ++ ds)) + 1 + Z.of_nat (length w)) with (Z.of_nat (length (((pre ++ ds) ++ [x]) ++ w)))
    by (rewrite !length_app; cbn; lia).
  rewrite app_assoc, aget_app, bind_ok.
  replace pend with (Z.of_nat (length (((pre ++ ds) ++ [x]) ++ w))) by (unfold pend; rewrite !length_app; cbn; lia).
  destruct (Z.eqb_spec c 0) as [->|H0].
  - do 3 f_equal. by rewrite <- !app_assoc.
  - rewrite aset_some, bind_ok by (rewrite !length_app; cbn; lia). do 3 f_equal.
    rewrite insert_app_r_alt, Nat.sub_diag by lia. cbn. by rewrite <- !app_assoc.
Qed.

(** [strtok_r] with nothing but delimiters left. *)
Lemma strtok_r_end str saveptr pre ds rest :
  from str saveptr = Some (Z.of_nat (length pre)) → gap ds →
  strtok_r str (delim ++ [0]) saveptr (pre ++ ds ++ 0 :: rest) = Ok (pre ++ ds ++ 0 :: rest, saveptr, None).
Proof using Hdelim.
  intros Hf Hg. unfold strtok_r. fold (from str saveptr). rewrite Hf, Nat2Z.id, drop_app_length.
  rewrite skip_gap, bind_ok by auto. cbv zeta.
  replace (Z.of_nat (length pre) + Z.of_nat (length ds)) with (Z.of_nat (length (pre ++ ds))) by (rewrite length_app; lia).
  by rewrite app_assoc, aget_app, bind_ok.
Qed.

End tokens.

(** ** Printing and reading numbers *)

(** What [printf] writes for %d. *)
Definition decimal (z : Z) : list Z := bytes (pretty z).

Lemma bytes_cons a str : bytes (String.String a str) = Z.of_N (N_of_ascii a) :: bytes str.
Proof. done. Qed.

Lemma digit_value d : (d < 10)%N → lib_isbasedigit (Z.of_N (N_of_ascii (pretty_N_char d))) 10 = Some (Z.of_N d).
Proof.
  intros Hd. assert (d ∈ [0; 1; 2; 3; 4; 5; 6; 7; 8; 9]%N) as Hin.
  { rewrite !elem_of_cons, elem_of_nil. lia. }
  rewrite !elem_of_cons, elem_of_nil in Hin. by destruct_or! Hin; subst.
Qed.

Lemma digits_pretty_go x str tl :
  (x < 4294967296)%N → digits 10 0 (bytes (pretty_N_go x str) ++ tl) = digits 10 (Z.of_N x) (bytes str ++ tl).
Proof.
  revert str. induction (N.lt_wf_0 x) as [x _ IH]. intros str Hx.
  destruct (decide (x = 0)%N) as [->|Hne]; [by rewrite pretty_N_go_0|].
  pose proof (N.div_lt x 10 ltac:(lia) ltac:(lia)) as Hlt. pose proof (N.div_mod x 10 ltac:(lia)) as Hdm. pose proof (N.mod_lt x 10 ltac:(lia)) as Hm.
  rewrite pretty_N_go_step by lia. rewrite IH by lia. rewrite bytes_cons. cbn [app digits].
  rewrite digit_value by done. f_equal. rewrite u32_small; lia.
Qed.

Lemma digits_pretty (x : N) tl : (x < 4294967296)%N → digits 10 0 (bytes (pretty x) ++ tl) = digits 10 (Z.of_N x) tl.
Proof.
  intros Hx. unfold pretty, pretty_N. case_decide as H0; [|by rewrite digits_pretty_go].
  subst x. cbn [bytes]. change (bytes "0") with [48]. done.
Qed.

(** The first character of a number is a digit. *)
Lemma pretty_head (x : N) : ∃ d l, bytes (pretty x) = d :: l ∧ 48 <= d <= 57.
Proof.
  unfold pretty, pretty_N. case_decide as H0; [by exists 48, []|].
  assert (∀ n y str, (0 < y)%N → (y < n)%N → ∃ d l, bytes (pretty_N_go y str) = d :: l ∧ 48 <= d <= 57) as H.
  { intros n. induction n as [|n IH] using N.peano_ind; intros y str Hy Hn; [lia|].
    rewrite pretty_N_go_step by lia. pose proof (N.mod_lt y 10 ltac:(lia)).
    destruct (decide (y / 10 = 0)%N) as [E|E]; [|apply IH; [by apply N.neq_0_lt_0|]; pose proof (N.div_lt y 10 ltac:(lia) ltac:(lia)); lia].
    rewrite E, pretty_N_go_0, bytes_cons. eexists _, _. split; [reflexivity|].
    pose proof (digit_value (y mod 10) ltac:(done)) as Hd. unfold lib_isbasedigit in Hd. cbn in Hd.
    case_match eqn:Hb; [|done]. apply andb_true_iff in Hb as [?%Z.leb_le ?%Z.leb_le]. lia. }
  apply (H (N.succ x)); lia.
Qed.

Lemma skipspace_digit d l : 48 <= d <= 57 ∨ d = 45 → lib_skipspace (d :: l) = d :: l.
Proof.
  intros Hd. cbn. unfold isspace. repeat rewrite (proj2 (Z.eqb_neq d _)) by lia. done.
Qed.

(** A natural number read back from its digits. *)
Lemma strtoul_pretty (x : N) c rest :
  (x < 4294967296)%N → lib_isbasedigit c 10 = None →
  strtoul (bytes (pretty x) ++ c :: rest) 10 = Ok (Z.of_N x, c :: rest).
Proof.
  intros Hx Hc. destruct (pretty_head x) as (d & l & E & Hd). unfold strtoul.
  rewrite E. cbn [app]. rewrite skipspace_digit by auto. change (d :: l ++ c :: rest) with ((d :: l) ++ c :: rest).
  rewrite <- E. unfold lib_checkbase. cbn [Z.eqb Pos.eqb]. rewrite bind_ok, digits_pretty by done.
  cbn [digits]. by rewrite Hc.
Qed.

Lemma decimal_spec z :
  decimal z = if z <? 0 then 45 :: bytes (pretty (Z.to_N (- z))) else bytes (pretty (Z.to_N z)).
Proof. by destruct z as [|p|p]. Qed.

Lemma bytes_app str1 str2 : bytes (str1 +:+ str2) = bytes str1 ++ bytes str2.
Proof. induction str1 as [|a str1 IH]; [done|]. change (bytes (String.String a (str1 +:+ str2)) = bytes (String.String a str1) ++ bytes str2). by rewrite !bytes_cons, IH. Qed.

Lemma bytes_inj str1 str2 : bytes str1 = bytes str2 → str1 = str2.
Proof.
  revert str2. induction str1 as [|a str1 IH]; intros [|b str2] H; try done. rewrite !bytes_cons in H.
  injection H as Ha H. f_equal; [|by apply IH]. rewrite <- (ascii_N_embedding a), <- (ascii_N_embedding b).
  f_equal. lia.
Qed.

Lemma pretty_go_digits x str :
  Forall (λ c, 48 <= c <= 57) (bytes str) → Forall (λ c, 48 <= c <= 57) (bytes (pretty_N_go x str)).
Proof.
  revert str. induction (N.lt_wf_0 x) as [x _ IH]. intros str Hs.
  destruct (decide (x = 0)%N) as [->|Hne]; [by rewrite pretty_N_go_0|].
  pose proof (N.div_lt x 10 ltac:(lia) ltac:(lia)) as Hlt. pose proof (N.mod_lt x 10 ltac:(lia)) as Hm.
  rewrite pretty_N_go_step by lia. apply IH; [done|]. rewrite bytes_cons. constructor; [|done].
  pose proof (digit_value (x mod 10) ltac:(done)) as Hd. unfold lib_isbasedigit in Hd. cbn in Hd.
  case_match eqn:Hb; [|done]. zb. lia.
Qed.

(** A printed number consists of digits, after a sign. *)
Lemma decimal_chars z : Forall (λ c, c = 45 ∨ 48 <= c <= 57) (decimal z).
Proof.
  assert (∀ x : N, Forall (λ c, 48 <= c <= 57) (bytes (pretty x))) as H.
  { intros x. unfold pretty, pretty_N. case_decide; [by repeat constructor|]. by apply pretty_go_digits. }
  rewrite decimal_spec. destruct (z <? 0); [constructor; [by left|]|]; (eapply Forall_impl; [apply H|]); auto.
Qed.

Lemma decimal_inj z1 z2 : decimal z1 = decimal z2 → z1 = z2.
Proof. intros H%bytes_inj. by apply (inj pretty) in H. Qed.

Lemma pretty_go_length (k : nat) x str :
  (x < 10 ^ N.of_nat k)%N → (length (bytes (pretty_N_go x str)) <= length (bytes str) + k)%nat.
Proof.
  revert x str. induction k as [|k IH]; intros x str Hx.
  { assert (x = 0)%N as -> by (change (10 ^ N.of_nat 0)%N with 1%N in Hx; lia). rewrite pretty_N_go_0. lia. }
  destruct (decide (x = 0)%N) as [->|Hne]; [rewrite pretty_N_go_0; lia|].
  rewrite pretty_N_go_step by lia. etrans; [apply IH|].
  - apply N.Div0.div_lt_upper_bound. by rewrite Nat2N.inj_succ, N.pow_succ_r' in Hx.
  - rewrite bytes_cons. cbn [length]. lia.
Qed.

(** A number of type int is printed with at most eleven characters. *)
Lemma decimal_length z : -2147483648 <= z <= 2147483647 → (length (decimal z) <= 11)%nat.
Proof.
  intros Hz. assert (∀ x, (x <= 2147483648)%N → (length (bytes (pretty x)) <= 10)%nat) as H.
  { intros x Hx. unfold pretty, pretty_N. case_decide; [cbn; lia|]. apply (pretty_go_length 10 x String.EmptyString).
    change (10 ^ N.of_nat 10)%N with 10000000000%N. lia. }
  rewrite decimal_spec. destruct (Z.ltb_spec z 0); cbn [length].
  - specialize (H (Z.to_N (- z)) ltac:(lia)). lia.
  - specialize (H (Z.to_N z) ltac:(lia)). lia.
Qed.

(** A number of type int, printed by %d and followed by a character that is
    not a digit, is read back by [strtol] (and [atoi]), which stops behind it.
    The least number alone is not: its negation overflows. *)
Theorem strtol_decimal z c rest :
  -2147483648 <= z <= 2147483647 → lib_isbasedigit c 10 = None →
  strtol (decimal z ++ c :: rest) 10 = if z =? -2147483648 then Fault Overflow else Ok (z, c :: rest).
Proof.
  intros Hz Hc. rewrite decimal_spec. unfold strtol. destruct (Z.ltb_spec z 0) as [Hneg|Hpos].
  - cbn [app]. rewrite skipspace_digit by auto. change (deref (45 :: ?l)) with (Ok 45). rewrite bind_ok.
    cbn [Z.eqb Pos.eqb orb tail]. rewrite strtoul_pretty, bind_ok by (done || lia).
    rewrite Z2N.id by lia. unfold s32. destruct (Z.eqb_spec z (-2147483648)) as [->|Hne]; [done|].
    rewrite Z.mod_small by lia. rewrite (proj2 (Z.eqb_neq _ _)) by lia. do 2 f_equal. lia.
  - destruct (pretty_head (Z.to_N z)) as (d & l & E & Hd). rewrite E. cbn [app]. rewrite skipspace_digit by auto.
    change (deref (d :: l ++ c :: rest)) with (Ok d). rewrite bind_ok, !(proj2 (Z.eqb_neq d _)) by lia. cbn [orb].
    change (d :: l ++ c :: rest) with ((d :: l) ++ c :: rest). rewrite <- E, strtoul_pretty, bind_ok by (done || lia).
    rewrite Z2N.id by lia. unfold s32. rewrite Z.mod_small by lia. rewrite (proj2 (Z.eqb_neq z _)) by lia.
    do 2 f_equal. lia.
Qed.

End Str.
