(* ===== verification/NuttxRange.v ===== *)
(** * The ultrasonic range driver of the LM4F120 board

    Models drivers/sensors/range_srf04.c (upper half, "/dev/range0") and
    configs/lm4f120-launchpad/src/up_range_srf04.c (lower half: up to four
    SRF04 sensors, echo times taken with timer 5).  What the hardware
    answers is a parameter: [level n] is the echo pin at the [n]-th read and
    [tick n] the timer at its [n]-th read.  GPIO calls and sleeps are logged.
    Character buffers are lists of byte values. *)
From stdpp Require Import pretty.
From S2P Require Import Prelude FunkKernel NuttxUpper NuttxString.

Module Range.
Import Hw Upper Str.

Definition RANGE_MAX_COUNT : Z := 4.
Definition TIMER5_BASE : Z := 0x40035000.
Definition SYSCTL_PERIPH_TIMER5 : Z := 0xf0000405.
Definition TIMER_CFG_PERIODIC_UP : Z := 0x32.
Definition GPIO_FUNC_INPUT : Z := 0.
Definition GPIO_FUNC_OUTPUT : Z := Z.shiftl 1 29.
Definition GPIO_VALUE_ONE : Z := Z.shiftl 1 7.
Definition RANGEIOC_ATTACHE : Z := Z.lor 0x1400 1.
Definition RANGEIOC_DETACH : Z := Z.lor 0x1400 2.

Record range_info_s : Type := mkRangeInfo {
  id : Z;
  i_trig_port : Z;
  i_trig_pin : Z;
  i_echo_port : Z;
  i_echo_pin : Z
}.

Inductive RANGE_STATE : Type := RANGE_STATE_INIT | RANGE_STATE_ENABLED.

#[export] Instance range_state_eq_dec : EqDecision RANGE_STATE.
Proof. solve_decision. Defined.

Record range_t : Type := mkRange {
  trig_port : Z;
  trig_pin : Z;
  echo_port : Z;
  echo_pin : Z;
  value : Z;
  state : RANGE_STATE
}.

(** The lower half: the sensor table, the hardware, and how many times the
    echo pin and the timer have been read. *)
Record RNG : Type := mkRng {
  g_ranges : list range_t;
  hw : HW;
  nlevel : nat;
  ntick : nat
}.

Definition set_g_ranges (v : list range_t) (s : RNG) : RNG := mkRng v (hw s) (nlevel s) (ntick s).
Definition set_hw (v : HW) (s : RNG) : RNG := mkRng (g_ranges s) v (nlevel s) (ntick s).
Definition set_nlevel (v : nat) (s : RNG) : RNG := mkRng (g_ranges s) (hw s) v (ntick s).
Definition set_ntick (v : nat) (s : RNG) : RNG := mkRng (g_ranges s) (hw s) (nlevel s) v.

Definition range_zero : range_t := mkRange 0 0 0 0 0 RANGE_STATE_INIT.

(** ** Setting up *)

Definition range_setup (s : RNG) : res (RNG * Z) :=
  t ← forM (seqZ 0 RANGE_MAX_COUNT) (λ i t, aset t i range_zero) (g_ranges s);
  let s := set_g_ranges t s in
  let h := log "SysCtlPeripheralEnable" [SYSCTL_PERIPH_TIMER5] (hw s) in
  let h := TimerConfigure TIMER5_BASE TIMER_CFG_PERIODIC_UP h in
  let h := TimerEnable TIMER5_BASE TIMER_A h in
  Ok (set_hw h s, OK).

Definition range_shutdown (s : RNG) : res (RNG * Z) :=
  Ok (set_hw (TimerDisable TIMER5_BASE TIMER_A (hw s)) s, OK).

Definition out_pin (port pin : Z) : Z := Z.lor (Z.lor (Z.lor GPIO_FUNC_OUTPUT GPIO_VALUE_ONE) port) pin.
Definition in_pin (port pin : Z) : Z := Z.lor (Z.lor (Z.lor GPIO_FUNC_INPUT GPIO_VALUE_ONE) port) pin.

Definition range_attach (info : range_info_s) (s : RNG) : res (RNG * Z) :=
  if RANGE_MAX_COUNT <=? id info then Ok (s, ERANGE)
  else
    r ← aget (g_ranges s) (id info);
    let r := mkRange (i_trig_port info) (i_trig_pin info) (i_echo_port info) (i_echo_pin info)
               (value r) RANGE_STATE_ENABLED in
    t ← aset (g_ranges s) (id info) r;
    let s := set_g_ranges t s in
    let h := log "lm_configgpio" [out_pin (trig_port r) (trig_pin r)] (hw s) in
    let h := log "lm_configgpio" [in_pin (echo_port r) (echo_pin r)] h in
    Ok (set_hw h s, OK).

Definition range_detach (info : range_info_s) (s : RNG) : res (RNG * Z) :=
  if RANGE_MAX_COUNT <=? id info then Ok (s, ERANGE)
  else
    r ← aget (g_ranges s) (id info);
    t ← aset (g_ranges s) (id info) (mkRange 0 0 0 0 (value r) RANGE_STATE_INIT);
    Ok (set_g_ranges t s, OK).

(** ** Measuring *)

Section sensing.
Context (level : nat → bool) (tick : nat → Z).

Definition TIMEOUT : Z := 50000000.

Definition TimerValueGet (s : RNG) : RNG * Z := (set_ntick (S (ntick s)) s, tick (ntick s)).
Definition lm_gpioread (s : RNG) : RNG * bool := (set_nlevel (S (nlevel s)) s, level (nlevel s)).

(** [while (lm_gpioread(...) == b) if ((TimerValueGet(...) - t) > 50000000L) return 0;]
    [last] is the last timer value read inside the loop ([t2]).  The answer
    is [None] on a timeout. *)
Fixpoint wait_while (fuel : nat) (b : bool) (t : Z) (last : option Z) (s : RNG)
    : res (RNG * option (option Z)) :=
  let '(s, l) := lm_gpioread s in
  if Bool.eqb l b then
    let '(s, t2) := TimerValueGet s in
    if TIMEOUT <? u32 (t2 - t) then Ok (s, None)
    else match fuel with
         | O => Fault OutOfFuel
         | S fuel => wait_while fuel b t (Some t2) s
         end
  else Ok (s, Some last).

Definition pulse_in (fuel : nat) (s : RNG) : res (RNG * Z) :=
  let '(s, t) := TimerValueGet s in
  '(s, w) ← wait_while fuel true t None s;
  match w with
  | None => Ok (s, 0)
  | Some _ =>
      let '(s, t) := TimerValueGet s in
      '(s, w) ← wait_while fuel false t None s;
      match w with
      | None => Ok (s, 0)
      | Some _ =>
          '(s, w) ← wait_while fuel true t None s;
          match w with
          | None => Ok (s, 0)
          | Some None => Fault Uninit
          | Some (Some t2) => Ok (s, u32 (t2 - t) `div` 85)
          end
      end
  end.

(** [(int)(width / 5.2466)].  The quotient is computed in double precision
    in the code; for the values [pulse_in] can return (at most 588235) it
    has the integer part of the exact quotient. *)
Definition distance (width : Z) : Z := (width * 10000) `div` 52466.

(** The trigger pulse and the echo measurement of one sensor. *)
Definition measure (fuel : nat) (r : range_t) (s : RNG) : res (RNG * Z) :=
  let trig := out_pin (trig_port r) (trig_pin r) in
  let h := log "lm_gpiowrite" [trig; 0] (hw s) in
  let h := log "usleep" [2] h in
  let h := log "lm_gpiowrite" [trig; 1] h in
  let h := log "usleep" [10] h in
  let h := log "lm_gpiowrite" [trig; 0] h in
  let '(h, flags) := irqsave h in
  '(s, width) ← pulse_in fuel (set_hw h s);
  let s := set_hw (irqrestore flags (hw s)) s in
  Ok (s, distance width).

(** [sprintf(dummy, "(%d %d) ", i, d)]; [i] and [d] are not negative. *)
Definition report (i d : Z) : list Z :=
  bytes ("(" +:+ pretty (Z.to_N i) +:+ " " +:+ pretty (Z.to_N d) +:+ ") ").

(** One turn of the loop of [range_read]; [ptr] is the write position. *)
Definition read_one (fuel : nat) (buflen i : Z) (st : RNG * list Z * Z) : res (RNG * list Z * Z) :=
  let '(s, buff, ptr) := st in
  r ← aget (g_ranges s) i;
  if decide (state r = RANGE_STATE_ENABLED) then
    '(s, dist) ← measure fuel r s;
    let dummy := report i (if dist <? 4000 then dist else 0) in
    len ← strlen buff;
    buff ← strncpy buff ptr dummy (u32 (buflen - len));
    Ok (s, buff, ptr + Z.of_nat (length dummy))
  else Ok st.

Definition range_read (fuel : nat) (buff : list Z) (buflen : Z) (s : RNG) : res (RNG * list Z * Z) :=
  buff ← aset buff 0 0;
  let s := set_hw (sched_lock (hw s)) s in
  '(s, buff, ptr) ← forM (seqZ 0 RANGE_MAX_COUNT) (read_one fuel buflen) (s, buff, 0);
  let s := set_hw (sched_unlock (hw s)) s in
  if ptr =? 0 then Ok (s, buff, 0)
  else len ← strlen buff; Ok (s, buff, len + 1).

End sensing.

(** ** Upper half *)

Abbreviation range_upperhalf_s := (UPPER range_info_s RNG).

Record range_ops_s : Type := mkRangeOps {
  op_setup : RNG → res (RNG * Z);
  op_shutdown : RNG → res (RNG * Z);
  op_attach : range_info_s → RNG → res (RNG * Z);
  op_detach : range_info_s → RNG → res (RNG * Z);
  op_read : nat → list Z → Z → RNG → res (RNG * list Z * Z);
  op_ioctl : option (Z → RNG → res (RNG * Z))
}.

Definition g_rangeops (level : nat → bool) (tick : nat → Z) : range_ops_s := {|
  op_setup := range_setup;
  op_shutdown := range_shutdown;
  op_attach := range_attach;
  op_detach := range_detach;
  op_read := range_read level tick;
  op_ioctl := None
|}.

Definition range_open (ops : range_ops_s) : option Z → range_upperhalf_s → res (range_upperhalf_s * Z) :=
  upper_open (op_setup ops).

Definition range_close (ops : range_ops_s) : option Z → range_upperhalf_s → res (range_upperhalf_s * Z) :=
  upper_close (op_shutdown ops).

Definition upper_read (ops : range_ops_s) (fuel : nat) (buffer : list Z) (buflen : Z)
    (u : range_upperhalf_s) : res (range_upperhalf_s * list Z * Z) :=
  '(s, buffer, ret) ← op_read ops fuel buffer buflen (dev u);
  Ok (set_dev s u, buffer, ret).

Definition range_write (buflen : Z) (u : range_upperhalf_s) : range_upperhalf_s * Z := (u, - ENOSYS).

Definition range_ioctl (ops : range_ops_s) (intr : option Z) (cmd : Z) (arg : option range_info_s)
    (u : range_upperhalf_s) : res (range_upperhalf_s * Z) :=
  w ← sem_wait intr u;
  match w with
  | inr _ => Ok (u, -1)
  | inl u =>
      '(u, ret) ←
        (if cmd =? RANGEIOC_ATTACHE then
           match arg with
           | None => Fault NullDeref
           | Some i =>
               let u := set_info i u in
               '(s, ret) ← op_attach ops (info u) (dev u);
               Ok (set_dev s u, ret)
           end
         else if cmd =? RANGEIOC_DETACH then
           match arg with
           | None => Fault NullDeref
           | Some i =>
               let u := set_info i u in
               '(s, ret) ← op_detach ops (info u) (dev u);
               Ok (set_dev s u, ret)
           end
         else
           match op_ioctl ops with
           | None => Fault NullCall
           | Some f => '(s, ret) ← f cmd (dev u); Ok (set_dev s u, ret)
           end);
      Ok (sem_post u, ret)
  end.

Definition range_register (mem : bool) (reg : Z) (dev : RNG) : option range_upperhalf_s * Z :=
  upper_register mem reg (mkRangeInfo 0 0 0 0 0) dev.

Definition lm4f_rangeinitialize (g : RNG) : option RNG := Some g.

Definition range_devinit (mem : bool) (reg : Z) (g : RNG) (range_initialized : bool)
    : option range_upperhalf_s * bool * Z :=
  if negb range_initialized then
    match lm4f_rangeinitialize g with
    | None => (None, false, - ENODEV)
    | Some range =>
        let '(u, ret) := range_register mem reg range in
        if ret <? 0 then (None, false, ret) else (u, true, OK)
    end
  else (None, true, OK).

(** ** Lemmas: the measuring loops *)

Section timing.
Context (level : nat → bool) (tick c : nat → Z).

(** The timer register shows a clock [c] modulo 2^32; the clock advances
    between two reads, by less than 4 10^9 ticks. *)
Context (Htick : ∀ n, tick n = u32 (c n)) (Hc : ∀ n, c n < c (S n) <= c n + 4000000000).

Lemma elapsed n k : u32 (tick k - tick n) = u32 (c k - c n).
Proof using Htick. rewrite !Htick. unfold u32. by rewrite <- Zminus_mod. Qed.

Lemma clock_mono n k : (n <= k)%nat → c n <= c k.
Proof using Hc. induction 1 as [|k _ IH]; [lia|]. specialize (Hc k). lia. Qed.

(** What a wait loop keeps: it only reads. *)
Definition only_reads (s s' : RNG) : Prop :=
  g_ranges s' = g_ranges s ∧ hw s' = hw s ∧ (nlevel s <= nlevel s')%nat ∧ (ntick s <= ntick s')%nat.

(** Every wait ends: by the pin, or by the timeout. *)
Lemma wait_while_ends fuel b n0 last s :
  (n0 < ntick s)%nat → c (pred (ntick s)) - c n0 <= TIMEOUT →
  TIMEOUT - (c (pred (ntick s)) - c n0) <= Z.of_nat fuel →
  (∀ t2, last = Some t2 → u32 (t2 - tick n0) <= TIMEOUT) →
  ∃ s' w, wait_while level tick fuel b (tick n0) last s = Ok (s', w) ∧ only_reads s s' ∧
    match w with
    | None => True
    | Some l => c (pred (ntick s')) - c n0 <= TIMEOUT ∧ ∀ t2, l = Some t2 → u32 (t2 - tick n0) <= TIMEOUT
    end.
Proof using Htick Hc.
  revert last s. induction fuel as [|fuel IH]; intros last s Hn Hel Hf Hl; cbn [wait_while lm_gpioread TimerValueGet].
  all: destruct (Bool.eqb _ b); [|eexists _, _; split; [reflexivity|]; split; [by split; [|split; [|cbn; lia]]|done]].
  all: cbn [ntick set_nlevel]; rewrite elapsed.
  all: assert (c (ntick s) - c (pred (ntick s)) > 0 ∧ c (ntick s) - c (pred (ntick s)) <= 4000000000) as [H1 H2]
    by (specialize (Hc (pred (ntick s))); replace (S (pred (ntick s))) with (ntick s) in Hc by lia; lia).
  all: unfold TIMEOUT in *; destruct (Z.ltb_spec 50000000 (u32 (c (ntick s) - c n0)));
    [by eexists _, _; split; [reflexivity|]; repeat split; cbn; lia|].
  all: pose proof (clock_mono n0 (pred (ntick s)) ltac:(lia)).
  all: rewrite u32_small in * by lia.
  { lia. }
  edestruct (IH (Some (tick (ntick s))) (set_ntick (S (ntick s)) (set_nlevel (S (nlevel s)) s)))
    as (s' & w & -> & (? & ? & ? & ?) & Hw); cbn; [lia..| |].
  { intros t2 [= <-]. rewrite elapsed, u32_small; lia. }
  eexists _, _. split; [done|]. split; [|exact Hw]. cbn in *. repeat split; done || lia.
Qed.

(** A wait whose pin changes after [m] reads within the time limit. *)
Lemma wait_while_exact m fuel b n0 last s :
  (n0 < ntick s)%nat → (m <= fuel)%nat →
  (∀ k, (k < m)%nat → level (nlevel s + k) = b) → level (nlevel s + m) = negb b →
  c (pred (ntick s + m)) - c n0 <= TIMEOUT →
  wait_while level tick fuel b (tick n0) last s =
    Ok (set_ntick (ntick s + m) (set_nlevel (S (nlevel s + m)) s),
        Some (if decide (m = 0)%nat then last else Some (tick (pred (ntick s + m))))).
Proof using Htick Hc.
  revert fuel last s. induction m as [|m IH]; intros fuel last s Hn Hf Hb Hnb Hel.
  - rewrite !Nat.add_0_r in *. destruct s as [g h nl nt]. cbn in *.
    destruct fuel; cbn [wait_while lm_gpioread nlevel]; rewrite Hnb; by destruct b.
  - destruct fuel as [|fuel]; [lia|]. cbn [wait_while lm_gpioread TimerValueGet].
    pose proof (Hb 0%nat ltac:(lia)) as Hb0. rewrite Nat.add_0_r in Hb0. rewrite Hb0, Bool.eqb_reflx.
    cbn [ntick set_nlevel]. rewrite elapsed.
    pose proof (clock_mono n0 (ntick s) ltac:(lia)).
    pose proof (clock_mono (ntick s) (pred (ntick s + S m)) ltac:(lia)).
    unfold TIMEOUT in *. rewrite u32_small by lia.
    destruct (Z.ltb_spec 50000000 (c (ntick s) - c n0)); [lia|].
    rewrite IH.
    + destruct s as [g h nl nt]. cbn [ntick nlevel set_ntick set_nlevel] in *. rewrite <- !Nat.add_succ_comm.
      do 3 f_equal. destruct (decide (m = 0)%nat) as [->|]; [|done]. cbn. by rewrite Nat.add_0_r.
    + cbn. lia.
    + lia.
    + intros k Hk. cbn. rewrite <- Nat.add_succ_r. apply Hb. lia.
    + cbn. by rewrite <- Nat.add_succ_r.
    + cbn [ntick set_ntick]. by rewrite Nat.add_succ_comm.
Qed.

(** The echo pin as [pulse_in] reads it from read [n] on: high [a] times (the
    end of an earlier pulse), low 1 + [p] times, high 1 + [q] times, low. *)
Definition echo_trace (n a p q : nat) : Prop :=
  (∀ k, (k < a)%nat → level (n + k) = true) ∧ level (n + a) = false ∧
  (∀ k, (k < p)%nat → level (S (n + a) + k) = false) ∧ level (S (n + a) + p) = true ∧
  (∀ k, (k < q)%nat → level (S (S (n + a) + p) + k) = true) ∧ level (S (S (n + a) + p) + q) = false.

Lemma pulse_in_trace fuel s a p q :
  echo_trace (nlevel s) a p q → (a <= fuel)%nat → (p <= fuel)%nat → (q <= fuel)%nat →
  c (ntick s + a)%nat - c (ntick s) <= TIMEOUT →
  c (S (ntick s + a) + p + q)%nat - c (S (ntick s + a)) <= TIMEOUT →
  pulse_in level tick fuel s =
    if decide (q = 0)%nat then Fault Uninit
    else Ok (set_ntick (S (S (ntick s + a) + p + q)) (set_nlevel (S (S (S (nlevel s + a) + p) + q)) s),
             (c (S (ntick s + a) + p + q)%nat - c (S (ntick s + a))) `div` 85).
Proof using Htick Hc.
  intros (H1 & H2 & H3 & H4 & H5 & H6) Ha Hp Hq Ht1 Ht2. unfold pulse_in. cbn [TimerValueGet].
  rewrite (wait_while_exact a) by (done || cbn; lia). cbn [mbind res_bind TimerValueGet ntick nlevel set_ntick set_nlevel].
  pose proof (clock_mono (S (ntick s + a)) (S (ntick s + a) + p) ltac:(lia)).
  pose proof (clock_mono (S (ntick s + a) + p) (S (ntick s + a) + p + q) ltac:(lia)).
  rewrite Nat.add_succ_l.
  rewrite (wait_while_exact p) by (done || cbn in *; lia). cbn [mbind res_bind TimerValueGet ntick nlevel set_ntick set_nlevel].
  rewrite (wait_while_exact q) by (done || cbn in *; lia). cbn [mbind res_bind ntick nlevel set_ntick set_nlevel].
  destruct (decide (q = 0)%nat); [done|].
  replace (pred (S (S (ntick s + a)) + p + q)) with (S (ntick s + a) + p + q)%nat by lia.
  rewrite elapsed, u32_small; [|unfold TIMEOUT in *; lia]. done.
Qed.

(** ** Theorems: the echo time *)

(** An echo pulse that is seen high at least twice, within the time
    limits: [pulse_in] answers the time from the moment it started to wait
    for the pulse to the last time the pin was seen high, in units of 85
    clock ticks. *)
Theorem pulse_in_width fuel s a p q :
  echo_trace (nlevel s) a p (S q) → (a <= fuel)%nat → (p <= fuel)%nat → (S q <= fuel)%nat →
  c (ntick s + a)%nat - c (ntick s) <= TIMEOUT →
  c (S (ntick s + a) + p + S q)%nat - c (S (ntick s + a)) <= TIMEOUT →
  ∃ s', pulse_in level tick fuel s =
      Ok (s', (c (S (ntick s + a) + p + S q)%nat - c (S (ntick s + a))) `div` 85) ∧ only_reads s s'.
Proof using Htick Hc.
  intros. eexists. split; [by apply (pulse_in_trace fuel s a p (S q))|]. repeat split; cbn; lia.
Qed.

(** A pulse that is over at the first check after its start makes the
    function compute its result from an uninitialised variable. *)
Theorem pulse_in_short_pulse_uninit fuel s a p :
  echo_trace (nlevel s) a p 0 → (a <= fuel)%nat → (p <= fuel)%nat →
  c (ntick s + a)%nat - c (ntick s) <= TIMEOUT →
  c (S (ntick s + a) + p)%nat - c (S (ntick s + a)) <= TIMEOUT →
  pulse_in level tick fuel s = Fault Uninit.
Proof using Htick Hc.
  intros H Ha Hp Ht1 Ht2. rewrite (pulse_in_trace fuel s a p 0); [done|done|lia|lia|lia|done|].
  by rewrite Nat.add_0_r.
Qed.

(** C39: [pulse_in] always ends: with a timer that advances between reads,
    50000000 turns per wait are enough whatever the echo pin does.  It
    answers a width of at most 588235 units, or uses [t2] before any
    assignment to it. *)
Theorem pulse_in_ends s :
  let fuel := Z.to_nat TIMEOUT in
  (∃ s' v, pulse_in level tick fuel s = Ok (s', v) ∧ only_reads s s' ∧ 0 <= v <= 588235) ∨
  pulse_in level tick fuel s = Fault Uninit.
Proof using Htick Hc.
  intros fuel. assert (TIMEOUT = Z.of_nat fuel) as Hf by (unfold fuel; rewrite Z2Nat.id; done). clearbody fuel.
  unfold pulse_in. cbn [TimerValueGet]. set (s1 := set_ntick _ _).
  destruct (wait_while_ends fuel true (ntick s) None s1) as (s2 & w & -> & (? & ? & ? & ?) & Hw); subst s1; cbn;
    [lia|rewrite ?Z.sub_diag; unfold TIMEOUT; lia|lia|done|].
  cbn in *. destruct w as [l|]; [clear Hw|by left; eexists _, _; repeat split; lia || congruence].
  set (s1 := set_ntick _ s2).
  destruct (wait_while_ends fuel false (ntick s2) None s1) as (s3 & w & -> & (? & ? & ? & ?) & Hw); subst s1; cbn;
    [lia|rewrite ?Z.sub_diag; unfold TIMEOUT; lia|lia|done|].
  cbn in *. destruct w as [l2|]; [destruct Hw as [Hw _]|by left; eexists _, _; repeat split; lia || congruence].
  destruct (wait_while_ends fuel true (ntick s2) None s3) as (s4 & w & -> & (? & ? & ? & ?) & Hw'); cbn;
    [lia|lia| |done|].
  { pose proof (clock_mono (ntick s2) (pred (ntick s3)) ltac:(lia)). lia. }
  destruct w as [[t2|]|]; [left|by right|by left; eexists _, _; repeat split; lia || congruence].
  destruct Hw' as [_ Hw']. specialize (Hw' t2 eq_refl). pose proof (u32_range (t2 - tick (ntick s2))).
  eexists _, _. split; [reflexivity|]. unfold TIMEOUT in Hw'. split; [repeat split; lia || congruence|dlia].
Qed.

End timing.

Lemma pulse_in_ends_witness :
  let level := λ n, bool_decide (n = 2 ∨ n = 3)%nat in
  let tick := λ n, u32 (1000 * Z.of_nat n) in
  (∃ s' v, pulse_in level tick (Z.to_nat TIMEOUT) (mkRng [] (mkHW ∅ false 0 []) 0 0) = Ok (s', v)) ∨
  pulse_in level tick (Z.to_nat TIMEOUT) (mkRng [] (mkHW ∅ false 0 []) 0 0) = Fault Uninit.
Proof.
  intros level tick.
  destruct (pulse_in_ends level tick (λ n, 1000 * Z.of_nat n)) with (s := mkRng [] (mkHW ∅ false 0 []) 0 0)
    as [(s' & v & H & _)|H].
  - done.
  - intros n. lia.
  - left. eauto.
  - by right.
Defined.

(** ** Lemmas: the report text *)

(** What the sensors of the table [l] (with their numbers) answer, without
    the text buffer. *)
Fixpoint survey (level : nat → bool) (tick : nat → Z) (fuel : nat) (l : list Z) (s : RNG)
    : res (RNG * list (Z * Z)) :=
  match l with
  | [] => Ok (s, [])
  | i :: l =>
      r ← aget (g_ranges s) i;
      if decide (state r = RANGE_STATE_ENABLED) then
        '(s, dist) ← measure level tick fuel r s;
        '(s, ds) ← survey level tick fuel l s;
        Ok (s, (i, if dist <? 4000 then dist else 0) :: ds)
      else survey level tick fuel l s
  end.

Definition text (ds : list (Z * Z)) : list Z := ds ≫= λ d, report d.1 d.2.

(** A report of sensor [i] < 4 with a distance below 4000 has at most nine
    characters and no zero byte. *)
Definition good_report (i d : Z) : bool :=
  (length (report i d) <=? 9)%nat && forallb (λ c, negb (c =? 0)) (report i d).

Lemma good_reports : forallb (λ i, forallb (good_report i) (seqZ 0 4000)) (seqZ 0 4) = true.
Proof. vm_compute. reflexivity. Qed.

Lemma report_good i d :
  0 <= i < 4 → 0 <= d < 4000 →
  (length (report i d) <= 9)%nat ∧ Forall (λ c, c ≠ 0) (report i d).
Proof.
  intros Hi Hd. pose proof good_reports as H.
  rewrite forallb_forall in H. specialize (H i). rewrite forallb_forall in H.
  assert (good_report i d = true) as Hg.
  { apply H; apply list_elem_of_In, elem_of_seqZ; lia. }
  apply andb_prop in Hg as [Hl Hf]. apply Nat.leb_le in Hl. split; [done|].
  rewrite forallb_forall in Hf. apply Forall_forall. intros c Hc. apply list_elem_of_In in Hc.
  specialize (Hf c Hc). by destruct (Z.eqb_spec c 0).
Qed.

(** The end of the buffer after the copy of a report into its last [n]
    bytes, which began with the terminator. *)
Definition written (n : nat) (src rest : list Z) : list Z :=
  let data := take n (src ++ [0]) in data ++ drop (length data) (0 :: rest).

Lemma strncpy_report (pre rest src : list Z) :
  let n := S (length rest) in
  strncpy (pre ++ 0 :: rest) (Z.of_nat (length pre)) src (Z.of_nat n) = Ok (pre ++ written n src rest).
Proof.
  intros n. unfold strncpy, written. rewrite (proj2 (Z.eqb_neq (Z.of_nat n) 0)), Nat2Z.id by lia.
  set (data := take n (src ++ [0])). rewrite <- (take_drop (length data) (0 :: rest)) at 1. apply store_block.
  rewrite length_take. subst data. rewrite length_take. cbn [length]. lia.
Qed.

Lemma written_fits src rest :
  (length src <= length rest)%nat → written (S (length rest)) src rest = src ++ 0 :: drop (length src) rest.
Proof.
  intros H. unfold written. rewrite take_ge by (rewrite length_app; cbn; lia).
  rewrite length_app, Nat.add_comm, <- app_assoc. done.
Qed.

Lemma written_full src rest :
  (length rest < length src)%nat → written (S (length rest)) src rest = take (S (length rest)) src.
Proof.
  intros H. unfold written. rewrite take_app_le by lia. rewrite drop_ge; [by rewrite app_nil_r|].
  rewrite length_take. cbn [length]. lia.
Qed.

Section report.
Context (level : nat → bool) (tick : nat → Z) (fuel : nat) (buflen : Z).
Context (Hbuf : 0 < buflen < 4294967296).

Lemma pulse_in_nonneg s s' w : pulse_in level tick fuel s = Ok (s', w) → 0 <= w.
Proof.
  unfold pulse_in. intros H. cbn [TimerValueGet] in H.
  repeat (case_match || (apply bind_ok_iff in H as ([? ?] & ? & H))); simplify_eq; try done.
  match goal with |- 0 <= u32 ?z `div` 85 => pose proof (u32_range z); dlia end.
Qed.

Lemma measure_nonneg r s s' d : measure level tick fuel r s = Ok (s', d) → 0 <= d.
Proof.
  unfold measure. cbn [irqsave]. intros H. apply bind_ok_iff in H as ([s1 w] & Hp & H).
  apply pulse_in_nonneg in Hp. simplify_eq. unfold distance. dlia.
Qed.

(** The reported distances are those of the display format. *)
Lemma survey_good l s s' ds :
  survey level tick fuel l s = Ok (s', ds) → Forall (λ i, 0 <= i < 4) l →
  Forall (λ d, 0 <= d.1 < 4 ∧ 0 <= d.2 < 4000) ds.
Proof.
  revert s ds. induction l as [|i l IH]; intros s ds H Hl; cbn [survey] in H; [by simplify_eq; constructor|].
  apply Forall_cons in Hl as [Hi Hl]. apply bind_ok_iff in H as (r & Hr & H). case_decide; [|by eapply IH].
  apply bind_ok_iff in H as ([s1 d] & Hm & H). apply bind_ok_iff in H as ([s2 ds'] & Hs & H). simplify_eq.
  constructor; [|by eapply IH]. apply measure_nonneg in Hm. cbn. destruct (Z.ltb_spec d 4000); lia.
Qed.

Lemma survey_length l s s' ds :
  survey level tick fuel l s = Ok (s', ds) → (length ds <= length l)%nat.
Proof.
  revert s ds. induction l as [|i l IH]; intros s ds H; cbn [survey] in H; [by simplify_eq|].
  apply bind_ok_iff in H as (r & Hr & H). case_decide; [|cbn; apply IH in H; lia].
  apply bind_ok_iff in H as ([s1 d] & Hm & H). apply bind_ok_iff in H as ([s2 ds'] & Hs & H). simplify_eq.
  apply IH in Hs. cbn. lia.
Qed.

Lemma report_length i d : ∃ n, length (report i d) = S n.
Proof. unfold report, bytes. rewrite length_fmap. cbn. eauto. Qed.

Lemma text_cons d ds : text (d :: ds) = report d.1 d.2 ++ text ds.
Proof. done. Qed.

Lemma text_good ds :
  Forall (λ d, 0 <= d.1 < 4 ∧ 0 <= d.2 < 4000) ds →
  Forall (λ c, c ≠ 0) (text ds) ∧ (length (text ds) <= 9 * length ds)%nat.
Proof.
  induction 1 as [|d ds [Hi Hd] _ [IH1 IH2]]; [done|]. rewrite text_cons.
  destruct (report_good d.1 d.2 Hi Hd) as [Hl Hf].
  split; [by apply Forall_app|]. rewrite length_app. cbn [length]. lia.
Qed.

(** One enabled sensor in a buffer that holds the text [txt]. *)
Lemma read_one_enabled i r s s' d txt rest :
  aget (g_ranges s) i = Ok r → state r = RANGE_STATE_ENABLED → measure level tick fuel r s = Ok (s', d) →
  Forall (λ c, c ≠ 0) txt → Z.of_nat (length txt + S (length rest)) = buflen →
  let src := report i (if d <? 4000 then d else 0) in
  let n := S (length rest) in
  read_one level tick fuel buflen i (s, txt ++ 0 :: rest, Z.of_nat (length txt)) =
    Ok (s', txt ++ written n src rest, Z.of_nat (length (txt ++ src))).
Proof using Hbuf.
  intros Hr He Hm Ht Hl src n. unfold read_one. rewrite Hr, bind_ok, decide_True by done.
  rewrite Hm, bind_ok, strlen_app, bind_ok by done. fold src. rewrite u32_small by lia.
  replace (buflen - Z.of_nat (length txt)) with (Z.of_nat n) by lia.
  rewrite strncpy_report, bind_ok. rewrite length_app. do 3 f_equal. lia.
Qed.

Lemma read_one_disabled i r s b ptr :
  aget (g_ranges s) i = Ok r → state r ≠ RANGE_STATE_ENABLED →
  read_one level tick fuel buflen i (s, b, ptr) = Ok (s, b, ptr).
Proof. intros Hr He. unfold read_one. by rewrite Hr, bind_ok, decide_False. Qed.

(** The loop of [range_read] while the text fits. *)
Lemma read_loop_fits l s s' ds txt rest :
  survey level tick fuel l s = Ok (s', ds) → Forall (λ i, 0 <= i < 4) l → Forall (λ c, c ≠ 0) txt →
  Z.of_nat (length txt + S (length rest)) = buflen → Z.of_nat (length (txt ++ text ds)) < buflen →
  ∃ rest', forM l (read_one level tick fuel buflen) (s, txt ++ 0 :: rest, Z.of_nat (length txt)) =
      Ok (s', (txt ++ text ds) ++ 0 :: rest', Z.of_nat (length (txt ++ text ds))) ∧
    Z.of_nat (length (txt ++ text ds) + S (length rest')) = buflen.
Proof using Hbuf.
  revert s ds txt rest. induction l as [|i l IH]; intros s ds txt rest H Hl Ht Hlen Hfit; cbn [survey] in H.
  { injection H as -> <-. exists rest. cbn [forM text mbind list_bind]. by rewrite app_nil_r. }
  apply Forall_cons in Hl as [Hi Hl]. apply bind_ok_iff in H as (r & Hr & H). cbn [forM]. case_decide.
  - apply bind_ok_iff in H as ([s1 d] & Hm & H). apply bind_ok_iff in H as ([s2 ds'] & Hs & H). injection H as -> <-.
    rewrite (read_one_enabled i r s s1 d), bind_ok by done. rewrite text_cons, app_assoc in *. cbn [fst snd] in *.
    set (src := report i _) in *.
    assert (length src <= length rest)%nat by (rewrite !length_app in Hfit; lia).
    rewrite written_fits, app_assoc by done. apply IH; [done|done| | |done].
    + apply Forall_app. split; [done|]. apply report_good; [done|]. apply measure_nonneg in Hm.
      destruct (Z.ltb_spec d 4000); lia.
    + rewrite length_app, length_drop. lia.
  - rewrite (read_one_disabled i r) by done. rewrite bind_ok. by eapply IH.
Qed.

(** An unterminated buffer stays as it is or is read past its end. *)
Lemma read_loop_full l s s' ds b ptr :
  survey level tick fuel l s = Ok (s', ds) → Forall (λ c, c ≠ 0) b →
  forM l (read_one level tick fuel buflen) (s, b, ptr) = Fault OutOfBounds ∨
  forM l (read_one level tick fuel buflen) (s, b, ptr) = Ok (s', b, ptr).
Proof.
  revert s ds. induction l as [|i l IH]; intros s ds H Hb; cbn [survey] in H; [simplify_eq; by right|].
  apply bind_ok_iff in H as (r & Hr & H). cbn [forM]. case_decide.
  - apply bind_ok_iff in H as ([s1 d] & Hm & H). left. unfold read_one.
    by rewrite Hr, bind_ok, decide_True, Hm, bind_ok, strlen_unterminated.
  - rewrite (read_one_disabled i r) by done. by eapply IH.
Qed.

(** The loop once the text does not fit. *)
Lemma read_loop_overflow l s s' ds txt rest :
  survey level tick fuel l s = Ok (s', ds) → Forall (λ i, 0 <= i < 4) l → Forall (λ c, c ≠ 0) txt →
  Z.of_nat (length txt + S (length rest)) = buflen → buflen <= Z.of_nat (length (txt ++ text ds)) →
  forM l (read_one level tick fuel buflen) (s, txt ++ 0 :: rest, Z.of_nat (length txt)) = Fault OutOfBounds ∨
  ∃ b ptr, forM l (read_one level tick fuel buflen) (s, txt ++ 0 :: rest, Z.of_nat (length txt)) = Ok (s', b, ptr) ∧
    Forall (λ c, c ≠ 0) b ∧ 0 < ptr.
Proof using Hbuf.
  revert s ds txt rest. induction l as [|i l IH]; intros s ds txt rest H Hl Ht Hlen Hfit; cbn [survey] in H.
  { injection H as -> <-. cbn [text mbind list_bind] in Hfit. rewrite app_nil_r in Hfit. lia. }
  apply Forall_cons in Hl as [Hi Hl]. apply bind_ok_iff in H as (r & Hr & H). cbn [forM]. case_decide.
  2: { rewrite (read_one_disabled i r) by done. rewrite bind_ok. by eapply IH. }
  apply bind_ok_iff in H as ([s1 d] & Hm & H). apply bind_ok_iff in H as ([s2 ds'] & Hs & H). injection H as -> <-.
  rewrite (read_one_enabled i r s s1 d), bind_ok by done. rewrite text_cons, app_assoc in *. cbn [fst snd] in *.
  assert (Forall (λ c, c ≠ 0) (report i (if d <? 4000 then d else 0))) as Hg.
  { apply report_good; [done|]. apply measure_nonneg in Hm. destruct (Z.ltb_spec d 4000); lia. }
  set (src := report i _) in *.
  destruct (decide (length src <= length rest)%nat) as [Hle|Hgt].
  - rewrite written_fits, app_assoc by done. apply (IH _ ds'); [done|done| | |done].
    + by apply Forall_app.
    + rewrite length_app, length_drop. lia.
  - rewrite written_full by lia.
    destruct (read_loop_full l s1 s' ds' (txt ++ take (S (length rest)) src) (Z.of_nat (length (txt ++ src))))
      as [Hf|Hf]; [done| |by left|right].
    + apply Forall_app. split; [done|]. by apply Forall_take.
    + rewrite Hf. eexists _, _. split; [done|]. split; [|rewrite length_app; lia].
      apply Forall_app. split; [done|]. by apply Forall_take.
Qed.

End report.

(** ** Theorems: reading, attaching, closing *)

Lemma range_read_ok level tick fuel buff s s' ds :
  survey level tick fuel (seqZ 0 RANGE_MAX_COUNT) (set_hw (sched_lock (hw s)) s) = Ok (s', ds) →
  0 < Z.of_nat (length buff) < 4294967296 →
  (length (text ds) < length buff ∨ 37 <= length buff)%nat →
  ∃ rest, range_read level tick fuel buff (Z.of_nat (length buff)) s =
      Ok (set_hw (sched_unlock (hw s')) s', text ds ++ 0 :: rest,
          if decide (ds = []) then 0 else Z.of_nat (length (text ds)) + 1) ∧
    length (text ds ++ 0 :: rest) = length buff.
Proof.
  intros Hs Hb Hfit.
  assert (Forall (λ i, 0 <= i < 4) (seqZ 0 RANGE_MAX_COUNT)) as Hl.
  { apply Forall_forall. intros i Hi. apply elem_of_seqZ in Hi. unfold RANGE_MAX_COUNT in Hi. lia. }
  destruct (text_good ds (survey_good _ _ _ _ _ _ _ Hs Hl)) as [Hg H9].
  pose proof (survey_length _ _ _ _ _ _ _ Hs) as H4. change (length (seqZ 0 RANGE_MAX_COUNT)) with 4%nat in H4.
  destruct buff as [|c0 buff]; [cbn in Hb; lia|]. unfold range_read.
  change (aset (c0 :: buff) 0 0) with (Ok (0 :: buff)). rewrite bind_ok.
  destruct (read_loop_fits level tick fuel _ Hb _ _ _ _ [] buff Hs Hl) as (rest & Hrun & Hlen);
    [done|cbn [length]; lia|cbn [length app] in *; lia|].
  cbn [app] in Hrun, Hlen. change (Z.of_nat (length (@nil Z))) with 0 in Hrun. rewrite Hrun, bind_ok.
  exists rest. split; [|rewrite length_app; cbn [length] in *; lia].
  destruct (Z.eqb_spec (Z.of_nat (length (text ds))) 0) as [E|E].
  - destruct ds as [|d ds]; [done|]. exfalso. rewrite text_cons, length_app in E. destruct (report_length d.1 d.2) as [k Hk]. lia.
  - rewrite decide_False by (intros ->; done). by rewrite strlen_app, bind_ok.
Qed.

(** Reading the sensors with a buffer longer than the text: if the
    measurements of the enabled sensors are [ds], the buffer holds the
    reports of [ds] in order, zero-terminated, the result is the length of
    the text with its terminator (0 when no sensor is attached), and the
    scheduler lock is released.  37 bytes are always enough. *)
Theorem range_read_report level tick fuel buff s s' ds :
  survey level tick fuel (seqZ 0 RANGE_MAX_COUNT) (set_hw (sched_lock (hw s)) s) = Ok (s', ds) →
  0 < Z.of_nat (length buff) < 4294967296 →
  (length (text ds) < length buff ∨ 37 <= length buff)%nat →
  ∃ rest, range_read level tick fuel buff (Z.of_nat (length buff)) s =
      Ok (set_hw (sched_unlock (hw s')) s', text ds ++ 0 :: rest,
          if decide (ds = []) then 0 else Z.of_nat (length (text ds)) + 1) ∧
    length (text ds ++ 0 :: rest) = length buff.
Proof. apply range_read_ok. Qed.

Lemma range_read_report_witness :
  let level := λ n, bool_decide (n = 2 ∨ n = 3)%nat in
  let tick := λ n, u32 (50000 * Z.of_nat n) in
  let s := mkRng (mkRange 1 2 3 4 0 RANGE_STATE_ENABLED :: replicate 3 range_zero) (mkHW ∅ false 0 []) 0 0 in
  ∃ s' rest, range_read level tick 9 (replicate 40 1) 40 s = Ok (s', bytes "(0 224) " ++ 0 :: rest, 9).
Proof.
  intros level tick s. edestruct (range_read_report level tick 9 (replicate 40 1) s) as (rest & H & _).
  - run_eq.
  - done.
  - right. apply Nat.leb_le. reflexivity.
  - eexists _, rest. exact H.
Defined.

(** With a buffer that is not longer than the text, the read runs past
    the end of the buffer looking for the terminator [strncpy] did not
    write. *)
Theorem range_read_short_buffer level tick fuel buff s s' ds :
  survey level tick fuel (seqZ 0 RANGE_MAX_COUNT) (set_hw (sched_lock (hw s)) s) = Ok (s', ds) →
  0 < Z.of_nat (length buff) < 4294967296 →
  (length buff <= length (text ds))%nat →
  range_read level tick fuel buff (Z.of_nat (length buff)) s = Fault OutOfBounds.
Proof.
  intros Hs Hb Hfit.
  assert (Forall (λ i, 0 <= i < 4) (seqZ 0 RANGE_MAX_COUNT)) as Hl.
  { apply Forall_forall. intros i Hi. apply elem_of_seqZ in Hi. unfold RANGE_MAX_COUNT in Hi. lia. }
  destruct buff as [|c0 buff]; [cbn in Hb; lia|]. unfold range_read.
  change (aset (c0 :: buff) 0 0) with (Ok (0 :: buff)). rewrite bind_ok.
  destruct (read_loop_overflow level tick fuel _ Hb _ _ _ _ [] buff Hs Hl) as [Hrun|(b & ptr & Hrun & Hz & Hp)];
    [done|cbn [length]; lia|cbn [length app] in *; lia| |];
    cbn [app] in Hrun; change (Z.of_nat (length (@nil Z))) with 0 in Hrun; rewrite Hrun; [done|].
  rewrite bind_ok, (proj2 (Z.eqb_neq _ _)) by lia. by rewrite strlen_unterminated.
Qed.

(** Timer 5 is stopped. *)
Definition range_quiet (s : RNG) : Prop := running TIMER5_BASE (hw s) = false.

#[export] Instance range_quiet_lower level tick :
  QuietLower (op_setup (g_rangeops level tick)) (op_shutdown (g_rangeops level tick)) range_quiet.
Proof.
  split.
  - intros l l' r H Hr _. cbn [op_setup g_rangeops] in H. unfold range_setup in H.
    apply bind_ok_iff in H as (t & _ & [= <- <-]). unfold OK in Hr. lia.
  - intros l l' r [= <- <-]. apply running_disable.
Qed.

(** From its registration with timer 5 stopped, after any sequence of
    opens, closes and uses, the open count is the number of open
    descriptors, the semaphore is free, and with no descriptor open timer 5
    is stopped. *)
Theorem range_last_close_stops level tick reg g u s :
  range_quiet g → range_register true reg g = (Some u, reg) →
  rtc (up_step (op_setup (g_rangeops level tick)) (op_shutdown (g_rangeops level tick))) (u, 0) s →
  crefs (s.1) = s.2 ∧ 0 <= s.2 <= 255 ∧ exclsem (s.1) = 1 ∧ (s.2 = 0 → range_quiet (dev (s.1))).
Proof.
  intros Hq Hu Hr. exact (up_reachable_inv _ _ range_quiet reg _ g u s Hq Hu Hr).
Qed.

(** Attaching sensor [id] makes it, and no other sensor, enabled with the
    requested pins; detaching it gives the table of the fresh device back. *)
Theorem range_attach_detach info s :
  0 <= id info < RANGE_MAX_COUNT → g_ranges s = replicate 4 range_zero →
  ∃ s1 s2 r, range_attach info s = Ok (s1, OK) ∧
    g_ranges s1 = <[Z.to_nat (id info) := r]> (g_ranges s) ∧ state r = RANGE_STATE_ENABLED ∧
    (trig_port r, trig_pin r, echo_port r, echo_pin r) =
      (i_trig_port info, i_trig_pin info, i_echo_port info, i_echo_pin info) ∧
    range_detach info s1 = Ok (s2, OK) ∧ g_ranges s2 = g_ranges s.
Proof.
  intros Hi Hg. unfold RANGE_MAX_COUNT in Hi.
  assert (replicate 4 range_zero !! Z.to_nat (id info) = Some range_zero) as Hz by (apply lookup_replicate; split; [done|lia]).
  assert (∀ (l : list range_t), aget l (id info) = aget l (Z.of_nat (Z.to_nat (id info)))) as Ha by (intros; by rewrite Z2Nat.id by lia).
  assert (∀ (l : list range_t) x, aset l (id info) x = aset l (Z.of_nat (Z.to_nat (id info))) x) as Hs by (intros; by rewrite Z2Nat.id by lia).
  unfold range_attach, range_detach, RANGE_MAX_COUNT. rewrite (proj2 (Z.leb_gt _ _)), Hg by lia.
  rewrite Ha, (aget_some _ _ _ Hz), bind_ok, Hs, aset_some, bind_ok by (rewrite length_replicate; lia).
  eexists _, _, _. split; [done|]. split; [done|]. split; [done|]. split; [done|].
  cbn [set_hw set_g_ranges g_ranges]. rewrite Ha.
  erewrite aget_some by (apply list_lookup_insert_eq; rewrite length_replicate; lia).
  rewrite bind_ok, Hs, aset_some, bind_ok by (rewrite length_insert, length_replicate; lia).
  split; [done|]. cbn [set_g_ranges g_ranges value]. rewrite list_insert_insert_eq. by apply list_insert_id.
Qed.

End Range.
