(* ===== verification/NuttxI2c.v ===== *)
(** * The I2C master of the LM4F120 board

    Models configs/lm4f120-launchpad/src/up_i2c.c.  The bus is a parameter:
    [hangs n] says that the [n]-th wait for the controller never ends,
    [err n] is the error status and [data n] the data register after the
    [n]-th wait.  The commands given to the controller are logged. *)
From S2P Require Import Prelude FunkKernel NuttxUpper.

Module I2c.
Import Hw Upper.

Definition I2C_MASTER_CMD_SINGLE_SEND : Z := 0x07.
Definition I2C_MASTER_CMD_SINGLE_RECEIVE : Z := 0x07.
Definition I2C_MASTER_CMD_BURST_SEND_START : Z := 0x03.
Definition I2C_MASTER_CMD_BURST_SEND_CONT : Z := 0x01.
Definition I2C_MASTER_CMD_BURST_SEND_FINISH : Z := 0x05.
Definition I2C_MASTER_CMD_BURST_RECEIVE_START : Z := 0x0b.
Definition I2C_MASTER_CMD_BURST_RECEIVE_CONT : Z := 0x09.
Definition I2C_MASTER_CMD_BURST_RECEIVE_FINISH : Z := 0x05.
Definition I2C_MASTER_ERR_NONE : Z := 0.
Definition I2C1_MASTER_BASE : Z := 0x40021000.
Definition SYSCTL_PERIPH_I2C0 : Z := 0x10001000.
Definition SYSCTL_PERIPH_I2C1 : Z := 0x10004000.
Definition SYSCTL_PERIPH_I2C2 : Z := 0xf0002002.
Definition SYSCTL_PERIPH_I2C3 : Z := 0xf0002003.
Definition SYSCTL_PERIPH_GPIOA : Z := 0x20000001.
Definition GPIO_PORTA_BASE : Z := 0x40004000.
Definition GPIO_PA6_I2C1SCL : Z := 0x00001803.
Definition GPIO_PA7_I2C1SDA : Z := 0x00001C03.

(** The device structure, with the hardware and the number of waits. *)
Record lm4f_i2cdev_s : Type := mkI2c {
  base : Z;
  address : Z;
  nbits : Z
}.

Record BUS : Type := mkBus {
  hw : HW;
  nwait : nat
}.

Definition emit (f : string) (args : list Z) (b : BUS) : BUS := mkBus (log f args (hw b)) (nwait b).

(** ** Configuration *)

Definition i2c_setfrequency (clk frequency : Z) (priv : lm4f_i2cdev_s) (b : BUS) : BUS * Z :=
  if frequency =? 400 then (emit "I2CMasterInitExpClk" [base priv; clk; 1] b, 400)
  else (emit "I2CMasterInitExpClk" [base priv; clk; 0] b, frequency).

Definition i2c_setaddress (addr nb : Z) (priv : lm4f_i2cdev_s) : lm4f_i2cdev_s * Z :=
  (mkI2c (base priv) (u8 addr) (u8 nb), OK).

(** ** Transfers *)

Section bus.
Context (hangs : nat → bool) (err data : nat → Z).

(** [while(I2CMasterBusy(priv->base));] *)
Definition wait (b : BUS) : res BUS :=
  if hangs (nwait b) then Fault Blocked else Ok (mkBus (hw b) (S (nwait b))).

Definition I2CMasterErr (b : BUS) : Z := err (pred (nwait b)).
Definition I2CMasterDataGet (b : BUS) : Z := data (pred (nwait b)).

(** The command word for the byte at [n]: kept from the previous turn
    ([opt]) unless one of the three tests sets it. *)
Definition option_command (cont finish single n buflen opt : Z) : Z :=
  let opt := if n =? 1 then cont else opt in
  let opt := if n =? buflen - 1 then finish else opt in
  if buflen =? 1 then single else opt.

(** The loop of [i2c_write] from byte [n]; the counter is a [uint8_t]. *)
Fixpoint write_loop (fuel : nat) (priv : lm4f_i2cdev_s) (buffer : list Z) (buflen n opt : Z) (b : BUS)
    : res (BUS * Z) :=
  if n <? buflen then
    match fuel with
    | O => Fault OutOfFuel
    | S fuel =>
        let opt := option_command I2C_MASTER_CMD_BURST_SEND_CONT I2C_MASTER_CMD_BURST_SEND_FINISH
                     I2C_MASTER_CMD_SINGLE_SEND n buflen opt in
        x ← aget buffer n;
        let b := emit "I2CMasterDataPut" [base priv; x] b in
        let b := emit "I2CMasterControl" [base priv; opt] b in
        b ← wait b;
        if negb (I2CMasterErr b =? I2C_MASTER_ERR_NONE) then Ok (b, - ETIMEDOUT)
        else write_loop fuel priv buffer buflen (u8 (n + 1)) opt b
    end
  else Ok (b, OK).

Definition i2c_write (fuel : nat) (priv : lm4f_i2cdev_s) (buffer : list Z) (buflen : Z) (b : BUS)
    : res (BUS * Z) :=
  b ← wait b;
  let b := emit "I2CMasterSlaveAddrSet" [base priv; address priv; 0] b in
  let b := emit "I2CMasterDataPut" [base priv; nbits priv] b in
  let b := emit "I2CMasterControl" [base priv; I2C_MASTER_CMD_BURST_SEND_START] b in
  b ← wait b;
  if negb (I2CMasterErr b =? I2C_MASTER_ERR_NONE) then Ok (b, - ETIMEDOUT)
  else write_loop fuel priv buffer buflen 0 I2C_MASTER_CMD_BURST_SEND_CONT b.

Fixpoint read_loop (fuel : nat) (priv : lm4f_i2cdev_s) (buffer : list Z) (buflen n opt : Z) (b : BUS)
    : res (BUS * list Z * Z) :=
  if n <? buflen then
    match fuel with
    | O => Fault OutOfFuel
    | S fuel =>
        let opt := option_command I2C_MASTER_CMD_BURST_RECEIVE_CONT I2C_MASTER_CMD_BURST_RECEIVE_FINISH
                     I2C_MASTER_CMD_SINGLE_RECEIVE n buflen opt in
        let b := emit "I2CMasterControl" [base priv; opt] b in
        b ← wait b;
        if negb (I2CMasterErr b =? I2C_MASTER_ERR_NONE) then Ok (b, buffer, - ETIMEDOUT)
        else
          buffer ← aset buffer n (u8 (I2CMasterDataGet b));
          read_loop fuel priv buffer buflen (u8 (n + 1)) opt b
    end
  else Ok (b, buffer, OK).

Definition i2c_read (fuel : nat) (priv : lm4f_i2cdev_s) (buffer : list Z) (buflen : Z) (b : BUS)
    : res (BUS * list Z * Z) :=
  b ← wait b;
  let b := emit "I2CMasterSlaveAddrSet" [base priv; address priv; 0] b in
  let b := emit "I2CMasterDataPut" [base priv; nbits priv] b in
  let b := emit "I2CMasterControl" [base priv; I2C_MASTER_CMD_SINGLE_SEND] b in
  b ← wait b;
  if negb (I2CMasterErr b =? I2C_MASTER_ERR_NONE) then Ok (b, buffer, - ETIMEDOUT)
  else
    let b := emit "I2CMasterSlaveAddrSet" [base priv; address priv; 1] b in
    read_loop fuel priv buffer buflen 0 I2C_MASTER_CMD_BURST_RECEIVE_START b.

End bus.

(** ** Initialisation *)

(** The ports compiled in (CONFIG_LMM4F_I2C0 to 3). *)
Record CONFIG : Type := mkConfig { cfg0 : bool; cfg1 : bool; cfg2 : bool; cfg3 : bool }.

(** [g_i2c0dev] and [g_i2c1dev]; the answer names the structure returned. *)
Record DEVS : Type := mkDevs { g_i2c0dev : lm4f_i2cdev_s; g_i2c1dev : lm4f_i2cdev_s }.

Definition set_base (v : Z) (d : lm4f_i2cdev_s) : lm4f_i2cdev_s := mkI2c v (address d) (nbits d).

Definition up_i2cinitialize (cfg : CONFIG) (port : Z) (d : DEVS) (b : BUS) : DEVS * BUS * ptr :=
  if 3 <? port then (d, b, NULL)
  else if cfg0 cfg && (port =? 0) then
    (mkDevs (set_base I2C1_MASTER_BASE (g_i2c0dev d)) (g_i2c1dev d),
     emit "SysCtlPeripheralEnable" [SYSCTL_PERIPH_I2C0] b, Some 0%nat)
  else if cfg1 cfg && (port =? 1) then
    (mkDevs (g_i2c0dev d) (set_base I2C1_MASTER_BASE (g_i2c1dev d)),
     emit "SysCtlPeripheralEnable" [SYSCTL_PERIPH_I2C1]
      (emit "GPIOPinConfigure" [GPIO_PA7_I2C1SDA]
       (emit "GPIOPinConfigure" [GPIO_PA6_I2C1SCL]
        (emit "GPIOPinTypeI2C" [GPIO_PORTA_BASE; 0x80]
         (emit "GPIOPinTypeI2CSCL" [GPIO_PORTA_BASE; 0x40]
          (emit "SysCtlPeripheralEnable" [SYSCTL_PERIPH_GPIOA] b))))), Some 1%nat)
  else if cfg2 cfg && (port =? 2) then
    (mkDevs (set_base I2C1_MASTER_BASE (g_i2c0dev d)) (g_i2c1dev d),
     emit "SysCtlPeripheralEnable" [SYSCTL_PERIPH_I2C2] b, Some 0%nat)
  else if cfg3 cfg && (port =? 0) then
    (mkDevs (set_base I2C1_MASTER_BASE (g_i2c0dev d)) (g_i2c1dev d),
     emit "SysCtlPeripheralEnable" [SYSCTL_PERIPH_I2C3] b, Some 0%nat)
  else (d, b, NULL).

Definition up_i2cuninitialize (d : DEVS) : DEVS * Z := (d, OK).

(** ** Lemmas: the command sequence *)

(** The command that goes with byte [i] of a transfer of [buflen] bytes. *)
Definition cmd_at (first cont finish single buflen i : Z) : Z :=
  if buflen =? 1 then single else if i =? buflen - 1 then finish else if i =? 0 then first else cont.

(** What the command word is before byte [n]. *)
Definition opt_before (first cont n opt : Z) : Prop :=
  (n = 0 ∧ opt = first) ∨ n = 1 ∨ (2 <= n ∧ opt = cont).

Lemma option_command_at first cont finish single n buflen opt :
  0 <= n < buflen → opt_before first cont n opt →
  option_command cont finish single n buflen opt = cmd_at first cont finish single buflen n.
Proof.
  unfold opt_before, option_command, cmd_at. intros Hn Ho.
  destruct (Z.eqb_spec buflen 1); [done|]. destruct (Z.eqb_spec n (buflen - 1)); [done|].
  destruct (Z.eqb_spec n 1), (Z.eqb_spec n 0); lia || done.
Qed.

Lemma opt_before_next first cont finish single n buflen :
  0 <= n → n + 1 < buflen → opt_before first cont (n + 1) (cmd_at first cont finish single buflen n).
Proof.
  unfold opt_before, cmd_at. intros Hn Hb.
  destruct (Z.eqb_spec buflen 1); [lia|]. destruct (Z.eqb_spec n (buflen - 1)); [lia|].
  destruct (Z.eqb_spec n 0); [right; left; lia|right; right; split; [lia|done]].
Qed.

Definition send_cmd := cmd_at I2C_MASTER_CMD_BURST_SEND_CONT I2C_MASTER_CMD_BURST_SEND_CONT
  I2C_MASTER_CMD_BURST_SEND_FINISH I2C_MASTER_CMD_SINGLE_SEND.
Definition recv_cmd := cmd_at I2C_MASTER_CMD_BURST_RECEIVE_START I2C_MASTER_CMD_BURST_RECEIVE_CONT
  I2C_MASTER_CMD_BURST_RECEIVE_FINISH I2C_MASTER_CMD_SINGLE_RECEIVE.

(** The controller calls for the bytes [n], ..., [n+m-1]. *)
Definition send_calls (priv : lm4f_i2cdev_s) (buffer : list Z) (buflen : Z) (n m : nat) : list call :=
  seq n m ≫= λ i, [("I2CMasterDataPut", [base priv; buffer !!! i]);
                   ("I2CMasterControl", [base priv; send_cmd buflen (Z.of_nat i)])].
Definition recv_calls (priv : lm4f_i2cdev_s) (buflen : Z) (n m : nat) : list call :=
  (λ i, ("I2CMasterControl", [base priv; recv_cmd buflen (Z.of_nat i)])) <$> seq n m.

Section transfer.
Context (hangs : nat → bool) (err data : nat → Z) (priv : lm4f_i2cdev_s).

(** The waits [k], ..., [k+m-1] end without error. *)
Definition quiet_bus (k m : nat) : Prop :=
  ∀ j, (k <= j < k + m)%nat → hangs j = false ∧ err j = I2C_MASTER_ERR_NONE.

Lemma quiet_bus_cons k m : quiet_bus k (S m) → hangs k = false ∧ err k = I2C_MASTER_ERR_NONE ∧ quiet_bus (S k) m.
Proof. intros H. destruct (H k ltac:(lia)). split; [done|]. split; [done|]. intros j Hj. apply H. lia. Qed.

Lemma write_loop_steps m fuel buffer (n : nat) opt b :
  let buflen := Z.of_nat (length buffer) in
  (n + m <= length buffer)%nat → (n + m < 256)%nat → quiet_bus (nwait b) m →
  opt_before I2C_MASTER_CMD_BURST_SEND_CONT I2C_MASTER_CMD_BURST_SEND_CONT (Z.of_nat n) opt →
  ∃ b' opt',
    write_loop hangs err (m + fuel) priv buffer buflen (Z.of_nat n) opt b =
      write_loop hangs err fuel priv buffer buflen (Z.of_nat (n + m)) opt' b' ∧
    nwait b' = (nwait b + m)%nat ∧ calls (hw b') = calls (hw b) ++ send_calls priv buffer buflen n m ∧
    ((n + m < length buffer)%nat →
     opt_before I2C_MASTER_CMD_BURST_SEND_CONT I2C_MASTER_CMD_BURST_SEND_CONT (Z.of_nat (n + m)) opt').
Proof.
  intros buflen. revert n opt b. induction m as [|m IH]; intros n opt b Hlen H8 Hq Ho.
  { exists b, opt. rewrite !Nat.add_0_r. cbn. by rewrite app_nil_r. }
  apply quiet_bus_cons in Hq as (Hh & He & Hq).
  destruct (lookup_lt_is_Some_2 buffer n ltac:(lia)) as [x Hx].
  cbn [write_loop Nat.add]. rewrite (proj2 (Z.ltb_lt _ _)) by lia.
  rewrite (aget_some _ _ _ Hx), bind_ok. unfold wait. cbn [emit nwait hw]. rewrite Hh, bind_ok.
  unfold I2CMasterErr. cbn [nwait pred]. rewrite He. cbn [Z.eqb I2C_MASTER_ERR_NONE negb].
  rewrite (option_command_at I2C_MASTER_CMD_BURST_SEND_CONT) by (done || lia).
  rewrite u8_small by lia. replace (Z.of_nat n + 1) with (Z.of_nat (S n)) by lia.
  match goal with |- context [write_loop _ _ _ _ _ _ _ ?o ?b1] => set (b1' := b1); set (o1 := o) end.
  destruct (decide (S n < length buffer)%nat) as [Hlt|Hge].
  - destruct (IH (S n) o1 b1') as (b' & opt' & Hrun & Hw & Hc & Hopt); [lia|lia|done| |].
    { replace (Z.of_nat (S n)) with (Z.of_nat n + 1) by lia. apply opt_before_next; lia. }
    exists b', opt'. rewrite Hrun, <- Nat.add_succ_comm. split; [done|]. split; [cbn in Hw; lia|].
    rewrite <- Nat.add_succ_comm in *. split; [|done]. rewrite Hc. cbn. rewrite <- !app_assoc. cbn.
    by rewrite (list_lookup_total_correct _ _ _ Hx).
  - assert (m = 0)%nat as -> by lia. exists b1', o1. cbn [Nat.add]. replace (n + 1)%nat with (S n) by lia.
    split; [done|]. split; [cbn; lia|]. split; [|lia]. cbn. rewrite <- !app_assoc. cbn.
    by rewrite (list_lookup_total_correct _ _ _ Hx).
Qed.

(** The bytes [data k], ..., [data (k+m-1)] stored behind [pre]. *)
Lemma read_loop_steps m fuel (pre rest : list Z) opt b :
  let buflen := Z.of_nat (length pre + length rest) in
  (m <= length rest)%nat → (length pre + m < 256)%nat → quiet_bus (nwait b) m →
  opt_before I2C_MASTER_CMD_BURST_RECEIVE_START I2C_MASTER_CMD_BURST_RECEIVE_CONT (Z.of_nat (length pre)) opt →
  ∃ b' opt',
    read_loop hangs err data (m + fuel) priv (pre ++ rest) buflen (Z.of_nat (length pre)) opt b =
      read_loop hangs err data fuel priv (pre ++ (u8 ∘ data <$> seq (nwait b) m) ++ drop m rest) buflen
        (Z.of_nat (length pre + m)) opt' b' ∧
    nwait b' = (nwait b + m)%nat ∧ calls (hw b') = calls (hw b) ++ recv_calls priv buflen (length pre) m ∧
    ((m < length rest)%nat →
     opt_before I2C_MASTER_CMD_BURST_RECEIVE_START I2C_MASTER_CMD_BURST_RECEIVE_CONT (Z.of_nat (length pre + m)) opt').
Proof.
  revert pre rest opt b. induction m as [|m IH]; intros pre rest opt b buflen Hlen H8 Hq Ho.
  { exists b, opt. rewrite !Nat.add_0_r. cbn. by rewrite app_nil_r. }
  apply quiet_bus_cons in Hq as (Hh & He & Hq). destruct rest as [|x rest]; [cbn in Hlen; lia|].
  cbn [read_loop Nat.add]. rewrite (proj2 (Z.ltb_lt _ _)) by (subst buflen; cbn; lia).
  unfold wait. cbn [emit nwait hw]. rewrite Hh, bind_ok.
  unfold I2CMasterErr, I2CMasterDataGet. cbn [nwait pred]. rewrite He. cbn [Z.eqb I2C_MASTER_ERR_NONE negb].
  rewrite (option_command_at I2C_MASTER_CMD_BURST_RECEIVE_START) by (done || subst buflen; cbn; lia).
  rewrite aset_some, bind_ok by (rewrite length_app; cbn; lia).
  rewrite (insert_app_r_alt _ _ (length pre)), Nat.sub_diag by lia. cbn [insert list_insert].
  rewrite (u8_small (Z.of_nat (length pre) + 1)) by lia. replace (Z.of_nat (length pre) + 1) with (Z.of_nat (length pre + 1)) by lia.
  match goal with |- context [read_loop _ _ _ _ _ _ _ _ ?o ?b1] => set (b1' := b1); set (o1 := o) end.
  assert (∀ m, (length pre + 1 + m)%nat = (length pre + S m)%nat) as Hadd by lia.
  cbn [drop seq fmap list_fmap]. cbn [length] in Hlen.
  destruct (decide (0 < length rest)%nat) as [Hlt|Hge].
  - destruct (IH (pre ++ [u8 (data (nwait b))]) rest o1 b1') as (b' & opt' & Hrun & Hw & Hc & Hopt);
      [lia|rewrite length_app; cbn; lia|done| |].
    { rewrite length_app. cbn [length]. replace (Z.of_nat (length pre + 1)) with (Z.of_nat (length pre) + 1) by lia.
      apply opt_before_next; [lia|subst buflen; cbn [length]; lia]. }
    exists b', opt'. rewrite length_app, <- !app_assoc in Hrun. rewrite length_app in Hc, Hopt. cbn [length] in *.
    replace (Z.of_nat (length pre + 1 + length rest)) with buflen in * by (subst buflen; cbn [length]; lia).
    rewrite Hadd in *. split; [exact Hrun|]. split; [cbn in Hw; lia|].
    split; [|intros; apply Hopt; lia].
    rewrite Hc. cbn. rewrite <- app_assoc. cbn. by rewrite Nat.add_1_r.
  - assert (m = 0)%nat as -> by lia. exists b1', o1. cbn [seq fmap list_fmap drop app].
    split; [done|]. split; [cbn; lia|]. split; [|cbn [length]; lia]. done.
Qed.

(** ** Theorems *)

(** The address, register and start phase of a write. *)
Lemma i2c_write_start fuel buffer buflen b :
  quiet_bus (nwait b) 2 →
  ∃ b', i2c_write hangs err fuel priv buffer buflen b =
      write_loop hangs err fuel priv buffer buflen 0 I2C_MASTER_CMD_BURST_SEND_CONT b' ∧
    nwait b' = S (S (nwait b)) ∧
    calls (hw b') = calls (hw b) ++ [("I2CMasterSlaveAddrSet", [base priv; address priv; 0]);
      ("I2CMasterDataPut", [base priv; nbits priv]);
      ("I2CMasterControl", [base priv; I2C_MASTER_CMD_BURST_SEND_START])].
Proof.
  intros Hq. apply quiet_bus_cons in Hq as (H1 & _ & Hq). apply quiet_bus_cons in Hq as (H2 & H3 & _).
  unfold i2c_write, wait. rewrite H1, bind_ok. cbn [emit nwait hw]. rewrite H2, bind_ok.
  unfold I2CMasterErr. cbn [nwait pred]. rewrite H3. eexists. split; [reflexivity|]. split; [done|].
  cbn. by rewrite <- !app_assoc.
Qed.

Lemma i2c_write_ok buffer b :
  (length buffer < 256)%nat → quiet_bus (nwait b) (2 + length buffer) →
  ∃ b', i2c_write hangs err (length buffer) priv buffer (Z.of_nat (length buffer)) b = Ok (b', OK) ∧
    calls (hw b') = calls (hw b) ++
      [("I2CMasterSlaveAddrSet", [base priv; address priv; 0]);
       ("I2CMasterDataPut", [base priv; nbits priv]);
       ("I2CMasterControl", [base priv; I2C_MASTER_CMD_BURST_SEND_START])] ++
      send_calls priv buffer (Z.of_nat (length buffer)) 0 (length buffer).
Proof.
  intros Hl Hq. destruct (i2c_write_start (length buffer) buffer (Z.of_nat (length buffer)) b) as (b1 & Hrun & Hw & Hc).
  { intros j Hj. apply Hq. lia. }
  rewrite Hrun. destruct (write_loop_steps (length buffer) 0 buffer 0 I2C_MASTER_CMD_BURST_SEND_CONT b1)
    as (b2 & opt & Hrun2 & Hw2 & Hc2 & _); [lia|lia|intros j Hj; apply Hq; lia|by left|].
  rewrite Nat.add_0_r in Hrun2. change (Z.of_nat 0) with 0 in Hrun2. rewrite Hrun2. cbn [Nat.add write_loop].
  rewrite (proj2 (Z.ltb_ge _ _)) by lia. exists b2. split; [done|]. by rewrite Hc2, Hc, <- app_assoc.
Qed.

(** A write of at most 255 bytes on a bus without errors ends after as
    many turns as there are bytes, returns OK, and has given the controller
    the slave address, the register number with START, and then every byte
    of the buffer in order, the last with FINISH (SINGLE when it is the only
    one), the others with CONT. *)
Theorem i2c_write_transfer buffer b :
  (length buffer < 256)%nat → quiet_bus (nwait b) (2 + length buffer) →
  ∃ b', i2c_write hangs err (length buffer) priv buffer (Z.of_nat (length buffer)) b = Ok (b', OK) ∧
    calls (hw b') = calls (hw b) ++
      [("I2CMasterSlaveAddrSet", [base priv; address priv; 0]);
       ("I2CMasterDataPut", [base priv; nbits priv]);
       ("I2CMasterControl", [base priv; I2C_MASTER_CMD_BURST_SEND_START])] ++
      send_calls priv buffer (Z.of_nat (length buffer)) 0 (length buffer).
Proof. apply i2c_write_ok. Qed.

(** An error on byte [j] of a write ends the transfer with -ETIMEDOUT
    after the commands of the bytes 0, ..., [j]; nothing further, no STOP in
    particular, is given to the controller. *)
Theorem i2c_write_error_stops buffer j b :
  (j < length buffer)%nat → (j < 255)%nat → quiet_bus (nwait b) (2 + j) →
  hangs (nwait b + 2 + j)%nat = false → err (nwait b + 2 + j)%nat ≠ I2C_MASTER_ERR_NONE →
  ∃ b', i2c_write hangs err (length buffer) priv buffer (Z.of_nat (length buffer)) b = Ok (b', - ETIMEDOUT) ∧
    calls (hw b') = calls (hw b) ++
      [("I2CMasterSlaveAddrSet", [base priv; address priv; 0]);
       ("I2CMasterDataPut", [base priv; nbits priv]);
       ("I2CMasterControl", [base priv; I2C_MASTER_CMD_BURST_SEND_START])] ++
      send_calls priv buffer (Z.of_nat (length buffer)) 0 (S j).
Proof.
  intros Hj H8 Hq Hh He. destruct (i2c_write_start (length buffer) buffer (Z.of_nat (length buffer)) b) as (b1 & Hrun & Hw & Hc).
  { intros k Hk. apply Hq. lia. }
  rewrite Hrun.
  destruct (write_loop_steps j (S (length buffer - S j)) buffer 0 I2C_MASTER_CMD_BURST_SEND_CONT b1)
    as (b2 & opt & Hrun2 & Hw2 & Hc2 & Ho); [lia|lia|intros k Hk; apply Hq; lia|by left|].
  replace (j + S (length buffer - S j))%nat with (length buffer) in Hrun2 by lia.
  change (Z.of_nat 0) with 0 in Hrun2. rewrite Hrun2. cbn [Nat.add] in *.
  destruct (lookup_lt_is_Some_2 buffer j ltac:(lia)) as [x Hx].
  cbn [write_loop]. rewrite (proj2 (Z.ltb_lt _ _)) by lia.
  rewrite (aget_some _ _ _ Hx), bind_ok. unfold wait. cbn [emit nwait hw].
  replace (nwait b2) with (nwait b + 2 + j)%nat by lia. rewrite Hh, bind_ok.
  unfold I2CMasterErr. cbn [nwait pred]. rewrite (proj2 (Z.eqb_neq _ _)) by exact He.
  rewrite (option_command_at I2C_MASTER_CMD_BURST_SEND_CONT) by (lia || by apply Ho).
  eexists. split; [reflexivity|]. cbn [hw log calls set_calls]. rewrite Hc2, Hc, <- !app_assoc.
  unfold send_calls. rewrite seq_S, bind_app. cbn. by rewrite (list_lookup_total_correct _ _ _ Hx).
Qed.

Lemma i2c_read_ok buffer b :
  (length buffer < 256)%nat → quiet_bus (nwait b) (2 + length buffer) →
  ∃ b', i2c_read hangs err data (length buffer) priv buffer (Z.of_nat (length buffer)) b =
      Ok (b', u8 ∘ data <$> seq (nwait b + 2) (length buffer), OK) ∧
    calls (hw b') = calls (hw b) ++
      [("I2CMasterSlaveAddrSet", [base priv; address priv; 0]);
       ("I2CMasterDataPut", [base priv; nbits priv]);
       ("I2CMasterControl", [base priv; I2C_MASTER_CMD_SINGLE_SEND]);
       ("I2CMasterSlaveAddrSet", [base priv; address priv; 1])] ++
      recv_calls priv (Z.of_nat (length buffer)) 0 (length buffer).
Proof.
  intros Hl Hq. pose proof Hq as Hq0. apply quiet_bus_cons in Hq as (H1 & _ & Hq). apply quiet_bus_cons in Hq as (H2 & H3 & Hq).
  unfold i2c_read, wait. rewrite H1, bind_ok. cbn [emit nwait hw]. rewrite H2, bind_ok.
  unfold I2CMasterErr. cbn [nwait pred]. rewrite H3. cbn [Z.eqb I2C_MASTER_ERR_NONE negb].
  match goal with |- context [read_loop _ _ _ _ _ _ _ _ _ ?b1] => set (b1' := b1) end.
  destruct (read_loop_steps (length buffer) 0 [] buffer I2C_MASTER_CMD_BURST_RECEIVE_START b1')
    as (b2 & opt & Hrun2 & Hw2 & Hc2 & _); [lia|cbn; lia|done|by left|].
  rewrite Nat.add_0_r in Hrun2. cbn [length app Nat.add] in Hrun2. change (Z.of_nat 0) with 0 in Hrun2.
  rewrite Hrun2. cbn [read_loop]. rewrite (proj2 (Z.ltb_ge _ _)) by lia.
  exists b2. rewrite drop_all, app_nil_r. split; [cbn [b1' nwait]; by replace (nwait b + 2)%nat with (S (S (nwait b))) by lia|].
  rewrite Hc2. cbn. by rewrite <- !app_assoc.
Qed.

(** A read of at most 255 bytes on a bus without errors ends, returns OK
    and fills the buffer with the bytes received in order; the controller is
    given the register number with a single send, then the read address,
    then START, CONT, ..., FINISH (SINGLE for one byte). *)
Theorem i2c_read_transfer buffer b :
  (length buffer < 256)%nat → quiet_bus (nwait b) (2 + length buffer) →
  ∃ b', i2c_read hangs err data (length buffer) priv buffer (Z.of_nat (length buffer)) b =
      Ok (b', u8 ∘ data <$> seq (nwait b + 2) (length buffer), OK) ∧
    calls (hw b') = calls (hw b) ++
      [("I2CMasterSlaveAddrSet", [base priv; address priv; 0]);
       ("I2CMasterDataPut", [base priv; nbits priv]);
       ("I2CMasterControl", [base priv; I2C_MASTER_CMD_SINGLE_SEND]);
       ("I2CMasterSlaveAddrSet", [base priv; address priv; 1])] ++
      recv_calls priv (Z.of_nat (length buffer)) 0 (length buffer).
Proof. apply i2c_read_ok. Qed.

(** A write of more than 255 bytes never ends on a bus without errors:
    the byte counter wraps around, so no bound on the number of turns is
    enough. *)
Theorem i2c_write_long_never_ends buffer buflen b fuel :
  256 <= buflen → (256 <= length buffer)%nat →
  (∀ k, hangs k = false ∧ err k = I2C_MASTER_ERR_NONE) →
  i2c_write hangs err fuel priv buffer buflen b = Fault OutOfFuel.
Proof.
  intros Hl Hb Hq. destruct (i2c_write_start fuel buffer buflen b) as (b1 & -> & _ & _); [intros j _; apply Hq|].
  cut (∀ n opt b, 0 <= n < 256 → write_loop hangs err fuel priv buffer buflen n opt b = Fault OutOfFuel).
  { intros H. apply H. lia. }
  clear b1. induction fuel as [|fuel IH]; intros n opt b1 Hn; cbn [write_loop];
    rewrite (proj2 (Z.ltb_lt _ _)) by lia; [done|].
  destruct (lookup_lt_is_Some_2 buffer (Z.to_nat n) ltac:(lia)) as [x Hx].
  assert (aget buffer n = Ok x) as ->. { rewrite <- (Z2Nat.id n) by lia. by apply aget_some. }
  rewrite bind_ok. unfold wait. cbn [emit nwait hw]. destruct (Hq (nwait b1)) as [-> He]. rewrite bind_ok.
  unfold I2CMasterErr. cbn [nwait pred]. rewrite He. cbn [Z.eqb I2C_MASTER_ERR_NONE negb]. apply IH, u8_range.
Qed.

End transfer.

Lemma i2c_read_transfer_witness :
  let priv := mkI2c I2C1_MASTER_BASE 0x68 0x6b in
  ∃ b', i2c_read (λ _, false) (λ _, 0) (λ k, 100 + Z.of_nat k) 2 priv [0; 0] 2 (mkBus (mkHW ∅ false 0 []) 0)
    = Ok (b', [102; 103], OK).
Proof.
  intros priv. destruct (i2c_read_transfer (λ _, false) (λ _, 0) (λ k, 100 + Z.of_nat k) priv [0; 0]
    (mkBus (mkHW ∅ false 0 []) 0)) as (b' & H1 & _).
  - cbn. lia.
  - intros j _. done.
  - exists b'. exact H1.
Defined.

Lemma i2c_write_transfer_witness :
  let priv := mkI2c I2C1_MASTER_BASE 0x68 0x6b in
  ∃ b', i2c_write (λ _, false) (λ _, 0) 2 priv [17; 18] 2 (mkBus (mkHW ∅ false 0 []) 0) = Ok (b', OK) ∧
    (λ c : call, c.2) <$> calls (hw b') =
      [[I2C1_MASTER_BASE; 0x68; 0]; [I2C1_MASTER_BASE; 0x6b]; [I2C1_MASTER_BASE; 3];
       [I2C1_MASTER_BASE; 17]; [I2C1_MASTER_BASE; 1]; [I2C1_MASTER_BASE; 18]; [I2C1_MASTER_BASE; 5]].
Proof.
  intros priv. destruct (i2c_write_transfer (λ _, false) (λ _, 0) priv [17; 18] (mkBus (mkHW ∅ false 0 []) 0))
    as (b' & H1 & H2).
  - cbn. lia.
  - intros j _. done.
  - exists b'. split; [exact H1|]. rewrite H2. reflexivity.
Defined.

(** In every configuration all ports that can be opened drive the
    registers of I2C1 and at most one controller structure per odd and even
    port exists; port 3 can never be opened. *)
Theorem up_i2cinitialize_aliases cfg port d b :
  (∀ d' b' p, up_i2cinitialize cfg port d b = (d', b', Some p) →
     port ≠ 3 ∧
     base (if decide (p = 0)%nat then g_i2c0dev d' else g_i2c1dev d') = I2C1_MASTER_BASE ∧
     (p = 1%nat ↔ port = 1)) ∧
  (3 <= port → up_i2cinitialize cfg port d b = (d, b, NULL)).
Proof.
  unfold up_i2cinitialize. split.
  - intros d' b' p H. repeat case_match; simplify_eq; zb; (split; [lia|]; split; [done|lia]).
  - intros H. rewrite (proj2 (Z.eqb_neq port 0)), (proj2 (Z.eqb_neq port 1)), (proj2 (Z.eqb_neq port 2)) by lia.
    rewrite !andb_false_r. by destruct (3 <? port).
Qed.

(** The frequency reported back is the one requested, but any request
    other than 400 selects the 100 kHz mode. *)
Theorem i2c_setfrequency_answer clk f priv b :
  ∃ mode, i2c_setfrequency clk f priv b = (emit "I2CMasterInitExpClk" [base priv; clk; mode] b, f) ∧
    (mode = 1 ↔ f = 400) ∧ (mode = 0 ↔ f ≠ 400).
Proof. unfold i2c_setfrequency. destruct (Z.eqb_spec f 400) as [->|]; eexists; (split; [done|]); lia. Qed.

End I2c.
