(* ===== verification/CubControl.v ===== *)
(** * The joint controllers of the myCub application

    Models the joint part of apps/system/myCub/lib/mycub_interface.cpp: four
    controller threads, each with its parameter block, mutex and condition
    variable, and the functions of [MyCubInterface] that command them.  A
    thread is a program counter; what it does between two points where it
    releases its mutex, sleeps or calls the servo driver is one step.  The
    servo device is that of NuttxServo, reached by ioctl.  Signals of a
    condition variable nobody waits on are lost (nuttx/sched
    pthread_condsignal.c), and a woken thread competes for the mutex again. *)
From S2P Require Import Prelude FunkKernel CubFloat NuttxUpper NuttxServo.

Module Control.
Import Float Upper Servo.

Definition CTRLSTATE_STOP : Z := 1.
Definition CTRLSTATE_GOPOS : Z := 2.
Definition CTRLSTATE_WAITING : Z := 3.
Definition CTRLSTATE_STOPPING : Z := 4.

(** Where a controller thread is: not created; before the critical section
    that announces [CTRLSTATE_WAITING]; in [pthread_cond_wait]; signalled;
    before the switch; in case [CTRLSTATE_GOPOS]; before the loop test (upward
    or downward loop, target, copy of the servo record, index); before the
    store of the index; before the callback; before the last critical section;
    ended. *)
Inductive PC : Type :=
  | CNone | CStart | CWaiting | CWoken | CSwitch | CGo
  | CMove (up : bool) (pos : Z) (drv : servo_info_s) (i : Z)
  | CStore (up : bool) (pos : Z) (drv : servo_info_s) (i : Z)
  | CCall | CStop | CDone.

#[export] Instance PC_eq_dec : EqDecision PC.
Proof. solve_decision. Defined.

(** The parameter block of a joint with the objects it points to: its entry
    of [joints_pos] ([curPos]) and of [servo_drv], whether the callback is
    set, the thread, and the clients that wait on [syncpos_cond]. *)
Record JOINT : Type := mkJoint {
  targetPos : Z;
  time : double;
  status : Z;
  callback_routine : bool;
  curPos : Z;
  servo_drv : servo_info_s;
  pc : PC;
  sync : list nat
}.

Definition set_targetPos (v : Z) (r : JOINT) : JOINT :=
  mkJoint v (time r) (status r) (callback_routine r) (curPos r) (servo_drv
    r) (pc r) (sync r).
Definition set_time (v : double) (r : JOINT) : JOINT :=
  mkJoint (targetPos r) v (status r) (callback_routine r) (curPos r)
    (servo_drv r) (pc r) (sync r).
Definition set_status (v : Z) (r : JOINT) : JOINT :=
  mkJoint (targetPos r) (time r) v (callback_routine r) (curPos r)
    (servo_drv r) (pc r) (sync r).
Definition set_callback_routine (v : bool) (r : JOINT) : JOINT :=
  mkJoint (targetPos r) (time r) (status r) v (curPos r) (servo_drv r) (pc
    r) (sync r).
Definition set_curPos (v : Z) (r : JOINT) : JOINT :=
  mkJoint (targetPos r) (time r) (status r) (callback_routine r) v
    (servo_drv r) (pc r) (sync r).
Definition set_servo_drv (v : servo_info_s) (r : JOINT) : JOINT :=
  mkJoint (targetPos r) (time r) (status r) (callback_routine r) (curPos r)
    v (pc r) (sync r).
Definition set_pc (v : PC) (r : JOINT) : JOINT :=
  mkJoint (targetPos r) (time r) (status r) (callback_routine r) (curPos r)
    (servo_drv r) v (sync r).
Definition set_sync (v : list nat) (r : JOINT) : JOINT :=
  mkJoint (targetPos r) (time r) (status r) (callback_routine r) (curPos r)
    (servo_drv r) (pc r) v.


(** ** The controller thread *)

(** [(t * 1000000) / abs(pos - curPos)], converted to unsigned long. *)
Definition delayStep (t : double) (distance : Z) : res Z :=
  to_ulong (ddiv (dmul t (dofZ 1000000)) (dofZ distance)).

Definition with_pos (d : servo_info_s) (i : Z) : servo_info_s :=
  mkServoInfo (id d) (port d) (pin d) (u16 i).

(** One step of [controller]: [None] when the thread is blocked or ended;
    otherwise the new state and the record handed to the servo driver, if
    any.  [controllerCallback] wakes the first waiting client. *)
Definition ctl_step (j : JOINT) : res (option (JOINT * option servo_info_s)) :=
  match pc j with
  | CNone | CWaiting | CDone => Ok None
  | CStart => Ok (Some (set_pc CWaiting (set_status CTRLSTATE_WAITING j), None))
  | CWoken => Ok (Some (set_pc CSwitch j, None))
  | CSwitch =>
      let next := if status j =? CTRLSTATE_STOP then CStop
                  else if status j =? CTRLSTATE_GOPOS then CGo else CStart in
      Ok (Some (set_pc next j, None))
  | CGo =>
      let pos := targetPos j in
      _ ← delayStep (time j) (Z.abs (pos - curPos j));
      Ok (Some (set_pc (CMove (curPos j <? pos) pos (servo_drv j) (curPos j)) j, None))
  | CMove up pos drv i =>
      if (if up then i <? pos else pos <? i)
      then Ok (Some (set_pc (CStore up pos drv i) j, Some (with_pos drv i)))
      else Ok (Some (set_pc CCall j, None))
  | CStore up pos drv i =>
      Ok (Some (set_pc (CMove up pos drv (if up then i + 1 else i - 1)) (set_curPos i j), None))
  | CCall =>
      Ok (Some (set_pc CStart (if callback_routine j then set_sync (tail (sync j)) j else j), None))
  | CStop => Ok (Some (set_pc CDone (set_status CTRLSTATE_STOPPING j), None))
  end.

(** ** Commands to one joint *)

(** [pthread_cond_signal(&(params->cond))]. *)
Definition signal (j : JOINT) : JOINT :=
  match pc j with CWaiting => set_pc CWoken j | _ => j end.

(** The critical section of [gotoPose]. *)
Definition request (pos : Z) (t : double) (j : JOINT) : JOINT :=
  signal (set_status CTRLSTATE_GOPOS (set_time t (set_targetPos pos j))).

(** That of [gotoPoseSync] up to its wait on [syncpos_cond], by [client]. *)
Definition request_sync (client : nat) (pos : Z) (t : double) (j : JOINT) : JOINT :=
  let j := set_status CTRLSTATE_GOPOS (set_time t (set_targetPos pos j)) in
  signal (set_sync (sync j ++ [client]) (set_callback_routine true j)).

(** The one of [stopController]. *)
Definition request_stop (j : JOINT) : JOINT := signal (set_status CTRLSTATE_STOP j).

Definition motion_done (j : JOINT) : bool := negb (status j =? CTRLSTATE_GOPOS).

(** ** The interface object *)

Record CUB : Type := mkCub {
  fd_servo : Z;
  joints : list JOINT;
  servo : servo_upperhalf_s
}.

Definition set_fd_servo (v : Z) (r : CUB) : CUB :=
  mkCub v (joints r) (servo r).
Definition set_joints (v : list JOINT) (r : CUB) : CUB :=
  mkCub (fd_servo r) v (servo r).
Definition set_servo (v : servo_upperhalf_s) (r : CUB) : CUB :=
  mkCub (fd_servo r) (joints r) v.


Definition LEFT_JOINT : Z := 0.
Definition FRONT_JOINT : Z := 1.
Definition RIGHT_JOINT : Z := 2.
Definition BACK_JOINT : Z := 3.

Section interface.
Context (clk : Z).

(** [ioctl(fd_servo, SERVOIOC_SETPOS, &drv)]; the result is not used. *)
Definition ioctl_setpos (drv : servo_info_s) (s : CUB) : res CUB :=
  '(u, _, _) ← servo_ioctl (g_servoops clk) None SERVOIOC_SETPOS (Some drv) (servo s);
  Ok (set_servo u s).

(** A step of the controller of joint [n]. *)
Definition ctl (n : nat) (s : CUB) : res (option CUB) :=
  j ← aget (joints s) (Z.of_nat n);
  r ← ctl_step j;
  match r with
  | None => Ok None
  | Some (j, act) =>
      js ← aset (joints s) (Z.of_nat n) j;
      let s := set_joints js s in
      match act with
      | None => Ok (Some s)
      | Some drv => s ← ioctl_setpos drv s; Ok (Some s)
      end
  end.

(** The test of the arguments that [setPose], [gotoPose] and [gotoPoseSync]
    begin with; [joint] is unsigned. *)
Definition rejected (joint pos : Z) (s : CUB) : bool :=
  (fd_servo s <? 0) || ((pos <? 8) || (160 <? pos) || (3 <? joint)).

Definition upd_joint (joint : Z) (f : JOINT → JOINT) (s : CUB) : res CUB :=
  j ← aget (joints s) joint;
  js ← aset (joints s) joint (f j);
  Ok (set_joints js s).

Definition gotoPose (joint pos : Z) (t : double) (s : CUB) : res (CUB * bool) :=
  if rejected joint pos s then Ok (s, false)
  else s ← upd_joint joint (request pos t) s; Ok (s, true).

(** [gotoPoseSync] until it waits; the client continues, with [true], when it
    is no longer among the waiting ones ([sync_done]). *)
Definition gotoPoseSync (client : nat) (joint pos : Z) (t : double) (s : CUB) : res (CUB * bool) :=
  if rejected joint pos s then Ok (s, false)
  else s ← upd_joint joint (request_sync client pos t) s; Ok (s, true).
Definition sync_done (client : nat) (joint : Z) (s : CUB) : res bool :=
  j ← aget (joints s) joint; Ok (bool_decide (client ∉ sync j)).

(** [setPose] in its two parts: the driver call and the store. *)
Definition setPose_move (joint pos : Z) (s : CUB) : res CUB :=
  s ← upd_joint joint (λ j, set_servo_drv (with_pos (servo_drv j) pos) j) s;
  j ← aget (joints s) joint;
  ioctl_setpos (servo_drv j) s.
Definition setPose_store (joint pos : Z) (s : CUB) : res CUB :=
  upd_joint joint (set_curPos pos) s.
Definition setPose (joint pos : Z) (s : CUB) : res (CUB * bool) :=
  if rejected joint pos s then Ok (s, false)
  else
    s ← setPose_move joint pos s;
    s ← setPose_store joint pos s;
    Ok (s, true).

Definition getPose (joint : Z) (s : CUB) : res Z :=
  if 3 <? joint then Ok (-1) else j ← aget (joints s) joint; Ok (curPos j).

Definition checkMotionDone (joint : Z) (s : CUB) : res bool :=
  j ← aget (joints s) joint; Ok (motion_done j).

Definition checkMotionDone_all (s : CUB) : res bool :=
  forM (seqZ 0 4) (λ i ret, d ← checkMotionDone i s; Ok (ret && d)) true.

Record JointContext : Type := mkContext {
  joint_0 : Z; joint_1 : Z; joint_2 : Z; joint_3 : Z
}.

Definition getContext (s : CUB) : res JointContext :=
  a ← getPose 0 s; b ← getPose 1 s; c ← getPose 2 s; d ← getPose 3 s;
  Ok (mkContext a b c d).

Definition setContext (ctx : JointContext) (s : CUB) : res CUB :=
  '(s, _) ← setPose 0 (joint_0 ctx) s;
  '(s, _) ← setPose 1 (joint_1 ctx) s;
  '(s, _) ← setPose 2 (joint_2 ctx) s;
  '(s, _) ← setPose 3 (joint_3 ctx) s;
  Ok s.

(** *** Starting and stopping *)

(** What runs while [stopController] or [startController] sleeps. *)
Context (env : CUB → res CUB).

(** The wait loop for joint [i]; [controller_state] is the status last read. *)
Fixpoint stop_loop (fuel : nat) (i controller_state : Z) (s : CUB) : res CUB :=
  if controller_state =? CTRLSTATE_STOPPING then Ok s
  else match fuel with
  | O => Fault OutOfFuel
  | S fuel =>
      s ← (if controller_state =? CTRLSTATE_WAITING then upd_joint i request_stop s else Ok s);
      s ← env s;
      j ← aget (joints s) i;
      stop_loop fuel i (status j) s
  end.

(** [pthread_join] returns once the thread has ended. *)
Definition stop_joint (fuel : nat) (i : Z) (s : CUB) : res CUB :=
  j ← aget (joints s) i;
  s ← stop_loop fuel i (status j) s;
  j ← aget (joints s) i;
  match pc j with CDone => Ok s | _ => Fault Blocked end.

Definition stopController (fuel : nat) (s : CUB) : res CUB :=
  s ← forM (seqZ 0 4) (stop_joint fuel) s;
  if negb (fd_servo s =? -1) then
    '(u, _) ← servo_close (g_servoops clk) None (servo s);
    Ok (set_fd_servo (-1) (set_servo u s))
  else Ok s.

(** The answers of the system to [startController]: of [servo_devinit], the
    descriptor [open] gives, of the thread attributes, of the initialisation
    of mutexes and conditions and of [pthread_create] for each joint. *)
Record ANSWERS : Type := mkAnswers {
  a_devinit : Z; a_fd : Z; a_attr : Z; a_param : Z;
  a_mutex : Z → Z; a_cond : Z → Z; a_create : Z → Z
}.

(** The block of joint [i] and its thread; [false] when a call failed. *)
Definition start_params (i : Z) (j : JOINT) : JOINT :=
  set_callback_routine false (set_time (dofZ 1) (set_targetPos 8 j)).
Definition start_joint (a : ANSWERS) (i : Z) (st : CUB * bool) : res (CUB * bool) :=
  let '(s, go) := st in
  if go then
    s ← upd_joint i (start_params i) s;
    if negb (a_mutex a i =? 0) then Ok (s, false)
    else if negb (a_cond a i =? 0) then Ok (s, false)
    else if negb (a_create a i =? 0) then Ok (s, false)
    else s ← upd_joint i (set_pc CStart) s; Ok (s, true)
  else Ok (s, false).

Definition set_id (i : Z) (d : servo_info_s) : servo_info_s := mkServoInfo i (port d) (pin d) (pos d).

(** [fini] closes the other devices too; here only the joints matter. *)
Definition startController (fuel : nat) (a : ANSWERS) (s : CUB) : res (CUB * bool) :=
  if 0 <=? fd_servo s then Ok (s, true)
  else if negb (a_devinit a =? OK) then Ok (s, false)
  else
    '(u, ret) ← servo_open (g_servoops clk) None (servo s);
    let s := set_fd_servo (if ret <? 0 then -1 else a_fd a) (set_servo u s) in
    if fd_servo s <? 0 then s ← stopController fuel s; Ok (s, false)
    else
      s ← forM (seqZ 0 4) (λ i, upd_joint i (λ j, set_servo_drv (set_id i (servo_drv j)) j)) s;
      if negb (a_attr a =? 0) || negb (a_param a =? OK) then s ← stopController fuel s; Ok (s, false)
      else
        '(s, go) ← forM (seqZ 0 4) (start_joint a) (s, true);
        if go : bool then s ← env s; Ok (s, true) else s ← stopController fuel s; Ok (s, false).

End interface.

(** The constructor: no device open, all joints at 8. *)
Definition new_joint (drv : servo_info_s) : JOINT :=
  mkJoint 0 (dofZ 0) 0 false 8 drv CNone [].
Definition MyCubInterface (drvs : list servo_info_s) (u : servo_upperhalf_s) : CUB :=
  mkCub (-1) (new_joint <$> drvs) u.

(** ** Everything that can happen *)

(** A step of the running robot: of a controller, or of a client thread
    inside one of the functions above.  The two halves of [setPose] and the
    stop request may happen at any time. *)
Inductive cub_step (clk : Z) (s : CUB) : CUB → Prop :=
  | StepController n s' : ctl clk n s = Ok (Some s') → cub_step clk s s'
  | StepGoto joint pos t s' b : gotoPose joint pos t s = Ok (s', b) → cub_step clk s s'
  | StepGotoSync c joint pos t s' b : gotoPoseSync c joint pos t s = Ok (s', b) → cub_step clk s s'
  | StepSetMove joint pos s' :
      rejected joint pos s = false → setPose_move clk joint pos s = Ok s' → cub_step clk s s'
  | StepSetStore joint pos s' :
      rejected joint pos s = false → setPose_store joint pos s = Ok s' → cub_step clk s s'
  | StepStop joint s' : upd_joint joint request_stop s = Ok s' → cub_step clk s s'.

(** ** Invariant of one joint *)

Definition in_range (p : Z) : Prop := 8 <= p <= 160.

Definition pc_ok (n : Z) (p : PC) : Prop :=
  match p with
  | CMove up pos d i => in_range pos ∧ id d = n ∧ if up then 8 <= i <= pos else pos <= i <= 160
  | CStore up pos d i => in_range pos ∧ id d = n ∧ if up then 8 <= i < pos else pos < i <= 160
  | _ => True
  end.

Record joint_ok (n : Z) (j : JOINT) : Prop := {
  ok_cur : in_range (curPos j);
  ok_target : in_range (targetPos j);
  ok_id : id (servo_drv j) = n;
  ok_waiting : status j = CTRLSTATE_WAITING ↔ pc j = CWaiting;
  ok_pc : pc_ok n (pc j)
}.

(** A record for the driver that asks joint [n] for a position in range. *)
Definition command_ok (n : Z) (d : servo_info_s) : Prop := id d = n ∧ in_range (pos d).

Ltac joint_cases :=
  unfold CTRLSTATE_STOP, CTRLSTATE_GOPOS, CTRLSTATE_WAITING, CTRLSTATE_STOPPING, in_range, command_ok in *.

Lemma with_pos_ok n d i : id d = n → in_range i → command_ok n (with_pos d i).
Proof. intros Hd Hi. split; [done|]. cbn. rewrite u16_small; unfold in_range in *; lia. Qed.

(** A new status other than waiting, with a signal, keeps the invariant. *)
Lemma signal_ok n j v :
  v ≠ CTRLSTATE_WAITING → joint_ok n j → joint_ok n (signal (set_status v j)).
Proof.
  intros Hv [H1 H2 H3 H4 H5]. unfold signal. destruct j as [tp ti st cb cu dr p sy]. cbn in *.
  destruct p; split; cbn in *; try done; split; done || naive_solver.
Qed.

Lemma request_ok n pos t j : in_range pos → joint_ok n j → joint_ok n (request pos t j).
Proof. intros Hp [H1 H2 H3 H4 H5]. apply signal_ok; [done|]. by split. Qed.

Lemma request_sync_ok n c pos t j : in_range pos → joint_ok n j → joint_ok n (request_sync c pos t j).
Proof.
  intros Hp Hj. unfold request_sync.
  change (joint_ok n (signal (set_status CTRLSTATE_GOPOS
    (set_sync (sync j ++ [c]) (set_callback_routine true (set_time t (set_targetPos pos j))))))).
  apply signal_ok; [done|]. destruct Hj. by split.
Qed.

Lemma request_stop_ok n j : joint_ok n j → joint_ok n (request_stop j).
Proof. by apply signal_ok. Qed.

Lemma ctl_step_ok n j j' act :
  joint_ok n j → ctl_step j = Ok (Some (j', act)) →
  joint_ok n j' ∧ ∀ d, act = Some d → command_ok n d.
Proof.
  intros [H1 H2 H3 H4 H5] Hs. unfold ctl_step in Hs. destruct j as [tp ti st cb cu dr p sy]. cbn in *.
  destruct p as [| | | | | |up pos d i|up pos d i| | |]; cbn in *; try done.
  - simplify_eq. by split.
  - simplify_eq. split; [|done]. split; cbn; naive_solver.
  - simplify_eq. split; [|done]. split; cbn; try done; repeat case_match; naive_solver.
  - apply bind_ok_iff in Hs as (v & _ & Hs). simplify_eq. split; [|done]. unfold in_range in *.
    split; cbn; unfold in_range; try done; [naive_solver|]. destruct (Z.ltb_spec cu tp); repeat split; done || lia.
  - destruct H5 as (Hp & Hd & Hi). unfold in_range in *.
    assert (∀ b : bool, (if up then i <? pos else pos <? i) = b →
      b = if up then i <? pos else pos <? i) as Hb by done.
    destruct (if up then i <? pos else pos <? i) eqn:Hc; simplify_eq.
    + assert (in_range i ∧ if up then 8 <= i < pos else pos < i <= 160) as [Hir Hi'].
      { unfold in_range. destruct up; zb; lia. }
      split; [split; cbn; unfold in_range; try done; naive_solver|]. intros d' [= <-]. by apply with_pos_ok.
    + split; [split; cbn; unfold in_range; try done; naive_solver|done].
  - destruct H5 as (Hp & Hd & Hi). simplify_eq. unfold in_range in *. split; [|done].
    split; cbn; unfold in_range; try done; [destruct up; lia|naive_solver|destruct up; repeat split; done || lia].
  - simplify_eq. split; [|done]. destruct cb; split; cbn; try done; naive_solver.
  - simplify_eq. split; [|done]. split; cbn; try done.
Qed.

(** ** Invariant of the robot *)

Section safety.
Context (clk : Z) (Hclk : 0 <= clk <= 80000000) (h0 : Hw.HW).

(** Every timer still has the pulse it had in [h0], or one that belongs to a
    position in range. *)
Definition pulse_ok (h : Hw.HW) : Prop :=
  ∀ t, t ∈ g_servo_timers → high_ticks t h = high_ticks t h0 ∨
    ∃ p, in_range p ∧ high_ticks t h = (clk `div` 50 * (544 + 10 * p)) `div` 20000.

Record cub_ok (s : CUB) : Prop := {
  cub_length : length (joints s) = 4%nat;
  cub_joints : ∀ n j, joints s !! n = Some j → joint_ok (Z.of_nat n) j;
  cub_sem : exclsem (servo s) = 1;
  cub_pulse : pulse_ok (dev (servo s))
}.

Lemma upd_joint_inv joint f s s' :
  upd_joint joint f s = Ok s' →
  ∃ n j, joint = Z.of_nat n ∧ joints s !! n = Some j ∧ s' = set_joints (<[n := f j]> (joints s)) s.
Proof.
  unfold upd_joint. intros H. apply bind_ok_iff in H as (j & Hg & H). apply bind_ok_iff in H as (js & Hs & [= <-]).
  apply aget_ok_inv in Hg as [Hp Hg]. apply aset_ok_inv in Hs as [Hr ->].
  exists (Z.to_nat joint), j. rewrite Z2Nat.id by lia. done.
Qed.

Lemma upd_joint_some n j f s :
  joints s !! n = Some j →
  upd_joint (Z.of_nat n) f s = Ok (set_joints (<[n := f j]> (joints s)) s).
Proof.
  intros H. unfold upd_joint. rewrite (aget_some _ _ _ H), bind_ok.
  by rewrite aset_some, bind_ok by (by eapply lookup_lt_Some).
Qed.

Lemma upd_joint_ok joint f s s' :
  cub_ok s → upd_joint joint f s = Ok s' →
  (∀ j, joint_ok joint j → joint_ok joint (f j)) → cub_ok s'.
Proof.
  intros [H1 H2 H3 H4] (n & j & -> & Hj & ->)%upd_joint_inv Hf. split; cbn; [|intros m k Hk|done|done].
  - by rewrite length_insert.
  - apply list_lookup_insert_Some in Hk as [(-> & <- & _)|[_ Hk]]; [|by apply H2].
    apply Hf. by apply H2.
Qed.

(** The driver accepts a command in range and sets the pulse it asks for. *)
Lemma ioctl_setpos_ok drv n s :
  cub_ok s → (n < 4)%nat → command_ok (Z.of_nat n) drv →
  ∃ s', ioctl_setpos clk drv s = Ok s' ∧ cub_ok s' ∧
    fd_servo s' = fd_servo s ∧ joints s' = joints s ∧ info (servo s') = drv.
Proof using Hclk.
  intros [H1 H2 H3 H4] Hn [Hid Hpos]. unfold in_range in Hpos.
  destruct (g_servo_timers !! n) as [t|] eqn:Ht.
  2: { apply lookup_ge_None in Ht. change (length g_servo_timers) with 4%nat in Ht. lia. }
  destruct (servo_setpos_ok clk drv (dev (servo s)) t) as (h' & Hs & _ & Hh & _ & _ & Hother).
  { by rewrite Hid, Nat2Z.id. } { lia. } { lia. } { done. }
  unfold ioctl_setpos. rewrite (servo_ioctl_setpos clk drv (servo s) h' OK H3 Hs), bind_ok.
  eexists. split; [reflexivity|]. split; [|done]. split; cbn; try done.
  intros t' Ht'. destruct (decide (t' = t)) as [->|Hne].
  - right. exists (pos drv). split; [done|]. rewrite Hh. do 2 f_equal. lia.
  - unfold high_ticks. rewrite !(Hother t') by (done || lia). by apply H4.
Qed.

Lemma ctl_ok n s s' : cub_ok s → ctl clk n s = Ok (Some s') → cub_ok s'.
Proof using Hclk.
  intros Hs H. unfold ctl in H. apply bind_ok_iff in H as (j & Hg & H). apply bind_ok_iff in H as (r & Hr & H).
  destruct r as [[j' act]|]; [|done]. apply bind_ok_iff in H as (js & Hset & H).
  pose proof Hg as Hg'. apply aget_ok_inv in Hg' as [_ Hg']. rewrite Nat2Z.id in Hg'.
  destruct (ctl_step_ok (Z.of_nat n) j j' act (cub_joints _ Hs _ _ Hg') Hr) as [Hj' Hact].
  assert (cub_ok (set_joints js s)) as Hok.
  { apply (upd_joint_ok (Z.of_nat n) (λ _, j') s); [done| |done].
    unfold upd_joint. by rewrite Hg, bind_ok, Hset. }
  destruct act as [drv|]; [|by simplify_eq].
  destruct (ioctl_setpos_ok drv n (set_joints js s) Hok) as (s1 & E & Hs1 & _).
  { apply lookup_lt_Some in Hg'. rewrite (cub_length _ Hs) in Hg'. lia. }
  { by apply Hact. }
  rewrite E in H. cbn in H. by simplify_eq.
Qed.

Lemma rejected_false joint pos s :
  rejected joint pos s = false → in_range pos ∧ joint <= 3.
Proof. unfold rejected, in_range. intros H. zb. lia. Qed.

Lemma cub_step_ok s s' : cub_ok s → cub_step clk s s' → cub_ok s'.
Proof using Hclk.
  intros Hs [n s1 H|joint pos t s1 b H|c joint pos t s1 b H|joint pos s1 Hr H|joint pos s1 Hr H|joint s1 H].
  - by eapply ctl_ok.
  - unfold gotoPose in H. destruct (rejected _ _ _) eqn:Hr; [by simplify_eq|].
    apply rejected_false in Hr as [Hp _]. apply bind_ok_iff in H as (s2 & H & [= <- <-]).
    eapply upd_joint_ok; [done|done|]. intros j. by apply request_ok.
  - unfold gotoPoseSync in H. destruct (rejected _ _ _) eqn:Hr; [by simplify_eq|].
    apply rejected_false in Hr as [Hp _]. apply bind_ok_iff in H as (s2 & H & [= <- <-]).
    eapply upd_joint_ok; [done|done|]. intros j. by apply request_sync_ok.
  - apply rejected_false in Hr as [Hp _]. unfold setPose_move in H. apply bind_ok_iff in H as (s2 & H & H2).
    assert (cub_ok s2) as Hs2.
    { eapply upd_joint_ok; [done|done|]. intros j []. by split. }
    apply upd_joint_inv in H as (n & j & -> & Hj & ->). apply bind_ok_iff in H2 as (j2 & Hg & H2).
    apply aget_ok_inv in Hg as [_ Hg]. rewrite Nat2Z.id in Hg. cbn in Hg.
    pose proof (lookup_lt_Some _ _ _ Hj) as Hlt. rewrite list_lookup_insert_eq in Hg by done. simplify_eq.
    edestruct (ioctl_setpos_ok (with_pos (servo_drv j) pos) n) as (s3 & E & Hs3 & _); [exact Hs2| | |].
    + rewrite (cub_length _ Hs) in Hlt. lia.
    + apply with_pos_ok; [|done]. apply (cub_joints _ Hs _ _ Hj).
    + pose proof (eq_trans (eq_sym E) H2). by simplify_eq.
  - apply rejected_false in Hr as [Hp _]. eapply upd_joint_ok; [done|exact H|]. intros j []. by split.
  - eapply upd_joint_ok; [done|done|]. intros j. apply request_stop_ok.
Qed.

Lemma cub_reachable_ok s s' : cub_ok s → rtc (cub_step clk) s s' → cub_ok s'.
Proof using Hclk. intros Hs. induction 1; eauto using cub_step_ok. Qed.

End safety.

(** ** One joint on its own *)

(** At most [n] steps of a controller nobody disturbs: the state in which it
    stops or blocks and the records it sent to the servo driver. *)
Fixpoint run (n : nat) (j : JOINT) : res (JOINT * list servo_info_s) :=
  match n with
  | O => Ok (j, [])
  | S n =>
      r ← ctl_step j;
      match r with
      | None => Ok (j, [])
      | Some (j, act) => '(j, l) ← run n j; Ok (j, option_list act ++ l)
      end
  end.

Lemma run_step n j j' act :
  ctl_step j = Ok (Some (j', act)) →
  run (S n) j = ('(k, l) ← run n j'; Ok (k, option_list act ++ l)).
Proof. intros H. cbn [run]. by rewrite H. Qed.

Lemma run_blocked n j : ctl_step j = Ok None → run n j = Ok (j, []).
Proof. intros H. destruct n; [done|]. cbn [run]. by rewrite H. Qed.

(** [m] positions from [i] upwards or downwards. *)
Fixpoint path (up : bool) (i : Z) (m : nat) : list Z :=
  match m with O => [] | S m => i :: path up (if up then i + 1 else i - 1) m end.

Lemma path_spec up i m : path up i m = (λ k, if up then i + k else i - k) <$> seqZ 0 (Z.of_nat m).
Proof.
  revert i. induction m as [|m IH]; intros i; [done|]. cbn [path]. rewrite IH, seqZ_cons'. cbn [fmap list_fmap].
  f_equal; [destruct up; lia|]. change (0 + 1) with 1. replace 1 with (0 + 1) by lia.
  rewrite <- (fmap_add_seqZ 1 0), <- list_fmap_compose. apply list_fmap_ext. intros k x _. cbn. destruct up; lia.
Qed.

(** The loop of a move with [m] positions to go. *)
Lemma run_move m n (up : bool) pos d i j :
  pos = (if up then i + Z.of_nat m else i - Z.of_nat m) →
  run (2 * m + n) (set_pc (CMove up pos d i) j) =
    ('(k, l) ← run n (set_pc (CMove up pos d pos)
       (if decide (m = 0)%nat then j else set_curPos (if up then pos - 1 else pos + 1) j));
     Ok (k, (with_pos d <$> path up i m) ++ l)).
Proof.
  revert i j. induction m as [|m IH]; intros i j Hm.
  { assert (i = pos) as -> by (destruct up; lia). cbn [path fmap list_fmap app Nat.mul Nat.add decide].
    destruct (run n _) as [[k l]|]; done. }
  replace (2 * S m + n)%nat with (S (S (2 * m + n))) by lia.
  erewrite run_step.
  2: { unfold ctl_step. cbn [pc set_pc]. replace (if up then i <? pos else pos <? i) with true; [reflexivity|].
       destruct up; symmetry; apply Z.ltb_lt; lia. }
  erewrite run_step; [|unfold ctl_step; cbn [pc set_pc]; reflexivity].
  match goal with |- context [run (2 * m + n) ?J] =>
    change J with (set_pc (CMove up pos d (if up then i + 1 else i - 1)) (set_curPos i j)) end.
  rewrite IH by (destruct up; lia). rewrite (decide_False (P := (S m = 0)%nat)) by done.
  cbn [option_list app path fmap list_fmap].
  assert ((if decide (m = 0)%nat then set_curPos i j else set_curPos (if up then pos - 1 else pos + 1) (set_curPos i j))
    = set_curPos (if up then pos - 1 else pos + 1) j) as ->.
  { case_decide; [|done]. subst m. f_equal. destruct up; lia. }
  by destruct (run n _) as [[k l]|].
Qed.

Definition idle (j : JOINT) : Prop := pc j = CWaiting ∧ status j = CTRLSTATE_WAITING.

(** From the request to the end of the move, for a move that has a delay. *)
Lemma run_goto n pos t j v :
  idle j → pos ≠ curPos j → delayStep t (Z.abs (pos - curPos j)) = Ok v →
  let up := curPos j <? pos in
  let m := Z.to_nat (Z.abs (pos - curPos j)) in
  run (2 * m + 6 + n) (request pos t j) =
    Ok (set_status CTRLSTATE_WAITING (set_curPos (if up then pos - 1 else pos + 1)
          (set_sync (if callback_routine j then tail (sync j) else sync j) (set_time t (set_targetPos pos j)))),
        with_pos (servo_drv j) <$> path up (curPos j) m).
Proof.
  intros [Hpc Hst] Hne Hd up m. destruct j as [tp ti st cb cu dr p sy].
  cbn [pc status curPos callback_routine sync servo_drv] in *. subst p st.
  replace (2 * m + 6 + n)%nat with (S (S (S (2 * m + (3 + n))))) by lia.
  cbn [request signal pc set_status set_time set_targetPos set_pc].
  erewrite run_step by reflexivity. erewrite run_step by reflexivity.
  erewrite run_step; [|unfold ctl_step; cbn; rewrite Hd; reflexivity]. fold up.
  match goal with |- context [run (2 * m + (3 + n)) ?J] =>
    change J with (set_pc (CMove up pos dr cu) (mkJoint pos t CTRLSTATE_GOPOS cb cu dr CGo sy)) end.
  rewrite run_move by (subst up m; destruct (Z.ltb_spec cu pos); lia).
  rewrite decide_False by (subst m; lia).
  erewrite (run_step (2 + n)); [|unfold ctl_step; cbn [pc set_pc]; replace (if up then _ else _) with false; [reflexivity|]].
  2: { destruct up; symmetry; apply Z.ltb_ge; lia. }
  erewrite (run_step (1 + n)) by reflexivity. erewrite (run_step n) by reflexivity.
  rewrite run_blocked by reflexivity. cbn. rewrite app_nil_r. by destruct cb.
Qed.

(** ** What a command does *)

(** No delay per position can be computed for a move over no position. *)
Lemma delayStep_zero t : delayStep t 0 = Fault Overflow.
Proof.
  unfold delayStep. change (dofZ 0) with (SpecFloat.S754_zero false).
  by destruct (dmul t (dofZ 1000000)) as [[]|[]| |[]].
Qed.

Lemma run_goto_faults n pos t j f :
  idle j → delayStep t (Z.abs (pos - curPos j)) = Fault f → run (3 + n) (request pos t j) = Fault f.
Proof.
  intros [Hpc Hst] Hd. destruct j as [tp ti st cb cu dr p sy]. cbn in *. subst p st. cbn. by rewrite Hd.
Qed.

(** C12: a command to a joint that waits.  When the delay per position, the
    time divided by the distance in microseconds, is a number of 32 bits,
    the controller commands the servo position by position from the current
    one towards the target and waits again; but it stops one short of the
    target, with the servo and [getPose] at the position before it.  When
    the delay is no such number the conversion is undefined and nothing is
    moved; a command to the position where the joint is always is of this
    kind, because it divides by zero. *)
Theorem gotoPose_moves pos t j :
  idle j → in_range pos → in_range (curPos j) →
  let d := Z.abs (pos - curPos j) in
  (pos = curPos j → delayStep t d = Fault Overflow) ∧
  match delayStep t d with
  | Fault f => run (Z.to_nat (2 * d + 6)) (request pos t j) = Fault f
  | Ok _ =>
      ∃ j' sent, run (Z.to_nat (2 * d + 6)) (request pos t j) = Ok (j', sent) ∧ idle j' ∧
        Servo.pos <$> sent = (λ k, if curPos j <? pos then curPos j + k else curPos j - k) <$> seqZ 0 d ∧
        Forall (λ r, id r = id (servo_drv j)) sent ∧
        Servo.pos <$> last sent = Some (curPos j') ∧ Z.abs (pos - curPos j') = 1
  end.
Proof.
  intros Hi Hp Hc d. split; [intros E; subst d; rewrite E, Z.sub_diag; apply delayStep_zero|].
  destruct (delayStep t d) as [v|f] eqn:Hd.
  2: { replace (Z.to_nat (2 * d + 6)) with (3 + Z.to_nat (2 * d + 3))%nat by (subst d; lia). by apply run_goto_faults. }
  assert (pos ≠ curPos j) as Hne by (intros E; subst d; rewrite E, Z.sub_diag, delayStep_zero in Hd; done).
  pose proof (run_goto 0 pos t j v Hi Hne Hd) as H. cbv zeta in H.
  replace (2 * Z.to_nat (Z.abs (pos - curPos j)) + 6 + 0)%nat with (Z.to_nat (2 * d + 6)) in H by (subst d; lia).
  eexists _, _. split; [exact H|]. destruct Hi as [Hpc Hst].
  split; [split; [by destruct j|done]|]. unfold in_range in *.
  set (up := curPos j <? pos). rewrite path_spec, Z2Nat.id by lia. fold d.
  assert (∀ k, k ∈ seqZ 0 d → u16 (if up then curPos j + k else curPos j - k)
    = if up then curPos j + k else curPos j - k) as Hu.
  { intros k Hk%elem_of_seqZ. apply u16_small. subst up d. destruct (Z.ltb_spec (curPos j) pos); lia. }
  rewrite <- !list_fmap_compose. split; [|split; [|split]].
  - apply list_fmap_ext. intros i k Hk. cbn. apply Hu. by eapply list_elem_of_lookup_2.
  - apply Forall_fmap, Forall_forall. done.
  - replace d with (Z.of_nat (S (Z.to_nat (d - 1)))) by (subst d; lia).
    rewrite seqZ_S, fmap_app. cbn [fmap list_fmap]. rewrite last_snoc. cbn. f_equal.
    subst up. rewrite u16_small; destruct (Z.ltb_spec (curPos j) pos).
    all: subst d; lia.
  - change (Z.abs (pos - (if up then pos - 1 else pos + 1)) = 1). destruct up; lia.
Qed.

Lemma gotoPose_moves_witness :
  let j := mkJoint 8 (dofZ 1) CTRLSTATE_WAITING false 8 (mkServoInfo 2 0 0 0) CWaiting [] in
  (∃ j' sent, run 30 (request 20 (dofZ 1) j) = Ok (j', sent) ∧ idle j' ∧
    Servo.pos <$> sent = [8; 9; 10; 11; 12; 13; 14; 15; 16; 17; 18; 19] ∧ Z.abs (20 - curPos j') = 1) ∧
  run 6 (request 8 (dofZ 1) j) = Fault Overflow.
Proof.
  intros j. split.
  - destruct (gotoPose_moves 20 (dofZ 1) j) as [_ H]; [done|unfold in_range; cbn; lia..|].
    assert (delayStep (dofZ 1) (Z.abs (20 - curPos j)) = Ok 83333) as E by (vm_compute; reflexivity). rewrite E in H.
    destruct H as (j' & sent & H1 & H2 & H3 & _ & _ & H4).
    exists j', sent. split; [exact H1|]. split; [exact H2|]. split; [rewrite H3; reflexivity|exact H4].
  - destruct (gotoPose_moves 8 (dofZ 1) j) as [E H]; [done|unfold in_range; cbn; lia..|].
    rewrite E in H by done. exact H.
Defined.

(** A command for the position the joint is already at makes the controller
    divide by zero and convert the result to an integer. *)
Theorem gotoPose_here_faults t j :
  idle j → ∃ j1 j2, ctl_step (request (curPos j) t j) = Ok (Some (j1, None)) ∧
    ctl_step j1 = Ok (Some (j2, None)) ∧ pc j2 = CGo ∧ ctl_step j2 = Fault Overflow.
Proof.
  intros [Hpc Hst]. destruct j as [tp ti st cb cu dr p sy]. cbn in *. subst p st.
  eexists _, _. split; [reflexivity|]. split; [reflexivity|]. split; [done|].
  unfold ctl_step. cbn. by rewrite Z.sub_diag, delayStep_zero.
Qed.

(** The controller has taken its parameters and not yet announced that it
    waits. *)
Definition busy (p : PC) : Prop :=
  match p with CMove _ _ _ _ | CStore _ _ _ _ | CCall | CStart => True | _ => False end.

(** The state of two joints that differ only in the request. *)
Definition same_motion (j k : JOINT) : Prop :=
  pc j = pc k ∧ curPos j = curPos k ∧ servo_drv j = servo_drv k ∧ callback_routine j = callback_routine k ∧
  sync j = sync k ∧ (pc j = CWaiting ∧ status j = status k ∧ status j = CTRLSTATE_WAITING ∨ busy (pc j)).

Lemma same_motion_step j k j' act :
  same_motion j k → ctl_step j = Ok (Some (j', act)) →
  ∃ k', ctl_step k = Ok (Some (k', act)) ∧ same_motion j' k'.
Proof.
  intros (H1 & H2 & H3 & H4 & H5 & H6) H. unfold ctl_step in *. rewrite <- H1. destruct (pc j); try done.
  - simplify_eq. eexists. split; [reflexivity|]. repeat split; try done. by left.
  - simplify_eq. destruct H6 as [[[=] _]|[]].
  - simplify_eq. destruct H6 as [[[=] _]|[]].
  - simplify_eq. destruct H6 as [[[=] _]|[]].
  - case_match; simplify_eq; eexists; (split; [reflexivity|]); repeat split; try done; by right.
  - simplify_eq. eexists. split; [reflexivity|]. repeat split; try done. by right.
  - simplify_eq. rewrite <- H4, <- H5. eexists. split; [reflexivity|].
    destruct (callback_routine j) eqn:E; repeat split; cbn; try done; try congruence; by right.
  - simplify_eq. destruct H6 as [[[=] _]|[]].
Qed.

Lemma same_motion_run n j k j' l :
  same_motion j k → run n j = Ok (j', l) → ∃ k', run n k = Ok (k', l) ∧ same_motion j' k'.
Proof.
  revert j k l. induction n as [|n IH]; intros j k l Hs H; [cbn in H; simplify_eq; eauto|].
  cbn [run] in *. apply bind_ok_iff in H as ([[j1 act]|] & Hj & H).
  - apply bind_ok_iff in H as ([j2 l2] & H & [= <- <-]).
    destruct (same_motion_step _ _ _ _ Hs Hj) as (k1 & -> & Hs1). cbn.
    destruct (IH _ _ _ Hs1 H) as (k2 & -> & Hs2). eauto.
  - simplify_eq. exists k. split; [|done]. destruct Hs as (H1 & _ & _ & _ & _ & H6).
    assert (ctl_step k = Ok None) as ->; [|done]. unfold ctl_step in *. rewrite <- H1.
    destruct (pc j'); try done; [by destruct H6 as [[[=] _]|[]]|by destruct (if up then _ else _)].
Qed.

(** A command that arrives while the joint is moving is lost although
    [gotoPose] answers true: the servo receives exactly what it would have
    received, and at the end the controller waits and reports that the motion
    is done. *)
Theorem gotoPose_while_busy_lost n pos t j j' sent :
  busy (pc j) → run n j = Ok (j', sent) →
  ∃ k, run n (request pos t j) = Ok (k, sent) ∧ pc k = pc j' ∧ curPos k = curPos j' ∧
    (pc j' = CWaiting → motion_done k = true).
Proof.
  intros Hb Hr. assert (same_motion j (request pos t j)) as Hs.
  { unfold request, signal. cbn [pc set_status set_time set_targetPos].
    destruct (pc j) eqn:E; try done; repeat split; cbn; try done; by right; rewrite E. }
  destruct (same_motion_run n _ _ _ _ Hs Hr) as (k & Hk & H1 & H2 & _ & _ & _ & H6).
  exists k. split; [done|]. split; [done|]. split; [done|]. intros Hw. rewrite Hw in H6.
  destruct H6 as [(_ & H6 & H7)|[]]. unfold motion_done. rewrite <- H6, H7. done.
Qed.

Lemma gotoPose_while_busy_lost_witness :
  let d := mkServoInfo 2 0 0 0 in
  let j := mkJoint 20 (dofZ 1) CTRLSTATE_GOPOS false 11 d (CMove true 20 d 12) [] in
  ∃ k sent, run 30 (request 100 (dofZ 1) j) = Ok (k, sent) ∧ curPos k = 19 ∧ motion_done k = true.
Proof.
  intros d j. assert (∃ j' sent, run 30 j = Ok (j', sent) ∧ pc j' = CWaiting ∧ curPos j' = 19) as (j' & sent & Hr & Hw & Hc).
  { eexists _, _. split; [vm_compute; reflexivity|]. split; reflexivity. }
  destruct (gotoPose_while_busy_lost 30 100 (dofZ 1) j j' sent) as (k & H1 & _ & H2 & H3).
  - exact I.
  - exact Hr.
  - exists k, sent. split; [exact H1|]. split; [by rewrite H2|by apply H3].
Defined.

(** A synchronous command that arrives after the end of a move and before
    the controller waits again blocks its client for ever: the signal finds
    nobody, the controller goes to sleep, and only the client could wake
    it. *)
Theorem gotoPoseSync_deadlock n c pos t j :
  pc j = CStart →
  ∃ j', run (S n) (request_sync c pos t j) = Ok (j', []) ∧ ctl_step j' = Ok None ∧
    c ∈ sync j' ∧ motion_done j' = true.
Proof.
  intros Hpc. destruct j as [tp ti st cb cu dr p sy]. cbn in Hpc. subst p.
  eexists. split; [erewrite run_step by reflexivity; rewrite run_blocked by reflexivity; reflexivity|].
  split; [done|]. split; [|done]. cbn. set_solver.
Qed.

(** ** Starting *)

Definition answers_ok (a : ANSWERS) : Prop :=
  a_devinit a = OK ∧ 0 <= a_fd a ∧ a_attr a = 0 ∧ a_param a = OK ∧
  ∀ i, a_mutex a i = 0 ∧ a_cond a i = 0 ∧ a_create a i = 0.

Definition started (i : Z) (d : servo_info_s) : JOINT :=
  set_pc CStart (start_params i (set_servo_drv (set_id i d) (new_joint d))).

(** With every call of the system succeeding, the four threads are created
    with their joints at 8. *)
Lemma startController_run clk env fuel a d0 d1 d2 d3 u u' :
  answers_ok a → servo_open (g_servoops clk) None u = Ok (u', OK) →
  startController clk env fuel a (MyCubInterface [d0; d1; d2; d3] u) =
    (s ← env (mkCub (a_fd a) [started 0 d0; started 1 d1; started 2 d2; started 3 d3] u'); Ok (s, true)).
Proof.
  intros (H1 & H2 & H3 & H4 & H5) Ho. unfold startController. cbn [fd_servo MyCubInterface].
  rewrite H1, H3, H4. cbn [Z.eqb OK negb orb servo MyCubInterface]. rewrite Ho, bind_ok. cbn [OK Z.ltb Z.compare].
  cbn [fd_servo set_fd_servo set_servo].
  rewrite (proj2 (Z.ltb_ge _ _) H2).
  assert (∀ i s, start_joint a i (s, true) =
    (s ← upd_joint i (start_params i) s; s ← upd_joint i (set_pc CStart) s; Ok (s, true))) as Hst.
  { intros i s. unfold start_joint. destruct (H5 i) as (-> & -> & ->). done. }
  change (seqZ 0 4) with (Z.of_nat <$> [0; 1; 2; 3]%nat). cbn [forM fmap list_fmap].
  repeat (first [rewrite bind_ok | rewrite Hst | erewrite upd_joint_some by reflexivity]).
  reflexivity.
Qed.

Lemma started_ok i d : joint_ok i (started i d).
Proof. split; cbn; unfold in_range; done || lia. Qed.

(** C11: whatever the clients of a started robot do, in any interleaving with
    the four controllers: every joint position stays between 8 and 160, and
    every timer has the pulse it had at the start or one that belongs to a
    position between 8 and 160.  [env], what happens while [startController]
    sleeps, is such an interleaving too. *)
Theorem joints_stay_in_range clk env fuel a d0 d1 d2 d3 u u' :
  0 <= clk <= 80000000 → answers_ok a →
  servo_open (g_servoops clk) None u = Ok (u', OK) → exclsem u' = 1 →
  (∀ s, ∃ s', env s = Ok s' ∧ rtc (cub_step clk) s s') →
  ∃ s1, startController clk env fuel a (MyCubInterface [d0; d1; d2; d3] u) = Ok (s1, true) ∧
    ∀ s, rtc (cub_step clk) s1 s →
      (∀ joint, 0 <= joint <= 3 → ∃ p, getPose joint s = Ok p ∧ 8 <= p <= 160) ∧
      pulse_ok clk (dev u') (dev (servo s)).
Proof.
  intros Hclk Ha Ho He Henv. rewrite (startController_run clk env fuel a d0 d1 d2 d3 u u' Ha Ho).
  match goal with |- context [env ?s0 ≫= _] => destruct (Henv s0) as (s1 & -> & Hs1) end.
  exists s1. split; [done|]. intros s Hs.
  assert (cub_ok clk (dev u') s) as [H1 H2 _ H4].
  { pose proof (transitivity Hs1 Hs) as Hr. eapply cub_reachable_ok; [done| |exact Hr]. split; cbn; try done.
    - intros n j Hj. destruct n as [|[|[|[|n]]]]; cbn in Hj; simplify_eq; apply started_ok.
    - intros t _. by left. }
  split; [|done]. intros joint Hj. unfold getPose. rewrite (proj2 (Z.ltb_ge _ _)) by lia.
  destruct (lookup_lt_is_Some_2 (joints s) (Z.to_nat joint)) as [j Hl]; [lia|].
  unfold aget. rewrite decide_True, Hl by lia. cbn. eexists. split; [done|]. apply (H2 _ _ Hl).
Qed.

Lemma joints_stay_in_range_witness :
  let d := mkServoInfo 0 0 0 0 in
  let a := mkAnswers 0 3 0 0 (λ _, 0) (λ _, 0) (λ _, 0) in
  ∃ s1, startController 80000000 Ok 0 a (MyCubInterface [d; d; d; d] (mkUpper 0 1 d (Hw.mkHW ∅ false 0 []))) = Ok (s1, true) ∧
    ∀ s b, gotoPose 2 90 (dofZ 1) s1 = Ok (s, b) → ∃ p, getPose 2 s = Ok p ∧ 8 <= p <= 160.
Proof.
  intros d a. set (u := mkUpper 0 1 d (Hw.mkHW ∅ false 0 [])).
  assert (∃ u', servo_open (g_servoops 80000000) None u = Ok (u', OK) ∧ exclsem u' = 1) as (u' & Ho & He).
  { eexists. split; [vm_compute; reflexivity|]. reflexivity. }
  destruct (joints_stay_in_range 80000000 Ok 0 a d d d d u u') as (s1 & H1 & H2).
  - lia.
  - done.
  - exact Ho.
  - exact He.
  - intros s. exists s. split; [reflexivity|apply rtc_refl].
  - exists s1. split; [exact H1|]. intros s b Hs. apply (H2 s); [|lia].
    apply rtc_once. by apply (StepGoto _ _ 2 90 (dofZ 1) s b).
Defined.

(** ** Stopping *)

(** A joint whose thread was never created is waited for without end. *)
Lemma stop_loop_endless env fuel i c s :
  c ≠ CTRLSTATE_STOPPING → c ≠ CTRLSTATE_WAITING →
  (∀ s j, aget (joints s) i = Ok j → status j = c →
     ∃ s' j', env s = Ok s' ∧ aget (joints s') i = Ok j' ∧ status j' = c) →
  (∃ j, aget (joints s) i = Ok j ∧ status j = c) →
  stop_loop env fuel i c s = Fault OutOfFuel.
Proof.
  intros H1 H2 Henv. revert s. induction fuel as [|fuel IH]; intros s (j & Hj & Hst); cbn [stop_loop];
    rewrite (proj2 (Z.eqb_neq _ _) H1); [done|].
  rewrite (proj2 (Z.eqb_neq _ _) H2), bind_ok. destruct (Henv s j Hj Hst) as (s' & j' & -> & Hj' & Hst').
  rewrite bind_ok, Hj', bind_ok, Hst'. apply IH. eauto.
Qed.

(** Stopping the controllers before they were started never ends; so neither
    does a start whose first call to the device fails, nor the destructor of
    an object that was never started. *)
Theorem stopController_unstarted_hangs clk fuel d0 d1 d2 d3 u a :
  stopController clk Ok fuel (MyCubInterface [d0; d1; d2; d3] u) = Fault OutOfFuel ∧
  (a_devinit a = OK → (∃ u' r, servo_open (g_servoops clk) None u = Ok (u', r) ∧ r < 0) →
   startController clk Ok fuel a (MyCubInterface [d0; d1; d2; d3] u) = Fault OutOfFuel).
Proof.
  assert (∀ s j l, joints s = j :: l → status j = 0 → stopController clk Ok fuel s = Fault OutOfFuel) as H.
  { intros s j l Hj Hst. unfold stopController. change (seqZ 0 4) with [0; 1; 2; 3]. cbn [forM].
    unfold stop_joint. assert (aget (joints s) 0 = Ok j) as Hg by (by rewrite Hj).
    rewrite Hg, bind_ok, Hst. rewrite stop_loop_endless; [done|done|done| |by eauto].
    intros s0 j0 H0 Hs0. eauto. }
  split; [by eapply H|]. intros Hd (u' & r & Ho & Hr). unfold startController. rewrite Hd.
  cbn [fd_servo servo MyCubInterface Z.leb Z.compare negb Z.eqb OK]. rewrite Ho, bind_ok.
  rewrite (proj2 (Z.ltb_lt _ _) Hr). cbn [fd_servo set_fd_servo Z.ltb Z.compare]. erewrite H; done.
Qed.

(** [n] steps of each controller. *)
Fixpoint ctl_many (clk : Z) (n : nat) (i : Z) (s : CUB) : res CUB :=
  match n with
  | O => Ok s
  | S n => o ← ctl clk (Z.to_nat i) s; ctl_many clk n i (default s o)
  end.
Definition settle (clk : Z) (n : nat) (s : CUB) : res CUB := forM (seqZ 0 4) (ctl_many clk n) s.

Lemma ctl_some clk n s j :
  joints s !! n = Some j →
  ctl clk n s = (r ← ctl_step j;
    match r with
    | None => Ok None
    | Some (j', act) =>
        let s := set_joints (<[n := j']> (joints s)) s in
        match act with None => Ok (Some s) | Some drv => s ← ioctl_setpos clk drv s; Ok (Some s) end
    end).
Proof.
  intros H. unfold ctl. rewrite (aget_some _ _ _ H), bind_ok.
  destruct (ctl_step j) as [[[j' act]|]|]; [|done|done].
  rewrite !bind_ok, aset_some, bind_ok by (by eapply lookup_lt_Some). done.
Qed.

Lemma ctl_many_blocked clk n i s j :
  joints s !! i = Some j → ctl_step j = Ok None → ctl_many clk n (Z.of_nat i) s = Ok s.
Proof.
  intros Hj Hb. induction n as [|n IH]; [done|]. cbn [ctl_many].
  by rewrite Nat2Z.id, (ctl_some _ _ _ _ Hj), Hb.
Qed.

Definition stopped (j : JOINT) : JOINT := set_pc CDone (set_status CTRLSTATE_STOPPING j).

(** A silent step of the controller of joint [i]. *)
Lemma ctl_many_silent clk n i j j' s :
  (i < length (joints s))%nat → ctl_step j = Ok (Some (j', None)) →
  ctl_many clk (S n) (Z.of_nat i) (set_joints (<[i := j]> (joints s)) s)
  = ctl_many clk n (Z.of_nat i) (set_joints (<[i := j']> (joints s)) s).
Proof.
  intros Hi Hj. cbn [ctl_many]. rewrite Nat2Z.id.
  rewrite (ctl_some _ _ _ j) by (by apply list_lookup_insert_eq). rewrite Hj, !bind_ok.
  cbn [default joints set_joints]. unfold set_joints. cbn [joints fd_servo servo]. by rewrite list_insert_insert_eq.
Qed.

Lemma ctl_many_stop clk i s j :
  joints s !! i = Some (request_stop j) → idle j →
  ctl_many clk 3 (Z.of_nat i) s = Ok (set_joints (<[i := stopped j]> (joints s)) s).
Proof.
  intros Hj [Hpc Hst]. pose proof (lookup_lt_Some _ _ _ Hj) as Hlt.
  assert (s = set_joints (<[i := request_stop j]> (joints s)) s) as E.
  { rewrite list_insert_id by done. by destruct s. }
  rewrite E at 1. destruct j as [tp ti st cb cu dr p sy]. cbn in Hpc, Hst. subst p st.
  do 3 (erewrite ctl_many_silent by (done || reflexivity)). done.
Qed.

Lemma settle_one clk i s j :
  length (joints s) = 4%nat → joints s !! i = Some (request_stop j) → idle j →
  (∀ m k, m ≠ i → joints s !! m = Some k → ctl_step k = Ok None) →
  settle clk 3 s = Ok (set_joints (<[i := stopped j]> (joints s)) s).
Proof.
  intros Hl Hj Hi Hb. unfold settle. change (seqZ 0 4) with (Z.of_nat <$> seq 0 4).
  assert (i < 4)%nat as Hi4 by (rewrite <- Hl; by eapply lookup_lt_Some).
  set (s' := set_joints (<[i := stopped j]> (joints s)) s).
  assert (∀ m, (m < 4)%nat → m ≠ i → ctl_many clk 3 (Z.of_nat m) s = Ok s ∧ ctl_many clk 3 (Z.of_nat m) s' = Ok s') as Hm.
  { intros m Hm4 Hne. destruct (lookup_lt_is_Some_2 (joints s) m) as [k Hk]; [lia|].
    split; (eapply ctl_many_blocked; [|by eapply Hb]); [done|].
    unfold s'. cbn [joints set_joints]. by rewrite list_lookup_insert_ne by done. }
  pose proof (ctl_many_stop clk i s j Hj Hi) as Hs. fold s' in Hs. cbn [seq fmap list_fmap].
  destruct i as [|[|[|[|i]]]]; [..|lia]; cbn [forM];
    repeat first [rewrite bind_ok | rewrite (proj1 (Hm 0%nat ltac:(lia) ltac:(lia))) | rewrite (proj2 (Hm 0%nat ltac:(lia) ltac:(lia)))
      | rewrite (proj1 (Hm 1%nat ltac:(lia) ltac:(lia))) | rewrite (proj2 (Hm 1%nat ltac:(lia) ltac:(lia)))
      | rewrite (proj1 (Hm 2%nat ltac:(lia) ltac:(lia))) | rewrite (proj2 (Hm 2%nat ltac:(lia) ltac:(lia)))
      | rewrite (proj1 (Hm 3%nat ltac:(lia) ltac:(lia))) | rewrite (proj2 (Hm 3%nat ltac:(lia) ltac:(lia)))
      | rewrite Hs]; done.
Qed.

Lemma stop_joint_run clk fuel i s j :
  length (joints s) = 4%nat → joints s !! i = Some j → idle j →
  (∀ m k, m ≠ i → joints s !! m = Some k → ctl_step k = Ok None) →
  stop_joint (settle clk 3) (S fuel) (Z.of_nat i) s = Ok (set_joints (<[i := stopped j]> (joints s)) s).
Proof.
  intros Hl Hj Hi Hb. pose proof (lookup_lt_Some _ _ _ Hj) as Hlt. unfold stop_joint.
  rewrite (aget_some _ _ _ Hj), bind_ok. rewrite (proj2 Hi). cbn [stop_loop Z.eqb CTRLSTATE_WAITING CTRLSTATE_STOPPING Pos.eqb].
  rewrite (upd_joint_some _ _ _ _ Hj), bind_ok.
  rewrite (settle_one clk i _ j); [|by cbn; rewrite length_insert|by cbn; apply list_lookup_insert_eq|done|].
  2: { intros m k Hm Hk. cbn in Hk. rewrite list_lookup_insert_ne in Hk by done. by eapply Hb. }
  rewrite bind_ok. cbn [joints set_joints]. rewrite list_insert_insert_eq.
  erewrite aget_some by (by apply list_lookup_insert_eq). rewrite bind_ok.
  destruct fuel; cbn [stop_loop stopped status set_pc set_status Z.eqb CTRLSTATE_STOPPING Pos.eqb]; rewrite bind_ok.
  all: erewrite aget_some by (cbn [joints set_joints]; by apply list_lookup_insert_eq); by rewrite bind_ok.
Qed.

(** Once the four controllers wait, stopping them ends: all threads end, the
    servo device is closed and the joints stay where they are. *)
Theorem stopController_stops clk fuel s u' ret :
  length (joints s) = 4%nat → Forall idle (joints s) → 0 <= fd_servo s →
  servo_close (g_servoops clk) None (servo s) = Ok (u', ret) →
  ∃ s', stopController clk (settle clk 3) (S fuel) s = Ok s' ∧
    Forall (λ j, pc j = CDone ∧ status j = CTRLSTATE_STOPPING) (joints s') ∧
    curPos <$> joints s' = curPos <$> joints s ∧ fd_servo s' = -1 ∧ servo s' = u'.
Proof.
  intros Hl Hi Hfd Hc. destruct s as [fd js u]. cbn [joints fd_servo servo] in *.
  do 4 (destruct js as [|? js]; [done|]). destruct js; [|done].
  rewrite !Forall_cons in Hi. destruct Hi as (I0 & I1 & I2 & I3 & _).
  assert (∀ k, idle k → ctl_step k = Ok None) as Hidle by (intros k [Hp _]; unfold ctl_step; by rewrite Hp).
  assert (∀ k, ctl_step (stopped k) = Ok None) as Hstop by done.
  unfold stopController. change (seqZ 0 4) with (Z.of_nat <$> seq 0 4). cbn [forM seq fmap list_fmap].
  do 4 (erewrite stop_joint_run; [|done|reflexivity|eassumption
    |intros [|[|[|[|m]]]] k Hm Hk; cbn in Hk; simplify_eq; auto]; rewrite bind_ok; cbn [joints set_joints insert list_insert]).
  rewrite bind_ok. cbn [fd_servo servo set_joints]. rewrite (proj2 (Z.eqb_neq fd (-1))) by lia. cbn [negb].
  rewrite Hc, bind_ok. eexists. split; [reflexivity|]. cbn. split; [by repeat constructor|done].
Qed.

End Control.
