(* ===== verification/CubWalk.v ===== *)
(** * Walking of the myCub application

    Models apps/system/myCub/lib/mycub_walk.cpp: the walker thread, which
    makes the robot walk by commands to the four joints, and the functions
    that start and stop it.  The thread runs against the controllers of
    CubControl.  Its text is a list of instructions, one per call, so that
    the code still to be executed is part of its state; a walk in another
    direction is the same code with other joints in the four roles. *)
From S2P Require Import Prelude FunkKernel CubFloat NuttxUpper NuttxServo CubControl.

Module Walk.
Import Float Upper Servo Control.

Inductive role : Type := Front | Back | Right | Left.

#[export] Instance role_eq_dec : EqDecision role.
Proof. solve_decision. Defined.

Record walk_param_t : Type := mkParam {
  t : double;
  front : Z;
  back : Z;
  right : Z;
  left : Z;
  should_stop : bool;
  running : bool
}.

(** The calls of the thread.  [Wait] is [while(!checkMotionDone()) usleep(..)],
    which looks at the joints one after the other: [Checking i ret] is such a
    look in progress.  [SyncWait] is the wait inside [gotoPoseSync]. *)
Inductive instr : Type :=
  | Enter
  | Goto (r : role) (pos : Z) (time : double)
  | Sync (r : role) (pos : Z) (time : double)
  | SyncWait (r : role)
  | Wait
  | Checking (i : nat) (ret : bool)
  | Load
  | Break
  | Loop.

(** The shared parameters, the local variables of the thread, and the code
    it has still to execute; [None] when there is no thread. *)
Record WALK : Type := mkWalk {
  param : walk_param_t;
  joint_of : role → Z;
  l_stop : bool;
  code : option (list instr)
}.

Definition set_code (c : option (list instr)) (w : WALK) : WALK := mkWalk (param w) (joint_of w) (l_stop w) c.
Definition set_should_stop (b : bool) (p : walk_param_t) : walk_param_t :=
  mkParam (t p) (front p) (back p) (right p) (left p) b (running p).
Definition set_running (b : bool) (p : walk_param_t) : walk_param_t :=
  mkParam (t p) (front p) (back p) (right p) (left p) (should_stop p) b.

Definition roles (p : walk_param_t) (r : role) : Z :=
  match r with Front => front p | Back => back p | Right => right p | Left => left p end.

(** The literals 0.5 and 0.1. *)
Definition half : double := dlit 5 1.
Definition tenth : double := dlit 1 1.

(** The commands before the loop, and the body of the loop. *)
Definition prologue : list instr :=
  [Goto Front 160 half; Goto Back 120 half; Goto Left 120 half; Goto Right 120 half; Wait].
Definition body : list instr :=
  [Load; Sync Front 8 half; Break; Goto Left 40 tenth; Goto Right 40 tenth; Wait; Break;
   Sync Front 160 half; Break; Goto Left 120 tenth; Goto Right 120 tenth; Wait; Break].

(** The walker is client 0 of the joints. *)
Definition walker_id : nat := 0.

(** The critical section that copies the parameters. *)
Definition load (w : WALK) (c : list instr) : WALK :=
  mkWalk (set_running true (param w)) (roles (param w)) (should_stop (param w)) (Some c).

(** One step of [walker] with the instruction [i] before the code [c]. *)
Definition exec (i : instr) (c : list instr) (s : CUB) (w : WALK) : res (option (CUB * WALK)) :=
  let next c := set_code (Some c) w in
  match i with
  | Enter =>
      let w := load w [] in
      Ok (Some (s, set_code (Some (if l_stop w then [] else prologue ++ [Loop])) w))
  | Goto r pos time =>
      '(s, _) ← gotoPose (joint_of w r) pos time s; Ok (Some (s, next c))
  | Sync r pos time =>
      '(s, b) ← gotoPoseSync walker_id (joint_of w r) pos time s;
      Ok (Some (s, next (if b : bool then SyncWait r :: c else c)))
  | SyncWait r =>
      b ← sync_done walker_id (joint_of w r) s;
      Ok (if b : bool then Some (s, next c) else None)
  | Wait => Ok (Some (s, next (Checking 0 true :: c)))
  | Checking i ret =>
      if (i <? 4)%nat then
        d ← checkMotionDone (Z.of_nat i) s; Ok (Some (s, next (Checking (S i) (ret && d) :: c)))
      else Ok (Some (s, next (if ret then c else Wait :: c)))
  | Load => Ok (Some (s, load w c))
  | Break => Ok (Some (s, next (if l_stop w then [] else c)))
  | Loop => Ok (Some (s, next (if l_stop w then [] else body ++ [Loop])))
  end.

(** [None] when the thread is blocked or there is none; with no code left it
    clears [running] and ends. *)
Definition walker (s : CUB) (w : WALK) : res (option (CUB * WALK)) :=
  match code w with
  | None => Ok None
  | Some [] => Ok (Some (s, mkWalk (set_running false (param w)) (joint_of w) (l_stop w) None))
  | Some (i :: c) => exec i c s w
  end.

(** ** The functions of [MyCubWalker] *)

(** [init] with the answer of [pthread_mutex_init]. *)
Definition init (status : Z) (w : WALK) : WALK * bool :=
  (mkWalk (set_running false (param w)) (joint_of w) (l_stop w) (code w), status =? 0).

(** [stop]: the request, then the wait for the end of the thread. *)
Definition stop_request (w : WALK) : WALK :=
  mkWalk (set_should_stop true (param w)) (joint_of w) (l_stop w) (code w).
Definition stop (w : WALK) : res WALK :=
  let w := stop_request w in
  match code w with None => Ok w | Some _ => Fault Blocked end.

(** [fini] destroys the mutex after the stop. *)
Definition fini (w : WALK) : res WALK := stop w.

(** The common text of the four moves; [status] is the answer of
    [pthread_create]. *)
Definition move (f b r l : Z) (tm : double) (status : Z) (w : WALK) : res (WALK * bool) :=
  w ← stop w;
  let w := mkWalk (mkParam tm f b r l false (running (param w))) (joint_of w) (l_stop w) (code w) in
  if negb (status =? 0) then Ok (w, false) else Ok (set_code (Some [Enter]) w, true).

Definition moveFront := move FRONT_JOINT BACK_JOINT RIGHT_JOINT LEFT_JOINT.
Definition moveBack := move BACK_JOINT FRONT_JOINT RIGHT_JOINT LEFT_JOINT.
Definition moveRight := move RIGHT_JOINT LEFT_JOINT FRONT_JOINT BACK_JOINT.
Definition moveLeft := move LEFT_JOINT RIGHT_JOINT FRONT_JOINT BACK_JOINT.

(** ** The walking robot *)

(** A step of a controller, of the walker, or a request to stop. *)
Inductive walk_step (clk : Z) : CUB * WALK → CUB * WALK → Prop :=
  | WalkController n s s' w : ctl clk n s = Ok (Some s') → walk_step clk (s, w) (s', w)
  | WalkWalker s s' w w' : walker s w = Ok (Some (s', w')) → walk_step clk (s, w) (s', w')
  | WalkStop s w : walk_step clk (s, w) (s, stop_request w).

(** ** A joint on its way *)

(** Where a move from [cur] to [pos] ends: one before the target. *)
Definition end_pos (cur pos : Z) : Z := if cur <? pos then pos - 1 else pos + 1.

(** A duration that gives a delay for every distance between positions. *)
Definition time_ok (tm : double) : Prop := ∀ d, 1 <= d <= 152 → ∃ v, delayStep tm d = Ok v.

Definition delay_defined (tm : double) (d : Z) : bool :=
  match delayStep tm d with Ok _ => true | Fault _ => false end.

Lemma time_ok_check tm : forallb (delay_defined tm) (seqZ 1 152) = true → time_ok tm.
Proof.
  intros H d Hd. rewrite forallb_forall in H. specialize (H d). unfold delay_defined in H.
  destruct (delayStep tm d); [eauto|]. discriminate H. apply list_elem_of_In, elem_of_seqZ. lia.
Qed.

Lemma half_ok : time_ok half.
Proof. apply time_ok_check. vm_compute. reflexivity. Qed.
Lemma tenth_ok : time_ok tenth.
Proof. apply time_ok_check. vm_compute. reflexivity. Qed.

(** The joint waits at [p], or is on its way there. *)
Definition heading (p : Z) (j : JOINT) : Prop :=
  match pc j with
  | CWaiting => curPos j = p
  | CWoken | CSwitch | CGo =>
      status j = CTRLSTATE_GOPOS ∧ targetPos j ≠ curPos j ∧ p = end_pos (curPos j) (targetPos j) ∧ time_ok (time j)
  | CMove up pos d i =>
      status j = CTRLSTATE_GOPOS ∧ p = (if up then pos - 1 else pos + 1) ∧ (i = pos → curPos j = p)
  | CStore up pos d i => status j = CTRLSTATE_GOPOS ∧ p = (if up then pos - 1 else pos + 1)
  | CCall | CStart => status j = CTRLSTATE_GOPOS ∧ curPos j = p
  | _ => False
  end.

(** The controller will still call the callback. *)
Definition before_callback (p : PC) : bool :=
  match p with
  | CWoken | CSwitch | CGo | CMove _ _ _ _ | CStore _ _ _ _ | CCall => true
  | _ => false
  end.

(** Nobody waits for the joint, or the walker does and will be called. *)
Definition sync_ok (waited : bool) (j : JOINT) : Prop :=
  sync j = [] ∨
  waited = true ∧ sync j = [walker_id] ∧ callback_routine j = true ∧ before_callback (pc j) = true.

(** A joint on its way makes its next step and stays on its way. *)
Lemma heading_step n p b j :
  joint_ok n j → heading p j → sync_ok b j →
  pc j = CWaiting ∧ ctl_step j = Ok None ∨
  ∃ j' act, ctl_step j = Ok (Some (j', act)) ∧ heading p j' ∧ sync_ok b j'.
Proof.
  intros [H1 H2 H3 H4 H5] Hh Hs. unfold ctl_step, heading, sync_ok, in_range in *.
  destruct j as [tp ti st cb cu dr q sy]. cbn in *.
  destruct q as [| | | | | |up pos d i|up pos d i| | |]; cbn in *; try done; [|by left|..]; right.
  - eexists _, _. split; [reflexivity|]. destruct Hh as [-> Hh]. split; [done|]. left. cbn.
    destruct Hs as [Hs|(_ & _ & _ & Hs)]; done.
  - eexists _, _. split; [reflexivity|]. cbn. split; [done|]. done.
  - destruct Hh as (-> & Hh). eexists _, _. split; [reflexivity|]. cbn. by split.
  - destruct Hh as (-> & Hne & -> & Ht). destruct (Ht (Z.abs (tp - cu))) as [v ->]; [lia|].
    eexists _, _. split; [reflexivity|]. cbn. split; [|done]. unfold end_pos.
    destruct (Z.ltb_spec cu tp); repeat split; lia.
  - destruct Hh as (-> & -> & Hc). destruct H5 as (_ & _ & Hi).
    destruct (if up then i <? pos else pos <? i) eqn:Hb; eexists _, _; (split; [reflexivity|]); cbn; [done|].
    split; [|done]. split; [done|]. apply Hc. destruct up; zb; lia.
  - destruct Hh as (-> & ->). destruct H5 as (_ & _ & Hi). eexists _, _. split; [reflexivity|]. cbn.
    split; [|done]. split; [done|]. split; [done|]. destruct up; lia.
  - destruct Hh as (-> & Hc). eexists _, _. split; [reflexivity|].
    destruct Hs as [->|(-> & -> & -> & _)]; [destruct cb|]; cbn; (split; [done|by left]).
Qed.

(** What a command does to a waiting joint. *)
Lemma heading_request n p pos tm b j :
  joint_ok n j → pc j = CWaiting → heading p j → sync_ok b j → p ≠ pos → time_ok tm →
  heading (end_pos p pos) (request pos tm j) ∧ sync_ok b (request pos tm j).
Proof.
  intros [H1 H2 H3 H4 H5] Hpc Hh Hs Hne Ht. destruct j as [tp ti st cb cu dr q sy]. cbn in *. subst q.
  unfold heading, sync_ok in *. cbn in *. subst cu. split; [done|].
  destruct Hs as [->|(_ & _ & _ & Hs)]; [by left|done].
Qed.

Lemma heading_request_sync n p pos tm b j :
  joint_ok n j → pc j = CWaiting → heading p j → sync_ok b j → p ≠ pos → time_ok tm →
  heading (end_pos p pos) (request_sync walker_id pos tm j) ∧ sync_ok true (request_sync walker_id pos tm j).
Proof.
  intros [H1 H2 H3 H4 H5] Hpc Hh Hs Hne Ht. destruct j as [tp ti st cb cu dr q sy]. cbn in *. subst q.
  unfold heading, sync_ok in *. cbn in *. subst cu. split; [done|].
  destruct Hs as [->|(_ & _ & _ & Hs)]; [by right|done].
Qed.

(** A joint on its way reports the end of the motion exactly when it waits. *)
Lemma heading_done n p j : joint_ok n j → heading p j → motion_done j = bool_decide (pc j = CWaiting).
Proof.
  intros [_ _ _ H4 _] Hh. unfold motion_done. destruct (decide (pc j = CWaiting)) as [Hw|Hw].
  - rewrite bool_decide_eq_true_2 by done. apply H4 in Hw. by rewrite Hw.
  - rewrite bool_decide_eq_false_2 by done. unfold heading in Hh.
    assert (status j = CTRLSTATE_GOPOS) as ->; [|done]. destruct (pc j); naive_solver.
Qed.

(** ** Checking the code of the walker *)

Definition same (r r' : role) : bool :=
  match r, r' with Front, Front | Back, Back | Right, Right | Left, Left => true | _, _ => false end.

Lemma same_spec r r' : same r r' = bool_decide (r = r').
Proof. by destruct r, r'. Qed.

Definition upd {A} (r : role) (v : A) (f : role → A) (r' : role) : A := if same r r' then v else f r'.

(** The condition on a joint at which a command may be issued. *)
Definition command_safe (B : role → bool) (P : role → Z) (r : role) (pos : Z) (tm : double) : Prop :=
  B r = false ∧ P r ≠ pos ∧ in_range pos ∧ time_ok tm.

(** [safe B P c]: if at most the joints in [B] are moving and [P] is where
    the joints are or will be, then the code [c] commands only joints that
    wait, and never one to the place where it is.  At the head of the loop
    all joints wait and the posture is one the loop can start from. *)
Fixpoint safe (B : role → bool) (P : role → Z) (c : list instr) : Prop :=
  match c with
  | [] => True
  | Goto r pos tm :: c | Sync r pos tm :: c =>
      command_safe B P r pos tm ∧ safe (upd r true B) (upd r (end_pos (P r) pos) P) c
  | SyncWait r :: c => B r = true ∧ safe B P c
  | Wait :: c | Checking _ _ :: c => safe (λ _, false) P c
  | Load :: c | Break :: c => safe B P c
  | Enter :: _ => (∀ r, B r = false) ∧ P Front ≠ 160 ∧ P Back ≠ 120 ∧ P Left ≠ 120 ∧ P Right ≠ 120
  | Loop :: _ => (∀ r, B r = false) ∧ P Front = 159 ∧ 41 <= P Left ∧ 41 <= P Right
  end.

Ltac safe_step :=
  match goal with
  | |- command_safe _ _ _ _ _ => unfold command_safe, upd, end_pos, in_range; cbn
  | |- _ ∧ _ => split
  | |- time_ok half => apply half_ok
  | |- time_ok tenth => apply tenth_ok
  | |- _ = _ => reflexivity
  | |- True => exact I
  | |- ∀ _, _ => intros []
  end.

Lemma safe_prologue B P :
  (∀ r, in_range (P r)) → safe B P [Enter] → safe B P (prologue ++ [Loop]).
Proof.
  unfold in_range. intros HP (HB & H1 & H2 & H3 & H4).
  pose proof (HP Front). pose proof (HP Back). pose proof (HP Left). pose proof (HP Right).
  cbn [app prologue safe]. repeat safe_step; try apply HB; try lia.
  all: unfold upd, end_pos; cbn; repeat case_match; zb; lia.
Qed.

Lemma safe_body B P :
  safe B P [Loop] → safe B P (body ++ [Loop]).
Proof.
  intros (HB & H1 & H2 & H3). cbn [app body safe]. repeat safe_step; try apply HB; try lia.
  all: unfold upd, end_pos; cbn; repeat case_match; zb; lia.
Qed.

(** Code in which no instruction is under way. *)
Definition plain (c : list instr) : Prop :=
  Forall (λ i, match i with Enter | Checking _ _ | SyncWait _ => False | _ => True end) c.

Lemma plain_head i c : plain (i :: c) →
  match i with Enter | Checking _ _ | SyncWait _ => False | _ => True end.
Proof. by intros [H _]%Forall_cons. Qed.

Lemma plain_prologue : plain (prologue ++ [Loop]).
Proof. by repeat constructor. Qed.
Lemma plain_body : plain (body ++ [Loop]).
Proof. by repeat constructor. Qed.

Lemma roles_running b p r : roles (set_running b p) r = roles p r.
Proof. by destruct r. Qed.

(** ** Invariant of the walking robot *)

Section walking.
Context (clk : Z) (Hclk : 0 <= clk <= 80000000) (h0 : Hw.HW).

(** The joint in each role. *)
Context (ρ : role → nat) (ρ_inj : ∀ r r', ρ r = ρ r' → r = r')
  (ρ_surj : ∀ n, (n < 4)%nat → ∃ r, ρ r = n).

Definition waiting (c : option (list instr)) (r : role) : bool :=
  match c with Some (SyncWait r' :: _) => same r' r | _ => false end.

Record walk_ok (B : role → bool) (P : role → Z) (s : CUB) (w : WALK) : Prop := {
  wk_cub : cub_ok clk h0 s;
  wk_fd : 0 <= fd_servo s;
  wk_range : ∀ r, in_range (P r);
  wk_joint : ∀ r, ∃ j, joints s !! ρ r = Some j ∧ heading (P r) j ∧
    sync_ok (waiting (code w) r) j ∧ (B r = false → pc j = CWaiting);
  wk_param : ∀ r, roles (param w) r = Z.of_nat (ρ r);
  wk_local : (∀ c, code w ≠ Some (Enter :: c)) → ∀ r, joint_of w r = Z.of_nat (ρ r);
  wk_code : ∀ c, code w = Some c → safe B P c ∧ plain (tail c);
  wk_check : ∀ i c, code w = Some (Checking i true :: c) → ∀ r j,
    (ρ r < i)%nat → joints s !! ρ r = Some j → pc j = CWaiting
}.

Lemma sync_ok_any b j : sync_ok false j → sync_ok b j.
Proof. intros [H|[[=] _]]. by left. Qed.

Lemma ctl_inv n s s' :
  ctl clk n s = Ok (Some s') →
  ∃ j j' act, joints s !! n = Some j ∧ ctl_step j = Ok (Some (j', act)) ∧
    joints s' = <[n := j']> (joints s) ∧ fd_servo s' = fd_servo s.
Proof.
  unfold ctl. intros H. apply bind_ok_iff in H as (j & Hg & H). apply bind_ok_iff in H as ([[j' act]|] & Hr & H); [|done].
  apply bind_ok_iff in H as (js & Hset & H). apply aget_ok_inv in Hg as [_ Hg]. apply aset_ok_inv in Hset as [_ ->].
  rewrite Nat2Z.id in *. exists j, j', act. split; [done|]. split; [done|].
  destruct act as [drv|]; [|by simplify_eq]. apply bind_ok_iff in H as (s1 & H & [= <-]).
  unfold ioctl_setpos in H. by apply bind_ok_iff in H as ([[u ?] ?] & _ & [= <-]).
Qed.

Lemma walk_controller B P s w n s' :
  walk_ok B P s w → ctl clk n s = Ok (Some s') → walk_ok B P s' w.
Proof using Hclk ρ_inj ρ_surj.
  intros [H1 H2 H3 H4 H5 H6 H7 H8] Hc. pose proof (ctl_ok _ Hclk _ _ _ _ H1 Hc) as H1'.
  apply ctl_inv in Hc as (j & j' & act & Hj & Hs & Hjs & Hfd).
  assert (n < 4)%nat as Hn by (rewrite <- (cub_length _ _ _ H1); by eapply lookup_lt_Some).
  destruct (ρ_surj n Hn) as [r <-].
  assert (pc j ≠ CWaiting) as Hnw by (intros E; unfold ctl_step in Hs; by rewrite E in Hs).
  split; try done; [by rewrite Hfd|..].
  - intros r'. rewrite Hjs. destruct (decide (r' = r)) as [->|Hne].
    + destruct (H4 r) as (j0 & Hj0 & Hh & Hy & HB). simplify_eq. exists j'.
      rewrite list_lookup_insert_eq by (by eapply lookup_lt_Some). split; [done|].
      destruct (heading_step _ _ _ _ (cub_joints _ _ _ H1 _ _ Hj) Hh Hy) as [[? _]|(j1 & act1 & Hs1 & Hh1 & Hy1)]; [done|].
      rewrite Hs in Hs1. injection Hs1 as <- <-. split; [done|]. split; [done|]. by intros ?%HB.
    + rewrite list_lookup_insert_ne by (intros ?%ρ_inj; congruence). apply H4.
  - intros i c Hcd r' j0 Hi Hj0. rewrite Hjs in Hj0. destruct (decide (r' = r)) as [->|Hne].
    + exfalso. apply Hnw. by eapply H8.
    + rewrite list_lookup_insert_ne in Hj0 by (intros ?%ρ_inj; congruence). by eapply H8.
Qed.

(** The step of the walker for a command to the joint in role [r], whose new
    state is [j']; [c'] is the code that follows. *)
Lemma walk_command B P s w r pos tm j j' c' :
  walk_ok B P s w → (∀ r, waiting (code w) r = false) →
  command_safe B P r pos tm → joints s !! ρ r = Some j →
  cub_ok clk h0 (set_joints (<[ρ r := j']> (joints s)) s) →
  heading (end_pos (P r) pos) j' → sync_ok (waiting (Some c') r) j' →
  (∀ c, code w ≠ Some (Enter :: c)) →
  plain c' ∨ (∃ c, c' = SyncWait r :: c ∧ plain c) →
  safe (upd r true B) (upd r (end_pos (P r) pos) P) c' →
  walk_ok (upd r true B) (upd r (end_pos (P r) pos) P)
    (set_joints (<[ρ r := j']> (joints s)) s) (set_code (Some c') w).
Proof using ρ_inj.
  intros [H1 H2 H3 H4 H5 H6 H7 H8] Hw (HB & HP & Hr & _) Hj Hcub Hh Hy Hen Hpl Hs.
  pose proof (lookup_lt_Some _ _ _ Hj) as Hlt.
  split; cbn [joints set_joints fd_servo code set_code param joint_of]; try done.
  - intros r'. unfold upd. destruct (same r r'); [|apply H3]. pose proof (H3 r).
    unfold end_pos, in_range in *. destruct (Z.ltb_spec (P r) pos); lia.
  - intros r'. unfold upd. rewrite same_spec. case_bool_decide as Hrr.
    + subst r'. exists j'. rewrite list_lookup_insert_eq by done. done.
    + rewrite list_lookup_insert_ne by (by intros ?%ρ_inj). destruct (H4 r') as (j0 & ? & ? & Hy0 & ?).
      exists j0. rewrite Hw in Hy0. eauto using sync_ok_any.
  - intros _. by apply H6.
  - intros c [= <-]. split; [done|]. destruct Hpl as [Hpl|(c & -> & Hpl)]; [|done].
    destruct c'; [done|]. by apply Forall_cons in Hpl as [_ ?].
  - intros i c [= ->]. destruct Hpl as [Hpl%plain_head|(c0 & [=] & _)]. done.
Qed.

(** A change of the code alone, in a state where nobody is waited for. *)
Lemma walk_next B B' P s w w' :
  walk_ok B P s w →
  (∀ r j, joints s !! ρ r = Some j → sync j = [] ∨ waiting (code w') r = waiting (code w) r) →
  (∀ r j, joints s !! ρ r = Some j → B' r = false → pc j = CWaiting) →
  (∀ r, roles (param w') r = Z.of_nat (ρ r)) →
  ((∀ c, code w' ≠ Some (Enter :: c)) → ∀ r, joint_of w' r = Z.of_nat (ρ r)) →
  (∀ c, code w' = Some c → safe B' P c ∧ plain (tail c)) →
  (∀ i c, code w' = Some (Checking i true :: c) → ∀ r j,
    (ρ r < i)%nat → joints s !! ρ r = Some j → pc j = CWaiting) →
  walk_ok B' P s w'.
Proof.
  intros [H1 H2 H3 H4 H5 H6 H7 H8] Hw HB Hp Hl Hc Hk. split; try done.
  intros r. destruct (H4 r) as (j & Hj & Hh & Hy & _). exists j. split; [done|]. split; [done|].
  split; [|by apply HB]. destruct (Hw r j Hj) as [E|E]; [by left|by rewrite E].
Qed.

(** A command the check allows is accepted: it reaches a waiting joint. *)
Lemma command_accepted B P s w r pos tm :
  walk_ok B P s w → command_safe B P r pos tm →
  rejected (Z.of_nat (ρ r)) pos s = false ∧
  ∃ j, joints s !! ρ r = Some j ∧ pc j = CWaiting ∧ joint_ok (Z.of_nat (ρ r)) j ∧
    heading (P r) j ∧ sync_ok (waiting (code w) r) j.
Proof.
  intros [H1 H2 H3 H4 H5 H6 H7 H8] (HB & _ & Hr & _). destruct (H4 r) as (j & Hj & Hh & Hy & HW).
  pose proof (cub_joints _ _ _ H1 _ _ Hj) as Hjo. pose proof (lookup_lt_Some _ _ _ Hj) as Hlt.
  rewrite (cub_length _ _ _ H1) in Hlt. split; [|by eauto 10].
  unfold rejected, in_range in *. rewrite !orb_false_iff. repeat split; apply Z.ltb_ge; lia.
Qed.

(** The walker is not waiting for a joint: nobody is. *)
Lemma no_sync B P s w :
  walk_ok B P s w → (∀ r, waiting (code w) r = false) → ∀ r j, joints s !! ρ r = Some j → sync j = [].
Proof.
  intros Hok Hw r j Hj. destruct (wk_joint _ _ _ _ Hok r) as (j0 & Hj0 & _ & Hy & _). simplify_eq.
  rewrite Hw in Hy. by destruct Hy as [Hy|[[=] _]].
Qed.

(** Steps that only change the code, to one that is not a look in progress. *)
Lemma walk_code B P s w w' :
  walk_ok B P s w → (∀ r, waiting (code w) r = false) →
  (∀ r, roles (param w') r = Z.of_nat (ρ r)) →
  ((∀ c, code w' ≠ Some (Enter :: c)) → ∀ r, joint_of w' r = Z.of_nat (ρ r)) →
  (∀ c, code w' = Some c → safe B P c ∧ plain (tail c) ∧ ∀ i b c0, c ≠ Checking (S i) b :: c0) →
  ∃ B' P', walk_ok B' P' s w'.
Proof.
  intros Hok Hw Hp Hl Hs. exists B, P. apply (walk_next B _ P s w); try done.
  - intros r j Hj. left. by eapply no_sync.
  - intros r j Hj HB. destruct (wk_joint _ _ _ _ Hok r) as (j0 & Hj0 & _ & _ & HW). simplify_eq. by apply HW.
  - intros c Hc. destruct (Hs c Hc) as (? & ? & _). done.
  - intros [|k] c Hc; [lia|]. destruct (Hs _ Hc) as (_ & _ & Hk). by destruct (Hk k true c).
Qed.

(** [plain] code is not a look in progress. *)
Lemma plain_not_checking c : plain c → ∀ i b c0, c ≠ Checking (S i) b :: c0.
Proof. intros Hp i b c0 ->. by apply plain_head in Hp. Qed.
Lemma plain_tail c : plain c → plain (tail c).
Proof. destruct c; [done|]. by intros [_ ?]%Forall_cons. Qed.
Lemma code_end B P : safe B P [] ∧ plain (tail (@nil instr)) ∧ ∀ i b c0, [] ≠ Checking (S i) b :: c0.
Proof. repeat split; [constructor|done]. Qed.

(** A step of the look at the joints. *)
Lemma walk_checking B P s w k ret c :
  walk_ok B P s w → code w = Some (Checking k ret :: c) →
  ∃ w', exec (Checking k ret) c s w = Ok (Some (s, w')) ∧ ∃ B', walk_ok B' P s w'.
Proof using Hclk ρ_inj ρ_surj.
  intros Hok Hc. pose proof Hok as [H1 H2 H3 H4 H5 H6 H7 H8]. destruct (H7 _ Hc) as [Hs Hp]. cbn [tail safe] in *.
  assert (∀ r, joint_of w r = Z.of_nat (ρ r)) as Hl by (apply H6; by rewrite Hc).
  assert (∀ r j, joints s !! ρ r = Some j → sync j = []) as Hns by (apply (no_sync B P s w); [done|by rewrite Hc]).
  assert (∀ r j, joints s !! ρ r = Some j → B r = false → pc j = CWaiting) as HW.
  { intros r j Hj. destruct (H4 r) as (j0 & Hj0 & _ & _ & ?). by simplify_eq. }
  cbn [exec]. destruct (Nat.ltb_spec k 4) as [Hk|Hk].
  - destruct (ρ_surj k Hk) as [r Hr]. destruct (H4 r) as (j & Hj & Hh & _). rewrite Hr in Hj.
    unfold checkMotionDone. rewrite (aget_some _ _ _ Hj), !bind_ok. eexists. split; [reflexivity|]. exists B.
    apply (walk_next B B P s w); try done; [by eauto|by intros c0 [= <-]|].
    intros i c0 [= <- Hd <-] r' j' Hi Hj'. apply andb_true_iff in Hd as [-> Hd].
    destruct (decide (ρ r' = k)) as [E|E]; [|apply (H8 _ _ Hc r'); [lia|done]].
    rewrite E in Hj'. simplify_eq. rewrite (heading_done _ _ _ (cub_joints _ _ _ H1 _ _ Hj) Hh) in Hd.
    by apply bool_decide_eq_true in Hd.
  - eexists. split; [reflexivity|]. destruct ret.
    + exists (λ _, false). apply (walk_next B _ P s w); try done; [by eauto| | |].
      * intros r j Hj _. apply (H8 _ _ Hc r); [|done]. apply lookup_lt_Some in Hj.
        rewrite (cub_length _ _ _ H1) in Hj. lia.
      * intros c0 [= <-]. split; [done|by apply plain_tail].
      * intros i c0 [= ->]. by apply plain_head in Hp.
    + exists B. apply (walk_next B B P s w); try done; [by eauto|by intros c0 [= <-]].
Qed.

Lemma walk_exec B P s w i c :
  walk_ok B P s w → code w = Some (i :: c) →
  (∃ r, i = SyncWait r ∧ exec i c s w = Ok None ∧
     ∃ j, joints s !! ρ r = Some j ∧ sync_ok true j ∧ sync j ≠ []) ∨
  ∃ s' w', exec i c s w = Ok (Some (s', w')) ∧ ∃ B' P', walk_ok B' P' s' w'.
Proof using Hclk ρ_inj ρ_surj.
  intros Hok Hc. pose proof Hok as [H1 H2 H3 H4 H5 H6 H7 H8]. destruct (H7 _ Hc) as [Hs Hp]. cbn [tail] in Hp.
  destruct i as [|r pos tm|r pos tm|r| |k ret| | |]; cbn [exec safe] in *.
  - (* Enter *) right. eexists _, _. split; [reflexivity|].
    apply (walk_code B P s w); [done|by rewrite Hc|intros r; cbn; by rewrite roles_running|done|].
    cbn [code set_code load l_stop]. intros c0 [= <-]. destruct (should_stop (param w)); [apply code_end|].
    split; [by apply safe_prologue|]. split; [apply plain_tail|apply plain_not_checking]; apply plain_prologue.
  - (* Goto *) destruct Hs as [Hcs Hs].
    destruct (command_accepted _ _ _ _ _ _ _ Hok Hcs) as (Hrej & j & Hj & Hpc & Hjo & Hh & Hy).
    rewrite H6 by (by rewrite Hc). unfold gotoPose. rewrite Hrej, (upd_joint_some _ _ _ _ Hj), !bind_ok.
    right. eexists _, _. split; [reflexivity|]. eexists _, _.
    destruct (heading_request _ _ pos tm _ _ Hjo Hpc Hh Hy) as [Hh' Hy']; [apply Hcs|apply Hcs|].
    apply (walk_command B P s w r pos tm j); try done; [by rewrite Hc| | |by rewrite Hc|by left].
    + eapply cub_step_ok; [done|done|]. apply (StepGoto _ _ (Z.of_nat (ρ r)) pos tm _ true).
      unfold gotoPose. by rewrite Hrej, (upd_joint_some _ _ _ _ Hj).
    + rewrite Hc in Hy'. by apply sync_ok_any.
  - (* Sync *) destruct Hs as [Hcs Hs].
    destruct (command_accepted _ _ _ _ _ _ _ Hok Hcs) as (Hrej & j & Hj & Hpc & Hjo & Hh & Hy).
    rewrite H6 by (by rewrite Hc). unfold gotoPoseSync. rewrite Hrej, (upd_joint_some _ _ _ _ Hj), !bind_ok.
    right. eexists _, _. split; [reflexivity|]. eexists _, _.
    destruct (heading_request_sync _ _ pos tm _ _ Hjo Hpc Hh Hy) as [Hh' Hy']; [apply Hcs|apply Hcs|].
    apply (walk_command B P s w r pos tm j); try done; [by rewrite Hc| | |by rewrite Hc|by right; eauto|].
    + eapply cub_step_ok; [done|done|]. apply (StepGotoSync _ _ walker_id (Z.of_nat (ρ r)) pos tm _ true).
      unfold gotoPoseSync. by rewrite Hrej, (upd_joint_some _ _ _ _ Hj).
    + cbn. by rewrite same_spec, bool_decide_eq_true_2.
    + cbn [safe]. split; [|done]. unfold upd. by rewrite same_spec, bool_decide_eq_true_2.
  - (* SyncWait *) destruct Hs as [HB Hs]. rewrite H6 by (by rewrite Hc).
    destruct (H4 r) as (j & Hj & Hh & Hy & HW). unfold sync_done. rewrite (aget_some _ _ _ Hj), !bind_ok.
    rewrite Hc in Hy. cbn [waiting] in Hy. rewrite same_spec, bool_decide_eq_true_2 in Hy by done.
    destruct (decide (sync j = [])) as [He|He].
    + right. rewrite bool_decide_eq_true_2 by (rewrite He; apply not_elem_of_nil).
      eexists _, _. split; [reflexivity|]. exists B, P. apply (walk_next B B P s w); try done.
      * intros r' j' Hj'. left. destruct (H4 r') as (j0 & Hj0 & _ & Hy0 & _). simplify_eq. rewrite Hc in Hy0.
        cbn [waiting] in Hy0. rewrite same_spec in Hy0. case_bool_decide; [by simplify_eq|].
        by destruct Hy0 as [Hy0|[[=] _]].
      * intros r' j' Hj' HB'. destruct (H4 r') as (j0 & Hj0 & _ & _ & HW'). simplify_eq. by apply HW'.
      * intros _. apply H6. by rewrite Hc.
      * intros c0 [= <-]. split; [done|by apply plain_tail].
      * intros k c0 [= ->]. by apply plain_head in Hp.
    + left. exists r. split; [done|]. rewrite bool_decide_eq_false_2; [by eauto|].
      destruct Hy as [Hy|(_ & Hy & _)]; [done|]. rewrite Hy. set_solver.
  - (* Wait *) right. eexists _, _. split; [reflexivity|].
    apply (walk_code B P s w); [done|by rewrite Hc|done|intros _; apply H6; by rewrite Hc|].
    by intros c0 [= <-].
  - (* Checking *) right. destruct (walk_checking _ _ _ _ _ _ _ Hok Hc) as (w' & Hx & B' & Hw'). eauto 6.
  - (* Load *) right. eexists _, _. split; [reflexivity|].
    apply (walk_code B P s w); [done|by rewrite Hc|intros r; cbn; by rewrite roles_running|done|].
    intros c0 [= <-]. split; [done|]. split; [by apply plain_tail|by apply plain_not_checking].
  - (* Break *) right. eexists _, _. split; [reflexivity|].
    apply (walk_code B P s w); [done|by rewrite Hc|done|intros _; apply H6; by rewrite Hc|].
    intros c0 [= <-]. destruct (l_stop w); [apply code_end|]. split; [done|]. split; [by apply plain_tail|by apply plain_not_checking].
  - (* Loop *) right. eexists _, _. split; [reflexivity|].
    apply (walk_code B P s w); [done|by rewrite Hc|done|intros _; apply H6; by rewrite Hc|].
    intros c0 [= <-]. destruct (l_stop w); [apply code_end|].
    split; [by apply safe_body|]. split; [apply plain_tail|apply plain_not_checking]; apply plain_body.
Qed.

(** ** Progress *)

(** Upper bound on the steps a controller makes until it waits. *)
Definition work (j : JOINT) : nat :=
  match pc j with
  | CStart => 1
  | CCall => 2
  | CStore _ pos _ i => 2 * Z.to_nat (Z.abs (pos - i)) + 2
  | CMove _ pos _ i => 2 * Z.to_nat (Z.abs (pos - i)) + 3
  | CGo => 2 * Z.to_nat (Z.abs (targetPos j - curPos j)) + 4
  | CSwitch => 2 * Z.to_nat (Z.abs (targetPos j - curPos j)) + 5
  | CWoken => 2 * Z.to_nat (Z.abs (targetPos j - curPos j)) + 6
  | _ => 0
  end.

Lemma work_step n p j j' act :
  joint_ok n j → heading p j → ctl_step j = Ok (Some (j', act)) → (work j' < work j)%nat.
Proof.
  intros [_ _ _ _ H5] Hh Hs. unfold ctl_step, heading, work in *. destruct j as [tp ti st cb cu dr q sy]. cbn in *.
  destruct q as [| | | | | |up pos d i|up pos d i| | |]; cbn in *; try done.
  - injection Hs as <- <-. cbn. lia.
  - injection Hs as <- <-. cbn. lia.
  - destruct Hh as (-> & _). injection Hs as <- <-. cbn. lia.
  - destruct (delayStep _ _); [|done]. cbn in Hs. injection Hs as <- <-. cbn. lia.
  - destruct (if up then i <? pos else pos <? i); injection Hs as <- <-; cbn; lia.
  - injection Hs as <- <-. cbn. destruct up; lia.
  - injection Hs as <- <-. destruct cb; cbn; lia.
Qed.

Definition all_waiting (s : CUB) : Prop := ∀ n j, joints s !! n = Some j → pc j = CWaiting.

(** A controller never fails, and makes a step unless it waits. *)
Lemma ctl_progress B P s w n :
  walk_ok B P s w → (n < 4)%nat →
  (∃ j, joints s !! n = Some j ∧ pc j = CWaiting ∧ ctl clk n s = Ok None) ∨
  ∃ s' j j', ctl clk n s = Ok (Some s') ∧ joints s !! n = Some j ∧
    joints s' = <[n := j']> (joints s) ∧ (work j' < work j)%nat.
Proof using Hclk ρ_surj.
  intros Hok Hn. pose proof Hok as [H1 H2 H3 H4 H5 H6 H7 H8]. destruct (ρ_surj n Hn) as [r <-].
  destruct (H4 r) as (j & Hj & Hh & Hy & _). pose proof (cub_joints _ _ _ H1 _ _ Hj) as Hjo.
  rewrite (ctl_some _ _ _ _ Hj).
  destruct (heading_step _ _ _ _ Hjo Hh Hy) as [[Hw Hs]|(j' & act & Hs & _)].
  - left. exists j. by rewrite Hs, bind_ok.
  - right. pose proof (work_step _ _ _ _ _ Hjo Hh Hs) as Hlt.
    destruct (ctl_step_ok _ _ _ _ Hjo Hs) as [Hjo' Hact]. rewrite Hs, bind_ok. destruct act as [drv|].
    + destruct (ioctl_setpos_ok _ Hclk h0 drv (ρ r) (set_joints (<[ρ r := j']> (joints s)) s)) as (s1 & E & _ & _ & Ej & _).
      { eapply (upd_joint_ok _ _ (Z.of_nat (ρ r)) (λ _, j')); [exact H1|by apply (upd_joint_some _ j (λ _, j'))|by intros]. }
      { done. } { by apply Hact. }
      cbv zeta. rewrite E, bind_ok. exists s1, j, j'. by rewrite Ej.
    + eexists _, j, j'. split; [reflexivity|]. done.
Qed.

Lemma sum_list_insert (l : list JOINT) n j j' :
  l !! n = Some j → (work j' < work j)%nat → (sum_list_with work (<[n := j']> l) < sum_list_with work l)%nat.
Proof.
  revert n. induction l as [|k l IH]; intros [|n] H Hlt; cbn in *; [done|done|simplify_eq; lia|].
  by apply Nat.add_lt_mono_l, (IH n).
Qed.

(** The controllers alone can bring all joints to rest. *)
Lemma joints_settle B P s w :
  walk_ok B P s w → ∃ s', rtc (walk_step clk) (s, w) (s', w) ∧ walk_ok B P s' w ∧ all_waiting s'.
Proof using Hclk ρ_inj ρ_surj.
  remember (sum_list_with work (joints s)) as m eqn:Hm. revert s Hm.
  induction (lt_wf m) as [m _ IH]. intros s -> Hok.
  destruct (decide (Forall (λ j, pc j = CWaiting) (joints s))) as [Hf|Hf].
  - exists s. split; [done|]. split; [done|]. intros n j Hj. by eapply (Forall_lookup_1 _ _ _ _ Hf).
  - apply not_Forall_Exists in Hf; [|apply _]. apply Exists_exists in Hf as (j & Hin & Hne).
    apply list_elem_of_lookup in Hin as [n Hj].
    assert (n < 4)%nat as Hn by (rewrite <- (cub_length _ _ _ (wk_cub _ _ _ _ Hok)); by eapply lookup_lt_Some).
    destruct (ctl_progress _ _ _ _ _ Hok Hn) as [(j0 & Hj0 & Hw & _)|(s1 & j0 & j' & Hc & Hj0 & Hjs & Hlt)].
    { simplify_eq. by cbn in Hne. }
    edestruct (IH (sum_list_with work (joints s1))) as (s2 & Hr & Hok2 & Hall); [|reflexivity|by eapply walk_controller|].
    { rewrite Hjs. by eapply sum_list_insert. }
    exists s2. split; [|done]. eapply rtc_l; [by eapply WalkController|done].
Qed.

Lemma walker_ok B P s w s' w' :
  walk_ok B P s w → walker s w = Ok (Some (s', w')) → ∃ B' P', walk_ok B' P' s' w'.
Proof using Hclk ρ_inj ρ_surj.
  intros Hok Hs. unfold walker in Hs. destruct (code w) as [[|i c]|] eqn:Hc; [| |done].
  - injection Hs as <- <-. apply (walk_code B P s w); [done|by rewrite Hc| |intros _; apply (wk_local _ _ _ _ Hok); by rewrite Hc|done].
    intros r. cbn. rewrite roles_running. apply (wk_param _ _ _ _ Hok).
  - destruct (walk_exec _ _ _ _ _ _ Hok Hc) as [(r & -> & E & _)|(s1 & w1 & E & H)]; rewrite E in Hs; [done|]. by injection Hs as -> ->.
Qed.

Lemma walk_stop_ok B P s w : walk_ok B P s w → walk_ok B P s (stop_request w).
Proof.
  by intros [].
Qed.

Lemma walk_reachable s w x :
  (∃ B P, walk_ok B P s w) → rtc (walk_step clk) (s, w) x → ∃ B P, walk_ok B P x.1 x.2.
Proof using Hclk ρ_inj ρ_surj.
  intros Hok Hr. change s with (s, w).1 in Hok. change w with (s, w).2 in Hok at 2.
  induction Hr as [y|y z ? Hst _ IH]; [done|]. apply IH. destruct Hok as (B & P & Hok).
  destruct Hst as [n s1 s2 w1 Hc|s1 s2 w1 w2 Hc|s1 w1]; cbn in *;
    eauto using walk_controller, walker_ok, walk_stop_ok.
Qed.

(** ** Ending *)

(** Upper bound on the steps of a walker that is asked to stop, when every
    look at the joints finds them at rest; [b] is its copy of the request. *)
Fixpoint weight (b : bool) (c : list instr) : nat :=
  match c with
  | [] => 1
  | Enter :: _ => 2
  | Loop :: _ => if b then 2 else 100
  | Load :: c => S (weight true c)
  | Sync _ _ _ :: c => 2 + weight b c
  | Wait :: c => 7 + weight b c
  | Checking k true :: c => 1 + (5 - k) + weight b c
  | Checking k false :: c => 8 + (5 - k) + weight b c
  | Break :: c => if b then 2 else S (weight b c)
  | Goto _ _ _ :: c | SyncWait _ :: c => S (weight b c)
  end.
Definition code_weight (w : WALK) : nat :=
  match code w with None => 0 | Some c => weight (l_stop w) c end.

Lemma walker_weight s w s' w' :
  (∀ i, motion_done <$> joints s !! i ≠ Some false) → should_stop (param w) = true →
  walker s w = Ok (Some (s', w')) →
  (code_weight w' < code_weight w)%nat ∧ should_stop (param w') = true.
Proof.
  intros Hd Hst H. unfold walker, code_weight in *. destruct (code w) as [[|i c]|]; [..|done].
  { injection H as <- <-. cbn. split; [lia|done]. }
  destruct i as [|r pos tm|r pos tm|r| |k ret| | |]; cbn [exec] in H.
  - injection H as <- <-. cbn. rewrite Hst. split; [cbn; lia|done].
  - apply bind_ok_iff in H as ([s1 b] & _ & [= <- <-]). cbn. split; [lia|done].
  - apply bind_ok_iff in H as ([s1 b] & _ & [= <- <-]). split; [|done]. destruct b; cbn; lia.
  - apply bind_ok_iff in H as (b & _ & H). destruct b; [|done]. injection H as <- <-. cbn. split; [lia|done].
  - injection H as <- <-. cbn. split; [lia|done].
  - destruct (Nat.ltb_spec k 4) as [Hk|Hk].
    + apply bind_ok_iff in H as (d & Hg & [= <- <-]). split; [|done].
      unfold checkMotionDone in Hg. apply bind_ok_iff in Hg as (j & Hj & [= <-]).
      apply aget_ok_inv in Hj as [_ Hj]. specialize (Hd (Z.to_nat (Z.of_nat k))). rewrite Hj in Hd. cbn in Hd.
      destruct (motion_done j); [|done]. rewrite andb_true_r. destruct ret; cbn [code set_code weight l_stop]; lia.
    + injection H as <- <-. split; [|done]. destruct ret; cbn [code set_code weight l_stop]; lia.
  - injection H as <- <-. split; [|done]. cbn. rewrite Hst. lia.
  - injection H as <- <-. split; [|done]. cbn. destruct (l_stop w); cbn; lia.
  - injection H as <- <-. split; [|done]. cbn. destruct (l_stop w); cbn; lia.
Qed.

Lemma all_waiting_done s : cub_ok clk h0 s → all_waiting s → ∀ i, motion_done <$> joints s !! i ≠ Some false.
Proof.
  intros Hs Ha i. destruct (joints s !! i) as [j|] eqn:Hj; [|done]. cbn.
  destruct (cub_joints _ _ _ Hs _ _ Hj) as [_ _ _ Hw _]. unfold motion_done.
  by rewrite (proj2 Hw (Ha _ _ Hj)).
Qed.

(** With the joints at rest the walker is not blocked. *)
Lemma walker_progress B P s w c :
  walk_ok B P s w → code w = Some c → all_waiting s → ∃ s' w', walker s w = Ok (Some (s', w')).
Proof using Hclk ρ_inj ρ_surj.
  intros Hok Hc Ha. unfold walker. rewrite Hc. destruct c as [|i c]; [by eauto|].
  destruct (walk_exec _ _ _ _ _ _ Hok Hc) as [(r & -> & _ & j & Hj & Hy & Hne)|(s1 & w1 & E & _)]; [|by eauto].
  destruct Hy as [?|(_ & _ & _ & Hb)]; [done|]. by rewrite (Ha _ _ Hj) in Hb.
Qed.

Lemma walk_can_end B P s w :
  walk_ok B P s w → should_stop (param w) = true →
  ∃ s' w', rtc (walk_step clk) (s, w) (s', w') ∧ code w' = None.
Proof using Hclk ρ_inj ρ_surj.
  remember (code_weight w) as m eqn:Hm. revert B P s w Hm.
  induction (lt_wf m) as [m _ IH]. intros B P s w -> Hok Hst.
  destruct (code w) as [c|] eqn:Hc; [|by exists s, w].
  destruct (joints_settle _ _ _ _ Hok) as (s1 & Hr & Hok1 & Ha).
  destruct (walker_progress _ _ _ _ _ Hok1 Hc Ha) as (s2 & w2 & Hw).
  destruct (walker_weight _ _ _ _ (all_waiting_done _ (wk_cub _ _ _ _ Hok1) Ha) Hst Hw) as [Hlt Hst2].
  destruct (walker_ok _ _ _ _ _ _ Hok1 Hw) as (B2 & P2 & Hok2).
  destruct (IH _ Hlt B2 P2 s2 w2 eq_refl Hok2 Hst2) as (s3 & w3 & Hr3 & He).
  exists s3, w3. split; [|done]. etrans; [exact Hr|].
  eapply rtc_l; [by eapply WalkWalker|done].
Qed.

End walking.

(** ** Walking *)

(** The joints wait, nobody waits for them, and the posture is not the one
    the first commands of a walk with [f] in front ask for. *)
Definition ready (f : Z) (s : CUB) : Prop :=
  ∀ n j, joints s !! n = Some j →
    pc j = CWaiting ∧ sync j = [] ∧ curPos j ≠ (if Z.of_nat n =? f then 160 else 120).

(** The joint numbers of the roles. *)
Definition assigned (p : walk_param_t) (r : role) : nat := Z.to_nat (roles p r).

Definition joints_assigned (p : walk_param_t) : Prop :=
  [front p; back p; right p; left p] ≡ₚ [0; 1; 2; 3].

Lemma assigned_spec p :
  joints_assigned p →
  (∀ r, roles p r = Z.of_nat (assigned p r)) ∧ (∀ r r', assigned p r = assigned p r' → r = r') ∧
  (∀ n, (n < 4)%nat → ∃ r, assigned p r = n).
Proof.
  unfold joints_assigned, assigned. intros Hp.
  assert (∀ r, roles p r ∈ [0; 1; 2; 3]) as Hin by (intros r; rewrite <- Hp; destruct r; set_solver).
  assert (∀ r, 0 <= roles p r) as Hpos by (intros r; specialize (Hin r); rewrite !elem_of_cons, elem_of_nil in Hin; intuition lia).
  split; [|split].
  - intros r. specialize (Hpos r). lia.
  - assert (NoDup [front p; back p; right p; left p]) as Hnd.
    { rewrite Hp. apply (bool_decide_unpack _). by vm_compute. }
    rewrite !NoDup_cons, !elem_of_cons in Hnd. intros r r' E. pose proof (Hpos r). pose proof (Hpos r').
    assert (roles p r = roles p r') as E' by lia. destruct r, r'; cbn in E'; try done; exfalso; naive_solver.
  - intros n Hn. assert (Z.of_nat n ∈ [front p; back p; right p; left p]) as Hel.
    { rewrite Hp. do 4 (destruct n as [|n]; [set_solver|]). lia. }
    rewrite !elem_of_cons, elem_of_nil in Hel. destruct Hel as [E|[E|[E|[E|[]]]]].
    + exists Front. cbn. lia.
    + exists Back. cbn. lia.
    + exists Right. cbn. lia.
    + exists Left. cbn. lia.
Qed.

Lemma walk_start clk h0 s w :
  cub_ok clk h0 s → 0 <= fd_servo s → ready (front (param w)) s → joints_assigned (param w) →
  code w = Some [Enter] → ∃ B P, walk_ok clk h0 (assigned (param w)) B P s w.
Proof.
  intros H1 H2 Hr Hp Hc. destruct (assigned_spec _ Hp) as (Ha & Hinj & Hsurj).
  set (ρ := assigned (param w)) in *.
  assert (∀ r, ∃ j, joints s !! ρ r = Some j) as Hj.
  { intros r. apply lookup_lt_is_Some. rewrite (cub_length _ _ _ H1). unfold ρ.
    assert (Z.to_nat (roles (param w) r) ∈ Z.to_nat <$> [0; 1; 2; 3]) as Hin.
    { apply list_elem_of_fmap_2. unfold joints_assigned in Hp. rewrite <- Hp. destruct r; set_solver. }
    cbn in Hin. unfold assigned. rewrite !elem_of_cons, elem_of_nil in Hin. intuition lia. }
  exists (λ _, false), (λ r, default 0 (curPos <$> joints s !! ρ r)).
  assert (∀ r, default 0 (curPos <$> joints s !! ρ r) ≠ if same r Front then 160 else 120) as Hpos.
  { intros r. destruct (Hj r) as [j E]. rewrite E. cbn. destruct (Hr _ _ E) as (_ & _ & Hne).
    rewrite same_spec. case_bool_decide as Hd; case_match; zb; try done.
    - subst r. rewrite <- Ha in *. by cbn in *.
    - exfalso. apply Hd, Hinj. rewrite <- (Nat2Z.id (ρ r)). unfold ρ at 2, assigned. cbn. lia. }
  split; try done.
  - intros r. destruct (Hj r) as [j E]. rewrite E. apply (cub_joints _ _ _ H1 _ _ E).
  - intros r. destruct (Hj r) as [j E]. exists j. rewrite E. split; [done|].
    destruct (Hr _ _ E) as (Hw & Hy & _). unfold heading, sync_ok. rewrite Hw. eauto.
  - intros Hn. by destruct (Hn []).
  - intros c E. rewrite Hc in E. injection E as <-. split; [|constructor].
    split; [done|]. split; [apply (Hpos Front)|]. split; [apply (Hpos Back)|]. split; [apply (Hpos Left)|apply (Hpos Right)].
  - intros i c E. by rewrite Hc in E.
Qed.

Lemma move_inv f b r l tm w0 w :
  move f b r l tm 0 w0 = Ok (w, true) →
  code w = Some [Enter] ∧ front (param w) = f ∧ (joints_assigned (param w) ↔ [f; b; r; l] ≡ₚ [0; 1; 2; 3]).
Proof. unfold move. intros H. apply bind_ok_iff in H as (w1 & _ & [= <-]). done. Qed.

Lemma walk_invariant clk h0 f b r l tm s w0 w s' w' :
  0 <= clk <= 80000000 → [f; b; r; l] ≡ₚ [0; 1; 2; 3] →
  cub_ok clk h0 s → 0 <= fd_servo s → ready f s →
  move f b r l tm 0 w0 = Ok (w, true) → rtc (walk_step clk) (s, w) (s', w') →
  ∃ ρ B P, (∀ r r', ρ r = ρ r' → r = r') ∧ (∀ n, (n < 4)%nat → ∃ r, ρ r = n) ∧ walk_ok clk h0 ρ B P s' w'.
Proof.
  intros Hclk Hperm Hs Hfd Hr Hm Hreach. destruct (move_inv _ _ _ _ _ _ _ Hm) as (Hc & Hf & Ha).
  apply Ha in Hperm as Hp. destruct (assigned_spec _ Hp) as (_ & Hinj & Hsurj). rewrite <- Hf in Hr.
  pose proof (walk_start clk h0 s w Hs Hfd Hr Hp Hc) as Hok.
  eapply walk_reachable in Hok as (B & P & Hok); [|done..]. cbn [fst snd] in Hok.
  by exists (assigned (param w)), B, P.
Qed.

(** A robot at rest with its joints where the constructor puts them, and its
    walker. *)
Definition resting (n : Z) : JOINT :=
  mkJoint 8 (dofZ 1) CTRLSTATE_WAITING false 8 (mkServoInfo n 0 0 0) CWaiting [].
Definition robot_at_rest : CUB :=
  mkCub 3 [resting 0; resting 1; resting 2; resting 3] (mkUpper 1 1 (mkServoInfo 0 0 0 0) (Hw.mkHW ∅ false 0 [])).
Definition no_walk : WALK := mkWalk (mkParam (dofZ 1) 0 0 0 0 false false) (λ _, 0) false None.

Lemma robot_at_rest_ok : cub_ok 80000000 (dev (servo robot_at_rest)) robot_at_rest ∧ ready FRONT_JOINT robot_at_rest.
Proof.
  split.
  - split; try done; [|by left]. intros n j Hj.
    do 4 (destruct n as [|n]; [injection Hj as <-; split; cbn; unfold in_range; done || lia|]). done.
  - intros n j Hj. do 4 (destruct n as [|n]; [by injection Hj as <-|]). done.
Qed.

(** C13: a walk, started on controllers that run and wait, no client of which
    is waiting and no joint of which is at the first target of the walker, in
    any interleaving of the walker, the four controllers and requests to
    stop: no thread ever fails (no division by zero, no index out
    of range); each command of the walker is accepted, finds its joint waiting
    and asks for a place where the joint is not, so none is lost; and while
    the walker exists, it or a controller can make a step: there is no
    deadlock. *)
Theorem walking_is_safe clk h0 f b r l tm s w0 w s' w' :
  0 <= clk <= 80000000 → [f; b; r; l] ≡ₚ [0; 1; 2; 3] →
  cub_ok clk h0 s → 0 <= fd_servo s → ready f s →
  move f b r l tm 0 w0 = Ok (w, true) → rtc (walk_step clk) (s, w) (s', w') →
  (∀ n, (n < 4)%nat → ∃ o, ctl clk n s' = Ok o) ∧
  (∃ o, walker s' w' = Ok o) ∧
  (∀ x pos t c, code w' = Some (Goto x pos t :: c) ∨ code w' = Some (Sync x pos t :: c) →
    rejected (joint_of w' x) pos s' = false ∧
    ∃ j, joints s' !! Z.to_nat (joint_of w' x) = Some j ∧ pc j = CWaiting ∧ curPos j ≠ pos) ∧
  (code w' ≠ None →
    (∃ n s2, ctl clk n s' = Ok (Some s2)) ∨ ∃ s2 w2, walker s' w' = Ok (Some (s2, w2))).
Proof.
  intros Hclk Hperm Hs Hfd Hr Hm Hreach.
  destruct (walk_invariant _ _ _ _ _ _ _ _ _ _ _ _ Hclk Hperm Hs Hfd Hr Hm Hreach) as (ρ & B & P & Hinj & Hsurj & Hok).
  split; [|split; [|split]].
  - intros n Hn. destruct (ctl_progress _ Hclk _ _ Hsurj _ _ _ _ _ Hok Hn) as [(? & _ & _ & ->)|(? & ? & ? & -> & _)]; eauto.
  - unfold walker. destruct (code w') as [[|i c]|] eqn:E; [by eauto| |by eauto].
    destruct (walk_exec _ Hclk _ _ Hinj Hsurj _ _ _ _ _ _ Hok E) as [(? & _ & -> & _)|(? & ? & -> & _)]; eauto.
  - intros x pos t0 c E.
    assert (command_safe B P x pos t0) as Hcs.
    { destruct E as [E|E]; destruct (wk_code _ _ _ _ _ _ _ Hok _ E) as [[H _] _]; exact H. }
    rewrite (wk_local _ _ _ _ _ _ _ Hok) by (intros c0 E'; destruct E as [E|E]; by rewrite E in E').
    destruct (command_accepted _ _ _ _ _ _ _ _ _ _ Hok Hcs) as (Hrej & j & Hj & Hw & _ & Hh & _).
    split; [done|]. exists j. rewrite Nat2Z.id. split; [done|]. split; [done|].
    unfold heading in Hh. rewrite Hw in Hh. rewrite Hh. apply Hcs.
  - intros E. destruct (code w') as [[|i c]|] eqn:E'; [right; unfold walker; rewrite E'; by eauto| |done].
    destruct (walk_exec _ Hclk _ _ Hinj Hsurj _ _ _ _ _ _ Hok E') as [(x & _ & _ & j & Hj & Hy & Hne)|(s2 & w2 & Hx & _)].
    2: { right. unfold walker. rewrite E'. eauto. }
    left. assert (ρ x < 4)%nat as Hn.
    { rewrite <- (cub_length _ _ _ (wk_cub _ _ _ _ _ _ _ Hok)). by eapply lookup_lt_Some. }
    destruct (ctl_progress _ Hclk _ _ Hsurj _ _ _ _ _ Hok Hn) as [(j0 & Hj0 & Hw & _)|(s2 & _ & _ & Hx & _)]; [|by eauto].
    simplify_eq. destruct Hy as [?|(_ & _ & _ & Hb)]; [done|]. by rewrite Hw in Hb.
Qed.

Lemma walking_is_safe_witness :
  ∃ w s1 w1, moveFront (dofZ 1) 0 no_walk = Ok (w, true) ∧
    rtc (walk_step 80000000) (robot_at_rest, w) (s1, w1) ∧
    (∃ c, code w1 = Some (Goto Back 120 half :: c)) ∧ ∃ o, walker s1 w1 = Ok o.
Proof.
  destruct robot_at_rest_ok as [Hok Hready].
  eexists _, _, _. split; [reflexivity|].
  assert (∀ P Q R : Prop, P → (P → R) → Q → P ∧ Q ∧ R) as Hand by tauto. apply Hand.
  - eapply rtc_l; [apply WalkWalker; reflexivity|]. eapply rtc_l; [apply WalkWalker; reflexivity|]. apply rtc_refl.
  - intros Hr.
    refine (proj1 (proj2 (walking_is_safe 80000000 _ FRONT_JOINT BACK_JOINT RIGHT_JOINT LEFT_JOINT (dofZ 1)
      robot_at_rest no_walk _ _ _ _ _ Hok _ Hready eq_refl Hr))).
    + lia.
    + apply (bool_decide_unpack _). reflexivity.
    + cbn. lia.
  - eexists. reflexivity.
Defined.

(** C14: a walk can always be stopped: from every state a walk reaches, after a
    request to stop, the threads can run until the walker has ended, and then
    [stop] returns. *)
Theorem walking_stops clk h0 f b r l tm s w0 w s' w' :
  0 <= clk <= 80000000 → [f; b; r; l] ≡ₚ [0; 1; 2; 3] →
  cub_ok clk h0 s → 0 <= fd_servo s → ready f s →
  move f b r l tm 0 w0 = Ok (w, true) → rtc (walk_step clk) (s, w) (s', w') →
  ∃ s2 w2, rtc (walk_step clk) (s', stop_request w') (s2, w2) ∧ ∃ w3, stop w2 = Ok w3.
Proof.
  intros Hclk Hperm Hs Hfd Hr Hm Hreach.
  destruct (walk_invariant _ _ _ _ _ _ _ _ _ _ _ _ Hclk Hperm Hs Hfd Hr Hm Hreach) as (ρ & B & P & Hinj & Hsurj & Hok).
  apply walk_stop_ok in Hok. eapply walk_can_end in Hok as (s2 & w2 & Hrt & He); [|done..].
  exists s2, w2. split; [done|]. unfold stop. cbn. rewrite He. eauto.
Qed.

Lemma walking_stops_witness :
  ∃ w, moveFront (dofZ 1) 0 no_walk = Ok (w, true) ∧
  ∃ s1 w1, walker robot_at_rest w = Ok (Some (s1, w1)) ∧
  ∃ s2 w2, rtc (walk_step 80000000) (s1, stop_request w1) (s2, w2) ∧ ∃ w3, stop w2 = Ok w3.
Proof.
  destruct robot_at_rest_ok as [Hok Hready].
  eexists. split; [reflexivity|]. eexists _, _. split; [reflexivity|].
  refine (walking_stops 80000000 _ FRONT_JOINT BACK_JOINT RIGHT_JOINT LEFT_JOINT (dofZ 1)
      robot_at_rest no_walk _ _ _ _ _ Hok _ Hready eq_refl _).
  - lia.
  - apply (bool_decide_unpack _). reflexivity.
  - cbn. lia.
  - apply rtc_once, WalkWalker. reflexivity.
Defined.

End Walk.
