(* ===== verification/CubSensors.v ===== *)
(** * Sensors of the myCub application

    Models the sensor functions of apps/system/myCub/lib/mycub_interface.cpp
    (ultrasonic range finder, battery voltage and current) and
    apps/system/myCub/lib/mycub_compass.cpp (the HMC5883 magnetometer), over
    the range, converter and I2C drivers of the board.  A descriptor is
    negative when its device is not open; [read] then answers -1. *)
From S2P Require Import Prelude FunkKernel CubFloat NuttxUpper NuttxAdc NuttxString NuttxRange NuttxI2c.

Module Sense.
Import Float Upper Str.

(** ** Range finder *)

(** [while(ptr++ != ptr2) dummy[i++] = *ptr;] *)
Fixpoint copy_to (fuel : nat) (str : list Z) (ptr ptr2 : Z) (dummy : list Z) (i : Z) : res (list Z * Z) :=
  if ptr =? ptr2 then Ok (dummy, i)
  else match fuel with
  | O => Fault OutOfFuel
  | S fuel =>
      c ← aget str (ptr + 1);
      dummy ← aset dummy i c;
      copy_to fuel str (ptr + 1) ptr2 dummy (i + 1)
  end.

(** [dummy] is the local array, of 32 characters and not initialised. *)
Definition getRange (id : Z) (dummy str : list Z) : res Z :=
  dummy ← strcpy dummy 0 (bytes "(" ++ decimal id ++ bytes " ");
  r ← strstr (S (length str)) str dummy;
  match r with
  | None => Ok 0
  | Some p =>
      n ← strlen dummy;
      let ptr := p + (n - 1) in
      r ← strchr (drop (Z.to_nat ptr) str) 41;
      match r with
      | None => Ok 0
      | Some k =>
          '(dummy, i) ← copy_to (length str) str ptr (ptr + k) dummy 0;
          dummy ← aset dummy (i - 1) 0;
          atoi dummy
      end
  end.

(** [data] is the array of 128 characters. *)
Definition getDistance (level : nat → bool) (tick : nat → Z) (fuel : nat) (fd_range id : Z) (data dummy : list Z)
    (u : Range.range_upperhalf_s) : res (Range.range_upperhalf_s * Z) :=
  if fd_range <? 0 then Ok (u, -1)
  else
    '(u, data, ret) ← Range.upper_read (Range.g_rangeops level tick) fuel data (Z.of_nat (length data)) u;
    if 0 <? ret then d ← getRange id dummy data; Ok (u, d) else Ok (u, -1).

(** ** Battery *)

(** The samples in the buffer, low byte first. *)
Fixpoint samples (b : list Z) : list Z :=
  match b with
  | lo :: hi :: b => lo + 256 * hi :: samples b
  | _ => []
  end.

Section converter.
Context (conv : nat → option Z) (clk : Z) (intr : option Z).

(** [data] has [len] elements of two bytes; the answer of the driver is the
    number of samples.  A failed configuration is not noticed. *)
Definition getRawAnalogData (fd_adc channel freq : Z) (data : list Z) (len : Z) (u : Adc.adclm4f_upperhalf_s)
    : res (Adc.adclm4f_upperhalf_s * list Z * Z) :=
  if fd_adc <? 0 then Ok (u, data, -1)
  else
    let info := Adc.mkAdcInfo channel len freq in
    '(u, _) ← Adc.adclm4f_ioctl (Adc.g_adclm4fops conv clk) intr Adc.ADCIOC_SETCONF (Some info) u;
    Adc.upper_read (Adc.g_adclm4fops conv clk) (Z.to_nat len) data (len * 2) u.

(** The average of ten samples. *)
Definition average (value : list Z) : double :=
  ddiv (foldl (λ volt v, dadd volt (dofZ v)) (dofZ 0) value) (dofZ 10).
Definition volts (volt : double) : double := dmul volt (dlit 80586 8).

Definition getBatteryVolt (fd_adc : Z) (value : list Z) (u : Adc.adclm4f_upperhalf_s)
    : res (Adc.adclm4f_upperhalf_s * double) :=
  '(u, value, ret) ← getRawAnalogData fd_adc 6 1000 value 10 u;
  if ret <=? 0 then Ok (u, dofZ (-1))
  else Ok (u, dmul (volts (average (samples value))) (dofZ 11)).

Definition getBatteryCurrent (fd_adc : Z) (value : list Z) (u : Adc.adclm4f_upperhalf_s)
    : res (Adc.adclm4f_upperhalf_s * double) :=
  '(u, value, ret) ← getRawAnalogData fd_adc 5 1000 value 10 u;
  if ret <=? 0 then Ok (u, dofZ (-1))
  else Ok (u, dmul (dsub (volts (average (samples value))) (dlit 25 1)) (dofZ 10)).

End converter.

(** ** Compass *)

Definition HMC5883_ADDRESS_MAG : Z := Z.shiftr 0x3C 1.
Definition HMC5883_REGISTER_MAG_CRB_REG_M : Z := 0x01.
Definition HMC5883_REGISTER_MAG_MR_REG_M : Z := 0x02.
Definition HMC5883_REGISTER_MAG_OUT_X_H_M : Z := 0x03.
Definition HMC5883_MAGGAIN_1_3 : Z := 0x20.
Definition SENSORS_GAUSS_TO_MICROTESLA : double := dofZ 100.

(** The magnetometer with the device structures and the bus it is on.
    [hmc_dev] names the structure, [None] before [init]. *)
Record COMPASS : Type := mkCompass {
  hmc_dev : option nat;
  magGain : Z;
  magX : double;
  magY : double;
  magZ : double;
  Gauss_LSB_XY : double;
  Gauss_LSB_Z : double;
  devs : I2c.DEVS;
  bus : I2c.BUS
}.

Definition MyCubCompass (d : I2c.DEVS) (b : I2c.BUS) : COMPASS :=
  mkCompass None 0 (dofZ 0) (dofZ 0) (dofZ 0) (dofZ 1100) (dofZ 980) d b.

Definition set_bus (d : I2c.DEVS) (b : I2c.BUS) (c : COMPASS) : COMPASS :=
  mkCompass (hmc_dev c) (magGain c) (magX c) (magY c) (magZ c) (Gauss_LSB_XY c) (Gauss_LSB_Z c) d b.
Definition set_scale (gain : Z) (xy z : double) (c : COMPASS) : COMPASS :=
  mkCompass (hmc_dev c) gain (magX c) (magY c) (magZ c) xy z (devs c) (bus c).
Definition set_mag (x y z : double) (c : COMPASS) : COMPASS :=
  mkCompass (hmc_dev c) (magGain c) x y z (Gauss_LSB_XY c) (Gauss_LSB_Z c) (devs c) (bus c).

(** The structure [hmc_dev] points to, and its replacement. *)
Definition dev_of (c : COMPASS) : res I2c.lm4f_i2cdev_s :=
  match hmc_dev c with
  | None => Fault NullDeref
  | Some n => Ok (if (n =? 0)%nat then I2c.g_i2c0dev (devs c) else I2c.g_i2c1dev (devs c))
  end.
Definition put_dev (p : I2c.lm4f_i2cdev_s) (c : COMPASS) : COMPASS :=
  match hmc_dev c with
  | Some O => set_bus (I2c.mkDevs p (I2c.g_i2c1dev (devs c))) (bus c) c
  | _ => set_bus (I2c.mkDevs (I2c.g_i2c0dev (devs c)) p) (bus c) c
  end.

(** [I2C_SETADDRESS]; the register goes where the number of address bits
    belongs, and the driver sends it. *)
Definition setaddress (reg : Z) (c : COMPASS) : res COMPASS :=
  p ← dev_of c;
  Ok (put_dev (I2c.i2c_setaddress HMC5883_ADDRESS_MAG reg p).1 c).

(** The scale of a gain setting. *)
Definition gain_scale (gain : Z) : option (Z * Z) :=
  if gain =? 0x20 then Some (1100, 980)
  else if gain =? 0x40 then Some (855, 760)
  else if gain =? 0x60 then Some (670, 600)
  else if gain =? 0x80 then Some (450, 400)
  else if gain =? 0xA0 then Some (400, 255)
  else if gain =? 0xC0 then Some (330, 295)
  else if gain =? 0xE0 then Some (230, 205)
  else None.

Section compass.
Context (hangs : nat → bool) (err data : nat → Z) (clk : Z) (cfg : I2c.CONFIG).
Context (atan2 : double → double → double).

(** [I2C_WRITE] of one byte; the result is not used. *)
Definition write1 (v : Z) (c : COMPASS) : res COMPASS :=
  p ← dev_of c;
  '(b, _) ← I2c.i2c_write hangs err 1 p [v] 1 (bus c);
  Ok (set_bus (devs c) b c).

Definition setGain (gain : Z) (c : COMPASS) : res (COMPASS * bool) :=
  c ← setaddress HMC5883_REGISTER_MAG_CRB_REG_M c;
  c ← write1 (u8 gain) c;
  let c := match gain_scale gain with
           | Some (xy, z) => set_scale gain (dofZ xy) (dofZ z) c
           | None => set_scale gain (Gauss_LSB_XY c) (Gauss_LSB_Z c) c
           end in
  Ok (c, true).

Definition init (i2c_port : Z) (c : COMPASS) : res (COMPASS * bool) :=
  let '(d, b, p) := I2c.up_i2cinitialize cfg i2c_port (devs c) (bus c) in
  let c := mkCompass p (magGain c) (magX c) (magY c) (magZ c) (Gauss_LSB_XY c) (Gauss_LSB_Z c) d b in
  p ← dev_of c;
  let c := set_bus (devs c) (I2c.i2c_setfrequency clk 100 p (bus c)).1 c in
  c ← setaddress HMC5883_REGISTER_MAG_MR_REG_M c;
  c ← write1 0 c;
  '(c, _) ← setGain HMC5883_MAGGAIN_1_3 c;
  Ok (c, true).

(** [(int16_t)(lo | ((int16_t)hi << 8))], stored in a float. *)
Definition axis (hi lo : Z) : Z := s16 (Z.lor lo (Z.shiftl hi 8)).

(** [buf] is the array of six bytes; the result of the transfer is not
    used. *)
Definition read (buf : list Z) (c : COMPASS) : res (COMPASS * bool) :=
  match hmc_dev c with
  | None => Ok (c, false)
  | Some _ =>
      c ← setaddress HMC5883_REGISTER_MAG_OUT_X_H_M c;
      p ← dev_of c;
      '(b, buf, _) ← I2c.i2c_read hangs err data 6 p buf 6 (bus c);
      let c := set_bus (devs c) b c in
      xhi ← aget buf 0; xlo ← aget buf 1;
      zhi ← aget buf 2; zlo ← aget buf 3;
      yhi ← aget buf 4; ylo ← aget buf 5;
      Ok (set_mag (dofZ (axis xhi xlo)) (dofZ (axis yhi ylo)) (dofZ (axis zhi zlo)) c, true)
  end.

(** The magnetic field in microtesla: x, y, z. *)
Definition getEvent (buf : list Z) (c : COMPASS) : res (COMPASS * option (double * double * double)) :=
  match hmc_dev c with
  | None => Ok (c, None)
  | Some _ =>
      '(c, _) ← read buf c;
      let scaled v lsb := fmul (fdiv v lsb) SENSORS_GAUSS_TO_MICROTESLA in
      Ok (c, Some (scaled (magX c) (Gauss_LSB_XY c), scaled (magY c) (Gauss_LSB_XY c), scaled (magZ c) (Gauss_LSB_Z c)))
  end.

Definition M_PI : double := dlit 3141592653589793 15.
Definition two_pi : double := dmul (dofZ 2) M_PI.

(** The angle, turned by the declination, in degrees. *)
Definition to_heading (angle : double) : double :=
  let heading := to_float angle in
  let heading := to_float (dadd heading (dlit 92 2)) in
  let heading := if dltb heading (dofZ 0) then to_float (dadd heading two_pi) else heading in
  let heading := if dltb two_pi heading then to_float (dsub heading two_pi) else heading in
  to_float (ddiv (fmul heading (dofZ 180)) M_PI).

Definition getHeading (buf : list Z) (c : COMPASS) : res (COMPASS * double) :=
  '(c, e) ← getEvent buf c;
  match e with
  | None => Ok (c, dofZ (-1))
  | Some (x, y, _) => Ok (c, to_heading (atan2 y x))
  end.

End compass.

(** ** Lemmas: finding a report in the text *)

Lemma report_shape i d :
  0 <= i → 0 <= d → Range.report i d = 40 :: decimal i ++ 32 :: decimal d ++ [41; 32].
Proof.
  intros Hi Hd. unfold Range.report. rewrite !bytes_app, !decimal_spec.
  rewrite !(proj2 (Z.ltb_ge _ _)) by done. done.
Qed.

(** What [getRange] looks for. *)
Definition needle (id : Z) : list Z := 40 :: decimal id ++ [32].

Lemma decimal_free z c : c ∈ [32; 40; 41] → c ∉ decimal z.
Proof.
  intros Hc Hin. pose proof (decimal_chars z) as H. rewrite Forall_forall in H. specialize (H c Hin).
  rewrite !elem_of_cons, elem_of_nil in Hc. lia.
Qed.

Lemma decimal_nonzero z : Forall (λ c, c ≠ 0) (decimal z).
Proof. eapply Forall_impl; [apply decimal_chars|]. cbn. lia. Qed.

Lemma split_unique {A} (x : A) l1 l2 t1 t2 :
  x ∉ l1 → x ∉ l2 → l1 ++ x :: t1 = l2 ++ x :: t2 → l1 = l2 ∧ t1 = t2.
Proof.
  revert l2. induction l1 as [|a l1 IH]; intros [|b l2] H1 H2 E; cbn in E.
  - by injection E.
  - injection E as -> _. exfalso. apply H2. left.
  - injection E as -> _. exfalso. apply H1. left.
  - injection E as -> E2. apply not_elem_of_cons in H1 as [_ H1]. apply not_elem_of_cons in H2 as [_ H2].
    destruct (IH l2 H1 H2 E2) as [-> ->]. done.
Qed.

Lemma needle_report id i d rest :
  0 <= i → 0 <= d → needle id `prefix_of` Range.report i d ++ rest → id = i.
Proof.
  intros Hi Hd [k Hk]. rewrite report_shape in Hk by done. unfold needle in Hk. cbn [app] in Hk.
  injection Hk as Hk. rewrite <- !app_assoc in Hk. cbn [app] in Hk.
  apply split_unique in Hk as [Hk _]; [by apply decimal_inj| |]; apply decimal_free; set_solver.
Qed.

(** The only open parenthesis of a report is its first character. *)
Lemma report_open i d k x :
  0 <= i → 0 <= d → Range.report i d !! S k = Some x → x ≠ 40.
Proof.
  intros Hi Hd Hk ->. rewrite report_shape in Hk by done. cbn in Hk. apply list_elem_of_lookup_2 in Hk.
  rewrite elem_of_app, elem_of_cons, elem_of_app in Hk.
  destruct Hk as [H|[[=]|[H|H]]]; [| |rewrite !elem_of_cons, elem_of_nil in H; lia];
    by apply decimal_free in H; [|set_solver].
Qed.

Definition reports_ok (ds : list (Z * Z)) : Prop := Forall (λ d, 0 <= d.1 ∧ 0 <= d.2 < 4000) ds.

(** Every place where the needle occurs is the beginning of a report of that
    sensor. *)
Lemma needle_position id ds k rest :
  reports_ok ds → (k < length (Range.text ds))%nat → needle id `prefix_of` drop k (Range.text ds ++ rest) →
  ∃ ds1 d ds2, ds = ds1 ++ (id, d) :: ds2 ∧ k = length (Range.text ds1).
Proof.
  intros Hok. revert k. induction Hok as [|[i d] ds [Hi Hd] _ IH]; intros k Hk Hp; [cbn in Hk; lia|].
  cbn [fst snd] in *. rewrite Range.text_cons in *. cbn [fst snd] in *. rewrite <- app_assoc in Hp.
  destruct k as [|k].
  { rewrite drop_0 in Hp. apply needle_report in Hp as ->; [|lia..]. by exists [], d, ds. }
  destruct (decide (S k < length (Range.report i d))%nat) as [Hin|Hout].
  - exfalso. destruct (lookup_lt_is_Some_2 _ _ Hin) as [x Hx]. rewrite drop_app_le in Hp by lia.
    erewrite drop_S in Hp by done. cbn [app] in Hp. apply prefix_cons_inv_1 in Hp as <-.
    by apply (report_open i d k) in Hx; [|lia..].
  - rewrite drop_app_ge in Hp by lia. rewrite length_app in Hk.
    destruct (IH (S k - length (Range.report i d))%nat) as (ds1 & d' & ds2 & -> & E); [lia|done|].
    exists ((i, d) :: ds1), d', ds2. split; [done|]. rewrite Range.text_cons, length_app. cbn [fst snd]. lia.
Qed.

Lemma text_app ds1 ds2 : Range.text (ds1 ++ ds2) = Range.text ds1 ++ Range.text ds2.
Proof. unfold Range.text. by rewrite bind_app. Qed.

Lemma text_nonzero ds : reports_ok ds → Forall (λ c, c ≠ 0) (Range.text ds).
Proof.
  induction 1 as [|[i d] ds [Hi Hd] _ IH]; [constructor|]. rewrite Range.text_cons. apply Forall_app. split; [|done].
  cbn [fst snd] in *. rewrite report_shape by lia.
  constructor; [done|]. apply Forall_app. split; [apply decimal_nonzero|]. constructor; [done|].
  apply Forall_app. split; [apply decimal_nonzero|]. by repeat constructor.
Qed.

(** The loop copies the characters after [pre ++ [c]] over [old]. *)
Lemma copy_to_run fuel pre c data post dpre old dpost :
  length old = length data → (length data <= fuel)%nat →
  copy_to fuel (pre ++ c :: data ++ post) (Z.of_nat (length pre)) (Z.of_nat (length pre + length data))
    (dpre ++ old ++ dpost) (Z.of_nat (length dpre)) =
  Ok (dpre ++ data ++ dpost, Z.of_nat (length dpre + length data)).
Proof.
  revert fuel pre c dpre old. induction data as [|x data IH]; intros fuel pre c dpre old Hl Hf.
  { destruct old; [|done]. rewrite !Nat.add_0_r. destruct fuel; cbn [copy_to]; by rewrite Z.eqb_refl. }
  destruct old as [|o old]; [done|]. destruct fuel as [|fuel]; [cbn in Hf; lia|]. cbn [copy_to].
  rewrite (proj2 (Z.eqb_neq _ _)) by (cbn; lia).
  replace (Z.of_nat (length pre) + 1) with (Z.of_nat (length (pre ++ [c]))) by (rewrite length_app; cbn; lia).
  assert (pre ++ c :: (x :: data) ++ post = (pre ++ [c]) ++ x :: data ++ post) as -> by (by rewrite <- app_assoc).
  rewrite aget_app, bind_ok. cbn [app].
  rewrite aset_some, bind_ok by (rewrite !length_app; cbn; lia).
  rewrite (insert_app_r_alt _ _ (length dpre)), Nat.sub_diag by lia. cbn [insert list_insert].
  specialize (IH fuel (pre ++ [c]) x (dpre ++ [x]) old ltac:(cbn in Hl; lia) ltac:(cbn in Hf; lia)).
  replace (Z.of_nat (length dpre) + 1) with (Z.of_nat (length (dpre ++ [x]))) by (rewrite length_app; cbn; lia).
  replace (Z.of_nat (length pre + length (x :: data))) with (Z.of_nat (length (pre ++ [c]) + length data))
    by (rewrite length_app; cbn; lia).
  assert (dpre ++ x :: old ++ dpost = (dpre ++ [x]) ++ old ++ dpost) as -> by (by rewrite <- app_assoc).
  rewrite IH. do 2 f_equal; [by rewrite <- app_assoc|rewrite length_app; cbn; lia].
Qed.

(** The end of [getRange], once the report has been found. *)
Lemma getRange_parse pre d post dummy :
  0 <= d < 4000 → length dummy = 32%nat →
  let str := pre ++ 32 :: decimal d ++ 41 :: post in
  let ptr := Z.of_nat (length pre) in
  (r ← strchr (drop (Z.to_nat ptr) str) 41;
   match r with
   | None => Ok 0
   | Some k =>
       '(dummy, i) ← copy_to (length str) str ptr (ptr + k) dummy 0;
       dummy ← aset dummy (i - 1) 0;
       atoi dummy
   end) = Ok d.
Proof.
  intros Hd Hl str ptr. unfold ptr. rewrite Nat2Z.id. unfold str. rewrite drop_app_length.
  change (32 :: decimal d ++ 41 :: post) with ((32 :: decimal d) ++ 41 :: post).
  rewrite strchr_found, bind_ok.
  2: { constructor; [done|apply decimal_nonzero]. }
  2: { apply not_elem_of_cons. split; [done|]. apply decimal_free. set_solver. }
  pose proof (decimal_length d ltac:(lia)) as Hdl.
  set (data := decimal d ++ [41]). assert (length data = S (length (decimal d))) as Hdata.
  { unfold data. rewrite length_app. cbn. lia. }
  rewrite <- (take_drop (length data) dummy).
  replace (pre ++ (32 :: decimal d) ++ 41 :: post) with (pre ++ 32 :: data ++ post) by (unfold data; by rewrite <- app_assoc).
  replace (Z.of_nat (length pre) + Z.of_nat (length (32 :: decimal d))) with (Z.of_nat (length pre + length data)) by (cbn; lia).
  pose proof (copy_to_run (length (pre ++ 32 :: data ++ post)) pre 32 data post [] (take (length data) dummy) (drop (length data) dummy)) as Hc.
  cbn [app length] in Hc. change (Z.of_nat 0) with 0 in Hc.
  rewrite Hc, bind_ok by (rewrite ?length_take, ?length_app; cbn; rewrite ?length_app; lia).
  cbn [Nat.add]. replace (Z.of_nat (length data) - 1) with (Z.of_nat (length (decimal d))) by lia.
  rewrite aset_some, bind_ok by (rewrite !length_app, length_drop; cbn; lia).
  unfold data at 1. rewrite <- app_assoc, (insert_app_r_alt _ _ (length (decimal d))), Nat.sub_diag by lia.
  cbn [app insert list_insert]. unfold atoi. rewrite strtol_decimal by (done || lia).
  rewrite (proj2 (Z.eqb_neq d _)) by lia. done.
Qed.

(** [getRange] on the text of the driver: the distance reported for the
    sensor, or 0 when there is no report of it. *)
Lemma getRange_text id ds dummy rest :
  reports_ok ds → -2147483648 <= id <= 2147483647 → length dummy = 32%nat →
  ∃ d, getRange id dummy (Range.text ds ++ 0 :: rest) = Ok d ∧ ((id, d) ∈ ds ∨ d = 0 ∧ id ∉ ds.*1).
Proof.
  intros Hok Hid Hl. unfold getRange. change (bytes "(" ++ decimal id ++ bytes " ") with (needle id).
  pose proof (decimal_length id Hid) as Hdl.
  assert (length (needle id) = length (decimal id) + 2)%nat as Hnl by (unfold needle; cbn; rewrite length_app; cbn; lia).
  assert (Forall (λ c, c ≠ 0) (needle id)) as Hnz.
  { constructor; [done|]. apply Forall_app. split; [apply decimal_nonzero|]. by repeat constructor. }
  unfold strcpy. rewrite <- (take_drop (S (length (needle id))) dummy).
  pose proof (store_block [] (take (S (length (needle id))) dummy) (drop (S (length (needle id))) dummy) (needle id ++ [0])) as Hst.
  cbn [app length] in Hst. change (Z.of_nat 0) with 0 in Hst.
  rewrite Hst, bind_ok by (rewrite length_take, length_app; cbn [length]; lia). rewrite <- app_assoc. cbn [app].
  set (junk := drop _ dummy).
  destruct (strstr_first (S (length (Range.text ds ++ 0 :: rest))) (Range.text ds) rest (needle id) junk) as (r & -> & Hr).
  { by apply text_nonzero. } { done. } { rewrite length_app. lia. }
  rewrite bind_ok. destruct r as [k|]; cbn [fmap option_fmap option_map].
  2: { exists 0. split; [done|]. right. split; [done|]. intros Hin. apply list_elem_of_fmap in Hin as ([i d] & -> & Hin).
       apply list_elem_of_split in Hin as (ds1 & ds2 & ->). apply (Hr (length (Range.text ds1))). cbn [fst].
       apply Forall_app in Hok as [_ Hok]. apply Forall_cons in Hok as [[Hi Hd] _]. cbn [fst snd] in *.
       rewrite text_app, drop_app_length, Range.text_cons. cbn [fst snd]. rewrite report_shape by lia.
       exists (decimal d ++ 41 :: 32 :: Range.text ds2). unfold needle. cbn [app]. rewrite <- !app_assoc. cbn [app]. by rewrite <- app_assoc. }
  destruct Hr as [Hp _]. assert (k < length (Range.text ds))%nat as Hk.
  { apply prefix_length in Hp. rewrite length_drop in Hp. lia. }
  destruct (needle_position id ds k [] Hok Hk) as (ds1 & d & ds2 & -> & ->); [by rewrite app_nil_r|].
  exists d. split; [|left; set_solver]. rewrite strlen_app, bind_ok by done. cbv zeta.
  apply Forall_app in Hok as [_ Hok]. apply Forall_cons in Hok as [[Hi Hd] _]. cbn [fst snd] in *.
  rewrite text_app, Range.text_cons. cbn [fst snd]. rewrite report_shape by lia.
  set (pre := Range.text ds1 ++ 40 :: decimal id).
  replace ((Range.text ds1 ++ (40 :: decimal id ++ 32 :: decimal d ++ [41; 32]) ++ Range.text ds2) ++ 0 :: rest)
    with (pre ++ 32 :: decimal d ++ 41 :: (32 :: Range.text ds2 ++ 0 :: rest))
    by (unfold pre; do 4 (cbn [app]; rewrite <- ?app_assoc); done).
  replace (Z.of_nat (length (Range.text ds1)) + (Z.of_nat (length (needle id)) - 1)) with (Z.of_nat (length pre))
    by (unfold pre; rewrite length_app; cbn [length]; lia).
  apply getRange_parse; [done|]. unfold junk. cbn [length app]. rewrite length_app, length_cons, length_drop. lia.
Qed.

(** C15: [getDistance] through the driver: if the enabled sensors measure [ds],
    the answer for a sensor is the distance measured for it; for a number
    without a sensor it is 0, or -1 when no sensor is attached at all. *)
Theorem getDistance_measures level tick fuel fd id data dummy u s' ds :
  Range.survey level tick fuel (seqZ 0 Range.RANGE_MAX_COUNT)
    (Range.set_hw (Hw.sched_lock (Range.hw (dev u))) (dev u)) = Ok (s', ds) →
  0 <= fd → -2147483648 <= id <= 2147483647 → length data = 128%nat → length dummy = 32%nat →
  ∃ d, getDistance level tick fuel fd id data dummy u =
      Ok (set_dev (Range.set_hw (Hw.sched_unlock (Range.hw s')) s') u, d) ∧
    ((id, d) ∈ ds ∨ id ∉ ds.*1 ∧ d = if decide (ds = []) then -1 else 0).
Proof.
  intros Hs Hfd Hid Hl Hdl. unfold getDistance. rewrite (proj2 (Z.ltb_ge fd 0)) by done.
  assert (reports_ok ds) as Hok.
  { eapply Forall_impl; [eapply Range.survey_good; [exact Hs|]|]; [|cbn; lia].
    apply Forall_forall. intros i Hi%elem_of_seqZ. unfold Range.RANGE_MAX_COUNT in Hi. lia. }
  destruct (Range.range_read_ok level tick fuel data (dev u) s' ds Hs) as (rest & Hr & _); [lia|right; lia|].
  unfold Range.upper_read. cbn [Range.op_read Range.g_rangeops]. rewrite Hr, !bind_ok. case_decide as Hds.
  - subst ds. exists (-1). split; [done|]. right. split; [set_solver|done].
  - rewrite (proj2 (Z.ltb_lt 0 _)) by lia.
    destruct (getRange_text id ds dummy rest Hok Hid Hdl) as (d & -> & Hd). exists d. split; [done|].
    destruct Hd as [Hd|[-> Hd]]; [by left|by right].
Qed.

Lemma getDistance_measures_witness :
  let level := λ n, bool_decide (n = 2 ∨ n = 3)%nat in
  let tick := λ n, u32 (50000 * Z.of_nat n) in
  let rng := Range.mkRng (Range.mkRange 1 2 3 4 0 Range.RANGE_STATE_ENABLED :: replicate 3 Range.range_zero)
               (Hw.mkHW ∅ false 0 []) 0 0 in
  let u := mkUpper 1 1 (Range.mkRangeInfo 0 0 0 0 0) rng in
  ∃ u' d, getDistance level tick 9 3 0 (replicate 128 1) (replicate 32 1) u = Ok (u', d) ∧ d = 224.
Proof.
  intros level tick rng u. edestruct (getDistance_measures level tick 9 3 0 (replicate 128 1) (replicate 32 1) u)
    as (d & H1 & H2).
  - run_eq.
  - lia.
  - lia.
  - reflexivity.
  - reflexivity.
  - eexists _, d. split; [exact H1|]. destruct H2 as [H2|[H2 _]].
    + apply list_elem_of_singleton in H2. by injection H2.
    + exfalso. apply H2. left.
Defined.

(** ** Battery *)

Lemma samples_encode l : samples (Adc.encode l) = u16 <$> l.
Proof.
  induction l as [|v l IH]; [done|]. unfold Adc.encode in *. cbn [mbind list_bind app samples fmap list_fmap].
  rewrite IH. f_equal. pose proof (Z.div_mod (u16 v) 256). lia.
Qed.

(** The ten samples [getBatteryVolt] and [getBatteryCurrent] compute with:
    with the device free and a converter that answers, they are the next ten
    conversions of the channel. *)
Lemma getRawAnalogData_ten conv val clk fd ch value u :
  (∀ k, conv k = Some (val k)) → 0 <= fd → 0 <= ch < Adc.CHANNEL_MAX_COUNT → exclsem u = 1 → length value = 20%nat →
  ∃ u' b, getRawAnalogData conv clk None fd ch 1000 value 10 u = Ok (u', b, 10) ∧
    samples b = u16 ∘ val <$> seq (Adc.conversions (dev u)) 10 ∧
    Adc.channel (Adc.g_adclm4info (dev u')) = ch ∧ Adc.conversions (dev u') = (Adc.conversions (dev u) + 10)%nat.
Proof.
  intros Hv Hfd Hch Hsem Hl. unfold getRawAnalogData. rewrite (proj2 (Z.ltb_ge fd 0)) by done.
  unfold Adc.adclm4f_ioctl, sem_wait. rewrite Hsem. cbn [Z.ltb Z.compare]. rewrite bind_ok, Z.eqb_refl.
  cbn [Adc.op_configure Adc.g_adclm4fops set_info set_exclsem info dev]. unfold Adc.adclm4f_configure. cbn [Adc.channel].
  rewrite (proj2 (Z.leb_gt _ _)) by lia.
  destruct (lookup_lt_is_Some_2 Adc.g_adcchannels (Z.to_nat ch)) as [c Hc]; [unfold Adc.CHANNEL_MAX_COUNT in Hch; cbn; lia|].
  rewrite (aget_in Adc.g_adcchannels ch c), !bind_ok by (done || lia). cbn [sem_post].
  unfold Adc.upper_read. cbn [Adc.op_read Adc.g_adclm4fops].
  match goal with |- context [Adc.adclm4f_read _ _ _ _ _ ?a] => set (a0 := a) end.
  destruct (Adc.adclm4f_read_ok conv val clk a0 value 10 Hv) as (a' & Hr & _ & Hn & Hi); [done|done|done|done|].
  change (2 * Z.of_nat 10) with (10 * 2) in Hr. change (Z.to_nat 10) with 10%nat. rewrite Hr, bind_ok.
  change (Adc.conversions a0) with (Adc.conversions (dev u)) in *.
  change (Nat.min _ 10) with 10%nat in *. eexists _, _. split; [reflexivity|].
  rewrite drop_ge, app_nil_r, samples_encode by lia. split; [by rewrite <- list_fmap_compose|].
  cbn [dev set_dev]. by rewrite Hi, Hn.
Qed.

(** The battery functions read ten conversions of their channel and return
    the average in volts times eleven, and the average less 2.5 V times ten;
    -1 when the converter is not open. *)
Theorem battery_reads conv val clk fd value u :
  (∀ k, conv k = Some (val k)) → 0 <= fd → exclsem u = 1 → length value = 20%nat →
  let l := u16 ∘ val <$> seq (Adc.conversions (dev u)) 10 in
  (∃ u', getBatteryVolt conv clk None fd value u = Ok (u', dmul (volts (average l)) (dofZ 11)) ∧
    Adc.channel (Adc.g_adclm4info (dev u')) = 6) ∧
  (∃ u', getBatteryCurrent conv clk None fd value u = Ok (u', dmul (dsub (volts (average l)) (dlit 25 1)) (dofZ 10)) ∧
    Adc.channel (Adc.g_adclm4info (dev u')) = 5) ∧
  getBatteryVolt conv clk None (-1) value u = Ok (u, dofZ (-1)).
Proof.
  intros Hv Hfd Hsem Hl l. unfold getBatteryVolt, getBatteryCurrent. split; [|split; [|done]].
  - destruct (getRawAnalogData_ten conv val clk fd 6 value u) as (u' & b & -> & Hb & Hc & _); try done.
    rewrite bind_ok, Hb. by exists u'.
  - destruct (getRawAnalogData_ten conv val clk fd 5 value u) as (u' & b & -> & Hb & Hc & _); try done.
    rewrite bind_ok, Hb. by exists u'.
Qed.

Lemma battery_reads_witness :
  let u := mkUpper 1 1 (Adc.mkAdcInfo 0 0 0) (Adc.mkAdc (Adc.mkAdcInfo 0 0 0) (Hw.mkHW ∅ false 0 []) 0) in
  ∃ u' v, getBatteryVolt (λ _, Some 900) 80000000 None 3 (replicate 20 0) u = Ok (u', v) ∧
    to_int (dmul v (dofZ 1000)) = Ok 7978.
Proof.
  intros u. destruct (battery_reads (λ _, Some 900) (λ _, 900) 80000000 3 (replicate 20 0) u) as ((u' & H & _) & _).
  - done.
  - lia.
  - reflexivity.
  - reflexivity.
  - eexists u', _. split; [exact H|]. vm_compute. reflexivity.
Defined.

(** ** Compass *)

(** The decoding of a two's complement number from its two bytes. *)
Lemma axis_bytes v : -32768 <= v <= 32767 → axis (u16 v `div` 256) (u16 v `mod` 256) = v.
Proof.
  intros Hv. unfold axis. pose proof (Z.mod_pos_bound v 65536 ltac:(lia)) as Hu. fold (u16 v) in Hu.
  assert (Z.lor (u16 v `mod` 256) (Z.shiftl (u16 v `div` 256) 8) = u16 v) as ->.
  { pose proof (Z.add_lor_land (u16 v `mod` 256) (Z.shiftl (u16 v `div` 256) 8)) as E.
    assert (Z.land (u16 v `mod` 256) (Z.shiftl (u16 v `div` 256) 8) = 0) as H0.
    - apply Z.bits_inj'. intros n Hn. rewrite Z.land_spec, Z.bits_0, Z.shiftl_spec by lia.
      destruct (Z.ltb_spec n 8); [by rewrite (Z.testbit_neg_r _ (n - 8)), andb_false_r by lia|].
      change 256 with (2 ^ 8). by rewrite (Z.mod_pow2_bits_high (u16 v) 8 n) by lia.
    - rewrite Z.shiftl_mul_pow2 in * by lia. pose proof (Z.div_mod (u16 v) 256). lia. }
  unfold s16, u16. dlia.
Qed.

(** The field a bus answers with when it sends the registers of [x], [z] and
    [y] in this order, high byte first. *)
Definition registers (x y z : Z) : list Z :=
  [x; z; y] ≫= λ v, [u16 v `div` 256; u16 v `mod` 256].

Lemma registers_bytes x y z : u8 <$> registers x y z = registers x y z.
Proof.
  unfold registers. cbn. rewrite !u8_small; try done;
    match goal with |- 0 <= ?w < _ => pose proof (u16_range x); pose proof (u16_range y); pose proof (u16_range z); dlia end.
Qed.

(** On a bus without errors [read] stores the field the magnetometer sends
    as three signed 16-bit numbers, and it asks for it at register 3 of the
    device; before [init] it answers false. *)
Theorem compass_read hangs err data buf c n x y z :
  hmc_dev c = Some n → length buf = 6%nat →
  I2c.quiet_bus hangs err (I2c.nwait (bus c)) 8 →
  data <$> seq (I2c.nwait (bus c) + 2) 6 = registers x y z →
  -32768 <= x <= 32767 → -32768 <= y <= 32767 → -32768 <= z <= 32767 →
  ∃ c', read hangs err data buf c = Ok (c', true) ∧ magX c' = dofZ x ∧ magY c' = dofZ y ∧ magZ c' = dofZ z ∧
    ∃ rest base, Hw.calls (I2c.hw (bus c')) = Hw.calls (I2c.hw (bus c)) ++
      [("I2CMasterSlaveAddrSet", [base; HMC5883_ADDRESS_MAG; 0]);
       ("I2CMasterDataPut", [base; HMC5883_REGISTER_MAG_OUT_X_H_M])] ++ rest.
Proof.
  intros Hd Hl Hq Hdata Hx Hy Hz. unfold read. rewrite Hd. unfold setaddress, dev_of. rewrite Hd, !bind_ok.
  set (p := if (n =? 0)%nat then _ else _). set (c1 := put_dev _ c).
  assert (hmc_dev c1 = Some n ∧ bus c1 = bus c) as [Hd1 Hb1].
  { unfold c1, put_dev. rewrite Hd. by destruct n. }
  assert (dev_of c1 = Ok (I2c.i2c_setaddress HMC5883_ADDRESS_MAG HMC5883_REGISTER_MAG_OUT_X_H_M p).1) as Hdev.
  { unfold dev_of. rewrite Hd1. unfold c1, put_dev. rewrite Hd. by destruct n. }
  fold (dev_of c1). rewrite Hdev, bind_ok, Hb1. set (q := (I2c.i2c_setaddress _ _ p).1).
  destruct (I2c.i2c_read_ok hangs err data q buf (bus c)) as (b' & Hr & Hcalls); [lia|by rewrite Hl|].
  rewrite Hl in Hr, Hcalls. change (Z.of_nat 6) with 6 in Hr. rewrite Hr, bind_ok. 
  rewrite list_fmap_compose, Hdata, registers_bytes. cbn [registers mbind list_bind app].
  eexists. split; [reflexivity|]. cbn [magX magY magZ set_mag bus set_bus]. rewrite !axis_bytes by done.
  split; [done|]. split; [done|]. split; [done|].
  rewrite Hcalls. eexists _, (I2c.base q). cbn [app]. reflexivity.
Qed.



Lemma compass_read_witness :
  let d := I2c.mkI2c I2c.I2C1_MASTER_BASE 0 0 in
  let c := mkCompass (Some 1%nat) 0x20 (dofZ 0) (dofZ 0) (dofZ 0) (dofZ 1100) (dofZ 980) (I2c.mkDevs d d)
             (I2c.mkBus (Hw.mkHW ∅ false 0 []) 0) in
  let data := λ k, nth (k - 2) (registers (-300) 5 1000) 0 in
  ∃ c', read (λ _, false) (λ _, 0) data (replicate 6 0) c = Ok (c', true) ∧ magX c' = dofZ (-300) ∧ magY c' = dofZ 5.
Proof.
  intros d c data.
  destruct (compass_read (λ _, false) (λ _, 0) data (replicate 6 0) c 1 (-300) 5 1000) as (c' & H1 & H2 & H3 & _).
  - reflexivity.
  - reflexivity.
  - intros j _. done.
  - reflexivity.
  - lia.
  - lia.
  - lia.
  - exists c'. done.
Defined.

(** When the port is not compiled in, [init] uses a null pointer; it has no
    way to answer false. *)
Theorem compass_init_null hangs err clk cfg c :
  I2c.cfg1 cfg = false → init hangs err clk cfg 1 c = Fault NullDeref.
Proof. intros H. unfold init, I2c.up_i2cinitialize. rewrite H. by destruct (I2c.cfg0 cfg), (I2c.cfg2 cfg), (I2c.cfg3 cfg). Qed.

(** [init] on a bus without errors, port 1: the mode register is cleared and
    the gain register set. *)
Theorem compass_init_ready hangs err clk cfg c :
  I2c.cfg1 cfg = true → (∀ k, hangs k = false ∧ err k = I2c.I2C_MASTER_ERR_NONE) →
  ∃ c' calls1 calls2 calls3 base, init hangs err clk cfg 1 c = Ok (c', true) ∧ hmc_dev c' = Some 1%nat ∧
    Gauss_LSB_XY c' = dofZ 1100 ∧ Gauss_LSB_Z c' = dofZ 980 ∧
    Hw.calls (I2c.hw (bus c')) = calls1 ++
      [("I2CMasterDataPut", [base; HMC5883_REGISTER_MAG_MR_REG_M]); ("I2CMasterControl", [base; I2c.I2C_MASTER_CMD_BURST_SEND_START]);
       ("I2CMasterDataPut", [base; 0])] ++ calls2 ++
      [("I2CMasterDataPut", [base; HMC5883_REGISTER_MAG_CRB_REG_M]); ("I2CMasterControl", [base; I2c.I2C_MASTER_CMD_BURST_SEND_START]);
       ("I2CMasterDataPut", [base; HMC5883_MAGGAIN_1_3])] ++ calls3.
Proof.
  intros Hcfg Hq.
  assert (∀ v c p, dev_of c = Ok p → ∃ b', write1 hangs err v c = Ok (set_bus (devs c) b' c) ∧
    Hw.calls (I2c.hw b') = Hw.calls (I2c.hw (bus c)) ++
      [("I2CMasterSlaveAddrSet", [I2c.base p; I2c.address p; 0]); ("I2CMasterDataPut", [I2c.base p; I2c.nbits p]);
       ("I2CMasterControl", [I2c.base p; I2c.I2C_MASTER_CMD_BURST_SEND_START]); ("I2CMasterDataPut", [I2c.base p; v]);
       ("I2CMasterControl", [I2c.base p; I2c.I2C_MASTER_CMD_SINGLE_SEND])]) as Hw1.
  { intros v c0 p Hp. unfold write1. rewrite Hp, bind_ok.
    destruct (I2c.i2c_write_ok hangs err p [v] (bus c0)) as (b' & Hr & Hc); [cbn; lia|intros k _; apply Hq|].
    change (Z.of_nat (length [v])) with 1 in Hr. cbn [length] in Hr. rewrite Hr, bind_ok. exists b'. split; [done|].
    rewrite Hc. reflexivity. }
  unfold init, I2c.up_i2cinitialize. rewrite Hcfg, !andb_false_r.
  cbn [Z.ltb Z.compare Z.eqb Pos.compare Pos.compare_cont Pos.eqb andb].
  cbv zeta. match goal with |- context [dev_of ?c0 ≫= _] => set (c0' := c0) end.
  set (base := I2c.I2C1_MASTER_BASE).
  assert (∀ k c p, hmc_dev c = Some 1%nat → dev_of c = Ok p → I2c.base p = base →
    ∃ c' p', setaddress k c = Ok c' ∧ hmc_dev c' = Some 1%nat ∧ dev_of c' = Ok p' ∧
      I2c.base p' = base ∧ I2c.nbits p' = u8 k ∧ bus c' = bus c) as Hadr.
  { intros k c1 p Hd Hp Hb. unfold setaddress. rewrite Hp, bind_ok. eexists _, _. split; [reflexivity|].
    unfold put_dev. rewrite Hd. unfold dev_of. cbn [hmc_dev set_bus]. rewrite Hd.
    split; [done|]. split; [reflexivity|]. done. }
  destruct (dev_of c0') as [p0|] eqn:Hp0; [|done]. rewrite bind_ok.
  set (c1 := set_bus (devs c0') _ c0').
  assert (dev_of c1 = Ok p0 ∧ hmc_dev c1 = Some 1%nat ∧ I2c.base p0 = base) as (Hp1 & Hd1 & Hb0) by (injection Hp0 as <-; done).
  destruct (Hadr HMC5883_REGISTER_MAG_MR_REG_M c1 p0 Hd1 Hp1 Hb0) as (c2 & p2 & -> & Hd2 & Hp2 & Hb2 & Hn2 & _). rewrite bind_ok.
  destruct (Hw1 0 c2 p2 Hp2) as (b3 & -> & Hc3). rewrite bind_ok. unfold setGain.
  set (c3 := set_bus (devs c2) b3 c2).
  destruct (Hadr HMC5883_REGISTER_MAG_CRB_REG_M c3 p2) as (c4 & p4 & -> & Hd4 & Hp4 & Hb4 & Hn4 & Hbus4); [done..|]. rewrite bind_ok.
  destruct (Hw1 (u8 HMC5883_MAGGAIN_1_3) c4 p4 Hp4) as (b5 & -> & Hc5). rewrite !bind_ok.
  change (gain_scale HMC5883_MAGGAIN_1_3) with (Some (1100, 980)). cbv zeta iota beta.
  eexists _, (Hw.calls (I2c.hw (bus c2)) ++ [("I2CMasterSlaveAddrSet", [base; I2c.address p2; 0])]),
    [("I2CMasterControl", [base; I2c.I2C_MASTER_CMD_SINGLE_SEND]); ("I2CMasterSlaveAddrSet", [base; I2c.address p4; 0])],
    [("I2CMasterControl", [base; I2c.I2C_MASTER_CMD_SINGLE_SEND])], base.
  split; [reflexivity|]. split; [done|]. split; [done|]. split; [done|].
  cbn [bus set_scale set_bus]. rewrite Hc5, Hbus4. cbn [bus c3 set_bus]. rewrite Hc3, Hn2, Hn4, Hb2, Hb4.
  rewrite <- !app_assoc. reflexivity.
Qed.

(** North at the magnetometer, and the wrap at the full circle. *)
Example heading_zero : to_int (to_heading (dofZ 0)) = Ok 52.
Proof. vm_compute. reflexivity. Qed.
Example heading_wraps : to_int (to_heading (dlit (-314159) 5)) = Ok 232 ∧ to_int (to_heading (dlit (-93) 2)) = Ok 359.
Proof. split; vm_compute; reflexivity. Qed.

End Sense.
