(* ===== verification/CubThread.v ===== *)
(** * Periodic threads of the myCub application

    Models apps/system/myCub/lib/nxobjects: the class NxThread, which calls a
    function periodically and can be suspended, resumed and stopped, with
    the mutex (NxMutex) around its flags and the event (NxEvent) it waits on
    while suspended.  A step of a thread is one critical section, one wait,
    or one call of the function.  Since [start] looks at a state that only
    the thread itself sets, there can be several threads of one object. *)
From S2P Require Import Prelude FunkKernel.

Module Thread.

Inductive nxthread_state_t : Type := NXTHREAD_STOPPED | NXTHREAD_RUNNING | NXTHREAD_SUSPENDED.

#[export] Instance nxthread_state_eq_dec : EqDecision nxthread_state_t.
Proof. solve_decision. Defined.

(** Where [thread_func] is: before its first critical section; at the test
    of the loop, with its local copies of the two flags; before it announces
    the suspension; before [event.wait]; waiting; woken; before it announces
    that it runs again; before the call of [run]; before the last critical
    section of the loop; ended. *)
Inductive TPC : Type :=
  | TEnter
  | TLoop (stop suspend : bool)
  | TSuspend | TWait | TWaiting | TWoken | TResumed
  | TRun | TRead | TEnd.

#[export] Instance TPC_eq_dec : EqDecision TPC.
Proof. solve_decision. Defined.

(** The object with its threads; [handle] is the one [pthread_create] gave
    last, and [calls] counts the calls of [run]. *)
Record NXTHREAD : Type := mkNx {
  bshould_stop : bool;
  bshould_suspend : bool;
  state : nxthread_state_t;
  callback : bool;
  period : Z;
  threads : list TPC;
  handle : nat;
  calls : nat
}.

Definition set_flags (stop susp : bool) (x : NXTHREAD) : NXTHREAD :=
  mkNx stop susp (state x) (callback x) (period x) (threads x) (handle x) (calls x).
Definition set_state (v : nxthread_state_t) (x : NXTHREAD) : NXTHREAD :=
  mkNx (bshould_stop x) (bshould_suspend x) v (callback x) (period x) (threads x) (handle x) (calls x).
Definition set_threads (v : list TPC) (x : NXTHREAD) : NXTHREAD :=
  mkNx (bshould_stop x) (bshould_suspend x) (state x) (callback x) (period x) v (handle x) (calls x).
Definition count_call (x : NXTHREAD) : NXTHREAD :=
  mkNx (bshould_stop x) (bshould_suspend x) (state x) (callback x) (period x) (threads x) (handle x) (S (calls x)).

(** The constructor, [setCallback] and [setPeriod]. *)
Definition NxThread : NXTHREAD := mkNx false false NXTHREAD_STOPPED false 100000 [] 0 0.
Definition setCallback (x : NXTHREAD) : NXTHREAD :=
  mkNx (bshould_stop x) (bshould_suspend x) (state x) true (period x) (threads x) (handle x) (calls x).
Definition setPeriod (p : Z) (x : NXTHREAD) : NXTHREAD :=
  mkNx (bshould_stop x) (bshould_suspend x) (state x) (callback x) p (threads x) (handle x) (calls x).

(** One step of [thread_func] at [p]: the shared object and where it is then;
    [None] when it waits or has ended. *)
Definition thread_func (p : TPC) (x : NXTHREAD) : option (NXTHREAD * TPC) :=
  match p with
  | TEnter => Some (set_state NXTHREAD_RUNNING x, TLoop (bshould_stop x) (bshould_suspend x))
  | TLoop true _ => Some (x, TEnd)
  | TLoop false true => Some (x, TSuspend)
  | TLoop false false => Some (x, TRun)
  | TSuspend => Some (set_state NXTHREAD_SUSPENDED x, TWait)
  | TWait => Some (x, TWaiting)
  | TWaiting => None
  | TWoken => Some (x, if bshould_stop x then TEnd else TResumed)
  | TResumed => Some (set_state NXTHREAD_RUNNING x, TRun)
  | TRun => Some (if callback x then count_call x else x, TRead)
  | TRead => Some (x, TLoop (bshould_stop x) (bshould_suspend x))
  | TEnd => None
  end.

(** A step of thread number [n]. *)
Definition thread_step (n : nat) (x : NXTHREAD) : option NXTHREAD :=
  match threads x !! n with
  | None => None
  | Some p =>
      match thread_func p x with
      | None => None
      | Some (x', p') => Some (set_threads (<[n := p']> (threads x')) x')
      end
  end.

(** [pthread_cond_signal]: the first thread that waits is woken; without one
    the signal is lost. *)
Fixpoint wake (l : list TPC) : list TPC :=
  match l with
  | [] => []
  | TWaiting :: l => TWoken :: l
  | p :: l => p :: wake l
  end.
Definition event_set (x : NXTHREAD) : NXTHREAD := set_threads (wake (threads x)) x.

(** The answers of the scheduling attributes and of [pthread_create]. *)
Definition start (a_policy a_param a_create : Z) (x : NXTHREAD) : NXTHREAD * bool :=
  if decide (state x ≠ NXTHREAD_STOPPED) then (x, true)
  else if negb (callback x) then (x, false)
  else
    let x := set_flags false false x in
    if negb (a_policy =? 0) || negb (a_param =? 0) || negb (a_create =? 0) then (x, false)
    else (mkNx (bshould_stop x) (bshould_suspend x) (state x) (callback x) (period x)
            (threads x ++ [TEnter]) (length (threads x)) (calls x), true).

Definition suspend (x : NXTHREAD) : NXTHREAD * bool :=
  if decide (state x ≠ NXTHREAD_RUNNING) then (x, false)
  else (set_flags (bshould_stop x) true x, true).

(** [resume] in its two parts: the critical section and the event. *)
Definition resume_request (x : NXTHREAD) : NXTHREAD * bool :=
  if decide (state x ≠ NXTHREAD_SUSPENDED) then (x, false)
  else (set_flags (bshould_stop x) false x, true).
Definition resume (x : NXTHREAD) : NXTHREAD * bool :=
  let '(x, b) := resume_request x in
  if b : bool then (event_set x, true) else (x, false).

Definition getState (x : NXTHREAD) : nxthread_state_t := state x.

(** [stop]: [false] when it returns at once; then the join, which returns
    when the thread has ended. *)
Definition stop_request (x : NXTHREAD) : NXTHREAD * bool :=
  if decide (state x = NXTHREAD_STOPPED) then (x, false)
  else ((resume (set_flags true (bshould_suspend x) x)).1, true).
Definition stop_join (x : NXTHREAD) : res NXTHREAD :=
  match threads x !! handle x with
  | Some TEnd => Ok (set_state NXTHREAD_STOPPED x)
  | _ => Fault Blocked
  end.

(** The whole of [stop]; [env] is what happens until the join. *)
Definition stop (env : NXTHREAD → NXTHREAD) (x : NXTHREAD) : res NXTHREAD :=
  let '(x, b) := stop_request x in
  if b : bool then stop_join (env x) else Ok x.

(** [k] steps of thread [n]. *)
Fixpoint run (k : nat) (n : nat) (x : NXTHREAD) : NXTHREAD :=
  match k with
  | O => x
  | S k => match thread_step n x with Some x' => run k n x' | None => x end
  end.

(** ** Lemmas: runs of one thread *)

Lemma thread_step_some n p x x' p' :
  threads x !! n = Some p → thread_func p x = Some (x', p') →
  thread_step n x = Some (set_threads (<[n := p']> (threads x')) x').
Proof. intros H1 H2. unfold thread_step. by rewrite H1, H2. Qed.

(** A thread on its own: the shared object without the thread list. *)
Fixpoint run1 (k : nat) (p : TPC) (x : NXTHREAD) : NXTHREAD * TPC :=
  match k with
  | O => (x, p)
  | S k => match thread_func p x with Some (x', p') => run1 k p' x' | None => (x, p) end
  end.

Lemma thread_func_threads p x l :
  thread_func p (set_threads l x) = (λ r, (set_threads l r.1, r.2)) <$> thread_func p x.
Proof. destruct x, p as [|[] []| | | | | | | |]; cbn; try done. by destruct callback0. Qed.

Lemma thread_func_keeps p x x' p' :
  thread_func p x = Some (x', p') → threads x' = threads x ∧ handle x' = handle x.
Proof. destruct p as [|[] []| | | | | | | |]; cbn; intros H; simplify_eq; try done. by destruct (callback x). Qed.

Lemma run1_threads k p x l : run1 k p (set_threads l x) = (set_threads l (run1 k p x).1, (run1 k p x).2).
Proof.
  revert p x. induction k as [|k IH]; intros p x; cbn [run1]; [done|].
  rewrite thread_func_threads. destruct (thread_func p x) as [[x2 p2]|]; cbn; [|done]. apply IH.
Qed.

Lemma run1_handle k p x : handle (run1 k p x).1 = handle x.
Proof.
  revert p x. induction k as [|k IH]; intros p x; cbn [run1]; [done|].
  destruct (thread_func p x) as [[x' p']|] eqn:Hf; [|done]. rewrite IH. by destruct (thread_func_keeps _ _ _ _ Hf).
Qed.

Lemma run_run1 k n p x :
  threads x !! n = Some p →
  run k n x = set_threads (<[n := (run1 k p x).2]> (threads x)) (run1 k p x).1.
Proof.
  revert p x. induction k as [|k IH]; intros p x Hn; cbn [run run1].
  { rewrite list_insert_id by done. by destruct x. }
  unfold thread_step. rewrite Hn. destruct (thread_func p x) as [[x' p']|] eqn:Hf.
  2: { cbn. rewrite list_insert_id by done. by destruct x. }
  destruct (thread_func_keeps _ _ _ _ Hf) as [Ht _].
  rewrite (IH p'). 2: { cbn. rewrite Ht. apply list_lookup_insert_eq. by eapply lookup_lt_Some. }
  cbn [threads set_threads]. rewrite Ht, list_insert_insert_eq.
  by rewrite run1_threads.
Qed.

(** ** Stopping *)

(** The thread is not about to suspend itself, and not suspended. *)
Definition not_suspending (p : TPC) : bool :=
  match p with TLoop false true | TSuspend | TWait | TWaiting => false | _ => true end.

Lemma run1_stops p x :
  bshould_stop x = true → not_suspending p = true →
  (run1 5 p x).2 = TEnd ∧ (calls (run1 5 p x).1 <= S (calls x))%nat.
Proof.
  destruct x as [st su sta cb pe th ha ca]. intros H Hp. cbn in H. subst st.
  destruct p as [|[] []| | | | | | | |], cb; cbn in *; try done; (split; [done|lia]).
Qed.

(** A stop request reaches a thread that is not about to suspend itself: it
    ends within five of its steps, calling the function at most once more, and
    then [stop] returns. *)
Theorem nx_stop_ends x p :
  threads x !! handle x = Some p → not_suspending p = true → state x ≠ NXTHREAD_STOPPED →
  ∃ x', stop (run 5 (handle x)) x = Ok x' ∧ state x' = NXTHREAD_STOPPED ∧ (calls x' <= S (calls x))%nat.
Proof.
  intros Ht Hp Hs. unfold stop, stop_request. rewrite decide_False by done.
  set (y := (resume _).1).
  assert (threads y !! handle x = Some p ∧ bshould_stop y = true ∧ calls y = calls x ∧ handle y = handle x) as (H1 & H2 & H3 & H4).
  { unfold y, resume, resume_request. cbn. case_decide; cbn; [done|]. split; [|done].
    clear -Ht Hp. revert Ht. generalize (threads x), (handle x). intros l. induction l as [|q l IH]; [done|].
    intros [|h] H; cbn in *; [simplify_eq; by destruct p|]. destruct q; cbn; auto. }
  rewrite (run_run1 5 (handle x) p y H1). destruct (run1_stops p y H2 Hp) as [E1 E2].
  set (r := run1 5 p y) in *. unfold stop_join. cbn [threads set_threads handle].
  assert (handle r.1 = handle x) as -> by (unfold r; by rewrite run1_handle, H4).
  rewrite list_lookup_insert_eq, E1 by (by eapply lookup_lt_Some). eexists. split; [reflexivity|].
  split; [done|]. cbn [calls set_state set_threads]. by rewrite <- H3.
Qed.

(** A thread that was started and has not run yet is not stopped: [start]
    answers true, [stop] returns at once, and the thread calls its function
    for ever. *)
Theorem nx_stop_after_start_ignored env k :
  let x := setCallback NxThread in
  ∃ x1, start 0 0 0 x = (x1, true) ∧ stop env x1 = Ok x1 ∧
    calls (run (1 + 3 * k) 0 x1) = k ∧ threads (run (1 + 3 * k) 0 x1) !! 0%nat = Some (TLoop false false).
Proof.
  eexists. split; [reflexivity|]. split; [reflexivity|].
  rewrite (run_run1 _ 0 TEnter) by done. cbn [threads set_threads].
  assert (∀ m y, callback y = true → bshould_stop y = false → bshould_suspend y = false →
    (run1 (3 * m) (TLoop false false) y).2 = TLoop false false ∧ calls (run1 (3 * m) (TLoop false false) y).1 = (calls y + m)%nat) as H.
  { intros m. induction m as [|m IH]; intros y H1 H2 H3; [cbn; split; [done|lia]|].
    replace (3 * S m)%nat with (S (S (S (3 * m)))) by lia. cbn [run1 thread_func]. rewrite H1. cbn [bshould_stop bshould_suspend count_call].
    rewrite H2, H3. destruct (IH (count_call y)) as [-> E]; [done..|]. split; [done|]. rewrite E. cbn. lia. }
  cbn [run1 Nat.add thread_func].
  match goal with |- context [run1 (3 * k) ?p ?y0] => change p with (TLoop false false); destruct (H k y0) as [-> E]; [done..|] end.
  split; [|done]. cbn [calls set_threads]. by rewrite E.
Qed.

(** Two calls of [start] before the first thread runs make two threads. *)
Theorem nx_start_twice :
  ∃ x1 x2, start 0 0 0 (setCallback NxThread) = (x1, true) ∧ start 0 0 0 x1 = (x2, true) ∧ length (threads x2) = 2%nat.
Proof. by eexists _, _. Qed.

(** A stop request between the moment the thread reads that it shall suspend
    and the moment it announces so is lost: the thread goes to sleep and the
    join waits for ever. *)
Theorem nx_stop_while_suspending_blocks x k :
  threads x !! handle x = Some (TLoop false true) → state x = NXTHREAD_RUNNING →
  stop (run (3 + k) (handle x)) x = Fault Blocked.
Proof.
  intros Ht Hs. unfold stop, stop_request. rewrite decide_False by (by rewrite Hs).
  unfold resume, resume_request. cbn [state set_flags]. rewrite decide_True by (by rewrite Hs). cbn [fst].
  set (y := set_flags true (bshould_suspend x) x).
  rewrite (run_run1 (3 + k) (handle x) (TLoop false true) y Ht). cbn [run1 Nat.add thread_func].
  set (z := set_state NXTHREAD_SUSPENDED y).
  assert (∀ m, run1 m TWaiting z = (z, TWaiting)) as E by (intros [|m]; done). rewrite E.
  unfold stop_join. cbn [threads set_threads handle snd fst]. change (handle z) with (handle x).
  change (threads y) with (threads x).
  by rewrite list_lookup_insert_eq by (by eapply lookup_lt_Some).
Qed.

(** Suspension: a thread that waits is woken by [resume], announces that it
    runs and calls its function; [stop] ends it. *)
Theorem nx_resume_wakes x :
  threads x = [TWaiting] → handle x = 0%nat → state x = NXTHREAD_SUSPENDED → bshould_stop x = false → callback x = true →
  (∃ x1, resume x = (x1, true) ∧ state (run 3 0 x1) = NXTHREAD_RUNNING ∧ calls (run 3 0 x1) = S (calls x)) ∧
  ∃ x', stop (run 1 0) x = Ok x' ∧ state x' = NXTHREAD_STOPPED ∧ calls x' = calls x.
Proof.
  destruct x as [st su sta cb pe th ha ca]. cbn. intros -> -> -> -> ->. split; eexists; split; reflexivity || done.
Qed.

End Thread.
