(* ===== verification/CubShell.v ===== *)
(** * The command interpreter of the myCub application

    Models apps/system/myCub/myCub.cpp: a line of text is cut into words,
    which are copied to a table, the first word selects the command, and the
    command calls the functions of the other files.  The answers are the
    characters written to the standard output. *)
From stdpp Require Import pretty.
From S2P Require Import Prelude FunkKernel CubFloat NuttxUpper NuttxServo NuttxAdc NuttxString NuttxRange NuttxI2c.
From S2P Require Import CubControl CubWalk CubSensors CubThread.

Module Shell.
Import Float Str.

Definition MAX_CMD_NUM : Z := 16.
Definition MAX_CMD_LEN : Z := 32.
Definition BATTERY_CRITICAL_LEVE : double := Eval vm_compute in dlit 62 1.

(** ** Words of a line *)

(** The characters of the string at the pointer. *)
Fixpoint string_at (b : list Z) : res (list Z) :=
  match b with
  | [] => Fault OutOfBounds
  | c :: b => if c =? 0 then Ok [] else l ← string_at b; Ok (c :: l)
  end.

(** [mycub_cmd], 16 rows of 32 characters in one block. *)
Definition row (table : list Z) (i : Z) : list Z := drop (Z.to_nat (MAX_CMD_LEN * i)) table.

(** The loop of [parse_string]; [k] rows are left. *)
Fixpoint parse_loop (k : nat) (i : Z) (token saveptr : option Z) (str table : list Z) : res (list Z * list Z * Z) :=
  match token, k with
  | None, _ | _, O => Ok (str, table, i)
  | Some p, S k =>
      src ← string_at (drop (Z.to_nat p) str);
      table ← strcpy table (MAX_CMD_LEN * i) src;
      '(str, saveptr, token) ← strtok None (cstr " ") saveptr str;
      parse_loop k (i + 1) token saveptr str table
  end.

Definition parse_string (g_saveptr : option Z) (str table : list Z) : res (list Z * list Z * Z) :=
  '(str, saveptr, token) ← strtok (Some 0) (cstr " ") g_saveptr str;
  parse_loop (Z.to_nat MAX_CMD_NUM) 0 token saveptr str table.

(** ** Commands *)

Inductive direction : Type := ToFront | ToBack | ToRight | ToLeft.

(** What a line asks for; [ReqBad] is a known command with too few words. *)
Inductive request : Type :=
  | ReqExit | ReqPing
  | ReqInteractive (on : bool)
  | ReqMemoryInfo | ReqStartControl | ReqStopControl
  | ReqSetPose (joint pos : Z)
  | ReqGetPose (joint : Z)
  | ReqGetDistance (id : Z)
  | ReqGetHeading
  | ReqGotoPose (joint pos : Z) (t : double)
  | ReqGotoPoseSync (joint pos : Z) (t : double)
  | ReqMove (d : direction) (t : double)
  | ReqDance | ReqStop
  | ReqGetADC (channel freq samples : Z)
  | ReqGetBatteryCurrent | ReqGetBatteryVolt | ReqHelp
  | ReqBad | ReqUnknown.

(** The number in word [i]; as unsigned for a joint. *)
Definition arg (table : list Z) (i : Z) : res Z := atoi (row table i).
Definition uarg (table : list Z) (i : Z) : res Z := v ← arg table i; Ok (u32 v).

(** [t = 0.0; if (n > i) t = atoi(mycub_cmd[i]);] *)
Definition time_arg (table : list Z) (n i : Z) : res double :=
  if i <? n then v ← arg table i; Ok (dofZ v) else Ok (dofZ 0).

(** The commands in the order in which the first word is compared, each with
    what is read from the other words ([n] is their number). *)
Definition commands : list (string * (list Z → Z → res request)) := [
  ("exit"%string, λ _ _, Ok ReqExit);
  ("ping"%string, λ _ _, Ok ReqPing);
  ("interactive"%string, λ tb n, if n <? 2 then Ok ReqBad else v ← arg tb 1; Ok (ReqInteractive (v =? 1)));
  ("getMemoryInfo"%string, λ _ _, Ok ReqMemoryInfo);
  ("startControl"%string, λ _ _, Ok ReqStartControl);
  ("stopControl"%string, λ _ _, Ok ReqStopControl);
  ("setPose"%string, λ tb n, if n <? 3 then Ok ReqBad else j ← uarg tb 1; p ← arg tb 2; Ok (ReqSetPose j p));
  ("getPose"%string, λ tb n, if n <? 2 then Ok ReqBad else j ← uarg tb 1; Ok (ReqGetPose j));
  ("getDistance"%string, λ tb n, if n <? 2 then Ok ReqBad else i ← arg tb 1; Ok (ReqGetDistance i));
  ("getHeading"%string, λ _ _, Ok ReqGetHeading);
  ("gotoPose"%string, λ tb n, if n <? 3 then Ok ReqBad
     else t ← time_arg tb n 3; j ← uarg tb 1; p ← arg tb 2; Ok (ReqGotoPose j p (ddiv t (dofZ 1000))));
  ("gotoPoseSync"%string, λ tb n, if n <? 3 then Ok ReqBad
     else t ← time_arg tb n 3; j ← uarg tb 1; p ← arg tb 2; Ok (ReqGotoPoseSync j p t));
  ("moveFront"%string, λ tb n, t ← time_arg tb n 1; Ok (ReqMove ToFront t));
  ("moveBack"%string, λ tb n, t ← time_arg tb n 1; Ok (ReqMove ToBack t));
  ("moveRight"%string, λ tb n, t ← time_arg tb n 1; Ok (ReqMove ToRight t));
  ("moveLeft"%string, λ tb n, t ← time_arg tb n 1; Ok (ReqMove ToLeft t));
  ("dance"%string, λ _ _, Ok ReqDance);
  ("stop"%string, λ _ _, Ok ReqStop);
  ("getADC"%string, λ tb n, if n <? 4 then Ok ReqBad
     else c ← arg tb 1; f ← arg tb 2; s ← arg tb 3; Ok (ReqGetADC c (u32 f) (u32 s)));
  ("getBatteryCurrent"%string, λ _ _, Ok ReqGetBatteryCurrent);
  ("getBatteryVolt"%string, λ _ _, Ok ReqGetBatteryVolt);
  ("help"%string, λ _ _, Ok ReqHelp)
].

Fixpoint decode (cmds : list (string * (list Z → Z → res request))) (table : list Z) (n : Z) : res request :=
  match cmds with
  | [] => Ok ReqUnknown
  | (name, f) :: cmds =>
      d ← strcmp table (cstr name);
      if d =? 0 then f table n else decode cmds table n
  end.

(** ** Execution *)

Record ROBOT : Type := mkRobot {
  cub : Control.CUB;
  walk : Walk.WALK;
  fd_range : Z;
  range : Range.range_upperhalf_s;
  fd_adc : Z;
  adc : Adc.adclm4f_upperhalf_s;
  compass : Sense.COMPASS;
  dancer : Thread.NXTHREAD;
  bInteractive : bool;
  should_stop : bool;
  out : list Z
}.

Definition set_cub (v : Control.CUB) (r : ROBOT) : ROBOT :=
  mkRobot v (walk r) (fd_range r) (range r) (fd_adc r) (adc r) (compass r) (dancer r) (bInteractive r) (should_stop r) (out r).
Definition set_walk (v : Walk.WALK) (r : ROBOT) : ROBOT :=
  mkRobot (cub r) v (fd_range r) (range r) (fd_adc r) (adc r) (compass r) (dancer r) (bInteractive r) (should_stop r) (out r).
Definition set_fd_range (v : Z) (r : ROBOT) : ROBOT :=
  mkRobot (cub r) (walk r) v (range r) (fd_adc r) (adc r) (compass r) (dancer r) (bInteractive r) (should_stop r) (out r).
Definition set_fd_adc (v : Z) (r : ROBOT) : ROBOT :=
  mkRobot (cub r) (walk r) (fd_range r) (range r) v (adc r) (compass r) (dancer r) (bInteractive r) (should_stop r) (out r).
Definition set_range (v : Range.range_upperhalf_s) (r : ROBOT) : ROBOT :=
  mkRobot (cub r) (walk r) (fd_range r) v (fd_adc r) (adc r) (compass r) (dancer r) (bInteractive r) (should_stop r) (out r).
Definition set_adc (v : Adc.adclm4f_upperhalf_s) (r : ROBOT) : ROBOT :=
  mkRobot (cub r) (walk r) (fd_range r) (range r) (fd_adc r) v (compass r) (dancer r) (bInteractive r) (should_stop r) (out r).
Definition set_compass (v : Sense.COMPASS) (r : ROBOT) : ROBOT :=
  mkRobot (cub r) (walk r) (fd_range r) (range r) (fd_adc r) (adc r) v (dancer r) (bInteractive r) (should_stop r) (out r).
Definition set_dancer (v : Thread.NXTHREAD) (r : ROBOT) : ROBOT :=
  mkRobot (cub r) (walk r) (fd_range r) (range r) (fd_adc r) (adc r) (compass r) v (bInteractive r) (should_stop r) (out r).
Definition set_interactive (v : bool) (r : ROBOT) : ROBOT :=
  mkRobot (cub r) (walk r) (fd_range r) (range r) (fd_adc r) (adc r) (compass r) (dancer r) v (should_stop r) (out r).
Definition set_should_stop (v : bool) (r : ROBOT) : ROBOT :=
  mkRobot (cub r) (walk r) (fd_range r) (range r) (fd_adc r) (adc r) (compass r) (dancer r) (bInteractive r) v (out r).
Definition print (l : list Z) (r : ROBOT) : ROBOT :=
  mkRobot (cub r) (walk r) (fd_range r) (range r) (fd_adc r) (adc r) (compass r) (dancer r) (bInteractive r) (should_stop r) (out r ++ l).

Definition newline : list Z := [10].
Definition print_ok : ROBOT → ROBOT := print (bytes "[ok]" ++ newline).
Definition print_error : ROBOT → ROBOT := print (bytes "[error]" ++ newline).
Definition print_number (z : Z) : ROBOT → ROBOT := print (decimal z ++ newline).

(** A value in thousandths, as whole part and absolute remainder. *)
Definition print_milli (v : Z) : ROBOT → ROBOT :=
  print (decimal (Z.quot v 1000) ++ bytes "." ++ decimal (Z.abs (Z.rem v 1000)) ++ newline).

Section interpreter.

(** What the commands meet: the servo clock, the answers of the system, what
    runs while a command waits, the sensors, the C library and the contents
    of arrays that are not initialised. *)
Context (clk : Z) (answers : Control.ANSWERS) (env : Control.CUB → res Control.CUB) (fuel : nat).
Context (thread_answer : Z) (dance_env : Thread.NXTHREAD → Thread.NXTHREAD).
Context (level : nat → bool) (tick : nat → Z) (data dummy : list Z).
Context (conv : nat → option Z) (value : list Z).
Context (hangs : nat → bool) (err i2c_data : nat → Z) (atan2 : double → double → double) (buf6 : list Z).
Context (mallinfo : Z * Z * Z * Z) (uninit : Z → list Z) (help : list Z).

(** The shell is client 1 of the joints. *)
Definition shell_id : nat := 1.

Definition goto (joint pos : Z) (t : double) (r : ROBOT) : res ROBOT :=
  '(s, _) ← Control.gotoPose joint pos t (cub r); Ok (set_cub s r).

(** [gotoPoseSync] waits until the controller calls back. *)
Definition goto_sync (joint pos : Z) (t : double) (r : ROBOT) : res ROBOT :=
  '(s, b) ← Control.gotoPoseSync shell_id joint pos t (cub r);
  if b : bool then
    s ← env s;
    d ← Control.sync_done shell_id joint s;
    if d : bool then Ok (set_cub s r) else Fault Blocked
  else Ok (set_cub s r).

Definition move (d : direction) (t : double) (r : ROBOT) : res ROBOT :=
  '(w, _) ← (match d with
             | ToFront => Walk.moveFront | ToBack => Walk.moveBack
             | ToRight => Walk.moveRight | ToLeft => Walk.moveLeft
             end) t thread_answer (walk r);
  Ok (set_walk w r).

(** [dancer1.stop()]. *)
Definition stop_dancer (r : ROBOT) : res ROBOT := x ← Thread.stop dance_env (dancer r); Ok (set_dancer x r).

Definition dance (r : ROBOT) : res ROBOT :=
  r ← stop_dancer r;
  r ← goto Control.FRONT_JOINT 60 (dlit 5 1) r;
  r ← goto Control.BACK_JOINT 60 (dlit 5 1) r;
  r ← goto Control.RIGHT_JOINT 150 (dlit 5 1) r;
  r ← goto Control.LEFT_JOINT 150 (dlit 5 1) r;
  let x := Thread.setPeriod 500000 (Thread.setCallback (dancer r)) in
  Ok (set_dancer (Thread.start 0 0 thread_answer x).1 r).

(** [printf("%d, ", buff[i])] for the samples read; the buffer has [samples]
    elements. *)
Definition print_samples (b : list Z) (ret : Z) (r : ROBOT) : res ROBOT :=
  forM (seqZ 0 ret) (λ i r, v ← aget (Sense.samples b) i; Ok (print (decimal v ++ bytes ", ") r)) r.

(** A reading in thousandths, converted to int. *)
Definition milli (v : double) : res Z := to_int (dmul v (dofZ 1000)).

Definition execute (q : request) (r : ROBOT) : res ROBOT :=
  match q with
  | ReqExit => Ok (set_should_stop true r)
  | ReqPing => Ok (print_ok r)
  | ReqInteractive on => Ok (print_ok (set_interactive on r))
  | ReqMemoryInfo =>
      let '(arena, used, free, largest) := mallinfo in
      Ok (print (bytes "total: " ++ decimal arena ++ bytes ", used: " ++ decimal used ++ bytes ", free: " ++
                 decimal free ++ bytes ", largest: " ++ decimal largest ++ newline) r)
  | ReqStartControl =>
      '(s, b) ← Control.startController clk env fuel answers (cub r);
      Ok ((if b : bool then print_ok else print_error) (set_cub s r))
  | ReqStopControl => s ← Control.stopController clk env fuel (cub r); Ok (print_ok (set_cub s r))
  | ReqSetPose j p => '(s, _) ← Control.setPose clk j p (cub r); Ok (print_ok (set_cub s r))
  | ReqGetPose j => p ← Control.getPose j (cub r); Ok (print_number p r)
  | ReqGetDistance i =>
      '(u, d) ← Sense.getDistance level tick fuel (fd_range r) i data dummy (range r);
      Ok (print_number d (set_range u r))
  | ReqGetHeading =>
      '(c, h) ← Sense.getHeading hangs err i2c_data atan2 buf6 (compass r);
      h ← to_int h;
      Ok (print_number h (set_compass c r))
  | ReqGotoPose j p t => r ← goto j p t r; Ok (print_ok r)
  | ReqGotoPoseSync j p t => r ← goto_sync j p t r; Ok (print_ok r)
  | ReqMove d t => r ← move d t r; Ok (print_ok r)
  | ReqDance => r ← dance r; Ok (print_ok r)
  | ReqStop => w ← Walk.stop (walk r); r ← stop_dancer (set_walk w r); Ok (print_ok r)
  | ReqGetADC c f n =>
      '(u, b, ret) ← Sense.getRawAnalogData conv clk None (fd_adc r) c f (uninit (2 * n)) n (adc r);
      r ← print_samples b ret (set_adc u r);
      Ok (if bInteractive r then print (newline ++ bytes "[ok]" ++ newline) r else r)
  | ReqGetBatteryCurrent =>
      '(u, v) ← Sense.getBatteryCurrent conv clk None (fd_adc r) value (adc r);
      m ← milli v;
      Ok (print_milli m (set_adc u r))
  | ReqGetBatteryVolt =>
      '(u, v) ← Sense.getBatteryVolt conv clk None (fd_adc r) value (adc r);
      m ← milli v;
      Ok (print_milli m (set_adc u r))
  | ReqHelp => Ok (if bInteractive r then print (newline ++ help ++ newline) r else r)
  | ReqBad => Ok (print_error r)
  | ReqUnknown =>
      Ok (if bInteractive r then print (bytes "[error] type 'help' for more commands." ++ newline) r
          else print_error r)
  end.

(** [power < BATTERY_CRITICAL_LEVE], an int against a double. *)
Definition critical (power : Z) : bool := dltb (dofZ power) BATTERY_CRITICAL_LEVE.

(** The prompt of the interactive mode. *)
Definition prompt (r : ROBOT) : res ROBOT :=
  if bInteractive r then
    '(u, v) ← Sense.getBatteryVolt conv clk None (fd_adc r) value (adc r);
    power ← milli v;
    let r := set_adc u r in
    let r := if critical power
             then print (bytes "[WARNING] Battery volatge is critically low (" ++ decimal (Z.quot power 1000) ++
                         bytes "." ++ decimal (Z.rem power 1000) ++ bytes " V) " ++ newline) r
             else r in
    Ok (print (bytes "[myCub] ") r)
  else Ok r.

(** A turn of the main loop with the line [readline] puts into the buffer
    ([line] with its newline, then the old contents); nothing is executed for
    a line without words. *)
Definition turn (buf table : list Z) (len : Z) (r : ROBOT) : res (ROBOT * list Z) :=
  r ← prompt r;
  if 0 <? len then
    buf ← aset buf (len - 1) 0;
    '(_, table, n) ← parse_string None buf table;
    if n =? 0 then Ok (r, table)
    else q ← decode commands table n; r ← execute q r; Ok (r, table)
  else Ok (r, table).

(** [fini] of the interface: the controllers, then the two devices. *)
Definition fini (r : ROBOT) : res ROBOT :=
  s ← Control.stopController clk env fuel (cub r);
  let r := set_cub s r in
  r ← (if negb (fd_range r =? -1) then
         '(u, _) ← Range.range_close (Range.g_rangeops level tick) None (range r);
         Ok (set_fd_range (-1) (set_range u r))
       else Ok r);
  if negb (fd_adc r =? -1) then
    '(u, _) ← Adc.adclm4f_close (Adc.g_adclm4fops conv clk) None (adc r);
    Ok (set_fd_adc (-1) (set_adc u r))
  else Ok r.

(** The answers of the two [devinit] functions and the descriptors the system
    gives, and the configuration of the I2C driver. *)
Context (a_range fd0 a_adc fd1 : Z) (cfg : I2c.CONFIG).

Definition init_range (r : ROBOT) : res (ROBOT * bool) :=
  if fd_range r <? 0 then
    if negb (a_range =? Upper.OK) then r ← fini r; Ok (r, false)
    else
      '(u, ret) ← Range.range_open (Range.g_rangeops level tick) None (range r);
      let r := set_fd_range (if ret <? 0 then -1 else fd0) (set_range u r) in
      if fd_range r <? 0 then r ← fini r; Ok (r, false)
      else
        '(u, _) ← Range.range_ioctl (Range.g_rangeops level tick) None Range.RANGEIOC_ATTACHE
                    (Some (Range.mkRangeInfo 0 0 2 0 3)) (range r);
        '(u, _) ← Sense.getDistance level tick fuel (fd_range r) 0 data dummy u;
        Ok (set_range u r, true)
  else Ok (r, true).

Definition init_adc (r : ROBOT) : res (ROBOT * bool) :=
  if fd_adc r <? 0 then
    if negb (a_adc =? Upper.OK) then r ← fini r; Ok (r, false)
    else
      '(u, ret) ← Adc.adclm4f_open (Adc.g_adclm4fops conv clk) None (adc r);
      let r := set_fd_adc (if ret <? 0 then -1 else fd1) (set_adc u r) in
      if fd_adc r <? 0 then r ← fini r; Ok (r, false) else Ok (r, true)
  else Ok (r, true).

Definition init (r : ROBOT) : res (ROBOT * bool) :=
  '(r, ok) ← init_range r;
  if negb ok then Ok (r, false)
  else
    '(r, ok) ← init_adc r;
    if negb ok then Ok (r, false)
    else
      '(c, ok) ← Sense.init hangs err clk cfg 1 (compass r);
      let r := set_compass c r in
      if negb ok then r ← fini r; Ok (r, false) else Ok (r, true).

(** The main loop over the lines of the input, each as the buffer [readline]
    leaves with the length it returns; the end of the input is not handled by
    the loop, which would go on. *)
Fixpoint main_loop (lines : list (list Z * Z)) (table : list Z) (r : ROBOT) : res ROBOT :=
  if should_stop r then Ok r
  else match lines with
  | [] => Fault Blocked
  | (buf, len) :: lines => '(r, table) ← turn buf table len r; main_loop lines table r
  end.

(** [myCub_main] with the answer of [pthread_mutex_init] in
    [MyCubWalker::init]; the results of the two [init] are not used. *)
Definition myCub_main (interactive : bool) (logo : list Z) (a_mutex : Z) (lines : list (list Z * Z)) (table : list Z)
    (r : ROBOT) : res ROBOT :=
  let r := set_interactive interactive r in
  let r := if interactive then print (logo ++ newline) r else r in
  '(r, _) ← init r;
  let '(w, _) := Walk.init a_mutex (walk r) in
  let r := set_should_stop false (set_walk w r) in
  r ← main_loop lines table r;
  w ← Walk.fini (walk r);
  r ← fini (set_walk w r);
  Ok (print (if bInteractive r then bytes "bye!" ++ newline else bytes "[ok]" ++ newline) r).

End interpreter.

(** ** The dancer *)

(** [dancer_body] with its static counter and the answer of [rand]. *)
Definition dancer_body (MAX_RAND cnt rnd : Z) (s : Control.CUB) : res (Control.CUB * Z) :=
  let fifth := dlit 2 1 in
  '(s, _) ← (if negb (cnt `mod` 4 =? 0) then Control.gotoPose Control.FRONT_JOINT 50 fifth s
             else Control.gotoPose Control.FRONT_JOINT 10 fifth s);
  '(s, _) ← (if negb (cnt `mod` 4 =? 0) then Control.gotoPose Control.BACK_JOINT 10 fifth s
             else Control.gotoPose Control.BACK_JOINT 50 fifth s);
  v ← to_int (dmul (ddiv (dofZ rnd) (dofZ MAX_RAND)) (dofZ 100));
  let pos := v + 60 in
  '(s, _) ← Control.gotoPose Control.RIGHT_JOINT pos (dlit 1 1) s;
  '(s, _) ← Control.gotoPose Control.LEFT_JOINT pos (dlit 1 1) s;
  Ok (s, u32 (cnt + 1)).

(** ** The words of a line *)

(** Reference: the maximal pieces without spaces. *)
Definition flush (cur : list Z) (ws : list (list Z)) : list (list Z) :=
  match cur with [] => ws | _ => cur :: ws end.
Fixpoint words_from (cur s : list Z) : list (list Z) :=
  match s with
  | [] => flush cur []
  | c :: s => if c =? 32 then flush cur (words_from [] s) else words_from (cur ++ [c]) s
  end.
Definition words (s : list Z) : list (list Z) := words_from [] s.

Abbreviation spaces := (gap (bytes " ")).
Abbreviation a_word := (word (bytes " ")).

Lemma words_spaces ds s : spaces ds → words (ds ++ s) = words s.
Proof.
  induction 1 as [|c ds Hc _ IH]; [done|]. apply list_elem_of_singleton in Hc. subst c. apply IH.
Qed.

Lemma words_from_app cur w s :
  Forall (λ c, c ≠ 0 ∧ c ∉ bytes " ") w → words_from cur (w ++ s) = words_from (cur ++ w) s.
Proof.
  intros Hw. revert cur. induction Hw as [|c w (_ & Hc) _ IH]; intros cur; cbn [app words_from]; [by rewrite app_nil_r|].
  rewrite (proj2 (Z.eqb_neq c 32)). 2: { intros ->. apply Hc. left. }
  rewrite IH, <- app_assoc. done.
Qed.

Lemma words_last w : a_word w → words w = [w].
Proof.
  intros (Hne & Hw). unfold words. rewrite <- (app_nil_r w) at 1. rewrite words_from_app by done. by destruct w.
Qed.

Lemma words_cons w s : a_word w → words (w ++ 32 :: s) = w :: words s.
Proof. intros (Hne & Hw). unfold words. rewrite words_from_app by done. cbn. by destruct w. Qed.

Lemma span_exists (P : Z → Prop) `{!∀ c, Decision (P c)} (s : list Z) :
  ∃ l t, s = l ++ t ∧ Forall P l ∧ ∀ c t', t = c :: t' → ¬ P c.
Proof.
  induction s as [|c s (l & t & -> & Hl & Ht)]; [by exists [], []|].
  destruct (decide (P c)) as [Hc|Hc]; [by exists (c :: l), t; repeat constructor|].
  exists [], (c :: l ++ t). split; [done|]. split; [constructor|]. intros c' t' E. by injection E as <- _.
Qed.

(** A line is blank, or begins with a word. *)
Lemma words_split s :
  Forall (λ c, c ≠ 0) s →
  spaces s ∨ ∃ ds w t, s = ds ++ w ++ t ∧ spaces ds ∧ a_word w ∧ (t = [] ∨ ∃ t', t = 32 :: t').
Proof.
  intros Hs. destruct (span_exists (λ c, c ∈ bytes " ") s) as (ds & s1 & -> & Hds & H1).
  destruct s1 as [|c s1]; [left; by rewrite app_nil_r|]. right. specialize (H1 c s1 eq_refl).
  apply Forall_app in Hs as [_ Hs].
  destruct (span_exists (λ c, c ≠ 0 ∧ c ∉ bytes " ") (c :: s1)) as (w & t & E & Hw & H2).
  exists ds, w, t. rewrite E. split; [done|]. split; [done|]. split.
  - split; [|done]. intros ->. cbn in E. subst t. apply (H2 c s1); [done|]. by inversion Hs.
  - destruct t as [|x t]; [by left|right]. exists t. f_equal. specialize (H2 x t eq_refl). rewrite E in Hs.
    apply Forall_app in Hs as [_ Hx]. inversion_clear Hx as [|? ? Hx0 _].
    destruct (decide (x ∈ bytes " ")) as [Hin|Hin]; [by apply list_elem_of_singleton in Hin|]. by destruct H2.
Qed.

Lemma string_at_app l rest : Forall (λ c, c ≠ 0) l → string_at (l ++ 0 :: rest) = Ok l.
Proof.
  induction 1 as [|c l Hc _ IH]; [done|]. cbn [app string_at]. rewrite (proj2 (Z.eqb_neq c 0)) by done. by rewrite IH.
Qed.

(** The row holds the word. *)
Definition row_holds (table : list Z) (i : nat) (w : list Z) : Prop := ∃ rest, row table (Z.of_nat i) = w ++ 0 :: rest.

Lemma row_take table i w :
  row_holds table i w → (length w < 32)%nat → ∀ table', take (32 * S i) table' = take (32 * S i) table → row_holds table' i w.
Proof.
  unfold row_holds, row, MAX_CMD_LEN. intros (rest & H) Hl table' E.
  replace (Z.to_nat (32 * Z.of_nat i)) with (32 * i)%nat in * by lia.
  assert (∀ l : list Z, drop (32 * i) l = drop (32 * i) (take (32 * S i) l) ++ drop (32 * S i) l) as Hsplit.
  { intros l. rewrite <- (take_drop (32 * S i) l) at 1. destruct (decide (32 * i <= length (take (32 * S i) l))%nat) as [Hle|Hgt].
    - by rewrite drop_app_le by lia.
    - rewrite length_take in Hgt. rewrite !(drop_ge _ (32 * i)), (drop_ge l (32 * S i)); [done|lia|rewrite length_take; lia|].
      rewrite length_app, length_take, length_drop. lia. }
  rewrite Hsplit in H. rewrite Hsplit, E.
  exists (drop (S (length w)) (drop (32 * i) (take (32 * S i) table)) ++ drop (32 * S i) table').
  assert (S (length w) <= length (drop (32 * i) (take (32 * S i) table)))%nat as Hlen.
  { pose proof (f_equal length H) as HL. rewrite !length_app, !length_drop, !length_take in HL. cbn [length] in HL.
    rewrite length_drop, length_take. lia. }
  rewrite <- (take_drop (S (length w)) (drop (32 * i) (take (32 * S i) table))) at 1.
  apply (f_equal (take (S (length w)))) in H. rewrite take_app_le in H by done. rewrite H.
  rewrite (cons_middle 0 w), app_assoc, take_app_le, take_ge by (rewrite length_app; cbn; lia).
  by rewrite <- !app_assoc.
Qed.

(** One call of [strtok] on a line. *)
Lemma strtok_line str sp pre s rest :
  from str sp = Some (Z.of_nat (length pre)) → Forall (λ c, c ≠ 0) s →
  (words s = [] ∧ strtok str (cstr " ") sp (pre ++ s ++ 0 :: rest) = Ok (pre ++ s ++ 0 :: rest, sp, None)) ∨
  ∃ w s' pre' p, words s = w :: words s' ∧ Forall (λ c, c ≠ 0) s' ∧ Forall (λ c, c ≠ 0) w ∧
    strtok str (cstr " ") sp (pre ++ s ++ 0 :: rest) = Ok (pre' ++ s' ++ 0 :: rest, Some (Z.of_nat (length pre')), Some p) ∧
    string_at (drop (Z.to_nat p) (pre' ++ s' ++ 0 :: rest)) = Ok w.
Proof.
  intros Hf Hs. assert (Forall (λ c, c ≠ 0) (bytes " ")) as Hd by (by repeat constructor).
  change (cstr " ") with (bytes " " ++ [0]). unfold strtok.
  destruct (words_split s Hs) as [Hg|(ds & w & t & -> & Hg & Hw & Ht)].
  { left. split; [rewrite <- (app_nil_r s); by rewrite words_spaces|]. by apply strtok_r_end. }
  right. apply Forall_app in Hs as [_ Hs]. apply Forall_app in Hs as [Hwz Htz].
  rewrite words_spaces by done. destruct Ht as [->|(t' & ->)].
  - exists w, [], (pre ++ ds ++ w), (Z.of_nat (length (pre ++ ds))). rewrite app_nil_r, words_last by done.
    split; [done|]. split; [constructor|]. split; [done|]. rewrite <- !app_assoc. cbn [app].
    rewrite (strtok_r_token (bytes " ") Hd str sp pre ds w 0 rest) by auto. split; [done|].
    by rewrite Nat2Z.id, app_assoc, drop_app_length, string_at_app.
  - exists w, t', (pre ++ ds ++ w ++ [0]), (Z.of_nat (length (pre ++ ds))). rewrite words_cons by done.
    inversion_clear Htz as [|? ? _ Htz']. split; [done|]. split; [done|]. split; [done|]. rewrite <- !app_assoc. cbn [app].
    rewrite (strtok_r_token (bytes " ") Hd str sp pre ds w 32 (t' ++ 0 :: rest)) by (auto; right; left).
    replace (Z.of_nat (length (pre ++ ds ++ w ++ [0]))) with (Z.of_nat (length (pre ++ ds ++ w)) + 1)
      by (rewrite !length_app; cbn; lia). split; [done|].
    by rewrite Nat2Z.id, app_assoc, drop_app_length, string_at_app.
Qed.

Lemma strcpy_row table (i : nat) w :
  length table = 512%nat → (i < 16)%nat → (length w < 32)%nat →
  ∃ table', strcpy table (MAX_CMD_LEN * Z.of_nat i) w = Ok table' ∧ length table' = 512%nat ∧
    take (32 * i) table' = take (32 * i) table ∧ row_holds table' i w.
Proof.
  intros Hl Hi Hw. unfold strcpy. set (n := S (length w)).
  assert (length (take (32 * i) table) = 32 * i)%nat as Hpre by (rewrite length_take; lia).
  assert (table = take (32 * i) table ++ take n (drop (32 * i) table) ++ drop n (drop (32 * i) table)) as Ht
    by (by rewrite !take_drop).
  exists (take (32 * i) table ++ (w ++ [0]) ++ drop n (drop (32 * i) table)).
  split; [|split; [|split]].
  - rewrite Ht at 1. replace (MAX_CMD_LEN * Z.of_nat i) with (Z.of_nat (length (take (32 * i) table)))
      by (unfold MAX_CMD_LEN; lia).
    apply store_block. rewrite length_take, length_drop, length_app. unfold n. cbn [length]. lia.
  - rewrite !length_app, !length_drop, Hpre. unfold n. cbn [length]. lia.
  - by rewrite take_app_le, take_ge by lia.
  - exists (drop n (drop (32 * i) table)). unfold row, MAX_CMD_LEN.
    replace (Z.to_nat (32 * Z.of_nat i)) with (length (take (32 * i) table)) by lia.
    by rewrite drop_app_length, <- app_assoc.
Qed.

Lemma parse_words k i str sp pre s rest table :
  from str sp = Some (Z.of_nat (length pre)) → Forall (λ c, c ≠ 0) s →
  Forall (λ w, (length w < 32)%nat) (words s) → length table = 512%nat → (i + k = 16)%nat →
  ∃ str' table',
    ('(b, sp, tok) ← strtok str (cstr " ") sp (pre ++ s ++ 0 :: rest); parse_loop k (Z.of_nat i) tok sp b table) =
      Ok (str', table', Z.of_nat (i + Nat.min k (length (words s)))) ∧
    length table' = 512%nat ∧ take (32 * i) table' = take (32 * i) table ∧
    ∀ j w, words s !! j = Some w → (j < k)%nat → row_holds table' (i + j) w.
Proof.
  revert i str sp pre s table. induction k as [|k IH]; intros i str sp pre s table Hf Hs Hw Hl Hik.
  - destruct (strtok_line str sp pre s rest Hf Hs) as [[_ ->]|(w & s' & pre' & p & _ & _ & _ & -> & _)];
      rewrite bind_ok; cbn [parse_loop]; eexists _, table; (split; [do 3 f_equal; lia|]); (split; [done|]); (split; [done|]); lia.
  - destruct (strtok_line str sp pre s rest Hf Hs) as [[E ->]|(w & s' & pre' & p & E & Hs' & Hwz & -> & Hat)]; rewrite bind_ok; cbn [parse_loop].
    { rewrite E. eexists _, table. split; [do 3 f_equal; cbn; lia|]. split; [done|]. split; [done|]. intros j w Hj. done. }
    rewrite E in Hw. apply Forall_cons in Hw as [Hwl Hw].
    rewrite Hat, bind_ok. destruct (strcpy_row table i w Hl) as (t1 & -> & Hl1 & Hp1 & Hrow); [lia|done|]. rewrite bind_ok.
    replace (Z.of_nat i + 1) with (Z.of_nat (S i)) by lia.
    destruct (IH (S i) None (Some (Z.of_nat (length pre'))) pre' s' t1) as (str' & t2 & Hrun & Hl2 & Hp2 & Hrows); [done|done|done|done|lia|].
    rewrite Hrun. exists str', t2. split; [rewrite E; do 3 f_equal; cbn; lia|]. split; [done|]. split.
    + rewrite <- Hp1. apply (f_equal (take (32 * i))) in Hp2. rewrite !take_take in Hp2.
      by replace (Nat.min (32 * i) (32 * S i)) with (32 * i)%nat in Hp2 by lia.
    + intros j w' Hj Hjk. rewrite E in Hj. destruct j as [|j]; cbn in Hj.
      * injection Hj as <-. rewrite Nat.add_0_r. by apply (row_take t1).
      * replace (i + S j)%nat with (S i + j)%nat by lia. apply Hrows; [done|lia].
Qed.

(** [parse_string] cuts a line into its words: with words of less than 32
    characters it returns their number, at most 16, and the rows of the table
    hold them in order. *)
Theorem parse_string_words g_saveptr s rest table :
  Forall (λ c, c ≠ 0) s → Forall (λ w, (length w < 32)%nat) (words s) → length table = 512%nat →
  ∃ str' table', parse_string g_saveptr (s ++ 0 :: rest) table = Ok (str', table', Z.min 16 (Z.of_nat (length (words s)))) ∧
    length table' = 512%nat ∧
    ∀ j w, words s !! j = Some w → (j < 16)%nat → row_holds table' j w.
Proof.
  intros Hs Hw Hl. destruct (parse_words 16 0 (Some 0) g_saveptr [] s rest table) as (str' & t & H & Hlt & _ & Hr); try done.
  exists str', t. split; [|done]. unfold parse_string. cbn [app] in H. change (Z.of_nat 0) with 0 in H.
  change (Z.to_nat MAX_CMD_NUM) with 16%nat. rewrite H. do 2 f_equal. lia.
Qed.

(** A word of 32 characters and more runs into the next row: with a second
    word behind it, the two are taken for one. *)
Example long_word_merges :
  let line := bytes "abcdefghijklmnopqrstuvwxyz0123456 ping" in
  ∃ str table, parse_string None (line ++ [0]) (replicate 512 0) = Ok (str, table, 2) ∧
    string_at table = Ok (bytes "abcdefghijklmnopqrstuvwxyz012345ping").
Proof. eexists _, _. split; [vm_compute; reflexivity|]. vm_compute. reflexivity. Qed.

(** In the last row it leaves the table. *)
Example long_word_overflows :
  parse_string None (bytes "a b c d e f g h i j k l m n o abcdefghijklmnopqrstuvwxyz0123456" ++ [0]) (replicate 512 0) =
    Fault OutOfBounds.
Proof. vm_compute. reflexivity. Qed.

(** ** Commands in text *)

Lemma decimal_word z : a_word (decimal z).
Proof.
  split.
  - rewrite decimal_spec. destruct (z <? 0); [done|]. by destruct (pretty_head (Z.to_N z)) as (d & l & -> & _).
  - apply Forall_forall. intros c Hc. pose proof (decimal_chars z) as H. rewrite Forall_forall in H. specialize (H c Hc). cbn in H.
    split; [lia|]. intros Hin. assert (c = 32) by (by apply list_elem_of_singleton in Hin). lia.
Qed.

(** The words of a command with arguments. *)
Definition line_of (ws : list (list Z)) : list Z :=
  match ws with [] => [] | w :: ws => w ++ (ws ≫= λ w, 32 :: w) end.

Lemma words_line ws : Forall (λ w, a_word w) ws → words (line_of ws) = ws.
Proof.
  destruct ws as [|w ws]; [done|]. intros [Hw Hws]%Forall_cons. cbn [line_of].
  revert w Hw. induction Hws as [|w' ws Hw' _ IH]; intros w Hw; cbn [mbind list_bind].
  - rewrite app_nil_r. by apply words_last.
  - cbn [app]. rewrite words_cons by done. f_equal. by apply IH.
Qed.

Lemma line_nonzero ws : Forall (λ w, a_word w) ws → Forall (λ c, c ≠ 0) (line_of ws).
Proof.
  assert (∀ w, a_word w → Forall (λ c, c ≠ 0) w) as Hz by (intros w [_ H]; eapply Forall_impl; [exact H|]; by intros c [? _]).
  destruct ws as [|w ws]; [done|]. intros [Hw Hws]%Forall_cons. cbn [line_of]. apply Forall_app. split; [by apply Hz|].
  induction Hws as [|w' ws Hw' _ IH]; [constructor|]. cbn [mbind list_bind]. apply Forall_app. split; [|done].
  constructor; [done|by apply Hz].
Qed.

Lemma arg_row table i z : row_holds table i (decimal z) → -2147483648 < z <= 2147483647 → arg table (Z.of_nat i) = Ok z.
Proof.
  intros (rest & E) Hz. unfold arg, atoi. rewrite E, strtol_decimal by (done || lia).
  by rewrite (proj2 (Z.eqb_neq z _)) by lia.
Qed.

Definition a_number (z : Z) : Prop := -2147483648 < z <= 2147483647.

(** The table a command line leaves, and what is found in it. *)
Lemma parse_line g_saveptr ws rest table :
  Forall (λ w, a_word w ∧ (length w < 32)%nat) ws → (length ws <= 16)%nat → length table = 512%nat →
  ∃ str' table', parse_string g_saveptr (line_of ws ++ 0 :: rest) table = Ok (str', table', Z.of_nat (length ws)) ∧
    ∀ j w, ws !! j = Some w → row_holds table' j w.
Proof.
  intros Hws Hn Hl. assert (Forall (λ w, a_word w) ws) as Hw by (eapply Forall_impl; [exact Hws|]; by intros w [? _]).
  destruct (parse_string_words g_saveptr (line_of ws) rest table) as (str' & t & H & _ & Hr).
  - by apply line_nonzero.
  - rewrite words_line by done. eapply Forall_impl; [exact Hws|]. by intros w [_ ?].
  - done.
  - exists str', t. rewrite words_line in * by done. split; [rewrite H; do 2 f_equal; lia|].
    intros j w Hj. apply Hr; [done|]. apply lookup_lt_Some in Hj. lia.
Qed.

(** The table after a command with three numbers. *)
Lemma parse_command3 g_saveptr name x y z rest table :
  a_word (bytes name) → (length (bytes name) < 32)%nat → a_number x → a_number y → a_number z → length table = 512%nat →
  ∃ str' rest' table', 
    parse_string g_saveptr (line_of [bytes name; decimal x; decimal y; decimal z] ++ 0 :: rest) table = Ok (str', table', 4) ∧
    table' = bytes name ++ 0 :: rest' ∧ arg table' 1 = Ok x ∧ arg table' 2 = Ok y ∧ arg table' 3 = Ok z.
Proof.
  unfold a_number. intros Hname Hlen Hx Hy Hz Hl.
  destruct (parse_line g_saveptr [bytes name; decimal x; decimal y; decimal z] rest table) as (str' & t & H & Hr); [|cbn; lia|done|].
  { assert (∀ v, -2147483648 < v <= 2147483647 → a_word (decimal v) ∧ (length (decimal v) < 32)%nat) as Hd.
    { intros v Hv. split; [apply decimal_word|]. pose proof (decimal_length v ltac:(lia)). lia. }
    apply Forall_cons; split; [done|]. do 3 (apply Forall_cons; split; [by apply Hd|]). constructor. }
  destruct (Hr 0%nat (bytes name) eq_refl) as (rest' & E). exists str', rest', t. split; [done|].
  split; [exact E|]. split; [|split].
  - by apply (arg_row t 1), Hx; apply Hr.
  - by apply (arg_row t 2), Hy; apply Hr.
  - by apply (arg_row t 3), Hz; apply Hr.
Qed.

Section turns.
Context (clk : Z) (answers : Control.ANSWERS) (env : Control.CUB → res Control.CUB) (fuel : nat).
Context (thread_answer : Z) (dance_env : Thread.NXTHREAD → Thread.NXTHREAD).
Context (level : nat → bool) (tick : nat → Z) (data dummy : list Z).
Context (conv : nat → option Z) (value : list Z).
Context (hangs : nat → bool) (err i2c_data : nat → Z) (atan2 : double → double → double) (buf6 : list Z).
Context (mallinfo : Z * Z * Z * Z) (uninit : Z → list Z) (help : list Z).

Local Abbreviation a_turn := (turn clk answers env fuel thread_answer dance_env level tick data dummy conv value
  hangs err i2c_data atan2 buf6 mallinfo uninit help).
Local Abbreviation an_execution := (execute clk answers env fuel thread_answer dance_env level tick data dummy conv value
  hangs err i2c_data atan2 buf6 mallinfo uninit help).

(** A turn with a command of three numbers decodes the table and executes. *)
Lemma turn_command3 name x y z rest table r :
  bInteractive r = false → a_word (bytes name) → (length (bytes name) < 32)%nat →
  a_number x → a_number y → a_number z → length table = 512%nat →
  let line := line_of [bytes name; decimal x; decimal y; decimal z] in
  ∃ rest' table', table' = bytes name ++ 0 :: rest' ∧ arg table' 1 = Ok x ∧ arg table' 2 = Ok y ∧ arg table' 3 = Ok z ∧
    a_turn (line ++ 10 :: rest) table (Z.of_nat (length line) + 1) r =
      (q ← decode commands table' 4; r ← an_execution q r; Ok (r, table')).
Proof.
  intros Hi Hname Hlen Hx Hy Hz Hl line.
  destruct (parse_command3 None name x y z rest table Hname Hlen Hx Hy Hz Hl) as (str' & rest' & t & Hp & Ht & H1 & H2 & H3).
  exists rest', t. split; [done|]. split; [done|]. split; [done|]. split; [done|].
  unfold turn, prompt. rewrite Hi, bind_ok. rewrite (proj2 (Z.ltb_lt 0 _)) by lia.
  replace (Z.of_nat (length line) + 1 - 1) with (Z.of_nat (length line)) by lia.
  rewrite aset_some, bind_ok by (rewrite length_app; cbn; lia).
  rewrite insert_app_r_alt, Nat.sub_diag by lia. cbn [insert list_insert]. fold line in Hp. by rewrite Hp, bind_ok.
Qed.

(** C16: the line "gotoPose j p t" (as printed by %d) reaches the controllers:
    it is executed as [gotoPose(j, p, t/1000.0)] and answered by "[ok]", also
    when the controllers refuse it. *)
Theorem shell_gotoPose j p t rest table r :
  bInteractive r = false → 0 <= j <= 3 → a_number p → a_number t → length table = 512%nat →
  let line := line_of [bytes "gotoPose"; decimal j; decimal p; decimal t] in
  ∃ table', a_turn (line ++ 10 :: rest) table (Z.of_nat (length line) + 1) r =
    ('(s, _) ← Control.gotoPose j p (ddiv (dofZ t) (dofZ 1000)) (cub r); Ok (print_ok (set_cub s r), table')).
Proof.
  intros Hi Hj Hp Ht Hl line.
  destruct (turn_command3 "gotoPose" j p t rest table r) as (rest' & t' & E & H1 & H2 & H3 & Hturn); try done.
  { split; [done|]. apply (bool_decide_unpack _). reflexivity. }
  { cbn. lia. } { unfold a_number. lia. }
  exists t'. fold line in Hturn. rewrite Hturn.
  assert (decode commands t' 4 = Ok (ReqGotoPose j p (ddiv (dofZ t) (dofZ 1000)))) as ->.
  { rewrite E. transitivity (t ← time_arg (bytes "gotoPose" ++ 0 :: rest') 4 3; j ← uarg (bytes "gotoPose" ++ 0 :: rest') 1;
      p ← arg (bytes "gotoPose" ++ 0 :: rest') 2; Ok (ReqGotoPose j p (ddiv t (dofZ 1000)))); [reflexivity|].
    rewrite <- E. unfold time_arg, uarg. rewrite H1, H2, H3. cbn [Z.ltb Z.compare Pos.compare Pos.compare_cont].
    rewrite !bind_ok, u32_small by lia. done. }
  rewrite bind_ok. cbn [execute]. unfold goto. destruct (Control.gotoPose _ _ _ _) as [[s b]|]; done.
Qed.

(** The same numbers in "gotoPoseSync" are seconds, not milliseconds. *)
Theorem shell_gotoPoseSync_seconds j p t rest table r :
  bInteractive r = false → 0 <= j <= 3 → a_number p → a_number t → length table = 512%nat →
  let line := line_of [bytes "gotoPoseSync"; decimal j; decimal p; decimal t] in
  ∃ table', a_turn (line ++ 10 :: rest) table (Z.of_nat (length line) + 1) r =
    (r ← goto_sync env j p (dofZ t) r; Ok (print_ok r, table')).
Proof.
  intros Hi Hj Hp Ht Hl line.
  destruct (turn_command3 "gotoPoseSync" j p t rest table r) as (rest' & t' & E & H1 & H2 & H3 & Hturn); try done.
  { split; [done|]. apply (bool_decide_unpack _). reflexivity. }
  { cbn. lia. } { unfold a_number. lia. }
  exists t'. fold line in Hturn. rewrite Hturn.
  assert (decode commands t' 4 = Ok (ReqGotoPoseSync j p (dofZ t))) as ->.
  { rewrite E. transitivity (t ← time_arg (bytes "gotoPoseSync" ++ 0 :: rest') 4 3; j ← uarg (bytes "gotoPoseSync" ++ 0 :: rest') 1;
      p ← arg (bytes "gotoPoseSync" ++ 0 :: rest') 2; Ok (ReqGotoPoseSync j p t)); [reflexivity|].
    rewrite <- E. unfold time_arg, uarg. rewrite H1, H2, H3. cbn [Z.ltb Z.compare Pos.compare Pos.compare_cont].
    rewrite !bind_ok, u32_small by lia. done. }
  rewrite bind_ok. cbn [execute]. destruct (goto_sync _ _ _ _ _); done.
Qed.

End turns.

(** A robot at rest with its sensors closed. *)
Definition idle_robot : ROBOT :=
  let i2c := I2c.mkI2c 0 0 0 in
  let h := Hw.mkHW ∅ false 0 [] in
  mkRobot Walk.robot_at_rest Walk.no_walk
    (-1) (Upper.mkUpper 0 1 (Range.mkRangeInfo 0 0 0 0 0) (Range.mkRng (replicate 4 Range.range_zero) h 0 0))
    (-1) (Upper.mkUpper 0 1 (Adc.mkAdcInfo 0 0 0) (Adc.mkAdc (Adc.mkAdcInfo 0 0 0) h 0))
    (Sense.MyCubCompass (I2c.mkDevs i2c i2c) (I2c.mkBus h 0)) Thread.NxThread false false [].

Lemma shell_gotoPose_witness :
  ∃ table' s, turn 80000000 (Control.mkAnswers 0 3 0 0 (λ _, 0) (λ _, 0) (λ _, 0)) Ok 0 0 id (λ _, false) (λ _, 0) [] []
      (λ _, None) [] (λ _, false) (λ _, 0) (λ _, 0) (λ _ _, dofZ 0) [] (0, 0, 0, 0) (λ _, []) []
      (bytes "gotoPose 2 90 1500" ++ 10 :: replicate 20 7) (replicate 512 0) 19 idle_robot =
    Ok (print_ok (set_cub s idle_robot), table') ∧
    Control.targetPos <$> Control.joints s !! 2%nat = Some 90.
Proof.
  destruct (shell_gotoPose 80000000 (Control.mkAnswers 0 3 0 0 (λ _, 0) (λ _, 0) (λ _, 0)) Ok 0 0 id (λ _, false) (λ _, 0) [] []
      (λ _, None) [] (λ _, false) (λ _, 0) (λ _, 0) (λ _ _, dofZ 0) [] (0, 0, 0, 0) (λ _, []) []
      2 90 1500 (replicate 20 7) (replicate 512 0) idle_robot)
    as (table' & H); [| | | | |eexists table', _; split; [exact H|reflexivity]].
  - reflexivity.
  - lia.
  - unfold a_number. lia.
  - unfold a_number. lia.
  - reflexivity.
Defined.

(** When the range device cannot be initialised, [init] of an interface whose
    controllers were never started does not return: it stops the controllers
    first. *)
Theorem init_failure_hangs clk fuel level tick data dummy conv a_range fd0 r d0 d1 d2 d3 u :
  a_range ≠ Upper.OK → fd_range r = -1 → cub r = Control.MyCubInterface [d0; d1; d2; d3] u →
  init_range clk Ok fuel level tick data dummy conv a_range fd0 r = Fault OutOfFuel.
Proof.
  intros Ha Hf Hc. unfold init_range. rewrite Hf. cbn [Z.ltb Z.compare].
  rewrite (proj2 (Z.eqb_neq _ _)) by done. cbn [negb]. unfold fini. rewrite Hc.
  destruct (Control.stopController_unstarted_hangs clk fuel d0 d1 d2 d3 u (Control.mkAnswers 0 0 0 0 (λ _, 0) (λ _, 0) (λ _, 0))) as [-> _].
  done.
Qed.

(** A test of [n] consecutive numbers from [z] on. *)
Fixpoint all_from (f : Z → bool) (n : nat) (z : Z) : bool :=
  match n with O => true | S n => f z && all_from f n (z + 1) end.

Lemma all_from_spec f n z x : all_from f n z = true → z <= x < z + Z.of_nat n → f x = true.
Proof.
  revert z. induction n as [|n IH]; intros z H Hx; [lia|]. cbn [all_from] in H. apply andb_true_iff in H as [H1 H2].
  destruct (decide (x = z)) as [->|]; [done|]. apply (IH (z + 1)); [done|lia].
Qed.

(** The warning of the prompt compares millivolts with 6.2: it is printed
    below 7 millivolts, and not below 6.2 volts. *)
Theorem battery_warning power : 0 <= power < 10000 → critical power = (power <? 7).
Proof.
  intros H. apply Bool.eqb_prop.
  apply (all_from_spec (λ p, Bool.eqb (critical p) (p <? 7)) (Z.to_nat 10000) 0); [|lia].
  vm_compute. reflexivity.
Qed.

(** The dancer asks for positions the joints accept, for every answer of
    [rand]. *)
Example dancer_positions :
  to_int (dmul (ddiv (dofZ 32767) (dofZ 32767)) (dofZ 100)) = Ok 100 ∧ to_int (dmul (ddiv (dofZ 0) (dofZ 32767)) (dofZ 100)) = Ok 0.
Proof. split; vm_compute; reflexivity. Qed.

(** ** A session *)

Definition fresh_robot : ROBOT :=
  let d := Servo.mkServoInfo 0 0 0 0 in
  set_cub (Control.MyCubInterface [d; d; d; d] (Upper.mkUpper 0 1 d (Hw.mkHW ∅ false 0 []))) idle_robot.

(** The program on the lines of a session; while a command waits, each
    controller makes up to 400 steps. *)
Definition session (lines : list string) : res (list Z) :=
  let clk := 80000000 in
  let line str := (bytes str ++ 10 :: replicate 60 7, Z.of_nat (length (bytes str)) + 1) in
  r ← myCub_main clk (Control.mkAnswers 0 3 0 0 (λ _, 0) (λ _, 0) (λ _, 0)) (Control.settle clk 400) 9 0 id
        (λ n, bool_decide (n `mod` 4 = 2 ∨ n `mod` 4 = 3)%nat) (λ n, u32 (50000 * Z.of_nat n)) (replicate 128 1) (replicate 32 1)
        (λ _, Some 900) (replicate 20 0) (λ _, false) (λ _, 0) (λ _, 0) (λ _ _, dofZ 0) (replicate 6 0) (0, 0, 0, 0) (λ _, []) []
        0 4 0 5 (I2c.mkConfig false true false false)
        false [] 0 (line <$> lines) (replicate 512 0) fresh_robot;
  Ok (out r).

Definition answers_of (lines : list string) : list Z := lines ≫= λ l, bytes l ++ newline.

Example session_ends :
  session ["ping"; "startControl"; "getDistance 0"; "stopControl"; "getPose 2"; "getBatteryVolt"; "fly"; "exit"]%string =
    Ok (answers_of ["[ok]"; "[ok]"; "112"; "[ok]"; "8"; "7.978"; "[error]"; "[ok]"]%string).
Proof. vm_compute. reflexivity. Qed.

(** A synchronous command leaves the joint one short of its target, one for
    the place where the joint is divides by zero, and a session in which the
    controllers were never started does not end. *)
Example session_moves :
  session ["startControl"; "gotoPoseSync 2 20 1"; "getPose 2"; "setPose 9 20"; "stopControl"; "exit"]%string =
    Ok (answers_of ["[ok]"; "[ok]"; "19"; "[ok]"; "[ok]"; "[ok]"]%string).
Proof. vm_compute. reflexivity. Qed.
Example session_here : session ["startControl"; "gotoPoseSync 2 8 1"; "exit"]%string = Fault Overflow.
Proof. vm_compute. reflexivity. Qed.
Example session_unstarted : session ["ping"; "exit"]%string = Fault OutOfFuel.
Proof. vm_compute. reflexivity. Qed.

End Shell.
