(* ===== verification/ServodPulse.v ===== *)
(** * The pulses of the servo daemon

    Models the part of src/main/components/servoBlaster/servod.c that makes
    the pulses: the masks that say which outputs are cleared at each sample of
    the cycle and which are set where a servo starts, their update by
    [set_servo], the ring of DMA control blocks that [init_ctrl_data] builds,
    and the mode registers of the pins.  The DMA controller is modelled as the
    hardware the code is written for: it executes the control blocks one by
    one, each copies a word to the set or the clear register of the outputs or
    waits for one sample. *)
From S2P Require Import Prelude.

#[local] Open Scope Z_scope.

Module Pulse.

Definition DMY : Z := 255.
Definition MAX_SERVOS : Z := 32.

Record timeval := mkTime { tv_sec : Z; tv_usec : Z }.

(** The variables of the daemon that the pulses depend on.  [fsel] are the
    mode registers of the pins and [level] their output levels. *)
Record SERVOD := mkServod {
  servo2gpio : list Z;
  servostart : list Z;
  servowidth : list Z;
  num_samples : Z;
  turnoff_mask : list Z;
  turnon_mask : list Z;
  servo_kill_time : list timeval;
  idle_timeout : Z;
  invert : bool;
  fsel : list Z;
  level : Z
}.
Definition set_servostart v s := mkServod (servo2gpio s) v (servowidth s) (num_samples s) (turnoff_mask s) (turnon_mask s) (servo_kill_time s) (idle_timeout s) (invert s) (fsel s) (level s).
Definition set_servowidth v s := mkServod (servo2gpio s) (servostart s) v (num_samples s) (turnoff_mask s) (turnon_mask s) (servo_kill_time s) (idle_timeout s) (invert s) (fsel s) (level s).
Definition set_turnoff v s := mkServod (servo2gpio s) (servostart s) (servowidth s) (num_samples s) v (turnon_mask s) (servo_kill_time s) (idle_timeout s) (invert s) (fsel s) (level s).
Definition set_turnon v s := mkServod (servo2gpio s) (servostart s) (servowidth s) (num_samples s) (turnoff_mask s) v (servo_kill_time s) (idle_timeout s) (invert s) (fsel s) (level s).
Definition set_kill v s := mkServod (servo2gpio s) (servostart s) (servowidth s) (num_samples s) (turnoff_mask s) (turnon_mask s) v (idle_timeout s) (invert s) (fsel s) (level s).
Definition set_fsel v s := mkServod (servo2gpio s) (servostart s) (servowidth s) (num_samples s) (turnoff_mask s) (turnon_mask s) (servo_kill_time s) (idle_timeout s) (invert s) v (level s).
Definition set_level v s := mkServod (servo2gpio s) (servostart s) (servowidth s) (num_samples s) (turnoff_mask s) (turnon_mask s) (servo_kill_time s) (idle_timeout s) (invert s) (fsel s) v.

(** ** Pins *)

Definition gpio_get_mode (gpio : Z) (s : SERVOD) : res Z :=
  r ← aget (fsel s) (gpio `div` 10);
  Ok (Z.land (Z.shiftr r (gpio `mod` 10 * 3)) 7).

Definition gpio_set_mode (gpio mode : Z) (s : SERVOD) : res SERVOD :=
  r ← aget (fsel s) (gpio `div` 10);
  let r := Z.land r (Z.lnot (Z.shiftl 7 (gpio `mod` 10 * 3))) in
  let r := Z.lor r (u32 (Z.shiftl mode (gpio `mod` 10 * 3))) in
  l ← aset (fsel s) (gpio `div` 10) r;
  Ok (set_fsel l s).

(** What a word written to the set or the clear register does to the
    outputs. *)
Definition outputs (on : bool) (w level : Z) : Z := if on then Z.lor level w else Z.land level (Z.lnot w).

Definition gpio_bit (gpio : Z) : Z := u32 (Z.shiftl 1 gpio).
Definition gpio_set (gpio : Z) (on : bool) (s : SERVOD) : SERVOD := set_level (outputs on (gpio_bit gpio) (level s)) s.

(** ** Idle times *)

(** [long] and [time_t] have 32 bits. *)
Definition LONG_MAX : Z := 2147483647.
Definition int32 (z : Z) : res Z := if (- LONG_MAX - 1 <=? z) && (z <=? LONG_MAX) then Ok z else Fault Overflow.

Fixpoint carry_usec (fuel : nat) (t : timeval) : res timeval :=
  if tv_usec t <? 1000000 then Ok t
  else match fuel with
  | O => Fault OutOfFuel
  | S fuel =>
      usec ← int32 (tv_usec t - 1000000);
      sec ← int32 (tv_sec t + 1);
      carry_usec fuel (mkTime sec usec)
  end.

Definition update_idle_time (now : timeval) (servo : Z) (s : SERVOD) : res SERVOD :=
  if idle_timeout s =? 0 then Ok s
  else
    sec ← int32 (tv_sec now + idle_timeout s `quot` 1000);
    usec ← int32 (tv_usec now + idle_timeout s `rem` 1000 * 1000);
    t ← carry_usec 2 (mkTime sec usec);
    l ← aset (servo_kill_time s) servo t;
    Ok (set_kill l s).

(** ** Pulse widths *)

Definition set_servo_idle (servo : Z) (s : SERVOD) : res SERVOD :=
  on ← aset (turnon_mask s) servo 0;
  let s := set_turnon on s in
  w ← aget (servowidth s) servo;
  if w =? num_samples s then g ← aget (servo2gpio s) servo; Ok (gpio_set g (invert s) s) else Ok s.

(** A store to the memory the DMA controller reads. *)
Inductive store : Type :=
  | ClearOff (dp mask : Z)     (* *dp &= ~mask *)
  | SetOff (dp mask : Z)       (* *dp |= mask *)
  | StoreOn (servo mask : Z).  (* turnon_mask[servo] = mask *)

Definition do_store (w : store) (s : SERVOD) : res SERVOD :=
  match w with
  | ClearOff dp mask =>
      v ← aget (turnoff_mask s) dp; l ← aset (turnoff_mask s) dp (Z.land v (Z.lnot mask)); Ok (set_turnoff l s)
  | SetOff dp mask =>
      v ← aget (turnoff_mask s) dp; l ← aset (turnoff_mask s) dp (Z.lor v mask); Ok (set_turnoff l s)
  | StoreOn servo mask =>
      l ← aset (turnon_mask s) servo mask; Ok (set_turnon l s)
  end.

(** The two loops of [set_servo], as the stores they make; [n] turns are
    left and [dp] is an index of [turnoff_mask], which has [N] words. *)
Fixpoint clear_loop (N mask : Z) (n : nat) (dp : Z) : list store :=
  match n with
  | O => []
  | S n =>
      let dp := dp - 1 in
      let dp := if dp <? 0 then N - 1 else dp in
      ClearOff dp mask :: clear_loop N mask n dp
  end.

Fixpoint set_loop (N mask : Z) (n : nat) (dp : Z) : list store :=
  match n with
  | O => []
  | S n =>
      SetOff dp mask :: set_loop N mask n (let dp := dp + 1 in if N <=? dp then 0 else dp)
  end.

Definition width_stores (N start old width mask : Z) : list store :=
  let dp := start + width in
  let dp := if N <=? dp then dp - N else dp in
  if old <? width then clear_loop N mask (Z.to_nat (width - old)) dp
  else if width <? old then set_loop N mask (Z.to_nat (old - width)) dp
  else [].

(** The stores of a whole call, in the order the controller can see. *)
Definition on_store (servo width mask : Z) : store := StoreOn servo (if width =? 0 then 0 else mask).
Definition set_servo_stores (servo width : Z) (s : SERVOD) : res (list store) :=
  g ← aget (servo2gpio s) servo;
  old ← aget (servowidth s) servo;
  start ← aget (servostart s) servo;
  Ok (width_stores (num_samples s) start old width (gpio_bit g) ++ [on_store servo width (gpio_bit g)]).

(** The width is recorded before [turnon_mask] is stored, which the DMA
    controller does not see. *)
Definition set_servo (now : timeval) (servo width : Z) (s : SERVOD) : res SERVOD :=
  l ← set_servo_stores servo width s;
  s ← forM l do_store s;
  ws ← aset (servowidth s) servo width;
  update_idle_time now servo (set_servowidth ws s).

(** ** The ring of control blocks *)

Record dma_cb_t := mkCb { info : Z; src : Z; dst : Z; length_ : Z; stride : Z; next : Z }.
Definition cb_zero : dma_cb_t := mkCb 0 0 0 0 0 0.
Definition set_next (a : Z) (c : dma_cb_t) : dma_cb_t := mkCb (info c) (src c) (dst c) (length_ c) (stride c) a.

Definition PAGE_SIZE : Z := 4096.
Definition DMA_NO_WIDE_BURSTS : Z := Z.shiftl 1 26.
Definition DMA_WAIT_RESP : Z := Z.shiftl 1 3.
Definition DMA_D_DREQ : Z := Z.shiftl 1 6.
Definition DMA_PER_MAP (x : Z) : Z := Z.shiftl x 16.
Definition PWM_BASE : Z := 0x2020C000.
Definition PCM_BASE : Z := 0x20203000.
Definition ROUNDUP (val blksz : Z) : Z := Z.land (val + (blksz - 1)) (Z.lnot (blksz - 1)).

(** The shared memory: the masks, then the control blocks; addresses are
    offsets from [virtbase]. *)
Definition num_cbs (N : Z) : Z := N * 2 + MAX_SERVOS.
Definition num_pages (N : Z) : Z := Z.shiftr (num_cbs N * 32 + N * 4 + MAX_SERVOS * 4 + PAGE_SIZE - 1) 12.
Definition off_addr (i : Z) : Z := 4 * i.
Definition on_addr (N servo : Z) : Z := N * 4 + 4 * servo.
Definition cb_base (N : Z) : Z := ROUNDUP (N + MAX_SERVOS) 8 * 4.
Definition cb_addr (N k : Z) : Z := cb_base N + 32 * k.

Definition phys_gpset : Z := 0x7e200000 + 0x1c.
Definition phys_gpclr : Z := 0x7e200000 + 0x28.

Section ring.
Context (page_map : list Z) (via_pcm : bool) (past : Z → res Z).

Definition mem_virt_to_phys (offset : Z) : res Z :=
  p ← aget page_map (Z.shiftr offset 12); Ok (u32 (p + offset `mod` PAGE_SIZE)).

Definition phys_fifo_addr : Z :=
  if via_pcm then Z.lor PCM_BASE 0x7e000000 + 0x04 else Z.lor PWM_BASE 0x7e000000 + 0x18.
Definition cbinfo : Z :=
  Z.lor (Z.lor (Z.lor DMA_NO_WIDE_BURSTS DMA_WAIT_RESP) DMA_D_DREQ) (DMA_PER_MAP (if via_pcm then 2 else 5)).

(** [servostart[servo]]; a read past the end of the array is undefined: it
    does what [past] says, a fault or the word that the memory holds there. *)
Definition start_at (s : SERVOD) (servo : Z) : res Z :=
  if servo <? MAX_SERVOS then aget (servostart s) servo else past servo.

Fixpoint skip_unmapped (fuel : nat) (s : SERVOD) (servo : Z) : res Z :=
  if servo <? MAX_SERVOS then
    g ← aget (servo2gpio s) servo;
    if g =? DMY then
      match fuel with O => Fault OutOfFuel | S fuel => skip_unmapped fuel s (servo + 1) end
    else Ok servo
  else Ok servo.

(** A control block filled in, with its link to the one behind it. *)
Definition put_cb (N info src dst : Z) (st : list dma_cb_t * Z) : res (list dma_cb_t * Z) :=
  let '(cb, cbp) := st in
  a ← mem_virt_to_phys src;
  n ← mem_virt_to_phys (cb_addr N (cbp + 1));
  cb ← aset cb cbp (mkCb info a dst 4 0 n);
  Ok (cb, cbp + 1).

Definition cb_sample (s : SERVOD) (i : Z) (st : list dma_cb_t * Z * Z) : res (list dma_cb_t * Z * Z) :=
  let N := num_samples s in
  let clr := if invert s then phys_gpset else phys_gpclr in
  let set := if invert s then phys_gpclr else phys_gpset in
  let '(cb, servo) := st in
  cb ← put_cb N (Z.lor DMA_NO_WIDE_BURSTS DMA_WAIT_RESP) (off_addr i) clr cb;
  start ← start_at s servo;
  '(cb, servo) ←
    (if i =? start then
       cb ← put_cb N (Z.lor DMA_NO_WIDE_BURSTS DMA_WAIT_RESP) (on_addr N servo) set cb;
       servo ← skip_unmapped 32 s (servo + 1);
       Ok (cb, servo)
     else Ok (cb, servo));
  cb ← put_cb N cbinfo (off_addr 0) phys_fifo_addr cb;
  Ok (cb, servo).

Definition init_widths (s : SERVOD) : res (SERVOD * Z) :=
  forM (seqZ 0 MAX_SERVOS) (λ servo '(s, maskall),
    w ← aset (servowidth s) servo 0;
    let s := set_servowidth w s in
    g ← aget (servo2gpio s) servo;
    Ok (s, if g =? DMY then maskall else Z.lor maskall (gpio_bit g))) (s, 0).

Definition init_starts (num_servos : Z) (s : SERVOD) : res (SERVOD * Z) :=
  forM (seqZ 0 MAX_SERVOS) (λ servo '(s, curstart),
    g ← aget (servo2gpio s) servo;
    if g =? DMY then Ok (s, curstart)
    else
      l ← aset (servostart s) servo curstart;
      if num_servos =? 0 then Fault DivByZero
      else Ok (set_servostart l s, curstart + num_samples s `quot` num_servos)) (s, 0).

Definition init_ctrl_data (num_servos : Z) (s : SERVOD) : res (SERVOD * list dma_cb_t) :=
  let N := num_samples s in
  let s := set_turnon (replicate 32 0) s in
  '(s, maskall) ← init_widths s;
  let s := set_turnoff (replicate (Z.to_nat N) maskall) s in
  '(s, _) ← init_starts num_servos s;
  servo ← skip_unmapped 32 s 0;
  '(cb, cbp, _) ← forM (seqZ 0 N) (cb_sample s) (replicate (Z.to_nat (num_cbs N)) cb_zero, 0, servo);
  first ← mem_virt_to_phys (cb_base N);
  c ← aget cb (cbp - 1);
  cb ← aset cb (cbp - 1) (set_next first c);
  Ok (s, cb).

End ring.

(** ** The DMA controller *)

(** What the control blocks are for: clear the outputs at a sample, set those
    of a servo, wait for the next sample. *)
Inductive op : Type := Off (i : Z) | On (servo : Z) | Delay.

Definition exec_op (o : op) (s : SERVOD) : res SERVOD :=
  match o with
  | Off i => w ← aget (turnoff_mask s) i; Ok (set_level (outputs (invert s) w (level s)) s)
  | On servo => w ← aget (turnon_mask s) servo; Ok (set_level (outputs (negb (invert s)) w (level s)) s)
  | Delay => Ok s
  end.

Definition mapped (s : SERVOD) (servo : Z) : Prop :=
  servo2gpio s !! Z.to_nat servo ≠ Some DMY.
#[export] Instance mapped_dec s servo : Decision (mapped s servo).
Proof. unfold mapped. apply _. Defined.

Definition starting (s : SERVOD) (i : Z) : list Z :=
  filter (λ servo, mapped s servo ∧ servostart s !! Z.to_nat servo = Some i) (seqZ 0 MAX_SERVOS).

Definition sample_ops (s : SERVOD) (i : Z) : list op := Off i :: (On <$> starting s i) ++ [Delay].
Definition ring_ops (s : SERVOD) : list op := seqZ 0 (num_samples s) ≫= sample_ops s.

(** The controller on the control blocks: it finds the block and the word to
    copy at their physical addresses. *)
Definition virt (page_map : list Z) (a : Z) : option Z :=
  '(k, _) ← list_find (λ p, p = a - a `mod` PAGE_SIZE) page_map; Some (PAGE_SIZE * Z.of_nat k + a `mod` PAGE_SIZE).

Definition read_word (s : SERVOD) (a : Z) : option Z :=
  let w := a `div` 4 in
  if w <? num_samples s then turnoff_mask s !! Z.to_nat w else turnon_mask s !! Z.to_nat (w - num_samples s).

Definition dma_block (page_map : list Z) (s : SERVOD) (cb : list dma_cb_t) (a : Z) : option (SERVOD * Z) :=
  v ← virt page_map a;
  c ← cb !! Z.to_nat ((v - cb_base (num_samples s)) `div` 32);
  u ← virt page_map (src c);
  w ← read_word s u;
  Some (if dst c =? phys_gpset then set_level (outputs true w (level s)) s
        else if dst c =? phys_gpclr then set_level (outputs false w (level s)) s
        else s, next c).

(** ** Bits of the masks *)

Lemma testbit_gpio_bit g k : 0 <= g < 32 → 0 <= k → Z.testbit (gpio_bit g) k = bool_decide (g = k).
Proof.
  intros Hg Hk. unfold gpio_bit, u32. change 4294967296 with (2 ^ 32). destruct (Z.ltb_spec k 32).
  - rewrite Z.mod_pow2_bits_low by lia. rewrite Z.shiftl_1_l, Z.pow2_bits_eqb by lia.
    case_bool_decide; [by apply Z.eqb_eq|by apply Z.eqb_neq].
  - rewrite Z.mod_pow2_bits_high by lia. rewrite bool_decide_false by lia. done.
Qed.

(** Index of [turnoff_mask] that is [p] samples after the start of a
    servo. *)
Definition at_pos (N start p : Z) : Z := (start + p) `mod` N.

Lemma at_pos_range N start p : 0 < N → 0 <= at_pos N start p < N.
Proof. intros. by apply Z.mod_pos_bound. Qed.

Lemma at_pos_inj N start p q : 0 <= p < N → 0 <= q < N → at_pos N start p = at_pos N start q → p = q.
Proof.
  unfold at_pos. intros Hp Hq E.
  pose proof (Z.div_mod (start + p) N ltac:(lia)). pose proof (Z.div_mod (start + q) N ltac:(lia)).
  assert (p - q = N * ((start + p) `div` N - (start + q) `div` N)) as E' by nia.
  destruct (Z.lt_trichotomy ((start + p) `div` N) ((start + q) `div` N)) as [?|[?|?]]; nia.
Qed.

Lemma fmap_seqZ_shift {A} (f : Z → A) m n : f <$> seqZ (Z.succ m) n = (λ j, f (j + 1)) <$> seqZ m n.
Proof.
  replace (Z.succ m) with (1 + m) by lia. rewrite <- fmap_add_seqZ, <- list_fmap_compose.
  apply list_fmap_ext. intros _ j _. cbn. f_equal. lia.
Qed.

Lemma clear_loop_spec N mask n dp :
  0 <= dp < N → clear_loop N mask n dp = (λ j, ClearOff ((dp - 1 - j) `mod` N) mask) <$> seqZ 0 (Z.of_nat n).
Proof.
  revert dp. induction n as [|n IH]; intros dp Hd; [done|]. cbn [clear_loop]. rewrite seqZ_cons by lia.
  replace (Z.pred (Z.of_nat (S n))) with (Z.of_nat n) by lia. cbn [fmap list_fmap].
  assert ((if dp - 1 <? 0 then N - 1 else dp - 1) = (dp - 1) `mod` N) as ->.
  { destruct (Z.ltb_spec (dp - 1) 0).
    - replace (dp - 1) with (N - 1 + (-1) * N) by lia. rewrite Z.mod_add by lia. symmetry. apply Z.mod_small. lia.
    - symmetry. apply Z.mod_small. lia. }
  rewrite IH by (apply Z.mod_pos_bound; lia). rewrite Z.sub_0_r. f_equal.
  rewrite fmap_seqZ_shift. apply list_fmap_ext. intros _ j _. cbn. f_equal.
  rewrite <- Z.sub_add_distr, Zminus_mod_idemp_l. f_equal. lia.
Qed.

Lemma set_loop_spec N mask n dp :
  0 <= dp < N → set_loop N mask n dp = (λ j, SetOff ((dp + j) `mod` N) mask) <$> seqZ 0 (Z.of_nat n).
Proof.
  revert dp. induction n as [|n IH]; intros dp Hd; [done|]. cbn [set_loop]. rewrite seqZ_cons by lia.
  replace (Z.pred (Z.of_nat (S n))) with (Z.of_nat n) by lia. cbn [fmap list_fmap].
  rewrite Z.add_0_r, (Z.mod_small dp) by done.
  assert ((if N <=? dp + 1 then 0 else dp + 1) = (dp + 1) `mod` N) as ->.
  { destruct (Z.leb_spec N (dp + 1)).
    - replace (dp + 1) with (0 + 1 * N) by lia. rewrite Z.mod_add by lia. symmetry. apply Z.mod_small. lia.
    - symmetry. apply Z.mod_small. lia. }
  rewrite IH by (apply Z.mod_pos_bound; lia). f_equal.
  rewrite fmap_seqZ_shift. apply list_fmap_ext. intros _ j _. cbn. f_equal.
  rewrite Zplus_mod_idemp_l. f_equal. lia.
Qed.

(** The stores of [set_servo]: widening clears from the new end down to the
    old one, narrowing sets from the new end up to the old one. *)
Lemma width_stores_spec N start old width mask :
  0 <= start < N → 0 <= width <= N → 0 <= old <= N →
  width_stores N start old width mask =
    ((λ j, ClearOff (at_pos N start (width - 1 - j)) mask) <$> seqZ 0 (width - old)) ++
    ((λ j, SetOff (at_pos N start (width + j)) mask) <$> seqZ 0 (old - width)).
Proof.
  intros Hs Hw Ho. unfold width_stores.
  set (dp := if N <=? start + width then _ else _).
  assert (∃ k, dp = start + width - k * N ∧ 0 <= dp < N) as (k & Hdp & Hr).
  { subst dp. destruct (Z.leb_spec N (start + width)); [exists 1|exists 0]; lia. }
  destruct (Z.ltb_spec old width); [|destruct (Z.ltb_spec width old)].
  - rewrite clear_loop_spec, Z2Nat.id by lia. rewrite (seqZ_nil 0 (old - width)), app_nil_r by lia.
    apply list_fmap_ext. intros _ j _. f_equal. unfold at_pos.
    replace (start + (width - 1 - j)) with (dp - 1 - j + k * N) by lia. by rewrite Z.mod_add by lia.
  - rewrite set_loop_spec, Z2Nat.id by lia. rewrite (seqZ_nil 0 (width - old)) by lia. cbn [app fmap list_fmap].
    apply list_fmap_ext. intros _ j _. f_equal. unfold at_pos.
    replace (start + (width + j)) with (dp + j + k * N) by lia. by rewrite Z.mod_add by lia.
  - by rewrite !seqZ_nil by lia.
Qed.

(** Whether the outputs of pin [g] are cleared at sample [i]. *)
Definition off_bit (s : SERVOD) (i g : Z) : bool := Z.testbit (turnoff_mask s !!! Z.to_nat i) g.

(** [s'] is [s] but for the bits of pin [g] at the samples of [l], which are
    [b]. *)
Record off_update (b : bool) (g : Z) (l : list Z) (s s' : SERVOD) : Prop := {
  off_same : s' = set_turnoff (turnoff_mask s') s;
  off_length : length (turnoff_mask s') = length (turnoff_mask s);
  off_bits i k : 0 <= i → 0 <= k → off_bit s' i k = if decide (k = g ∧ i ∈ l) then b else off_bit s i k
}.

Definition off_store (b : bool) (mask i : Z) : store := if b then SetOff i mask else ClearOff i mask.

Lemma do_off_store b g i s :
  0 <= g < 32 → 0 <= i < Z.of_nat (length (turnoff_mask s)) →
  ∃ s', do_store (off_store b (gpio_bit g) i) s = Ok s' ∧ off_update b g [i] s s'.
Proof.
  intros Hg Hi. destruct (lookup_lt_is_Some_2 (turnoff_mask s) (Z.to_nat i)) as [v Hv]; [lia|].
  assert (∀ w, (∀ k, 0 <= k → Z.testbit w k = if decide (k = g) then b else Z.testbit v k) →
    ∃ s', (l ← aset (turnoff_mask s) i w; Ok (set_turnoff l s)) = Ok s' ∧ off_update b g [i] s s') as H.
  { intros w Hw. rewrite aset_in by lia. eexists. split; [done|]. split.
    - done.
    - apply length_insert.
    - intros j k Hj Hk. unfold off_bit. cbn [turnoff_mask set_turnoff].
      destruct (decide (j = i)) as [->|Hne].
      + rewrite list_lookup_total_insert_eq by lia. rewrite Hw by done.
        rewrite (list_lookup_total_correct _ _ v) by done. repeat case_decide; naive_solver set_solver.
      + rewrite list_lookup_total_insert_ne by lia. case_decide as Hd; [set_solver|done]. }
  destruct b; cbn [off_store do_store]; rewrite (aget_in _ _ v) by (done || lia); rewrite bind_ok; apply H; intros k Hk.
  - rewrite Z.lor_spec, testbit_gpio_bit by done. repeat case_decide; repeat case_bool_decide; subst; try done.
    all: by rewrite ?orb_true_r, ?orb_false_r.
  - rewrite Z.land_spec, Z.lnot_spec, testbit_gpio_bit by done. repeat case_decide; repeat case_bool_decide; subst; try done.
    all: by rewrite ?andb_true_r, ?andb_false_r.
Qed.

Lemma do_off_stores b g l s :
  0 <= g < 32 → Forall (λ i, 0 <= i < Z.of_nat (length (turnoff_mask s))) l →
  ∃ s', forM (off_store b (gpio_bit g) <$> l) do_store s = Ok s' ∧ off_update b g l s s'.
Proof.
  intros Hg. revert s. induction l as [|i l IH]; intros s Hl.
  { exists s. split; [done|]. split; [by destruct s|done|]. intros. case_decide as Hd; [set_solver|done]. }
  apply Forall_cons in Hl as [Hi Hl]. destruct (do_off_store b g i s Hg Hi) as (s1 & E1 & [H1 H2 H3]).
  destruct (IH s1) as (s2 & E2 & [H4 H5 H6]); [by rewrite H2|].
  exists s2. cbn [fmap list_fmap forM]. rewrite E1, bind_ok. split; [done|]. split.
  - rewrite H4, H1. done.
  - by rewrite H5.
  - intros j k Hj Hk. rewrite H6, H3 by done. repeat case_decide; set_solver.
Qed.

(** ** Invariant of the masks *)

(** Servo [sv] has output pin [g], starts at sample [start] and has width
    [w]: its pin is cleared at all samples but the [w] from its start on. *)
Record servo_ok (s : SERVOD) (sv g start w : Z) : Prop := {
  sv_index : 0 <= sv < MAX_SERVOS;
  sv_gpio : servo2gpio s !! Z.to_nat sv = Some g;
  sv_pin : 0 <= g < 32;
  sv_start : servostart s !! Z.to_nat sv = Some start;
  sv_start_range : 0 <= start < num_samples s;
  sv_width : servowidth s !! Z.to_nat sv = Some w;
  sv_width_range : 0 <= w <= num_samples s;
  sv_on : ∃ v, turnon_mask s !! Z.to_nat sv = Some v ∧ (v = 0 ∨ v = gpio_bit g) ∧ (w = 0 → v = 0);
  sv_off p : 0 <= p < num_samples s → off_bit s (at_pos (num_samples s) start p) g = (w <=? p)
}.

Record masks_ok (s : SERVOD) : Prop := {
  mk_samples : 0 < num_samples s;
  mk_gpio : length (servo2gpio s) = 32%nat;
  mk_start : length (servostart s) = 32%nat;
  mk_width : length (servowidth s) = 32%nat;
  mk_on : length (turnon_mask s) = 32%nat;
  mk_off : Z.of_nat (length (turnoff_mask s)) = num_samples s;
  mk_kill : length (servo_kill_time s) = 32%nat;
  mk_idle : 0 <= idle_timeout s <= 3600000;
  mk_servo sv : 0 <= sv < MAX_SERVOS → mapped s sv → ∃ g start w, servo_ok s sv g start w;
  mk_pins sv sv' g : 0 <= sv < MAX_SERVOS → 0 <= sv' < MAX_SERVOS → g ≠ DMY →
    servo2gpio s !! Z.to_nat sv = Some g → servo2gpio s !! Z.to_nat sv' = Some g → sv = sv'
}.

Lemma int32_bind {A} z (k : Z → res A) : -2147483648 <= z <= 2147483647 → (int32 z ≫= k) = k z.
Proof. intros H. unfold int32, LONG_MAX. by rewrite (proj2 (Z.leb_le _ _)), (proj2 (Z.leb_le _ _)) by lia. Qed.

Lemma int32_fault {A} z (k : Z → res A) : 2147483647 < z → (int32 z ≫= k) = Fault Overflow.
Proof. intros H. unfold int32, LONG_MAX. by rewrite (proj2 (Z.leb_gt z _)), andb_false_r by lia. Qed.

(** A time of the clock, at least an hour before its 32 bits end, so that the
    longest idle timeout can be added. *)
Definition clock_ok (t : timeval) : Prop := 0 <= tv_sec t <= 2147480000 ∧ 0 <= tv_usec t < 1000000.

Lemma update_idle_time_ok now sv s :
  clock_ok now → 0 <= idle_timeout s <= 3600000 → 0 <= sv < Z.of_nat (length (servo_kill_time s)) →
  ∃ l, update_idle_time now sv s = Ok (set_kill l s) ∧ length l = length (servo_kill_time s) ∧
    (l = servo_kill_time s ∨ ∃ t, l = <[Z.to_nat sv := t]> (servo_kill_time s) ∧ 0 <= tv_usec t < 1000000 ∧
      tv_sec t * 1000000 + tv_usec t = tv_sec now * 1000000 + tv_usec now + idle_timeout s * 1000).
Proof.
  intros [Hs Hn] Hi Hl. unfold update_idle_time. destruct (Z.eqb_spec (idle_timeout s) 0) as [E|E].
  { exists (servo_kill_time s). split; [by destruct s|]. auto. }
  assert (0 <= idle_timeout s `quot` 1000 <= 3600 ∧ 0 <= idle_timeout s `rem` 1000 < 1000 ∧
    idle_timeout s = 1000 * (idle_timeout s `quot` 1000) + idle_timeout s `rem` 1000) as (Hq & Hr & Hqr).
  { rewrite Z.quot_div_nonneg, Z.rem_mod_nonneg by lia. dlia. }
  rewrite !int32_bind by lia. set (t0 := mkTime (tv_sec now + _) (tv_usec now + _)).
  assert (∃ t, carry_usec 2 t0 = Ok t ∧ 0 <= tv_usec t < 1000000 ∧ tv_sec t * 1000000 + tv_usec t = tv_sec t0 * 1000000 + tv_usec t0)
    as (t & -> & Hu & Ht).
  { cbn [carry_usec tv_usec tv_sec t0]. destruct (Z.ltb_spec (tv_usec now + idle_timeout s `rem` 1000 * 1000) 1000000).
    { exists t0. split; [done|]. cbn. lia. }
    rewrite !int32_bind by lia. cbn [tv_usec]. rewrite (proj2 (Z.ltb_lt _ _)) by lia. eexists. split; [done|]. cbn. lia. }
  cbn in Ht. rewrite bind_ok, aset_in by lia. eexists. split; [done|]. split; [by rewrite length_insert|].
  right. exists t. split; [done|]. lia.
Qed.

(** The samples a wider pulse gains, from its new end down, and those a
    narrower one loses, from its new end up. *)
Definition gained (N start old width : Z) : list Z := (λ j, at_pos N start (width - 1 - j)) <$> seqZ 0 (width - old).
Definition lost (N start old width : Z) : list Z := (λ j, at_pos N start (width + j)) <$> seqZ 0 (old - width).

Lemma width_stores_lists N start old width mask :
  0 <= start < N → 0 <= width <= N → 0 <= old <= N →
  width_stores N start old width mask =
    (off_store false mask <$> gained N start old width) ++ (off_store true mask <$> lost N start old width).
Proof. intros. rewrite width_stores_spec by done. unfold gained, lost. by rewrite <- !list_fmap_compose. Qed.

Lemma elem_of_gained N start old width p :
  0 <= old → width <= N → 0 <= p < N → at_pos N start p ∈ gained N start old width ↔ old <= p < width.
Proof.
  intros Ho Hw Hp. unfold gained. rewrite list_elem_of_fmap. split.
  - intros (j & E & Hj%elem_of_seqZ). apply at_pos_inj in E; lia.
  - intros H. exists (width - 1 - p). split; [f_equal; lia|]. apply elem_of_seqZ. lia.
Qed.

Lemma elem_of_lost N start old width p :
  0 <= width → old <= N → 0 <= p < N → at_pos N start p ∈ lost N start old width ↔ width <= p < old.
Proof.
  intros Ho Hw Hp. unfold lost. rewrite list_elem_of_fmap. split.
  - intros (j & E & Hj%elem_of_seqZ). apply at_pos_inj in E; lia.
  - intros H. exists (p - width). split; [f_equal; lia|]. apply elem_of_seqZ. lia.
Qed.

Lemma gained_lost_range N start old width :
  0 < N → Forall (λ i, 0 <= i < N) (gained N start old width) ∧ Forall (λ i, 0 <= i < N) (lost N start old width).
Proof. intros HN. split; apply Forall_fmap, Forall_forall; intros j _; by apply at_pos_range. Qed.

Lemma do_width_stores s sv g start old width :
  servo_ok s sv g start old → 0 < num_samples s → Z.of_nat (length (turnoff_mask s)) = num_samples s → 0 <= width <= num_samples s →
  ∃ s', forM (width_stores (num_samples s) start old width (gpio_bit g)) do_store s = Ok s' ∧
    s' = set_turnoff (turnoff_mask s') s ∧ length (turnoff_mask s') = length (turnoff_mask s) ∧
    (∀ i k, 0 <= i → 0 <= k → k ≠ g → off_bit s' i k = off_bit s i k) ∧
    ∀ p, 0 <= p < num_samples s → off_bit s' (at_pos (num_samples s) start p) g = (width <=? p).
Proof.
  intros [H1 H2 H3 H4 H5 H6 H7 H8 H9] HN Hoff Hw. rewrite width_stores_lists, forM_app by done.
  destruct (gained_lost_range (num_samples s) start old width HN) as [Hg Hl].
  destruct (do_off_stores false g (gained (num_samples s) start old width) s H3) as (s1 & E1 & [A1 A2 A3]); [by rewrite Hoff|].
  rewrite E1, bind_ok.
  destruct (do_off_stores true g (lost (num_samples s) start old width) s1 H3) as (s2 & E2 & [B1 B2 B3]); [by rewrite A2, Hoff|].
  exists s2. split; [done|]. split; [rewrite B1, A1; done|]. split; [lia|]. split.
  - intros i k Hi Hk Hne. rewrite B3, A3 by done. repeat case_decide; naive_solver.
  - intros p Hp. destruct (at_pos_range (num_samples s) start p HN). rewrite B3, A3, H9 by lia.
    pose proof (elem_of_gained (num_samples s) start old width p ltac:(lia) ltac:(lia) Hp) as Eg.
    pose proof (elem_of_lost (num_samples s) start old width p ltac:(lia) ltac:(lia) Hp) as El.
    repeat case_decide; destruct (Z.leb_spec old p), (Z.leb_spec width p); try done; intuition lia.
Qed.

Lemma mapped_gpio s sv g : servo2gpio s !! Z.to_nat sv = Some g → mapped s sv ↔ g ≠ DMY.
Proof. unfold mapped. intros ->. naive_solver. Qed.

(** [set_servo] on a well-formed daemon: the new width is in force, no other
    servo is touched and the masks stay well formed. *)
Lemma set_servo_ok now sv width s :
  masks_ok s → 0 <= sv < MAX_SERVOS → mapped s sv → 0 <= width <= num_samples s → clock_ok now →
  ∃ s', set_servo now sv width s = Ok s' ∧ masks_ok s' ∧
    servowidth s' = <[Z.to_nat sv := width]> (servowidth s) ∧
    turnon_mask s' = <[Z.to_nat sv := if width =? 0 then 0 else gpio_bit (servo2gpio s !!! Z.to_nat sv)]> (turnon_mask s) ∧
    servo2gpio s' = servo2gpio s ∧ servostart s' = servostart s ∧ num_samples s' = num_samples s ∧
    level s' = level s ∧ invert s' = invert s ∧ idle_timeout s' = idle_timeout s ∧ fsel s' = fsel s ∧
    (servo_kill_time s' = servo_kill_time s ∨ ∃ t, servo_kill_time s' = <[Z.to_nat sv := t]> (servo_kill_time s) ∧ 0 <= tv_usec t < 1000000 ∧
      tv_sec t * 1000000 + tv_usec t = tv_sec now * 1000000 + tv_usec now + idle_timeout s * 1000).
Proof.
  intros [K1 K2 K3 K4 K5 K6 K7 K8 K9 K10] Hsv Hmap Hw Hnow.
  destruct (K9 sv Hsv Hmap) as (g & start & old & Hok). pose proof Hok as [S1 S2 S3 S4 S5 S6 S7 S8 S9].
  destruct (do_width_stores s sv g start old width Hok K1 K6 Hw) as (s1 & E1 & Hs1 & Hl1 & Hother & Hown).
  unfold MAX_SERVOS in *. unfold set_servo, set_servo_stores.
  rewrite (aget_in (servo2gpio s) sv g), (aget_in (servowidth s) sv old), (aget_in (servostart s) sv start) by (done || lia).
  rewrite !bind_ok, forM_app, E1, bind_ok. cbn [forM on_store do_store].
  assert (turnon_mask s1 = turnon_mask s ∧ servowidth s1 = servowidth s ∧ servo_kill_time s1 = servo_kill_time s) as (Eon & Ewi & Eki)
    by (rewrite Hs1; done).
  rewrite Eon, aset_in, !bind_ok by lia. cbn [servowidth set_turnon]. rewrite Ewi, aset_in, bind_ok by lia.
  set (s2 := set_servowidth _ _).
  destruct (update_idle_time_ok now sv s2) as (l & -> & Hll & Hkl).
  { done. } { subst s2. rewrite Hs1. done. } { subst s2. rewrite Hs1. cbn. lia. }
  set (w_on := if width =? 0 then 0 else gpio_bit g).
  assert (s2 = set_servowidth (<[Z.to_nat sv:=width]> (servowidth s))
    (set_turnon (<[Z.to_nat sv:=w_on]> (turnon_mask s)) (set_turnoff (turnoff_mask s1) s))) as Es2 by (subst s2; by rewrite Hs1).
  rewrite Es2 in Hll, Hkl |- *. clear Es2 s2. cbn in Hll.
  rewrite (list_lookup_total_correct _ _ g) by done. fold w_on.
  eexists. split; [done|]. split; [|repeat (split; [done|]); exact Hkl]. split; cbn; rewrite ?length_insert; try done; try lia.
  intros sv' Hsv' Hm. destruct (K9 sv' Hsv' Hm) as (g' & start' & old' & [R1 R2 R3 R4 R5 R6 R7 R8 R9]).
  destruct (decide (sv' = sv)) as [->|Hne].
  - assert (g' = g) as -> by congruence. assert (start' = start) as -> by congruence.
    exists g, start, width. split; cbn; try done.
    + apply list_lookup_insert_eq. lia.
    + exists w_on. split; [apply list_lookup_insert_eq; lia|]. subst w_on.
      destruct (Z.eqb_spec width 0); [by auto|]. split; [by auto|done].
  - assert (g' ≠ g) as Hg.
    { intros ->. apply Hne. symmetry. eapply (K10 sv sv'); try done. by apply (mapped_gpio s sv). }
    exists g', start', old'. split; cbn; try done.
    + rewrite list_lookup_insert_ne by lia. done.
    + rewrite list_lookup_insert_ne by lia. done.
    + intros p Hp. destruct (at_pos_range (num_samples s) start' p ltac:(lia)). rewrite <- R9 by done. unfold off_bit.
      cbn. apply Hother; lia.
Qed.

(** ** The daemon and the controller together *)

(** A pin is active when its output has the level of a pulse. *)
Definition active (g : Z) (s : SERVOD) : bool := xorb (invert s) (Z.testbit (level s) g).

(** The controller is at a sample with operations left to do; what an
    observer of one pin has seen: the samples since the present pulse began,
    and the lengths of the pulses that have ended. *)
Record dma := mkDma { sample : Z; rest : list op; len : option Z; pulses : list Z }.

Definition watch (o : op) (r : list op) (before after : bool) (d : dma) : dma :=
  match o with
  | Delay => mkDma (sample d) r (Z.succ <$> len d) (pulses d)
  | _ =>
      match before, after with
      | true, false => mkDma (sample d) r None (pulses d ++ option_list (len d))
      | false, true => mkDma (sample d) r (Some 0) (pulses d)
      | _, _ => mkDma (sample d) r (len d) (pulses d)
      end
  end.

(** One step: the daemon does the next of its stores, or the controller does
    an operation, or goes on to the next sample. *)
Inductive sys_step (g : Z) : list store * SERVOD * dma → list store * SERVOD * dma → Prop :=
  | CpuStore w ws s s' d : do_store w s = Ok s' → sys_step g (w :: ws, s, d) (ws, s', d)
  | DmaOp ws s s' d o r :
      rest d = o :: r → exec_op o s = Ok s' → sys_step g (ws, s, d) (ws, s', watch o r (active g s) (active g s') d)
  | DmaNext ws s d :
      rest d = [] →
      let i := (sample d + 1) `mod` num_samples s in
      sys_step g (ws, s, d) (ws, s, mkDma i (sample_ops s i) (len d) (pulses d)).

(** A schedule, executed: [true] is a step of the daemon, [false] one of the
    controller. *)
Definition sys_next (g : Z) (cpu : bool) (x : list store * SERVOD * dma) : option (list store * SERVOD * dma) :=
  let '(ws, s, d) := x in
  if cpu then
    match ws with
    | [] => None
    | w :: ws => match do_store w s with Ok s' => Some (ws, s', d) | Fault _ => None end
    end
  else
    match rest d with
    | [] => let i := (sample d + 1) `mod` num_samples s in Some (ws, s, mkDma i (sample_ops s i) (len d) (pulses d))
    | o :: r =>
        match exec_op o s with
        | Ok s' => Some (ws, s', watch o r (active g s) (active g s') d)
        | Fault _ => None
        end
    end.

Fixpoint sys_run (g : Z) (l : list bool) (x : list store * SERVOD * dma) : option (list store * SERVOD * dma) :=
  match l with
  | [] => Some x
  | b :: l => y ← sys_next g b x; sys_run g l y
  end.

Lemma sys_run_steps g l x y : sys_run g l x = Some y → rtc (sys_step g) x y.
Proof.
  revert x. induction l as [|b l IH]; intros x E; cbn [sys_run] in E; [injection E as ->; constructor|].
  destruct (sys_next g b x) as [z|] eqn:Ez; [|done]. eapply rtc_l; [|by apply IH].
  destruct x as [[ws s] d]. cbn [sys_next] in Ez. destruct b.
  - destruct ws as [|w ws]; [done|]. destruct (do_store w s) as [s'|] eqn:Es; [|done]. injection Ez as <-. by constructor.
  - destruct (rest d) as [|o r] eqn:Er; [injection Ez as <-; by constructor|].
    destruct (exec_op o s) as [s'|] eqn:Es; [|done]. injection Ez as <-. by econstructor.
Qed.

Lemma exec_off s i g :
  0 <= g → 0 <= i < Z.of_nat (length (turnoff_mask s)) →
  ∃ v, exec_op (Off i) s = Ok (set_level v s) ∧ active g (set_level v s) = active g s && negb (off_bit s i g).
Proof.
  intros Hg Hi. destruct (lookup_lt_is_Some_2 (turnoff_mask s) (Z.to_nat i)) as [w Hw]; [lia|].
  cbn [exec_op]. rewrite (aget_in _ _ w) by (done || lia). rewrite bind_ok. eexists. split; [done|].
  unfold active, off_bit, outputs. cbn [invert level set_level]. rewrite (list_lookup_total_correct _ _ w) by done.
  destruct (invert s); rewrite ?Z.lor_spec, ?Z.land_spec, ?Z.lnot_spec by done;
    by destruct (Z.testbit (level s) g), (Z.testbit w g).
Qed.

Lemma exec_on s sv v g :
  0 <= g → 0 <= sv → turnon_mask s !! Z.to_nat sv = Some v →
  ∃ l, exec_op (On sv) s = Ok (set_level l s) ∧ active g (set_level l s) = active g s || Z.testbit v g.
Proof.
  intros Hg Hsv Hv. cbn [exec_op]. pose proof (lookup_lt_Some _ _ _ Hv). rewrite (aget_in _ _ v) by (done || lia). rewrite bind_ok.
  eexists. split; [done|]. unfold active, outputs. cbn [invert level set_level].
  destruct (invert s); cbn [negb]; rewrite ?Z.lor_spec, ?Z.land_spec, ?Z.lnot_spec by done;
    by destruct (Z.testbit (level s) g), (Z.testbit v g).
Qed.

Inductive stage : Type := Fresh | Mid | Done.

Definition at_stage (s : SERVOD) (d : dma) (t : stage) : Prop :=
  match t with
  | Fresh => rest d = sample_ops s (sample d)
  | Mid => ∃ l1 l2, l1 ++ l2 = starting s (sample d) ∧ rest d = (On <$> l2) ++ [Delay]
  | Done => rest d = []
  end.

(** The length [n] of a running pulse fits the position [p] of the controller
    after the start of the servo, if pulses end at [hi] at the latest. *)
Definition pulse_fits (N hi p : Z) (t : stage) (n : Z) : Prop :=
  match t with
  | Fresh => n `mod` N = p ∧ 1 <= n ∧ (hi < N → n <= hi)
  | Mid => n `mod` N = p ∧ 0 <= n ∧ (hi < N → n < hi)
  | Done => n `mod` N = (p + 1) `mod` N ∧ 1 <= n ∧ (hi < N → n <= hi)
  end.

Definition running (len : option Z) : bool := match len with Some _ => true | None => false end.

(** The controller is in step with the pulses of a servo that end at [hi] at
    the latest. *)
Record in_step (s : SERVOD) (g start hi : Z) (d : dma) (t : stage) : Prop := {
  st_sample : 0 <= sample d < num_samples s;
  st_stage : at_stage s d t;
  st_active : active g s = running (len d);
  st_len n : len d = Some n → pulse_fits (num_samples s) hi ((sample d - start) `mod` num_samples s) t n
}.

(** The pin of servo [sv] is cleared from position [lo] on at the earliest
    and at [hi], no other servo sets it, and the servo itself only when it has
    a width. *)
Record window (s : SERVOD) (sv g start lo hi : Z) : Prop := {
  wd_pin : 0 <= g < 32;
  wd_samples : 0 < num_samples s;
  wd_off : Z.of_nat (length (turnoff_mask s)) = num_samples s;
  wd_on : length (turnon_mask s) = 32%nat;
  wd_start : servostart s !! Z.to_nat sv = Some start;
  wd_range : 0 <= start < num_samples s;
  wd_lo p : 0 <= p < num_samples s → off_bit s (at_pos (num_samples s) start p) g = true → lo <= p;
  wd_hi : 0 <= hi < num_samples s → off_bit s (at_pos (num_samples s) start hi) g = true;
  wd_full : num_samples s <= hi → num_samples s <= lo;
  wd_pos : 0 <= hi;
  wd_sets sv' : 0 <= sv' < MAX_SERVOS → mapped s sv' → Z.testbit (turnon_mask s !!! Z.to_nat sv') g = true → sv' = sv ∧ 0 < hi
}.

Lemma position s sv g start lo hi i :
  window s sv g start lo hi → 0 <= i < num_samples s →
  0 <= (i - start) `mod` num_samples s < num_samples s ∧ i = at_pos (num_samples s) start ((i - start) `mod` num_samples s).
Proof.
  intros [] Hi. split; [apply Z.mod_pos_bound; lia|]. unfold at_pos. rewrite Zplus_mod_idemp_r.
  replace (start + (i - start)) with i by lia. by rewrite Z.mod_small.
Qed.

(** A step of the controller keeps it in step; a pulse that ends has a length
    within the window. *)
Definition op_ok (s : SERVOD) (g start lo hi : Z) (d : dma) (o : op) (r : list op) : Prop :=
  ∃ v t', exec_op o s = Ok (set_level v s) ∧
    let d' := watch o r (active g s) (active g (set_level v s)) d in
    in_step (set_level v s) g start hi d' t' ∧
    (pulses d' = pulses d ∨ ∃ n, pulses d' = pulses d ++ [n] ∧ 1 <= n ∧ lo <= n <= hi).

Lemma dma_off_ok s sv g start lo hi d :
  window s sv g start lo hi → in_step s g start hi d Fresh →
  op_ok s g start lo hi d (Off (sample d)) ((On <$> starting s (sample d)) ++ [Delay]).
Proof.
  intros Hw [Hs Ht Ha Hl]. pose proof (position _ _ _ _ _ _ _ Hw Hs) as [Hp Ei]. destruct Hw as [W1 W2 W3 W4 W5 W6 W7 W8 W9 W10 W11].
  destruct (exec_off s (sample d) g) as (v & E & Hv); [lia|lia|]. exists v, Mid. split; [done|]. cbn zeta. rewrite Hv.
  assert (∀ d', rest d' = (On <$> starting s (sample d)) ++ [Delay] → sample d' = sample d → at_stage (set_level v s) d' Mid) as Hmid.
  { intros d' Hr Hd. exists [], (starting s (sample d)). rewrite Hd. done. }
  rewrite Ha in *. destruct (len d) as [n|] eqn:En; cbn [running andb watch].
  2: { split; [|by left]. split; [done|by apply Hmid|by rewrite Hv; cbn; rewrite En|by cbn; rewrite En]. }
  destruct (Hl n eq_refl) as (L1 & L2 & L3). destruct (off_bit s (sample d) g) eqn:Eb; rewrite Ei in Eb; cbn [negb].
  - pose proof (W7 _ Hp Eb) as Hlo.
    assert (hi < num_samples s) as Hh by (destruct (Z.lt_ge_cases hi (num_samples s)) as [?|H]; [done|]; specialize (W9 H); lia).
    specialize (L3 Hh). rewrite Z.mod_small in L1 by lia.
    split; [|right; exists n; cbn; rewrite En; split; [done|lia]]. split; [done|by apply Hmid|by rewrite Hv|done].
  - split; [|by left]. split; [done|by apply Hmid|by rewrite Hv; cbn; rewrite En|]. cbn. rewrite En. intros n' [= <-].
    split; [done|]. split; [lia|]. intros Hh. specialize (L3 Hh). destruct (decide (n = hi)) as [->|?]; [|lia].
    rewrite Z.mod_small in L1 by lia. rewrite <- L1, W8 in Eb by lia. done.
Qed.

Lemma dma_on_ok s sv g start lo hi d l1 sv' l2 :
  window s sv g start lo hi → in_step s g start hi d Mid → l1 ++ sv' :: l2 = starting s (sample d) →
  op_ok s g start lo hi d (On sv') ((On <$> l2) ++ [Delay]).
Proof.
  intros Hw [Hs Ht Ha Hl] Hst. pose proof (position _ _ _ _ _ _ _ Hw Hs) as [Hp Ei]. destruct Hw as [W1 W2 W3 W4 W5 W6 W7 W8 W9 W10 W11].
  assert (sv' ∈ starting s (sample d)) as Hin by (rewrite <- Hst; set_solver).
  unfold starting in Hin. apply list_elem_of_filter in Hin as [[Hm Hs'] Hr%elem_of_seqZ].
  destruct (lookup_lt_is_Some_2 (turnon_mask s) (Z.to_nat sv')) as [v Hv]; [unfold MAX_SERVOS in *; lia|].
  specialize (W11 sv' ltac:(lia) Hm). rewrite (list_lookup_total_correct _ _ v) in W11 by done.
  destruct (exec_on s sv' v g) as (x & E & Hx); [lia|lia|done|]. exists x, Mid. split; [done|]. cbn zeta. rewrite Hx.
  assert (∀ d', rest d' = (On <$> l2) ++ [Delay] → sample d' = sample d → at_stage (set_level x s) d' Mid) as Hmid.
  { intros d' Hr' Hd. exists (l1 ++ [sv']), l2. rewrite Hd, <- app_assoc. done. }
  rewrite Ha in *. destruct (len d) as [n|] eqn:En; cbn [running orb watch].
  { split; [|by left]. split; [done|by apply Hmid|by rewrite Hx; cbn; rewrite En|]. cbn. rewrite En. exact Hl. }
  destruct (Z.testbit v g) eqn:Eb; (split; [|by left]).
  - destruct (W11 eq_refl) as [-> Hhi]. assert (sample d = start) as Est by congruence.
    split; [done|by apply Hmid|by rewrite Hx|]. cbn. intros n [= <-]. rewrite Est, Z.sub_diag, Z.mod_0_l by lia. split; [done|]. lia.
  - split; [done|by apply Hmid|by rewrite Hx; cbn; rewrite En|by cbn; rewrite En].
Qed.

Lemma dma_delay_ok s g start lo hi d :
  0 < num_samples s → in_step s g start hi d Mid → op_ok s g start lo hi d Delay [].
Proof.
  intros HN [Hs Ht Ha Hl]. exists (level s), Done. cbn [exec_op watch]. split; [by destruct s|]. cbn zeta. split; [|by left].
  split; [done|done|change (active g s = running (Z.succ <$> len d)); rewrite Ha; by destruct (len d)|]. cbn. intros n Hn. destruct (len d) as [m|]; [|done].
  cbn in Hn. injection Hn as <-. destruct (Hl m eq_refl) as (L1 & L2 & L3). cbn in *.
  split; [|split; [lia|intros Hh; specialize (L3 Hh); lia]]. by rewrite <- L1, Zplus_mod_idemp_l.
Qed.

Lemma dma_next_ok s g start hi d :
  0 < num_samples s → in_step s g start hi d Done →
  let i := (sample d + 1) `mod` num_samples s in
  in_step s g start hi (mkDma i (sample_ops s i) (len d) (pulses d)) Fresh.
Proof.
  intros HN [Hs Ht Ha Hl]. cbn zeta. split; cbn; [by apply Z.mod_pos_bound|done|done|].
  intros n Hn. destruct (Hl n Hn) as (L1 & L2 & L3). split; [|done]. rewrite L1, Zminus_mod_idemp_l, Zplus_mod_idemp_l. f_equal. lia.
Qed.

Lemma dma_op_ok s sv g start lo hi d t o r :
  window s sv g start lo hi → in_step s g start hi d t → rest d = o :: r → op_ok s g start lo hi d o r.
Proof.
  intros Hw Hi Hr. pose proof (st_stage _ _ _ _ _ _ Hi) as Ht. destruct t; cbn [at_stage] in Ht.
  - rewrite Hr in Ht. injection Ht as -> ->. by eapply dma_off_ok.
  - destruct Ht as (l1 & l2 & Hst & E). rewrite Hr in E. destruct l2 as [|sv' l2]; cbn [fmap list_fmap app] in E; injection E as -> ->.
    + eapply dma_delay_ok; [apply Hw|done].
    + by eapply dma_on_ok.
  - by rewrite Hr in Ht.
Qed.

(** *** Interleavings *)

(** What the stores leave alone. *)
Definition same_frame (s s' : SERVOD) : Prop :=
  servo2gpio s' = servo2gpio s ∧ servostart s' = servostart s ∧ num_samples s' = num_samples s ∧
  invert s' = invert s ∧ level s' = level s.

Lemma in_step_frame s s' g start hi hi' d t :
  same_frame s s' → hi <= hi' → in_step s g start hi d t → in_step s' g start hi' d t.
Proof.
  intros (F1 & F2 & F3 & F4 & F5) Hh [H1 H2 H3 H4].
  assert (∀ i, starting s' i = starting s i) as Est.
  { intros i. unfold starting. apply list_filter_iff. intros x. unfold mapped. by rewrite F1, F2. }
  split; rewrite ?F3; [done| |unfold active; rewrite F4, F5; done|].
  - destruct t; cbn in *; [by unfold sample_ops in *; rewrite Est|by rewrite Est|done].
  - intros n Hn. specialize (H4 n Hn). destruct t; cbn in *; destruct H4 as (L1 & L2 & L3); (split; [done|]); (split; [done|]); intros;
      specialize (L3 ltac:(lia)); lia.
Qed.

Lemma window_level s v sv g start lo hi : window s sv g start lo hi → window (set_level v s) sv g start lo hi.
Proof. intros []. by split. Qed.

Section interleaving.
Context (sv g start : Z) (J : list store → SERVOD → Z → Z → Prop) (Q : Z → Prop).
Hypothesis J_window : ∀ ws s lo hi, J ws s lo hi → window s sv g start lo hi.
Hypothesis J_level : ∀ ws s lo hi v, J ws s lo hi → J ws (set_level v s) lo hi.
Hypothesis J_store : ∀ w ws s s' lo hi, J (w :: ws) s lo hi → do_store w s = Ok s' →
  ∃ lo' hi', J ws s' lo' hi' ∧ hi <= hi' ∧ same_frame s s'.
Hypothesis J_pulse : ∀ ws s lo hi n, J ws s lo hi → 1 <= n → lo <= n <= hi → Q n.

Lemma interleaved_step x y :
  sys_step g x y →
  (∃ lo hi t, J x.1.1 x.1.2 lo hi ∧ in_step x.1.2 g start hi x.2 t ∧ Forall Q (pulses x.2)) →
  ∃ lo hi t, J y.1.1 y.1.2 lo hi ∧ in_step y.1.2 g start hi y.2 t ∧ Forall Q (pulses y.2).
Proof.
  intros Hstep (lo & hi & t & HJ & Hin & HQ). destruct Hstep as [w ws s s' d Hw|ws s s' d o r Hr Ho|ws s d Hr]; cbn [fst snd] in *.
  - destruct (J_store _ _ _ _ _ _ HJ Hw) as (lo' & hi' & HJ' & Hh & Hf). exists lo', hi', t.
    split; [done|]. split; [by eapply in_step_frame|done].
  - destruct (dma_op_ok _ _ _ _ _ _ _ _ _ _ (J_window _ _ _ _ HJ) Hin Hr) as (v & t' & E & Hin' & Hp).
    rewrite Ho in E. injection E as ->. exists lo, hi, t'. split; [by apply J_level|]. split; [done|].
    destruct Hp as [->|(n & -> & Hn1 & Hn2)]; [done|]. apply Forall_app. split; [done|]. apply Forall_singleton. eauto.
  - exists lo, hi, Fresh. split; [done|]. split; [|done]. apply dma_next_ok; [by eapply wd_samples, J_window|].
    pose proof (st_stage _ _ _ _ _ _ Hin) as Ht. destruct t; [| |done]; exfalso; cbn in Ht.
    + by rewrite Hr in Ht.
    + destruct Ht as (l1 & l2 & _ & E). rewrite Hr in E. by destruct l2.
Qed.

Lemma interleaved_run x y :
  rtc (sys_step g) x y →
  (∃ lo hi t, J x.1.1 x.1.2 lo hi ∧ in_step x.1.2 g start hi x.2 t ∧ Forall Q (pulses x.2)) →
  Forall Q (pulses y.2).
Proof.
  induction 1 as [x|x y z Hxy _ IH]; intros H; [by destruct H as (? & ? & ? & _ & _ & ?)|].
  by eapply IH, interleaved_step.
Qed.
End interleaving.

(** A servo of a well-formed daemon during a change of its width: the bits of
    its pin are given by [off]. *)
Record changing (s0 s : SERVOD) (sv g start : Z) (off : Z → bool) : Prop := {
  ch_frame : servo2gpio s = servo2gpio s0 ∧ servostart s = servostart s0 ∧ num_samples s = num_samples s0;
  ch_length : length (turnoff_mask s) = length (turnoff_mask s0);
  ch_bits p : 0 <= p < num_samples s0 → off_bit s (at_pos (num_samples s0) start p) g = off p;
  ch_on : ∃ v, turnon_mask s = <[Z.to_nat sv := v]> (turnon_mask s0)
}.

Lemma changing_window s0 s sv g start old off lo hi :
  masks_ok s0 → servo_ok s0 sv g start old → g ≠ DMY → changing s0 s sv g start off →
  (∀ p, 0 <= p < num_samples s0 → off p = true → lo <= p) → (0 <= hi < num_samples s0 → off hi = true) →
  (num_samples s0 <= hi → num_samples s0 <= lo) → 0 <= hi →
  (Z.testbit (turnon_mask s !!! Z.to_nat sv) g = true → 0 < hi) →
  window s sv g start lo hi.
Proof.
  intros [K1 K2 K3 K4 K5 K6 K7 K8 K9 K10] [S1 S2 S3 S4 S5 S6 S7 S8 S9] Hd [(C1 & C2 & C3) C4 C5 (v & C6)] Hlo Hhi Hfull Hpos Hon.
  split; rewrite ?C2, ?C3, ?C4, ?C6, ?length_insert; try done.
  - intros p Hp. rewrite C5 by done. by apply Hlo.
  - intros Hh. rewrite C5 by done. by apply Hhi.
  - intros sv' Hsv' Hm Hb. destruct (decide (sv' = sv)) as [->|Hne]; [rewrite <- C6 in Hb; by auto|exfalso].
    rewrite list_lookup_total_insert_ne in Hb by lia.
    assert (mapped s0 sv') as Hm0 by (unfold mapped in *; by rewrite <- C1).
    destruct (K9 sv' Hsv' Hm0) as (g' & start' & w' & [R1 R2 R3 R4 R5 R6 R7 (x & R8 & Hx & _) R9]).
    rewrite (list_lookup_total_correct _ _ _ R8) in Hb. destruct Hx as [->| ->]; [by rewrite Z.bits_0 in Hb|].
    rewrite testbit_gpio_bit in Hb by lia. apply bool_decide_eq_true in Hb as ->. apply Hne. by eapply (K10 sv' sv g).
Qed.

Lemma changing_ext s0 s sv g start off off' :
  changing s0 s sv g start off → (∀ p, 0 <= p < num_samples s0 → off p = off' p) → changing s0 s sv g start off'.
Proof. intros [C1 C2 C3 C4] H. split; try done. intros p Hp. rewrite <- H by done. by apply C3. Qed.

Lemma changing_level s0 s sv g start off v : changing s0 s sv g start off → changing s0 (set_level v s) sv g start off.
Proof. intros []. by split. Qed.

Lemma changing_store b s0 s s' sv g start old off p :
  masks_ok s0 → servo_ok s0 sv g start old → changing s0 s sv g start off → 0 <= p < num_samples s0 →
  do_store (off_store b (gpio_bit g) (at_pos (num_samples s0) start p)) s = Ok s' →
  changing s0 s' sv g start (λ q, if q =? p then b else off q) ∧ same_frame s s' ∧ turnon_mask s' = turnon_mask s.
Proof.
  intros [K1 K2 K3 K4 K5 K6 K7 K8 K9 K10] [S1 S2 S3 S4 S5 S6 S7 S8 S9] [C1 C2 C3 C4] Hp E.
  pose proof (at_pos_range (num_samples s0) start p K1) as Hr.
  destruct (do_off_store b g (at_pos (num_samples s0) start p) s S3) as (s1 & E1 & [A1 A2 A3]); [rewrite C2; lia|].
  rewrite E in E1. injection E1 as <-. split; [|by rewrite A1]. split.
  - by rewrite A1.
  - by rewrite A2.
  - intros q Hq. destruct (at_pos_range (num_samples s0) start q K1). rewrite A3 by lia.
    destruct (Z.eqb_spec q p) as [->|Hne]; [by rewrite decide_True by set_solver|].
    rewrite decide_False; [by apply C3|]. intros [_ Hin%list_elem_of_singleton]. by apply at_pos_inj in Hin.
  - by rewrite A1.
Qed.

Lemma changing_on s0 s s' sv g start old off v :
  masks_ok s0 → servo_ok s0 sv g start old → changing s0 s sv g start off → do_store (StoreOn sv v) s = Ok s' →
  changing s0 s' sv g start off ∧ same_frame s s' ∧ turnon_mask s' !!! Z.to_nat sv = v.
Proof.
  intros [K1 K2 K3 K4 K5 K6 K7 K8 K9 K10] [S1 S2 S3 S4 S5 S6 S7 S8 S9] [C1 C2 C3 (v0 & C4)] E. unfold MAX_SERVOS in *.
  cbn [do_store] in E. rewrite aset_in, bind_ok in E by (rewrite C4, length_insert; lia). injection E as <-.
  split; [|split; [done|]].
  - split; try done. cbn. rewrite C4, list_insert_insert_eq. eauto.
  - cbn. apply list_lookup_total_insert_eq. rewrite C4, length_insert. lia.
Qed.

Lemma changing_refl s sv g start old : masks_ok s → servo_ok s sv g start old → changing s s sv g start (λ p, old <=? p).
Proof.
  intros HK [S1 S2 S3 S4 S5 S6 S7 (v & S8 & _) S9]. split; try done. exists v. symmetry. by apply list_insert_id.
Qed.

Lemma gained_cons N start old m : old < m → gained N start old m = at_pos N start (m - 1) :: gained N start old (m - 1).
Proof.
  intros H. unfold gained. rewrite seqZ_cons by lia. cbn [fmap list_fmap]. rewrite Z.sub_0_r. f_equal.
  rewrite fmap_seqZ_shift. replace (Z.pred (m - old)) with (m - 1 - old) by lia. apply list_fmap_ext. intros _ j _. f_equal. lia.
Qed.

Lemma lost_cons N start old m : m < old → lost N start old m = at_pos N start m :: lost N start old (m + 1).
Proof.
  intros H. unfold lost. rewrite seqZ_cons by lia. cbn [fmap list_fmap]. rewrite Z.add_0_r. f_equal.
  rewrite fmap_seqZ_shift. replace (Z.pred (old - m)) with (old - (m + 1)) by lia. apply list_fmap_ext. intros _ j _. f_equal. lia.
Qed.

Lemma set_servo_stores_spec s sv g start old width :
  masks_ok s → servo_ok s sv g start old → 0 <= width <= num_samples s →
  set_servo_stores sv width s = Ok ((off_store false (gpio_bit g) <$> gained (num_samples s) start old width) ++
    (off_store true (gpio_bit g) <$> lost (num_samples s) start old width) ++ [on_store sv width (gpio_bit g)]).
Proof.
  intros [K1 K2 K3 K4 K5 K6 K7 K8 K9 K10] [S1 S2 S3 S4 S5 S6 S7 S8 S9] Hw. unfold MAX_SERVOS in *. unfold set_servo_stores.
  rewrite (aget_in (servo2gpio s) sv g), (aget_in (servowidth s) sv old), (aget_in (servostart s) sv start) by (done || lia).
  rewrite !bind_ok, width_stores_lists, app_assoc by done. done.
Qed.

(** The states of a widening: the samples from [m] up to the new end are
    cleared already. *)
Inductive widening (s0 : SERVOD) (sv g start old width : Z) : list store → SERVOD → Z → Z → Prop :=
  | wide_more m s :
      old < m <= width → changing s0 s sv g start (λ p, (old <=? p) && negb ((m <=? p) && (p <? width))) →
      turnon_mask s = turnon_mask s0 →
      widening s0 sv g start old width
        ((off_store false (gpio_bit g) <$> gained (num_samples s0) start old m) ++ [on_store sv width (gpio_bit g)]) s old old
  | wide_end ws s :
      ws = [on_store sv width (gpio_bit g)] ∨ ws = [] → changing s0 s sv g start (λ p, width <=? p) →
      widening s0 sv g start old width ws s width width.

Lemma widening_window s0 sv g start old width ws s lo hi :
  masks_ok s0 → servo_ok s0 sv g start old → 0 <= old < width ∧ width <= num_samples s0 →
  widening s0 sv g start old width ws s lo hi → window s sv g start lo hi.
Proof.
  intros HK HS Hw H. assert (g ≠ DMY) as Hg by (pose proof (sv_pin _ _ _ _ _ HS); unfold DMY; lia).
  destruct H as [m s1 Hm Hc Hon|ws1 s1 Hws Hc]; (eapply changing_window; [exact HK|exact HS|exact Hg|exact Hc|..]); cbn; try lia.
  rewrite Hon. destruct HS as [S1 S2 S3 S4 S5 S6 S7 (v & S8 & Hv & Hz) S9]. rewrite (list_lookup_total_correct _ _ _ S8).
  intros Hb. destruct (decide (old = 0)) as [E|?]; [|lia]. rewrite (Hz E), Z.bits_0 in Hb. done.
Qed.

Lemma widening_store s0 sv g start old width w ws s s' lo hi :
  masks_ok s0 → servo_ok s0 sv g start old → 0 <= old < width ∧ width <= num_samples s0 →
  widening s0 sv g start old width (w :: ws) s lo hi → do_store w s = Ok s' →
  ∃ lo' hi', widening s0 sv g start old width ws s' lo' hi' ∧ hi <= hi' ∧ same_frame s s'.
Proof.
  intros HK HS Hw H E. remember (w :: ws) as l eqn:El. destruct H as [m s Hm Hc Hon|l s Hl Hc].
  - rewrite gained_cons in El by lia. cbn [fmap list_fmap app] in El. injection El as <- <-.
    eapply (changing_store false s0 s s' sv g start old _ (m - 1)) in E as (Hc' & Hf & Hon'); [|done|done|exact Hc|lia].
    destruct (decide (m - 1 = old)) as [Em|Em].
    + exists width, width. split; [|split; [lia|done]]. rewrite Em.
      assert (gained (num_samples s0) start old old = []) as -> by (unfold gained; by rewrite seqZ_nil by lia).
      apply wide_end; [by left|]. eapply changing_ext; [exact Hc'|]. intros p Hp. cbn.
      destruct (Z.eqb_spec p (m - 1)), (Z.leb_spec old p), (Z.leb_spec m p), (Z.ltb_spec p width), (Z.leb_spec width p); cbn; try done; lia.
    + exists old, old. split; [|split; [lia|done]]. apply wide_more; [lia| |by rewrite Hon'].
      eapply changing_ext; [exact Hc'|]. intros p Hp. cbn.
      destruct (Z.eqb_spec p (m - 1)), (Z.leb_spec old p), (Z.leb_spec m p), (Z.ltb_spec p width), (Z.leb_spec (m - 1) p); cbn; try done; lia.
  - destruct Hl as [->| ->]; [|done]. injection El as <- <-. unfold on_store in E.
    apply (changing_on s0 s s' sv g start old) with (off := λ p, width <=? p) in E as (Hc' & Hf & _); [|done..].
    exists width, width. split; [|split; [lia|done]]. apply wide_end; [by right|done].
Qed.

(** The states of a narrowing: the samples from the new end up to [m] are set
    already. *)
Inductive narrowing (s0 : SERVOD) (sv g start old width : Z) : list store → SERVOD → Z → Z → Prop :=
  | narrow_more m s :
      width <= m <= old → changing s0 s sv g start (λ p, (width <=? p) && (p <? m) || (old <=? p)) →
      narrowing s0 sv g start old width
        ((off_store true (gpio_bit g) <$> lost (num_samples s0) start old m) ++ [on_store sv width (gpio_bit g)]) s width old
  | narrow_end s :
      changing s0 s sv g start (λ p, width <=? p) → narrowing s0 sv g start old width [] s width old.

Lemma narrowing_window s0 sv g start old width ws s lo hi :
  masks_ok s0 → servo_ok s0 sv g start old → 0 <= width < old ∧ old < num_samples s0 →
  narrowing s0 sv g start old width ws s lo hi → window s sv g start lo hi.
Proof.
  intros HK HS Hw H. assert (g ≠ DMY) as Hg by (pose proof (sv_pin _ _ _ _ _ HS); unfold DMY; lia).
  destruct H as [m s1 Hm Hc|s1 Hc]; (eapply changing_window; [exact HK|exact HS|exact Hg|exact Hc|..]); cbn; lia.
Qed.

Lemma narrowing_store s0 sv g start old width w ws s s' lo hi :
  masks_ok s0 → servo_ok s0 sv g start old → 0 <= width < old ∧ old < num_samples s0 →
  narrowing s0 sv g start old width (w :: ws) s lo hi → do_store w s = Ok s' →
  ∃ lo' hi', narrowing s0 sv g start old width ws s' lo' hi' ∧ hi <= hi' ∧ same_frame s s'.
Proof.
  intros HK HS Hw H E. remember (w :: ws) as l eqn:El. destruct H as [m s Hm Hc|s Hc]; [|done].
  exists width, old. destruct (decide (m = old)) as [->|Hne].
  - assert (lost (num_samples s0) start old old = []) as El0 by (unfold lost; by rewrite seqZ_nil by lia).
    rewrite El0 in El. cbn in El. injection El as <- <-. unfold on_store in E.
    eapply changing_on in E as (Hc' & Hf & _); [|done|done|exact Hc].
    split; [|split; [lia|done]]. apply narrow_end. eapply changing_ext; [exact Hc'|]. intros p Hp. cbn. lia.
  - rewrite lost_cons in El by lia. cbn [fmap list_fmap app] in El. injection El as <- <-.
    eapply (changing_store true s0 s s' sv g start old _ m) in E as (Hc' & Hf & _); [|done|done|exact Hc|lia].
    split; [|split; [lia|done]]. apply narrow_more; [lia|]. eapply changing_ext; [exact Hc'|]. intros p Hp. cbn.
    destruct (Z.eqb_spec p m); lia.
Qed.

(** While [set_servo] narrows a pulse, every pulse that ends has a width
    between the new and the old one. *)
Theorem set_servo_narrowing s sv g start old width l d t ws' s' d' :
  masks_ok s → servo_ok s sv g start old → 0 <= width < old → old < num_samples s → set_servo_stores sv width s = Ok l →
  in_step s g start old d t → pulses d = [] → rtc (sys_step g) (l, s, d) (ws', s', d') →
  Forall (λ n, 1 <= n ∧ width <= n <= old) (pulses d').
Proof.
  intros HK HS Hw Ho Hl Hin Hp Hr.
  rewrite (set_servo_stores_spec s sv g start old width) in Hl by (done || lia). injection Hl as <-.
  eapply (interleaved_run sv g start (narrowing s sv g start old width)) in Hr; [exact Hr|..].
  - intros. by eapply narrowing_window.
  - intros ws x lo hi v []; [apply narrow_more|apply narrow_end]; try done; by apply changing_level.
  - intros w ws x x' lo hi HJ. by eapply narrowing_store.
  - intros ws x lo hi n [] ??; lia.
  - exists width, old, t. cbn [fst snd]. rewrite Hp. split; [|by split].
    assert (gained (num_samples s) start old width = []) as -> by (unfold gained; by rewrite seqZ_nil by lia).
    apply narrow_more; [lia|]. eapply changing_ext; [by apply (changing_refl s sv g start old)|]. intros p Hpr. cbn. lia.
Qed.

Lemma stores_run g l l' s s' d : forM l do_store s = Ok s' → rtc (sys_step g) (l ++ l', s, d) (l', s', d).
Proof.
  revert s. induction l as [|w l IH]; intros s E; cbn [forM app] in *; [injection E as ->; constructor|].
  apply bind_ok_iff in E as (s1 & E1 & E). eapply rtc_l; [by apply CpuStore|]. by apply IH.
Qed.

(** But it can have every width in between: when the stores of a narrowing
    come while the pulse is longer than the new width already, it is cut off
    at once. *)
Theorem set_servo_narrowing_cuts s sv g start old width l m :
  masks_ok s → servo_ok s sv g start old → 0 <= width < m → m < old → set_servo_stores sv width s = Ok l →
  ∃ v d s' d', in_step (set_level v s) g start old d Fresh ∧ pulses d = [] ∧
    rtc (sys_step g) (l, set_level v s, d) ([], s', d') ∧ pulses d' = [m].
Proof.
  intros HK HS Hw Hm Hl. pose proof HS as [S1 S2 S3 S4 S5 S6 S7 (vo & S8 & _) S9]. pose proof HK as [K1 K2 K3 K4 K5 K6 K7 K8 K9 K10].
  set (N := num_samples s) in *. unfold MAX_SERVOS in *.
  set (v := if invert s then 0 else gpio_bit g). set (i := at_pos N start m). set (s1 := set_level v s).
  assert (active g s1 = true) as Ha.
  { subst s1 v. unfold active. cbn. destruct (invert s); [by rewrite Z.bits_0|]. rewrite testbit_gpio_bit, bool_decide_true by lia. done. }
  assert (servo_ok s1 sv g start old) as HS1 by (destruct HS; by split).
  destruct (do_width_stores s1 sv g start old width HS1 K1 K6 ltac:(cbn; lia)) as (s2 & E2 & Hs2 & Hl2 & _ & Hb2).
  assert (l = width_stores N start old width (gpio_bit g) ++ [on_store sv width (gpio_bit g)]) as ->.
  { unfold set_servo_stores in Hl. rewrite (aget_in (servo2gpio s) sv g), (aget_in (servowidth s) sv old),
      (aget_in (servostart s) sv start) in Hl by (done || lia). rewrite !bind_ok in Hl. by injection Hl. }
  assert (∃ s3, do_store (on_store sv width (gpio_bit g)) s2 = Ok s3 ∧ s3 = set_turnon (turnon_mask s3) s2) as (s3 & E3 & Hs3).
  { unfold on_store. cbn [do_store]. rewrite aset_in by (rewrite Hs2; cbn; lia). rewrite bind_ok. by eexists. }
  assert (Hi : 0 <= i < N) by (by apply at_pos_range).
  destruct (exec_off s3 i g) as (v4 & E4 & Hv4); [lia|rewrite Hs3; cbn; rewrite Hl2; cbn; lia|].
  assert (off_bit s3 i g = true) as Hoff.
  { rewrite Hs3. change (off_bit s2 i g = true). subst i. change N with (num_samples s1). rewrite Hb2 by (cbn; lia). lia. }
  assert (active g s3 = true) as Ha3 by (rewrite Hs3, Hs2; exact Ha).
  rewrite Ha3, Hoff in Hv4. cbn in Hv4.
  eexists v, (mkDma i (sample_ops s1 i) (Some m) []), _, _. split; [|split; [done|split]].
  - split; cbn; try done. intros n [= <-]. fold N. subst i. unfold at_pos. rewrite Zminus_mod_idemp_l.
    replace (start + m - start) with m by lia. split; [done|]. lia.
  - etransitivity; [by apply (stores_run g _ [on_store sv width (gpio_bit g)] s1 s2)|].
    eapply rtc_l; [by apply CpuStore|]. apply rtc_once. by eapply DmaOp.
  - cbn. rewrite Ha3, Hv4. done.
Qed.

End Pulse.
