(* ===== verification/ServodRing.v ===== *)
(** * The pulse trains of the servo daemon

    What comes out of the pins: [init_ctrl_data] of servod.c builds a ring of
    control blocks that makes the DMA controller do the operations of every
    sample in order, cycle after cycle; on well-formed masks these give every
    servo a pulse of its width, once per cycle and from its own start. *)
From S2P Require Import Prelude ServodPulse.

#[local] Open Scope Z_scope.

Module Ring.
Import Pulse.

(** ** Pulse trains *)

Definition run_sample (i : Z) (s : SERVOD) : res SERVOD := forM (sample_ops s i) exec_op s.

(** The first [n] samples from the beginning of a cycle on. *)
Definition run_samples (n : Z) (s : SERVOD) : res SERVOD :=
  forM (seqZ 0 n) (λ j s, run_sample (j `mod` num_samples s) s) s.

Lemma run_on l s :
  Forall (λ sv, 0 <= sv < Z.of_nat (length (turnon_mask s))) l →
  ∃ v, forM (On <$> l) exec_op s = Ok (set_level v s) ∧
    ∀ g, 0 <= g → active g (set_level v s) = active g s || existsb (λ sv, Z.testbit (turnon_mask s !!! Z.to_nat sv) g) l.
Proof.
  revert s. induction l as [|sv l IH]; intros s Hl.
  { exists (level s). split; [by destruct s|]. intros g Hg. cbn [existsb]. rewrite orb_false_r. done. }
  apply Forall_cons in Hl as [Hsv Hl]. destruct (lookup_lt_is_Some_2 (turnon_mask s) (Z.to_nat sv)) as [w Hw]; [lia|].
  destruct (exec_on s sv w 0) as (v1 & E1 & _); [lia|lia|done|]. cbn [fmap list_fmap forM]. rewrite E1, bind_ok.
  destruct (IH (set_level v1 s) Hl) as (v & E & Ha). exists v. split; [exact E|]. intros g Hg.
  destruct (exec_on s sv w g) as (v2 & E2 & Ha2); [lia|lia|done|]. rewrite E1 in E2. injection E2 as E2.
  change (active g (set_level v s)) with (active g (set_level v (set_level v1 s))). rewrite (Ha g Hg).
  unfold active in Ha2 |- *. cbn [level invert set_level turnon_mask] in *. rewrite E2, Ha2. cbn [existsb].
  rewrite (list_lookup_total_correct _ _ _ Hw). by rewrite orb_assoc.
Qed.

Lemma starting_lights s sv g start w i :
  masks_ok s → servo_ok s sv g start w →
  existsb (λ sv', Z.testbit (turnon_mask s !!! Z.to_nat sv') g) (starting s i) =
    (i =? start) && Z.testbit (turnon_mask s !!! Z.to_nat sv) g.
Proof.
  intros HK HS. destruct (existsb _ _) eqn:E.
  - apply existsb_exists in E as (sv' & Hin & Hb). apply list_elem_of_In in Hin.
    unfold starting in Hin. apply list_elem_of_filter in Hin as [[Hm Hst] Hr%elem_of_seqZ].
    assert (sv' = sv) as ->.
    { destruct HK as [K1 K2 K3 K4 K5 K6 K7 K8 K9 K10]. destruct (K9 sv' ltac:(lia) Hm) as (g' & ? & ? & [R1 R2 R3 R4 R5 R6 R7 (x & R8 & Hx & _) R9]).
      rewrite (list_lookup_total_correct _ _ _ R8) in Hb. destruct Hx as [->| ->]; [by rewrite Z.bits_0 in Hb|].
      destruct HS as [S1 S2 S3 S4 S5 S6 S7 S8 S9].
      rewrite testbit_gpio_bit in Hb by lia. apply bool_decide_eq_true in Hb as ->. eapply (K10 sv' sv g); try done. unfold DMY. lia. }
    rewrite Hb, andb_true_r. symmetry. apply Z.eqb_eq. destruct HS. congruence.
  - symmetry. apply not_true_is_false. intros [->%Z.eqb_eq Hb]%andb_true_iff.
    apply not_true_iff_false in E. apply E, existsb_exists. exists sv. split; [|done]. apply list_elem_of_In.
    destruct HS as [S1 S2 S3 S4 S5 S6 S7 S8 S9]. unfold starting. apply list_elem_of_filter. split; [|apply elem_of_seqZ; lia].
    split; [|done]. unfold mapped. rewrite S2. intros [= ->]. unfold DMY in S3. lia.
Qed.

Lemma run_sample_ok s i :
  masks_ok s → 0 <= i < num_samples s →
  ∃ v, run_sample i s = Ok (set_level v s) ∧ ∀ sv g start w, servo_ok s sv g start w →
    active g (set_level v s) =
      active g s && negb (off_bit s i g) || (i =? start) && Z.testbit (turnon_mask s !!! Z.to_nat sv) g.
Proof.
  intros HK Hi. destruct HK as [K1 K2 K3 K4 K5 K6 K7 K8 K9 K10] eqn:EK. clear EK.
  destruct (exec_off s i 0) as (v1 & E1 & _); [lia|lia|].
  destruct (run_on (starting s i) (set_level v1 s)) as (v & E & Ha).
  { apply Forall_forall. intros sv Hin. unfold starting in Hin. apply list_elem_of_filter in Hin as [_ Hr%elem_of_seqZ].
    unfold MAX_SERVOS in *. cbn. lia. }
  exists v. split.
  { unfold run_sample, sample_ops. cbn [forM]. rewrite E1, bind_ok, forM_app, E, bind_ok. done. }
  intros sv g start w HS. pose proof (sv_pin _ _ _ _ _ HS) as Hg. destruct (exec_off s i g) as (v2 & E2 & Ha2); [lia|lia|].
  rewrite E1 in E2. injection E2 as E2. change (active g (set_level v s)) with (active g (set_level v (set_level v1 s))).
  rewrite (Ha g) by lia. f_equal; [rewrite <- Ha2; unfold active; cbn; by rewrite E2|].
  cbn [turnon_mask set_level]. by apply starting_lights with (w := w).
Qed.

Lemma set_level_ok s v : masks_ok s → masks_ok (set_level v s).
Proof.
  intros [K1 K2 K3 K4 K5 K6 K7 K8 K9 K10]. split; try done. intros sv Hsv Hm. destruct (K9 sv Hsv Hm) as (g & start & w & []).
  exists g, start, w. by split.
Qed.

Lemma set_level_servo s v sv g start w : servo_ok s sv g start w → servo_ok (set_level v s) sv g start w.
Proof. intros []. by split. Qed.

Lemma servo_ok_intro s sv g start w :
  masks_ok s → 0 <= sv < 32 → g ≠ DMY → servo2gpio s !! Z.to_nat sv = Some g →
  servostart s !! Z.to_nat sv = Some start → servowidth s !! Z.to_nat sv = Some w → servo_ok s sv g start w.
Proof.
  intros HK Hsv Hd H1 H2 H3. destruct (mk_servo _ HK sv Hsv) as (g' & st' & w' & HS).
  { unfold mapped. rewrite H1. by intros [= ->]. }
  pose proof HS as [_ R2 _ R4 _ R6 _ _ _]. replace g with g' by congruence. replace start with st' by congruence. by replace w with w' by congruence.
Qed.

(** Whether a servo is lit: it gets its pulses unless its width is zero or it
    has been idle for too long. *)
Definition lit (s : SERVOD) (sv g : Z) : bool := Z.testbit (turnon_mask s !!! Z.to_nat sv) g.

Lemma run_samples_ok s (n : nat) :
  masks_ok s →
  ∃ v, run_samples (Z.of_nat n) s = Ok (set_level v s) ∧ ∀ sv g start w, servo_ok s sv g start w →
    start < Z.of_nat n → lit s sv g = (0 <? w) →
    active g (set_level v s) = ((Z.of_nat n - 1 - start) `mod` num_samples s <? w).
Proof.
  intros HK. pose proof (mk_samples _ HK) as HN. induction n as [|n IH].
  { exists (level s). split; [by destruct s|]. intros sv g start w []. lia. }
  destruct IH as (v & E & Ha). unfold run_samples. rewrite seqZ_S, forM_app. fold (run_samples (Z.of_nat n) s). rewrite E, bind_ok.
  cbn [forM]. rewrite Z.add_0_l. set (N := num_samples s) in *. change (num_samples (set_level v s)) with N.
  pose proof (Z.mod_pos_bound (Z.of_nat n) N HN) as Hi.
  destruct (run_sample_ok (set_level v s) (Z.of_nat n `mod` N) (set_level_ok s v HK) Hi) as (v' & E' & Ha').
  rewrite E', bind_ok. exists v'. split; [done|]. intros sv g start w HS Hst Hlit.
  change (set_level v' s) with (set_level v' (set_level v s)). rewrite (Ha' sv g start w) by (by apply set_level_servo).
  change (Z.testbit (turnon_mask (set_level v s) !!! Z.to_nat sv) g) with (lit s sv g). rewrite Hlit.
  change (off_bit (set_level v s)) with (off_bit s).
  pose proof HS as [S1 S2 S3 S4 S5 S6 S7 S8 S9]. fold N in S5, S7, S9.
  replace (Z.of_nat (S n) - 1 - start) with (Z.of_nat n - start) by lia.
  set (p := (Z.of_nat n - start) `mod` N). assert (0 <= p < N) as Hp by (by apply Z.mod_pos_bound).
  assert (Z.of_nat n `mod` N = at_pos N start p) as Ei.
  { unfold at_pos, p. rewrite Zplus_mod_idemp_r. f_equal. lia. }
  rewrite Ei, S9 by done. destruct (decide (p = 0)) as [E0|E0].
  - assert (at_pos N start p = start) as ->. { unfold at_pos. rewrite E0, Z.add_0_r. by apply Z.mod_small. }
    rewrite Z.eqb_refl, E0. destruct (Z.leb_spec w 0), (Z.ltb_spec 0 w); try lia; by rewrite ?andb_false_r, ?orb_true_r.
  - assert (at_pos N start p =? start = false) as ->.
    { apply Z.eqb_neq. intros E1. apply E0. eapply (at_pos_inj N start); [done|lia|]. rewrite E1. unfold at_pos.
      rewrite Z.add_0_r. symmetry. by apply Z.mod_small. }
    assert (start < Z.of_nat n) as Hlt. { destruct (decide (start = Z.of_nat n)) as [Es|]; [|lia]. subst p. rewrite Es, Z.sub_diag, Z.mod_0_l in E0 by lia. done. }
    rewrite (Ha sv g start w HS Hlt Hlit). cbn [andb orb]. rewrite orb_false_r.
    assert (p = (Z.of_nat n - 1 - start) `mod` N + 1) as Ep.
    { pose proof (Z.div_mod (Z.of_nat n - start) N ltac:(lia)) as D. fold p in D.
      enough (p - 1 = (Z.of_nat n - 1 - start) `mod` N) by lia.
      apply (Z.mod_unique_pos _ _ ((Z.of_nat n - start) `div` N)); lia. }
    lia.
Qed.

(** ** Addresses *)

(** The pages of the shared memory are different and begin at multiples of
    the page size. *)
Record pages_ok (page_map : list Z) : Prop := {
  pg_nodup : NoDup page_map;
  pg_page a : a ∈ page_map → a `mod` PAGE_SIZE = 0 ∧ 0 <= a /\ a + PAGE_SIZE <= 4294967296
}.

Definition phys (page_map : list Z) (off : Z) : Z := page_map !!! Z.to_nat (off `div` PAGE_SIZE) + off `mod` PAGE_SIZE.

Lemma page_of page_map off :
  pages_ok page_map → 0 <= off < PAGE_SIZE * Z.of_nat (length page_map) →
  ∃ a, page_map !! Z.to_nat (off `div` PAGE_SIZE) = Some a ∧ phys page_map off = a + off `mod` PAGE_SIZE ∧
    a `mod` PAGE_SIZE = 0 ∧ 0 <= a ∧ a + PAGE_SIZE <= 4294967296 ∧ 0 <= off `mod` PAGE_SIZE < PAGE_SIZE.
Proof.
  intros [H1 H2] Hoff. unfold PAGE_SIZE in *.
  destruct (lookup_lt_is_Some_2 page_map (Z.to_nat (off `div` 4096))) as [a Ha]; [dlia|].
  exists a. split; [done|]. split; [unfold phys; by rewrite (list_lookup_total_correct _ _ a)|].
  destruct (H2 a) as (? & ? & ?); [by eapply list_elem_of_lookup_2|]. pose proof (Z.mod_pos_bound off 4096). lia.
Qed.

Lemma mem_virt_to_phys_ok page_map off :
  pages_ok page_map → 0 <= off < PAGE_SIZE * Z.of_nat (length page_map) →
  mem_virt_to_phys page_map off = Ok (phys page_map off).
Proof.
  intros Hp Hoff. destruct (page_of page_map off Hp Hoff) as (a & Ha & -> & H1 & H2 & H3 & H4).
  unfold mem_virt_to_phys. rewrite Z.shiftr_div_pow2 by lia. change (2 ^ 12) with PAGE_SIZE.
  rewrite (aget_in _ _ a); [|unfold PAGE_SIZE in *; dlia|done]. rewrite bind_ok, u32_small by lia. done.
Qed.

Lemma virt_phys page_map off :
  pages_ok page_map → 0 <= off < PAGE_SIZE * Z.of_nat (length page_map) →
  virt page_map (phys page_map off) = Some off.
Proof.
  intros Hp Hoff. destruct (page_of page_map off Hp Hoff) as (a & Ha & -> & H1 & H2 & H3 & H4). unfold virt.
  assert ((a + off `mod` PAGE_SIZE) `mod` PAGE_SIZE = off `mod` PAGE_SIZE) as E.
  { rewrite Zplus_mod, H1, Z.add_0_l, !Zmod_mod. done. }
  rewrite E. replace (a + off `mod` PAGE_SIZE - off `mod` PAGE_SIZE) with a by lia.
  rewrite (proj2 (list_find_Some (λ p, p = a) page_map (Z.to_nat (off `div` PAGE_SIZE)) a)).
  - cbn. f_equal. unfold PAGE_SIZE in *. dlia.
  - split; [done|]. split; [done|]. intros j b Hj Hlt ->. pose proof (NoDup_lookup _ _ _ _ (pg_nodup _ Hp) Ha Hj). lia.
Qed.

(** The layout of the shared memory: the masks come first, then the control
    blocks, which begin at a multiple of their size; all of them begin within
    the pages. *)
Lemma cb_base_spec N : 0 <= N → cb_base N `mod` 32 = 0 ∧ N * 4 + MAX_SERVOS * 4 <= cb_base N < N * 4 + MAX_SERVOS * 4 + 32.
Proof.
  intros HN. unfold cb_base, ROUNDUP, MAX_SERVOS. change (8 - 1) with (Z.ones 3). rewrite <- Z.ldiff_land, Z.ldiff_ones_r by lia.
  rewrite Z.shiftl_mul_pow2, Z.shiftr_div_pow2 by lia. change (2 ^ 3) with 8. change (Z.ones 3) with 7. dlia.
Qed.

Lemma layout N : 0 <= N →
  (∀ k, 0 <= k < num_cbs N → 0 <= cb_addr N k < PAGE_SIZE * num_pages N) ∧ N * 4 + MAX_SERVOS * 4 <= PAGE_SIZE * num_pages N.
Proof.
  intros HN. destruct (cb_base_spec N HN) as [_ Hb]. unfold cb_addr, num_pages, num_cbs, MAX_SERVOS, PAGE_SIZE in *.
  rewrite Z.shiftr_div_pow2 by lia. change (2 ^ 12) with 4096. split; [intros k Hk|]; dlia.
Qed.

(** ** The loops of [init_ctrl_data] *)

Lemma init_widths_ok s (n : nat) :
  length (servo2gpio s) = 32%nat → length (servowidth s) = 32%nat → (n <= 32)%nat →
  ∃ w maskall, forM (seqZ 0 (Z.of_nat n)) (λ servo '(s, maskall),
      w ← aset (servowidth s) servo 0;
      let s := set_servowidth w s in
      g ← aget (servo2gpio s) servo;
      Ok (s, if g =? DMY then maskall else Z.lor maskall (gpio_bit g))) (s, 0) = Ok (set_servowidth w s, maskall) ∧
    length w = 32%nat ∧ (∀ k, (k < n)%nat → w !! k = Some 0) ∧
    ∀ k g, (k < n)%nat → servo2gpio s !! k = Some g → 0 <= g < 32 → Z.testbit maskall g = true.
Proof.
  intros Hg Hw. induction n as [|n IH]; intros Hn.
  { exists (servowidth s), 0. split; [by destruct s|]. split; [done|]. split; lia. }
  destruct IH as (w & ma & E & Hl & Hz & Hm); [lia|]. rewrite seqZ_S, forM_app, E, bind_ok. cbn [forM]. rewrite Z.add_0_l.
  cbn [servowidth set_servowidth]. rewrite aset_in, bind_ok by lia. cbn [servo2gpio set_servowidth].
  destruct (lookup_lt_is_Some_2 (servo2gpio s) n) as [g Hgn]; [lia|].
  rewrite (aget_in _ _ g), bind_ok by (by rewrite ?Nat2Z.id || lia). eexists _, _. split; [done|].
  rewrite Nat2Z.id. split; [by rewrite length_insert|]. split.
  - intros k Hk. destruct (decide (k = n)) as [->|]; [by apply list_lookup_insert_eq; lia|].
    rewrite list_lookup_insert_ne by lia. apply Hz. lia.
  - intros k g' Hk Hk' Hr. destruct (Z.eqb_spec g DMY) as [->|Hd].
    + destruct (decide (k = n)) as [->|]; [rewrite Hgn in Hk'; injection Hk' as <-; unfold DMY in Hr; lia|]. apply (Hm k); [lia|done|done].
    + rewrite Z.lor_spec. destruct (decide (k = n)) as [->|].
      * rewrite Hgn in Hk'. injection Hk' as <-. by rewrite testbit_gpio_bit, bool_decide_true, orb_true_r by lia.
      * rewrite (Hm k g') by (done || lia). done.
Qed.

(** The servos in use, in order, and the number of them below an index. *)
Definition in_use (gpio : list Z) : list nat := filter (λ k, gpio !! k ≠ Some DMY) (seq 0 (length gpio)).
Definition used_below (gpio : list Z) (k : nat) : nat := length (filter (λ j, gpio !! j ≠ Some DMY) (seq 0 k)).

Lemma used_below_0 gpio : used_below gpio 0 = 0%nat.
Proof. done. Qed.

Lemma used_below_S gpio k :
  used_below gpio (S k) = (used_below gpio k + if decide (gpio !! k ≠ Some DMY) then 1 else 0)%nat.
Proof. unfold used_below. rewrite seq_S, filter_app, length_app. cbn [Nat.add]. rewrite filter_cons. by case_decide. Qed.

Lemma used_below_mono gpio j k : (j <= k)%nat → (used_below gpio j <= used_below gpio k)%nat.
Proof. induction 1 as [|k _ IH]; [done|]. rewrite used_below_S. lia. Qed.

Lemma used_below_lt gpio j k : (j < k)%nat → gpio !! j ≠ Some DMY → (used_below gpio j < used_below gpio k)%nat.
Proof. intros H Hj. pose proof (used_below_mono gpio (S j) k H). rewrite used_below_S, decide_True in * by done. lia. Qed.

Lemma init_starts_ok num_servos s (n : nat) :
  length (servo2gpio s) = 32%nat → length (servostart s) = 32%nat → (n <= 32)%nat → 0 < num_servos → 0 <= num_samples s →
  ∃ l, forM (seqZ 0 (Z.of_nat n)) (λ servo '(s, curstart),
      g ← aget (servo2gpio s) servo;
      if g =? DMY then Ok (s, curstart)
      else
        l ← aset (servostart s) servo curstart;
        if num_servos =? 0 then Fault DivByZero
        else Ok (set_servostart l s, curstart + num_samples s `quot` num_servos)) (s, 0) =
      Ok (set_servostart l s, Z.of_nat (used_below (servo2gpio s) n) * (num_samples s `div` num_servos)) ∧
    length l = 32%nat ∧
    ∀ k, (k < n)%nat → servo2gpio s !! k ≠ Some DMY →
      l !! k = Some (Z.of_nat (used_below (servo2gpio s) k) * (num_samples s `div` num_servos)).
Proof.
  intros Hg Hst Hn Hsv HN. induction n as [|n IH].
  { exists (servostart s). split; [by destruct s|]. split; [done|lia]. }
  destruct IH as (l & E & Hl & Hz); [lia|]. rewrite seqZ_S, forM_app, E, bind_ok. cbn [forM]. rewrite Z.add_0_l.
  cbn [servo2gpio set_servostart]. destruct (lookup_lt_is_Some_2 (servo2gpio s) n) as [g Hgn]; [lia|].
  rewrite (aget_in _ _ g), bind_ok by (by rewrite ?Nat2Z.id || lia). rewrite used_below_S, Hgn.
  destruct (Z.eqb_spec g DMY) as [->|Hd].
  - exists l. rewrite decide_False by naive_solver. rewrite Nat.add_0_r. split; [done|]. split; [done|].
    intros k Hk Hk'. destruct (decide (k = n)) as [->|]; [done|]. apply Hz; [lia|done].
  - cbn [servostart set_servostart num_samples]. rewrite aset_in, bind_ok by lia. rewrite (proj2 (Z.eqb_neq num_servos 0)) by lia.
    rewrite decide_True by naive_solver. rewrite Z.quot_div_nonneg, Nat2Z.id by lia. cbn [forM].
    eexists. split; [by rewrite bind_ok; repeat f_equal; lia|]. split; [by rewrite length_insert|].
    intros k Hk Hk'. destruct (decide (k = n)) as [->|]; [by apply list_lookup_insert_eq; lia|].
    rewrite list_lookup_insert_ne by lia. apply Hz; [lia|done].
Qed.

Lemma skip_unmapped_ok s fuel (a : nat) :
  length (servo2gpio s) = 32%nat → (32 - a <= fuel)%nat → (a <= 32)%nat →
  ∃ b, skip_unmapped fuel s (Z.of_nat a) = Ok (Z.of_nat b) ∧ (a <= b <= 32)%nat ∧
    used_below (servo2gpio s) b = used_below (servo2gpio s) a ∧ (b = 32%nat ∨ servo2gpio s !! b ≠ Some DMY).
Proof.
  intros Hg. revert a. induction fuel as [|fuel IH]; intros a Hf Ha.
  { exists a. cbn [skip_unmapped]. unfold MAX_SERVOS. rewrite (proj2 (Z.ltb_ge (Z.of_nat a) 32)) by lia. split; [done|]. split; [lia|]. split; [done|]. left. lia. }
  cbn [skip_unmapped]. unfold MAX_SERVOS. destruct (Z.ltb_spec (Z.of_nat a) 32).
  2: { exists a. split; [done|]. split; [lia|]. split; [done|]. left. lia. }
  destruct (lookup_lt_is_Some_2 (servo2gpio s) a) as [g Hga]; [lia|]. rewrite (aget_in _ _ g), bind_ok by (by rewrite ?Nat2Z.id || lia).
  destruct (Z.eqb_spec g DMY) as [->|Hd].
  - destruct (IH (S a)) as (b & E & H1 & H2 & H3); [lia|lia|]. exists b. replace (Z.of_nat a + 1) with (Z.of_nat (S a)) by lia.
    split; [done|]. split; [lia|]. split; [|done]. rewrite H2, used_below_S, decide_False by naive_solver. lia.
  - exists a. split; [done|]. split; [lia|]. split; [done|]. right. naive_solver.
Qed.

Lemma used_below_some gpio n : (1 <= used_below gpio n)%nat → ∃ k, (k < n)%nat ∧ gpio !! k ≠ Some DMY.
Proof.
  induction n as [|n IH]; [cbn; lia|]. rewrite used_below_S. case_decide as Hd; [by exists n; split; [lia|]|].
  intros H. destruct IH as (k & ? & ?); [lia|]. exists k. split; [lia|done].
Qed.

#[local] Opaque used_below.

Section ring.
Context (page_map : list Z) (via_pcm : bool) (past : Z → res Z).
Hypothesis Hpages : pages_ok page_map.

(** The control block of an operation, at place [j] of the ring. *)
Definition op_cb (s : SERVOD) (j : Z) (o : op) : dma_cb_t :=
  let N := num_samples s in
  let plain := Z.lor DMA_NO_WIDE_BURSTS DMA_WAIT_RESP in
  let next := phys page_map (cb_addr N (j + 1)) in
  match o with
  | Off i => mkCb plain (phys page_map (off_addr i)) (if invert s then phys_gpset else phys_gpclr) 4 0 next
  | On servo => mkCb plain (phys page_map (on_addr N servo)) (if invert s then phys_gpclr else phys_gpset) 4 0 next
  | Delay => mkCb (cbinfo via_pcm) (phys page_map (off_addr 0)) (phys_fifo_addr via_pcm) 4 0 next
  end.

Definition encodes (s : SERVOD) (ops : list op) (cb : list dma_cb_t) : Prop :=
  Z.of_nat (length cb) = num_cbs (num_samples s) ∧ ∀ j o, ops !! j = Some o → cb !! j = Some (op_cb s (Z.of_nat j) o).

Definition op_src (s : SERVOD) (o : op) : Z :=
  match o with Off i => off_addr i | On servo => on_addr (num_samples s) servo | Delay => off_addr 0 end.

Lemma put_cb_ok s ops cb o :
  Z.of_nat (length page_map) = num_pages (num_samples s) → 0 <= num_samples s →
  encodes s ops cb → Z.of_nat (length ops) + 1 < num_cbs (num_samples s) →
  0 <= op_src s o < num_samples s * 4 + MAX_SERVOS * 4 →
  let c := op_cb s (Z.of_nat (length ops)) o in
  ∃ cb', put_cb page_map (num_samples s) (info c) (op_src s o) (dst c) (cb, Z.of_nat (length ops)) =
      Ok (cb', Z.of_nat (length (ops ++ [o]))) ∧ encodes s (ops ++ [o]) cb'.
Proof.
  intros Hlen HN [H1 H2] Hroom Hsrc c. destruct (layout (num_samples s) HN) as [L1 L2].
  unfold put_cb. rewrite !mem_virt_to_phys_ok by (done || (rewrite ?Hlen; first [apply L1; lia|lia])). rewrite !bind_ok, aset_in, bind_ok by lia.
  eexists. split; [rewrite length_app; cbn [length]; repeat f_equal; lia|]. split; [by rewrite length_insert|].
  rewrite Nat2Z.id. intros j o' Hj. destruct (decide (j = length ops)) as [->|Hne].
  - rewrite lookup_app_r, Nat.sub_diag in Hj by lia. cbn in Hj. injection Hj as <-. rewrite list_lookup_insert_eq by lia. f_equal.
    subst c. by destruct o.
  - rewrite list_lookup_insert_ne by lia. apply H2. rewrite lookup_app_l in Hj; [done|].
    apply lookup_lt_Some in Hj. rewrite length_app in Hj. cbn in Hj. lia.
Qed.

Lemma filter_only {A} (P : A → Prop) `{!∀ x, Decision (P x)} (l : list A) x :
  NoDup l → x ∈ l → P x → (∀ y, y ∈ l → P y → y = x) → filter P l = [x].
Proof.
  intros Hnd Hin Hx Hu. apply list_elem_of_split in Hin as (l1 & l2 & ->).
  rewrite filter_app, filter_cons_True by done.
  assert (∀ k, (∀ y, y ∈ k → y ∈ l1 ++ x :: l2) → x ∉ k → filter P k = []) as Hnil.
  { intros k Hk Hnk. induction k as [|y k IH]; [done|].
    rewrite filter_cons_False; [apply IH; set_solver|]. intros Hy. apply Hnk. rewrite (Hu y (Hk y ltac:(left)) Hy). left. }
  apply NoDup_app in Hnd as (_ & Hd & [Hn _]%NoDup_cons).
  rewrite !Hnil; [done|set_solver|done|set_solver|]. intros Hx1. apply (Hd x Hx1). left.
Qed.

(** The starts of the servos are spread over the cycle. *)
Record starts_ok (s : SERVOD) (stride : Z) : Prop := {
  sp_gpio : length (servo2gpio s) = 32%nat;
  sp_stride : 0 < stride;
  sp_some : (1 <= used_below (servo2gpio s) 32 <= 31)%nat;
  sp_fit : Z.of_nat (used_below (servo2gpio s) 32) * stride <= num_samples s;
  sp_start k : (k < 32)%nat → servo2gpio s !! k ≠ Some DMY →
    servostart s !! k = Some (Z.of_nat (used_below (servo2gpio s) k) * stride)
}.

(** [b] is the first servo in use that starts at sample [i] or later. *)
Record next_start (s : SERVOD) (stride i : Z) (b : nat) : Prop := {
  ns_range : (b <= 32)%nat;
  ns_used : b = 32%nat ∨ servo2gpio s !! b ≠ Some DMY;
  ns_before k : (k < b)%nat → servo2gpio s !! k ≠ Some DMY → Z.of_nat (used_below (servo2gpio s) k) * stride < i;
  ns_after : (b < 32)%nat → i <= Z.of_nat (used_below (servo2gpio s) b) * stride
}.

Lemma starting_spec s stride i b :
  starts_ok s stride → next_start s stride i b →
  starting s i = if decide ((b < 32)%nat ∧ Z.of_nat (used_below (servo2gpio s) b) * stride = i) then [Z.of_nat b] else [].
Proof.
  intros [H1 H2 H3 H4 H5] [B1 B2 B3 B4].
  assert (∀ sv, sv ∈ seqZ 0 MAX_SERVOS → mapped s sv ∧ servostart s !! Z.to_nat sv = Some i →
    sv = Z.of_nat b ∧ (b < 32)%nat ∧ Z.of_nat (used_below (servo2gpio s) b) * stride = i) as Honly.
  { intros sv Hsv%elem_of_seqZ [Hm Hs]. unfold MAX_SERVOS in Hsv. rewrite H5 in Hs by (done || lia). injection Hs as Hs.
    destruct (Nat.lt_trichotomy (Z.to_nat sv) b) as [Hlt|[Heq|Hgt]].
    - specialize (B3 _ Hlt Hm). lia.
    - subst b. split; [lia|]. split; [lia|done].
    - specialize (B4 ltac:(lia)). destruct B2 as [->|B2]; [lia|]. pose proof (used_below_lt _ _ _ Hgt B2). nia. }
  unfold starting. case_decide as Hd.
  - apply filter_only; [apply NoDup_seqZ|apply elem_of_seqZ; unfold MAX_SERVOS; lia| |naive_solver].
    destruct Hd as [Hb E]. destruct B2 as [->|B2]; [lia|]. rewrite Nat2Z.id. split; [unfold mapped; by rewrite Nat2Z.id|]. by rewrite H5, E.
  - apply list_eq_nil || idtac. destruct (filter _ _) as [|x l] eqn:Ef; [done|exfalso].
    assert (x ∈ x :: l) as Hx by left. rewrite <- Ef in Hx. apply list_elem_of_filter in Hx as [Hx1 Hx2].
    apply Hd. by apply (Honly x).
Qed.

Definition prefix_ops (s : SERVOD) (i : Z) : list op := seqZ 0 i ≫= sample_ops s.

Lemma prefix_ops_S s (i : nat) : prefix_ops s (Z.of_nat (S i)) = prefix_ops s (Z.of_nat i) ++ sample_ops s (Z.of_nat i).
Proof. unfold prefix_ops. rewrite seqZ_S, bind_app. cbn [mbind list_bind]. by rewrite app_nil_r, Z.add_0_l. Qed.

(** What the word behind the array of starts has to be for the ring to come
    out right: readable, and no sample that is still to come. *)
Definition past_ok (N : Z) : Prop := ∃ v, past MAX_SERVOS = Ok v ∧ ¬ 1 <= v < N.

Lemma cb_sample_ok s stride (i : nat) cb b :
  Z.of_nat (length page_map) = num_pages (num_samples s) → (b < 32)%nat ∨ past_ok (num_samples s) →
  starts_ok s stride → Z.of_nat i < num_samples s → next_start s stride (Z.of_nat i) b →
  encodes s (prefix_ops s (Z.of_nat i)) cb → length (prefix_ops s (Z.of_nat i)) = (2 * i + used_below (servo2gpio s) b)%nat →
  ∃ cb' b', cb_sample page_map via_pcm past s (Z.of_nat i) (cb, Z.of_nat (length (prefix_ops s (Z.of_nat i))), Z.of_nat b) =
      Ok (cb', Z.of_nat (length (prefix_ops s (Z.of_nat (S i)))), Z.of_nat b') ∧
    next_start s stride (Z.of_nat (S i)) b' ∧ encodes s (prefix_ops s (Z.of_nat (S i))) cb' ∧
    length (prefix_ops s (Z.of_nat (S i))) = (2 * S i + used_below (servo2gpio s) b')%nat.
Proof.
  intros Hlen Hpast Hst Hi Hb Henc Hcnt. pose proof Hst as [H1 H2 H3 H4 H5]. pose proof Hb as [B1 B2 B3 B4].
  pose proof (used_below_mono (servo2gpio s) b 32 B1) as Hub.
  rewrite prefix_ops_S. unfold sample_ops. rewrite (starting_spec s stride (Z.of_nat i) b Hst Hb).
  set (ops := prefix_ops s (Z.of_nat i)) in *. unfold cb_sample.
  assert (∀ n, (n <= 2 * i + 32)%nat → Z.of_nat n + 1 < num_cbs (num_samples s)) as Hroom by (unfold num_cbs, MAX_SERVOS; lia).
  destruct (put_cb_ok s ops cb (Off (Z.of_nat i)) Hlen ltac:(lia) Henc) as (cb1 & E1 & Henc1).
  { apply Hroom. lia. } { cbn. unfold off_addr, MAX_SERVOS. lia. }
  cbn [op_cb info dst op_src] in E1. rewrite E1, bind_ok. case_decide as Hd.
  - destruct Hd as [Hb32 Es]. destruct B2 as [->|B2]; [lia|]. unfold start_at, MAX_SERVOS.
    rewrite (proj2 (Z.ltb_lt _ _)), (aget_in _ _ (Z.of_nat i)), bind_ok, Z.eqb_refl by
      (rewrite ?Nat2Z.id, ?(H5 b), ?Es by done; first [done|lia|apply lookup_lt_Some in H5; lia]).
    destruct (put_cb_ok s (ops ++ [Off (Z.of_nat i)]) cb1 (On (Z.of_nat b)) Hlen ltac:(lia) Henc1) as (cb2 & E2 & Henc2).
    { apply Hroom. rewrite length_app. cbn. lia. } { cbn. unfold on_addr, MAX_SERVOS. lia. }
    cbn [op_cb info dst op_src] in E2. rewrite E2, bind_ok. replace (Z.of_nat b + 1) with (Z.of_nat (S b)) by lia.
    destruct (skip_unmapped_ok s 32 (S b) H1) as (b' & E3 & Hr3 & Hu3 & Hm3); [lia|lia|]. rewrite E3, bind_ok, bind_ok.
    destruct (put_cb_ok s ((ops ++ [Off (Z.of_nat i)]) ++ [On (Z.of_nat b)]) cb2 Delay Hlen ltac:(lia) Henc2) as (cb3 & E4 & Henc3).
    { apply Hroom. rewrite !length_app. cbn. pose proof (used_below_lt _ b 32 Hb32 B2). lia. } { cbn. unfold off_addr, MAX_SERVOS. lia. }
    cbn [op_cb info dst op_src] in E4. rewrite E4, bind_ok. rewrite <- !app_assoc in Henc3 |- *.
    rewrite used_below_S, decide_True in Hu3 by done. exists cb3, b'. split; [done|]. split; [|split; [exact Henc3|]].
    + split; [lia|done| |].
      * intros k Hk Hmk. destruct (Nat.lt_trichotomy k b) as [?|[->|?]]; [specialize (B3 k ltac:(done) Hmk); lia|lia|exfalso].
        pose proof (used_below_lt _ _ _ Hk Hmk). pose proof (used_below_lt _ b k ltac:(lia) B2). lia.
      * intros Hb'. rewrite Hu3. lia.
    + rewrite length_app. cbn. lia.
  - assert (∃ st, start_at past s (Z.of_nat b) = Ok st ∧ st ≠ Z.of_nat i) as (st & -> & Hne).
    { unfold start_at, MAX_SERVOS. destruct (Z.ltb_spec (Z.of_nat b) 32).
      - destruct B2 as [->|B2]; [lia|]. pose proof (H5 b ltac:(lia) B2) as Hsb. pose proof (lookup_lt_Some _ _ _ Hsb).
        eexists. split; [apply aget_in; [lia|rewrite Nat2Z.id; exact Hsb]|]. intros Es. apply Hd. split; [lia|done].
      - destruct Hpast as [?|(v & Ev & Hv)]; [lia|]. replace (Z.of_nat b) with MAX_SERVOS by (unfold MAX_SERVOS; lia).
        exists v. split; [done|]. intros ->. apply Hv.
        destruct (used_below_some (servo2gpio s) 32) as (k & Hk & Hmk); [lia|]. specialize (B3 k ltac:(lia) Hmk). lia. }
    rewrite bind_ok, (proj2 (Z.eqb_neq _ _)), bind_ok by done.
    destruct (put_cb_ok s (ops ++ [Off (Z.of_nat i)]) cb1 Delay Hlen ltac:(lia) Henc1) as (cb3 & E4 & Henc3).
    { apply Hroom. rewrite length_app. cbn. lia. } { cbn. unfold off_addr, MAX_SERVOS. lia. }
    cbn [op_cb info dst op_src] in E4. rewrite E4, bind_ok. rewrite <- !app_assoc in Henc3 |- *.
    exists cb3, b. split; [done|]. split; [|split; [exact Henc3|]].
    + split; [lia|done| |].
      * intros k Hk Hmk. specialize (B3 k Hk Hmk). lia.
      * intros Hb'. specialize (B4 Hb'). destruct (decide (Z.of_nat (used_below (servo2gpio s) b) * stride = Z.of_nat i)); [by destruct Hd|lia].
    + rewrite length_app. cbn. lia.
Qed.

Lemma cb_sample_faults s (i : nat) cb b f :
  b = 32%nat → past MAX_SERVOS = Fault f → Z.of_nat (length page_map) = num_pages (num_samples s) → Z.of_nat i < num_samples s →
  encodes s (prefix_ops s (Z.of_nat i)) cb → 0 < num_samples s → (length (prefix_ops s (Z.of_nat i)) <= 2 * i + 31)%nat →
  cb_sample page_map via_pcm past s (Z.of_nat i) (cb, Z.of_nat (length (prefix_ops s (Z.of_nat i))), Z.of_nat b) = Fault f.
Proof.
  intros -> Ef Hlen Hi Henc HN Hcnt. unfold cb_sample.
  destruct (put_cb_ok s (prefix_ops s (Z.of_nat i)) cb (Off (Z.of_nat i)) Hlen ltac:(lia) Henc) as (cb1 & E1 & _).
  { unfold num_cbs, MAX_SERVOS. lia. } { cbn. unfold off_addr, MAX_SERVOS. lia. }
  cbn [op_cb info dst op_src] in E1. rewrite E1, bind_ok. unfold start_at. change (Z.of_nat 32) with MAX_SERVOS.
  by rewrite Z.ltb_irrefl, Ef.
Qed.

(** The loop over the samples: when all servos have had their block it reads
    past the array of starts, and a fault there ends it. *)
Lemma cb_samples_cases s stride (n : nat) b0 :
  Z.of_nat (length page_map) = num_pages (num_samples s) → past_ok (num_samples s) ∨ (∃ f, past MAX_SERVOS = Fault f) →
  starts_ok s stride → Z.of_nat n <= num_samples s → next_start s stride 0 b0 → used_below (servo2gpio s) b0 = 0%nat →
  let r := forM (seqZ 0 (Z.of_nat n)) (cb_sample page_map via_pcm past s)
      (replicate (Z.to_nat (num_cbs (num_samples s))) cb_zero, 0, Z.of_nat b0) in
  (∃ f, past MAX_SERVOS = Fault f ∧ r = Fault f) ∨
  ∃ cb b, r = Ok (cb, Z.of_nat (length (prefix_ops s (Z.of_nat n))), Z.of_nat b) ∧
    next_start s stride (Z.of_nat n) b ∧ encodes s (prefix_ops s (Z.of_nat n)) cb ∧
    length (prefix_ops s (Z.of_nat n)) = (2 * n + used_below (servo2gpio s) b)%nat.
Proof.
  intros Hlen Hpast Hst Hn Hb0 Hu0 r. subst r. induction n as [|n IH].
  { right. exists (replicate (Z.to_nat (num_cbs (num_samples s))) cb_zero), b0. split; [done|]. split; [done|].
    split; [split; [rewrite length_replicate; unfold num_cbs, MAX_SERVOS; lia|done]|]. by rewrite Hu0. }
  rewrite seqZ_S, forM_app, Z.add_0_l. destruct IH as [(f & Ef & ->)|(cb & b & -> & H1 & H2 & H3)]; [lia|by left; exists f|].
  rewrite bind_ok. cbn [forM]. assert ((b < 32)%nat ∨ b = 32%nat) as [Hb|Hb] by (destruct H1; lia).
  2: destruct Hpast as [Hpast|[f Ef]].
  3: { left. exists f. split; [done|]. rewrite (cb_sample_faults s n cb b f); [done|done|done|done|lia|done|lia|].
       rewrite H3. pose proof (used_below_mono (servo2gpio s) b 32 ltac:(lia)). destruct Hst. lia. }
  all: right; destruct (cb_sample_ok s stride n cb b Hlen) as (cb' & b' & E' & H4 & H5 & H6); try done; try lia; try tauto.
  all: rewrite E', bind_ok; by exists cb', b'.
Qed.

(** The finished ring: the blocks of all operations in order, the last one
    linked to the first. *)
Definition ring_of (s : SERVOD) (cb : list dma_cb_t) : Prop :=
  ∀ j o, ring_ops s !! j = Some o →
    ∃ c, cb !! j = Some c ∧ src c = phys page_map (op_src s o) ∧ dst c = dst (op_cb s 0 o) ∧
      next c = phys page_map (cb_addr (num_samples s) ((Z.of_nat j + 1) `mod` Z.of_nat (length (ring_ops s)))).

Lemma close_ring s cb (n : nat) :
  Z.of_nat (length page_map) = num_pages (num_samples s) → 0 < num_samples s → encodes s (ring_ops s) cb →
  length (ring_ops s) = S n → Z.of_nat n < num_cbs (num_samples s) →
  ∃ cb', (first ← mem_virt_to_phys page_map (cb_base (num_samples s));
      c ← aget cb (Z.of_nat (S n) - 1);
      cb ← aset cb (Z.of_nat (S n) - 1) (set_next first c);
      Ok (s, cb)) = Ok (s, cb') ∧ ring_of s cb'.
Proof.
  intros Hlen HN [H1 H2] Hops Hn. destruct (layout (num_samples s) ltac:(lia)) as [L1 L2].
  destruct (cb_base_spec (num_samples s) ltac:(lia)) as [_ Hb]. unfold MAX_SERVOS in *.
  rewrite mem_virt_to_phys_ok by (done || (rewrite Hlen; specialize (L1 0); unfold cb_addr in L1; lia)). rewrite bind_ok.
  destruct (lookup_lt_is_Some_2 (ring_ops s) n) as [o Ho]; [lia|]. pose proof (H2 n o Ho) as Hc.
  replace (Z.of_nat (S n) - 1) with (Z.of_nat n) by lia.
  rewrite (aget_in _ _ (op_cb s (Z.of_nat n) o)) by (by rewrite ?Nat2Z.id || lia). rewrite bind_ok, aset_in, bind_ok by lia.
  eexists. split; [done|]. rewrite Nat2Z.id. intros j o' Hj. pose proof (lookup_lt_Some _ _ _ Hj). rewrite Hops.
  destruct (decide (j = n)) as [->|Hne].
  - assert (o' = o) as -> by congruence. eexists. split; [by apply list_lookup_insert_eq; lia|].
    replace (Z.of_nat n + 1) with (Z.of_nat (S n)) by lia. rewrite Z.mod_same by lia.
    split; [by destruct o|]. split; [by destruct o|]. cbn. f_equal. unfold cb_addr. lia.
  - exists (op_cb s (Z.of_nat j) o'). split; [rewrite list_lookup_insert_ne by lia; by apply H2|].
    rewrite (Z.mod_small (Z.of_nat j + 1)) by lia. by destruct o'.
Qed.

(** The ring makes the controller do the operations one after the other, for
    ever, whatever the daemon stores into the masks in between. *)
Lemma ring_step s cb x k o :
  Z.of_nat (length page_map) = num_pages (num_samples s) → 0 < num_samples s →
  Z.of_nat (length (ring_ops s)) < num_cbs (num_samples s) → ring_of s cb → ring_ops s !! k = Some o →
  num_samples x = num_samples s → invert x = invert s →
  Z.of_nat (length (turnoff_mask x)) = num_samples s → length (turnon_mask x) = 32%nat →
  ∃ x', exec_op o x = Ok x' ∧
    dma_block page_map x cb (phys page_map (cb_addr (num_samples s) (Z.of_nat k))) =
      Some (x', phys page_map (cb_addr (num_samples s) ((Z.of_nat k + 1) `mod` Z.of_nat (length (ring_ops s))))).
Proof.
  intros Hlen HN Hcnt Hring Ho Hx Hinv Hoff Hon. destruct (layout (num_samples s) ltac:(lia)) as [L1 L2].
  destruct (Hring k o Ho) as (c & Hc & Hsrc & Hdst & Hnext). pose proof (lookup_lt_Some _ _ _ Ho) as Hk.
  assert (0 <= op_src s o < num_samples s * 4 + MAX_SERVOS * 4 ∧
    ∃ w, read_word x (op_src s o) = Some w ∧ exec_op o x =
      Ok (match o with Off _ => set_level (outputs (invert s) w (level x)) x
          | On _ => set_level (outputs (negb (invert s)) w (level x)) x | Delay => x end)) as (Hr & w & Hw & Hex).
  { unfold ring_ops in Ho. apply list_elem_of_lookup_2, list_elem_of_bind in Ho as (i & Ho & Hi%elem_of_seqZ).
    unfold sample_ops in Ho. unfold read_word. rewrite Hx.
    destruct o as [i'|sv|]; cbn [op_src exec_op].
    - assert (i' = i) as -> by (set_unfold in Ho; naive_solver). unfold off_addr, MAX_SERVOS. split; [lia|].
      replace ((4 * i) `div` 4) with i by dlia. rewrite (proj2 (Z.ltb_lt _ _)) by lia.
      destruct (lookup_lt_is_Some_2 (turnoff_mask x) (Z.to_nat i)) as [w Hw]; [lia|]. exists w. split; [done|].
      rewrite (aget_in _ _ w) by (done || lia). by rewrite Hinv.
    - assert (0 <= sv < 32) as Hsv. { assert (sv ∈ starting s i) as Hin by (set_unfold in Ho; naive_solver).
        unfold starting in Hin. apply list_elem_of_filter in Hin as [_ Hin%elem_of_seqZ]. unfold MAX_SERVOS in Hin. lia. }
      unfold on_addr, MAX_SERVOS. split; [lia|]. replace ((num_samples s * 4 + 4 * sv) `div` 4) with (num_samples s + sv) by dlia.
      rewrite (proj2 (Z.ltb_ge _ _)) by lia. replace (num_samples s + sv - num_samples s) with sv by lia.
      destruct (lookup_lt_is_Some_2 (turnon_mask x) (Z.to_nat sv)) as [w Hw]; [lia|]. exists w. split; [done|].
      rewrite (aget_in _ _ w) by (done || lia). by rewrite Hinv.
    - unfold off_addr, MAX_SERVOS. split; [lia|]. change ((4 * 0) `div` 4) with 0. rewrite (proj2 (Z.ltb_lt _ _)) by lia.
      destruct (lookup_lt_is_Some_2 (turnoff_mask x) (Z.to_nat 0)) as [w Hw]; [lia|]. by exists w. }
  eexists. split; [exact Hex|]. unfold dma_block. rewrite virt_phys by (done || (rewrite Hlen; apply L1; lia)). cbn [mbind option_bind].
  rewrite Hx. replace ((cb_addr (num_samples s) (Z.of_nat k) - cb_base (num_samples s)) `div` 32) with (Z.of_nat k) by (unfold cb_addr; dlia).
  rewrite Nat2Z.id, Hc. cbn [mbind option_bind]. rewrite Hsrc, virt_phys by (done || lia). cbn [mbind option_bind]. rewrite Hw. cbn [mbind option_bind].
  rewrite Hnext, Hdst. destruct o; cbn [op_cb dst]; [by destruct (invert s)|by destruct (invert s)|by destruct via_pcm].
Qed.

End ring.

(** ** Initialisation *)

(** A configuration of pins: every servo in use has a pin of its own. *)
Record config_ok (num_servos : Z) (s : SERVOD) : Prop := {
  cf_gpio : length (servo2gpio s) = 32%nat;
  cf_start : length (servostart s) = 32%nat;
  cf_width : length (servowidth s) = 32%nat;
  cf_kill : length (servo_kill_time s) = 32%nat;
  cf_idle : 0 <= idle_timeout s <= 3600000;
  cf_count : num_servos = Z.of_nat (used_below (servo2gpio s) 32);
  cf_some : 1 <= num_servos <= 31;
  cf_samples : 100 <= num_samples s;
  cf_pin k g : servo2gpio s !! k = Some g → g ≠ DMY → 0 <= g < 32;
  cf_pins j k g : servo2gpio s !! j = Some g → servo2gpio s !! k = Some g → g ≠ DMY → j = k
}.

Lemma masks_init num_servos s l m w :
  config_ok num_servos s → length w = 32%nat → (∀ k, (k < 32)%nat → w !! k = Some 0) →
  (∀ k g, (k < 32)%nat → servo2gpio s !! k = Some g → 0 <= g < 32 → Z.testbit m g = true) →
  length l = 32%nat →
  (∀ k, (k < 32)%nat → servo2gpio s !! k ≠ Some DMY →
    l !! k = Some (Z.of_nat (used_below (servo2gpio s) k) * (num_samples s `div` num_servos))) →
  let s' := set_servostart l (set_turnoff (replicate (Z.to_nat (num_samples s)) m) (set_servowidth w (set_turnon (replicate 32 0) s))) in
  masks_ok s' ∧ starts_ok s' (num_samples s `div` num_servos).
Proof.
  intros [C1 C2 C3 C4 C5 C6 C7 C8 C9 C10] Hw Hz Hm Hl Hst s'.
  assert (0 < num_samples s `div` num_servos) as Hd by (apply Z.div_str_pos; lia).
  pose proof (Z.mul_div_le (num_samples s) num_servos ltac:(lia)) as Hle.
  split.
  2: { split; try done; [cbn; lia|]. cbn. rewrite <- C6. lia. }
  split; cbn; rewrite ?length_replicate; try done; try lia.
  - unfold MAX_SERVOS. intros sv Hsv Hmap. destruct (lookup_lt_is_Some_2 (servo2gpio s) (Z.to_nat sv)) as [g Hg]; [lia|].
    assert (g ≠ DMY) as Hd'. { intros ->. by apply Hmap. } pose proof (C9 _ _ Hg Hd') as Hgr.
    pose proof (Hst (Z.to_nat sv) ltac:(lia) Hmap) as Hs.
    pose proof (used_below_lt (servo2gpio s) (Z.to_nat sv) 32 ltac:(lia) Hmap) as Hu.
    exists g, (Z.of_nat (used_below (servo2gpio s) (Z.to_nat sv)) * (num_samples s `div` num_servos)), 0.
    split; cbn; try done; unfold MAX_SERVOS; try lia.
    + nia.
    + apply Hz. lia.
    + exists 0. split; [apply (lookup_replicate_2 32 0); lia|]. auto.
    + intros p Hp. unfold off_bit. cbn. pose proof (at_pos_range (num_samples s)
        (Z.of_nat (used_below (servo2gpio s) (Z.to_nat sv)) * (num_samples s `div` num_servos)) p ltac:(lia)).
      rewrite lookup_total_replicate_2 by lia. rewrite (Hm (Z.to_nat sv) g) by (done || lia). lia.
  - unfold MAX_SERVOS. intros sv sv' g H1 H2 Hd' Hg Hg'. pose proof (C10 _ _ _ Hg Hg' Hd'). lia.
Qed.

(** [init_ctrl_data] up to its loop over the samples. *)
Lemma init_ctrl_data_masks page_map via_pcm past num_servos s :
  config_ok num_servos s →
  ∃ s2 b, init_ctrl_data page_map via_pcm past num_servos s =
      ('(cb, cbp, _) ← forM (seqZ 0 (num_samples s2)) (cb_sample page_map via_pcm past s2) (replicate (Z.to_nat (num_cbs (num_samples s2))) cb_zero, 0, Z.of_nat b);
       first ← mem_virt_to_phys page_map (cb_base (num_samples s2));
       c ← aget cb (cbp - 1);
       cb ← aset cb (cbp - 1) (set_next first c);
       Ok (s2, cb)) ∧
    masks_ok s2 ∧ starts_ok s2 (num_samples s `div` num_servos) ∧ next_start s2 (num_samples s `div` num_servos) 0 b ∧
    used_below (servo2gpio s) b = 0%nat ∧ (∀ k, (k < 32)%nat → servowidth s2 !! k = Some 0) ∧ turnon_mask s2 = replicate 32 0 ∧
    servo2gpio s2 = servo2gpio s ∧ num_samples s2 = num_samples s.
Proof.
  intros Hc. pose proof Hc as [C1 C2 C3 C4 C5 C6 C7 C8 C9 C10]. unfold init_ctrl_data.
  destruct (init_widths_ok (set_turnon (replicate 32 0) s) 32 C1 C3 ltac:(lia)) as (w & m & E1 & Hw & Hz & Hm).
  change (init_widths (set_turnon (replicate 32 0) s) = Ok (set_servowidth w (set_turnon (replicate 32 0) s), m)) in E1.
  cbv zeta. rewrite E1, bind_ok.
  set (s1 := set_turnoff _ _). destruct (init_starts_ok num_servos s1 32 C1 C2 ltac:(lia) ltac:(lia) ltac:(cbn; lia)) as (l & E2 & Hl & Hst).
  match type of E2 with _ = ?r => change (init_starts num_servos s1 = r) in E2 end. rewrite E2, bind_ok.
  destruct (masks_init num_servos s l m w Hc Hw Hz Hm Hl Hst) as [HK HS]. cbv zeta in HK, HS. fold s1 in HK, HS.
  set (s2 := set_servostart l s1) in *.
  destruct (skip_unmapped_ok s2 32 0 C1 ltac:(lia) ltac:(lia)) as (b & E3 & Hb1 & Hb2 & Hb3). rewrite used_below_0 in Hb2.
  change (Z.of_nat 0) with 0 in E3. rewrite E3, bind_ok. exists s2, b. split; [done|]. split; [done|]. split; [done|].
  split; [|by split_and!]. split; [lia|done| |].
  - intros k Hk Hm'. pose proof (used_below_lt _ _ _ Hk Hm'). lia.
  - intros _. rewrite Hb2. done.
Qed.

Lemma init_ctrl_data_ok page_map via_pcm past num_servos s :
  config_ok num_servos s → pages_ok page_map → Z.of_nat (length page_map) = num_pages (num_samples s) →
  past_ok past (num_samples s) →
  ∃ s' cb, init_ctrl_data page_map via_pcm past num_servos s = Ok (s', cb) ∧ masks_ok s' ∧
    (∀ k, (k < 32)%nat → servowidth s' !! k = Some 0) ∧ servo2gpio s' = servo2gpio s ∧ num_samples s' = num_samples s ∧
    ring_of page_map via_pcm s' cb ∧ Z.of_nat (length (ring_ops s')) < num_cbs (num_samples s') ∧
    turnon_mask s' = replicate 32 0 ∧ starts_ok s' (num_samples s `div` num_servos).
Proof.
  intros Hc Hp Hlen Hpast. pose proof Hc as [C1 C2 C3 C4 C5 C6 C7 C8 C9 C10].
  destruct (init_ctrl_data_masks page_map via_pcm past num_servos s Hc) as (s2 & b & -> & HK & HS & Hns & Hb2 & Hz & Hon & Hg & HN).
  rewrite <- Hg in Hb2. rewrite <- HN in Hpast, Hlen.
  destruct (cb_samples_cases page_map via_pcm past Hp s2 _ (Z.to_nat (num_samples s2)) b Hlen (or_introl Hpast) HS ltac:(lia) Hns Hb2)
    as [(f & Ef & _)|(cb & b' & E4 & Hb4 & Henc & Hcnt)]; [destruct Hpast as (v & Ev & _); congruence|].
  rewrite Z2Nat.id in * by lia. rewrite E4, bind_ok.
  pose proof (used_below_mono (servo2gpio s2) b' 32 ltac:(apply Hb4)) as Hub. rewrite Hg in Hub, Hcnt.
  change (prefix_ops s2 (num_samples s2)) with (ring_ops s2) in *.
  destruct (length (ring_ops s2)) as [|n] eqn:En; [lia|].
  destruct (close_ring page_map via_pcm Hp s2 cb n Hlen ltac:(lia) Henc En) as (cb' & E5 & Hring).
  { unfold num_cbs, MAX_SERVOS. lia. }
  rewrite E5. exists s2, cb'. do 6 (split; [done|]). split; [|done]. rewrite En. unfold num_cbs, MAX_SERVOS. lia.
Qed.

(** At least two samples lie between two starts, so the last sample of a
    cycle comes after every start, and the array is read past its end. *)
Lemma init_ctrl_data_reads_past page_map via_pcm past num_servos s f :
  config_ok num_servos s → pages_ok page_map → Z.of_nat (length page_map) = num_pages (num_samples s) →
  past MAX_SERVOS = Fault f → init_ctrl_data page_map via_pcm past num_servos s = Fault f.
Proof.
  intros Hc Hp Hlen Hpast. pose proof Hc as [C1 C2 C3 C4 C5 C6 C7 C8 C9 C10].
  destruct (init_ctrl_data_masks page_map via_pcm past num_servos s Hc) as (s2 & b & -> & HK & HS & Hns & Hb2 & Hz & Hon & Hg & HN).
  rewrite <- Hg in Hb2. rewrite <- HN in Hlen. set (N := num_samples s2) in *.
  destruct (cb_samples_cases page_map via_pcm past Hp s2 _ (Z.to_nat N) b Hlen (or_intror (ex_intro _ f Hpast)) HS ltac:(lia) Hns Hb2)
    as [(f' & Ef & E)|(cb & b' & E & _)].
  { assert (f' = f) as -> by congruence. rewrite Z2Nat.id in E by lia. fold N in E. by rewrite E. }
  exfalso. replace (Z.to_nat N) with (S (Z.to_nat (N - 1))) in E by lia. rewrite seqZ_S, forM_app in E.
  destruct (cb_samples_cases page_map via_pcm past Hp s2 _ (Z.to_nat (N - 1)) b Hlen (or_intror (ex_intro _ f Hpast)) HS ltac:(lia) Hns Hb2)
    as [(f' & _ & E')|(cb1 & b1 & E' & H1 & H2 & H3)]; rewrite E' in E; [done|]. rewrite bind_ok, Z.add_0_l in E. cbn [forM] in E.
  rewrite (cb_sample_faults page_map via_pcm past Hp s2 _ cb1 b1 f) in E; [done| |done|done|lia|done|lia|].
  - destruct H1 as [B1 B2 B3 B4]. destruct (decide (b1 < 32)%nat) as [Hlt|]; [exfalso|lia]. specialize (B4 Hlt).
    destruct B2 as [->|B2]; [lia|]. pose proof (used_below_lt (servo2gpio s2) b1 32 Hlt B2) as Hu. rewrite Hg in Hu, B4.
    pose proof (Z.mul_div_le (num_samples s) num_servos ltac:(lia)) as Hle.
    assert (2 <= num_samples s `div` num_servos) as Hd by (apply Z.div_le_lower_bound; lia). nia.
  - rewrite H3. pose proof (used_below_mono (servo2gpio s2) b1 32 ltac:(apply H1)) as Hu. rewrite Hg in Hu |- *. lia.
Qed.

(** C21: [init_ctrl_data], for 1 to 31 servos on different pins, at least 100
    samples and pages at any physical addresses.  After the block of the last
    servo it reads the array of starts past its end, in every run: when that
    read is a fault, so is the call.  When it gives a word that is not a
    sample still to come, the control blocks form a ring that makes the DMA
    controller do exactly the operations of the samples in order, over and
    over: from the block of any operation the controller does that operation
    on the masks as they are then, and goes on to the block of the next one.
    The masks are left well formed with all widths zero. *)
Theorem dma_ring_runs page_map via_pcm past num_servos s :
  config_ok num_servos s → pages_ok page_map → Z.of_nat (length page_map) = num_pages (num_samples s) →
  (∀ f, past MAX_SERVOS = Fault f → init_ctrl_data page_map via_pcm past num_servos s = Fault f) ∧
  (past_ok past (num_samples s) →
    ∃ s' cb, init_ctrl_data page_map via_pcm past num_servos s = Ok (s', cb) ∧ masks_ok s' ∧
      (∀ k, (k < 32)%nat → servowidth s' !! k = Some 0) ∧
      ∀ x k o, ring_ops s' !! k = Some o → num_samples x = num_samples s' → invert x = invert s' →
        Z.of_nat (length (turnoff_mask x)) = num_samples s' → length (turnon_mask x) = 32%nat →
        ∃ x', exec_op o x = Ok x' ∧
          dma_block page_map x cb (phys page_map (cb_addr (num_samples s') (Z.of_nat k))) =
            Some (x', phys page_map (cb_addr (num_samples s') ((Z.of_nat k + 1) `mod` Z.of_nat (length (ring_ops s')))))).
Proof.
  intros Hc Hp Hlen. split; [intros f; by apply init_ctrl_data_reads_past|]. intros Hpast.
  destruct (init_ctrl_data_ok page_map via_pcm past num_servos s Hc Hp Hlen Hpast)
    as (s' & cb & E & HK & Hz & _ & HN & Hring & Hcnt & _).
  exists s', cb. split; [done|]. split; [done|]. split; [done|]. intros x k o Ho Hx Hinv Hoff Hon.
  eapply ring_step; try done; [by rewrite HN|]. apply HK.
Qed.

(** ** Calls of [set_servo] *)

Definition set_all (calls : list (timeval * Z * Z)) (s : SERVOD) : res SERVOD :=
  forM calls (λ '(now, servo, width), set_servo now servo width) s.

(** The width that the last call for a servo asks for. *)
Fixpoint last_width (servo : Z) (calls : list (timeval * Z * Z)) (width : Z) : Z :=
  match calls with
  | [] => width
  | (_, sv, w) :: calls => last_width servo calls (if sv =? servo then w else width)
  end.

Definition call_ok (s : SERVOD) (c : timeval * Z * Z) : Prop :=
  clock_ok c.1.1 ∧ 0 <= c.1.2 < MAX_SERVOS ∧ mapped s c.1.2 ∧ 0 <= c.2 <= num_samples s.

Definition on_mask (g w : Z) : Z := if w =? 0 then 0 else gpio_bit g.

Lemma set_all_ok calls s :
  masks_ok s → Forall (call_ok s) calls →
  ∃ s', set_all calls s = Ok s' ∧ masks_ok s' ∧ servo2gpio s' = servo2gpio s ∧ servostart s' = servostart s ∧ num_samples s' = num_samples s ∧
    ∀ sv g w, 0 <= sv < MAX_SERVOS → servo2gpio s !! Z.to_nat sv = Some g → servowidth s !! Z.to_nat sv = Some w →
      turnon_mask s !! Z.to_nat sv = Some (on_mask g w) →
      servowidth s' !! Z.to_nat sv = Some (last_width sv calls w) ∧ turnon_mask s' !! Z.to_nat sv = Some (on_mask g (last_width sv calls w)).
Proof.
  revert s. induction calls as [|[[now sv0] w0] calls IH]; intros s HK Hall; [by exists s|].
  apply Forall_cons in Hall as [(C1 & C2 & C3 & C4) Hall]. cbn [fst snd] in *. unfold set_all. cbn [forM].
  destruct (set_servo_ok now sv0 w0 s HK C2 C3 C4 C1) as (s1 & -> & HK1 & Ew & Eon & Eg & Est & EN & _). rewrite bind_ok.
  destruct (IH s1 HK1) as (s' & E & HK' & Fg & Fst & FN & Hw).
  { eapply Forall_impl; [exact Hall|]. intros c (A1 & A2 & A3 & A4). unfold call_ok, mapped. by rewrite Eg, EN. }
  exists s'. split; [exact E|]. split; [done|]. split; [congruence|]. split; [congruence|]. split; [congruence|].
  intros sv g w Hsv Hg Hold Hon. pose proof (mk_width _ HK) as L1. pose proof (mk_on _ HK) as L2. unfold MAX_SERVOS in *.
  cbn [last_width]. apply Hw; [done|congruence| |].
  - rewrite Ew. destruct (Z.eqb_spec sv0 sv) as [->|]; [apply list_lookup_insert_eq; lia|by rewrite list_lookup_insert_ne by lia].
  - rewrite Eon. destruct (Z.eqb_spec sv0 sv) as [->|]; [|by rewrite list_lookup_insert_ne by lia].
    rewrite list_lookup_insert_eq by lia. by rewrite (list_lookup_total_correct _ _ g).
Qed.

(** C19: the pulse train.  From the masks that [init_ctrl_data] leaves for 1
    to 31 servos on different pins, when its read past the array of starts
    gives a word that is not a sample still to come, after any sequence of calls of [set_servo] for servos in use and widths of at
    most a cycle, every such servo is active, from the second cycle of the
    controller on and however the pins were before, at exactly the first [w]
    samples of every period that begins at its start.  Here [w] is the width
    of the last call for it, 0 without one, and the servos start one after
    the other, a cycle divided by the number of servos apart. *)
Theorem pulse_train page_map via_pcm past num_servos s0 calls n :
  config_ok num_servos s0 → pages_ok page_map → Z.of_nat (length page_map) = num_pages (num_samples s0) →
  past_ok past (num_samples s0) → Forall (call_ok s0) calls → num_samples s0 <= n →
  ∃ s cb s' v, init_ctrl_data page_map via_pcm past num_servos s0 = Ok (s, cb) ∧ set_all calls s = Ok s' ∧
    run_samples n s' = Ok (set_level v s') ∧
    ∀ sv g, (sv < 32)%nat → servo2gpio s0 !! sv = Some g → g ≠ DMY →
      let start := Z.of_nat (used_below (servo2gpio s0) sv) * (num_samples s0 `div` num_servos) in
      active g (set_level v s') = ((n - 1 - start) `mod` num_samples s0 <? last_width (Z.of_nat sv) calls 0).
Proof.
  intros Hc Hp Hlen Hpast Hall Hn. pose proof (cf_samples _ _ Hc) as Hmin.
  destruct (init_ctrl_data_ok page_map via_pcm past num_servos s0 Hc Hp Hlen Hpast)
    as (s & cb & E & HK & Hz & Hg & HN & _ & _ & Hon & [H1 H2 H3 H4 H5]).
  destruct (set_all_ok calls s HK) as (s' & E' & HK' & Fg & Fst & FN & Hw).
  { eapply Forall_impl; [exact Hall|]. intros c. unfold call_ok, mapped. by rewrite Hg, HN. }
  destruct (run_samples_ok s' (Z.to_nat n) HK') as (v & Er & Ha). rewrite Z2Nat.id in Er, Ha by lia.
  exists s, cb, s', v. do 3 (split; [done|]). intros sv g Hsv Hgpio Hd start. rewrite Hg in H5.
  assert (servostart s !! sv = Some start) as Hstart. { apply (H5 sv Hsv). by rewrite Hgpio; intros [=]. }
  destruct (Hw (Z.of_nat sv) g 0) as [W1 W2]; [unfold MAX_SERVOS; lia|by rewrite Nat2Z.id, Hg|rewrite Nat2Z.id; by apply Hz|
    rewrite Nat2Z.id, Hon; by apply lookup_replicate_2|]. rewrite <- HN, <- FN.
  assert (servo_ok s' (Z.of_nat sv) g start (last_width (Z.of_nat sv) calls 0)) as HS.
  { apply servo_ok_intro; rewrite ?Nat2Z.id; try done; [lia|by rewrite Fg, Hg|by rewrite Fst|by rewrite Nat2Z.id in W1]. }
  apply (Ha (Z.of_nat sv) g start); [done|destruct HS; lia|]. unfold lit. rewrite (list_lookup_total_correct _ _ _ W2). unfold on_mask.
  pose proof (sv_width_range _ _ _ _ _ HS). pose proof (sv_pin _ _ _ _ _ HS). destruct (Z.eqb_spec (last_width (Z.of_nat sv) calls 0) 0) as [->|Hne].
  - by rewrite Z.bits_0.
  - rewrite testbit_gpio_bit, bool_decide_true by lia. lia.
Qed.

(** *** A daemon with two servos *)

Definition example_config : SERVOD :=
  mkServod ([4; 17] ++ replicate 30 DMY) (replicate 32 0) (replicate 32 7) 100 [] [] (replicate 32 (mkTime 0 0)) 0 false (replicate 6 0) 0.
Definition example_pages : list Z := [0x5000; 0x40003000].

Lemma example_config_ok : config_ok 2 example_config.
Proof.
  assert (∀ k g, servo2gpio example_config !! k = Some g → g ≠ DMY → k = 0%nat ∧ g = 4 ∨ k = 1%nat ∧ g = 17) as H.
  { intros k g Hk Hd. destruct k as [|[|k]]; cbn [servo2gpio example_config] in Hk; [naive_solver..|].
    change (replicate 30 DMY !! k = Some g) in Hk. apply lookup_replicate in Hk as [-> _]. done. }
  split; try reflexivity; try (cbn; lia).
  - intros k g Hk Hd. destruct (H k g Hk Hd) as [[_ ->]|[_ ->]]; lia.
  - intros j k g Hj Hk Hd. destruct (H j g Hj Hd) as [[-> ->]|[-> ->]], (H k _ Hk Hd) as [[? ?]|[? ?]]; done.
Qed.

Lemma example_pages_ok : pages_ok example_pages.
Proof.
  split; [by apply (bool_decide_unpack _)|]. intros a Ha. unfold example_pages in Ha. set_unfold in Ha.
  destruct Ha as [->|[->|[]]]; unfold PAGE_SIZE; repeat split; lia.
Qed.

(** The word behind the array of starts is 0. *)
Definition no_sample (_ : Z) : res Z := Ok 0.

Lemma no_sample_ok N : past_ok no_sample N.
Proof. exists 0. split; [done|]. lia. Qed.

(** After initialisation, with the widths 15 and 40. *)
Definition example_daemon : SERVOD :=
  match ('(s, _) ← init_ctrl_data example_pages false no_sample 2 example_config;
         s ← set_servo (mkTime 0 0) 0 15 s; set_servo (mkTime 0 0) 1 40 s) with
  | Ok s => s
  | Fault _ => example_config
  end.

#[local] Opaque init_ctrl_data set_servo example_daemon run_samples.

Lemma example_daemon_ok : masks_ok example_daemon ∧ servo_ok example_daemon 0 4 0 15 ∧ servo_ok example_daemon 1 17 50 40.
Proof.
  destruct (init_ctrl_data_ok example_pages false no_sample 2 example_config example_config_ok example_pages_ok)
    as (s0 & cb & E0 & HK0 & _ & Hg & HN & _); [vm_compute; reflexivity|apply no_sample_ok|].
  assert (∀ s sv, servo2gpio s = servo2gpio example_config → sv = 0 ∨ sv = 1 → mapped s sv) as Hmap.
  { intros s sv E [->| ->]; unfold mapped; rewrite E; done. }
  destruct (set_servo_ok (mkTime 0 0) 0 15 s0 HK0) as (s1 & E1 & HK1 & _ & _ & Hg1 & _ & HN1 & _);
    [unfold MAX_SERVOS; lia|apply Hmap; [exact Hg|left; reflexivity]|rewrite HN; change (num_samples example_config) with 100; lia|by split; cbn; lia|].
  destruct (set_servo_ok (mkTime 0 0) 1 40 s1 HK1) as (s2 & E2 & HK2 & _);
    [unfold MAX_SERVOS; lia|apply Hmap; [congruence|right; reflexivity]|rewrite HN1, HN; change (num_samples example_config) with 100; lia|by split; cbn; lia|].
  assert (example_daemon = s2) as Es by (with_strategy transparent [example_daemon] unfold example_daemon; by rewrite E0, bind_ok, E1, bind_ok, E2).
  rewrite <- Es in HK2. clear - HK2. split; [exact HK2|].
  split; (apply servo_ok_intro; [exact HK2|lia|unfold DMY; lia|vm_compute; reflexivity..]).
Qed.

Lemma dma_ring_runs_witness :
  (∃ s' cb, init_ctrl_data example_pages false no_sample 2 example_config = Ok (s', cb) ∧ masks_ok s' ∧
    servowidth s' !! 1%nat = Some 0) ∧
  init_ctrl_data example_pages false (λ _, Fault OutOfBounds) 2 example_config = Fault OutOfBounds.
Proof.
  split.
  - destruct (dma_ring_runs example_pages false no_sample 2 example_config example_config_ok example_pages_ok) as [_ H]; [vm_compute; reflexivity|].
    destruct (H (no_sample_ok _)) as (s' & cb & E & HK & Hz & _). exists s', cb. split; [exact E|]. split; [exact HK|]. apply Hz. lia.
  - apply (dma_ring_runs example_pages false (λ _, Fault OutOfBounds) 2 example_config example_config_ok example_pages_ok); [vm_compute|]; reflexivity.
Defined.

Lemma pulse_train_witness :
  ∃ s cb s' v, init_ctrl_data example_pages false no_sample 2 example_config = Ok (s, cb) ∧
    set_all [(mkTime 5 0, 0, 90); (mkTime 6 0, 1, 40); (mkTime 7 0, 0, 15)] s = Ok s' ∧ run_samples 190 s' = Ok (set_level v s') ∧
    active 4 (set_level v s') = false ∧ active 17 (set_level v s') = true.
Proof.
  destruct (pulse_train example_pages false no_sample 2 example_config [(mkTime 5 0, 0, 90); (mkTime 6 0, 1, 40); (mkTime 7 0, 0, 15)] 190)
    as (s & cb & s' & v & E1 & E2 & E3 & H).
  - exact example_config_ok.
  - exact example_pages_ok.
  - vm_compute. reflexivity.
  - apply no_sample_ok.
  - rewrite Forall_forall. intros c Hc. set_unfold in Hc. unfold call_ok, clock_ok, MAX_SERVOS, mapped.
    destruct Hc as [->|[->|[->|[]]]]; cbn; split_and!; done || lia.
  - cbn. lia.
  - exists s, cb, s', v. do 3 (split; [assumption|]). split.
    + rewrite (H 0%nat 4); [vm_compute; reflexivity|lia|reflexivity|done].
    + rewrite (H 1%nat 17); [vm_compute; reflexivity|lia|reflexivity|done].
Defined.

(** ** Changes of the width *)

(** C20: a pulse is never made too short or too long by a widening: while
    [set_servo] clears the samples that a wider pulse gains, in any
    interleaving of its stores with the operations of the controller and
    wherever the controller is in its cycle, every pulse that ends has the old
    or the new width. *)
Theorem set_servo_widening s sv g start old width l d t ws' s' d' :
  masks_ok s → servo_ok s sv g start old → old < width <= num_samples s → set_servo_stores sv width s = Ok l →
  in_step s g start old d t → pulses d = [] → rtc (sys_step g) (l, s, d) (ws', s', d') →
  Forall (λ n, n = old ∨ n = width) (pulses d').
Proof.
  intros HK HS Hw Hl Hin Hp Hr. pose proof (sv_width_range _ _ _ _ _ HS) as Ho.
  rewrite (set_servo_stores_spec s sv g start old width) in Hl by (done || lia). injection Hl as <-.
  eapply (interleaved_run sv g start (widening s sv g start old width)) in Hr; [exact Hr|..].
  - intros. eapply widening_window; [done..| |done]. lia.
  - intros ws x lo hi v []; [apply wide_more|apply wide_end]; try done; by apply changing_level.
  - intros w ws x x' lo hi HJ. eapply widening_store; [done..| |done]. lia.
  - intros ws x lo hi n [] ??; cbn; lia.
  - exists old, old, t. cbn [fst snd]. rewrite Hp. split; [|by split].
    assert (lost (num_samples s) start old width = []) as -> by (unfold lost; by rewrite seqZ_nil by lia).
    apply wide_more; [lia| |done]. eapply changing_ext; [by apply (changing_refl s sv g start old)|]. intros p Hpr. cbn.
    destruct (Z.leb_spec old p), (Z.leb_spec width p), (Z.ltb_spec p width); cbn; try done; lia.
Qed.


(** The controller in step with servo 0 of the example, at sample [i] of its
    pulse. *)
Definition example_dma (i : Z) (s : SERVOD) : dma := mkDma i (sample_ops s i) (Some i) [].

Lemma set_servo_widening_witness :
  let s := set_level 16 example_daemon in
  ∃ l s' d', set_servo_stores 0 30 s = Ok l ∧
    rtc (sys_step 4) (l, s, example_dma 5 s) ([], s', d') ∧ pulses d' = [30] ∧ Forall (λ n, n = 15 ∨ n = 30) (pulses d').
Proof.
  intros s. destruct example_daemon_ok as (HK & H1 & _).
  assert (∃ l, set_servo_stores 0 30 s = Ok l) as [l El] by (eexists; vm_compute; reflexivity).
  assert (∃ s' d', sys_run 4 (replicate 25 false ++ replicate 16 true ++ replicate 200 false) (l, s, example_dma 5 s) = Some ([], s', d') ∧
    pulses d' = [30]) as (s' & d' & Er & Ep).
  { assert (l = match set_servo_stores 0 30 s with Ok l => l | Fault _ => [] end) as -> by (rewrite El; reflexivity).
    eexists _, _. split; [vm_compute; reflexivity|reflexivity]. }
  apply sys_run_steps in Er. exists l, s', d'. split; [exact El|]. split; [exact Er|]. split; [exact Ep|].
  refine (set_servo_widening s 0 4 0 15 30 l (example_dma 5 s) Fresh [] s' d' (set_level_ok _ _ HK) (set_level_servo _ _ _ _ _ _ H1) _ El _ eq_refl Er).
  - vm_compute. split; [reflexivity|intros [=]].
  - split.
    + vm_compute. split; [intros [=]|reflexivity].
    + reflexivity.
    + vm_compute. reflexivity.
    + intros n [= <-]. vm_compute. repeat split; intros; discriminate.
Defined.

(** A narrowing that comes in the middle of a pulse: neither the old width 15
    nor the new width 5. *)
Example narrowing_cuts_pulse :
  let s := set_level 16 example_daemon in
  ∃ l s' d', set_servo_stores 0 5 s = Ok l ∧ rtc (sys_step 4) (l, s, example_dma 9 s) ([], s', d') ∧ pulses d' = [9].
Proof.
  eexists _, _, _. split; [vm_compute; reflexivity|].
  split; [apply (sys_run_steps 4 (replicate 11 true ++ replicate 1 false)); vm_compute; reflexivity|reflexivity].
Qed.

End Ring.
