(* ===== verification/ServodCmd.v ===== *)
(** * The commands of the servo daemon

    Models the loop of servod.c (src/main/components/servoBlaster): the bytes
    written to the device are collected to lines, a line names a servo or a
    pin and a width, the width is parsed and checked and handed to
    [set_servo]; servos that have not been updated for a while are turned off.
    The functions of the C library are modelled as far as the code uses them:
    [strtod] on text that begins with a digit, [sscanf] with the two formats
    of the code.  [long] has 32 bits on the target. *)
From Stdlib Require Import SpecFloat.
From S2P Require Import Prelude CubFloat NuttxString ServodPulse ServodRing.

#[local] Open Scope Z_scope.

Module Cmd.
Import Pulse Float.

(** ** Idle times *)

Definition time_le (t u : timeval) : bool := (tv_sec t <? tv_sec u) || (tv_sec t =? tv_sec u) && (tv_usec t <=? tv_usec u).

Definition idle_check (now : timeval) (i : Z) (st : SERVOD * timeval) : res (SERVOD * timeval) :=
  let '(s, min) := st in
  g ← aget (servo2gpio s) i;
  t ← aget (servo_kill_time s) i;
  if (g =? DMY) || (tv_sec t =? 0) then Ok (s, min)
  else if time_le t now then
    l ← aset (servo_kill_time s) i (mkTime 0 (tv_usec t));
    s ← set_servo_idle i (set_kill l s);
    Ok (s, min)
  else
    a ← int32 (tv_sec t - tv_sec now);
    a ← int32 (a * 1000000);
    a ← int32 (a + tv_usec t);
    this_diff ← int32 (a - tv_usec now);
    b ← int32 (tv_sec min * 1000000);
    min_diff ← int32 (b + tv_usec min);
    Ok (s, if this_diff <? min_diff then mkTime (this_diff `quot` 1000000) (this_diff `rem` 1000000) else min).

Definition get_next_idle_timeout (now : timeval) (s : SERVOD) : res (SERVOD * timeval) :=
  forM (seqZ 0 MAX_SERVOS) (idle_check now) (s, mkTime 60 0).

(** ** Numbers *)

(** An integer of at most 53 bits as a double, and the double nearest to
    [n / d]: enough bits of the quotient, the last one telling whether there
    are more, rounded once. *)
Definition dint (n : Z) : double :=
  match n with Z0 => S754_zero false | Zpos p => S754_finite false p 0 | Zneg p => S754_finite true p 0 end.
Definition dquot (n d : Z) : double :=
  if (d =? 1) && (n <? 2 ^ 53) then dint n
  else
    let k := Z.max 0 (Z.log2 d - Z.log2 n + 60) in
    let q := Z.shiftl n k `div` d in
    let sticky := if q * d =? Z.shiftl n k then 0 else 1 in
    dscale (2 * q + sticky) (- (k + 1)).

Definition digit (c : Z) : bool := (48 <=? c) && (c <=? 57).
Definition hex_digit (c : Z) : option Z :=
  if digit c then Some (c - 48)
  else if (97 <=? c) && (c <=? 102) then Some (c - 87)
  else if (65 <=? c) && (c <=? 70) then Some (c - 55)
  else None.

(** The digits at the front, in base 10 or 16: their value after [acc], their
    number after [n] and the rest. *)
Fixpoint take_digits (base acc n : Z) (l : list Z) : Z * Z * list Z :=
  match l with
  | c :: l' =>
      match (if base =? 16 then hex_digit c else if digit c then Some (c - 48) else None) with
      | Some d => take_digits base (acc * base + d) (n + 1) l'
      | None => (acc, n, l)
      end
  | [] => (acc, n, [])
  end.

(** A fraction after a point, and an exponent after one of two letters. *)
Definition take_fraction (base acc : Z) (l : list Z) : Z * Z * list Z :=
  match l with
  | 46 :: l' => take_digits base acc 0 l'
  | _ => (acc, 0, l)
  end.
Definition take_exponent (a b : Z) (l : list Z) : Z * list Z :=
  match l with
  | c :: l' =>
      if (c =? a) || (c =? b) then
        let '(sign, l1) := match l' with 45 :: r => (-1, r) | 43 :: r => (1, r) | _ => (1, l') end in
        let '(e, n, r) := take_digits 10 0 0 l1 in
        if n =? 0 then (0, l) else (sign * e, r)
      else (0, l)
  | [] => (0, l)
  end.

Definition dpower (mant base e : Z) : double :=
  if 0 <=? e then dquot (mant * base ^ e) 1 else dquot mant (base ^ (- e)).

(** [strtod] on text that begins with a digit. *)
Definition strtod (l : list Z) : double * list Z :=
  let hex :=
    match l with
    | 48 :: x :: r =>
        if (x =? 120) || (x =? 88) then
          let '(m, n, r1) := take_digits 16 0 0 r in
          let '(m, f, r2) := take_fraction 16 m r1 in
          if n + f =? 0 then None
          else let '(e, r3) := take_exponent 112 80 r2 in Some (dpower m 2 (e - 4 * f), r3)
        else None
    | _ => None
    end in
  match hex with
  | Some v => v
  | None =>
      let '(m, _, r1) := take_digits 10 0 0 l in
      let '(m, f, r2) := take_fraction 10 m r1 in
      let '(e, r3) := take_exponent 101 69 r2 in
      (dpower m 10 (e - f), r3)
  end.

(** A double compared with an integer. *)
Definition dcmp (x : double) (n : Z) : option comparison :=
  match x with
  | S754_zero _ => Some (0 ?= n)
  | S754_infinity s => Some (if s then Lt else Gt)
  | S754_nan => None
  | S754_finite s m e =>
      let v := if s then Z.neg m else Z.pos m in
      Some (if 0 <=? e then v * 2 ^ e ?= n else v ?= n * 2 ^ (- e))
  end.
Definition dlt (x : double) (n : Z) : bool := match dcmp x n with Some Lt => true | _ => false end.
Definition dgt (x : double) (n : Z) : bool := match dcmp x n with Some Gt => true | _ => false end.
Definition deq (x : double) (n : Z) : bool := match dcmp x n with Some Eq => true | _ => false end.

Definition dfloor (x : double) : double :=
  match x with
  | S754_finite s m e => if 0 <=? e then x else dint ((if s then Z.neg m else Z.pos m) `div` 2 ^ (- e))
  | _ => x
  end.

(** ** Widths *)

(** The limits of the widths and the size of a step. *)
Record LIMITS := mkLimits { servo_min_ticks : Z; servo_max_ticks : Z; step_time_us : Z }.

Definition parse_width (c : LIMITS) (s : SERVOD) (servo : Z) (width_arg : list Z) : res Z :=
  let signed := match width_arg with x :: _ => (x =? 45) || (x =? 43) | [] => false end in
  let digits := if signed then tail width_arg else width_arg in
  match digits with
  | [] => Ok (-1)
  | d :: _ =>
      if negb (digit d) then Ok (-1)
      else
        let '(width, p) := strtod digits in
        let scaled :=
          match p with
          | [] => Some width
          | _ =>
              if decide (p = Str.bytes "us") then Some (ddiv width (dint (step_time_us c)))
              else if decide (p = Str.bytes "%") then
                Some (dadd (ddiv (dmul width (dint (servo_max_ticks c - servo_min_ticks c))) (dint 100)) (dint (servo_min_ticks c)))
              else None
          end in
        match scaled with
        | None => Ok (-1)
        | Some width =>
            let width := dfloor width in
            old ← aget (servowidth s) servo;
            let width :=
              match width_arg with
              | 43 :: _ =>
                  let width := dadd (dint old) width in
                  if dgt width (servo_max_ticks c) then dint (servo_max_ticks c) else width
              | 45 :: _ =>
                  let width := dsub (dint old) width in
                  if dlt width (servo_min_ticks c) then dint (servo_min_ticks c) else width
              | _ => width
              end in
            if deq width 0 then to_int width
            else if dlt width (servo_min_ticks c) || dgt width (servo_max_ticks c) then Ok (-1)
            else to_int width
        end
  end.

(** ** Lines *)

Definition space (c : Z) : bool := (c =? 32) || (9 <=? c) && (c <=? 13).
Fixpoint skip_space (l : list Z) : list Z :=
  match l with c :: l' => if space c then skip_space l' else l | [] => [] end.

(** The conversions of [sscanf]: [%d], a literal character, [%s]. *)
Definition scan_int (l : list Z) : option (Z * list Z) :=
  let l := skip_space l in
  let '(sign, r) := match l with 45 :: r => (-1, r) | 43 :: r => (1, r) | _ => (1, l) end in
  let '(v, n, r) := take_digits 10 0 0 r in
  if n =? 0 then None else Some (Z.max (- LONG_MAX - 1) (Z.min LONG_MAX (sign * v)), r).
Definition scan_char (c : Z) (l : list Z) : option (list Z) :=
  match l with x :: r => if x =? c then Some r else None | [] => None end.
Fixpoint word_of (l : list Z) : list Z :=
  match l with c :: l' => if space c then [] else c :: word_of l' | [] => [] end.
Definition scan_word (l : list Z) : option (list Z) :=
  match word_of (skip_space l) with [] => None | w => Some w end.

(** The word is stored with its terminator in [width_arg[64]]. *)
Definition store_word (w : list Z) : res (list Z) := if Z.of_nat (length w) <? 64 then Ok w else Fault OutOfBounds.

(** [sscanf(line+1, "%d-%d=%s", &hdr, &pin, width_arg) == 3] and
    [sscanf(line, "%d=%s", &servo, width_arg) == 2]. *)
Definition scan_pin (l : list Z) : res (option (Z * Z * list Z)) :=
  match ('(hdr, r) ← scan_int l; r ← scan_char 45 r; '(pin, r) ← scan_int r; r ← scan_char 61 r; w ← scan_word r; Some (hdr, pin, w)) with
  | None => Ok None
  | Some (hdr, pin, w) => w ← store_word w; Ok (Some (hdr, pin, w))
  end.
Definition scan_servo (l : list Z) : res (option (Z * list Z)) :=
  match ('(servo, r) ← scan_int l; r ← scan_char 61 r; w ← scan_word r; Some (servo, w)) with
  | None => Ok None
  | Some (servo, w) => w ← store_word w; Ok (Some (servo, w))
  end.

(** What the daemon prints. *)
Inductive message : Type :=
  | BadInput (line : list Z)
  | InvalidHeader (hdr : Z)
  | InvalidPin (hdr pin : Z)
  | PinNotMapped (hdr pin : Z)
  | InvalidWidth
  | InvalidServo (servo : Z)
  | ServoNotMapped (servo : Z)
  | InputTooLong
  | Debug (servos : list (Z * Z * Z * bool)) (data : list (Z * Z)).

Record DAEMON := mkDaemon {
  sd : SERVOD;
  limits : LIMITS;
  p1pin2servo : list Z;
  p5pin2servo : list Z;
  line : list Z;           (* the first nchars characters of line[] *)
  said : list message
}.
Definition set_sd v d := mkDaemon v (limits d) (p1pin2servo d) (p5pin2servo d) (line d) (said d).
Definition set_line v d := mkDaemon (sd d) (limits d) (p1pin2servo d) (p5pin2servo d) v (said d).
Definition say m d := mkDaemon (sd d) (limits d) (p1pin2servo d) (p5pin2servo d) (line d) (said d ++ [m]).

Definition NUM_P1PINS : Z := 26.
Definition NUM_P5PINS : Z := 8.

(** The changes of the masks along the cycle, for the servos in use. *)
Fixpoint debug_data (mask last i : Z) (l : list Z) : list (Z * Z) :=
  match l with
  | [] => []
  | w :: l =>
      let curr := Z.land w mask in
      (if curr =? last then [] else [(i, curr)]) ++ debug_data mask curr (i + 1) l
  end.

Definition do_debug (s : SERVOD) : res message :=
  '(servos, mask) ← forM (seqZ 0 MAX_SERVOS) (λ i '(servos, mask),
    g ← aget (servo2gpio s) i;
    if g =? DMY then Ok (servos, mask)
    else
      st ← aget (servostart s) i; w ← aget (servowidth s) i; on ← aget (turnon_mask s) i;
      Ok (servos ++ [(i, st, w, negb (on =? 0))], Z.lor mask (gpio_bit g))) ([], 0);
  Ok (Debug servos (debug_data mask 0xffffffff 0 (turnoff_mask s))).

Definition set_width (now : timeval) (servo : Z) (width_arg : list Z) (d : DAEMON) : res DAEMON :=
  width ← parse_width (limits d) (sd d) servo width_arg;
  if width <? 0 then Ok (say InvalidWidth d)
  else s ← set_servo now servo width (sd d); Ok (set_sd s d).

Definition pin_line (now : timeval) (l : list Z) (d : DAEMON) : res DAEMON :=
  r ← scan_pin (tail l);
  match r with
  | None => Ok (say (BadInput l) d)
  | Some (hdr, pin, width_arg) =>
      if negb (hdr =? 1) && negb (hdr =? 5) then Ok (say (InvalidHeader hdr) d)
      else if (pin <? 1) || (hdr =? 1) && (NUM_P1PINS <? pin) || (hdr =? 5) && (NUM_P5PINS <? pin)
      then Ok (say (InvalidPin hdr pin) d)
      else
        servo ← aget (if hdr =? 1 then p1pin2servo d else p5pin2servo d) pin;
        if servo =? DMY then Ok (say (PinNotMapped hdr pin) d) else set_width now servo width_arg d
  end.

Definition servo_line (now : timeval) (l : list Z) (d : DAEMON) : res DAEMON :=
  r ← scan_servo l;
  if decide (l = Str.bytes "debug" ++ [10]) then m ← do_debug (sd d); Ok (say m d)
  else
    match r with
    | None => Ok (say (BadInput l) d)
    | Some (servo, width_arg) =>
        if (servo <? 0) || (MAX_SERVOS <=? servo) then Ok (say (InvalidServo servo) d)
        else
          g ← aget (servo2gpio (sd d)) servo;
          if g =? DMY then Ok (say (ServoNotMapped servo) d) else set_width now servo width_arg d
    end.

Fixpoint until_nul (l : list Z) : list Z :=
  match l with c :: l' => if c =? 0 then [] else c :: until_nul l' | [] => [] end.

(** One byte read from the device: collected, or the end of a line. *)
Definition byte_in (c : Z) (now : timeval) (d : DAEMON) : res DAEMON :=
  let l := line d ++ [c] in
  if c =? 10 then
    let d := set_line [] d in
    let l := until_nul l in
    match l with
    | x :: _ => if (x =? 112) || (x =? 80) then pin_line now l d else servo_line now l d
    | [] => servo_line now l d
    end
  else if 126 <=? Z.of_nat (length l) then Ok (say InputTooLong (set_line [] d))
  else Ok (set_line l d).

(** A turn of the main loop: servos whose time is over are turned off, then
    the bytes that are there are read, each at its time. *)
Definition turn (ev : timeval * list (Z * timeval)) (d : DAEMON) : res DAEMON :=
  '(s, _) ← get_next_idle_timeout ev.1 (sd d);
  forM ev.2 (λ c, byte_in c.1 c.2) (set_sd s d).

Definition go_go_go (evs : list (timeval * list (Z * timeval))) (d : DAEMON) : res DAEMON := forM evs turn d.

(** *** The computed width is a number *)

Definition number (x : double) : Prop := x ≠ S754_nan.
Definition plain (x : double) : Prop := match x with S754_zero _ | S754_finite _ _ _ => True | _ => False end.

Lemma shr_1_nonneg r : 0 <= shr_m r → 0 <= shr_m (shr_1 r).
Proof. destruct r as [[|[p|p|]|p] a b]; cbn; lia. Qed.

Lemma iter_shr_nonneg p r : 0 <= shr_m r → 0 <= shr_m (SpecFloat.iter_pos shr_1 p r).
Proof. revert r. induction p; intros r Hr; cbn [SpecFloat.iter_pos]; auto using shr_1_nonneg. Qed.

Lemma shr_fexp_nonneg m e l : 0 <= m → 0 <= shr_m (shr_fexp 53 1024 m e l).1.
Proof.
  intros Hm. assert (0 <= shr_m (shr_record_of_loc m l)) as Hr by (destruct l as [|[]]; done).
  unfold shr_fexp, shr. destruct (_ - e); cbn [fst]; [done|by apply iter_shr_nonneg|done].
Qed.

Lemma round_aux_number sx m e l : 0 <= m → number (binary_round_aux 53 1024 sx m e l).
Proof.
  intros Hm. unfold binary_round_aux. pose proof (shr_fexp_nonneg m e l Hm) as H1. destruct (shr_fexp 53 1024 m e l) as [r1 e1]. cbn in H1.
  assert (0 <= round_nearest_even (shr_m r1) (loc_of_shr_record r1)) as H2.
  { unfold round_nearest_even. destruct (loc_of_shr_record r1) as [|[]]; try lia. destruct (Z.even _); lia. }
  pose proof (shr_fexp_nonneg _ e1 loc_Exact H2) as H3. destruct (shr_fexp 53 1024 _ e1 loc_Exact) as [r2 e2]. cbn in H3.
  destruct (shr_m r2); [done| |lia]. by destruct (e2 <=? 1024 - 53).
Qed.

Lemma normalize_number m e z : number (binary_normalize 53 1024 m e z).
Proof. destruct m; cbn [binary_normalize]; [done|..]; unfold binary_round; destruct (shl_align _ _ _); by apply round_aux_number. Qed.

Lemma dint_plain n : plain (dint n).
Proof. by destruct n. Qed.

Lemma ddiv_number x n : n ≠ 0 → number x → number (ddiv x (dint n)).
Proof.
  intros Hn Hx. unfold ddiv. assert (∃ s m, dint n = S754_finite s m 0) as (s & m & ->) by (destruct n; [done|by eexists _, _..]).
  destruct x as [|b| |s' m' e']; try done. cbn [SFdiv]. unfold SFdiv_core_binary.
  match goal with |- context [Z.div_eucl ?x _] => assert (0 <= x) as Hm; [|generalize dependent x; intros m0 Hm] end.
  { destruct (_ - _); [done|by apply Z.shiftl_nonneg|done]. }
  pose proof (Z.div_pos m0 (Z.pos m) Hm ltac:(lia)) as Hq. unfold Z.div in Hq. destruct (Z.div_eucl m0 (Z.pos m)) as [q r].
  by apply round_aux_number.
Qed.

Lemma dmul_number x n : n ≠ 0 → number x → number (dmul x (dint n)).
Proof.
  intros Hn Hx. unfold dmul. assert (∃ s m, dint n = S754_finite s m 0) as (s & m & ->) by (destruct n; [done|by eexists _, _..]).
  destruct x; try done. cbn [SFmul]. by apply round_aux_number.
Qed.

Lemma dadd_number x y : number x → plain y → number (dadd x y) ∧ number (dadd y x).
Proof.
  intros Hx Hy. unfold dadd. destruct x as [[]| | |], y as [[]| | |]; try done; cbn [SFadd]; split; try done; apply normalize_number.
Qed.

Lemma dsub_number x y : number x → plain y → number (dsub y x).
Proof.
  intros Hx Hy. unfold dsub. destruct x as [[]| | |], y as [[]| | |]; try done; cbn [SFsub]; try done; apply normalize_number.
Qed.

Lemma dfloor_number x : number x → number (dfloor x).
Proof. intros Hx. destruct x as [| | |s m e]; try done. cbn [dfloor]. destruct (0 <=? e); [done|]. by destruct (_ `div` _). Qed.

Lemma dpower_number m b e : number (dpower m b e).
Proof.
  assert (∀ n d, number (dquot n d)) as H.
  { intros n d. unfold dquot. destruct (_ && _); [by destruct n|]. apply normalize_number. }
  unfold dpower. destruct (0 <=? e); apply H.
Qed.

Lemma strtod_number l : number (strtod l).1.
Proof.
  unfold strtod. repeat case_match; subst; cbn [fst]; simplify_eq; apply dpower_number.
Qed.

(** A number within bounds is converted to an integer within them. *)
Lemma to_int_bounds x lo hi :
  number x → 0 <= lo → hi <= LONG_MAX → dlt x lo = false → dgt x hi = false → ∃ n, to_int x = Ok n ∧ lo <= n <= hi.
Proof.
  intros Hx Hlo Hhi H1 H2. unfold dlt, dgt in *. destruct x as [s|[]| |s m e]; try done; cbn [dcmp] in *.
  { exists 0. split; [done|]. destruct (Z.compare_spec 0 lo), (Z.compare_spec 0 hi); try done; lia. }
  assert (∃ n, dtrunc (S754_finite s m e) = Some n ∧ lo <= n <= hi) as (n & E & Hn).
  { cbn [dtrunc]. destruct (Z.leb_spec 0 e).
    - assert (0 < 2 ^ e) by (by apply Z.pow_pos_nonneg). eexists. split; [done|].
      destruct s; repeat match goal with H : context [?a ?= ?b] |- _ => destruct (Z.compare_spec a b) end; try done; nia.
    - assert (0 < 2 ^ (- e)) as Hp by (apply Z.pow_pos_nonneg; lia). set (k := 2 ^ (- e)) in *. clearbody k.
      eexists. split; [done|]. destruct s; repeat match goal with H : context [?a ?= ?b] |- _ => destruct (Z.compare_spec a b) end; try done; try nia.
      all: pose proof (Z.div_mod (Z.pos m) k ltac:(lia)); pose proof (Z.mod_pos_bound (Z.pos m) k Hp); nia. }
  exists n. split; [|done]. unfold to_int, convert. rewrite E. unfold LONG_MAX in *.
  rewrite (proj2 (Z.leb_le _ _)), (proj2 (Z.leb_le _ _)) by lia. done.
Qed.

Definition limits_ok (c : LIMITS) (N : Z) : Prop :=
  0 <= servo_min_ticks c < servo_max_ticks c ∧ servo_max_ticks c <= N ∧ N <= LONG_MAX ∧ 0 < step_time_us c.

(** [parse_width] answers for every text: it refuses it, or asks for no pulse
    at all, or for a width within the limits. *)
Lemma parse_width_range c N s sv text old :
  limits_ok c N → 0 <= sv → servowidth s !! Z.to_nat sv = Some old →
  ∃ n, parse_width c s sv text = Ok n ∧ (n = -1 ∨ n = 0 ∨ servo_min_ticks c <= n <= servo_max_ticks c).
Proof.
  intros (L1 & L2 & L3 & L4) Hsv Hold. unfold parse_width. set (digits := if _ : bool then _ else _).
  destruct digits as [|d ds] eqn:Ed; [by eauto|]. destruct (negb (digit d)); [by eauto|].
  pose proof (strtod_number (d :: ds)) as Hn. destruct (strtod (d :: ds)) as [w p]. cbn in Hn.
  match goal with |- context [match ?e with Some _ => _ | None => Ok (-1) end] => set (scaled := e) end.
  assert (∀ x, scaled = Some x → number x) as Hsc.
  { subst scaled. destruct p; [by intros x [= <-]|]. repeat case_decide; intros x [= <-].
    - apply ddiv_number; [lia|done].
    - refine (proj1 (dadd_number _ _ _ (dint_plain _))). apply (ddiv_number _ 100); [done|]. apply dmul_number; [lia|done]. }
  destruct scaled as [x|]; [|by eauto]. specialize (Hsc x eq_refl). apply dfloor_number in Hsc.
  pose proof (lookup_lt_Some _ _ _ Hold). rewrite (aget_in _ _ old), bind_ok by (done || lia).
  match goal with |- context [deq ?e 0] => set (width := e) end.
  assert (number width) as Hw.
  { subst width. repeat case_match; subst; try done; try by destruct (servo_max_ticks c), (servo_min_ticks c).
    all: first [exact (proj2 (dadd_number _ _ Hsc (dint_plain _)))|exact (dsub_number _ _ Hsc (dint_plain _))]. }
  clearbody width. destruct (deq width 0) eqn:Ez.
  { exists 0. split; [|by auto]. unfold deq in Ez. destruct width as [|[]| |s0 m e]; try done.
    exfalso. cbn [dcmp] in Ez. assert (∀ k, 0 <= k → 0 < 2 ^ k) as Hp by (intros; by apply Z.pow_pos_nonneg).
    destruct (Z.leb_spec 0 e).
    - specialize (Hp e ltac:(lia)). destruct s0; match type of Ez with context [?a ?= ?b] => destruct (Z.compare_spec a b) end; try done; nia.
    - destruct s0; match type of Ez with context [?a ?= ?b] => destruct (Z.compare_spec a b) end; done. }
  destruct (dlt width (servo_min_ticks c)) eqn:El; [by eauto|]. destruct (dgt width (servo_max_ticks c)) eqn:Eg; [by eauto|]. cbn [orb].
  destruct (to_int_bounds width (servo_min_ticks c) (servo_max_ticks c) Hw ltac:(lia) ltac:(lia) El Eg) as (n & E & Hb). eauto.
Qed.

(** ** Idle servos *)

Definition usecs (t : timeval) : Z := tv_sec t * 1000000 + tv_usec t.
Definition time_ok (t : timeval) : Prop := 0 <= tv_sec t ∧ 0 <= tv_usec t < 1000000.

Lemma clock_time t : clock_ok t → time_ok t.
Proof. unfold clock_ok, time_ok. lia. Qed.

Lemma time_le_spec t u : time_ok t → time_ok u → time_le t u = (usecs t <=? usecs u).
Proof. unfold time_le, usecs, time_ok. intros. lia. Qed.

(** The times of the servos lie at most the idle timeout ahead. *)
Definition timers_ok (now : timeval) (s : SERVOD) : Prop :=
  ∀ i t, servo_kill_time s !! i = Some t → time_ok t ∧ usecs t <= usecs now + idle_timeout s * 1000.

Lemma set_servo_idle_ok sv s :
  masks_ok s → 0 <= sv < MAX_SERVOS → mapped s sv →
  ∃ s', set_servo_idle sv s = Ok s' ∧ masks_ok s' ∧ turnon_mask s' = <[Z.to_nat sv := 0]> (turnon_mask s) ∧
    servo2gpio s' = servo2gpio s ∧ servostart s' = servostart s ∧ servowidth s' = servowidth s ∧ num_samples s' = num_samples s ∧
    turnoff_mask s' = turnoff_mask s ∧ servo_kill_time s' = servo_kill_time s ∧ idle_timeout s' = idle_timeout s ∧ invert s' = invert s.
Proof.
  intros [K1 K2 K3 K4 K5 K6 K7 K8 K9 K10] Hsv Hm. unfold MAX_SERVOS in *. unfold set_servo_idle.
  destruct (K9 sv Hsv Hm) as (g & start & w & [S1 S2 S3 S4 S5 S6 S7 S8 S9]).
  rewrite aset_in, bind_ok by lia.
  cbn [servowidth set_turnon].
  rewrite (aget_in (servowidth s) sv w); [|lia|exact S6]. rewrite bind_ok.
  set (s1 := set_turnon _ s). assert (masks_ok s1) as HK1.
  { split; try done; cbn; [by rewrite length_insert|]. intros sv' Hsv' Hm'. unfold MAX_SERVOS in Hsv'.
    destruct (K9 sv' Hsv' Hm') as (g' & st' & w' & [R1 R2 R3 R4 R5 R6 R7 (v & R8 & Hv & Hz) R9]).
    exists g', st', w'. split; try done. cbn. destruct (decide (sv' = sv)) as [->|Hne].
    - exists 0. rewrite list_lookup_insert_eq by lia. auto.
    - exists v. rewrite list_lookup_insert_ne by lia. auto. }
  assert (∀ v, masks_ok (set_level v s1)) as HKl.
  { intros v. destruct HK1 as [A1 A2 A3 A4 A5 A6 A7 A8 A9 A10]. split; try done. intros sv' Hsv' Hm'.
    destruct (A9 sv' Hsv' Hm') as (g' & st' & w' & []). exists g', st', w'. by split. }
  destruct (w =? num_samples s1); [|exists s1; split; [done|]; by split].
  rewrite (aget_in (servo2gpio s1) sv g); [|cbn; lia|exact S2]. rewrite bind_ok. eexists. split; [done|]. split; [apply HKl|done].
Qed.

Lemma ltb_S k n : k ≠ n → (k <? S n)%nat = (k <? n)%nat.
Proof. intros H. destruct (Nat.ltb_spec k (S n)), (Nat.ltb_spec k n); done || lia. Qed.

(** A servo in use whose time is over. *)
Definition in_use (s : SERVOD) (k : nat) : bool := bool_decide (servo2gpio s !! k ≠ Some DMY).
Definition expired (now : timeval) (s : SERVOD) (k : nat) (t : timeval) : bool :=
  in_use s k && negb (tv_sec t =? 0) && (usecs t <=? usecs now).

(** The microseconds to a time do not fit into 32 bits: the sum before the
    present microseconds are subtracted overflows. *)
Definition too_far (now t : timeval) : bool := LONG_MAX <? (tv_sec t - tv_sec now) * 1000000 + tv_usec t.

Lemma too_far_timeout now t idle :
  time_ok now → time_ok t → usecs t <= usecs now + idle * 1000 → too_far now t = true → 2146000 < idle.
Proof. unfold time_ok, usecs, too_far, LONG_MAX. intros. lia. Qed.

(** The loop of [get_next_idle_timeout] up to servo [n]. *)
Record idle_done (now : timeval) (s0 : SERVOD) (n : nat) (s : SERVOD) (tv : timeval) : Prop := {
  id_masks : masks_ok s;
  id_frame : servo2gpio s = servo2gpio s0 ∧ servostart s = servostart s0 ∧ servowidth s = servowidth s0 ∧
    num_samples s = num_samples s0 ∧ idle_timeout s = idle_timeout s0 ∧ turnoff_mask s = turnoff_mask s0 ∧ invert s = invert s0;
  id_time : time_ok tv ∧ 1 <= usecs tv <= 60000000;
  id_kill k t : servo_kill_time s0 !! k = Some t →
    servo_kill_time s !! k = Some (if (k <? n)%nat && expired now s0 k t then mkTime 0 (tv_usec t) else t) ∧
    turnon_mask s !! k = if (k <? n)%nat && expired now s0 k t then Some 0 else turnon_mask s0 !! k;
  id_min k t : (k < n)%nat → in_use s0 k = true → servo_kill_time s0 !! k = Some t → tv_sec t ≠ 0 →
    expired now s0 k t = false → usecs tv <= usecs t - usecs now
}.

Lemma set_kill_ok s l : masks_ok s → length l = 32%nat → masks_ok (set_kill l s).
Proof.
  intros [K1 K2 K3 K4 K5 K6 K7 K8 K9 K10] Hl. split; try done. intros sv Hsv Hm.
  destruct (K9 sv Hsv Hm) as (g & st & w & []). exists g, st, w. by split.
Qed.

(** A servo that is not turned off now: only the shortest time changes. *)
Lemma idle_keep now s0 n s tv tv' t :
  idle_done now s0 n s tv → servo_kill_time s0 !! n = Some t → expired now s0 n t = false →
  time_ok tv' → 1 <= usecs tv' <= usecs tv →
  (in_use s0 n = true → tv_sec t ≠ 0 → usecs tv' <= usecs t - usecs now) → idle_done now s0 (S n) s tv'.
Proof.
  intros [HK HF [Ht Hu] Hkill Hmin] Hk He Ht' Hu' Hnew. split; [done|done|split; [done|lia]| |].
  - intros k t0 Hk0. destruct (decide (k = n)) as [->|Hne].
    + assert (t0 = t) as -> by congruence. rewrite He, !andb_false_r. destruct (Hkill n t Hk) as [H1 H2].
      by rewrite He, !andb_false_r in H1, H2.
    + rewrite (ltb_S k n) by done. by apply Hkill.
  - intros k t0 Hkn Huse Hk0 H0 Hex. destruct (decide (k = n)) as [->|Hne].
    + assert (t0 = t) as -> by congruence. by apply Hnew.
    + specialize (Hmin k t0 ltac:(lia) Huse Hk0 H0 Hex). lia.
Qed.

(** A servo whose time is over is turned off. *)
Lemma idle_off now s0 n s tv t :
  masks_ok s0 → (n < 32)%nat → idle_done now s0 n s tv → servo_kill_time s0 !! n = Some t → expired now s0 n t = true →
  ∃ s', set_servo_idle (Z.of_nat n) (set_kill (<[n := mkTime 0 (tv_usec t)]> (servo_kill_time s)) s) = Ok s' ∧ idle_done now s0 (S n) s' tv.
Proof.
  intros HK0 Hn [HK (F1 & F2 & F3 & F4 & F5 & F6 & F7) Ht Hkill Hmin] Hk He.
  pose proof (mk_kill _ HK) as Hlk. pose proof (mk_on _ HK) as Hlo.
  set (s1 := set_kill _ s). assert (masks_ok s1) as HK1 by (apply set_kill_ok; [done|by rewrite length_insert]).
  assert (mapped s1 (Z.of_nat n)) as Hm.
  { unfold mapped. rewrite Nat2Z.id. cbn. rewrite F1. unfold expired, in_use in He. apply andb_true_iff in He as [[He _]%andb_true_iff _].
    by apply bool_decide_eq_true in He. }
  destruct (set_servo_idle_ok (Z.of_nat n) s1 HK1 ltac:(unfold MAX_SERVOS; lia) Hm)
    as (s' & E & HK' & G1 & G2 & G3 & G4 & G5 & G6 & G7 & G8 & G9).
  exists s'. split; [done|]. split; [done| |done| |].
  - rewrite G2, G3, G4, G5, G6, G8, G9. done.
  - intros k t0 Hk0. rewrite G7, G1, Nat2Z.id. unfold s1. cbn [servo_kill_time set_kill turnon_mask]. destruct (decide (k = n)) as [->|Hne].
    + assert (t0 = t) as -> by congruence. rewrite He. rewrite (proj2 (Nat.ltb_lt n (S n))) by lia. cbn [andb].
      rewrite !list_lookup_insert_eq by lia. done.
    + rewrite !list_lookup_insert_ne by lia. rewrite (ltb_S k n) by done. by apply Hkill.
  - intros k t0 Hkn Huse Hk0 H0 Hex. destruct (decide (k = n)) as [->|Hne]; [congruence|]. apply (Hmin k t0); try done. lia.
Qed.

Lemma idle_check_cases now s0 n s tv t :
  masks_ok s0 → time_ok now → timers_ok now s0 → (n < 32)%nat → idle_done now s0 n s tv → servo_kill_time s0 !! n = Some t →
  if in_use s0 n && too_far now t then idle_check now (Z.of_nat n) (s, tv) = Fault Overflow
  else ∃ s' tv', idle_check now (Z.of_nat n) (s, tv) = Ok (s', tv') ∧ idle_done now s0 (S n) s' tv'.
Proof.
  intros HK0 Hnow Htim Hn Hd Hk. pose proof Hd as [HK (F1 & F2 & F3 & F4 & F5 & F6 & F7) [Ht Hu] Hkill Hmin].
  pose proof (mk_gpio _ HK0). pose proof (mk_kill _ HK0). pose proof (mk_kill _ HK).
  destruct (lookup_lt_is_Some_2 (servo2gpio s0) n) as [g Hg]; [lia|].
  assert (servo_kill_time s !! n = Some t) as Hkn.
  { destruct (Hkill n t Hk) as [-> _]. by rewrite Nat.ltb_irrefl. }
  destruct (Htim n t Hk) as [Htt Htb]. unfold idle_check. rewrite F1.
  rewrite (aget_in (servo2gpio s0) _ g), (aget_in (servo_kill_time s) _ t) by (rewrite ?Nat2Z.id; first [done|lia]). rewrite !bind_ok.
  assert (in_use s0 n = negb (g =? DMY)) as Euse.
  { unfold in_use. rewrite Hg. destruct (Z.eqb_spec g DMY) as [->|]; [by rewrite bool_decide_false by naive_solver|].
    by rewrite bool_decide_true by naive_solver. }
  assert (expired now s0 n t = negb ((g =? DMY) || (tv_sec t =? 0)) && time_le t now) as Eex.
  { unfold expired. rewrite Euse, time_le_spec, negb_orb by done. done. }
  pose proof (mk_idle _ HK0) as Hidle. rewrite Euse. destruct (negb (g =? DMY) && too_far now t) eqn:Efar.
  { unfold too_far, time_ok, LONG_MAX, usecs in *.
    rewrite (proj2 (Z.eqb_neq g DMY)), (proj2 (Z.eqb_neq (tv_sec t) 0)) by lia. cbn [orb].
    assert (time_le t now = false) as -> by (unfold time_le; lia). rewrite int32_bind by lia.
    destruct (Z.le_gt_cases ((tv_sec t - tv_sec now) * 1000000) 2147483647); [rewrite int32_bind by lia|]; by rewrite int32_fault by lia. }
  destruct ((g =? DMY) || (tv_sec t =? 0)) eqn:E1.
  { exists s, tv. split; [done|]. eapply (idle_keep _ _ _ _ tv _ t); try done; [lia|]. rewrite Euse. intros. exfalso. lia. }
  destruct (time_le t now) eqn:E2.
  { rewrite aset_in, bind_ok, Nat2Z.id by lia. destruct (idle_off now s0 n s tv t HK0 Hn Hd Hk Eex) as (s' & E & Hd').
    rewrite E, bind_ok. by exists s', tv. }
  rewrite time_le_spec in E2 by done. apply orb_false_iff in E1 as [E1 _]. rewrite E1 in Efar. cbn [negb andb] in Efar.
  unfold too_far, LONG_MAX, time_ok, usecs in *.
  do 6 (rewrite int32_bind by lia).
  eexists _, _. split; [done|]. set (diff := (tv_sec t - tv_sec now) * 1000000 + tv_usec t - tv_usec now).
  assert (tv_sec (mkTime (diff `quot` 1000000) (diff `rem` 1000000)) * 1000000 + tv_usec (mkTime (diff `quot` 1000000) (diff `rem` 1000000)) = diff ∧
    0 <= diff `quot` 1000000 ∧ 0 <= diff `rem` 1000000 < 1000000) as (D1 & D2 & D3).
  { cbn. rewrite Z.quot_div_nonneg, Z.rem_mod_nonneg by lia. dlia. }
  cbn in Eex. destruct (Z.ltb_spec diff (tv_sec tv * 1000000 + tv_usec tv)).
  - eapply (idle_keep _ _ _ _ tv _ t); try done; unfold usecs; rewrite ?D1; [lia|]. intros. lia.
  - eapply (idle_keep _ _ _ _ tv _ t); try done; unfold usecs; [lia|]. intros. lia.
Qed.

(** A servo in use whose time cannot be computed, among the first [n]. *)
Definition far_below (now : timeval) (s : SERVOD) (n : nat) : Prop :=
  ∃ k t, (k < n)%nat ∧ servo_kill_time s !! k = Some t ∧ in_use s k = true ∧ too_far now t = true.

Lemma idle_loop_cases now s0 (n : nat) :
  masks_ok s0 → time_ok now → timers_ok now s0 → (n <= 32)%nat →
  let r := forM (seqZ 0 (Z.of_nat n)) (idle_check now) (s0, mkTime 60 0) in
  (far_below now s0 n ∧ r = Fault Overflow) ∨ (¬ far_below now s0 n ∧ ∃ s tv, r = Ok (s, tv) ∧ idle_done now s0 n s tv).
Proof.
  intros HK Hnow Htim. induction n as [|n IH]; intros Hn r; subst r.
  { right. split; [intros (k & t & ? & _); lia|]. exists s0, (mkTime 60 0). split; [done|]. split; [done|done|by unfold time_ok, usecs; cbn; lia|done|lia]. }
  rewrite seqZ_S, forM_app, Z.add_0_l. destruct IH as [[(k & t & Hk & Hf) ->]|[Hno (s & tv & -> & Hd)]]; [lia| |].
  { left. split; [|done]. exists k, t. split; [lia|done]. }
  rewrite bind_ok. cbn [forM]. destruct (lookup_lt_is_Some_2 (servo_kill_time s0) n) as [t Ht]; [rewrite (mk_kill _ HK); lia|].
  pose proof (idle_check_cases now s0 n s tv t HK Hnow Htim ltac:(lia) Hd Ht) as H. destruct (in_use s0 n && too_far now t) eqn:E.
  - left. rewrite H. split; [|done]. exists n, t. apply andb_true_iff in E. split; [lia|]. tauto.
  - right. destruct H as (s' & tv' & -> & Hd'). split; [|by exists s', tv'].
    intros (k & t' & Hk & Ht' & Hu & Hf). destruct (decide (k = n)) as [->|].
    + assert (t' = t) as -> by congruence. by rewrite Hu, Hf in E.
    + apply Hno. exists k, t'. split; [lia|done].
Qed.

Lemma idle_done_cases now s0 :
  masks_ok s0 → clock_ok now → timers_ok now s0 →
  (far_below now s0 32 ∧ get_next_idle_timeout now s0 = Fault Overflow) ∨
  (¬ far_below now s0 32 ∧ ∃ s tv, get_next_idle_timeout now s0 = Ok (s, tv) ∧ idle_done now s0 32 s tv).
Proof. intros HK Hnow Htim. exact (idle_loop_cases now s0 32 HK (clock_time _ Hnow) Htim (le_n _)). Qed.

(** C25: idle servos: [get_next_idle_timeout] turns off exactly the servos in
    use whose time is over and forgets their times; all others keep their
    output and their time.  The time it answers is positive, at most a minute,
    and no longer than what is left to any servo that waits to be turned
    off.  This is so as long as the time left to every servo in use fits into
    32 bits of microseconds, which an idle timeout up to 2146 seconds ensures;
    when it does not for some servo, which the longer timeouts that the
    command line accepts can bring about, the computation overflows. *)
Theorem idle_servos_turned_off now s0 :
  masks_ok s0 → clock_ok now → timers_ok now s0 →
  (idle_timeout s0 <= 2146000 → ¬ far_below now s0 32) ∧
  (far_below now s0 32 → get_next_idle_timeout now s0 = Fault Overflow) ∧
  (¬ far_below now s0 32 →
    ∃ s tv, get_next_idle_timeout now s0 = Ok (s, tv) ∧ masks_ok s ∧ 0 < usecs tv <= 60000000 ∧
      ∀ k t, servo_kill_time s0 !! k = Some t →
        if expired now s0 k t then turnon_mask s !! k = Some 0 ∧ tv_sec <$> servo_kill_time s !! k = Some 0
        else turnon_mask s !! k = turnon_mask s0 !! k ∧ servo_kill_time s !! k = Some t ∧
          (in_use s0 k = true → tv_sec t ≠ 0 → usecs now + usecs tv <= usecs t)).
Proof.
  intros HK Hnow Htim. split.
  { intros Hidle (k & t & _ & Ht & _ & Hf). destruct (Htim k t Ht) as [T1 T2].
    pose proof (too_far_timeout now t _ (clock_time _ Hnow) T1 T2 Hf). lia. }
  destruct (idle_done_cases now s0 HK Hnow Htim) as [[Hf E]|[Hf (s & tv & E & [D1 D2 [_ D3] D4 D5])]]; [by split|].
  split; [done|]. intros _. exists s, tv. split; [done|]. split; [done|]. split; [lia|]. intros k t Hk. destruct (D4 k t Hk) as [H1 H2].
  pose proof (lookup_lt_Some _ _ _ Hk) as Hlt. rewrite (mk_kill _ HK) in Hlt.
  rewrite (proj2 (Nat.ltb_lt k 32)) in H1, H2 by lia. cbn [andb] in H1, H2. destruct (expired now s0 k t) eqn:Ex.
  - by rewrite H1, H2.
  - split; [done|]. split; [done|]. intros Hu Hs. specialize (D5 k t Hlt Hu Hk Hs Ex). lia.
Qed.

(** ** The command loop *)

(** A table of pins names servos in use only. *)
Definition pins_ok (s : SERVOD) (n : nat) (table : list Z) : Prop :=
  ∀ pin, (1 <= pin <= n)%nat → ∃ sv, table !! pin = Some sv ∧ (sv = DMY ∨ 0 <= sv < MAX_SERVOS ∧ mapped s sv).

Record daemon_ok (now : timeval) (d : DAEMON) : Prop := {
  dm_masks : masks_ok (sd d);
  dm_limits : limits_ok (limits d) (num_samples (sd d));
  dm_p1 : pins_ok (sd d) 26 (p1pin2servo d);
  dm_p5 : pins_ok (sd d) 8 (p5pin2servo d);
  dm_now : clock_ok now;
  dm_timers : timers_ok now (sd d)
}.

Definition later (t u : timeval) : Prop := clock_ok u ∧ usecs t <= usecs u.

Lemma pins_ok_frame s s' n table : servo2gpio s' = servo2gpio s → pins_ok s n table → pins_ok s' n table.
Proof. intros E H pin Hp. destruct (H pin Hp) as (sv & H1 & H2). exists sv. split; [done|]. unfold mapped in *. by rewrite E. Qed.

Lemma daemon_ok_later now now' d : daemon_ok now d → later now now' → daemon_ok now' d.
Proof.
  intros [H1 H2 H3 H4 H5 H6] [L1 L2]. split; try done. intros i t Ht. destruct (H6 i t Ht) as [A1 A2]. split; [done|lia].
Qed.

Lemma daemon_ok_say now d m : daemon_ok now d → daemon_ok now (say m d).
Proof. by intros []. Qed.

Lemma daemon_ok_line now d l : daemon_ok now d → daemon_ok now (set_line l d).
Proof. by intros []. Qed.

(** A width is set, or refused. *)
Lemma set_width_ok now sv text d :
  daemon_ok now d → 0 <= sv < MAX_SERVOS → mapped (sd d) sv →
  ∃ d', set_width now sv text d = Ok d' ∧ daemon_ok now d' ∧ (line d' = line d ∧ idle_timeout (sd d') = idle_timeout (sd d)) ∧
    (sd d' = sd d ∨ ∃ w, set_servo now sv w (sd d) = Ok (sd d') ∧ (w = 0 ∨ servo_min_ticks (limits d) <= w <= servo_max_ticks (limits d))).
Proof.
  intros HD Hsv Hm. pose proof HD as [H1 H2 H3 H4 H5 H6]. unfold set_width.
  destruct (mk_servo _ H1 sv Hsv Hm) as (g & start & old & HS).
  destruct (parse_width_range (limits d) (num_samples (sd d)) (sd d) sv text old H2 ltac:(lia) (sv_width _ _ _ _ _ HS)) as (w & -> & Hw).
  rewrite bind_ok. destruct (Z.ltb_spec w 0).
  { eexists. split; [done|]. split; [by apply daemon_ok_say|]. auto. }
  destruct H2 as (L1 & L2 & L3 & L4).
  destruct (set_servo_ok now sv w (sd d) H1 Hsv Hm ltac:(lia) H5) as (s' & E & HK & E1 & E2 & E3 & E4 & E5 & E6 & E7 & E8 & E9 & E10).
  rewrite E, bind_ok. eexists. split; [done|]. split; [|split; [by split|]].
  - split; cbn; rewrite ?E5, ?E8; try done; [by eapply pins_ok_frame..|].
    intros i t Ht. cbn in Ht. rewrite E8. destruct E10 as [Ek|(t' & Ek & T1 & T2)]; rewrite Ek in Ht; [by apply (H6 i)|].
    apply list_lookup_insert_Some in Ht as [(_ & <- & _)|[_ Ht]]; [|by apply (H6 i)].
    unfold clock_ok, time_ok, usecs in *. pose proof (mk_idle _ H1). split; lia.
  - right. exists w. split; [done|]. lia.
Qed.

(** Words are no longer than the line they are read from. *)
Lemma skip_space_length l : (length (skip_space l) <= length l)%nat.
Proof. induction l as [|c l IH]; [done|]. cbn. destruct (space c); cbn; lia. Qed.

Lemma take_digits_length b acc n l : (length (take_digits b acc n l).2 <= length l)%nat.
Proof.
  revert acc n. induction l as [|c l IH]; intros acc n; [done|]. cbn. case_match; [|done]. specialize (IH (acc * b + z) (n + 1)). lia.
Qed.

Lemma scan_int_length l z r : scan_int l = Some (z, r) → (length r <= length l)%nat.
Proof.
  unfold scan_int. pose proof (skip_space_length l). set (k := skip_space l) in *.
  match goal with |- context [let '(sign, r) := ?e in _] => set (x := e) end.
  assert (length x.2 <= length k)%nat by (subst x; repeat case_match; cbn; lia). destruct x as [sg r1]. cbn in *.
  pose proof (take_digits_length 10 0 0 r1). destruct (take_digits 10 0 0 r1) as [[v n] r2]. destruct (n =? 0); [done|].
  intros [= _ <-]. cbn in *. lia.
Qed.

Lemma scan_char_length c l r : scan_char c l = Some r → length l = S (length r).
Proof. destruct l as [|x l]; [done|]. cbn. destruct (x =? c); [|done]. by intros [= <-]. Qed.

Lemma scan_word_length l w : scan_word l = Some w → (length w <= length l)%nat.
Proof.
  unfold scan_word. pose proof (skip_space_length l). assert (∀ k, length (word_of k) <= length k)%nat as Hw.
  { induction k as [|c k IH]; [done|]. cbn. destruct (space c); cbn; lia. }
  specialize (Hw (skip_space l)). destruct (word_of (skip_space l)) eqn:E; [done|]. intros [= <-]. lia.
Qed.

Lemma scan_servo_total l : (length l <= 64)%nat → ∃ r, scan_servo l = Ok r.
Proof.
  intros Hl. unfold scan_servo. destruct (scan_int l) as [[z r1]|] eqn:E1; [|by eexists]. cbn.
  destruct (scan_char 61 r1) as [r2|] eqn:E2; [|by eexists]. cbn. destruct (scan_word r2) as [w|] eqn:E3; [|by eexists]. cbn.
  apply scan_int_length in E1. apply scan_char_length in E2. apply scan_word_length in E3.
  unfold store_word. rewrite (proj2 (Z.ltb_lt _ _)) by lia. by eexists.
Qed.

Lemma scan_pin_total l : (length l <= 64)%nat → ∃ r, scan_pin l = Ok r.
Proof.
  intros Hl. unfold scan_pin. destruct (scan_int l) as [[z r1]|] eqn:E1; [|by eexists]. cbn.
  destruct (scan_char 45 r1) as [r2|] eqn:E2; [|by eexists]. cbn. destruct (scan_int r2) as [[z' r3]|] eqn:E3; [|by eexists]. cbn.
  destruct (scan_char 61 r3) as [r4|] eqn:E4; [|by eexists]. cbn. destruct (scan_word r4) as [w|] eqn:E5; [|by eexists]. cbn.
  apply scan_int_length in E1. apply scan_char_length in E2. apply scan_int_length in E3. apply scan_char_length in E4.
  apply scan_word_length in E5. unfold store_word. rewrite (proj2 (Z.ltb_lt _ _)) by lia. by eexists.
Qed.

Lemma do_debug_total s : masks_ok s → ∃ m, do_debug s = Ok m.
Proof.
  intros HK. unfold do_debug. match goal with |- ∃ m, (?e ≫= _) = _ => assert (∃ r, e = Ok r) as [[r mask] ->]; [|by eexists] end.
  assert (∀ l x, Forall (λ i, 0 <= i < 32) l → ∃ r, forM l (λ i '(servos, mask),
    g ← aget (servo2gpio s) i;
    if g =? DMY then Ok (servos, mask)
    else
      st ← aget (servostart s) i; w ← aget (servowidth s) i; on ← aget (turnon_mask s) i;
      Ok (servos ++ [(i, st, w, negb (on =? 0))], Z.lor mask (gpio_bit g))) x = Ok r) as H.
  { induction l as [|i l IH]; intros [sv mask] Hl; [by eexists|]. apply Forall_cons in Hl as [Hi Hl]. cbn [forM].
    destruct HK as [K1 K2 K3 K4 K5 K6 K7 K8 K9 K10].
    destruct (lookup_lt_is_Some_2 (servo2gpio s) (Z.to_nat i)) as [g Hg]; [lia|].
    destruct (lookup_lt_is_Some_2 (servostart s) (Z.to_nat i)) as [st Hs]; [lia|].
    destruct (lookup_lt_is_Some_2 (servowidth s) (Z.to_nat i)) as [w Hw]; [lia|].
    destruct (lookup_lt_is_Some_2 (turnon_mask s) (Z.to_nat i)) as [on Hon]; [lia|].
    rewrite (aget_in (servo2gpio s) i g), (aget_in (servostart s) i st), (aget_in (servowidth s) i w), (aget_in (turnon_mask s) i on) by (done || lia). rewrite !bind_ok.
    destruct (g =? DMY); rewrite ?bind_ok; by apply IH. }
  apply H, Forall_forall. intros i Hi%elem_of_seqZ. unfold MAX_SERVOS in Hi. lia.
Qed.

Definition keeps (now : timeval) (d : DAEMON) (r : res DAEMON) : Prop :=
  ∃ d', r = Ok d' ∧ daemon_ok now d' ∧ line d' = line d ∧ idle_timeout (sd d') = idle_timeout (sd d).

Lemma keeps_say now d m : daemon_ok now d → keeps now d (Ok (say m d)).
Proof. intros HD. eexists. split; [done|]. split; [by apply daemon_ok_say|done]. Qed.

Lemma keeps_width now sv text d : daemon_ok now d → 0 <= sv < MAX_SERVOS → mapped (sd d) sv → keeps now d (set_width now sv text d).
Proof. intros HD Hsv Hm. destruct (set_width_ok now sv text d HD Hsv Hm) as (d' & E & HD' & El & _). by exists d'. Qed.

Lemma servo_line_ok now l d : daemon_ok now d → (length l <= 64)%nat → keeps now d (servo_line now l d).
Proof.
  intros HD Hl. pose proof HD as [H1 H2 H3 H4 H5 H6]. unfold servo_line. destruct (scan_servo_total l Hl) as [r ->]. rewrite bind_ok.
  case_decide; [destruct (do_debug_total _ H1) as [m ->]; rewrite bind_ok; by apply keeps_say|].
  destruct r as [[sv text]|]; [|by apply keeps_say]. destruct ((sv <? 0) || (MAX_SERVOS <=? sv)) eqn:E; [by apply keeps_say|].
  pose proof (mk_gpio _ H1). unfold MAX_SERVOS in *. destruct (lookup_lt_is_Some_2 (servo2gpio (sd d)) (Z.to_nat sv)) as [g Hg]; [lia|].
  rewrite (aget_in _ sv g) by (done || lia). rewrite bind_ok. destruct (Z.eqb_spec g DMY); [by apply keeps_say|].
  apply keeps_width; [done|unfold MAX_SERVOS; lia|]. unfold mapped. rewrite Hg. naive_solver.
Qed.

Lemma pin_line_ok now l d : daemon_ok now d → (length l <= 64)%nat → keeps now d (pin_line now l d).
Proof.
  intros HD Hl. pose proof HD as [H1 H2 H3 H4 H5 H6]. unfold pin_line.
  destruct (scan_pin_total (tail l)) as [r ->]; [destruct l; cbn in *; lia|]. rewrite bind_ok.
  destruct r as [[[hdr pin] text]|]; [|by apply keeps_say].
  destruct (negb (hdr =? 1) && negb (hdr =? 5)) eqn:E1; [by apply keeps_say|].
  destruct ((pin <? 1) || (hdr =? 1) && (NUM_P1PINS <? pin) || (hdr =? 5) && (NUM_P5PINS <? pin)) eqn:E2; [by apply keeps_say|].
  unfold NUM_P1PINS, NUM_P5PINS in *.
  assert (∃ sv, (if hdr =? 1 then p1pin2servo d else p5pin2servo d) !! Z.to_nat pin = Some sv ∧
    (sv = DMY ∨ 0 <= sv < MAX_SERVOS ∧ mapped (sd d) sv)) as (sv & Hp & Hs).
  { destruct (hdr =? 1) eqn:E3; [apply H3|apply H4]; lia. }
  pose proof (lookup_lt_Some _ _ _ Hp). rewrite (aget_in _ pin sv) by (done || lia). rewrite bind_ok.
  destruct (Z.eqb_spec sv DMY); [by apply keeps_say|]. destruct Hs as [?|[? ?]]; [done|]. by apply keeps_width.
Qed.

Lemma until_nul_length l : (length (until_nul l) <= length l)%nat.
Proof. induction l as [|c l IH]; [done|]. cbn. destruct (c =? 0); cbn; lia. Qed.

(** Bytes with times that do not go back, in lines of at most 63 characters;
    [k] characters of the present line have been read. *)
Fixpoint input_ok (k : Z) (now : timeval) (l : list (Z * timeval)) : Prop :=
  match l with
  | [] => True
  | (c, t) :: l => later now t ∧ if c =? 10 then input_ok 0 t l else k < 63 ∧ input_ok (k + 1) t l
  end.

Fixpoint last_time (now : timeval) (l : list (Z * timeval)) : timeval :=
  match l with [] => now | (_, t) :: l => last_time t l end.
Fixpoint last_length (k : Z) (l : list (Z * timeval)) : Z :=
  match l with [] => k | (c, _) :: l => last_length (if c =? 10 then 0 else k + 1) l end.

Lemma byte_in_ok c now t d :
  daemon_ok now d → later now t → (c ≠ 10 → Z.of_nat (length (line d)) < 63) → Z.of_nat (length (line d)) <= 63 →
  ∃ d', byte_in c t d = Ok d' ∧ daemon_ok t d' ∧ idle_timeout (sd d') = idle_timeout (sd d) ∧
    Z.of_nat (length (line d')) = if c =? 10 then 0 else Z.of_nat (length (line d)) + 1.
Proof.
  intros HD Ht Hc Hl. apply (daemon_ok_later now t) in HD; [|done]. unfold byte_in. destruct (Z.eqb_spec c 10) as [->|Hne].
  - set (d0 := set_line [] d). assert (daemon_ok t d0) as HD0 by (by apply daemon_ok_line).
    pose proof (until_nul_length (line d ++ [10])) as Hu. rewrite length_app in Hu. cbn [length] in Hu.
    assert (length (until_nul (line d ++ [10%Z])) <= 64)%nat as Hu' by lia.
    assert (∀ r, keeps t d0 r → ∃ d', r = Ok d' ∧ daemon_ok t d' ∧ idle_timeout (sd d') = idle_timeout (sd d) ∧ Z.of_nat (length (line d')) = 0) as Hk.
    { intros r (d' & E & H1 & H2 & H3). exists d'. rewrite H2. done. }
    apply Hk. destruct (until_nul (line d ++ [10])) as [|x l]; [by apply servo_line_ok|].
    destruct ((x =? 112) || (x =? 80)); [by apply pin_line_ok|by apply servo_line_ok].
  - specialize (Hc Hne). rewrite length_app. cbn [length]. rewrite (proj2 (Z.leb_gt 126 _)) by lia.
    eexists. split; [done|]. split; [by apply daemon_ok_line|]. split; [done|]. cbn [line set_line]. rewrite length_app. cbn [length]. lia.
Qed.

Lemma bytes_in_ok l now d :
  daemon_ok now d → Z.of_nat (length (line d)) <= 63 → input_ok (Z.of_nat (length (line d))) now l →
  ∃ d', forM l (λ c, byte_in c.1 c.2) d = Ok d' ∧ daemon_ok (last_time now l) d' ∧
    Z.of_nat (length (line d')) = last_length (Z.of_nat (length (line d))) l ∧ Z.of_nat (length (line d')) <= 63 ∧ idle_timeout (sd d') = idle_timeout (sd d).
Proof.
  revert now d. induction l as [|[c t] l IH]; intros now d HD Hl Hin; [by exists d|]. cbn [input_ok] in Hin. destruct Hin as [Ht Hin].
  destruct (byte_in_ok c now t d HD Ht) as (d1 & E & HD1 & Ei & El).
  { intros Hne. rewrite (proj2 (Z.eqb_neq _ _)) in Hin by done. lia. } { done. }
  cbn [forM last_time last_length fst snd]. rewrite E, bind_ok, <- El, <- Ei. apply IH; [done| |].
  - rewrite El. destruct (c =? 10); lia.
  - rewrite El. destruct (c =? 10); [done|]. apply Hin.
Qed.

(** Turns of the main loop with their times. *)
Fixpoint events_ok (k : Z) (now : timeval) (evs : list (timeval * list (Z * timeval))) : Prop :=
  match evs with
  | [] => True
  | (t, l) :: evs => later now t ∧ input_ok k t l ∧ events_ok (last_length k l) (last_time t l) evs
  end.

(** Turning off what is idle, as the first thing of a turn. *)
Lemma turn_idle t d :
  daemon_ok t d →
  (2146000 < idle_timeout (sd d) ∧ get_next_idle_timeout t (sd d) = Fault Overflow) ∨
  ∃ s tv, get_next_idle_timeout t (sd d) = Ok (s, tv) ∧ daemon_ok t (set_sd s d) ∧ idle_timeout s = idle_timeout (sd d).
Proof.
  intros [H1 H2 H3 H4 H5 H6]. destruct (idle_done_cases t (sd d) H1 H5 H6) as [[(k & u & _ & Hu & _ & Hf) E]|[_ (s & tv & E & Hd)]].
  { left. split; [|done]. destruct (H6 k u Hu) as [T1 T2]. by apply (too_far_timeout t u _ (clock_time _ H5)). }
  destruct Hd as [D1 (F1 & F2 & F3 & F4 & F5 & F6 & F7) _ D4 _]. right. exists s, tv. split; [done|]. split; [|done].
  split; cbn; rewrite ?F4, ?F5; try done; [by eapply pins_ok_frame..|]. intros i u Hu. cbn in Hu.
  destruct (lookup_lt_is_Some_2 (servo_kill_time (sd d)) i) as [u0 Hu0].
  { apply lookup_lt_Some in Hu. rewrite (mk_kill _ D1) in Hu. by rewrite (mk_kill _ H1). }
  destruct (H6 i u0 Hu0) as [A1 A2]. destruct (D4 i u0 Hu0) as [Ek _]. rewrite Ek in Hu. injection Hu as <-. rewrite F5.
  destruct (_ && _); [|done]. unfold clock_ok, time_ok, usecs in *. cbn. pose proof (mk_idle _ H1). lia.
Qed.

(** C22: the command loop survives every input: whatever bytes are written to
    the device, in lines of at most 63 characters, and whenever they arrive,
    by a clock that does not go back and ends an hour before its 32 bits do,
    the daemon never leaves its arrays or divides by zero, and its masks stay
    well formed, so every servo keeps a pulse of a width within the limits or
    none.  With an idle timeout of at most 2146 seconds nothing overflows
    either; with the longer ones that the command line accepts the time left
    to a servo can, and that is the only fault there is. *)
Theorem servod_survives evs now d :
  daemon_ok now d → line d = [] → events_ok 0 now evs →
  (∃ now' d', go_go_go evs d = Ok d' ∧ daemon_ok now' d') ∨
  (2146000 < idle_timeout (sd d) ∧ go_go_go evs d = Fault Overflow).
Proof.
  intros HD Hl. assert (Z.of_nat (length (line d)) <= 63) as Hk by (rewrite Hl; done).
  replace 0 with (Z.of_nat (length (line d))) by (by rewrite Hl). clear Hl. unfold go_go_go.
  revert now d HD Hk. induction evs as [|[t l] evs IH]; intros now d HD Hk Hev; [left; by exists now, d|]. cbn [events_ok] in Hev.
  destruct Hev as (Ht & Hin & Hev). apply (daemon_ok_later now t) in HD; [|done]. cbn [forM].
  assert (turn (t, l) d = ('(s, _) ← get_next_idle_timeout t (sd d); forM l (λ c, byte_in c.1 c.2) (set_sd s d))) as -> by done.
  destruct (turn_idle t d HD) as [[Hi ->]|(s & tv & -> & HD1 & Ei)]; [by right|]. rewrite bind_ok.
  destruct (bytes_in_ok l t (set_sd s d) HD1 Hk Hin) as (d2 & -> & HD2 & El & Hk2 & Ei2). rewrite bind_ok.
  replace (idle_timeout (sd d)) with (idle_timeout (sd d2)) by (rewrite Ei2; exact Ei).
  eapply IH; [exact HD2|exact Hk2|]. by rewrite El.
Qed.

(** *** The daemon of two servos *)

(** Servo 0 on pin 7 and servo 1 on pin 11 of header P1, widths of 10 to 90
    steps of 10 microseconds. *)
Definition example : DAEMON :=
  mkDaemon Ring.example_daemon (mkLimits 10 90 10) (<[7%nat := 0]> (<[11%nat := 1]> (replicate 27 DMY))) (replicate 9 DMY) [] [].

#[local] Opaque Ring.example_daemon.

Lemma example_ok : daemon_ok (mkTime 100 0) example.
Proof.
  destruct Ring.example_daemon_ok as (HK & H0 & H1).
  assert (∀ sv, sv = 0 ∨ sv = 1 → mapped Ring.example_daemon sv) as Hm.
  { intros sv [-> | ->]; unfold mapped; [rewrite (sv_gpio _ _ _ _ _ H0)|rewrite (sv_gpio _ _ _ _ _ H1)]; done. }
  assert (num_samples Ring.example_daemon = 100) as HN by (vm_compute; reflexivity).
  split; [exact HK|cbn [limits sd example]; rewrite HN; unfold limits_ok, LONG_MAX; cbn; lia| | |split; cbn; lia|].
  - intros pin Hp. cbn [p1pin2servo sd example].
    destruct (decide (pin = 7%nat)) as [->|H7]; [exists 0; split; [reflexivity|]; right; split; [unfold MAX_SERVOS; lia|by apply Hm; left]|].
    rewrite list_lookup_insert_ne by done.
    destruct (decide (pin = 11%nat)) as [->|H11]; [exists 1; split; [reflexivity|]; right; split; [unfold MAX_SERVOS; lia|by apply Hm; right]|].
    rewrite list_lookup_insert_ne by done. exists DMY. split; [apply lookup_replicate_2; lia|by left].
  - intros pin Hp. exists DMY. split; [apply lookup_replicate_2; lia|by left].
  - intros i t Ht. assert (t = mkTime 0 0) as ->; [|vm_compute; repeat split; intros [=]].
    assert (servo_kill_time Ring.example_daemon = replicate 32 (mkTime 0 0)) as Hk by (vm_compute; reflexivity).
    cbn [sd example] in Ht. rewrite Hk in Ht. by apply lookup_replicate in Ht as [-> _].
Qed.

(** The same with an idle timeout. *)
Definition with_idle (ms : Z) (s : SERVOD) : SERVOD :=
  mkServod (servo2gpio s) (servostart s) (servowidth s) (num_samples s) (turnoff_mask s) (turnon_mask s) (servo_kill_time s) ms (invert s) (fsel s) (level s).

Lemma with_idle_ok ms s : masks_ok s → 0 <= ms <= 3600000 → masks_ok (with_idle ms s).
Proof.
  intros [K1 K2 K3 K4 K5 K6 K7 K8 K9 K10] Hms. split; try done. intros sv Hsv Hm.
  destruct (K9 sv Hsv Hm) as (g & st & w & []). exists g, st, w. by split.
Qed.

Definition example_idle : SERVOD := with_idle 2000 Ring.example_daemon.

(** Times of the first two servos that lie within the timeout. *)
Lemma two_timers_ok now t0 t1 s :
  time_ok t0 → time_ok t1 → 0 <= usecs now → 0 <= idle_timeout s → usecs t0 <= usecs now + idle_timeout s * 1000 → usecs t1 <= usecs now + idle_timeout s * 1000 →
  timers_ok now (set_kill (<[0%nat := t0]> (<[1%nat := t1]> (replicate 32 (mkTime 0 0)))) s).
Proof.
  intros T0 T1 Hn Hi U0 U1 i t Ht. cbn [servo_kill_time set_kill] in Ht.
  apply list_lookup_insert_Some in Ht as [(_ & <- & _)|[_ Ht]]; [done|].
  apply list_lookup_insert_Some in Ht as [(_ & <- & _)|[_ Ht]]; [done|].
  apply lookup_replicate in Ht as [-> _]. unfold time_ok, usecs in *. cbn. lia.
Qed.

Lemma idle_servos_turned_off_witness :
  let s0 := set_kill (<[0%nat := mkTime 99 500000]> (<[1%nat := mkTime 101 0]> (replicate 32 (mkTime 0 0)))) example_idle in
  let s1 := set_kill (<[0%nat := mkTime 2300 0]> (<[1%nat := mkTime 101 0]> (replicate 32 (mkTime 0 0)))) (with_idle 3000000 Ring.example_daemon) in
  (∃ s tv, get_next_idle_timeout (mkTime 100 0) s0 = Ok (s, tv) ∧ turnon_mask s !! 0%nat = Some 0 ∧
    turnon_mask s !! 1%nat = turnon_mask s0 !! 1%nat ∧ usecs tv <= 1000000) ∧
  get_next_idle_timeout (mkTime 100 0) s1 = Fault Overflow.
Proof.
  intros s0 s1. split.
  2: { apply (idle_servos_turned_off (mkTime 100 0) s1).
    - apply set_kill_ok; [|reflexivity]. apply with_idle_ok; [apply Ring.example_daemon_ok|lia].
    - split; cbn; lia.
    - apply two_timers_ok; try (split; cbn; lia); vm_compute; intros [=].
    - exists 0%nat, (mkTime 2300 0). split; [lia|]. split; [reflexivity|]. split; [vm_compute; reflexivity|reflexivity]. }
  pose proof (with_idle_ok 2000 _ (proj1 Ring.example_daemon_ok) ltac:(lia)) as HK.
  destruct (idle_servos_turned_off (mkTime 100 0) (set_kill (servo_kill_time s0) example_idle)) as (Hno & _ & H).
  - by apply set_kill_ok.
  - split; cbn; lia.
  - apply two_timers_ok; try (split; cbn; lia); vm_compute; intros [=].
  - destruct (H (Hno ltac:(vm_compute; intros [=]))) as (s & tv & E & _ & _ & H'). clear H Hno. rename H' into H.
    exists s, tv. split; [exact E|].
    pose proof (H 0%nat (mkTime 99 500000) ltac:(reflexivity)) as A. pose proof (H 1%nat (mkTime 101 0) ltac:(reflexivity)) as B.
    assert (∀ now k t, in_use s0 k = true → expired now s0 k t = negb (tv_sec t =? 0) && (usecs t <=? usecs now)) as Hx.
    { intros now k t Hu. unfold expired. by rewrite Hu. }
    assert (in_use s0 0 = true ∧ in_use s0 1 = true) as [U0 U1] by (split; vm_compute; reflexivity).
    change (set_kill (servo_kill_time s0) example_idle) with s0 in *.
    rewrite Hx in A, B by done. cbn -[s0] in A, B. destruct A as [A _]. destruct B as (B1 & _ & B2).
    split; [exact A|]. split; [exact B1|]. specialize (B2 U1 ltac:(done)). unfold usecs in *. cbn in *. lia.
Defined.

(** Bytes at the start of a line, a line that sets a width, a line of
    nonsense, the report. *)
Definition example_events : list (timeval * list (Z * timeval)) :=
  [(mkTime 100 0, (λ c, (c, mkTime 100 10)) <$> Str.bytes "0=2");
   (mkTime 101 0, (λ c, (c, mkTime 101 10)) <$> Str.bytes "5" ++ [10] ++ Str.bytes "P1-11=+7us" ++ [10]);
   (mkTime 102 0, (λ c, (c, mkTime 102 10)) <$> Str.bytes "hello" ++ [10] ++ Str.bytes "debug" ++ [10])].

Lemma servod_survives_witness : ∃ now' d', go_go_go example_events example = Ok d' ∧ daemon_ok now' d'.
Proof.
  destruct (servod_survives example_events (mkTime 100 0) example) as [H|[Hi _]].
  - exact example_ok.
  - reflexivity.
  - vm_compute. repeat split; intros [=].
  - exact H.
  - vm_compute in Hi. discriminate Hi.
Defined.

(** What the text of a width stands for, with 50 to 250 steps of 10
    microseconds. *)
Example units_of_width :
  let parse t := parse_width (mkLimits 50 250 10) (set_servowidth (replicate 32 200) Ring.example_daemon) 0 (Str.bytes t) in
  parse "150" = Ok 150 ∧ parse "1500us" = Ok 150 ∧ parse "50%" = Ok 150 ∧ parse "1.5e2" = Ok 150 ∧ parse "0x96" = Ok 150 ∧
  parse "+10" = Ok 210 ∧ parse "-10" = Ok 190 ∧ parse "+90" = Ok 250 ∧ parse "-190" = Ok 50 ∧
  parse "49" = Ok (-1) ∧ parse "251" = Ok (-1) ∧ parse "0" = Ok 0 ∧ parse "150 us" = Ok (-1) ∧ parse "x" = Ok (-1) ∧ parse "1e999" = Ok (-1).
Proof. vm_compute. repeat split. Qed.

(** A step up from an output that is off is refused when it stays below the
    least width; it is not raised to it. *)
Example plus_below_minimum_refused :
  parse_width (mkLimits 50 250 10) (set_servowidth (replicate 32 0) Ring.example_daemon) 0 (Str.bytes "+10") = Ok (-1).
Proof. vm_compute. reflexivity. Qed.

(** A word of 64 characters does not fit into [width_arg]. *)
Example width_arg_overflows :
  forM (Str.bytes "0=" ++ replicate 64 49 ++ [10]) (λ c, byte_in c (mkTime 100 0)) example = Fault OutOfBounds.
Proof. vm_compute. reflexivity. Qed.

End Cmd.
