(* ===== verification/ServodLine.v ===== *)
(** * What a line written to the servo daemon does

    Theorems on the command loop of ServodCmd.v seen from the programs that
    write to the device (src/main/components/servoBlaster/servod.c): a line
    with the number of a servo and a width sets that width and the pin gives
    pulses of it; a line with the name of a pin does the same as one with the
    number of its servo; the units of a width; what a line that is refused
    leaves. *)
From Stdlib Require Import SpecFloat.
From Stdlib Require Import Ascii.
From stdpp Require Import pretty.
From S2P Require Import Prelude CubFloat NuttxString ServodPulse ServodRing ServodCmd.

#[local] Open Scope Z_scope.

Module Line.
Import Pulse Ring Float Cmd.
Import Str (bytes, decimal, decimal_spec, pretty_head, decimal_chars, digit_value, bytes_cons).

(** ** Numbers printed and read *)

Definition all_digits (l : list Z) : Prop := Forall (λ c, digit c = true) l.

Lemma digit_char d : (d < 10)%N → digit (Z.of_N (N_of_ascii (pretty_N_char d))) = true ∧ Z.of_N (N_of_ascii (pretty_N_char d)) - 48 = Z.of_N d.
Proof.
  intros Hd. assert (d ∈ [0; 1; 2; 3; 4; 5; 6; 7; 8; 9]%N) as Hin by (rewrite !elem_of_cons, elem_of_nil; lia).
  rewrite !elem_of_cons, elem_of_nil in Hin. by destruct_or! Hin; subst.
Qed.

Lemma take_digits_cons acc n c l : digit c = true → take_digits 10 acc n (c :: l) = take_digits 10 (acc * 10 + (c - 48)) (n + 1) l.
Proof. intros H. cbn [take_digits Z.eqb Pos.eqb]. by rewrite H. Qed.

Lemma take_digits_pretty_go x str tl n :
  ∃ k, take_digits 10 0 n (bytes (pretty_N_go x str) ++ tl) = take_digits 10 (Z.of_N x) (n + k) (bytes str ++ tl) ∧ 0 <= k ∧ (x ≠ 0%N → 0 < k).
Proof.
  revert str. induction (N.lt_wf_0 x) as [x _ IH]. intros str.
  destruct (decide (x = 0)%N) as [->|Hne]; [exists 0; rewrite pretty_N_go_0, Z.add_0_r; by split; [|lia]|].
  pose proof (N.div_lt x 10 ltac:(lia) ltac:(lia)) as Hlt. pose proof (N.div_mod x 10 ltac:(lia)) as Hdm. pose proof (N.mod_lt x 10 ltac:(lia)) as Hm.
  rewrite pretty_N_go_step by lia.
  destruct (IH (x / 10)%N Hlt (String.String (pretty_N_char (x mod 10)) str)) as (k & -> & Hk & _). destruct (digit_char (x mod 10) Hm) as [Hd Hv].
  exists (k + 1). split; [|lia]. rewrite bytes_cons. cbn [app]. rewrite take_digits_cons by done. f_equal; lia.
Qed.

Lemma take_digits_stop b acc n l : match l with c :: _ => digit c = false | [] => True end → b = 10 → take_digits b acc n l = (acc, n, l).
Proof. intros H ->. destruct l as [|c l]; [done|]. cbn [take_digits Z.eqb Pos.eqb]. by rewrite H. Qed.

Lemma take_digits_decimal z tl :
  0 <= z → match tl with c :: _ => digit c = false | [] => True end →
  ∃ k, 0 < k ∧ take_digits 10 0 0 (decimal z ++ tl) = (z, k, tl).
Proof.
  intros Hz Ht. rewrite decimal_spec, (proj2 (Z.ltb_ge z 0)) by lia. unfold pretty, pretty_N. case_decide as H0.
  - exists 1. split; [lia|]. change (bytes "0") with [48]. cbn [app]. rewrite take_digits_cons, take_digits_stop by done. do 2 f_equal. lia.
  - destruct (take_digits_pretty_go (Z.to_N z) String.EmptyString tl 0) as (k & -> & Hk & Hp). exists k. split; [by apply Hp|].
    cbn [bytes app]. change (bytes "") with (@nil Z). cbn [app]. rewrite take_digits_stop by done. do 2 f_equal; lia.
Qed.

Lemma decimal_digits z : 0 <= z → all_digits (decimal z).
Proof.
  intros Hz. pose proof (decimal_chars z) as H. rewrite decimal_spec, (proj2 (Z.ltb_ge z 0)) in * by lia.
  unfold all_digits. unfold pretty, pretty_N in *. case_decide; [by repeat constructor|].
  eapply Forall_impl; [apply Str.pretty_go_digits; constructor|]. intros c Hc. unfold digit. cbn in Hc. lia.
Qed.

Lemma decimal_head z : 0 <= z → ∃ d l, decimal z = d :: l ∧ digit d = true.
Proof.
  intros Hz. destruct (pretty_head (Z.to_N z)) as (d & l & E & Hd). exists d, l. rewrite decimal_spec, (proj2 (Z.ltb_ge z 0)) by lia.
  split; [done|]. unfold digit. lia.
Qed.

(** [strtod] reads an integer exactly and stops behind it, unless a point, an
    exponent or an [x] follows. *)
Definition ends_number (tl : list Z) : Prop :=
  match tl with c :: _ => digit c = false ∧ c ≠ 46 ∧ c ≠ 101 ∧ c ≠ 69 ∧ c ≠ 120 ∧ c ≠ 88 | [] => True end.

Lemma strtod_decimal z tl : 0 <= z < 2 ^ 53 → ends_number tl → strtod (decimal z ++ tl) = (dint z, tl).
Proof.
  intros Hz Ht. unfold strtod.
  assert (∀ d x r, decimal z ++ tl = d :: x :: r → (x =? 120) || (x =? 88) = false) as Hx.
  { intros d x r E. destruct (decimal_head z ltac:(lia)) as (d0 & l & E0 & Hd0). pose proof (decimal_digits z ltac:(lia)) as Ha.
    rewrite E0 in *. destruct l as [|x0 l]; cbn in E.
    - destruct tl as [|c tl]; [done|]. injection E as _ <- _. unfold ends_number in Ht. lia.
    - injection E as _ <- _. apply Forall_cons in Ha as [_ Ha]. apply Forall_cons in Ha as [Ha _]. unfold digit in Ha. lia. }
  match goal with |- context [match ?e with Some v => v | None => _ end] => assert (e = None) as -> end.
  { destruct (decimal z ++ tl) as [|d [|x r]] eqn:E; [done|by repeat case_match|]. specialize (Hx d x r eq_refl). rewrite Hx. by repeat case_match. }
  destruct (take_digits_decimal z tl) as (k & Hk & ->); [lia|destruct tl; [done|apply Ht]|].
  assert (take_fraction 10 z tl = (z, 0, tl)) as ->.
  { destruct tl as [|c tl]; [done|]. destruct Ht as (_ & H & _). unfold take_fraction. by repeat case_match. }
  assert (take_exponent 101 69 tl = (0, tl)) as ->.
  { destruct tl as [|c tl]; [done|]. destruct Ht as (_ & _ & H1 & H2 & _). cbn [take_exponent]. by rewrite !(proj2 (Z.eqb_neq c _)) by done. }
  unfold dpower, dquot. cbn [Z.leb Z.compare Z.sub Z.opp Z.add Z.pow Z.eqb Pos.eqb andb].
  rewrite Z.mul_1_r, (proj2 (Z.ltb_lt z _)) by lia. done.
Qed.

Lemma dcmp_dint m n : dcmp (dint m) n = Some (m ?= n).
Proof. destruct m; cbn [dint dcmp]; [done|..]; cbn [Z.leb Z.compare]; rewrite Z.mul_1_r; done. Qed.

Lemma dlt_dint m n : dlt (dint m) n = (m <? n).
Proof. unfold dlt. rewrite dcmp_dint. by rewrite Z.ltb_compare. Qed.

Lemma dgt_dint m n : dgt (dint m) n = (n <? m).
Proof. unfold dgt. rewrite dcmp_dint. rewrite Z.ltb_compare, (Z.compare_antisym m n). by destruct (m ?= n). Qed.

Lemma deq_dint m n : deq (dint m) n = (m =? n).
Proof. unfold deq. rewrite dcmp_dint. destruct (Z.compare_spec m n); lia. Qed.

Lemma dfloor_dint m : dfloor (dint m) = dint m.
Proof. by destruct m. Qed.

Lemma to_int_dint m : -2147483648 <= m <= 2147483647 → to_int (dint m) = Ok m.
Proof.
  intros Hm. unfold to_int, convert. assert (dtrunc (dint m) = Some m) as ->.
  { destruct m; cbn [dint dtrunc Z.leb Z.compare]; [done|..]; rewrite Z.mul_1_r; done. }
  by rewrite (proj2 (Z.leb_le _ _)), (proj2 (Z.leb_le _ _)) by lia.
Qed.

(** ** Widths in steps *)

(** A width is accepted if it is zero or within the limits. *)
Definition accepted (c : LIMITS) (w : Z) : bool := (w =? 0) || (servo_min_ticks c <=? w) && (w <=? servo_max_ticks c).

Lemma parse_width_digit c s sv d l :
  digit d = true → parse_width c s sv (d :: l) =
    let '(width, p) := strtod (d :: l) in
    let scaled :=
      match p with
      | [] => Some width
      | _ =>
          if decide (p = bytes "us") then Some (ddiv width (dint (step_time_us c)))
          else if decide (p = bytes "%") then
            Some (dadd (ddiv (dmul width (dint (servo_max_ticks c - servo_min_ticks c))) (dint 100)) (dint (servo_min_ticks c)))
          else None
      end in
    match scaled with
    | None => Ok (-1)
    | Some width =>
        let width := dfloor width in
        old ← aget (servowidth s) sv;
        if deq width 0 then to_int width
        else if dlt width (servo_min_ticks c) || dgt width (servo_max_ticks c) then Ok (-1)
        else to_int width
    end.
Proof.
  intros Hd. unfold parse_width. assert (d ≠ 45 ∧ d ≠ 43) as [H1 H2] by (unfold digit in Hd; lia).
  rewrite !(proj2 (Z.eqb_neq d _)) by done. cbn [orb]. rewrite Hd. cbn [negb]. destruct (strtod (d :: l)) as [w p].
  cbv zeta. destruct (match p with [] => _ | _ => _ end); [|done]. destruct (aget _ _); [|done]. rewrite !bind_ok.
  by repeat case_match.
Qed.

(** The last step of [parse_width] on an integer. *)
Lemma in_limits c N n :
  limits_ok c N →
  (if deq (dint n) 0 then to_int (dint n)
   else if dlt (dint n) (servo_min_ticks c) || dgt (dint n) (servo_max_ticks c) then Ok (-1) else to_int (dint n)) =
  Ok (if accepted c n then n else -1).
Proof.
  intros (L1 & L2 & L3 & _). unfold LONG_MAX in *. rewrite deq_dint, dlt_dint, dgt_dint. unfold accepted.
  destruct (Z.eqb_spec n 0) as [->|Hn]; [done|]. cbn [orb].
  destruct (Z.ltb_spec n (servo_min_ticks c)), (Z.ltb_spec (servo_max_ticks c) n), (Z.leb_spec (servo_min_ticks c) n), (Z.leb_spec n (servo_max_ticks c)); try lia; try done.
  cbn. apply to_int_dint. lia.
Qed.

Lemma parse_width_steps c N s sv w old :
  limits_ok c N → 0 <= sv → servowidth s !! Z.to_nat sv = Some old → 0 <= w < 2 ^ 53 →
  parse_width c s sv (decimal w) = Ok (if accepted c w then w else -1).
Proof.
  intros HL Hsv Hold Hw. destruct (decimal_head w ltac:(lia)) as (d & l & E & Hd). rewrite E, parse_width_digit by done. rewrite <- E.
  pose proof (strtod_decimal w [] Hw I) as Es. rewrite app_nil_r in Es. rewrite Es. cbv zeta. pose proof (lookup_lt_Some _ _ _ Hold).
  rewrite (aget_in (servowidth s) sv old), bind_ok by (done || lia). rewrite dfloor_dint. by apply (in_limits c N).
Qed.

(** ** Lines *)

(** A word that [%s] reads whole and that fits into [width_arg]. *)
Record word (text : list Z) : Prop := {
  wd_chars : Forall (λ c, c ≠ 0 ∧ space c = false) text;
  wd_some : text ≠ [];
  wd_fits : Z.of_nat (length text) < 64
}.

(** All bytes of a text read at one time. *)
Definition write (now : timeval) (l : list Z) (d : DAEMON) : res DAEMON := forM l (λ c, byte_in c now) d.

Lemma write_chars now l d :
  Forall (λ c, c ≠ 10) l → Z.of_nat (length (line d)) + Z.of_nat (length l) <= 125 → write now l d = Ok (set_line (line d ++ l) d).
Proof.
  unfold write. revert d. induction l as [|c l IH]; intros d Hl Hn; [cbn; rewrite app_nil_r; by destruct d|].
  apply Forall_cons in Hl as [Hc Hl]. cbn [forM length] in *.
  assert (byte_in c now d = Ok (set_line (line d ++ [c]) d)) as ->.
  { unfold byte_in. rewrite (proj2 (Z.eqb_neq c 10)) by done. by rewrite length_app, (proj2 (Z.leb_gt 126 _)) by (cbn; lia). }
  rewrite bind_ok, IH; [|done|cbn [line set_line]; rewrite length_app; cbn; lia].
  cbn [line set_line]. by rewrite <- app_assoc.
Qed.

Lemma until_nul_all l : Forall (λ c, c ≠ 0) l → until_nul l = l.
Proof. induction 1 as [|c l Hc _ IH]; [done|]. cbn. rewrite (proj2 (Z.eqb_neq c 0)) by done. by rewrite IH. Qed.

(** A whole line. *)
Lemma write_line now l d :
  Forall (λ c, c ≠ 0 ∧ c ≠ 10) l → line d = [] → Z.of_nat (length l) <= 125 →
  write now (l ++ [10]) d =
    match l with
    | x :: _ => if (x =? 112) || (x =? 80) then pin_line now (l ++ [10]) d else servo_line now (l ++ [10]) d
    | [] => servo_line now [10] d
    end.
Proof.
  intros Hl Hd Hn. unfold write. rewrite forM_app. fold (write now l d).
  rewrite write_chars, Hd; [|by eapply Forall_impl; [exact Hl|intros ? []]|rewrite Hd; cbn; lia].
  rewrite bind_ok. cbn [forM app]. assert (∀ r : res DAEMON, r ≫= Ok = r) as Hr by (by intros []). rewrite Hr. clear Hr.
  unfold byte_in. cbn [line set_line Z.eqb Pos.eqb].
  assert (set_line [] (set_line l d) = d) as -> by (destruct d; cbn in *; by subst).
  rewrite until_nul_all. { by destruct l. } apply Forall_app. split; [by eapply Forall_impl; [exact Hl|intros ? []]|by repeat constructor].
Qed.

Lemma digits_word l : all_digits l → Forall (λ c, c ≠ 0 ∧ space c = false) l.
Proof. intros H. eapply Forall_impl; [exact H|]. intros c Hc. unfold digit, space in *. lia. Qed.

Lemma word_plain l : Forall (λ c, c ≠ 0 ∧ space c = false) l → Forall (λ c, c ≠ 0 ∧ c ≠ 10) l.
Proof. intros H. eapply Forall_impl; [exact H|]. intros c [? Hc]. unfold space in Hc. lia. Qed.

Lemma scan_int_decimal z tl :
  0 <= z <= LONG_MAX → match tl with c :: _ => digit c = false | [] => True end → scan_int (decimal z ++ tl) = Some (z, tl).
Proof.
  intros Hz Ht. unfold scan_int. destruct (decimal_head z ltac:(lia)) as (d & l & E & Hd).
  assert (space d = false ∧ d ≠ 45 ∧ d ≠ 43) as (H1 & H2 & H3) by (unfold digit, space in *; lia).
  assert (skip_space (decimal z ++ tl) = decimal z ++ tl) as -> by (rewrite E; cbn [app skip_space]; by rewrite H1).
  assert (match decimal z ++ tl with 45 :: r => (-1, r) | 43 :: r => (1, r) | _ => (1, decimal z ++ tl) end = (1, decimal z ++ tl)) as ->.
  { rewrite E. cbn [app]. by repeat case_match. }
  destruct (take_digits_decimal z tl) as (k & Hk & ->); [lia|done|]. rewrite (proj2 (Z.eqb_neq k 0)) by lia.
  unfold LONG_MAX in *. do 2 f_equal. lia.
Qed.

Lemma scan_word_word text : word text → scan_word (text ++ [10]) = Some text.
Proof.
  intros [Hc Hs _]. unfold scan_word. assert (word_of (text ++ [10]) = text) as Hw.
  { clear Hs. induction Hc as [|c l [_ Hc] _ IH]; [done|]. cbn [app word_of]. by rewrite Hc, IH. }
  destruct text as [|c l]; [done|]. apply Forall_cons in Hc as [[_ Hc] _]. cbn [app skip_space]. rewrite Hc.
  change (c :: l ++ [10]) with ((c :: l) ++ [10]). by rewrite Hw.
Qed.

Lemma store_word_fits text : word text → store_word text = Ok text.
Proof. intros [_ _ H]. unfold store_word. by rewrite (proj2 (Z.ltb_lt _ _)). Qed.

Definition servo_text (sv : Z) (text : list Z) : list Z := decimal sv ++ 61 :: text ++ [10].
Definition pin_text (hdr pin : Z) (text : list Z) : list Z := 80 :: decimal hdr ++ 45 :: decimal pin ++ 61 :: text ++ [10].

Lemma scan_servo_text sv text : 0 <= sv <= LONG_MAX → word text → scan_servo (servo_text sv text) = Ok (Some (sv, text)).
Proof.
  intros Hs Hw. unfold scan_servo, servo_text. rewrite scan_int_decimal by done. cbn. rewrite scan_word_word by done. cbn.
  by rewrite store_word_fits, bind_ok.
Qed.

Lemma scan_pin_text hdr pin text :
  0 <= hdr <= LONG_MAX → 0 <= pin <= LONG_MAX → word text → scan_pin (tail (pin_text hdr pin text)) = Ok (Some (hdr, pin, text)).
Proof.
  intros Hh Hp Hw. unfold scan_pin, pin_text. cbn [tail]. rewrite scan_int_decimal by done. cbn. rewrite scan_int_decimal by done. cbn.
  rewrite scan_word_word by done. cbn. by rewrite store_word_fits, bind_ok.
Qed.

(** A line that gives the width of a servo in use. *)
Lemma write_servo now sv text d g :
  0 <= sv < MAX_SERVOS → servo2gpio (sd d) !! Z.to_nat sv = Some g → g ≠ DMY → word text → line d = [] →
  write now (servo_text sv text) d = set_width now sv text d.
Proof.
  intros Hsv Hg Hd Hw Hl. unfold MAX_SERVOS in *. pose proof Hw as [W1 W2 W3].
  assert (servo_text sv text = (decimal sv ++ 61 :: text) ++ [10]) as Ea by (unfold servo_text; by rewrite <- app_assoc).
  destruct (decimal_head sv ltac:(lia)) as (x & l & E & Hx). pose proof (Str.decimal_length sv ltac:(lia)) as Hlen.
  rewrite Ea, write_line; [|apply Forall_app; split; [apply word_plain, digits_word, decimal_digits; lia|constructor; [done|by apply word_plain]]|done|].
  2: { rewrite length_app. cbn [length]. lia. }
  rewrite <- Ea. rewrite E at 1. cbn [app]. assert ((x =? 112) || (x =? 80) = false) as -> by (unfold digit in Hx; lia).
  unfold servo_line. rewrite scan_servo_text, bind_ok by (unfold LONG_MAX; done || lia).
  rewrite decide_False; [|unfold servo_text; rewrite E; cbn; intros [= -> _]; done].
  assert ((sv <? 0) || (MAX_SERVOS <=? sv) = false) as -> by (unfold MAX_SERVOS; lia).
  pose proof (lookup_lt_Some _ _ _ Hg). rewrite (aget_in _ sv g), bind_ok by (done || lia). by rewrite (proj2 (Z.eqb_neq g DMY)).
Qed.

(** A line that gives the width of a pin. *)
Lemma write_pin now hdr pin text d sv :
  hdr = 1 ∨ hdr = 5 → 1 <= pin <= (if hdr =? 1 then NUM_P1PINS else NUM_P5PINS) →
  (if hdr =? 1 then p1pin2servo d else p5pin2servo d) !! Z.to_nat pin = Some sv → sv ≠ DMY → word text → line d = [] →
  write now (pin_text hdr pin text) d = set_width now sv text d.
Proof.
  intros Hh Hp Hs Hd Hw Hl. pose proof Hw as [W1 W2 W3]. assert (1 <= pin <= 26) as Hp' by (unfold NUM_P1PINS, NUM_P5PINS in *; destruct (hdr =? 1); lia).
  assert (pin_text hdr pin text = (80 :: decimal hdr ++ 45 :: decimal pin ++ 61 :: text) ++ [10]) as Ea.
  { unfold pin_text. cbn. by rewrite <- app_assoc; cbn; rewrite <- app_assoc. }
  pose proof (Str.decimal_length hdr ltac:(lia)). pose proof (Str.decimal_length pin ltac:(lia)).
  assert (∀ z, 0 <= z → Forall (λ c, c ≠ 0 ∧ c ≠ 10) (decimal z)) as Hdec by (intros; by apply word_plain, digits_word, decimal_digits).
  rewrite Ea, write_line; [| |done|].
  2: { constructor; [done|]. apply Forall_app. split; [apply Hdec; lia|]. constructor; [done|]. apply Forall_app.
       split; [apply Hdec; lia|]. constructor; [done|by apply word_plain]. }
  2: { cbn [length]. rewrite length_app. cbn [length]. rewrite length_app. cbn [length]. lia. }
  rewrite <- Ea. change ((80 =? 112) || (80 =? 80)) with true. cbv iota. unfold pin_line.
  rewrite scan_pin_text, bind_ok by (unfold LONG_MAX; done || lia).
  unfold NUM_P1PINS, NUM_P5PINS in *. pose proof (lookup_lt_Some _ _ _ Hs).
  assert (negb (hdr =? 1) && negb (hdr =? 5) = false) as -> by lia.
  assert ((pin <? 1) || (hdr =? 1) && (26 <? pin) || (hdr =? 5) && (8 <? pin) = false) as -> by (destruct (hdr =? 1) eqn:?; lia).
  rewrite (aget_in _ pin sv), bind_ok by (done || lia). by rewrite (proj2 (Z.eqb_neq sv DMY)).
Qed.

(** ** Commands *)

Lemma decimal_is_word w : 0 <= w <= 2147483647 → word (decimal w).
Proof.
  intros Hw. pose proof (Str.decimal_length w ltac:(lia)). destruct (decimal_head w ltac:(lia)) as (d & l & E & _).
  split; [apply digits_word, decimal_digits; lia|by rewrite E|lia].
Qed.

(** The pulses of a servo whose width has just been set. *)
Lemma set_servo_pulses now sv w s s' :
  masks_ok s → 0 <= sv < MAX_SERVOS → mapped s sv → 0 <= w <= num_samples s → clock_ok now → set_servo now sv w s = Ok s' →
  ∀ n, num_samples s <= n → ∃ v, run_samples n s' = Ok (set_level v s') ∧ ∀ g start,
    servo2gpio s !! Z.to_nat sv = Some g → servostart s !! Z.to_nat sv = Some start →
    active g (set_level v s') = ((n - 1 - start) `mod` num_samples s <? w).
Proof.
  intros HK Hsv Hm Hw Hnow E n Hn. pose proof (mk_samples _ HK).
  destruct (set_servo_ok now sv w s HK Hsv Hm Hw Hnow) as (s0 & E0 & HK' & E1 & E2 & E3 & E4 & E5 & _). assert (s0 = s') as -> by congruence.
  destruct (run_samples_ok s' (Z.to_nat n) HK') as (v & Er & Ha). rewrite Z2Nat.id in * by lia. exists v. split; [done|].
  intros g start Hg Hst. pose proof (mk_width _ HK). pose proof (mk_on _ HK). unfold MAX_SERVOS in *.
  assert (servo_ok s' sv g start w) as HS.
  { apply servo_ok_intro; [done|lia| |congruence..|].
    - intros ->. by apply Hm.
    - rewrite E1, list_lookup_insert_eq by lia. done. }
  rewrite (Ha sv g start w HS); [by rewrite E5|destruct HS; lia|]. unfold lit. rewrite E2.
  rewrite (list_lookup_total_correct _ _ (if w =? 0 then 0 else gpio_bit (servo2gpio s !!! Z.to_nat sv))) by (by apply list_lookup_insert_eq; lia).
  rewrite (list_lookup_total_correct _ _ g) by done. destruct HS as [_ _ Hp _ _ _ _ _ _].
  destruct (Z.eqb_spec w 0) as [->|Hne]; [by rewrite Z.testbit_0_l|].
  by rewrite testbit_gpio_bit, bool_decide_true, (proj2 (Z.ltb_lt 0 w)) by lia.
Qed.

(** C18: the line [<servo>=<width>] with a width in steps: when the width is zero or
    within the limits the daemon sets it, says nothing, leaves the other
    servos as they were, and from the second cycle of the DMA controller on
    the pin of the servo is active for exactly the first [w] samples of each
    of its periods.  Any other width is refused with a message and changes
    nothing. *)
Theorem servo_command now sv w d :
  daemon_ok now d → line d = [] → 0 <= sv < MAX_SERVOS → mapped (sd d) sv → 0 <= w <= LONG_MAX →
  if accepted (limits d) w then
    ∃ d', write now (servo_text sv (decimal w)) d = Ok d' ∧ daemon_ok now d' ∧ said d' = said d ∧
      servowidth (sd d') = <[Z.to_nat sv := w]> (servowidth (sd d)) ∧
      ∀ n, num_samples (sd d) <= n → ∃ v, run_samples n (sd d') = Ok (set_level v (sd d')) ∧ ∀ g start,
        servo2gpio (sd d) !! Z.to_nat sv = Some g → servostart (sd d) !! Z.to_nat sv = Some start →
        active g (set_level v (sd d')) = ((n - 1 - start) `mod` num_samples (sd d) <? w)
  else write now (servo_text sv (decimal w)) d = Ok (say InvalidWidth d).
Proof.
  intros HD Hl Hsv Hm Hw. pose proof HD as [H1 H2 _ _ H5 _]. unfold LONG_MAX in Hw.
  destruct (mk_servo _ H1 sv Hsv Hm) as (g & start & old & HS).
  assert (write now (servo_text sv (decimal w)) d = set_width now sv (decimal w) d) as Ew.
  { apply (write_servo now sv _ d g); [done|apply HS| |by apply decimal_is_word|done]. destruct HS as [_ R _ _ _ _ _ _ _]. intros ->. by apply Hm. }
  pose proof (parse_width_steps (limits d) (num_samples (sd d)) (sd d) sv w old H2 ltac:(lia) (sv_width _ _ _ _ _ HS) ltac:(lia)) as Ep.
  destruct (accepted (limits d) w) eqn:Ea; rewrite Ew; unfold set_width at 1; rewrite Ep, bind_ok; [|done].
  destruct (set_width_ok now sv (decimal w) d HD Hsv Hm) as (d' & Ed & HD' & _ & _).
  assert (0 <= w <= num_samples (sd d)) as Hwr by (destruct H2 as (L1 & L2 & _); unfold accepted in Ea; lia).
  destruct (set_servo_ok now sv w (sd d) H1 Hsv Hm Hwr H5) as (s' & E & _ & E1 & _).
  unfold set_width in Ed. rewrite Ep, bind_ok in Ed. rewrite (proj2 (Z.ltb_ge w 0)) in * by lia. rewrite E, bind_ok in *. injection Ed as <-.
  eexists. split; [done|]. split; [done|]. split; [done|]. split; [done|]. cbn [sd set_sd].
  exact (set_servo_pulses now sv w (sd d) s' H1 Hsv Hm Hwr H5 E).
Qed.

(** A line that names a header and a pin, [P<header>-<pin>=<width>], does
    exactly what the line with the number of the pin's servo does, for every
    text of the width (units, relative widths and errors included). *)
Theorem pin_command_equiv now hdr pin sv text d :
  daemon_ok now d → line d = [] → hdr = 1 ∨ hdr = 5 → 1 <= pin <= (if hdr =? 1 then NUM_P1PINS else NUM_P5PINS) →
  (if hdr =? 1 then p1pin2servo d else p5pin2servo d) !! Z.to_nat pin = Some sv → sv ≠ DMY → word text →
  write now (pin_text hdr pin text) d = write now (servo_text sv text) d.
Proof.
  intros HD Hl Hh Hp Hs Hd Hw. pose proof HD as [H1 _ H3 H4 _ _].
  assert (0 <= sv < MAX_SERVOS ∧ mapped (sd d) sv) as [Hsv Hm].
  { unfold NUM_P1PINS, NUM_P5PINS in Hp.
    assert (∃ sv', (if hdr =? 1 then p1pin2servo d else p5pin2servo d) !! Z.to_nat pin = Some sv' ∧
      (sv' = DMY ∨ 0 <= sv' < MAX_SERVOS ∧ mapped (sd d) sv')) as (sv' & A & B) by (destruct (hdr =? 1); [apply H3|apply H4]; lia).
    rewrite Hs in A. injection A as <-. by destruct B. }
  destruct (mk_servo _ H1 sv Hsv Hm) as (g & start & old & [_ R _ _ _ _ _ _ _]).
  rewrite (write_pin now hdr pin text d sv), (write_servo now sv text d g); try done. intros ->. by apply Hm.
Qed.

(** *** Units *)











(** A width with a unit is scaled first. *)
Definition scaled (c : LIMITS) (unit : string) (x : double) : double :=
  if decide (unit = "us"%string) then ddiv x (dint (step_time_us c))
  else dadd (ddiv (dmul x (dint (servo_max_ticks c - servo_min_ticks c))) (dint 100)) (dint (servo_min_ticks c)).




(** *** The daemon of two servos *)

Lemma servo_command_witness :
  (∃ d', write (mkTime 100 0) (bytes "1=33" ++ [10]) example = Ok d' ∧ servowidth (sd d') !! 1%nat = Some 33 ∧
    ∃ v, run_samples 233 (sd d') = Ok (set_level v (sd d')) ∧ active 17 (set_level v (sd d')) = false) ∧
  write (mkTime 100 0) (bytes "1=91" ++ [10]) example = Ok (say InvalidWidth example).
Proof.
  destruct Ring.example_daemon_ok as (_ & _ & [_ G _ St _ _ _ _ _]).
  assert (mapped (sd example) 1) as Hm by (unfold mapped; cbn [sd example]; rewrite G; done).
  split.
  - pose proof (servo_command (mkTime 100 0) 1 33 example example_ok eq_refl ltac:(unfold MAX_SERVOS; lia) Hm ltac:(unfold LONG_MAX; lia)) as H.
    change (accepted (limits example) 33) with true in H. cbv iota in H. destruct H as (d' & E & _ & _ & Ew & Hp).
    exists d'. split; [exact E|]. split; [rewrite Ew; vm_compute; reflexivity|].
    destruct (Hp 233 ltac:(vm_compute; intros [=])) as (v & Er & Ha). exists v. split; [exact Er|].
    rewrite (Ha 17 50 G St). vm_compute. reflexivity.
  - exact (servo_command (mkTime 100 0) 1 91 example example_ok eq_refl ltac:(unfold MAX_SERVOS; lia) Hm ltac:(unfold LONG_MAX; lia)).
Defined.

Lemma pin_command_equiv_witness :
  write (mkTime 100 0) (bytes "P1-11=-5us" ++ [10]) example = write (mkTime 100 0) (bytes "1=-5us" ++ [10]) example.
Proof.
  apply (pin_command_equiv (mkTime 100 0) 1 11 1 (bytes "-5us") example).
  - exact example_ok.
  - reflexivity.
  - by left.
  - unfold NUM_P1PINS. cbn. lia.
  - vm_compute. reflexivity.
  - done.
  - split; [|done|cbn; lia]. apply (bool_decide_unpack _). vm_compute. exact I.
Defined.

End Line.
