(* ===== verification/ServodStart.v ===== *)
(** * The options and the pins of the servo daemon

    Models what main of src/main/components/servoBlaster/servod.c does before
    it touches the hardware: the options, the revision of the board, the lists
    of pins, the checks of the parameters, and the page map.  [fatal] prints a
    message and ends the program: it is a value of its own here, apart from
    the faults of undefined behaviour.  What the operating system gives, the
    text of /proc/cpuinfo, the options as getopt_long finds them and the words
    of the page map, are arguments. *)
From Stdlib Require Import SpecFloat.
From S2P Require Import Prelude CubFloat NuttxString ServodPulse ServodRing ServodCmd.

#[local] Open Scope Z_scope.

Module Start.
Import Pulse Float Cmd.

(** ** Giving up *)

Inductive header : Type := P1 | P5.
#[export] Instance header_eq_dec : EqDecision header.
Proof. solve_decision. Defined.

(** The messages of [fatal]; [Usage] is the text of --help. *)
Inductive message : Type :=
  | NoCpuinfo | NoRevision | RevisionNotParsed | InvalidRevision
  | NoP5Header
  | InvalidCharacter (h : header) | InvalidPinNumber (pin : Z) (h : header) | TooManyServos
  | CannotBeUsed (pin : Z) (h : header) | CannotMap (gpio : Z)
  | InvalidMinMax | NotMultipleOfStep | NotPercentage
  | InvalidParameter | Usage
  | InvalidDmaChan | InvalidIdleTimeout | InvalidCycleTime | InvalidStepSize
  | CycleNotMultiple | CycleTooShort | TooMuchMemory | MaxTooLarge | MinNotBelowMax
  | PagemapNotRead | PageNotPresent (i : Z).

#[local] Abbreviation may A := (res (message + A)%type).
Definition fatal {A} (m : message) : may A := Ok (inl m).
Definition done {A} (x : A) : may A := Ok (inr x).
Definition andthen {A B} (e : may A) (k : A → may B) : may B :=
  match e with Ok (inl m) => fatal m | Ok (inr x) => k x | Fault f => Fault f end.
Definition lift {A} (e : res A) : may A := x ← e; done x.
#[local] Notation "x ⇐ y ; z" := (andthen y (λ x, z)) (at level 20, y at level 100, z at level 200).
#[local] Notation "' x ⇐ y ; z" := (andthen y (λ x, z)) (at level 20, x pattern, y at level 100, z at level 200).

(** ** Numbers *)

Definition digit_in (base c : Z) : option Z :=
  match hex_digit c with Some d => if d <? base then Some d else None | None => None end.

Fixpoint take_base (base acc : Z) (l : list Z) : Z * list Z :=
  match l with
  | c :: l' => match digit_in base c with Some d => take_base base (acc * base + d) l' | None => (acc, l) end
  | [] => (acc, [])
  end.

(** [strtol]: spaces, a sign, a prefix that tells the base, digits.  Without
    digits it reads nothing; a value that does not fit is the nearest that
    does. *)
Definition strtol (base : Z) (l : list Z) : Z * list Z :=
  let '(sign, r) := match skip_space l with 45 :: r => (-1, r) | 43 :: r => (1, r) | r => (1, r) end in
  let hex := match r with
    | 48 :: x :: c :: _ => ((x =? 120) || (x =? 88)) && match digit_in 16 c with Some _ => true | None => false end
    | _ => false
    end in
  let '(base, r) :=
    if ((base =? 0) || (base =? 16)) && hex then (16, drop 2 r)
    else if base =? 0 then (match r with 48 :: _ => 8 | _ => 10 end, r)
    else (base, r) in
  match r with
  | c :: _ =>
      match digit_in base c with
      | Some _ => let '(v, rest) := take_base base 0 r in (Z.max (- LONG_MAX - 1) (Z.min LONG_MAX (sign * v)), rest)
      | None => (0, l)
      end
  | [] => (0, l)
  end.

(** ** The board *)

(** A line of at most [n] characters, with its end of line. *)
Fixpoint fgets (n : nat) (l : list Z) : list Z * list Z :=
  match n, l with
  | S n, c :: l' => if c =? 10 then ([10], l') else let '(a, b) := fgets n l' in (c :: a, b)
  | _, _ => ([], l)
  end.

Fixpoint find_revision (fuel : nat) (l : list Z) : res (option (list Z)) :=
  match l with
  | [] => Ok None
  | _ =>
      let '(buf, l') := fgets 127 l in
      if decide (take 8 (until_nul buf) = Str.bytes "Revision") then Ok (Some (until_nul buf))
      else match fuel with O => Fault OutOfFuel | S fuel => find_revision fuel l' end
  end.

(** The revision; [static int rev] keeps it for the later calls. *)
Definition board_rev (cpuinfo : option (list Z)) : may Z :=
  match cpuinfo with
  | None => fatal NoCpuinfo
  | Some l =>
      res ← find_revision (length l) l;
      match res with
      | None => fatal NoRevision
      | Some buf =>
          let '(rev, rest) := strtol 16 (drop (length buf - 3) buf) in
          if negb (Z.of_nat (length rest) =? 1) then fatal RevisionNotParsed
          else if rev <? 1 then fatal InvalidRevision
          else if rev <? 4 then done 1
          else done 2
      end
  end.

Definition rev1_p1pin2gpio_map : list Z :=
  [DMY; DMY; 0; DMY; 1; DMY; 4; 14; DMY; 15; 17; 18; 21; DMY; 22; 23; DMY; 24; 10; DMY; 9; 25; 11; 8; DMY; 7].
Definition rev1_p5pin2gpio_map : list Z := [DMY; DMY; DMY; DMY; DMY; DMY; DMY; DMY].
Definition rev2_p1pin2gpio_map : list Z :=
  [DMY; DMY; 2; DMY; 3; DMY; 4; 14; DMY; 15; 17; 18; 27; DMY; 22; 23; DMY; 24; 10; DMY; 9; 25; 11; 8; DMY; 7].
Definition rev2_p5pin2gpio_map : list Z := [DMY; DMY; 28; 29; 30; 31; DMY; DMY].

Definition pin_map (h : header) (rev : Z) : list Z :=
  match h with
  | P1 => if rev =? 1 then rev1_p1pin2gpio_map else rev2_p1pin2gpio_map
  | P5 => if rev =? 1 then rev1_p5pin2gpio_map else rev2_p5pin2gpio_map
  end.

(** ** The pins *)

Record PINS := mkPins {
  servo2gpio_of : list Z;
  p1pin2servo_of : list Z;
  p5pin2servo_of : list Z;
  num_servos : Z
}.
Definition pin_table (h : header) (st : PINS) : list Z := match h with P1 => p1pin2servo_of st | P5 => p5pin2servo_of st end.
Definition add_servo (h : header) (table gpios : list Z) (st : PINS) : PINS :=
  match h with
  | P1 => mkPins gpios table (p5pin2servo_of st) (num_servos st + 1)
  | P5 => mkPins gpios (p1pin2servo_of st) table (num_servos st + 1)
  end.

(** One entry of a list: the next servo on a pin, or none. *)
Definition use_pin (h : header) (map : list Z) (pin servo : Z) (st : PINS) : may (Z * PINS) :=
  if pin =? 0 then done (servo + 1, st)
  else
    g ← aget map (pin - 1);
    if g =? DMY then fatal (CannotBeUsed pin h)
    else
      t ← aset (pin_table h st) pin servo;
      l ← aset (servo2gpio_of st) servo g;
      done (servo + 1, add_servo h t l st).

Fixpoint pin_loop (fuel : nat) (h : header) (map pins : list Z) (servo : Z) (st : PINS) : may (Z * PINS) :=
  match pins with
  | [] => done (servo, st)
  | _ =>
      let '(pin, end_) := strtol 0 pins in
      if match end_ with [] => false | c :: _ => Nat.eqb (length end_) (length pins) || negb (c =? 44) end then fatal (InvalidCharacter h)
      else if (pin <? 0) || (Z.of_nat (length map) <? pin) then fatal (InvalidPinNumber pin h)
      else if servo =? MAX_SERVOS then fatal TooManyServos
      else
        '(servo, st) ⇐ use_pin h map pin servo st;
        match fuel with
        | O => Fault OutOfFuel
        | S fuel => pin_loop fuel h map (match end_ with 44 :: r => r | _ => end_ end) servo st
        end
  end.

(** [gpiosearch] looks from the last pin to the second. *)
Fixpoint gpiosearch (gpio : Z) (map : list Z) (len : nat) : res Z :=
  match len with
  | O => Ok 0
  | S len =>
      if Nat.eqb len 0 then Ok 0
      else v ← aget map (Z.of_nat len); if v =? gpio then Ok (Z.of_nat len + 1) else gpiosearch gpio map len
  end.

Definition gpio2pinname (rev gpio : Z) : may (header * Z) :=
  let p1 := pin_map P1 rev in
  let p5 := pin_map P5 rev in
  pin ← gpiosearch gpio p1 (length p1);
  if negb (pin =? 0) then done (P1, pin)
  else
    pin ← gpiosearch gpio p5 (length p5);
    if negb (pin =? 0) then done (P5, pin) else fatal (CannotMap gpio).

(** The lines "%2d on %-5s GPIO-%d" of the configuration file and of the
    report. *)
Definition servo_mapping (rev : Z) (st : PINS) : may (list (Z * (header * Z) * Z)) :=
  foldr (λ i k,
    g ← aget (servo2gpio_of st) i;
    if g =? DMY then k
    else n ⇐ gpio2pinname rev g; l ⇐ k; done ((i, n, g) :: l)) (done []) (seqZ 0 MAX_SERVOS).

Definition no_pins : PINS := mkPins (replicate 32 DMY) (replicate 27 DMY) (replicate 9 DMY) 0.

(** A pointer to text, perhaps null. *)
Definition text : Type := option (list Z).
Definition deref (t : text) : res (list Z) := match t with Some l => Ok l | None => Fault NullDeref end.

Definition parse_pin_lists (p1first : bool) (rev : Z) (p1pins p5pins : text) : may (PINS * list (Z * (header * Z) * Z)) :=
  let lst n := if (n =? 0) && p1first then (P1, p1pins) else (P5, p5pins) in
  let '(h0, t0) := lst 0 in
  l0 ← deref t0;
  '(servo, st) ⇐ pin_loop (length l0) h0 (pin_map h0 rev) l0 0 no_pins;
  let '(h1, t1) := lst 1 in
  l1 ← deref t1;
  '(servo, st) ⇐ pin_loop (length l1) h1 (pin_map h1 rev) l1 servo st;
  names ⇐ servo_mapping rev st;
  done (st, names).

(** ** The options *)

Record ARGS := mkArgs {
  p1pins : text; p5pins : text; p1first : bool; hadp1 : bool; hadp5 : bool;
  servo_min_arg : text; servo_max_arg : text; idle_timeout_arg : text; cycle_time_arg : text;
  step_time_arg : text; dma_chan_arg : text;
  arg_invert : bool; delay_via_pcm : bool; daemonize : bool
}.
Definition no_args : ARGS :=
  mkArgs (Some (Str.bytes "7,11,12,13,15,16,18,22")) (Some []) true false false None None None None None None false false true.

(** What getopt_long answers, with optarg, and the variable it goes to. *)
Definition take_option (o : Z * text) (a : ARGS) : may ARGS :=
  let '(mkArgs p1 p5 first h1 h5 mn mx idle cycle step dma inv pcm dm) := a in
  let '(c, optarg) := o in
  if c =? 100 then done (mkArgs p1 p5 first h1 h5 mn mx idle cycle step optarg inv pcm dm)
  else if c =? 102 then done (mkArgs p1 p5 first h1 h5 mn mx idle cycle step dma inv pcm false)
  else if c =? 112 then done (mkArgs p1 p5 first h1 h5 mn mx idle cycle step dma inv true dm)
  else if c =? 116 then done (mkArgs p1 p5 first h1 h5 mn mx optarg cycle step dma inv pcm dm)
  else if c =? 99 then done (mkArgs p1 p5 first h1 h5 mn mx idle optarg step dma inv pcm dm)
  else if c =? 115 then done (mkArgs p1 p5 first h1 h5 mn mx idle cycle optarg dma inv pcm dm)
  else if c =? 109 then done (mkArgs p1 p5 first h1 h5 optarg mx idle cycle step dma inv pcm dm)
  else if c =? 120 then done (mkArgs p1 p5 first h1 h5 mn optarg idle cycle step dma inv pcm dm)
  else if c =? 105 then done (mkArgs p1 p5 first h1 h5 mn mx idle cycle step dma true pcm dm)
  else if c =? 104 then fatal Usage
  else if c =? 49 then done (mkArgs optarg p5 (if h5 then first else true) true h5 mn mx idle cycle step dma inv pcm dm)
  else if c =? 53 then done (mkArgs p1 optarg (if h1 then first else false) h1 true mn mx idle cycle step dma inv pcm dm)
  else fatal InvalidParameter.

Fixpoint take_options (l : list (Z * text)) (a : ARGS) : may ARGS :=
  match l with [] => done a | o :: l => a ⇐ take_option o a; take_options l a end.

(** ** The parameters *)

(** A number with an optional unit, between [lo] and [hi]. *)
Definition int_arg (arg : list Z) (unit : list Z) (lo hi : Z) (m : message) : may Z :=
  let '(v, p) := strtol 10 arg in
  if negb (match arg with c :: _ => digit c | [] => false end) || negb (bool_decide (p = []) || bool_decide (p = unit)) || (v <? lo) || (hi <? v)
  then fatal m else done v.

(** [val == floor(val)] *)
Definition dwhole (x : double) : bool :=
  match x with
  | S754_finite _ m e => (0 <=? e) || (Z.pos m `mod` 2 ^ (- e) =? 0)
  | S754_nan => false
  | _ => true
  end.

Definition parse_min_max_arg (cycle_time_us step_time_us : Z) (arg : list Z) : may Z :=
  let '(val, p) := strtod arg in
  if negb (match arg with c :: _ => digit c | [] => false end) || dlt val 0 then fatal InvalidMinMax
  else if decide (p = []) then
    if negb (dwhole val) then fatal InvalidMinMax else lift (to_int val)
  else if decide (p = Str.bytes "us") then
    if negb (dwhole val) then fatal InvalidMinMax
    else
      v ← to_int val;
      if negb (v `rem` step_time_us =? 0) then fatal NotMultipleOfStep else lift (to_int (ddiv val (dint step_time_us)))
  else if decide (p = Str.bytes "%") then
    if dlt val 0 || dgt val 100 then fatal NotPercentage
    else lift (to_int (ddiv (ddiv (dmul val (dint cycle_time_us)) (dint 100)) (dint step_time_us)))
  else fatal InvalidMinMax.

Definition DEFAULT_CYCLE_TIME_US : Z := 20000.
Definition DEFAULT_STEP_TIME_US : Z := 10.
Definition DEFAULT_SERVO_MIN_US : Z := 500.
Definition DEFAULT_SERVO_MAX_US : Z := 2500.
Definition DMA_CHAN_MIN : Z := 0.
Definition DMA_CHAN_MAX : Z := 14.
Definition DMA_CHAN_DEFAULT : Z := 14.
Definition MAX_MEMORY_USAGE : Z := 16 * 1024 * 1024.

Record CONFIG := mkConfig { dma_chan : Z; cfg_idle_timeout : Z; cycle_time_us : Z; cfg_limits : LIMITS; cfg_num_samples : Z }.

Definition parameters (a : ARGS) : may CONFIG :=
  chan ⇐ match dma_chan_arg a with Some t => int_arg t [] DMA_CHAN_MIN DMA_CHAN_MAX InvalidDmaChan | None => done DMA_CHAN_DEFAULT end;
  idle ⇐ match idle_timeout_arg a with Some t => int_arg t (Str.bytes "ms") 10 3600000 InvalidIdleTimeout | None => done 0 end;
  cycle ⇐ match cycle_time_arg a with Some t => int_arg t (Str.bytes "us") 1000 1000000 InvalidCycleTime | None => done DEFAULT_CYCLE_TIME_US end;
  step ⇐ match step_time_arg a with Some t => int_arg t (Str.bytes "us") 2 1000 InvalidStepSize | None => done DEFAULT_STEP_TIME_US end;
  if negb (cycle `rem` step =? 0) then fatal CycleNotMultiple
  else if cycle `quot` step <? 100 then fatal CycleTooShort
  else
    min ⇐ match servo_min_arg a with Some t => parse_min_max_arg cycle step t | None => done (DEFAULT_SERVO_MIN_US `quot` step) end;
    max ⇐ match servo_max_arg a with Some t => parse_min_max_arg cycle step t | None => done (DEFAULT_SERVO_MAX_US `quot` step) end;
    let N := cycle `quot` step in
    if MAX_MEMORY_USAGE `quot` PAGE_SIZE <? num_pages N then fatal TooMuchMemory
    else if N <? max then fatal MaxTooLarge
    else if max <=? min then fatal MinNotBelowMax
    else done (mkConfig chan idle cycle (mkLimits min max step) N).

(** ** The memory *)

(** The words of /proc/<pid>/pagemap to the addresses of the pages. *)
Definition make_pagemap (pagemap : list Z) (n : Z) : may (list Z) :=
  foldr (λ i k,
    match pagemap !! Z.to_nat i with
    | None => fatal PagemapNotRead
    | Some pfn =>
        if negb (Z.land (Z.shiftr pfn 55) 0x1bf =? 0x10c) then fatal (PageNotPresent i)
        else l ⇐ k; done (Z.lor (u32 (Z.shiftl (u32 pfn) 12)) 0x40000000 :: l)
    end) (done []) (seqZ 0 n).

(** ** The parameters are in their ranges *)

Lemma andthen_inv {A B} (e : may A) (k : A → may B) y : andthen e k = Ok (inr y) → ∃ x, e = Ok (inr x) ∧ k x = Ok (inr y).
Proof. destruct e as [[m|x]|f]; try done. by exists x. Qed.

Lemma int_arg_inv t u lo hi m v : int_arg t u lo hi m = Ok (inr v) → lo <= v <= hi.
Proof. unfold int_arg. destruct (strtol 10 t) as [w p]. case_match eqn:E; [done|]. intros [= <-]. lia. Qed.

(** Doubles that are not negative. *)
Definition dpositive (x : double) : Prop := match x with S754_finite s _ _ | S754_infinity s => s = false | S754_zero _ => True | S754_nan => False end.

Lemma round_aux_positive m e l : 0 <= m → dpositive (binary_round_aux 53 1024 false m e l).
Proof.
  intros Hm. pose proof (round_aux_number false m e l Hm) as Hn. revert Hn. unfold binary_round_aux, number.
  destruct (shr_fexp 53 1024 m e l) as [r1 e1]. destruct (shr_fexp 53 1024 _ e1 loc_Exact) as [r2 e2].
  destruct (shr_m r2); [done| |done]. by destruct (e2 <=? 1024 - 53).
Qed.

Lemma ddiv_positive x n : 0 < n → dpositive x → dpositive (ddiv x (dint n)).
Proof.
  intros Hn Hx. unfold ddiv. destruct n as [|n|n]; try lia. cbn [dint].
  destruct x as [b|b| |b m e]; try done; cbn in Hx; subst; cbn [SFdiv xorb]; [done|]. unfold SFdiv_core_binary.
  match goal with |- context [Z.div_eucl ?x _] => assert (0 <= x) as Hm; [|generalize dependent x; intros m0 Hm] end.
  { destruct (_ - _); [done|by apply Z.shiftl_nonneg|done]. }
  pose proof (Z.div_pos m0 (Z.pos n) Hm ltac:(lia)) as Hq. unfold Z.div in Hq. destruct (Z.div_eucl m0 (Z.pos n)) as [q r].
  by apply round_aux_positive.
Qed.

Lemma dmul_positive x n : 0 < n → dpositive x → dpositive (dmul x (dint n)).
Proof.
  intros Hn Hx. unfold dmul. destruct n as [|n|n]; try lia. cbn [dint].
  destruct x as [b|b| |b m e]; try done; cbn in Hx; subst; cbn [SFmul xorb]; [done|]. by apply round_aux_positive.
Qed.

Lemma to_int_positive x n : dpositive x → to_int x = Ok n → 0 <= n.
Proof.
  intros Hx. unfold to_int, convert. destruct (dtrunc x) as [z|] eqn:E; [|done]. destruct (_ && _); [|done]. intros [= <-].
  destruct x as [b|b| |b m e]; try done; cbn in Hx, E; subst; injection E as <-; [done|].
  destruct (0 <=? e); [apply Z.mul_nonneg_nonneg; [lia|by apply Z.pow_nonneg]|].
  destruct (Z.eq_dec (2 ^ (- e)) 0) as [-> |]; [by rewrite Z.div_0_r|]. apply Z.div_pos; [lia|]. pose proof (Z.pow_nonneg 2 (- e)). lia.
Qed.

Lemma strtod_positive l : dlt (strtod l).1 0 = false → dpositive (strtod l).1.
Proof.
  pose proof (strtod_number l) as Hn. destruct (strtod l) as [x p]. cbn [fst] in *. unfold dlt.
  destruct x as [b|[]| |b m e]; try done. destruct b; [|done]. cbn [dcmp]. destruct (Z.leb_spec 0 e).
  - assert (0 < 2 ^ e) by (by apply Z.pow_pos_nonneg). assert (Z.neg m * 2 ^ e ?= 0 = Lt) as -> by (apply Z.compare_lt_iff; nia). done.
  - done.
Qed.

Lemma parse_min_max_positive cycle step t v : 0 < cycle → 0 < step → parse_min_max_arg cycle step t = Ok (inr v) → 0 <= v.
Proof.
  intros Hc Hs. unfold parse_min_max_arg. pose proof (strtod_positive t) as Hp. destruct (strtod t) as [x p]. cbn [fst] in Hp.
  destruct (dlt x 0); [by rewrite orb_true_r|]. specialize (Hp eq_refl). rewrite orb_false_r. case_match; [done|].
  unfold lift, done. repeat case_match; try done; subst; cbn; try done.
  - destruct (to_int x) eqn:E; [|done]. cbn. intros [= <-]. by eapply to_int_positive.
  - destruct (to_int x) eqn:E; [|done]. cbn. case_match; [done|]. destruct (to_int (ddiv _ _)) eqn:E2; [|done]. cbn. intros [= <-].
    eapply to_int_positive; [|exact E2]. by apply ddiv_positive.
  - destruct (to_int (ddiv _ _)) eqn:E2; [|done]. cbn. intros [= <-].
    eapply to_int_positive; [|exact E2]. apply ddiv_positive; [done|]. apply (ddiv_positive _ 100); [done|]. by apply dmul_positive.
Qed.

(** What the checks of main establish. *)
Record config_checked (c : CONFIG) : Prop := {
  ck_dma : 0 <= dma_chan c <= 14;
  ck_idle : cfg_idle_timeout c = 0 ∨ 10 <= cfg_idle_timeout c <= 3600000;
  ck_limits : limits_ok (cfg_limits c) (cfg_num_samples c);
  ck_step : 2 <= step_time_us (cfg_limits c) <= 1000;
  ck_cycle : cycle_time_us c = cfg_num_samples c * step_time_us (cfg_limits c) ∧ 1000 <= cycle_time_us c <= 1000000;
  ck_samples : 100 <= cfg_num_samples c;
  ck_memory : num_pages (cfg_num_samples c) * PAGE_SIZE <= MAX_MEMORY_USAGE
}.

Lemma parameters_ok a c : parameters a = Ok (inr c) → config_checked c.
Proof.
  unfold parameters. intros H.
  apply andthen_inv in H as (chan & H1 & H). apply andthen_inv in H as (idle & H2 & H).
  apply andthen_inv in H as (cycle & H3 & H). apply andthen_inv in H as (step & H4 & H).
  assert (0 <= chan <= 14) as Hchan by (destruct (dma_chan_arg a); [by apply int_arg_inv in H1|injection H1 as <-; unfold DMA_CHAN_DEFAULT; lia]).
  assert (idle = 0 ∨ 10 <= idle <= 3600000) as Hidle by (destruct (idle_timeout_arg a); [right; by apply int_arg_inv in H2|injection H2 as <-; by left]).
  assert (1000 <= cycle <= 1000000) as Hcycle by (destruct (cycle_time_arg a); [by apply int_arg_inv in H3|injection H3 as <-; unfold DEFAULT_CYCLE_TIME_US; lia]).
  assert (2 <= step <= 1000) as Hstep by (destruct (step_time_arg a); [by apply int_arg_inv in H4|injection H4 as <-; unfold DEFAULT_STEP_TIME_US; lia]).
  destruct (cycle `rem` step =? 0) eqn:E1; [|done]. cbn [negb] in H. destruct (cycle `quot` step <? 100) eqn:E2; [done|].
  apply andthen_inv in H as (mn & H5 & H). apply andthen_inv in H as (mx & H6 & H).
  assert (0 <= mn) as Hmn.
  { destruct (servo_min_arg a); [eapply parse_min_max_positive; [| |exact H5]; lia|]. injection H5 as <-. unfold DEFAULT_SERVO_MIN_US. apply Z.quot_pos; lia. }
  cbv zeta in H. destruct (_ <? num_pages _) eqn:E3 in H; [done|]. destruct (_ <? mx) eqn:E4 in H; [done|]. destruct (mx <=? mn) eqn:E5; [done|].
  injection H as <-. rewrite Z.rem_mod_nonneg, Z.quot_div_nonneg in * by lia.
  pose proof (Z.div_mod cycle step ltac:(lia)). pose proof (Z.div_le_upper_bound cycle step 1000000 ltac:(lia) ltac:(lia)).
  split; cbn; unfold limits_ok, LONG_MAX; cbn; try lia.
  change (MAX_MEMORY_USAGE `quot` PAGE_SIZE) with 4096 in E3. rewrite Z.quot_div_nonneg in E3 by lia. unfold MAX_MEMORY_USAGE, PAGE_SIZE. lia.
Qed.

(** Whatever options are given, when the checks of main pass, the
    parameters are those the rest of the program relies on: a cycle of a whole
    number of steps, at least 100; limits with [0 <= min < max] that fit into
    the cycle; an idle timeout of at most an hour; not more than 16 MB of
    shared memory. *)
Theorem parameters_checked a c : parameters a = Ok (inr c) → config_checked c.
Proof. apply parameters_ok. Qed.

Lemma parameters_checked_witness :
  parameters no_args = Ok (inr (mkConfig 14 0 20000 (mkLimits 50 250 10) 2000)) ∧
  config_checked (mkConfig 14 0 20000 (mkLimits 50 250 10) 2000).
Proof. split; [|apply (parameters_checked no_args)]; vm_compute; reflexivity. Defined.

End Start.
