(* ===== verification/ServodPins.v ===== *)
(** * The lists of pins of the servo daemon

    Theorems on [parse_pin_lists] of ServodStart.v
    (src/main/components/servoBlaster/servod.c): for every text it gives up
    with a message or leaves tables that agree with each other; lists of
    usable pins give the servos in their order; the names that are reported
    are the pins. *)
From S2P Require Import Prelude CubFloat NuttxString ServodPulse ServodRing ServodCmd ServodStart.

#[local] Open Scope Z_scope.

Module Pins.
Import Pulse Cmd Start.
Import Ring (used_below, used_below_S, used_below_mono).
Import Str (bytes, decimal).

(** ** Every text *)

Lemma take_base_length b acc l : (length (take_base b acc l).2 <= length l)%nat.
Proof.
  revert acc. induction l as [|c l IH]; intros acc; [done|]. cbn. destruct (digit_in b c) as [d|]; [|done]. specialize (IH (acc * b + d)). lia.
Qed.

Lemma strtol_length b l : (length (strtol b l).2 <= length l)%nat.
Proof.
  unfold strtol. pose proof (skip_space_length l) as Hs. set (k := skip_space l) in *.
  match goal with |- context [let '(sign, r) := ?e in _] => set (x := e) end.
  assert (length x.2 <= length k)%nat as Hx by (subst x; repeat case_match; cbn; lia). destruct x as [sg r]. cbn [snd] in Hx.
  match goal with |- context [if ?c then (16, drop 2 r) else ?e] => set (y := if c then (16, drop 2 r) else e) end.
  assert (length y.2 <= length r)%nat as Hy.
  { subst y. repeat match goal with |- context [if ?c then _ else _] => destruct c end; cbn; rewrite ?length_drop; lia. }
  destruct y as [b' [|c r']]; [cbn; lia|]. destruct (digit_in b' c); [|cbn; lia].
  pose proof (take_base_length b' 0 (c :: r')) as Ht. destruct (take_base b' 0 (c :: r')) as [v rest]. cbn in *. lia.
Qed.

(** The tables agree: a pin with a servo is the pin the servo's output is on;
    a servo in use is on an output of a header. *)
Record pins_sound (rev servo : Z) (st : PINS) : Prop := {
  ps_gpio : length (servo2gpio_of st) = 32%nat;
  ps_p1 : length (p1pin2servo_of st) = 27%nat;
  ps_p5 : length (p5pin2servo_of st) = 9%nat;
  ps_servo : 0 <= servo <= MAX_SERVOS;
  ps_free k : (Z.to_nat servo <= k < 32)%nat → servo2gpio_of st !! k = Some DMY;
  ps_used k g : servo2gpio_of st !! k = Some g → g ≠ DMY → ∃ h pin, pin_map h rev !! pin = Some g;
  ps_table h pin sv : pin_table h st !! pin = Some sv → sv ≠ DMY →
    (1 <= pin)%nat ∧ 0 <= sv < servo ∧ servo2gpio_of st !! Z.to_nat sv = pin_map h rev !! (pin - 1)%nat ∧ pin_map h rev !! (pin - 1)%nat ≠ Some DMY;
  ps_count : num_servos st = Z.of_nat (used_below (servo2gpio_of st) 32)
}.

Lemma pin_map_length h rev : length (pin_map h rev) = match h with P1 => 26%nat | P5 => 8%nat end.
Proof. destruct h; cbn; by destruct (rev =? 1). Qed.

Lemma no_pins_sound rev : pins_sound rev 0 no_pins.
Proof.
  split; try done; cbn.
  - intros k Hk. apply (lookup_replicate_2 32). lia.
  - intros k g Hg Hd. by apply (lookup_replicate_1 32) in Hg as [-> _].
  - intros [] pin sv Hs Hd; [apply (lookup_replicate_1 27) in Hs as [-> _]|apply (lookup_replicate_1 9) in Hs as [-> _]]; done.
Qed.

(** One more output in use where there was none. *)
Lemma used_below_insert l k g (n : nat) :
  l !! k = Some DMY → g ≠ DMY → used_below (<[k := g]> l) n = (used_below l n + if decide (k < n)%nat then 1 else 0)%nat.
Proof.
  intros Hk Hg. pose proof (lookup_lt_Some _ _ _ Hk). induction n as [|n IH]; [done|]. rewrite !used_below_S, IH.
  destruct (decide (k = n)) as [->|Hne].
  - rewrite list_lookup_insert_eq by done. rewrite (decide_False (P := (n < n)%nat)), (decide_True (P := (n < S n)%nat)) by lia.
    rewrite decide_True, decide_False by naive_solver. lia.
  - rewrite list_lookup_insert_ne by done. repeat case_decide; lia.
Qed.

Lemma use_pin_sound rev h pin servo st :
  pins_sound rev servo st → servo < MAX_SERVOS → 0 <= pin <= Z.of_nat (length (pin_map h rev)) →
  (∃ m, use_pin h (pin_map h rev) pin servo st = fatal m) ∨
  ∃ st', use_pin h (pin_map h rev) pin servo st = done (servo + 1, st') ∧ pins_sound rev (servo + 1) st'.
Proof.
  intros HS Hlt Hp. pose proof HS as [S1 S2 S3 S4 S5 S6 S7 S8]. unfold use_pin, MAX_SERVOS in *. destruct (Z.eqb_spec pin 0) as [->|Hne].
  { right. exists st. split; [done|]. split; try done; [unfold MAX_SERVOS; lia| |].
    - intros k Hk. apply S5. lia.
    - intros h' p sv H1 H2. destruct (S7 h' p sv H1 H2) as (? & ? & ? & ?). split_and!; try done; lia. }
  destruct (lookup_lt_is_Some_2 (pin_map h rev) (Z.to_nat (pin - 1))) as [g Hg]; [lia|]. rewrite (aget_in _ _ g), bind_ok by (done || lia).
  destruct (Z.eqb_spec g DMY) as [->|Hd]; [left; by eexists|].
  assert (Z.of_nat (length (pin_table h st)) = Z.of_nat (length (pin_map h rev)) + 1) as Hlen.
  { rewrite pin_map_length. destruct h; cbn; lia. }
  rewrite (aset_in (pin_table h st)), bind_ok by lia. rewrite aset_in, bind_ok by lia. right. eexists. split; [done|].
  assert (servo2gpio_of st !! Z.to_nat servo = Some DMY) as Hfree by (apply S5; lia).
  set (gs := <[Z.to_nat servo := g]> (servo2gpio_of st)).
  assert (∀ t, servo2gpio_of (add_servo h t gs st) = gs ∧ num_servos (add_servo h t gs st) = num_servos st + 1) as Hadd by (by destruct h).
  split; rewrite ?(proj1 (Hadd _)), ?(proj2 (Hadd _)).
  - unfold gs. by rewrite length_insert.
  - destruct h; cbn; rewrite ?length_insert; done.
  - destruct h; cbn; rewrite ?length_insert; done.
  - unfold MAX_SERVOS. lia.
  - intros k Hk. unfold gs. rewrite list_lookup_insert_ne by lia. apply S5. lia.
  - intros k g' Hk Hd'. unfold gs in Hk. apply list_lookup_insert_Some in Hk as [(_ & <- & _)|[_ Hk]]; [by eauto|by apply (S6 k)].
  - intros h' p sv Ht Hsd.
    assert (pin_table h' st !! p = Some sv ∨ h' = h ∧ p = Z.to_nat pin ∧ sv = servo) as [Hold|(-> & -> & ->)].
    { destruct h, h'; cbn in Ht |- *; auto; apply list_lookup_insert_Some in Ht as [(-> & -> & _)|[_ Ht]]; auto. }
    + destruct (S7 h' p sv Hold Hsd) as (H1 & H2 & H3 & H4). unfold gs. rewrite list_lookup_insert_ne by lia. split_and!; try done; lia.
    + unfold gs. rewrite list_lookup_insert_eq by lia. replace (Z.to_nat pin - 1)%nat with (Z.to_nat (pin - 1)) by lia. rewrite Hg.
      split_and!; try lia; [done|naive_solver].
  - unfold gs. rewrite used_below_insert, S8, decide_True by (done || lia). lia.
Qed.

(** The loop over a list ends within its length, for every text. *)
Lemma pin_loop_sound rev h fuel pins servo st :
  (length pins <= fuel)%nat → pins_sound rev servo st →
  (∃ m, pin_loop fuel h (pin_map h rev) pins servo st = fatal m) ∨
  ∃ servo' st', pin_loop fuel h (pin_map h rev) pins servo st = done (servo', st') ∧ pins_sound rev servo' st'.
Proof.
  revert pins servo st. induction fuel as [|fuel IH]; intros pins servo st Hf HS.
  { destruct pins; [|cbn in Hf; lia]. right. by exists servo, st. }
  destruct pins as [|c pins]; [right; by exists servo, st|]. cbn [pin_loop]. set (l := c :: pins) in *.
  pose proof (strtol_length 0 l) as Hl. destruct (strtol 0 l) as [pin rest]. cbn [snd] in Hl.
  match goal with |- context [if ?b then fatal (InvalidCharacter h) else _] => destruct b eqn:Eb end; [left; by eexists|].
  destruct ((pin <? 0) || (Z.of_nat (length (pin_map h rev)) <? pin)) eqn:Er; [left; by eexists|].
  destruct (Z.eqb_spec servo MAX_SERVOS); [left; by eexists|].
  destruct (use_pin_sound rev h pin servo st HS) as [[m ->]|(st' & -> & HS')]; [pose proof (ps_servo _ _ _ HS); lia|lia|left; by eexists|].
  cbn [andthen done]. apply IH; [|done]. destruct rest as [|x rest]; [cbn in *; lia|]. apply orb_false_iff in Eb as [Eb1 Eb2].
  apply negb_false_iff, Z.eqb_eq in Eb2 as ->. apply Nat.eqb_neq in Eb1. cbn in *. lia.
Qed.

(** ** Names *)

Definition headers : list header := [P1; P5].

Lemma names_found :
  forallb (λ rev, forallb (λ h, forallb (λ pin,
    match pin_map h rev !! pin with
    | Some g => (g =? DMY) || match gpio2pinname rev g with Ok (inr (h', pin')) => match h, h' with P1, P1 | P5, P5 => (pin' =? Z.of_nat pin + 1) | _, _ => false end | _ => false end
    | None => true
    end) (seq 0 26)) headers) [1; 2] = true.
Proof. vm_compute. reflexivity. Qed.

(** The name of an output is the pin that the maps have it on. *)
Lemma gpio2pinname_pin rev h pin g :
  rev = 1 ∨ rev = 2 → pin_map h rev !! pin = Some g → g ≠ DMY → gpio2pinname rev g = done (h, Z.of_nat pin + 1).
Proof.
  intros Hr Hg Hd. pose proof names_found as H. rewrite forallb_forall in H. specialize (H rev). rewrite forallb_forall in H.
  assert (In h headers) as Hh by (destruct h; cbn; auto). specialize (H ltac:(destruct Hr as [-> | ->]; cbn; auto) h Hh).
  rewrite forallb_forall in H. pose proof (lookup_lt_Some _ _ _ Hg) as Hlt. rewrite pin_map_length in Hlt.
  specialize (H pin ltac:(apply in_seq; destruct h; lia)). rewrite Hg in H. rewrite (proj2 (Z.eqb_neq g DMY)) in H by done. cbn [orb] in H.
  destruct (gpio2pinname rev g) as [[m|[h' pin']]|f]; try done. destruct h, h'; try done; apply Z.eqb_eq in H as ->; done.
Qed.

(** What is reported of the servos. *)
Definition named (rev : Z) (st : PINS) (l : list (Z * (header * Z) * Z)) : Prop :=
  ∀ i h pin g, (i, (h, pin), g) ∈ l ↔
    0 <= i < MAX_SERVOS ∧ servo2gpio_of st !! Z.to_nat i = Some g ∧ g ≠ DMY ∧ 1 <= pin ∧ pin_map h rev !! Z.to_nat (pin - 1) = Some g.

Lemma servo_mapping_named rev servo st :
  rev = 1 ∨ rev = 2 → pins_sound rev servo st → ∃ l, servo_mapping rev st = done l ∧ named rev st l.
Proof.
  intros Hr HS. pose proof HS as [S1 S2 S3 S4 S5 S6 S7 S8]. unfold servo_mapping.
  match goal with |- ∃ l, foldr ?f _ _ = _ ∧ _ => set (body := f) end.
  assert (∀ js, Forall (λ i, 0 <= i < 32) js → ∃ l, foldr body (done []) js = done l ∧ ∀ i h pin g, (i, (h, pin), g) ∈ l ↔
    i ∈ js ∧ servo2gpio_of st !! Z.to_nat i = Some g ∧ g ≠ DMY ∧ 1 <= pin ∧ pin_map h rev !! Z.to_nat (pin - 1) = Some g) as H.
  2: { destruct (H (seqZ 0 MAX_SERVOS)) as (l & E & Hl).
       { apply Forall_forall. intros i Hi%elem_of_seqZ. unfold MAX_SERVOS in Hi. lia. }
       exists l. split; [done|]. intros i h pin g. rewrite Hl, elem_of_seqZ. naive_solver lia. }
  induction js as [|i js IH]; intros Hi; [exists []; split; [done|]; intros; rewrite !elem_of_nil; naive_solver|].
  apply Forall_cons in Hi as [Hi His]. destruct (IH His) as (l & E & Hl). cbn [foldr]. rewrite E.
  destruct (lookup_lt_is_Some_2 (servo2gpio_of st) (Z.to_nat i)) as [g0 Hg]; [lia|].
  unfold body at 1. rewrite (aget_in _ _ g0), bind_ok by (done || lia). destruct (Z.eqb_spec g0 DMY) as [->|Hd].
  { exists l. split; [done|]. intros j h pin g. rewrite Hl, elem_of_cons. naive_solver. }
  destruct (S6 _ _ Hg Hd) as (h0 & pin0 & Hm). pose proof (gpio2pinname_pin rev h0 pin0 g0 Hr Hm Hd) as Hn. rewrite Hn. cbn [andthen done].
  eexists. split; [done|]. intros j h pin g. rewrite elem_of_cons, Hl, elem_of_cons. split.
  - intros [[= -> -> -> ->]|(?&?&?&?&?)]; [|by auto]. split_and!; [by left|done|done|lia|]. by replace (Z.to_nat (Z.of_nat pin0 + 1 - 1)) with pin0 by lia.
  - intros ([-> |Hj] & H1 & H2 & H3 & H4); [left|right; by auto]. assert (g = g0) as -> by congruence.
    pose proof (gpio2pinname_pin rev h _ g0 Hr H4 Hd) as Hn'. rewrite Hn in Hn'. injection Hn' as -> E'. do 3 f_equal. lia.
Qed.

(** Two lists one after the other. *)
Definition two_lists (rev : Z) (h0 : header) (k0 : list Z) (h1 : header) (k1 : list Z) : res (message + PINS * list (Z * (header * Z) * Z)) :=
  andthen (pin_loop (length k0) h0 (pin_map h0 rev) k0 0 no_pins) (λ '(servo, st),
  andthen (pin_loop (length k1) h1 (pin_map h1 rev) k1 servo st) (λ '(servo, st),
  andthen (servo_mapping rev st) (λ names, done (st, names)))).

Lemma parse_two_lists p1first rev l1 l5 :
  parse_pin_lists p1first rev (Some l1) (Some l5) = two_lists rev (if p1first then P1 else P5) (if p1first then l1 else l5) P5 l5.
Proof. by destruct p1first. Qed.

(** The lists of pins, whatever texts they are: the parser ends; it gives up
    with a message, or the tables agree with each other: every servo in use is
    on an output that a header has, a pin with a servo is the pin of that
    servo's output, the number of servos is the number of outputs in use, and
    the report names every servo in use with its pin and no other. *)
Theorem pin_lists_sound p1first rev l1 l5 :
  rev = 1 ∨ rev = 2 →
  (∃ m, parse_pin_lists p1first rev (Some l1) (Some l5) = fatal m) ∨
  ∃ servo st names, parse_pin_lists p1first rev (Some l1) (Some l5) = done (st, names) ∧ pins_sound rev servo st ∧ named rev st names.
Proof.
  intros Hr. rewrite parse_two_lists. generalize (if p1first then P1 else P5) as h0, (if p1first then l1 else l5) as k0. intros h0 k0. unfold two_lists.
  destruct (pin_loop_sound rev h0 (length k0) k0 0 no_pins ltac:(lia) (no_pins_sound rev)) as [[m ->]|(sv & st & -> & HS)]; [left; by eexists|].
  cbn [andthen done].
  destruct (pin_loop_sound rev P5 (length l5) l5 sv st ltac:(lia) HS) as [[m ->]|(sv' & st' & -> & HS')]; [left; by eexists|].
  cbn [andthen done]. destruct (servo_mapping_named rev sv' st' Hr HS') as (l & -> & Hl). right. by exists sv', st', l.
Qed.

(** ** Lists of usable pins *)

(** Pin 0 stands for a servo number that is not used. *)
Definition gpio_on (h : header) (rev pin : Z) : Z := if pin =? 0 then DMY else pin_map h rev !!! Z.to_nat (pin - 1).
Definition usable (h : header) (rev pin : Z) : Prop :=
  pin = 0 ∨ 1 <= pin <= Z.of_nat (length (pin_map h rev)) ∧ gpio_on h rev pin ≠ DMY.

(** The pins with commas between them. *)
Fixpoint join (pins : list Z) : list Z :=
  match pins with
  | [] => []
  | pin :: pins => decimal pin ++ match pins with [] => [] | _ => 44 :: join pins end
  end.

Lemma strtol_pin pin tl : 0 <= pin <= 26 → tl = [] ∨ (∃ r, tl = 44 :: r) → strtol 0 (decimal pin ++ tl) = (pin, tl) ∧ decimal pin ≠ [].
Proof.
  intros Hp Ht.
  assert (pin = 0 ∨ pin = 1 ∨ pin = 2 ∨ pin = 3 ∨ pin = 4 ∨ pin = 5 ∨ pin = 6 ∨ pin = 7 ∨ pin = 8 ∨ pin = 9 ∨ pin = 10 ∨ pin = 11 ∨ pin = 12 ∨ pin = 13 ∨ pin = 14 ∨ pin = 15 ∨ pin = 16 ∨ pin = 17 ∨ pin = 18 ∨ pin = 19 ∨ pin = 20 ∨ pin = 21 ∨ pin = 22 ∨ pin = 23 ∨ pin = 24 ∨ pin = 25 ∨ pin = 26) as Hin by lia.
  destruct Ht as [-> | [[|c r] ->]]; destruct_or! Hin; subst; vm_compute; (split; [reflexivity|discriminate]).
Qed.

Lemma use_pin_usable rev h pin servo st :
  pins_sound rev servo st → servo < MAX_SERVOS → usable h rev pin →
  ∃ st', use_pin h (pin_map h rev) pin servo st = done (servo + 1, st') ∧ pins_sound rev (servo + 1) st' ∧
    servo2gpio_of st' = <[Z.to_nat servo := gpio_on h rev pin]> (servo2gpio_of st) ∧
    (∀ h', pin_table h' st' = if decide (h' = h ∧ pin ≠ 0) then <[Z.to_nat pin := servo]> (pin_table h' st) else pin_table h' st).
Proof.
  intros HS Hlt Hu. unfold MAX_SERVOS in *. pose proof HS as [S1 S2 S3 S4 S5 _ _ _].
  assert (0 <= pin <= Z.of_nat (length (pin_map h rev))) as Hr by (destruct Hu as [-> |[? _]]; lia).
  assert (∃ st', use_pin h (pin_map h rev) pin servo st = done (servo + 1, st') ∧
    servo2gpio_of st' = <[Z.to_nat servo := gpio_on h rev pin]> (servo2gpio_of st) ∧
    (∀ h', pin_table h' st' = if decide (h' = h ∧ pin ≠ 0) then <[Z.to_nat pin := servo]> (pin_table h' st) else pin_table h' st)) as (st' & E & E1 & E2).
  { unfold use_pin, gpio_on in *. destruct (Z.eqb_spec pin 0) as [->|Hne].
    - exists st. split; [done|]. split; [by rewrite list_insert_id by (apply S5; lia)|]. intros h'. by rewrite decide_False by naive_solver.
    - destruct Hu as [?|[Hp Hg]]; [done|]. unfold gpio_on in Hg. rewrite (proj2 (Z.eqb_neq pin 0)) in Hg by done.
      destruct (lookup_lt_is_Some_2 (pin_map h rev) (Z.to_nat (pin - 1))) as [g Eg]; [lia|].
      rewrite (list_lookup_total_correct _ _ g) in * by done. rewrite (aget_in _ _ g), bind_ok by (done || lia).
      rewrite (proj2 (Z.eqb_neq g DMY)) by done. rewrite pin_map_length in Hp.
      rewrite (aset_in (pin_table h st)), bind_ok by (destruct h; cbn; lia). rewrite aset_in, bind_ok by lia. eexists. split; [done|].
      split; [by destruct h|]. intros h'. destruct (decide (h' = h ∧ pin ≠ 0)) as [[-> _]|Hn]; [by destruct h|].
      destruct h, h'; try done; exfalso; by apply Hn. }
  exists st'. split; [done|]. split; [|done]. destruct (use_pin_sound rev h pin servo st HS Hlt Hr) as [[m Em]|(st2 & Em & HS2)].
  - rewrite E in Em. done.
  - rewrite E in Em. injection Em as ->. done.
Qed.

Lemma pin_loop_join rev h pins fuel servo st :
  (length (join pins) <= fuel)%nat → pins_sound rev servo st → Forall (usable h rev) pins → servo + Z.of_nat (length pins) <= MAX_SERVOS →
  ∃ st', pin_loop fuel h (pin_map h rev) (join pins) servo st = done (servo + Z.of_nat (length pins), st') ∧
    pins_sound rev (servo + Z.of_nat (length pins)) st' ∧
    servo2gpio_of st' = foldl (λ l '(i, pin), <[i := gpio_on h rev pin]> l) (servo2gpio_of st) (zip (seq (Z.to_nat servo) (length pins)) pins) ∧
    (∀ h', h' ≠ h → pin_table h' st' = pin_table h' st) ∧
    (∀ pin, pin ∉ pins → 1 <= pin → pin_table h st' !! Z.to_nat pin = pin_table h st !! Z.to_nat pin) ∧
    (∀ i pin, pins !! i = Some pin → pin ≠ 0 → (∀ j, (i < j)%nat → pins !! j ≠ Some pin) → pin_table h st' !! Z.to_nat pin = Some (servo + Z.of_nat i)).
Proof.
  revert fuel servo st. induction pins as [|pin pins IH]; intros fuel servo st Hf HS Hu Hn.
  { exists st. rewrite Z.add_0_r. destruct fuel; by split_and!. }
  apply Forall_cons in Hu as [Hp Hu]. cbn [length] in *. pose proof (ps_servo _ _ _ HS) as Hs0. unfold MAX_SERVOS in *.
  set (tl := match pins with [] => [] | _ => 44 :: join pins end). assert (tl = [] ∨ ∃ r, tl = 44 :: r) as Ht by (subst tl; destruct pins; eauto).
  assert (0 <= pin <= 26) as Hr.
  { destruct Hp as [-> |[Hp _]]; [lia|]. rewrite pin_map_length in Hp. destruct h; lia. }
  destruct (strtol_pin pin tl Hr Ht) as [Es Hne]. change (join (pin :: pins)) with (decimal pin ++ tl) in *.
  destruct (decimal pin) as [|d ds] eqn:Ed; [done|]. cbn [app] in *. destruct fuel as [|fuel]; [cbn in Hf; lia|]. cbn [pin_loop]. rewrite Es.
  assert (match tl with [] => false | c :: _ => Nat.eqb (length tl) (length (d :: ds ++ tl)) || negb (c =? 44) end = false) as ->.
  { destruct Ht as [-> | [r ->]]; [done|]. rewrite orb_false_r. apply Nat.eqb_neq. cbn. rewrite length_app. cbn. lia. }
  assert ((pin <? 0) || (Z.of_nat (length (pin_map h rev)) <? pin) = false) as ->.
  { apply orb_false_iff. rewrite !Z.ltb_ge. destruct Hp as [-> |[Hp _]]; lia. }
  rewrite (proj2 (Z.eqb_neq servo MAX_SERVOS)) by (unfold MAX_SERVOS; lia).
  destruct (use_pin_usable rev h pin servo st HS ltac:(unfold MAX_SERVOS; lia) Hp) as (st1 & -> & HS1 & G1 & T1). cbn [andthen done].
  assert (match tl with 44 :: r => r | _ => tl end = join pins) as ->.
  { subst tl. by destruct pins. }
  destruct (IH fuel (servo + 1) st1) as (st' & E & HS' & G & T & Tn & Ti); [|done|done|lia|].
  { subst tl. cbn in Hf. rewrite length_app in Hf. destruct pins; cbn [length] in *; [cbn; lia|]. lia. }
  exists st'. replace (servo + Z.of_nat (S (length pins))) with (servo + 1 + Z.of_nat (length pins)) by lia. split; [done|]. split; [done|].
  split; [rewrite G, G1; cbn [seq zip zip_with foldl]; by replace (Z.to_nat (servo + 1)) with (S (Z.to_nat servo)) by lia|].
  split; [intros h' Hh; rewrite T, T1 by done; by rewrite decide_False by naive_solver|].
  assert (length (pin_table h st) = S (length (pin_map h rev))) as Hlen by (rewrite pin_map_length; destruct HS, h; done).
  split.
  - intros p Hnin H1. apply not_elem_of_cons in Hnin as [Hpp Hnin]. rewrite Tn, T1 by done. destruct (decide (h = h ∧ pin ≠ 0)); [|reflexivity]. by rewrite list_lookup_insert_ne by lia.
  - intros i p Hi H0 Hlast. destruct i as [|i].
    + injection Hi as ->. destruct Hp as [?|[Hp _]]; [done|]. rewrite Tn, T1; [|intros [j Hj]%list_elem_of_lookup; by apply (Hlast (S j)); [lia|]|lia].
      rewrite decide_True by done. rewrite list_lookup_insert_eq by lia. f_equal. lia.
    + rewrite (Ti i p); [f_equal; lia|done|done|]. intros j Hj. apply (Hlast (S j)). lia.
Qed.

Lemma insert_run {A} (f : Z → A) pins a (L : list A) :
  (a + length pins <= length L)%nat →
  foldl (λ l '(i, pin), <[i := f pin]> l) L (zip (seq a (length pins)) pins) = take a L ++ (f <$> pins) ++ drop (a + length pins) L.
Proof.
  revert a L. induction pins as [|p pins IH]; intros a L Hl; cbn [length seq zip zip_with foldl fmap list_fmap] in *.
  { rewrite Nat.add_0_r. cbn. by rewrite take_drop. }
  rewrite IH by (rewrite length_insert; lia). rewrite (insert_take_drop L a) by lia.
  assert (length (take a L) = a) as Ht by (rewrite length_take; lia).
  rewrite take_app_ge by lia. rewrite Ht. replace (S a - a)%nat with 1%nat by lia. cbn [take].
  rewrite drop_app_ge by lia. rewrite Ht. replace (S a + length pins - a)%nat with (S (length pins)) by lia. cbn [drop].
  rewrite drop_drop, <- app_assoc. cbn. by rewrite take_0, Nat.add_succ_r.
Qed.

(** No pin twice. *)
Definition distinct (pins : list Z) : Prop := ∀ i j pin, pins !! i = Some pin → pins !! j = Some pin → pin ≠ 0 → i = j.

Lemma assign_pins rev l1 l5 :
  rev = 1 ∨ rev = 2 → Forall (usable P1 rev) l1 → Forall (usable P5 rev) l5 → (length l1 + length l5 <= 32)%nat → distinct l1 → distinct l5 →
  ∃ st names, parse_pin_lists true rev (Some (join l1)) (Some (join l5)) = done (st, names) ∧ named rev st names ∧ pins_sound rev (Z.of_nat (length l1 + length l5)) st ∧
    servo2gpio_of st = (gpio_on P1 rev <$> l1) ++ (gpio_on P5 rev <$> l5) ++ replicate (32 - (length l1 + length l5)) DMY ∧
    (∀ i pin, l1 !! i = Some pin → pin ≠ 0 → p1pin2servo_of st !! Z.to_nat pin = Some (Z.of_nat i)) ∧
    (∀ i pin, l5 !! i = Some pin → pin ≠ 0 → p5pin2servo_of st !! Z.to_nat pin = Some (Z.of_nat (length l1 + i))).
Proof.
  intros Hr U1 U5 Hn D1 D5. rewrite parse_two_lists. unfold two_lists.
  destruct (pin_loop_join rev P1 l1 _ 0 no_pins (Nat.le_refl _) (no_pins_sound rev) U1) as (st1 & -> & HS1 & G1 & T1 & _ & I1); [unfold MAX_SERVOS; lia|].
  cbn [andthen done]. rewrite Z.add_0_l in *.
  destruct (pin_loop_join rev P5 l5 _ _ st1 (Nat.le_refl _) HS1 U5) as (st & -> & HS & G5 & T5 & _ & I5); [unfold MAX_SERVOS; lia|].
  cbn [andthen done]. destruct (servo_mapping_named rev _ st Hr HS) as (names & -> & Hnm). exists st, names. split; [done|]. split; [done|].
  split; [by rewrite Nat2Z.inj_add|].
  rewrite insert_run in G1 by (cbn; lia). change (servo2gpio_of no_pins) with (replicate 32 DMY) in G1. change (Z.to_nat 0) with 0%nat in G1.
  rewrite take_0, app_nil_l, Nat.add_0_l, drop_replicate in G1. rewrite Nat2Z.id, insert_run, G1 in G5 by (rewrite G1, length_app, length_fmap, length_replicate; lia).
  split; [|split].
  - rewrite G5, take_app_le by (rewrite length_fmap; lia). rewrite take_ge by (rewrite length_fmap; lia).
    rewrite drop_app_ge by (rewrite length_fmap; lia). rewrite length_fmap, drop_replicate. do 3 f_equal. lia.
  - intros i pin Hi H0. change (p1pin2servo_of st) with (pin_table P1 st). rewrite T5 by done.
    rewrite (I1 i pin Hi H0); [done|]. intros j Hj Hj'. pose proof (D1 i j pin Hi Hj' H0). lia.
  - intros i pin Hi H0. change (p5pin2servo_of st) with (pin_table P5 st).
    rewrite (I5 i pin Hi H0); [f_equal; lia|]. intros j Hj Hj'. pose proof (D5 i j pin Hi Hj' H0). lia.
Qed.

(** C24: lists of usable pins, P1 first: the servos are numbered in the order of
    the lists, those of P1 before those of P5; servo [k] gets the output of
    the [k]-th pin, a pin 0 leaves its number unused, and the table of a header
    gives for each of its pins the number of its servo. *)
Theorem pin_lists_assign rev l1 l5 :
  rev = 1 ∨ rev = 2 → Forall (usable P1 rev) l1 → Forall (usable P5 rev) l5 → (length l1 + length l5 <= 32)%nat → distinct l1 → distinct l5 →
  ∃ st names, parse_pin_lists true rev (Some (join l1)) (Some (join l5)) = done (st, names) ∧ named rev st names ∧
    servo2gpio_of st = (gpio_on P1 rev <$> l1) ++ (gpio_on P5 rev <$> l5) ++ replicate (32 - (length l1 + length l5)) DMY ∧
    (∀ i pin, l1 !! i = Some pin → pin ≠ 0 → p1pin2servo_of st !! Z.to_nat pin = Some (Z.of_nat i)) ∧
    (∀ i pin, l5 !! i = Some pin → pin ≠ 0 → p5pin2servo_of st !! Z.to_nat pin = Some (Z.of_nat (length l1 + i))).
Proof.
  intros Hr U1 U5 Hn D1 D5. destruct (assign_pins rev l1 l5 Hr U1 U5 Hn D1 D5) as (st & names & E & H1 & _ & H2). by exists st, names.
Qed.

Lemma pin_lists_assign_witness :
  ∃ st names, parse_pin_lists true 2 (Some (bytes "7,0,11")) (Some (bytes "3")) = done (st, names) ∧
    take 5 (servo2gpio_of st) = [4; DMY; 17; 28; DMY] ∧ p5pin2servo_of st !! 3%nat = Some 3.
Proof.
  destruct (pin_lists_assign 2 [7; 0; 11] [3]) as (st & names & E & _ & G & _ & I5).
  - by right.
  - repeat (apply Forall_cons; split); [right; split; [cbn; lia|done]|by left|right; split; [cbn; lia|done]|constructor].
  - apply Forall_cons. split; [right; split; [cbn; lia|done]|constructor].
  - cbn. lia.
  - intros [|[|[|i]]] [|[|[|j]]] pin Hi Hj H0; cbn in Hi, Hj; try done; congruence.
  - intros [|i] [|j] pin Hi Hj H0; cbn in Hi, Hj; try done; congruence.
  - exists st, names. split; [exact E|]. split; [rewrite G; reflexivity|]. apply (I5 0%nat 3); [reflexivity|done].
Defined.

Lemma pin_lists_sound_witness :
  (∃ m, parse_pin_lists false 1 (Some (bytes "7")) (Some (bytes "x")) = fatal m) ∨
  ∃ servo st names, parse_pin_lists false 1 (Some (bytes "7")) (Some (bytes "x")) = done (st, names) ∧ pins_sound 1 servo st ∧ named 1 st names.
Proof. apply (pin_lists_sound false 1 (bytes "7") (bytes "x")). by left. Defined.

(** When the list of P5 comes first, the list of P1 is not read at all: the
    list of P5 is read twice. *)
Theorem p5_first_ignores_p1 rev l1 l5 :
  parse_pin_lists false rev (Some l1) (Some l5) = two_lists rev P5 l5 P5 l5.
Proof. apply parse_two_lists. Qed.

Example p5_first_doubles_p5 :
  ∃ names p1, parse_pin_lists false 2 (Some (bytes "7,11")) (Some (bytes "3,4")) =
    done (mkPins ([28; 29; 28; 29] ++ replicate 28 DMY) p1 [DMY; DMY; DMY; 2; 3; DMY; DMY; DMY; DMY] 4, names) ∧ p1 = replicate 27 DMY.
Proof. eexists _, _. split; [vm_compute; reflexivity|reflexivity]. Qed.

(** The revision of the board. *)
Example board_revisions :
  let info t := Some (bytes "Hardware : BCM2708" ++ [10] ++ bytes "Revision : " ++ bytes t ++ [10]) in
  board_rev (info "0002") = done 1 ∧ board_rev (info "000e") = done 2 ∧ board_rev (info "0000") = fatal InvalidRevision ∧
  board_rev (info "0001") = done 1 ∧ board_rev (info "zz") = fatal RevisionNotParsed ∧ board_rev None = fatal NoCpuinfo ∧
  board_rev (Some (bytes "Hardware")) = fatal NoRevision.
Proof. vm_compute. repeat split. Qed.

End Pins.
