(* ===== verification/ServodStop.v ===== *)
(** * The end of the servo daemon

    Models [terminate] of src/main/components/servoBlaster/servod.c, the
    handler of the signals and the way out of a fatal error: the widths of all
    servos are set to zero, a cycle is waited for, the DMA controller is
    stopped and the modes of the pins are restored.  A signal can come in the
    middle of [set_servo], so the handler is considered after any number of
    the stores of a call. *)
From S2P Require Import Prelude ServodPulse ServodRing.

#[local] Open Scope Z_scope.

Module Stop.
Import Pulse.
Import Ring (run_sample, run_on).

(** ** End *)

(** The samples that the controller does, from sample [i] on, while
    [nanosleep] sleeps: none when a second or more is asked for, which it
    refuses. *)
Definition slept (cycle_time_us step : Z) : Z := if cycle_time_us * 1000 <? 1000000000 then cycle_time_us `quot` step else 0.
Definition run_from (i n : Z) (s : SERVOD) : res SERVOD := forM (seqZ i n) (λ j s, run_sample (j `mod` num_samples s) s) s.

Definition stop_pulses (now : timeval) (s : SERVOD) : res SERVOD :=
  forM (seqZ 0 MAX_SERVOS) (λ i s, g ← aget (servo2gpio s) i; if g =? DMY then Ok s else set_servo now i 0 s) s.

Definition restore_modes (modes : list Z) (s : SERVOD) : res SERVOD :=
  forM (seqZ 0 MAX_SERVOS) (λ i s,
    g ← aget (servo2gpio s) i;
    if g =? DMY then Ok s else m ← aget modes i; gpio_set_mode g m s) s.

Definition terminate (running restore_gpio_modes : bool) (modes : list Z) (cycle_time_us step : Z) (now : timeval) (i : Z) (s : SERVOD) : res SERVOD :=
  s ← (if running then s ← stop_pulses now s; run_from i (slept cycle_time_us step) s else Ok s);
  if restore_gpio_modes then restore_modes modes s else Ok s.

(** ** A call that is interrupted *)

(** [set_servo] up to its [n]-th store: those to [turnoff_mask], then the one
    that records the width, then the one to [turnon_mask]. *)
Definition set_servo_until (n : nat) (servo width : Z) (s : SERVOD) : res SERVOD :=
  g ← aget (servo2gpio s) servo;
  old ← aget (servowidth s) servo;
  start ← aget (servostart s) servo;
  let stores := width_stores (num_samples s) start old width (gpio_bit g) in
  s ← forM (take n stores) do_store s;
  if (n <=? length stores)%nat then Ok s
  else
    ws ← aset (servowidth s) servo width;
    let s := set_servowidth ws s in
    if (n =? S (length stores))%nat then Ok s else do_store (on_store servo width (gpio_bit g)) s.

(** The call is the last of these states and the new idle time. *)
Lemma set_servo_resumed now sv width s g start old n :
  masks_ok s → servo_ok s sv g start old → 0 <= width <= num_samples s →
  (S (length (width_stores (num_samples s) start old width (gpio_bit g))) < n)%nat →
  (s' ← set_servo_until n sv width s; update_idle_time now sv s') = set_servo now sv width s.
Proof.
  intros HK HS Hw Hn. pose proof HS as [S1 S2 S3 S4 S5 S6 S7 S8 S9]. pose proof HK as [K1 K2 K3 K4 K5 K6 K7 K8 K9 K10].
  unfold MAX_SERVOS in *. destruct (do_width_stores s sv g start old width HS K1 K6 Hw) as (s1 & E1 & Hs1 & _).
  unfold set_servo_until, set_servo, set_servo_stores.
  rewrite (aget_in (servo2gpio s) sv g), (aget_in (servowidth s) sv old), (aget_in (servostart s) sv start) by (done || lia).
  rewrite !bind_ok, take_ge, E1, bind_ok, (proj2 (Nat.leb_gt _ _)) by lia. rewrite forM_app, E1, bind_ok.
  rewrite aset_in, bind_ok by (rewrite Hs1; cbn; lia). rewrite (proj2 (Nat.eqb_neq _ _)) by lia. cbn [forM on_store do_store].
  cbn [turnon_mask set_servowidth]. rewrite !aset_in by (rewrite Hs1; cbn; lia). rewrite !bind_ok. cbn [servowidth set_turnon].
  by rewrite aset_in, bind_ok by (rewrite Hs1; cbn; lia).
Qed.

(** ** Modes of pins *)

(** A field of three bits, set and read. *)
Lemma field_get_set r k m : 0 <= k → 0 <= m < 8 → Z.land (Z.shiftr (Z.lor (Z.land r (Z.lnot (Z.shiftl 7 k))) (Z.shiftl m k)) k) 7 = m.
Proof.
  intros Hk Hm. rewrite Z.shiftr_lor, Z.shiftr_land. rewrite Z.shiftr_shiftl_l, Z.sub_diag, Z.shiftl_0_r by lia.
  assert (Z.shiftr (Z.lnot (Z.shiftl 7 k)) k = Z.lnot 7) as ->.
  { apply Z.bits_inj'. intros n Hn. rewrite Z.shiftr_spec, !Z.lnot_spec, Z.shiftl_spec by lia. f_equal. f_equal. lia. }
  change 7 with (Z.ones 3). apply Z.bits_inj'. intros n Hn. rewrite Z.land_spec, Z.lor_spec, Z.land_spec, Z.lnot_spec by lia.
  destruct (Z.ltb_spec n 3).
  - rewrite !Z.ones_spec_low by lia. cbn [negb]. by rewrite andb_false_r, andb_true_r.
  - rewrite Z.ones_spec_high, andb_false_r by lia. symmetry. destruct (Z.eq_dec m 0) as [->|]; [apply Z.testbit_0_l|].
    apply Z.bits_above_log2; [lia|]. assert (Z.log2 m < 3) by (apply Z.log2_lt_pow2; lia). lia.
Qed.

Lemma field_get_other r k k' m :
  0 <= k → 0 <= k' → k + 3 <= k' ∨ k' + 3 <= k → 0 <= m < 8 →
  Z.land (Z.shiftr (Z.lor (Z.land r (Z.lnot (Z.shiftl 7 k))) (Z.shiftl m k)) k') 7 = Z.land (Z.shiftr r k') 7.
Proof.
  intros Hk Hk' Hd Hm. change 7 with (Z.ones 3). apply Z.bits_inj'. intros n Hn. rewrite !Z.land_spec, !Z.shiftr_spec by lia.
  destruct (Z.ltb_spec n 3); [|by rewrite Z.ones_spec_high, !andb_false_r by lia]. f_equal.
  rewrite Z.lor_spec, Z.land_spec, Z.lnot_spec, !Z.shiftl_spec by lia.
  assert (∀ x, 0 <= x < 8 → Z.testbit x (n + k' - k) = false) as Hz.
  { intros x Hx. destruct (Z.ltb_spec (n + k' - k) 0); [by apply Z.testbit_neg_r|].
    destruct (Z.eq_dec x 0) as [->|]; [apply Z.testbit_0_l|]. apply Z.bits_above_log2; [lia|].
    assert (Z.log2 x < 3) by (apply Z.log2_lt_pow2; lia). lia. }
  change (Z.ones 3) with 7. rewrite !Hz by lia. cbn [negb]. by rewrite andb_true_r, orb_false_r.
Qed.

(** A pin's mode is what it is set to, and no other pin's mode changes. *)
Lemma gpio_set_mode_ok g m s :
  0 <= g < 54 → 0 <= m < 8 → length (fsel s) = 6%nat →
  ∃ l, gpio_set_mode g m s = Ok (set_fsel l s) ∧ length l = 6%nat ∧
    ∀ g' s', 0 <= g' < 54 → fsel s' = l → gpio_get_mode g' s' = if g' =? g then Ok m else gpio_get_mode g' s.
Proof.
  intros Hg Hm Hl. unfold gpio_set_mode. pose proof (Z.mod_pos_bound g 10 ltac:(lia)) as Hk. set (k := g `mod` 10 * 3).
  destruct (lookup_lt_is_Some_2 (fsel s) (Z.to_nat (g `div` 10))) as [r Er]; [dlia|]. rewrite (aget_in _ _ r), bind_ok by (done || dlia).
  rewrite aset_in, bind_ok by dlia. assert (0 < 2 ^ k <= 2 ^ 27) as Hp by (split; [apply Z.pow_pos_nonneg; lia|apply Z.pow_le_mono_r; lia]).
  rewrite (u32_small (Z.shiftl m k)) by (rewrite Z.shiftl_mul_pow2 by lia; nia). eexists. split; [done|]. split; [by rewrite length_insert|].
  intros g' s' Hg' Es. unfold gpio_get_mode. rewrite Es. pose proof (Z.mod_pos_bound g' 10 ltac:(lia)) as Hk'.
  destruct (decide (g' `div` 10 = g `div` 10)) as [Ed|Ed].
  - rewrite Ed, (aget_in (<[_ := _]> _) _ (Z.lor (Z.land r (Z.lnot (Z.shiftl 7 k))) (Z.shiftl m k))), bind_ok, (aget_in (fsel s) _ r), bind_ok
      by first [done|dlia|apply list_lookup_insert_eq; dlia].
    destruct (Z.eqb_spec g' g) as [->|Hne]; [by rewrite field_get_set by lia|]. rewrite field_get_other; [done|lia|lia| |done]. unfold k. dlia.
  - rewrite (proj2 (Z.eqb_neq g' g)) by (by intros ->). destruct (lookup_lt_is_Some_2 (fsel s) (Z.to_nat (g' `div` 10))) as [r' Er']; [dlia|].
    rewrite (aget_in (<[_ := _]> _) _ r'), (aget_in (fsel s) _ r'); [done|dlia|done|dlia|]. rewrite list_lookup_insert_ne by dlia. done.
Qed.

(** ** States that can be stopped *)

(** A servo whose pin goes off within a cycle once its width is set to zero:
    some sample clears the pin, or will when its first samples are made to. *)
Record held (s : SERVOD) (sv g start w : Z) : Prop := {
  hd_index : 0 <= sv < MAX_SERVOS;
  hd_gpio : servo2gpio s !! Z.to_nat sv = Some g;
  hd_pin : 0 <= g < 32;
  hd_start : servostart s !! Z.to_nat sv = Some start;
  hd_start_range : 0 <= start < num_samples s;
  hd_width : servowidth s !! Z.to_nat sv = Some w;
  hd_width_range : 0 <= w <= num_samples s;
  hd_off : 0 < w ∨ ∃ i, 0 <= i < num_samples s ∧ off_bit s i g = true
}.

Record stoppable (s : SERVOD) : Prop := {
  st_samples : 0 < num_samples s;
  st_gpio : length (servo2gpio s) = 32%nat;
  st_width : length (servowidth s) = 32%nat;
  st_start : length (servostart s) = 32%nat;
  st_on : length (turnon_mask s) = 32%nat;
  st_off : Z.of_nat (length (turnoff_mask s)) = num_samples s;
  st_kill : length (servo_kill_time s) = 32%nat;
  st_idle : 0 <= idle_timeout s <= 3600000;
  st_servo sv : 0 <= sv < MAX_SERVOS → mapped s sv → ∃ g start w, held s sv g start w;
  st_pins sv sv' g : 0 <= sv < MAX_SERVOS → 0 <= sv' < MAX_SERVOS → g ≠ DMY →
    servo2gpio s !! Z.to_nat sv = Some g → servo2gpio s !! Z.to_nat sv' = Some g → sv = sv'
}.

(** What stopping leaves alone. *)
Definition same_pins (s s' : SERVOD) : Prop :=
  servo2gpio s' = servo2gpio s ∧ servostart s' = servostart s ∧ num_samples s' = num_samples s ∧ invert s' = invert s ∧ fsel s' = fsel s ∧
  level s' = level s.

Lemma servo_held s sv g start w : 0 < num_samples s → servo_ok s sv g start w → held s sv g start w.
Proof.
  intros HN [S1 S2 S3 S4 S5 S6 S7 S8 S9]. split; try done. destruct (Z.lt_ge_cases 0 w); [by left|right].
  exists (at_pos (num_samples s) start 0). split; [by apply at_pos_range|]. rewrite S9 by lia. lia.
Qed.

(** A change of the masks, widths and times of one servo [sv] on pin [g]. *)
Lemma stoppable_change s s' sv g start w :
  stoppable s → same_pins s s' → idle_timeout s' = idle_timeout s → length (turnoff_mask s') = length (turnoff_mask s) →
  length (turnon_mask s') = 32%nat → length (servo_kill_time s') = 32%nat →
  servowidth s' = <[Z.to_nat sv := w]> (servowidth s) → servo2gpio s !! Z.to_nat sv = Some g → g ≠ DMY →
  (∀ i k, 0 <= i → 0 <= k → k ≠ g → off_bit s' i k = off_bit s i k) → held s' sv g start w → stoppable s'.
Proof.
  intros [T1 T2 T3 T4 T5 T6 T7 T8 T9 T10] (F1 & F2 & F3 & _) Hi Ho Hon Hk Hw Hg Hd Hoff Hh.
  split; rewrite ?F1, ?F2, ?F3, ?Hi, ?Ho; try done.
  - by rewrite Hw, length_insert.
  - intros sv' Hsv Hm. unfold mapped in Hm. rewrite F1 in Hm. destruct (decide (sv' = sv)) as [->|Hne]; [by exists g, start, w|].
    destruct (T9 sv' Hsv Hm) as (g' & st' & w' & [A1 A2 A3 A4 A5 A6 A7 A8]). exists g', st', w'.
    pose proof (hd_index _ _ _ _ _ Hh) as Hsv0. unfold MAX_SERVOS in *.
    assert (g' ≠ g) as Hgg. { intros ->. apply Hne. apply (T10 sv' sv g); done. }
    split; rewrite ?F1, ?F2, ?F3; try done; [by rewrite Hw, list_lookup_insert_ne by lia|].
    destruct A8 as [?|(i & Hir & Hb)]; [by left|right]. exists i. split; [done|]. by rewrite Hoff by lia.
Qed.

Lemma masks_stoppable s : masks_ok s → stoppable s.
Proof.
  intros [K1 K2 K3 K4 K5 K6 K7 K8 K9 K10]. split; try done. intros sv Hsv Hm. destruct (K9 sv Hsv Hm) as (g & start & w & HS).
  exists g, start, w. by apply servo_held.
Qed.

Lemma servo_gpio_in_use s sv g start w : servo_ok s sv g start w → g ≠ DMY.
Proof. intros [_ _ R _ _ _ _ _ _]. unfold DMY. lia. Qed.

Lemma in_take {A} n (l : list A) x : x ∈ take n l → x ∈ l.
Proof. intros H. rewrite <- (take_drop n l). apply elem_of_app. by left. Qed.

(** An interrupted call leaves a state that can be stopped, unless it switches
    an output from off to always on. *)
Lemma set_servo_until_ok n sv width s :
  masks_ok s → 0 <= sv < MAX_SERVOS → mapped s sv → 0 <= width <= num_samples s →
  (servowidth s !! Z.to_nat sv = Some 0 → width < num_samples s) →
  ∃ s1, set_servo_until n sv width s = Ok s1 ∧ stoppable s1 ∧ same_pins s s1.
Proof.
  intros HK Hsv Hm Hw Hex. pose proof (masks_stoppable s HK) as HT. pose proof HK as [K1 K2 K3 K4 K5 K6 K7 K8 K9 K10].
  destruct (K9 sv Hsv Hm) as (g & start & old & HS). pose proof HS as [S1 S2 S3 S4 S5 S6 S7 S8 S9]. unfold MAX_SERVOS in *.
  pose proof (servo_gpio_in_use _ _ _ _ _ HS) as Hd. unfold set_servo_until.
  rewrite (aget_in (servo2gpio s) sv g), (aget_in (servowidth s) sv old), (aget_in (servostart s) sv start) by (done || lia). rewrite !bind_ok.
  set (N := num_samples s) in *. set (ws := width_stores N start old width (gpio_bit g)).
  destruct (Nat.leb_spec n (length ws)) as [Hn|Hn].
  - destruct (gained_lost_range N start old width K1) as [Rg Rl]. subst ws. rewrite width_stores_lists, take_app, !length_fmap in * by done.
    rewrite <- !fmap_take, forM_app. set (lg := take n (gained N start old width)). set (ll := take _ (lost N start old width)).
    destruct (do_off_stores false g lg s S3) as (s1 & -> & [A1 A2 A3]); [apply Forall_take; by rewrite K6|]. rewrite bind_ok.
    destruct (do_off_stores true g ll s1 S3) as (s2 & -> & [B1 B2 B3]); [apply Forall_take; by rewrite A2, K6|]. rewrite bind_ok.
    exists s2. split; [done|]. assert (same_pins s s2) as HF by (rewrite B1, A1; by split_and!). split; [|done].
    assert (turnon_mask s2 = turnon_mask s ∧ servo_kill_time s2 = servo_kill_time s ∧ servowidth s2 = servowidth s ∧ idle_timeout s2 = idle_timeout s)
      as (G1 & G2 & G3 & G4) by (rewrite B1, A1; done).
    apply (stoppable_change s s2 sv g start old); rewrite ?G1, ?G2, ?G3, ?G4; try done; [lia|by rewrite list_insert_id| |].
    + intros i k Hi Hk Hne. rewrite B3, A3 by done. repeat case_decide; naive_solver.
    + destruct HF as (F1 & F2 & F3 & _). split; rewrite ?F1, ?F2, ?F3, ?G3; try done.
      destruct (Z.lt_ge_cases 0 old); [by left|right]. assert (old = 0) as -> by lia. specialize (Hex S6).
      exists (at_pos N start (N - 1)). split; [by apply at_pos_range|]. destruct (at_pos_range N start (N - 1) K1) as [P1 P2].
      rewrite B3, A3, S9 by lia. rewrite decide_False, decide_False; [lia|..]; intros [_ Hin].
      * apply in_take in Hin. apply elem_of_gained in Hin; lia.
      * apply in_take in Hin. apply elem_of_lost in Hin; lia.
  - destruct (do_width_stores s sv g start old width HS K1 K6 Hw) as (s1 & E1 & Hs1 & Hl1 & Hoth & Hown).
    rewrite take_ge by lia. fold N in E1. fold ws in E1. rewrite E1, bind_ok, aset_in, bind_ok by (rewrite Hs1; cbn; lia).
    set (s2 := set_servowidth _ s1). assert (same_pins s s2) as HF by (subst s2; rewrite Hs1; by split_and!).
    assert (turnon_mask s2 = turnon_mask s ∧ servo_kill_time s2 = servo_kill_time s ∧ servowidth s2 = <[Z.to_nat sv := width]> (servowidth s) ∧
      idle_timeout s2 = idle_timeout s ∧ turnoff_mask s2 = turnoff_mask s1) as (G1 & G2 & G3 & G4 & G5) by (subst s2; rewrite Hs1; done).
    assert (∀ on, length on = 32%nat → stoppable (set_turnon on s2)) as Hstop.
    { intros on Hon. apply (stoppable_change s _ sv g start width); try done; cbn [servo_kill_time servowidth idle_timeout turnoff_mask set_turnon turnon_mask];
        rewrite ?G2, ?G3, ?G5; try done.
      destruct HF as (F1 & F2 & F3 & _).
        split; cbn [servo2gpio servostart num_samples servowidth set_turnon]; rewrite ?F1, ?F2, ?F3, ?G3; try done; [rewrite list_lookup_insert_eq by lia; done|].
        destruct (Z.lt_ge_cases 0 width); [by left|right]. exists (at_pos N start 0). split; [by apply at_pos_range|].
        change (off_bit s1 (at_pos N start 0) g = true). subst N. rewrite Hown by lia. lia. }
    destruct (n =? S (length ws))%nat.
    + exists s2. split; [done|]. split; [|done]. replace s2 with (set_turnon (turnon_mask s2) s2) by (by destruct s2).
      apply Hstop. by rewrite G1.
    + unfold on_store. cbn [do_store]. rewrite aset_in, bind_ok by (rewrite G1; lia).
      eexists. split; [done|]. split; [|done]. apply Hstop. by rewrite length_insert, G1.
Qed.

(** ** Stopping *)

(** A servo is set to the width zero. *)
Lemma stop_one now sv s :
  stoppable s → clock_ok now → 0 <= sv < MAX_SERVOS → mapped s sv →
  ∃ s', set_servo now sv 0 s = Ok s' ∧ stoppable s' ∧ same_pins s s' ∧ servowidth s' = <[Z.to_nat sv := 0]> (servowidth s) ∧
    turnon_mask s' = <[Z.to_nat sv := 0]> (turnon_mask s).
Proof.
  intros HT Hnow Hsv Hm. pose proof HT as [T1 T2 T3 T4 T5 T6 T7 T8 T9 T10]. unfold MAX_SERVOS in *.
  destruct (T9 sv Hsv Hm) as (g & start & w & [H1 H2 H3 H4 H5 H6 H7 H8]). set (N := num_samples s) in *.
  unfold set_servo, set_servo_stores.
  rewrite (aget_in (servo2gpio s) sv g), (aget_in (servowidth s) sv w), (aget_in (servostart s) sv start) by (done || lia). rewrite !bind_ok.
  fold N. rewrite width_stores_lists, !forM_app by lia. destruct (gained_lost_range N start w 0 T1) as [_ Rl].
  assert (gained N start w 0 = []) as -> by (unfold gained; by rewrite seqZ_nil by lia). cbn [fmap list_fmap forM]. rewrite bind_ok.
  destruct (do_off_stores true g (lost N start w 0) s H3) as (s1 & -> & [A1 A2 A3]); [by rewrite T6|]. rewrite bind_ok.
  unfold on_store. cbn [Z.eqb do_store]. assert (turnon_mask s1 = turnon_mask s ∧ servowidth s1 = servowidth s) as [Eon Ew] by (rewrite A1; done).
  rewrite Eon, aset_in, !bind_ok by lia. cbn [servowidth set_turnon]. rewrite Ew, aset_in, bind_ok by lia.
  set (s2 := set_servowidth _ _). destruct (update_idle_time_ok now sv s2 Hnow) as (l & -> & Hl & _); [subst s2; rewrite A1; cbn; done || lia..|].
  exists (set_kill l s2). split; [done|].
  assert (same_pins s (set_kill l s2)) as HF by (subst s2; rewrite A1; by split_and!).
  split; [|split; [done|split; [done|done]]].
  assert (turnoff_mask s2 = turnoff_mask s1 ∧ servo_kill_time s2 = servo_kill_time s ∧ idle_timeout s2 = idle_timeout s) as (G1 & G2 & G3) by (subst s2; rewrite A1; done).
  apply (stoppable_change s _ sv g start 0); try done.
  - subst s2. cbn. by rewrite length_insert.
  - cbn. by rewrite Hl, G2.
  - unfold DMY. lia.
  - intros i k Hi Hk Hne. change (off_bit s1 i k = off_bit s i k). rewrite A3 by done. case_decide; naive_solver.
  - destruct HF as (F1 & F2 & F3 & _). split; rewrite ?F1, ?F2, ?F3; try done; [cbn; by rewrite list_lookup_insert_eq by lia|fold N; lia|]. right. change (∃ i, 0 <= i < N ∧ off_bit s1 i g = true).
    destruct H8 as [Hpos|(i & Hi & Hb)].
    + exists (at_pos N start 0). destruct (at_pos_range N start 0 T1). split; [lia|]. rewrite A3 by lia. rewrite decide_True; [done|].
      split; [done|]. apply elem_of_lost; lia.
    + exists i. split; [done|]. rewrite A3 by lia. by case_decide.
Qed.

(** All widths are zero and no pin is turned on any more. *)
Definition quiet (s : SERVOD) : Prop :=
  ∀ k, (k < 32)%nat → mapped s (Z.of_nat k) → servowidth s !! k = Some 0 ∧ turnon_mask s !! k = Some 0.

Lemma stop_pulses_ok now s :
  stoppable s → clock_ok now → ∃ s', stop_pulses now s = Ok s' ∧ stoppable s' ∧ quiet s' ∧ same_pins s s'.
Proof.
  intros HK Hnow. unfold stop_pulses. change MAX_SERVOS with (Z.of_nat 32).
  match goal with |- context [forM _ ?f s] => set (body := f) end.
  assert (∀ n, (n <= 32)%nat → ∃ s', forM (seqZ 0 (Z.of_nat n)) body s = Ok s' ∧ stoppable s' ∧ same_pins s s' ∧
    ∀ k, (k < n)%nat → mapped s' (Z.of_nat k) → servowidth s' !! k = Some 0 ∧ turnon_mask s' !! k = Some 0) as H.
  { induction n as [|n IH]; intros Hn; [exists s; by split_and!; [| |split_and!|lia]|].
    destruct IH as (s1 & E & HK1 & (F1 & F2 & F3 & F4 & F5 & F6) & Hq); [lia|]. rewrite seqZ_S, forM_app, E, bind_ok, Z.add_0_l. cbn [forM]. unfold body at 1.
    pose proof (st_gpio _ HK1). destruct (lookup_lt_is_Some_2 (servo2gpio s1) n) as [g Hg]; [lia|].
    rewrite (aget_in _ _ g), bind_ok by (rewrite ?Nat2Z.id; done || lia). destruct (Z.eqb_spec g DMY) as [->|Hd].
    - rewrite bind_ok. exists s1. split; [done|]. split; [done|]. split; [by split_and!|]. intros k Hk Hm.
      destruct (decide (k = n)) as [->|]; [|apply Hq; [lia|done]]. unfold mapped in Hm. rewrite Nat2Z.id in Hm. by rewrite Hg in Hm.
    - destruct (stop_one now (Z.of_nat n) s1 HK1 Hnow) as (s2 & E2 & HK2 & (G1 & G2 & G3 & G4 & G5 & G6) & W & On).
      { unfold MAX_SERVOS. lia. } { unfold mapped. rewrite Nat2Z.id, Hg. naive_solver. }
      rewrite E2, !bind_ok. exists s2. split; [done|]. split; [done|]. split; [split_and!; congruence|]. intros k Hk Hm. rewrite W, On, Nat2Z.id.
      pose proof (st_width _ HK1). pose proof (st_on _ HK1). destruct (decide (k = n)) as [->|]; [by rewrite !list_lookup_insert_eq by lia|].
      rewrite !list_lookup_insert_ne by done. apply Hq; [lia|]. unfold mapped in *. by rewrite <- G1. }
  destruct (H 32%nat ltac:(lia)) as (s' & E & HK' & HP & Hq). exists s'. split; [done|]. split; [done|]. split; [exact Hq|done].
Qed.

(** A sample of a quiet daemon turns pins off only. *)
Lemma quiet_sample s i :
  stoppable s → quiet s → 0 <= i < num_samples s →
  ∃ v, run_sample i s = Ok (set_level v s) ∧ ∀ k g, servo2gpio s !! k = Some g → g ≠ DMY →
    active g (set_level v s) = active g s && negb (off_bit s i g).
Proof.
  intros HT Hq Hi. pose proof HT as [T1 T2 T3 T4 T5 T6 T7 T8 T9 T10]. destruct (exec_off s i 0) as (v1 & E1 & _); [lia|lia|].
  destruct (run_on (starting s i) (set_level v1 s)) as (v & E & Ha).
  { apply Forall_forall. intros sv Hin. unfold starting in Hin. apply list_elem_of_filter in Hin as [_ Hr%elem_of_seqZ].
    unfold MAX_SERVOS in *. cbn. lia. }
  exists v. split; [unfold run_sample, sample_ops; cbn [forM]; by rewrite E1, bind_ok, forM_app, E, bind_ok|]. intros k g Hg Hd.
  assert (0 <= g < 32) as Hgr.
  { pose proof (lookup_lt_Some _ _ _ Hg). destruct (T9 (Z.of_nat k)) as (g' & st & w & [_ R2 R3 _ _ _ _ _]);
      [unfold MAX_SERVOS; lia|unfold mapped; rewrite Nat2Z.id, Hg; naive_solver|]. rewrite Nat2Z.id in R2. by replace g with g' by congruence. }
  destruct (exec_off s i g) as (v2 & E2 & Ha2); [lia|lia|]. rewrite E1 in E2. injection E2 as E2.
  change (active g (set_level v s)) with (active g (set_level v (set_level v1 s))). rewrite (Ha g) by lia.
  match goal with |- context [existsb ?f ?l] => assert (existsb f l = false) as -> end.
  { apply not_true_is_false. intros (sv & Hin & Hb)%existsb_exists. apply list_elem_of_In in Hin. unfold starting in Hin.
    apply list_elem_of_filter in Hin as [[Hm _] Hr%elem_of_seqZ]. unfold MAX_SERVOS in Hr. destruct (Hq (Z.to_nat sv)) as [_ Hon]; [lia|by rewrite Z2Nat.id by lia|].
    cbn [turnon_mask set_level] in Hb. by rewrite (list_lookup_total_correct _ _ _ Hon), Z.bits_0 in Hb. }
  rewrite orb_false_r, <- Ha2. unfold active. cbn. by rewrite E2.
Qed.

Lemma quiet_run s i (n : nat) :
  stoppable s → quiet s →
  ∃ v, run_from i (Z.of_nat n) s = Ok (set_level v s) ∧ ∀ k g, servo2gpio s !! k = Some g → g ≠ DMY → active g (set_level v s) = true →
    ∀ j, 0 <= j < Z.of_nat n → off_bit s ((i + j) `mod` num_samples s) g = false.
Proof.
  intros HT Hq. pose proof (st_samples _ HT). unfold run_from. induction n as [|n IH].
  { exists (level s). split; [by destruct s|]. lia. }
  destruct IH as (v & E & Ha). rewrite seqZ_S, forM_app, E, bind_ok. cbn [forM]. change (num_samples (set_level v s)) with (num_samples s).
  destruct (quiet_sample (set_level v s) ((i + Z.of_nat n) `mod` num_samples s)) as (v' & E' & Ha').
  { destruct HT as [T1 T2 T3 T4 T5 T6 T7 T8 T9 T10]. split; try done. intros sv Hsv Hm. destruct (T9 sv Hsv Hm) as (g & st & w & []).
    exists g, st, w. by split. } { done. } { by apply Z.mod_pos_bound. }
  rewrite E', bind_ok. exists v'. split; [done|]. intros k g Hg Hd Hact j Hj.
  change (set_level v' s) with (set_level v' (set_level v s)) in Hact. rewrite (Ha' k g Hg Hd) in Hact.
  apply andb_true_iff in Hact as [H1 H2%negb_true_iff]. destruct (decide (j = Z.of_nat n)) as [->|]; [exact H2|]. apply (Ha k g Hg Hd H1). lia.
Qed.

(** A whole cycle of a quiet daemon turns every pin off. *)
Lemma quiet_cycle s i :
  stoppable s → quiet s →
  ∃ v, run_from i (num_samples s) s = Ok (set_level v s) ∧ ∀ k g, servo2gpio s !! k = Some g → g ≠ DMY → active g (set_level v s) = false.
Proof.
  intros HT Hq. pose proof (st_samples _ HT) as HN. destruct (quiet_run s i (Z.to_nat (num_samples s)) HT Hq) as (v & E & Ha). rewrite Z2Nat.id in * by lia.
  exists v. split; [done|]. intros k g Hg Hd. apply not_true_is_false. intros Hact. pose proof (lookup_lt_Some _ _ _ Hg) as Hk. rewrite (st_gpio _ HT) in Hk.
  assert (mapped s (Z.of_nat k)) as Hm by (unfold mapped; rewrite Nat2Z.id, Hg; naive_solver).
  destruct (st_servo _ HT (Z.of_nat k)) as (g' & st & w & [_ R2 _ _ _ R6 _ R8]); [unfold MAX_SERVOS; lia|done|]. rewrite Nat2Z.id in R2, R6.
  assert (g' = g) as -> by congruence. destruct (Hq k Hk Hm) as [Hw _]. assert (w = 0) as -> by congruence. destruct R8 as [?|(i0 & Hi0 & Hb)]; [lia|].
  specialize (Ha k g Hg Hd Hact ((i0 - i) `mod` num_samples s) (Z.mod_pos_bound _ _ HN)). rewrite Zplus_mod_idemp_r in Ha.
  replace (i + (i0 - i)) with i0 in Ha by lia. rewrite Z.mod_small in Ha by done. congruence.
Qed.

(** The modes of the pins in use are those given, all others stay. *)
Lemma restore_modes_ok modes s :
  stoppable s → length (fsel s) = 6%nat → length modes = 32%nat → Forall (λ m, 0 <= m < 8) modes →
  ∃ l, restore_modes modes s = Ok (set_fsel l s) ∧ length l = 6%nat ∧
    (∀ k g m, servo2gpio s !! k = Some g → g ≠ DMY → modes !! k = Some m → gpio_get_mode g (set_fsel l s) = Ok m) ∧
    (∀ g, 0 <= g < 54 → g ∉ servo2gpio s → gpio_get_mode g (set_fsel l s) = gpio_get_mode g s).
Proof.
  intros HK Hf Hlm Hm. unfold restore_modes. change MAX_SERVOS with (Z.of_nat 32). pose proof (st_gpio _ HK) as Hlg.
  assert (∀ k g, servo2gpio s !! k = Some g → g ≠ DMY → 0 <= g < 32) as Hpin.
  { intros k g Hg Hd. pose proof (lookup_lt_Some _ _ _ Hg). destruct (st_servo _ HK (Z.of_nat k)) as (g' & st & w & [_ R2 R3 _ _ _ _ _]).
    { unfold MAX_SERVOS. lia. } { unfold mapped. rewrite Nat2Z.id, Hg. naive_solver. } rewrite Nat2Z.id in R2. by replace g with g' by congruence. }
  assert (∀ j k g, servo2gpio s !! j = Some g → servo2gpio s !! k = Some g → g ≠ DMY → j = k) as Hinj.
  { intros j k g Hj Hk Hd. pose proof (lookup_lt_Some _ _ _ Hj). pose proof (lookup_lt_Some _ _ _ Hk).
    enough (Z.of_nat j = Z.of_nat k) by lia. apply (st_pins _ HK _ _ g); rewrite ?Nat2Z.id; unfold MAX_SERVOS; done || lia. }
  match goal with |- context [forM _ ?f s] => set (body := f) end.
  assert (∀ n, (n <= 32)%nat → ∃ l, forM (seqZ 0 (Z.of_nat n)) body s = Ok (set_fsel l s) ∧ length l = 6%nat ∧
    (∀ k g m, (k < n)%nat → servo2gpio s !! k = Some g → g ≠ DMY → modes !! k = Some m → gpio_get_mode g (set_fsel l s) = Ok m) ∧
    (∀ g, 0 <= g < 54 → g ∉ servo2gpio s → gpio_get_mode g (set_fsel l s) = gpio_get_mode g s)) as H.
  { induction n as [|n IH]; intros Hn; [exists (fsel s); split; [by destruct s|]; split_and!; [done|lia|by destruct s]|].
    destruct IH as (l & E & Hl & Hset & Hoth); [lia|]. rewrite seqZ_S, forM_app, E, bind_ok, Z.add_0_l. cbn [forM]. unfold body at 1.
    cbn [servo2gpio set_fsel]. destruct (lookup_lt_is_Some_2 (servo2gpio s) n) as [g Hg]; [lia|].
    rewrite (aget_in (servo2gpio s) _ g), bind_ok by (rewrite ?Nat2Z.id; done || lia). destruct (Z.eqb_spec g DMY) as [->|Hd].
    - rewrite bind_ok. exists l. split; [done|]. split; [done|]. split; [|done]. intros k g' m Hk Hg' Hd' Hm'.
      destruct (decide (k = n)) as [->|]; [congruence|]. apply (Hset k); try done. lia.
    - destruct (lookup_lt_is_Some_2 modes n) as [m Em]; [lia|]. rewrite (aget_in modes _ m), bind_ok by (rewrite ?Nat2Z.id; done || lia).
      pose proof (proj1 (Forall_lookup _ _) Hm n m Em) as Hmr. pose proof (Hpin n g Hg Hd) as Hgr.
      destruct (gpio_set_mode_ok g m (set_fsel l s)) as (l' & -> & Hl' & Hget); [lia|done|done|]. rewrite bind_ok. cbn [set_fsel].
      exists l'. split; [done|]. split; [done|]. split.
      + intros k g' m' Hk Hg' Hd' Hm'. rewrite (Hget g' _) by (try done; pose proof (Hpin k g' Hg' Hd'); lia).
        destruct (decide (k = n)) as [->|Hne].
        * assert (g' = g) as -> by congruence. rewrite Z.eqb_refl. congruence.
        * rewrite (proj2 (Z.eqb_neq g' g)); [apply (Hset k); try done; lia|]. intros ->. by apply Hne, (Hinj k n g).
      + intros g' Hr Hnin. rewrite (Hget g' _) by done. rewrite (proj2 (Z.eqb_neq g' g)); [by apply Hoth|].
        intros ->. apply Hnin. by eapply list_elem_of_lookup_2. }
  destruct (H 32%nat ltac:(lia)) as (l & E & Hl & H1 & H2). exists l. split; [done|]. split; [done|]. split; [|done].
  intros k g m Hg. apply (H1 k g m); [|done]. apply lookup_lt_Some in Hg. lia.
Qed.

(** C23: the end of the daemon, from the command loop on.  The signal may come
    between calls or in the middle of [set_servo], after any number of its
    stores, and wherever the DMA controller is in its cycle (the levels of the
    pins are arbitrary): unless the interrupted call switches an output from
    off to always on, [terminate] ends with the mode of every servo pin
    restored and no other mode changed, and, when the cycle is shorter than a
    second, with every servo pin inactive.  With a cycle of a second, the
    longest that the command line accepts, the wait is refused and the pins
    stay as they are. *)
Theorem terminate_quiet now modes cycle step i n sv width s :
  masks_ok s → 0 <= sv < MAX_SERVOS → mapped s sv → 0 <= width <= num_samples s →
  (servowidth s !! Z.to_nat sv = Some 0 → width < num_samples s) →
  clock_ok now → length (fsel s) = 6%nat → length modes = 32%nat → Forall (λ m, 0 <= m < 8) modes →
  num_samples s = cycle `quot` step →
  ∃ s1 s', set_servo_until n sv width s = Ok s1 ∧ terminate true true modes cycle step now i s1 = Ok s' ∧
    (∀ k g m, servo2gpio s !! k = Some g → g ≠ DMY → modes !! k = Some m →
      active g s' = (if cycle <? 1000000 then false else active g s1) ∧ gpio_get_mode g s' = Ok m) ∧
    (∀ g, 0 <= g < 54 → g ∉ servo2gpio s → gpio_get_mode g s' = gpio_get_mode g s).
Proof.
  intros HK Hsv Hm Hw Hex Hnow Hf Hlm Hmo HN.
  destruct (set_servo_until_ok n sv width s HK Hsv Hm Hw Hex) as (s1 & E1 & HT1 & F1 & F2 & F3 & F4 & F5 & _).
  exists s1. unfold terminate. destruct (stop_pulses_ok now s1 HT1 Hnow) as (s2 & -> & HT2 & Hq & G1 & G2 & G3 & G4 & G5 & G6). rewrite bind_ok.
  assert (∃ v, run_from i (slept cycle step) s2 = Ok (set_level v s2) ∧ ∀ k g, servo2gpio s2 !! k = Some g → g ≠ DMY →
    active g (set_level v s2) = if cycle <? 1000000 then false else active g s1) as (v & -> & Ha).
  { unfold slept. destruct (Z.ltb_spec (cycle * 1000) 1000000000), (Z.ltb_spec cycle 1000000); try lia.
    - rewrite <- HN, <- F3, <- G3. by apply quiet_cycle.
    - exists (level s2). split; [by destruct s2|]. intros k g _ _. unfold active. cbn. by rewrite G4, G6. }
  rewrite bind_ok. destruct (restore_modes_ok modes (set_level v s2)) as (l & -> & Hl & R1 & R2); try done.
  { destruct HT2 as [T1 T2 T3 T4 T5 T6 T7 T8 T9 T10]. split; try done. intros k Hk Hmk. destruct (T9 k Hk Hmk) as (g & st & w & []). exists g, st, w. by split. }
  { cbn. by rewrite G5, F5. }
  eexists. split; [done|]. split; [done|]. cbn [servo2gpio set_level] in R1, R2. rewrite G1, F1 in R1, R2. split.
  - intros k g m Hg Hd Hmk. split; [|by apply (R1 k)]. apply (Ha k g); [by rewrite G1, F1|done].
  - intros g Hg Hn. rewrite R2 by done. unfold gpio_get_mode. cbn [fsel set_level]. by rewrite G5, F5.
Qed.

(** *** Examples *)

#[local] Opaque Ring.example_daemon.

(** A signal in the middle of a call that widens the pulse of servo 0 from 15
    to 30 samples, during that pulse. *)
Lemma terminate_quiet_witness :
  let s := set_level 16 Ring.example_daemon in
  ∃ s1 s', set_servo_until 7 0 30 s = Ok s1 ∧ terminate true true (replicate 32 4) 2000 20 (mkTime 100 0) 37 s1 = Ok s' ∧
    active 4 s1 = true ∧ active 4 s' = false ∧ gpio_get_mode 4 s' = Ok 4.
Proof.
  intros s. destruct Ring.example_daemon_ok as (HK & H0 & _).
  destruct (terminate_quiet (mkTime 100 0) (replicate 32 4) 2000 20 37 7 0 30 s) as (s1 & s' & E1 & E & H & _).
  - by apply Ring.set_level_ok.
  - unfold MAX_SERVOS. lia.
  - unfold mapped. subst s. cbn [servo2gpio set_level]. rewrite (sv_gpio _ _ _ _ _ H0). done.
  - assert (num_samples s = 100) as -> by (vm_compute; reflexivity). lia.
  - assert (num_samples s = 100) as -> by (vm_compute; reflexivity). lia.
  - split; cbn; lia.
  - vm_compute. reflexivity.
  - reflexivity.
  - by apply Forall_replicate.
  - vm_compute. reflexivity.
  - exists s1, s'. split; [exact E1|]. split; [exact E|]. split.
    + assert (match set_servo_until 7 0 30 s with Ok x => active 4 x = true | Fault _ => False end) as Hx by (vm_compute; reflexivity).
      by rewrite E1 in Hx.
    + apply (H (Z.to_nat 0) 4 4); [subst s; cbn [servo2gpio set_level]; exact (sv_gpio _ _ _ _ _ H0)|done|reflexivity].
Defined.

(** With a cycle of a second, which the options accept, [nanosleep] refuses
    the time and the controller is stopped in the middle of a pulse. *)
Example terminate_does_not_wait :
  let s := set_level 16 Ring.example_daemon in
  ∃ s', terminate true true (replicate 32 0) 1000000 10000 (mkTime 100 0) 37 s = Ok s' ∧ active 4 s' = true.
Proof. eexists. split; [vm_compute; reflexivity|vm_compute; reflexivity]. Qed.

(** A call that switches an output from off to always on while its last pulse
    is still under way, interrupted before it records the width: no sample
    turns the pin off any more. *)
Example terminate_leaves_full_on :
  match (s0 ← set_servo (mkTime 99 0) 0 0 (set_level 16 Ring.example_daemon);
         s1 ← set_servo_until 100 0 100 s0;
         terminate true true (replicate 32 0) 2000 20 (mkTime 100 0) 37 s1) with
  | Ok s' => active 4 s' = true
  | Fault _ => False
  end.
Proof. vm_compute. reflexivity. Qed.

End Stop.
