(* ===== verification/ServodMain.v ===== *)
(** * The start of the servo daemon

    Models main of src/main/components/servoBlaster/servod.c from the options
    of ServodStart.v to the command loop of ServodCmd.v: the modes of the pins
    are saved and set, the masks and the ring of control blocks are built, the
    hardware that paces the DMA controller is set up and the controller
    started.  Its end is in ServodStop.v.  The mappings of memory are taken to
    succeed.  Registers are a map from physical addresses. *)
From S2P Require Import Prelude CubFloat NuttxString ServodPulse ServodRing ServodCmd ServodStart ServodPins ServodStop.

#[local] Open Scope Z_scope.

Module Main.
Import Pulse Cmd Start Pins Stop.
Import Ring (run_sample, run_samples, config_ok, past_ok, pages_ok, phys, ring_of, used_below, used_below_S, init_ctrl_data_ok).

#[local] Abbreviation may A := (res (message + A)%type).
#[local] Notation "x ⇐ y ; z" := (andthen y (λ x, z)) (at level 20, y at level 100, z at level 200).
#[local] Notation "' x ⇐ y ; z" := (andthen y (λ x, z)) (at level 20, x pattern, y at level 100, z at level 200).

(** ** The hardware *)

Definition DMA_BASE : Z := 0x20007000.
Definition DMA_CHAN_SIZE : Z := 0x100.
Definition CLK_BASE : Z := 0x20101000.
Definition DMA_CS : Z := 0x00 / 4.
Definition DMA_CONBLK_AD : Z := 0x04 / 4.
Definition DMA_DEBUG : Z := 0x20 / 4.
Definition DMA_RESET : Z := Z.shiftl 1 31.
Definition DMA_INT : Z := Z.shiftl 1 2.
Definition DMA_END : Z := Z.shiftl 1 1.
Definition PWM_CTL : Z := 0x00 / 4.
Definition PWM_DMAC : Z := 0x08 / 4.
Definition PWM_RNG1 : Z := 0x10 / 4.
Definition PWMCLK_CNTL : Z := 40.
Definition PWMCLK_DIV : Z := 41.
Definition PWMCTL_PWEN1 : Z := Z.shiftl 1 0.
Definition PWMCTL_CLRF : Z := Z.shiftl 1 6.
Definition PWMCTL_USEF1 : Z := Z.shiftl 1 5.
Definition PWMDMAC_ENAB : Z := Z.shiftl 1 31.
Definition PWMDMAC_THRSHLD : Z := Z.lor (Z.shiftl 15 8) (Z.shiftl 15 0).
Definition PCM_CS_A : Z := 0x00 / 4.
Definition PCM_MODE_A : Z := 0x08 / 4.
Definition PCM_TXC_A : Z := 0x10 / 4.
Definition PCM_DREQ_A : Z := 0x14 / 4.
Definition PCMCLK_CNTL : Z := 38.
Definition PCMCLK_DIV : Z := 39.

Definition regs : Type := gmap Z Z.
Definition put (base i v : Z) (r : regs) : regs := <[base + 4 * i := v]> r.
Definition or_in (base i v : Z) (r : regs) : regs := <[base + 4 * i := Z.lor (default 0 (r !! (base + 4 * i))) v]> r.

Definition init_pwm (step : Z) (r : regs) : regs :=
  let r := put PWM_BASE PWM_CTL 0 r in
  let r := put CLK_BASE PWMCLK_CNTL 0x5A000006 r in
  let r := put CLK_BASE PWMCLK_DIV (Z.lor 0x5A000000 (Z.shiftl 500 12)) r in
  let r := put CLK_BASE PWMCLK_CNTL 0x5A000016 r in
  let r := put PWM_BASE PWM_RNG1 step r in
  let r := put PWM_BASE PWM_DMAC (Z.lor PWMDMAC_ENAB PWMDMAC_THRSHLD) r in
  let r := put PWM_BASE PWM_CTL PWMCTL_CLRF r in
  put PWM_BASE PWM_CTL (Z.lor PWMCTL_USEF1 PWMCTL_PWEN1) r.

Definition init_pcm (step : Z) (r : regs) : regs :=
  let r := put PCM_BASE PCM_CS_A 1 r in
  let r := put CLK_BASE PCMCLK_CNTL 0x5A000006 r in
  let r := put CLK_BASE PCMCLK_DIV (Z.lor 0x5A000000 (Z.shiftl 500 12)) r in
  let r := put CLK_BASE PCMCLK_CNTL 0x5A000016 r in
  let r := put PCM_BASE PCM_TXC_A (Z.shiftl 1 30) r in
  let r := put PCM_BASE PCM_MODE_A (Z.shiftl (step - 1) 10) r in
  let r := or_in PCM_BASE PCM_CS_A (Z.lor (Z.shiftl 1 4) (Z.shiftl 1 3)) r in
  let r := put PCM_BASE PCM_DREQ_A (Z.lor (Z.shiftl 64 24) (Z.shiftl 64 8)) r in
  or_in PCM_BASE PCM_CS_A (Z.shiftl 1 9) r.

Definition init_hardware (page_map : list Z) (pcm : bool) (chan step N : Z) (r : regs) : res regs :=
  let dma := DMA_BASE + chan * DMA_CHAN_SIZE in
  let r := if pcm then init_pcm step r else init_pwm step r in
  let r := put dma DMA_CS DMA_RESET r in
  let r := put dma DMA_CS (Z.lor DMA_INT DMA_END) r in
  first ← mem_virt_to_phys page_map (cb_base N);
  let r := put dma DMA_CONBLK_AD first r in
  let r := put dma DMA_DEBUG 7 r in
  let r := put dma DMA_CS 0x10880001 r in
  Ok (if pcm then or_in PCM_BASE PCM_CS_A (Z.shiftl 1 2) r else r).

(** ** Start *)

Definition GPIO_MODE_OUT : Z := 1.

(** The pins become inactive outputs; their modes before that are kept. *)
Definition init_modes (s : SERVOD) : res (SERVOD * list Z) :=
  forM (seqZ 0 MAX_SERVOS) (λ i '(s, gpiomode),
    g ← aget (servo2gpio s) i;
    if g =? DMY then Ok (s, gpiomode)
    else
      m ← gpio_get_mode g s;
      gpiomode ← aset gpiomode i m;
      let s := gpio_set g (invert s) s in
      s ← gpio_set_mode g GPIO_MODE_OUT s;
      Ok (s, gpiomode)) (s, replicate 32 0).

(** What main leaves: the daemon, the modes before, the control blocks, the
    registers, the parameters, the addresses of the pages. *)
Record started := mkStarted {
  the_daemon : DAEMON; gpiomode : list Z; blocks : list dma_cb_t; registers : regs; config : CONFIG; pages : list Z
}.

Section main.
Context (cpuinfo : option (list Z)) (pagemap : list Z) (past : Z → res Z) (fsel0 : list Z) (level0 : Z) (regs0 : regs).

Definition main (opts : list (Z * text)) : may started :=
  a ⇐ take_options opts no_args;
  rev ⇐ board_rev cpuinfo;
  p5 ← (if rev =? 1 then deref (p5pins a) else Ok []);
  match p5 with
  | _ :: _ => fatal NoP5Header
  | [] =>
      '(st, _) ⇐ parse_pin_lists (p1first a) rev (p1pins a) (p5pins a);
      c ⇐ parameters a;
      let N := cfg_num_samples c in
      page_map ⇐ make_pagemap pagemap (num_pages N);
      let s := mkServod (servo2gpio_of st) (replicate 32 0) (replicate 32 0) N (replicate (Z.to_nat N) 0) (replicate 32 0)
        (replicate 32 (mkTime 0 0)) (cfg_idle_timeout c) (arg_invert a) fsel0 level0 in
      '(s, modes) ← init_modes s;
      '(s, cb) ← init_ctrl_data page_map (delay_via_pcm a) past (num_servos st) s;
      r ← init_hardware page_map (delay_via_pcm a) (dma_chan c) (step_time_us (cfg_limits c)) N regs0;
      done (mkStarted (mkDaemon s (cfg_limits c) (p1pin2servo_of st) (p5pin2servo_of st) [] []) modes cb r c page_map)
  end.

End main.

(** ** The start of the daemon *)

(** The pins become outputs and inactive, their modes are kept. *)
Lemma init_modes_ok num s :
  config_ok num s → length (fsel s) = 6%nat →
  ∃ l v modes, init_modes s = Ok (set_level v (set_fsel l s), modes) ∧ length l = 6%nat ∧ length modes = 32%nat ∧ Forall (λ m, 0 <= m < 8) modes ∧
    ∀ k g, servo2gpio s !! k = Some g → g ≠ DMY →
      active g (set_level v (set_fsel l s)) = false ∧ gpio_get_mode g (set_fsel l s) = Ok GPIO_MODE_OUT ∧
      ∃ m, modes !! k = Some m ∧ gpio_get_mode g s = Ok m.
Proof.
  intros [C1 _ _ _ _ _ _ _ Hpin Hinj] Hf. unfold init_modes. change MAX_SERVOS with (Z.of_nat 32).
  match goal with |- context [forM _ ?f _] => set (body := f) end.
  assert (∀ n, (n <= 32)%nat → ∃ l v modes, forM (seqZ 0 (Z.of_nat n)) body (s, replicate 32 0) = Ok (set_level v (set_fsel l s), modes) ∧
    length l = 6%nat ∧ length modes = 32%nat ∧ Forall (λ m, 0 <= m < 8) modes ∧
    (∀ k g, servo2gpio s !! k = Some g → g ≠ DMY → gpio_get_mode g (set_fsel l s) = if (k <? n)%nat then Ok GPIO_MODE_OUT else gpio_get_mode g s) ∧
    ∀ k g, (k < n)%nat → servo2gpio s !! k = Some g → g ≠ DMY →
      active g (set_level v (set_fsel l s)) = false ∧ ∃ m, modes !! k = Some m ∧ gpio_get_mode g s = Ok m) as H.
  { induction n as [|n IH]; intros Hn.
    { exists (fsel s), (level s), (replicate 32 0). split; [by destruct s|]. split; [done|]. split; [done|]. split; [by apply Forall_replicate|].
      split; [by destruct s|lia]. }
    destruct IH as (l & v & modes & E & Hl & Hlm & Hm & Hmode & Hdone); [lia|].
    rewrite seqZ_S, forM_app, E, bind_ok, Z.add_0_l. cbn [forM]. unfold body at 1. cbn [servo2gpio set_fsel set_level].
    destruct (lookup_lt_is_Some_2 (servo2gpio s) n) as [g Hg]; [lia|].
    rewrite (aget_in (servo2gpio s) _ g), bind_ok by (rewrite ?Nat2Z.id; done || lia). destruct (Z.eqb_spec g DMY) as [->|Hd].
    { rewrite bind_ok. exists l, v, modes. split; [done|]. split; [done|]. split; [done|]. split; [done|]. split.
      - intros k g' Hk Hd'. rewrite (Hmode k g' Hk Hd'). destruct (decide (k = n)) as [->|]; [congruence|]. by rewrite ltb_S.
      - intros k g' Hkn Hk Hd'. destruct (decide (k = n)) as [->|]; [congruence|]. apply Hdone; try done. lia. }
    pose proof (Hpin n g Hg Hd) as Hgr. pose proof (Hmode n g Hg Hd) as Hcur. rewrite Nat.ltb_irrefl in Hcur.
    assert (∃ m, gpio_get_mode g s = Ok m ∧ 0 <= m < 8) as (m & Em & Hmr).
    { unfold gpio_get_mode. destruct (lookup_lt_is_Some_2 (fsel s) (Z.to_nat (g `div` 10))) as [r Er]; [dlia|].
      rewrite (aget_in _ _ r), bind_ok by (done || dlia). eexists. split; [done|]. change 7 with (Z.ones 3). rewrite Z.land_ones by lia. by apply Z.mod_pos_bound. }
    assert (gpio_get_mode g (set_level v (set_fsel l s)) = Ok m) as -> by (rewrite <- Em, <- Hcur; done).
    rewrite bind_ok. rewrite aset_in, bind_ok, Nat2Z.id by lia. cbv zeta.
    destruct (gpio_set_mode_ok g GPIO_MODE_OUT (gpio_set g (invert (set_level v (set_fsel l s))) (set_level v (set_fsel l s)))) as (l' & -> & Hl' & Hget);
      [lia|unfold GPIO_MODE_OUT; lia|done|].
    rewrite !bind_ok. set (v' := outputs (invert s) (gpio_bit g) v).
    exists l', v', (<[n := m]> modes). split; [done|]. split; [done|]. split; [by rewrite length_insert|]. split; [by apply Forall_insert|].
    assert (∀ g', 0 <= g' → active g' (set_level v' (set_fsel l' s)) = if decide (g = g') then false else active g' (set_level v (set_fsel l s))) as Hact.
    { intros g' Hg'. unfold active, v', outputs. cbn [invert level set_level set_fsel].
      assert (Z.testbit (if invert s then Z.lor v (gpio_bit g) else Z.land v (Z.lnot (gpio_bit g))) g' = if decide (g = g') then invert s else Z.testbit v g') as ->.
      { destruct (invert s); [rewrite Z.lor_spec|rewrite Z.land_spec, Z.lnot_spec by done]; rewrite testbit_gpio_bit by done; case_decide; subst.
        - by rewrite bool_decide_true, orb_true_r.
        - by rewrite bool_decide_false, orb_false_r.
        - by rewrite bool_decide_true, andb_false_r.
        - by rewrite bool_decide_false, andb_true_r. }
      case_decide; [by destruct (invert s)|done]. }
    split.
    - intros k g' Hk Hd'. rewrite (Hget g' _) by (try done; pose proof (Hpin k g' Hk Hd'); lia). destruct (decide (k = n)) as [->|Hne].
      + assert (g' = g) as -> by congruence. rewrite Z.eqb_refl, (proj2 (Nat.ltb_lt n (S n))) by lia. done.
      + rewrite (proj2 (Z.eqb_neq g' g)) by (intros ->; by apply Hne, (Hinj k n g)). rewrite ltb_S by done. by apply Hmode.
    - intros k g' Hkn Hk Hd'. pose proof (Hpin k g' Hk Hd'). rewrite Hact by lia. destruct (decide (k = n)) as [->|Hne].
      + assert (g' = g) as -> by congruence. rewrite decide_True by done. split; [done|]. exists m. rewrite list_lookup_insert_eq by lia. done.
      + rewrite decide_False by (intros ->; by apply Hne, (Hinj k n g')). rewrite list_lookup_insert_ne by done. apply Hdone; try done. lia. }
  destruct (H 32%nat ltac:(lia)) as (l & v & modes & E & H1 & H2 & H3 & H4 & H5). exists l, v, modes. split; [done|]. split; [done|]. split; [done|].
  split; [done|]. intros k g Hg Hd. pose proof (lookup_lt_Some _ _ _ Hg) as Hk. rewrite C1 in Hk. destruct (H5 k g Hk Hg Hd) as [A1 A2].
  rewrite (H4 k g Hg Hd), (proj2 (Nat.ltb_lt k 32)) by lia. done.
Qed.

(** *** Pages *)

Definition page_addr (pfn : Z) : Z := Z.lor (u32 (Z.shiftl (u32 pfn) 12)) 0x40000000.
Definition present (pfn : Z) : Prop := Z.land (Z.shiftr pfn 55) 0x1bf = 0x10c.

Lemma make_pagemap_ok pagemap n :
  0 <= n <= Z.of_nat (length pagemap) → Forall present (take (Z.to_nat n) pagemap) →
  make_pagemap pagemap n = done (page_addr <$> take (Z.to_nat n) pagemap).
Proof.
  intros Hn Hp. unfold make_pagemap. match goal with |- foldr ?f _ _ = _ => set (body := f) end.
  assert (∀ m k, (k + m = Z.to_nat n)%nat → foldr body (done []) (seqZ (Z.of_nat k) (Z.of_nat m)) = done (page_addr <$> take m (drop k pagemap))) as H.
  { induction m as [|m IH]; intros k Hk; [done|]. rewrite seqZ_cons by lia. replace (Z.succ (Z.of_nat k)) with (Z.of_nat (S k)) by lia.
    replace (Z.pred (Z.of_nat (S m))) with (Z.of_nat m) by lia. cbn [foldr]. rewrite IH by lia. unfold body at 1. rewrite Nat2Z.id.
    destruct (lookup_lt_is_Some_2 pagemap k) as [pfn Ep]; [lia|]. rewrite Ep, (drop_S pagemap pfn k) by done. cbn [take fmap list_fmap].
    assert (present pfn) as Hpf. { apply (proj1 (Forall_lookup _ _) Hp k). rewrite lookup_take_lt by lia. done. }
    unfold present in Hpf. rewrite Hpf. done. }
  specialize (H (Z.to_nat n) 0%nat ltac:(lia)). rewrite Z2Nat.id in H by lia. by rewrite drop_0 in H.
Qed.

Lemma page_addr_ok pfn : page_addr pfn `mod` PAGE_SIZE = 0 ∧ 0 <= page_addr pfn ∧ page_addr pfn + PAGE_SIZE <= 4294967296.
Proof.
  unfold page_addr, PAGE_SIZE. assert (u32 (Z.shiftl (u32 pfn) 12) = Z.shiftl (pfn `mod` 2 ^ 20) 12) as ->.
  { unfold u32. rewrite !Z.shiftl_mul_pow2 by lia. change 4294967296 with (2 ^ 20 * 2 ^ 12) at 2.
    rewrite Z.mul_mod_distr_r by lia. f_equal. apply Z.mod_mod_divide. by exists (2 ^ 12). }
  change 0x40000000 with (Z.shiftl (2 ^ 18) 12). rewrite <- Z.shiftl_lor. set (x := Z.lor _ _).
  assert (0 <= x < 2 ^ 20) as Hx.
  { assert (0 <= x) as H0. { apply Z.lor_nonneg. split; [apply Z.mod_pos_bound|]; lia. } split; [done|].
    destruct (Z.eq_dec x 0) as [->|]; [lia|]. apply Z.log2_lt_pow2; [lia|]. unfold x. rewrite Z.log2_lor by (try apply Z.mod_pos_bound; lia).
    apply Z.max_lub_lt; [|done]. pose proof (Z.mod_pos_bound pfn (2 ^ 20) ltac:(lia)) as Hm.
    destruct (Z.eq_dec (pfn `mod` 2 ^ 20) 0) as [->|]; [done|]. apply Z.log2_lt_pow2; lia. }
  clearbody x. rewrite Z.shiftl_mul_pow2 by lia. change (2 ^ 12) with 4096. rewrite Z.mod_mul by lia. lia.
Qed.

(** *** Pins *)

Lemma gpio_on_lookup h rev pin : usable h rev pin → gpio_on h rev pin ≠ DMY → pin_map h rev !! Z.to_nat (pin - 1) = Some (gpio_on h rev pin) ∧ 1 <= pin.
Proof.
  unfold usable, gpio_on. destruct (Z.eqb_spec pin 0) as [->|Hne]; [done|]. intros [?|[Hp _]] _; [done|].
  destruct (lookup_lt_is_Some_2 (pin_map h rev) (Z.to_nat (pin - 1))) as [g Hg]; [lia|]. split; [|lia]. by rewrite (list_lookup_total_correct _ _ g).
Qed.

(** An output is on one pin only. *)
Lemma gpio_on_inj h h' rev pin pin' :
  rev = 1 ∨ rev = 2 → usable h rev pin → usable h' rev pin' → gpio_on h rev pin = gpio_on h' rev pin' → gpio_on h rev pin ≠ DMY → h = h' ∧ pin = pin'.
Proof.
  intros Hr U U' E Hd. destruct (gpio_on_lookup h rev pin U Hd) as [L P]. destruct (gpio_on_lookup h' rev pin' U' ltac:(congruence)) as [L' P'].
  pose proof (gpio2pinname_pin rev h _ _ Hr L Hd) as N1. pose proof (gpio2pinname_pin rev h' _ _ Hr L' ltac:(congruence)) as N2.
  rewrite <- E, N1 in N2. injection N2 as -> N2. split; [done|lia].
Qed.

Section lists.
Context (rev : Z) (l1 l5 : list Z) (st : PINS).
Hypothesis (Hrev : rev = 1 ∨ rev = 2) (U1 : Forall (usable P1 rev) l1) (U5 : Forall (usable P5 rev) l5) (D1 : distinct l1) (D5 : distinct l5).
Hypothesis (Hlen : (length l1 + length l5 <= 31)%nat) (Hsome : ∃ pin, pin ∈ l1 ++ l5 ∧ pin ≠ 0).
Hypothesis (Hsound : pins_sound rev (Z.of_nat (length l1 + length l5)) st).
Hypothesis (Hgpio : servo2gpio_of st = (gpio_on P1 rev <$> l1) ++ (gpio_on P5 rev <$> l5) ++ replicate (32 - (length l1 + length l5)) DMY).

Lemma servo_pin k g :
  servo2gpio_of st !! k = Some g → g ≠ DMY →
  ∃ h pin, usable h rev pin ∧ gpio_on h rev pin = g ∧ pin ≠ 0 ∧ match h with P1 => l1 !! k = Some pin | P5 => (length l1 <= k)%nat ∧ l5 !! (k - length l1)%nat = Some pin end.
Proof.
  rewrite Hgpio. intros Hk Hd.
  assert (∀ h pin, gpio_on h rev pin = g → pin ≠ 0) as H0 by (intros h pin <- ->; done).
  apply lookup_app_Some in Hk as [Hk|[H1 Hk]].
  - apply list_lookup_fmap_Some in Hk as (pin & -> & Hp). exists P1, pin. split; [exact (proj1 (Forall_lookup _ _) U1 _ _ Hp)|]. split; [done|]. split; [|done]. by eapply (H0 P1).
  - rewrite length_fmap in *. apply lookup_app_Some in Hk as [Hk|[H5 Hk]]; [|by apply lookup_replicate in Hk as [-> _]].
    apply list_lookup_fmap_Some in Hk as (pin & -> & Hp). exists P5, pin. split; [exact (proj1 (Forall_lookup _ _) U5 _ _ Hp)|]. split; [done|]. split; [|done]. by eapply (H0 P5).
Qed.

Lemma lists_config s :
  servo2gpio s = servo2gpio_of st → length (servostart s) = 32%nat → length (servowidth s) = 32%nat → length (servo_kill_time s) = 32%nat →
  0 <= idle_timeout s <= 3600000 → 100 <= num_samples s → config_ok (num_servos st) s.
Proof.
  intros Es C2 C3 C4 C5 C8. pose proof Hsound as [S1 _ _ _ S5 _ _ S8].
  assert (used_below (servo2gpio_of st) 32 <= 31)%nat as Hle.
  { rewrite used_below_S, decide_False by (rewrite (S5 31%nat) by lia; naive_solver). unfold used_below. rewrite Nat.add_0_r.
    etrans; [apply length_filter|]. by rewrite length_seq. }
  assert (1 <= used_below (servo2gpio_of st) 32)%nat as Hge.
  { assert (∃ k g, servo2gpio_of st !! k = Some g ∧ g ≠ DMY) as (k & g & Hk & Hd).
    { destruct Hsome as (pin & Hin & H0). apply elem_of_app in Hin as [Hin|Hin]; apply list_elem_of_lookup in Hin as [k Hk].
      - exists k, (gpio_on P1 rev pin). rewrite Hgpio. split; [apply lookup_app_l_Some; rewrite list_lookup_fmap, Hk; done|].
        by destruct (proj1 (Forall_lookup _ _) U1 _ _ Hk) as [?|[_ ?]].
      - exists (length l1 + k)%nat, (gpio_on P5 rev pin). rewrite Hgpio. split.
        + rewrite lookup_app_r by (rewrite length_fmap; lia). rewrite length_fmap. replace (length l1 + k - length l1)%nat with k by lia.
          apply lookup_app_l_Some. by rewrite list_lookup_fmap, Hk.
        + by destruct (proj1 (Forall_lookup _ _) U5 _ _ Hk) as [?|[_ ?]]. }
    pose proof (lookup_lt_Some _ _ _ Hk). pose proof (Ring.used_below_lt (servo2gpio_of st) k 32 ltac:(lia) ltac:(rewrite Hk; naive_solver)). lia. }
  split; rewrite ?Es; try done; try lia.
  - intros k g Hk Hd. destruct (servo_pin k g Hk Hd) as (h & pin & U & <- & _ & _). destruct (gpio_on_lookup h rev pin U Hd) as [L _].
    assert (Forall (λ g, g = DMY ∨ 0 <= g < 32) (pin_map h rev)) as HF.
    { destruct h; cbn [pin_map]; destruct (rev =? 1); apply (bool_decide_unpack _); vm_compute; exact I. }
    by destruct (proj1 (Forall_lookup _ _) HF _ _ L).
  - intros j k g Hj Hk Hd. destruct (servo_pin j g Hj Hd) as (h & pin & U & Eg & H0 & Lj). destruct (servo_pin k g Hk Hd) as (h' & pin' & U' & Eg' & _ & Lk).
    destruct (gpio_on_inj h h' rev pin pin' Hrev U U' ltac:(congruence) ltac:(congruence)) as [-> ->].
    destruct h'; [by apply (D1 j k pin')|]. destruct Lj as [? Lj], Lk as [? Lk]. pose proof (D5 _ _ pin' Lj Lk H0). lia.
Qed.

End lists.

(** What [init_ctrl_data] leaves alone. *)
Lemma forM_keeps {A S T} (f : S → T) (l : list A) (body : A → S → res S) s s' :
  (∀ a x y, body a x = Ok y → f y = f x) → forM l body s = Ok s' → f s' = f s.
Proof.
  intros Hb. revert s. induction l as [|a l IH]; intros s; cbn [forM]; [by intros [= <-]|].
  destruct (body a s) as [x|] eqn:E; [|done]. cbn. intros H. by rewrite (IH _ H), (Hb _ _ _ E).
Qed.

Definition untouched (s : SERVOD) : list timeval * Z * bool * list Z * Z := (servo_kill_time s, idle_timeout s, invert s, fsel s, level s).

Lemma init_ctrl_data_frame page_map pcm past num s s' cb :
  init_ctrl_data page_map pcm past num s = Ok (s', cb) → untouched s' = untouched s.
Proof.
  unfold init_ctrl_data. cbv zeta. destruct (init_widths _) as [[s1 m]|] eqn:E1; [|done]. rewrite bind_ok.
  destruct (init_starts _ _) as [[s2 c]|] eqn:E2; [|done]. rewrite bind_ok. destruct (skip_unmapped 32 s2 0); [|done]. rewrite bind_ok.
  destruct (forM _ _ _) as [[[cb0 cbp] sv]|]; [|done]. rewrite bind_ok. destruct (mem_virt_to_phys _ _); [|done]. rewrite bind_ok.
  destruct (aget cb0 _); [|done]. rewrite bind_ok. destruct (aset cb0 _ _); [|done]. rewrite bind_ok. intros [= <- _].
  apply (forM_keeps (untouched ∘ fst)) in E1.
  2: { intros i [x k] [y k'] H. cbn in *. destruct (aset _ i 0); [|done]. cbn in H. destruct (aget _ i); [|done]. cbn in H. by injection H as <- _. }
  apply (forM_keeps (untouched ∘ fst)) in E2.
  2: { intros i [x k] [y k'] H. cbn in *. destruct (aget _ i); [|done]. cbn in H. destruct (_ =? DMY); [by injection H as <- _|].
       destruct (aset _ i k); [|done]. cbn in H. destruct (num =? 0); [done|]. by injection H as <- _. }
  cbn in E1, E2. rewrite E2. exact E1.
Qed.

Lemma board_rev_12 cpuinfo rev : board_rev cpuinfo = done rev → rev = 1 ∨ rev = 2.
Proof.
  destruct cpuinfo as [l|]; [|done]. cbn. destruct (find_revision _ _) as [[buf|]|]; try done. rewrite bind_ok.
  destruct (strtol 16 _) as [v rest]. repeat case_match; try done; intros [= <-]; auto.
Qed.

(** Where the registers of the DMA channel stand in the end. *)
Lemma init_hardware_ok page_map pcm chan step N r :
  pages_ok page_map → Z.of_nat (length page_map) = num_pages N → 0 < N → 0 <= chan <= 14 →
  ∃ r', init_hardware page_map pcm chan step N r = Ok r' ∧
    r' !! (DMA_BASE + chan * DMA_CHAN_SIZE + 4 * DMA_CONBLK_AD) = Some (phys page_map (cb_addr N 0)) ∧
    r' !! (DMA_BASE + chan * DMA_CHAN_SIZE + 4 * DMA_CS) = Some 0x10880001.
Proof.
  intros Hp Hl HN Hc. unfold init_hardware. cbv zeta.
  assert (cb_base N = cb_addr N 0) as -> by (unfold cb_addr; lia).
  rewrite Ring.mem_virt_to_phys_ok; [|done|].
  2: { rewrite Hl. apply Ring.layout; [lia|]. unfold num_cbs, MAX_SERVOS. lia. }
  rewrite bind_ok. eexists. split; [done|]. generalize (if pcm then init_pcm step r else init_pwm step r). intros r0.
  set (dma := DMA_BASE + chan * DMA_CHAN_SIZE). assert (DMA_BASE <= dma <= DMA_BASE + 14 * DMA_CHAN_SIZE) as Hd by (unfold dma, DMA_BASE, DMA_CHAN_SIZE; lia).
  assert (∀ v i (x : regs), i = 0 ∨ i = 1 → or_in PCM_BASE PCM_CS_A v x !! (dma + 4 * i) = x !! (dma + 4 * i)) as Hor.
  { intros v i x Hi. unfold or_in. apply lookup_insert_ne. change PCM_CS_A with 0. unfold DMA_BASE, DMA_CHAN_SIZE, PCM_BASE in *. lia. }
  assert (∀ v i j (x : regs), i ≠ j → put dma i v x !! (dma + 4 * j) = x !! (dma + 4 * j)) as Hne.
  { intros v i j x Hi. apply lookup_insert_ne. lia. }
  assert (∀ v i (x : regs), put dma i v x !! (dma + 4 * i) = Some v) as Heq by (intros; apply lookup_insert_eq).
  assert (DMA_CS ≠ DMA_CONBLK_AD ∧ DMA_DEBUG ≠ DMA_CONBLK_AD) as [N1 N2] by done.
  destruct pcm; rewrite ?Hor by (by (left + right)); rewrite Heq, !Hne, Heq by done; done.
Qed.

(** C17: the daemon starts: with lists of usable, different pins, the list of
    P1 first (at most 31 entries, at least one pin), parameters that pass the
    checks and locked pages at different addresses, main gets to the command
    loop, but for one thing: it reads the array of starts past its end, in
    every run.  When that read is a fault, so is main; when it gives a word
    that is not the number of a sample, nothing else is undefined.  In the
    command loop the state is the one that the loop keeps, every servo pin is
    an output and inactive, the ring of control blocks is complete and the DMA
    controller is started at its first block. *)
Theorem servod_starts cpuinfo pagemap past fsel0 level0 regs0 opts a rev l1 l5 c now :
  take_options opts no_args = done a → board_rev cpuinfo = done rev →
  p1first a = true → p1pins a = Some (join l1) → p5pins a = Some (join l5) → (rev = 1 → l5 = []) →
  Forall (usable P1 rev) l1 → Forall (usable P5 rev) l5 → distinct l1 → distinct l5 →
  (length l1 + length l5 <= 31)%nat → (∃ pin, pin ∈ l1 ++ l5 ∧ pin ≠ 0) →
  parameters a = done c →
  num_pages (cfg_num_samples c) <= Z.of_nat (length pagemap) →
  Forall present (take (Z.to_nat (num_pages (cfg_num_samples c))) pagemap) →
  NoDup (page_addr <$> take (Z.to_nat (num_pages (cfg_num_samples c))) pagemap) →
  length fsel0 = 6%nat → clock_ok now →
  (∀ f, past MAX_SERVOS = Fault f → main cpuinfo pagemap past fsel0 level0 regs0 opts = Fault f) ∧
  (past_ok past (cfg_num_samples c) →
    ∃ st, main cpuinfo pagemap past fsel0 level0 regs0 opts = done st ∧
      daemon_ok now (the_daemon st) ∧ line (the_daemon st) = [] ∧
      (∀ k g, servo2gpio (sd (the_daemon st)) !! k = Some g → g ≠ DMY →
        active g (sd (the_daemon st)) = false ∧ gpio_get_mode g (sd (the_daemon st)) = Ok GPIO_MODE_OUT) ∧
      ring_of (pages st) (delay_via_pcm a) (sd (the_daemon st)) (blocks st) ∧
      registers st !! (DMA_BASE + dma_chan c * DMA_CHAN_SIZE + 4 * DMA_CONBLK_AD) = Some (phys (pages st) (cb_addr (cfg_num_samples c) 0)) ∧
      registers st !! (DMA_BASE + dma_chan c * DMA_CHAN_SIZE + 4 * DMA_CS) = Some 0x10880001).
Proof.
  intros Ea Er Ef E1 E5 Hrev U1 U5 D1 D5 Hlen Hsome Ec Hpl Hpp Hpn Hfs Hnow.
  pose proof (board_rev_12 _ _ Er) as Hr. pose proof (parameters_ok a c Ec) as [K1 K2 K3 K4 K5 K6 K7].
  destruct (assign_pins rev l1 l5 Hr U1 U5 ltac:(lia) D1 D5) as (st & names & Ep & _ & HS & Hg & _ & _).
  set (N := cfg_num_samples c) in *.
  assert (0 <= num_pages N) as Hnp0 by (unfold num_pages; apply Z.shiftr_nonneg; unfold num_cbs, MAX_SERVOS, PAGE_SIZE; lia).
  set (page_map := page_addr <$> take (Z.to_nat (num_pages N)) pagemap) in *.
  assert (pages_ok page_map) as Hpo.
  { split; [done|]. intros x Hx. apply list_elem_of_fmap in Hx as (pfn & -> & _). apply page_addr_ok. }
  assert (Z.of_nat (length page_map) = num_pages N) as Hpm by (unfold page_map; rewrite length_fmap, length_take; lia).
  unfold main. rewrite Ea. cbn [andthen done]. rewrite Er. cbn [andthen done].
  assert ((if rev =? 1 then deref (p5pins a) else Ok []) = Ok []) as ->.
  { destruct (Z.eqb_spec rev 1) as [H1|]; [|done]. rewrite E5, (Hrev H1). done. }
  rewrite bind_ok, Ef, E1, E5, Ep. cbn [andthen done]. rewrite Ec. cbn [andthen done]. fold N.
  rewrite make_pagemap_ok by (done || lia). cbn [andthen done]. fold page_map. set (s0 := mkServod _ _ _ _ _ _ _ _ _ _ _).
  assert (config_ok (num_servos st) s0) as Hc0.
  { eapply (lists_config rev l1 l5); try done; cbn; lia. }
  destruct (init_modes_ok (num_servos st) s0 Hc0 Hfs) as (l & v & modes & -> & Hl & _ & _ & Hmodes). rewrite bind_ok.
  set (s1 := set_level v (set_fsel l s0)) in *.
  assert (config_ok (num_servos st) s1) as Hc1 by (destruct Hc0; by split).
  split; [intros f Hf; by rewrite (Ring.init_ctrl_data_reads_past page_map _ past (num_servos st) s1 f Hc1 Hpo Hpm Hf)|]. intros Hpast.
  destruct (init_ctrl_data_ok page_map (delay_via_pcm a) past (num_servos st) s1 Hc1 Hpo Hpm Hpast) as (s2 & cb & Ed & HK & _ & Hg2 & HN2 & Hring & _).
  pose proof (init_ctrl_data_frame _ _ _ _ _ _ _ Ed) as HF. injection HF as F1 F2 F3 F4 F5. rewrite Ed, bind_ok.
  destruct (init_hardware_ok page_map (delay_via_pcm a) (dma_chan c) (step_time_us (cfg_limits c)) N regs0 Hpo Hpm ltac:(lia) K1) as (r & -> & R1 & R2).
  rewrite bind_ok. eexists. split; [done|]. cbn [the_daemon sd line pages blocks registers].
  assert (∀ h n, (n < length (pin_table h st))%nat → pins_ok s2 n (pin_table h st)) as Hpins.
  { intros h n Hn pin Hp. destruct (lookup_lt_is_Some_2 (pin_table h st) pin) as [sv Hsv]; [lia|]. exists sv. split; [done|].
    destruct (decide (sv = DMY)) as [->|Hd]; [by left|right]. destruct (ps_table _ _ _ HS h pin sv Hsv Hd) as (_ & T2 & T3 & T4).
    pose proof (ps_servo _ _ _ HS). split; [lia|]. unfold mapped. rewrite Hg2. cbn [servo2gpio s1 set_level set_fsel s0]. by rewrite T3. }
  split; [split|split; [done|split; [|split; [done|by split]]]]; cbn [sd limits p1pin2servo p5pin2servo]; try done.
  - rewrite HN2. exact K3.
  - apply (Hpins P1 26%nat). cbn. rewrite (ps_p1 _ _ _ HS). lia.
  - apply (Hpins P5 8%nat). cbn. rewrite (ps_p5 _ _ _ HS). lia.
  - intros i t Ht. rewrite F1 in Ht. cbn in Ht. apply (lookup_replicate_1 32) in Ht as [-> _]. rewrite F2. cbn.
    unfold clock_ok, time_ok, usecs in *. cbn. destruct K2; lia.
  - intros k g Hk Hd. rewrite Hg2 in Hk. destruct (Hmodes k g Hk Hd) as (A1 & A2 & _).
    unfold active in *. rewrite F3, F5. split; [exact A1|]. unfold gpio_get_mode in *. rewrite F4. exact A2.
Qed.

(** *** Examples *)

#[local] Opaque Ring.example_daemon.

Definition example_cpuinfo : option (list Z) := Some (Str.bytes "Hardware : BCM2708" ++ [10] ++ Str.bytes "Revision : 000e" ++ [10]).
Definition example_pagemap : list Z := [Z.shiftl 0x10c 55 + 0x1234; Z.shiftl 0x10c 55 + 0x77].
Definition example_options : list (Z * text) :=
  [(99, Some (Str.bytes "2000us")); (115, Some (Str.bytes "20")); (120, Some (Str.bytes "80%")); (105, None); (49, Some (Str.bytes "7,11"))].

Lemma servod_starts_witness :
  ∃ st, main example_cpuinfo example_pagemap Ring.no_sample (replicate 6 0) 0 ∅ example_options = done st ∧
    daemon_ok (mkTime 100 0) (the_daemon st) ∧ take 3 (servo2gpio (sd (the_daemon st))) = [4; 17; DMY] ∧ limits (the_daemon st) = mkLimits 25 80 20.
Proof.
  assert (∃ a, take_options example_options no_args = done a ∧ p1first a = true ∧ p1pins a = Some (join [7; 11]) ∧ p5pins a = Some (join []) ∧
    parameters a = done (mkConfig 14 0 2000 (mkLimits 25 80 20) 100)) as (a & Ea & Ef & E1 & E5 & Ec).
  { eexists. split; [vm_compute; reflexivity|]. split; [reflexivity|]. split; [vm_compute; reflexivity|]. split; [reflexivity|vm_compute; reflexivity]. }
  destruct (servod_starts example_cpuinfo example_pagemap Ring.no_sample (replicate 6 0) 0 ∅ example_options a 2 [7; 11] []
    (mkConfig 14 0 2000 (mkLimits 25 80 20) 100) (mkTime 100 0)) as [_ Hst].
  - exact Ea.
  - vm_compute. reflexivity.
  - exact Ef.
  - exact E1.
  - exact E5.
  - reflexivity.
  - repeat (apply Forall_cons; split); [right; split; [cbn; lia|done]..|constructor].
  - constructor.
  - intros [|[|i]] [|[|j]] pin Hi Hj H0; cbn in Hi, Hj; try done; congruence.
  - intros i j pin Hi. done.
  - cbn. lia.
  - exists 7. split; [left|done].
  - exact Ec.
  - vm_compute. intros [=].
  - apply (bool_decide_unpack _). vm_compute. exact I.
  - apply (bool_decide_unpack _). vm_compute. exact I.
  - reflexivity.
  - split; cbn; lia.
  - destruct (Hst (Ring.no_sample_ok _)) as (st & E & HD & _). exists st. split; [exact E|]. split; [exact HD|].
    assert (match main example_cpuinfo example_pagemap Ring.no_sample (replicate 6 0) 0 ∅ example_options with
      | Ok (inr st) => take 3 (servo2gpio (sd (the_daemon st))) = [4; 17; DMY] ∧ limits (the_daemon st) = mkLimits 25 80 20
      | _ => False end) as H by (vm_compute; split; reflexivity).
    rewrite E in H. exact H.
Defined.

End Main.
