(* ===== verification/AdaRuntime.v ===== *)
(** * C code under the Ada controller

    Models the functions with logic of their own in
    firmware/ADA/ravenscar/main.c (the checked multiplication of the runtime
    and the number of the current interrupt) and firmware/ADA/controller/src_c
    (the servos, and the numbers of the serial protocol).  The functions of
    the ROM of the processor that the servo code calls are parameters. *)
From S2P Require Import Prelude FunkKernel NuttxUpper NuttxServo.

#[local] Open Scope Z_scope.

Module Ada.
Import Hw Upper.

Definition u64 (z : Z) : Z := z `mod` 2 ^ 64.
Definition s64 (z : Z) : Z := (z + 2 ^ 63) `mod` 2 ^ 64 - 2 ^ 63.

(** ** The checked multiplication *)

(** The product, or the call of the last chance handler, which does not
    return. *)
Inductive checked : Type := Product (z : Z) | LastChance.

Definition __gnat_mulv64 (x y : Z) : checked :=
  let neg := if xorb (0 <=? x) (0 <=? y) then 1 else 0 in
  let xa := if 0 <=? x then u64 x else u64 (- u64 x) in
  let ya := if 0 <=? y then u64 y else u64 (- u64 y) in
  let xhi := u32 (Z.shiftr xa 32) in
  let yhi := u32 (Z.shiftr ya 32) in
  let xlo := u32 xa in
  let ylo := u32 ya in
  let mid := if negb (xhi =? 0) then u64 (xhi * ylo) else u64 (yhi * xlo) in
  let low := u64 (xlo * ylo) in
  if negb (xhi =? 0) && negb (yhi =? 0) || (u32 (0x7fffffff + neg) <? u64 (mid + Z.shiftr low 32)) then LastChance
  else
    let low := u64 (low + u64 (Z.shiftl (u32 mid) 32)) in
    Product (s64 (if negb (neg =? 0) then u64 (- low) else low)).

(** ** Interrupts, numbers *)

Definition get_current_interrupt (ipsr : Z) : Z := Z.land ipsr 0x1ff.
Definition combine (lo hi : Z) : Z := s16 (Z.lor lo (Z.shiftl (s16 hi) 8)).

(** ** Servos *)

Section servo.
Context (ROM_TimerPrescaleMatchSet ROM_TimerMatchSet : Z → Z → Z → HW → HW) (ROM_TimerEnable : Z → Z → HW → HW).

Definition int_ok (z : Z) : res Z := if (-2147483648 <=? z) && (z <=? 2147483647) then Ok z else Fault Overflow.

Definition servo_setpos (clk id pos : Z) (h : HW) : res (HW * bool) :=
  if Servo.SERVO_MAX_COUNT <=? id then Ok (h, false)
  else
    v ← int_ok ((Servo.SERVO_MAX_PULSE - Servo.SERVO_MIN_PULSE) `quot` 180 * pos);
    v ← int_ok (Servo.SERVO_MIN_PULSE + v);
    let value := u32 v in
    let value := if value <=? Servo.SERVO_MAX_PULSE then value else Servo.SERVO_MAX_PULSE in
    let value := if Servo.SERVO_MIN_PULSE <=? value then value else Servo.SERVO_MIN_PULSE in
    let period2 := u32 (clk `div` 50 * value) `div` Servo.SERVO_PERIOD in
    let extender2 := u8 (Z.shiftr period2 16) in
    let period2 := Z.land period2 0xFFFF in
    t ← aget Servo.g_servo_timers id;
    let h := ROM_TimerPrescaleMatchSet t TIMER_A extender2 h in
    let h := ROM_TimerMatchSet t TIMER_A period2 h in
    let h := ROM_TimerEnable t TIMER_A h in
    Ok (h, true).

End servo.

(** ** Theorems *)

Definition int64 (z : Z) : Prop := - 2 ^ 63 <= z < 2 ^ 63.

Lemma magnitude x : int64 x → (if 0 <=? x then u64 x else u64 (- u64 x)) = Z.abs x.
Proof.
  unfold int64, u64. intros Hx. destruct (Z.leb_spec 0 x); [rewrite Z.mod_small; lia|].
  rewrite <- Z.sub_0_l, Zminus_mod_idemp_r, Z.mod_small; lia.
Qed.

Lemma halves a : 0 <= a <= 2 ^ 63 → a = u32 (Z.shiftr a 32) * 2 ^ 32 + u32 a ∧ 0 <= u32 (Z.shiftr a 32) <= 2 ^ 31 ∧ 0 <= u32 a < 2 ^ 32.
Proof.
  intros Ha. rewrite Z.shiftr_div_pow2 by lia. assert (0 <= a `div` 2 ^ 32 <= 2 ^ 31) as Hh.
  { split; [apply Z.div_pos; lia|]. change (2 ^ 31) with (2 ^ 63 `div` 2 ^ 32). apply Z.div_le_mono; lia. }
  rewrite (u32_small (a `div` 2 ^ 32)) by lia. unfold u32. change 4294967296 with (2 ^ 32).
  pose proof (Z.div_mod a (2 ^ 32)). pose proof (Z.mod_pos_bound a (2 ^ 32)). lia.
Qed.

(** The part after the magnitudes have been split: [m] is the product in the
    middle, [w] the low one. *)
Lemma mulv64_core m w P (neg : bool) :
  0 <= m <= 2 ^ 63 → 0 <= w < 2 ^ 64 → P = m * 2 ^ 32 + w →
  (if u32 (0x7fffffff + if neg then 1 else 0) <? u64 (u64 m + Z.shiftr (u64 w) 32) then LastChance
   else Product (s64 (if negb ((if neg then 1 else 0) =? 0) then u64 (- u64 (u64 w + u64 (Z.shiftl (u32 (u64 m)) 32))) else u64 (u64 w + u64 (Z.shiftl (u32 (u64 m)) 32))))) =
  if P <? (if neg then 2 ^ 63 + 2 ^ 32 else 2 ^ 63) then Product (s64 (if neg then - P else P)) else LastChance.
Proof.
  intros Hm Hw ->. unfold u64. rewrite (Z.mod_small m), (Z.mod_small w) by lia. rewrite Z.shiftr_div_pow2 by lia.
  pose proof (Z.div_mod w (2 ^ 32) ltac:(lia)) as Dw. pose proof (Z.mod_pos_bound w (2 ^ 32) ltac:(lia)) as Bw.
  assert (0 <= w `div` 2 ^ 32 < 2 ^ 32) as Hh by (split; [apply Z.div_pos; lia|apply Z.div_lt_upper_bound; lia]).
  rewrite (Z.mod_small (m + _)), (u32_small (_ + _)) by (destruct neg; lia).
  destruct (Z.ltb_spec (0x7fffffff + if neg then 1 else 0) (m + w `div` 2 ^ 32)); [rewrite (proj2 (Z.ltb_ge _ _)); [done|destruct neg; lia]|].
  rewrite (proj2 (Z.ltb_lt _ _)) by (destruct neg; lia).
  rewrite (u32_small m) by (destruct neg; lia). rewrite Z.shiftl_mul_pow2 by lia.
  rewrite (Z.mod_small (m * 2 ^ 32)), (Z.mod_small (w + _)) by (destruct neg; lia). rewrite (Z.add_comm w). f_equal.
  destruct neg; [|done]. unfold s64. cbn [Z.eqb negb]. by rewrite Zplus_mod_idemp_l.
Qed.

(** The multiplication in terms of the product of the magnitudes: it is
    compared with a bound that is a multiple of 2^32, less one. *)
Lemma mulv64_magnitude x y :
  int64 x → int64 y →
  let P := Z.abs x * Z.abs y in
  let neg := xorb (0 <=? x) (0 <=? y) in
  __gnat_mulv64 x y = if P <? (if neg then 2 ^ 63 + 2 ^ 32 else 2 ^ 63) then Product (s64 (if neg then - P else P)) else LastChance.
Proof.
  intros Hx Hy P neg. unfold __gnat_mulv64. fold neg. rewrite !magnitude by done. unfold int64 in *.
  destruct (halves (Z.abs x)) as (Ex & Hxh & Hxl); [lia|]. destruct (halves (Z.abs y)) as (Ey & Hyh & Hyl); [lia|].
  set (xh := u32 (Z.shiftr (Z.abs x) 32)) in *. set (xl := u32 (Z.abs x)) in *.
  set (yh := u32 (Z.shiftr (Z.abs y) 32)) in *. set (yl := u32 (Z.abs y)) in *. clearbody xh xl yh yl.
  assert (P = xh * yh * 2 ^ 64 + (xh * yl + yh * xl) * 2 ^ 32 + xl * yl) as EP by (unfold P; rewrite Ex, Ey; ring).
  destruct (Z.eqb_spec xh 0) as [->|Hx0], (Z.eqb_spec yh 0) as [->|Hy0]; cbn [negb andb orb].
  4: { rewrite (proj2 (Z.ltb_ge P _)); [done|]. destruct neg; nia. }
  all: apply mulv64_core; [nia|nia|rewrite EP; ring].
Qed.

Lemma s64_small z : int64 z → s64 z = z.
Proof. unfold int64, s64. intros H. rewrite Z.mod_small; lia. Qed.

(** C40: the checked multiplication of 64-bit integers: it gives the product
    whenever that has 64 bits, and calls the last chance handler whenever it
    has not, except for the products from -2^63 - 2^32 + 1 to -2^63 - 1: there
    the check misses the overflow and the answer is the positive number that
    is 2^64 larger. *)
Theorem gnat_mulv64_checked x y :
  int64 x → int64 y →
  __gnat_mulv64 x y =
    if bool_decide (int64 (x * y)) then Product (x * y)
    else if (- 2 ^ 63 - 2 ^ 32 <? x * y) && (x * y <? - 2 ^ 63) then Product (x * y + 2 ^ 64)
    else LastChance.
Proof.
  intros Hx Hy. rewrite mulv64_magnitude by done. cbv zeta. set (P := Z.abs x * Z.abs y).
  assert ((if xorb (0 <=? x) (0 <=? y) then - P else P) = x * y) as EP.
  { unfold P. rewrite <- Z.abs_mul. destruct (Z.leb_spec 0 x), (Z.leb_spec 0 y); cbn [xorb]; nia. }
  rewrite EP. assert (0 <= P) as HP by (unfold P; nia). clearbody P. destruct (xorb _ _).
  - destruct (Z.ltb_spec P (2 ^ 63 + 2 ^ 32)) as [Hlt|Hge].
    + case_bool_decide as Hi; [by rewrite s64_small|]. unfold int64 in Hi.
      rewrite (proj2 (Z.ltb_lt _ (x * y))), (proj2 (Z.ltb_lt (x * y) _)) by lia. cbn [andb]. f_equal. unfold s64.
      replace (x * y + 2 ^ 63) with (x * y + 2 ^ 63 + 2 ^ 64 + (-1) * 2 ^ 64) by lia. rewrite Z.mod_add by lia. rewrite Z.mod_small by lia. lia.
    + rewrite bool_decide_false by (unfold int64; lia). rewrite (proj2 (Z.ltb_ge _ (x * y))) by lia. done.
  - destruct (Z.ltb_spec P (2 ^ 63)) as [Hlt|Hge].
    + rewrite bool_decide_true by (unfold int64; lia). by rewrite s64_small by (unfold int64; lia).
    + rewrite bool_decide_false by (unfold int64; lia). rewrite (proj2 (Z.ltb_ge (x * y) (- 2 ^ 63))), andb_false_r by lia. done.
Qed.

Lemma gnat_mulv64_checked_witness :
  __gnat_mulv64 (-3037000500) 3037000499 = Product (-9223372033963249500) ∧
  __gnat_mulv64 3037000500 3037000500 = LastChance ∧
  __gnat_mulv64 (-3) 3074457345618258603 = Product 9223372036854775807.
Proof. split_and!; (rewrite gnat_mulv64_checked; [vm_compute; reflexivity|unfold int64; lia..]). Defined.

(** The two bytes of a number of the serial protocol. *)
Lemma combine_bytes lo hi : 0 <= lo < 256 → 0 <= hi < 256 → combine lo hi = s16 (lo + 256 * hi).
Proof.
  intros Hl Hh. unfold combine. rewrite (s16_small hi) by lia. f_equal. rewrite Z.shiftl_mul_pow2 by lia. change (2 ^ 8) with 256.
  pose proof (Z.add_lor_land lo (hi * 256)). enough (Z.land lo (hi * 256) = 0) by lia.
  apply Z.bits_inj'. intros n Hn. rewrite Z.land_spec, Z.bits_0. change 256 with (2 ^ 8). destruct (Z.ltb_spec n 8).
  - by rewrite Z.mul_pow2_bits_low, andb_false_r by lia.
  - destruct (Z.eq_dec lo 0) as [->|]; [by rewrite Z.bits_0|]. rewrite Z.bits_above_log2; [done|lia|].
    assert (Z.log2 lo < 8) by (apply Z.log2_lt_pow2; lia). lia.
Qed.

(** Every 16-bit number comes back from its two bytes. *)
Theorem combine_round_trip v : -32768 <= v <= 32767 → combine (u8 v) (u8 (v `div` 256)) = v.
Proof.
  intros Hv. rewrite combine_bytes by (unfold u8; apply Z.mod_pos_bound; lia). unfold s16, u8. dlia.
Qed.

(** The servo function of the Ada controller programs the timers exactly as
    that of the NuttX driver, if the functions of the ROM are those of the
    library; it has no locks to leave behind. *)
Theorem setpos_as_nuttx clk id pos h :
  0 <= id < 4 → 0 <= pos < 65536 →
  ∃ h1 h2, servo_setpos TimerPrescaleMatchSet TimerMatchSet TimerEnable clk id pos h = Ok (h1, true) ∧
    Servo.servo_setpos clk (Servo.mkServoInfo id 0 0 pos) h = Ok (h2, OK) ∧ regs h1 = regs h2.
Proof.
  intros Hi Hp. unfold servo_setpos, Servo.servo_setpos, Servo.pulse_width. cbn [Servo.id Servo.pos irqsave].
  change ((Servo.SERVO_MAX_PULSE - Servo.SERVO_MIN_PULSE) `quot` 180) with 10. change ((Servo.SERVO_MAX_PULSE - Servo.SERVO_MIN_PULSE) `div` 180) with 10.
  unfold Servo.SERVO_MAX_COUNT, int_ok. rewrite (proj2 (Z.leb_gt 4 id)) by lia.
  rewrite !(proj2 (Z.leb_le _ _)) by (unfold Servo.SERVO_MIN_PULSE; lia). cbn [andb]. rewrite !bind_ok.
  rewrite !(proj2 (Z.leb_le _ _)) by (unfold Servo.SERVO_MIN_PULSE; lia). cbn [andb]. rewrite !bind_ok.
  destruct (lookup_lt_is_Some_2 Servo.g_servo_timers (Z.to_nat id)) as [t Et]; [cbn; lia|]. rewrite (aget_in _ _ t), !bind_ok by (done || lia).
  match goal with |- context [u32 (clk `div` 50 * ?v)] => set (value := v) end.
  assert (0 <= u32 (clk `div` 50 * value) `div` Servo.SERVO_PERIOD < 4294967296) as Hv.
  { unfold Servo.SERVO_PERIOD. pose proof (Z.mod_pos_bound (clk `div` 50 * value) 4294967296 ltac:(lia)). unfold u32. dlia. }
  rewrite (u32_small (_ `div` _)) by exact Hv. eexists _, _. split; [done|]. by split.
Qed.

End Ada.
